(* ===== verification/_CoqProject ===== *)
-Q . S2P
Prelude.v
RingBuffer.v
WiotaApi.v
SpiFrame.v
SpiLink.v
SpiCmd.v
SpiEmit.v
SpiParse.v
SpiDemo.v
ManagerList.v
Fastlz.v
FastlzSpec.v
Coding.v
DataPacket.v
UserId.v
Freq.v
Operation.v
NetMsg.v
Update.v
Logic.v
System.v
Transfer.v
NetPass.v
Cbor.v
CborCodec.v
Downloader.v
CustomData.v
AtServer.v
AtText.v
AtCmd.v
AtProps.v
AtFreqList.v
AtSimple.v
AtSimpleText.v
AtSimpleProps.v
SepLog.v
Threads.v
AppStart.v
CJsonNum.v
CJson.v
CJsonTree.v
CJsonParse.v
CJsonPrint.v
CJsonRound.v
CJsonProps.v
CJsonEdit.v
Mqtt.v
MqttProps.v
MqttLive.v
