(* ===== verification/Prelude.v ===== *)
(** * The WIoTa access point firmware

    This library models the firmware of a WIoTa access point and proves what makes
    it correct.  Source files are named relative to src/.

    ** The program

    The access point has a radio, whose protocol stack is a binary library, and
    three users of it:
    - the _gateway link_, PS/app/src/uc_wiota_spi_com.c: a Linux gateway sends
      commands and receives reports through two rings in memory both sides share;
    - the _application_, app/: tasks connected by queues that carry messages
      between a server (MQTT) and terminals (the radio);
    - the _AT server_, rt-thread/components/net/at and PS/at: a command line on a
      serial device.

    ** Files

    - Prelude: machine integers, bytes, blocks of memory with bounds, the monad
      [FW] of the firmware (a state and faults), [Keeps] (what a run preserves) and
      its tactic [keeps].
    - WiotaApi: the protocol stack as the class [WiotaLib] over the type [wiotaE]
      of its calls.
    - Gateway link.  RingBuffer: the rings (uc_wiota_ringbuffer_put, _get, _init).
      SpiFrame: the layout of messages.  SpiLink: hand shake, published positions,
      sending a frame.  SpiCmd: the handlers of the exec, setup, query, send and
      other messages and the callbacks.  SpiEmit: the logic [emits], what the
      handlers send.  SpiParse: uc_wiota_dl_data_parse, the interrupt thread,
      uc_wiota_spi_com_init.  SpiDemo: instances.
    - Application.  ManagerList: app/platfrom/manager_list.c with its pointers.
      Fastlz, FastlzSpec: app/codec/fastlz.  Coding: app/codec/coding.  DataPacket:
      reassembly (manager_data_packet.c).  UserId: reserved addresses
      (manager_userid.c).  Freq: scanning and starting (manager_wiota_freq.c).
      Operation: the radio task (manager_wiota_frame.c, manager_queue.c).  NetMsg:
      messages of the server (manager_net_messager.c).  Update: updates
      (manager_update.c).  Logic: the logic task (manager_logic.c,
      manager_iote_message.c).  System: all schedules of the tasks.  Transfer: an
      image from its download to the last block.  NetPass: net_passthrough.c.
      Cbor, CborCodec: app/codec/cbor.  Downloader: http_downloader.c.
      CustomData: custom_data.c.
    - JSON.  SepLog: a linear separation logic over a heap of blocks and an allocator
      that may fail, on the proof mode of Iris.  CJsonNum: the conversions between
      numbers and text.  CJson: app/codec/cJSON/cJSON.c with its pointers.  CJsonTree:
      the linked nodes as trees, and each list operation on them.  CJsonParse,
      CJsonPrint: the parser and the printer refine functions on texts and trees.
      CJsonRound: values, their texts, and the way back.  CJsonProps: whole runs.
      CJsonEdit: building values and changing an array.
    - Server connection.  Threads: the blocks of threads and queues
      (platfrom/manager_task.c, manager_queue.c), on any memory that has them.  Mqtt:
      app/net_passthrough/wiota_mqtt.c with the memory of a connection in
      packages/uc_wolfMQTT, and the loop of passthrough_manager_task.  MqttProps: the
      protocol of a connection and its memory, with SepLog.  MqttLive: connecting,
      keeping alive, and where memory is lost.
    - Start.  AppStart: manager_enter (manager_app.c), which makes the queues and the
      threads of the tasks and starts all of them or none.
    - AT.  AtServer: the parser thread (at_server.c).  AtText: numbers and lists as
      text, AtCmd: the commands and callbacks of PS/at/at_wiota.c and
      applications/quick_connect.  AtProps: what the server and its commands
      promise.  AtFreqList: the command with a list of frequencies.  AtSimple: the
      other command set, PS/at_simplified/at_simplified.c, with its settings and pins
      beside the state of the stack.  AtSimpleText: its lists of frequencies.
      AtSimpleProps: its settings, messages and channels.

    ** How the code is modelled

    A function of the source is a definition of the same name.  A function that
    changes state is a term of [FW S]: it takes a record with the variables it works
    on and returns a result with the new record, or a [fault]: an access outside a
    block, a failed RT_ASSERT, a use of freed memory.  A branch that the source
    takes on an allocation that fails is taken by the model for each outcome: the
    outcomes to come are part of the state.  Integers are [Z] with the conversions
    of C written out ([u8], [u16], [u32], [s8], [s32]).  Pointers into a block are
    offsets; heap objects that are linked or shared (list nodes, CBOR trees,
    operation records) are cells of a [gmap].  Tasks are steps on one state, and a
    schedule is a list of steps.  Text that is printed on the console is left out;
    what the AT server prints is part of its state.

    A loop without a bound of its own has fuel, and running out of it is a fault;
    the theorems show that it never does, or carry the fault as impossible:
    - the downlink parser: the bytes read, plus one (each round uses one);
    - list walks: the cells that are allocated, plus one;
    - segments of a message, words of a piece of the image: their length plus one;
    - the hand shakes: their own counts of tries;
    - flags of blocks: 8 for each byte, plus one;
    - starting the radio: two rounds for each failed scan and four;
    - CBOR: 3 for each byte and two (decoder), 2 for each node and one (encoder),
      the nodes and two (free);
    - fastlz: the length of the input, plus one for the decompressor;
    - the AT server: the characters of the serial device, plus one;
    - numbers: 10 or 11 digits; lists of numbers: the length of the text, plus one
      or two (one round for each character and one behind the last);
    - cJSON: walks over siblings take the blocks that are allocated, plus one; the
      parser the length of the text and the nesting limit, the printer the blocks;
    - MQTT: the loops that have no bound in the source (connecting, waiting for
      messages, publishing in parts) run a given number of rounds and their result
      says when they are not over; that is no fault, and [connects_when_reachable]
      says when connecting is.

    ** Parameters

    Code that is not in the repository is an argument of the definitions that use
    it: [WiotaLib] (the stack), [AtEnv] (the parser of AT arguments, variables
    without an initial value, the GNSS receiver), the flash, MD5 and the HTTP client
    (Downloader), bytes behind a buffer ([behind]), the network ([answer] in Mqtt: any
    function of what was asked before).  The clients of cJSON (NetMsg, Update, NetPass)
    are proved against the interfaces [AddressJson], [CJson] and [CJsonDoc], for any
    library that has them.  [RadioLaws] states what the stack asks of its users
    and tells them: its state, and in which states it may be initialised and run.
    Each such class has an instance that the witnesses use.

    ** What the theorems show

    - Rings and frames: a ring is a bounded queue of bytes; sending appends one
      frame; the parser dispatches each intact message once and in order, falls back
      to the second copy, and ends on any content; one interrupt with a batch of
      commands answers all of them; start-up leads to empty rings.
    - Data structures: the pointer list implements a sequence for every series of
      operations; reassembly implements a map of segment arrays and gives a message
      out once, in any order of arrival; the flags of blocks are a set.
    - Coding: decoding undoes coding, decompression undoes compression, CBOR
      decoding and encoding undo each other; both decoders end on any bytes without
      leaving their buffers or leaking nodes.
    - Tasks: in every schedule nothing is freed twice or used after it was freed, a
      message is sent at most three times and reported at most once; an image is
      broadcast block by block; a request of the server is answered once; an
      address is given to one device.
    - Frequency: a scan ranks the free channels; the radio starts on the quietest.
    - Download: an image that is reported as good has the announced MD5, and an
      image that arrives is delivered.
    - AT: the server is a machine on lines; each command of the table is found and
      answered; the server ends on any characters; the commands use the stack only
      in the states that allow it and give back the memory they take; a list of
      frequencies that was printed can be entered again, and entering one stays
      inside its buffers; AT+WIOTASEND passes its data on once.
    - JSON: the parser accepts exactly what a grammar on texts accepts and builds its
      tree, for every answer of the allocator, without leaving the text or losing a
      block; printing gives the text of the tree; a value that is printed, parsed and
      printed again has the same text; editing an array of nodes is editing a list.
    - MQTT: for every answer of the network the task sends packets only on a
      connection that is open, and gives back the memory of each connection whose
      socket it closed; it connects when the server can be reached; it pings in time,
      also when the tick counter overflows.
    - Simplified AT: a list of frequencies is read like its text cut at the commas,
      and taken when it lies in one range; the settings stay within their limits; a
      message that is sent, compressed or not, is printed as it was entered.

    Places where the code does not do what it means to are stated as theorems or
    lemmas too, for instance [noise_overflows] (Coding), [cut_match_overreads]
    (FastlzSpec), [indefinite_tag_accepted] (CborCodec), [odd_piece] (Downloader),
    [send_answered] (AtProps), [text_overruns] (AtText), [freq_list_limits]
    (AtFreqList), [awaken_id_shifted] and [quietest_overreads] (AtSimpleProps), [fraction_not_recovered] (CJsonNum),
    [failed_lookups_leak], [failed_attempt_writes_freed_buffer] and
    [stack_freed_in_use] (MqttLive).

    ** Not modelled

    The protocol stack, drivers, boards and boot loader (binary or hardware), the
    kernel and the other components of RT-Thread, the packages (third party; of the
    MQTT package only the memory of a connection is modelled, and two threads that use
    the library at the same time are taken as turns), the reports with a fixed text
    (manager_request_version.c, manager_request_reserve_addr.c, manager_input_attribute
    in manager_wiota_attribute.c) and the peripherals task, which is never started, the
    AT commands of at_base_cmd.c, at_boot.c and at_factory.c (hardware tests), the
    branches of at_wiota.c for ZCRD_CUSTOMER, WIOTA_AP_STATE_INFO, WIOTA_IOTE_INFO and
    WIOTA_BC_MODE_TEST (not defined in this build), and the demonstrations in
    applications/. *)

From stdpp Require Export list gmap.
From Stdlib Require Export ZArith Lia.
#[export] Set Default Proof Using "Type".
#[global] Open Scope Z_scope.

(** ** Machine integers

    C integers are [Z] with the wrap-around of their width written out. *)

Definition u8 (z : Z) : Z := z mod 256.
Definition u16 (z : Z) : Z := z mod 65536.
Definition u32 (z : Z) : Z := z mod 4294967296.
Definition s8 (z : Z) : Z := (z + 128) mod 256 - 128.
Definition s32 (z : Z) : Z := (z + 2147483648) mod 4294967296 - 2147483648.

Definition is_u8 (z : Z) : Prop := 0 <= z < 256.
Definition is_u16 (z : Z) : Prop := 0 <= z < 65536.
Definition is_u32 (z : Z) : Prop := 0 <= z < 4294967296.

#[export] Instance is_u8_dec z : Decision (is_u8 z).
Proof. unfold is_u8. apply _. Defined.
#[export] Instance is_u16_dec z : Decision (is_u16 z).
Proof. unfold is_u16. apply _. Defined.
#[export] Instance is_u32_dec z : Decision (is_u32 z).
Proof. unfold is_u32. apply _. Defined.

Lemma u8_range z : is_u8 (u8 z).
Proof. unfold is_u8, u8. apply Z.mod_pos_bound. lia. Qed.
Lemma u16_range z : is_u16 (u16 z).
Proof. unfold is_u16, u16. apply Z.mod_pos_bound. lia. Qed.
Lemma u32_range z : is_u32 (u32 z).
Proof. unfold is_u32, u32. apply Z.mod_pos_bound. lia. Qed.
Lemma u8_id z : is_u8 z → u8 z = z.
Proof. intros ?. apply Z.mod_small, H. Qed.
Lemma u16_id z : is_u16 z → u16 z = z.
Proof. intros ?. apply Z.mod_small, H. Qed.
Lemma u32_id z : is_u32 z → u32 z = z.
Proof. intros ?. apply Z.mod_small, H. Qed.

Create HintDb fw discriminated.
Create Rewrite HintDb fw.
#[export] Hint Resolve u8_range u16_range u32_range : fw.

(** RT_ALIGN and RT_ALIGN_DOWN of rt-thread/include/rtdef.h. *)
Definition RT_ALIGN (size align : Z) : Z := Z.land (size + align - 1) (Z.lnot (align - 1)).
Definition RT_ALIGN_DOWN (size align : Z) : Z := Z.land size (Z.lnot (align - 1)).

Lemma RT_ALIGN_DOWN_4 z : RT_ALIGN_DOWN z 4 = 4 * (z / 4).
Proof.
  unfold RT_ALIGN_DOWN. replace (4 - 1) with (Z.ones 2) by reflexivity.
  rewrite <- Z.ldiff_land, Z.ldiff_ones_r by lia.
  rewrite Z.shiftl_mul_pow2, Z.shiftr_div_pow2 by lia.
  change (2 ^ 2) with 4. lia.
Qed.

Lemma RT_ALIGN_4 z : RT_ALIGN z 4 = 4 * ((z + 3) / 4).
Proof.
  unfold RT_ALIGN. replace (z + 4 - 1) with (z + 3) by lia.
  exact (RT_ALIGN_DOWN_4 (z + 3)).
Qed.

Lemma RT_ALIGN_4_id z : z mod 4 = 0 → RT_ALIGN z 4 = z.
Proof. intros H. rewrite RT_ALIGN_4. Z.div_mod_to_equations. lia. Qed.

Lemma RT_ALIGN_4_bounds z : z <= RT_ALIGN z 4 < z + 4.
Proof. rewrite RT_ALIGN_4. Z.div_mod_to_equations. lia. Qed.

Lemma RT_ALIGN_4_mod z : RT_ALIGN z 4 mod 4 = 0.
Proof. rewrite RT_ALIGN_4. Z.div_mod_to_equations. lia. Qed.

(** Adding below the lowest bit that is set. *)
Lemma lor_add a b k : 0 <= k → 0 <= b < 2 ^ k → Z.lor (Z.shiftl a k) b = a * 2 ^ k + b.
Proof.
  intros Hk Hb. rewrite <- Z.shiftl_mul_pow2 by lia. assert (Z.land (Z.shiftl a k) b = 0) as E.
  { apply Z.bits_inj'. intros i Hi. rewrite Z.land_spec, Z.bits_0, Z.shiftl_spec by lia.
    destruct (decide (i < k)) as [Hik|Hik]; [rewrite Z.testbit_neg_r by lia; done|].
    rewrite <- (Z.mod_small b (2 ^ k)) by lia. rewrite Z.testbit_mod_pow2 by lia. rewrite (proj2 (Z.ltb_ge i k)) by lia.
    apply andb_false_r. }
  rewrite Z.add_nocarry_lxor, Z.lxor_lor by done. done.
Qed.

(** ** Bytes in memory: little-endian words and bit fields *)

Definition bytes_ok (l : list Z) : Prop := Forall is_u8 l.

(** The [n] bytes of an integer object, least significant first. *)
Fixpoint le_bytes (n : nat) (z : Z) : list Z :=
  match n with
  | O => []
  | S n => z mod 256 :: le_bytes n (z / 256)
  end.

Fixpoint le_val (l : list Z) : Z :=
  match l with
  | [] => 0
  | b :: l => b + 256 * le_val l
  end.

Lemma length_le_bytes n z : length (le_bytes n z) = n.
Proof. revert z. induction n; intros; simpl; auto. Qed.

Lemma le_bytes_ok n z : bytes_ok (le_bytes n z).
Proof.
  revert z. induction n; intros; simpl; constructor; [apply u8_range|apply IHn].
Qed.

Lemma le_val_bytes n z : le_val (le_bytes n z) = z mod 256 ^ Z.of_nat n.
Proof.
  revert z. induction n as [|n IH]; intros z; simpl le_bytes; simpl le_val.
  - rewrite Z.mod_1_r. done.
  - rewrite IH, Nat2Z.inj_succ, Z.pow_succ_r by lia.
    rewrite Z.rem_mul_r by lia. done.
Qed.

Lemma le_bytes_val l : bytes_ok l → le_bytes (length l) (le_val l) = l.
Proof.
  induction 1 as [|b l Hb Hl IH]; simpl; [done|].
  unfold is_u8 in Hb. f_equal.
  - rewrite Z.mul_comm, Z_mod_plus_full. apply Z.mod_small. lia.
  - rewrite Z.mul_comm, Z_div_plus_full, Z.div_small by lia. exact IH.
Qed.

Lemma le_val_range l : bytes_ok l → 0 <= le_val l < 256 ^ Z.of_nat (length l).
Proof.
  induction 1 as [|b l Hb Hl IH]; simpl length; simpl le_val; [lia|].
  rewrite Nat2Z.inj_succ, Z.pow_succ_r by lia. unfold is_u8 in Hb. lia.
Qed.

Lemma le4_roundtrip z : is_u32 z → le_val (le_bytes 4 z) = z.
Proof. intros H. rewrite le_val_bytes. apply Z.mod_small. exact H. Qed.

Lemma le2_roundtrip z : is_u16 z → le_val (le_bytes 2 z) = z.
Proof. intros H. rewrite le_val_bytes. apply Z.mod_small. exact H. Qed.

#[export] Hint Resolve le_bytes_ok : fw.
#[export] Hint Rewrite length_le_bytes : fw.

(** Bit fields of one storage unit are allocated from the least significant
    bit on; a field is a pair of a width and a value. *)
Fixpoint bf_pack (fs : list (Z * Z)) : Z :=
  match fs with
  | [] => 0
  | (w, v) :: fs => v mod 2 ^ w + 2 ^ w * bf_pack fs
  end.

Definition bf_get (off w v : Z) : Z := (v / 2 ^ off) mod 2 ^ w.

Lemma bf_pack_range fs :
  Forall (λ f, 0 <= f.1) fs →
  0 <= bf_pack fs < 2 ^ foldr (λ f s, f.1 + s) 0 fs.
Proof.
  induction 1 as [|[w v] fs Hw Hfs IH]; simpl; [lia|]. simpl in Hw.
  assert (0 <= foldr (λ f s, f.1 + s) 0 fs) as Hs.
  { clear IH. induction Hfs as [|[w' v'] ? Hw' ? IH']; simpl in *; lia. }
  rewrite Z.pow_add_r by lia.
  assert (0 < 2 ^ w) by (apply Z.pow_pos_nonneg; lia).
  pose proof (Z.mod_pos_bound v (2 ^ w)). nia.
Qed.

(** ** Faults and the state monad of the firmware

    A run either ends normally or stops at a fault: a failed RT_ASSERT, an
    access outside the accessed object, a null dereference; [OutOfFuel] marks
    the fuel of a model loop being used up. *)

Inductive fault : Set := AssertFail | OutOfBounds | NullDeref | OutOfFuel.

Inductive result (A : Type) : Type :=
| Ok (a : A)
| Fault (f : fault).
Arguments Ok {A} a.
Arguments Fault {A} f.

#[export] Instance fault_eq_dec : EqDecision fault.
Proof. solve_decision. Defined.

Definition rbind {A B} (m : result A) (k : A → result B) : result B :=
  match m with Ok a => k a | Fault f => Fault f end.

Definition FW (S A : Type) : Type := S → result (A * S).

Definition fret {S A} (a : A) : FW S A := λ s, Ok (a, s).
Definition fbind {S A B} (m : FW S A) (k : A → FW S B) : FW S B :=
  λ s, match m s with Ok (a, s') => k a s' | Fault f => Fault f end.
Definition fget {S} : FW S S := λ s, Ok (s, s).
Definition fgets {S A} (f : S → A) : FW S A := λ s, Ok (f s, s).
Definition fmod {S} (f : S → S) : FW S unit := λ s, Ok (tt, f s).
Definition ffail {S A} (f : fault) : FW S A := λ _, Fault f.
Definition flift {S A} (r : result A) : FW S A :=
  λ s, match r with Ok a => Ok (a, s) | Fault f => Fault f end.
Definition fassert {S} (b : bool) : FW S unit :=
  if b then fret tt else ffail AssertFail.

Declare Scope fw_scope.
Delimit Scope fw_scope with fw.
Notation "x <-- m ;; k" := (fbind m (λ x, k%fw))
  (at level 20, m at level 99, k at level 200, right associativity) : fw_scope.
Notation "' p <-- m ;; k" := (fbind m (λ x, match x with p => k%fw end))
  (at level 20, p pattern, m at level 99, k at level 200, right associativity) : fw_scope.
Notation "m ;;; k" := (fbind m (λ _, k%fw))
  (at level 100, k at level 200, right associativity) : fw_scope.
Notation "x <-? m ;; k" := (rbind m (λ x, k%fw))
  (at level 20, m at level 99, k at level 200, right associativity) : fw_scope.
Notation "' p <-? m ;; k" := (rbind m (λ x, match x with p => k%fw end))
  (at level 20, p pattern, m at level 99, k at level 200, right associativity) : fw_scope.

Lemma fbind_Ok {S A B} (m : FW S A) (k : A → FW S B) s r :
  fbind m k s = Ok r → ∃ a s', m s = Ok (a, s') ∧ k a s' = Ok r.
Proof. unfold fbind. destruct (m s) as [[a s']|f]; [eauto|done]. Qed.

Lemma bind_Ok {S A B} (m : FW S A) (k : A → FW S B) s a s' :
  m s = Ok (a, s') → fbind m k s = k a s'.
Proof. intros H. unfold fbind. rewrite H. done. Qed.

Lemma rbind_Ok {A B} (m : result A) (k : A → result B) b : rbind m k = Ok b → ∃ a, m = Ok a ∧ k a = Ok b.
Proof. destruct m as [a|]; cbn [rbind]; [eauto|done]. Qed.
Lemma fbind_assoc {S A B C} (m : FW S A) (k : A → FW S B) (l : B → FW S C) s :
  fbind (fbind m k) l s = fbind m (λ a, fbind (k a) l) s.
Proof. unfold fbind. destruct (m s) as [[]|]; done. Qed.

(** A property of states that a run leaves true, and what its result satisfies. *)
Definition Keeps {S A} (P : S → Prop) (m : FW S A) (V : A → Prop) : Prop :=
  ∀ s a s', P s → m s = Ok (a, s') → P s' ∧ V a.

Section Keeps.
Context {S : Type} (P : S → Prop).
Lemma keeps_weak {A} (m : FW S A) V : Keeps P m V → Keeps P m (λ _, True).
Proof. intros H s a s' Hs E. split; [by eapply H|done]. Qed.
Lemma keeps_ret {A} (a : A) (V : A → Prop) : V a → Keeps P (fret a) V.
Proof. intros Hv s a' s' Hs [= <- <-]. done. Qed.
Lemma keeps_fail {A} f (V : A → Prop) : Keeps P (ffail f) V.
Proof. intros s a s' Hs [=]. Qed.
Lemma keeps_bind {A B} (m : FW S A) (k : A → FW S B) (U : A → Prop) V :
  Keeps P m U → (∀ a, U a → Keeps P (k a) V) → Keeps P (fbind m k) V.
Proof.
  intros Hm Hk s b s' Hs E. apply fbind_Ok in E as (a & s1 & E1 & E2). destruct (Hm _ _ _ Hs E1). by eapply Hk.
Qed.
Lemma keeps_get : Keeps P fget P.
Proof. intros s a s' Hs [= <- <-]. done. Qed.
Lemma keeps_gets {A} (f : S → A) : Keeps P (fgets f) (λ a, ∃ s, P s ∧ a = f s).
Proof. intros s a s' Hs [= <- <-]. eauto. Qed.
Lemma keeps_lift {A} (r : result A) : Keeps P (flift r) (λ _, True).
Proof. intros s a s' Hs. unfold flift. destruct r; [|done]. intros [= <- <-]. done. Qed.
Lemma keeps_mod f : (∀ s, P s → P (f s)) → Keeps P (fmod f) (λ _, True).
Proof. intros Hf s a s' Hs [= <- <-]. auto. Qed.
End Keeps.

Create HintDb keeps discriminated.
#[export] Hint Resolve keeps_fail keeps_get keeps_gets keeps_lift : keeps.

(** Walks through a run; what is known of its parts is in the database. *)
Ltac keeps_step :=
  match goal with
  | |- ∀ _, _ => intro
  | |- Keeps _ (fbind _ _) _ => eapply keeps_bind
  | |- Keeps _ (match ?x with _ => _ end) _ => destruct x eqn:?
  | |- Keeps _ (fret _) _ => refine (keeps_ret _ _ (λ _, True) I)
  | |- Keeps _ _ (λ _, True) => first [solve [eauto with keeps] | eapply keeps_weak; solve [eauto with keeps]]
  | |- Keeps _ _ _ => solve [eauto with keeps]
  end.
Ltac keeps := repeat (cbv beta; keeps_step).

(** Runs one monadic step of a hypothesis [H : fbind m k s = Ok r]. *)
Ltac fw_inv H :=
  lazymatch type of H with
  | fbind _ _ _ = Ok _ =>
      let a := fresh "a" in let s := fresh "s" in let E := fresh "E" in
      apply fbind_Ok in H as (a & s & E & H)
  end.

Ltac fw_unfold := unfold fbind, fret, fget, fgets, fmod, ffail, flift, fassert, rbind.

(** Runs the first step of a sequence when it computes. *)
Ltac fw_run := rewrite ?fbind_assoc; erewrite bind_Ok by reflexivity; cbv beta iota.

(** The outcome of the next rt_malloc request; the list holds the outcomes to come. *)
Definition mem_ok : FW (list bool) bool :=
  λ m, match m with [] => Ok (true, []) | b :: m => Ok (b, m) end.

(** ** Blocks of memory *)

Definition zlen {A} (l : list A) : Z := Z.of_nat (length l).

Definition zsub {A} (off len : Z) (l : list A) : list A :=
  take (Z.to_nat len) (drop (Z.to_nat off) l).

(** Reads [len] bytes at [off]; a read that leaves the block is a fault. *)
Definition slice {A} (off len : Z) (l : list A) : result (list A) :=
  if (0 <=? off) && (0 <=? len) && (off + len <=? zlen l) then Ok (zsub off len l)
  else Fault OutOfBounds.

(** rt_memcpy into a block at offset [off]. *)
Definition blit {A} (off : Z) (d l : list A) : list A :=
  take (Z.to_nat off) l ++ d ++ drop (Z.to_nat off + length d) l.

Definition store {A} (off : Z) (d l : list A) : result (list A) :=
  if (0 <=? off) && (off + zlen d <=? zlen l) then Ok (blit off d l)
  else Fault OutOfBounds.

Lemma zlen_nonneg {A} (l : list A) : 0 <= zlen l.
Proof. unfold zlen. lia. Qed.

Lemma zlen_app {A} (l k : list A) : zlen (l ++ k) = zlen l + zlen k.
Proof. unfold zlen. rewrite length_app. lia. Qed.

Lemma zlen_take {A} (l : list A) n : 0 <= n <= zlen l → zlen (take (Z.to_nat n) l) = n.
Proof. unfold zlen. rewrite length_take. lia. Qed.

Lemma zlen_cons {A} (x : A) l : zlen (x :: l) = 1 + zlen l.
Proof. unfold zlen. cbn [length]. lia. Qed.
Lemma zlen_more {A} (x : A) l : zlen (x :: l) = zlen l + 1.
Proof. rewrite zlen_cons. lia. Qed.
Lemma zlen_nil {A} : zlen (@nil A) = 0.
Proof. done. Qed.
Lemma zlen_map {A B} (f : A → B) l : zlen (map f l) = zlen l.
Proof. unfold zlen. by rewrite length_map. Qed.

Lemma zlen_zsub {A} off len (l : list A) :
  0 <= off → 0 <= len → off + len <= zlen l → zlen (zsub off len l) = len.
Proof. unfold zlen, zsub. intros. rewrite length_take, length_drop. lia. Qed.

Lemma zlen_blit {A} off (d l : list A) :
  0 <= off → off + zlen d <= zlen l → zlen (blit off d l) = zlen l.
Proof.
  unfold zlen, blit. intros. rewrite !length_app, length_take, length_drop. lia.
Qed.

Lemma slice_Ok {A} off len (l : list A) :
  0 <= off → 0 <= len → off + len <= zlen l → slice off len l = Ok (zsub off len l).
Proof.
  intros. unfold slice.
  rewrite !(proj2 (Z.leb_le _ _)) by lia. done.
Qed.

Lemma slice_inv {A} off len (l r : list A) :
  slice off len l = Ok r →
  0 <= off ∧ 0 <= len ∧ off + len <= zlen l ∧ r = zsub off len l.
Proof.
  unfold slice. destruct (_ && _) eqn:E; [|done]. intros [= <-].
  rewrite !andb_true_iff, !Z.leb_le in E. intuition.
Qed.

Lemma store_Ok {A} off (d l : list A) :
  0 <= off → off + zlen d <= zlen l → store off d l = Ok (blit off d l).
Proof. intros. unfold store. rewrite !(proj2 (Z.leb_le _ _)) by lia. done. Qed.

Lemma store_inv {A} off (d l r : list A) :
  store off d l = Ok r → 0 <= off ∧ off + zlen d <= zlen l ∧ r = blit off d l.
Proof.
  unfold store. destruct (_ && _) eqn:E; [|done]. intros [= <-].
  rewrite andb_true_iff, !Z.leb_le in E. intuition.
Qed.

(** Splitting a block around a slice. *)
Lemma zsub_app_mid {A} (a b c : list A) off len :
  off = zlen a → len = zlen b → zsub off len (a ++ b ++ c) = b.
Proof.
  unfold zlen, zsub. intros -> ->. rewrite !Nat2Z.id.
  rewrite drop_app_length, take_app_length. done.
Qed.

Lemma zsub_split {A} off len (l : list A) :
  0 <= off → 0 <= len → off + len <= zlen l →
  l = take (Z.to_nat off) l ++ zsub off len l ++ drop (Z.to_nat (off + len)) l.
Proof.
  unfold zlen, zsub. intros. rewrite Z2Nat.inj_add by lia.
  rewrite <- drop_drop, (take_drop (Z.to_nat len)), take_drop. done.
Qed.

Lemma blit_app_mid {A} (a b c d : list A) off :
  off = zlen a → zlen b = zlen d → blit off d (a ++ b ++ c) = a ++ d ++ c.
Proof.
  unfold zlen, blit. intros -> Hl. rewrite Nat2Z.id, take_app_length. do 2 f_equal.
  replace (length a + length d)%nat with (length (a ++ b)) by (rewrite length_app; lia).
  rewrite app_assoc, drop_app_length. done.
Qed.

(** Reading a field of a block built from its parts. *)
Lemma value_at (pre b rest : list Z) off n :
  off = zlen pre → n = zlen b →
  rbind (slice off n (pre ++ b ++ rest)) (λ b, Ok (le_val b)) = Ok (le_val b).
Proof.
  intros -> ->. rewrite slice_Ok.
  - cbn [rbind]. rewrite zsub_app_mid by done. done.
  - apply zlen_nonneg.
  - apply zlen_nonneg.
  - rewrite !zlen_app. pose proof (zlen_nonneg rest). lia.
Qed.

Lemma slice_at {A} (pre b rest : list A) off n :
  off = zlen pre → n = zlen b → slice off n (pre ++ b ++ rest) = Ok b.
Proof.
  intros -> ->. rewrite slice_Ok; try apply zlen_nonneg.
  - rewrite zsub_app_mid by done. done.
  - rewrite !zlen_app. pose proof (zlen_nonneg rest). lia.
Qed.

(** Reading one cell of a slice or of a block that was written. *)
Lemma lookup_zsub {A} off len (l : list A) i :
  zsub off len l !! i =
  if decide (i < Z.to_nat len)%nat then l !! (Z.to_nat off + i)%nat else None.
Proof.
  unfold zsub. case_decide.
  - rewrite lookup_take_lt by done. apply lookup_drop.
  - apply lookup_take_ge. lia.
Qed.

Lemma lookup_blit {A} off (d l : list A) i :
  0 <= off → off + zlen d <= zlen l →
  blit off d l !! i =
  if decide (Z.to_nat off ≤ i < Z.to_nat off + length d)%nat
  then d !! (i - Z.to_nat off)%nat else l !! i.
Proof.
  unfold zlen, blit. intros Hoff Hlen. rewrite !lookup_app, length_take, Nat.min_l by lia.
  case_decide as Hd.
  - rewrite lookup_take_ge by lia.
    destruct (d !! (i - Z.to_nat off)%nat) eqn:E; [done|].
    apply lookup_ge_None in E. lia.
  - destruct (decide (i < Z.to_nat off)%nat).
    + rewrite lookup_take_lt by done. destruct (l !! i) eqn:E; [done|].
      apply lookup_ge_None in E. lia.
    + rewrite lookup_take_ge by lia.
      replace (d !! (i - Z.to_nat off)%nat) with (@None A)
        by (symmetry; apply lookup_ge_None; lia).
      rewrite lookup_drop. f_equal. lia.
Qed.

#[export] Hint Resolve zlen_nonneg : fw.
#[export] Hint Rewrite @zlen_app : fw.
