(* ===== verification/RingBuffer.v ===== *)
(** * The shared-memory ring buffers of the gateway link

    [rt_ringbuffer] of rt-thread/components/drivers/{include/ipc/ringbuffer.h,
    src/ringbuffer.c} and the AP's own accessors
    [uc_wiota_ringbuffer_{init,get,put}] of PS/app/src/uc_wiota_spi_com.c.
    [rb_content] is the byte queue a ring stands for; the theorems show that
    the index-and-mirror arithmetic implements that queue. *)

From S2P Require Import Prelude.

(** [buffer_ptr] is the block of memory the ring works on; the ring uses its
    first [buffer_size] bytes. *)
Record rt_ringbuffer := {
  buffer_ptr : list Z;
  read_mirror : bool;
  read_index : Z;
  write_mirror : bool;
  write_index : Z;
  buffer_size : Z
}.

Inductive rt_ringbuffer_state : Set :=
| RT_RINGBUFFER_EMPTY
| RT_RINGBUFFER_FULL
| RT_RINGBUFFER_HALFFULL.

Definition rt_ringbuffer_status (rb : rt_ringbuffer) : rt_ringbuffer_state :=
  if read_index rb =? write_index rb then
    if Bool.eqb (read_mirror rb) (write_mirror rb)
    then RT_RINGBUFFER_EMPTY else RT_RINGBUFFER_FULL
  else RT_RINGBUFFER_HALFFULL.

Definition rt_ringbuffer_data_len (rb : rt_ringbuffer) : Z :=
  match rt_ringbuffer_status rb with
  | RT_RINGBUFFER_EMPTY => 0
  | RT_RINGBUFFER_FULL => buffer_size rb
  | RT_RINGBUFFER_HALFFULL =>
      if write_index rb >? read_index rb
      then write_index rb - read_index rb
      else buffer_size rb - (read_index rb - write_index rb)
  end.

Definition rt_ringbuffer_space_len (rb : rt_ringbuffer) : Z :=
  buffer_size rb - rt_ringbuffer_data_len rb.

Definition RING_BUFFER_ALIGN_SIZE : Z := 4.

Definition uc_wiota_ringbuffer_init (rb_size : Z) (buffer : list Z) : result rt_ringbuffer :=
  if rb_size >? 0 then
    let size := RT_ALIGN_DOWN rb_size RING_BUFFER_ALIGN_SIZE in
    rbind (store 0 (replicate (Z.to_nat size) 0) buffer) (λ buffer',
    Ok {| buffer_ptr := buffer';
          read_mirror := false; read_index := 0;
          write_mirror := false; write_index := 0;
          buffer_size := size |})
  else Fault AssertFail.

Definition set_read (rb : rt_ringbuffer) (m : bool) (i : Z) : rt_ringbuffer :=
  {| buffer_ptr := buffer_ptr rb; read_mirror := m; read_index := i;
     write_mirror := write_mirror rb; write_index := write_index rb;
     buffer_size := buffer_size rb |}.

Definition set_write (rb : rt_ringbuffer) (m : bool) (i : Z) : rt_ringbuffer :=
  {| buffer_ptr := buffer_ptr rb; read_mirror := read_mirror rb; read_index := read_index rb;
     write_mirror := m; write_index := i; buffer_size := buffer_size rb |}.

Definition set_buffer (rb : rt_ringbuffer) (b : list Z) : rt_ringbuffer :=
  {| buffer_ptr := b; read_mirror := read_mirror rb; read_index := read_index rb;
     write_mirror := write_mirror rb; write_index := write_index rb;
     buffer_size := buffer_size rb |}.

(** [get] copies into the caller's block [ptr]; the copy of the rounded-up
    length is a fault when [ptr] is shorter. *)
Definition uc_wiota_ringbuffer_get (rb : rt_ringbuffer) (ptr : list Z) (data_len : Z)
  : result (Z * list Z * rt_ringbuffer) :=
  let read_len := u16 (RT_ALIGN data_len RING_BUFFER_ALIGN_SIZE) in
  if buffer_size rb - read_index rb >? read_len then
    rbind (slice (read_index rb) read_len (buffer_ptr rb)) (λ d,
    rbind (store 0 d ptr) (λ ptr',
    Ok (read_len, ptr', set_read rb (read_mirror rb) (read_index rb + read_len))))
  else
    let first := buffer_size rb - read_index rb in
    rbind (slice (read_index rb) first (buffer_ptr rb)) (λ d1,
    rbind (store 0 d1 ptr) (λ ptr1,
    rbind (slice 0 (read_len - first) (buffer_ptr rb)) (λ d2,
    rbind (store first d2 ptr1) (λ ptr2,
    Ok (read_len, ptr2, set_read rb (negb (read_mirror rb)) (read_len - first)))))).

Definition uc_wiota_ringbuffer_put (rb : rt_ringbuffer) (data : list Z) (length : Z)
  : result (Z * rt_ringbuffer) :=
  let write_len := u16 (RT_ALIGN length RING_BUFFER_ALIGN_SIZE) in
  let space_length := u16 (rt_ringbuffer_space_len rb) in
  if space_length =? 0 then Ok (0, rb)
  else if space_length <? write_len then Ok (0, rb)
  else if buffer_size rb - write_index rb >? write_len then
    rbind (slice 0 write_len data) (λ d,
    rbind (store (write_index rb) d (buffer_ptr rb)) (λ b,
    Ok (write_len,
        set_write (set_buffer rb b) (write_mirror rb) (write_index rb + write_len))))
  else
    let first := buffer_size rb - write_index rb in
    rbind (slice 0 first data) (λ d1,
    rbind (store (write_index rb) d1 (buffer_ptr rb)) (λ b1,
    rbind (slice first (write_len - first) data) (λ d2,
    rbind (store 0 d2 b1) (λ b2,
    Ok (write_len,
        set_write (set_buffer rb b2) (negb (write_mirror rb)) (write_len - first)))))).

(** ** The queue a ring stands for *)

Definition rb_ring (rb : rt_ringbuffer) : list Z := take (Z.to_nat (buffer_size rb)) (buffer_ptr rb).

Definition rb_content (rb : rt_ringbuffer) : list Z :=
  zsub (read_index rb) (rt_ringbuffer_data_len rb) (rb_ring rb ++ rb_ring rb).

(** Indices stay inside the ring and the mirror bits say which side of the
    ring the writer is on. *)
Record rb_wf (rb : rt_ringbuffer) : Prop := {
  wf_size : 0 < buffer_size rb < 32768;
  wf_block : buffer_size rb <= zlen (buffer_ptr rb);
  wf_read : 0 <= read_index rb < buffer_size rb;
  wf_write : 0 <= write_index rb < buffer_size rb;
  wf_ahead : read_index rb < write_index rb → read_mirror rb = write_mirror rb;
  wf_behind : write_index rb < read_index rb → read_mirror rb = negb (write_mirror rb)
}.

Section Laws.
Context (rb : rt_ringbuffer) (WF : rb_wf rb).

Lemma data_len_bounds : 0 <= rt_ringbuffer_data_len rb <= buffer_size rb.
Proof using WF.
  destruct WF. unfold rt_ringbuffer_data_len, rt_ringbuffer_status.
  destruct (Z.eqb_spec (read_index rb) (write_index rb)).
  - destruct (Bool.eqb _ _); lia.
  - destruct (Z.gtb_spec (write_index rb) (read_index rb)); lia.
Qed.

(** In absolute positions the fill level is the distance of the indices. *)
Lemma data_len_position :
  rt_ringbuffer_data_len rb =
  (if Bool.eqb (read_mirror rb) (write_mirror rb) then 0 else buffer_size rb)
  + write_index rb - read_index rb.
Proof using WF.
  destruct WF as [_ _ _ _ Ha Hb].
  unfold rt_ringbuffer_data_len, rt_ringbuffer_status.
  destruct (Z.eqb_spec (read_index rb) (write_index rb)) as [E|E].
  - destruct (Bool.eqb _ _); lia.
  - destruct (Z.gtb_spec (write_index rb) (read_index rb)).
    + rewrite Ha, Bool.eqb_reflx by lia. lia.
    + rewrite Hb by lia. destruct (write_mirror rb); simpl; lia.
Qed.

Lemma length_rb_ring : length (rb_ring rb) = Z.to_nat (buffer_size rb).
Proof using WF. destruct WF. unfold rb_ring, zlen in *. rewrite length_take. lia. Qed.

Lemma length_rb_content : zlen (rb_content rb) = rt_ringbuffer_data_len rb.
Proof using WF.
  pose proof data_len_bounds. destruct WF. unfold rb_content.
  apply zlen_zsub; try lia. unfold zlen. rewrite length_app, length_rb_ring. lia.
Qed.

(** Cell [i] of the queue is ring cell [read_index + i], modulo the size. *)
Lemma lookup_rb_content i :
  rb_content rb !! i =
  if decide (Z.of_nat i < rt_ringbuffer_data_len rb) then
    buffer_ptr rb !! Z.to_nat (if decide (read_index rb + Z.of_nat i < buffer_size rb)
                               then read_index rb + Z.of_nat i
                               else read_index rb + Z.of_nat i - buffer_size rb)
  else None.
Proof using WF.
  pose proof data_len_bounds. destruct WF.
  unfold rb_content. rewrite lookup_zsub.
  destruct (decide (i < _)%nat), (decide (Z.of_nat i < _)); try lia; [|done].
  case_decide.
  - rewrite lookup_app_l by (rewrite length_rb_ring; lia).
    unfold rb_ring. rewrite lookup_take_lt by lia. f_equal. lia.
  - rewrite lookup_app_r by (rewrite length_rb_ring; lia).
    rewrite length_rb_ring. unfold rb_ring. rewrite lookup_take_lt by lia. f_equal. lia.
Qed.
End Laws.

(** A queue is determined by its length and its cells. *)
Lemma content_ext rb l :
  rb_wf rb → zlen l = rt_ringbuffer_data_len rb →
  (∀ i : nat, Z.of_nat i < zlen l → rb_content rb !! i = l !! i) → rb_content rb = l.
Proof.
  intros WF Hlen Heq. apply list_eq. intros i.
  destruct (decide (Z.of_nat i < zlen l)) as [|Hge]; [auto|].
  rewrite !lookup_ge_None_2; [done|unfold zlen in *; lia|].
  pose proof (length_rb_content rb WF). unfold zlen in *. lia.
Qed.

(** Decides the comparisons a goal about ring cells branches on. *)
Ltac ring_cells :=
  repeat match goal with
  | |- context [decide ?P] => destruct (decide P); try lia
  end.

Section PutNoWrap.
Context (rb : rt_ringbuffer) (WF : rb_wf rb) (d : list Z).
Hypothesis Hspace : zlen d <= rt_ringbuffer_space_len rb.
Hypothesis Hfit : write_index rb + zlen d < buffer_size rb.

Let rb' := set_write (set_buffer rb (blit (write_index rb) d (buffer_ptr rb)))
             (write_mirror rb) (write_index rb + zlen d).

Lemma put_nowrap_wf : rb_wf rb'.
Proof using All.
  pose proof (zlen_nonneg d). pose proof (data_len_position rb WF) as Hp.
  unfold rt_ringbuffer_space_len in Hspace. destruct WF.
  split; simpl; try done; try lia.
  - rewrite zlen_blit by lia. lia.
  - intros. destruct (Z.lt_trichotomy (read_index rb) (write_index rb)) as [?|[?|?]]; auto.
    + destruct (read_mirror rb), (write_mirror rb); simpl in *; auto; lia.
    + rewrite wf_behind0 in Hp by lia. destruct (write_mirror rb); simpl in *; lia.
  - intros. apply wf_behind0. lia.
Qed.

Lemma put_nowrap_len : rt_ringbuffer_data_len rb' = rt_ringbuffer_data_len rb + zlen d.
Proof using All.
  rewrite (data_len_position rb' put_nowrap_wf), (data_len_position rb WF). simpl. lia.
Qed.

Lemma put_nowrap_content : rb_content rb' = rb_content rb ++ d.
Proof using All.
  pose proof (zlen_nonneg d). pose proof (data_len_bounds rb WF).
  pose proof (data_len_position rb WF) as Hp. pose proof put_nowrap_len as Hl.
  unfold rt_ringbuffer_space_len in Hspace.
  apply content_ext; [apply put_nowrap_wf| |].
  { rewrite zlen_app, (length_rb_content rb WF), Hl. done. }
  intros i Hi. rewrite zlen_app, (length_rb_content rb WF) in Hi.
  rewrite (lookup_rb_content rb' put_nowrap_wf), lookup_app, (lookup_rb_content rb WF i).
  pose proof (length_rb_content rb WF) as Hlc. unfold zlen in *.
  destruct WF. rewrite Hl. simpl.
  destruct (decide (Z.of_nat i < rt_ringbuffer_data_len rb)).
  - destruct (Bool.eqb _ _) in Hp; ring_cells; rewrite lookup_blit by (unfold zlen in *; lia);
      ring_cells; case_match eqn:E; try done;
      apply lookup_ge_None in E; unfold zlen in *; lia.
  - destruct (Bool.eqb _ _) in Hp; ring_cells; rewrite lookup_blit by (unfold zlen in *; lia);
      ring_cells; f_equal; lia.
Qed.
End PutNoWrap.

Section PutWrap.
Context (rb : rt_ringbuffer) (WF : rb_wf rb) (d1 d2 : list Z).
Hypothesis Hspace : zlen d1 + zlen d2 <= rt_ringbuffer_space_len rb.
Hypothesis Hfirst : write_index rb + zlen d1 = buffer_size rb.

Let b2 := blit 0 d2 (blit (write_index rb) d1 (buffer_ptr rb)).
Let rb' := set_write (set_buffer rb b2) (negb (write_mirror rb)) (zlen d2).

(** The writer can only cross the end of the ring on the reader's side. *)
Lemma put_wrap_same_side : read_mirror rb = write_mirror rb ∧ zlen d2 <= read_index rb.
Proof using All.
  pose proof (zlen_nonneg d2). pose proof (zlen_nonneg d1).
  pose proof (data_len_position rb WF) as Hp.
  unfold rt_ringbuffer_space_len in Hspace. destruct WF.
  destruct (read_mirror rb), (write_mirror rb); simpl in Hp; split; auto; lia.
Qed.

Lemma put_wrap_wf : rb_wf rb'.
Proof using All.
  pose proof (zlen_nonneg d2). pose proof (zlen_nonneg d1).
  destruct put_wrap_same_side as [Hm Hr]. destruct WF.
  split; simpl; try done; try lia.
  - unfold b2. rewrite !zlen_blit; rewrite ?zlen_blit; lia.
  - intros _. rewrite negb_involutive. done.
Qed.

Lemma put_wrap_len :
  rt_ringbuffer_data_len rb' = rt_ringbuffer_data_len rb + zlen d1 + zlen d2.
Proof using All.
  rewrite (data_len_position rb' put_wrap_wf), (data_len_position rb WF). simpl.
  destruct put_wrap_same_side as [-> _].
  rewrite Bool.eqb_reflx. destruct (write_mirror rb); simpl; lia.
Qed.

Lemma put_wrap_content : rb_content rb' = rb_content rb ++ d1 ++ d2.
Proof using All.
  pose proof (zlen_nonneg d1). pose proof (zlen_nonneg d2).
  pose proof (data_len_bounds rb WF). pose proof (data_len_position rb WF) as Hp.
  pose proof put_wrap_len as Hl. pose proof (length_rb_content rb WF) as Hlc.
  destruct put_wrap_same_side as [Hm Hr]. rewrite Hm, Bool.eqb_reflx in Hp.
  unfold rt_ringbuffer_space_len in Hspace.
  apply content_ext; [apply put_wrap_wf| |].
  { rewrite !zlen_app, Hl. lia. }
  intros i Hi. rewrite !zlen_app in Hi.
  rewrite (lookup_rb_content rb' put_wrap_wf), Hl, !lookup_app, (lookup_rb_content rb WF i).
  destruct WF. simpl. unfold b2.
  ring_cells; rewrite !lookup_blit by (rewrite ?zlen_blit; lia); unfold zlen in *;
    ring_cells.
  - case_match eqn:E; [done|]. apply lookup_ge_None in E. lia.
  - destruct (d1 !! (i - length (rb_content rb))%nat) as [z|] eqn:E.
    + rewrite <- E. f_equal. lia.
    + apply lookup_ge_None in E. lia.
  - rewrite (lookup_ge_None_2 d1) by lia. f_equal. lia.
Qed.
End PutWrap.

(** Which bytes of the caller's block a put of [len] bytes consumes. *)
Definition put_bytes (data : list Z) (len : Z) : list Z :=
  take (Z.to_nat (RT_ALIGN len RING_BUFFER_ALIGN_SIZE)) data.

Lemma align_u16 len : 0 <= len <= 65532 →
  u16 (RT_ALIGN len RING_BUFFER_ALIGN_SIZE) = RT_ALIGN len RING_BUFFER_ALIGN_SIZE.
Proof.
  intros. apply u16_id. unfold is_u16, RING_BUFFER_ALIGN_SIZE. rewrite RT_ALIGN_4.
  Z.div_mod_to_equations. lia.
Qed.

Lemma put_full rb data len :
  rb_wf rb → 0 <= len <= 65532 →
  (rt_ringbuffer_space_len rb = 0 ∨
   rt_ringbuffer_space_len rb < RT_ALIGN len RING_BUFFER_ALIGN_SIZE) →
  uc_wiota_ringbuffer_put rb data len = Ok (0, rb).
Proof.
  intros WF Hlen Hfull. unfold uc_wiota_ringbuffer_put. rewrite align_u16 by done.
  assert (u16 (rt_ringbuffer_space_len rb) = rt_ringbuffer_space_len rb) as ->.
  { apply u16_id. unfold is_u16, rt_ringbuffer_space_len.
    pose proof (data_len_bounds rb WF). destruct WF. lia. }
  destruct (Z.eqb_spec (rt_ringbuffer_space_len rb) 0); [done|].
  rewrite (proj2 (Z.ltb_lt _ _)) by lia. done.
Qed.

Lemma put_space rb data len :
  rb_wf rb → 0 <= len <= 65532 →
  RT_ALIGN len RING_BUFFER_ALIGN_SIZE <= zlen data →
  rt_ringbuffer_space_len rb ≠ 0 →
  RT_ALIGN len RING_BUFFER_ALIGN_SIZE <= rt_ringbuffer_space_len rb →
  ∃ rb', uc_wiota_ringbuffer_put rb data len = Ok (RT_ALIGN len RING_BUFFER_ALIGN_SIZE, rb') ∧
    rb_wf rb' ∧ rb_content rb' = rb_content rb ++ put_bytes data len ∧
    read_index rb' = read_index rb ∧ read_mirror rb' = read_mirror rb ∧
    buffer_size rb' = buffer_size rb.
Proof.
  intros WF Hlen Hdata Hnz Hfit. unfold uc_wiota_ringbuffer_put. rewrite align_u16 by done.
  assert (u16 (rt_ringbuffer_space_len rb) = rt_ringbuffer_space_len rb) as ->.
  { apply u16_id. unfold is_u16, rt_ringbuffer_space_len.
    pose proof (data_len_bounds rb WF). destruct WF. lia. }
  rewrite (proj2 (Z.eqb_neq _ _)), (proj2 (Z.ltb_ge _ _)) by lia.
  unfold put_bytes, RING_BUFFER_ALIGN_SIZE in *.
  pose proof (RT_ALIGN_4_bounds len). set (wl := RT_ALIGN len 4) in *.
  assert (zlen (take (Z.to_nat wl) data) = wl) as Hd.
  { unfold zlen in *. rewrite length_take. lia. }
  assert (rt_ringbuffer_space_len rb <= buffer_size rb) as Hsp.
  { unfold rt_ringbuffer_space_len. pose proof (data_len_bounds rb WF). lia. }
  pose proof (wf_block rb WF). pose proof (wf_write rb WF).
  destruct (Z.gtb_spec (buffer_size rb - write_index rb) wl).
  - rewrite slice_Ok by lia. simpl. unfold zsub. simpl. rewrite drop_0.
    rewrite store_Ok by lia. simpl.
    eexists. split; [done|]. rewrite <- Hd at 2 4.
    split_and!; auto.
    + apply (put_nowrap_wf rb WF); lia.
    + apply (put_nowrap_content rb WF); lia.
  - set (f := buffer_size rb - write_index rb) in *.
    rewrite slice_Ok by lia. simpl.
    assert (zlen (zsub 0 f data) = f) as Hd1 by (apply zlen_zsub; lia).
    assert (zlen (zsub f (wl - f) data) = wl - f) as Hd2 by (apply zlen_zsub; lia).
    rewrite store_Ok by lia. simpl. rewrite slice_Ok by lia. simpl.
    rewrite store_Ok by (rewrite ?zlen_blit; lia). simpl.
    eexists. split; [done|]. rewrite <- Hd2 at 2 4.
    assert (take (Z.to_nat wl) data = zsub 0 f data ++ zsub f (wl - f) data) as ->.
    { unfold zsub. simpl. rewrite drop_0, take_take_drop. f_equal. lia. }
    split_and!; auto.
    + apply (put_wrap_wf rb WF); lia.
    + apply (put_wrap_content rb WF); lia.
Qed.

(** A put keeps the memory block and its size. *)
Lemma put_block rb data len w rb' :
  uc_wiota_ringbuffer_put rb data len = Ok (w, rb') →
  zlen (buffer_ptr rb') = zlen (buffer_ptr rb) ∧ buffer_size rb' = buffer_size rb.
Proof.
  unfold uc_wiota_ringbuffer_put, rbind. intros H.
  repeat match type of H with
  | (if ?b then _ else _) = _ => destruct b
  | match slice ?a ?b ?c with _ => _ end = _ => destruct (slice a b c); [|done]
  | match store ?a ?b ?c with _ => _ end = _ =>
      let E := fresh in destruct (store a b c) eqn:E; [apply store_inv in E as (? & ? & ->)|done]
  end; simplify_eq/=; auto; split; auto; repeat (rewrite zlen_blit in * by auto); auto.
Qed.

Lemma drop_blit {A} n off (d l : list A) :
  0 <= off → off + zlen d <= n → n <= zlen l →
  drop (Z.to_nat n) (blit off d l) = drop (Z.to_nat n) l.
Proof.
  unfold blit, zlen. intros. apply list_eq. intros i. rewrite !lookup_drop.
  rewrite lookup_app_r by (rewrite length_take; lia). rewrite length_take.
  rewrite lookup_app_r by lia. rewrite lookup_drop. f_equal. lia.
Qed.

(** The bytes behind the ring are never written. *)
Lemma put_tail rb data len w rb' :
  rb_wf rb → uc_wiota_ringbuffer_put rb data len = Ok (w, rb') →
  drop (Z.to_nat (buffer_size rb)) (buffer_ptr rb') = drop (Z.to_nat (buffer_size rb)) (buffer_ptr rb).
Proof.
  intros WF. pose proof (data_len_bounds rb WF). pose proof (u16_range (RT_ALIGN len RING_BUFFER_ALIGN_SIZE)).
  assert (u16 (rt_ringbuffer_space_len rb) = rt_ringbuffer_space_len rb) as Hsp.
  { apply u16_id. unfold is_u16, rt_ringbuffer_space_len. destruct WF. lia. }
  unfold uc_wiota_ringbuffer_put, rbind. rewrite Hsp. unfold rt_ringbuffer_space_len in *.
  destruct WF. unfold is_u16 in *. 
  set (wl := u16 (RT_ALIGN len RING_BUFFER_ALIGN_SIZE)) in *.
  destruct (_ =? 0); [by intros [= <- <-]|].
  destruct (Z.ltb_spec (buffer_size rb - rt_ringbuffer_data_len rb) wl); [by intros [= <- <-]|].
  destruct (Z.gtb_spec (buffer_size rb - write_index rb) wl).
  - destruct (slice 0 wl data) eqn:E; [|done]. apply slice_inv in E as (? & ? & ? & ->).
    destruct (store _ _ _) eqn:E; [|done]. apply store_inv in E as (? & ? & ->). intros [= <- <-]. cbn.
    apply drop_blit; rewrite ?zlen_zsub; lia.
  - destruct (slice 0 _ data) eqn:E; [|done]. apply slice_inv in E as (? & ? & ? & ->).
    destruct (store _ _ _) eqn:E; [|done]. apply store_inv in E as (? & ? & ->).
    destruct (slice _ _ data) eqn:E; [|done]. apply slice_inv in E as (? & ? & ? & ->).
    destruct (store 0 _ _) eqn:E; [|done]. apply store_inv in E as (? & ? & ->). intros [= <- <-]. cbn.
    rewrite !drop_blit; rewrite ?zlen_blit, ?zlen_zsub; auto; try lia.
Qed.

(** Moving the reader forward by [n] bytes, over the end of the ring if needed. *)
Section Advance.
Context (rb : rt_ringbuffer) (WF : rb_wf rb) (n : Z).
Hypothesis Hn : 0 <= n <= rt_ringbuffer_data_len rb.

Definition advance : rt_ringbuffer :=
  if buffer_size rb - read_index rb >? n
  then set_read rb (read_mirror rb) (read_index rb + n)
  else set_read rb (negb (read_mirror rb)) (n - (buffer_size rb - read_index rb)).

Lemma advance_wf : rb_wf advance.
Proof using All.
  pose proof (data_len_bounds rb WF). pose proof (data_len_position rb WF) as Hp.
  unfold advance. destruct WF.
  destruct (Z.gtb_spec (buffer_size rb - read_index rb) n); split; simpl; try lia; auto;
    intros; destruct (read_mirror rb), (write_mirror rb); simpl in *; auto; lia.
Qed.

Lemma advance_len : rt_ringbuffer_data_len advance = rt_ringbuffer_data_len rb - n.
Proof using All.
  rewrite (data_len_position advance advance_wf).
  pose proof (data_len_bounds rb WF). pose proof (data_len_position rb WF) as Hp.
  unfold advance. destruct WF.
  destruct (Z.gtb_spec (buffer_size rb - read_index rb) n); simpl; [lia|].
  destruct (read_mirror rb), (write_mirror rb); simpl in *; lia.
Qed.

Lemma advance_content : rb_content advance = drop (Z.to_nat n) (rb_content rb).
Proof using All.
  pose proof (length_rb_content rb WF) as Hlc. pose proof advance_len as Hl.
  pose proof (data_len_bounds rb WF).
  apply content_ext; [apply advance_wf| |].
  { rewrite Hl. unfold zlen in *. rewrite length_drop. lia. }
  intros i Hi. rewrite (lookup_rb_content advance advance_wf), Hl, lookup_drop.
  rewrite (lookup_rb_content rb WF). unfold zlen in *. rewrite length_drop in Hi.
  unfold advance. destruct WF.
  destruct (Z.gtb_spec (buffer_size rb - read_index rb) n); simpl;
    ring_cells; f_equal; lia.
Qed.
End Advance.

Lemma zsub_content_nowrap rb n :
  rb_wf rb → 0 <= n <= rt_ringbuffer_data_len rb → read_index rb + n <= buffer_size rb →
  zsub (read_index rb) n (buffer_ptr rb) = take (Z.to_nat n) (rb_content rb).
Proof.
  intros WF Hn Hfit. apply list_eq. intros i. rewrite lookup_zsub.
  destruct (decide (i < Z.to_nat n)%nat).
  - rewrite lookup_take_lt, (lookup_rb_content rb WF) by done. destruct WF.
    ring_cells. f_equal. lia.
  - rewrite lookup_take_ge by lia. done.
Qed.

Lemma zsub_content_wrap rb n f :
  rb_wf rb → n <= rt_ringbuffer_data_len rb → f = buffer_size rb - read_index rb → f <= n →
  zsub 0 (n - f) (buffer_ptr rb) = drop (Z.to_nat f) (take (Z.to_nat n) (rb_content rb)).
Proof.
  intros WF Hn -> Hfit. apply list_eq. intros i. rewrite lookup_zsub, lookup_drop.
  destruct WF as [? ? ? ? ? ?] eqn:EWF.
  destruct (decide (i < _)%nat).
  - rewrite lookup_take_lt, (lookup_rb_content rb WF) by lia. ring_cells. f_equal. lia.
  - rewrite lookup_take_ge by lia. done.
Qed.

Lemma blit_blit_app {A} (d1 d2 ptr : list A) :
  zlen d1 + zlen d2 <= zlen ptr →
  blit (zlen d1) d2 (blit 0 d1 ptr) = blit 0 (d1 ++ d2) ptr.
Proof.
  unfold zlen, blit. intros H. simpl. rewrite Nat2Z.id, take_app_length, length_app.
  rewrite <- drop_drop, drop_app_length, drop_drop, <- app_assoc. done.
Qed.

(** Reading the whole aligned length empties the front of the queue into the
    caller's block. *)
Lemma get_spec rb ptr len :
  rb_wf rb → 0 <= len → RT_ALIGN len RING_BUFFER_ALIGN_SIZE <= rt_ringbuffer_data_len rb →
  RT_ALIGN len RING_BUFFER_ALIGN_SIZE <= zlen ptr →
  let n := RT_ALIGN len RING_BUFFER_ALIGN_SIZE in
  uc_wiota_ringbuffer_get rb ptr len =
    Ok (n, blit 0 (take (Z.to_nat n) (rb_content rb)) ptr, advance rb n).
Proof.
  intros WF Hlen Hn Hptr n. subst n. unfold RING_BUFFER_ALIGN_SIZE in *.
  unfold uc_wiota_ringbuffer_get, RING_BUFFER_ALIGN_SIZE.
  pose proof (RT_ALIGN_4_bounds len). pose proof (data_len_bounds rb WF).
  pose proof (wf_size rb WF). pose proof (wf_block rb WF). pose proof (wf_read rb WF).
  rewrite u16_id by (unfold is_u16; lia).
  set (n := RT_ALIGN len 4) in *. unfold advance.
  destruct (Z.gtb_spec (buffer_size rb - read_index rb) n).
  - rewrite slice_Ok by lia. simpl. rewrite zsub_content_nowrap by (auto; lia).
    rewrite store_Ok; [done|lia|]. unfold zlen in *. rewrite length_take. lia.
  - set (f := buffer_size rb - read_index rb) in *.
    assert (zlen (zsub (read_index rb) f (buffer_ptr rb)) = f) as Hd1 by (apply zlen_zsub; lia).
    assert (zlen (zsub 0 (n - f) (buffer_ptr rb)) = n - f) as Hd2 by (apply zlen_zsub; lia).
    rewrite slice_Ok by lia. simpl. rewrite store_Ok by lia. simpl.
    rewrite slice_Ok by lia. simpl. rewrite store_Ok by (rewrite ?zlen_blit; lia). simpl.
    rewrite <- Hd1 at 1. rewrite blit_blit_app by lia. do 3 f_equal.
    rewrite zsub_content_nowrap, (zsub_content_wrap rb n f) by (auto; lia).
    replace (take (Z.to_nat f) (rb_content rb))
      with (take (Z.to_nat f) (take (Z.to_nat n) (rb_content rb)))
      by (rewrite take_take; f_equal; lia).
    rewrite take_drop. done.
Qed.

(** ** Refinement to a bounded queue *)

(** Operations on a ring: a put of [len] bytes of a block, a get of [len]
    bytes into a fresh zeroed block of the rounded length. *)
Inductive ring_op : Type :=
| op_put (data : list Z) (len : Z)
| op_get (len : Z).

Definition op_ok (op : ring_op) : Prop :=
  match op with
  | op_put data len => 0 <= len <= 65532 ∧ RT_ALIGN len RING_BUFFER_ALIGN_SIZE <= zlen data
  | op_get len => 0 <= len
  end.

(** Runs the operations on the ring and collects what the gets returned. *)
Fixpoint ring_run (ops : list ring_op) (rb : rt_ringbuffer) : result (list (list Z) * rt_ringbuffer) :=
  match ops with
  | [] => Ok ([], rb)
  | op_put data len :: ops =>
      rbind (uc_wiota_ringbuffer_put rb data len) (λ '(_, rb1), ring_run ops rb1)
  | op_get len :: ops =>
      let ptr := replicate (Z.to_nat (RT_ALIGN len RING_BUFFER_ALIGN_SIZE)) 0 in
      rbind (uc_wiota_ringbuffer_get rb ptr len) (λ '(_, out, rb1),
      rbind (ring_run ops rb1) (λ '(outs, rb2), Ok (out :: outs, rb2)))
  end.

(** The queue of capacity [cap]: a put that does not fit changes nothing, a
    get of more than the queue holds has no meaning. *)
Fixpoint fifo_run (cap : Z) (ops : list ring_op) (q : list Z) : option (list (list Z) * list Z) :=
  match ops with
  | [] => Some ([], q)
  | op_put data len :: ops =>
      let n := RT_ALIGN len RING_BUFFER_ALIGN_SIZE in
      fifo_run cap ops (if zlen q + n <=? cap then q ++ take (Z.to_nat n) data else q)
  | op_get len :: ops =>
      let n := RT_ALIGN len RING_BUFFER_ALIGN_SIZE in
      if n <=? zlen q then
        '(outs, q') ← fifo_run cap ops (drop (Z.to_nat n) q);
        Some (take (Z.to_nat n) q :: outs, q')
      else None
  end.

Lemma put_total rb data len :
  rb_wf rb → op_ok (op_put data len) →
  let n := RT_ALIGN len RING_BUFFER_ALIGN_SIZE in
  ∃ w rb', uc_wiota_ringbuffer_put rb data len = Ok (w, rb') ∧ rb_wf rb' ∧
    buffer_size rb' = buffer_size rb ∧
    rb_content rb' = if zlen (rb_content rb) + n <=? buffer_size rb
                     then rb_content rb ++ put_bytes data len else rb_content rb.
Proof.
  intros WF [Hlen Hdata] n. rewrite (length_rb_content rb WF).
  pose proof (RT_ALIGN_4_bounds len) as Hn. unfold RING_BUFFER_ALIGN_SIZE in n, Hdata.
  fold n in Hn, Hdata.
  destruct (Z.leb_spec (rt_ringbuffer_data_len rb + n) (buffer_size rb)).
  - destruct (decide (rt_ringbuffer_space_len rb = 0)) as [Hz|Hz].
    + exists 0, rb. split_and!; auto.
      { apply put_full; auto. }
      unfold rt_ringbuffer_space_len in Hz.
      unfold put_bytes, RING_BUFFER_ALIGN_SIZE. fold n. replace n with 0 by lia.
      rewrite take_0, app_nil_r. done.
    + destruct (put_space rb data len WF) as (rb' & ? & ? & ? & _ & _ & ?);
        unfold RING_BUFFER_ALIGN_SIZE, rt_ringbuffer_space_len in *; fold n; auto; try lia.
      eauto 10.
  - exists 0, rb. split_and!; auto. apply put_full; auto. right.
    unfold RING_BUFFER_ALIGN_SIZE, rt_ringbuffer_space_len. fold n. lia.
Qed.

Lemma get_total rb len :
  rb_wf rb → 0 <= len →
  let n := RT_ALIGN len RING_BUFFER_ALIGN_SIZE in
  n <= zlen (rb_content rb) →
  ∃ rb', uc_wiota_ringbuffer_get rb (replicate (Z.to_nat n) 0) len =
           Ok (n, take (Z.to_nat n) (rb_content rb), rb') ∧
    rb_wf rb' ∧ buffer_size rb' = buffer_size rb ∧ rb_content rb' = drop (Z.to_nat n) (rb_content rb).
Proof.
  intros WF Hlen n Hn. pose proof (RT_ALIGN_4_bounds len) as Hb.
  unfold RING_BUFFER_ALIGN_SIZE in n. fold n in Hb.
  rewrite (length_rb_content rb WF) in Hn.
  assert (zlen (replicate (Z.to_nat n) 0) = n) as Hr by (unfold zlen; rewrite length_replicate; lia).
  eexists. rewrite get_spec by (unfold RING_BUFFER_ALIGN_SIZE; fold n; auto; lia).
  unfold RING_BUFFER_ALIGN_SIZE. fold n. split; [|split_and!].
  - do 3 f_equal. unfold blit. simpl. rewrite drop_ge, app_nil_r; [done|].
    pose proof (length_rb_content rb WF). unfold zlen in *.
    rewrite length_replicate, length_take. lia.
  - apply advance_wf; [done|lia].
  - unfold advance. destruct (_ >? _); done.
  - apply advance_content; [done|lia].
Qed.

(** C4: a ring behaves as a bounded byte queue.  For every sequence of puts
    and gets, started on a well-formed ring, for which the queue is defined
    (no get asks for more than is there), the ring code runs without leaving
    its memory, returns the bytes the queue returns, and ends in a well-formed
    ring that holds what the queue holds; a put without space is dropped whole. *)
Theorem ring_refines_fifo ops rb outs q :
  rb_wf rb → Forall op_ok ops →
  fifo_run (buffer_size rb) ops (rb_content rb) = Some (outs, q) →
  ∃ rb', ring_run ops rb = Ok (outs, rb') ∧ rb_wf rb' ∧ rb_content rb' = q.
Proof.
  intros WF Hops. revert rb outs q WF. induction Hops as [|op ops Hop Hops IH]; intros rb outs q WF Hq.
  - simplify_eq/=. eauto.
  - destruct op as [data len|len]; cbn [ring_run fifo_run] in *.
    + destruct (put_total rb data len WF Hop) as (w & rb1 & -> & WF1 & Hsz & Hc).
      cbn [rbind]. apply IH; [done|]. rewrite Hsz, Hc. exact Hq.
    + destruct (Z.leb_spec (RT_ALIGN len RING_BUFFER_ALIGN_SIZE) (zlen (rb_content rb))); [|done].
      destruct (get_total rb len WF Hop) as (rb1 & -> & WF1 & Hsz & Hc); [done|].
      destruct (fifo_run _ ops _) as [[outs1 q1]|] eqn:E; simplify_eq/=.
      rewrite <- Hsz, <- Hc in E. destruct (IH rb1 _ _ WF1 E) as (rb2 & -> & WF2 & Hc2).
      cbn. eauto.
Qed.

Lemma ring_init_ok size buf :
  4 <= size < 32768 → size <= zlen buf →
  ∃ rb, uc_wiota_ringbuffer_init size buf = Ok rb ∧ rb_wf rb ∧ rb_content rb = [] ∧
    buffer_size rb = RT_ALIGN_DOWN size 4 ∧ zlen (buffer_ptr rb) = zlen buf ∧
    drop (Z.to_nat (RT_ALIGN_DOWN size 4)) (buffer_ptr rb) =
    drop (Z.to_nat (RT_ALIGN_DOWN size 4)) buf.
Proof.
  intros Hs Hb. unfold uc_wiota_ringbuffer_init, RING_BUFFER_ALIGN_SIZE.
  rewrite (proj2 (Z.gtb_lt _ _)) by lia.
  assert (0 < RT_ALIGN_DOWN size 4 <= size) as Ha.
  { rewrite RT_ALIGN_DOWN_4. Z.div_mod_to_equations. lia. }
  set (n := RT_ALIGN_DOWN size 4) in *.
  assert (zlen (replicate (Z.to_nat n) 0) = n) as Hr by (unfold zlen; rewrite length_replicate; lia).
  rewrite store_Ok by lia. cbn [rbind]. eexists. split; [done|].
  split_and!; cbn; try done.
  - split; cbn; try lia; auto. rewrite zlen_blit; lia.
  - rewrite zlen_blit; lia.
  - unfold blit. simpl. rewrite length_replicate, drop_app_ge by (rewrite length_replicate; lia).
    rewrite length_replicate, Nat.sub_diag. done.
Qed.

(** The indices of a new ring are zero. *)
Lemma ring_init_start size buf rb :
  uc_wiota_ringbuffer_init size buf = Ok rb → set_read rb false 0 = rb ∧ set_write rb false 0 = rb.
Proof.
  unfold uc_wiota_ringbuffer_init. destruct (_ >? _); [|done]. unfold rbind.
  destruct (store _ _ _); [|done]. intros [= <-]. done.
Qed.

(** Initialisation gives an empty well-formed ring over the first
    [RT_ALIGN_DOWN rb_size 4] bytes of the memory, which it clears; the bytes
    behind them (where the frame number is kept) are not touched. *)
Theorem ringbuffer_init_empty size buf :
  4 <= size < 32768 → size <= zlen buf →
  ∃ rb, uc_wiota_ringbuffer_init size buf = Ok rb ∧ rb_wf rb ∧ rb_content rb = [] ∧
    buffer_size rb = RT_ALIGN_DOWN size 4 ∧ zlen (buffer_ptr rb) = zlen buf ∧
    drop (Z.to_nat (RT_ALIGN_DOWN size 4)) (buffer_ptr rb) =
    drop (Z.to_nat (RT_ALIGN_DOWN size 4)) buf.
Proof. apply ring_init_ok. Qed.

Definition demo_ring : rt_ringbuffer :=
  {| buffer_ptr := [1; 2; 3; 4; 5; 6; 7; 8; 9; 10; 11; 12; 13; 14; 15; 16];
     read_mirror := false; read_index := 8; write_mirror := true; write_index := 4;
     buffer_size := 16 |}.

Lemma demo_ring_wf : rb_wf demo_ring.
Proof. split; vm_compute; try done; auto. Qed.

(** The queue holds 12 bytes: a put that fits (3 bytes, rounded to 4), one
    that does not, and a get that crosses the end of the ring. *)
Definition demo_ops : list ring_op := [op_put [91; 92; 93; 0] 3; op_put [99; 99; 99; 99] 4; op_get 11].

Lemma ring_refines_fifo_witness :
  rb_wf demo_ring ∧ Forall op_ok demo_ops ∧
  ∃ rb', ring_run demo_ops demo_ring = Ok ([[9; 10; 11; 12; 13; 14; 15; 16; 1; 2; 3; 4]], rb') ∧
    rb_wf rb' ∧ rb_content rb' = [91; 92; 93; 0].
Proof.
  split; [exact demo_ring_wf|].
  assert (Forall op_ok demo_ops) as Ho by (repeat constructor; vm_compute; done).
  split; [exact Ho|].
  apply ring_refines_fifo; [exact demo_ring_wf|exact Ho|]. vm_compute. reflexivity.
Defined.

Lemma ringbuffer_init_empty_witness :
  ∃ rb, uc_wiota_ringbuffer_init 7 [1; 2; 3; 4; 5; 6; 7] = Ok rb ∧ rb_wf rb ∧ rb_content rb = [] ∧
    buffer_size rb = 4 ∧ zlen (buffer_ptr rb) = 7 ∧ drop 4 (buffer_ptr rb) = [5; 6; 7].
Proof.
  apply (ringbuffer_init_empty 7 [1; 2; 3; 4; 5; 6; 7]); [lia|vm_compute; done].
Defined.
