(* ===== verification/WiotaApi.v ===== *)
(** * The WIoTa protocol stack as the firmware sees it

    The stack itself is a binary library (PS/lib); PS/app/include/uc_wiota_api.h
    declares it.  Its entry points are the constructors of [wiotaE], a type of
    calls indexed by what a call returns, with the arguments already converted
    to the types of the prototypes.  The frequency list and the stored data are
    declared in uc_wiota_static.h, the watchdog's reset in the board support, the
    two calls about hopping in no header of the repository.
    [WiotaLib] is the library: a state of its own, the effect and result of every
    call, and its checksum functions. *)

From S2P Require Import Prelude.

(** The records the calls exchange. *)
Record sub_system_config_t := {
  ap_tx_power : Z; id_len : Z; pp : Z; symbol_length : Z; dlul_ratio : Z;
  bt_value : Z; group_number : Z; spectrum_idx : Z; old_subsys_v : Z;
  bitscb : Z; freq_idx : Z; cfg_reserved : Z; subsystem_id : Z
}.

Record uc_lpm_tx_cfg_t := {
  tx_freq : Z; tx_spectrum_idx : Z; tx_bandwidth : Z; tx_symbol_length : Z;
  tx_awaken_id : Z; tx_mode : Z; tx_send_time : Z
}.

Record uc_lpm_rx_cfg_t := {
  rx_freq : Z; rx_spectrum_idx : Z; rx_bandwidth : Z; rx_symbol_length : Z;
  rx_lpm_nlen : Z; rx_lpm_utimes : Z; rx_threshold : Z; rx_extra_flag : Z;
  rx_awaken_id : Z; rx_detect_period : Z; rx_extra_period : Z; rx_mode : Z;
  rx_period_multiple : Z; rx_awaken_id_another : Z
}.

Record uc_subf_cfg_t := { ul_vfs : Z; dl_vfs : Z; sf_send_round : Z; once_len : Z }.

Record uc_send_recv_t := { sr_user_id : Z; sr_data_id : Z; sr_result : Z }.
Record uc_scan_recv_t := { sc_data_len : Z; sc_result : Z; sc_data : list Z }.
Record uc_temp_recv_t := { tr_temp : Z; tr_result : Z }.
Record uc_paging_recv_t := { pr_user_id : Z; pr_result : Z }.

Record uc_paging_info_t := {
  pg_user_id : Z; pg_fn_index : Z; pg_detection_period : Z;
  pg_send_round : Z; pg_continue_fn : Z
}.

Record uc_recv_detail_t := {
  rd_user_id : Z; rd_data_type : Z; rd_data : list Z; rd_data_len : Z;
  rd_rssi : Z; rd_delay : Z; rd_fn_cnt : Z; rd_group_idx : Z;
  rd_burst_idx : Z; rd_slot_idx : Z; rd_frame_num : Z
}.

(** The three coordinates in degrees are [float]s; only their bits are copied. *)
Record uc_ts_info_t := {
  ts_state : Z; ts_frame_head : Z; ts_frame_head_offset : Z; ts_cur_time_s : Z;
  ts_cur_time_us : Z; ts_pos_x : Z; ts_pos_y : Z; ts_pos_z : Z;
  ts_longitude : Z; ts_latitude : Z; ts_altitude : Z
}.

Record uc_dev_pos_t := { dp_group_idx : Z; dp_burst_idx : Z; dp_slot_idx : Z; dp_reserved : Z }.
Record uc_awaken_cause_t := {
  aw_is_cs_awakened : Z; aw_awaken_cause : Z; aw_lpm_last_wakeup_cause : Z;
  aw_lpm_last_wakeup_idx : Z; aw_lpm_detected_times : Z
}.
(** A node is a user id and a count; the pointer to the nodes can be null. *)
Record uc_subf_test_t := { st_subf_node : option (list (Z * Z)); st_subf_node_num : Z; st_send_cnt : Z }.

(** The functions handed to the library as callbacks: first those of
    uc_wiota_spi_com.c, then those of at_wiota.c and the one of at_simplified.c. *)
Inductive callback : Set :=
| cb_recv_detail | cb_paging_ctrl | cb_fn_refresh | cb_cce_abnormal | cb_time_service_info
| cb_send | cb_send_bc | cb_send_mc | cb_scan | cb_temp | cb_sync_paging
| at_show_drop | at_show_recv_data | at_show_recv_data_detail | at_sync_paging_ctrl
| at_cce_abnormal | at_ts_state | at_ts_info | at_fn_refresh | at_send | at_send_bc
| at_send_mc | at_paging | at_simplified_recv.

#[export] Instance callback_eq_dec : EqDecision callback.
Proof. solve_decision. Defined.

Record recv_send_by_fn_t := {
  rs_user_id : Z; rs_start_recv_fn : Z; rs_recv_fns : Z; rs_send_fns : Z;
  rs_data_len : Z; rs_data : option (list Z); rs_callback : option callback; rs_para : Z
}.

Record wiota_version := {
  wiota_version_8088 : list Z; git_info_8088 : list Z; make_time_8088 : list Z;
  wiota_version_8288 : list Z; git_info_8288 : list Z; make_time_8288 : list Z;
  cce_version : Z
}.

(** time_service_type_e, uc_result_e and time_service_state_e. *)
Definition TIME_SERVICE_GNSS : Z := 0.
Definition TIME_SERVICE_1588_PS : Z := 1.
Definition TIME_SERVICE_SYNC_ASSISTANT : Z := 2.
Definition TIME_SERVICE_INIT_END : Z := 4.
Definition TIME_SERVICE_ALIGN_END : Z := 5.
Definition UC_OP_SUCC : Z := 0.
Definition UC_OP_TIMEOUT : Z := 1.
Definition UC_OP_FAIL : Z := 2.
Definition NORMAL_BROADCAST : Z := 0.
Definition OTA_BROADCAST : Z := 1.

Inductive wiotaE : Type → Type :=
| uc_wiota_init : wiotaE unit
| uc_wiota_run : wiotaE unit
| uc_wiota_exit : wiotaE unit
| uc8088_chip_reset : wiotaE unit
| uc_wiota_register_callback (cb : callback) : wiotaE unit
| uc_wiota_set_dfe_counter_flag : wiotaE unit
| uc_wiota_master_control_bc_dfe_counter : wiotaE unit
| uc_wiota_paging_tx_start : wiotaE Z
| uc_wiota_time_service_start : wiotaE unit
| uc_wiota_time_service_stop : wiotaE unit
| uc_wiota_set_active_time (active_s : Z) : wiotaE Z
| uc_wiota_get_active_time : wiotaE Z
| uc_wiota_set_system_config (config : sub_system_config_t) : wiotaE Z
| uc_wiota_get_system_config : wiotaE sub_system_config_t
| uc_wiota_set_ap_tx_power (rf_power : Z) : wiotaE Z
| uc_wiota_set_freq_info (idx : Z) : wiotaE Z
| uc_wiota_get_freq_info : wiotaE Z
| uc_wiota_set_max_num_of_active_iote (num : Z) : wiotaE Z
| uc_wiota_get_max_num_of_active_iote : wiotaE Z
| uc_wiota_set_data_rate (mode value : Z) : wiotaE Z
| uc_wiota_get_data_rate_value (mode : Z) : wiotaE Z
| uc_wiota_set_broadcast_mcs (mcs : Z) : wiotaE Z
| uc_wiota_get_broadcast_mcs : wiotaE Z
| uc_wiota_set_crc (crc_limit : Z) : wiotaE Z
| uc_wiota_get_crc : wiotaE Z
| uc_wiota_log_switch (log_type is_open : Z) : wiotaE Z
| uc_wiota_set_default_dfe (dfe : Z) : wiotaE Z
| uc_wiota_get_frame_head_dfe : wiotaE Z
| uc_wiota_read_dfe_counter (reg_type : Z) : wiotaE Z
| uc_wiota_set_frame_boundary_align_func (is_open : Z) : wiotaE Z
| uc_wiota_get_ap8288_state : wiotaE Z
| uc_wiota_set_paging_tx_cfg (config : uc_lpm_tx_cfg_t) : wiotaE Z
| uc_wiota_get_paging_tx_cfg : wiotaE uc_lpm_tx_cfg_t
| uc_wiota_set_paging_rx_cfg (config : uc_lpm_rx_cfg_t) : wiotaE Z
| uc_wiota_paging_rx_enter (is_need_32k_div timeout_max : Z) : wiotaE Z
| uc_wiota_set_broadcast_fn_cycle (cycle : Z) : wiotaE Z
| uc_wiota_get_broadcast_fn_cycle : wiotaE Z
| uc_wiota_set_broadcast_send_round (round : Z) : wiotaE Z
| uc_wiota_get_broadcast_send_round : wiotaE Z
| uc_wiota_get_frame_len : wiotaE Z
| uc_wiota_get_frame_num : wiotaE Z
| uc_wiota_set_time_service_func (type is_open : Z) : wiotaE Z
| uc_wiota_get_time_service_func (type : Z) : wiotaE Z
| uc_wiota_set_time_service_cycle (cycle_min : Z) : wiotaE Z
| uc_wiota_set_1588_protocol_rtc (timestamp usec : Z) : wiotaE Z
| uc_wiota_set_sync_assistant_pps (is_pps : Z) : wiotaE Z
| uc_wiota_get_sync_assistant_pps : wiotaE Z
| uc_wiota_set_single_tone (is_open : Z) : wiotaE Z
| uc_wiota_set_ul_subframe_mode (subf_mode user_id rach_delay : Z) : wiotaE Z
| uc_wiota_set_subframe_mode_cfg (cfg : uc_subf_cfg_t) : wiotaE Z
| uc_wiota_add_dl_subframe_data (data : list Z) (data_len fn : Z) : wiotaE Z
| uc_wiota_set_sm_resend_times (times : Z) : wiotaE Z
| uc_wiota_set_aagc_idx (idx : Z) : wiotaE Z
| uc_wiota_set_bnack_func (is_open : Z) : wiotaE Z
| uc_wiota_set_ota_last_subframe_idle (is_idle : Z) : wiotaE Z
| uc_wiota_get_ota_last_subframe_idle : wiotaE Z
| uc_wiota_set_dl_rf_mode (mode : Z) : wiotaE Z
| uc_wiota_get_dl_rf_mode : wiotaE Z
| uc_wiota_set_afh_func (is_open : Z) : wiotaE Z
| uc_wiota_get_afh_func : wiotaE Z
| uc_wiota_set_afh_map (afh_map : list Z) : wiotaE Z
| uc_wiota_set_pwm_ctrl_pa (period duty : Z) : wiotaE Z
| uc_wiota_set_ramp_power (ramp_power : Z) : wiotaE Z
| uc_wiota_set_ramp_power_cfg (cfg : list Z) (ramp_size : Z) : wiotaE Z
| uc_wiota_read_value_from_mem (type addr len : Z) : wiotaE (Z * list Z)
| uc_wiota_send_data_order (data : list Z) (len user_id timeout order : Z)
    (cb : option callback) (para : Z) : wiotaE Z
| uc_wiota_send_multicast_data (data : list Z) (len mc_id timeout : Z)
    (cb : option callback) (para : Z) : wiotaE Z
| uc_wiota_send_broadcast_data (data : list Z) (len mode timeout : Z)
    (cb : option callback) (para : Z) : wiotaE Z
| uc_wiota_scan_freq (freq : option (list Z)) (freq_num scan_type timeout : Z)
    (cb : option callback) : wiotaE (Z * uc_scan_recv_t)
| uc_wiota_read_temperature (cb : option callback) (timeout : Z) : wiotaE (Z * uc_temp_recv_t)
| uc_wiota_sync_paging (paging : uc_paging_info_t) (cb : option callback) : wiotaE Z
| uc_wiota_recv_send_sm_by_fn (rs : recv_send_by_fn_t) : wiotaE Z
| uc_wiota_add_iote_to_blacklist (ids : list Z) (num : Z) : wiotaE Z
| uc_wiota_remove_iote_from_blacklist (ids : list Z) (num : Z) : wiotaE Z
| uc_wiota_get_blacklist : wiotaE (list Z * Z)
| uc_wiota_set_multicast_id (ids : list Z) (num : Z) : wiotaE Z
| uc_wiota_del_multicast_id (ids : list Z) (num : Z) : wiotaE Z
| uc_wiota_get_version : wiotaE wiota_version
| uc_wiota_get_module_id : wiotaE (list Z)
| uc_wiota_get_freq_list : wiotaE (list Z)
| uc_wiota_set_hopping_freq (freq_idx : Z) : wiotaE Z
| uc_wiota_set_hopping_mode (ordi_frame hopping_frame : Z) : wiotaE Z
| uc_wiota_get_state : wiotaE Z
| uc_wiota_get_time_service_state : wiotaE Z
| uc_wiota_get_time_service_cycle : wiotaE Z
| uc_wiota_get_sm_resend_times : wiotaE Z
| uc_wiota_get_bnack_func : wiotaE Z
| uc_wiota_get_paging_rx_cfg : wiotaE uc_lpm_rx_cfg_t
| uc_wiota_paging_tx_frame_start : wiotaE Z
| uc_wiota_get_sync_paging_num (group_idx subf_idx : Z) : wiotaE Z
| uc_wiota_iote_leaving_active_state (ids : list Z) (num : Z) : wiotaE Z
| uc_wiota_get_subframe_mode_cfg : wiotaE uc_subf_cfg_t
| uc_wiota_set_subframe_test (mode : Z) : wiotaE Z
| uc_wiota_get_subframe_test : wiotaE (option uc_subf_test_t)
| uc_wiota_send_data (data : list Z) (len user_id timeout : Z) (cb : option callback) (para : Z) : wiotaE Z
| uc_wiota_set_freq_list (freq_list : list Z) (num : Z) : wiotaE Z
| uc_wiota_save_static_info (is_direct : Z) : wiotaE unit
| uc_wiota_query_dev_pos_by_userid (ids : list Z) (num : Z) : wiotaE (option (list uc_dev_pos_t))
| uc_wiota_get_awakened_cause : wiotaE uc_awaken_cause_t
| uc_wiota_get_is_new_hardware : wiotaE Z
| uc_wiota_set_ramp_type (ramp_type : Z) : wiotaE Z
| uc_wiota_set_ramp_value (ramp_value : Z) : wiotaE Z
| uc_wiota_set_rf_ctrl_idx (rf_ctrl_idx : Z) : wiotaE Z
| uc_wiota_set_boost_level_0_5 (is_open : Z) : wiotaE Z
| uc_wiota_set_broadcast_utc_func (is_bc_utc : Z) : wiotaE Z
| uc_wiota_set_gnss_relocation (is_relocation : Z) : wiotaE Z
| uc_wiota_gnss_query_coordinate_xyz : wiotaE (Z * Z * Z)
| uc_wiota_gnss_query_coordinate_lla : wiotaE (Z * Z * Z)
| wdt_reset : wiotaE unit.

(** The library: every call acts on its private state [R]. *)
Class WiotaLib (R : Type) := {
  wiota_call : ∀ T : Type, wiotaE T → R → T * R;
  uc_wiota_crc8_calc : list Z → Z;
  uc_wiota_crc16_calc : list Z → Z;
  uc_wiota_crc32_calc : list Z → Z
}.
Arguments wiota_call {R _ T} e r.

(** An 8-bit checksum has 8 bits. *)
Class WiotaCrcOk (R : Type) `{WiotaLib R} : Prop := {
  crc8_u8 : ∀ l, is_u8 (uc_wiota_crc8_calc l)
}.

(** A library that answers every call with zeros, with simple checksums; the
    concrete runs of this development use it. *)
Definition zero_answer {T} (e : wiotaE T) : T.
Proof. destruct e; repeat constructor. Defined.

Definition toy_crc (m : Z) (l : list Z) : Z := foldl (λ a b, (a * 257 + b + 1) mod m) 0 l.

Definition toy_lib : WiotaLib Z := {|
  wiota_call := λ T e n, (zero_answer e, n + 1);
  uc_wiota_crc8_calc := toy_crc 256;
  uc_wiota_crc16_calc := toy_crc 65536;
  uc_wiota_crc32_calc := toy_crc 4294967296
|}.

Lemma toy_crc_range m l : 0 < m → 0 <= toy_crc m l < m.
Proof.
  intros Hm. unfold toy_crc. cut (∀ a, 0 <= a < m → 0 <= foldl (λ a b, (a * 257 + b + 1) mod m) a l < m).
  { intros H. apply H. lia. }
  induction l as [|b l IH]; intros a Ha; cbn; [done|]. apply IH, Z.mod_pos_bound, Hm.
Qed.

Lemma toy_lib_crc_ok : @WiotaCrcOk Z toy_lib.
Proof. constructor. intros l. apply toy_crc_range. lia. Qed.
