(* ===== verification/SpiFrame.v ===== *)
(** * Layout of the messages exchanged with the gateway

    The structures of PS/app/src/uc_wiota_spi_com.c as the bytes they occupy
    in shared memory (little endian, [#pragma pack(4)]), and the frame a
    message is sent in: header, payload padded to four bytes, CRC-32. *)

From S2P Require Import Prelude WiotaApi.

Definition UC_CRC32_LEN : Z := 4.
Definition UC_CRC8_LEN : Z := 1.
Definition DL_RING_BUFFER_SIZE : Z := 7152.
Definition UL_RING_BUFFER_SIZE : Z := 7152.
Definition MAX_CHECK_CNT : Z := 2.

(** ** Shared-memory words *)

Record rb_read_state_t := {
  rs_index : Z; rs_mirror : bool; rs_channel : Z; read_crc : Z
}.

Record rb_write_state_t := {
  ws_index : Z; ws_mirror : bool; ws_channel : Z; write_crc : Z
}.

Record heart_info_t := {
  isr_cnt : Z; crc_limit : Z; ap8288_state : Z; heart_channel : Z; heart_crc : Z
}.

Record hand_shake_t := { hs_state : Z; hs_channel : Z }.

(** The bytes covered by the checksum: everything but the checksum itself. *)
Definition read_state_body (s : rb_read_state_t) : list Z :=
  le_bytes 2 (bf_pack [(15, rs_index s); (1, Z.b2z (rs_mirror s))]) ++ le_bytes 1 (rs_channel s).

Definition write_state_body (s : rb_write_state_t) : list Z :=
  le_bytes 2 (bf_pack [(15, ws_index s); (1, Z.b2z (ws_mirror s))]) ++ le_bytes 1 (ws_channel s).

Definition heart_body (h : heart_info_t) : list Z :=
  le_bytes 4 (isr_cnt h) ++
  le_bytes 2 (bf_pack [(12, crc_limit h); (1, ap8288_state h); (3, heart_channel h)]).

(** ** Command header *)

Record cmd_header_t := {
  cmd_type : Z; cmd : Z; channel : Z; h_result : Z; h_reserved : Z;
  data_len : Z; header_crc : Z
}.

Definition cmd_header_size : Z := 8.

Definition header_body (h : cmd_header_t) : list Z :=
  le_bytes 2 (bf_pack [(3, cmd_type h); (6, cmd h); (3, channel h); (1, h_result h); (3, h_reserved h)])
  ++ le_bytes 2 (data_len h).

Definition header_bytes (h : cmd_header_t) : list Z := header_body h ++ le_bytes 4 (header_crc h).

(** Reads a header out of its eight bytes. *)
Definition parse_header (b : list Z) : cmd_header_t :=
  let w := le_val (take 2 b) in
  {| cmd_type := bf_get 0 3 w; cmd := bf_get 3 6 w; channel := bf_get 9 3 w;
     h_result := bf_get 12 1 w; h_reserved := bf_get 13 3 w;
     data_len := le_val (take 2 (drop 2 b)); header_crc := le_val (take 4 (drop 4 b)) |}.

Record header_ok (h : cmd_header_t) : Prop := {
  ok_type : 0 <= cmd_type h < 8;
  ok_cmd : 0 <= cmd h < 64;
  ok_channel : 0 <= channel h < 8;
  ok_result : 0 <= h_result h < 2;
  ok_reserved : 0 <= h_reserved h < 8;
  ok_len : is_u16 (data_len h);
  ok_crc : is_u32 (header_crc h)
}.

Lemma length_header_body h : length (header_body h) = 4%nat.
Proof. reflexivity. Qed.

Lemma length_header_bytes h : length (header_bytes h) = 8%nat.
Proof. reflexivity. Qed.

Lemma header_bytes_ok h : bytes_ok (header_bytes h).
Proof.
  unfold header_bytes, header_body, bytes_ok. rewrite !Forall_app.
  split_and!; apply le_bytes_ok.
Qed.

Lemma le_val_app4 l k : le_val (l ++ k) = le_val l + 256 ^ zlen l * le_val k.
Proof.
  induction l as [|b l IH]; simpl.
  - rewrite Z.mul_1_l. done.
  - rewrite IH. unfold zlen. simpl length. rewrite Nat2Z.inj_succ, Z.pow_succ_r by lia. lia.
Qed.

(** A header read back from its bytes is the header that was written. *)
Lemma parse_header_bytes h : header_ok h → parse_header (header_bytes h) = h.
Proof.
  intros [Ht Hc Hch Hr Hrs Hl Hcr]. unfold parse_header, header_bytes, header_body.
  set (w := bf_pack _).
  change (take 2 ((le_bytes 2 w ++ le_bytes 2 (data_len h)) ++ le_bytes 4 (header_crc h)))
    with (le_bytes 2 w).
  change (take 2 (drop 2 ((le_bytes 2 w ++ le_bytes 2 (data_len h)) ++ le_bytes 4 (header_crc h))))
    with (le_bytes 2 (data_len h)).
  change (take 4 (drop 4 ((le_bytes 2 w ++ le_bytes 2 (data_len h)) ++ le_bytes 4 (header_crc h))))
    with (le_bytes 4 (header_crc h)).
  assert (w = cmd_type h + 8 * cmd h + 512 * channel h + 4096 * h_result h + 8192 * h_reserved h)
    as Hw.
  { subst w. cbn [bf_pack]. change (2 ^ 3) with 8. change (2 ^ 6) with 64. change (2 ^ 1) with 2.
    rewrite !Z.mod_small by lia. lia. }
  rewrite (le2_roundtrip (data_len h)), (le4_roundtrip (header_crc h)) by done.
  rewrite le2_roundtrip by (unfold is_u16; lia).
  unfold bf_get. change (2 ^ 0) with 1. change (2 ^ 3) with 8. change (2 ^ 6) with 64.
  change (2 ^ 9) with 512. change (2 ^ 12) with 4096. change (2 ^ 13) with 8192.
  change (2 ^ 1) with 2. rewrite Hw. clear Hw w.
  destruct h; simpl in *. f_equal; Z.div_mod_to_equations; lia.
Qed.

(** Reading a word of a command structure: the [i]-th 32-bit value after the
    header of the message at the start of [sub_data]. *)
Definition in_value (sub_data : list Z) (i : Z) : result Z :=
  rbind (slice (cmd_header_size + 4 * i) 4 sub_data) (λ b, Ok (le_val b)).

Definition u8_at (off : Z) (sub_data : list Z) : result Z :=
  rbind (slice off 1 sub_data) (λ b, Ok (le_val b)).
Definition u16_at (off : Z) (sub_data : list Z) : result Z :=
  rbind (slice off 2 sub_data) (λ b, Ok (le_val b)).
Definition u32_at (off : Z) (sub_data : list Z) : result Z :=
  rbind (slice off 4 sub_data) (λ b, Ok (le_val b)).

(** ** Frames *)

Section Frames.
Context {R : Type} `{LIB : WiotaLib R}.

Definition with_crc (h : cmd_header_t) : cmd_header_t :=
  {| cmd_type := cmd_type h; cmd := cmd h; channel := channel h; h_result := h_result h;
     h_reserved := h_reserved h; data_len := data_len h;
     header_crc := u32 (uc_wiota_crc32_calc (header_body h)) |}.

Definition pad4 (d : list Z) : list Z :=
  d ++ replicate (Z.to_nat (RT_ALIGN (zlen d) 4 - zlen d)) 0.

(** The bytes of one message: [h] announces the payload length. *)
Definition frame (h : cmd_header_t) (d : list Z) : list Z :=
  let hb := header_bytes (with_crc h) in
  match d with
  | [] => hb
  | _ => (hb ++ pad4 d) ++ le_bytes 4 (uc_wiota_crc32_calc (hb ++ pad4 d))
  end.

Lemma zlen_pad4 d : zlen (pad4 d) = RT_ALIGN (zlen d) 4.
Proof.
  unfold pad4. rewrite zlen_app. unfold zlen at 2. rewrite length_replicate.
  pose proof (RT_ALIGN_4_bounds (zlen d)). lia.
Qed.

Lemma zlen_frame h d :
  zlen (frame h d) =
  match d with [] => 8 | _ => 8 + RT_ALIGN (zlen d) 4 + UC_CRC32_LEN end.
Proof.
  unfold frame. destruct d as [|b d]; [reflexivity|].
  rewrite !zlen_app, zlen_pad4. unfold zlen at 1 3.
  rewrite length_header_bytes, length_le_bytes. unfold UC_CRC32_LEN. lia.
Qed.

Lemma header_ok_with_crc h :
  0 <= cmd_type h < 8 → 0 <= cmd h < 64 → 0 <= channel h < 8 → 0 <= h_result h < 2 →
  0 <= h_reserved h < 8 → is_u16 (data_len h) → header_ok (with_crc h).
Proof. intros. split; simpl; auto with fw. Qed.
End Frames.
