(* ===== verification/SpiLink.v ===== *)
(** * The gateway link: shared memory, hand shake and framing

    State and link-level functions of PS/app/src/uc_wiota_spi_com.c.  The
    gateway is the other user of the shared memory; what it writes becomes
    visible at the firmware's delays ([mdelay]), which take the next write of
    [pending].  [mallocs] lists the outcomes of the next heap requests. *)

From S2P Require Import Prelude RingBuffer WiotaApi SpiFrame.

Inductive gw_write : Type :=
| gw_ul_read (st : rb_read_state_t)
| gw_dl_write (st : rb_write_state_t) (buf : list Z)
| gw_hand_shake (h : hand_shake_t).

Record spi_state (R : Type) := {
  heart_info : heart_info_t;
  dl_rb_read_state : rb_read_state_t;
  dl_rb_write_state : rb_write_state_t;
  dl_buf_state : hand_shake_t;
  ul_rb_read_state : rb_read_state_t;
  ul_rb_write_state : rb_write_state_t;
  ul_buf_state : hand_shake_t;
  dl_rb : rt_ringbuffer;
  ul_rb : rt_ringbuffer;
  ap_channel_id : Z;
  dl_irq_cnt : Z;
  ul_irq_cnt : Z;
  g_add_cnt : Z;
  g_del_cnt : Z;
  g_report_fn_to_gw : Z;
  mallocs : list bool;
  pending : list gw_write;
  lib : R
}.
Arguments heart_info {R} _. Arguments dl_rb_read_state {R} _. Arguments dl_rb_write_state {R} _.
Arguments dl_buf_state {R} _. Arguments ul_rb_read_state {R} _. Arguments ul_rb_write_state {R} _.
Arguments ul_buf_state {R} _. Arguments dl_rb {R} _. Arguments ul_rb {R} _.
Arguments ap_channel_id {R} _. Arguments dl_irq_cnt {R} _. Arguments ul_irq_cnt {R} _.
Arguments g_add_cnt {R} _. Arguments g_del_cnt {R} _. Arguments g_report_fn_to_gw {R} _.
Arguments mallocs {R} _. Arguments pending {R} _. Arguments lib {R} _.

(** Field updates, in the order of the record. *)
Section Setters.
Context {R : Type}.
Implicit Type s : spi_state R.
Local Abbreviation mk := (Build_spi_state R).

Definition set_heart v s := mk v (dl_rb_read_state s) (dl_rb_write_state s) (dl_buf_state s)
  (ul_rb_read_state s) (ul_rb_write_state s) (ul_buf_state s) (dl_rb s) (ul_rb s)
  (ap_channel_id s) (dl_irq_cnt s) (ul_irq_cnt s) (g_add_cnt s) (g_del_cnt s)
  (g_report_fn_to_gw s) (mallocs s) (pending s) (lib s).
Definition set_dl_states r w s := mk (heart_info s) r w (dl_buf_state s)
  (ul_rb_read_state s) (ul_rb_write_state s) (ul_buf_state s) (dl_rb s) (ul_rb s)
  (ap_channel_id s) (dl_irq_cnt s) (ul_irq_cnt s) (g_add_cnt s) (g_del_cnt s)
  (g_report_fn_to_gw s) (mallocs s) (pending s) (lib s).
Definition set_ul_states r w s := mk (heart_info s) (dl_rb_read_state s) (dl_rb_write_state s)
  (dl_buf_state s) r w (ul_buf_state s) (dl_rb s) (ul_rb s)
  (ap_channel_id s) (dl_irq_cnt s) (ul_irq_cnt s) (g_add_cnt s) (g_del_cnt s)
  (g_report_fn_to_gw s) (mallocs s) (pending s) (lib s).
Definition set_hands d u s := mk (heart_info s) (dl_rb_read_state s) (dl_rb_write_state s) d
  (ul_rb_read_state s) (ul_rb_write_state s) u (dl_rb s) (ul_rb s)
  (ap_channel_id s) (dl_irq_cnt s) (ul_irq_cnt s) (g_add_cnt s) (g_del_cnt s)
  (g_report_fn_to_gw s) (mallocs s) (pending s) (lib s).
Definition set_rings d u s := mk (heart_info s) (dl_rb_read_state s) (dl_rb_write_state s)
  (dl_buf_state s) (ul_rb_read_state s) (ul_rb_write_state s) (ul_buf_state s) d u
  (ap_channel_id s) (dl_irq_cnt s) (ul_irq_cnt s) (g_add_cnt s) (g_del_cnt s)
  (g_report_fn_to_gw s) (mallocs s) (pending s) (lib s).
Definition set_channel v s := mk (heart_info s) (dl_rb_read_state s) (dl_rb_write_state s)
  (dl_buf_state s) (ul_rb_read_state s) (ul_rb_write_state s) (ul_buf_state s) (dl_rb s) (ul_rb s)
  v (dl_irq_cnt s) (ul_irq_cnt s) (g_add_cnt s) (g_del_cnt s)
  (g_report_fn_to_gw s) (mallocs s) (pending s) (lib s).
Definition set_irq_cnts d u s := mk (heart_info s) (dl_rb_read_state s) (dl_rb_write_state s)
  (dl_buf_state s) (ul_rb_read_state s) (ul_rb_write_state s) (ul_buf_state s) (dl_rb s) (ul_rb s)
  (ap_channel_id s) d u (g_add_cnt s) (g_del_cnt s)
  (g_report_fn_to_gw s) (mallocs s) (pending s) (lib s).
Definition set_data_cnts a d s := mk (heart_info s) (dl_rb_read_state s) (dl_rb_write_state s)
  (dl_buf_state s) (ul_rb_read_state s) (ul_rb_write_state s) (ul_buf_state s) (dl_rb s) (ul_rb s)
  (ap_channel_id s) (dl_irq_cnt s) (ul_irq_cnt s) a d
  (g_report_fn_to_gw s) (mallocs s) (pending s) (lib s).
Definition set_report v s := mk (heart_info s) (dl_rb_read_state s) (dl_rb_write_state s)
  (dl_buf_state s) (ul_rb_read_state s) (ul_rb_write_state s) (ul_buf_state s) (dl_rb s) (ul_rb s)
  (ap_channel_id s) (dl_irq_cnt s) (ul_irq_cnt s) (g_add_cnt s) (g_del_cnt s)
  v (mallocs s) (pending s) (lib s).
Definition set_env m p s := mk (heart_info s) (dl_rb_read_state s) (dl_rb_write_state s)
  (dl_buf_state s) (ul_rb_read_state s) (ul_rb_write_state s) (ul_buf_state s) (dl_rb s) (ul_rb s)
  (ap_channel_id s) (dl_irq_cnt s) (ul_irq_cnt s) (g_add_cnt s) (g_del_cnt s)
  (g_report_fn_to_gw s) m p (lib s).
Definition set_lib v s := mk (heart_info s) (dl_rb_read_state s) (dl_rb_write_state s)
  (dl_buf_state s) (ul_rb_read_state s) (ul_rb_write_state s) (ul_buf_state s) (dl_rb s) (ul_rb s)
  (ap_channel_id s) (dl_irq_cnt s) (ul_irq_cnt s) (g_add_cnt s) (g_del_cnt s)
  (g_report_fn_to_gw s) (mallocs s) (pending s) v.
End Setters.

Section Link.
Context {R : Type} `{LIB : WiotaLib R}.
Local Abbreviation M := (FW (spi_state R)).
Local Open Scope fw_scope.

(** ** Environment *)

(** A call into the protocol stack. *)
Definition wcall {T} (e : wiotaE T) : M T :=
  λ s, let '(v, r) := wiota_call e (lib s) in Ok (v, set_lib r s).

(** rt_malloc: whether the next request succeeds; an empty list means yes. *)
Definition rt_malloc : M bool :=
  λ s, match mallocs s with
       | [] => Ok (true, s)
       | b :: m => Ok (b, set_env m (pending s) s)
       end.

Definition gw_apply (w : gw_write) (s : spi_state R) : spi_state R :=
  match w with
  | gw_ul_read st => set_ul_states st (ul_rb_write_state s) s
  | gw_dl_write st buf =>
      set_rings (set_buffer (dl_rb s) buf) (ul_rb s) (set_dl_states (dl_rb_read_state s) st s)
  | gw_hand_shake h => set_hands h (ul_buf_state s) s
  end.

(** rt_thread_mdelay: the gateway gets to run. *)
Definition mdelay : M unit :=
  λ s, match pending s with
       | [] => Ok (tt, s)
       | w :: p => Ok (tt, gw_apply w (set_env (mallocs s) p s))
       end.

(** ** Counters, interrupt line, frame number, heart beat *)

Definition uc_wiota_store_frame_num (frame_num : Z) : M unit :=
  s <-- fget;;
  b <-- flift (store 7148 (le_bytes 4 frame_num) (buffer_ptr (ul_rb s)));;
  fmod (λ s, set_rings (dl_rb s) (set_buffer (ul_rb s) b) s).

Definition uc_wiota_enable_ul_irq : M unit :=
  fmod (λ s, set_irq_cnts (dl_irq_cnt s) (u32 (ul_irq_cnt s + 1)) s);;;
  mdelay.

Definition uc_wiota_get_channel_id : M Z := fgets ap_channel_id.

Definition uc_wiota_send_heart_msg (cnt : Z) : M unit :=
  fmod (λ s, set_heart {| isr_cnt := cnt; crc_limit := crc_limit (heart_info s);
                          ap8288_state := ap8288_state (heart_info s);
                          heart_channel := heart_channel (heart_info s);
                          heart_crc := heart_crc (heart_info s) |} s);;;
  crc <-- wcall uc_wiota_get_crc;;
  st <-- wcall uc_wiota_get_ap8288_state;;
  fmod (λ s,
    let h := {| isr_cnt := cnt; crc_limit := crc mod 2 ^ 12; ap8288_state := st mod 2;
                heart_channel := ap_channel_id s mod 2 ^ 3; heart_crc := heart_crc (heart_info s) |} in
    set_heart {| isr_cnt := isr_cnt h; crc_limit := crc_limit h; ap8288_state := ap8288_state h;
                 heart_channel := heart_channel h;
                 heart_crc := u16 (uc_wiota_crc16_calc (heart_body h)) |} s).

(** ** Index words shared with the gateway *)

Definition seal_read (st : rb_read_state_t) : rb_read_state_t :=
  {| rs_index := rs_index st; rs_mirror := rs_mirror st; rs_channel := rs_channel st;
     read_crc := u8 (uc_wiota_crc8_calc (read_state_body st)) |}.

Definition seal_write (st : rb_write_state_t) : rb_write_state_t :=
  {| ws_index := ws_index st; ws_mirror := ws_mirror st; ws_channel := ws_channel st;
     write_crc := u8 (uc_wiota_crc8_calc (write_state_body st)) |}.

Definition with_read_channel (c : Z) (st : rb_read_state_t) : rb_read_state_t :=
  {| rs_index := rs_index st; rs_mirror := rs_mirror st; rs_channel := c; read_crc := read_crc st |}.

Definition with_write_channel (c : Z) (st : rb_write_state_t) : rb_write_state_t :=
  {| ws_index := ws_index st; ws_mirror := ws_mirror st; ws_channel := c; write_crc := write_crc st |}.

(** The polling loop of the hand shake; [fuel] bounds the polls. *)
Fixpoint hand_shake_loop (fuel : nat) : M unit :=
  match fuel with
  | O => ffail OutOfFuel
  | S fuel =>
      s <-- fget;;
      if hs_state (dl_buf_state s) =? 1 then
        fmod (λ s,
          let c := u8 (hs_channel (dl_buf_state s)) in
          set_ul_states (seal_read (with_read_channel c (ul_rb_read_state s)))
                        (seal_write (with_write_channel c (ul_rb_write_state s)))
            (set_dl_states (seal_read (with_read_channel c (dl_rb_read_state s)))
                           (seal_write (with_write_channel c (dl_rb_write_state s)))
              (set_channel c s)))
      else mdelay;;; hand_shake_loop fuel
  end.

Definition uc_wiota_hand_shake_with_gateway : M unit :=
  fmod (λ s, set_hands (dl_buf_state s)
               {| hs_state := 1; hs_channel := hs_channel (ul_buf_state s) |} s);;;
  s <-- fget;;
  hand_shake_loop (S (length (pending s))).

Definition uc_wiota_ringbuffer_get_dl_write_idx : M Z :=
  s <-- fget;;
  let st := dl_rb_write_state s in
  if negb (ws_channel st =? ap_channel_id s) then fret 1
  else if write_crc st =? u16 (uc_wiota_crc8_calc (write_state_body st)) then
    fmod (λ s, set_rings (set_write (dl_rb s) (ws_mirror st) (ws_index st)) (ul_rb s) s);;;
    fret 0
  else fret 1.

Definition uc_wiota_ringbuffer_set_dl_read_idx : M unit :=
  fmod (λ s, set_dl_states
    (seal_read {| rs_index := read_index (dl_rb s); rs_mirror := read_mirror (dl_rb s);
                  rs_channel := ap_channel_id s; read_crc := read_crc (dl_rb_read_state s) |})
    (dl_rb_write_state s) s).

(** At most MAX_CHECK_CNT tries, a delay after every failed one. *)
Fixpoint get_ul_read_idx_loop (tries : nat) : M Z :=
  match tries with
  | O => fret 1
  | S tries =>
      s <-- fget;;
      let st := ul_rb_read_state s in
      if read_crc st =? u16 (uc_wiota_crc8_calc (read_state_body st)) then
        fmod (λ s, set_rings (dl_rb s) (set_read (ul_rb s) (rs_mirror st) (rs_index st)) s);;;
        fret 0
      else mdelay;;; get_ul_read_idx_loop tries
  end.

Definition uc_wiota_ringbuffer_get_ul_read_idx : M Z :=
  s <-- fget;;
  if negb (rs_channel (ul_rb_read_state s) =? ap_channel_id s) then fret 1
  else get_ul_read_idx_loop (Z.to_nat MAX_CHECK_CNT).

Definition uc_wiota_ringbuffer_set_ul_write_idx : M unit :=
  fmod (λ s, set_ul_states (ul_rb_read_state s)
    (seal_write {| ws_index := write_index (ul_rb s); ws_mirror := write_mirror (ul_rb s);
                   ws_channel := ap_channel_id s; write_crc := write_crc (ul_rb_write_state s) |}) s).

Definition uc_wiota_get_dl_data_len : M Z :=
  s <-- fget;;
  let dl_data_len := u16 (rt_ringbuffer_data_len (dl_rb s)) in
  if dl_data_len =? 0 then fret 0
  else if (dl_data_len <? cmd_header_size) || (dl_data_len >? buffer_size (dl_rb s)) then fret 0
  else fret dl_data_len.

(** ** Sending a message *)

(** struct cmd_send_para: the header and the (block, length) pairs. *)
Record cmd_send_para := { sp_header : cmd_header_t; sp_para : list (list Z * Z) }.

(** The header as it is completed before sending. *)
Definition complete_header (h : cmd_header_t) (len chan : Z) : cmd_header_t :=
  with_crc {| cmd_type := cmd_type h; cmd := cmd h; channel := chan mod 2 ^ 3; h_result := 0;
              h_reserved := h_reserved h; data_len := len; header_crc := header_crc h |}.

(** The copy loop over the parameters: block written so far and its fill level. *)
Fixpoint copy_paras (ps : list (list Z * Z)) (write_len : Z) (buf : list Z) : result (Z * list Z) :=
  match ps with
  | [] => Ok (write_len, buf)
  | (ptr, len) :: ps =>
      d <-? slice 0 len ptr;;
      buf <-? store write_len d buf;;
      copy_paras ps (u16 (write_len + len)) buf
  end.

Definition build_write_buf (h : cmd_header_t) (ps : list (list Z * Z))
    (data_len align_data_len total_len : Z) : result (Z * list Z) :=
  buf <-? store 0 (header_bytes h) (replicate (Z.to_nat total_len) 0);;
  r <-? copy_paras ps cmd_header_size buf;;
  let write_len := u16 (r.1 + (align_data_len - data_len)) in
  covered <-? slice 0 write_len r.2;;
  buf <-? store write_len (le_bytes 4 (uc_wiota_crc32_calc covered)) r.2;;
  Ok (u16 (write_len + UC_CRC32_LEN), buf).

Definition para_data_len (ps : list (list Z * Z)) : Z :=
  foldl (λ acc p, u16 (acc + p.2)) 0 ps.

(** The second half of sending: take over the reader position the gateway
    published, put the block, announce the new writer position. *)
Definition ul_send (write_buf : list Z) (write_len : Z) : M Z :=
  ok <-- uc_wiota_ringbuffer_get_ul_read_idx;;
  if ok =? 0 then
    s <-- fget;;
    r <-- flift (uc_wiota_ringbuffer_put (ul_rb s) write_buf write_len);;
    fmod (λ s, set_rings (dl_rb s) r.2 s);;;
    uc_wiota_ringbuffer_set_ul_write_idx;;;
    uc_wiota_enable_ul_irq;;;
    fret 0
  else fret 1.

(** RT_EFULL of rtdef.h is 3. *)
Definition uc_wiota_send_data_to_gateway (ci : cmd_send_para) : M Z :=
  let data_len := para_data_len (sp_para ci) in
  let align_data_len := u16 (RT_ALIGN data_len RING_BUFFER_ALIGN_SIZE) in
  chan <-- uc_wiota_get_channel_id;;
  let h := complete_header (sp_header ci) data_len chan in
  if align_data_len >? 0 then
    let total_len := u16 (u16 (cmd_header_size + align_data_len) + UC_CRC32_LEN) in
    ok <-- rt_malloc;;
    if ok : bool then
      r <-- flift (build_write_buf h (sp_para ci) data_len align_data_len total_len);;
      ul_send r.2 r.1
    else fret (-3)
  else ul_send (header_bytes h) cmd_header_size.
End Link.

(** ** What is sent *)

(** The parameters describe readable bytes. *)
Definition para_ok (p : list Z * Z) : Prop := 0 <= p.2 <= zlen p.1.

Definition para_bytes (ps : list (list Z * Z)) : list Z :=
  concat (map (λ p : list Z * Z, take (Z.to_nat p.2) p.1) ps).

Lemma zlen_para p : para_ok p → zlen (take (Z.to_nat p.2) p.1) = p.2.
Proof. destruct p as [ptr len]. unfold para_ok, zlen. simpl. intros. rewrite length_take. lia. Qed.

Lemma para_data_len_spec ps acc :
  Forall para_ok ps → 0 <= acc → acc + zlen (para_bytes ps) < 65536 →
  foldl (λ a p, u16 (a + p.2)) acc ps = acc + zlen (para_bytes ps).
Proof.
  intros H. revert acc. induction H as [|p ps Hp Hps IH]; intros acc Hacc Hb.
  - cbn. unfold para_bytes, zlen. simpl. lia.
  - unfold para_bytes in *. cbn [map concat foldl] in *. rewrite zlen_app, zlen_para in * by done.
    pose proof (zlen_nonneg (concat (map (λ p, take (Z.to_nat p.2) p.1) ps))).
    destruct Hp. rewrite u16_id by (unfold is_u16; lia). rewrite IH; lia.
Qed.

Lemma copy_paras_spec ps pre n :
  Forall para_ok ps → zlen pre + zlen (para_bytes ps) < 65536 →
  (length (para_bytes ps) ≤ n)%nat →
  copy_paras ps (zlen pre) (pre ++ replicate n 0) =
  Ok (zlen pre + zlen (para_bytes ps),
      pre ++ para_bytes ps ++ replicate (n - length (para_bytes ps)) 0).
Proof.
  intros H. revert pre n. induction H as [|[ptr len] ps Hp Hps IH]; intros pre n Hb Hn.
  - unfold para_bytes in *. cbn [copy_paras map concat] in *. cbn. rewrite Nat.sub_0_r, Z.add_0_r. done.
  - pose proof (zlen_para _ Hp) as Hz. unfold para_bytes in *. cbn [copy_paras map concat] in *.
    set (rest := concat (map _ ps)) in *.
    cbn [fst snd] in *. set (d := take (Z.to_nat len) ptr) in *.
    destruct Hp as [Hp1 Hp2]. cbn [fst snd] in Hp1, Hp2. pose proof (zlen_nonneg rest).
    rewrite length_app in Hn. rewrite zlen_app in Hb.
    rewrite slice_Ok by lia. cbn [rbind].
    assert (zsub 0 len ptr = d) as -> by (unfold zsub, d; rewrite drop_0; done).
    assert (n = length d + (n - length d))%nat as -> by lia.
    rewrite replicate_add, store_Ok; [|apply zlen_nonneg|].
    2: { unfold zlen. rewrite !length_app, !length_replicate. lia. }
    cbn [rbind].
    rewrite blit_app_mid by (auto; unfold zlen; rewrite length_replicate; done).
    rewrite u16_id by (unfold is_u16; pose proof (zlen_nonneg pre); lia).
    rewrite (app_assoc pre d). rewrite <- Hz, <- zlen_app.
    rewrite IH by (rewrite ?zlen_app; unfold zlen in *; lia).
    rewrite !zlen_app, length_app, <- !app_assoc. do 2 f_equal; [lia|].
    do 4 f_equal. lia.
Qed.

Section Sent.
Context {R : Type} `{LIB : WiotaLib R}.

Lemma build_write_buf_spec h ps :
  let d := para_bytes ps in
  Forall para_ok ps → d ≠ [] → zlen d <= 65500 →
  let al := RT_ALIGN (zlen d) 4 in
  build_write_buf h ps (zlen d) al (cmd_header_size + al + UC_CRC32_LEN) =
  Ok (cmd_header_size + al + UC_CRC32_LEN,
      (header_bytes h ++ pad4 d) ++ le_bytes 4 (uc_wiota_crc32_calc (header_bytes h ++ pad4 d))).
Proof.
  intros d Hps Hne Hb al. unfold build_write_buf, cmd_header_size, UC_CRC32_LEN.
  pose proof (RT_ALIGN_4_bounds (zlen d)) as Ha. fold al in Ha.
  pose proof (zlen_nonneg d).
  assert (zlen (header_bytes h) = 8) as Hh by reflexivity.
  set (hb := header_bytes h) in *.
  replace (Z.to_nat (8 + al + 4)) with (8 + Z.to_nat (al + 4))%nat by lia.
  rewrite replicate_add.
  rewrite store_Ok by (rewrite ?zlen_app, ?Hh; unfold zlen; rewrite ?length_replicate; lia).
  cbn [rbind].
  rewrite (blit_app_mid [] (replicate 8 0) (replicate (Z.to_nat (al + 4)) 0) hb) by done.
  rewrite app_nil_l, <- Hh at 1.
  rewrite copy_paras_spec by (auto; rewrite ?Hh; unfold zlen in *; fold d; lia).
  fold d. cbn [rbind fst snd]. rewrite Hh.
  rewrite u16_id by (unfold is_u16; lia).
  replace (8 + zlen d + (al - zlen d)) with (8 + al) by lia.
  assert (replicate (Z.to_nat (al + 4) - length d) 0 =
          replicate (Z.to_nat (al - zlen d)) 0 ++ replicate 4 0) as Hr.
  { rewrite <- replicate_add. f_equal. unfold zlen in *. lia. }
  rewrite Hr.
  replace (hb ++ d ++ replicate (Z.to_nat (al - zlen d)) 0 ++ replicate 4 0)
    with ((hb ++ pad4 d) ++ replicate 4 0) by (unfold pad4; rewrite <- !app_assoc; done).
  assert (zlen (hb ++ pad4 d) = 8 + al) as Hl by (rewrite zlen_app, zlen_pad4, Hh; done).
  rewrite slice_Ok by (rewrite ?(zlen_app (hb ++ pad4 d)), ?Hl; change (zlen (replicate 4 0)) with 4; change (zlen (le_bytes 4 _)) with 4; lia).
  cbn [rbind].
  assert (zsub 0 (8 + al) ((hb ++ pad4 d) ++ replicate 4 0) = hb ++ pad4 d) as ->.
  { unfold zsub. rewrite drop_0, <- Hl. unfold zlen. rewrite Nat2Z.id, take_app_length. done. }
  rewrite store_Ok by (rewrite ?(zlen_app (hb ++ pad4 d)), ?Hl; change (zlen (replicate 4 0)) with 4; change (zlen (le_bytes 4 _)) with 4; lia).
  cbn [rbind]. rewrite u16_id by (unfold is_u16; lia).
  rewrite <- (app_nil_r (replicate 4 0)), blit_app_mid by (rewrite ?Hl; done).
  rewrite app_nil_r. done.
Qed.

(** The step of the gateway that a delay lets happen. *)
Definition gw_tick (s : spi_state R) : spi_state R :=
  match pending s with
  | [] => s
  | w :: p => gw_apply w (set_env (mallocs s) p s)
  end.

(** The uplink ring with the reader position the gateway published. *)
Definition synced_ul (s : spi_state R) : rt_ringbuffer :=
  set_read (ul_rb s) (rs_mirror (ul_rb_read_state s)) (rs_index (ul_rb_read_state s)).

(** The state in which the uplink ring [rb] has been announced. *)
Definition published (rb : rt_ringbuffer) (s : spi_state R) : spi_state R :=
  set_irq_cnts (dl_irq_cnt s) (u32 (ul_irq_cnt s + 1))
    (set_ul_states (ul_rb_read_state s)
       (seal_write {| ws_index := write_index rb; ws_mirror := write_mirror rb;
                      ws_channel := ap_channel_id s;
                      write_crc := write_crc (ul_rb_write_state s) |})
       (set_rings (dl_rb s) rb s)).

Definition malloc_ok (s : spi_state R) : Prop :=
  match mallocs s with [] => True | b :: _ => b = true end.

Definition malloc_next (need : bool) (s : spi_state R) : spi_state R :=
  if need then set_env (tail (mallocs s)) (pending s) s else s.

(** The gateway's reader position is for this channel and its checksum is right. *)
Record link_in_sync (s : spi_state R) : Prop := {
  sync_channel : rs_channel (ul_rb_read_state s) = ap_channel_id s;
  sync_crc : read_crc (ul_rb_read_state s) = u16 (uc_wiota_crc8_calc (read_state_body (ul_rb_read_state s)));
  sync_wf : rb_wf (synced_ul s)
}.

Lemma malloc_next_id s : mallocs s = [] → malloc_next true s = s.
Proof. destruct s; simpl. intros ->. done. Qed.

Lemma rt_malloc_ok s : malloc_ok s → rt_malloc s = Ok (true, malloc_next true s).
Proof.
  unfold malloc_ok, rt_malloc. destruct (mallocs s) eqn:E.
  - rewrite malloc_next_id by done. done.
  - intros ->. unfold malloc_next. rewrite E. done.
Qed.

Lemma ul_send_put s buf n w rb :
  link_in_sync s → uc_wiota_ringbuffer_put (synced_ul s) buf n = Ok (w, rb) →
  ul_send buf n s = Ok (0, gw_tick (published rb s)).
Proof.
  intros [Hc Hcrc _] Hput. unfold ul_send, uc_wiota_ringbuffer_get_ul_read_idx, fbind, fget.
  rewrite Hc, Z.eqb_refl. cbn [negb]. change (Z.to_nat MAX_CHECK_CNT) with 2%nat.
  cbn [get_ul_read_idx_loop]. unfold fbind, fget. rewrite Hcrc, Z.eqb_refl.
  unfold fmod, fret, flift. cbn [Z.eqb ul_rb set_rings]. fold (synced_ul s). rewrite Hput.
  unfold uc_wiota_enable_ul_irq, mdelay, fbind, fmod, gw_tick, published. simpl.
  destruct (pending s); done.
Qed.

(** What [uc_wiota_send_data_to_gateway] writes, as one block. *)
Lemma send_data_frame ci s :
  let d := para_bytes (sp_para ci) in
  let h := complete_header (sp_header ci) (zlen d) (ap_channel_id s) in
  Forall para_ok (sp_para ci) → zlen d <= 65500 → malloc_ok s →
  uc_wiota_send_data_to_gateway ci s =
  ul_send (frame h d) (zlen (frame h d)) (malloc_next (bool_decide (d ≠ [])) s).
Proof.
  intros d h Hps Hb Hm. unfold uc_wiota_send_data_to_gateway.
  unfold para_data_len. rewrite para_data_len_spec by (auto; fold d; lia). fold d.
  rewrite Z.add_0_l. pose proof (zlen_nonneg d). rewrite align_u16 by lia.
  change RING_BUFFER_ALIGN_SIZE with 4.
  pose proof (RT_ALIGN_4_bounds (zlen d)). pose proof (RT_ALIGN_4_mod (zlen d)).
  unfold fbind at 1. unfold uc_wiota_get_channel_id, fgets. fold h. rewrite zlen_frame.
  destruct (decide (d = [])) as [Hd|Hd].
  - rewrite bool_decide_eq_false_2 by auto. rewrite Hd. reflexivity.
  - assert (0 < zlen d) by (destruct d; [done|]; unfold zlen; simpl; lia).
    rewrite bool_decide_eq_true_2 by done.
    replace (RT_ALIGN (zlen d) 4 >? 0) with true by (symmetry; apply Z.gtb_lt; lia).
    unfold fbind at 1. rewrite rt_malloc_ok by done.
    unfold cmd_header_size, UC_CRC32_LEN.
    rewrite (u16_id (8 + _)), (u16_id (8 + _ + 4)) by (unfold is_u16; lia).
    unfold fbind at 1, flift. rewrite build_write_buf_spec by done. fold d.
    unfold frame. destruct d; [done|]. done.
Qed.

Lemma frame_align h d : zlen d <= 65500 →
  0 < zlen (frame h d) <= 65520 ∧ RT_ALIGN (zlen (frame h d)) 4 = zlen (frame h d).
Proof.
  intros Hd. pose proof (zlen_nonneg d). pose proof (RT_ALIGN_4_bounds (zlen d)).
  pose proof (RT_ALIGN_4_mod (zlen d)). rewrite zlen_frame. destruct d as [|b d]; [done|].
  set (l := b :: d) in *. unfold UC_CRC32_LEN. split; [lia|]. apply RT_ALIGN_4_id.
  Z.div_mod_to_equations. lia.
Qed.

Lemma malloc_next_sync n s : link_in_sync s → link_in_sync (malloc_next n s).
Proof. destruct n; simpl; [|done]. intros [? ? ?]. split; done. Qed.

Lemma malloc_next_fields n s : synced_ul (malloc_next n s) = synced_ul s.
Proof. destruct n; done. Qed.
End Sent.

(** ** Properties of sending *)

Section SendTheorems.
Context {R : Type} `{LIB : WiotaLib R}.
Implicit Types (s : spi_state R) (ci : cmd_send_para).

(** What is put on the ring for [ci], given the channel. *)
Definition ci_frame (ci : cmd_send_para) (chan : Z) : list Z :=
  let d := para_bytes (sp_para ci) in frame (complete_header (sp_header ci) (zlen d) chan) d.

Lemma send_data_fits ci s :
  Forall para_ok (sp_para ci) → zlen (para_bytes (sp_para ci)) <= 65500 →
  malloc_ok s → link_in_sync s →
  zlen (ci_frame ci (ap_channel_id s)) <= rt_ringbuffer_space_len (synced_ul s) →
  ∃ rb need,
    uc_wiota_send_data_to_gateway ci s = Ok (0, gw_tick (published rb (malloc_next need s))) ∧
    rb_wf rb ∧
    rb_content rb = rb_content (synced_ul s) ++ ci_frame ci (ap_channel_id s) ∧
    read_index rb = read_index (synced_ul s) ∧ read_mirror rb = read_mirror (synced_ul s) ∧
    zlen (buffer_ptr rb) = zlen (buffer_ptr (ul_rb s)) ∧ buffer_size rb = buffer_size (ul_rb s) ∧
    drop (Z.to_nat (buffer_size (ul_rb s))) (buffer_ptr rb) =
    drop (Z.to_nat (buffer_size (ul_rb s))) (buffer_ptr (ul_rb s)).
Proof.
  intros Hps Hb Hm Hsync Hfit. rewrite send_data_frame by done. fold (ci_frame ci (ap_channel_id s)).
  destruct (frame_align (complete_header (sp_header ci) (zlen (para_bytes (sp_para ci)))
    (ap_channel_id s)) (para_bytes (sp_para ci)) Hb) as [Hlen Hal].
  fold (ci_frame ci (ap_channel_id s)) in Hlen, Hal. set (f := ci_frame ci _) in *.
  destruct (put_space (synced_ul s) f (zlen f) (sync_wf s Hsync))
    as (rb & Hput & Hwf & Hcont & Hri & Hrm & _);
    unfold RING_BUFFER_ALIGN_SIZE; try lia.
  eexists rb, _. split; [|split_and!]; try done.
  - eapply ul_send_put; [by apply malloc_next_sync|]. rewrite malloc_next_fields. exact Hput.
  - rewrite Hcont. unfold put_bytes, RING_BUFFER_ALIGN_SIZE. rewrite Hal.
    unfold zlen. rewrite Nat2Z.id, firstn_all. done.
  - apply (put_block _ _ _ _ _ Hput).
  - apply (put_block _ _ _ _ _ Hput).
  - apply (put_tail _ _ _ _ _ (sync_wf s Hsync) Hput).
Qed.

Lemma send_data_full ci s :
  Forall para_ok (sp_para ci) → zlen (para_bytes (sp_para ci)) <= 65500 →
  malloc_ok s → link_in_sync s →
  rt_ringbuffer_space_len (synced_ul s) < zlen (ci_frame ci (ap_channel_id s)) →
  ∃ need, uc_wiota_send_data_to_gateway ci s =
          Ok (0, gw_tick (published (synced_ul s) (malloc_next need s))).
Proof.
  intros Hps Hb Hm Hsync Hfull. rewrite send_data_frame by done. fold (ci_frame ci (ap_channel_id s)).
  destruct (frame_align (complete_header (sp_header ci) (zlen (para_bytes (sp_para ci)))
    (ap_channel_id s)) (para_bytes (sp_para ci)) Hb) as [Hlen Hal].
  fold (ci_frame ci (ap_channel_id s)) in Hlen, Hal. set (f := ci_frame ci _) in *.
  eexists. eapply ul_send_put; [by apply malloc_next_sync|]. rewrite malloc_next_fields.
  apply put_full; [apply Hsync|lia|]. right. unfold RING_BUFFER_ALIGN_SIZE. lia.
Qed.

(** Without a valid reader position after MAX_CHECK_CNT looks, nothing is written. *)
Lemma ul_read_idx_bad_channel s :
  rs_channel (ul_rb_read_state s) ≠ ap_channel_id s →
  uc_wiota_ringbuffer_get_ul_read_idx s = Ok (1, s).
Proof.
  intros H. unfold uc_wiota_ringbuffer_get_ul_read_idx, fbind, fget.
  rewrite (proj2 (Z.eqb_neq _ _)) by done. done.
Qed.

Lemma send_data_other_channel ci s :
  Forall para_ok (sp_para ci) → zlen (para_bytes (sp_para ci)) <= 65500 →
  malloc_ok s → rs_channel (ul_rb_read_state s) ≠ ap_channel_id s →
  ∃ need, uc_wiota_send_data_to_gateway ci s = Ok (1, malloc_next need s).
Proof.
  intros. rewrite send_data_frame by done. eexists. unfold ul_send, fbind.
  rewrite ul_read_idx_bad_channel; [done|]. destruct (bool_decide _); done.
Qed.
End SendTheorems.

Section SendProperties.
Context {R : Type} `{LIB : WiotaLib R}.


(** A message that does not fit is lost without an error: the function
    returns 0 as if it had been sent, and raises the interrupt line, but the
    ring keeps its content. *)
Theorem send_full_reports_success ci (s : spi_state R) :
  Forall para_ok (sp_para ci) → zlen (para_bytes (sp_para ci)) <= 65500 →
  malloc_ok s → link_in_sync s →
  rt_ringbuffer_space_len (synced_ul s) < zlen (ci_frame ci (ap_channel_id s)) →
  ∃ need, uc_wiota_send_data_to_gateway ci s =
          Ok (0, gw_tick (published (synced_ul s) (malloc_next need s))).
Proof. apply send_data_full. Qed.

(** While the reader position in shared memory belongs to another
    channel, nothing is written and the failure is reported. *)
Theorem send_other_channel_fails ci (s : spi_state R) :
  Forall para_ok (sp_para ci) → zlen (para_bytes (sp_para ci)) <= 65500 →
  malloc_ok s → rs_channel (ul_rb_read_state s) ≠ ap_channel_id s →
  ∃ need, uc_wiota_send_data_to_gateway ci s = Ok (1, malloc_next need s).
Proof. apply send_data_other_channel. Qed.
End SendProperties.
