(* ===== verification/SpiCmd.v ===== *)
(** * Commands of the gateway and reports to it

    The message handlers [uc_wiota_handle_{exec,setup,query,send,other}_msg]
    and the callbacks that report to the gateway, of
    PS/app/src/uc_wiota_spi_com.c.  A handler gets [sub_data], the part of the
    received block that starts at its message; a field of the message is read
    at its offset in the structure, and reading past the block is a fault. *)

From S2P Require Import Prelude RingBuffer WiotaApi SpiFrame SpiLink.

(** ** Command codes *)

Inductive uc_wiota_exec_cmd_e : Set :=
| WIOTA_INIT | WIOTA_RUN | WIOTA_EXIT | WIOTA_REBOOT | WIOTA_DFE_COUNTER_FLAG_SET
| WIOTA_DFE_COUNTER_SEND | WIOTA_PAGING_TX_START | WIOTA_MASTER_READY | WIOTA_TS_START
| WIOTA_TS_STOP | WIOTA_REG_FN_REFRESH_CB.

Inductive uc_wiota_setup_cmd_e : Set :=
| WIOTA_ACT_SET | WIOTA_CONFIG_SET | WIOTA_POWER_SET | WIOTA_FREQ_SET | WIOTA_HOPPING_FREQ_SET
| WIOTA_HOPPING_MODE_SET | WIOTA_MAX_IOTE_NUM_SET | WIOTA_DATA_RATE_SET | WIOTA_BC_MCS_SET
| WIOTA_CRC_SET | WIOTA_LOG_SET | WIOTA_DEFAULT_DFE_SET | WIOTA_FB_ALIGN_SET
| WIOTA_PAGING_TX_SET | WIOTA_BC_FN_CYCLE_SET | WIOTA_BC_SEND_ROUND_SET | WIOTA_TS_FUNC_SET
| WIOTA_TS_CYCLE_SET | WIOTA_1588_SYNC_SET | WIOTA_PPS_SET | WIOTA_SINGLE_TONE_SET
| WIOTA_UL_SUBF_MODE_SET | WIOTA_SUBF_MODE_CFG_SET | WIOTA_SM_RESEND_TIMES_SET
| WIOTA_PAGING_RX_SET | WIOTA_AAGC_IDX_SET | WIOTA_BNACK_FUNC_SET
| WIOTA_OTA_LAST_SUBF_IDLE_SET | WIOTA_DL_RF_MODE_SET | WIOTA_PAGING_RX_ENTER
| WIOTA_AFH_FUNC_SET | WIOTA_PWM_CTRL_PA_SET | WIOTA_RAMP_POWER_SET.

Inductive uc_wiota_query_cmd_e : Set :=
| WIOTA_ACT_GET | WIOTA_CONFIG_GET | WIOTA_FREQ_GET | WIOTA_MAX_IOTE_NUM_GET
| WIOTA_DATA_RATE_GET | WIOTA_BC_MCS_GET | WIOTA_CRC_GET | WIOTA_FRAME_HEAD_DFE_GET
| WIOTA_DFE_COUNTER_GET | WIOTA_AP_STATE_GET | WIOTA_PAGING_TX_GET | WIOTA_BC_FN_CYCLE_GET
| WIOTA_BC_SEND_ROUND_GET | WIOTA_FRAME_LEN_GET | WIOTA_FRAME_NUM_GET | WIOTA_TS_FUNC_GET
| WIOTA_PPS_GET | WIOTA_OTA_LAST_SUBF_IDLE_GET | WIOTA_DL_RF_MODE_GET | WIOTA_AFH_FUNC_GET
| WIOTA_8288_MEM_GET.

Inductive uc_wiota_send_cmd_e : Set :=
| WIOTA_SEND_DATA | WIOTA_SEND_BC | WIOTA_SEND_MC | WIOTA_SCAN_FREQ | WIOTA_TEMP_QUERY
| WIOTA_SYNC_PAGING | WIOTA_RECV_SM_BY_FN.

Inductive uc_other_cmd_e : Set :=
| WIOTA_BL_ADD | WIOTA_BL_REMOVE | WIOTA_BL_GET | WIOTA_MC_ID_ADD | WIOTA_MC_ID_DEL
| WIOTA_VERSION_GET | WIOTA_ADD_DL_SUBF_DATA | WIOTA_MODULEID_GET | WIOTA_AFH_MAP_SET
| WIOTA_RAMP_POWER_CFG_SET.

Inductive uc_wiota_recv_cmd_e : Set :=
| WIOTA_RECV_DATA | WIOTA_PAGING_CTRL | WIOTA_DROP | WIOTA_TS_STATE | WIOTA_FN_REFRESH
| WIOTA_CCE_ABNORMAL.

Inductive uc_wiota_cmd_type_e : Set :=
| CMD_TYPE_EXEC | CMD_TYPE_SETUP | CMD_TYPE_QUERY | CMD_TYPE_OTHER | CMD_TYPE_SEND | CMD_TYPE_RECV.

#[export] Instance send_cmd_eq_dec : EqDecision uc_wiota_send_cmd_e.
Proof. solve_decision. Defined.

(** An enumeration lists its constructors in the order of their codes. *)
Class Enum (A : Type) := enum_values : list A.
Definition enum_of {A} `{Enum A} (z : Z) : option A := enum_values !! Z.to_nat z.

#[export] Instance exec_enum : Enum uc_wiota_exec_cmd_e :=
  [WIOTA_INIT; WIOTA_RUN; WIOTA_EXIT; WIOTA_REBOOT; WIOTA_DFE_COUNTER_FLAG_SET;
   WIOTA_DFE_COUNTER_SEND; WIOTA_PAGING_TX_START; WIOTA_MASTER_READY; WIOTA_TS_START;
   WIOTA_TS_STOP; WIOTA_REG_FN_REFRESH_CB].
#[export] Instance setup_enum : Enum uc_wiota_setup_cmd_e :=
  [WIOTA_ACT_SET; WIOTA_CONFIG_SET; WIOTA_POWER_SET; WIOTA_FREQ_SET; WIOTA_HOPPING_FREQ_SET;
   WIOTA_HOPPING_MODE_SET; WIOTA_MAX_IOTE_NUM_SET; WIOTA_DATA_RATE_SET; WIOTA_BC_MCS_SET;
   WIOTA_CRC_SET; WIOTA_LOG_SET; WIOTA_DEFAULT_DFE_SET; WIOTA_FB_ALIGN_SET;
   WIOTA_PAGING_TX_SET; WIOTA_BC_FN_CYCLE_SET; WIOTA_BC_SEND_ROUND_SET; WIOTA_TS_FUNC_SET;
   WIOTA_TS_CYCLE_SET; WIOTA_1588_SYNC_SET; WIOTA_PPS_SET; WIOTA_SINGLE_TONE_SET;
   WIOTA_UL_SUBF_MODE_SET; WIOTA_SUBF_MODE_CFG_SET; WIOTA_SM_RESEND_TIMES_SET;
   WIOTA_PAGING_RX_SET; WIOTA_AAGC_IDX_SET; WIOTA_BNACK_FUNC_SET;
   WIOTA_OTA_LAST_SUBF_IDLE_SET; WIOTA_DL_RF_MODE_SET; WIOTA_PAGING_RX_ENTER;
   WIOTA_AFH_FUNC_SET; WIOTA_PWM_CTRL_PA_SET; WIOTA_RAMP_POWER_SET].
#[export] Instance query_enum : Enum uc_wiota_query_cmd_e :=
  [WIOTA_ACT_GET; WIOTA_CONFIG_GET; WIOTA_FREQ_GET; WIOTA_MAX_IOTE_NUM_GET;
   WIOTA_DATA_RATE_GET; WIOTA_BC_MCS_GET; WIOTA_CRC_GET; WIOTA_FRAME_HEAD_DFE_GET;
   WIOTA_DFE_COUNTER_GET; WIOTA_AP_STATE_GET; WIOTA_PAGING_TX_GET; WIOTA_BC_FN_CYCLE_GET;
   WIOTA_BC_SEND_ROUND_GET; WIOTA_FRAME_LEN_GET; WIOTA_FRAME_NUM_GET; WIOTA_TS_FUNC_GET;
   WIOTA_PPS_GET; WIOTA_OTA_LAST_SUBF_IDLE_GET; WIOTA_DL_RF_MODE_GET; WIOTA_AFH_FUNC_GET;
   WIOTA_8288_MEM_GET].
#[export] Instance send_enum : Enum uc_wiota_send_cmd_e :=
  [WIOTA_SEND_DATA; WIOTA_SEND_BC; WIOTA_SEND_MC; WIOTA_SCAN_FREQ; WIOTA_TEMP_QUERY;
   WIOTA_SYNC_PAGING; WIOTA_RECV_SM_BY_FN].
#[export] Instance other_enum : Enum uc_other_cmd_e :=
  [WIOTA_BL_ADD; WIOTA_BL_REMOVE; WIOTA_BL_GET; WIOTA_MC_ID_ADD; WIOTA_MC_ID_DEL;
   WIOTA_VERSION_GET; WIOTA_ADD_DL_SUBF_DATA; WIOTA_MODULEID_GET; WIOTA_AFH_MAP_SET;
   WIOTA_RAMP_POWER_CFG_SET].
#[export] Instance cmd_type_enum : Enum uc_wiota_cmd_type_e :=
  [CMD_TYPE_EXEC; CMD_TYPE_SETUP; CMD_TYPE_QUERY; CMD_TYPE_OTHER; CMD_TYPE_SEND; CMD_TYPE_RECV].

Definition send_code (c : uc_wiota_send_cmd_e) : Z :=
  match c with
  | WIOTA_SEND_DATA => 0 | WIOTA_SEND_BC => 1 | WIOTA_SEND_MC => 2 | WIOTA_SCAN_FREQ => 3
  | WIOTA_TEMP_QUERY => 4 | WIOTA_SYNC_PAGING => 5 | WIOTA_RECV_SM_BY_FN => 6
  end.
Definition recv_code (c : uc_wiota_recv_cmd_e) : Z :=
  match c with
  | WIOTA_RECV_DATA => 0 | WIOTA_PAGING_CTRL => 1 | WIOTA_DROP => 2 | WIOTA_TS_STATE => 3
  | WIOTA_FN_REFRESH => 4 | WIOTA_CCE_ABNORMAL => 5
  end.
Definition type_code (c : uc_wiota_cmd_type_e) : Z :=
  match c with
  | CMD_TYPE_EXEC => 0 | CMD_TYPE_SETUP => 1 | CMD_TYPE_QUERY => 2 | CMD_TYPE_OTHER => 3
  | CMD_TYPE_SEND => 4 | CMD_TYPE_RECV => 5
  end.

(** ** Reports *)

(** A header before sending: command codes set, the rest still zero. *)
Definition mk_header (ct c : Z) : cmd_header_t :=
  {| cmd_type := ct mod 2 ^ 3; cmd := c mod 2 ^ 6; channel := 0; h_result := 0; h_reserved := 0;
     data_len := 0; header_crc := 0 |}.

(** An array of [n] bytes filled by the library. *)
Definition fit (n : nat) (l : list Z) : list Z := take n (l ++ replicate n 0).

(** A structure's bytes after its header, as the only parameter of a message. *)
Definition whole (b : list Z) : list (list Z * Z) := [(b, zlen b)].

Section Reports.
Context {R : Type} `{LIB : WiotaLib R}.
Local Abbreviation M := (FW (spi_state R)).
Local Open Scope fw_scope.

(** Sending where the only reaction to a failure is a log line. *)
Definition report (ct c : Z) (ps : list (list Z * Z)) : M unit :=
  uc_wiota_send_data_to_gateway {| sp_header := mk_header ct c; sp_para := ps |};;; fret tt.

Definition uc_wiota_recv_detail_callback (rd : uc_recv_detail_t) : M unit :=
  report (type_code CMD_TYPE_RECV) (recv_code WIOTA_RECV_DATA)
    [(le_bytes 4 (rd_user_id rd) ++ le_bytes 4 (rd_data_type rd) ++ le_bytes 2 (rd_data_len rd) ++
      le_bytes 1 (rd_rssi rd) ++ le_bytes 1 (rd_delay rd) ++ le_bytes 1 (rd_fn_cnt rd) ++
      le_bytes 1 (rd_group_idx rd) ++ le_bytes 1 (rd_burst_idx rd) ++ le_bytes 1 (rd_slot_idx rd) ++
      le_bytes 4 (rd_frame_num rd), 20);
     (rd_data rd, rd_data_len rd)].

Definition uc_wiota_paging_ctrl_callback (user_id burst_idx fn_index : Z) : M unit :=
  report (type_code CMD_TYPE_RECV) (recv_code WIOTA_PAGING_CTRL)
    (whole (le_bytes 4 user_id ++ le_bytes 4 burst_idx ++ le_bytes 4 fn_index)).

Definition uc_wiota_temp_callback (t : uc_temp_recv_t) : M unit :=
  report (type_code CMD_TYPE_SEND) (send_code WIOTA_TEMP_QUERY)
    (whole (le_bytes 2 (tr_temp t) ++ le_bytes 2 (tr_result t))).

Definition uc_wiota_handle_send_result (r : uc_send_recv_t) (cmd : uc_wiota_send_cmd_e) : M unit :=
  rc <-- uc_wiota_send_data_to_gateway
    {| sp_header := mk_header (type_code CMD_TYPE_SEND) (send_code cmd);
       sp_para := whole (le_bytes 4 (sr_user_id r) ++ le_bytes 4 (sr_data_id r) ++
                         le_bytes 4 (sr_result r)) |};;
  if negb (rc =? 0) then fret tt
  else if decide (cmd = WIOTA_SEND_DATA)
       then fmod (λ s, set_data_cnts (g_add_cnt s) (u32 (g_del_cnt s + 1)) s)
       else fret tt.

Definition uc_wiota_send_callback r : M unit := uc_wiota_handle_send_result r WIOTA_SEND_DATA.
Definition uc_wiota_send_bc_callback r : M unit := uc_wiota_handle_send_result r WIOTA_SEND_BC.
Definition uc_wiota_send_mc_callback r : M unit := uc_wiota_handle_send_result r WIOTA_SEND_MC.

Definition uc_wiota_scan_callback (r : uc_scan_recv_t) : M unit :=
  report (type_code CMD_TYPE_SEND) (send_code WIOTA_SCAN_FREQ)
    (whole (le_bytes 2 (sc_result r) ++ le_bytes 2 (sc_data_len r)) ++
     if sc_result r =? UC_OP_SUCC then [(sc_data r, sc_data_len r)] else []).

Definition uc_wiota_sync_paging_callback (r : uc_paging_recv_t) : M unit :=
  report (type_code CMD_TYPE_SEND) (send_code WIOTA_SYNC_PAGING)
    (whole (le_bytes 4 (pr_user_id r) ++ le_bytes 4 (pr_result r))).

Definition ts_info_bytes (t : uc_ts_info_t) : list Z :=
  concat (map (le_bytes 4)
    [ts_state t; ts_frame_head t; ts_frame_head_offset t; ts_cur_time_s t; ts_cur_time_us t;
     ts_pos_x t; ts_pos_y t; ts_pos_z t; ts_longitude t; ts_latitude t; ts_altitude t]).

Definition uc_wiota_time_service_info_cb (t : uc_ts_info_t) : M unit :=
  if (ts_state t =? TIME_SERVICE_INIT_END) || (ts_state t =? TIME_SERVICE_ALIGN_END)
  then report (type_code CMD_TYPE_RECV) (recv_code WIOTA_TS_STATE) (whole (ts_info_bytes t))
  else fret tt.

Definition uc_wiota_fn_refresh (frame_num : Z) : M unit :=
  uc_wiota_store_frame_num frame_num;;;
  (if frame_num mod 5 =? 0 then uc_wiota_send_heart_msg frame_num else fret tt);;;
  s <-- fget;;
  if negb (g_report_fn_to_gw s =? 0)
  then report (type_code CMD_TYPE_RECV) (recv_code WIOTA_FN_REFRESH) (whole (le_bytes 4 frame_num))
  else fret tt.

(** The structure is padded to a multiple of four bytes. *)
Definition uc_wiota_cce_abnormal_callback (dfe_err_cnt rf_err_cnt : Z) : M unit :=
  report (type_code CMD_TYPE_RECV) (recv_code WIOTA_CCE_ABNORMAL)
    (whole (le_bytes 1 dfe_err_cnt ++ le_bytes 1 rf_err_cnt ++ [0; 0])).

Definition wiota_cmd_exec_result (cmd_type cmd : Z) : M unit := report cmd_type cmd [].
End Reports.

(** ** Handlers *)

Section Handlers.
Context {R : Type} `{LIB : WiotaLib R}.
Local Abbreviation M := (FW (spi_state R)).
Local Open Scope fw_scope.

(** A call whose result is not looked at. *)
Definition ucall {T} (e : wiotaE T) : M unit := wcall e;;; fret tt.

(** cmd_header of the message. *)
Definition msg_header (sub_data : list Z) : M cmd_header_t :=
  b <-- flift (slice 0 cmd_header_size sub_data);; fret (parse_header b).

Definition uc_wiota_handle_exec_msg (sub_data : list Z) : M unit :=
  h <-- msg_header sub_data;;
  match enum_of (cmd h) with
  | Some WIOTA_INIT =>
      func_gnss <-- wcall (uc_wiota_get_time_service_func TIME_SERVICE_GNSS);;
      func_1588 <-- wcall (uc_wiota_get_time_service_func TIME_SERVICE_1588_PS);;
      func_sync <-- wcall (uc_wiota_get_time_service_func TIME_SERVICE_SYNC_ASSISTANT);;
      (if negb (func_gnss =? 0) || negb (func_1588 =? 0) || negb (func_sync =? 0)
       then ucall (uc_wiota_register_callback cb_time_service_info) else fret tt);;;
      ucall uc_wiota_init
  | Some WIOTA_RUN =>
      ucall uc_wiota_run;;;
      ucall (uc_wiota_register_callback cb_recv_detail);;;
      ucall (uc_wiota_register_callback cb_paging_ctrl);;;
      ucall (uc_wiota_register_callback cb_fn_refresh);;;
      ucall (uc_wiota_register_callback cb_cce_abnormal)
  | Some WIOTA_EXIT => ucall uc_wiota_exit
  | Some WIOTA_REBOOT =>
      wiota_cmd_exec_result (cmd_type h) (cmd h);;; mdelay;;; ucall uc8088_chip_reset
  | Some WIOTA_DFE_COUNTER_FLAG_SET => ucall uc_wiota_set_dfe_counter_flag
  | Some WIOTA_DFE_COUNTER_SEND => ucall uc_wiota_master_control_bc_dfe_counter
  | Some WIOTA_PAGING_TX_START => ucall uc_wiota_paging_tx_start
  | Some WIOTA_MASTER_READY => fret tt
  | Some WIOTA_TS_START => ucall uc_wiota_time_service_start
  | Some WIOTA_TS_STOP => ucall uc_wiota_time_service_stop
  | Some WIOTA_REG_FN_REFRESH_CB => fmod (set_report 1)
  | None => fret tt
  end;;;
  wiota_cmd_exec_result (cmd_type h) (cmd h).

(** in_value[i] of a setup or query message. *)
Definition iv (sub_data : list Z) (i : Z) : M Z := flift (in_value sub_data i).

Fixpoint ivs (sub_data : list Z) (i : Z) (n : nat) : M (list Z) :=
  match n with
  | O => fret []
  | S n => v <-- iv sub_data i;; vs <-- ivs sub_data (i + 1) n;; fret (v :: vs)
  end.

(** A setting whose arguments are the first one, two or three values. *)
Definition set1 (sub_data : list Z) (f : Z → wiotaE Z) : M unit :=
  a <-- iv sub_data 0;; ucall (f a).
Definition set2 (sub_data : list Z) (f : Z → Z → wiotaE Z) : M unit :=
  a <-- iv sub_data 0;; b <-- iv sub_data 1;; ucall (f a b).
Definition set3 (sub_data : list Z) (f : Z → Z → Z → wiotaE Z) : M unit :=
  a <-- iv sub_data 0;; b <-- iv sub_data 1;; c <-- iv sub_data 2;; ucall (f a b c).

(** The structures filled from [in_value], field by field. *)
Definition setup_config (c : sub_system_config_t) (v : list Z) : sub_system_config_t :=
  let w i := nth i v 0 in
  {| ap_tx_power := s8 (w 0%nat); id_len := u8 (w 1%nat); pp := u8 (w 2%nat);
     symbol_length := u8 (w 3%nat); dlul_ratio := u8 (w 4%nat); bt_value := u8 (w 5%nat);
     group_number := u8 (w 6%nat); spectrum_idx := u8 (w 7%nat); old_subsys_v := u8 (w 8%nat);
     bitscb := u8 (w 9%nat); freq_idx := u8 (w 11%nat); cfg_reserved := cfg_reserved c;
     subsystem_id := u32 (w 10%nat) |}.

Definition setup_paging_tx (v : list Z) : uc_lpm_tx_cfg_t :=
  let w i := nth i v 0 in
  {| tx_freq := u8 (w 0%nat); tx_spectrum_idx := u8 (w 1%nat); tx_bandwidth := u8 (w 2%nat);
     tx_symbol_length := u8 (w 3%nat); tx_awaken_id := u16 (w 4%nat); tx_mode := u8 (w 6%nat);
     tx_send_time := u32 (w 5%nat) |}.

Definition setup_subf_cfg (v : list Z) : uc_subf_cfg_t :=
  let w i := nth i v 0 in
  {| ul_vfs := u8 (w 0%nat); dl_vfs := u8 (w 1%nat); sf_send_round := u8 (w 2%nat);
     once_len := u8 (w 3%nat) |}.

Definition setup_paging_rx (v : list Z) : uc_lpm_rx_cfg_t :=
  let w i := nth i v 0 in
  {| rx_freq := u8 (w 0%nat); rx_spectrum_idx := u8 (w 1%nat); rx_bandwidth := u8 (w 2%nat);
     rx_symbol_length := u8 (w 3%nat); rx_lpm_nlen := u8 (w 4%nat); rx_lpm_utimes := u8 (w 5%nat);
     rx_threshold := u8 (w 6%nat); rx_extra_flag := u8 (w 7%nat); rx_awaken_id := u16 (w 8%nat);
     rx_detect_period := u32 (w 9%nat); rx_extra_period := u32 (w 10%nat); rx_mode := u8 (w 11%nat);
     rx_period_multiple := u8 (w 12%nat); rx_awaken_id_another := u16 (w 13%nat) |}.

Definition uc_wiota_handle_setup_msg (sub_data : list Z) : M unit :=
  h <-- msg_header sub_data;;
  match enum_of (cmd h) with
  | Some WIOTA_ACT_SET => set1 sub_data uc_wiota_set_active_time
  | Some WIOTA_CONFIG_SET =>
      c <-- wcall uc_wiota_get_system_config;;
      v <-- ivs sub_data 0 12;;
      ucall (uc_wiota_set_system_config (setup_config c v))
  | Some WIOTA_POWER_SET => set1 sub_data (λ a, uc_wiota_set_ap_tx_power (s8 a))
  | Some WIOTA_FREQ_SET => set1 sub_data (λ a, uc_wiota_set_freq_info (u8 a))
  | Some WIOTA_HOPPING_FREQ_SET | Some WIOTA_HOPPING_MODE_SET => fret tt
  | Some WIOTA_MAX_IOTE_NUM_SET =>
      set1 sub_data (λ a, uc_wiota_set_max_num_of_active_iote (u16 a))
  | Some WIOTA_DATA_RATE_SET => set2 sub_data uc_wiota_set_data_rate
  | Some WIOTA_BC_MCS_SET => set1 sub_data uc_wiota_set_broadcast_mcs
  | Some WIOTA_CRC_SET => set1 sub_data (λ a, uc_wiota_set_crc (u16 a))
  | Some WIOTA_LOG_SET => set2 sub_data (λ a b, uc_wiota_log_switch a (u8 b))
  | Some WIOTA_DEFAULT_DFE_SET => set1 sub_data uc_wiota_set_default_dfe
  | Some WIOTA_FB_ALIGN_SET => set1 sub_data (λ a, uc_wiota_set_frame_boundary_align_func (u8 a))
  | Some WIOTA_PAGING_TX_SET =>
      v <-- ivs sub_data 0 7;; ucall (uc_wiota_set_paging_tx_cfg (setup_paging_tx v))
  | Some WIOTA_BC_FN_CYCLE_SET => set1 sub_data (λ a, uc_wiota_set_broadcast_fn_cycle (u8 a))
  | Some WIOTA_BC_SEND_ROUND_SET => set1 sub_data (λ a, uc_wiota_set_broadcast_send_round (u8 a))
  | Some WIOTA_TS_FUNC_SET => set2 sub_data (λ a b, uc_wiota_set_time_service_func a (u8 b))
  | Some WIOTA_TS_CYCLE_SET => set1 sub_data (λ a, uc_wiota_set_time_service_cycle (u8 a))
  | Some WIOTA_1588_SYNC_SET => set2 sub_data uc_wiota_set_1588_protocol_rtc
  | Some WIOTA_PPS_SET => set1 sub_data (λ a, uc_wiota_set_sync_assistant_pps (u8 a))
  | Some WIOTA_SINGLE_TONE_SET => set1 sub_data uc_wiota_set_single_tone
  | Some WIOTA_UL_SUBF_MODE_SET =>
      set3 sub_data (λ a b c, uc_wiota_set_ul_subframe_mode (u8 a) b (u8 c))
  | Some WIOTA_SUBF_MODE_CFG_SET =>
      v <-- ivs sub_data 0 4;; ucall (uc_wiota_set_subframe_mode_cfg (setup_subf_cfg v))
  | Some WIOTA_SM_RESEND_TIMES_SET => set1 sub_data (λ a, uc_wiota_set_sm_resend_times (u8 a))
  | Some WIOTA_PAGING_RX_SET =>
      v <-- ivs sub_data 0 14;; ucall (uc_wiota_set_paging_rx_cfg (setup_paging_rx v))
  | Some WIOTA_PAGING_RX_ENTER =>
      wiota_cmd_exec_result (cmd_type h) (cmd h);;;
      set2 sub_data (λ a b, uc_wiota_paging_rx_enter (u8 a) b)
  | Some WIOTA_AAGC_IDX_SET => set1 sub_data (λ a, uc_wiota_set_aagc_idx (u8 a))
  | Some WIOTA_BNACK_FUNC_SET => set1 sub_data (λ a, uc_wiota_set_bnack_func (s32 a))
  | Some WIOTA_OTA_LAST_SUBF_IDLE_SET =>
      set1 sub_data (λ a, uc_wiota_set_ota_last_subframe_idle (u8 a))
  | Some WIOTA_DL_RF_MODE_SET => set1 sub_data (λ a, uc_wiota_set_dl_rf_mode (u8 a))
  | Some WIOTA_AFH_FUNC_SET => set1 sub_data (λ a, uc_wiota_set_afh_func (u8 a))
  | Some WIOTA_PWM_CTRL_PA_SET => set2 sub_data uc_wiota_set_pwm_ctrl_pa
  | Some WIOTA_RAMP_POWER_SET => set1 sub_data uc_wiota_set_ramp_power
  | None => fret tt
  end;;;
  wiota_cmd_exec_result (cmd_type h) (cmd h).

(** The words set in out_value, in the zeroed array of 14. *)
Definition out_values (vs : list Z) : list Z :=
  concat (map (le_bytes 4) vs) ++ replicate (56 - 4 * length vs) 0.

Definition get1 (e : wiotaE Z) : M (list Z * Z) := v <-- wcall e;; fret (out_values [v], 1).

(** out_value and out_value_num after the switch of the query handler. *)
Definition query_values (c : option uc_wiota_query_cmd_e) (sub_data : list Z) : M (list Z * Z) :=
  match c with
  | Some WIOTA_ACT_GET => get1 uc_wiota_get_active_time
  | Some WIOTA_CONFIG_GET =>
      c <-- wcall uc_wiota_get_system_config;;
      fret (out_values [ap_tx_power c; id_len c; pp c; symbol_length c; dlul_ratio c; bt_value c;
                        group_number c; spectrum_idx c; old_subsys_v c; bitscb c;
                        subsystem_id c; freq_idx c], 12)
  | Some WIOTA_FREQ_GET => get1 uc_wiota_get_freq_info
  | Some WIOTA_MAX_IOTE_NUM_GET => get1 uc_wiota_get_max_num_of_active_iote
  | Some WIOTA_DATA_RATE_GET => a <-- iv sub_data 0;; get1 (uc_wiota_get_data_rate_value a)
  | Some WIOTA_BC_MCS_GET => get1 uc_wiota_get_broadcast_mcs
  | Some WIOTA_CRC_GET => get1 uc_wiota_get_crc
  | Some WIOTA_FRAME_HEAD_DFE_GET => get1 uc_wiota_get_frame_head_dfe
  | Some WIOTA_DFE_COUNTER_GET => a <-- iv sub_data 0;; get1 (uc_wiota_read_dfe_counter (u8 a))
  | Some WIOTA_AP_STATE_GET => get1 uc_wiota_get_ap8288_state
  | Some WIOTA_PAGING_TX_GET =>
      c <-- wcall uc_wiota_get_paging_tx_cfg;;
      fret (out_values [tx_freq c; tx_spectrum_idx c; tx_bandwidth c; tx_symbol_length c;
                        tx_awaken_id c; tx_send_time c], 6)
  | Some WIOTA_BC_FN_CYCLE_GET => get1 uc_wiota_get_broadcast_fn_cycle
  | Some WIOTA_BC_SEND_ROUND_GET => get1 uc_wiota_get_broadcast_send_round
  | Some WIOTA_FRAME_LEN_GET => get1 uc_wiota_get_frame_len
  | Some WIOTA_FRAME_NUM_GET => get1 uc_wiota_get_frame_num
  | Some WIOTA_TS_FUNC_GET =>
      a <-- wcall (uc_wiota_get_time_service_func TIME_SERVICE_GNSS);;
      b <-- wcall (uc_wiota_get_time_service_func TIME_SERVICE_1588_PS);;
      c <-- wcall (uc_wiota_get_time_service_func TIME_SERVICE_SYNC_ASSISTANT);;
      fret (out_values [a; b; c], 1)
  | Some WIOTA_PPS_GET => get1 uc_wiota_get_sync_assistant_pps
  | Some WIOTA_OTA_LAST_SUBF_IDLE_GET => get1 uc_wiota_get_ota_last_subframe_idle
  | Some WIOTA_DL_RF_MODE_GET => get1 uc_wiota_get_dl_rf_mode
  | Some WIOTA_AFH_FUNC_GET => get1 uc_wiota_get_afh_func
  | Some WIOTA_8288_MEM_GET =>
      a <-- iv sub_data 0;;
      m <-- wcall (uc_wiota_read_value_from_mem 1 a 4);;
      fret (fit 4 m.2 ++ replicate 52 0, 1)
  | None => fret (out_values [], 1)
  end.

Definition uc_wiota_handle_query_msg (sub_data : list Z) : M unit :=
  h <-- msg_header sub_data;;
  r <-- query_values (enum_of (cmd h)) sub_data;;
  report (cmd_type h) (cmd h) [(r.1, u16 (r.2 * 4))].

(** ** Messages that start a transmission *)

Definition rd8 off sub_data : M Z := flift (u8_at off sub_data).
Definition rd16 off sub_data : M Z := flift (u16_at off sub_data).
Definition rd32 off sub_data : M Z := flift (u32_at off sub_data).
Definition rdn off len sub_data : M (list Z) := flift (slice off len sub_data).

Definition unless_block (is_block : Z) (cb : callback) : option callback :=
  if negb (is_block =? 0) then None else Some cb.

(** Unicast, multicast and broadcast data, send_info_t. *)
Definition handle_send_data (sub_data : list Z) (c : uc_wiota_send_cmd_e) : M unit :=
  user_id <-- rd32 8 sub_data;;
  timeout <-- rd32 12 sub_data;;
  data_id <-- rd32 16 sub_data;;
  order_business <-- rd8 20 sub_data;;
  is_block <-- rd8 21 sub_data;;
  data_len <-- rd16 22 sub_data;;
  data <-- rdn 24 data_len sub_data;;
  result <--
    match c with
    | WIOTA_SEND_DATA =>
        fmod (λ s, set_data_cnts (u32 (g_add_cnt s + 1)) (g_del_cnt s) s);;;
        wcall (uc_wiota_send_data_order data data_len user_id (s32 timeout) order_business
                 (unless_block is_block cb_send) data_id)
    | WIOTA_SEND_MC =>
        wcall (uc_wiota_send_multicast_data data data_len user_id (s32 timeout)
                 (unless_block is_block cb_send_mc) data_id)
    | _ =>
        wcall (uc_wiota_send_broadcast_data data data_len user_id (s32 timeout)
                 (unless_block is_block cb_send_bc) data_id)
    end;;
  if negb (is_block =? 0)
  then uc_wiota_handle_send_result
         {| sr_user_id := user_id; sr_data_id := data_id; sr_result := u32 result |} c
  else fret tt.

Definition handle_scan_freq (sub_data : list Z) : M unit :=
  timeout <-- rd32 8 sub_data;;
  is_block <-- rd16 12 sub_data;;
  freq_num <-- rd8 14 sub_data;;
  scan_type <-- rd8 15 sub_data;;
  freq <-- rdn 16 freq_num sub_data;;
  r <-- wcall (uc_wiota_scan_freq (if freq_num =? 0 then None else Some freq) freq_num scan_type
                 (s32 timeout) (unless_block is_block cb_scan));;
  if negb (is_block =? 0)
  then uc_wiota_scan_callback
         {| sc_data_len := sc_data_len r.2; sc_result := u16 r.1; sc_data := sc_data r.2 |}
  else fret tt.

Definition handle_temp_query (sub_data : list Z) : M unit :=
  timeout <-- rd32 8 sub_data;;
  is_block <-- rd32 12 sub_data;;
  r <-- wcall (uc_wiota_read_temperature (unless_block is_block cb_temp) (s32 timeout));;
  if negb (is_block =? 0)
  then uc_wiota_temp_callback {| tr_temp := tr_temp r.2; tr_result := u8 r.1 |}
  else fret tt.

Definition handle_sync_paging (sub_data : list Z) : M unit :=
  user_id <-- rd32 8 sub_data;;
  fn_index <-- rd32 12 sub_data;;
  detection_period <-- rd32 16 sub_data;;
  send_round <-- rd16 20 sub_data;;
  continue_fn <-- rd16 22 sub_data;;
  is_block <-- rd32 24 sub_data;;
  r <-- wcall (uc_wiota_sync_paging
                 {| pg_user_id := user_id; pg_fn_index := fn_index;
                    pg_detection_period := detection_period; pg_send_round := send_round;
                    pg_continue_fn := continue_fn |} (unless_block is_block cb_sync_paging));;
  if negb (is_block =? 0)
  then uc_wiota_sync_paging_callback {| pr_user_id := user_id; pr_result := u32 r |}
  else fret tt.

Definition handle_recv_sm_by_fn (sub_data : list Z) : M unit :=
  user_id <-- rd32 8 sub_data;;
  data_id <-- rd32 12 sub_data;;
  start_recv_fn <-- rd32 16 sub_data;;
  recv_fns <-- rd8 20 sub_data;;
  send_fns <-- rd8 21 sub_data;;
  data_len <-- rd16 22 sub_data;;
  if negb (data_len =? 0) && (send_fns >? 0) then
    data <-- rdn 24 data_len sub_data;;
    fmod (λ s, set_data_cnts (u32 (g_add_cnt s + 1)) (g_del_cnt s) s);;;
    ucall (uc_wiota_recv_send_sm_by_fn
      {| rs_user_id := user_id; rs_start_recv_fn := start_recv_fn; rs_recv_fns := recv_fns;
         rs_send_fns := send_fns; rs_data_len := data_len; rs_data := Some data;
         rs_callback := Some cb_send; rs_para := data_id |})
  else
    ucall (uc_wiota_recv_send_sm_by_fn
      {| rs_user_id := user_id; rs_start_recv_fn := start_recv_fn; rs_recv_fns := recv_fns;
         rs_send_fns := 0; rs_data_len := 0; rs_data := None;
         rs_callback := None; rs_para := 0 |}).

Definition uc_wiota_handle_send_msg (sub_data : list Z) (cmd : Z) : M unit :=
  match enum_of cmd with
  | Some WIOTA_SEND_DATA => handle_send_data sub_data WIOTA_SEND_DATA
  | Some WIOTA_SEND_MC => handle_send_data sub_data WIOTA_SEND_MC
  | Some WIOTA_SEND_BC => handle_send_data sub_data WIOTA_SEND_BC
  | Some WIOTA_SCAN_FREQ => handle_scan_freq sub_data
  | Some WIOTA_TEMP_QUERY => handle_temp_query sub_data
  | Some WIOTA_SYNC_PAGING => handle_sync_paging sub_data
  | Some WIOTA_RECV_SM_BY_FN => handle_recv_sm_by_fn sub_data
  | None => ffail AssertFail
  end.

(** ** Black list, multicast groups, version, subframe data *)

Fixpoint words (n : nat) (l : list Z) : list Z :=
  match n with
  | O => []
  | S n => le_val (take 4 l) :: words n (drop 4 l)
  end.

(** The array of [num] ids at offset 12. *)
Definition id_array (sub_data : list Z) (num : Z) : M (list Z) :=
  b <-- rdn 12 (4 * num) sub_data;; fret (words (Z.to_nat num) b).

Definition handle_bl_get (cmd : Z) : M unit :=
  r <-- wcall uc_wiota_get_blacklist;;
  let bl_num := u16 r.2 in
  ok <-- rt_malloc;;
  fassert ok;;;
  ids <-- flift (store 0 (concat (map (le_bytes 4) r.1)) (replicate (Z.to_nat (4 * bl_num)) 0));;
  report (type_code CMD_TYPE_OTHER) cmd [(le_bytes 4 bl_num, 4); (ids, u16 (bl_num * 4))].

Definition version_bytes (v : wiota_version) : list Z :=
  fit 15 (wiota_version_8088 v) ++ fit 36 (git_info_8088 v) ++ fit 36 (make_time_8088 v) ++
  fit 15 (wiota_version_8288 v) ++ fit 36 (git_info_8288 v) ++ fit 36 (make_time_8288 v) ++
  [0; 0] ++ le_bytes 4 (cce_version v).

Definition uc_wiota_handle_other_msg (sub_data : list Z) (cmd : Z) : M unit :=
  match enum_of cmd with
  | Some WIOTA_BL_ADD =>
      num <-- rd32 8 sub_data;; ids <-- id_array sub_data (u16 num);;
      ucall (uc_wiota_add_iote_to_blacklist ids (u16 num));;;
      wiota_cmd_exec_result (type_code CMD_TYPE_OTHER) cmd
  | Some WIOTA_BL_REMOVE =>
      num <-- rd32 8 sub_data;; ids <-- id_array sub_data (u16 num);;
      ucall (uc_wiota_remove_iote_from_blacklist ids (u16 num));;;
      wiota_cmd_exec_result (type_code CMD_TYPE_OTHER) cmd
  | Some WIOTA_MC_ID_ADD =>
      num <-- rd32 8 sub_data;; ids <-- id_array sub_data num;;
      ucall (uc_wiota_set_multicast_id ids num);;;
      wiota_cmd_exec_result (type_code CMD_TYPE_OTHER) cmd
  | Some WIOTA_MC_ID_DEL =>
      num <-- rd32 8 sub_data;; ids <-- id_array sub_data num;;
      ucall (uc_wiota_del_multicast_id ids num);;;
      wiota_cmd_exec_result (type_code CMD_TYPE_OTHER) cmd
  | Some WIOTA_BL_GET => handle_bl_get cmd
  | Some WIOTA_VERSION_GET =>
      v <-- wcall uc_wiota_get_version;;
      report (type_code CMD_TYPE_OTHER) cmd (whole (version_bytes v))
  | Some WIOTA_ADD_DL_SUBF_DATA =>
      len <-- rd8 10 sub_data;; fn <-- rd8 11 sub_data;; data <-- rdn 12 len sub_data;;
      ucall (uc_wiota_add_dl_subframe_data data len fn)
  | Some WIOTA_MODULEID_GET =>
      m <-- wcall uc_wiota_get_module_id;;
      report (type_code CMD_TYPE_OTHER) cmd (whole (fit 20 m))
  | Some WIOTA_AFH_MAP_SET =>
      map <-- rdn 8 26 sub_data;;
      ucall (uc_wiota_set_afh_map map);;;
      wiota_cmd_exec_result (type_code CMD_TYPE_OTHER) cmd
  | Some WIOTA_RAMP_POWER_CFG_SET =>
      cfg <-- rdn 8 544 sub_data;; size <-- rd32 552 sub_data;;
      ucall (uc_wiota_set_ramp_power_cfg cfg (s32 size));;;
      wiota_cmd_exec_result (type_code CMD_TYPE_OTHER) cmd
  | None => fret tt
  end.
End Handlers.
