(* ===== verification/SpiEmit.v ===== *)
(** * What reaches the gateway

    A small program logic for the link: [emits m P] says that [m], run while
    the gateway does not move, never faults and that the frames it wants to
    send, a list satisfying [P], reach the uplink ring as whole frames in
    order; a frame is left out only when the ring has no space for it.  The
    handlers and callbacks of SpiCmd are specified in it. *)

From S2P Require Import Prelude RingBuffer WiotaApi SpiFrame SpiLink SpiCmd.

Section Emit.
Context {R : Type} `{LIB : WiotaLib R}.
Local Abbreviation M := (FW (spi_state R)).
Implicit Types (s : spi_state R) (fs : list (list Z)).

(** The link is up, memory is available, the gateway is not moving; the
    uplink ring leaves the last word of its memory to the frame number. *)
Record quiet s : Prop := {
  q_sync : link_in_sync s;
  q_pending : pending s = [];
  q_mallocs : mallocs s = [];
  q_size : buffer_size (ul_rb s) = 7148;
  q_block : zlen (buffer_ptr (ul_rb s)) = 7152
}.

Definition ul_content s : list Z := rb_content (synced_ul s).
Definition ul_space s : Z := rt_ringbuffer_space_len (synced_ul s).

(** The word behind the ring, where the frame number is. *)
Definition ul_tail s : list Z := drop (Z.to_nat 7148) (buffer_ptr (ul_rb s)).

(** [s'] is [s] with the frames [fs] added to the uplink ring; the frame
    number and what the downlink side uses are untouched. *)
Record grows s fs s' : Prop := {
  g_quiet : quiet s';
  g_channel : ap_channel_id s' = ap_channel_id s;
  g_content : ul_content s' = ul_content s ++ concat fs;
  g_tail : ul_tail s' = ul_tail s;
  g_dl : dl_rb s' = dl_rb s;
  g_dl_write : dl_rb_write_state s' = dl_rb_write_state s;
  g_dl_read : dl_rb_read_state s' = dl_rb_read_state s
}.

Definition emits {A} (m : M A) (P : Z → list (list Z) → Prop) : Prop :=
  ∀ s, quiet s → ∃ a s' fs sent,
    m s = Ok (a, s') ∧ P (ap_channel_id s) fs ∧ sublist sent fs ∧ grows s sent s' ∧
    (zlen (concat fs) <= ul_space s → sent = fs).

Lemma ul_space_content s : quiet s → ul_space s = 7148 - zlen (ul_content s).
Proof.
  intros [[_ _ Hwf] _ _ Hsz _]. unfold ul_space, ul_content, rt_ringbuffer_space_len.
  rewrite (length_rb_content _ Hwf). simpl. lia.
Qed.

Lemma grows_refl s : quiet s → grows s [] s.
Proof. intros. split; auto. simpl. rewrite app_nil_r. done. Qed.

Lemma grows_trans s fs s1 fs' s2 : grows s fs s1 → grows s1 fs' s2 → grows s (fs ++ fs') s2.
Proof.
  intros [? ? C1 ? ? ? ?] [? ? C2 ? ? ? ?]. split; try congruence; auto.
  rewrite C2, C1, concat_app, app_assoc. done.
Qed.

Lemma grows_space s fs s' : quiet s → grows s fs s' → ul_space s' = ul_space s - zlen (concat fs).
Proof.
  intros Hq [Hq' _ Hc _ _ _ _]. rewrite !ul_space_content, Hc, zlen_app by done. lia.
Qed.

(** ** Rules *)

Lemma emits_weaken {A} (m : M A) (P Q : Z → list (list Z) → Prop) :
  (∀ c fs, P c fs → Q c fs) → emits m P → emits m Q.
Proof. intros HPQ Hm s Hs. destruct (Hm s Hs) as (a & s' & fs & sent & ? & ? & ?). eauto 10. Qed.

Definition silent (_ : Z) (fs : list (list Z)) : Prop := fs = [].
Definition then_ (P Q : Z → list (list Z) → Prop) (c : Z) (fs : list (list Z)) : Prop :=
  ∃ f1 f2, fs = f1 ++ f2 ∧ P c f1 ∧ Q c f2.

Lemma emits_bind {A B} (m : M A) (k : A → M B) P Q :
  emits m P → (∀ a, emits (k a) Q) → emits (fbind m k) (then_ P Q).
Proof.
  intros Hm Hk s Hs.
  destruct (Hm s Hs) as (a & s1 & f1 & e1 & E1 & HP & Hsub1 & G1 & Hfit1).
  destruct (Hk a s1 (g_quiet _ _ _ G1)) as (b & s2 & f2 & e2 & E2 & HQ & Hsub2 & G2 & Hfit2).
  exists b, s2, (f1 ++ f2), (e1 ++ e2). unfold fbind. rewrite E1, E2. split_and!; auto.
  - exists f1, f2. rewrite (g_channel _ _ _ G1) in HQ. auto.
  - apply sublist_app; done.
  - eapply grows_trans; done.
  - rewrite concat_app, zlen_app. intros Hsp.
    pose proof (zlen_nonneg (concat f1)). pose proof (zlen_nonneg (concat f2)).
    assert (e1 = f1) as -> by (apply Hfit1; lia).
    rewrite (grows_space s f1 s1) in Hfit2 by done. rewrite Hfit2; [done|lia].
Qed.

Lemma emits_silent_l {A B} (m : M A) (k : A → M B) Q :
  emits m silent → (∀ a, emits (k a) Q) → emits (fbind m k) Q.
Proof.
  intros Hm Hk. eapply emits_weaken; [|by apply emits_bind].
  intros c fs (f1 & f2 & -> & -> & ?). done.
Qed.

Lemma emits_silent_r {A B} (m : M A) (k : A → M B) P :
  emits m P → (∀ a, emits (k a) silent) → emits (fbind m k) P.
Proof.
  intros Hm Hk. eapply emits_weaken; [|by apply emits_bind].
  intros c fs (f1 & f2 & -> & ? & ->). rewrite app_nil_r. done.
Qed.

(** A step that changes nothing the link depends on. *)
Lemma emits_step {A} (m : M A) :
  (∀ s, quiet s → ∃ a s', m s = Ok (a, s') ∧ grows s [] s') → emits m silent.
Proof.
  intros Hm s Hs. destruct (Hm s Hs) as (a & s' & E & G).
  exists a, s', [], []. split_and!; auto; done.
Qed.

Lemma emits_ret {A} (a : A) : emits (fret a) silent.
Proof. apply emits_step. intros s Hs. eexists _, s. split; [done|]. by apply grows_refl. Qed.

Lemma emits_lift {A} (r : result A) a : r = Ok a → emits (flift r) silent.
Proof.
  intros ->. apply emits_step. intros s Hs. eexists _, s. split; [done|]. by apply grows_refl.
Qed.

(** An update of the state that keeps rings, index words and environment. *)
Definition keeps_link (f : spi_state R → spi_state R) : Prop :=
  ∀ s, ul_rb (f s) = ul_rb s ∧ ul_rb_read_state (f s) = ul_rb_read_state s ∧
       ap_channel_id (f s) = ap_channel_id s ∧ dl_rb (f s) = dl_rb s ∧
       dl_rb_write_state (f s) = dl_rb_write_state s ∧
       dl_rb_read_state (f s) = dl_rb_read_state s ∧
       mallocs (f s) = mallocs s ∧ pending (f s) = pending s.

Lemma grows_keeps f s : keeps_link f → quiet s → grows s [] (f s).
Proof.
  intros Hf [[Hc Hcrc Hwf] Hp Hm Hsz Hb]. destruct (Hf s) as (E1 & E2 & E3 & E4 & E5 & E6 & E7 & E8).
  assert (synced_ul (f s) = synced_ul s) as Hsy by (unfold synced_ul; rewrite E1, E2; done).
  split; try done; [split; try congruence|unfold ul_content; rewrite Hsy; simpl; rewrite app_nil_r; done
    |unfold ul_tail; rewrite E1; done].
  split; [rewrite E2, E3; done|rewrite E2; done|rewrite Hsy; done].
Qed.

Lemma emits_mod f : keeps_link f → emits (fmod f) silent.
Proof.
  intros Hf. apply emits_step. intros s Hs. eexists tt, (f s). split; [done|]. by apply grows_keeps.
Qed.

Lemma emits_wcall {T} (e : wiotaE T) : emits (wcall e) silent.
Proof.
  apply emits_step. intros s Hs. unfold wcall. destruct (wiota_call e (lib s)) as [v r].
  eexists v, _. split; [done|]. apply (grows_keeps (set_lib r)); done.
Qed.

Lemma emits_malloc : emits rt_malloc silent.
Proof.
  apply emits_step. intros s Hs. unfold rt_malloc. rewrite (q_mallocs s Hs).
  eexists true, s. split; [done|]. by apply grows_refl.
Qed.

Lemma emits_mdelay : emits mdelay silent.
Proof.
  apply emits_step. intros s Hs. unfold mdelay. rewrite (q_pending s Hs).
  eexists tt, s. split; [done|]. by apply grows_refl.
Qed.

Lemma emits_get {B} (k : spi_state R → M B) P : (∀ x, emits (k x) P) → emits (fbind fget k) P.
Proof. intros H. apply emits_silent_l; [|done]. apply emits_step. intros s Hs.
  eexists s, s. split; [done|]. by apply grows_refl. Qed.

(** ** Sending *)

Definition one (f : Z → list Z) (c : Z) (fs : list (list Z)) : Prop := fs = [f c].

Lemma quiet_malloc_next n s : quiet s → malloc_next n s = s.
Proof. destruct n; simpl; [|done]. intros [_ _ Hm _ _]. destruct s; simpl in *. rewrite Hm. done. Qed.

Lemma grows_published s fs rb :
  quiet s → rb_wf rb → rb_content rb = ul_content s ++ concat fs →
  read_index rb = read_index (synced_ul s) → read_mirror rb = read_mirror (synced_ul s) →
  buffer_size rb = 7148 → zlen (buffer_ptr rb) = 7152 →
  drop (Z.to_nat 7148) (buffer_ptr rb) = ul_tail s →
  grows s fs (published rb s).
Proof.
  intros [[Hc Hcrc _] Hp Hm _ _] Hwf Hcont Hri Hrm Hsz Hb Htail.
  assert (synced_ul (published rb s) = rb) as Hsy.
  { cbn in Hri, Hrm. unfold synced_ul, published, set_read; cbn.
    rewrite <- Hri, <- Hrm. destruct rb; done. }
  split; try done; [|unfold ul_content; rewrite Hsy; done].
  split; try done. split; [done|done|rewrite Hsy; done].
Qed.

(** One message: the frame is appended, or dropped when it does not fit. *)
Lemma emits_send ci :
  Forall para_ok (sp_para ci) → zlen (para_bytes (sp_para ci)) <= 65500 →
  emits (uc_wiota_send_data_to_gateway ci) (one (ci_frame ci)).
Proof.
  intros Hps Hb s Hs. pose proof Hs as [Hsync Hp Hm Hsz Hblk].
  assert (malloc_ok s) as Hmo by (unfold malloc_ok; rewrite Hm; done).
  set (f := ci_frame ci (ap_channel_id s)).
  assert (∀ rb, gw_tick (published rb s) = published rb s) as Htick.
  { intros rb. unfold gw_tick. simpl. rewrite Hp. done. }
  destruct (Z.le_gt_cases (zlen f) (ul_space s)) as [Hfit|Hfull].
  - destruct (send_data_fits ci s Hps Hb Hmo Hsync Hfit)
      as (rb & need & E & Hwf & Hc & Hri & Hrm & Hbl & Hbs & Htl).
    exists 0, (published rb s), [f], [f]. rewrite E, quiet_malloc_next, Htick by done.
    split_and!; try done. apply grows_published; try done; try congruence.
    + cbn [concat]. rewrite app_nil_r. exact Hc.
    + rewrite Hsz in Htl. exact Htl.
  - destruct (send_data_full ci s Hps Hb Hmo Hsync) as (need & E); [unfold ul_space in Hfull; fold f; lia|].
    exists 0, (published (synced_ul s) s), [f], []. rewrite E, quiet_malloc_next, Htick by done.
    split_and!; try done.
    + constructor. constructor.
    + apply grows_published; try done; [apply Hsync|cbn [concat]; rewrite app_nil_r; done].
    + cbn [concat]. rewrite app_nil_r. lia.
Qed.

(** The frame of a message with command codes [ct], [c] and payload [d]. *)
Definition reply (ct c : Z) (d : list Z) (chan : Z) : list Z :=
  frame (complete_header (mk_header ct c) (zlen d) chan) d.

Lemma emits_report ct c ps :
  Forall para_ok ps → zlen (para_bytes ps) <= 65500 →
  emits (report ct c ps) (one (reply ct c (para_bytes ps))).
Proof.
  intros. apply emits_silent_r; [|intros; apply emits_ret]. apply emits_send; done.
Qed.

Lemma emits_result ct c : emits (wiota_cmd_exec_result ct c) (one (reply ct c [])).
Proof. apply emits_report; [constructor|done]. Qed.
End Emit.

#[export] Hint Resolve emits_ret emits_wcall emits_malloc emits_mdelay emits_result : fw.

Arguments silent : simpl never.

(** ** The handlers *)

Section HandlerSpecs.
Context {R : Type} `{LIB : WiotaLib R}.
Local Abbreviation M := (FW (spi_state R)).
Implicit Types (sub_data : list Z).

Lemma emits_ucall {T} (e : wiotaE T) : emits (ucall e) silent.
Proof. apply emits_silent_l; auto with fw. Qed.

Lemma emits_slice {A} off len (l : list A) :
  0 <= off → 0 <= len → off + len <= zlen l → emits (R := R) (flift (slice off len l)) silent.
Proof. intros. eapply emits_lift. by apply slice_Ok. Qed.

Lemma emits_value off n sub_data :
  0 <= off → 0 <= n → off + n <= zlen sub_data →
  emits (R := R) (flift (rbind (slice off n sub_data) (λ b, Ok (le_val b)))) silent.
Proof. intros. eapply emits_lift. rewrite slice_Ok by done. done. Qed.

Lemma emits_iv sub_data i :
  0 <= i → 12 + 4 * i <= zlen sub_data → emits (R := R) (iv sub_data i) silent.
Proof. intros. apply emits_value; unfold cmd_header_size; lia. Qed.

Lemma emits_ivs sub_data i n :
  0 <= i → 8 + 4 * (i + Z.of_nat n) <= zlen sub_data → emits (R := R) (ivs sub_data i n) silent.
Proof.
  revert i. induction n as [|n IH]; intros i Hi Hl; cbn [ivs]; [apply emits_ret|].
  apply emits_silent_l; [apply emits_iv; lia|intros v].
  apply emits_silent_l; [apply IH; lia|intros]. apply emits_ret.
Qed.

Lemma emits_set1 sub_data f : 12 <= zlen sub_data → emits (R := R) (set1 sub_data f) silent.
Proof. intros. apply emits_silent_l; [apply emits_iv; lia|intros; apply emits_ucall]. Qed.

Lemma emits_set2 sub_data f : 16 <= zlen sub_data → emits (R := R) (set2 sub_data f) silent.
Proof. intros. do 2 (apply emits_silent_l; [apply emits_iv; lia|intros]). apply emits_ucall. Qed.

Lemma emits_set3 sub_data f : 20 <= zlen sub_data → emits (R := R) (set3 sub_data f) silent.
Proof. intros. do 3 (apply emits_silent_l; [apply emits_iv; lia|intros]). apply emits_ucall. Qed.

(** The header a handler reads. *)
Definition hdr sub_data : cmd_header_t := parse_header (take 8 sub_data).

Lemma emits_header {B} sub_data (k : cmd_header_t → M B) P :
  8 <= zlen sub_data → emits (k (hdr sub_data)) P → emits (fbind (msg_header sub_data) k) P.
Proof.
  intros Hl Hk s Hs. destruct (Hk s Hs) as (a & s' & fs & sent & E & ?).
  exists a, s', fs, sent. split; [|done]. unfold msg_header, fbind, flift, fret.
  rewrite slice_Ok by (unfold cmd_header_size; lia).
  unfold zsub, cmd_header_size. rewrite drop_0. exact E.
Qed.

(** [n] times the same frame. *)
Definition times (n : nat) (f : Z → list Z) (c : Z) (fs : list (list Z)) : Prop :=
  fs = replicate n (f c).

Lemma emits_then_result {A} (m : M A) n ct c :
  emits m (times n (reply ct c [])) →
  emits (fbind m (λ _, wiota_cmd_exec_result ct c)) (times (S n) (reply ct c [])).
Proof.
  intros Hm. eapply emits_weaken; [|apply emits_bind; [exact Hm|intros; apply emits_result]].
  intros ch fs (f1 & f2 & -> & -> & ->). unfold times. rewrite replicate_S_end. done.
Qed.

Lemma emits_times0 {A} (m : M A) f : emits m silent → emits m (times 0 f).
Proof. apply emits_weaken. intros c fs ->. done. Qed.
End HandlerSpecs.

#[export] Hint Resolve emits_ucall : fw.

(** One step of a goal [emits m silent]. *)
Ltac emit_step :=
  lazymatch goal with
  | |- emits (fbind fget _) _ => apply emits_get; intros
  | |- emits (fbind _ _) silent => apply emits_silent_l; [|intros]
  | |- emits (if ?b then _ else _) _ => destruct b
  | |- emits (set1 _ _) _ => apply emits_set1; lia
  | |- emits (set2 _ _) _ => apply emits_set2; lia
  | |- emits (set3 _ _) _ => apply emits_set3; lia
  | |- emits (ivs _ _ _) _ => apply emits_ivs; lia
  | |- emits (iv _ _) _ => apply emits_iv; lia
  | |- emits (fmod _) _ => apply emits_mod; intros ?; split_and!; reflexivity
  | |- emits _ _ => solve [auto with fw]
  end.
Ltac emit_silent := repeat emit_step.

Section HandlerTheorems.
Context {R : Type} `{LIB : WiotaLib R}.

Lemma exec_msg_emits sub_data :
  8 <= zlen sub_data →
  emits (R := R) (uc_wiota_handle_exec_msg sub_data)
    (times (match enum_of (cmd (hdr sub_data)) with Some WIOTA_REBOOT => 2 | _ => 1 end)
           (reply (cmd_type (hdr sub_data)) (cmd (hdr sub_data)) [])).
Proof.
  intros Hl. unfold uc_wiota_handle_exec_msg.
  apply emits_header; [exact Hl|]. set (h := hdr sub_data).
  destruct (enum_of (cmd h)) as [[]|] eqn:E; apply emits_then_result.
  4: { eapply emits_weaken;
         [|apply emits_silent_r; [apply emits_result|intros; emit_silent]].
       intros c fs ->. done. }
  all: apply emits_times0; emit_silent.
Qed.

(** An exec command is always answered.  For every message with a header,
    known command or not, the handler runs without a fault and wants to send
    exactly the header-only reply with the command's codes: once, and twice
    for WIOTA_REBOOT, which answers before the reset and would again after it. *)
Theorem exec_msg_answered sub_data :
  8 <= zlen sub_data →
  emits (R := R) (uc_wiota_handle_exec_msg sub_data)
    (times (match enum_of (cmd (hdr sub_data)) with Some WIOTA_REBOOT => 2 | _ => 1 end)
           (reply (cmd_type (hdr sub_data)) (cmd (hdr sub_data)) [])).
Proof. apply exec_msg_emits. Qed.

Lemma setup_msg_emits sub_data :
  64 <= zlen sub_data →
  emits (R := R) (uc_wiota_handle_setup_msg sub_data)
    (times (match enum_of (cmd (hdr sub_data)) with Some WIOTA_PAGING_RX_ENTER => 2 | _ => 1 end)
           (reply (cmd_type (hdr sub_data)) (cmd (hdr sub_data)) [])).
Proof.
  intros Hl. unfold uc_wiota_handle_setup_msg.
  apply emits_header; [lia|]. set (h := hdr sub_data).
  destruct (enum_of (cmd h)) as [[]|] eqn:E; apply emits_then_result.
  30: { eapply emits_weaken;
         [|apply emits_silent_r; [apply emits_result|intros; emit_silent]].
        intros c fs ->. done. }
  all: apply emits_times0; emit_silent.
Qed.

(** A setup command is always answered.  For every message as long as
    setup_cmd_info_t the handler runs without a fault, whatever values it
    carries, and wants to send exactly the header-only reply with the
    command's codes: once, and twice for WIOTA_PAGING_RX_ENTER, which answers
    before it goes to sleep. *)
Theorem setup_msg_answered sub_data :
  64 <= zlen sub_data →
  emits (R := R) (uc_wiota_handle_setup_msg sub_data)
    (times (match enum_of (cmd (hdr sub_data)) with Some WIOTA_PAGING_RX_ENTER => 2 | _ => 1 end)
           (reply (cmd_type (hdr sub_data)) (cmd (hdr sub_data)) [])).
Proof. apply setup_msg_emits. Qed.

(** How many values a query is answered with. *)
Definition query_num (c : option uc_wiota_query_cmd_e) : Z :=
  match c with Some WIOTA_CONFIG_GET => 12 | Some WIOTA_PAGING_TX_GET => 6 | _ => 1 end.

Lemma length_out_values vs : (4 * length vs <= 56)%nat → zlen (out_values vs) = 56.
Proof.
  intros. unfold out_values, zlen. rewrite length_app, length_replicate.
  assert (length (concat (map (le_bytes 4) vs)) = 4 * length vs)%nat as ->; [|lia].
  induction vs as [|v vs IH]; [done|]. cbn [map concat length] in *.
  rewrite length_app, length_le_bytes, IH by lia. lia.
Qed.

(** A query ends in a known number of words of the 56-byte result array. *)
Definition yields {A} (m : FW (spi_state R) A) (Q : A → Prop) : Prop :=
  emits m silent ∧ ∀ s a s', m s = Ok (a, s') → Q a.

Lemma emits_yields {A B} (m : FW (spi_state R) A) (k : A → FW (spi_state R) B) Q P :
  yields m Q → (∀ a, Q a → emits (k a) P) → emits (fbind m k) P.
Proof.
  intros [Hm HQ] Hk s Hs. destruct (Hm s Hs) as (a & s1 & f1 & e1 & E & Hf & Hsub & G & _).
  unfold silent in Hf. subst f1. apply sublist_nil_r in Hsub. subst e1.
  destruct (Hk a (HQ _ _ _ E) s1 (g_quiet _ _ _ G)) as (b & s2 & f2 & e2 & E2 & HP & Hsub & G2 & Hfit).
  exists b, s2, f2, e2. unfold fbind. rewrite E. split_and!; auto.
  - rewrite <- (g_channel _ _ _ G). done.
  - change e2 with ([] ++ e2). eapply grows_trans; done.
  - rewrite (grows_space s [] s1) in Hfit by done. intros. apply Hfit. change (zlen (concat [])) with 0. lia.
Qed.

Lemma query_values_yields c sub_data :
  12 <= zlen sub_data →
  yields (query_values c sub_data) (λ r, zlen r.1 = 56 ∧ r.2 = query_num c).
Proof.
  intros Hl. split.
  - destruct c as [[]|]; unfold query_values, get1; emit_silent.
  - intros s a s'. destruct c as [[]|]; cbn [query_values]; unfold get1; intros H;
      repeat fw_inv H; unfold fret in H; simplify_eq; split; try done;
      cbn [fst]; try (apply length_out_values; simpl; lia).
    unfold zlen, fit. rewrite length_app, length_take, length_app, !length_replicate. cbn [length]. lia.
Qed.

Lemma query_msg_emits sub_data :
  12 <= zlen sub_data →
  let h := hdr sub_data in
  emits (R := R) (uc_wiota_handle_query_msg sub_data)
    (λ c fs, ∃ d, fs = [reply (cmd_type h) (cmd h) d c] ∧ zlen d = 4 * query_num (enum_of (cmd h))).
Proof.
  intros Hl h. unfold uc_wiota_handle_query_msg. apply emits_header; [lia|]. fold h.
  eapply emits_yields; [apply query_values_yields; done|]. intros [out num] [Ho Hn].
  cbn [fst snd] in *. subst num.
  assert (0 <= query_num (enum_of (cmd h)) * 4 <= 56) as Hq.
  { destruct (enum_of (cmd h)) as [[]|]; simpl; lia. }
  rewrite u16_id by (unfold is_u16; lia).
  assert (Forall para_ok [(out, query_num (enum_of (cmd h)) * 4)]) as Hp.
  { constructor; [unfold para_ok; cbn [fst snd]; lia|constructor]. }
  assert (zlen (para_bytes [(out, query_num (enum_of (cmd h)) * 4)]) =
          4 * query_num (enum_of (cmd h))) as Hz.
  { unfold para_bytes. cbn [map concat fst snd]. rewrite app_nil_r. unfold zlen in *.
    rewrite length_take. lia. }
  eapply emits_weaken; [|apply emits_report; [exact Hp|lia]].
  intros c fs ->. eauto.
Qed.

(** A query is always answered with one message that carries the
    query's codes and as many 32-bit words as query_num says. *)
Theorem query_msg_answered sub_data :
  12 <= zlen sub_data →
  let h := hdr sub_data in
  emits (R := R) (uc_wiota_handle_query_msg sub_data)
    (λ c fs, ∃ d, fs = [reply (cmd_type h) (cmd h) d c] ∧ zlen d = 4 * query_num (enum_of (cmd h))).
Proof. apply query_msg_emits. Qed.
End HandlerTheorems.

(** ** Transmissions requested by the gateway *)

(** send_info_t as it lies in the block: header, fields, data, what follows. *)
Record send_info_t := {
  si_user_id : Z; si_timeout : Z; si_data_id : Z; si_order_business : Z; si_is_block : Z;
  si_data : list Z
}.

Definition send_info_ok (i : send_info_t) : Prop :=
  is_u32 (si_user_id i) ∧ is_u32 (si_timeout i) ∧ is_u32 (si_data_id i) ∧
  is_u8 (si_order_business i) ∧ is_u8 (si_is_block i) ∧ zlen (si_data i) < 65536.

Definition send_info_bytes (hb : list Z) (i : send_info_t) (rest : list Z) : list Z :=
  hb ++ le_bytes 4 (si_user_id i) ++ le_bytes 4 (si_timeout i) ++ le_bytes 4 (si_data_id i) ++
  le_bytes 1 (si_order_business i) ++ le_bytes 1 (si_is_block i) ++
  le_bytes 2 (zlen (si_data i)) ++ si_data i ++ rest.

Section SendInfo.
Context (hb : list Z) (i : send_info_t) (rest : list Z).
Hypothesis Hhb : length hb = 8%nat.
Hypothesis Hok : send_info_ok i.
Let b := send_info_bytes hb i rest.

Lemma send_info_fields :
  u32_at 8 b = Ok (si_user_id i) ∧ u32_at 12 b = Ok (si_timeout i) ∧
  u32_at 16 b = Ok (si_data_id i) ∧ u8_at 20 b = Ok (si_order_business i) ∧
  u8_at 21 b = Ok (si_is_block i) ∧ u16_at 22 b = Ok (zlen (si_data i)) ∧
  slice 24 (zlen (si_data i)) b = Ok (si_data i).
Proof using All.
  destruct Hok as (H1 & H2 & H3 & H4 & H5 & H6).
  assert (∀ v, is_u8 v → le_val (le_bytes 1 v) = v) as Hle1.
  { intros v Hv. rewrite le_val_bytes. apply Z.mod_small. exact Hv. }
  pose proof (zlen_nonneg (si_data i)).
  unfold u8_at, u16_at, u32_at, b, send_info_bytes. split_and!.
  - rewrite (value_at hb), le4_roundtrip by (unfold zlen; rewrite ?length_le_bytes; lia || done). done.
  - rewrite app_assoc, (value_at (hb ++ _)), le4_roundtrip
      by (unfold zlen; rewrite ?length_app, ?length_le_bytes; lia || done). done.
  - rewrite !app_assoc, <- 5!app_assoc, (value_at (_ ++ _)), le4_roundtrip
      by (unfold zlen; rewrite ?length_app, ?length_le_bytes; lia || done). done.
  - rewrite !app_assoc, <- 4!app_assoc, (value_at (_ ++ _)), Hle1
      by (unfold zlen; rewrite ?length_app, ?length_le_bytes; lia || done). done.
  - rewrite !app_assoc, <- 3!app_assoc, (value_at (_ ++ _)), Hle1
      by (unfold zlen; rewrite ?length_app, ?length_le_bytes; lia || done). done.
  - rewrite !app_assoc, <- 2!app_assoc, (value_at (_ ++ _)), le2_roundtrip
      by (unfold zlen, is_u16 in *; rewrite ?length_app, ?length_le_bytes; lia || done). done.
  - rewrite !app_assoc, <- 1!app_assoc. apply slice_at; [|done].
    unfold zlen. rewrite !length_app, !length_le_bytes. lia.
Qed.
End SendInfo.

Section SendTheorems.
Context {R : Type} `{LIB : WiotaLib R}.

(** The call a send message stands for. *)
Definition send_call (c : uc_wiota_send_cmd_e) (i : send_info_t) : wiotaE Z :=
  let len := zlen (si_data i) in
  match c with
  | WIOTA_SEND_DATA =>
      uc_wiota_send_data_order (si_data i) len (si_user_id i) (s32 (si_timeout i))
        (si_order_business i) (unless_block (si_is_block i) cb_send) (si_data_id i)
  | WIOTA_SEND_MC =>
      uc_wiota_send_multicast_data (si_data i) len (si_user_id i) (s32 (si_timeout i))
        (unless_block (si_is_block i) cb_send_mc) (si_data_id i)
  | _ =>
      uc_wiota_send_broadcast_data (si_data i) len (si_user_id i) (s32 (si_timeout i))
        (unless_block (si_is_block i) cb_send_bc) (si_data_id i)
  end.

Definition count_send (c : uc_wiota_send_cmd_e) (s : spi_state R) : spi_state R :=
  if decide (c = WIOTA_SEND_DATA) then set_data_cnts (u32 (g_add_cnt s + 1)) (g_del_cnt s) s else s.

(** The handler up to its answer. *)
Lemma handle_send_data_eq hb i rest c s :
  length hb = 8%nat → send_info_ok i →
  handle_send_data (send_info_bytes hb i rest) c s =
  let s1 := count_send c s in
  let '(r, lib') := wiota_call (send_call c i) (lib s1) in
  (if negb (si_is_block i =? 0)
   then uc_wiota_handle_send_result
          {| sr_user_id := si_user_id i; sr_data_id := si_data_id i; sr_result := u32 r |} c
   else fret tt) (set_lib lib' s1).
Proof.
  intros Hhb Hok. destruct (send_info_fields hb i rest Hhb Hok) as (F1 & F2 & F3 & F4 & F5 & F6 & F7).
  unfold handle_send_data, rd32, rd16, rd8, rdn, flift, fbind, fmod, wcall, send_call, count_send.
  rewrite F1, F2, F3, F4, F5, F6, F7.
  destruct c; cbn; destruct (wiota_call _ _) as [r lib']; done.
Qed.

(** A non-blocking send message becomes exactly one call of the protocol
    stack, with the message's data, address, timeout and data id and with the
    callback of its kind; nothing is answered yet.  Only unicast data counts
    in g_add_cnt. *)
Theorem send_msg_forwarded hb i rest c s :
  length hb = 8%nat → send_info_ok i → si_is_block i = 0 →
  In c [WIOTA_SEND_DATA; WIOTA_SEND_BC; WIOTA_SEND_MC] →
  uc_wiota_handle_send_msg (send_info_bytes hb i rest) (send_code c) s =
  Ok (tt, set_lib (wiota_call (send_call c i) (lib s)).2 (count_send c s)).
Proof.
  intros Hhb Hok Hb Hc. cbn in Hc.
  transitivity (handle_send_data (send_info_bytes hb i rest) c s).
  { destruct Hc as [<-|[<-|[<-|[]]]]; reflexivity. }
  rewrite handle_send_data_eq by done. rewrite Hb. cbn zeta.
  replace (lib (count_send c s)) with (lib s) by (unfold count_send; case_decide; done).
  destruct (wiota_call _ _). done.
Qed.

Lemma whole_ok b : Forall para_ok (whole b).
Proof. constructor; [|constructor]. unfold para_ok. cbn. pose proof (zlen_nonneg b). lia. Qed.

Lemma whole_bytes b : para_bytes (whole b) = b.
Proof.
  unfold whole, para_bytes. cbn [map concat fst snd]. unfold zlen.
  rewrite Nat2Z.id, firstn_all, app_nil_r. done.
Qed.

Lemma emits_whole ct c b :
  zlen b <= 65500 → emits (R := R) (report ct c (whole b)) (one (reply ct c b)).
Proof.
  intros. rewrite <- (whole_bytes b) at 2. apply emits_report; [apply whole_ok|].
  rewrite whole_bytes. done.
Qed.

Lemma emits_send_result r c :
  emits (R := R) (uc_wiota_handle_send_result r c)
    (one (reply (type_code CMD_TYPE_SEND) (send_code c)
            (le_bytes 4 (sr_user_id r) ++ le_bytes 4 (sr_data_id r) ++ le_bytes 4 (sr_result r)))).
Proof.
  unfold uc_wiota_handle_send_result. apply emits_silent_r.
  - eapply emits_weaken; [|apply emits_send; [apply whole_ok|cbn [sp_para]; rewrite whole_bytes; done]].
    unfold one, ci_frame. cbn [sp_para sp_header]. intros ch fs Hf. rewrite whole_bytes in Hf. exact Hf.
  - intros rc. emit_step; [apply emits_ret|]. emit_step; emit_step.
Qed.

(** A blocking send message is answered with one message that carries
    the same address and data id and the result the protocol stack returned. *)
Theorem send_msg_blocking_answered hb i rest c :
  length hb = 8%nat → send_info_ok i → si_is_block i ≠ 0 →
  In c [WIOTA_SEND_DATA; WIOTA_SEND_BC; WIOTA_SEND_MC] →
  emits (R := R) (uc_wiota_handle_send_msg (send_info_bytes hb i rest) (send_code c))
    (λ ch fs, ∃ r, is_u32 r ∧
      fs = [reply (type_code CMD_TYPE_SEND) (send_code c)
              (le_bytes 4 (si_user_id i) ++ le_bytes 4 (si_data_id i) ++ le_bytes 4 r) ch]).
Proof.
  intros Hhb Hok Hb Hc. cbn in Hc.
  assert (uc_wiota_handle_send_msg (R := R) (send_info_bytes hb i rest) (send_code c) =
          handle_send_data (send_info_bytes hb i rest) c) as ->.
  { destruct Hc as [<-|[<-|[<-|[]]]]; reflexivity. }
  intros s Hs. rewrite handle_send_data_eq by done.
  rewrite (proj2 (Z.eqb_neq _ _)) by done. cbn zeta. cbn [negb].
  destruct (wiota_call _ _) as [r lib'].
  assert (keeps_link (λ s, set_lib lib' (count_send c s))) as Hk.
  { intros s0. unfold count_send. case_decide; split_and!; reflexivity. }
  pose proof (grows_keeps _ s Hk Hs) as G.
  destruct (emits_send_result {| sr_user_id := si_user_id i; sr_data_id := si_data_id i;
                                 sr_result := u32 r |} c _ (g_quiet _ _ _ G))
    as (a & s' & fs & sent & E & Hf & Hsub & G' & Hfit).
  exists a, s', fs, sent. split_and!; auto.
  - exists (u32 r). split; [apply u32_range|]. rewrite <- (g_channel _ _ _ G). exact Hf.
  - change sent with ([] ++ sent). eapply grows_trans; done.
  - rewrite (grows_space s [] _) in Hfit by done. intros. apply Hfit.
    change (zlen (concat [])) with 0. lia.
Qed.

(** Data received over the air is reported as one RECV message: the 20
    bytes of its description, then exactly the received bytes. *)
Theorem recv_detail_reported rd :
  rd_data_len rd = zlen (rd_data rd) → zlen (rd_data rd) <= 65000 →
  emits (R := R) (uc_wiota_recv_detail_callback rd)
    (one (reply (type_code CMD_TYPE_RECV) (recv_code WIOTA_RECV_DATA)
      ((le_bytes 4 (rd_user_id rd) ++ le_bytes 4 (rd_data_type rd) ++ le_bytes 2 (rd_data_len rd) ++
        le_bytes 1 (rd_rssi rd) ++ le_bytes 1 (rd_delay rd) ++ le_bytes 1 (rd_fn_cnt rd) ++
        le_bytes 1 (rd_group_idx rd) ++ le_bytes 1 (rd_burst_idx rd) ++
        le_bytes 1 (rd_slot_idx rd) ++ le_bytes 4 (rd_frame_num rd)) ++ rd_data rd))).
Proof.
  intros Hl Hb. unfold uc_wiota_recv_detail_callback. set (info := le_bytes 4 _ ++ _).
  assert (zlen info = 20) as Hi by reflexivity.
  assert (para_bytes [(info, 20); (rd_data rd, rd_data_len rd)] = info ++ rd_data rd) as <-.
  { unfold para_bytes. cbn [map concat fst snd]. rewrite Hl. unfold zlen.
    rewrite Nat2Z.id, firstn_all, app_nil_r. done. }
  apply emits_report.
  - repeat constructor; unfold para_ok; cbn [fst snd]; pose proof (zlen_nonneg (rd_data rd)); lia.
  - unfold para_bytes. cbn [map concat fst snd]. rewrite app_nil_r, zlen_app. unfold zlen in *.
    rewrite !length_take. lia.
Qed.
End SendTheorems.

(** ** The frame number *)

Section FrameNumber.
Context {R : Type} `{LIB : WiotaLib R}.

Lemma content_same_ring rb b :
  take (Z.to_nat (buffer_size rb)) b = take (Z.to_nat (buffer_size rb)) (buffer_ptr rb) →
  rb_content (set_buffer rb b) = rb_content rb.
Proof. intros H. unfold rb_content, rb_ring. cbn. rewrite H. done. Qed.

(** Storing the frame number writes behind the ring. *)
Lemma store_frame_num_ok fn (s : spi_state R) :
  quiet s → ∃ b,
    uc_wiota_store_frame_num fn s = Ok (tt, set_rings (dl_rb s) (set_buffer (ul_rb s) b) s) ∧
    quiet (set_rings (dl_rb s) (set_buffer (ul_rb s) b) s) ∧
    ul_content (set_rings (dl_rb s) (set_buffer (ul_rb s) b) s) = ul_content s ∧
    drop (Z.to_nat 7148) b = le_bytes 4 fn.
Proof.
  intros Hs. pose proof Hs as [[Hc Hcrc Hwf] Hp Hm Hsz Hb].
  set (b := blit 7148 (le_bytes 4 fn) (buffer_ptr (ul_rb s))).
  assert (zlen b = 7152) as Hlb by (unfold b; rewrite zlen_blit; [done|lia|rewrite Hb; done]).
  assert (take (Z.to_nat 7148) b = take (Z.to_nat 7148) (buffer_ptr (ul_rb s))) as Ht.
  { unfold b, blit. rewrite take_app_le by (unfold zlen in Hb; rewrite length_take; lia).
    rewrite take_take. f_equal; lia. }
  assert (ul_content (set_rings (dl_rb s) (set_buffer (ul_rb s) b) s) = ul_content s) as Hcont.
  { unfold ul_content. apply (content_same_ring (synced_ul s)). cbn. rewrite Hsz. exact Ht. }
  exists b. split_and!; auto.
  - unfold uc_wiota_store_frame_num, fbind, fget, flift.
    rewrite store_Ok; [done|lia|rewrite Hb; done].
  - split; try done. split; try done. destruct Hwf. split; cbn in *; try done. lia.
  - unfold b, blit. rewrite drop_app_ge by (unfold zlen in Hb; rewrite length_take; lia).
    unfold zlen in Hb. rewrite length_take, drop_app_le by (rewrite length_le_bytes; lia).
    replace (Z.to_nat 7148 - _ `min` _)%nat with 0%nat by lia.
    rewrite drop_0, drop_ge, app_nil_r; [done|]. rewrite length_le_bytes. lia.
Qed.

Lemma emits_heart fn : emits (R := R) (uc_wiota_send_heart_msg fn) silent.
Proof. unfold uc_wiota_send_heart_msg. emit_silent. Qed.

(** The frame-number callback leaves the frame number in the last word
    of the shared memory, where the gateway reads it, without disturbing the
    uplink ring in front of it; the ring only grows by the FN_REFRESH report,
    and only when the gateway asked for it. *)
Theorem fn_refresh_spec fn (s : spi_state R) :
  quiet s →
  ∃ s' sent, uc_wiota_fn_refresh fn s = Ok (tt, s') ∧ quiet s' ∧
    ul_tail s' = le_bytes 4 fn ∧
    ul_content s' = ul_content s ++ concat sent ∧
    sublist sent (if g_report_fn_to_gw s =? 0 then []
                  else [reply (type_code CMD_TYPE_RECV) (recv_code WIOTA_FN_REFRESH)
                          (le_bytes 4 fn) (ap_channel_id s)]).
Proof.
  intros Hs. destruct (store_frame_num_ok fn s Hs) as (b & E & Hq & Hc & Ht).
  unfold uc_wiota_fn_refresh, fbind at 1. rewrite E.
  set (s1 := set_rings _ _ s) in *.
  assert (ul_tail s1 = le_bytes 4 fn) as Ht1 by exact Ht.
  set (m := if fn mod 5 =? 0 then uc_wiota_send_heart_msg fn else fret tt).
  assert (emits m silent) as Hm by (unfold m; case_match; [apply emits_heart|apply emits_ret]).
  assert (∀ a s2, m s1 = Ok (a, s2) → g_report_fn_to_gw s2 = g_report_fn_to_gw s) as Hrep.
  { unfold m, s1. case_match; [|intros ? ? [= <- <-]; done].
    unfold uc_wiota_send_heart_msg, fbind, fmod, wcall. intros a s2.
    repeat (destruct (wiota_call _ _); cbn). intros [= <- <-]. done. }
  destruct (Hm s1 Hq) as (a & s2 & fs & e & E2 & Hf & Hsub & G & _).
  unfold silent in Hf. subst fs. apply sublist_nil_r in Hsub. subst e.
  unfold fbind at 1. rewrite E2. unfold fbind, fget. rewrite (Hrep _ _ E2).
  destruct G as [Hq2 Hch Hc2 Htl _ _ _]. rewrite app_nil_r in Hc2.
  destruct (g_report_fn_to_gw s =? 0); cbn [negb].
  - exists s2, []. split_and!; try done; [congruence|]. rewrite app_nil_r. congruence.
  - destruct (emits_whole (R := R) (type_code CMD_TYPE_RECV) (recv_code WIOTA_FN_REFRESH)
      (le_bytes 4 fn)) with s2 as (u & s3 & fs & sent & E3 & Hf & Hsub & G3 & _); [done..|].
    destruct u. destruct G3 as [Hq3 _ Hc3 Htl3 _ _ _].
    exists s3, sent. split_and!; try done; try congruence.
    unfold one in Hf. subst fs. rewrite Hch in Hsub. exact Hsub.
Qed.
End FrameNumber.
