(* ===== verification/SpiParse.v ===== *)
(** * Receiving commands from the gateway

    [uc_wiota_dl_data_parse], the interrupt thread's body and
    [uc_wiota_spi_com_init] of PS/app/src/uc_wiota_spi_com.c.

    Every message is written twice; the second copy is used when a checksum of
    the first one is wrong.  The received block [dl] is mutable: a good header
    is copied over a damaged one.  [cmd_header] and [sub_data] are pointers
    into the block, so they are offsets here. *)

From S2P Require Import Prelude RingBuffer WiotaApi SpiFrame SpiLink SpiCmd SpiEmit.

Section Parse.
Context {R : Type} `{LIB : WiotaLib R}.
Local Abbreviation M := (FW (spi_state R)).
Local Open Scope fw_scope.

Definition header_valid (dl : list Z) (p : Z) : result bool :=
  b <-? slice p (cmd_header_size - UC_CRC32_LEN) dl;;
  c <-? u32_at (p + 4) dl;;
  Ok (c =? u32 (uc_wiota_crc32_calc b)).

(** The header check with its second try in the middle of the block: the
    offset [cmd_header] points to and the repaired block. *)
Definition check_header (dl : list Z) (dl_data_len off : Z) : result (option (Z * list Z)) :=
  ok0 <-? header_valid dl off;;
  if ok0 : bool then Ok (Some (off, dl))
  else
    let p := dl_data_len / 2 in
    ok1 <-? header_valid dl p;;
    if ok1 : bool then
      b <-? slice p cmd_header_size dl;;
      dl' <-? store off b dl;;
      Ok (Some (p, dl'))
    else Ok None.

Definition payload_valid (dl : list Z) (p n : Z) : result bool :=
  b <-? slice p (n - UC_CRC32_LEN) dl;;
  c <-? u32_at (p + n - UC_CRC32_LEN) dl;;
  Ok (u32 (uc_wiota_crc32_calc b) =? c).

(** The payload check of the message at [off] with header at [hp]; its second
    try is at offset [n] of the block. *)
Definition check_payload (dl : list Z) (hp off n : Z) : result (option (Z * list Z)) :=
  ok0 <-? payload_valid dl off n;;
  if ok0 : bool then Ok (Some (off, dl))
  else
    b <-? slice hp cmd_header_size dl;;
    dl' <-? store n b dl;;
    ok1 <-? payload_valid dl' n n;;
    if ok1 : bool then Ok (Some (n, dl')) else Ok None.

Definition header_at (dl : list Z) (p : Z) : result cmd_header_t :=
  b <-? slice p cmd_header_size dl;; Ok (parse_header b).

Definition sub_len (data_len : Z) : Z :=
  u16 (u16 (cmd_header_size + u16 (RT_ALIGN data_len RING_BUFFER_ALIGN_SIZE)) + UC_CRC32_LEN).

(** [sub_data], the block, and the length of the message with its copy. *)
Definition check_message (dl : list Z) (hp off : Z) : result (option (Z * list Z * Z)) :=
  h <-? header_at dl hp;;
  if data_len h >? 0 then
    let n := sub_len (data_len h) in
    r <-? check_payload dl hp off n;;
    Ok (option_map (λ '(sp, dl'), (sp, dl', u16 (n * 2))) r)
  else Ok (Some (off, dl, cmd_header_size + cmd_header_size)).

Definition dispatch (h : cmd_header_t) (sub_data : list Z) : M unit :=
  match enum_of (cmd_type h) with
  | Some CMD_TYPE_EXEC => uc_wiota_handle_exec_msg sub_data
  | Some CMD_TYPE_SETUP => uc_wiota_handle_setup_msg sub_data
  | Some CMD_TYPE_QUERY => uc_wiota_handle_query_msg sub_data
  | Some CMD_TYPE_SEND => uc_wiota_handle_send_msg sub_data (cmd h)
  | Some CMD_TYPE_OTHER => uc_wiota_handle_other_msg sub_data (cmd h)
  | Some CMD_TYPE_RECV | None => ffail AssertFail
  end.

Fixpoint parse_loop (fuel : nat) (dl : list Z) (dl_data_len off : Z) : M Z :=
  match fuel with
  | O => ffail OutOfFuel
  | S fuel =>
      if off >=? dl_data_len then fret off
      else
        hc <-- flift (check_header dl dl_data_len off);;
        match hc with
        | None => fret off
        | Some (hp, dl1) =>
            pc <-- flift (check_message dl1 hp off);;
            match pc with
            | None => fret off
            | Some (sp, dl2, sub_data_len) =>
                if sub_data_len >? dl_data_len then fret off
                else
                  h <-- flift (header_at dl2 hp);;
                  dispatch h (drop (Z.to_nat sp) dl2);;;
                  parse_loop fuel dl2 dl_data_len (u16 (off + sub_data_len))
            end
        end
  end.

Definition uc_wiota_dl_data_parse : M Z :=
  idx <-- uc_wiota_ringbuffer_get_dl_write_idx;;
  if negb (idx =? 0) then fret 0
  else
    len <-- uc_wiota_get_dl_data_len;;
    if len =? 0 then fret 0
    else
      ok <-- rt_malloc;;
      if ok : bool then
        s <-- fget;;
        ' (_, dl, rb) <-- flift (uc_wiota_ringbuffer_get (dl_rb s) (replicate (Z.to_nat len) 0) len);;
        fmod (λ s, set_rings rb (ul_rb s) s);;;
        uc_wiota_ringbuffer_set_dl_read_idx;;;
        parse_loop (S (Z.to_nat len)) dl len 0
      else fret 0.

(** One round of the interrupt thread, once the semaphore is taken. *)
Definition uc_wiota_handle_dl_irq_msg : M unit :=
  fmod (λ s, set_irq_cnts (u32 (dl_irq_cnt s + 1)) (ul_irq_cnt s) s);;;
  uc_wiota_dl_data_parse;;;
  fret tt.

Definition zero_read : rb_read_state_t :=
  {| rs_index := 0; rs_mirror := false; rs_channel := 0; read_crc := 0 |}.
Definition zero_write : rb_write_state_t :=
  {| ws_index := 0; ws_mirror := false; ws_channel := 0; write_crc := 0 |}.
Definition zero_heart : heart_info_t :=
  {| isr_cnt := 0; crc_limit := 0; ap8288_state := 0; heart_channel := 0; heart_crc := 0 |}.
Definition zero_hand : hand_shake_t := {| hs_state := 0; hs_channel := 0 |}.

(** Allocates the control block of a ring over the memory of ring [old]. *)
Definition init_ring (size : Z) (old : rt_ringbuffer) : M rt_ringbuffer :=
  ok <-- rt_malloc;;
  fassert ok;;;
  flift (uc_wiota_ringbuffer_init size (buffer_ptr old)).

Definition uc_wiota_spi_com_init : M Z :=
  s <-- fget;;
  dl <-- init_ring DL_RING_BUFFER_SIZE (dl_rb s);;
  ul <-- init_ring (UL_RING_BUFFER_SIZE - 4) (ul_rb s);;
  fmod (λ s, set_rings dl ul (set_heart zero_heart (set_hands zero_hand zero_hand
               (set_ul_states zero_read zero_write (set_dl_states zero_read zero_write s)))));;;
  uc_wiota_enable_ul_irq;;;
  uc_wiota_hand_shake_with_gateway;;;
  fret 0.
End Parse.

(** ** Blocks of intact messages *)

(** A message as the gateway sends it: header fields in range, the announced
    length is the payload's. *)
Record msg_ok (m : cmd_header_t * list Z) : Prop := {
  mo_type : 0 <= cmd_type m.1 < 8;
  mo_cmd : 0 <= cmd m.1 < 64;
  mo_channel : 0 <= channel m.1 < 8;
  mo_result : 0 <= h_result m.1 < 2;
  mo_reserved : 0 <= h_reserved m.1 < 8;
  mo_len : data_len m.1 = zlen m.2;
  mo_bytes : bytes_ok m.2
}.

Section CleanBlock.
Context {R : Type} `{LIB : WiotaLib R}.
Local Abbreviation M := (FW (spi_state R)).

Lemma header_bytes_split h :
  header_bytes (with_crc h) = header_body h ++ le_bytes 4 (uc_wiota_crc32_calc (header_body h)).
Proof.
  unfold header_bytes. change (header_body (with_crc h)) with (header_body h). f_equal. cbn [with_crc header_crc].
  rewrite <- (le_bytes_val (le_bytes 4 (uc_wiota_crc32_calc (header_body h)))) by apply le_bytes_ok.
  rewrite length_le_bytes, le_val_bytes. done.
Qed.

Lemma frame_header h d : ∃ t, frame h d = header_bytes (with_crc h) ++ t.
Proof. unfold frame. destruct d; [exists []; rewrite app_nil_r|rewrite <- app_assoc]; eauto. Qed.

Lemma header_valid_at h pre rest :
  header_valid (pre ++ header_bytes (with_crc h) ++ rest) (zlen pre) = Ok true.
Proof.
  unfold header_valid. rewrite header_bytes_split, <- app_assoc.
  rewrite slice_at by done. cbn [rbind]. unfold u32_at.
  rewrite app_assoc, (value_at (pre ++ _)), le_val_bytes by (rewrite ?zlen_app; done).
  cbn [rbind]. unfold u32. rewrite Z.eqb_refl. done.
Qed.

Lemma header_at_at h pre rest :
  header_ok (with_crc h) → header_at (pre ++ header_bytes (with_crc h) ++ rest) (zlen pre) = Ok (with_crc h).
Proof.
  intros Hok. unfold header_at. rewrite slice_at by done. cbn [rbind].
  rewrite parse_header_bytes by done. done.
Qed.

Lemma frame_tail h d :
  d ≠ [] → let b := header_bytes (with_crc h) ++ pad4 d in
  frame h d = b ++ le_bytes 4 (uc_wiota_crc32_calc b) ∧ zlen b = zlen (frame h d) - 4.
Proof.
  intros Hd b. assert (frame h d = b ++ le_bytes 4 (uc_wiota_crc32_calc b)) as ->.
  { unfold frame. destruct d; done. }
  split; [done|]. rewrite zlen_app. change (zlen (le_bytes 4 _)) with 4. lia.
Qed.

Lemma payload_valid_at h d pre rest :
  d ≠ [] → payload_valid (pre ++ frame h d ++ rest) (zlen pre) (zlen (frame h d)) = Ok true.
Proof.
  intros Hd. destruct (frame_tail h d Hd) as [Hf Hl]. unfold payload_valid, UC_CRC32_LEN.
  set (b := header_bytes (with_crc h) ++ pad4 d) in *.
  assert (pre ++ frame h d ++ rest = pre ++ b ++ le_bytes 4 (uc_wiota_crc32_calc b) ++ rest) as ->
    by (rewrite Hf, <- app_assoc; done).
  rewrite slice_at by done. cbn [rbind]. unfold u32_at.
  rewrite app_assoc, (value_at (pre ++ b)), le_val_bytes by (rewrite ?zlen_app; lia || done).
  cbn [rbind]. unfold u32. rewrite Z.eqb_refl. done.
Qed.

Lemma sub_len_frame h d : d ≠ [] → zlen d <= 65500 → sub_len (zlen d) = zlen (frame h d).
Proof.
  intros Hd Hl. pose proof (RT_ALIGN_4_bounds (zlen d)). pose proof (zlen_nonneg d).
  rewrite zlen_frame. unfold sub_len, RING_BUFFER_ALIGN_SIZE, cmd_header_size, UC_CRC32_LEN.
  rewrite !u16_id; unfold is_u16; try lia; rewrite ?u16_id; unfold is_u16; try lia.
  all: destruct d; [done|]; rewrite ?u16_id; unfold is_u16; lia.
Qed.

Lemma msg_header_ok m : msg_ok m → zlen m.2 <= 65500 → header_ok (with_crc m.1).
Proof.
  intros [? ? ? ? ? Hl ?] Hb. apply header_ok_with_crc; try done.
  unfold is_u16. rewrite Hl. pose proof (zlen_nonneg m.2). lia.
Qed.

(** An intact message passes both checks where it stands. *)
Lemma check_intact m pre rest len :
  msg_ok m → zlen m.2 <= 32000 →
  let blk := pre ++ frame m.1 m.2 ++ rest in
  check_header blk len (zlen pre) = Ok (Some (zlen pre, blk)) ∧
  check_message blk (zlen pre) (zlen pre) =
    Ok (Some (zlen pre, blk, 2 * zlen (frame m.1 m.2))) ∧
  header_at blk (zlen pre) = Ok (with_crc m.1).
Proof.
  intros Hm Hb blk. destruct m as [h d]. cbn [fst snd] in *.
  assert (header_ok (with_crc h)) as Hok by (apply (msg_header_ok (h, d)); cbn; [done|lia]).
  destruct (frame_header h d) as [t Ht].
  assert (header_at blk (zlen pre) = Ok (with_crc h)) as Hh.
  { unfold blk. rewrite Ht, <- app_assoc. apply header_at_at. done. }
  split_and!; auto.
  - unfold check_header. unfold blk at 1. rewrite Ht, <- app_assoc, header_valid_at.
    cbn [rbind]. unfold blk. rewrite Ht, <- app_assoc. done.
  - unfold check_message. rewrite Hh. cbn [rbind]. cbn [data_len with_crc].
    pose proof (mo_len _ Hm) as Hl. cbn [fst snd] in Hl. rewrite Hl.
    destruct (decide (d = [])) as [->|Hd]; [done|].
    assert (0 < zlen d) by (destruct d; [done|]; unfold zlen; simpl; lia).
    rewrite (proj2 (Z.gtb_lt _ _)) by lia. rewrite (sub_len_frame h) by (done || lia).
    unfold check_payload. unfold blk at 1. rewrite payload_valid_at by done. cbn [rbind option_map].
    do 4 f_equal. rewrite u16_id; [lia|]. rewrite zlen_frame. destruct d; [done|].
    unfold is_u16, UC_CRC32_LEN. pose proof (RT_ALIGN_4_bounds (zlen (z :: d))). lia.
Qed.

Definition twice (m : cmd_header_t * list Z) : list Z := frame m.1 m.2 ++ frame m.1 m.2.

(** The messages are dispatched one after the other, each with the block
    from its first copy on. *)
Fixpoint run_msgs (blk : list Z) (off : Z) (ms : list (cmd_header_t * list Z)) : M Z :=
  match ms with
  | [] => fret off
  | m :: ms =>
      fbind (dispatch (with_crc m.1) (drop (Z.to_nat off) blk))
        (λ _, run_msgs blk (off + zlen (twice m)) ms)
  end.

Lemma zlen_twice m : zlen (twice m) = 2 * zlen (frame m.1 m.2).
Proof. unfold twice. rewrite zlen_app. lia. Qed.

Lemma zlen_frame_pos h d : 8 <= zlen (frame h d).
Proof.
  rewrite zlen_frame. destruct d; [lia|]. unfold UC_CRC32_LEN.
  pose proof (RT_ALIGN_4_bounds (zlen (z :: d))). pose proof (zlen_nonneg (z :: d)). lia.
Qed.

Lemma fbind_ext {S A B} (m : FW S A) (k k' : A → FW S B) s :
  (∀ a s', k a s' = k' a s') → fbind m k s = fbind m k' s.
Proof. intros H. unfold fbind. destruct (m s) as [[a s']|]; auto. Qed.

Lemma parse_clean ms pre fuel s :
  Forall msg_ok ms → Forall (λ m, zlen m.2 <= 32000) ms → (length ms < fuel)%nat →
  let blk := pre ++ concat (map twice ms) in
  zlen blk <= 32767 →
  parse_loop fuel blk (zlen blk) (zlen pre) s = run_msgs blk (zlen pre) ms s.
Proof.
  revert pre fuel s. induction ms as [|m ms IH]; intros pre fuel s Hok Hb Hf blk Hlen;
    (destruct fuel as [|fuel]; [simpl in Hf; lia|]).
  - cbn [parse_loop run_msgs]. unfold blk. cbn [map concat]. rewrite app_nil_r.
    rewrite (proj2 (Z.geb_le _ _)) by lia. done.
  - apply Forall_cons in Hok as [Hm Hok]. apply Forall_cons in Hb as [Hbm Hb].
    assert (blk = pre ++ frame m.1 m.2 ++ (frame m.1 m.2 ++ concat (map twice ms))) as Eb.
    { unfold blk, twice. cbn [map concat]. rewrite <- !app_assoc. done. }
    destruct (check_intact m pre (frame m.1 m.2 ++ concat (map twice ms)) (zlen blk) Hm Hbm)
      as (C1 & C2 & C3). rewrite <- Eb in C1, C2, C3.
    pose proof (zlen_frame_pos m.1 m.2).
    assert (zlen pre + 2 * zlen (frame m.1 m.2) <= zlen blk) as Hle.
    { rewrite Eb, !zlen_app. pose proof (zlen_nonneg (concat (map twice ms))). lia. }
    pose proof (zlen_nonneg pre).
    cbn [parse_loop run_msgs]. destruct (Z.geb_spec (zlen pre) (zlen blk)); [lia|].
    unfold fbind at 1. unfold flift at 1. rewrite C1. cbn iota beta.
    unfold fbind at 1. unfold flift at 1. rewrite C2. cbn iota beta.
    destruct (Z.gtb_spec (2 * zlen (frame m.1 m.2)) (zlen blk)); [lia|].
    unfold fbind at 1. unfold flift at 1. rewrite C3. cbn iota beta.
    apply fbind_ext. intros [] s'. rewrite u16_id by (unfold is_u16; lia).
    rewrite zlen_twice, <- zlen_twice, <- zlen_app.
    assert (blk = (pre ++ twice m) ++ concat (map twice ms)) as Eb'.
    { unfold blk. cbn [map concat]. rewrite <- app_assoc. done. }
    rewrite Eb'. apply IH; try done; [simpl in Hf; lia|]. rewrite <- Eb'. done.
Qed.

Lemma payload_le_block ms : Forall (λ m, 2 * zlen m.2 <= zlen (concat (map twice ms))) ms.
Proof.
  apply Forall_forall. intros m Hin. apply list_elem_of_split in Hin as (l1 & l2 & ->).
  rewrite map_app, concat_app, zlen_app. cbn [map concat]. rewrite zlen_app, zlen_twice.
  pose proof (zlen_nonneg (concat (map twice l1))). pose proof (zlen_nonneg (concat (map twice l2))).
  pose proof (zlen_frame_pos m.1 m.2). rewrite zlen_frame in *.
  destruct m.2 as [|b d]; [change (zlen (@nil Z)) with 0; lia|].
  pose proof (RT_ALIGN_4_bounds (zlen (b :: d))). unfold UC_CRC32_LEN in *. lia.
Qed.

Lemma block_mod4 ms : Forall (λ m : cmd_header_t * list Z, zlen m.2 <= 65500) ms →
  zlen (concat (map twice ms)) mod 4 = 0.
Proof.
  induction 1 as [|m ms Hm Hms IH]; [done|]. cbn [map concat]. rewrite zlen_app, zlen_twice.
  destruct (frame_align m.1 m.2) as [_ Ha]; [done|].
  pose proof (RT_ALIGN_4_mod (zlen (frame m.1 m.2))) as Hmod. rewrite Ha in Hmod.
  Z.div_mod_to_equations. lia.
Qed.

Lemma block_align ms : zlen (concat (map twice ms)) <= 32767 →
  RT_ALIGN (zlen (concat (map twice ms))) 4 = zlen (concat (map twice ms)).
Proof.
  intros Hl. apply RT_ALIGN_4_id, block_mod4. eapply Forall_impl; [apply payload_le_block|].
  cbn. intros. lia.
Qed.

Lemma length_block ms : (length ms <= length (concat (map twice ms)))%nat.
Proof.
  induction ms as [|m ms IH]; [done|]. cbn [map concat length]. rewrite length_app.
  pose proof (zlen_twice m). pose proof (zlen_frame_pos m.1 m.2). unfold zlen in *. lia.
Qed.

(** The downlink ring with the writer position the gateway published. *)
Definition synced_dl (s : spi_state R) : rt_ringbuffer :=
  set_write (dl_rb s) (ws_mirror (dl_rb_write_state s)) (ws_index (dl_rb_write_state s)).

(** The state after the whole ring was read and the new reader position was
    published. *)
Definition dl_taken (s : spi_state R) : spi_state R :=
  let rb := advance (synced_dl s) (rt_ringbuffer_data_len (synced_dl s)) in
  set_dl_states
    (seal_read {| rs_index := read_index rb; rs_mirror := read_mirror rb;
                  rs_channel := ap_channel_id s; read_crc := read_crc (dl_rb_read_state s) |})
    (dl_rb_write_state s) (set_rings rb (ul_rb s) s).

Record dl_in_sync (s : spi_state R) : Prop := {
  ds_channel : ws_channel (dl_rb_write_state s) = ap_channel_id s;
  ds_crc : write_crc (dl_rb_write_state s) = u16 (uc_wiota_crc8_calc (write_state_body (dl_rb_write_state s)));
  ds_wf : rb_wf (synced_dl s)
}.

(** Up to the parse loop: the ring's content is what gets parsed. *)
Lemma dl_data_parse_block s :
  dl_in_sync s → mallocs s = [] →
  let blk := rb_content (synced_dl s) in
  8 <= zlen blk → RT_ALIGN (zlen blk) 4 = zlen blk →
  uc_wiota_dl_data_parse s =
  parse_loop (S (Z.to_nat (zlen blk))) blk (zlen blk) 0 (dl_taken s).
Proof.
  intros [Hc Hcrc WF] Hm blk H8 Hal.
  pose proof (length_rb_content _ WF) as Hlen. fold blk in Hlen.
  pose proof (data_len_bounds _ WF) as Hbd. pose proof (wf_size _ WF) as Hsz.
  unfold uc_wiota_dl_data_parse, uc_wiota_ringbuffer_get_dl_write_idx.
  unfold fbind at 1. unfold fbind at 1. unfold fget at 1. cbn beta iota.
  rewrite Hc, Z.eqb_refl. cbn [negb]. rewrite Hcrc, Z.eqb_refl.
  unfold fmod, fbind at 1, fret at 1. cbn beta iota. cbn [Z.eqb negb].
  fold (synced_dl s). set (s1 := set_rings (synced_dl s) (ul_rb s) s).
  assert (uc_wiota_get_dl_data_len s1 = Ok (zlen blk, s1)) as Hdl.
  { unfold uc_wiota_get_dl_data_len, fbind, fget. change (dl_rb s1) with (synced_dl s).
    rewrite <- Hlen, u16_id by (unfold is_u16; lia). unfold cmd_header_size.
    rewrite (proj2 (Z.eqb_neq _ _)), (proj2 (Z.ltb_ge _ _)) by lia.
    destruct (Z.gtb_spec (zlen blk) (buffer_size (synced_dl s))); [lia|]. done. }
  unfold fbind at 1. rewrite Hdl. rewrite (proj2 (Z.eqb_neq _ _)) by lia.
  unfold fbind at 1, rt_malloc. change (mallocs s1) with (mallocs s). rewrite Hm.
  unfold fbind at 1, fget. change (dl_rb s1) with (synced_dl s).
  destruct (get_total (synced_dl s) (zlen blk) WF) as (rb' & Eget & _);
    [lia|unfold RING_BUFFER_ALIGN_SIZE; fold blk; lia|].
  assert (rb' = advance (synced_dl s) (zlen blk)) as Hrb.
  { revert Eget. unfold RING_BUFFER_ALIGN_SIZE. rewrite Hal.
    assert (zlen (replicate (Z.to_nat (zlen blk)) 0) = zlen blk) as Hrl
      by (unfold zlen; rewrite length_replicate; lia).
    rewrite get_spec by (unfold RING_BUFFER_ALIGN_SIZE; rewrite ?Hal, ?Hrl; auto; lia).
    unfold RING_BUFFER_ALIGN_SIZE. rewrite Hal. intros [= _ <-]. done. }
  revert Eget. unfold RING_BUFFER_ALIGN_SIZE. rewrite Hal. fold blk.
  assert (take (Z.to_nat (zlen blk)) blk = blk) as ->.
  { unfold zlen. rewrite Nat2Z.id. apply firstn_all. }
  intros Eget. unfold fbind at 1, flift. rewrite Eget. cbn beta iota.
  unfold fbind at 1, fmod. unfold fbind at 1, uc_wiota_ringbuffer_set_dl_read_idx, fmod.
  subst rb'. unfold dl_taken. rewrite <- Hlen. done.
Qed.

Lemma dl_parse_run ms s :
  dl_in_sync s → mallocs s = [] → Forall msg_ok ms → ms ≠ [] →
  rb_content (synced_dl s) = concat (map twice ms) →
  uc_wiota_dl_data_parse s = run_msgs (concat (map twice ms)) 0 ms (dl_taken s).
Proof.
  intros Hsync Hm Hok Hne Hc. pose proof Hsync as [_ _ WF].
  pose proof (length_rb_content _ WF) as Hlen. pose proof (data_len_bounds _ WF).
  pose proof (wf_size _ WF). rewrite Hc in Hlen.
  assert (zlen (concat (map twice ms)) <= 32767) as Hb by lia.
  assert (8 <= zlen (concat (map twice ms))).
  { destruct ms as [|m ms']; [done|]. cbn [map concat]. rewrite zlen_app, zlen_twice.
    pose proof (zlen_frame_pos m.1 m.2). pose proof (zlen_nonneg (concat (map twice ms'))). lia. }
  rewrite dl_data_parse_block by (rewrite ?Hc; auto using block_align). rewrite Hc.
  apply (parse_clean ms [] _ (dl_taken s)); auto.
  - eapply Forall_impl; [apply payload_le_block|]. cbn. intros. lia.
  - pose proof (length_block ms). unfold zlen. rewrite Nat2Z.id. lia.
Qed.

(** The downlink is read completely and in order.  When the ring holds
    intact messages, each written twice, the parser dispatches each message
    exactly once, in the order they were written, empties the ring,
    publishes the new reader position and returns the number of bytes. *)
Theorem dl_parse_clean ms s :
  dl_in_sync s → mallocs s = [] → Forall msg_ok ms → ms ≠ [] →
  rb_content (synced_dl s) = concat (map twice ms) →
  uc_wiota_dl_data_parse s = run_msgs (concat (map twice ms)) 0 ms (dl_taken s).
Proof. apply dl_parse_run. Qed.
End CleanBlock.

(** ** Damaged messages *)

Section Damaged.
Context {R : Type} `{LIB : WiotaLib R}.
Context (h : cmd_header_t) (d px hx : list Z).
Let hb := header_bytes (with_crc h).
Let f := frame h d.
Let n := zlen f.
Hypothesis Hm : msg_ok (h, d).
Hypothesis Hd : d ≠ [].
Hypothesis Hb : zlen d <= 16000.
Hypothesis Hhx : zlen hx = 8.
Hypothesis Hpx : 8 + zlen px = n.
Let blk := hx ++ px ++ f.
Let fixed := hb ++ px ++ f.
Hypothesis Hheader : hx = hb ∨ header_valid blk 0 = Ok false.
Hypothesis Hpayload : payload_valid fixed 0 n = Ok false.

Lemma damaged_frame : ∃ t, f = hb ++ t.
Proof using Type. apply frame_header. Qed.

Lemma damaged_ok : header_ok (with_crc h).
Proof using All. apply (msg_header_ok (h, d)); cbn; [done|lia]. Qed.

Lemma zlen_hb : zlen hb = 8.
Proof using Type. reflexivity. Qed.

Lemma zlen_front (b : list Z) : zlen b = 8 → zlen (b ++ px) = n.
Proof using All. intros. rewrite zlen_app. lia. Qed.

Lemma damaged_header_at : header_at fixed n = Ok (with_crc h) ∧ slice n cmd_header_size fixed = Ok hb.
Proof using All.
  destruct damaged_frame as [t Ht]. pose proof (zlen_front hb zlen_hb) as Hz. unfold fixed.
  rewrite app_assoc, Ht, <- Hz. split.
  - apply header_at_at, damaged_ok.
  - apply slice_at; done.
Qed.

Lemma damaged_check_header :
  check_header blk (2 * n) 0 = Ok (Some (0, fixed)) ∨ check_header blk (2 * n) 0 = Ok (Some (n, fixed)).
Proof using All.
  destruct damaged_frame as [t Ht]. unfold check_header.
  replace (2 * n / 2) with n by (rewrite Z.mul_comm, Z.div_mul by lia; done).
  destruct Hheader as [E|E].
  - left. unfold blk, fixed in *. rewrite E.
    assert (header_valid (hb ++ px ++ f) 0 = Ok true) as -> by exact (header_valid_at h [] (px ++ f)). done.
  - right. rewrite E. cbn [rbind]. pose proof (zlen_front hx Hhx) as Hz.
    pose proof (header_valid_at h (hx ++ px) t) as Hv.
    pose proof (slice_at (hx ++ px) hb t _ _ eq_refl eq_refl) as Hs. fold hb in Hv.
    rewrite <- Ht, Hz, <- app_assoc in Hv, Hs. fold blk in Hv, Hs. rewrite Hv. cbn [rbind].
    change (zlen hb) with cmd_header_size in Hs. rewrite Hs. cbn [rbind].
    unfold blk. rewrite store_Ok; [|lia|].
    + rewrite (blit_app_mid [] hx (px ++ f) hb) by done. done.
    + rewrite !zlen_app, zlen_hb. pose proof (zlen_nonneg px). pose proof (zlen_nonneg f). lia.
Qed.

Lemma damaged_check_message hp : hp = 0 ∨ hp = n →
  check_message fixed hp 0 = Ok (Some (n, fixed, 2 * n)) ∧ header_at fixed hp = Ok (with_crc h).
Proof using All.
  intros Hhp. destruct damaged_header_at as [Hat Hsl]. pose proof damaged_ok as Hok.
  assert (header_at fixed hp = Ok (with_crc h)) as Hh.
  { destruct Hhp as [->| ->]; [|done]. apply (header_at_at h []). done. }
  assert (slice hp cmd_header_size fixed = Ok hb) as Hs.
  { destruct Hhp as [->| ->]; [|done]. apply (slice_at [] hb); done. }
  split; [|done]. unfold check_message. rewrite Hh. cbn [rbind data_len with_crc].
  pose proof (mo_len _ Hm) as Hl. cbn [fst snd] in Hl. rewrite Hl.
  assert (0 < zlen d) by (clear -Hd; destruct d; [done|]; unfold zlen; simpl; lia).
  rewrite (proj2 (Z.gtb_lt _ _)) by lia. rewrite (sub_len_frame h) by (done || lia). fold f n.
  unfold check_payload. rewrite Hpayload. cbn [rbind]. rewrite Hs. cbn [rbind].
  destruct damaged_frame as [t Ht]. pose proof (zlen_front hb zlen_hb) as Hz.
  assert (fixed = (hb ++ px) ++ hb ++ t) as Ef by (unfold fixed; rewrite <- app_assoc, Ht; done).
  assert (store n hb fixed = Ok fixed) as ->.
  { rewrite Ef, store_Ok; [rewrite (blit_app_mid (hb ++ px)) by done; done| |].
    - pose proof (zlen_nonneg px). lia.
    - rewrite (zlen_app (hb ++ px)), Hz, zlen_app. pose proof (zlen_nonneg t). lia. }
  cbn [rbind]. assert (payload_valid fixed n n = Ok true) as ->.
  { pose proof (payload_valid_at h d (hb ++ px) [] Hd) as Hv. rewrite Hz, app_nil_r in Hv.
    unfold fixed. rewrite app_assoc. exact Hv. }
  cbn [rbind option_map]. do 4 f_equal. rewrite u16_id; [lia|].
  unfold n, f. rewrite zlen_frame. pose proof (RT_ALIGN_4_bounds (zlen d)). clear -H H0 Hd Hb.
  destruct d; [done|]. unfold is_u16, UC_CRC32_LEN. lia.
Qed.

Lemma parse_damaged fuel s :
  parse_loop (S (S fuel)) blk (2 * n) 0 s =
  fbind (dispatch (with_crc h) f) (λ _, fret (2 * n)) s.
Proof using All.
  assert (8 <= n) as H8 by (unfold n, f; apply zlen_frame_pos).
  assert (n < 16050) as Hn.
  { unfold n, f. rewrite zlen_frame. pose proof (RT_ALIGN_4_bounds (zlen d)).
    clear -H Hd Hb. destruct d; [done|]. unfold UC_CRC32_LEN. lia. }
  assert (drop (Z.to_nat n) fixed = f) as Hdrop.
  { unfold fixed. rewrite app_assoc, <- (zlen_front hb zlen_hb). unfold zlen. rewrite Nat2Z.id.
    apply drop_app_length. }
  assert (∃ hp, check_header blk (2 * n) 0 = Ok (Some (hp, fixed)) ∧ (hp = 0 ∨ hp = n)) as (hp & C1 & Hhp).
  { destruct damaged_check_header; eauto. }
  destruct (damaged_check_message hp Hhp) as [C2 C3].
  remember (S fuel) as fuel1 eqn:Ef. cbn [parse_loop].
  destruct (Z.geb_spec 0 (2 * n)); [lia|].
  unfold fbind at 1. unfold flift at 1. rewrite C1. cbn beta iota.
  unfold fbind at 1. unfold flift at 1. rewrite C2. cbn beta iota.
  destruct (Z.gtb_spec (2 * n) (2 * n)); [lia|].
  unfold fbind at 1. unfold flift at 1. rewrite C3. cbn beta iota. rewrite Hdrop.
  apply fbind_ext. intros [] s'. rewrite Z.add_0_l, u16_id by (unfold is_u16; lia).
  subst fuel1. cbn [parse_loop]. destruct (Z.geb_spec (2 * n) (2 * n)); [done|lia].
Qed.
End Damaged.

Section Recovered.
Context {R : Type} `{LIB : WiotaLib R}.

End Recovered.

(** ** Termination *)

Section Termination.
Context {R : Type} `{LIB : WiotaLib R}.

(** [m] never uses up its fuel. *)
Definition nofuel {A} (m : FW (spi_state R) A) : Prop := ∀ s, m s ≠ Fault OutOfFuel.
Definition nofuel_r {A} (r : result A) : Prop := r ≠ Fault OutOfFuel.

Lemma nofuel_bind {A B} (m : FW (spi_state R) A) (k : A → FW (spi_state R) B) :
  nofuel m → (∀ a, nofuel (k a)) → nofuel (fbind m k).
Proof. intros Hm Hk s. unfold fbind. specialize (Hm s). destruct (m s) as [[a s']|]; [apply Hk|congruence]. Qed.
Lemma nofuel_ret {A} (a : A) : nofuel (fret a).
Proof. done. Qed.
Lemma nofuel_get : nofuel fget.
Proof. done. Qed.
Lemma nofuel_gets {A} (g : spi_state R → A) : nofuel (fgets g).
Proof. done. Qed.
Lemma nofuel_mod g : nofuel (fmod g).
Proof. done. Qed.
Lemma nofuel_assert_fail {A} : nofuel (@ffail (spi_state R) A AssertFail).
Proof. done. Qed.
Lemma nofuel_wcall {T} (e : wiotaE T) : nofuel (wcall e).
Proof. intros s. unfold wcall. destruct (wiota_call e (lib s)). done. Qed.
Lemma nofuel_malloc : nofuel rt_malloc.
Proof. intros s. unfold rt_malloc. case_match; done. Qed.
Lemma nofuel_mdelay : nofuel mdelay.
Proof. intros s. unfold mdelay. case_match; done. Qed.
Lemma nofuel_lift {A} (r : result A) : nofuel_r r → nofuel (flift r).
Proof. intros Hr s. unfold flift. destruct r; congruence. Qed.

Lemma nofuel_r_bind {A B} (r : result A) (k : A → result B) :
  nofuel_r r → (∀ a, nofuel_r (k a)) → nofuel_r (rbind r k).
Proof. intros Hr Hk. unfold rbind. destruct r; [apply Hk|unfold nofuel_r in *; congruence]. Qed.
Lemma nofuel_r_Ok {A} (a : A) : nofuel_r (Ok a).
Proof. done. Qed.
Lemma nofuel_slice {A} off len (l : list A) : nofuel_r (slice off len l).
Proof. unfold slice. case_match; done. Qed.
Lemma nofuel_store {A} off (d l : list A) : nofuel_r (store off d l).
Proof. unfold store. case_match; done. Qed.
End Termination.

Create HintDb nofuel discriminated.
#[export] Hint Resolve nofuel_ret nofuel_get nofuel_gets nofuel_mod nofuel_assert_fail nofuel_wcall
  nofuel_malloc nofuel_mdelay nofuel_r_Ok nofuel_slice nofuel_store : nofuel.

(** Walks through a program without loops. *)
Ltac nofuel :=
  repeat lazymatch goal with
  | |- nofuel (fbind _ _) => apply nofuel_bind; [|intros]
  | |- nofuel_r (rbind _ _) => apply nofuel_r_bind; [|intros]
  | |- nofuel (flift _) => apply nofuel_lift
  | |- nofuel (if ?b then _ else _) => destruct b
  | |- nofuel_r (if ?b then _ else _) => destruct b
  | |- nofuel (match ?x with _ => _ end) => destruct x
  | |- nofuel_r (match ?x with _ => _ end) => destruct x
  | |- _ => solve [auto with nofuel]
  end.

Section Terminates.
Context {R : Type} `{LIB : WiotaLib R}.

Lemma nofuel_put rb data len : nofuel_r (uc_wiota_ringbuffer_put rb data len).
Proof. unfold uc_wiota_ringbuffer_put. cbv zeta. nofuel. Qed.
Hint Resolve nofuel_put : nofuel.

Lemma nofuel_read_idx_loop n : nofuel (R := R) (get_ul_read_idx_loop n).
Proof. induction n; cbn [get_ul_read_idx_loop]; nofuel. Qed.
Hint Resolve nofuel_read_idx_loop : nofuel.

Lemma nofuel_copy_paras ps n buf : nofuel_r (copy_paras ps n buf).
Proof. revert n buf. induction ps as [|[ptr len] ps IH]; intros; cbn [copy_paras]; nofuel. Qed.
Hint Resolve nofuel_copy_paras : nofuel.

Lemma nofuel_send ci : nofuel (R := R) (uc_wiota_send_data_to_gateway ci).
Proof.
  unfold uc_wiota_send_data_to_gateway, ul_send, build_write_buf, uc_wiota_get_channel_id,
    uc_wiota_ringbuffer_get_ul_read_idx, uc_wiota_ringbuffer_set_ul_write_idx, uc_wiota_enable_ul_irq.
  cbv zeta. nofuel.
Qed.
Hint Resolve nofuel_send : nofuel.

Lemma nofuel_report ct c ps : nofuel (R := R) (report ct c ps).
Proof. unfold report. nofuel. Qed.
Hint Resolve nofuel_report : nofuel.
Lemma nofuel_result ct c : nofuel (R := R) (wiota_cmd_exec_result ct c).
Proof. apply nofuel_report. Qed.
Lemma nofuel_ucall {T} (e : wiotaE T) : nofuel (R := R) (ucall e).
Proof. unfold ucall. nofuel. Qed.
Hint Resolve nofuel_result nofuel_ucall : nofuel.
Lemma nofuel_iv b i : nofuel (R := R) (iv b i).
Proof. unfold iv, in_value. nofuel. Qed.
Hint Resolve nofuel_iv : nofuel.
Lemma nofuel_ivs b i n : nofuel (R := R) (ivs b i n).
Proof. revert i. induction n; intros; cbn [ivs]; nofuel. Qed.
Hint Resolve nofuel_ivs : nofuel.

Lemma nofuel_dispatch h b : nofuel (R := R) (dispatch h b).
Proof.
  unfold dispatch, uc_wiota_handle_exec_msg, uc_wiota_handle_setup_msg, uc_wiota_handle_query_msg,
    uc_wiota_handle_send_msg, uc_wiota_handle_other_msg, msg_header, set1, set2, set3, query_values,
    get1, handle_send_data, handle_scan_freq, handle_temp_query, handle_sync_paging,
    handle_recv_sm_by_fn, handle_bl_get, id_array, rd8, rd16, rd32, rdn, u8_at, u16_at, u32_at,
    uc_wiota_handle_send_result, uc_wiota_scan_callback, uc_wiota_temp_callback,
    uc_wiota_sync_paging_callback, fassert.
  cbv zeta. nofuel.
Qed.
Hint Resolve nofuel_dispatch : nofuel.

Lemma nofuel_lift_bind {A B} (r : result A) (k : A → FW (spi_state R) B) :
  nofuel_r r → (∀ a, r = Ok a → nofuel (k a)) → nofuel (fbind (flift r) k).
Proof.
  intros Hr Hk s. unfold fbind, flift. destruct r; [by apply Hk|unfold nofuel_r in Hr; congruence].
Qed.

Lemma nofuel_check_header dl len off : nofuel_r (check_header (R := R) dl len off).
Proof. unfold check_header, header_valid, u32_at. cbv zeta. nofuel. Qed.
Lemma nofuel_header_at dl p : nofuel_r (header_at dl p).
Proof. unfold header_at. nofuel. Qed.
Hint Resolve nofuel_header_at : nofuel.
Lemma nofuel_check_message dl hp off : nofuel_r (check_message (R := R) dl hp off).
Proof. unfold check_message, check_payload, payload_valid, u32_at. cbv zeta. nofuel. Qed.

Lemma check_header_len dl len off hp dl1 :
  check_header (R := R) dl len off = Ok (Some (hp, dl1)) → zlen dl1 = zlen dl.
Proof.
  unfold check_header, rbind. intros H.
  destruct (header_valid dl off) as [[]|]; simplify_eq; [done|].
  destruct (header_valid dl _) as [[]|]; simplify_eq.
  destruct (slice _ _ dl); simplify_eq. destruct (store _ _ dl) eqn:E; simplify_eq.
  apply store_inv in E as (? & ? & ->). apply zlen_blit; done.
Qed.

Lemma payload_valid_bounds dl p n b :
  payload_valid (R := R) dl p n = Ok b → 4 <= n ∧ 0 <= p ∧ p + n <= zlen dl.
Proof.
  unfold payload_valid, UC_CRC32_LEN, u32_at, rbind. intros H.
  destruct (slice p (n - 4) dl) eqn:E1; [|done]. destruct (slice (p + n - 4) 4 dl) eqn:E2; [|done].
  apply slice_inv in E1 as (? & ? & ? & _). apply slice_inv in E2 as (? & ? & ? & _). lia.
Qed.

(** A message that passed its check is at least as long as its header. *)
Lemma check_message_progress dl hp off sp dl2 n2 :
  zlen dl <= 32767 → check_message (R := R) dl hp off = Ok (Some (sp, dl2, n2)) →
  8 <= n2 <= 65535 ∧ zlen dl2 = zlen dl.
Proof.
  intros Hl. unfold check_message, rbind.
  destruct (header_at dl hp) as [h|]; [|done]. destruct (data_len h >? 0); [|intros [= <- <- <-]; done].
  cbv zeta. set (n := sub_len (data_len h)). unfold check_payload, rbind.
  destruct (payload_valid dl off n) as [b|] eqn:E; [|done].
  apply payload_valid_bounds in E.
  assert (u16 (n * 2) = 2 * n) as Hu by (rewrite u16_id; [lia|unfold is_u16; lia]). rewrite Hu.
  destruct b; [intros [= <- <- <-]; split; [lia|done]|].
  destruct (slice hp _ dl); [|done]. destruct (store n _ dl) eqn:Es; [|done].
  apply store_inv in Es as (? & ? & ->). destruct (payload_valid _ n n) as [[]|]; [|done|done].
  intros [= <- <- <-]. split; [lia|]. apply zlen_blit; done.
Qed.

Lemma parse_loop_nofuel fuel dl len off :
  zlen dl <= 32767 → len <= 32767 → 0 <= off → (Z.to_nat (len - off) < fuel)%nat →
  nofuel (R := R) (parse_loop fuel dl len off).
Proof.
  revert dl off. induction fuel as [|fuel IH]; intros dl off Hdl Hlen Hoff Hf s; [lia|].
  cbn [parse_loop]. destruct (Z.geb_spec off len); [done|].
  unfold fbind at 1. unfold flift at 1. pose proof (nofuel_check_header dl len off) as Hn.
  destruct (check_header dl len off) as [[[hp dl1]|]|] eqn:E1; [|done|unfold nofuel_r in Hn; congruence].
  clear Hn. unfold fbind at 1. unfold flift at 1. pose proof (nofuel_check_message dl1 hp off) as Hn.
  apply check_header_len in E1.
  destruct (check_message dl1 hp off) as [[[[sp dl2] n2]|]|] eqn:E2;
    [|done|unfold nofuel_r in Hn; congruence]. clear Hn.
  apply check_message_progress in E2 as [Hp Hl2]; [|lia].
  destruct (Z.gtb_spec n2 len); [done|].
  revert s. change (nofuel (fbind (flift (header_at dl2 hp)) (λ h,
    fbind (dispatch h (drop (Z.to_nat sp) dl2)) (λ _, parse_loop fuel dl2 len (u16 (off + n2)))))).
  nofuel. rewrite u16_id by (unfold is_u16; lia). apply IH; lia.
Qed.

Lemma get_keeps_len rb ptr len n ptr' rb' :
  uc_wiota_ringbuffer_get rb ptr len = Ok (n, ptr', rb') → zlen ptr' = zlen ptr.
Proof.
  unfold uc_wiota_ringbuffer_get, rbind. intros H.
  repeat match type of H with
  | (if ?b then _ else _) = _ => destruct b
  | match slice ?a ?b ?c with _ => _ end = _ => destruct (slice a b c); [|done]
  | match store ?a ?b ?c with _ => _ end = _ =>
      let E := fresh in destruct (store a b c) eqn:E; [apply store_inv in E as (? & ? & ->)|done]
  end; simplify_eq/=; repeat (rewrite zlen_blit in * by auto); auto.
Qed.

(** Reading the downlink always comes to an end, whatever the gateway
    has written: the fuel of the model, one more than the number of bytes
    taken from the ring, is never used up. *)
Theorem dl_data_parse_terminates s :
  0 <= buffer_size (dl_rb s) <= 32767 → uc_wiota_dl_data_parse (R := R) s ≠ Fault OutOfFuel.
Proof.
  intros Hsz. unfold uc_wiota_dl_data_parse, fbind at 1.
  destruct (uc_wiota_ringbuffer_get_dl_write_idx s) as [[idx s1]|] eqn:E1.
  2: { revert E1. unfold uc_wiota_ringbuffer_get_dl_write_idx, fbind, fget. repeat case_match; done. }
  assert (buffer_size (dl_rb s1) = buffer_size (dl_rb s)) as Hs1.
  { revert E1. unfold uc_wiota_ringbuffer_get_dl_write_idx, fbind, fget, fmod, fret.
    repeat case_match; intros; simplify_eq/=; done. }
  destruct (negb _); [done|]. unfold fbind at 1.
  destruct (uc_wiota_get_dl_data_len s1) as [[len s2]|] eqn:E2.
  2: { revert E2. unfold uc_wiota_get_dl_data_len, fbind, fget. repeat case_match; done. }
  assert (s2 = s1 ∧ 0 <= len <= 32767) as [-> Hlen].
  { revert E2. unfold uc_wiota_get_dl_data_len, fbind, fget, fret.
    pose proof (u16_range (rt_ringbuffer_data_len (dl_rb s1))) as Hu. unfold is_u16 in Hu.
    destruct (_ =? 0); [intros; simplify_eq; split; [done|lia]|].
    destruct (_ <? _); cbn [orb]; [intros; simplify_eq; split; [done|lia]|].
    destruct (Z.gtb_spec (u16 (rt_ringbuffer_data_len (dl_rb s1))) (buffer_size (dl_rb s1)));
      intros; simplify_eq; split; try done; lia. }
  destruct (len =? 0); [done|].
  match goal with |- ?m s1 ≠ _ => cut (nofuel m); [intros Hn; apply Hn|] end.
  apply nofuel_bind; [auto with nofuel|intros []; [|auto with nofuel]].
  apply nofuel_bind; [auto with nofuel|intros s3].
  apply nofuel_lift_bind; [unfold uc_wiota_ringbuffer_get; cbv zeta; nofuel|].
  intros [[n dl] rb] E. apply get_keeps_len in E. unfold zlen in E at 2.
  rewrite length_replicate in E. unfold uc_wiota_ringbuffer_set_dl_read_idx.
  do 2 (apply nofuel_bind; [auto with nofuel|intros []]). apply parse_loop_nofuel; lia.
Qed.
End Terminates.

(** ** A batch of commands *)

Section Batch.
Context {R : Type} `{LIB : WiotaLib R}.

(** Commands answered by their codes: the payload has the size of their structure. *)
Definition command_ok (m : cmd_header_t * list Z) : Prop :=
  match enum_of (cmd_type m.1) with
  | Some CMD_TYPE_EXEC => True
  | Some CMD_TYPE_SETUP => zlen m.2 = 56
  | Some CMD_TYPE_QUERY => zlen m.2 = 8
  | _ => False
  end.

(** The frames a command is answered with on channel [c]. *)
Definition answers (m : cmd_header_t * list Z) (c : Z) (fs : list (list Z)) : Prop :=
  let h := m.1 in
  match enum_of (cmd_type h) with
  | Some CMD_TYPE_EXEC =>
      fs = replicate (match enum_of (cmd h) with Some WIOTA_REBOOT => 2 | _ => 1 end)
             (reply (cmd_type h) (cmd h) [] c)
  | Some CMD_TYPE_SETUP =>
      fs = replicate (match enum_of (cmd h) with Some WIOTA_PAGING_RX_ENTER => 2 | _ => 1 end)
             (reply (cmd_type h) (cmd h) [] c)
  | Some CMD_TYPE_QUERY =>
      ∃ d, fs = [reply (cmd_type h) (cmd h) d c] ∧ zlen d = 4 * query_num (enum_of (cmd h))
  | _ => False
  end.

Lemma dispatch_emits m sub_data t :
  msg_ok m → command_ok m → zlen m.2 <= 32000 → sub_data = frame m.1 m.2 ++ t →
  emits (R := R) (dispatch (with_crc m.1) sub_data) (answers m).
Proof.
  intros Hm Hc Hb ->. destruct m as [h d]. cbn [fst snd] in *.
  destruct (frame_header h d) as [t' Ht].
  assert (hdr (frame h d ++ t) = with_crc h) as Hh.
  { unfold hdr. rewrite Ht, <- app_assoc. rewrite take_app_le by done.
    change (take 8 (header_bytes (with_crc h))) with (header_bytes (with_crc h)).
    apply parse_header_bytes, (msg_header_ok (h, d)); cbn; [done|lia]. }
  assert (zlen (frame h d) <= zlen (frame h d ++ t)) as Hl.
  { rewrite zlen_app. pose proof (zlen_nonneg t). lia. }
  pose proof (zlen_frame_pos h d) as Hpos.
  assert (d ≠ [] → 12 + zlen d <= zlen (frame h d)) as Hz.
  { intros Hd. rewrite zlen_frame. pose proof (RT_ALIGN_4_bounds (zlen d)).
    destruct d; [done|]. unfold UC_CRC32_LEN. lia. }
  unfold dispatch, answers, command_ok in *. cbn [fst snd cmd_type with_crc] in *.
  destruct (enum_of (cmd_type h)) as [[]|]; try done.
  - eapply emits_weaken; [|apply exec_msg_emits; lia]. rewrite Hh. done.
  - assert (d ≠ []) as Hd by (intros ->; done).
    eapply emits_weaken; [|apply setup_msg_emits; specialize (Hz Hd); lia]. rewrite Hh. done.
  - assert (d ≠ []) as Hd by (intros ->; done).
    eapply emits_weaken; [|apply query_msg_emits; specialize (Hz Hd); lia]. rewrite Hh. done.
Qed.

Lemma run_msgs_emits ms pre :
  Forall msg_ok ms → Forall command_ok ms → Forall (λ m, zlen m.2 <= 32000) ms →
  emits (R := R) (run_msgs (pre ++ concat (map twice ms)) (zlen pre) ms)
    (λ c fs, ∃ fss, fs = concat fss ∧ Forall2 (λ m, answers m c) ms fss).
Proof.
  revert pre. induction ms as [|m ms IH]; intros pre Hm Hc Hb; cbn [run_msgs].
  - eapply emits_weaken; [|apply emits_ret]. intros c fs ->. exists []. split; [done|constructor].
  - apply Forall_cons in Hm as [? Hm]. apply Forall_cons in Hc as [? Hc]. apply Forall_cons in Hb as [? Hb].
    eapply emits_weaken; cycle 1.
    + apply emits_bind.
      * eapply dispatch_emits; try done. unfold zlen. rewrite Nat2Z.id, drop_app_length.
        cbn [map concat]. unfold twice at 1. rewrite <- app_assoc. reflexivity.
      * intros _. cbn [map concat]. rewrite app_assoc, <- zlen_app. apply IH; done.
    + intros c fs (f1 & f2 & -> & Ha & fss & -> & Hall). exists (f1 :: fss). split; [done|].
      constructor; done.
Qed.

Lemma dl_taken_quiet s : quiet (R := R) s → quiet (dl_taken s) ∧ ul_content (dl_taken s) = ul_content s.
Proof. intros [[? ? ?] ? ? ? ?]. split; [split; try done; split; done|done]. Qed.

Lemma dl_taken_empty s : dl_in_sync (R := R) s → rb_content (dl_rb (dl_taken s)) = [].
Proof.
  intros [_ _ WF]. pose proof (data_len_bounds _ WF). pose proof (length_rb_content _ WF) as Hl.
  change (rb_content (advance (synced_dl s) (rt_ringbuffer_data_len (synced_dl s))) = []).
  rewrite advance_content by (done || lia). rewrite <- Hl.
  apply drop_ge. unfold zlen. lia.
Qed.

End Batch.

(** ** Start-up *)

Section StartUp.
Context {R : Type} `{CRC : WiotaCrcOk R}.
Implicit Type s : spi_state R.

(** The effect of a completed hand shake on channel [c]. *)
Definition shaken (c : Z) s : spi_state R :=
  set_ul_states (seal_read (with_read_channel c (ul_rb_read_state s)))
                (seal_write (with_write_channel c (ul_rb_write_state s)))
    (set_dl_states (seal_read (with_read_channel c (dl_rb_read_state s)))
                   (seal_write (with_write_channel c (dl_rb_write_state s)))
      (set_channel c s)).

(** The gateway's answer: some words that do not say 1, then one that does. *)
Definition gateway_answers (hs : list hand_shake_t) (c : Z) : list gw_write :=
  map gw_hand_shake (hs ++ [{| hs_state := 1; hs_channel := c |}]).

Lemma hand_shake_loop_spec hs c fuel s :
  Forall (λ h, hs_state h ≠ 1) hs → hs_state (dl_buf_state s) ≠ 1 →
  pending s = gateway_answers hs c → (S (length hs) < fuel)%nat →
  ∃ h, hand_shake_loop fuel s =
       Ok (tt, shaken (u8 c) (set_hands h (ul_buf_state s) (set_env (mallocs s) [] s))).
Proof.
  revert fuel s. induction hs as [|h hs IH]; intros fuel s Hhs Hst Hp Hf.
  - destruct fuel as [|[|fuel]]; simpl in Hf; try lia.
    cbn [hand_shake_loop]. unfold fbind, fget. rewrite (proj2 (Z.eqb_neq _ _)) by done.
    unfold mdelay. rewrite Hp. eexists. reflexivity.
  - apply Forall_cons in Hhs as [Hh Hhs]. destruct fuel as [|fuel]; simpl in Hf; [lia|].
    cbn [hand_shake_loop]. unfold fbind at 1, fget. rewrite (proj2 (Z.eqb_neq _ _)) by done.
    unfold fbind, mdelay. rewrite Hp. unfold gateway_answers at 1. cbn [app map].
    destruct (IH fuel (gw_apply (gw_hand_shake h) (set_env (mallocs s) (gateway_answers hs c) s)))
      as (h' & E); try done; [lia|].
    exists h'. exact E.
Qed.

(** C35: start-up.  Over shared memory of the right size, and once the
    gateway has answered the hand shake, initialisation returns 0 with both
    rings empty and well formed, the channel the gateway assigned, and index
    words whose checksums make the first send and the first receive work. *)
Theorem spi_com_init_ready hs c s :
  zlen (buffer_ptr (dl_rb s)) = 7152 → zlen (buffer_ptr (ul_rb s)) = 7152 → mallocs s = [] →
  Forall (λ h, hs_state h ≠ 1) hs → hs ≠ [] → pending s = gateway_answers hs c →
  ∃ s', uc_wiota_spi_com_init s = Ok (0, s') ∧ quiet s' ∧ dl_in_sync s' ∧
    ul_content s' = [] ∧ rb_content (synced_dl s') = [] ∧ ap_channel_id s' = u8 c.
Proof using CRC.
  intros Hdl Hul Hm Hhs Hne Hp. destruct hs as [|h0 hs]; [done|]. clear Hne.
  apply Forall_cons in Hhs as [Hh0 Hhs].
  destruct (ring_init_ok 7152 (buffer_ptr (dl_rb s))) as (dl & Ed & Wd & Cd & Sd & Bd & _); [lia..|].
  destruct (ring_init_ok 7148 (buffer_ptr (ul_rb s))) as (ul & Eu & Wu & Cu & Su & Bu & _); [lia..|].
  unfold uc_wiota_spi_com_init, init_ring. unfold fbind at 1, fget.
  unfold fbind at 1. unfold fbind at 1, rt_malloc. rewrite Hm. unfold fbind at 1, fassert, fret, flift.
  unfold DL_RING_BUFFER_SIZE. rewrite Ed.
  unfold fbind at 1. unfold fbind at 1. rewrite Hm. unfold fbind at 1.
  change (UL_RING_BUFFER_SIZE - 4) with 7148. rewrite Eu.
  unfold fbind at 1, fmod. set (s1 := set_rings dl ul _).
  unfold fbind at 1, uc_wiota_enable_ul_irq, fbind at 1, fmod, mdelay.
  cbn [pending set_irq_cnts s1 set_rings set_heart set_hands set_ul_states set_dl_states].
  rewrite Hp. unfold gateway_answers at 1. cbn [app map].
  unfold fbind at 1, uc_wiota_hand_shake_with_gateway, fbind at 1, fmod, fbind at 1, fget.
  match goal with |- context [hand_shake_loop _ ?x] => set (s2 := x) end.
  destruct (hand_shake_loop_spec hs c (S (length (pending s2))) s2) as (h & E); try done.
  { cbn. unfold gateway_answers. rewrite length_map, length_app. simpl. lia. }
  rewrite E. eexists. split; [reflexivity|].
  assert (∀ l, u8 (uc_wiota_crc8_calc l) = u16 (uc_wiota_crc8_calc l)) as Hcrc.
  { intros l. pose proof (crc8_u8 l). rewrite u8_id, u16_id; unfold is_u8, is_u16 in *; lia. }
  destruct (ring_init_start _ _ _ Ed) as [_ Zd]. destruct (ring_init_start _ _ _ Eu) as [Zu _].
  split_and!.
  - split; try done; try (cbn; rewrite ?Su; lia || done). split; [done|cbn; apply Hcrc|].
    change (rb_wf (set_read ul false 0)). rewrite Zu. done.
  - split; [done|cbn; apply Hcrc|]. change (rb_wf (set_write dl false 0)). rewrite Zd. done.
  - change (rb_content (set_read ul false 0) = []). rewrite Zu. done.
  - change (rb_content (set_write dl false 0) = []). rewrite Zd. done.
  - done.
Qed.
End StartUp.
