(* ===== verification/SpiDemo.v ===== *)
(** * Concrete runs of the gateway link

    One state of the link, built with the toy protocol stack of WiotaApi, in
    which the theorems of SpiEmit and SpiParse apply, and a run that shows
    where the second copy of a message is looked for in the wrong place. *)

From S2P Require Import Prelude RingBuffer WiotaApi SpiFrame SpiLink SpiCmd SpiEmit SpiParse.

#[local] Existing Instance toy_lib.
#[local] Existing Instance toy_lib_crc_ok.

(** A header with the command codes [ct] and [c] that announces [len] bytes. *)
Definition demo_header (ct c len : Z) : cmd_header_t :=
  {| cmd_type := ct; cmd := c; channel := 2; h_result := 0; h_reserved := 0;
     data_len := len; header_crc := 0 |}.

Definition demo_exec : cmd_header_t * list Z := (demo_header 0 2 0, []).
Definition demo_query : cmd_header_t * list Z := (demo_header 2 1 8, replicate 8 7).
Definition demo_setup : cmd_header_t * list Z := (demo_header 1 0 56, replicate 56 1).
Definition demo_batch : list (cmd_header_t * list Z) := [demo_exec; demo_query; demo_setup].

Definition ring_with (b : list Z) (size : Z) : rt_ringbuffer :=
  {| buffer_ptr := b ++ replicate (Z.to_nat 7152 - length b) 0; read_mirror := false; read_index := 0;
     write_mirror := false; write_index := 0; buffer_size := size |}.

(** Channel 2, an empty uplink ring, [b] waiting in the downlink ring. *)
Definition demo_state (b : list Z) : spi_state Z := {|
  heart_info := zero_heart;
  dl_rb_read_state := zero_read;
  dl_rb_write_state := seal_write {| ws_index := zlen b; ws_mirror := false; ws_channel := 2; write_crc := 0 |};
  dl_buf_state := zero_hand;
  ul_rb_read_state := seal_read {| rs_index := 0; rs_mirror := false; rs_channel := 2; read_crc := 0 |};
  ul_rb_write_state := zero_write;
  ul_buf_state := zero_hand;
  dl_rb := ring_with b 7152;
  ul_rb := ring_with [] 7148;
  ap_channel_id := 2;
  dl_irq_cnt := 0; ul_irq_cnt := 0; g_add_cnt := 0; g_del_cnt := 0; g_report_fn_to_gw := 1;
  mallocs := []; pending := []; lib := 0
|}.

Lemma zlen_ring_with b size : (length b ≤ Z.to_nat 7152)%nat → zlen (buffer_ptr (ring_with b size)) = 7152.
Proof. intros. unfold zlen. cbn [buffer_ptr ring_with]. rewrite length_app, length_replicate. lia. Qed.

Lemma demo_quiet b : (length b ≤ Z.to_nat 7152)%nat → quiet (demo_state b).
Proof.
  intros Hb. split; try reflexivity. split; try reflexivity.
  split; cbn -[zlen]; try lia; try done.
Qed.

Lemma demo_dl_sync b : (0 < length b < Z.to_nat 7152)%nat → dl_in_sync (demo_state b).
Proof.
  intros Hb. split; try reflexivity.
  - cbn -[toy_crc zlen]. match goal with |- context [toy_crc 256 ?l] => pose proof (toy_crc_range 256 l) end.
    rewrite u8_id, u16_id; unfold is_u8, is_u16; lia.
  - split; cbn -[zlen]; try done; try lia; try (unfold zlen; lia).
    pose proof (zlen_ring_with b 7152). cbn in H. lia.
Qed.

Lemma demo_content b : (0 < length b < Z.to_nat 7152)%nat → rb_content (synced_dl (demo_state b)) = b.
Proof.
  intros Hb. unfold rb_content, rt_ringbuffer_data_len, rt_ringbuffer_status.
  cbn [synced_dl demo_state set_write dl_rb ring_with read_index write_index read_mirror write_mirror
       dl_rb_write_state seal_write ws_index ws_mirror].
  destruct (Z.eqb_spec 0 (zlen b)); [unfold zlen in *; lia|].
  destruct (Z.gtb_spec (zlen b) 0); [|unfold zlen in *; lia].
  unfold zsub, rb_ring, zlen. rewrite drop_0, Z.sub_0_r, Nat2Z.id.
  change (buffer_size (synced_dl (demo_state b))) with 7152.
  change (buffer_ptr (synced_dl (demo_state b))) with (b ++ replicate (Z.to_nat 7152 - length b) 0).
  rewrite (take_app_le (take _ _)) by (rewrite length_take, length_app, length_replicate; lia).
  rewrite take_take, Nat.min_l by lia. apply take_app_length.
Qed.

Lemma demo_batch_ok : Forall msg_ok demo_batch ∧ Forall command_ok demo_batch.
Proof.
  split; repeat (constructor; [split; cbn; try lia; try done; repeat constructor; vm_compute; done || lia|]).
  all: repeat constructor.
Qed.

Definition demo_block : list Z := concat (map twice demo_batch).

Lemma demo_block_len : (0 < length demo_block < Z.to_nat 7152)%nat.
Proof. vm_compute. lia. Qed.

Lemma exec_msg_answered_witness :
  8 <= zlen (frame demo_exec.1 demo_exec.2) ∧
  emits (uc_wiota_handle_exec_msg (frame demo_exec.1 demo_exec.2)) (times 1 (reply 0 2 [])).
Proof. split; [vm_compute; done|]. apply (exec_msg_answered (frame demo_exec.1 demo_exec.2)). vm_compute. done. Defined.

Lemma setup_msg_answered_witness :
  64 <= zlen (frame demo_setup.1 demo_setup.2) ∧
  emits (uc_wiota_handle_setup_msg (frame demo_setup.1 demo_setup.2)) (times 1 (reply 1 0 [])).
Proof. split; [vm_compute; done|]. apply (setup_msg_answered (frame demo_setup.1 demo_setup.2)). vm_compute. done. Defined.

Lemma query_msg_answered_witness :
  12 <= zlen (frame demo_query.1 demo_query.2) ∧
  emits (uc_wiota_handle_query_msg (frame demo_query.1 demo_query.2))
    (λ c fs, ∃ d, fs = [reply 2 1 d c] ∧ zlen d = 48).
Proof. split; [vm_compute; done|]. apply (query_msg_answered (frame demo_query.1 demo_query.2)). vm_compute. done. Defined.

Definition demo_send (blk : Z) : send_info_t :=
  {| si_user_id := 500; si_timeout := 4294967295; si_data_id := 77; si_order_business := 1;
     si_is_block := blk; si_data := [1; 2; 3] |}.

Lemma demo_send_ok blk : is_u8 blk → send_info_ok (demo_send blk).
Proof. intros. unfold send_info_ok, is_u32, is_u8 in *. cbn. unfold zlen. cbn. lia. Qed.

Lemma send_msg_forwarded_witness :
  uc_wiota_handle_send_msg (send_info_bytes (replicate 8 0) (demo_send 0) []) 0 (demo_state []) =
  Ok (tt, set_lib (wiota_call (send_call WIOTA_SEND_DATA (demo_send 0)) 0).2
            (count_send WIOTA_SEND_DATA (demo_state []))).
Proof.
  apply (send_msg_forwarded (replicate 8 0) (demo_send 0) [] WIOTA_SEND_DATA (demo_state []));
    [reflexivity|apply demo_send_ok; unfold is_u8; lia|reflexivity|left; reflexivity].
Defined.

Lemma send_msg_blocking_answered_witness :
  emits (uc_wiota_handle_send_msg (send_info_bytes (replicate 8 0) (demo_send 1) []) 2)
    (λ ch fs, ∃ r, is_u32 r ∧
      fs = [reply 4 2 (le_bytes 4 500 ++ le_bytes 4 77 ++ le_bytes 4 r) ch]).
Proof.
  apply (send_msg_blocking_answered (replicate 8 0) (demo_send 1) [] WIOTA_SEND_MC);
    [reflexivity|apply demo_send_ok; unfold is_u8; lia|cbn; lia|right; right; left; reflexivity].
Defined.

Definition demo_recv : uc_recv_detail_t :=
  {| rd_user_id := 9; rd_data_type := 1; rd_data := [5; 6]; rd_data_len := 2; rd_rssi := -70;
     rd_delay := 0; rd_fn_cnt := 1; rd_group_idx := 0; rd_burst_idx := 1; rd_slot_idx := 2;
     rd_frame_num := 1000 |}.

Lemma recv_detail_reported_witness :
  emits (uc_wiota_recv_detail_callback demo_recv)
    (one (reply 5 0 ([9; 0; 0; 0; 1; 0; 0; 0; 2; 0; 186; 0; 1; 0; 1; 2; 232; 3; 0; 0; 5; 6]))).
Proof. apply (recv_detail_reported demo_recv); vm_compute; done. Defined.

Lemma fn_refresh_spec_witness :
  quiet (demo_state []) ∧
  ∃ s' sent, uc_wiota_fn_refresh 1005 (demo_state []) = Ok (tt, s') ∧ quiet s' ∧
    ul_tail s' = [237; 3; 0; 0] ∧ ul_content s' = ul_content (demo_state []) ++ concat sent ∧
    sublist sent [reply 5 4 [237; 3; 0; 0] 2].
Proof.
  assert (quiet (demo_state [])) as Hq by (apply demo_quiet; simpl; lia). split; [exact Hq|].
  apply (fn_refresh_spec 1005 (demo_state []) Hq).
Defined.

Lemma dl_parse_clean_witness :
  uc_wiota_dl_data_parse (demo_state demo_block) =
  run_msgs demo_block 0 demo_batch (dl_taken (demo_state demo_block)).
Proof.
  apply (dl_parse_clean demo_batch (demo_state demo_block));
    [apply demo_dl_sync, demo_block_len|reflexivity|apply demo_batch_ok|discriminate
    |apply demo_content, demo_block_len].
Defined.


(** The query message with its first copy overwritten by zeros. *)
Definition demo_bad : list Z := replicate 20 0 ++ frame demo_query.1 demo_query.2.


Lemma dl_data_parse_terminates_witness :
  uc_wiota_dl_data_parse (demo_state demo_bad) ≠ Fault OutOfFuel.
Proof. apply (dl_data_parse_terminates (demo_state demo_bad)). cbn. lia. Defined.

(** The link before start-up: memory of the right size, a gateway that answers
    with channel 5 at the third look. *)
Definition demo_boot : spi_state Z :=
  set_env [] (gateway_answers [zero_hand; zero_hand] 5) (demo_state []).

Lemma spi_com_init_ready_witness :
  ∃ s', uc_wiota_spi_com_init demo_boot = Ok (0, s') ∧ quiet s' ∧ dl_in_sync s' ∧
    ul_content s' = [] ∧ rb_content (synced_dl s') = [] ∧ ap_channel_id s' = 5.
Proof.
  apply (spi_com_init_ready [zero_hand; zero_hand] 5 demo_boot);
    [vm_compute; reflexivity|vm_compute; reflexivity|reflexivity
    |repeat constructor; discriminate|discriminate|reflexivity].
Defined.

(** The second copy of a message is only looked for where the first
    message of a block has it.  A block with the intact exec message twice, then
    the setup message with a damaged first copy and an intact second copy: the
    parser stops after the first message (16 bytes, one call of the protocol
    stack) although the intact copy of the second one is in the block. *)
Theorem second_message_copy_unused :
  let bad := twice demo_exec ++ replicate 68 0 ++ frame demo_setup.1 demo_setup.2 in
  match uc_wiota_dl_data_parse (demo_state bad) with
  | Ok (n, s') => n = 16 ∧ lib s' = 1 ∧ header_valid bad (16 + 68) = Ok true ∧
                  payload_valid bad (16 + 68) 68 = Ok true
  | Fault _ => False
  end.
Proof. vm_compute. repeat split. Qed.

Definition demo_ci : cmd_send_para :=
  {| sp_header := mk_header 4 0; sp_para := [([1; 2; 3; 4; 5], 5); ([6; 7], 1)] |}.

Lemma demo_ci_ok : Forall para_ok (sp_para demo_ci).
Proof. repeat constructor; vm_compute; done. Qed.


(** The link with only four free bytes in its uplink ring. *)
Definition demo_full : spi_state Z :=
  set_rings (dl_rb (demo_state [])) (set_write (ul_rb (demo_state [])) false 7144) (demo_state []).

Lemma demo_full_sync : link_in_sync demo_full.
Proof. split; try reflexivity. split; cbn -[zlen]; try lia; done. Qed.

Lemma send_full_reports_success_witness :
  ∃ need, uc_wiota_send_data_to_gateway demo_ci demo_full =
          Ok (0, gw_tick (published (synced_ul demo_full) (malloc_next need demo_full))).
Proof.
  apply (send_full_reports_success demo_ci demo_full);
    [apply demo_ci_ok|vm_compute; done|exact I|apply demo_full_sync|vm_compute; done].
Defined.

Lemma send_other_channel_fails_witness :
  ∃ need, uc_wiota_send_data_to_gateway demo_ci (set_channel 3 (demo_state [])) =
          Ok (1, malloc_next need (set_channel 3 (demo_state []))).
Proof.
  apply (send_other_channel_fails demo_ci (set_channel 3 (demo_state [])));
    [apply demo_ci_ok|vm_compute; done|exact I|cbn; lia].
Defined.
