(* ===== verification/ManagerList.v ===== *)
(** * The circular doubly linked list of the application

    app/platfrom/manager_list.c at the level of its pointers.  A heap maps
    addresses to nodes; [is_list] relates a ring of nodes to the list of its
    (address, data) pairs, and every operation is shown to be the operation on
    that list, with the links of both directions kept consistent. *)

From S2P Require Import Prelude.

Record t_manager_list := { ndata : Z; nnext : Z; npre : Z }.

(** [cells] holds the allocated nodes, [brk] the next address rt_malloc gives
    out, [oks] the outcomes of the next requests (empty: success), [released]
    the data pointers handed to rt_free, [ext] the state callbacks work on. *)
Record lheap (E : Type) := {
  cells : gmap Z t_manager_list;
  brk : Z;
  oks : list bool;
  released : list Z;
  ext : E
}.
Arguments cells {E} _. Arguments brk {E} _. Arguments oks {E} _.
Arguments released {E} _. Arguments ext {E} _.

Section Ops.
Context {E : Type}.
Local Abbreviation M := (FW (lheap E)).
Local Open Scope fw_scope.

Definition upd_cells (f : gmap Z t_manager_list → gmap Z t_manager_list) (h : lheap E) : lheap E :=
  {| cells := f (cells h); brk := brk h; oks := oks h; released := released h; ext := ext h |}.

(** Access to a node; an address that is not allocated is a fault. *)
Definition load (p : Z) : M t_manager_list :=
  λ h, match cells h !! p with Some n => Ok (n, h) | None => Fault NullDeref end.

Definition put_node (p : Z) (n : t_manager_list) : M unit :=
  load p;;; fmod (upd_cells <[p := n]>).

Definition set_next (p v : Z) : M unit :=
  n <-- load p;; put_node p {| ndata := ndata n; nnext := v; npre := npre n |}.
Definition set_pre (p v : Z) : M unit :=
  n <-- load p;; put_node p {| ndata := ndata n; nnext := nnext n; npre := v |}.
Definition set_data (p v : Z) : M unit :=
  n <-- load p;; put_node p {| ndata := v; nnext := nnext n; npre := npre n |}.

Definition get_next (p : Z) : M Z := n <-- load p;; fret (nnext n).
Definition get_pre (p : Z) : M Z := n <-- load p;; fret (npre n).
Definition get_data (p : Z) : M Z := n <-- load p;; fret (ndata n).

(** rt_malloc of a node: a fresh address, or nothing. *)
Definition node_malloc : M (option Z) :=
  λ h, match oks h with
       | false :: m => Ok (None, {| cells := cells h; brk := brk h; oks := m;
                                    released := released h; ext := ext h |})
       | m => Ok (Some (brk h),
                  {| cells := <[brk h := {| ndata := 0; nnext := 0; npre := 0 |}]> (cells h);
                     brk := brk h + 1; oks := tail m; released := released h; ext := ext h |})
       end.

Definition node_free (p : Z) : M unit := load p;;; fmod (upd_cells (delete p)).
Definition data_free (d : Z) : M unit :=
  fmod (λ h, {| cells := cells h; brk := brk h; oks := oks h; released := d :: released h; ext := ext h |}).

(** A callback sees the node's address and data and the outside state. *)
Definition cb_t : Type := Z → Z → E → Z * E.
Definition call (cb : cb_t) (p : Z) : M Z :=
  d <-- get_data p;;
  λ h, let '(r, e) := cb p d (ext h) in
       Ok (r, {| cells := cells h; brk := brk h; oks := oks h; released := released h; ext := e |}).

(** ** The operations *)

Definition init_manager_list (l : Z) : M unit := set_next l l;;; set_pre l l.

Fixpoint count_loop (fuel : nat) (l op count : Z) : M Z :=
  match fuel with
  | O => ffail OutOfFuel
  | S fuel =>
      if op =? l then fret count
      else nx <-- get_next op;; count_loop fuel l nx (count + 1)
  end.

(** The fuel of a loop over the list: the nodes of the heap. *)
Definition walk {A} (f : nat → Z → M A) (l : Z) : M A :=
  h <-- fget;; nx <-- get_next l;; f (S (size (cells h))) nx.

Definition count_manager_list (l : Z) : M Z := walk (λ fuel op, count_loop fuel l op 0) l.

Fixpoint count_the_loop (fuel : nat) (cb : cb_t) (l op count : Z) : M Z :=
  match fuel with
  | O => ffail OutOfFuel
  | S fuel =>
      if op =? l then fret count
      else
        r <-- call cb op;;
        nx <-- get_next op;;
        count_the_loop fuel cb l nx (if r =? 0 then count + 1 else count)
  end.

Definition count_the_manager_list (l : Z) (cb : cb_t) : M Z :=
  walk (λ fuel op, count_the_loop fuel cb l op 0) l.

Definition insert_head_manager_list (l data : Z) : M unit :=
  node <-- node_malloc;;
  match node with
  | None => fret tt
  | Some node =>
      set_data node data;;;
      first <-- get_next l;;
      if first =? l then
        set_next l node;;; set_pre l node;;; set_next node l;;; set_pre node l
      else
        n1 <-- get_next l;; set_next node n1;;;
        set_pre node l;;;
        n2 <-- get_next l;; set_pre n2 node;;;
        set_next l node
  end.

Definition insert_tail_manager_list (l data : Z) : M unit :=
  node <-- node_malloc;;
  match node with
  | None => ffail NullDeref
  | Some node =>
      set_data node data;;;
      first <-- get_next l;;
      if first =? l then
        set_next l node;;; set_pre l node;;; set_next node l;;; set_pre node l
      else
        old_tail <-- get_pre l;;
        set_next old_tail node;;;
        set_pre node old_tail;;;
        set_next node l;;;
        set_pre l node
  end.

Definition get_head_list (l : Z) : M (option Z) :=
  op <-- get_next l;; if negb (op =? l) then fret (Some op) else fret None.

(** The search loop of query, del, remove and modify: the first node for
    which the callback returns 0. *)
Fixpoint find_loop (fuel : nat) (cb : cb_t) (l op : Z) : M (option Z) :=
  match fuel with
  | O => ffail OutOfFuel
  | S fuel =>
      if op =? l then fret None
      else
        r <-- call cb op;;
        if r =? 0 then fret (Some op)
        else nx <-- get_next op;; find_loop fuel cb l nx
  end.

(** A missing callback matches nothing. *)
Definition opt_cb (cb : option cb_t) : cb_t :=
  match cb with Some cb => cb | None => λ _ _ e, (1, e) end.

Definition query_head_list (l : Z) (cb : option cb_t) : M (option Z) :=
  walk (λ fuel op, find_loop fuel (opt_cb cb) l op) l.

Definition unlink (op : Z) : M unit :=
  p <-- get_pre op;; n <-- get_next op;; set_next p n;;;
  n' <-- get_next op;; p' <-- get_pre op;; set_pre n' p'.

Definition del_manager_node (l : Z) (cb : cb_t) : M Z :=
  r <-- walk (λ fuel op, find_loop fuel cb l op) l;;
  match r with
  | None => fret 1
  | Some op =>
      unlink op;;; d <-- get_data op;; data_free d;;; node_free op;;; fret 0
  end.

Definition remove_manager_node (l : Z) (cb : cb_t) : M Z :=
  r <-- walk (λ fuel op, find_loop fuel cb l op) l;;
  match r with
  | None => fret 1
  | Some op => unlink op;;; node_free op;;; fret 0
  end.

(** The comparison [parament == op_node] as a callback. *)
Definition is_node (q : Z) : cb_t := λ p _ e, (if q =? p then 0 else 1, e).

Definition remove_head_manager_node (l q : Z) : M Z :=
  r <-- walk (λ fuel op, find_loop fuel (is_node q) l op) l;;
  match r with
  | None => fret 1
  | Some op =>
      n <-- get_next op;; p <-- get_pre op;; set_pre n p;;;
      p' <-- get_pre op;; n' <-- get_next op;; set_next p' n';;;
      d <-- get_data op;;
      insert_head_manager_list l d;;;
      node_free op;;;
      fret 0
  end.

Definition modify_manager_node (l : Z) (cb : option cb_t) : M Z :=
  r <-- walk (λ fuel op, find_loop fuel (opt_cb cb) l op) l;;
  match r with None => fret 1 | Some _ => fret 0 end.

Fixpoint clean_loop (fuel : nat) (l op : Z) : M unit :=
  match fuel with
  | O => ffail OutOfFuel
  | S fuel =>
      if op =? l then fret tt
      else
        nx <-- get_next op;;
        d <-- get_data op;; data_free d;;; node_free op;;;
        clean_loop fuel l nx
  end.

Definition clean_manager_list (l : Z) : M unit :=
  walk (λ fuel op, clean_loop fuel l op) l;;; set_next l l;;; set_pre l l.

Fixpoint test_loop (fuel : nat) (cb : cb_t) (l op : Z) : M unit :=
  match fuel with
  | O => ffail OutOfFuel
  | S fuel =>
      if op =? l then fret tt
      else call cb op;;; nx <-- get_next op;; test_loop fuel cb l nx
  end.

Definition test_head_list (l : Z) (cb : cb_t) : M unit :=
  walk (λ fuel op, test_loop fuel cb l op) l.
End Ops.

(** ** What stands outside the lists

    The list operations change the outside state through their callbacks only. *)

Definition pure_cb {E} (cb : @cb_t E) : Prop := ∀ p d s, (cb p d s).2 = s.

Section Outside.
Context {E : Type} (Q : E → Prop).
Local Abbreviation P := (λ h : lheap E, Q (ext h)).
Local Abbreviation keeps_Q m := (Keeps P m (λ _, True)).

Lemma keeps_load p : keeps_Q (load p).
Proof. intros h a h' Hh. unfold load. destruct (cells h !! p); [|done]. intros [= <- <-]. done. Qed.
Lemma keeps_cells f : keeps_Q (fmod (upd_cells f)).
Proof. by apply keeps_mod. Qed.
Lemma keeps_node_malloc : keeps_Q node_malloc.
Proof. intros h a h' Hh. unfold node_malloc. destruct (oks h) as [|[]]; intros [= <- <-]; done. Qed.
Lemma keeps_data_free d : keeps_Q (data_free d).
Proof. by apply keeps_mod. Qed.
Lemma keeps_fuel : keeps_Q (@fget (lheap E)).
Proof. intros h a h' Hh [= <- <-]. done. Qed.
#[local] Hint Resolve keeps_load keeps_cells keeps_node_malloc keeps_data_free keeps_fuel : keeps.

Lemma keeps_put_node p n : keeps_Q (put_node p n).
Proof. unfold put_node. keeps. Qed.
#[local] Hint Resolve keeps_put_node : keeps.
Lemma keeps_set_next p v : keeps_Q (set_next p v).
Proof. unfold set_next. keeps. Qed.
Lemma keeps_set_pre p v : keeps_Q (set_pre p v).
Proof. unfold set_pre. keeps. Qed.
Lemma keeps_set_data p v : keeps_Q (set_data p v).
Proof. unfold set_data. keeps. Qed.
Lemma keeps_get_next p : keeps_Q (get_next p).
Proof. unfold get_next. keeps. Qed.
Lemma keeps_get_pre p : keeps_Q (get_pre p).
Proof. unfold get_pre. keeps. Qed.
Lemma keeps_get_data p : keeps_Q (get_data p).
Proof. unfold get_data. keeps. Qed.
Lemma keeps_node_free p : keeps_Q (node_free p).
Proof. unfold node_free. keeps. Qed.
#[local] Hint Resolve keeps_set_next keeps_set_pre keeps_set_data keeps_get_next keeps_get_pre keeps_get_data
  keeps_node_free : keeps.

Lemma keeps_call cb p : pure_cb cb → keeps_Q (call cb p).
Proof.
  intros Hc. unfold call. eapply keeps_bind; [apply keeps_get_data|]. intros d _ h a h' Hh.
  specialize (Hc p d (ext h)). destruct (cb p d (ext h)) as [r e]. cbn in Hc. subst e. intros [= <- <-]. done.
Qed.
#[local] Hint Resolve keeps_call : keeps.

Lemma keeps_find_loop cb l : pure_cb cb → ∀ fuel op, keeps_Q (find_loop fuel cb l op).
Proof. intros Hc. induction fuel as [|fuel IH]; intros op; cbn [find_loop]; keeps. Qed.
Lemma keeps_clean_loop l : ∀ fuel op, keeps_Q (clean_loop fuel l op).
Proof. induction fuel as [|fuel IH]; intros op; cbn [clean_loop]; keeps. Qed.
#[local] Hint Resolve keeps_find_loop keeps_clean_loop : keeps.

Lemma pure_opt cb : (∀ c, cb = Some c → pure_cb c) → @pure_cb E (opt_cb cb).
Proof. destruct cb as [c|]; intros H; [by apply H|]. intros p d s. done. Qed.

Lemma keeps_init l : keeps_Q (init_manager_list l).
Proof. unfold init_manager_list. keeps. Qed.
Lemma keeps_insert_head l d : keeps_Q (insert_head_manager_list l d).
Proof. unfold insert_head_manager_list. keeps. Qed.
Lemma keeps_insert_tail l d : keeps_Q (insert_tail_manager_list l d).
Proof. unfold insert_tail_manager_list. keeps. Qed.
Lemma keeps_query l cb : (∀ c, cb = Some c → pure_cb c) → keeps_Q (query_head_list l cb).
Proof. intros Hc. pose proof (pure_opt cb Hc). unfold query_head_list, walk. keeps. Qed.
Lemma keeps_unlink p : keeps_Q (unlink p).
Proof. unfold unlink. keeps. Qed.
#[local] Hint Resolve keeps_insert_head keeps_unlink : keeps.
Lemma keeps_remove l cb : pure_cb cb → keeps_Q (remove_manager_node l cb).
Proof. intros Hc. unfold remove_manager_node, walk. keeps. Qed.
Lemma pure_is_node q : @pure_cb E (is_node q).
Proof. intros p d s. done. Qed.
#[local] Hint Resolve pure_is_node : keeps.
Lemma keeps_remove_head l q : keeps_Q (remove_head_manager_node l q).
Proof. unfold remove_head_manager_node, walk. keeps. Qed.
Lemma keeps_clean l : keeps_Q (clean_manager_list l).
Proof. unfold clean_manager_list, walk. keeps. Qed.
End Outside.
#[export] Hint Resolve keeps_get_data keeps_init keeps_insert_head keeps_insert_tail keeps_query keeps_remove
  keeps_remove_head keeps_clean keeps_fuel : keeps.

(** ** The list a heap represents *)

Definition nxt (m : gmap Z t_manager_list) (p : Z) : option Z := nnext <$> m !! p.
Definition prv (m : gmap Z t_manager_list) (p : Z) : option Z := npre <$> m !! p.
Definition dat (m : gmap Z t_manager_list) (p : Z) : option Z := ndata <$> m !! p.

(** Consecutive nodes point at each other. *)
Fixpoint chain (m : gmap Z t_manager_list) (x : Z) (ys : list Z) : Prop :=
  match ys with
  | [] => True
  | y :: ys => nxt m x = Some y ∧ prv m y = Some x ∧ chain m y ys
  end.

(** The last node of [x :: ys]. *)
Fixpoint lst (x : Z) (ys : list Z) : Z :=
  match ys with [] => x | y :: ys => lst y ys end.
Definition fst_or (l : Z) (ys : list Z) : Z := match ys with [] => l | y :: _ => y end.

Lemma chain_app m x ys zs : chain m x (ys ++ zs) ↔ chain m x ys ∧ chain m (lst x ys) zs.
Proof. revert x. induction ys as [|y ys IH]; intros x; cbn; [tauto|]. rewrite IH. tauto. Qed.

Lemma lst_app x ys zs : lst x (ys ++ zs) = lst (lst x ys) zs.
Proof. revert x. induction ys; intros; cbn; auto. Qed.

Lemma lst_in x ys : lst x ys ∈ x :: ys.
Proof.
  revert x. induction ys as [|y ys IH]; intros x; cbn; [left|]. right. apply IH.
Qed.

(** A chain only depends on the links it consists of. *)
Lemma chain_frame m m' x ys :
  (∀ z, z ∈ x :: ys → z ≠ lst x ys → nxt m' z = nxt m z) →
  (∀ z, z ∈ ys → prv m' z = prv m z) →
  NoDup (x :: ys) → chain m x ys → chain m' x ys.
Proof.
  revert x. induction ys as [|y ys IH]; intros x Hn Hp Hnd; cbn; [done|].
  intros (H1 & H2 & H3). cbn [lst] in Hn. apply NoDup_cons in Hnd as [Hx Hnd].
  split_and!.
  - rewrite Hn; [done|left|]. intros ->. apply Hx, lst_in.
  - rewrite Hp; [done|left].
  - apply IH; auto.
    + intros z Hz. apply Hn. right. done.
    + intros z Hz. apply Hp. right. done.
Qed.

Lemma ring_split (ps2 : list Z) l : ∃ rest, ps2 ++ [l] = fst_or l ps2 :: rest ∧
  (∀ z, z ∈ rest → z ∈ l :: ps2) ∧ (ps2 = [] → rest = []).
Proof.
  destruct ps2 as [|y ps2]; cbn.
  - exists []. split_and!; try done. intros z Hz. inversion Hz.
  - exists (ps2 ++ [l]). split_and!; try done. intros z. rewrite elem_of_app, list_elem_of_singleton, !elem_of_cons.
    tauto.
Qed.

(** Replacing what stands between [ps1] and [ps2] in the ring at [l]. *)
Lemma chain_splice m m' l ps1 old mid ps2 :
  NoDup (l :: ps1 ++ ps2) →
  chain m l (ps1 ++ old ++ ps2 ++ [l]) →
  (∀ z, z ∈ l :: ps1 ++ ps2 → z ≠ lst l ps1 → nxt m' z = nxt m z) →
  (∀ z, z ∈ l :: ps1 ++ ps2 → z ≠ fst_or l ps2 → prv m' z = prv m z) →
  chain m' (lst l ps1) (mid ++ [fst_or l ps2]) →
  chain m' l (ps1 ++ mid ++ ps2 ++ [l]).
Proof.
  intros Hnd Hc Hn Hp Hmid. destruct (ring_split ps2 l) as (rest & Er & Hrest & Hnil).
  apply chain_app in Hc as [Hc1 Hc]. apply chain_app in Hc as [_ Hc2].
  apply NoDup_cons in Hnd as [Hl Hnd]. apply NoDup_app in Hnd as (Hnd1 & Hdis & Hnd2).
  assert (fst_or l ps2 ∉ ps1) as Hy1.
  { destruct ps2 as [|y ps2]; cbn; intros Hin; [apply Hl, elem_of_app; auto|].
    apply (Hdis _ Hin). left. }
  assert (chain m' l ps1) as Hc1'.
  { eapply chain_frame; [| | |exact Hc1].
    - intros z Hz Hne. apply Hn; [|done]. apply elem_of_cons in Hz as [->|Hz]; [left|].
      right. apply elem_of_app. auto.
    - intros z Hz. apply Hp; [right; apply elem_of_app; auto|]. intros ->. done.
    - apply NoDup_cons. split; [|done]. intros ?. apply Hl, elem_of_app. auto. }
  rewrite Er in *. replace (mid ++ fst_or l ps2 :: rest) with ((mid ++ [fst_or l ps2]) ++ rest)
    by (rewrite <- app_assoc; done).
  apply chain_app. split; [done|]. apply chain_app. split; [done|].
  rewrite lst_app. cbn [lst].
  destruct ps2 as [|y ps2]; [rewrite Hnil by done; done|]. cbn [fst_or app] in *.
  simplify_eq. destruct Hc2 as (_ & _ & Hc2).
  clear Hrest Hnil Hmid. apply NoDup_cons in Hnd2 as [Hy Hnd2].
  assert (lst l ps1 ∉ y :: ps2) as Hx.
  { pose proof (lst_in l ps1) as Hi. apply elem_of_cons in Hi as [->|Hi].
    - intros ?. apply Hl, elem_of_app. auto.
    - apply Hdis. done. }
  eapply chain_frame; [| | |exact Hc2].
  - intros z Hz Hne. rewrite lst_app in Hne. cbn in Hne.
    apply Hn.
    + apply elem_of_cons in Hz as [->|Hz]; [right; apply elem_of_app; right; left|].
      apply elem_of_app in Hz as [Hz|Hz]; [right; apply elem_of_app; right; right; done|].
      apply list_elem_of_singleton in Hz as ->. left.
    + intros ->. apply elem_of_cons in Hz as [Hz|Hz]; [apply Hx; rewrite Hz; left|].
      apply elem_of_app in Hz as [Hz|Hz]; [apply Hx; right; done|].
      apply list_elem_of_singleton in Hz. done.
  - intros z Hz. apply elem_of_app in Hz as [Hz|Hz].
    + apply Hp; [right; apply elem_of_app; right; right; done|]. intros ->. done.
    + apply list_elem_of_singleton in Hz as ->. apply Hp; [left|]. intros ->.
      apply Hl, elem_of_app. right. left.
  - apply NoDup_cons. split.
    + rewrite elem_of_app, list_elem_of_singleton. intros [?| ->]; [done|].
      apply Hl, elem_of_app. right. left.
    + apply NoDup_app. split_and!; [done| |apply NoDup_singleton].
      intros z Hz. rewrite list_elem_of_singleton. intros ->. apply Hl, elem_of_app. right. right. done.
Qed.

(** [ps]: the addresses and data of the nodes of list [l], in order.  Fresh
    addresses are above all allocated ones. *)
Record is_list {E} (h : lheap E) (l : Z) (ps : list (Z * Z)) : Prop := {
  il_nodup : NoDup (l :: ps.*1);
  il_chain : chain (cells h) l (ps.*1 ++ [l]);
  il_data : Forall (λ '(p, d), dat (cells h) p = Some d) ps;
  il_brk : ∀ p, is_Some (cells h !! p) → p < brk h
}.

(** ** Steps on the heap *)

Definition wn (v : Z) (n : t_manager_list) := {| ndata := ndata n; nnext := v; npre := npre n |}.
Definition wp (v : Z) (n : t_manager_list) := {| ndata := ndata n; nnext := nnext n; npre := v |}.
Definition wd (v : Z) (n : t_manager_list) := {| ndata := v; nnext := nnext n; npre := npre n |}.

Lemma alter_wn m p v z : nxt (alter (wn v) p m) z = if decide (z = p) then (λ _, v) <$> m !! p else nxt m z.
Proof.
  unfold nxt. case_decide; [subst; rewrite lookup_alter_eq|rewrite lookup_alter_ne by done; done].
  destruct (m !! p); done.
Qed.
Lemma alter_wn_prv m p v z : prv (alter (wn v) p m) z = prv m z.
Proof.
  unfold prv. destruct (decide (p = z)) as [->|]; [rewrite lookup_alter_eq|rewrite lookup_alter_ne by done; done].
  destruct (m !! z); done.
Qed.
Lemma alter_wn_dat m p v z : dat (alter (wn v) p m) z = dat m z.
Proof.
  unfold dat. destruct (decide (p = z)) as [->|]; [rewrite lookup_alter_eq|rewrite lookup_alter_ne by done; done].
  destruct (m !! z); done.
Qed.
Lemma alter_wp m p v z : prv (alter (wp v) p m) z = if decide (z = p) then (λ _, v) <$> m !! p else prv m z.
Proof.
  unfold prv. case_decide; [subst; rewrite lookup_alter_eq|rewrite lookup_alter_ne by done; done].
  destruct (m !! p); done.
Qed.
Lemma alter_wp_nxt m p v z : nxt (alter (wp v) p m) z = nxt m z.
Proof.
  unfold nxt. destruct (decide (p = z)) as [->|]; [rewrite lookup_alter_eq|rewrite lookup_alter_ne by done; done].
  destruct (m !! z); done.
Qed.
Lemma alter_wp_dat m p v z : dat (alter (wp v) p m) z = dat m z.
Proof.
  unfold dat. destruct (decide (p = z)) as [->|]; [rewrite lookup_alter_eq|rewrite lookup_alter_ne by done; done].
  destruct (m !! z); done.
Qed.
Lemma alter_Some {A} (f : A → A) (m : gmap Z A) p z : is_Some (alter f p m !! z) ↔ is_Some (m !! z).
Proof.
  destruct (decide (p = z)) as [->|]; [rewrite lookup_alter_eq, fmap_is_Some; done|].
  rewrite lookup_alter_ne by done. done.
Qed.

Section Steps.
Context {E : Type}.
Implicit Type h : lheap E.

Lemma put_alter h p n f :
  cells h !! p = Some n → put_node p (f n) h = Ok (tt, upd_cells (alter f p) h).
Proof.
  intros H. unfold put_node, load, fbind, fmod. rewrite H. unfold upd_cells. do 3 f_equal.
  apply map_eq. intros z. destruct (decide (p = z)) as [->|].
  - rewrite lookup_insert_eq, lookup_alter_eq, H. done.
  - rewrite lookup_insert_ne, lookup_alter_ne by done. done.
Qed.

Lemma set_next_eq h p v : is_Some (cells h !! p) → set_next p v h = Ok (tt, upd_cells (alter (wn v) p) h).
Proof.
  intros [n Hn]. unfold set_next, fbind at 1, load at 1. rewrite Hn. apply (put_alter h p n (wn v)). done.
Qed.
Lemma set_pre_eq h p v : is_Some (cells h !! p) → set_pre p v h = Ok (tt, upd_cells (alter (wp v) p) h).
Proof.
  intros [n Hn]. unfold set_pre, fbind at 1, load at 1. rewrite Hn. apply (put_alter h p n (wp v)). done.
Qed.
Lemma set_data_eq h p v : is_Some (cells h !! p) → set_data p v h = Ok (tt, upd_cells (alter (wd v) p) h).
Proof.
  intros [n Hn]. unfold set_data, fbind at 1, load at 1. rewrite Hn. apply (put_alter h p n (wd v)). done.
Qed.
Lemma get_next_eq h p v : nxt (cells h) p = Some v → get_next p h = Ok (v, h).
Proof.
  unfold nxt, get_next, fbind, load. destruct (cells h !! p); intros; simplify_eq/=. done.
Qed.
Lemma get_pre_eq h p v : prv (cells h) p = Some v → get_pre p h = Ok (v, h).
Proof.
  unfold prv, get_pre, fbind, load. destruct (cells h !! p); intros; simplify_eq/=. done.
Qed.
Lemma get_data_eq h p v : dat (cells h) p = Some v → get_data p h = Ok (v, h).
Proof.
  unfold dat, get_data, fbind, load. destruct (cells h !! p); intros; simplify_eq/=. done.
Qed.

(** Facts about a represented list. *)
Lemma nxt_Some (m : gmap Z t_manager_list) p v : nxt m p = Some v → is_Some (m !! p).
Proof. unfold nxt. destruct (m !! p); [eauto|done]. Qed.
Lemma prv_Some (m : gmap Z t_manager_list) p v : prv m p = Some v → is_Some (m !! p).
Proof. unfold prv. destruct (m !! p); [eauto|done]. Qed.

Lemma chain_alloc m x ys z : chain m x ys → ys ≠ [] → z ∈ x :: ys → is_Some (m !! z).
Proof.
  revert x. induction ys as [|y ys IH]; intros x Hc Hne Hz; [done|]. destruct Hc as (H1 & H2 & H3).
  apply elem_of_cons in Hz as [->|Hz]; [by eapply nxt_Some|].
  destruct ys as [|y' ys]; [|by apply (IH y)].
  apply list_elem_of_singleton in Hz as ->. by eapply prv_Some.
Qed.

Lemma il_alloc h l ps z : is_list h l ps → z ∈ l :: ps.*1 → is_Some (cells h !! z).
Proof.
  intros Hl Hz. apply (chain_alloc _ l (ps.*1 ++ [l])); [apply Hl|by destruct (ps.*1)|].
  apply elem_of_cons in Hz as [->|Hz]; [left|right; apply elem_of_app; auto].
Qed.

Lemma il_next h l ps1 ps2 :
  is_list h l (ps1 ++ ps2) → nxt (cells h) (lst l ps1.*1) = Some (fst_or l ps2.*1) ∧
                             prv (cells h) (fst_or l ps2.*1) = Some (lst l ps1.*1).
Proof.
  intros [_ Hc _ _]. rewrite fmap_app, <- app_assoc in Hc. apply chain_app in Hc as [_ Hc].
  destruct (ps2.*1); destruct Hc as (? & ? & _); done.
Qed.

Lemma il_last_in h l ps1 ps2 :
  is_list h l (ps1 ++ ps2) → lst l ps1.*1 ∈ l :: (ps1 ++ ps2).*1 ∧ fst_or l ps2.*1 ∈ l :: (ps1 ++ ps2).*1.
Proof.
  intros _. rewrite fmap_app. split.
  - pose proof (lst_in l ps1.*1) as H. apply elem_of_cons in H as [->|H]; [left|].
    right. apply elem_of_app. auto.
  - destruct ps2 as [|[p d] ps2]; cbn; [left|]. right. apply elem_of_app. right. left.
Qed.

Lemma nodup_splice (l n : Z) (a b : list Z) :
  NoDup (l :: a ++ b) → n ∉ l :: a ++ b → NoDup (l :: a ++ n :: b).
Proof.
  intros Hnd Hn. assert (l :: a ++ n :: b ≡ₚ n :: l :: a ++ b) as ->.
  { rewrite <- Permutation_middle. apply perm_swap. }
  apply NoDup_cons. done.
Qed.

(** Data of nodes other than a changed one. *)
Lemma dat_frame (m m' : gmap Z t_manager_list) (ps : list (Z * Z)) :
  (∀ z, z ∈ ps.*1 → dat m' z = dat m z) →
  Forall (λ '(p, d), dat m p = Some d) ps → Forall (λ '(p, d), dat m' p = Some d) ps.
Proof.
  intros Hd. rewrite !Forall_forall. intros H [p d] Hin. rewrite Hd; [by apply (H (p, d))|].
  by apply (list_elem_of_fmap_2 fst _ (p, d)).
Qed.

(** A new node between [ps1] and [ps2]. *)
Lemma insert_between h h' l ps1 ps2 d :
  let n := brk h in
  is_list h l (ps1 ++ ps2) →
  (∀ z, nxt (cells h') z = if decide (z = n) then Some (fst_or l ps2.*1)
                           else if decide (z = lst l ps1.*1) then Some n else nxt (cells h) z) →
  (∀ z, prv (cells h') z = if decide (z = n) then Some (lst l ps1.*1)
                           else if decide (z = fst_or l ps2.*1) then Some n else prv (cells h) z) →
  (∀ z, dat (cells h') z = if decide (z = n) then Some d else dat (cells h) z) →
  (∀ z, is_Some (cells h' !! z) → z = n ∨ is_Some (cells h !! z)) →
  brk h' = n + 1 →
  is_list h' l (ps1 ++ (n, d) :: ps2).
Proof.
  intros n Hl Hn Hp Hd Hdom Hbrk.
  assert (∀ z, z ∈ l :: (ps1 ++ ps2).*1 → z ≠ n) as Hfresh.
  { intros z Hz ->. pose proof (il_brk _ _ _ Hl n (il_alloc _ _ _ _ Hl Hz)). lia. }
  destruct (il_last_in _ _ _ _ Hl) as [Hx Hy].
  assert (n ∉ l :: ps1.*1 ++ ps2.*1) as Hnin.
  { rewrite <- fmap_app. intros Hz. by apply (Hfresh n Hz). }
  destruct Hl as [Hnd Hc Hdat Hbr]. rewrite fmap_app in *. cbn [fmap list_fmap fst].
  split.
  - rewrite fmap_app. apply nodup_splice; done.
  - rewrite fmap_app. cbn [fmap list_fmap fst]. rewrite <- app_assoc.
    apply (chain_splice (cells h) (cells h') l ps1.*1 [] [n] ps2.*1).
    + done.
    + rewrite <- app_assoc in Hc. done.
    + intros z Hz Hne. rewrite Hn, decide_False, decide_False; auto.
    + intros z Hz Hne. rewrite Hp, decide_False, decide_False; auto.
    + cbn. rewrite !Hn, !Hp. rewrite (decide_False (P := lst l ps1.*1 = n)) by auto.
      rewrite !(decide_True (P := n = n)) by done. rewrite decide_True by done.
      rewrite decide_False by auto. rewrite decide_True by done. done.
  - apply Forall_app in Hdat as [H1 H2]. apply Forall_app. split; [|constructor].
    + eapply dat_frame; [|exact H1]. intros z Hz. rewrite Hd, decide_False; [done|].
      intros ->. apply Hnin. right. apply elem_of_app. auto.
    + rewrite Hd, decide_True; done.
    + eapply dat_frame; [|exact H2]. intros z Hz. rewrite Hd, decide_False; [done|].
      intros ->. apply Hnin. right. apply elem_of_app. auto.
  - intros p Hs. rewrite Hbrk. destruct (Hdom p Hs) as [->|Hs']; [lia|]. specialize (Hbr p Hs'). lia.
Qed.
End Steps.

Lemma alter_wn_S m p v z : is_Some (m !! p) →
  nxt (alter (wn v) p m) z = if decide (z = p) then Some v else nxt m z.
Proof. intros [n Hn]. rewrite alter_wn. case_decide; [|done]. rewrite Hn. done. Qed.
Lemma alter_wp_S m p v z : is_Some (m !! p) →
  prv (alter (wp v) p m) z = if decide (z = p) then Some v else prv m z.
Proof. intros [n Hn]. rewrite alter_wp. case_decide; [|done]. rewrite Hn. done. Qed.

Lemma insert_nxt m n x z : nxt (<[n := x]> m) z = if decide (z = n) then Some (nnext x) else nxt m z.
Proof. unfold nxt. case_decide; [subst; rewrite lookup_insert_eq|rewrite lookup_insert_ne]; done. Qed.
Lemma insert_prv m n x z : prv (<[n := x]> m) z = if decide (z = n) then Some (npre x) else prv m z.
Proof. unfold prv. case_decide; [subst; rewrite lookup_insert_eq|rewrite lookup_insert_ne]; done. Qed.
Lemma insert_dat m n x z : dat (<[n := x]> m) z = if decide (z = n) then Some (ndata x) else dat m z.
Proof. unfold dat. case_decide; [subst; rewrite lookup_insert_eq|rewrite lookup_insert_ne]; done. Qed.
Lemma insert_Some {A} (m : gmap Z A) n x z : is_Some (<[n := x]> m !! z) ↔ z = n ∨ is_Some (m !! z).
Proof.
  destruct (decide (n = z)) as [->|].
  - rewrite lookup_insert_eq. split; eauto.
  - rewrite lookup_insert_ne by done. split; [auto|]. intros [->|]; done.
Qed.

(** Proves that a node is allocated, through writes. *)
Ltac alloc :=
  cbn [cells upd_cells]; rewrite ?alter_Some; first [assumption|rewrite ?insert_Some; auto].

(** The links after a sequence of writes. *)
Ltac links :=
  intros; cbn [cells upd_cells];
  repeat first
    [ rewrite alter_wn_S by alloc | rewrite alter_wp_S by alloc
    | rewrite alter_wn_prv | rewrite alter_wn_dat | rewrite alter_wp_nxt | rewrite alter_wp_dat
    | rewrite insert_nxt | rewrite insert_prv | rewrite insert_dat ];
  cbn [nnext npre ndata]; repeat case_decide; subst; try done; try congruence.

Section Inserts.
Context {E : Type}.
Implicit Type h : lheap E.

Definition can_malloc h : Prop := match oks h with false :: _ => False | _ => True end.

(** The heap with a new unlinked node that holds [d]. *)
Definition with_node (d : Z) h : lheap E :=
  {| cells := <[brk h := {| ndata := d; nnext := 0; npre := 0 |}]> (cells h);
     brk := brk h + 1; oks := tail (oks h); released := released h; ext := ext h |}.

Lemma malloc_node h d {B} (dflt : FW (lheap E) B) (k : Z → FW (lheap E) B) :
  can_malloc h →
  fbind node_malloc (λ o, match o with None => dflt
                          | Some n => fbind (set_data n d) (λ _, k n) end) h = k (brk h) (with_node d h).
Proof.
  intros Hok. unfold can_malloc in Hok. unfold fbind at 1, node_malloc.
  assert (∀ m, fbind (set_data (brk h) d) (λ _, k (brk h))
    {| cells := <[brk h := {| ndata := 0; nnext := 0; npre := 0 |}]> (cells h);
       brk := brk h + 1; oks := m; released := released h; ext := ext h |} =
    k (brk h) {| cells := <[brk h := {| ndata := d; nnext := 0; npre := 0 |}]> (cells h);
                 brk := brk h + 1; oks := m; released := released h; ext := ext h |}) as Hk.
  { intros m. erewrite bind_Ok; [|apply set_data_eq; alloc]. f_equal. unfold upd_cells. cbn. f_equal.
    rewrite alter_insert_eq. done. }
  unfold with_node. destruct (oks h) as [|[] m]; try done; apply Hk.
Qed.

Lemma head_or_tail_links h l ps d (h2 := with_node d h) :
  is_list h l ps →
  nxt (cells h2) l = Some (fst_or l ps.*1) ∧ prv (cells h2) l = Some (lst l ps.*1) ∧
  is_Some (cells h2 !! l) ∧ is_Some (cells h2 !! brk h) ∧
  is_Some (cells h2 !! fst_or l ps.*1) ∧ is_Some (cells h2 !! lst l ps.*1) ∧
  l ≠ brk h ∧ fst_or l ps.*1 ≠ brk h ∧ lst l ps.*1 ≠ brk h.
Proof.
  intros Hl. assert (∀ z, z ∈ l :: ps.*1 → is_Some (cells h !! z) ∧ z ≠ brk h) as Hz.
  { intros z Hz. pose proof (il_alloc _ _ _ _ Hl Hz) as Ha. split; [done|].
    intros ->. pose proof (il_brk _ _ _ Hl _ Ha). lia. }
  destruct (il_next h l [] ps Hl) as [Hn _].
  destruct (il_next h l ps []) as [_ Hp]; [rewrite app_nil_r; done|]. cbn in Hn, Hp.
  destruct (il_last_in h l [] ps Hl) as [_ Hf]. pose proof (lst_in l ps.*1) as Hla. cbn in Hf.
  destruct (Hz l) as [? ?]; [left|]. destruct (Hz _ Hf). destruct (Hz _ Hla).
  subst h2. cbn [cells with_node]. rewrite insert_nxt, insert_prv, !insert_Some, !decide_False by done.
  split_and!; auto.
Qed.

(** Closes the goal that the written heap holds the list with the new node. *)
Ltac between Hl ps1 ps2 d :=
  apply (insert_between _ _ _ ps1 ps2 d); [exact Hl| | | | |reflexivity];
  cbn [cells with_node upd_cells fst_or lst fmap list_fmap fst] in *;
  [links..|intros z; rewrite ?alter_Some, ?insert_Some; tauto].

(** What an insertion leaves alone. *)
Ltac kept := split_and!; try reflexivity; intros ? ?; cbn [cells upd_cells with_node];
  rewrite ?alter_Some; rewrite ?insert_Some; auto.

Lemma insert_head_spec h l ps d :
  is_list h l ps → can_malloc h →
  ∃ h', insert_head_manager_list l d h = Ok (tt, h') ∧ is_list h' l ((brk h, d) :: ps) ∧
        released h' = released h ∧ ext h' = ext h ∧ brk h' = brk h + 1 ∧ oks h' = tail (oks h) ∧
        (∀ z, is_Some (cells h !! z) → is_Some (cells h' !! z)).
Proof.
  intros Hl Hok. destruct (head_or_tail_links h l ps d Hl) as (Hn & Hp & A1 & A2 & A3 & A4 & D1 & D2 & D3).
  unfold insert_head_manager_list. rewrite malloc_node by done.
  erewrite bind_Ok; [|apply get_next_eq, Hn].
  destruct ps as [|[p e] ps]; cbn [fst_or lst fmap list_fmap fst] in *.
  - rewrite Z.eqb_refl.
    erewrite bind_Ok; [|apply set_next_eq; alloc]. erewrite bind_Ok; [|apply set_pre_eq; alloc].
    erewrite bind_Ok; [|apply set_next_eq; alloc]. rewrite set_pre_eq by alloc.
    eexists. split; [reflexivity|]. split; [between Hl (@nil (Z * Z)) (@nil (Z * Z)) d|kept].
  - assert (p ≠ l) as Hpl.
    { pose proof (il_nodup _ _ _ Hl) as Hnd. cbn in Hnd. apply NoDup_cons in Hnd as [Hnd _].
      intros ->. apply Hnd. left. }
    rewrite (proj2 (Z.eqb_neq _ _)) by done.
    erewrite bind_Ok; [|apply get_next_eq, Hn]. erewrite bind_Ok; [|apply set_next_eq; alloc].
    erewrite bind_Ok; [|apply set_pre_eq; alloc].
    erewrite bind_Ok; [|apply get_next_eq; instantiate (1 := p)].
    2: { cbn [cells upd_cells]. rewrite alter_wp_nxt, alter_wn_S, decide_False by (done || alloc). done. }
    erewrite bind_Ok; [|apply set_pre_eq; alloc]. rewrite set_next_eq by alloc.
    eexists. split; [reflexivity|]. split; [between Hl (@nil (Z * Z)) ((p, e) :: ps) d|kept].
Qed.

Lemma insert_tail_spec h l ps d :
  is_list h l ps → can_malloc h →
  ∃ h', insert_tail_manager_list l d h = Ok (tt, h') ∧ is_list h' l (ps ++ [(brk h, d)]) ∧
        released h' = released h ∧ ext h' = ext h ∧ brk h' = brk h + 1 ∧ oks h' = tail (oks h).
Proof.
  intros Hl Hok. destruct (head_or_tail_links h l ps d Hl) as (Hn & Hp & A1 & A2 & A3 & A4 & D1 & D2 & D3).
  unfold insert_tail_manager_list. rewrite malloc_node by done.
  erewrite bind_Ok; [|apply get_next_eq, Hn]. assert (Hl' := Hl). rewrite <- (app_nil_r ps) in Hl'.
  destruct (decide (ps = [])) as [->|Hne].
  - cbn [fst_or lst fmap list_fmap] in *. rewrite Z.eqb_refl.
    erewrite bind_Ok; [|apply set_next_eq; alloc]. erewrite bind_Ok; [|apply set_pre_eq; alloc].
    erewrite bind_Ok; [|apply set_next_eq; alloc]. rewrite set_pre_eq by alloc.
    eexists. split; [reflexivity|]. split; [|done]. between Hl' (@nil (Z * Z)) (@nil (Z * Z)) d.
  - assert (fst_or l ps.*1 ≠ l) as Hpl.
    { pose proof (il_nodup _ _ _ Hl) as Hnd. destruct ps as [|[p e] ps]; [done|]. cbn in *.
      apply NoDup_cons in Hnd as [Hnd _]. intros ->. apply Hnd. left. }
    rewrite (proj2 (Z.eqb_neq _ _)) by done.
    erewrite bind_Ok; [|apply get_pre_eq, Hp]. erewrite bind_Ok; [|apply set_next_eq; alloc].
    erewrite bind_Ok; [|apply set_pre_eq; alloc]. erewrite bind_Ok; [|apply set_next_eq; alloc].
    rewrite set_pre_eq by alloc.
    eexists. split; [reflexivity|]. split; [|done]. between Hl' ps (@nil (Z * Z)) d.
Qed.
End Inserts.

Section Removal.
Context {E : Type}.
Implicit Type h : lheap E.

Definition with_ext (e : E) h : lheap E :=
  {| cells := cells h; brk := brk h; oks := oks h; released := released h; ext := e |}.

Lemma is_list_ext e h l ps : is_list h l ps → is_list (with_ext e h) l ps.
Proof. intros [? ? ? ?]. split; done. Qed.

(** The first element for which the callback answers 0, with what is before
    and behind it, and the outside state after the calls. *)
Fixpoint scan (cb : cb_t) (ps : list (Z * Z)) (e : E)
  : option (list (Z * Z) * (Z * Z) * list (Z * Z)) * E :=
  match ps with
  | [] => (None, e)
  | (p, d) :: ps =>
      let '(r, e) := cb p d e in
      if r =? 0 then (Some ([], (p, d), ps), e)
      else let '(o, e) := scan cb ps e in
           (option_map (λ '(a, x, b), ((p, d) :: a, x, b)) o, e)
  end.

Lemma scan_split cb ps e a x b e' : scan cb ps e = (Some (a, x, b), e') → ps = a ++ x :: b.
Proof.
  revert e a. induction ps as [|[p d] ps IH]; intros e a; cbn; [done|].
  destruct (cb p d e) as [r e1]. destruct (r =? 0); [intros; simplify_eq; done|].
  destruct (scan cb ps e1) as [[[[a' x'] b']|] e2] eqn:Es; intros; simplify_eq/=.
  f_equal. eapply IH. done.
Qed.

Lemma length_cells h l ps : is_list h l ps → (S (length ps) <= size (cells h))%nat.
Proof.
  intros Hl. transitivity (size (list_to_set (l :: ps.*1) : gset Z)).
  - rewrite size_list_to_set by apply Hl. cbn. rewrite length_fmap. done.
  - rewrite <- size_dom. apply subseteq_size. intros z Hz. apply elem_of_dom.
    apply elem_of_list_to_set in Hz. by eapply il_alloc.
Qed.

(** A walk over the list starts at its first node. *)
Lemma walk_spec {A} (f : nat → Z → FW (lheap E) A) h l ps :
  is_list h l ps → walk f l h = f (S (size (cells h))) (fst_or l ps.*1) h.
Proof.
  intros Hl. unfold walk, fbind at 1, fget. erewrite bind_Ok; [done|].
  apply get_next_eq. by destruct (il_next h l [] ps Hl).
Qed.

(** At the node behind [a]: its data and its successor. *)
Lemma node_at h l a p d b :
  is_list h l (a ++ (p, d) :: b) →
  p ≠ l ∧ dat (cells h) p = Some d ∧ nxt (cells h) p = Some (fst_or l b.*1) ∧
  prv (cells h) p = Some (lst l a.*1).
Proof.
  intros Hl. split_and!.
  - pose proof (il_nodup _ _ _ Hl) as Hnd. apply NoDup_cons in Hnd as [Hnd _]. intros ->.
    apply Hnd. rewrite fmap_app. apply elem_of_app. right. left.
  - pose proof (il_data _ _ _ Hl) as Hd. apply Forall_app in Hd as [_ Hd].
    apply Forall_cons in Hd as [Hd _]. done.
  - assert (is_list h l ((a ++ [(p, d)]) ++ b)) as Hl' by (rewrite <- app_assoc; done).
    destruct (il_next _ _ _ _ Hl') as [Hn _]. rewrite fmap_app, lst_app in Hn. done.
  - destruct (il_next _ _ _ _ Hl) as [_ Hp]. done.
Qed.

Lemma call_eq cb h p d : dat (cells h) p = Some d →
  call cb p h = Ok ((cb p d (ext h)).1, with_ext (cb p d (ext h)).2 h).
Proof.
  intros Hd. unfold call. erewrite bind_Ok; [|by apply get_data_eq].
  destruct (cb p d (ext h)). done.
Qed.

Lemma find_loop_spec cb l h a ps fuel :
  is_list h l (a ++ ps) → (length ps < fuel)%nat →
  find_loop fuel cb l (fst_or l ps.*1) h =
  Ok (match (scan cb ps (ext h)).1 with Some (_, (p, _), _) => Some p | None => None end,
      with_ext (scan cb ps (ext h)).2 h).
Proof.
  revert h a fuel. induction ps as [|[p d] ps IH]; intros h a fuel Hl Hf;
    (destruct fuel as [|fuel]; [cbn in Hf; lia|]); cbn [find_loop].
  - cbn. rewrite Z.eqb_refl. destruct h; done.
  - destruct (node_at _ _ _ _ _ _ Hl) as (Hpl & Hd & Hn & _). cbn [fst_or fmap list_fmap fst].
    rewrite (proj2 (Z.eqb_neq _ _)) by done.
    erewrite bind_Ok; [|by apply call_eq]. cbn [scan].
    destruct (cb p d (ext h)) as [r e]. cbn [fst snd]. destruct (r =? 0); [done|].
    erewrite bind_Ok; [|apply get_next_eq; exact Hn].
    assert (is_list (with_ext e h) l ((a ++ [(p, d)]) ++ ps)) as Hl'.
    { rewrite <- app_assoc. apply is_list_ext. done. }
    rewrite (IH _ _ _ Hl') by (cbn in Hf; lia). cbn [ext with_ext].
    destruct (scan cb ps e) as [[[[? [? ?]] ?]|] ?]; done.
Qed.

Lemma find_spec cb l h ps :
  is_list h l ps →
  walk (λ fuel op, find_loop fuel cb l op) l h =
  Ok (match (scan cb ps (ext h)).1 with Some (_, (p, _), _) => Some p | None => None end,
      with_ext (scan cb ps (ext h)).2 h).
Proof.
  intros Hl. erewrite walk_spec by done. apply (find_loop_spec cb l h [] ps); [done|].
  pose proof (length_cells _ _ _ Hl). lia.
Qed.

(** The two writes that take a node out of the ring. *)
Lemma unlinked h l a p d b (x := lst l a.*1) (y := fst_or l b.*1) :
  is_list h l (a ++ (p, d) :: b) →
  let h1 := upd_cells (alter (wp x) y) (upd_cells (alter (wn y) x) h) in
  is_list h1 l (a ++ b) ∧ dat (cells h1) p = Some d ∧ (p ∉ (l :: (a ++ b).*1)) ∧
  is_Some (cells h !! x) ∧ is_Some (cells h !! y) ∧ x ≠ p ∧ y ≠ p.
Proof.
  intros Hl h1. destruct (node_at _ _ _ _ _ _ Hl) as (Hpl & Hd & _ & _).
  pose proof (il_nodup _ _ _ Hl) as Hnd. rewrite fmap_app in Hnd. cbn [fmap list_fmap fst] in Hnd.
  assert ((NoDup (l :: a.*1 ++ b.*1)) ∧ (p ∉ (l :: a.*1 ++ b.*1))) as [Hnd' Hp].
  { assert (l :: a.*1 ++ p :: b.*1 ≡ₚ p :: l :: a.*1 ++ b.*1) as Hperm.
    { rewrite <- Permutation_middle. apply perm_swap. }
    rewrite Hperm in Hnd. apply NoDup_cons in Hnd. tauto. }
  assert (x ∈ l :: a.*1 ++ b.*1 ∧ y ∈ l :: a.*1 ++ b.*1) as [Hx Hy].
  { rewrite <- fmap_app. split.
    - pose proof (lst_in l a.*1) as Hi. rewrite fmap_app. apply elem_of_cons in Hi as [Hi|Hi].
      + fold x in Hi. rewrite Hi. left.
      + right. apply elem_of_app. auto.
    - subst y. destruct b as [|[q e] b]; cbn; [left|]. rewrite fmap_app. right. apply elem_of_app. right. left. }
  assert (∀ z, z ∈ l :: a.*1 ++ b.*1 → is_Some (cells h !! z)) as Hal.
  { intros z Hz. apply (il_alloc _ _ _ _ Hl). rewrite fmap_app. cbn. apply elem_of_cons in Hz as [->|Hz]; [left|].
    right. apply elem_of_app in Hz as [Hz|Hz]; apply elem_of_app; [left; done|right; right; done]. }
  pose proof (Hal _ Hx) as Ax. pose proof (Hal _ Hy) as Ay.
  split_and!; auto; try (intros Heq; by rewrite Heq in *).
  2: { unfold h1. cbn [cells upd_cells]. rewrite alter_wp_dat, alter_wn_dat. done. }
  2: { rewrite fmap_app. done. }
  destruct Hl as [_ Hc Hdat Hbr]. split.
  - rewrite fmap_app. done.
  - rewrite fmap_app, <- app_assoc. rewrite fmap_app in Hc. cbn [fmap list_fmap fst] in Hc.
    rewrite <- app_assoc in Hc.
    apply (chain_splice (cells h) _ l a.*1 [p] [] b.*1); auto; fold x y; unfold h1; cbn [app chain].
    + links.
    + links.
    + split_and!; auto; links.
  - apply Forall_app in Hdat as [H1 H2]. apply Forall_cons in H2 as [_ H2]. apply Forall_app.
    split; (eapply dat_frame; [|done]); intros; unfold h1; links.
  - intros q Hq. apply Hbr. unfold h1 in Hq. cbn [cells upd_cells] in Hq. rewrite !alter_Some in Hq. done.
Qed.

(** Only the nodes of the list matter. *)
Lemma is_list_agree h h' l ps :
  (∀ z, z ∈ l :: ps.*1 → cells h' !! z = cells h !! z) →
  (∀ p, is_Some (cells h' !! p) → p < brk h') →
  is_list h l ps → is_list h' l ps.
Proof.
  intros Hz Hb' [Hnd Hc Hd Hb]. split; try done.
  - clear Hd Hb Hb' Hnd. assert (∀ z, z ∈ l :: ps.*1 ++ [l] → cells h' !! z = cells h !! z) as Hz'.
    { intros z Hin. apply Hz. apply elem_of_cons in Hin as [->|Hin]; [left|].
      apply elem_of_app in Hin as [Hin|Hin]; [right; done|]. apply list_elem_of_singleton in Hin as ->. left. }
    clear Hz. revert Hc Hz'. generalize (ps.*1 ++ [l]) as ys. intros ys. generalize l as x.
    induction ys as [|y ys IH]; intros x; cbn; [done|]. intros (H1 & H2 & H3) Hz'.
    unfold nxt, prv in *. rewrite !Hz' by (by repeat constructor). split_and!; auto.
    apply IH; [done|]. intros z Hin. apply Hz'. right. done.
  - eapply dat_frame; [|exact Hd]. intros z Hin. unfold dat. rewrite Hz; [done|right; done].
Qed.

Lemma delete_keeps h l ps p :
  is_list h l ps → p ∉ l :: ps.*1 → is_list (upd_cells (delete p) h) l ps.
Proof.
  intros Hl Hp. apply (is_list_agree h); [| |done]; cbn [cells upd_cells brk].
  - intros z Hz. rewrite lookup_delete_ne; [done|]. intros ->. done.
  - intros q [n Hq]. apply lookup_delete_Some in Hq as [_ Hq]. apply Hl. eauto.
Qed.

(** A node that was just allocated belongs to no list. *)
Lemma with_node_keeps h l ps d : is_list h l ps → is_list (with_node d h) l ps.
Proof.
  intros Hl. apply (is_list_agree h); [| |done]; cbn [cells with_node brk].
  - intros z Hz. pose proof (il_brk _ _ _ Hl z (il_alloc _ _ _ _ Hl Hz)).
    rewrite lookup_insert_ne by lia. done.
  - intros q. rewrite insert_Some. intros [->|Hq]; [lia|]. pose proof (il_brk _ _ _ Hl q Hq). lia.
Qed.

Lemma dat_Some (m : gmap Z t_manager_list) p v : dat m p = Some v → is_Some (m !! p).
Proof. unfold dat. destruct (m !! p); [eauto|done]. Qed.

Lemma node_free_eq h p : is_Some (cells h !! p) → node_free p h = Ok (tt, upd_cells (delete p) h).
Proof. intros [n Hn]. unfold node_free, fbind, load. rewrite Hn. done. Qed.

(** Taking the node behind [a] out and releasing it, with or without its data. *)
Lemma unlink_spec h l a p d b :
  is_list h l (a ++ (p, d) :: b) →
  ∃ h1, unlink p h = Ok (tt, h1) ∧ is_list h1 l (a ++ b) ∧ dat (cells h1) p = Some d ∧
        (p ∉ (l :: (a ++ b).*1)) ∧ released h1 = released h ∧ ext h1 = ext h ∧ brk h1 = brk h ∧ oks h1 = oks h.
Proof.
  intros Hl. destruct (unlinked _ _ _ _ _ _ Hl) as (Hl1 & Hd & Hp & Ax & Ay & Dx & Dy).
  destruct (node_at _ _ _ _ _ _ Hl) as (Hpl & _ & Hn & Hpr).
  eexists. split; [|split_and!; [exact Hl1|exact Hd|exact Hp|done..]].
  unfold unlink. erewrite bind_Ok; [|apply get_pre_eq, Hpr]. erewrite bind_Ok; [|apply get_next_eq, Hn].
  erewrite bind_Ok; [|apply set_next_eq, Ax].
  erewrite bind_Ok; [|apply get_next_eq; cbn [cells upd_cells]; rewrite alter_wn_S, decide_False by done; exact Hn].
  erewrite bind_Ok; [|apply get_pre_eq; cbn [cells upd_cells]; rewrite alter_wn_prv; exact Hpr].
  apply set_pre_eq. alloc.
Qed.

Lemma del_spec cb l h ps :
  is_list h l ps →
  ∃ h', match (scan cb ps (ext h)).1 with
        | Some (a, (p, d), b) =>
            del_manager_node l cb h = Ok (0, h') ∧ is_list h' l (a ++ b) ∧ released h' = d :: released h
        | None => del_manager_node l cb h = Ok (1, h') ∧ is_list h' l ps ∧ released h' = released h
        end ∧ ext h' = (scan cb ps (ext h)).2 ∧ brk h' = brk h ∧ oks h' = oks h.
Proof.
  intros Hl. unfold del_manager_node. erewrite bind_Ok; [|by apply find_spec].
  destruct (scan cb ps (ext h)) as [[[[a [p d]] b]|] e] eqn:Es; cbn [fst snd].
  - apply scan_split in Es. subst ps.
    destruct (unlink_spec _ _ _ _ _ _ (is_list_ext e _ _ _ Hl)) as (h1 & E1 & Hl1 & Hd & Hp & Hr & He & Hb & Ho).
    erewrite bind_Ok; [|exact E1]. erewrite bind_Ok; [|apply get_data_eq, Hd].
    erewrite bind_Ok; [|reflexivity]. erewrite bind_Ok; [|apply node_free_eq; by eapply dat_Some].
    eexists. split; [split_and!; [reflexivity| |]|].
    + apply delete_keeps; [|done]. destruct Hl1. split; done.
    + cbn. rewrite Hr. done.
    + cbn. rewrite He, Hb, Ho. done.
  - eexists. split; [split_and!; [reflexivity|by apply is_list_ext|done]|done].
Qed.

Lemma remove_spec cb l h ps :
  is_list h l ps →
  ∃ h', match (scan cb ps (ext h)).1 with
        | Some (a, (p, d), b) =>
            remove_manager_node l cb h = Ok (0, h') ∧ is_list h' l (a ++ b) ∧ released h' = released h
        | None => remove_manager_node l cb h = Ok (1, h') ∧ is_list h' l ps ∧ released h' = released h
        end ∧ ext h' = (scan cb ps (ext h)).2 ∧ brk h' = brk h ∧ oks h' = oks h.
Proof.
  intros Hl. unfold remove_manager_node. erewrite bind_Ok; [|by apply find_spec].
  destruct (scan cb ps (ext h)) as [[[[a [p d]] b]|] e] eqn:Es; cbn [fst snd].
  - apply scan_split in Es. subst ps.
    destruct (unlink_spec _ _ _ _ _ _ (is_list_ext e _ _ _ Hl)) as (h1 & E1 & Hl1 & Hd & Hp & Hr & He & Hb & Ho).
    erewrite bind_Ok; [|exact E1]. erewrite bind_Ok; [|apply node_free_eq; by eapply dat_Some].
    eexists. split; [split_and!; [reflexivity| |]|].
    + apply delete_keeps; done.
    + cbn. rewrite Hr. done.
    + cbn. rewrite He, Hb, Ho. done.
  - eexists. split; [split_and!; [reflexivity|by apply is_list_ext|done]|done].
Qed.

(** The data of the nodes, in order: what a client sees of a list. *)
Lemma count_loop_spec l h a ps n fuel :
  is_list h l (a ++ ps) → (length ps < fuel)%nat →
  count_loop fuel l (fst_or l ps.*1) n h = Ok (n + zlen ps, h).
Proof.
  revert a n fuel. induction ps as [|[p d] ps IH]; intros a n fuel Hl Hf;
    (destruct fuel as [|fuel]; [cbn in Hf; lia|]); cbn [count_loop].
  - cbn. rewrite Z.eqb_refl. change (zlen (@nil (Z * Z))) with 0. rewrite Z.add_0_r. done.
  - destruct (node_at _ _ _ _ _ _ Hl) as (Hpl & Hd & Hn & _). cbn [fst_or fmap list_fmap fst].
    rewrite (proj2 (Z.eqb_neq _ _)) by done. erewrite bind_Ok; [|apply get_next_eq, Hn].
    assert (is_list h l ((a ++ [(p, d)]) ++ ps)) as Hl' by (rewrite <- app_assoc; done).
    rewrite (IH _ _ _ Hl') by (cbn in Hf; lia). do 2 f_equal. unfold zlen. cbn. lia.
Qed.

(** What is left of the list while it is taken apart from its front. *)
Fixpoint fwd (m : gmap Z t_manager_list) (l : Z) (ps : list (Z * Z)) : Prop :=
  match ps with
  | [] => True
  | (p, d) :: ps => nxt m p = Some (fst_or l ps.*1) ∧ dat m p = Some d ∧ fwd m l ps
  end.

Lemma is_list_fwd h l a ps : is_list h l (a ++ ps) → fwd (cells h) l ps.
Proof.
  revert a. induction ps as [|[p d] ps IH]; intros a Hl; cbn; [done|].
  destruct (node_at _ _ _ _ _ _ Hl) as (_ & Hd & Hn & _). split_and!; auto.
  apply (IH (a ++ [(p, d)])). rewrite <- app_assoc. done.
Qed.

Lemma fwd_delete m l p ps : p ∉ ps.*1 → fwd m l ps → fwd (delete p m) l ps.
Proof.
  induction ps as [|[q d] ps IH]; cbn; [done|]. rewrite not_elem_of_cons. intros [Hq Hp] (H1 & H2 & H3).
  unfold nxt, dat in *. rewrite !lookup_delete_ne by done. auto.
Qed.

Lemma clean_loop_spec l ps h fuel :
  fwd (cells h) l ps → NoDup (l :: ps.*1) → is_Some (cells h !! l) →
  (∀ p, is_Some (cells h !! p) → p < brk h) → (length ps < fuel)%nat →
  ∃ h', clean_loop fuel l (fst_or l ps.*1) h = Ok (tt, h') ∧ is_Some (cells h' !! l) ∧
    (∀ p, is_Some (cells h' !! p) → p < brk h') ∧ released h' = rev ps.*2 ++ released h ∧
    ext h' = ext h ∧ brk h' = brk h ∧ oks h' = oks h.
Proof.
  revert h fuel. induction ps as [|[p d] ps IH]; intros h fuel Hf Hnd Ha Hb Hfu;
    (destruct fuel as [|fuel]; [cbn in Hfu; lia|]); cbn [clean_loop].
  - cbn. rewrite Z.eqb_refl. exists h. auto 10.
  - cbn in Hf, Hnd. destruct Hf as (Hn & Hd & Hf). apply NoDup_cons in Hnd as [Hl Hnd].
    apply not_elem_of_cons in Hl as [Hlp Hl]. apply NoDup_cons in Hnd as [Hp Hnd].
    cbn [fst_or fmap list_fmap fst]. rewrite (proj2 (Z.eqb_neq _ _)) by done.
    erewrite bind_Ok; [|apply get_next_eq, Hn]. erewrite bind_Ok; [|apply get_data_eq, Hd].
    erewrite bind_Ok; [|reflexivity].
    erewrite bind_Ok; [|apply node_free_eq; cbn [cells]; by eapply dat_Some].
    destruct (IH (upd_cells (delete p)
      {| cells := cells h; brk := brk h; oks := oks h; released := d :: released h; ext := ext h |}) fuel)
      as (h' & E1 & H1 & H2 & H3 & H4 & H5 & H6); cbn [cells upd_cells brk].
    + by apply fwd_delete.
    + apply NoDup_cons. done.
    + rewrite lookup_delete_ne by done. done.
    + intros q [n Hq]. apply lookup_delete_Some in Hq as [_ Hq]. apply Hb. eauto.
    + cbn in Hfu. lia.
    + exists h'. split_and!; auto. rewrite H3. cbn. rewrite <- app_assoc. done.
Qed.

Lemma init_spec h l :
  is_Some (cells h !! l) → (∀ p, is_Some (cells h !! p) → p < brk h) →
  ∃ h', init_manager_list l h = Ok (tt, h') ∧ is_list h' l [] ∧ released h' = released h ∧
        ext h' = ext h ∧ brk h' = brk h ∧ oks h' = oks h.
Proof.
  intros Ha Hb. unfold init_manager_list. erewrite bind_Ok; [|apply set_next_eq, Ha].
  rewrite set_pre_eq by alloc. eexists. split; [reflexivity|]. split; [|done]. split; cbn.
  - apply NoDup_singleton.
  - split_and!; [| |done].
    + rewrite alter_wp_nxt, alter_wn_S, decide_True by done. done.
    + rewrite alter_wp_S, decide_True by (done || alloc). done.
  - constructor.
  - intros p. rewrite !alter_Some. apply Hb.
Qed.

Lemma clean_spec h l ps :
  is_list h l ps →
  ∃ h', clean_manager_list l h = Ok (tt, h') ∧ is_list h' l [] ∧
        released h' = rev ps.*2 ++ released h ∧ ext h' = ext h ∧ brk h' = brk h ∧ oks h' = oks h.
Proof.
  intros Hl. unfold clean_manager_list. unfold fbind at 1. erewrite walk_spec by done.
  destruct (clean_loop_spec l ps h (S (size (cells h)))) as (h1 & E1 & Ha & Hb & Hr & He & Hbr & Ho).
  { apply (is_list_fwd h l []). done. }
  { apply Hl. }
  { eapply il_alloc; [done|left]. }
  { apply Hl. }
  { pose proof (length_cells _ _ _ Hl). lia. }
  rewrite E1. destruct (init_spec h1 l Ha Hb) as (h2 & E2 & Hl2 & Hr2 & He2 & Hb2 & Ho2).
  exists h2. split_and!; [exact E2|done|congruence..].
Qed.

Lemma scan_is_node q ps (e : E) o e' :
  scan (is_node q) ps e = (o, e') → e' = e ∧ match o with Some (_, (p, _), _) => p = q | None => True end.
Proof.
  revert o e'. induction ps as [|[p d] ps IH]; intros o e'; cbn; [intros; simplify_eq; done|].
  destruct (Z.eqb_spec q p) as [->|]; cbn; [intros; simplify_eq; done|].
  destruct (scan (is_node q) ps e) as [o1 e1] eqn:Es. destruct (IH _ _ eq_refl) as [-> Hp].
  intros; simplify_eq. destruct o1 as [[[? [? ?]] ?]|]; done.
Qed.

Lemma alter_commute (m : gmap Z t_manager_list) (x y v w : Z) :
  alter (wn v) x (alter (wp w) y m) = alter (wp w) y (alter (wn v) x m).
Proof.
  destruct (decide (x = y)) as [->|].
  - apply map_eq. intros z. destruct (decide (y = z)) as [->|].
    + rewrite !lookup_alter_eq. destruct (m !! z); done.
    + rewrite !lookup_alter_ne by done. done.
  - apply map_eq. intros z. destruct (decide (y = z)) as [->|], (decide (x = z)) as [->|]; try done;
      rewrite ?lookup_alter_eq, ?lookup_alter_ne by done; rewrite ?lookup_alter_eq, ?lookup_alter_ne by done; done.
Qed.

Lemma insert_head_nomem h l d m :
  oks h = false :: m →
  insert_head_manager_list l d h =
  Ok (tt, {| cells := cells h; brk := brk h; oks := m; released := released h; ext := ext h |}).
Proof. intros Ho. unfold insert_head_manager_list, fbind at 1, node_malloc. rewrite Ho. done. Qed.

(** Moving a node to the front: a new node takes over its data.  When there
    is no memory for the new node, the data is lost from the list. *)
Lemma remove_head_spec q l h ps :
  is_list h l ps →
  ∃ h', match (scan (is_node q) ps (ext h)).1 with
        | Some (a, (_, d), b) =>
            remove_head_manager_node l q h = Ok (0, h') ∧
            (can_malloc h → is_list h' l ((brk h, d) :: a ++ b)) ∧ (~ can_malloc h → is_list h' l (a ++ b))
        | None => remove_head_manager_node l q h = Ok (1, h') ∧ is_list h' l ps
        end ∧ released h' = released h ∧ ext h' = ext h ∧ oks h' = match (scan (is_node q) ps (ext h)).1 with Some _ => tail (oks h) | None => oks h end ∧
        (can_malloc h → brk h' = match (scan (is_node q) ps (ext h)).1 with Some _ => brk h + 1 | None => brk h end).
Proof.
  intros Hl. unfold remove_head_manager_node. erewrite bind_Ok; [|by apply find_spec].
  destruct (scan (is_node q) ps (ext h)) as [o e] eqn:Es. destruct (scan_is_node _ _ _ _ _ Es) as [-> Hq].
  destruct o as [[[a [p d]] b]|]; cbn [fst snd].
  2: { eexists. split; [split; [reflexivity|by apply is_list_ext]|done]. }
  subst p. apply scan_split in Es. subst ps. set (h0 := with_ext (ext h) h).
  assert (is_list h0 l (a ++ (q, d) :: b)) as Hl0 by by apply is_list_ext.
  destruct (unlinked _ _ _ _ _ _ Hl0) as (Hl1 & Hd & Hp & Ax & Ay & Dx & Dy).
  destruct (node_at _ _ _ _ _ _ Hl0) as (Hpl & _ & Hn & Hpr).
  set (x := lst l a.*1) in *. set (y := fst_or l b.*1) in *.
  erewrite bind_Ok; [|apply get_next_eq, Hn]. erewrite bind_Ok; [|apply get_pre_eq, Hpr].
  erewrite bind_Ok; [|apply set_pre_eq, Ay].
  erewrite bind_Ok; [|apply get_pre_eq; cbn [cells upd_cells]; rewrite alter_wp_S, decide_False by done; exact Hpr].
  erewrite bind_Ok; [|apply get_next_eq; cbn [cells upd_cells]; rewrite alter_wp_nxt; exact Hn].
  erewrite bind_Ok; [|apply set_next_eq; alloc].
  assert (upd_cells (alter (wn y) x) (upd_cells (alter (wp x) y) h0) =
          upd_cells (alter (wp x) y) (upd_cells (alter (wn y) x) h0)) as Hcomm.
  { unfold upd_cells. cbn. rewrite alter_commute. done. }
  rewrite Hcomm. clear Hcomm. set (h1 := upd_cells _ (upd_cells _ h0)) in *.
  erewrite bind_Ok; [|apply get_data_eq, Hd].
  assert (q < brk h1) as Hqb by (apply (il_brk _ _ _ Hl1); by eapply dat_Some).
  destruct (oks h) as [|[] oks'] eqn:Ho.
  3: { erewrite bind_Ok; [|apply (insert_head_nomem _ _ _ oks'); exact Ho].
       erewrite bind_Ok; [|apply node_free_eq; cbn; by eapply dat_Some].
       eexists. split; [split; [reflexivity|]|unfold can_malloc; rewrite Ho; done]. unfold can_malloc. rewrite Ho. split; [done|intros _].
       apply delete_keeps; [|done]. destruct Hl1. split; done. }
  all: assert (can_malloc h1) as Hok by (unfold can_malloc; change (oks h1) with (oks h); rewrite Ho; done).
  all: destruct (insert_head_spec _ _ _ d Hl1 Hok) as (h2 & E2 & Hl2 & Hr2 & He2 & Hb2 & Ho2 & Hk2).
  all: erewrite bind_Ok; [|exact E2].
  all: assert (q ∉ l :: ((brk h1, d) :: a ++ b).*1) as Hq'
    by (rewrite not_elem_of_cons in *; destruct Hp as [Hp1 Hp2]; split; [done|];
        cbn [fmap list_fmap fst]; rewrite not_elem_of_cons; split; [lia|done]).
  all: erewrite bind_Ok; [|apply node_free_eq, Hk2; by eapply dat_Some].
  all: eexists; split; [split; [reflexivity|]|cbn; rewrite Hr2, He2, Hb2, Ho2; cbn; rewrite Ho; done].
  all: split; [intros _; apply delete_keeps; done|]; unfold can_malloc; rewrite Ho; tauto.
Qed.
End Removal.

(** ** Refinement to a sequence *)

Section Refinement.
Context {E : Type}.

(** Client operations; an operation's result is its return value, 0 for the
    void functions. *)
Inductive mop : Type :=
| m_insert_head (d : Z)
| m_insert_tail (d : Z)
| m_del (cb : @cb_t E)
| m_remove (cb : @cb_t E)
| m_to_front (q : Z)
| m_count
| m_clean.

Definition run_mop (l : Z) (op : mop) : FW (lheap E) Z :=
  match op with
  | m_insert_head d => fbind (insert_head_manager_list l d) (λ _, fret 0)
  | m_insert_tail d => fbind (insert_tail_manager_list l d) (λ _, fret 0)
  | m_del cb => del_manager_node l cb
  | m_remove cb => remove_manager_node l cb
  | m_to_front q => remove_head_manager_node l q
  | m_count => count_manager_list l
  | m_clean => fbind (clean_manager_list l) (λ _, fret 0)
  end.

(** The sequence of (address, data) pairs, the data released so far, the
    outside state and the next fresh address. *)
Record seq_state := { q_items : list (Z * Z); q_released : list Z; q_ext : E; q_brk : Z }.

Definition seq_mop (op : mop) (s : seq_state) : Z * seq_state :=
  let ps := q_items s in
  match op with
  | m_insert_head d => (0, {| q_items := (q_brk s, d) :: ps; q_released := q_released s;
                              q_ext := q_ext s; q_brk := q_brk s + 1 |})
  | m_insert_tail d => (0, {| q_items := ps ++ [(q_brk s, d)]; q_released := q_released s;
                              q_ext := q_ext s; q_brk := q_brk s + 1 |})
  | m_del cb =>
      match scan cb ps (q_ext s) with
      | (Some (a, (_, d), b), e) => (0, {| q_items := a ++ b; q_released := d :: q_released s;
                                           q_ext := e; q_brk := q_brk s |})
      | (None, e) => (1, {| q_items := ps; q_released := q_released s; q_ext := e; q_brk := q_brk s |})
      end
  | m_remove cb =>
      match scan cb ps (q_ext s) with
      | (Some (a, _, b), e) => (0, {| q_items := a ++ b; q_released := q_released s;
                                      q_ext := e; q_brk := q_brk s |})
      | (None, e) => (1, {| q_items := ps; q_released := q_released s; q_ext := e; q_brk := q_brk s |})
      end
  | m_to_front q =>
      match scan (is_node q) ps (q_ext s) with
      | (Some (a, (_, d), b), _) => (0, {| q_items := (q_brk s, d) :: a ++ b; q_released := q_released s;
                                           q_ext := q_ext s; q_brk := q_brk s + 1 |})
      | (None, _) => (1, s)
      end
  | m_count => (zlen ps, s)
  | m_clean => (0, {| q_items := []; q_released := rev ps.*2 ++ q_released s;
                      q_ext := q_ext s; q_brk := q_brk s |})
  end.

Fixpoint run_mops (l : Z) (ops : list mop) : FW (lheap E) (list Z) :=
  match ops with
  | [] => fret []
  | op :: ops => fbind (run_mop l op) (λ r, fbind (run_mops l ops) (λ rs, fret (r :: rs)))
  end.

Fixpoint seq_mops (ops : list mop) (s : seq_state) : list Z * seq_state :=
  match ops with
  | [] => ([], s)
  | op :: ops => let '(r, s) := seq_mop op s in let '(rs, s) := seq_mops ops s in (r :: rs, s)
  end.

(** The heap holds the sequence, and memory does not run out. *)
Record holds (h : lheap E) (l : Z) (s : seq_state) : Prop := {
  ho_list : is_list h l (q_items s);
  ho_released : released h = q_released s;
  ho_ext : ext h = q_ext s;
  ho_brk : brk h = q_brk s;
  ho_mem : oks h = []
}.

Lemma run_mop_refines l op h s :
  holds h l s →
  ∃ h', run_mop l op h = Ok ((seq_mop op s).1, h') ∧ holds h' l (seq_mop op s).2.
Proof.
  intros [Hl Hr He Hb Ho].
  assert (can_malloc h) as Hc by (unfold can_malloc; rewrite Ho; done).
  destruct op as [d|d|cb|cb|q| |]; cbn [run_mop seq_mop].
  - destruct (insert_head_spec _ _ _ d Hl Hc) as (h' & E1 & Hl' & Hr' & He' & Hb' & Ho' & _).
    exists h'. unfold fbind. rewrite E1. split; [done|]. rewrite Ho in Ho'. rewrite Hb in *.
    split; cbn; first [done|congruence].
  - destruct (insert_tail_spec _ _ _ d Hl Hc) as (h' & E1 & Hl' & Hr' & He' & Hb' & Ho').
    exists h'. unfold fbind. rewrite E1. split; [done|]. rewrite Ho in Ho'. rewrite Hb in *.
    split; cbn; first [done|congruence].
  - destruct (del_spec cb l h _ Hl) as (h' & Hm & He' & Hb' & Ho'). rewrite He in *.
    destruct (scan cb (q_items s) (q_ext s)) as [[[[a [p d]] b]|] e]; cbn in *;
      destruct Hm as (E1 & Hl' & Hr'); exists h'; (split; [exact E1|]); split; cbn; first [done|congruence].
  - destruct (remove_spec cb l h _ Hl) as (h' & Hm & He' & Hb' & Ho'). rewrite He in *.
    destruct (scan cb (q_items s) (q_ext s)) as [[[[a [p d]] b]|] e]; cbn in *;
      destruct Hm as (E1 & Hl' & Hr'); exists h'; (split; [exact E1|]); split; cbn; first [done|congruence].
  - destruct (remove_head_spec q l h _ Hl) as (h' & Hm & Hr' & He' & Ho' & Hb'). specialize (Hb' Hc).
    rewrite He in *. rewrite Ho in Ho'.
    destruct (scan (is_node q) (q_items s) (q_ext s)) as [[[[a [p d]] b]|] e]; cbn in *.
    + destruct Hm as (E1 & Hl' & _). exists h'. split; [exact E1|]. specialize (Hl' Hc). rewrite Hb in *.
      split; cbn; first [done|congruence].
    + destruct Hm as (E1 & Hl'). exists h'. split; [exact E1|]. split; first [done|congruence].
  - exists h. split; [|split; done]. unfold count_manager_list. erewrite walk_spec by done.
    rewrite (count_loop_spec l h [] (q_items s)); [done..|]. pose proof (length_cells _ _ _ Hl). lia.
  - destruct (clean_spec h l _ Hl) as (h' & E1 & Hl' & Hr' & He' & Hb' & Ho').
    exists h'. unfold fbind. rewrite E1. split; [done|]. split; cbn; first [done|congruence].
Qed.

(** C5: the linked list implements a sequence.  For every series of client
    operations (insert at head or tail, delete, remove, move to front, count,
    clean), with any callbacks, the pointer code runs without touching memory
    it does not own, returns what the sequence operations return, and ends in
    a heap whose forward and backward links both spell the resulting sequence;
    the data pointers it frees are those the sequence drops. *)
Theorem manager_list_refines l ops h s :
  holds h l s →
  ∃ h', run_mops l ops h = Ok ((seq_mops ops s).1, h') ∧ holds h' l (seq_mops ops s).2.
Proof.
  revert h s. induction ops as [|op ops IH]; intros h s Hh; cbn [run_mops seq_mops].
  - exists h. done.
  - destruct (run_mop_refines l op h s Hh) as (h1 & E1 & Hh1).
    destruct (seq_mop op s) as [r s1]. cbn [fst snd] in *.
    destruct (IH h1 s1 Hh1) as (h2 & E2 & Hh2). destruct (seq_mops ops s1) as [rs s2]. cbn [fst snd] in *.
    exists h2. unfold fbind. rewrite E1, E2. done.
Qed.
End Refinement.

(** A list object at address 1 that was just initialised. *)
Definition demo_heap : lheap unit :=
  {| cells := {[1 := {| ndata := 0; nnext := 1; npre := 1 |}]}; brk := 10; oks := []; released := []; ext := tt |}.
Definition demo_seq : @seq_state unit := {| q_items := []; q_released := []; q_ext := tt; q_brk := 10 |}.

Lemma demo_holds : holds demo_heap 1 demo_seq.
Proof.
  split; try reflexivity. split; cbn.
  - apply NoDup_singleton.
  - done.
  - constructor.
  - intros p [n Hn]. apply lookup_singleton_Some in Hn as [<- _]. lia.
Qed.

Definition has_data (v : Z) : @cb_t unit := λ _ d e, (if d =? v then 0 else 1, e).

Lemma manager_list_refines_witness :
  holds demo_heap 1 demo_seq ∧
  ∃ h', run_mops 1 [m_insert_tail 7; m_insert_head 8; m_insert_tail 9; m_to_front 10;
                    m_del (has_data 9); m_count] demo_heap = Ok ([0; 0; 0; 0; 0; 2], h') ∧
        holds h' 1 {| q_items := [(13, 7); (11, 8)]; q_released := [9]; q_ext := tt; q_brk := 14 |}.
Proof.
  split; [exact demo_holds|].
  exact (manager_list_refines 1 [m_insert_tail 7; m_insert_head 8; m_insert_tail 9; m_to_front 10;
    m_del (has_data 9); m_count] demo_heap demo_seq demo_holds).
Defined.

(** Moving a node to the front allocates a new node after the old one was
    taken out; when that allocation fails, the element is gone from the list
    although the function returns 0. *)
Theorem to_front_nomem_loses {E} q l (h : lheap E) ps a d b e :
  is_list h l ps → ~ can_malloc h → scan (is_node q) ps (ext h) = (Some (a, (q, d), b), e) →
  ∃ h', remove_head_manager_node l q h = Ok (0, h') ∧ is_list h' l (a ++ b) ∧ released h' = released h.
Proof.
  intros Hl Hm Hs. destruct (remove_head_spec q l h ps Hl) as (h' & Hr & Hrel & _).
  rewrite Hs in Hr. cbn in Hr. destruct Hr as (E1 & _ & Hl'). eauto.
Qed.

Lemma to_front_nomem_loses_witness :
  ∃ h h' : lheap unit, is_list h 1 [(10, 7)] ∧ remove_head_manager_node 1 10 h = Ok (0, h') ∧ is_list h' 1 [] ∧
          released h' = released h.
Proof.
  destruct (run_mop_refines 1 (m_insert_tail 7) demo_heap demo_seq demo_holds) as (h & _ & Hh).
  set (h0 := {| cells := cells h; brk := brk h; oks := [false]; released := released h; ext := ext h |}).
  assert (is_list h0 1 [(10, 7)]) as Hl by (destruct Hh as [[? ? ? ?] _ _ _ _]; split; done).
  destruct (to_front_nomem_loses 10 1 h0 [(10, 7)] [] 7 [] (ext h0) Hl) as (h' & E1 & Hl' & Hr).
  { intros Hc. exact Hc. }
  { reflexivity. }
  exists h0, h'. split; [exact Hl|]. split; [exact E1|]. split; [exact Hl'|exact Hr].
Defined.
