(* ===== verification/Fastlz.v ===== *)
(** * The compressor

    app/codec/fastlz/fastlz.c, which includes itself twice: the code of the
    compressor and the decompressor is compiled for level 1 and for level 2.
    A pointer into the input or the output is its offset there; a read or a
    write outside is a fault.  [input] may be longer than the [length] the code
    is told: those bytes are in memory behind it. *)

From S2P Require Import Prelude.

Definition MAX_COPY : Z := 32.
Definition MAX_LEN : Z := 264.
Inductive FASTLZ_LEVEL : Set := Level1 | Level2.
#[export] Instance FASTLZ_LEVEL_eq_dec : EqDecision FASTLZ_LEVEL.
Proof. solve_decision. Defined.
Definition MAX_DISTANCE (lv : FASTLZ_LEVEL) : Z := match lv with Level1 => 8192 | Level2 => 8191 end.
Definition MAX_FARDISTANCE : Z := 65535 + MAX_DISTANCE Level2 - 1.
Definition HASH_LOG : Z := 10.
Definition HASH_SIZE : Z := Z.shiftl 1 HASH_LOG.
Definition HASH_MASK : Z := HASH_SIZE - 1.

Local Open Scope fw_scope.

(** The element [p] points to. *)
Definition load (l : list Z) (p : Z) : result Z :=
  if 0 <=? p then match l !! Z.to_nat p with Some v => Ok v | None => Fault OutOfBounds end else Fault OutOfBounds.

(** [*op++ = v] for one byte after the other. *)
Fixpoint puts (op : Z) (l : list Z) (out : list Z) : result (list Z) :=
  match l with
  | [] => Ok out
  | v :: l => out <-? store op [u8 v] out;; puts (op + 1) l out
  end.

Section Compressor.
Context (lv : FASTLZ_LEVEL) (input : list Z).

Definition FASTLZ_READU16 (p : Z) : result Z :=
  a <-? load input p;; b <-? load input (p + 1);; Ok (Z.lor a (Z.shiftl b 8)).

Definition HASH_FUNCTION (p : Z) : result Z :=
  v <-? FASTLZ_READU16 p;;
  w <-? FASTLZ_READU16 (p + 1);;
  Ok (Z.land (Z.lxor v (Z.lxor w (Z.shiftr v (16 - HASH_LOG)))) HASH_MASK).

(** [*ref != *ip]. *)
Definition differ (ref ip : Z) : result bool :=
  a <-? load input ref;; b <-? load input ip;; Ok (negb (a =? b)).

(** [n] comparisons in a row, none of which differs. *)
Fixpoint same (n : nat) (ref ip : Z) : result bool :=
  match n with
  | O => Ok true
  | S n => d <-? differ ref ip;; if d : bool then Ok false else same n (ref + 1) (ip + 1)
  end.

(** The comparisons written out one after the other: whether one differed, and
    the pointers behind the last bytes compared. *)
Fixpoint unrolled (n : nat) (ref ip : Z) : result (bool * Z * Z) :=
  match n with
  | O => Ok (false, ref, ip)
  | S n => d <-? differ ref ip;; if d : bool then Ok (true, ref + 1, ip + 1) else unrolled n (ref + 1) (ip + 1)
  end.
Fixpoint match_loop (fuel : nat) (ip_bound ref ip : Z) : result Z :=
  match fuel with
  | O => Fault OutOfFuel
  | S fuel =>
      if ip <? ip_bound then
        d <-? differ ref ip;; if d : bool then Ok (ip + 1) else match_loop fuel ip_bound (ref + 1) (ip + 1)
      else Ok ip
  end.
Fixpoint run_loop (fuel : nat) (ip_bound x ref ip : Z) : result Z :=
  match fuel with
  | O => Fault OutOfFuel
  | S fuel =>
      if ip <? ip_bound then
        v <-? load input ref;; if negb (v =? x) then Ok ip else run_loop fuel ip_bound x (ref + 1) (ip + 1)
      else Ok ip
  end.

(** A match for the bytes at [anchor]: its distance, the length that was
    compared and the pointer behind it; and the hash table. *)
Definition find_match (anchor : Z) (htab : list Z) : result (option (Z * Z * Z) * list Z) :=
  run <-? match lv with
          | Level1 => Ok false
          | Level2 =>
              d <-? differ anchor (anchor - 1);;
              if d : bool then Ok false
              else u <-? FASTLZ_READU16 (anchor - 1);; v <-? FASTLZ_READU16 (anchor + 1);; Ok (u =? v)
          end;;
  if run : bool then Ok (Some (1, 3, anchor - 1 + 3), htab)
  else
    hval <-? HASH_FUNCTION anchor;;
    ref <-? load htab hval;;
    let distance := anchor - ref in
    htab <-? store hval [anchor] htab;;
    if (distance =? 0) || (distance >=? match lv with Level1 => MAX_DISTANCE Level1 | Level2 => MAX_FARDISTANCE end)
    then Ok (None, htab)
    else
      m <-? same 3 ref anchor;;
      if negb m then Ok (None, htab)
      else if bool_decide (lv = Level2) && (distance >=? MAX_DISTANCE Level2) then
        m <-? same 2 (ref + 3) (anchor + 3);;
        if negb m then Ok (None, htab) else Ok (Some (distance, 5, ref + 5), htab)
      else Ok (Some (distance, 3, ref + 3), htab).

(** The pointer behind the match, for a biased distance. *)
Definition match_end (fuel : nat) (ip_bound distance ref ip : Z) : result Z :=
  if distance =? 0 then x <-? load input (ip - 1);; run_loop fuel ip_bound x ref ip
  else
    '(broke, ref, ip) <-? unrolled 8 ref ip;;
    if broke : bool then Ok ip else match_loop fuel ip_bound ref ip.

(** Level 1 writes a long match as several. *)
Fixpoint chunks (fuel : nat) (len distance : Z) : list Z * Z :=
  match fuel with
  | O => ([], len)
  | S fuel =>
      if len >? MAX_LEN - 2 then
        let '(l, len) := chunks fuel (len - (MAX_LEN - 2)) distance in
        ([Z.shiftl 7 5 + Z.shiftr distance 8; MAX_LEN - 2 - 7 - 2; Z.land distance 255] ++ l, len)
      else ([], len)
  end.
(** Level 2 writes a long length as a sum. *)
Fixpoint length_bytes (fuel : nat) (len : Z) : list Z :=
  match fuel with
  | O => [len]
  | S fuel => if len >=? 255 then 255 :: length_bytes fuel (len - 255) else [len]
  end.

(** The bytes a match is written as. *)
Definition match_bytes (len distance : Z) : list Z :=
  match lv with
  | Level1 =>
      let '(l, len) := chunks (Z.to_nat len) len distance in
      l ++ (if len <? 7 then [Z.shiftl len 5 + Z.shiftr distance 8; Z.land distance 255]
            else [Z.shiftl 7 5 + Z.shiftr distance 8; len - 7; Z.land distance 255])
  | Level2 =>
      if distance <? MAX_DISTANCE Level2 then
        if len <? 7 then [Z.shiftl len 5 + Z.shiftr distance 8; Z.land distance 255]
        else [Z.shiftl 7 5 + Z.shiftr distance 8] ++ length_bytes (Z.to_nat len) (len - 7) ++ [Z.land distance 255]
      else
        let distance := distance - MAX_DISTANCE Level2 in
        if len <? 7 then [Z.shiftl len 5 + 31; 255; Z.shiftr distance 8; Z.land distance 255]
        else [Z.shiftl 7 5 + 31] ++ length_bytes (Z.to_nat len) (len - 7) ++ [255; Z.shiftr distance 8; Z.land distance 255]
  end.

Record c_state := { c_ip : Z; c_op : Z; c_copy : Z; c_htab : list Z; c_out : list Z }.

(** One byte as a literal; behind MAX_COPY literals a new count is begun. *)
Definition put_literal (p op copy : Z) (out : list Z) : result (Z * Z * list Z) :=
  v <-? load input p;;
  out <-? puts op [v] out;;
  let copy := copy + 1 in
  if copy =? MAX_COPY then out <-? puts (op + 1) [MAX_COPY - 1] out;; Ok (op + 2, 0, out) else Ok (op + 1, copy, out).

(** The count in front of the literals is set, or taken back when there are none. *)
Definition close_copy (op copy : Z) (out : list Z) : result (Z * list Z) :=
  if negb (copy =? 0) then out <-? store (op - copy - 1) [u8 (copy - 1)] out;; Ok (op, out) else Ok (op - 1, out).

Definition hash_position (ip : Z) (htab : list Z) : result (list Z) := hval <-? HASH_FUNCTION ip;; store hval [ip] htab.

Definition put_match (fuel : nat) (ip_bound anchor distance len ref : Z) (htab : list Z) (s : c_state) : result c_state :=
  let ip := anchor + len in
  let distance := distance - 1 in
  ip <-? match_end fuel ip_bound distance ref ip;;
  '(op, out) <-? close_copy (c_op s) (c_copy s) (c_out s);;
  let ip := ip - 3 in
  let bytes := match_bytes (ip - anchor) distance in
  out <-? puts op bytes out;;
  htab <-? hash_position ip htab;;
  htab <-? hash_position (ip + 1) htab;;
  out <-? puts (op + zlen bytes) [MAX_COPY - 1] out;;
  Ok {| c_ip := ip + 2; c_op := op + zlen bytes + 1; c_copy := 0; c_htab := htab; c_out := out |}.

Definition compress_step (fuel : nat) (ip_bound : Z) (s : c_state) : result c_state :=
  let anchor := c_ip s in
  '(m, htab) <-? find_match anchor (c_htab s);;
  match m with
  | Some (distance, len, ref) => put_match fuel ip_bound anchor distance len ref htab s
  | None =>
      '(op, copy, out) <-? put_literal anchor (c_op s) (c_copy s) (c_out s);;
      Ok {| c_ip := anchor + 1; c_op := op; c_copy := copy; c_htab := htab; c_out := out |}
  end.

Fixpoint compress_loop (fuel steps : nat) (ip_bound ip_limit : Z) (s : c_state) : result c_state :=
  match steps with
  | O => Fault OutOfFuel
  | S steps =>
      if c_ip s <? ip_limit then s <-? compress_step fuel ip_bound s;; compress_loop fuel steps ip_bound ip_limit s
      else Ok s
  end.

(** What is left goes out as literals. *)
Fixpoint left_over (fuel : nat) (ip_bound ip op copy : Z) (out : list Z) : result (Z * Z * list Z) :=
  match fuel with
  | O => Fault OutOfFuel
  | S fuel =>
      if ip <=? ip_bound then
        '(op, copy, out) <-? put_literal ip op copy out;; left_over fuel ip_bound (ip + 1) op copy out
      else Ok (op, copy, out)
  end.

(** A short input is one literal. *)
Definition compress_short (length : Z) (out : list Z) : result (Z * list Z) :=
  if negb (length =? 0) then
    out <-? puts 0 [length - 1] out;;
    d <-? slice 0 (Z.max 0 length) input;;
    out <-? puts 1 d out;;
    Ok (length + 1, out)
  else Ok (0, out).

Definition FASTLZ_COMPRESSOR (length : Z) (out : list Z) : FW (list bool) (Z * list Z) :=
  ok <-- mem_ok;;
  if negb ok then fret (-1, out)
  else if length <? 4 then flift (compress_short length out)
  else
    let fuel := Z.to_nat length in
    r <-- flift (d <-? slice 0 2 input;;
                 out <-? puts 0 (MAX_COPY - 1 :: d) out;;
                 compress_loop fuel fuel (length - 2) (length - 12)
                   {| c_ip := 2; c_op := 3; c_copy := 2; c_htab := replicate (Z.to_nat HASH_SIZE) 0; c_out := out |});;
    flift ('(op, copy, out) <-? left_over fuel (length - 1) (c_ip r) (c_op r) (c_copy r) (c_out r);;
           '(op, out) <-? close_copy op copy out;;
           out <-? match lv with
                   | Level1 => Ok out
                   | Level2 => v <-? load out 0;; store 0 [u8 (Z.lor v (Z.shiftl 1 5))] out
                   end;;
           Ok (op, out)).
End Compressor.

Section Decompressor.
Context (lv : FASTLZ_LEVEL) (input : list Z) (length maxout : Z).

(** [*op++ = *ref++], [n] times, within the output. *)
Fixpoint copy_out (n : nat) (ref op : Z) (out : list Z) : result (list Z) :=
  match n with
  | O => Ok out
  | S n => v <-? load out ref;; out <-? store op [v] out;; copy_out n (ref + 1) (op + 1) out
  end.

(** The extra bytes of a long length, up to one that is not 255. *)
Fixpoint more_length (fuel : nat) (len ip : Z) : result (Z * Z) :=
  match fuel with
  | O => Fault OutOfFuel
  | S fuel =>
      code <-? load input ip;;
      if code =? 255 then more_length fuel (len + code) (ip + 1) else Ok (len + code, ip + 1)
  end.

(** The rest of a match behind its first byte: the length, where the bytes come
    from and the pointer behind it. *)
Definition match_fields (ctrl ip op : Z) : result (Z * Z * Z) :=
  let len := Z.shiftr ctrl 5 - 1 in
  let ofs := Z.shiftl (Z.land ctrl 31) 8 in
  let ref := op - ofs in
  match lv with
  | Level1 =>
      '(len, ip) <-? (if len =? 7 - 1 then b <-? load input ip;; Ok (len + b, ip + 1) else Ok (len, ip));;
      b <-? load input ip;;
      Ok (len, ref - b, ip + 1)
  | Level2 =>
      '(len, ip) <-? (if len =? 7 - 1 then more_length (S (List.length input)) len ip else Ok (len, ip));;
      code <-? load input ip;;
      if (code =? 255) && (ofs =? Z.shiftl 31 8) then
        a <-? load input (ip + 1);;
        b <-? load input (ip + 2);;
        Ok (len, op - (Z.shiftl a 8 + b) - MAX_DISTANCE Level2, ip + 3)
      else Ok (len, ref - code, ip + 1)
  end.

(** The next control byte, if there is one. *)
Definition next_ctrl (ip : Z) : result (option Z) :=
  if ip <? length then c <-? load input ip;; Ok (Some c) else Ok None.

(** One turn of the loop: the result, when it ends here. *)
Definition decompress_step (ctrl ip op : Z) (out : list Z) : result (option Z * Z * Z * list Z + Z * list Z) :=
  if ctrl >=? 32 then
    '(len, ref, ip) <-? match_fields ctrl ip op;;
    if op + len + 3 >? maxout then Ok (inr (0, out))
    else if ref - 1 <? 0 then Ok (inr (0, out))
    else
      c <-? next_ctrl ip;;
      out <-? (if ref =? op then b <-? load out (ref - 1);; puts op (replicate (Z.to_nat (len + 3)) b) out
               else copy_out (Z.to_nat (len + 3)) (ref - 1) op out);;
      Ok (inl (c, ip + 1, op + (len + 3), out))
  else
    let ctrl := ctrl + 1 in
    if op + ctrl >? maxout then Ok (inr (0, out))
    else if ip + ctrl >? length then Ok (inr (0, out))
    else
      d <-? slice ip ctrl input;;
      out <-? puts op d out;;
      c <-? next_ctrl (ip + ctrl);;
      Ok (inl (c, ip + ctrl + 1, op + ctrl, out)).

(** The number of bytes written, and the output. *)
Fixpoint decompress_loop (fuel : nat) (ctrl ip op : Z) (out : list Z) : result (Z * list Z) :=
  match fuel with
  | O => Fault OutOfFuel
  | S fuel =>
      r <-? decompress_step ctrl ip op out;;
      match r with
      | inr res => Ok res
      | inl (Some ctrl, ip, op, out) => decompress_loop fuel ctrl ip op out
      | inl (None, _, op, out) => Ok (op, out)
      end
  end.

Definition FASTLZ_DECOMPRESSOR (out : list Z) : result (Z * list Z) :=
  c <-? load input 0;; decompress_loop (S (Z.to_nat length)) (Z.land c 31) 1 0 out.
End Decompressor.

Definition fastlz_compress (input : list Z) (length : Z) (out : list Z) : FW (list bool) (Z * list Z) :=
  if length <? 65536 then FASTLZ_COMPRESSOR Level1 input length out else FASTLZ_COMPRESSOR Level2 input length out.

Definition fastlz_compress_level (level : Z) (input : list Z) (length : Z) (out : list Z) : FW (list bool) (Z * list Z) :=
  if level =? 1 then FASTLZ_COMPRESSOR Level1 input length out
  else if level =? 2 then FASTLZ_COMPRESSOR Level2 input length out
  else fret (0, out).

Definition fastlz_decompress (input : list Z) (length : Z) (out : list Z) (maxout : Z) : result (Z * list Z) :=
  c <-? load input 0;;
  let level := Z.shiftr c 5 + 1 in
  if level =? 1 then FASTLZ_DECOMPRESSOR Level1 input length maxout out
  else if level =? 2 then FASTLZ_DECOMPRESSOR Level2 input length maxout out
  else Ok (0, out).
