(* ===== verification/FastlzSpec.v ===== *)
(** * The compressor: what it compresses is decompressed

    The format of app/codec/fastlz/fastlz.c as a list of tokens, literals and
    matches, and the text a list of tokens stands for; the compressor of either
    level writes tokens that stand for its input, the decompressor writes what
    its tokens stand for. *)

From S2P Require Import Prelude Fastlz.

(** ** Memory *)

(** The byte at [p], 0 outside. *)
Definition byte_at (l : list Z) (p : Z) : Z := default 0 (l !! Z.to_nat p).

Lemma byte_at_lookup l p v : l !! Z.to_nat p = Some v → byte_at l p = v.
Proof. unfold byte_at. by intros ->. Qed.

Lemma lookup_byte_at l p : 0 <= p < zlen l → l !! Z.to_nat p = Some (byte_at l p).
Proof.
  unfold zlen, byte_at. intros Hp. destruct (lookup_lt_is_Some_2 l (Z.to_nat p)) as [v ->]; [lia|done].
Qed.

Lemma load_Ok l p : 0 <= p < zlen l → load l p = Ok (byte_at l p).
Proof. intros Hp. unfold load. rewrite lookup_byte_at by done. destruct (Z.leb_spec 0 p); [done|lia]. Qed.

Lemma load_fault l p f : load l p = Fault f → f = OutOfBounds.
Proof. unfold load. repeat case_match; congruence. Qed.

Lemma byte_at_app_l a b p : 0 <= p < zlen a → byte_at (a ++ b) p = byte_at a p.
Proof. unfold zlen, byte_at. intros Hp. by rewrite lookup_app_l by lia. Qed.
Lemma byte_at_app_r a b p : 0 <= p → byte_at (a ++ b) (zlen a + p) = byte_at b p.
Proof. unfold zlen, byte_at. intros Hp. rewrite lookup_app_r by lia. do 2 f_equal. lia. Qed.

Lemma byte_at_take l n p : 0 <= p < n → byte_at (take (Z.to_nat n) l) p = byte_at l p.
Proof. intros Hp. unfold byte_at. by rewrite lookup_take_lt by lia. Qed.

Lemma byte_at_ok l p : bytes_ok l → is_u8 (byte_at l p).
Proof.
  intros Hl. unfold byte_at. destruct (l !! Z.to_nat p) as [v|] eqn:E; [|done]. by eapply Forall_lookup_1 in E.
Qed.

Lemma take_next l p : 0 <= p < zlen l → take (Z.to_nat (p + 1)) l = take (Z.to_nat p) l ++ [byte_at l p].
Proof.
  intros Hp. replace (Z.to_nat (p + 1)) with (S (Z.to_nat p)) by lia. by apply take_S_r, lookup_byte_at.
Qed.

(** What is written in front of a pointer. *)
Lemma prefix_zlen (a out : list Z) : a `prefix_of` out → zlen a <= zlen out.
Proof. intros [r ->]. rewrite zlen_app. pose proof (zlen_nonneg r). lia. Qed.

Lemma store_at (a b out : list Z) x v :
  (a ++ x :: b) `prefix_of` out →
  ∃ out', store (zlen a) [v] out = Ok out' ∧ (a ++ v :: b) `prefix_of` out' ∧ zlen out' = zlen out.
Proof.
  intros [r ->]. rewrite <- app_assoc. cbn [app]. exists (a ++ v :: b ++ r).
  rewrite store_Ok by (rewrite ?zlen_app, ?zlen_cons, ?zlen_nil; pose proof (zlen_nonneg a); pose proof (zlen_nonneg (b ++ r)); lia).
  pose proof (blit_app_mid a [x] (b ++ r) [v] (zlen a) eq_refl eq_refl) as E. cbn [app] in E. rewrite E. split; [done|]. split.
  - exists r. by rewrite <- app_assoc.
  - by rewrite !zlen_app, !zlen_cons.
Qed.

Lemma store_next (a out : list Z) v :
  a `prefix_of` out → zlen a < zlen out →
  ∃ out', store (zlen a) [v] out = Ok out' ∧ (a ++ [v]) `prefix_of` out' ∧ zlen out' = zlen out.
Proof.
  intros [r ->] Hl. destruct r as [|x r]; [rewrite app_nil_r in Hl; lia|].
  apply (store_at a [] _ x v). exists r. by rewrite <- app_assoc.
Qed.

Lemma puts_run l a out :
  a `prefix_of` out → zlen a + zlen l <= zlen out →
  ∃ out', puts (zlen a) l out = Ok out' ∧ (a ++ map u8 l) `prefix_of` out' ∧ zlen out' = zlen out.
Proof.
  revert a out. induction l as [|v l IH]; intros a out Ha Hl; cbn [puts map].
  - exists out. by rewrite app_nil_r.
  - rewrite zlen_cons in Hl. pose proof (zlen_nonneg l).
    destruct (store_next a out (u8 v) Ha) as (out1 & E1 & H1 & Hz1); [lia|]. rewrite E1. cbn [rbind].
    destruct (IH (a ++ [u8 v]) out1 H1) as (out2 & E2 & H2 & Hz2); [rewrite zlen_app, zlen_cons, zlen_nil; lia|].
    rewrite zlen_app, zlen_cons, zlen_nil in E2. replace (zlen a + 1) with (zlen a + (1 + 0)) by lia.
    exists out2. rewrite E2. split; [done|]. split; [by rewrite <- app_assoc in H2|congruence].
Qed.

Lemma map_u8 l : bytes_ok l → map u8 l = l.
Proof. induction 1 as [|b l Hb _ IH]; cbn; [done|]. by rewrite IH, u8_id. Qed.

(** ** Tokens *)

(** Literal bytes, or a match at the biased distance [d] of [len] + 2 bytes. *)
Inductive token := Lit (l : list Z) | Mat (d len : Z).

(** [n] bytes, each the one [d] positions in front of it. *)
Fixpoint copy_back (n : nat) (d : Z) (o : list Z) : list Z :=
  match n with O => o | S n => copy_back n d (o ++ [byte_at o (zlen o - d)]) end.

Definition run_token (o : list Z) (t : token) : list Z :=
  match t with Lit l => o ++ l | Mat d len => copy_back (Z.to_nat (len + 2)) (d + 1) o end.
Definition run_tokens (ts : list token) (o : list Z) : list Z := foldl run_token o ts.

Definition max_match (lv : FASTLZ_LEVEL) (len : Z) : Prop := match lv with Level1 => len <= MAX_LEN - 2 | Level2 => True end.
Definition max_distance (lv : FASTLZ_LEVEL) : Z := match lv with Level1 => MAX_DISTANCE Level1 | Level2 => MAX_DISTANCE Level2 + 65536 end.
Definition token_ok (lv : FASTLZ_LEVEL) (o : list Z) (t : token) : Prop :=
  match t with
  | Lit l => 1 <= zlen l <= MAX_COPY ∧ bytes_ok l
  | Mat d len => 0 <= d < max_distance lv ∧ d + 1 <= zlen o ∧ 1 <= len ∧ max_match lv len
  end.
Fixpoint valid (lv : FASTLZ_LEVEL) (ts : list token) (o : list Z) : Prop :=
  match ts with [] => True | t :: ts => token_ok lv o t ∧ valid lv ts (run_token o t) end.

(** The bytes of a token. *)
Definition enc_token (lv : FASTLZ_LEVEL) (t : token) : list Z :=
  match t with Lit l => zlen l - 1 :: l | Mat d len => match_bytes lv len d end.
Definition enc (lv : FASTLZ_LEVEL) (ts : list token) : list Z := concat (map (enc_token lv) ts).

Lemma enc_token_cons lv t : ∃ ctrl body, enc_token lv t = ctrl :: body.
Proof.
  destruct t as [l|d n]; cbn [enc_token]; [by do 2 eexists|]. unfold match_bytes. destruct lv.
  - destruct (chunks _ _ _) as [[|? l] ?]; cbn [app]; [case_match|]; by do 2 eexists.
  - repeat case_match; by do 2 eexists.
Qed.

Lemma enc_length lv ts : (length ts <= length (enc lv ts))%nat.
Proof.
  induction ts as [|t ts IH]; [done|]. unfold enc in *. cbn [map concat]. destruct (enc_token_cons lv t) as (c & b & ->).
  cbn [app length]. rewrite length_app. lia.
Qed.

Lemma run_tokens_app ts ts' o : run_tokens (ts ++ ts') o = run_tokens ts' (run_tokens ts o).
Proof. apply foldl_app. Qed.
Lemma valid_app lv ts ts' o : valid lv (ts ++ ts') o ↔ valid lv ts o ∧ valid lv ts' (run_tokens ts o).
Proof.
  revert o. induction ts as [|t ts IH]; intros o; cbn [app valid run_tokens foldl]; [tauto|].
  fold (run_tokens ts (run_token o t)). rewrite IH. tauto.
Qed.
Lemma enc_app lv ts ts' : enc lv (ts ++ ts') = enc lv ts ++ enc lv ts'.
Proof. unfold enc. by rewrite map_app, concat_app. Qed.
Lemma enc_single lv t : enc lv [t] = enc_token lv t.
Proof. unfold enc. cbn. by rewrite app_nil_r. Qed.

Lemma zlen_copy_back n d o : zlen (copy_back n d o) = zlen o + Z.of_nat n.
Proof.
  revert o. induction n as [|n IH]; intros o; cbn [copy_back]; [lia|]. rewrite IH, zlen_app, zlen_cons, zlen_nil. lia.
Qed.
Lemma copy_back_add n m d o : copy_back (n + m) d o = copy_back m d (copy_back n d o).
Proof. revert o. induction n as [|n IH]; intros o; cbn [Nat.add copy_back]; [done|]. apply IH. Qed.

(** Two stretches of the input, [d] apart, agree. *)
Definition agree (input : list Z) (d a b : Z) : Prop := ∀ j, a <= j < b → byte_at input j = byte_at input (j - d).

Lemma agree_app input d a b c : agree input d a b → agree input d b c → agree input d a c.
Proof. intros H1 H2 j Hj. destruct (Z.lt_ge_cases j b); [apply H1|apply H2]; lia. Qed.
Lemma agree_weak input d a b c : agree input d a b → c <= b → agree input d a c.
Proof. intros H1 Hc j Hj. apply H1. lia. Qed.

Lemma copy_back_take input d n a :
  0 < d <= a → a + Z.of_nat n <= zlen input → agree input d a (a + Z.of_nat n) →
  copy_back n d (take (Z.to_nat a) input) = take (Z.to_nat (a + Z.of_nat n)) input.
Proof.
  revert a. induction n as [|n IH]; intros a Hd Hl Hag; cbn [copy_back].
  - do 2 f_equal. lia.
  - rewrite zlen_take by lia. rewrite byte_at_take by lia. rewrite <- (Hag a) by lia. rewrite <- take_next by lia.
    rewrite IH; [do 2 f_equal; lia|lia|lia|]. intros j Hj. apply Hag. lia.
Qed.

(** ** Finding a match *)

Section Matching.
Context (lv : FASTLZ_LEVEL) (input : list Z).
Local Abbreviation agree := (agree input).

Lemma differ_run ref ip :
  0 <= ref < zlen input → 0 <= ip < zlen input → differ input ref ip = Ok (negb (byte_at input ref =? byte_at input ip)).
Proof. intros Hr Hi. unfold differ. by rewrite !load_Ok. Qed.

Lemma agree_next ref ip : byte_at input ref = byte_at input ip → agree (ip - ref) ip (ip + 1).
Proof. intros E j Hj. replace j with ip by lia. by replace (ip - (ip - ref)) with ref by lia. Qed.

Lemma same_run n ref ip :
  0 <= ref < ip → ip + Z.of_nat n <= zlen input →
  ∃ b, same input n ref ip = Ok b ∧ (b = true → agree (ip - ref) ip (ip + Z.of_nat n)).
Proof.
  revert ref ip. induction n as [|n IH]; intros ref ip Hr Hl; cbn [same].
  - exists true. split; [done|]. intros _ j Hj. lia.
  - rewrite differ_run by lia. cbn [rbind]. destruct (Z.eqb_spec (byte_at input ref) (byte_at input ip)) as [E|E]; cbn [negb].
    + destruct (IH (ref + 1) (ip + 1)) as (b & -> & Hb); [lia..|]. exists b. split; [done|]. intros Eb.
      apply agree_app with (ip + 1); [by apply agree_next|].
      replace (ip - ref) with (ip + 1 - (ref + 1)) by lia. replace (ip + Z.of_nat (S n)) with (ip + 1 + Z.of_nat n) by lia. by apply Hb.
    + by exists false.
Qed.

Lemma unrolled_run n ref ip :
  0 <= ref < ip → ip + Z.of_nat n <= zlen input →
  ∃ b ip', unrolled input n ref ip = Ok (b, ip' - (ip - ref), ip') ∧ ip' <= ip + Z.of_nat n ∧
    agree (ip - ref) ip (if b : bool then ip' - 1 else ip') ∧ (if b then ip < ip' else ip' = ip + Z.of_nat n).
Proof.
  revert ref ip. induction n as [|n IH]; intros ref ip Hr Hl; cbn [unrolled].
  - exists false, ip. split; [do 2 f_equal; f_equal; lia|]. split; [lia|]. split; [intros j Hj; lia|lia].
  - rewrite differ_run by lia. cbn [rbind]. destruct (Z.eqb_spec (byte_at input ref) (byte_at input ip)) as [E|E]; cbn [negb].
    + destruct (IH (ref + 1) (ip + 1)) as (b & ip' & -> & Hu & Hag & Hb); [lia..|].
      replace (ip + 1 - (ref + 1)) with (ip - ref) in * by lia. exists b, ip'. split; [done|]. split; [lia|]. split.
      * apply agree_app with (ip + 1); [by apply agree_next|done].
      * destruct b; lia.
    + exists true, (ip + 1). split; [do 2 f_equal; f_equal; lia|]. split; [lia|]. split; [intros j Hj; lia|lia].
Qed.

Lemma match_loop_run fuel bound ref ip :
  (Z.to_nat (bound - ip) < fuel)%nat → 0 <= ref < ip → bound <= zlen input →
  ∃ ip', match_loop input fuel bound ref ip = Ok ip' ∧ ip <= ip' <= Z.max ip bound ∧ agree (ip - ref) ip (ip' - 1).
Proof.
  revert ref ip. induction fuel as [|fuel IH]; intros ref ip Hf Hr Hb; [lia|]. cbn [match_loop].
  destruct (Z.ltb_spec ip bound) as [Hi|Hi].
  - rewrite differ_run by lia. cbn [rbind]. destruct (Z.eqb_spec (byte_at input ref) (byte_at input ip)) as [E|E]; cbn [negb].
    + destruct (IH (ref + 1) (ip + 1)) as (ip' & -> & Hu & Hag); [lia..|]. exists ip'. split; [done|]. split; [lia|].
      apply agree_app with (ip + 1); [by apply agree_next|]. by replace (ip + 1 - (ref + 1)) with (ip - ref) in Hag by lia.
    + exists (ip + 1). split; [done|]. split; [lia|]. intros j Hj. lia.
  - exists ip. split; [done|]. split; [lia|]. intros j Hj. lia.
Qed.

Lemma run_loop_run fuel bound x ref ip :
  (Z.to_nat (bound - ip) < fuel)%nat → 0 <= ref → ref + 1 = ip → bound <= zlen input →
  ∃ ip', run_loop input fuel bound x ref ip = Ok ip' ∧ ip <= ip' <= Z.max ip bound ∧
    (∀ j, ref <= j < ip' - 1 → byte_at input j = x) ∧ (ip < bound → byte_at input ref = x → ip < ip').
Proof.
  revert ref ip. induction fuel as [|fuel IH]; intros ref ip Hf Hr He Hb; [lia|]. cbn [run_loop].
  destruct (Z.ltb_spec ip bound) as [Hi|Hi]; [|exists ip; split_and!; done || lia || (intros; lia)].
  rewrite load_Ok by lia. cbn [rbind]. destruct (Z.eqb_spec (byte_at input ref) x) as [E|E]; cbn [negb].
  - destruct (IH (ref + 1) (ip + 1)) as (ip' & -> & Hu & Hag & _); [lia..|]. exists ip'. split; [done|]. split; [lia|].
    split; [|lia]. intros j Hj. destruct (Z.eq_dec j ref) as [->|]; [done|apply Hag; lia].
  - exists ip. split_and!; done || lia || (intros; lia).
Qed.

(** The end of a match: everything in front of the byte before it agrees. *)
Lemma match_end_run fuel bound distance anchor ip :
  (Z.to_nat (bound - anchor) <= fuel)%nat → 0 <= distance → distance + 1 <= anchor → anchor + 3 <= ip → ip < bound →
  bound <= zlen input → ip + 8 <= zlen input → agree (distance + 1) anchor ip →
  ∃ ip', match_end input fuel bound distance (ip - (distance + 1)) ip = Ok ip' ∧ ip < ip' <= Z.max (ip + 8) bound ∧
    agree (distance + 1) anchor (ip' - 1).
Proof.
  intros Hf Hd Ha H3 Hi Hb H8 Hag. unfold match_end. destruct (Z.eqb_spec distance 0) as [->|Hd0].
  - change (0 + 1) with 1 in *. rewrite load_Ok by lia. cbn [rbind].
    destruct (run_loop_run fuel bound (byte_at input (ip - 1)) (ip - 1) ip) as (ip' & -> & Hu & Hx & Hlt); [lia..|].
    exists ip'. split; [done|]. split; [specialize (Hlt Hi eq_refl); lia|]. apply agree_app with ip; [done|].
    intros j Hj. rewrite (Hx (j - 1)) by lia. rewrite Hx by lia. done.
  - destruct (unrolled_run 8 (ip - (distance + 1)) ip) as (b & ip1 & -> & Hu & Hag1 & Hlt); [lia..|]. cbn [rbind].
    replace (ip - (ip - (distance + 1))) with (distance + 1) in * by lia. destruct b.
    + exists ip1. split; [done|]. split; [lia|]. by apply agree_app with ip.
    + destruct (match_loop_run fuel bound (ip1 - (distance + 1)) ip1) as (ip2 & -> & Hu2 & Hag2); [lia..|].
      exists ip2. split; [done|]. split; [lia|].
      replace (ip1 - (ip1 - (distance + 1))) with (distance + 1) in * by lia.
      apply agree_app with ip; [done|].
      destruct (Z.eq_dec ip2 ip1) as [->|]; [apply agree_weak with ip1; [done|lia]|by apply agree_app with ip1].
Qed.

(** ** The hash table *)

Definition table_ok (ip : Z) (htab : list Z) : Prop := zlen htab = HASH_SIZE ∧ Forall (λ x, 0 <= x <= ip) htab.

Lemma hash_run p : 0 <= p → p + 2 < zlen input → ∃ h, HASH_FUNCTION input p = Ok h ∧ 0 <= h < HASH_SIZE.
Proof.
  intros Hp Hl. unfold HASH_FUNCTION, FASTLZ_READU16. rewrite !load_Ok by lia. cbn [rbind].
  eexists. split; [reflexivity|]. change HASH_MASK with (Z.ones 10). rewrite Z.land_ones by lia.
  change HASH_SIZE with (2 ^ 10). apply Z.mod_pos_bound. lia.
Qed.

Lemma table_set ip h v htab :
  table_ok ip htab → 0 <= h < HASH_SIZE → 0 <= v <= ip → ∃ htab', store h [v] htab = Ok htab' ∧ table_ok ip htab'.
Proof.
  intros [Hl Hf] Hh Hv. rewrite store_Ok by (rewrite ?zlen_cons, ?zlen_nil; lia). eexists. split; [reflexivity|].
  split; [rewrite zlen_blit; rewrite ?zlen_cons, ?zlen_nil; lia|].
  unfold blit. apply Forall_app. split; [by apply Forall_take|]. apply Forall_app. split; [by constructor|by apply Forall_drop].
Qed.

Lemma table_weak ip ip' htab : table_ok ip htab → ip <= ip' → table_ok ip' htab.
Proof. intros [Hl Hf] Hi. split; [done|]. eapply Forall_impl; [exact Hf|]. cbn. lia. Qed.

Lemma table_load ip h htab : table_ok ip htab → 0 <= h < HASH_SIZE → ∃ x, load htab h = Ok x ∧ 0 <= x <= ip.
Proof.
  intros [Hl Hf] Hh. rewrite load_Ok by lia. eexists. split; [reflexivity|].
  apply (Forall_lookup_1 _ htab (Z.to_nat h) (byte_at htab h) Hf). apply lookup_byte_at. lia.
Qed.

Lemma hash_position_run ip p htab :
  table_ok ip htab → 0 <= p <= ip → p + 2 < zlen input → ∃ htab', hash_position input p htab = Ok htab' ∧ table_ok ip htab'.
Proof.
  intros Ht Hp Hl. unfold hash_position. destruct (hash_run p) as (h & -> & Hh); [lia..|]. cbn [rbind]. by apply table_set.
Qed.

(** A match that is found is a stretch of the input in front of it. *)
Definition is_match (anchor : Z) (m : option (Z * Z * Z)) : Prop :=
  match m with
  | None => True
  | Some (distance, len, ref) =>
      0 < distance <= anchor ∧ ref = anchor + len - distance ∧ agree distance anchor (anchor + len) ∧
      distance - 1 < max_distance lv ∧
      match lv with Level1 => len = 3 | Level2 => len = 3 ∨ len = 5 end ∧
      (lv = Level2 → MAX_DISTANCE Level2 <= distance → len = 5)
  end.

Lemma READU16_eq p q :
  bytes_ok input → 0 <= p → p + 1 < zlen input → 0 <= q → q + 1 < zlen input →
  ∃ u v, FASTLZ_READU16 input p = Ok u ∧ FASTLZ_READU16 input q = Ok v ∧
    (u = v → byte_at input p = byte_at input q ∧ byte_at input (p + 1) = byte_at input (q + 1)).
Proof.
  intros Hb Hp Hpl Hq Hql. unfold FASTLZ_READU16. rewrite !load_Ok by lia. cbn [rbind].
  do 2 eexists. split; [reflexivity|]. split; [reflexivity|].
  pose proof (byte_at_ok input p Hb) as H1. pose proof (byte_at_ok input q Hb) as H2. intros E.
  assert (∀ a b, is_u8 a → Z.lor a (Z.shiftl b 8) = a + 256 * b) as Hor.
  { intros a b Ha. unfold is_u8 in Ha. rewrite Z.lor_comm, lor_add by lia. lia. }
  rewrite !Hor in E by done. unfold is_u8 in *. lia.
Qed.

(** Level 2: the last byte and the three that follow are the same. *)
Lemma run_found anchor :
  bytes_ok input → 2 <= anchor → anchor + 2 < zlen input →
  ∃ b : bool, (d <-? differ input anchor (anchor - 1);;
       if d : bool then Ok false
       else u <-? FASTLZ_READU16 input (anchor - 1);; v <-? FASTLZ_READU16 input (anchor + 1);; Ok (u =? v))%fw = Ok b ∧
    (b = true → agree 1 anchor (anchor + 3)).
Proof.
  intros Hb Ha Hl. rewrite differ_run by lia. cbn [rbind].
  destruct (Z.eqb_spec (byte_at input anchor) (byte_at input (anchor - 1))) as [E|E]; cbn [negb]; [|by exists false].
  destruct (READU16_eq (anchor - 1) (anchor + 1)) as (u & v & -> & -> & Huv); [done|lia..|]. cbn [rbind].
  eexists. split; [reflexivity|]. intros Eq%Z.eqb_eq. destruct (Huv Eq) as [E1 E2].
  replace (anchor - 1 + 1) with anchor in E2 by lia. replace (anchor + 1 + 1) with (anchor + 2) in E2 by lia.
  intros j Hj. assert (j = anchor ∨ j = anchor + 1 ∨ j = anchor + 2) as [-> |[-> | ->]] by lia.
  - done.
  - replace (anchor + 1 - 1) with anchor by lia. congruence.
  - replace (anchor + 2 - 1) with (anchor + 1) by lia. congruence.
Qed.

Lemma find_match_run anchor htab :
  bytes_ok input → 2 <= anchor → anchor + 12 < zlen input → table_ok anchor htab →
  ∃ m htab', find_match lv input anchor htab = Ok (m, htab') ∧ table_ok anchor htab' ∧ is_match anchor m.
Proof.
  intros Hb Ha Hl Ht. unfold find_match.
  assert (∃ b : bool, match lv with
          | Level1 => Ok false
          | Level2 =>
              d <-? differ input anchor (anchor - 1);;
              if d : bool then Ok false
              else u <-? FASTLZ_READU16 input (anchor - 1);; v <-? FASTLZ_READU16 input (anchor + 1);; Ok (u =? v)
          end%fw = Ok b ∧ (b = true → lv = Level2 ∧ agree 1 anchor (anchor + 3))) as (b & -> & Hrun).
  { destruct lv; [by exists false|]. destruct (run_found anchor) as (b & E & Hag); [done|lia|lia|]. exists b. auto. }
  cbn [rbind]. destruct b.
  { destruct (Hrun eq_refl) as [Elv Hag]. eexists _, htab. split; [reflexivity|]. split; [done|].
    split_and!; [lia|lia|lia|done|by rewrite Elv|rewrite Elv; by left|unfold MAX_DISTANCE; lia]. }
  clear Hrun. destruct (hash_run anchor) as (h & -> & Hh); [lia|lia|]. cbn [rbind].
  destruct (table_load anchor h htab Ht Hh) as (ref & -> & Href). cbn [rbind].
  destruct (table_set anchor h anchor htab Ht Hh) as (htab' & -> & Ht'); [lia|]. cbn [rbind].
  destruct ((anchor - ref =? 0) || (anchor - ref >=? _)) eqn:Ed; [by exists None, htab'|].
  apply orb_false_iff in Ed as [Ed1%Z.eqb_neq Ed2]. rewrite Z.geb_leb, Z.leb_gt in Ed2.
  destruct (same_run 3 ref anchor) as (b3 & -> & H3); [lia|lia|]. cbn [rbind].
  destruct b3; cbn [negb]; [|by exists None, htab']. specialize (H3 eq_refl). change (Z.of_nat 3) with 3 in H3.
  assert (anchor - ref - 1 < max_distance lv) as Hmax.
  { unfold max_distance, MAX_FARDISTANCE, MAX_DISTANCE in *. destruct lv; lia. }
  destruct (bool_decide_reflect (lv = Level2)) as [Elv|Elv]; cbn [andb].
  - destruct (Z.geb_spec (anchor - ref) (MAX_DISTANCE Level2)) as [Hfar|Hnear].
    + destruct (same_run 2 (ref + 3) (anchor + 3)) as (b2 & -> & H2); [lia|lia|]. cbn [rbind].
      destruct b2; cbn [negb]; [|by exists None, htab']. specialize (H2 eq_refl). change (Z.of_nat 2) with 2 in H2.
      eexists _, htab'. split; [reflexivity|]. split; [done|]. split_and!; [lia|lia|lia| |done|rewrite Elv; by right|done].
      apply agree_app with (anchor + 3); [done|]. replace (anchor + 3 - (ref + 3)) with (anchor - ref) in H2 by lia.
      by replace (anchor + 5) with (anchor + 3 + 2) by lia.
    + eexists _, htab'. split; [reflexivity|]. split; [done|]. split_and!; [lia|lia|lia|done|done|rewrite Elv; by left|intros; lia].
  - eexists _, htab'. split; [reflexivity|]. split; [done|]. split_and!; [lia|lia|lia|done|done|by destruct lv; [|left]|done].
Qed.
End Matching.

(** ** The bytes of a match *)

Lemma length_bytes_ok fuel len : 0 <= len → (Z.to_nat len <= fuel)%nat → bytes_ok (length_bytes fuel len).
Proof.
  revert len. induction fuel as [|fuel IH]; intros len Hl Hf; cbn [length_bytes].
  - constructor; [unfold is_u8; lia|constructor].
  - rewrite Z.geb_leb. destruct (Z.leb_spec 255 len).
    + constructor; [done|]. apply IH; lia.
    + constructor; [unfold is_u8; lia|constructor].
Qed.

Lemma length_bytes_zlen fuel len : 0 <= len → zlen (length_bytes fuel len) <= 1 + len / 255.
Proof.
  revert len. induction fuel as [|fuel IH]; intros len Hl; cbn [length_bytes].
  - rewrite zlen_cons, zlen_nil. Z.div_mod_to_equations. lia.
  - rewrite Z.geb_leb. destruct (Z.leb_spec 255 len).
    + rewrite zlen_cons. specialize (IH (len - 255) ltac:(lia)).
      replace (len / 255) with ((len - 255) / 255 + 1); [lia|]. rewrite <- Z.div_add by lia. f_equal. lia.
    + rewrite zlen_cons, zlen_nil. Z.div_mod_to_equations. lia.
Qed.

Lemma shl5 x : Z.shiftl x 5 = 32 * x.
Proof. rewrite Z.shiftl_mul_pow2 by lia. change (2 ^ 5) with 32. lia. Qed.
Lemma shr8 x : Z.shiftr x 8 = x / 256.
Proof. by rewrite Z.shiftr_div_pow2. Qed.
Lemma low8 x : Z.land x 255 = x mod 256.
Proof. exact (Z.land_ones x 8 ltac:(lia)). Qed.

(** A match of level 1 that is not cut. *)
Definition short_match (len d : Z) : list Z :=
  if len <? 7 then [Z.shiftl len 5 + Z.shiftr d 8; Z.land d 255] else [Z.shiftl 7 5 + Z.shiftr d 8; len - 7; Z.land d 255].
Definition long_match (fuel : nat) (len d : Z) : list Z := let '(l, len) := chunks fuel len d in l ++ short_match len d.

Lemma match_bytes1 len d : match_bytes Level1 len d = long_match (Z.to_nat len) len d.
Proof. done. Qed.
Lemma long_match_short fuel len d : len <= MAX_LEN - 2 → long_match fuel len d = short_match len d.
Proof.
  intros Hl. unfold long_match. destruct fuel as [|fuel]; [done|]. cbn [chunks].
  rewrite Z.gtb_ltb. destruct (Z.ltb_spec (MAX_LEN - 2) len); [lia|done].
Qed.
Lemma long_match_cut fuel len d :
  MAX_LEN - 2 < len → long_match (S fuel) len d = short_match (MAX_LEN - 4) d ++ long_match fuel (len - (MAX_LEN - 2)) d.
Proof.
  intros Hl. unfold long_match. cbn [chunks]. rewrite Z.gtb_ltb. destruct (Z.ltb_spec (MAX_LEN - 2) len); [|lia].
  destruct (chunks fuel (len - (MAX_LEN - 2)) d) as [l len'] eqn:E. by rewrite <- app_assoc.
Qed.

(** By cutting a long match of level 1. *)
Lemma long_match_ind (P : nat → Z → Prop) :
  (∀ fuel len, 1 <= len <= MAX_LEN - 2 → P fuel len) →
  (∀ fuel len, MAX_LEN - 2 < len → P fuel (len - (MAX_LEN - 2)) → P (S fuel) len) →
  ∀ fuel len, 1 <= len → (Z.to_nat len <= fuel)%nat → P fuel len.
Proof.
  intros H1 H2 fuel. induction fuel as [|fuel IH]; intros len Hl Hf; [lia|].
  destruct (Z.le_gt_cases len (MAX_LEN - 2)) as [Hc|Hc]; [by apply H1|]. apply H2; [lia|]. unfold MAX_LEN in *. apply IH; lia.
Qed.

Lemma short_match_ok len d : 1 <= len <= MAX_LEN - 2 → 0 <= d < MAX_DISTANCE Level1 → bytes_ok (short_match len d).
Proof.
  unfold short_match, MAX_DISTANCE, MAX_LEN. rewrite !shl5, shr8, low8. intros Hl Hd.
  destruct (Z.ltb_spec len 7); repeat constructor; unfold is_u8; Z.div_mod_to_equations; lia.
Qed.

Lemma match_bytes_ok lv len d : 1 <= len → 0 <= d < max_distance lv → bytes_ok (match_bytes lv len d).
Proof.
  intros Hl Hd. destruct lv.
  - rewrite match_bytes1. cbn in Hd. revert len Hl.
    enough (∀ fuel len, 1 <= len → (Z.to_nat len <= fuel)%nat → bytes_ok (long_match fuel len d)) by auto.
    apply long_match_ind.
    + intros fuel len Hl. rewrite long_match_short by lia. by apply short_match_ok.
    + intros fuel len Hl IH. rewrite long_match_cut by lia. apply Forall_app. split; [|done]. by apply short_match_ok.
  - unfold match_bytes, max_distance, MAX_DISTANCE in *. rewrite !shl5, !shr8, !low8.
    destruct (Z.ltb_spec d 8191), (Z.ltb_spec len 7); cbn [app];
      repeat first [apply Forall_app; split; [apply length_bytes_ok; lia|]|constructor]; unfold is_u8; Z.div_mod_to_equations; lia.
Qed.

(** A match is never longer than what it stands for. *)
Lemma match_bytes_zlen lv len d :
  1 <= len → 0 <= d → (lv = Level2 → MAX_DISTANCE Level2 <= d → 3 <= len) → zlen (match_bytes lv len d) <= len + 1.
Proof.
  intros Hl Hd Hfar. destruct lv.
  - rewrite match_bytes1. revert len Hl Hfar.
    enough (∀ fuel len, 1 <= len → (Z.to_nat len <= fuel)%nat → zlen (long_match fuel len d) <= len + 1) by auto.
    apply long_match_ind.
    + intros fuel len Hl. rewrite long_match_short by lia. unfold short_match. destruct (Z.ltb_spec len 7); unfold zlen; cbn [length]; lia.
    + intros fuel len Hl IH. rewrite long_match_cut, zlen_app by lia.
      change (zlen (short_match (MAX_LEN - 4) d)) with 3. unfold MAX_LEN in *. lia.
  - unfold match_bytes. specialize (Hfar eq_refl). destruct (Z.ltb_spec d (MAX_DISTANCE Level2)) as [Hn|Hf], (Z.ltb_spec len 7) as [H7|H7];
      rewrite ?zlen_app, ?zlen_cons, ?zlen_nil; try lia.
    + pose proof (length_bytes_zlen (Z.to_nat len) (len - 7) ltac:(lia)). Z.div_mod_to_equations. lia.
    + pose proof (length_bytes_zlen (Z.to_nat len) (len - 7) ltac:(lia)). Z.div_mod_to_equations. lia.
Qed.

(** A long match of level 1 is a sequence of matches at the same distance. *)
Lemma match_tokens lv len d o :
  1 <= len → 0 <= d < max_distance lv → d + 1 <= zlen o →
  ∃ ts, match_bytes lv len d = enc lv ts ∧ valid lv ts o ∧ run_tokens ts o = copy_back (Z.to_nat (len + 2)) (d + 1) o.
Proof.
  intros Hl Hd Ho. destruct lv.
  - rewrite match_bytes1. revert len Hl o Ho.
    enough (∀ fuel len, 1 <= len → (Z.to_nat len <= fuel)%nat → ∀ o, d + 1 <= zlen o → ∃ ts, long_match fuel len d = enc Level1 ts ∧
      valid Level1 ts o ∧ run_tokens ts o = copy_back (Z.to_nat (len + 2)) (d + 1) o) by auto.
    apply (long_match_ind (λ fuel len, ∀ o, d + 1 <= zlen o → ∃ ts, long_match fuel len d = enc Level1 ts ∧
      valid Level1 ts o ∧ run_tokens ts o = copy_back (Z.to_nat (len + 2)) (d + 1) o)).
    + intros fuel len Hl o Ho. exists [Mat d len]. rewrite enc_single. cbn [enc_token]. rewrite match_bytes1, !long_match_short by lia.
      cbn. split; [done|]. split; [|done]. split; [|done]. unfold max_match. cbn in Hd. lia.
    + intros fuel len Hl IH o Ho. unfold MAX_LEN in *.
      destruct (IH (copy_back 262 (d + 1) o)) as (ts & E & Hv & Hr); [rewrite zlen_copy_back; lia|].
      exists (Mat d 260 :: ts). rewrite long_match_cut by (unfold MAX_LEN; lia). unfold MAX_LEN. rewrite E. split; [done|].
      split; [split; [unfold token_ok, max_match, MAX_LEN; lia|exact Hv]|]. cbn [run_tokens foldl]. fold (run_tokens ts (run_token o (Mat d 260))).
      change (run_token o (Mat d 260)) with (copy_back 262 (d + 1) o). rewrite Hr, <- copy_back_add. f_equal. lia.
  - exists [Mat d len]. rewrite enc_single. cbn. split; [done|]. split; [|done]. split; [|done]. unfold max_match. tauto.
Qed.

(** ** The compressor *)

(** The room the compressor needs: a count for every MAX_COPY literals and one
    at the start. *)
Definition room (length : Z) : Z := length + length / MAX_COPY + 1.

Definition starts_literal (ts : list token) (lits : list Z) : Prop :=
  match ts with [] => lits ≠ [] | Lit _ :: _ => True | Mat _ _ :: _ => False end.

Section Compress.
Context (lv : FASTLZ_LEVEL) (input : list Z) (length cap : Z).
Hypothesis input_ok : bytes_ok input.
Hypothesis input_len : match lv with Level1 => length <= zlen input | Level2 => length < zlen input end.
Hypothesis cap_room : room length <= cap.

(** The output holds the tokens so far, a count that is still open and the
    literals behind it. *)
Record packed (ts : list token) (lits : list Z) (ip op copy : Z) (out : list Z) : Prop := {
  pk_out : (enc lv ts ++ MAX_COPY - 1 :: lits) `prefix_of` out;
  pk_cap : zlen out = cap;
  pk_op : op = zlen (enc lv ts) + 1 + zlen lits;
  pk_copy : copy = zlen lits;
  pk_small : copy < MAX_COPY;
  pk_valid : valid lv ts [];
  pk_text : run_tokens ts [] ++ lits = take (Z.to_nat ip) input;
  pk_first : starts_literal ts lits;
  pk_ip : 2 <= ip <= length;
  pk_size : 32 * (op - ip - 1) <= ip - copy
}.

Lemma length_input : length <= zlen input.
Proof using input_len. destruct lv; lia. Qed.

Lemma room_op op ip : ip <= length → 32 * (op - ip - 1) <= ip → op <= cap.
Proof using cap_room. unfold room, MAX_COPY in *. intros Hi Ho. Z.div_mod_to_equations. lia. Qed.

Lemma lits_ok ts lits ip : run_tokens ts [] ++ lits = take (Z.to_nat ip) input → bytes_ok lits.
Proof using input_ok.
  intros E. assert (bytes_ok (run_tokens ts [] ++ lits)) as H by (rewrite E; by apply Forall_take). by apply Forall_app in H as [_ H].
Qed.

Lemma lit_token ts lits ip :
  valid lv ts [] → run_tokens ts [] ++ lits = take (Z.to_nat ip) input → 1 <= zlen lits <= MAX_COPY →
  valid lv (ts ++ [Lit lits]) [] ∧ run_tokens (ts ++ [Lit lits]) [] = take (Z.to_nat ip) input ∧
  enc lv (ts ++ [Lit lits]) = enc lv ts ++ zlen lits - 1 :: lits.
Proof using input_ok.
  intros Hv Ht Hl. split; [|split].
  - rewrite valid_app. split; [done|]. split; [|done]. split; [done|]. by eapply lits_ok.
  - by rewrite run_tokens_app.
  - by rewrite enc_app, enc_single.
Qed.

Lemma starts_app ts lits t : starts_literal ts lits → (lits = [] ∨ ∃ l, t = Lit l) → starts_literal (ts ++ [t]) [].
Proof. destruct ts as [|[]]; cbn; [|done..]. intros Hl [->|[l ->]]; done. Qed.

Lemma put_literal_run ts lits ip op copy out :
  packed ts lits ip op copy out → ip < length →
  ∃ op' copy' out' ts' lits', put_literal input ip op copy out = Ok (op', copy', out') ∧ packed ts' lits' (ip + 1) op' copy' out'.
Proof using input_ok input_len cap_room.
  intros [Hout Hcap Hop Hc Hs Hv Ht Hf Hip Hsz] Hlt. pose proof length_input as Hli. unfold put_literal.
  rewrite load_Ok by lia. cbn [rbind]. pose proof (byte_at_ok input ip input_ok) as Hb. set (b := byte_at input ip) in *.
  pose proof (zlen_nonneg lits) as Hz. unfold MAX_COPY in *.
  assert (op + 1 <= cap) as Hroom by (apply room_op with (ip + 1); lia).
  destruct (puts_run [b] (enc lv ts ++ 32 - 1 :: lits) out Hout) as (out1 & E1 & H1 & Hz1).
  { rewrite zlen_app, !zlen_cons, zlen_nil. lia. }
  rewrite zlen_app, zlen_cons in E1. replace (zlen (enc lv ts) + (1 + zlen lits)) with op in E1 by lia. rewrite E1. cbn [rbind].
  cbn [map] in H1. rewrite u8_id in H1 by done. rewrite <- app_assoc in H1. cbn [app] in H1.
  assert (run_tokens ts [] ++ lits ++ [b] = take (Z.to_nat (ip + 1)) input) as Ht'.
  { rewrite take_next by lia. rewrite app_assoc. by rewrite Ht. }
  assert (zlen (lits ++ [b]) = copy + 1) as Hzl by (rewrite zlen_app, zlen_cons, zlen_nil; lia).
  destruct (Z.eqb_spec (copy + 1) 32) as [Hfull|Hfull].
  - destruct (lit_token ts (lits ++ [b]) (ip + 1) Hv Ht') as (Hv' & Hr' & He'); [unfold MAX_COPY; lia|].
    rewrite Hzl, Hfull in He'.
    assert (op + 2 <= cap) as Hroom2 by (apply room_op with (ip + 1); lia).
    destruct (puts_run [32 - 1] (enc lv (ts ++ [Lit (lits ++ [b])])) out1) as (out2 & E2 & H2 & Hz2).
    { by rewrite He'. }
    { rewrite He', zlen_app, !zlen_cons, zlen_nil. lia. }
    rewrite He', zlen_app, zlen_cons in E2. replace (zlen (enc lv ts) + (1 + zlen (lits ++ [b]))) with (op + 1) in E2 by lia.
    rewrite E2. cbn [rbind]. exists (op + 2), 0, out2, (ts ++ [Lit (lits ++ [b])]), []. split; [done|].
    split; unfold MAX_COPY; try done; try lia.
    + rewrite He', zlen_app, zlen_cons, zlen_nil. lia.
    + by rewrite app_nil_r.
    + eapply starts_app; [done|]. right. by eexists.
  - exists (op + 1), (copy + 1), out1, ts, (lits ++ [b]). split; [done|]. split; unfold MAX_COPY; try done; try lia.
    destruct ts as [|[]]; cbn in *; try done. by destruct lits.
Qed.

Lemma close_copy_run ts lits ip op copy out :
  packed ts lits ip op copy out →
  ∃ op' out' ts', close_copy op copy out = Ok (op', out') ∧ enc lv ts' `prefix_of` out' ∧ zlen out' = cap ∧
    op' = zlen (enc lv ts') ∧ op' <= op ∧ valid lv ts' [] ∧ run_tokens ts' [] = take (Z.to_nat ip) input ∧
    starts_literal ts' [].
Proof using input_ok.
  intros [Hout Hcap Hop Hc Hs Hv Ht Hf Hip Hsz]. unfold close_copy. pose proof (zlen_nonneg lits) as Hz.
  destruct (Z.eqb_spec copy 0) as [H0|H0]; cbn [negb].
  - assert (lits = []) as -> by (destruct lits; [done|rewrite zlen_cons in *; pose proof (zlen_nonneg lits); lia]).
    exists (op - 1), out, ts. rewrite app_nil_r in Ht. split; [done|]. rewrite zlen_nil in Hop.
    split_and!; try done; try lia. destruct Hout as [r ->]. exists (MAX_COPY - 1 :: r). by rewrite <- app_assoc.
  - destruct (store_at (enc lv ts) lits out (MAX_COPY - 1) (u8 (copy - 1)) Hout) as (out' & E & Ho' & Hz').
    replace (zlen (enc lv ts)) with (op - copy - 1) in E by lia. rewrite E. cbn [rbind].
    unfold MAX_COPY in *. rewrite u8_id in Ho' by (unfold is_u8; lia).
    destruct (lit_token ts lits ip Hv Ht) as (Hv' & Hr' & He'); [unfold MAX_COPY; lia|].
    exists op, out', (ts ++ [Lit lits]). rewrite He'. rewrite <- Hc. split_and!; try done; try lia.
    + rewrite zlen_app, zlen_cons. lia.
    + eapply starts_app; [done|]. right. by eexists.
Qed.

(** The state between two turns. *)
Definition packs (s : c_state) : Prop :=
  table_ok (c_ip s) (c_htab s) ∧ ∃ ts lits, packed ts lits (c_ip s) (c_op s) (c_copy s) (c_out s).

(** Behind a match only the text up to it counts. *)
Lemma match_packed ts anchor op out len d :
  enc lv ts `prefix_of` out → op = zlen (enc lv ts) → valid lv ts [] → run_tokens ts [] = take (Z.to_nat anchor) input →
  starts_literal ts [] → 0 <= d < max_distance lv → d + 1 <= anchor → 1 <= len → anchor + len + 2 <= length →
  agree input (d + 1) anchor (anchor + len + 2) → zlen out = cap → op + zlen (match_bytes lv len d) + 1 <= cap →
  32 * (op + zlen (match_bytes lv len d) - (anchor + len + 2)) <= anchor + len + 2 →
  ∃ out1 out2 ts', puts op (match_bytes lv len d) out = Ok out1 ∧
    puts (op + zlen (match_bytes lv len d)) [MAX_COPY - 1] out1 = Ok out2 ∧
    packed ts' [] (anchor + len + 2) (op + zlen (match_bytes lv len d) + 1) 0 out2.
Proof using input_ok input_len.
  intros Hout -> Hv Hr Hs Hd Ha Hl Hlen Hag Hc Hcap Hsz. pose proof length_input as Hli.
  destruct (puts_run (match_bytes lv len d) (enc lv ts) out Hout) as (out1 & E1 & H1 & Hz1); [lia|].
  rewrite map_u8 in H1 by by apply match_bytes_ok.
  destruct (match_tokens lv len d (take (Z.to_nat anchor) input)) as (ms & Em & Hvm & Hrm); [lia|done|rewrite zlen_take; lia|].
  rewrite Em, <- enc_app in H1. rewrite Em in *.
  destruct (puts_run [MAX_COPY - 1] (enc lv (ts ++ ms)) out1 H1) as (out2 & E2 & H2 & Hz2).
  { rewrite enc_app, zlen_app, zlen_cons, zlen_nil. lia. }
  rewrite enc_app, zlen_app in E2. exists out1, out2, (ts ++ ms). split; [done|]. split; [done|].
  assert (starts_literal (ts ++ ms) []) as Hs' by (by destruct ts as [|[]]).
  split; unfold MAX_COPY; try done; try lia.
  - rewrite enc_app, zlen_app, zlen_nil. lia.
  - rewrite valid_app, Hr. done.
  - rewrite app_nil_r, run_tokens_app, Hr, Hrm. rewrite copy_back_take; [do 2 f_equal; lia|lia|lia|].
    by replace (anchor + Z.of_nat (Z.to_nat (len + 2))) with (anchor + len + 2) by lia.
Qed.

Lemma put_match_run s htab distance len ref fuel :
  packs s → c_ip s < length - 12 → (Z.to_nat length <= fuel)%nat → table_ok (c_ip s) htab →
  is_match lv input (c_ip s) (Some (distance, len, ref)) →
  ∃ s', put_match lv input fuel (length - 2) (c_ip s) distance len ref htab s = Ok s' ∧ packs s' ∧ c_ip s < c_ip s'.
Proof using input_ok input_len cap_room.
  intros [_ (ts & lits & Hpk)] Hlt Hfuel Ht (Hd & -> & Hag & Hmax & Hlen & Hfar). pose proof length_input as Hli.
  assert (len = 3 ∨ len = 5) as Hlen' by (destruct lv; tauto). pose proof (pk_ip _ _ _ _ _ _ Hpk) as Hip.
  set (anchor := c_ip s) in *. unfold put_match.
  replace (anchor + len - distance) with (anchor + len - (distance - 1 + 1)) by lia.
  destruct (match_end_run input fuel (length - 2) (distance - 1) anchor (anchor + len)) as (ip' & -> & Hip' & Hag');
    [lia..|by replace (distance - 1 + 1) with distance by lia|]. cbn [rbind].
  destruct (close_copy_run _ _ _ _ _ _ Hpk) as (op & out & ts' & -> & Ho & Hc & Hop & Hle & Hv & Hr & Hs). cbn [rbind].
  fold anchor in Hr. set (n := ip' - 3 - anchor). set (bytes := match_bytes lv n (distance - 1)).
  assert (zlen bytes <= n + 1) as Hbytes.
  { apply match_bytes_zlen; [lia|lia|]. intros Elv Hfd. unfold n. specialize (Hfar Elv ltac:(lia)). lia. }
  assert (ip' <= length ∧ ip' < zlen input) as [Hipl Hipz].
  { assert (lv = Level1 ∧ len = 3 ∨ lv = Level2) as [[E ->]|E] by (destruct lv; tauto); rewrite E in input_len; lia. }
  pose proof (pk_size _ _ _ _ _ _ Hpk) as Hsz. fold anchor in Hsz.
  pose proof (pk_copy _ _ _ _ _ _ Hpk) as Hcp. pose proof (zlen_nonneg lits) as Hzl.
  assert (32 * (op + zlen bytes - (anchor + n + 2)) <= anchor + n + 2) as Hsz' by lia.
  assert (op + zlen bytes + 1 <= cap) as Hroom by (apply room_op with (anchor + n + 2); lia).
  destruct (match_packed ts' anchor op out n (distance - 1)) as (out1 & out2 & ts2 & E1 & E2 & Hpk2); try done; try lia.
  { replace (anchor + n + 2) with (ip' - 1) by lia. done. }
  fold bytes in E1, E2, Hpk2. rewrite E1. cbn [rbind].
  destruct (hash_position_run input (ip' - 1) (ip' - 3) htab) as (t1 & -> & Ht1); [by apply table_weak with anchor; [|lia]|lia|lia|]. cbn [rbind].
  destruct (hash_position_run input (ip' - 1) (ip' - 3 + 1) t1) as (t2 & -> & Ht2); [done|lia|lia|]. cbn [rbind].
  rewrite E2. cbn [rbind]. eexists. split; [reflexivity|]. cbn [c_ip].
  replace (ip' - 3 + 2) with (anchor + n + 2) by lia. split; [|lia]. split; cbn [c_ip c_htab c_op c_copy c_out].
  - by replace (anchor + n + 2) with (ip' - 1) by lia.
  - by exists ts2, [].
Qed.

Lemma compress_step_run s fuel :
  packs s → c_ip s < length - 12 → (Z.to_nat length <= fuel)%nat →
  ∃ s', compress_step lv input fuel (length - 2) s = Ok s' ∧ packs s' ∧ c_ip s < c_ip s'.
Proof using input_ok input_len cap_room.
  intros Hs Hlt Hfuel. pose proof length_input as Hli. pose proof Hs as [Ht (ts & lits & Hpk)].
  pose proof (pk_ip _ _ _ _ _ _ Hpk) as Hip. unfold compress_step.
  destruct (find_match_run lv input (c_ip s) (c_htab s)) as (m & htab & -> & Ht' & Hm); [done|lia|lia|done|]. cbn [rbind].
  destruct m as [[[distance len] ref]|]; [by apply put_match_run|].
  destruct (put_literal_run _ _ _ _ _ _ Hpk) as (op & copy & out & ts' & lits' & -> & Hpk'); [lia|]. cbn [rbind].
  eexists. split; [reflexivity|]. split; [|cbn; lia]. split; [by apply table_weak with (c_ip s); [|cbn; lia]|]. by exists ts', lits'.
Qed.

Lemma compress_loop_run fuel steps s :
  packs s → (Z.to_nat (length - c_ip s) < steps)%nat → (Z.to_nat length <= fuel)%nat →
  ∃ s', compress_loop lv input fuel steps (length - 2) (length - 12) s = Ok s' ∧ packs s'.
Proof using input_ok input_len cap_room.
  revert s. induction steps as [|steps IH]; intros s Hs Hst Hf; [lia|]. cbn [compress_loop].
  destruct (Z.ltb_spec (c_ip s) (length - 12)) as [Hlt|]; [|by exists s].
  destruct (compress_step_run s fuel Hs Hlt Hf) as (s' & -> & Hs' & Hlt'). cbn [rbind]. apply IH; [done|lia|done].
Qed.

Lemma left_over_run fuel ts lits ip op copy out :
  packed ts lits ip op copy out → (Z.to_nat (length - ip) < fuel)%nat →
  ∃ ts' lits' op' copy' out', left_over input fuel (length - 1) ip op copy out = Ok (op', copy', out') ∧
    packed ts' lits' length op' copy' out'.
Proof using input_ok input_len cap_room.
  revert ts lits ip op copy out. induction fuel as [|fuel IH]; intros ts lits ip op copy out Hpk Hf; [lia|]. cbn [left_over].
  pose proof (pk_ip _ _ _ _ _ _ Hpk) as Hip. destruct (Z.leb_spec ip (length - 1)) as [Hle|Hgt].
  - destruct (put_literal_run _ _ _ _ _ _ Hpk) as (op1 & copy1 & out1 & ts1 & lits1 & -> & Hpk1); [lia|]. cbn [rbind].
    apply (IH ts1 lits1); [done|lia].
  - assert (ip = length) as -> by lia. by exists ts, lits, op, copy, out.
Qed.

(** The tokens as they are stored: level 2 marks the first byte. *)
Definition stream (lv : FASTLZ_LEVEL) (ts : list token) : list Z :=
  match lv, enc lv ts with Level2, b :: l => b + 32 :: l | _, l => l end.

Lemma zlen_stream lv' ts : zlen (stream lv' ts) = zlen (enc lv' ts).
Proof. unfold stream. destruct lv'; [done|]. destruct (enc Level2 ts); [done|]. by rewrite !zlen_cons. Qed.

Lemma mark_run (op : Z) out ts :
  enc lv ts `prefix_of` out → valid lv ts [] → starts_literal ts [] →
  ∃ out', (out <-? match lv with
                   | Level1 => Ok out
                   | Level2 => v <-? load out 0;; store 0 [u8 (Z.lor v (Z.shiftl 1 5))] out
                   end;; Ok (op, out))%fw = Ok (op, out') ∧ stream lv ts `prefix_of` out' ∧ zlen out' = zlen out.
Proof.
  clear input_len. intros Ho Hv Hs. unfold stream. destruct lv; [by exists out|].
  destruct ts as [|[l|] ts]; [done| |done]. destruct Hv as [[Hl _] _]. unfold MAX_COPY in Hl.
  change (enc Level2 (Lit l :: ts)) with (zlen l - 1 :: l ++ enc Level2 ts) in *.
  destruct (store_at [] (l ++ enc Level2 ts) out (zlen l - 1) (zlen l - 1 + 32) Ho) as (out' & E & Ho' & Hz').
  assert (load out 0 = Ok (zlen l - 1)) as ->.
  { destruct Ho as [r ->]. cbn [app]. rewrite load_Ok by (rewrite zlen_cons; pose proof (zlen_nonneg ((l ++ enc Level2 ts) ++ r)); lia). done. }
  cbn [rbind]. rewrite Z.lor_comm, (lor_add 1 (zlen l - 1) 5) by lia. rewrite u8_id by (unfold is_u8; lia).
  replace (1 * 2 ^ 5 + (zlen l - 1)) with (zlen l - 1 + 32) by lia. change 0 with (zlen (@nil Z)) at 1. rewrite E. by exists out'.
Qed.

(** The compressor, given the room, writes tokens that stand for its input. *)
Lemma compressor_run out :
  0 < length → zlen out = cap →
  ∃ lv' ts out', FASTLZ_COMPRESSOR lv input length out [] = Ok ((zlen (stream lv' ts), out'), []) ∧
    stream lv' ts `prefix_of` out' ∧ zlen out' = zlen out ∧ zlen (stream lv' ts) <= room length ∧
    valid lv' ts [] ∧ run_tokens ts [] = take (Z.to_nat length) input ∧ starts_literal ts [].
Proof using input_ok input_len cap_room.
  intros Hl Hc. pose proof length_input as Hli. unfold FASTLZ_COMPRESSOR. erewrite bind_Ok by reflexivity. cbn [negb].
  destruct (Z.ltb_spec length 4) as [H4|H4].
  - unfold compress_short. rewrite (proj2 (Z.eqb_neq _ _)) by lia. cbn [negb]. rewrite Z.max_r, slice_Ok by lia.
    set (d := zsub 0 length input). assert (d = take (Z.to_nat length) input) as Ed by done.
    assert (zlen d = length) as Hd by (rewrite Ed; by apply zlen_take; lia).
    assert (bytes_ok d) as Hok by (rewrite Ed; by apply Forall_take).
    assert (length + 1 <= cap) as Hroom by (unfold room in cap_room; pose proof (Z.div_pos length MAX_COPY); unfold MAX_COPY in *; lia).
    destruct (puts_run [length - 1] [] out) as (o1 & E1 & H1 & Hz1); [by exists out|rewrite zlen_cons, !zlen_nil; lia|].
    cbn [map app] in H1. rewrite u8_id in H1 by (unfold is_u8; lia). change (zlen (@nil Z)) with 0 in E1. rewrite E1. cbn [rbind].
    destruct (puts_run d [length - 1] o1 H1) as (o2 & E2 & H2 & Hz2); [rewrite zlen_cons, zlen_nil; lia|].
    rewrite map_u8 in H2 by done. change (zlen [length - 1]) with 1 in E2. rewrite E2. cbn [rbind].
    exists Level1, [Lit d], o2. unfold stream. rewrite enc_single. cbn [enc_token]. rewrite zlen_cons, Hd.
    split; [by rewrite Z.add_comm|]. split; [done|]. split; [congruence|].
    split; [unfold room; pose proof (Z.div_pos length MAX_COPY); unfold MAX_COPY in *; lia|].
    split; [|done]. split; [|done]. split; [unfold MAX_COPY; lia|done].
  - rewrite slice_Ok by lia. cbn [rbind]. set (d := zsub 0 2 input). assert (d = take (Z.to_nat 2) input) as Ed by done.
    assert (zlen d = 2) as Hd by (rewrite Ed; by apply zlen_take; lia).
    assert (bytes_ok d) as Hok by (rewrite Ed; by apply Forall_take).
    assert (3 <= cap) as Hroom by (apply room_op with 2; lia).
    destruct (puts_run (MAX_COPY - 1 :: d) [] out) as (o1 & E1 & H1 & Hz1); [by exists out|rewrite zlen_cons, !zlen_nil; lia|].
    change (zlen (@nil Z)) with 0 in E1. rewrite E1. cbn [rbind map app] in H1 |- *. rewrite map_u8 in H1 by done.
    destruct (compress_loop_run (Z.to_nat length) (Z.to_nat length)
      {| c_ip := 2; c_op := 3; c_copy := 2; c_htab := replicate (Z.to_nat HASH_SIZE) 0; c_out := o1 |}) as (s & -> & [_ (ts & lits & Hpk)]);
      [|cbn [c_ip]; lia|lia|].
    { split; cbn [c_ip c_htab c_op c_copy c_out].
      - split; [unfold zlen; rewrite length_replicate; done|]. apply Forall_replicate. lia.
      - exists [], d. split; unfold MAX_COPY; try exact H1; try done; try lia; [by rewrite Hd|]. cbn. by intros E; rewrite E in Hd. }
    erewrite bind_Ok by reflexivity. pose proof (pk_ip _ _ _ _ _ _ Hpk).
    destruct (left_over_run (Z.to_nat length) _ _ _ _ _ _ Hpk) as (ts1 & lits1 & op1 & copy1 & out1 & -> & Hpk1); [lia|]. cbn [rbind].
    destruct (close_copy_run _ _ _ _ _ _ Hpk1) as (op2 & out2 & ts2 & -> & Ho & Hcap & Hop & Hle & Hv & Hr & Hs). cbn [rbind].
    destruct (mark_run op2 out2 ts2 Ho Hv Hs) as (out3 & -> & Ho3 & Hz3). exists lv, ts2, out3.
    rewrite zlen_stream, <- Hop. split_and!; try done; [congruence|].
    pose proof (pk_size _ _ _ _ _ _ Hpk1). pose proof (pk_copy _ _ _ _ _ _ Hpk1). pose proof (zlen_nonneg lits1).
    unfold room, MAX_COPY. Z.div_mod_to_equations. lia.
Qed.
End Compress.

(** ** The decompressor *)

Lemma copy_out_run n d o out :
  o `prefix_of` out → zlen o + Z.of_nat n <= zlen out → 1 <= d <= zlen o →
  ∃ out', copy_out n (zlen o - d) (zlen o) out = Ok out' ∧ copy_back n d o `prefix_of` out' ∧ zlen out' = zlen out.
Proof.
  revert o out. induction n as [|n IH]; intros o out Ho Hl Hd; cbn [copy_out copy_back]; [by exists out|].
  assert (load out (zlen o - d) = Ok (byte_at o (zlen o - d))) as ->.
  { destruct Ho as [r ->]. rewrite load_Ok by (rewrite zlen_app; pose proof (zlen_nonneg r); lia). by rewrite byte_at_app_l by lia. }
  cbn [rbind]. destruct (store_next o out (byte_at o (zlen o - d)) Ho) as (out1 & -> & H1 & Hz1); [lia|]. cbn [rbind].
  destruct (IH _ out1 H1) as (out2 & E2 & H2 & Hz2); [rewrite zlen_app, zlen_cons, zlen_nil; lia..|].
  rewrite zlen_app, zlen_cons, zlen_nil in E2. replace (zlen o + (1 + 0) - d) with (zlen o - d + 1) in E2 by lia.
  replace (zlen o + (1 + 0)) with (zlen o + 1) in E2 by lia. exists out2. split; [done|]. split; [done|congruence].
Qed.

Lemma byte_at_last o b : byte_at (o ++ [b]) (zlen o) = b.
Proof. replace (zlen o) with (zlen o + 0) by lia. by rewrite byte_at_app_r. Qed.

(** A match at distance 1 is a run. *)
Lemma copy_back_run n o : copy_back n 1 o = o ++ replicate n (byte_at o (zlen o - 1)).
Proof.
  revert o. induction n as [|n IH]; intros o; cbn [copy_back replicate]; [by rewrite app_nil_r|].
  rewrite IH, <- app_assoc. cbn [app]. rewrite zlen_app, zlen_cons, zlen_nil.
  replace (zlen o + (1 + 0) - 1) with (zlen o) by lia. by rewrite byte_at_last.
Qed.

Lemma copy_back_ok n d o : bytes_ok o → bytes_ok (copy_back n d o).
Proof.
  revert o. induction n as [|n IH]; intros o Ho; cbn [copy_back]; [done|]. apply IH, Forall_app. split; [done|].
  constructor; [by apply byte_at_ok|constructor].
Qed.
Lemma run_token_ok lv o t : bytes_ok o → token_ok lv o t → bytes_ok (run_token o t).
Proof. intros Ho. destruct t; cbn; [intros [_ Hl]; by apply Forall_app|intros _; by apply copy_back_ok]. Qed.

Lemma run_token_grows o t : zlen o <= zlen (run_token o t).
Proof. destruct t as [l|]; cbn; [rewrite zlen_app; pose proof (zlen_nonneg l); lia|rewrite zlen_copy_back; lia]. Qed.
Lemma run_tokens_grow ts o : zlen o <= zlen (run_tokens ts o).
Proof.
  revert o. induction ts as [|t ts IH]; intros o; [done|]. pose proof (run_token_grows o t). specialize (IH (run_token o t)).
  cbn [run_tokens foldl]. fold (run_tokens ts (run_token o t)). lia.
Qed.

Lemma load_mid pre b post k : 0 <= k < zlen b → load (pre ++ b ++ post) (zlen pre + k) = Ok (byte_at b k).
Proof.
  intros Hk. pose proof (zlen_nonneg pre). pose proof (zlen_nonneg post).
  rewrite load_Ok by (rewrite !zlen_app; lia). rewrite byte_at_app_r, byte_at_app_l by lia. done.
Qed.
Lemma load_here pre b post : load (pre ++ b :: post) (zlen pre) = Ok b.
Proof.
  replace (zlen pre) with (zlen pre + 0) by lia. change (pre ++ b :: post) with (pre ++ [b] ++ post).
  by rewrite load_mid by done.
Qed.

Section Decompress.
Context (lv : FASTLZ_LEVEL) (input : list Z).

Lemma more_length_run f n pre post fuel len :
  0 <= n → (Z.to_nat n <= f)%nat → input = pre ++ length_bytes f n ++ post → (length (length_bytes f n) < fuel)%nat →
  more_length input fuel len (zlen pre) = Ok (len + n, zlen pre + zlen (length_bytes f n)).
Proof.
  revert n pre fuel len. induction f as [|f IH]; intros n pre fuel len Hn Hf; cbn [length_bytes].
  - intros Ei Hfu. destruct fuel as [|fuel]; [cbn in Hfu; lia|]. cbn [more_length].
    assert (load input (zlen pre) = Ok n) as -> by (rewrite Ei; apply load_here). cbn [rbind].
    rewrite (proj2 (Z.eqb_neq _ _)) by lia. done.
  - rewrite Z.geb_leb. destruct (Z.leb_spec 255 n) as [H|H]; intros Ei Hfu; (destruct fuel as [|fuel]; cbn [length] in Hfu; [lia|]);
      cbn [more_length].
    + assert (load input (zlen pre) = Ok 255) as -> by (rewrite Ei; apply load_here). cbn [rbind Z.eqb Pos.eqb].
      replace (zlen pre + 1) with (zlen (pre ++ [255])) by (by rewrite zlen_app).
      rewrite (IH (n - 255) (pre ++ [255])); [|lia|lia|by rewrite Ei, <- app_assoc|lia].
      rewrite zlen_app, !zlen_cons, zlen_nil. do 2 f_equal; lia.
    + assert (load input (zlen pre) = Ok n) as -> by (rewrite Ei; apply load_here). cbn [rbind].
      rewrite (proj2 (Z.eqb_neq _ _)) by lia. done.
Qed.

Lemma ctrl_low a b : 0 <= b < 32 → Z.land (32 * a + b) 31 = b.
Proof. intros Hb. rewrite (Z.land_ones _ 5) by lia. change (2 ^ 5) with 32. rewrite Z.mul_comm, Z.add_comm, Z_mod_plus_full. by apply Z.mod_small. Qed.
Lemma ctrl_high a b : 0 <= b < 32 → Z.shiftr (32 * a + b) 5 = a.
Proof. intros Hb. rewrite Z.shiftr_div_pow2 by lia. change (2 ^ 5) with 32. rewrite Z.mul_comm, Z.div_add_l by lia. rewrite Z.div_small; lia. Qed.
Lemma shl8 x : Z.shiftl x 8 = 256 * x.
Proof. rewrite Z.shiftl_mul_pow2 by lia. change (2 ^ 8) with 256. lia. Qed.

(** The fields of a match are read back. *)
Lemma match_fields_run d len ctrl body pre post op :
  1 <= len → max_match lv len → 0 <= d < max_distance lv → match_bytes lv len d = ctrl :: body →
  input = pre ++ body ++ post →
  match_fields lv input ctrl (zlen pre) op = Ok (len - 1, op - d, zlen pre + zlen body) ∧ 32 <= ctrl.
Proof.
  intros Hl Hm Hd Eb Ei. unfold match_fields.
  assert (op - 256 * (d / 256) - d mod 256 = op - d) as Ed by (Z.div_mod_to_equations; lia).
  destruct lv.
  - unfold max_match, MAX_LEN, max_distance, MAX_DISTANCE in *. rewrite match_bytes1, long_match_short in Eb by (unfold MAX_LEN; lia).
    unfold short_match in Eb. rewrite !shl5, shr8, low8 in Eb.
    destruct (Z.ltb_spec len 7) as [H7|H7]; injection Eb as <- <-; rewrite ctrl_low, ctrl_high, shl8 by (Z.div_mod_to_equations; lia);
      (split; [|Z.div_mod_to_equations; lia]).
    + rewrite (proj2 (Z.eqb_neq _ _)) by lia. cbn [rbind]. rewrite Ei. cbn [app]. rewrite load_here. cbn [rbind]. by rewrite Ed.
    + change (7 - 1 =? 7 - 1) with true. cbn match. rewrite Ei. cbn [app]. rewrite load_here. cbn [rbind].
      change (pre ++ len - 7 :: d mod 256 :: post) with (pre ++ [len - 7; d mod 256] ++ post).
      rewrite load_mid by done. cbn [rbind]. change (byte_at [len - 7; d mod 256] 1) with (d mod 256). rewrite Ed.
      replace (7 - 1 + (len - 7)) with (len - 1) by lia. rewrite !zlen_cons, zlen_nil. do 2 f_equal. lia.
  - unfold max_distance, MAX_DISTANCE in *. unfold match_bytes, MAX_DISTANCE in Eb. rewrite !shl5, !shr8, !low8 in Eb.
    set (e := d - 8191) in *. assert (8191 <= d → op - (256 * (e / 256) + e mod 256) - 8191 = op - d) as Ef by (unfold e; Z.div_mod_to_equations; lia).
    (* the bytes in front of the distance *)
    assert (∃ hi rest mid, ctrl = 32 * (if len <? 7 then len else 7) + hi ∧ body = mid ++ rest ∧ 0 <= hi < 32 ∧
      (if len <? 7 then mid = [] else mid = length_bytes (Z.to_nat len) (len - 7)) ∧
      ((d < 8191 ∧ hi = d / 256 ∧ rest = [d mod 256]) ∨ (8191 <= d ∧ hi = 31 ∧ rest = [255; e / 256; e mod 256])))
      as (hi & rest & mid & -> & -> & Hhi & Hmid & Hrest).
    { destruct (Z.ltb_spec d 8191), (Z.ltb_spec len 7); cbn [app] in Eb; injection Eb as <- <-.
      - exists (d / 256), [d mod 256], []. split_and!; try done; try (Z.div_mod_to_equations; lia). by left.
      - exists (d / 256), [d mod 256], (length_bytes (Z.to_nat len) (len - 7)).
        split_and!; try done; try (Z.div_mod_to_equations; lia). by left.
      - exists 31, [255; e / 256; e mod 256], []. split_and!; try done; try lia. by right.
      - exists 31, [255; e / 256; e mod 256], (length_bytes (Z.to_nat len) (len - 7)). split_and!; try done; try lia. by right. }
    rewrite ctrl_low, ctrl_high, shl8 by lia.
    assert ((if (if len <? 7 then len else 7) - 1 =? 7 - 1
             then more_length input (S (length input)) ((if len <? 7 then len else 7) - 1) (zlen pre)
             else Ok ((if len <? 7 then len else 7) - 1, zlen pre)) = Ok (len - 1, zlen pre + zlen mid)) as ->.
    { destruct (Z.ltb_spec len 7); subst mid.
      - rewrite (proj2 (Z.eqb_neq _ _)) by lia. by rewrite zlen_nil, Z.add_0_r.
      - change (7 - 1 =? 7 - 1) with true. cbn match. rewrite <- app_assoc in Ei.
        rewrite (more_length_run (Z.to_nat len) (len - 7) pre (rest ++ post)); [do 2 f_equal; lia|lia|lia|exact Ei|].
        rewrite Ei, !length_app. lia. }
    cbn [rbind]. split; [|destruct (Z.ltb_spec len 7); lia].
    assert (input = (pre ++ mid) ++ rest ++ post) as -> by (by rewrite Ei, <- !app_assoc).
    rewrite <- zlen_app. destruct Hrest as [(Hn & -> & ->)|(Hf & -> & ->)].
    + cbn [app]. rewrite load_here. cbn [rbind].
      assert ((d mod 256 =? 255) && (256 * (d / 256) =? Z.shiftl 31 8) = false) as ->.
      { rewrite shl8. apply andb_false_iff. rewrite !Z.eqb_neq. Z.div_mod_to_equations. lia. }
      rewrite Ed, !zlen_app, zlen_cons, zlen_nil. do 2 f_equal. lia.
    + replace (zlen (pre ++ mid)) with (zlen (pre ++ mid) + 0) at 1 by lia. rewrite !load_mid by done. cbn [rbind].
      change (byte_at [255; e / 256; e mod 256] 0) with 255. change (byte_at [255; e / 256; e mod 256] 1) with (e / 256).
      change (byte_at [255; e / 256; e mod 256] 2) with (e mod 256).
      change ((255 =? 255) && (256 * 31 =? Z.shiftl 31 8)) with true. cbn match. rewrite shl8, Ef by done.
      rewrite !zlen_app, !zlen_cons, zlen_nil. do 2 f_equal. lia.
Qed.

Context (len maxout : Z).

(** One token. *)
Lemma decompress_step_run t ctrl body pre post o out :
  enc_token lv t = ctrl :: body → input = pre ++ body ++ post → zlen pre + zlen body <= len → token_ok lv o t → bytes_ok o →
  o `prefix_of` out → zlen (run_token o t) <= maxout → maxout <= zlen out →
  ∃ out', decompress_step lv input len maxout ctrl (zlen pre) (zlen o) out =
      (c <-? next_ctrl input len (zlen pre + zlen body);; Ok (inl (c, zlen pre + zlen body + 1, zlen (run_token o t), out')))%fw ∧
    run_token o t `prefix_of` out' ∧ zlen out' = zlen out.
Proof.
  intros Et Ei Hlen Ht Hok Ho Hmax Hcap. unfold decompress_step. destruct t as [l|d n]; cbn [enc_token run_token token_ok] in *.
  - injection Et as <- <-. destruct Ht as [Hl Hlok]. unfold MAX_COPY in Hl. rewrite zlen_app in Hmax.
    rewrite Z.geb_leb. destruct (Z.leb_spec 32 (zlen l - 1)); [lia|]. replace (zlen l - 1 + 1) with (zlen l) by lia.
    rewrite !Z.gtb_ltb. destruct (Z.ltb_spec maxout (zlen o + zlen l)); [lia|]. destruct (Z.ltb_spec len (zlen pre + zlen l)); [lia|].
    assert (slice (zlen pre) (zlen l) input = Ok l) as -> by (rewrite Ei; by apply slice_at). cbn [rbind].
    destruct (puts_run l o out Ho) as (out' & -> & Ho' & Hz'); [lia|]. cbn [rbind]. rewrite map_u8 in Ho' by done.
    exists out'. by rewrite zlen_app.
  - destruct Ht as (Hd & Hdo & Hn & Hm). rewrite zlen_copy_back in Hmax.
    destruct (match_fields_run d n ctrl body pre post (zlen o)) as [-> H32]; [done..|]. cbn [rbind].
    rewrite Z.geb_leb. destruct (Z.leb_spec 32 ctrl); [|lia]. rewrite Z.gtb_ltb. destruct (Z.ltb_spec maxout (zlen o + (n - 1) + 3)); [lia|].
    destruct (Z.ltb_spec (zlen o - d - 1) 0); [lia|]. rewrite zlen_copy_back.
    replace (zlen o + Z.of_nat (Z.to_nat (n + 2))) with (zlen o + (n - 1 + 3)) by lia.
    replace (Z.to_nat (n - 1 + 3)) with (Z.to_nat (n + 2)) by lia.
    assert (∃ out', (if zlen o - d =? zlen o then b <-? load out (zlen o - d - 1);; puts (zlen o) (replicate (Z.to_nat (n + 2)) b) out
               else copy_out (Z.to_nat (n + 2)) (zlen o - d - 1) (zlen o) out)%fw = Ok out' ∧
      copy_back (Z.to_nat (n + 2)) (d + 1) o `prefix_of` out' ∧ zlen out' = zlen out) as (out' & E & Ho' & Hz').
    { destruct (Z.eqb_spec (zlen o - d) (zlen o)) as [E|E].
      - replace d with 0 by lia. rewrite Z.sub_0_r. destruct Ho as [r ->].
        rewrite load_Ok by (rewrite zlen_app; pose proof (zlen_nonneg r); lia). cbn [rbind]. rewrite byte_at_app_l by lia.
        change (0 + 1) with 1. rewrite copy_back_run. set (b := byte_at o (zlen o - 1)).
        destruct (puts_run (replicate (Z.to_nat (n + 2)) b) o (o ++ r)) as (out' & -> & Ho' & Hz').
        { by exists r. }
        { unfold zlen at 2. rewrite length_replicate. lia. }
        exists out'. rewrite map_u8 in Ho'; [done|]. apply Forall_replicate. by apply byte_at_ok.
      - replace (zlen o - d - 1) with (zlen o - (d + 1)) by lia. apply copy_out_run; [done|lia|lia]. }
    rewrite E. exists out'. split; [|done]. destruct (next_ctrl input len (zlen pre + zlen body)); done.
Qed.

Lemma decompress_loop_run ts t ctrl body pre post o out fuel :
  enc_token lv t = ctrl :: body → input = pre ++ body ++ enc lv ts ++ post → len = zlen pre + zlen body + zlen (enc lv ts) →
  valid lv (t :: ts) o → bytes_ok o → o `prefix_of` out → zlen (run_tokens (t :: ts) o) <= maxout → maxout <= zlen out →
  (length ts < fuel)%nat →
  ∃ out', decompress_loop lv input len maxout fuel ctrl (zlen pre) (zlen o) out = Ok (zlen (run_tokens (t :: ts) o), out') ∧
    run_tokens (t :: ts) o `prefix_of` out' ∧ zlen out' = zlen out.
Proof.
  revert t ctrl body pre o out fuel. induction ts as [|t' ts IH]; intros t ctrl body pre o out fuel Et Ei Hlen [Ht Hv] Hok Ho Hmax Hcap Hfuel;
    (destruct fuel as [|fuel]; [lia|]); cbn [decompress_loop].
  - destruct (decompress_step_run t ctrl body pre (enc lv [] ++ post) o out) as (out' & -> & Ho' & Hz'); try done.
    { rewrite Hlen. pose proof (zlen_nonneg (enc lv [])). lia. }
    unfold next_ctrl. rewrite Hlen. change (zlen (enc lv [])) with 0. destruct (Z.ltb_spec (zlen pre + zlen body) (zlen pre + zlen body + 0)); [lia|].
    by exists out'.
  - pose proof (zlen_nonneg (enc lv ts)) as Hze.
    destruct (enc_token_cons lv t') as (ctrl' & body' & Et').
    assert (enc lv (t' :: ts) = ctrl' :: body' ++ enc lv ts) as Ee by (unfold enc; cbn [map concat]; by rewrite Et').
    rewrite Ee in Ei, Hlen. rewrite zlen_cons, zlen_app in Hlen. pose proof (zlen_nonneg body').
    destruct (decompress_step_run t ctrl body pre ((ctrl' :: body' ++ enc lv ts) ++ post) o out) as (out1 & -> & Ho1 & Hz1); try done; try lia.
    { pose proof (run_tokens_grow (t' :: ts) (run_token o t)). cbn [run_tokens foldl] in *. lia. }
    unfold next_ctrl. destruct (Z.ltb_spec (zlen pre + zlen body) len); [|lia].
    assert (load input (zlen pre + zlen body) = Ok ctrl') as ->.
    { rewrite Ei, app_assoc, <- zlen_app. cbn [app]. apply load_here. }
    cbn [rbind]. replace (zlen pre + zlen body + 1) with (zlen (pre ++ body ++ [ctrl'])) by (rewrite !zlen_app, zlen_cons, zlen_nil; lia).
    destruct (IH t' ctrl' body' (pre ++ body ++ [ctrl']) (run_token o t) out1 fuel) as (out2 & E2 & Ho2 & Hz2); try done.
    + rewrite Ei, <- !app_assoc. cbn [app]. by rewrite <- !app_assoc.
    + rewrite !zlen_app, zlen_cons, zlen_nil. lia.
    + by eapply run_token_ok.
    + lia.
    + cbn [length] in Hfuel. lia.
    + exists out2. split; [exact E2|]. split; [done|congruence].
Qed.
End Decompress.

(** ** Decompression undoes compression *)

Lemma decompress_stream lv ts buf out maxout :
  valid lv ts [] → starts_literal ts [] → stream lv ts `prefix_of` buf → zlen (run_tokens ts []) <= maxout → maxout <= zlen out →
  ∃ out', fastlz_decompress buf (zlen (stream lv ts)) out maxout = Ok (zlen (run_tokens ts []), out') ∧
    run_tokens ts [] `prefix_of` out' ∧ zlen out' = zlen out.
Proof.
  intros Hv Hs [post Eb] Hmax Hcap. destruct ts as [|[l|] ts]; [done| |done]. pose proof Hv as [[Hl Hlok] Hv'].
  unfold MAX_COPY in Hl. rewrite zlen_stream.
  assert (enc lv (Lit l :: ts) = zlen l - 1 :: l ++ enc lv ts) as Ee by done.
  set (c := match lv with Level1 => zlen l - 1 | Level2 => zlen l - 1 + 32 end).
  assert (buf = [c] ++ l ++ enc lv ts ++ post) as ->.
  { rewrite Eb. unfold stream, c. destruct lv; rewrite Ee; cbn [app]; by rewrite <- !app_assoc. }
  destruct (decompress_loop_run lv ([c] ++ l ++ enc lv ts ++ post) (zlen (enc lv (Lit l :: ts))) maxout ts (Lit l)
    (zlen l - 1) l [c] post [] out (S (Z.to_nat (zlen (enc lv (Lit l :: ts)))))) as (out' & E & Ho & Hz); try done.
  { rewrite Ee, !zlen_cons, zlen_app, zlen_nil. lia. }
  { by apply Forall_nil_2. }
  { by exists out. }
  { unfold zlen. rewrite Nat2Z.id. pose proof (enc_length lv (Lit l :: ts)) as H. cbn [length] in H. lia. }
  exists out'. split; [|done]. change (zlen [c]) with 1 in E. change (zlen (@nil Z)) with 0 in E.
  unfold fastlz_decompress, FASTLZ_DECOMPRESSOR. change (load ([c] ++ l ++ enc lv ts ++ post) 0) with (@Ok Z c). cbn [rbind].
  assert (Z.shiftr c 5 + 1 = match lv with Level1 => 1 | Level2 => 2 end ∧ Z.land c 31 = zlen l - 1) as [-> ->].
  { assert (c = 32 * (match lv with Level1 => 0 | Level2 => 1 end) + (zlen l - 1)) as -> by (unfold c; destruct lv; lia).
    rewrite ctrl_high, ctrl_low by lia. by destruct lv. }
  destruct lv; exact E.
Qed.

(** The compressor of either level and the decompressor: with the room it needs
    (and for level 2 a byte behind the input that can be read), the compressor
    ends, stays within that room, and what it wrote, wherever it is put, is
    decompressed to the input. *)
Lemma compressor_roundtrip lv input length out :
  bytes_ok input → 0 < length → match lv with Level1 => length <= zlen input | Level2 => length < zlen input end →
  room length <= zlen out →
  ∃ n out', FASTLZ_COMPRESSOR lv input length out [] = Ok ((n, out'), []) ∧ 0 < n <= room length ∧ zlen out' = zlen out ∧
    ∀ buf dest maxout, take (Z.to_nat n) out' `prefix_of` buf → length <= maxout <= zlen dest →
      ∃ dest', fastlz_decompress buf n dest maxout = Ok (length, dest') ∧
        take (Z.to_nat length) dest' = take (Z.to_nat length) input ∧ zlen dest' = zlen dest.
Proof.
  intros Hok Hl Hi Hr. destruct (compressor_run lv input length (zlen out) Hok Hi Hr out Hl eq_refl)
    as (lv' & ts & out' & E & Ho & Hz & Hle & Hv & Hrun & Hs).
  assert (length <= zlen input) as Hli by (destruct lv; lia). exists (zlen (stream lv' ts)), out'. split; [done|].
  assert (zlen (run_tokens ts []) = length) as Hlen by (rewrite Hrun; by apply zlen_take; lia).
  split; [split; [|done]|].
  { rewrite zlen_stream. pose proof (enc_length lv' ts). destruct ts; [done|]. unfold zlen. cbn [List.length] in *. lia. }
  split; [done|]. intros buf dest maxout Hb Hmax.
  assert (take (Z.to_nat (zlen (stream lv' ts))) out' = stream lv' ts) as Et.
  { destruct Ho as [r ->]. unfold zlen. rewrite Nat2Z.id. apply take_app_length. }
  rewrite Et in Hb. destruct (decompress_stream lv' ts buf dest maxout Hv Hs Hb) as (dest' & Ed & Hd & Hzd); [lia|lia|].
  exists dest'. rewrite Hlen in Ed. split; [done|]. split; [|done]. rewrite <- Hrun. destruct Hd as [r ->].
  rewrite <- Hlen. unfold zlen. rewrite Nat2Z.id. apply take_app_length.
Qed.

(** C14: what fastlz_compress writes, fastlz_decompress reads back: in an output with room for one byte more for every 32 bytes
    of input and one (below 65536 bytes; for longer input the code needs a readable byte behind it as well), the compressor
    ends within that room, and the decompressor, given the bytes in any buffer and at least as much output as the input was
    long, gives back the input and its length. *)
Theorem fastlz_roundtrip input length out :
  bytes_ok input → 0 < length <= zlen input → (65536 <= length → length < zlen input) → room length <= zlen out →
  ∃ n out', fastlz_compress input length out [] = Ok ((n, out'), []) ∧ 0 < n <= room length ∧
    ∀ buf dest maxout, take (Z.to_nat n) out' `prefix_of` buf → length <= maxout <= zlen dest →
      ∃ dest', fastlz_decompress buf n dest maxout = Ok (length, dest') ∧ take (Z.to_nat length) dest' = take (Z.to_nat length) input.
Proof.
  intros Hok Hl Hfar Hr. unfold fastlz_compress. destruct (Z.ltb_spec length 65536).
  - destruct (compressor_roundtrip Level1 input length out) as (n & out' & E & Hn & _ & Hd); [done|lia|lia|done|].
    exists n, out'. split; [done|]. split; [done|]. intros buf dest maxout Hb Hm. destruct (Hd buf dest maxout Hb Hm) as (d' & ? & ? & _). eauto.
  - destruct (compressor_roundtrip Level2 input length out) as (n & out' & E & Hn & _ & Hd); [done|lia|lia|done|].
    exists n, out'. split; [done|]. split; [done|]. intros buf dest maxout Hb Hm. destruct (Hd buf dest maxout Hb Hm) as (d' & ? & ? & _). eauto.
Qed.

(** ** Any input *)

Section AnyInput.
Context (lv : FASTLZ_LEVEL) (input : list Z) (len maxout : Z).
Hypothesis input_ok : bytes_ok input.
Hypothesis input_len : len <= zlen input.

(** The only fault is a read behind the input; level 1 reads at most two bytes there. *)
Definition overread (f : fault) : Prop := f = OutOfBounds ∧ (lv = Level1 → zlen input < len + 2).

Lemma load_or p : 0 <= p → (load input p = Ok (byte_at input p) ∧ p < zlen input) ∨ (load input p = Fault OutOfBounds ∧ zlen input <= p).
Proof.
  intros Hp. destruct (Z.lt_ge_cases p (zlen input)); [left; split; [by apply load_Ok|done]|right]. split; [|done].
  unfold load. rewrite (proj2 (Z.leb_le 0 p)) by done. rewrite lookup_ge_None_2 by (unfold zlen in *; lia). done.
Qed.

Lemma more_length_any fuel n ip :
  0 <= ip → (Z.to_nat (zlen input - ip) < fuel)%nat →
  match more_length input fuel n ip with
  | Ok (n', ip') => n <= n' ∧ ip < ip'
  | Fault f => f = OutOfBounds
  end.
Proof using input_ok.
  revert n ip. induction fuel as [|fuel IH]; intros n ip Hip Hf; [lia|]. cbn [more_length].
  destruct (load_or ip Hip) as [[-> Hl]|[-> _]]; [|done]. cbn [rbind]. pose proof (byte_at_ok input ip input_ok) as Hb. unfold is_u8 in Hb.
  destruct (_ =? 255); [|lia]. specialize (IH (n + byte_at input ip) (ip + 1)). destruct (more_length _ _ _ _) as [[n' ip']|]; [|apply IH; lia].
  destruct IH; lia.
Qed.

Lemma match_fields_any ctrl ip op :
  32 <= ctrl → 0 <= ip <= len →
  match match_fields lv input ctrl ip op with
  | Ok (n, ref, ip') => 0 <= n ∧ ref <= op ∧ ip < ip'
  | Fault f => overread f
  end.
Proof using input_ok.
  intros Hc Hip. unfold match_fields.
  assert (0 <= Z.shiftr ctrl 5 - 1) as Hn by (rewrite Z.shiftr_div_pow2 by lia; change (2 ^ 5) with 32; Z.div_mod_to_equations; lia).
  assert (0 <= Z.shiftl (Z.land ctrl 31) 8) as Ho by (rewrite shl8; pose proof (Z.land_nonneg ctrl 31); lia).
  assert (∀ p, is_u8 (byte_at input p)) as Hb by (intros; by apply byte_at_ok). unfold is_u8 in Hb. unfold overread. destruct lv.
  - destruct (_ =? 7 - 1).
    + destruct (load_or ip) as [[-> H1]|[-> H1]]; [lia| |split; [done|lia]]. cbn [rbind].
      destruct (load_or (ip + 1)) as [[-> H2]|[-> H2]]; [lia| |split; [done|lia]]. cbn [rbind].
      pose proof (Hb ip). pose proof (Hb (ip + 1)). lia.
    + cbn [rbind]. destruct (load_or ip) as [[-> H1]|[-> H1]]; [lia| |split; [done|lia]]. cbn [rbind]. pose proof (Hb ip). lia.
  - assert (match (if Z.shiftr ctrl 5 - 1 =? 7 - 1 then more_length input (S (length input)) (Z.shiftr ctrl 5 - 1) ip
                   else Ok (Z.shiftr ctrl 5 - 1, ip)) with
            | Ok (n, ip') => 0 <= n ∧ ip <= ip' | Fault f => f = OutOfBounds end) as Hml.
    { destruct (_ =? 7 - 1); [|lia]. pose proof (more_length_any (S (length input)) (Z.shiftr ctrl 5 - 1) ip) as H.
      destruct (more_length _ _ _ _) as [[n' ip']|]; [|apply H; unfold zlen; lia]. destruct H; unfold zlen; lia. }
    destruct (if _ =? 7 - 1 then _ else _) as [[n ip']|f]; cbn [rbind]; [|by split].
    destruct (load_or ip') as [[-> H1]|[-> H1]]; [lia| |by split]. cbn [rbind]. destruct (_ && _).
    + destruct (load_or (ip' + 1)) as [[-> H2]|[-> H2]]; [lia| |by split]. cbn [rbind].
      destruct (load_or (ip' + 2)) as [[-> H3]|[-> H3]]; [lia| |by split]. cbn [rbind].
      pose proof (Hb (ip' + 1)). pose proof (Hb (ip' + 2)). rewrite shl8. unfold MAX_DISTANCE. lia.
    + pose proof (Hb ip'). lia.
Qed.

Lemma next_ctrl_any ip :
  0 <= ip → ∃ c, next_ctrl input len ip = Ok c ∧ match c with Some c => 0 <= c ∧ ip < len | None => True end.
Proof using input_ok input_len.
  intros Hip. unfold next_ctrl. destruct (Z.ltb_spec ip len); [|by exists None]. rewrite load_Ok by lia. cbn [rbind].
  eexists. split; [done|]. cbn. pose proof (byte_at_ok input ip input_ok) as Hb. unfold is_u8 in Hb. lia.
Qed.

(** What a copy of [n] bytes does to the output, wherever it reads behind its start. *)
Lemma copy_any n ref op out :
  1 <= ref <= op → 0 <= n → op + n <= zlen out →
  ∃ out', (if ref =? op then b <-? load out (ref - 1);; puts op (replicate (Z.to_nat n) b) out
           else copy_out (Z.to_nat n) (ref - 1) op out)%fw = Ok out' ∧ zlen out' = zlen out.
Proof.
  intros Hr Hn Ho. set (o := take (Z.to_nat op) out). assert (zlen o = op) as Ez by (apply zlen_take; lia).
  assert (o `prefix_of` out) as Hp by apply prefix_take. destruct (Z.eqb_spec ref op) as [->|Hne].
  - rewrite load_Ok by lia. cbn [rbind]. destruct (puts_run (replicate (Z.to_nat n) (byte_at out (op - 1))) o out Hp) as (out' & E & _ & Hz).
    { unfold zlen at 2. rewrite length_replicate. lia. }
    rewrite Ez in E. eauto.
  - destruct (copy_out_run (Z.to_nat n) (op - ref + 1) o out Hp) as (out' & E & _ & Hz); [lia|lia|].
    rewrite Ez in E. replace (op - (op - ref + 1)) with (ref - 1) in E by lia. eauto.
Qed.

Lemma decompress_step_any ctrl ip op out :
  0 <= ctrl → 1 <= ip <= len → 0 <= op <= maxout → maxout <= zlen out →
  match decompress_step lv input len maxout ctrl ip op out with
  | Ok (inr (n, out')) => n = 0 ∧ out' = out
  | Ok (inl (c, ip', op', out')) =>
      ip < ip' ∧ 0 <= op' <= maxout ∧ zlen out' = zlen out ∧ (match c with Some c => 0 <= c ∧ ip' <= len | None => True end)
  | Fault f => overread f
  end.
Proof using input_ok input_len.
  intros Hc Hip Hop Hout. unfold decompress_step. rewrite Z.geb_leb. destruct (Z.leb_spec 32 ctrl) as [H32|H32].
  - pose proof (match_fields_any ctrl ip op H32 ltac:(lia)) as Hm.
    destruct (match_fields lv input ctrl ip op) as [[[n ref] ip']|f]; cbn [rbind]; [|done]. destruct Hm as (Hn & Href & Hip').
    rewrite Z.gtb_ltb. destruct (Z.ltb_spec maxout (op + n + 3)); [done|]. destruct (Z.ltb_spec (ref - 1) 0); [done|].
    destruct (next_ctrl_any ip') as (c & -> & Hc'); [lia|]. cbn [rbind].
    destruct (copy_any (n + 3) ref op out) as (out' & -> & Hz); [lia..|]. cbn [rbind]. split_and!; try lia. destruct c; lia.
  - rewrite !Z.gtb_ltb. destruct (Z.ltb_spec maxout (op + (ctrl + 1))); [done|]. destruct (Z.ltb_spec len (ip + (ctrl + 1))); [done|].
    rewrite slice_Ok by lia. cbn [rbind]. set (d := zsub ip (ctrl + 1) input). assert (zlen d = ctrl + 1) as Hd by (apply zlen_zsub; lia).
    destruct (puts_run d (take (Z.to_nat op) out) out) as (out' & E & _ & Hz); [apply prefix_take|rewrite zlen_take; lia|].
    rewrite zlen_take in E by lia. rewrite E. cbn [rbind]. destruct (next_ctrl_any (ip + (ctrl + 1))) as (c & -> & Hc'); [lia|]. cbn [rbind].
    split_and!; try lia. destruct c; lia.
Qed.

Lemma decompress_loop_any fuel ctrl ip op out :
  0 <= ctrl → 1 <= ip <= len → 0 <= op <= maxout → maxout <= zlen out → (Z.to_nat (len - ip) < fuel)%nat →
  match decompress_loop lv input len maxout fuel ctrl ip op out with
  | Ok (n, out') => 0 <= n <= maxout ∧ zlen out' = zlen out
  | Fault f => overread f
  end.
Proof using input_ok input_len.
  revert ctrl ip op out. induction fuel as [|fuel IH]; intros ctrl ip op out Hc Hip Hop Hout Hf; [lia|]. cbn [decompress_loop].
  pose proof (decompress_step_any ctrl ip op out Hc Hip Hop Hout) as Hs.
  destruct (decompress_step lv input len maxout ctrl ip op out) as [[[[[c ip'] op'] out']|[n out']]|f]; cbn [rbind]; [| |done].
  - destruct Hs as (Hip' & Hop' & Hz & Hc'). destruct c as [c|]; [|done]. rewrite <- Hz. apply IH; lia.
  - destruct Hs as [-> ->]. split; [lia|done].
Qed.
End AnyInput.

Lemma decompress_any input len out maxout :
  bytes_ok input → 1 <= len <= zlen input → 0 <= maxout <= zlen out →
  match fastlz_decompress input len out maxout with
  | Ok (n, out') => 0 <= n <= maxout ∧ zlen out' = zlen out
  | Fault f => f = OutOfBounds ∧ (byte_at input 0 < 32 → zlen input < len + 2)
  end.
Proof.
  intros Hok Hlen Hmax. unfold fastlz_decompress, FASTLZ_DECOMPRESSOR. rewrite load_Ok by lia. cbn [rbind].
  pose proof (byte_at_ok input 0 Hok) as Hb. unfold is_u8 in Hb. set (b := byte_at input 0) in *.
  assert (0 <= Z.land b 31) as Hc by (apply Z.land_nonneg; lia).
  assert (∀ lv, match decompress_loop lv input len maxout (S (Z.to_nat len)) (Z.land b 31) 1 0 out with
    | Ok (n, out') => 0 <= n <= maxout ∧ zlen out' = zlen out | Fault f => overread lv input len f end) as H.
  { intros lv. apply decompress_loop_any; done || lia. }
  assert (b < 32 → Z.shiftr b 5 + 1 = 1) as H1 by (rewrite Z.shiftr_div_pow2 by lia; change (2 ^ 5) with 32; Z.div_mod_to_equations; lia).
  destruct (Z.eqb_spec (Z.shiftr b 5 + 1) 1) as [E1|E1]; [|destruct (_ =? 2)].
  - specialize (H Level1). destruct (decompress_loop _ _ _ _ _ _ _ _ _) as [[n out']|f]; [done|]. destruct H as [-> H]. split; [done|]. auto.
  - specialize (H Level2). destruct (decompress_loop _ _ _ _ _ _ _ _ _) as [[n out']|f]; [done|]. destruct H as [-> H]. split; [done|]. lia.
  - split; [lia|done].
Qed.


(** ** Examples and limits *)

Definition demo_text : list Z := concat (replicate 12 [1; 2; 3; 4; 5]) ++ replicate 30 7 ++ [9; 8; 7].

Lemma fastlz_roundtrip_witness :
  ∃ n out', fastlz_compress demo_text 93 (replicate 100 0) [] = Ok ((n, out'), []) ∧ 0 < n <= room 93 ∧
    ∀ buf dest maxout, take (Z.to_nat n) out' `prefix_of` buf → 93 <= maxout <= zlen dest →
      ∃ dest', fastlz_decompress buf n dest maxout = Ok (93, dest') ∧ take (Z.to_nat 93) dest' = take (Z.to_nat 93) demo_text.
Proof.
  apply (fastlz_roundtrip demo_text 93 (replicate 100 0)); [|vm_compute; split; congruence|lia|vm_compute; congruence].
  apply (bool_decide_unpack _). vm_compute. exact I.
Defined.


(** A stream that stops in a match is read past its end. *)
Lemma cut_match_overreads : fastlz_decompress [0; 1; 224] 3 (replicate 20 0) 20 = Fault OutOfBounds.
Proof. vm_compute. reflexivity. Qed.
