(* ===== verification/Coding.v ===== *)
(** * Application message coding

    app/codec/coding/uc_coding.c: the header in front of every application
    message (a byte of flags, the fields the flags announce, the command) and
    the optional compression of the data behind it, with the compressor of
    [Fastlz]. *)

From S2P Require Import Prelude Fastlz FastlzSpec.

Record app_ps_property_t := {
  reserved : bool; compress_flag : bool; segment_flag : bool; response_flag : bool;
  is_need_res : bool; is_packet_num : bool; is_dest_addr : bool; is_src_addr : bool
}.

Record app_ps_header_t := {
  property : app_ps_property_t;
  src_addr : Z; dest_addr : Z;
  packet_num : Z;
  total_num : Z; current_num : Z;
  app_cmd_type : Z
}.

Definition APP_MAX_CODING_DATA_LEN : Z := 1024 - 16.
Definition APP_MAX_DECODING_DATA_LEN : Z := 310 - 16.

(** The byte of a bit field struct and back. *)
Definition property_byte (p : app_ps_property_t) : Z :=
  Z.b2z (reserved p) + 2 * Z.b2z (compress_flag p) + 4 * Z.b2z (segment_flag p) +
  8 * Z.b2z (response_flag p) + 16 * Z.b2z (is_need_res p) + 32 * Z.b2z (is_packet_num p) +
  64 * Z.b2z (is_dest_addr p) + 128 * Z.b2z (is_src_addr p).

Definition byte_property (b : Z) : app_ps_property_t :=
  {| reserved := Z.testbit b 0; compress_flag := Z.testbit b 1; segment_flag := Z.testbit b 2;
     response_flag := Z.testbit b 3; is_need_res := Z.testbit b 4; is_packet_num := Z.testbit b 5;
     is_dest_addr := Z.testbit b 6; is_src_addr := Z.testbit b 7 |}.

(** header_property_e is the number of the bit. *)
Definition PRO_COMPRESS_FLAG : Z := 1.
Definition PRO_SEGMENT_FLAG : Z := 2.
Definition PRO_RESPONSE_FLAG : Z := 3.
Definition PRO_NEED_RES : Z := 4.
Definition PRO_PACKET_NUM : Z := 5.
Definition PRO_DEST_ADDR : Z := 6.
Definition PRO_SRC_ADDR : Z := 7.

(** app_packet_num: the static counter and its next value. *)
Definition app_packet_num (counter : Z) : Z * Z := (counter, u8 (counter + 1)).

Definition app_set_header_property (bit value : Z) (p : app_ps_property_t) : app_ps_property_t :=
  if bit >? PRO_SRC_ADDR then p
  else
    let value := if value >? 1 then 1 else value in
    byte_property (Z.lor (property_byte p) (u8 (Z.shiftl value bit))).

Section Coding.
Local Abbreviation M := (FW (list bool)).
Local Open Scope fw_scope.

(** rt_memcpy of [d] at the end of what was written so far, if [c]. *)
Definition put_field (c : bool) (d : list Z) (bo : list Z * Z) : result (list Z * Z) :=
  if c then b <-? store bo.2 d bo.1;; Ok (b, bo.2 + zlen d) else Ok bo.

(** The header part: property, addresses, packet number, segment, command. *)
Definition put_header (h : app_ps_header_t) (buf : list Z) : result (list Z * Z) :=
  let p := property h in
  bo <-? put_field true (le_bytes 1 (property_byte p)) (buf, 0);;
  bo <-? put_field (is_src_addr p) (le_bytes 4 (src_addr h)) bo;;
  bo <-? put_field (is_dest_addr p) (le_bytes 4 (dest_addr h)) bo;;
  bo <-? put_field (is_packet_num p) (le_bytes 1 (packet_num h)) bo;;
  bo <-? put_field (segment_flag p) (le_bytes 1 (total_num h) ++ le_bytes 1 (current_num h)) bo;;
  put_field true (le_bytes 1 (app_cmd_type h)) bo.

Definition clear_compress (h : app_ps_header_t) : app_ps_header_t :=
  let p := property h in
  {| property := {| reserved := reserved p; compress_flag := false; segment_flag := segment_flag p;
                    response_flag := response_flag p; is_need_res := is_need_res p;
                    is_packet_num := is_packet_num p; is_dest_addr := is_dest_addr p;
                    is_src_addr := is_src_addr p |};
     src_addr := src_addr h; dest_addr := dest_addr h; packet_num := packet_num h;
     total_num := total_num h; current_num := current_num h; app_cmd_type := app_cmd_type h |}.

(** Returns the code, the header (the compress flag may be cleared) and the
    encoded message. *)
Definition app_data_coding (h : app_ps_header_t) (input_data : option (list Z)) (input_data_len : Z)
  : M (Z * app_ps_header_t * option (list Z)) :=
  if input_data_len >? APP_MAX_CODING_DATA_LEN then fret (-1, h, None)
  else
    ok <-- mem_ok;;
    if negb ok then fret (-2, h, None)
    else
      bo <-- flift (put_header h (replicate (Z.to_nat (16 + input_data_len)) 0));;
      let out h bo := fret (0, h, Some (take (Z.to_nat bo.2) bo.1)) in
      match input_data with
      | Some data =>
          if input_data_len =? 0 then out h bo
          else
            d <-- flift (slice 0 input_data_len data);;
            if compress_flag (property h) then
              ok <-- mem_ok;;
              if negb ok then fret (-3, h, None)
              else
                '(n, comp_data) <-- fastlz_compress data input_data_len (replicate (Z.to_nat APP_MAX_CODING_DATA_LEN) 0);;
                let comp_data_len := u32 n in
                if comp_data_len <? input_data_len then
                  comp <-- flift (slice 0 comp_data_len comp_data);;
                  bo <-- flift (put_field true comp bo);; out h bo
                else
                  let h := clear_compress h in
                  b <-- flift (store 0 (le_bytes 1 (property_byte (property h))) bo.1);;
                  bo <-- flift (put_field true d (b, bo.2));; out h bo
            else bo <-- flift (put_field true d bo);; out h bo
      | None => out h bo
      end.

(** rt_memcpy of [n] bytes of the message into a field, if [c]. *)
Definition get_field (c : bool) (n : Z) (old : Z) (input : list Z) (off : Z) : result (Z * Z) :=
  if c then b <-? slice off n input;; Ok (le_val b, off + n) else Ok (old, off).

Definition get_header (input : list Z) (h : app_ps_header_t) : result (app_ps_header_t * Z) :=
  pb <-? slice 0 1 input;;
  let p := byte_property (le_val pb) in
  r <-? get_field (is_src_addr p) 4 (src_addr h) input 1;; let '(src, off) := r in
  r <-? get_field (is_dest_addr p) 4 (dest_addr h) input off;; let '(dst, off) := r in
  r <-? get_field (is_packet_num p) 1 (packet_num h) input off;; let '(pn, off) := r in
  r <-? get_field (segment_flag p) 1 (total_num h) input off;; let '(tn, off) := r in
  r <-? get_field (segment_flag p) 1 (current_num h) input off;; let '(cn, off) := r in
  r <-? get_field true 1 (app_cmd_type h) input off;; let '(ct, off) := r in
  Ok ({| property := p; src_addr := src; dest_addr := dst; packet_num := pn; total_num := tn;
         current_num := cn; app_cmd_type := ct |}, off).

(** Returns the code, the header and the decoded data; None leaves the
    caller's output pointer as it was. *)
Definition app_data_decoding (input_data : option (list Z)) (input_data_len : Z) (h : app_ps_header_t)
  : M (Z * app_ps_header_t * option (list Z)) :=
  match input_data with
  | None => fret (-1, h, None)
  | Some input =>
      if (input_data_len =? 0) || (input_data_len >? APP_MAX_DECODING_DATA_LEN) then fret (-1, h, None)
      else
        ho <-- flift (get_header input h);;
        let '(h, off) := ho in
        let buf_len := u32 (input_data_len - off) in
        if buf_len >? 0 then
          ok <-- mem_ok;;
          if negb ok then fret (-2, h, None)
          else
            d <-- flift (slice off buf_len input);;
            if compress_flag (property h) then
              ok <-- mem_ok;;
              if negb ok then fret (-3, h, None)
              else
                '(n, decomp_data) <-- flift (fastlz_decompress (d ++ [0]) buf_len
                  (replicate (Z.to_nat APP_MAX_DECODING_DATA_LEN) 0) APP_MAX_DECODING_DATA_LEN);;
                decomp <-- flift (slice 0 n decomp_data);;
                fret (0, h, Some decomp)
            else fret (0, h, Some d)
        else fret (0, h, None)
  end.
End Coding.

(** ** Flags *)

Lemma property_byte_range p : 0 <= property_byte p < 256.
Proof. destruct p as [[] [] [] [] [] [] [] []]; vm_compute; split; congruence. Qed.

Lemma byte_property_byte p : byte_property (property_byte p) = p.
Proof. destruct p as [[] [] [] [] [] [] [] []]; reflexivity. Qed.

Lemma property_byte_property b : 0 <= b < 256 → property_byte (byte_property b) = b.
Proof.
  intros Hb. apply Z.bits_inj'. intros n Hn.
  assert (∀ k, 0 <= k < 256 → Z.of_nat (Z.to_nat k) = k) as Hk by lia.
  rewrite <- (Hk b Hb). assert (Z.to_nat b < 256)%nat as Hl by lia. revert Hl.
  generalize (Z.to_nat b) as m. intros m Hm.
  do 256 (destruct m as [|m]; [reflexivity|]). lia.
Qed.

Lemma log2_byte a : 0 <= a < 256 → Z.log2 a < 8.
Proof.
  intros Ha. destruct (Z.eq_dec a 0) as [->|]; [done|]. apply Z.log2_lt_pow2; [lia|]. apply Ha.
Qed.

Lemma lor_byte a b : 0 <= a < 256 → 0 <= b < 256 → 0 <= Z.lor a b < 256.
Proof.
  intros Ha Hb. assert (0 <= Z.lor a b) by (apply Z.lor_nonneg; lia). split; [done|].
  destruct (Z.eq_dec (Z.lor a b) 0) as [->|]; [lia|]. apply (Z.log2_lt_pow2 _ 8); [lia|].
  rewrite Z.log2_lor by lia. apply Z.max_lub_lt; by apply log2_byte.
Qed.

(** Setting a flag sets exactly that bit of the property byte and leaves
    the other seven alone.  A value of 0 changes nothing: a flag cannot be
    cleared this way. *)
Theorem set_header_property_spec bit value p i :
  0 <= bit <= 7 → 0 <= value → 0 <= i < 8 →
  Z.testbit (property_byte (app_set_header_property bit value p)) i =
  Z.testbit (property_byte p) i || ((i =? bit) && (value >? 0)).
Proof.
  intros Hb Hv Hi. unfold app_set_header_property, PRO_SRC_ADDR.
  destruct (Z.gtb_spec bit 7); [lia|].
  set (v := if value >? 1 then 1 else value).
  assert (v = 0 ∧ value = 0 ∨ v = 1 ∧ value > 0) as Hvv.
  { unfold v. destruct (Z.gtb_spec value 1); lia. }
  pose proof (property_byte_range p) as Hp.
  assert (0 <= u8 (Z.shiftl v bit) < 256) as Hu by apply u8_range.
  pose proof (lor_byte _ _ Hp Hu) as Hl.
  rewrite property_byte_property by done. rewrite Z.lor_spec. f_equal.
  unfold u8. change 256 with (2 ^ 8). rewrite Z.mod_pow2_bits_low by lia. rewrite Z.shiftl_spec by lia.
  destruct Hvv as [[-> ->]|[-> Hgt]].
  - rewrite Z.testbit_0_l. rewrite andb_false_r. done.
  - rewrite (proj2 (Z.gtb_lt _ _)), andb_true_r by lia. destruct (Z.eqb_spec i bit) as [->|Hne].
    + rewrite Z.sub_diag. done.
    + destruct (Z.lt_ge_cases i bit); [rewrite Z.testbit_neg_r by lia; done|].
      change 1 with (2 ^ 0). apply Z.pow2_bits_false. lia.
Qed.

Lemma set_header_property_spec_witness :
  Z.testbit (property_byte (app_set_header_property PRO_SEGMENT_FLAG 5 (byte_property 129))) 2 = true.
Proof. exact (set_header_property_spec 2 5 (byte_property 129) 2 ltac:(lia) ltac:(lia) ltac:(lia)). Defined.

(** ** Layout of an encoded message *)

Definition opt (c : bool) (d : list Z) : list Z := if c then d else [].

Definition fields (h : app_ps_header_t) : list Z :=
  let p := property h in
  le_bytes 1 (property_byte p) ++ opt (is_src_addr p) (le_bytes 4 (src_addr h)) ++
  opt (is_dest_addr p) (le_bytes 4 (dest_addr h)) ++ opt (is_packet_num p) (le_bytes 1 (packet_num h)) ++
  opt (segment_flag p) (le_bytes 1 (total_num h) ++ le_bytes 1 (current_num h)) ++
  le_bytes 1 (app_cmd_type h).

Record header_ok (h : app_ps_header_t) : Prop := {
  ok_src : is_u32 (src_addr h); ok_dest : is_u32 (dest_addr h); ok_pn : is_u8 (packet_num h);
  ok_total : is_u8 (total_num h); ok_current : is_u8 (current_num h); ok_cmd : is_u8 (app_cmd_type h)
}.

Lemma length_opt c d : length (opt c d) = if c then length d else 0%nat.
Proof. destruct c; done. Qed.

Lemma length_fields h : (2 <= length (fields h) <= 13)%nat.
Proof.
  unfold fields. rewrite !length_app, !length_opt, !length_app, !length_le_bytes.
  destruct (is_src_addr _), (is_dest_addr _), (is_packet_num _), (segment_flag _); lia.
Qed.

Section CodingProofs.

Lemma put_field_spec c d pre n :
  (length (opt c d) <= n)%nat →
  put_field c d (pre ++ replicate n 0, zlen pre) =
  Ok ((pre ++ opt c d) ++ replicate (n - length (opt c d)) 0, zlen (pre ++ opt c d)).
Proof.
  unfold put_field, opt. destruct c; intros Hl.
  - cbn [fst snd]. rewrite store_Ok; [|apply zlen_nonneg|].
    + cbn [rbind]. replace n with (length d + (n - length d))%nat at 1 by lia.
      rewrite replicate_add, blit_app_mid by (done || (unfold zlen; rewrite length_replicate; done)).
      rewrite <- app_assoc, zlen_app. done.
    + rewrite zlen_app. unfold zlen. rewrite length_replicate. lia.
  - rewrite app_nil_r. cbn. rewrite Nat.sub_0_r. done.
Qed.

Lemma put_header_spec h n :
  (16 <= n)%nat →
  put_header h (replicate n 0) = Ok (fields h ++ replicate (n - length (fields h)) 0, zlen (fields h)).
Proof.
  intros Hn. unfold put_header.
  change (replicate n 0, 0) with ([] ++ replicate n 0, zlen (@nil Z)).
  rewrite put_field_spec by (rewrite length_opt, length_le_bytes; lia). cbn [rbind].
  do 4 (rewrite put_field_spec by (rewrite ?length_opt, ?length_app, ?length_le_bytes; 
    repeat match goal with |- context [if ?b then _ else _] => destruct b end; lia); cbn [rbind]).
  rewrite put_field_spec by (rewrite ?length_opt, ?length_app, ?length_le_bytes; 
    repeat match goal with |- context [if ?b then _ else _] => destruct b end; lia).
  match goal with |- Ok (?pre ++ replicate ?k 0, _) = _ =>
    assert (pre = fields h) as -> by (unfold fields; cbn [opt app]; rewrite <- !app_assoc; done);
    replace k with (n - length (fields h))%nat; [done|] end.
  unfold fields. rewrite !length_app. cbn [opt length]. lia.
Qed.

(** A value of [n] bytes read back from the message. *)
Lemma get_field_spec c n v old pre rest :
  0 <= v < 256 ^ Z.of_nat n →
  get_field c (Z.of_nat n) old (pre ++ opt c (le_bytes n v) ++ rest) (zlen pre) =
  Ok (if c then v else old, zlen (pre ++ opt c (le_bytes n v))).
Proof.
  intros Hv. unfold get_field, opt. destruct c; [|rewrite app_nil_r; done].
  assert (Z.of_nat n = zlen (le_bytes n v)) as Hn by (unfold zlen; rewrite length_le_bytes; done).
  rewrite slice_at by done. cbn [rbind]. rewrite le_val_bytes, Z.mod_small by done.
  rewrite zlen_app, Hn. done.
Qed.

(** The decoded header: fields the message does not carry keep the caller's value. *)
Definition merge (h old : app_ps_header_t) : app_ps_header_t :=
  let p := property h in
  {| property := p;
     src_addr := if is_src_addr p then src_addr h else src_addr old;
     dest_addr := if is_dest_addr p then dest_addr h else dest_addr old;
     packet_num := if is_packet_num p then packet_num h else packet_num old;
     total_num := if segment_flag p then total_num h else total_num old;
     current_num := if segment_flag p then current_num h else current_num old;
     app_cmd_type := app_cmd_type h |}.

Lemma opt_app c a b : opt c (a ++ b) = opt c a ++ opt c b.
Proof. destruct c; done. Qed.

Lemma get_header_spec h old rest :
  header_ok h → get_header (fields h ++ rest) old = Ok (merge h old, zlen (fields h)).
Proof.
  intros [H1 H2 H3 H4 H5 H6]. unfold get_header.
  assert (slice 0 1 (fields h ++ rest) = Ok (le_bytes 1 (property_byte (property h)))) as ->.
  { unfold fields. rewrite <- app_assoc. apply (slice_at []); done. }
  cbn [rbind]. rewrite le_val_bytes, Z.mod_small by (apply property_byte_range).
  rewrite byte_property_byte.
  set (p := property h). set (b0 := le_bytes 1 (property_byte p)).
  assert (fields h ++ rest = b0 ++ opt (is_src_addr p) (le_bytes 4 (src_addr h)) ++
    opt (is_dest_addr p) (le_bytes 4 (dest_addr h)) ++ opt (is_packet_num p) (le_bytes 1 (packet_num h)) ++
    opt (segment_flag p) (le_bytes 1 (total_num h)) ++ opt (segment_flag p) (le_bytes 1 (current_num h)) ++
    opt true (le_bytes 1 (app_cmd_type h)) ++ rest) as ->.
  { unfold fields. fold p b0. rewrite opt_app, <- !app_assoc. done. }
  change 1 with (zlen b0) at 2.
  rewrite (get_field_spec _ 4) by exact H1. cbn [rbind].
  rewrite app_assoc, (get_field_spec _ 4) by exact H2. cbn [rbind].
  rewrite app_assoc. rewrite (get_field_spec _ 1) by exact H3. cbn [rbind].
  rewrite app_assoc. rewrite (get_field_spec _ 1) by exact H4. cbn [rbind].
  rewrite app_assoc. rewrite (get_field_spec _ 1) by exact H5. cbn [rbind].
  rewrite app_assoc. rewrite (get_field_spec true 1) by exact H6. cbn [rbind].
  unfold merge, fields. fold p b0. do 2 f_equal. rewrite opt_app, <- !app_assoc. done.
Qed.

(** The buffer for compressed data, and what is written into it. *)
Definition comp_buffer : list Z := replicate (Z.to_nat APP_MAX_CODING_DATA_LEN) 0.
Definition compression (d : list Z) : list Z :=
  match fastlz_compress d (zlen d) comp_buffer [] with Ok ((n, out), _) => take (Z.to_nat n) out | Fault _ => [] end.

Lemma compression_spec d :
  bytes_ok d → d ≠ [] → room (zlen d) <= APP_MAX_CODING_DATA_LEN →
  ∃ out, fastlz_compress d (zlen d) comp_buffer [] = Ok ((zlen (compression d), out), []) ∧
    slice 0 (zlen (compression d)) out = Ok (compression d) ∧ 0 < zlen (compression d) <= room (zlen d) ∧
    ∀ rest maxout, zlen d <= maxout →
      ∃ dest, fastlz_decompress (compression d ++ rest) (zlen (compression d)) (replicate (Z.to_nat maxout) 0) maxout = Ok (zlen d, dest) ∧
        slice 0 (zlen d) dest = Ok d.
Proof.
  intros Hok Hd Hr. assert (0 < zlen d) by (destruct d; [done|]; rewrite zlen_cons; pose proof (zlen_nonneg d); lia).
  assert (zlen comp_buffer = APP_MAX_CODING_DATA_LEN) as Hc by (unfold zlen, comp_buffer; rewrite length_replicate; done).
  assert (room (zlen d) < 65536 ∧ zlen d <= room (zlen d)) as [Hbig Hle].
  { unfold APP_MAX_CODING_DATA_LEN in Hr. unfold room in *. pose proof (Z.div_pos (zlen d) MAX_COPY). unfold MAX_COPY in *. lia. }
  destruct (compressor_roundtrip Level1 d (zlen d) comp_buffer Hok) as (n & out & E & Hn & Hz & Hdec); [lia|lia|lia|].
  assert (fastlz_compress d (zlen d) comp_buffer [] = Ok ((n, out), [])) as E'.
  { unfold fastlz_compress. destruct (Z.ltb_spec (zlen d) 65536); [done|lia]. }
  assert (compression d = take (Z.to_nat n) out) as Ec by (unfold compression; by rewrite E').
  assert (zlen (compression d) = n) as Hzc by (rewrite Ec; apply zlen_take; lia). rewrite Hzc. exists out. split; [done|].
  split; [rewrite slice_Ok by lia; by rewrite Ec|]. split; [done|]. intros rest maxout Hm.
  destruct (Hdec (compression d ++ rest) (replicate (Z.to_nat maxout) 0) maxout) as (dest & Ed & Ht & Hzd).
  { rewrite Ec. by exists rest. }
  { unfold zlen at 2. rewrite length_replicate. lia. }
  exists dest. split; [done|]. rewrite slice_Ok.
  - unfold zsub. change (Z.to_nat 0) with 0%nat. rewrite drop_0, Ht. unfold zlen. by rewrite Nat2Z.id, firstn_all.
  - lia.
  - lia.
  - rewrite Hzd. unfold zlen at 2. rewrite length_replicate. lia.
Qed.

(** Received data the decompressor reads to its end. *)
Definition decompresses (d : list Z) : Prop :=
  ∃ r, fastlz_decompress (d ++ [0]) (zlen d) (replicate (Z.to_nat APP_MAX_DECODING_DATA_LEN) 0) APP_MAX_DECODING_DATA_LEN = Ok r.

Lemma decompresses_run d :
  bytes_ok d → 1 <= zlen d → decompresses d →
  ∃ n out, fastlz_decompress (d ++ [0]) (zlen d) (replicate (Z.to_nat APP_MAX_DECODING_DATA_LEN) 0) APP_MAX_DECODING_DATA_LEN =
      Ok (n, out) ∧ 0 <= n <= APP_MAX_DECODING_DATA_LEN ∧ ∃ r, slice 0 n out = Ok r ∧ zlen r = n.
Proof.
  intros Hok Hl [[n out] E]. exists n, out. split; [done|].
  assert (zlen (replicate (Z.to_nat APP_MAX_DECODING_DATA_LEN) 0) = APP_MAX_DECODING_DATA_LEN) as Hz by done.
  pose proof (decompress_any (d ++ [0]) (zlen d) (replicate (Z.to_nat APP_MAX_DECODING_DATA_LEN) 0) APP_MAX_DECODING_DATA_LEN) as H.
  rewrite E, Hz in H. destruct H as [Hn Ho]; [apply Forall_app; split; [done|by constructor]|rewrite zlen_app, zlen_cons, zlen_nil; lia|done|].
  split; [done|]. rewrite slice_Ok by lia. eexists. split; [reflexivity|]. apply zlen_zsub; lia.
Qed.

Lemma zsub_bytes off n d : bytes_ok d → bytes_ok (zsub off n d).
Proof. intros Hd. unfold zsub. by apply Forall_take, Forall_drop. Qed.

(** What the compressor wrote can be decompressed. *)
Lemma compression_decompresses d :
  bytes_ok d → d ≠ [] → zlen d <= APP_MAX_DECODING_DATA_LEN → decompresses (compression d).
Proof.
  intros Hok Hd Hl. destruct (compression_spec d Hok Hd) as (_ & _ & _ & _ & Hdec).
  { unfold room, MAX_COPY, APP_MAX_CODING_DATA_LEN, APP_MAX_DECODING_DATA_LEN in *. Z.div_mod_to_equations. lia. }
  destruct (Hdec [0] APP_MAX_DECODING_DATA_LEN Hl) as (dest & E & _). by eexists.
Qed.

(** Whether the data of a message with header [h] goes out compressed. *)
Definition compressed (h : app_ps_header_t) (d : list Z) : bool :=
  compress_flag (property h) && (zlen (compression d) <? zlen d).

Definition sent_header (h : app_ps_header_t) (d : list Z) : app_ps_header_t :=
  if compress_flag (property h) && negb (compressed h d) then clear_compress h else h.

Definition sent_data (h : app_ps_header_t) (d : list Z) : list Z :=
  if compressed h d then compression d else d.

Lemma put_data pre d n :
  (length d <= n)%nat →
  put_field true d (pre ++ replicate n 0, zlen pre) =
  Ok ((pre ++ d) ++ replicate (n - length d) 0, zlen (pre ++ d)).
Proof. intros. apply (put_field_spec true d pre n). done. Qed.

Lemma take_written (l r : list Z) : take (Z.to_nat (zlen l)) (l ++ r) = l.
Proof. unfold zlen. rewrite Nat2Z.id. apply take_app_length. Qed.

(** An encoded message is its header fields, then its data. *)
Lemma coding_spec h d :
  d ≠ [] → zlen d <= APP_MAX_CODING_DATA_LEN →
  (compress_flag (property h) = true → bytes_ok d ∧ room (zlen d) <= APP_MAX_CODING_DATA_LEN) →
  app_data_coding h (Some d) (zlen d) [] =
  Ok ((0, sent_header h d, Some (fields (sent_header h d) ++ sent_data h d)), []).
Proof.
  intros Hd Hl Hcomp. unfold app_data_coding.
  assert (0 < zlen d) by (destruct d; [done|]; unfold zlen; simpl; lia).
  destruct (Z.gtb_spec (zlen d) APP_MAX_CODING_DATA_LEN); [lia|].
  unfold fbind at 1, mem_ok. cbn [negb]. unfold fbind at 1. unfold flift at 1.
  rewrite put_header_spec by lia. rewrite (proj2 (Z.eqb_neq _ _)) by lia.
  unfold fbind at 1. unfold flift at 1. rewrite slice_Ok by lia.
  assert (zsub 0 (zlen d) d = d) as ->.
  { unfold zsub, zlen. rewrite drop_0, Nat2Z.id. apply firstn_all. }
  pose proof (length_fields h) as Hlf.
  set (n := (Z.to_nat (16 + zlen d) - length (fields h))%nat).
  assert (length d <= n)%nat as Hn by (unfold n, zlen in *; lia).
  unfold sent_header, sent_data, compressed. destruct (compress_flag (property h)) eqn:Ec; cbn [andb negb].
  - unfold fbind at 1. unfold mem_ok. cbn [negb]. destruct (Hcomp eq_refl) as [Hok Hr].
    destruct (compression_spec d Hok Hd Hr) as (out & E & Es & Hz & _). fold comp_buffer. rewrite (bind_Ok _ _ _ _ _ E). cbv beta match.
    rewrite u32_id by (unfold is_u32, APP_MAX_CODING_DATA_LEN in *; lia).
    destruct (Z.ltb_spec (zlen (compression d)) (zlen d)); cbn [negb].
    + rewrite Es. erewrite bind_Ok by reflexivity. unfold fbind, flift. rewrite put_data by (unfold zlen in *; lia).
      cbn [fst snd]. rewrite take_written. done.
    + unfold fbind at 1. unfold flift at 1. cbn [fst snd].
      assert (store 0 (le_bytes 1 (property_byte (property (clear_compress h)))) (fields h ++ replicate n 0) =
              Ok (fields (clear_compress h) ++ replicate n 0)) as ->.
      { rewrite store_Ok by (rewrite ?zlen_app; unfold zlen in *; cbn [length le_bytes]; lia).
        reflexivity. }
      unfold fbind, flift. change (zlen (fields h)) with (zlen (fields (clear_compress h))).
      rewrite put_data by done. cbn [fst snd]. rewrite take_written. done.
  - unfold fbind, flift. rewrite put_data by done. cbn [fst snd]. rewrite take_written. done.
Qed.

Lemma sent_header_ok h d : header_ok h → header_ok (sent_header h d).
Proof. intros Hh. unfold sent_header. destruct (_ && _); [|done]. destruct Hh. split; done. Qed.

Lemma sent_compress h d : compress_flag (property (sent_header h d)) = compressed h d.
Proof.
  unfold sent_header, compressed. destruct (compress_flag (property h)) eqn:E; cbn [andb]; [|done].
  destruct (_ <? _); [done|reflexivity].
Qed.

(** C12: decoding undoes coding.  Whatever flags a header has, the encoded
    message is accepted by the decoder and gives back the fields the flags
    announce and the data, whether it was sent compressed or not, provided the
    message is within the decoder's size limit (a smaller limit than the
    encoder's). *)
Theorem coding_roundtrip h old d :
  header_ok h → bytes_ok d → d ≠ [] → zlen d <= APP_MAX_DECODING_DATA_LEN →
  zlen (fields (sent_header h d) ++ sent_data h d) <= APP_MAX_DECODING_DATA_LEN →
  ∃ msg, app_data_coding h (Some d) (zlen d) [] = Ok ((0, sent_header h d, Some msg), []) ∧
         app_data_decoding (Some msg) (zlen msg) old [] =
         Ok ((0, merge (sent_header h d) old, Some d), []).
Proof.
  intros Hh Hok Hd Hl Hmsg. assert (room (zlen d) <= APP_MAX_CODING_DATA_LEN) as Hroom.
  { unfold room, MAX_COPY, APP_MAX_CODING_DATA_LEN, APP_MAX_DECODING_DATA_LEN in *. Z.div_mod_to_equations. lia. }
  destruct (compression_spec d Hok Hd Hroom) as (out & _ & _ & Hzc & Hdec).
  assert (sent_data h d ≠ []) as Hne.
  { unfold sent_data. destruct (compressed h d); [|done]. intros E. rewrite E in Hzc. change (zlen (@nil Z)) with 0 in Hzc. lia. }
  eexists. split.
  { apply coding_spec; try done. unfold APP_MAX_CODING_DATA_LEN, APP_MAX_DECODING_DATA_LEN in *. lia. }
  set (hd := sent_header h d) in *. set (msg := fields hd ++ sent_data h d) in *.
  unfold app_data_decoding. pose proof (length_fields hd) as Hlf.
  assert (zlen msg = zlen (fields hd) + zlen (sent_data h d)) as Hz by apply zlen_app.
  assert (0 < zlen (sent_data h d)) by (destruct (sent_data h d); [done|]; unfold zlen; simpl; lia).
  rewrite (proj2 (Z.eqb_neq _ _)) by (unfold zlen in *; lia).
  destruct (Z.gtb_spec (zlen msg) APP_MAX_DECODING_DATA_LEN); [lia|]. cbn [orb].
  unfold fbind at 1. unfold flift at 1. unfold msg at 1.
  rewrite get_header_spec by by apply sent_header_ok.
  rewrite Hz. replace (zlen (fields hd) + zlen (sent_data h d) - zlen (fields hd)) with (zlen (sent_data h d)) by lia.
  rewrite u32_id by (unfold is_u32, APP_MAX_DECODING_DATA_LEN, zlen in *; lia).
  rewrite (proj2 (Z.gtb_lt _ _)) by lia. unfold fbind at 1, mem_ok. cbn [negb].
  unfold fbind at 1. unfold flift at 1.
  assert (slice (zlen (fields hd)) (zlen (sent_data h d)) msg = Ok (sent_data h d)) as ->.
  { unfold msg. rewrite <- (app_nil_r (sent_data h d)) at 2. apply slice_at; done. }
  change (compress_flag (property (merge hd old))) with (compress_flag (property hd)).
  unfold hd. rewrite sent_compress. unfold sent_data. destruct (compressed h d) eqn:Ec.
  - unfold fbind at 1. unfold mem_ok. cbn [negb]. destruct (Hdec [0] APP_MAX_DECODING_DATA_LEN Hl) as (dest & -> & Es).
    erewrite bind_Ok by reflexivity. cbv beta match. rewrite Es. done.
  - done.
Qed.
End CodingProofs.

(** ** Examples and limits *)

Definition demo_ps_header : app_ps_header_t :=
  {| property := byte_property 230; src_addr := 305419896; dest_addr := 4294967295; packet_num := 7;
     total_num := 3; current_num := 1; app_cmd_type := 42 |}.
Definition zero_ps_header : app_ps_header_t :=
  {| property := byte_property 0; src_addr := 0; dest_addr := 0; packet_num := 0;
     total_num := 0; current_num := 0; app_cmd_type := 0 |}.

(** Forty equal bytes go out compressed. *)
Lemma coding_roundtrip_witness :
  ∃ msg, app_data_coding demo_ps_header (Some (replicate 40 65)) 40 [] =
           Ok ((0, demo_ps_header, Some msg), []) ∧
         app_data_decoding (Some msg) (zlen msg) zero_ps_header [] =
         Ok ((0, demo_ps_header, Some (replicate 40 65)), []).
Proof.
  apply (coding_roundtrip demo_ps_header zero_ps_header (replicate 40 65));
    [split; vm_compute; split; congruence|by apply Forall_replicate|discriminate|vm_compute; congruence|vm_compute; congruence].
Defined.

(** The buffer for the compressed data is as long as the longest message, but
    data that cannot be compressed grows: with the compress flag set a long
    message of this kind is written past the buffer. *)
Fixpoint lcg (n : nat) (x : Z) : list Z :=
  match n with O => [] | S n => (x / 65536) mod 256 :: lcg n ((x * 1103515245 + 12345) mod 2147483648) end.
Definition noise : list Z := lcg 978 7.

Lemma noise_overflows : app_data_coding demo_ps_header (Some noise) 978 [] = Fault OutOfBounds.
Proof. vm_compute. reflexivity. Qed.

(** The size of the header that flags [p] announce. *)
Definition header_len (p : app_ps_property_t) : Z :=
  2 + (if is_src_addr p then 4 else 0) + (if is_dest_addr p then 4 else 0) +
  (if is_packet_num p then 1 else 0) + (if segment_flag p then 2 else 0).

Lemma get_field_len c n old input off v off' :
  get_field c n old input off = Ok (v, off') →
  off' = off + (if c then n else 0) ∧ (c = true → off' <= zlen input).
Proof.
  unfold get_field. destruct c; [|intros; simplify_eq; split; [lia|done]].
  destruct (slice off n input) eqn:E; [|done]. apply slice_inv in E as (? & ? & ? & _).
  cbn. intros; simplify_eq. split; [done|lia].
Qed.

Lemma get_field_fault c n old input off f : get_field c n old input off = Fault f → f = OutOfBounds.
Proof.
  unfold get_field, slice. destruct c; [|done]. destruct (_ && _); cbn; [done|congruence].
Qed.

Lemma get_header_len input h :
  (∃ h', get_header input h = Ok (h', header_len (byte_property (nth 0 input 0))) ∧
         header_len (byte_property (nth 0 input 0)) <= zlen input) ∨
  get_header input h = Fault OutOfBounds.
Proof.
  unfold get_header. destruct (slice 0 1 input) as [pb|f] eqn:E0; cbn [rbind].
  2: { right. revert E0. unfold slice. destruct (_ && _); congruence. }
  apply slice_inv in E0 as (_ & _ & Hl & ->).
  assert (le_val (zsub 0 1 input) = nth 0 input 0) as ->.
  { destruct input as [|b l]; [change (1 <= 0) in Hl; lia|]. change (b + 256 * 0 = b). lia. }
  set (p := byte_property (nth 0 input 0)). unfold header_len.
  repeat match goal with
  | |- context [get_field ?c ?n ?o input ?off] =>
      let E := fresh "E" in destruct (get_field c n o input off) as [[? ?]|?] eqn:E; cbn [rbind];
      [apply get_field_len in E as [-> ?]|right; f_equal; by eapply get_field_fault]
  end.
  repeat match goal with H : true = true → _ |- _ => specialize (H eq_refl) end.
  left. eexists. split.
  - do 2 f_equal. destruct (is_src_addr p), (is_dest_addr p), (is_packet_num p), (segment_flag p); lia.
  - destruct (is_src_addr p), (is_dest_addr p), (is_packet_num p), (segment_flag p); lia.
Qed.

(** The decoder does not check that a message is as long as the header its
    flags announce: a shorter message is read past its end. *)
Theorem decoding_short_overreads msg h m :
  1 <= zlen msg <= APP_MAX_DECODING_DATA_LEN →
  zlen msg < header_len (byte_property (nth 0 msg 0)) →
  app_data_decoding (Some msg) (zlen msg) h m = Fault OutOfBounds.
Proof.
  intros Hl Hs. unfold app_data_decoding.
  rewrite (proj2 (Z.eqb_neq _ _)) by lia.
  destruct (Z.gtb_spec (zlen msg) APP_MAX_DECODING_DATA_LEN); [lia|]. cbn [orb]. unfold fbind, flift.
  destruct (get_header_len msg h) as [(h' & _ & ?)| ->]; [lia|done].
Qed.

Lemma decoding_short_overreads_witness :
  app_data_decoding (Some [192; 1; 2; 3]) 4 zero_ps_header [] = Fault OutOfBounds.
Proof.
  apply (decoding_short_overreads [192; 1; 2; 3] zero_ps_header []); vm_compute; [split; congruence|done].
Defined.
