(* ===== verification/DataPacket.v ===== *)
(** * Reassembly of segmented messages

    app/wiota_manager/manager_data_packet.c, and the part of
    [manager_recv_wiota_msg] (manager_iote_data/manager_iote_message.c) that
    uses it.  Packets wait in a list, one per (source id, packet id); the
    refinement is to a map from these keys to arrays of received segments. *)

From S2P Require Import Prelude.

(** One entry of the segment array: [sg_data] is the buffer, if any. *)
Record data_segment_t := { sg_length : Z; sg_data : option (list Z) }.

(** [dp_node] is the address of the packet. *)
Record data_packet_t := {
  dp_node : Z;
  source_id : Z;
  packet_id : Z;
  seg_total : Z;
  seg_count : Z;
  segment : option (list data_segment_t)
}.

Record packet_state := {
  recv_data_packet : list data_packet_t;
  next_node : Z;
  pk_mem : list bool
}.

Definition set_packets (ps : list data_packet_t) (s : packet_state) : packet_state :=
  {| recv_data_packet := ps; next_node := next_node s; pk_mem := pk_mem s |}.

Definition pk_malloc : FW packet_state bool :=
  λ s, match pk_mem s with
       | [] => Ok (true, s)
       | b :: m => Ok (b, {| recv_data_packet := recv_data_packet s; next_node := next_node s; pk_mem := m |})
       end.

Definition key_is (src pid : Z) (p : data_packet_t) : bool :=
  (source_id p =? src) && (packet_id p =? pid).
Definition node_is (n : Z) (p : data_packet_t) : bool := dp_node p =? n.

Fixpoint first_such (f : data_packet_t → bool) (ps : list data_packet_t) : option data_packet_t :=
  match ps with
  | [] => None
  | p :: ps => if f p then Some p else first_such f ps
  end.

Section Ops.
Local Abbreviation M := (FW packet_state).
Local Open Scope fw_scope.

Definition recv_data_packet_init : M unit := fmod (set_packets []).

Definition recv_data_packet_isempty : M Z :=
  s <-- fget;; fret (if decide (recv_data_packet s = []) then 1 else 0).

Definition recv_data_packet_len : M Z := s <-- fget;; fret (zlen (recv_data_packet s)).

(** The address of the first packet with these ids. *)
Definition recv_data_packet_find (src pid : Z) : M (option Z) :=
  s <-- fget;; fret (dp_node <$> first_such (key_is src pid) (recv_data_packet s)).

Definition empty_segment : data_segment_t := {| sg_length := 0; sg_data := None |}.

(** The new packet of append and prepend, not yet in the list. *)
Definition new_packet (src pid total : Z) : M data_packet_t :=
  ok <-- pk_malloc;;
  fassert ok;;;
  s <-- fget;;
  fmod (λ s, {| recv_data_packet := recv_data_packet s; next_node := next_node s + 1; pk_mem := pk_mem s |});;;
  segs <-- (if total >? 0 then
              ok <-- pk_malloc;;
              fassert ok;;;
              fret (Some (replicate (Z.to_nat total) empty_segment))
            else fret None);;
  fret {| dp_node := next_node s; source_id := src; packet_id := pid; seg_total := total;
          seg_count := 0; segment := segs |}.

Definition recv_data_packet_append (src pid total : Z) : M Z :=
  ele <-- new_packet src pid total;;
  fmod (λ s, set_packets (recv_data_packet s ++ [ele]) s);;;
  fret (dp_node ele).

Definition recv_data_packet_prepend (src pid total : Z) : M Z :=
  ele <-- new_packet src pid total;;
  fmod (λ s, set_packets (ele :: recv_data_packet s) s);;;
  fret (dp_node ele).

(** The packet at an address and its segment array; both asserted. *)
Definition deref (pos : option Z) : M (data_packet_t * list data_segment_t) :=
  s <-- fget;;
  match pos ≫= λ n, first_such (node_is n) (recv_data_packet s) with
  | Some p => match segment p with Some segs => fret (p, segs) | None => ffail AssertFail end
  | None => ffail AssertFail
  end.

Definition replace_packet (q : data_packet_t) (ps : list data_packet_t) : list data_packet_t :=
  map (λ p, if node_is (dp_node q) p then q else p) ps.

Definition recv_data_packet_add_segment (pos : option Z) (seg_id : Z) (data : option (list Z)) (len : Z) : M Z :=
  ' (p, segs) <-- deref pos;;
  match data with
  | None => fret 1
  | Some data =>
      if seg_id >=? seg_total p then fret 1
      else
        match segs !! Z.to_nat seg_id with
        | None => ffail OutOfBounds
        | Some old =>
            let segs' := <[Z.to_nat seg_id := {| sg_length := len; sg_data := Some data |}]> segs in
            let count := match sg_data old with None => u8 (seg_count p + 1) | Some _ => seg_count p end in
            let q := {| dp_node := dp_node p; source_id := source_id p; packet_id := packet_id p;
                        seg_total := seg_total p; seg_count := count; segment := Some segs' |} in
            fmod (λ s, set_packets (replace_packet q (recv_data_packet s)) s);;;
            fret 0
        end
  end.

(** The two loops over the segments: total length, then the copies. *)
Definition total_len (segs : list data_segment_t) : Z :=
  foldl (λ acc g, u32 (acc + sg_length g)) 0 segs.

Fixpoint copy_segments (segs : list data_segment_t) (offset : Z) (buf : list Z) : result (list Z) :=
  match segs with
  | [] => Ok buf
  | g :: segs =>
      match sg_data g with
      | None => Fault NullDeref
      | Some d =>
          b <-? slice 0 (sg_length g) d;;
          buf <-? store offset b buf;;
          copy_segments segs (u32 (offset + sg_length g)) buf
      end
  end.

(** The code; on success the data, when there is any. *)
Definition recv_data_packet_reader (pos : option Z) : M (Z * option (list Z)) :=
  ' (p, segs) <-- deref pos;;
  if negb (seg_count p =? seg_total p) then fret (1, None)
  else
    let segs := take (Z.to_nat (seg_total p)) segs in
    let len := total_len segs in
    if len >? 0 then
      ok <-- pk_malloc;;
      fassert ok;;;
      d <-- flift (copy_segments segs 0 (replicate (Z.to_nat len) 0));;
      fret (0, Some d)
    else fret (0, None).

Definition remove_node (n : Z) (ps : list data_packet_t) : list data_packet_t :=
  filter (λ p, dp_node p ≠ n) ps.

Definition recv_data_packet_remove (pos : option Z) : M unit :=
  match pos with
  | None => ffail AssertFail
  | Some n => fmod (λ s, set_packets (remove_node n (recv_data_packet s)) s)
  end.

Definition recv_data_packet_clear : M unit := fmod (set_packets []).

(** The segment branch of manager_recv_wiota_msg: the complete message, once
    the last segment is there; otherwise None, and the message is not handled. *)
Definition recv_segment (src pid total cur : Z) (data : option (list Z)) (len : Z)
  : M (option (option (list Z))) :=
  found <-- recv_data_packet_find src pid;;
  packet <-- (match found with
              | Some n => fret n
              | None => recv_data_packet_append src pid total
              end);;
  recv_data_packet_add_segment (Some packet) cur data (u16 len);;;
  r <-- recv_data_packet_reader (Some packet);;
  if r.1 =? 0 then
    recv_data_packet_remove (Some packet);;;
    fret (Some r.2)
  else fret None.
End Ops.

(** ** The packets as a map *)

Definition pkey (p : data_packet_t) : Z * Z := (source_id p, packet_id p).
Definition segs_of (p : data_packet_t) : list (option (list Z)) :=
  match segment p with Some segs => map sg_data segs | None => [] end.

(** How many segments have arrived. *)
Fixpoint cnt (l : list (option (list Z))) : Z :=
  match l with [] => 0 | None :: l => cnt l | Some _ :: l => 1 + cnt l end.

Record packet_ok (p : data_packet_t) : Prop := {
  po_segs : ∃ segs, segment p = Some segs ∧ zlen segs = seg_total p ∧
            Forall (λ g, ∀ d, sg_data g = Some d → sg_length g = zlen d ∧ zlen d < 65536) segs;
  po_total : 0 < seg_total p < 256;
  po_count : seg_count p = cnt (segs_of p)
}.

Record rep (s : packet_state) (m : gmap (Z * Z) (list (option (list Z)))) : Prop := {
  re_ok : Forall packet_ok (recv_data_packet s);
  re_nodes : NoDup (map dp_node (recv_data_packet s));
  re_keys : NoDup (map pkey (recv_data_packet s));
  re_fresh : Forall (λ p, dp_node p < next_node s) (recv_data_packet s);
  re_map : ∀ p, p ∈ recv_data_packet s → m !! pkey p = Some (segs_of p);
  re_only : ∀ k, is_Some (m !! k) → k ∈ map pkey (recv_data_packet s);
  re_mem : pk_mem s = []
}.

(** Reception on the map: store the segment; if all are there, give out the
    data in order and forget the packet. *)
Definition complete (l : list (option (list Z))) : option (list Z) := @concat Z <$> mapM id l.

Definition map_recv (k : Z * Z) (total cur : Z) (d : list Z) (m : gmap (Z * Z) (list (option (list Z))))
  : option (list Z) * gmap (Z * Z) (list (option (list Z))) :=
  let segs := default (replicate (Z.to_nat total) None) (m !! k) in
  let segs' := <[Z.to_nat cur := Some d]> segs in
  match complete segs' with
  | Some all => (Some all, delete k m)
  | None => (None, <[k := segs']> m)
  end.

Lemma cnt_bounds l : 0 <= cnt l <= zlen l.
Proof. induction l as [|[d|] l IH]; cbn [cnt]; unfold zlen in *; cbn [length]; lia. Qed.

Lemma cnt_insert l i d o :
  l !! i = Some o → cnt (<[i := Some d]> l) = match o with None => cnt l + 1 | Some _ => cnt l end.
Proof.
  revert i. induction l as [|x l IH]; intros i; [done|]. destruct i as [|i].
  - cbn. intros [= ->]. destruct o; lia.
  - intros H. apply IH in H. change (<[S i:=Some d]> (x :: l)) with (x :: <[i:=Some d]> l).
    destruct x, o; cbn [cnt]; lia.
Qed.

Lemma complete_cnt l : cnt l = zlen l ↔ is_Some (complete l).
Proof.
  unfold complete. rewrite fmap_is_Some. induction l as [|[d|] l IH].
  - split; [eauto|done].
  - cbn [cnt]. unfold zlen in *. cbn [length mapM]. rewrite Nat2Z.inj_succ.
    assert (1 + cnt l = Z.succ (Z.of_nat (length l)) ↔ cnt l = Z.of_nat (length l)) as ->.
    { clear. split; lia. }
    rewrite IH. cbn. destruct (mapM id l); cbn; split; intros [x Hx]; simplify_eq; eauto.
  - pose proof (cnt_bounds l). cbn [cnt]. unfold zlen in *. cbn [length mapM].
    split; [lia|]. cbn. intros [x Hx]. done.
Qed.

Lemma first_node p ps : NoDup (map dp_node ps) → p ∈ ps → first_such (node_is (dp_node p)) ps = Some p.
Proof.
  induction ps as [|q ps IH]; intros Hnd Hin; [inversion Hin|]. cbn in *.
  apply NoDup_cons in Hnd as [Hq Hnd]. unfold node_is at 1.
  apply elem_of_cons in Hin as [->|Hin]; [rewrite Z.eqb_refl; done|].
  destruct (Z.eqb_spec (dp_node q) (dp_node p)) as [E|]; [|by apply IH].
  exfalso. apply Hq. rewrite E. by apply (list_elem_of_fmap_2 dp_node).
Qed.

Lemma first_key_Some src pid ps p :
  first_such (key_is src pid) ps = Some p → p ∈ ps ∧ pkey p = (src, pid).
Proof.
  induction ps as [|q ps IH]; cbn; [done|]. unfold key_is at 1.
  destruct (Z.eqb_spec (source_id q) src), (Z.eqb_spec (packet_id q) pid); cbn;
    try (intros H; destruct (IH H); split; [right|]; done).
  intros [= <-]. split; [left|]. unfold pkey. congruence.
Qed.

Lemma first_key_None src pid ps : first_such (key_is src pid) ps = None → (src, pid) ∉ map pkey ps.
Proof.
  induction ps as [|q ps IH]; cbn; [intros _ H; inversion H|]. unfold key_is at 1.
  destruct (Z.eqb_spec (source_id q) src), (Z.eqb_spec (packet_id q) pid); cbn; try done;
    intros H; rewrite not_elem_of_cons; (split; [|by apply IH]); unfold pkey; congruence.
Qed.

Lemma map_inj_elem {B} (f : data_packet_t → B) ps p q :
  NoDup (map f ps) → p ∈ ps → q ∈ ps → f p = f q → q = p.
Proof.
  induction ps as [|x ps IH]; cbn; intros Hnd Hp Hq E; [inversion Hp|].
  apply NoDup_cons in Hnd as [Hx Hnd].
  apply elem_of_cons in Hp as [->|Hp]; apply elem_of_cons in Hq as [->|Hq]; [done| | |by apply IH].
  - exfalso. apply Hx. rewrite E. by apply (list_elem_of_fmap_2 f).
  - exfalso. apply Hx. rewrite <- E. by apply (list_elem_of_fmap_2 f).
Qed.

Lemma replace_elem q ps p :
  NoDup (map dp_node ps) → p ∈ replace_packet q ps →
  p = q ∨ (p ∈ ps ∧ dp_node p ≠ dp_node q).
Proof.
  intros _ Hin. unfold replace_packet in Hin. apply list_elem_of_fmap in Hin as (x & -> & Hx).
  unfold node_is. destruct (Z.eqb_spec (dp_node x) (dp_node q)); auto.
Qed.

Lemma replace_maps {B} (f : data_packet_t → B) q old ps :
  NoDup (map dp_node ps) → old ∈ ps → dp_node q = dp_node old → f q = f old →
  map f (replace_packet q ps) = map f ps.
Proof.
  intros Hnd Hin Hn Hf. unfold replace_packet. rewrite map_map. apply map_ext_in. intros x Hx.
  unfold node_is. destruct (Z.eqb_spec (dp_node x) (dp_node q)) as [E|]; [|done].
  assert (x = old) as ->; [|done].
  apply list_elem_of_In in Hx. apply (map_inj_elem dp_node ps); [done..|congruence].
Qed.

(** ** The single operations on a represented list *)

Lemma deref_ok s m p segs :
  rep s m → p ∈ recv_data_packet s → segment p = Some segs →
  deref (Some (dp_node p)) s = Ok ((p, segs), s).
Proof.
  intros Hr Hin Hs. unfold deref. fw_unfold. cbn.
  rewrite (first_node p _ (re_nodes _ _ Hr) Hin), Hs. done.
Qed.

Lemma u8_small z : 0 <= z < 256 → u8 z = z.
Proof. intros. apply u8_id. done. Qed.

Definition with_segment (p : data_packet_t) (segs : list data_segment_t) (cur : Z) (d : list Z) : data_packet_t :=
  let segs' := <[Z.to_nat cur := {| sg_length := zlen d; sg_data := Some d |}]> segs in
  {| dp_node := dp_node p; source_id := source_id p; packet_id := packet_id p; seg_total := seg_total p;
     seg_count := cnt (map sg_data segs'); segment := Some segs' |}.

Lemma with_segment_ok p segs cur d :
  packet_ok p → segment p = Some segs → 0 <= cur < zlen segs → zlen d < 65536 →
  packet_ok (with_segment p segs cur d) ∧
  segs_of (with_segment p segs cur d) = <[Z.to_nat cur := Some d]> (segs_of p).
Proof.
  intros [(segs0 & Hs0 & Hl & Hf) Ht Hc] Hs Hcur Hd. assert (segs0 = segs) as -> by congruence. split.
  - constructor; cbn; [|done|done]. eexists. split; [done|]. split.
    + unfold zlen in *. rewrite length_insert. done.
    + apply Forall_insert; [done|]. intros ? [= <-]. cbn. done.
  - unfold segs_of. cbn. rewrite Hs. apply (list_fmap_insert sg_data).
Qed.

Lemma add_segment_ok s m p segs cur d :
  rep s m → p ∈ recv_data_packet s → segment p = Some segs → 0 <= cur < zlen segs → zlen d < 65536 →
  recv_data_packet_add_segment (Some (dp_node p)) cur (Some d) (u16 (zlen d)) s =
  Ok (0, set_packets (replace_packet (with_segment p segs cur d) (recv_data_packet s)) s).
Proof.
  intros Hr Hin Hs Hcur Hd. unfold recv_data_packet_add_segment, fbind at 1.
  rewrite (deref_ok _ _ _ _ Hr Hin Hs).
  destruct (proj1 (Forall_forall _ _) (re_ok _ _ Hr) p Hin) as [(segs0 & Hs0 & Hl & Hf) Ht Hc].
  assert (segs0 = segs) as -> by congruence. rewrite Z.geb_leb, (proj2 (Z.leb_gt _ _)) by lia.
  destruct (lookup_lt_is_Some_2 segs (Z.to_nat cur)) as [old Hold]; [unfold zlen in *; lia|].
  rewrite Hold. rewrite (u16_id (zlen d)) by (unfold is_u16, zlen in *; lia).
  unfold with_segment. fw_unfold. do 4 f_equal. f_equal.
  rewrite (list_fmap_insert sg_data). cbn [sg_data]. rewrite (cnt_insert _ _ _ (sg_data old)).
  2:{ rewrite list_lookup_fmap, Hold. done. }
  rewrite Hc. unfold segs_of. rewrite Hs.
  destruct (sg_data old) eqn:E; [done|]. apply u8_small. change (sg_data <$> segs) with (map sg_data segs).
  assert (cnt (<[Z.to_nat cur:=Some d]> (map sg_data segs)) = cnt (map sg_data segs) + 1) as Hi.
  { rewrite (cnt_insert _ _ _ (sg_data old)), E; [done|]. rewrite list_lookup_fmap, Hold. done. }
  pose proof (cnt_bounds (<[Z.to_nat cur:=Some d]> (map sg_data segs))) as Hb.
  pose proof (cnt_bounds (map sg_data segs)).
  unfold zlen in *. rewrite length_insert, length_map in Hb. lia.
Qed.

Lemma key_unique s m p q :
  rep s m → p ∈ recv_data_packet s → q ∈ recv_data_packet s → pkey p = pkey q → q = p.
Proof. intros Hr. apply map_inj_elem, Hr. Qed.

(** Replacing a packet by one with the same address and key. *)
Lemma rep_replace s m p q :
  rep s m → p ∈ recv_data_packet s → packet_ok q → dp_node q = dp_node p → pkey q = pkey p →
  rep (set_packets (replace_packet q (recv_data_packet s)) s) (<[pkey p := segs_of q]> m) ∧
  q ∈ replace_packet q (recv_data_packet s).
Proof.
  intros Hr Hin Hq Hn Hk. pose proof (re_nodes _ _ Hr) as Hnd. split.
  - constructor; cbn; [| | | | | |apply Hr].
    + apply Forall_forall. intros x Hx. apply replace_elem in Hx as [->|[Hx _]]; [done| |done].
      revert x Hx. apply Forall_forall, Hr.
    + rewrite (replace_maps dp_node q p); [apply Hr|done..].
    + rewrite (replace_maps pkey q p); [apply Hr|done..].
    + apply Forall_forall. intros x Hx. pose proof (proj1 (Forall_forall _ _) (re_fresh _ _ Hr)) as Hf.
      apply replace_elem in Hx as [->|[Hx _]]; [rewrite Hn; auto|auto|done].
    + intros x Hx. apply replace_elem in Hx as [->|[Hx Hne]]; [| |done].
      * rewrite Hk. apply lookup_insert_eq.
      * rewrite lookup_insert_ne; [by apply Hr|]. intros Hkk.
        apply Hne. rewrite Hn. by rewrite (key_unique _ _ _ _ Hr Hin Hx Hkk).
    + intros k. rewrite (replace_maps pkey q p) by done.
      destruct (decide (k = pkey p)) as [->|Hkne].
      * intros _. by apply (list_elem_of_fmap_2 pkey).
      * rewrite lookup_insert_ne by done. apply Hr.
  - unfold replace_packet. apply list_elem_of_fmap. exists p. split; [|done].
    unfold node_is. rewrite Hn, Z.eqb_refl. done.
Qed.

(** ** Reading *)

Lemma complete_cons_inv g segs all :
  complete (map sg_data (g :: segs)) = Some all →
  ∃ d all', sg_data g = Some d ∧ complete (map sg_data segs) = Some all' ∧ all = d ++ all'.
Proof.
  unfold complete. cbn. destruct (sg_data g) as [d|]; cbn; [|done].
  destruct (mapM id (map sg_data segs)) as [l|]; cbn; [|done]. intros [= <-]. eauto.
Qed.

Definition seg_ok (g : data_segment_t) : Prop :=
  ∀ d, sg_data g = Some d → sg_length g = zlen d ∧ zlen d < 65536.

Lemma total_len_spec segs all acc :
  Forall seg_ok segs → complete (map sg_data segs) = Some all →
  0 <= acc → acc + zlen segs * 65536 < 4294967296 →
  foldl (λ acc g, u32 (acc + sg_length g)) acc segs = acc + zlen all ∧ zlen all <= zlen segs * 65536.
Proof.
  revert all acc. induction segs as [|g segs IH]; intros all acc Hf Hc Ha Hb.
  - cbn in Hc. simplify_eq. unfold zlen. cbn. lia.
  - apply Forall_cons in Hf as [Hg Hf].
    apply complete_cons_inv in Hc as (d & all' & Hd & E & ->). destruct (Hg _ Hd) as [Hl Hs].
    unfold zlen in *. cbn [foldl length] in *.
    rewrite (u32_id (acc + _)) by (unfold is_u32; lia).
    destruct (IH all' (acc + sg_length g)) as [-> ?]; [done..|lia|lia|]. rewrite length_app. lia.
Qed.

Lemma copy_segments_spec segs all pre rest :
  Forall seg_ok segs → complete (map sg_data segs) = Some all →
  zlen pre + zlen segs * 65536 < 4294967296 → zlen rest = zlen all →
  copy_segments segs (zlen pre) (pre ++ rest) = Ok (pre ++ all).
Proof.
  revert all pre rest. induction segs as [|g segs IH]; intros all pre rest Hf Hc Hb Hr.
  - cbn in Hc. simplify_eq. destruct rest; [done|]. unfold zlen in Hr. cbn in Hr. lia.
  - apply Forall_cons in Hf as [Hg Hf].
    apply complete_cons_inv in Hc as (d & all' & Hd & E & ->). destruct (Hg _ Hd) as [Hl Hs]. cbn [copy_segments]. rewrite Hd, Hl.
    pose proof (slice_at [] d [] 0 (zlen d) eq_refl eq_refl) as Hsl. rewrite app_nil_r in Hsl. cbn [app] in Hsl.
    rewrite Hsl. cbn [rbind]. rewrite zlen_app in Hr.
    pose proof (zlen_nonneg all'). pose proof (zlen_nonneg d).
    rewrite store_Ok; [|apply zlen_nonneg|rewrite zlen_app; lia]. cbn [rbind].
    rewrite <- (take_drop (length d) rest).
    rewrite blit_app_mid; [|done|unfold zlen in *; rewrite length_take; lia].
    rewrite u32_id by (unfold is_u32, zlen in *; cbn [length] in *; lia).
    rewrite <- zlen_app, app_assoc, (app_assoc pre d all'). apply IH; [done..| |].
    + rewrite zlen_app. unfold zlen in *. cbn [length] in *. lia.
    + unfold zlen in *. rewrite length_drop. lia.
Qed.

Lemma reader_ok s m p :
  rep s m → p ∈ recv_data_packet s →
  recv_data_packet_reader (Some (dp_node p)) s =
  Ok (match complete (segs_of p) with
      | None => (1, None)
      | Some [] => (0, None)
      | Some all => (0, Some all)
      end, s).
Proof.
  intros Hr Hin. destruct (proj1 (Forall_forall _ _) (re_ok _ _ Hr) p Hin) as [(segs & Hs & Hl & Hf) Ht Hc].
  unfold recv_data_packet_reader, fbind at 1. rewrite (deref_ok _ _ _ _ Hr Hin Hs).
  pose proof (complete_cnt (segs_of p)) as Hcc. rewrite <- Hc in Hcc.
  unfold segs_of in *. rewrite Hs in *.
  assert (zlen (map sg_data segs) = seg_total p) as Hlm by (unfold zlen in *; by rewrite length_map).
  rewrite Hlm in Hcc. destruct (complete (map sg_data segs)) as [all|] eqn:E.
  - rewrite (proj2 Hcc), Z.eqb_refl by eauto. cbn [negb].
    rewrite take_ge by (unfold zlen in *; lia). unfold total_len.
    destruct (total_len_spec segs all 0 Hf E) as [-> _]; [lia|lia|].
    pose proof (copy_segments_spec segs all [] (replicate (length all) 0) Hf E) as Hcp.
    destruct all as [|b all]; [done|].
    rewrite (proj2 (Z.gtb_lt _ _)) by (unfold zlen; cbn [length]; lia).
    fw_unfold. unfold pk_malloc. rewrite (re_mem _ _ Hr).
    replace (Z.to_nat (0 + zlen (b :: all))) with (length (b :: all)) by (unfold zlen; lia).
    change (zlen (@nil Z)) with 0 in Hcp. cbn [app] in Hcp.
    rewrite Hcp; [done|lia|]. unfold zlen. rewrite length_replicate. done.
  - destruct (Z.eqb_spec (seg_count p) (seg_total p)) as [H|H]; [|done].
    apply Hcc in H as [? ?]. done.
Qed.

(** ** Adding and removing packets *)

Definition fresh_packet (n src pid total : Z) : data_packet_t :=
  {| dp_node := n; source_id := src; packet_id := pid; seg_total := total; seg_count := 0;
     segment := Some (replicate (Z.to_nat total) empty_segment) |}.

Lemma cnt_replicate n : cnt (replicate n None) = 0.
Proof. induction n; cbn; done. Qed.

Lemma fresh_packet_ok n src pid total :
  0 < total < 256 →
  packet_ok (fresh_packet n src pid total) ∧
  segs_of (fresh_packet n src pid total) = replicate (Z.to_nat total) None.
Proof.
  intros Ht. assert (segs_of (fresh_packet n src pid total) = replicate (Z.to_nat total) None) as Hs.
  { unfold segs_of. cbn. apply (fmap_replicate sg_data). }
  split; [|done]. constructor; [|done|rewrite Hs, cnt_replicate; done].
  eexists. split; [done|]. split; [unfold zlen; cbn; rewrite length_replicate; lia|].
  apply Forall_replicate. done.
Qed.

Lemma append_ok s m src pid total :
  rep s m → m !! (src, pid) = None → 0 < total < 256 →
  ∃ s', recv_data_packet_append src pid total s = Ok (next_node s, s') ∧
        fresh_packet (next_node s) src pid total ∈ recv_data_packet s' ∧
        rep s' (<[(src, pid) := replicate (Z.to_nat total) None]> m).
Proof.
  intros Hr Hm Ht. unfold recv_data_packet_append, new_packet. fw_unfold. unfold pk_malloc.
  rewrite (re_mem _ _ Hr). rewrite (proj2 (Z.gtb_lt _ _)) by lia. cbn. rewrite (re_mem _ _ Hr). cbn.
  eexists. split; [done|]. cbn. split; [apply elem_of_app; right; by left|].
  destruct (fresh_packet_ok (next_node s) src pid total Ht) as [Hok Hsg].
  pose proof (proj1 (Forall_forall _ _) (re_fresh _ _ Hr)) as Hfr.
  assert ((src, pid) ∉ map pkey (recv_data_packet s)) as Hk.
  { intros Hin. apply list_elem_of_fmap in Hin as (p & Hp & Hin). rewrite Hp, (re_map _ _ Hr p Hin) in Hm. done. }
  constructor; cbn; [| | | | | |done].
  - apply Forall_app. split; [apply Hr|]. constructor; [exact Hok|constructor].
  - rewrite map_app. apply NoDup_app. split; [apply Hr|]. split; [|apply NoDup_singleton].
    intros n Hn Hn'. cbn in Hn'. apply list_elem_of_singleton in Hn' as ->.
    apply list_elem_of_fmap in Hn as (p & Hp & Hin). apply Hfr in Hin. lia.
  - rewrite map_app. apply NoDup_app. split; [apply Hr|]. split; [|apply NoDup_singleton].
    intros n Hn Hn'. cbn in Hn'. apply list_elem_of_singleton in Hn' as ->. done.
  - apply Forall_app. split; [|constructor; [cbn; lia|constructor]].
    apply Forall_forall. intros p Hp. apply Hfr in Hp. lia.
  - intros p Hp. apply elem_of_app in Hp as [Hp|Hp].
    + rewrite lookup_insert_ne; [by apply Hr|]. intros E. apply Hk. rewrite E. by apply (list_elem_of_fmap_2 pkey).
    + apply list_elem_of_singleton in Hp as ->. rewrite <- Hsg. apply lookup_insert_eq.
  - intros k. rewrite map_app, elem_of_app. cbn. destruct (decide (k = (src, pid))) as [->|Hne].
    + intros _. right. left.
    + rewrite lookup_insert_ne by done. left. by apply Hr.
Qed.

Lemma remove_ok s m p :
  rep s m → p ∈ recv_data_packet s →
  ∃ s', recv_data_packet_remove (Some (dp_node p)) s = Ok (tt, s') ∧ rep s' (delete (pkey p) m).
Proof.
  intros Hr Hin. eexists. split; [done|]. cbn.
  assert (∀ x, x ∈ remove_node (dp_node p) (recv_data_packet s) ↔ x ∈ recv_data_packet s ∧ x ≠ p) as Hel.
  { intros x. unfold remove_node. rewrite list_elem_of_filter. split.
    - intros [Hne Hx]. split; [done|]. congruence.
    - intros [Hx Hne]. split; [|done]. intros E. apply Hne.
      apply (map_inj_elem dp_node (recv_data_packet s)); [apply Hr|done..]. }
  assert (∀ B (f : data_packet_t → B), NoDup (map f (recv_data_packet s)) →
    NoDup (map f (remove_node (dp_node p) (recv_data_packet s)))) as Hnd.
  { intros B f Hf. eapply sublist_NoDup; [exact Hf|]. apply (fmap_sublist f). unfold remove_node.
    apply sublist_filter. }
  constructor; cbn; [| | | | | |apply Hr].
  - apply Forall_forall. intros x [Hx _]%Hel. revert x Hx. apply Forall_forall, Hr.
  - apply Hnd, Hr.
  - apply Hnd, Hr.
  - apply Forall_forall. intros x [Hx _]%Hel. revert x Hx. apply Forall_forall, Hr.
  - intros x [Hx Hne]%Hel. rewrite lookup_delete_ne; [by apply Hr|].
    intros E. apply Hne. by apply (key_unique s m).
  - intros k Hk. destruct (decide (k = pkey p)) as [->|Hne].
    { rewrite lookup_delete_eq in Hk. destruct Hk. done. }
    rewrite lookup_delete_ne in Hk by done. apply (re_only _ _ Hr) in Hk.
    apply list_elem_of_fmap in Hk as (x & -> & Hx). apply (list_elem_of_fmap_2 pkey), Hel.
    split; [done|]. congruence.
Qed.

(** ** Reception of one segment *)

Definition delivered (r : option (list Z)) : option (option (list Z)) :=
  match r with None => None | Some [] => Some None | Some all => Some (Some all) end.

Definition slots (m : gmap (Z * Z) (list (option (list Z)))) (k : Z * Z) (total : Z) : list (option (list Z)) :=
  default (replicate (Z.to_nat total) None) (m !! k).

(** Find or append: afterwards the packet is in the list. *)
Lemma find_or_append s m src pid total :
  rep s m → 0 < total < 256 →
  ∃ p s', fbind (recv_data_packet_find src pid)
            (λ found, match found with
                      | Some n => fret n
                      | None => recv_data_packet_append src pid total
                      end) s = Ok (dp_node p, s') ∧
          p ∈ recv_data_packet s' ∧ pkey p = (src, pid) ∧ segs_of p = slots m (src, pid) total ∧
          rep s' (<[(src, pid) := slots m (src, pid) total]> m).
Proof.
  intros Hr Ht. unfold slots, recv_data_packet_find. fw_unfold.
  destruct (first_such (key_is src pid) (recv_data_packet s)) as [p|] eqn:E; cbn.
  - apply first_key_Some in E as [Hin Hk]. exists p, s. split; [done|].
    pose proof (re_map _ _ Hr p Hin) as Hm. rewrite Hk in Hm. rewrite Hm. cbn.
    rewrite insert_id by done. done.
  - apply first_key_None in E.
    destruct (m !! (src, pid)) as [l|] eqn:Hm.
    { exfalso. apply E, (re_only _ _ Hr). rewrite Hm. done. }
    destruct (append_ok s m src pid total Hr Hm Ht) as (s' & -> & Hin & Hr').
    eexists _, s'. split; [|split; [exact Hin|]]; [done|]. split; [done|].
    split; [|done]. apply fresh_packet_ok. done.
Qed.

Lemma recv_segment_step s m src pid total cur d :
  rep s m → 0 < total < 256 → 0 <= cur < zlen (slots m (src, pid) total) → zlen d < 65536 →
  ∃ s', recv_segment src pid total cur (Some d) (zlen d) s =
          Ok (delivered (map_recv (src, pid) total cur d m).1, s') ∧
        rep s' (map_recv (src, pid) total cur d m).2.
Proof.
  intros Hr Ht Hcur Hd. unfold recv_segment. rewrite <- fbind_assoc. unfold fbind at 1.
  destruct (find_or_append s m src pid total Hr Ht) as (p & s1 & -> & Hin & Hk & Hsg & Hr1).
  pose proof (proj1 (Forall_forall _ _) (re_ok _ _ Hr1) p Hin) as Hp.
  destruct (po_segs p Hp) as (segs & Hs & Hl & Hf).
  assert (0 <= cur < zlen segs) as Hcur'.
  { rewrite <- Hsg in Hcur. unfold segs_of in Hcur. rewrite Hs in Hcur. unfold zlen in *.
    rewrite length_map in Hcur. done. }
  unfold fbind at 1. rewrite (add_segment_ok _ _ _ _ _ _ Hr1 Hin Hs Hcur' Hd).
  destruct (with_segment_ok p segs cur d Hp Hs Hcur' Hd) as [Hq Hqs].
  destruct (rep_replace _ _ p (with_segment p segs cur d) Hr1 Hin Hq eq_refl eq_refl) as [Hr2 Hin2].
  set (q := with_segment p segs cur d) in *. set (s2 := set_packets _ s1) in *.
  unfold fbind at 1. change (dp_node p) with (dp_node q). rewrite (reader_ok s2 _ q Hr2 Hin2).
  unfold map_recv. change (default _ _) with (slots m (src, pid) total).
  rewrite Hk, insert_insert_eq, Hqs, Hsg in Hr2. rewrite Hqs, Hsg.
  destruct (complete _) as [all|] eqn:E; [|by exists s2].
  destruct (remove_ok s2 _ q Hr2 Hin2) as (s3 & Hrm & Hr3).
  change (pkey q) with (pkey p) in Hr3. rewrite Hk, delete_insert_eq in Hr3.
  exists s3. split; [|done]. destruct all; cbn [Z.eqb fst snd]; unfold fbind; change (dp_node p) with (dp_node q); rewrite Hrm; done.
Qed.

(** A segment number beyond the packet's size is dropped; only the packet is
    there afterwards. *)
Lemma recv_segment_range s m src pid total cur d :
  rep s m → 0 < total < 256 → zlen (slots m (src, pid) total) <= cur →
  complete (slots m (src, pid) total) = None →
  ∃ s', recv_segment src pid total cur (Some d) (zlen d) s = Ok (None, s') ∧
        rep s' (<[(src, pid) := slots m (src, pid) total]> m).
Proof.
  intros Hr Ht Hcur Hnc. unfold recv_segment. rewrite <- fbind_assoc. unfold fbind at 1.
  destruct (find_or_append s m src pid total Hr Ht) as (p & s1 & -> & Hin & Hk & Hsg & Hr1).
  destruct (proj1 (Forall_forall _ _) (re_ok _ _ Hr1) p Hin) as [(segs & Hs & Hl & Hf) Htp Hc].
  rewrite <- Hsg in Hcur. unfold segs_of in Hcur. rewrite Hs in Hcur. unfold zlen in Hcur, Hl.
  rewrite length_map in Hcur.
  unfold fbind at 1. unfold recv_data_packet_add_segment, fbind at 1.
  rewrite (deref_ok _ _ _ _ Hr1 Hin Hs), Z.geb_leb, (proj2 (Z.leb_le _ _)) by lia. cbn.
  unfold fbind at 1. rewrite (reader_ok s1 _ p Hr1 Hin), Hsg, Hnc. by exists s1.
Qed.

(** Whatever segment comes in, reception does not fault. *)
Lemma recv_segment_total s m src pid total cur data :
  rep s m → 0 < total < 256 → 0 <= cur → zlen (default [] data) < 65536 →
  ∃ r s' m', recv_segment src pid total cur data (zlen (default [] data)) s = Ok (r, s') ∧ rep s' m'.
Proof.
  intros Hr Ht Hc Hd. destruct data as [d|]; [destruct (decide (cur < zlen (slots m (src, pid) total)))|].
  { destruct (recv_segment_step s m src pid total cur d Hr Ht) as (s' & E & Hr'); [lia|done|]. eauto. }
  all: unfold recv_segment; rewrite <- fbind_assoc;
    destruct (find_or_append s m src pid total Hr Ht) as (p & s1 & E & Hin & Hk & Hsg & Hr1); rewrite (bind_Ok _ _ _ _ _ E);
    destruct (proj1 (Forall_forall _ _) (re_ok _ _ Hr1) p Hin) as [(segs & Hs & Hl & Hf) Htp Hcnt];
    rewrite (bind_Ok _ _ s1 1 s1);
    [|unfold recv_data_packet_add_segment, fbind at 1; rewrite (deref_ok _ _ _ _ Hr1 Hin Hs)].
  2:{ rewrite Z.geb_leb, (proj2 (Z.leb_le _ _)); [done|].
      rewrite <- Hsg in *. unfold segs_of in *. rewrite Hs in *. unfold zlen in *. rewrite length_map in *. lia. }
  3: done.
  all: rewrite (bind_Ok _ _ _ _ _ (reader_ok s1 _ p Hr1 Hin)); destruct (remove_ok s1 _ p Hr1 Hin) as (s3 & Hrm & Hr3);
    destruct (complete (segs_of p)) as [[|b all]|]; cbn [fst snd Z.eqb];
    [rewrite (bind_Ok _ _ _ _ _ Hrm); eauto..|eauto].
Qed.

(** ** Reception of all segments of a packet, in any order *)

Fixpoint recv_all (src pid total : Z) (ds : list (nat * list Z)) : FW packet_state (list (option (option (list Z)))) :=
  match ds with
  | [] => fret []
  | (i, d) :: ds =>
      fbind (recv_segment src pid total (Z.of_nat i) (Some d) (zlen d))
        (λ r, fbind (recv_all src pid total ds) (λ rs, fret (r :: rs)))
  end.

Lemma complete_hole l i : l !! i = Some None → complete l = None.
Proof.
  intros H. destruct (complete l) eqn:E; [|done].
  assert (is_Some (complete l)) as Hs by (rewrite E; eauto).
  unfold complete in Hs. rewrite fmap_is_Some, mapM_is_Some in Hs.
  pose proof (Forall_lookup_1 _ _ _ _ Hs H) as [? ?]. done.
Qed.

Lemma complete_full segs : complete (map Some segs) = Some (concat segs).
Proof.
  unfold complete. induction segs as [|d segs IH]; [done|]. cbn.
  destruct (mapM id (map Some segs)); cbn in *; [|done]. injection IH as ->. done.
Qed.

(** [l]: the slots, where the segments [ds] are still missing. *)
Definition missing (segs : list (list Z)) (ds : list (nat * list Z)) (l : list (option (list Z))) : Prop :=
  ∀ i, l !! i = if decide (i ∈ ds.*1) then (λ _, None) <$> segs !! i else Some <$> segs !! i.

Lemma missing_insert segs i d ds l :
  segs !! i = Some d → i ∉ ds.*1 → missing segs ((i, d) :: ds) l → missing segs ds (<[i := Some d]> l).
Proof.
  intros Hs Hn Hm j. pose proof (Hm j) as Hj. destruct (decide (i = j)) as [<-|Hne].
  - rewrite decide_False by done. rewrite list_lookup_insert_eq, Hs; [done|].
    apply lookup_lt_is_Some. rewrite Hj, Hs. rewrite decide_True by (cbn; left). eauto.
  - rewrite list_lookup_insert_ne, Hj by done.
    destruct (decide (j ∈ ds.*1)) as [H|H].
    + rewrite decide_True by (cbn; by right). done.
    + rewrite decide_False; [done|]. cbn. rewrite elem_of_cons. intros [?|?]; done.
Qed.

Lemma missing_all segs ds l : ds.*1 ≡ₚ seq 0 (length segs) → missing segs ds l ↔ l = replicate (length segs) None.
Proof.
  intros Hp. assert (∀ i, i ∈ ds.*1 ↔ (i < length segs)%nat) as Hi.
  { intros i. rewrite Hp, elem_of_seq. lia. }
  assert (missing segs ds (replicate (length segs) None)) as Hm.
  { intros i. destruct (decide (i ∈ ds.*1)) as [H|H]; rewrite Hi in H.
    - rewrite lookup_replicate_2 by done. destruct (segs !! i) eqn:E; [done|].
      apply lookup_ge_None in E. lia.
    - rewrite (lookup_ge_None_2 (replicate _ _)) by (rewrite length_replicate; lia).
      rewrite (lookup_ge_None_2 segs) by lia. done. }
  split; [|by intros ->]. intros Hl. apply list_eq. intros i. rewrite (Hl i), (Hm i). done.
Qed.

Lemma recv_all_spec src pid segs ds s m :
  let k := (src, pid) in
  rep s m → 0 < zlen segs < 256 → Forall (λ d, zlen d < 65536) segs →
  NoDup ds.*1 → Forall (λ x, segs !! x.1 = Some x.2) ds → ds ≠ [] →
  missing segs ds (slots m k (zlen segs)) →
  ∃ s', recv_all src pid (zlen segs) ds s =
          Ok (replicate (length ds - 1) None ++ [delivered (Some (concat segs))], s') ∧
        rep s' (delete k m).
Proof.
  intros k Hr Hn Hsz. revert s m Hr. induction ds as [|[i d] ds IH]; intros s m Hr Hnd Hf Hne Hm; [done|].
  apply Forall_cons in Hf as [Hi Hf]. cbn in Hi. cbn in Hnd. apply NoDup_cons in Hnd as [Hni Hnd].
  assert (zlen d < 65536) as Hd by (apply (Forall_lookup_1 _ _ _ _ Hsz Hi)).
  assert (0 <= Z.of_nat i < zlen (slots m k (zlen segs))) as Hir.
  { assert (i < length (slots m k (zlen segs)))%nat as Hlt; [|split; [lia|exact (proj1 (Nat2Z.inj_lt _ _) Hlt)]].
    apply lookup_lt_is_Some. rewrite (Hm i), Hi, decide_True by (cbn; left). eauto. }
  destruct (recv_segment_step s m src pid (zlen segs) (Z.of_nat i) d Hr Hn Hir Hd) as (s1 & Hrun & Hr1).
  cbn [recv_all]. unfold fbind at 1. rewrite Hrun. unfold map_recv in *.
  change (default (replicate (Z.to_nat (zlen segs)) None) (m !! (src, pid))) with (slots m k (zlen segs)) in *.
  rewrite Nat2Z.id in *. apply (missing_insert _ _ _ _ _ Hi Hni) in Hm.
  set (l := <[i:=Some d]> (slots m k (zlen segs))) in *.
  destruct ds as [|[j e] ds'].
  - assert (l = map Some segs) as El.
    { apply list_eq. intros x. rewrite (Hm x). rewrite decide_False by (cbn; set_solver).
      symmetry. apply (list_lookup_fmap Some). }
    rewrite El, complete_full in *. exists s1. split; [|exact Hr1]. done.
  - assert (complete l = None) as Hcl.
    { apply (complete_hole l j). apply Forall_cons in Hf as [Hj _]. cbn in Hj.
      rewrite (Hm j), Hj, decide_True by (cbn; left). done. }
    rewrite Hcl in *. cbn [fst snd delivered] in *.
    destruct (IH s1 _ Hr1 Hnd Hf) as (s2 & Hrec & Hr2); [done| |].
    { unfold slots. rewrite lookup_insert_eq. exact Hm. }
    unfold fbind. rewrite Hrec. exists s2. split.
    + cbn. rewrite Nat.sub_0_r. done.
    + rewrite delete_insert_eq in Hr2. done.
Qed.

(** ** Properties *)

(** For a represented list of waiting packets, receiving segment [cur] of
    a packet with 1..255 segments never faults and does what reception on the
    map does: the segment is filed under (source, packet id), the whole message
    is given out in order exactly when its last missing segment came in and the
    packet is then forgotten, and no other packet is touched. *)
Theorem recv_segment_refines s m src pid total cur d :
  rep s m → 0 < total < 256 → 0 <= cur < zlen (slots m (src, pid) total) → zlen d < 65536 →
  ∃ s', recv_segment src pid total cur (Some d) (zlen d) s =
          Ok (delivered (map_recv (src, pid) total cur d m).1, s') ∧
        rep s' (map_recv (src, pid) total cur d m).2.
Proof. apply recv_segment_step. Qed.

Definition no_packets : packet_state := {| recv_data_packet := []; next_node := 1; pk_mem := [] |}.

Lemma no_packets_rep : rep no_packets ∅.
Proof.
  constructor; cbn; try constructor.
  - intros p Hp. inversion Hp.
  - intros k [? Hk]. rewrite lookup_empty in Hk. done.
Defined.

Lemma recv_segment_refines_witness :
  ∃ s', recv_segment 7 1 2 0 (Some [1; 2]) (zlen [1; 2]) no_packets = Ok (None, s') ∧
        rep s' (map_recv (7, 1) 2 0 [1; 2] ∅).2.
Proof.
  refine (recv_segment_refines no_packets ∅ 7 1 2 0 [1; 2] no_packets_rep _ _ _); vm_compute; intuition congruence.
Defined.

(** C10: the segments of a packet that is not yet known, arriving in any order,
    one after the other: all but the last reception deliver nothing, the last
    delivers the concatenation of the segments in their numbering, and the
    waiting packets are then those of before. *)
Theorem reassembly_any_order src pid segs ds s m :
  rep s m → m !! (src, pid) = None → 0 < zlen segs < 256 → Forall (λ d, zlen d < 65536) segs →
  ds ≡ₚ zip (seq 0 (length segs)) segs →
  ∃ s', recv_all src pid (zlen segs) ds s =
          Ok (replicate (length segs - 1) None ++ [delivered (Some (concat segs))], s') ∧
        rep s' m.
Proof.
  intros Hr Hm Hn Hsz Hp.
  assert (ds.*1 ≡ₚ seq 0 (length segs)) as Hp1.
  { rewrite Hp, fst_zip; [done|]. rewrite length_seq. lia. }
  assert (length ds = length segs) as Hl.
  { rewrite Hp, length_zip_with, length_seq. lia. }
  destruct (recv_all_spec src pid segs ds s m Hr Hn Hsz) as (s' & Hrun & Hr').
  - rewrite Hp1. apply NoDup_seq.
  - rewrite Hp. apply Forall_lookup_2. intros i [j d] Hi. cbn.
    apply lookup_zip_with_Some in Hi as (j' & d' & [= -> ->] & Hj & Hd).
    apply lookup_seq in Hj as [-> _]. done.
  - intros ->. unfold zlen in Hn. cbn in Hl. lia.
  - apply missing_all; [done|]. unfold slots, zlen. rewrite Hm, Nat2Z.id. done.
  - exists s'. rewrite Hl in Hrun. split; [done|]. rewrite delete_id in Hr' by done. done.
Qed.

Lemma reassembly_any_order_witness :
  ∃ s', recv_all 7 1 3 [(2%nat, [5]); (0%nat, [1; 2]); (1%nat, [3; 4])] no_packets =
          Ok ([None; None; Some (Some [1; 2; 3; 4; 5])], s') ∧ rep s' ∅.
Proof.
  refine (reassembly_any_order 7 1 [[1; 2]; [3; 4]; [5]] [(2%nat, [5]); (0%nat, [1; 2]); (1%nat, [3; 4])]
            no_packets ∅ no_packets_rep _ _ _ _).
  - reflexivity.
  - vm_compute; intuition congruence.
  - repeat constructor; vm_compute; intuition congruence.
  - cbn. apply (Permutation_app_comm [(2%nat, [5])] [(0%nat, [1; 2]); (1%nat, [3; 4])]).
Defined.

(** A segment that announces a total of 0 segments for a packet that is not
    waiting stops the access point: the packet is made without segments and the
    assertion on them fails. *)
Theorem zero_total_asserts s m src pid cur data len :
  rep s m → m !! (src, pid) = None → recv_segment src pid 0 cur data len s = Fault AssertFail.
Proof.
  intros Hr Hm. unfold recv_segment, recv_data_packet_find. fw_unfold.
  destruct (first_such _ _) as [p|] eqn:E; cbn.
  { apply first_key_Some in E as [Hin Hk]. rewrite <- Hk, (re_map _ _ Hr p Hin) in Hm. done. }
  unfold recv_data_packet_append, new_packet. fw_unfold. unfold pk_malloc. rewrite (re_mem _ _ Hr). cbn.
  unfold recv_data_packet_add_segment, deref. fw_unfold. cbn.
  pose proof (proj1 (Forall_forall _ _) (re_fresh _ _ Hr)) as Hf.
  enough (first_such (node_is (next_node s)) (recv_data_packet s ++
    [{| dp_node := next_node s; source_id := src; packet_id := pid; seg_total := 0; seg_count := 0; segment := None |}]) =
    Some {| dp_node := next_node s; source_id := src; packet_id := pid; seg_total := 0; seg_count := 0; segment := None |})
    as -> by done.
  revert Hf. generalize (recv_data_packet s). intros ps. induction ps as [|x ps IH]; intros Hf; cbn; unfold node_is at 1.
  - cbn. rewrite Z.eqb_refl. done.
  - assert (dp_node x < next_node s) by (apply Hf; left).
    destruct (Z.eqb_spec (dp_node x) (next_node s)); [lia|]. apply IH. intros y Hy. apply Hf. by right.
Qed.

Lemma zero_total_asserts_witness : recv_segment 7 1 0 0 (Some [1]) 1 no_packets = Fault AssertFail.
Proof. exact (zero_total_asserts no_packets ∅ 7 1 0 (Some [1]) 1 no_packets_rep eq_refl). Defined.
