(* ===== verification/UserId.v ===== *)
(** * Reserved addresses

    app/wiota_manager/manager_wiota/manager_userid.c: the addresses the server
    reserved for the access point, in one list per position of the frame, and
    their allocation to devices.  The lists are used through the operations of
    manager_list.c only and are therefore the sequences [ManagerList] proves
    them to be.  The frame position of an address comes from the protocol stack
    and is an argument. *)

From S2P Require Import Prelude.

Definition ADDRESS_RESERVED : Z := 0.
Definition ADDRESS_PREALLOCATED : Z := 1.
Definition AP_DEFAULT_ADDRESS : Z := 0xD0000000.

Record t_manager_address := {
  address : Z;
  dev_mac : Z;
  allocate_flag : Z;
  current_com_count : Z
}.

(** The part of the system configuration that is used. *)
Record frame_config := { group_number : Z; dlul_ratio : Z }.

Record uc_dev_pos_t := { group_idx : Z; burst_idx : Z }.

(** [manager_reserve_addr_hash] is None before it was allocated; [replies] are
    the calls of the reply function, oldest first. *)
Record addr_state := {
  manager_reserve_addr_hash : option (list (list t_manager_address));
  id_reallocated_index : Z;
  replies : list (Z * Z * Z);
  requests : Z;
  am_mem : list bool
}.

Definition set_hash v s := {| manager_reserve_addr_hash := v; id_reallocated_index := id_reallocated_index s;
  replies := replies s; requests := requests s; am_mem := am_mem s |}.
Definition set_index v s := {| manager_reserve_addr_hash := manager_reserve_addr_hash s; id_reallocated_index := v;
  replies := replies s; requests := requests s; am_mem := am_mem s |}.
Definition add_reply v s := {| manager_reserve_addr_hash := manager_reserve_addr_hash s;
  id_reallocated_index := id_reallocated_index s; replies := replies s ++ [v]; requests := requests s; am_mem := am_mem s |}.
Definition add_request s := {| manager_reserve_addr_hash := manager_reserve_addr_hash s;
  id_reallocated_index := id_reallocated_index s; replies := replies s; requests := requests s + 1; am_mem := am_mem s |}.
Definition set_am_mem v s := {| manager_reserve_addr_hash := manager_reserve_addr_hash s;
  id_reallocated_index := id_reallocated_index s; replies := replies s; requests := requests s; am_mem := v |}.

Definition all_index (cfg : frame_config) : Z :=
  Z.shiftl 1 (group_number cfg) * Z.shiftl 1 (dlul_ratio cfg) * 8.

(** The callbacks of the list operations, as conditions. *)
Definition manager_address_query_callback (a : Z) (n : t_manager_address) : bool := address n =? a.
Definition query_element_allocate (mac : Z) (n : t_manager_address) : bool :=
  (allocate_flag n =? ADDRESS_PREALLOCATED) && (mac =? dev_mac n).
Definition counter_element_allocate (n : t_manager_address) : bool := allocate_flag n =? ADDRESS_PREALLOCATED.
Definition counter_element_reserved (n : t_manager_address) : bool := allocate_flag n =? ADDRESS_RESERVED.

(** query_head_list: the number of the first element that satisfies [f]. *)
Fixpoint first_idx (f : t_manager_address → bool) (l : list t_manager_address) : option nat :=
  match l with
  | [] => None
  | x :: l => if f x then Some O else S <$> first_idx f l
  end.
Definition count_such (f : t_manager_address → bool) (l : list t_manager_address) : Z := zlen (List.filter f l).

Section Ops.
Local Abbreviation M := (FW addr_state).
Local Open Scope fw_scope.

Definition am_malloc : M bool :=
  λ s, match am_mem s with [] => Ok (true, s) | b :: m => Ok (b, set_am_mem m s) end.

(** Access to one list; before the table exists, and beyond its end, this is
    outside any object. *)
Definition get_bucket (i : Z) : M (list t_manager_address) :=
  s <-- fget;;
  match manager_reserve_addr_hash s with
  | None => ffail NullDeref
  | Some hash => match hash !! Z.to_nat i with Some b => fret b | None => ffail OutOfBounds end
  end.
Definition put_bucket (i : Z) (b : list t_manager_address) : M unit :=
  get_bucket i;;;
  fmod (λ s, set_hash (<[Z.to_nat i := b]> <$> manager_reserve_addr_hash s) s).

(** [request] says whether the function to ask the server is there. *)
Definition manager_address_init (cfg : frame_config) (request : bool) : M unit :=
  (if request then fret tt else ffail NullDeref);;;
  s <-- fget;;
  match manager_reserve_addr_hash s with
  | Some _ => fret tt
  | None =>
      ok <-- am_malloc;;
      (if ok : bool then fret tt else ffail NullDeref);;;
      fmod (set_hash (Some (replicate (Z.to_nat (all_index cfg)) [])));;;
      fmod add_request
  end.

(** insert_head_manager_list gives up silently when there is no memory. *)
Definition insert_head (i : Z) (n : t_manager_address) : M unit :=
  ok <-- am_malloc;;
  if ok : bool then b <-- get_bucket i;; put_bucket i (n :: b) else fret tt.

Fixpoint reserve_loop (ids : list Z) (pos : list uc_dev_pos_t) : M unit :=
  match ids with
  | [] => fret tt
  | a :: ids =>
      match pos with
      | [] => ffail OutOfBounds
      | p :: pos =>
          ok <-- am_malloc;;
          (if ok : bool then fret tt else ffail NullDeref);;;
          insert_head (burst_idx p + group_idx p * 8)
            {| address := a; dev_mac := 0; allocate_flag := ADDRESS_RESERVED; current_com_count := 0 |};;;
          reserve_loop ids pos
      end
  end.

Definition id_array (start count : Z) : list Z := map (λ i, u32 (start + Z.of_nat i)) (seq 0 (Z.to_nat count)).

(** [positions]: uc_wiota_query_dev_pos_by_userid.  rt_malloc of 0 bytes gives
    no memory. *)
Definition manager_get_reserved_address (positions : list Z → option (list uc_dev_pos_t))
  (reserved_start_address reserved_end_address : Z) : M unit :=
  let count := s32 (reserved_end_address - reserved_start_address + 1) in
  ok <-- (if count <=? 0 then fret false else am_malloc);;
  (if ok : bool then fret tt else ffail NullDeref);;;
  let ids := id_array reserved_start_address count in
  match positions ids with
  | None => fret tt
  | Some pos => reserve_loop ids pos
  end.

(** The first list, from [i] on, with an element that satisfies [f]. *)
Fixpoint find_allocated (mac : Z) (fuel : nat) (i : Z) : M (option (Z * nat)) :=
  match fuel with
  | O => fret None
  | S fuel =>
      b <-- get_bucket i;;
      match first_idx (query_element_allocate mac) b with
      | Some j => fret (Some (i, j))
      | None => find_allocated mac fuel (i + 1)
      end
  end.

Definition update_at (i : Z) (j : nat) (f : t_manager_address → t_manager_address) : M unit :=
  b <-- get_bucket i;; put_bucket i (alter f j b).

Definition use_again (n : t_manager_address) : t_manager_address :=
  {| address := address n; dev_mac := dev_mac n; allocate_flag := allocate_flag n;
     current_com_count := u8 (current_com_count n + 1) |}.
Definition allocate_to (mac : Z) (n : t_manager_address) : t_manager_address :=
  {| address := address n; dev_mac := mac; allocate_flag := ADDRESS_PREALLOCATED;
     current_com_count := u8 (current_com_count n + 1) |}.

(** The second loop: every turn looks at the list of [id_reallocated_index]. *)
Fixpoint allocate_loop (dev_address wiota_address n : Z) (fuel : nat) : M unit :=
  match fuel with
  | O => fret tt
  | S fuel =>
      s <-- fget;;
      let index := id_reallocated_index s in
      b <-- get_bucket index;;
      if negb (count_such counter_element_reserved b =? 0) then
        match first_idx counter_element_reserved b with
        | None => allocate_loop dev_address wiota_address n fuel
        | Some j =>
            update_at index j (allocate_to dev_address);;;
            match b !! j with
            | Some e => fmod (add_reply (AP_DEFAULT_ADDRESS, wiota_address, address e))
            | None => ffail OutOfBounds
            end;;;
            let next := u8 (index + 1) in
            fmod (set_index (if next >? n - 1 then 0 else next))
        end
      else allocate_loop dev_address wiota_address n fuel
  end.

Definition manager_reallocated_wiotaid (cfg : frame_config) (dev_address wiota_address : Z) : M unit :=
  let n := all_index cfg in
  found <-- find_allocated dev_address (Z.to_nat n) 0;;
  match found with
  | Some (i, j) =>
      b <-- get_bucket i;;
      match b !! j with
      | Some e =>
          update_at i j use_again;;;
          fmod (add_reply (AP_DEFAULT_ADDRESS, wiota_address, address e))
      | None => ffail OutOfBounds
      end
  | None => allocate_loop dev_address wiota_address n (Z.to_nat n)
  end.

(** The address of a device, or the number itself. *)
Definition manager_query_wiotaid (cfg : frame_config) (mac : Z) : M Z :=
  let n := all_index cfg in
  found <-- find_allocated mac (Z.to_nat n) 0;;
  match found with
  | Some (i, j) =>
      b <-- get_bucket i;;
      match b !! j with Some e => fret (address e) | None => ffail OutOfBounds end
  | None => fret mac
  end.
End Ops.

(** ** The table as a list of all its elements *)

Definition all_addresses (hash : list (list t_manager_address)) : list t_manager_address := concat hash.

(** The address of a device. *)
Definition addr_of (l : list t_manager_address) (mac : Z) : option Z :=
  address <$> List.find (query_element_allocate mac) l.

Definition macs (l : list t_manager_address) : list Z := map dev_mac (List.filter counter_element_allocate l).

(** Addresses are distinct, and no device has two. *)
Record table_ok (l : list t_manager_address) : Prop := {
  to_addr : NoDup (map address l);
  to_mac : NoDup (macs l)
}.

Record addr_ok (cfg : frame_config) (s : addr_state) (hash : list (list t_manager_address)) : Prop := {
  ao_hash : manager_reserve_addr_hash s = Some hash;
  ao_len : zlen hash = all_index cfg;
  ao_index : 0 <= id_reallocated_index s < zlen hash;
  ao_byte : id_reallocated_index s < 256;
  ao_table : table_ok (all_addresses hash);
  ao_mem : am_mem s = []
}.

Lemma find_app_mid {A} (f : A → bool) a x b :
  List.find f (a ++ x :: b) = match List.find f a with Some y => Some y | None => if f x then Some x else List.find f b end.
Proof. induction a as [|y a IH]; cbn; [done|]. destruct (f y); done. Qed.

Lemma first_idx_Some f l j : first_idx f l = Some j → ∃ e, l !! j = Some e ∧ f e = true ∧ List.find f l = Some e.
Proof.
  revert j. induction l as [|x l IH]; intros j; cbn; [done|]. destruct (f x) eqn:E.
  - intros [= <-]. eauto.
  - destruct (first_idx f l) as [k|]; cbn; [|done]. intros [= <-]. apply IH. done.
Qed.
Lemma first_idx_None f l : first_idx f l = None → List.find f l = None.
Proof. induction l as [|x l IH]; cbn; [done|]. destruct (f x); [done|]. destruct (first_idx f l); [done|]. auto. Qed.

Lemma find_concat {A} (f : A → bool) a b :
  List.find f (a ++ b) = match List.find f a with Some y => Some y | None => List.find f b end.
Proof. induction a as [|y a IH]; cbn; [done|]. destruct (f y); done. Qed.

Lemma get_bucket_eq s hash i b :
  manager_reserve_addr_hash s = Some hash → hash !! Z.to_nat i = Some b → get_bucket i s = Ok (b, s).
Proof. intros H1 H2. unfold get_bucket. fw_unfold. rewrite H1, H2. done. Qed.

(** Searching list after list is searching the concatenation. *)
Lemma find_allocated_spec mac s hash fuel i :
  manager_reserve_addr_hash s = Some hash → 0 <= i → (Z.to_nat i + fuel)%nat = length hash →
  ∃ o, find_allocated mac fuel i s = Ok (o, s) ∧
    match o with
    | Some (k, j) => 0 <= k ∧ ∃ b e, hash !! Z.to_nat k = Some b ∧ b !! j = Some e ∧
        List.find (query_element_allocate mac) (concat (drop (Z.to_nat i) hash)) = Some e
    | None => List.find (query_element_allocate mac) (concat (drop (Z.to_nat i) hash)) = None
    end.
Proof.
  intros Hs. revert i. induction fuel as [|fuel IH]; intros i Hi Hl; cbn [find_allocated].
  - exists None. split; [done|]. rewrite drop_ge by lia. done.
  - destruct (lookup_lt_is_Some_2 hash (Z.to_nat i)) as [b Hb]; [lia|].
    unfold fbind at 1. rewrite (get_bucket_eq s hash i b Hs Hb). rewrite (drop_S hash b _ Hb). cbn [concat].
    rewrite find_concat. destruct (first_idx _ b) as [j|] eqn:Ej.
    + apply first_idx_Some in Ej as (e & He & _ & Hf). eexists. split; [reflexivity|]. rewrite Hf.
      split; [done|]. eauto.
    + apply first_idx_None in Ej. rewrite Ej. destruct (IH (i + 1)) as (o & Ho & Hm); [lia|lia|].
      exists o. split; [done|]. replace (Z.to_nat (i + 1)) with (S (Z.to_nat i)) in Hm by lia. done.
Qed.

Lemma find_all mac cfg s hash :
  addr_ok cfg s hash →
  ∃ o, find_allocated mac (Z.to_nat (all_index cfg)) 0 s = Ok (o, s) ∧
    match o with
    | Some (k, j) => 0 <= k ∧ ∃ b e, hash !! Z.to_nat k = Some b ∧ b !! j = Some e ∧
        List.find (query_element_allocate mac) (all_addresses hash) = Some e
    | None => List.find (query_element_allocate mac) (all_addresses hash) = None
    end.
Proof.
  intros H. destruct (find_allocated_spec mac s hash (Z.to_nat (all_index cfg)) 0) as (o & Ho & Hm).
  - apply H.
  - lia.
  - rewrite <- (ao_len _ _ _ H). unfold zlen. lia.
  - exists o. split; [done|]. rewrite drop_0 in Hm. done.
Qed.

Lemma concat_update hash k b (j : nat) e :
  hash !! k = Some b → b !! j = Some e →
  ∃ A B, all_addresses hash = A ++ e :: B ∧
         ∀ x, all_addresses (<[k := <[j := x]> b]> hash) = A ++ x :: B.
Proof.
  intros Hk Hj. exists (concat (take k hash) ++ take j b), (drop (S j) b ++ concat (drop (S k) hash)).
  unfold all_addresses. split.
  - rewrite <- (take_drop_middle hash k b Hk) at 1. rewrite concat_app. cbn.
    rewrite <- (take_drop_middle b j e Hj) at 1. rewrite <- !app_assoc. done.
  - intros x. rewrite (insert_take_drop hash k) by by apply lookup_lt_Some in Hk.
    rewrite (insert_take_drop b j) by by apply lookup_lt_Some in Hj.
    rewrite concat_app. cbn. rewrite <- !app_assoc. done.
Qed.

Lemma alter_insert_eq {A} (f : A → A) (l : list A) j e : l !! j = Some e → alter f j l = <[j := f e]> l.
Proof.
  revert j. induction l as [|x l IH]; intros [|j]; cbn; [done..|intros [= ->]; done|].
  intros H. f_equal. by apply IH.
Qed.

Lemma update_at_eq s hash k b j e f :
  manager_reserve_addr_hash s = Some hash → hash !! Z.to_nat k = Some b → b !! j = Some e →
  update_at k j f s = Ok (tt, set_hash (Some (<[Z.to_nat k := <[j := f e]> b]> hash)) s).
Proof.
  intros Hs Hb He. unfold update_at, put_bucket, fbind.
  rewrite (get_bucket_eq s hash k b Hs Hb), (get_bucket_eq s hash k b Hs Hb). unfold fmod. rewrite Hs. cbn.
  replace (alter f j b) with (<[j := f e]> b); [done|]. symmetry. by apply alter_insert_eq.
Qed.

Lemma filter_mid {A} (f : A → bool) a x b :
  List.filter f (a ++ x :: b) = List.filter f a ++ (if f x then [x] else []) ++ List.filter f b.
Proof. rewrite List.filter_app. cbn. destruct (f x); done. Qed.

Lemma macs_mid A e B :
  macs (A ++ e :: B) = macs A ++ (if counter_element_allocate e then [dev_mac e] else []) ++ macs B.
Proof. unfold macs. rewrite filter_mid, !map_app. destruct (counter_element_allocate e); done. Qed.

Lemma query_counter mac e :
  query_element_allocate mac e = counter_element_allocate e && (mac =? dev_mac e).
Proof. done. Qed.

(** A device is unknown exactly when it is not among the allocated ones. *)
Lemma addr_of_None l mac : addr_of l mac = None ↔ mac ∉ macs l.
Proof.
  unfold addr_of, macs. induction l as [|e l IH]; cbn.
  - split; [intros _ H; inversion H|done].
  - rewrite query_counter. destruct (counter_element_allocate e); cbn; [|exact IH].
    rewrite not_elem_of_cons. destruct (Z.eqb_spec mac (dev_mac e)) as [->|]; cbn; [|tauto].
    split; [done|]. tauto.
Qed.

Lemma find_Some_in {A} (f : A → bool) l e : List.find f l = Some e → e ∈ l ∧ f e = true.
Proof. intros H. apply List.find_some in H as [Hin Hf]. apply list_elem_of_In in Hin. done. Qed.

Lemma map_inj_in {A B} (f : A → B) l x y : NoDup (map f l) → x ∈ l → y ∈ l → f x = f y → x = y.
Proof.
  induction l as [|z l IH]; cbn; intros Hnd Hx Hy E; [inversion Hx|].
  apply NoDup_cons in Hnd as [Hz Hnd].
  apply elem_of_cons in Hx as [->|Hx]; apply elem_of_cons in Hy as [->|Hy]; [done| | |by apply IH].
  - exfalso. apply Hz. rewrite E. by apply (list_elem_of_fmap_2 f).
  - exfalso. apply Hz. rewrite <- E. by apply (list_elem_of_fmap_2 f).
Qed.

(** No two devices share an address. *)
Lemma addr_of_inj l m1 m2 a : table_ok l → addr_of l m1 = Some a → addr_of l m2 = Some a → m1 = m2.
Proof.
  unfold addr_of. intros Ht H1 H2. apply fmap_Some in H1 as (e1 & H1 & ->). apply fmap_Some in H2 as (e2 & H2 & E).
  apply find_Some_in in H1 as [Hi1 Hf1]. apply find_Some_in in H2 as [Hi2 Hf2].
  assert (e1 = e2) as -> by (apply (map_inj_in address l); [apply Ht|done..]).
  rewrite query_counter, andb_true_iff, Z.eqb_eq in Hf1, Hf2. lia.
Qed.

(** Changing one element of the table. *)
Lemma addr_of_use A e B mac : addr_of (A ++ use_again e :: B) mac = addr_of (A ++ e :: B) mac.
Proof.
  unfold addr_of. rewrite !find_app_mid. destruct (List.find _ A); [done|].
  change (query_element_allocate mac (use_again e)) with (query_element_allocate mac e).
  destruct (query_element_allocate mac e); done.
Qed.

Lemma table_use A e B : table_ok (A ++ e :: B) → table_ok (A ++ use_again e :: B).
Proof.
  intros [Ha Hm]. split.
  - rewrite map_app in *. exact Ha.
  - rewrite macs_mid in *. exact Hm.
Qed.

Lemma addr_of_new A e B dev mac :
  counter_element_reserved e = true → addr_of (A ++ e :: B) dev = None →
  addr_of (A ++ allocate_to dev e :: B) mac = if mac =? dev then Some (address e) else addr_of (A ++ e :: B) mac.
Proof.
  intros He Hd. assert (counter_element_allocate e = false) as Hc.
  { unfold counter_element_reserved, counter_element_allocate, ADDRESS_RESERVED, ADDRESS_PREALLOCATED in *. lia. }
  unfold addr_of in *. rewrite find_app_mid in Hd. rewrite !find_app_mid.
  rewrite !query_counter, Hc in *. cbn [andb] in *.
  change (counter_element_allocate (allocate_to dev e)) with true. cbn [andb].
  change (dev_mac (allocate_to dev e)) with dev.
  destruct (Z.eqb_spec mac dev) as [->|]; [|done].
  destruct (List.find _ A); [done|]. done.
Qed.

Lemma table_new A e B dev :
  table_ok (A ++ e :: B) → counter_element_reserved e = true → addr_of (A ++ e :: B) dev = None →
  table_ok (A ++ allocate_to dev e :: B).
Proof.
  intros [Ha Hm] He Hd. assert (counter_element_allocate e = false) as Hc.
  { unfold counter_element_reserved, counter_element_allocate, ADDRESS_RESERVED, ADDRESS_PREALLOCATED in *. lia. }
  apply addr_of_None in Hd. split.
  - rewrite map_app in *. exact Ha.
  - rewrite macs_mid, Hc in Hm, Hd. rewrite macs_mid.
    change (counter_element_allocate (allocate_to dev e)) with true. cbn [app dev_mac allocate_to] in *.
    rewrite <- Permutation_middle. apply NoDup_cons. done.
Qed.

(** ** What the operations do *)

Lemma query_wiotaid_eq cfg s hash mac :
  addr_ok cfg s hash →
  manager_query_wiotaid cfg mac s = Ok (default mac (addr_of (all_addresses hash) mac), s).
Proof.
  intros H. unfold manager_query_wiotaid. destruct (find_all mac cfg s hash H) as (o & Ho & Hm).
  unfold fbind at 1. rewrite Ho. unfold addr_of. destruct o as [[k j]|].
  - destruct Hm as (Hk & b & e & Hb & He & Hf). unfold fbind at 1.
    rewrite (get_bucket_eq s hash k b (ao_hash _ _ _ H) Hb), He, Hf. done.
  - rewrite Hm. done.
Qed.

Lemma reallocate_known cfg s hash dev wid a :
  addr_ok cfg s hash → addr_of (all_addresses hash) dev = Some a →
  ∃ s' hash', manager_reallocated_wiotaid cfg dev wid s = Ok (tt, s') ∧ addr_ok cfg s' hash' ∧
    replies s' = replies s ++ [(AP_DEFAULT_ADDRESS, wid, a)] ∧
    id_reallocated_index s' = id_reallocated_index s ∧
    ∀ mac, addr_of (all_addresses hash') mac = addr_of (all_addresses hash) mac.
Proof.
  intros H Ha. unfold manager_reallocated_wiotaid. destruct (find_all dev cfg s hash H) as (o & Ho & Hm).
  unfold fbind at 1. rewrite Ho. unfold addr_of in Ha. destruct o as [[k j]|]; [|rewrite Hm in Ha; done].
  destruct Hm as (Hk & b & e & Hb & He & Hf). rewrite Hf in Ha. injection Ha as <-.
  unfold fbind at 1. rewrite (get_bucket_eq s hash k b (ao_hash _ _ _ H) Hb), He.
  unfold fbind. rewrite (update_at_eq s hash k b j e use_again (ao_hash _ _ _ H) Hb He).
  destruct (concat_update hash _ b j e Hb He) as (A & B & HA & HB).
  eexists _, (<[Z.to_nat k := <[j := use_again e]> b]> hash). split; [reflexivity|].
  destruct H as [H1 H2 H3 H4 H5 H6]. split; [|split; [done|split; [done|]]].
  - split; cbn; unfold zlen in *; rewrite ?length_insert; try done. rewrite HB. apply table_use. rewrite <- HA. done.
  - intros mac. rewrite HA, HB. apply addr_of_use.
Qed.

(** The list the next allocation looks at. *)
Definition current_list (s : addr_state) (hash : list (list t_manager_address)) : list t_manager_address :=
  default [] (hash !! Z.to_nat (id_reallocated_index s)).

Lemma current_lookup cfg s hash :
  addr_ok cfg s hash → hash !! Z.to_nat (id_reallocated_index s) = Some (current_list s hash).
Proof.
  intros H. unfold current_list. destruct (lookup_lt_is_Some_2 hash (Z.to_nat (id_reallocated_index s))) as [b Hb].
  { pose proof (ao_index _ _ _ H). unfold zlen in *. lia. }
  rewrite Hb. done.
Qed.

Lemma count_first f l : count_such f l = 0 ↔ first_idx f l = None.
Proof.
  unfold count_such, zlen. induction l as [|x l IH]; cbn; [done|]. destruct (f x); cbn.
  - split; [lia|done].
  - rewrite IH. destruct (first_idx f l); cbn; split; done.
Qed.

Lemma reallocate_new cfg s hash dev wid :
  addr_ok cfg s hash → addr_of (all_addresses hash) dev = None →
  count_such counter_element_reserved (current_list s hash) ≠ 0 →
  ∃ s' hash' a, manager_reallocated_wiotaid cfg dev wid s = Ok (tt, s') ∧ addr_ok cfg s' hash' ∧
    replies s' = replies s ++ [(AP_DEFAULT_ADDRESS, wid, a)] ∧
    (∀ mac, addr_of (all_addresses hash) mac ≠ Some a) ∧
    ∀ mac, addr_of (all_addresses hash') mac = if mac =? dev then Some a else addr_of (all_addresses hash) mac.
Proof.
  intros H Ha Hc. unfold manager_reallocated_wiotaid. destruct (find_all dev cfg s hash H) as (o & Ho & Hm).
  unfold fbind at 1. rewrite Ho. destruct o as [[k j]|].
  { destruct Hm as (_ & b & e & _ & _ & Hf). unfold addr_of in Ha. rewrite Hf in Ha. done. }
  pose proof (current_lookup cfg s hash H) as Hb. set (b := current_list s hash) in *.
  destruct (Z.to_nat (all_index cfg)) as [|fuel] eqn:Efuel.
  { pose proof (ao_index _ _ _ H). pose proof (ao_len _ _ _ H). lia. }
  cbn [allocate_loop]. unfold fbind at 1, fget. unfold fbind at 1.
  rewrite (get_bucket_eq s hash _ b (ao_hash _ _ _ H) Hb).
  rewrite (proj2 (Z.eqb_neq _ _) Hc). cbn [negb].
  destruct (first_idx counter_element_reserved b) as [j|] eqn:Ej; [|apply count_first in Ej; done].
  apply first_idx_Some in Ej as (e & He & Hr & _).
  unfold fbind. rewrite (update_at_eq s hash _ b j e (allocate_to dev) (ao_hash _ _ _ H) Hb He), He. cbn.
  destruct (concat_update hash _ b j e Hb He) as (A & B & HA & HB).
  eexists _, (<[Z.to_nat (id_reallocated_index s) := <[j := allocate_to dev e]> b]> hash), (address e).
  split; [reflexivity|]. destruct H as [H1 H2 H3 H4 H5 H6]. split; [|split; [done|split]].
  - split; cbn; unfold zlen in *; rewrite ?length_insert; try done.
    + pose proof (u8_range (id_reallocated_index s + 1)) as [? ?]. destruct (Z.gtb_spec (u8 (id_reallocated_index s + 1)) (all_index cfg - 1)); lia.
    + pose proof (u8_range (id_reallocated_index s + 1)) as [? ?]. destruct (u8 _ >? _); lia.
    + rewrite HB. apply table_new; [rewrite <- HA; done|done|rewrite <- HA; done].
  - intros mac Hmac. unfold addr_of in Hmac. apply fmap_Some in Hmac as (e' & Hf & Ea).
    apply find_Some_in in Hf as [Hin Hf].
    assert (e' = e) as ->.
    { apply (map_inj_in address (all_addresses hash)); [apply H5|done| |done]. rewrite HA. apply elem_of_app. right. left. }
    rewrite query_counter, andb_true_iff in Hf. destruct Hf as [Hf _].
    unfold counter_element_reserved, counter_element_allocate, ADDRESS_RESERVED, ADDRESS_PREALLOCATED in *. lia.
  - intros mac. rewrite HB, HA in *. by apply addr_of_new.
Qed.

Lemma allocate_loop_stuck s hash dev wid n fuel cfg :
  addr_ok cfg s hash → count_such counter_element_reserved (current_list s hash) = 0 →
  allocate_loop dev wid n fuel s = Ok (tt, s).
Proof.
  intros H Hc. induction fuel as [|fuel IH]; [done|]. cbn [allocate_loop]. unfold fbind at 1, fget. unfold fbind at 1.
  rewrite (get_bucket_eq s hash _ _ (ao_hash _ _ _ H) (current_lookup cfg s hash H)), Hc. cbn. exact IH.
Qed.

Lemma reallocate_none cfg s hash dev wid :
  addr_ok cfg s hash → addr_of (all_addresses hash) dev = None →
  count_such counter_element_reserved (current_list s hash) = 0 →
  manager_reallocated_wiotaid cfg dev wid s = Ok (tt, s).
Proof.
  intros H Ha Hc. unfold manager_reallocated_wiotaid. destruct (find_all dev cfg s hash H) as (o & Ho & Hm).
  unfold fbind at 1. rewrite Ho. destruct o as [[k j]|].
  { destruct Hm as (_ & b & e & _ & _ & Hf). unfold addr_of in Ha. rewrite Hf in Ha. done. }
  by eapply allocate_loop_stuck.
Qed.

Lemma reallocate_total cfg s hash dev wid :
  addr_ok cfg s hash → ∃ s' hash', manager_reallocated_wiotaid cfg dev wid s = Ok (tt, s') ∧ addr_ok cfg s' hash'.
Proof.
  intros H. destruct (addr_of (all_addresses hash) dev) as [a|] eqn:Ha.
  - destruct (reallocate_known cfg s hash dev wid a H Ha) as (s' & hash' & E & Hok & _). eauto.
  - destruct (Z.eqb_spec (count_such counter_element_reserved (current_list s hash)) 0) as [Hc|Hc].
    + exists s, hash. split; [by apply (reallocate_none cfg s hash)|done].
    + destruct (reallocate_new cfg s hash dev wid H Ha Hc) as (s' & hash' & a & E & Hok & _). eauto.
Qed.

Definition reserved_node (a : Z) : t_manager_address :=
  {| address := a; dev_mac := 0; allocate_flag := ADDRESS_RESERVED; current_com_count := 0 |}.

Lemma concat_push hash k b :
  hash !! k = Some b →
  ∃ A B, all_addresses hash = A ++ B ∧ ∀ x, all_addresses (<[k := x :: b]> hash) = A ++ x :: B.
Proof.
  intros Hk. exists (concat (take k hash)), (b ++ concat (drop (S k) hash)). unfold all_addresses. split.
  - rewrite <- (take_drop_middle hash k b Hk) at 1. rewrite concat_app. done.
  - intros x. rewrite (insert_take_drop hash k) by by apply lookup_lt_Some in Hk. rewrite concat_app. done.
Qed.

Lemma push_reserved A B a mac :
  addr_of (A ++ reserved_node a :: B) mac = addr_of (A ++ B) mac ∧ macs (A ++ reserved_node a :: B) = macs (A ++ B).
Proof.
  split.
  - unfold addr_of. rewrite find_app_mid, find_concat. done.
  - rewrite macs_mid. unfold macs. rewrite List.filter_app, map_app. done.
Qed.

Definition position (p : uc_dev_pos_t) : Z := burst_idx p + group_idx p * 8.

Lemma reserve_loop_spec cfg ids : ∀ pos s hash,
  addr_ok cfg s hash → length pos = length ids → Forall (λ p, 0 <= position p < zlen hash) pos →
  NoDup (ids ++ map address (all_addresses hash)) →
  ∃ s' hash', reserve_loop ids pos s = Ok (tt, s') ∧ addr_ok cfg s' hash' ∧
    id_reallocated_index s' = id_reallocated_index s ∧ replies s' = replies s ∧
    all_addresses hash' ≡ₚ map reserved_node ids ++ all_addresses hash ∧
    ∀ mac, addr_of (all_addresses hash') mac = addr_of (all_addresses hash) mac.
Proof.
  induction ids as [|a ids IH]; intros pos s hash H Hl Hp Hnd.
  { exists s, hash. done. }
  destruct pos as [|p pos]; [done|]. cbn in Hl. apply Forall_cons in Hp as [Hp1 Hp].
  cbn [reserve_loop]. destruct H as [H1 H2 H3 H4 H5 H6].
  destruct (lookup_lt_is_Some_2 hash (Z.to_nat (position p))) as [b Hb]; [unfold zlen in *; lia|].
  unfold fbind at 1, am_malloc. rewrite H6. unfold fbind at 1, fret. fold (reserved_node a) (position p).
  unfold insert_head, fbind at 1. unfold fbind at 1, am_malloc. rewrite H6.
  unfold fbind at 1. rewrite (get_bucket_eq s hash (position p) b H1 Hb).
  unfold put_bucket, fbind at 1. rewrite (get_bucket_eq s hash (position p) b H1 Hb). unfold fmod. rewrite H1. cbn.
  destruct (concat_push hash _ b Hb) as (A & B & HA & HB).
  cbn in Hnd. apply NoDup_cons in Hnd as [Ha Hnd]. rewrite elem_of_app in Ha.
  destruct (IH pos (set_hash (Some (<[Z.to_nat (position p) := reserved_node a :: b]> hash)) s)
    (<[Z.to_nat (position p) := reserved_node a :: b]> hash)) as (s' & hash' & Hrun & Hok & Hi & Hr & Hperm & Ho).
  - split; cbn; unfold zlen in *; rewrite ?length_insert; try done. rewrite HB. rewrite HA in *. destruct H5 as [Hx Hy]. split.
    + rewrite map_app. cbn. rewrite <- Permutation_middle. apply NoDup_cons. rewrite <- map_app. tauto.
    + rewrite (proj2 (push_reserved A B a 0)). done.
  - lia.
  - revert Hp. unfold zlen. rewrite length_insert. done.
  - rewrite HB, map_app. cbn. rewrite <- (Permutation_middle (map address A)), <- Permutation_middle, <- map_app, <- HA.
    apply NoDup_cons. rewrite elem_of_app. done.
  - exists s', hash'. split; [exact Hrun|]. split; [done|]. split; [done|]. split; [done|]. split.
    + rewrite Hperm, HB, HA. cbn. rewrite <- (Permutation_middle A), <- Permutation_middle. done.
    + intros mac. rewrite Ho, HB, HA. apply push_reserved.
Qed.

(** ** Properties *)


Definition demo_cfg : frame_config := {| group_number := 0; dlul_ratio := 0 |}.
Definition demo_hash : list (list t_manager_address) :=
  [[]; [reserved_node 100; reserved_node 101]; []; []; []; []; []; []].
Definition demo_addr (i : Z) : addr_state :=
  {| manager_reserve_addr_hash := Some demo_hash; id_reallocated_index := i; replies := []; requests := 1; am_mem := [] |}.

Lemma demo_addr_ok i : 0 <= i < 8 → addr_ok demo_cfg (demo_addr i) demo_hash.
Proof.
  intros Hi. split; try done; [cbn; lia|]. split.
  - apply (bool_decide_unpack _). vm_compute. exact I.
  - constructor.
Defined.


(** While the current list has no reserved address, every request of a new
    device is ignored: the search does not go on to the other lists, and as the
    state does not change, all later requests are ignored too. *)
Theorem reallocate_stuck cfg s hash reqs :
  addr_ok cfg s hash → count_such counter_element_reserved (current_list s hash) = 0 →
  Forall (λ r : Z * Z, addr_of (all_addresses hash) r.1 = None) reqs →
  foldr (λ r k, fbind (manager_reallocated_wiotaid cfg r.1 r.2) (λ _, k)) (fret tt) reqs s = Ok (tt, s).
Proof.
  intros H Hc. induction 1 as [|r reqs Hr _ IH]; [done|]. cbn. unfold fbind.
  rewrite (reallocate_none cfg s hash) by done. exact IH.
Qed.

Lemma reallocate_stuck_witness :
  count_such counter_element_reserved (all_addresses demo_hash) = 2 ∧
  foldr (λ r k, fbind (manager_reallocated_wiotaid demo_cfg r.1 r.2) (λ _, k)) (fret tt) [(7, 9); (8, 10)] (demo_addr 0) =
  Ok (tt, demo_addr 0).
Proof.
  split; [reflexivity|]. apply (reallocate_stuck demo_cfg (demo_addr 0) demo_hash); [apply demo_addr_ok; lia|reflexivity|].
  repeat constructor.
Defined.

(** Addresses that the server reserves, when they are new and the protocol
    stack knows their positions, are all entered, each once and unallocated;
    the table stays consistent and no device's address changes. *)
Theorem reserved_address_entered cfg s hash positions pos start last :
  addr_ok cfg s hash → 0 <= start → start <= last < 4294967296 → last - start < 2147483647 →
  let ids := id_array start (last - start + 1) in
  positions ids = Some pos → length pos = length ids → Forall (λ p, 0 <= position p < zlen hash) pos →
  NoDup (ids ++ map address (all_addresses hash)) →
  ∃ s' hash', manager_get_reserved_address positions start last s = Ok (tt, s') ∧ addr_ok cfg s' hash' ∧
    all_addresses hash' ≡ₚ map reserved_node ids ++ all_addresses hash ∧
    ∀ mac, addr_of (all_addresses hash') mac = addr_of (all_addresses hash) mac.
Proof.
  intros H H0 H1 H2 ids Hpos Hl Hp Hnd. unfold manager_get_reserved_address.
  assert (s32 (last - start + 1) = last - start + 1) as ->.
  { unfold s32. rewrite Z.mod_small by lia. lia. }
  rewrite (proj2 (Z.leb_gt _ _)) by lia. unfold fbind at 1, am_malloc. rewrite (ao_mem _ _ _ H).
  unfold fbind at 1, fret. fold ids. rewrite Hpos.
  destruct (reserve_loop_spec cfg ids pos s hash H Hl Hp Hnd) as (s' & hash' & E & Hok & _ & _ & Hperm & Ho).
  eauto 8.
Qed.

Lemma reserved_address_entered_witness :
  ∃ s' hash', manager_get_reserved_address (λ ids, Some (map (λ a, {| group_idx := 0; burst_idx := a mod 8 |}) ids)) 200 202
                (demo_addr 0) = Ok (tt, s') ∧ addr_ok demo_cfg s' hash' ∧
    all_addresses hash' ≡ₚ map reserved_node [200; 201; 202] ++ all_addresses demo_hash ∧
    ∀ mac, addr_of (all_addresses hash') mac = addr_of (all_addresses demo_hash) mac.
Proof.
  refine (reserved_address_entered demo_cfg (demo_addr 0) demo_hash
    (λ ids, Some (map (λ a, {| group_idx := 0; burst_idx := a mod 8 |}) ids)) _ 200 202 _ _ _ _ eq_refl eq_refl _ _).
  - apply demo_addr_ok. lia.
  - lia.
  - lia.
  - lia.
  - vm_compute. repeat constructor; intros ?; discriminate.
  - apply (bool_decide_unpack _). vm_compute. exact I.
Defined.
