(* ===== verification/Freq.v ===== *)
(** * Choosing a frequency and starting the radio

    app/wiota_manager/manager_wiota/manager_wiota_freq.c: the state machine
    that scans, ranks the channels no other access point uses by the power
    received on them, and starts the radio on the quietest one with the next
    one to hop to.  The list of channels is an [rt_list] of rt-thread
    (include/rtservice.h); its links are cells of the heap of [ManagerList],
    without data, and the rest of an element is kept beside them. *)

From S2P Require Import Prelude WiotaApi ManagerList.
From Stdlib Require Import Sorted.

Definition WIOTA_MANAGER_PROCESS_SCAN : Z := 1.
Definition WIOTA_MANAGER_PROCESS_INIT : Z := 2.
Definition WIOTA_MANAGER_PROCESS_RUN : Z := 3.
Definition WIOTA_MANAGER_PROCESS_STRATEGY : Z := 4.
Definition WIOTA_MANAGER_PROCESS_EXIT : Z := 5.
Definition WIOTA_SCAN_TIMEOUT : Z := 40000.

Record t_freq_node_manager := {
  freq : Z; snr : Z; rssi : Z; is_synced : Z; send_cucess_rate : Z
}.

Record uc_scan_freq_t := { sf_freq_idx : Z; sf_snr : Z; sf_rssi : Z; sf_is_synced : Z }.

(** What the radio is told, and the pauses in between. *)
Inductive radio_event :=
| Radio {T : Type} (e : wiotaE T)
| Delay (ms : Z).

(** [g_wiota_manager_freq] without its list head, whose links are in the heap;
    [fdata] holds the [data] member of the allocated list elements. *)
Record freq_state (R : Type) := {
  fdata : gmap Z t_freq_node_manager;
  current_freq_node : Z;
  continue_scan_fail : Z;
  manager_state : Z;
  wiota_state : Z;
  radio : R;
  radio_log : list radio_event
}.
Arguments fdata {R} _. Arguments current_freq_node {R} _. Arguments continue_scan_fail {R} _.
Arguments manager_state {R} _. Arguments wiota_state {R} _. Arguments radio {R} _. Arguments radio_log {R} _.

(** &g_wiota_manager_freq.freq_list.node, and RT_NULL. *)
Definition freq_head : Z := 1.
Definition RT_NULL : Z := 0.

Section Ops.
Context {R : Type} `{LIB : WiotaLib R}.
Local Abbreviation M := (FW (lheap (freq_state R))).
Local Open Scope fw_scope.

Definition set_fdata v (s : freq_state R) := {| fdata := v; current_freq_node := current_freq_node s;
  continue_scan_fail := continue_scan_fail s; manager_state := manager_state s; wiota_state := wiota_state s;
  radio := radio s; radio_log := radio_log s |}.
Definition set_current v (s : freq_state R) := {| fdata := fdata s; current_freq_node := v;
  continue_scan_fail := continue_scan_fail s; manager_state := manager_state s; wiota_state := wiota_state s;
  radio := radio s; radio_log := radio_log s |}.
Definition set_fail v (s : freq_state R) := {| fdata := fdata s; current_freq_node := current_freq_node s;
  continue_scan_fail := v; manager_state := manager_state s; wiota_state := wiota_state s;
  radio := radio s; radio_log := radio_log s |}.
Definition set_process v (s : freq_state R) := {| fdata := fdata s; current_freq_node := current_freq_node s;
  continue_scan_fail := continue_scan_fail s; manager_state := v; wiota_state := wiota_state s;
  radio := radio s; radio_log := radio_log s |}.
Definition set_radio (v : R) e (s : freq_state R) := {| fdata := fdata s; current_freq_node := current_freq_node s;
  continue_scan_fail := continue_scan_fail s; manager_state := manager_state s; wiota_state := wiota_state s;
  radio := v; radio_log := radio_log s ++ [e] |}.
Definition zero_manager (s : freq_state R) := {| fdata := fdata s; current_freq_node := RT_NULL;
  continue_scan_fail := 0; manager_state := 0; wiota_state := 0;
  radio := radio s; radio_log := radio_log s |}.

Definition gets (f : freq_state R → Z) : M Z := fgets (λ h, f (ext h)).
Definition mods (f : freq_state R → freq_state R) : M unit := fmod (λ h, with_ext (f (ext h)) h).

Definition rcall {T} (e : wiotaE T) : M T :=
  λ h, let '(v, r) := wiota_call e (radio (ext h)) in
       Ok (v, with_ext (set_radio r (Radio e) (ext h)) h).
Definition rt_thread_mdelay (ms : Z) : M unit := mods (λ s, set_radio (radio s) (Delay ms) s).

(** The [data] member of an element. *)
Definition get_elem (p : Z) : M t_freq_node_manager :=
  λ h, match fdata (ext h) !! p with Some d => Ok (d, h) | None => Fault NullDeref end.
Definition put_elem (p : Z) (d : t_freq_node_manager) : M unit :=
  mods (λ s, set_fdata (<[p := d]> (fdata s)) s).
Definition elem_free (p : Z) : M unit :=
  node_free p;;; mods (λ s, set_fdata (delete p (fdata s)) s).

(** ** rt_list *)

Definition rt_list_init (l : Z) : M unit := set_pre l l;;; set_next l l.

Definition rt_list_insert_after (l n : Z) : M unit :=
  nx <-- get_next l;; set_pre nx n;;;
  nx <-- get_next l;; set_next n nx;;;
  set_next l n;;;
  set_pre n l.

Definition rt_list_insert_before (l n : Z) : M unit :=
  pr <-- get_pre l;; set_next pr n;;;
  pr <-- get_pre l;; set_pre n pr;;;
  set_pre l n;;;
  set_next n l.

Definition rt_list_remove (n : Z) : M unit :=
  nx <-- get_next n;; pr <-- get_pre n;; set_pre nx pr;;;
  pr <-- get_pre n;; nx <-- get_next n;; set_next pr nx;;;
  set_pre n n;;; set_next n n.

(** ** The list of channels *)

(** [char] is unsigned on the target, so the comparison with 0xFF works. *)
Fixpoint static_loop (n : nat) (list : list Z) (num : Z) : result Z :=
  match n with
  | O => Ok num
  | S n =>
      b <-? slice num 1 list;;
      if bool_decide (b = [0xFF]) then Ok num else static_loop n list (num + 1)
  end.

Definition manager_wiota_get_static_freq : M (list Z * Z) :=
  list <-- rcall uc_wiota_get_freq_list;;
  num <-- flift (static_loop 16 list 0);;
  fret (list, num).

Definition manager_wiota_freq_list_init : M unit :=
  put_node freq_head {| ndata := 0; nnext := RT_NULL; npre := RT_NULL |};;;
  mods zero_manager;;;
  rt_list_init freq_head.

Fixpoint find_node_loop (fuel : nat) (f op : Z) : M (option Z) :=
  match fuel with
  | O => ffail OutOfFuel
  | S fuel =>
      if op =? freq_head then fret None
      else
        d <-- get_elem op;;
        if freq d =? f then fret (Some op)
        else nx <-- get_next op;; find_node_loop fuel f nx
  end.

Definition manager_wiota_find_node (f : Z) : M (option Z) :=
  walk (λ fuel op, find_node_loop fuel f op) freq_head.

Definition node_of (e : uc_scan_freq_t) : t_freq_node_manager :=
  {| freq := sf_freq_idx e; snr := sf_snr e; rssi := sf_rssi e; is_synced := sf_is_synced e;
     send_cucess_rate := 0 |}.

Fixpoint insert_loop (fuel : nat) (new_node op : Z) : M unit :=
  match fuel with
  | O => ffail OutOfFuel
  | S fuel =>
      if op =? freq_head then
        pr <-- get_pre freq_head;; rt_list_insert_after pr new_node
      else
        d <-- get_elem op;;
        n <-- get_elem new_node;;
        if rssi d >? rssi n then rt_list_insert_before op new_node
        else nx <-- get_next op;; insert_loop fuel new_node nx
  end.

Definition manager_wiota_add_freq_list (e : uc_scan_freq_t) : M unit :=
  temp <-- manager_wiota_find_node (sf_freq_idx e);;
  match temp with
  | Some temp =>
      d <-- get_elem temp;;
      put_elem temp {| freq := freq d; snr := sf_snr e; rssi := sf_rssi e; is_synced := sf_is_synced e;
                       send_cucess_rate := 0 |}
  | None =>
      new_node <-- node_malloc;;
      match new_node with
      | None => fret tt
      | Some new_node =>
          put_elem new_node (node_of e);;;
          walk (λ fuel op, insert_loop fuel new_node op) freq_head
      end
  end.

Definition manager_wiota_remove_freq_list (e : uc_scan_freq_t) : M unit :=
  temp <-- manager_wiota_find_node (sf_freq_idx e);;
  match temp with
  | Some temp => rt_list_remove temp;;; elem_free temp
  | None => fret tt
  end.

(** The successor is read from the element that was just freed. *)
Fixpoint clean_freq_loop (fuel : nat) (next_node : Z) : M unit :=
  match fuel with
  | O => ffail OutOfFuel
  | S fuel =>
      if next_node =? freq_head then fret tt
      else
        elem_free next_node;;;
        nx <-- get_next next_node;;
        clean_freq_loop fuel nx
  end.

Definition manager_wiota_clean_freq_list : M unit :=
  walk clean_freq_loop freq_head;;;
  manager_wiota_freq_list_init.

Definition manager_wiota_choose_freq : M Z :=
  tmp <-- get_next freq_head;;
  if tmp =? freq_head then fret 1
  else
    cur <-- gets current_freq_node;;
    if cur =? RT_NULL then mods (set_current tmp);;; fret 0
    else
      tmp <-- get_next cur;;
      if tmp =? freq_head then mods (set_current RT_NULL);;; fret 2
      else mods (set_current tmp);;; fret 0.

Definition manager_wiota_only_freq (f : Z) : M Z :=
  manager_wiota_add_freq_list {| sf_freq_idx := f; sf_snr := 0; sf_rssi := 0; sf_is_synced := 0 |};;;
  fret 0.

(** The [i]-th structure of the data of a scan. *)
Definition scan_entry (data : list Z) (i : Z) : result uc_scan_freq_t :=
  b <-? slice (4 * i) 4 data;;
  match b with
  | [f; s; r; y] => Ok {| sf_freq_idx := f; sf_snr := s8 s; sf_rssi := s8 r; sf_is_synced := y |}
  | _ => Fault OutOfBounds
  end.

Fixpoint freq_manager_loop (n : nat) (data : list Z) (i re : Z) : M Z :=
  match n with
  | O => fret re
  | S n =>
      e <-- flift (scan_entry data i);;
      (if sf_is_synced e =? 0 then manager_wiota_add_freq_list e
       else manager_wiota_remove_freq_list e);;;
      freq_manager_loop n data (i + 1) 0
  end.

Definition manager_wiota_freq_manager (result : uc_scan_recv_t) : M Z :=
  if UC_OP_SUCC =? sc_result result then
    let freq_num := sc_data_len result / 4 in
    freq_manager_loop (Z.to_nat freq_num) (sc_data result) 0 1
  else fret 1.

Definition manager_wiota_scan_freq : M Z :=
  rcall uc_wiota_init;;;
  rcall uc_wiota_run;;;
  manager_wiota_clean_freq_list;;;
  '(list, list_len) <-- manager_wiota_get_static_freq;;
  res <--
    (if list_len =? 0 then
       '(_, result) <-- rcall (uc_wiota_scan_freq None 0 0 (-1) None);;
       manager_wiota_freq_manager result
     else if list_len =? 1 then
       b <-- flift (slice 0 1 list);;
       manager_wiota_only_freq (nth 0 b 0)
     else
       '(_, result) <-- rcall (uc_wiota_scan_freq (Some list) list_len 0 WIOTA_SCAN_TIMEOUT None);;
       manager_wiota_freq_manager result);;
  rcall uc_wiota_exit;;;
  fret res.

(** ** The state machine *)

(** One turn of the loop of [manager_wiota].  The loop ends when the state is
    STRATEGY, so the case of that state is never taken. *)
Definition manager_wiota_turn : M unit :=
  st <-- gets manager_state;;
  if st =? WIOTA_MANAGER_PROCESS_SCAN then
    res <-- manager_wiota_scan_freq;;
    if negb (res =? 0) then
      mods (λ s, set_fail (s32 (continue_scan_fail s + 1)) s);;;
      n <-- gets continue_scan_fail;;
      rt_thread_mdelay (s32 (1000 * n));;;
      mods (set_process WIOTA_MANAGER_PROCESS_SCAN)
    else mods (set_process WIOTA_MANAGER_PROCESS_INIT)
  else if st =? WIOTA_MANAGER_PROCESS_INIT then
    r <-- manager_wiota_choose_freq;;
    if negb (r =? 0) then mods (set_process WIOTA_MANAGER_PROCESS_SCAN)
    else
      rcall uc_wiota_init;;;
      cur <-- gets current_freq_node;; d <-- get_elem cur;;
      rcall (uc_wiota_set_freq_info (freq d));;;
      r <-- manager_wiota_choose_freq;;
      (if r =? 0 then
         cur <-- gets current_freq_node;; d <-- get_elem cur;;
         rcall (uc_wiota_set_hopping_freq (freq d));;;
         rcall (uc_wiota_set_hopping_mode 2 2);;; fret tt
       else fret tt);;;
      mods (set_process WIOTA_MANAGER_PROCESS_RUN)
  else if st =? WIOTA_MANAGER_PROCESS_RUN then
    rcall uc_wiota_run;;;
    mods (set_fail 0);;;
    mods (set_process WIOTA_MANAGER_PROCESS_STRATEGY)
  else if st =? WIOTA_MANAGER_PROCESS_EXIT then
    rcall uc_wiota_exit;;;
    mods (set_process WIOTA_MANAGER_PROCESS_INIT)
  else fret tt.

Fixpoint manager_wiota_loop (fuel : nat) : M unit :=
  match fuel with
  | O => ffail OutOfFuel
  | S fuel =>
      st <-- gets manager_state;;
      if st =? WIOTA_MANAGER_PROCESS_STRATEGY then fret tt
      else manager_wiota_turn;;; manager_wiota_loop fuel
  end.

Definition manager_wiota (fuel : nat) : M Z :=
  manager_wiota_freq_list_init;;;
  mods (set_process WIOTA_MANAGER_PROCESS_SCAN);;;
  manager_wiota_loop fuel;;;
  fret 0.

Definition manager_wiota_exit : M unit :=
  manager_wiota_clean_freq_list;;;
  rcall uc_wiota_exit.
End Ops.

(** ** Ranking of channels *)

Fixpoint update_first (f : Z) (d' : t_freq_node_manager) (ds : list t_freq_node_manager) : list t_freq_node_manager :=
  match ds with
  | [] => []
  | d :: ds => if freq d =? f then d' :: ds else d :: update_first f d' ds
  end.

Fixpoint drop_first (f : Z) (ds : list t_freq_node_manager) : list t_freq_node_manager :=
  match ds with
  | [] => []
  | d :: ds => if freq d =? f then ds else d :: drop_first f ds
  end.

(** In front of the first channel with more power. *)
Fixpoint place (x : t_freq_node_manager) (ds : list t_freq_node_manager) : list t_freq_node_manager :=
  match ds with
  | [] => [x]
  | d :: ds => if rssi d >? rssi x then x :: d :: ds else d :: place x ds
  end.

(** A scan result on the list, with the outcomes of the next allocations. *)
Definition rank_step (st : list t_freq_node_manager * list bool) (e : uc_scan_freq_t)
  : list t_freq_node_manager * list bool :=
  let '(ds, m) := st in
  if sf_is_synced e =? 0 then
    if existsb (λ d, freq d =? sf_freq_idx e) ds then (update_first (sf_freq_idx e) (node_of e) ds, m)
    else match m with
         | false :: m => (ds, m)
         | m => (place (node_of e) ds, tail m)
         end
  else (drop_first (sf_freq_idx e) ds, m).

Definition rank (es : list uc_scan_freq_t) (m : list bool) : list t_freq_node_manager * list bool :=
  foldl rank_step ([], m) es.

Section Proofs.
Context {R : Type} `{LIB : WiotaLib R}.
Implicit Type h : lheap (freq_state R).

Definition bare (ps : list (Z * t_freq_node_manager)) : list (Z * Z) := (λ p, (p.1, 0)) <$> ps.

(** The heap holds the channels [ps] (address, data), in order. *)
Record chans h (ps : list (Z * t_freq_node_manager)) : Prop := {
  ch_list : is_list h freq_head (bare ps);
  ch_data : Forall (λ p, fdata (ext h) !! p.1 = Some p.2) ps;
  ch_pos : Forall (λ p, 0 < p.1) ps;
  ch_brk : 0 < brk h
}.

(** Everything but the channels is the same. *)
Definition same_rest h h' : Prop := ∃ m, ext h' = set_fdata m (ext h).

Lemma bare_fst ps : (bare ps).*1 = ps.*1.
Proof. unfold bare. rewrite <- list_fmap_compose. done. Qed.

Lemma bare_app a b : bare (a ++ b) = bare a ++ bare b.
Proof. apply fmap_app. Qed.

Lemma same_rest_ext h h' : ext h' = ext h → same_rest h h'.
Proof. intros E. exists (fdata (ext h)). rewrite E. destruct (ext h). done. Qed.
Lemma same_rest_refl h : same_rest h h.
Proof. by apply same_rest_ext. Qed.

Lemma same_rest_trans h1 h2 h3 : same_rest h1 h2 → same_rest h2 h3 → same_rest h1 h3.
Proof. intros [m E] [m' E']. exists m'. rewrite E', E. done. Qed.

Lemma elem_at h a p d b :
  chans h (a ++ (p, d) :: b) →
  p ≠ freq_head ∧ get_elem p h = Ok (d, h) ∧ nxt (cells h) p = Some (fst_or freq_head b.*1).
Proof.
  intros [Hl Hd _ _]. rewrite bare_app in Hl. cbn in Hl. change (list_fmap _ _ _ b) with (bare b) in Hl.
  destruct (node_at _ _ _ _ _ _ Hl) as (Hp & _ & Hn & _).
  rewrite bare_fst in Hn. split_and!; try done.
  apply Forall_app in Hd as [_ Hd]. apply Forall_cons in Hd as [Hd _]. unfold get_elem. cbn in Hd. rewrite Hd. done.
Qed.

Lemma find_loop_cases f h a ps fuel :
  chans h (a ++ ps) → (length ps < fuel)%nat →
  (∃ b p d c, ps = b ++ (p, d) :: c ∧ freq d = f ∧ Forall (λ q, freq q.2 ≠ f) b ∧
              find_node_loop fuel f (fst_or freq_head ps.*1) h = Ok (Some p, h)) ∨
  (Forall (λ q, freq q.2 ≠ f) ps ∧ find_node_loop fuel f (fst_or freq_head ps.*1) h = Ok (None, h)).
Proof.
  revert a fuel. induction ps as [|[p d] ps IH]; intros a fuel Hc Hf;
    (destruct fuel as [|fuel]; [cbn in Hf; lia|]); cbn [find_node_loop].
  - right. split; [constructor|done].
  - destruct (elem_at _ _ _ _ _ Hc) as (Hp & He & Hn). cbn [fst_or fmap list_fmap fst].
    rewrite (proj2 (Z.eqb_neq _ _)) by done. erewrite bind_Ok by exact He.
    destruct (Z.eqb_spec (freq d) f) as [Hf1|Hf1].
    + left. exists [], p, d, ps. split_and!; done.
    + erewrite bind_Ok by (apply get_next_eq; exact Hn).
      assert (chans h ((a ++ [(p, d)]) ++ ps)) as Hc' by (rewrite <- app_assoc; done).
      destruct (IH _ fuel Hc') as [(b & q & d' & c & -> & E1 & E2 & E3)|[E1 E2]]; [cbn in Hf; lia| |].
      * left. exists ((p, d) :: b), q, d', c. split_and!; try done. constructor; done.
      * right. split; [constructor; done|done].
Qed.

Lemma fuel_enough h ps : chans h ps → (length ps < S (size (cells h)))%nat.
Proof.
  intros [Hl _ _ _]. apply length_cells in Hl. unfold bare in Hl. rewrite length_fmap in Hl. lia.
Qed.

Lemma walk_chans {A} (f : nat → Z → FW (lheap (freq_state R)) A) h ps :
  chans h ps → walk f freq_head h = f (S (size (cells h))) (fst_or freq_head ps.*1) h.
Proof. intros [Hl _ _ _]. erewrite walk_spec by exact Hl. rewrite bare_fst. done. Qed.

Lemma find_cases f h ps :
  chans h ps →
  (∃ b p d c, ps = b ++ (p, d) :: c ∧ freq d = f ∧ Forall (λ q, freq q.2 ≠ f) b ∧
              manager_wiota_find_node f h = Ok (Some p, h)) ∨
  (Forall (λ q, freq q.2 ≠ f) ps ∧ manager_wiota_find_node f h = Ok (None, h)).
Proof.
  intros Hc. unfold manager_wiota_find_node. rewrite (walk_chans _ h ps) by done.
  apply (find_loop_cases f h [] ps); [done|]. by apply fuel_enough.
Qed.

(** The list functions at a found element. *)
Lemma update_first_at f d' (b : list t_freq_node_manager) d c :
  freq d = f → Forall (λ q, freq q ≠ f) b → update_first f d' (b ++ d :: c) = b ++ d' :: c.
Proof.
  intros Hd. induction 1 as [|x b Hx _ IH]; cbn; [rewrite (proj2 (Z.eqb_eq _ _)) by done; done|].
  rewrite (proj2 (Z.eqb_neq _ _)), IH by done. done.
Qed.
Lemma drop_first_at f (b : list t_freq_node_manager) d c :
  freq d = f → Forall (λ q, freq q ≠ f) b → drop_first f (b ++ d :: c) = b ++ c.
Proof.
  intros Hd. induction 1 as [|x b Hx _ IH]; cbn; [rewrite (proj2 (Z.eqb_eq _ _)) by done; done|].
  rewrite (proj2 (Z.eqb_neq _ _)), IH by done. done.
Qed.
Lemma drop_first_none f (b : list t_freq_node_manager) : Forall (λ q, freq q ≠ f) b → drop_first f b = b.
Proof.
  induction 1 as [|x b Hx _ IH]; cbn; [done|]. rewrite (proj2 (Z.eqb_neq _ _)), IH by done. done.
Qed.
Lemma exists_first_at f (b : list t_freq_node_manager) d c :
  freq d = f → existsb (λ d, freq d =? f) (b ++ d :: c) = true.
Proof. intros Hd. rewrite existsb_app. cbn. rewrite Hd, Z.eqb_refl, orb_true_r. done. Qed.
Lemma exists_none f (b : list t_freq_node_manager) : Forall (λ q, freq q ≠ f) b → existsb (λ d, freq d =? f) b = false.
Proof. induction 1 as [|x b Hx _ IH]; cbn; [done|]. rewrite (proj2 (Z.eqb_neq _ _)), IH by done. done. Qed.

Lemma Forall_snd (P : t_freq_node_manager → Prop) (b : list (Z * t_freq_node_manager)) :
  Forall (λ q, P q.2) b → Forall P b.*2.
Proof. intros H. apply Forall_fmap. done. Qed.

(** ** rt_list at the level of the represented list *)

Lemma new_cell h l a b (h1 := with_node 0 h) (x := lst l a.*1) (y := fst_or l b.*1) (n := brk h) :
  is_list h l (a ++ b) →
  nxt (cells h1) x = Some y ∧ prv (cells h1) y = Some x ∧
  is_Some (cells h1 !! x) ∧ is_Some (cells h1 !! y) ∧ is_Some (cells h1 !! n) ∧ x ≠ n ∧ y ≠ n.
Proof.
  intros Hl. destruct (il_next _ _ _ _ Hl) as [Hn Hp]. destruct (il_last_in _ _ _ _ Hl) as [Hx Hy].
  fold x in Hn, Hp, Hx. fold y in Hn, Hp, Hy.
  pose proof (il_alloc _ _ _ _ Hl Hx) as Ax. pose proof (il_alloc _ _ _ _ Hl Hy) as Ay.
  pose proof (il_brk _ _ _ Hl _ Ax). pose proof (il_brk _ _ _ Hl _ Ay).
  assert (x ≠ n ∧ y ≠ n) as [Dx Dy] by (split; lia).
  subst h1. cbn [cells with_node]. fold n. rewrite insert_nxt, insert_prv, !insert_Some, !decide_False by done.
  split_and!; auto.
Qed.

Lemma insert_before_spec h e l a b (y := fst_or l b.*1) :
  is_list h l (a ++ b) →
  ∃ h', rt_list_insert_before y (brk h) (with_ext e (with_node 0 h)) = Ok (tt, h') ∧
        is_list h' l (a ++ (brk h, 0) :: b) ∧ brk h' = brk h + 1 ∧ oks h' = tail (oks h) ∧ ext h' = e.
Proof.
  intros Hl. destruct (new_cell _ _ _ _ Hl) as (Hn & Hp & Ax & Ay & An & Dx & Dy). fold y in Hn, Hp, Ay, Dy.
  unfold rt_list_insert_before.
  erewrite bind_Ok; [|apply get_pre_eq; exact Hp]. erewrite bind_Ok; [|apply set_next_eq; exact Ax].
  erewrite bind_Ok; [|apply get_pre_eq; cbn [cells upd_cells with_ext]; rewrite alter_wn_prv; exact Hp].
  erewrite bind_Ok; [|apply set_pre_eq; cbn [cells upd_cells with_ext]; rewrite !alter_Some; exact An].
  erewrite bind_Ok; [|apply set_pre_eq; cbn [cells upd_cells with_ext]; rewrite !alter_Some; exact Ay].
  rewrite set_next_eq by (cbn [cells upd_cells with_ext]; rewrite !alter_Some; exact An).
  eexists. split; [reflexivity|]. split; [|done].
  apply (insert_between h); [exact Hl| | | | |reflexivity]; fold y; cbn [cells with_node upd_cells with_ext] in *.
  - links.
  - links.
  - links.
  - intros z. rewrite !alter_Some, insert_Some. tauto.
Qed.

Lemma insert_after_spec h e l a b (x := lst l a.*1) :
  is_list h l (a ++ b) →
  ∃ h', rt_list_insert_after x (brk h) (with_ext e (with_node 0 h)) = Ok (tt, h') ∧
        is_list h' l (a ++ (brk h, 0) :: b) ∧ brk h' = brk h + 1 ∧ oks h' = tail (oks h) ∧ ext h' = e.
Proof.
  intros Hl. destruct (new_cell _ _ _ _ Hl) as (Hn & Hp & Ax & Ay & An & Dx & Dy). fold x in Hn, Hp, Ax, Dx.
  unfold rt_list_insert_after.
  erewrite bind_Ok; [|apply get_next_eq; exact Hn]. erewrite bind_Ok; [|apply set_pre_eq; exact Ay].
  erewrite bind_Ok; [|apply get_next_eq; cbn [cells upd_cells with_ext]; rewrite alter_wp_nxt; exact Hn].
  erewrite bind_Ok; [|apply set_next_eq; cbn [cells upd_cells with_ext]; rewrite !alter_Some; exact An].
  erewrite bind_Ok; [|apply set_next_eq; cbn [cells upd_cells with_ext]; rewrite !alter_Some; exact Ax].
  rewrite set_pre_eq by (cbn [cells upd_cells with_ext]; rewrite !alter_Some; exact An).
  eexists. split; [reflexivity|]. split; [|done].
  apply (insert_between h); [exact Hl| | | | |reflexivity]; fold x; cbn [cells with_node upd_cells with_ext] in *.
  - links.
  - links.
  - links.
  - intros z. rewrite !alter_Some, insert_Some. tauto.
Qed.

Lemma list_remove_spec h l a p d b :
  is_list h l (a ++ (p, d) :: b) →
  ∃ h', rt_list_remove p h = Ok (tt, h') ∧ is_list h' l (a ++ b) ∧ (p ∉ l :: (a ++ b).*1) ∧
        is_Some (cells h' !! p) ∧ brk h' = brk h ∧ oks h' = oks h ∧ ext h' = ext h.
Proof.
  intros Hl. destruct (unlinked _ _ _ _ _ _ Hl) as (Hl1 & Hd & Hp & Ax & Ay & Dx & Dy).
  destruct (node_at _ _ _ _ _ _ Hl) as (Hpl & _ & Hn & Hpr). pose proof (nxt_Some _ _ _ Hn) as Ap.
  unfold rt_list_remove. erewrite bind_Ok; [|apply get_next_eq, Hn]. erewrite bind_Ok; [|apply get_pre_eq, Hpr].
  erewrite bind_Ok; [|apply set_pre_eq, Ay].
  erewrite bind_Ok; [|apply get_pre_eq; cbn [cells upd_cells]; rewrite alter_wp_S, decide_False by done; exact Hpr].
  erewrite bind_Ok; [|apply get_next_eq; cbn [cells upd_cells]; rewrite alter_wp_nxt; exact Hn].
  erewrite bind_Ok; [|apply set_next_eq; alloc]. erewrite bind_Ok; [|apply set_pre_eq; alloc].
  rewrite set_next_eq by alloc. eexists. split; [reflexivity|]. split_and!; try done; [|alloc].
  eapply is_list_agree; [| |exact Hl1].
  - intros z Hz. assert (p ≠ z) by (intros ->; done). cbn [cells upd_cells].
    do 2 rewrite lookup_alter_ne by done. rewrite alter_commute. done.
  - intros q. cbn [cells upd_cells brk]. rewrite !alter_Some. apply Hl.
Qed.

(** ** Adding and removing a channel *)

(** The state after an element for [x] was allocated and filled. *)
Definition with_elem (x : t_freq_node_manager) h : lheap (freq_state R) :=
  with_ext (set_fdata (<[brk h := x]> (fdata (ext h))) (ext h)) (with_node 0 h).

Lemma chans_lt h ps : chans h ps → Forall (λ p, p.1 < brk h) ps.
Proof.
  intros [Hl _ _ _]. apply Forall_forall. intros [p d] Hin. apply (il_brk _ _ _ Hl).
  apply (il_alloc _ _ _ _ Hl). rewrite bare_fst. right. by apply (list_elem_of_fmap_2 fst _ (p, d)).
Qed.

Lemma data_insert (m : gmap Z t_freq_node_manager) n x (ps : list (Z * t_freq_node_manager)) :
  Forall (λ p, p.1 ≠ n) ps → Forall (λ p, m !! p.1 = Some p.2) ps →
  Forall (λ p, <[n := x]> m !! p.1 = Some p.2) ps.
Proof.
  intros H1 H2. apply Forall_forall. intros q Hin.
  rewrite Forall_forall in H1. rewrite Forall_forall in H2.
  rewrite lookup_insert_ne; [by apply H2|]. intros ->. by apply (H1 q).
Qed.

Lemma chans_new x h ps : chans h ps → chans (with_elem x h) ps.
Proof.
  intros Hc. pose proof (chans_lt _ _ Hc) as Hlt. destruct Hc as [Hl Hd Hp Hb]. split; try done.
  - apply is_list_ext, with_node_keeps. done.
  - cbn. apply data_insert; [|done]. eapply Forall_impl; [exact Hlt|]. cbn. lia.
  - cbn. lia.
Qed.

Lemma chans_inserted h h' x a b c :
  chans h (a ++ b ++ c) →
  is_list h' freq_head (bare (a ++ b) ++ (brk h, 0) :: bare c) →
  brk h' = brk h + 1 → ext h' = ext (with_elem x h) → chans h' (a ++ b ++ (brk h, x) :: c).
Proof.
  intros Hc Hl' Hb' He. pose proof (chans_new x _ _ Hc) as [_ Hd _ _]. destruct Hc as [_ _ Hp Hb].
  rewrite app_assoc in *. apply Forall_app in Hd as [Hd1 Hd2]. apply Forall_app in Hp as [Hp1 Hp2]. split.
  - rewrite bare_app. done.
  - rewrite He. apply Forall_app. split; [done|]. constructor; [|done]. cbn. apply lookup_insert_eq.
  - apply Forall_app. split; [done|]. constructor; done.
  - lia.
Qed.

Lemma insert_loop_spec x h a ps fuel (s := with_elem x h) :
  chans h (a ++ ps) → (length ps < fuel)%nat →
  ∃ b c h', ps = b ++ c ∧ place x ps.*2 = b.*2 ++ x :: c.*2 ∧
    insert_loop fuel (brk h) (fst_or freq_head ps.*1) s = Ok (tt, h') ∧
    chans h' (a ++ b ++ (brk h, x) :: c) ∧ oks h' = tail (oks h) ∧ ext h' = ext s.
Proof.
  revert a fuel. induction ps as [|[p d] ps IH]; intros a fuel Hc Hf;
    (destruct fuel as [|fuel]; [cbn in Hf; lia|]); cbn [insert_loop].
  - exists [], []. pose proof (ch_list _ _ Hc) as Hl. rewrite app_nil_r in Hl.
    rewrite <- (app_nil_r (bare a)) in Hl.
    destruct (insert_after_spec h (ext s) freq_head (bare a) [] Hl) as (h' & E1 & Hl' & Hb & Ho & He).
    exists h'. split_and!; try done.
    + cbn [fst_or fmap list_fmap]. rewrite Z.eqb_refl.
      pose proof (chans_new x _ _ Hc) as [Hls _ _ _]. rewrite app_nil_r, <- (app_nil_r (bare a)) in Hls.
      destruct (il_next _ _ _ _ Hls) as [_ Hpr]. cbn [fst_or fmap list_fmap] in Hpr.
      erewrite bind_Ok by (apply get_pre_eq; exact Hpr). done.
    + apply chans_inserted; try done. rewrite app_nil_r. done.
  - destruct (elem_at _ _ _ _ _ (chans_new x _ _ Hc)) as (Hp & Hge & Hn). fold s in Hge, Hn.
    cbn [fst_or fmap list_fmap fst]. rewrite (proj2 (Z.eqb_neq _ _)) by done. erewrite bind_Ok by exact Hge.
    assert (get_elem (brk h) s = Ok (x, s)) as Hx.
    { unfold get_elem. cbn. rewrite lookup_insert_eq. done. }
    erewrite bind_Ok by exact Hx. cbn [place snd]. destruct (rssi d >? rssi x).
    + exists [], ((p, d) :: ps). pose proof (ch_list _ _ Hc) as Hl. rewrite bare_app in Hl.
      destruct (insert_before_spec h (ext s) freq_head (bare a) _ Hl) as (h' & E1 & Hl' & Hb & Ho & He).
      exists h'. split_and!; try done. apply chans_inserted; try done. rewrite app_nil_r. done.
    + erewrite bind_Ok by (apply get_next_eq; exact Hn).
      assert (chans h ((a ++ [(p, d)]) ++ ps)) as Hc' by (rewrite <- app_assoc; done).
      destruct (IH _ fuel Hc') as (b & c & h' & -> & E1 & E2 & E3 & E4 & E5); [cbn in Hf; lia|].
      exists ((p, d) :: b), c, h'. split_and!; try done.
      * cbn. f_equal. exact E1.
      * rewrite <- app_assoc in E3. done.
Qed.

Definition holds h ds : Prop := ∃ ps, chans h ps ∧ ps.*2 = ds.

Lemma chans_update h b p d d' c :
  chans h (b ++ (p, d) :: c) →
  chans (with_ext (set_fdata (<[p := d']> (fdata (ext h))) (ext h)) h) (b ++ (p, d') :: c).
Proof.
  intros [Hl Hd Hpos Hb]. assert (bare (b ++ (p, d') :: c) = bare (b ++ (p, d) :: c)) as Hbare.
  { rewrite !bare_app. done. }
  split; cbn [ext with_ext brk fdata set_fdata].
  - rewrite Hbare. apply is_list_ext. done.
  - pose proof (il_nodup _ _ _ Hl) as Hnd. rewrite bare_fst, fmap_app in Hnd. cbn in Hnd.
    apply NoDup_cons in Hnd as [_ Hnd]. apply NoDup_app in Hnd as (_ & Hn1 & Hn2). apply NoDup_cons in Hn2 as [Hn2 _].
    apply Forall_app in Hd as [Hd1 Hd2]. apply Forall_cons in Hd2 as [_ Hd2]. apply Forall_app. split.
    + apply data_insert; [|done]. apply Forall_forall. intros [q t] Hq Heq. cbn in Heq. subst q.
      apply (Hn1 p); [by apply (list_elem_of_fmap_2 fst _ (p, t))|left].
    + constructor; [cbn; apply lookup_insert_eq|]. apply data_insert; [|done]. apply Forall_forall.
      intros [q t] Hq Heq. cbn in Heq. subst q. apply Hn2. by apply (list_elem_of_fmap_2 fst _ (p, t)).
  - apply Forall_app in Hpos as [Hp1 Hp2]. apply Forall_cons in Hp2 as [Hp2 Hp3].
    apply Forall_app. split; [done|]. constructor; done.
  - done.
Qed.

Lemma node_malloc_ok h : can_malloc h → node_malloc h = Ok (Some (brk h), with_node 0 h).
Proof. unfold can_malloc, node_malloc, with_node. destruct (oks h) as [|[] m]; done. Qed.

Lemma chans_oks h ps m (h' := {| cells := cells h; brk := brk h; oks := m; released := released h; ext := ext h |}) :
  chans h ps → chans h' ps.
Proof. intros [[] ? ? ?]. split; done. Qed.

(** The state after one scan result: [st] is the ranked list and the outcomes
    of the allocations to come. *)
Definition ranked h (st : list t_freq_node_manager * list bool) : Prop := holds h st.1 ∧ oks h = st.2.

Lemma add_freq_spec e h st :
  sf_is_synced e = 0 → ranked h st →
  ∃ h', manager_wiota_add_freq_list e h = Ok (tt, h') ∧ same_rest h h' ∧ ranked h' (rank_step st e).
Proof.
  destruct st as [ds m]. intros Hs [(ps & Hc & E0) Ho]. cbn in E0, Ho. subst ds m.
  unfold manager_wiota_add_freq_list, rank_step. rewrite (proj2 (Z.eqb_eq _ _)) by done.
  destruct (find_cases (sf_freq_idx e) h ps Hc) as [(b & p & d & c & -> & E1 & E2 & E3)|[E1 E2]].
  - erewrite bind_Ok by exact E3. destruct (elem_at _ _ _ _ _ Hc) as (Hp & Hge & _).
    erewrite bind_Ok by exact Hge.
    replace {| freq := freq d; snr := sf_snr e; rssi := sf_rssi e; is_synced := sf_is_synced e; send_cucess_rate := 0 |}
      with (node_of e) by (unfold node_of; rewrite E1; done).
    eexists. split; [reflexivity|]. split; [eexists; reflexivity|]. rewrite fmap_app. cbn [fmap list_fmap snd].
    rewrite exists_first_at by done. change (list_fmap _ _ snd c) with c.*2.
    rewrite update_first_at by (try done; by apply Forall_snd). split; [|done].
    exists (b ++ (p, node_of e) :: c). split; [|rewrite fmap_app; done]. eapply chans_update. done.
  - erewrite bind_Ok by exact E2. rewrite exists_none by (by apply Forall_snd).
    destruct (oks h) as [|[] m] eqn:Ho.
    3: { eexists. unfold node_malloc, fbind. rewrite Ho. split; [reflexivity|]. split; [by apply same_rest_ext|].
         split; [|done]. exists ps. split; [by apply chans_oks|done]. }
    all: assert (can_malloc h) as Hok by (unfold can_malloc; rewrite Ho; done).
    all: rewrite (bind_Ok _ _ _ _ _ (node_malloc_ok h Hok)); erewrite bind_Ok by reflexivity.
    all: pose proof (chans_new (node_of e) _ _ Hc) as Hn;
         change (with_ext (set_fdata (<[brk h := node_of e]> (fdata (ext (with_node 0 h)))) (ext (with_node 0 h)))
                   (with_node 0 h)) with (with_elem (node_of e) h);
         rewrite (walk_chans _ _ _ Hn);
         destruct (insert_loop_spec (node_of e) h [] ps _ Hc (fuel_enough _ _ Hn)) as (b & c & h' & -> & P1 & P2 & P3 & P4 & P5);
         exists h'; split; [exact P2|]; split; [exists (fdata (ext h')); rewrite P5; done|];
         (split; [|rewrite P4, Ho; done]); exists (b ++ (brk h, node_of e) :: c); split; [exact P3|];
         rewrite fmap_app; symmetry; exact P1.
Qed.

Lemma remove_freq_spec e h st :
  sf_is_synced e ≠ 0 → ranked h st →
  ∃ h', manager_wiota_remove_freq_list e h = Ok (tt, h') ∧ same_rest h h' ∧ ranked h' (rank_step st e).
Proof.
  destruct st as [ds m]. intros Hs [(ps & Hc & E0) Ho]. cbn in E0, Ho. subst ds m.
  unfold manager_wiota_remove_freq_list, rank_step. rewrite (proj2 (Z.eqb_neq _ _)) by done.
  destruct (find_cases (sf_freq_idx e) h ps Hc) as [(b & p & d & c & -> & E1 & E2 & E3)|[E1 E2]].
  - erewrite bind_Ok by exact E3. destruct Hc as [Hl Hd Hpos Hb]. rewrite bare_app in Hl.
    destruct (list_remove_spec _ _ _ _ _ _ Hl) as (h1 & R1 & R2 & R3 & R4 & R5 & R6 & R7).
    erewrite bind_Ok by exact R1. unfold elem_free. erewrite bind_Ok by (apply node_free_eq; exact R4).
    eexists. split; [reflexivity|]. split; [eexists; cbn; rewrite R7; reflexivity|].
    split; [|cbn; rewrite R6; done].
    exists (b ++ c). split; [|cbn; rewrite !fmap_app; symmetry; apply drop_first_at; [done|by apply Forall_snd]].
    change (list_fmap _ _ _ c) with (bare c) in R2, R3. rewrite <- bare_app in R2, R3. split.
    + apply is_list_ext. apply delete_keeps; done.
    + cbn. rewrite R7. rewrite Forall_app, Forall_cons in Hd. destruct Hd as (Hd1 & _ & Hd2).
      apply Forall_forall. intros q Hq. rewrite Forall_forall in Hd1, Hd2. rewrite lookup_delete_ne.
      * apply elem_of_app in Hq as [Hq|Hq]; auto.
      * cbn in R3. intros ->. apply R3. rewrite bare_fst. right. apply (list_elem_of_fmap_2 fst _ q). done.
    + rewrite Forall_app, Forall_cons in Hpos. apply Forall_app. tauto.
    + cbn. rewrite R5. done.
  - erewrite bind_Ok by exact E2. eexists. split; [reflexivity|]. split; [apply same_rest_refl|]. split; [|done].
    exists ps. split; [done|]. symmetry. apply drop_first_none. by apply Forall_snd.
Qed.

(** ** A scan *)

Lemma ranked_ext e h st : fdata e = fdata (ext h) → ranked h st → ranked (with_ext e h) st.
Proof.
  intros E [(ps & [Hl Hd Hp Hb] & Hds) Ho]. split; [|done]. exists ps. split; [|done].
  split; try done; [by apply is_list_ext|]. cbn. rewrite E. done.
Qed.

Lemma rcall_eq {T} (e : wiotaE T) h v r :
  wiota_call e (radio (ext h)) = (v, r) →
  rcall e h = Ok (v, with_ext (set_radio r (Radio e) (ext h)) h).
Proof. intros E. unfold rcall. rewrite E. done. Qed.

Fixpoint entries_at (data : list Z) (i : Z) (es : list uc_scan_freq_t) : Prop :=
  match es with
  | [] => True
  | e :: es => scan_entry data i = Ok e ∧ entries_at data (i + 1) es
  end.

Lemma freq_manager_loop_spec data es i re h st :
  entries_at data i es → ranked h st →
  ∃ h', freq_manager_loop (length es) data i re h = Ok (match es with [] => re | _ => 0 end, h') ∧
        same_rest h h' ∧ ranked h' (foldl rank_step st es).
Proof.
  revert i re h st. induction es as [|e es IH]; intros i re h st He Hr; cbn [length freq_manager_loop foldl].
  - exists h. split; [done|]. split; [apply same_rest_refl|done].
  - destruct He as [He Hes].
    assert (∃ h1, (if sf_is_synced e =? 0 then manager_wiota_add_freq_list e
                   else manager_wiota_remove_freq_list e) h = Ok (tt, h1) ∧
                  same_rest h h1 ∧ ranked h1 (rank_step st e)) as (h1 & E1 & S1 & R1).
    { destruct (Z.eqb_spec (sf_is_synced e) 0); [by apply add_freq_spec|by apply remove_freq_spec]. }
    destruct (IH (i + 1) 0 h1 _ Hes R1) as (h2 & E2 & S2 & R2).
    exists h2. unfold fbind at 1, flift. rewrite He. rewrite (bind_Ok _ _ _ _ _ E1), E2. split.
    + destruct es; done.
    + split; [by eapply same_rest_trans|done].
Qed.

(** The list head is a node of the heap, and rt_malloc gives out other addresses. *)
Record base h : Prop := {
  base_head : is_Some (cells h !! freq_head);
  base_brk : ∀ p, is_Some (cells h !! p) → p < brk h
}.

Lemma freq_list_init_spec h :
  base h →
  ∃ h', manager_wiota_freq_list_init h = Ok (tt, h') ∧ ranked h' ([], oks h) ∧ ext h' = zero_manager (ext h).
Proof.
  intros [[n Hn] Hb]. assert (freq_head < brk h) by (apply Hb; eauto).
  unfold manager_wiota_freq_list_init.
  erewrite bind_Ok by (apply (put_alter h _ n (λ _, _)); exact Hn). erewrite bind_Ok by reflexivity.
  unfold rt_list_init. erewrite bind_Ok; [|apply set_pre_eq; cbn [cells upd_cells with_ext]; rewrite alter_Some; eauto].
  rewrite set_next_eq by (cbn [cells upd_cells with_ext]; rewrite !alter_Some; eauto).
  eexists. split; [reflexivity|]. split; [|done]. split; [|done]. exists []. split; [|done].
  split; [|constructor|constructor|unfold freq_head in *; cbn; lia]. split; cbn.
  - apply NoDup_singleton.
  - unfold nxt, prv. rewrite !lookup_alter_eq, Hn. done.
  - constructor.
  - intros p. rewrite !alter_Some. apply Hb.
Qed.

Lemma ranked_base h st : ranked h st → base h.
Proof.
  intros [(ps & [Hl _ _ _] & _) _]. split; [eapply il_alloc; [exact Hl|left]|apply Hl].
Qed.

Lemma clean_empty h m :
  ranked h ([], m) →
  ∃ h', manager_wiota_clean_freq_list h = Ok (tt, h') ∧ ranked h' ([], m) ∧ ext h' = zero_manager (ext h).
Proof.
  intros Hr. pose proof (ranked_base _ _ Hr) as Hb. destruct Hr as [(ps & Hc & Hnil) Ho]. cbn in Hnil, Ho.
  destruct ps; [|done]. unfold manager_wiota_clean_freq_list. unfold fbind at 1.
  rewrite (walk_chans _ _ _ Hc). cbn [fst_or fmap list_fmap clean_freq_loop]. rewrite Z.eqb_refl. cbn.
  destruct (freq_list_init_spec h Hb) as (h' & E & Hr & He). rewrite Ho in Hr. eauto.
Qed.

(** What a scan of the protocol stack found: nothing, or a list of channels. *)
Definition scan_outcome (res : uc_scan_recv_t) (o : option (list uc_scan_freq_t)) : Prop :=
  match o with
  | None => sc_result res ≠ UC_OP_SUCC
  | Some es => sc_result res = UC_OP_SUCC ∧ zlen es = sc_data_len res / 4 ∧ entries_at (sc_data res) 0 es
  end.

Definition ranking (o : option (list uc_scan_freq_t)) (m : list bool) : list t_freq_node_manager * list bool :=
  match o with Some es => rank es m | None => ([], m) end.
Definition found_any (o : option (list uc_scan_freq_t)) : bool :=
  match o with Some (_ :: _) => true | _ => false end.

Lemma freq_manager_spec res o h m :
  scan_outcome res o → ranked h ([], m) →
  ∃ h', manager_wiota_freq_manager res h = Ok (if found_any o then 0 else 1, h') ∧
        same_rest h h' ∧ ranked h' (ranking o m).
Proof.
  intros Ho Hr. unfold manager_wiota_freq_manager. destruct o as [es|]; cbn [scan_outcome ranking] in *.
  - destruct Ho as (-> & Hlen & Hes). rewrite Z.eqb_refl. rewrite <- Hlen. unfold zlen. rewrite Nat2Z.id.
    destruct (freq_manager_loop_spec (sc_data res) es 0 1 h _ Hes Hr) as (h' & E & S1 & R1).
    exists h'. split; [rewrite E; destruct es; done|done].
  - rewrite (proj2 (Z.eqb_neq _ _)) by auto. exists h. split; [done|]. split; [apply same_rest_refl|done].
Qed.

(** One scan as seen by the protocol stack: the calls, what they found and the
    stack's state behind them.  The list of preset channels decides the scan. *)
Definition started (r : R) : R := (wiota_call uc_wiota_run (wiota_call uc_wiota_init r).2).2.
Definition stopped (r : R) : R := (wiota_call uc_wiota_exit r).2.
Definition scan_calls (l : list radio_event) : list radio_event :=
  [Radio uc_wiota_init; Radio uc_wiota_run; Radio uc_wiota_get_freq_list] ++ l ++ [Radio uc_wiota_exit].

Inductive scan_round (r : R) : list radio_event → option (list uc_scan_freq_t) → R → Prop :=
| round_all list r1 rc res r2 o :
    wiota_call uc_wiota_get_freq_list (started r) = (list, r1) →
    static_loop 16 list 0 = Ok 0 →
    wiota_call (uc_wiota_scan_freq None 0 0 (-1) None) r1 = ((rc, res), r2) →
    scan_outcome res o →
    scan_round r (scan_calls [Radio (uc_wiota_scan_freq None 0 0 (-1) None)]) o (stopped r2)
| round_preset f list r1 :
    wiota_call uc_wiota_get_freq_list (started r) = (f :: list, r1) →
    static_loop 16 (f :: list) 0 = Ok 1 →
    scan_round r (scan_calls [])
      (Some [{| sf_freq_idx := f; sf_snr := 0; sf_rssi := 0; sf_is_synced := 0 |}]) (stopped r1)
| round_some n list r1 rc res r2 o (e := uc_wiota_scan_freq (Some list) n 0 WIOTA_SCAN_TIMEOUT None) :
    wiota_call uc_wiota_get_freq_list (started r) = (list, r1) →
    static_loop 16 list 0 = Ok n → 1 < n →
    wiota_call e r1 = ((rc, res), r2) →
    scan_outcome res o →
    scan_round r (scan_calls [Radio e]) o (stopped r2).

Lemma scan_prefix h m list r1 n {B} (k : _ → FW (lheap (freq_state R)) B) :
  ranked h ([], m) →
  wiota_call uc_wiota_get_freq_list (started (radio (ext h))) = (list, r1) →
  static_loop 16 list 0 = Ok n →
  ∃ h1, (rcall uc_wiota_init;;; rcall uc_wiota_run;;; manager_wiota_clean_freq_list;;;
         fbind manager_wiota_get_static_freq k)%fw h = k (list, n) h1 ∧
        ranked h1 ([], m) ∧ radio (ext h1) = r1 ∧ current_freq_node (ext h1) = RT_NULL ∧
        continue_scan_fail (ext h1) = 0 ∧
        radio_log (ext h1) = radio_log (ext h) ++ [Radio uc_wiota_init; Radio uc_wiota_run; Radio uc_wiota_get_freq_list].
Proof.
  intros Hr Hl Hn. unfold started in Hl.
  destruct (wiota_call uc_wiota_init (radio (ext h))) as [u1 a1] eqn:E1. cbn [snd] in Hl.
  destruct (wiota_call uc_wiota_run a1) as [u2 a2] eqn:E2. cbn [snd] in Hl.
  rewrite (bind_Ok _ _ _ _ _ (rcall_eq _ _ _ _ E1)).
  set (h1 := with_ext _ h). assert (ranked h1 ([], m)) as Hr1 by (apply ranked_ext; done).
  rewrite (bind_Ok _ _ _ _ _ (rcall_eq uc_wiota_run h1 _ _ E2)).
  set (h2 := with_ext _ h1). assert (ranked h2 ([], m)) as Hr2 by (apply ranked_ext; done).
  destruct (clean_empty h2 m Hr2) as (h3 & E3 & Hr3 & He3). rewrite (bind_Ok _ _ _ _ _ E3).
  assert (wiota_call uc_wiota_get_freq_list (radio (ext h3)) = (list, r1)) as Hl3 by (rewrite He3; done).
  unfold manager_wiota_get_static_freq. rewrite fbind_assoc.
  rewrite (bind_Ok _ _ _ _ _ (rcall_eq _ _ _ _ Hl3)). unfold fbind, flift. rewrite Hn.
  eexists. split; [reflexivity|]. split; [apply ranked_ext; done|]. cbn. rewrite He3. cbn.
  split_and!; try done. rewrite <- !app_assoc. done.
Qed.

Lemma scan_call (e : wiotaE (Z * uc_scan_recv_t)) rc res r2 o h m :
  wiota_call e (radio (ext h)) = ((rc, res), r2) → scan_outcome res o → ranked h ([], m) →
  ∃ h', ('(_, result) <-- rcall e;; manager_wiota_freq_manager result)%fw h =
        Ok (if found_any o then 0 else 1, h') ∧ ranked h' (ranking o m) ∧ radio (ext h') = r2 ∧
        current_freq_node (ext h') = current_freq_node (ext h) ∧
        continue_scan_fail (ext h') = continue_scan_fail (ext h) ∧
        radio_log (ext h') = radio_log (ext h) ++ [Radio e].
Proof.
  intros E Ho Hr. rewrite (bind_Ok _ _ _ _ _ (rcall_eq _ _ _ _ E)).
  destruct (freq_manager_spec res o (with_ext (set_radio r2 (Radio e) (ext h)) h) m Ho) as (h' & E' & [d He] & Hr').
  { apply ranked_ext; done. }
  exists h'. rewrite E', He. done.
Qed.

Lemma scan_freq_spec h m ev o r' :
  ranked h ([], m) → scan_round (radio (ext h)) ev o r' →
  ∃ h', manager_wiota_scan_freq h = Ok (if found_any o then 0 else 1, h') ∧ ranked h' (ranking o m) ∧
        radio (ext h') = r' ∧ current_freq_node (ext h') = RT_NULL ∧ continue_scan_fail (ext h') = 0 ∧
        radio_log (ext h') = radio_log (ext h) ++ ev.
Proof.
  intros Hr Hs.
  assert (∀ res (o : option (list uc_scan_freq_t)) ev h1 h2,
    (ranked h2 (ranking o m) ∧ current_freq_node (ext h2) = RT_NULL ∧ continue_scan_fail (ext h2) = 0) →
    radio_log (ext h2) = radio_log (ext h) ++ [Radio uc_wiota_init; Radio uc_wiota_run; Radio uc_wiota_get_freq_list] ++ ev →
    res h1 = Ok (if found_any o then 0 else 1, h2) →
    ∃ h', (res <-- res;; rcall uc_wiota_exit;;; fret res)%fw h1 = Ok (if found_any o then 0 else 1, h') ∧
      ranked h' (ranking o m) ∧
      radio (ext h') = stopped (radio (ext h2)) ∧ current_freq_node (ext h') = RT_NULL ∧
      continue_scan_fail (ext h') = 0 ∧ radio_log (ext h') = radio_log (ext h) ++ scan_calls ev) as Hend.
  { intros res o' ev' h1 h2 (H1 & H2 & H3) H4 H5. rewrite (bind_Ok _ _ _ _ _ H5).
    destruct (wiota_call uc_wiota_exit (radio (ext h2))) as [u a] eqn:E.
    rewrite (bind_Ok _ _ _ _ _ (rcall_eq _ _ _ _ E)). eexists. split; [reflexivity|].
    split; [apply ranked_ext; done|]. cbn. unfold stopped. rewrite E, H4. split_and!; try done.
    unfold scan_calls. rewrite <- app_assoc. done. }
  unfold manager_wiota_scan_freq.
  inversion Hs as [list r1 rc res r2 o' Hl Hn Hscan Ho|f list r1 Hl Hn|n list r1 rc res r2 o' e Hl Hn Hlt Hscan Ho]; subst;
    lazymatch goal with |- context [fbind manager_wiota_get_static_freq ?k] =>
      destruct (scan_prefix h m _ _ _ k Hr Hl Hn) as (h1 & E1 & Hr1 & Hra & Hc & Hf & Hlog) end;
    rewrite E1; cbn [Z.eqb]; clear E1.
  - rewrite <- Hra in Hscan. destruct (scan_call _ _ _ _ _ _ _ Hscan Ho Hr1) as (h2 & E2 & Hr2 & <- & Hc2 & Hf2 & Hlog2).
    apply (Hend _ o _ h1 h2); [split_and!; congruence| |exact E2]. rewrite Hlog2, Hlog, <- app_assoc. done.
  - destruct (add_freq_spec {| sf_freq_idx := f; sf_snr := 0; sf_rssi := 0; sf_is_synced := 0 |} h1 _ eq_refl Hr1)
      as (h2 & E2 & [d He] & Hr2).
    assert (radio (ext h2) = r1) as <- by (rewrite He; done).
    apply (Hend _ (Some [_]) [] h1 h2).
    + split_and!; [exact Hr2|rewrite He; done..].
    + rewrite He. cbn. rewrite Hlog. done.
    + unfold fbind, flift. rewrite slice_Ok by (rewrite ?zlen_cons; unfold zlen; cbn; lia).
      unfold manager_wiota_only_freq. cbn. erewrite bind_Ok by exact E2. done.
  - rewrite (proj2 (Z.eqb_neq n 0)), (proj2 (Z.eqb_neq n 1)) by lia.
    rewrite <- Hra in Hscan. destruct (scan_call _ _ _ _ _ _ _ Hscan Ho Hr1) as (h2 & E2 & Hr2 & <- & Hc2 & Hf2 & Hlog2).
    apply (Hend _ o _ h1 h2); [split_and!; congruence| |exact E2]. rewrite Hlog2, Hlog, <- app_assoc. done.
Qed.

(** ** The state machine *)

(** Rounds of scanning until one finds a free channel: [n] rounds without,
    everything the stack was called with and every pause, the ranked channels,
    the state of the stack and the allocation outcomes behind them. *)
Inductive rounds : nat → R → list bool → list radio_event → list t_freq_node_manager → R → list bool → Prop :=
| rounds_found r m ev o r' ds m' :
    scan_round r ev o r' → found_any o = true → ranking o m = (ds, m') → ds ≠ [] →
    rounds 0 r m ev ds r' m'
| rounds_failed n r m ev o r' ev' ds r'' m' :
    scan_round r ev o r' → found_any o = false → rounds n r' m ev' ds r'' m' →
    rounds (S n) r m (ev ++ Delay 1000 :: ev') ds r'' m'
| rounds_busy n r m ev o r' m1 ev' ds r'' m' :
    scan_round r ev o r' → found_any o = true → ranking o m = ([], m1) → rounds n r' m1 ev' ds r'' m' →
    rounds (S n) r m (ev ++ ev') ds r'' m'.

(** The calls that start the radio on the first channel. *)
Definition start_calls (ds : list t_freq_node_manager) : list radio_event :=
  match ds with
  | [] => []
  | x :: rest =>
      [Radio uc_wiota_init; Radio (uc_wiota_set_freq_info (freq x))] ++
      match rest with
      | [] => []
      | y :: _ => [Radio (uc_wiota_set_hopping_freq (freq y)); Radio (uc_wiota_set_hopping_mode 2 2)]
      end ++ [Radio uc_wiota_run]
  end.

Lemma choose_empty h : chans h [] → manager_wiota_choose_freq h = Ok (1, h).
Proof.
  intros [Hl _ _ _]. unfold manager_wiota_choose_freq. destruct (il_next h freq_head [] _ Hl) as [Hn _].
  erewrite bind_Ok by (apply get_next_eq; exact Hn). done.
Qed.

Lemma first_not_head h p d ps : chans h ((p, d) :: ps) → (p =? freq_head) = false ∧ (p =? RT_NULL) = false.
Proof.
  intros Hc. destruct (elem_at h [] p d ps Hc) as (Hp & _ & _). destruct Hc as [_ _ Hpos _].
  apply Forall_cons in Hpos as [Hpos _]. cbn in Hpos. unfold RT_NULL. split; apply Z.eqb_neq; [done|lia].
Qed.

Lemma choose_first h p d ps :
  chans h ((p, d) :: ps) → current_freq_node (ext h) = RT_NULL →
  manager_wiota_choose_freq h = Ok (0, with_ext (set_current p (ext h)) h).
Proof.
  intros Hc Hcur. destruct (first_not_head _ _ _ _ Hc) as [Hp _]. destruct Hc as [Hl _ _ _].
  unfold manager_wiota_choose_freq. destruct (il_next h freq_head [] _ Hl) as [Hn _].
  erewrite bind_Ok by (apply get_next_eq; exact Hn). cbn [bare fmap list_fmap fst fst_or]. rewrite Hp.
  erewrite bind_Ok by reflexivity. rewrite Hcur, Z.eqb_refl. done.
Qed.

Lemma choose_next h p d ps :
  chans h ((p, d) :: ps) → current_freq_node (ext h) = p →
  manager_wiota_choose_freq h =
  match ps with
  | [] => Ok (2, with_ext (set_current RT_NULL (ext h)) h)
  | (q, _) :: _ => Ok (0, with_ext (set_current q (ext h)) h)
  end.
Proof.
  intros Hc Hcur. destruct (first_not_head _ _ _ _ Hc) as [Hp Hp0].
  destruct (elem_at h [] p d ps Hc) as (_ & _ & Hnx).
  assert (match ps with [] => True | (q, _) :: _ => (q =? freq_head) = false end) as Hq.
  { destruct ps as [|[q e] ps]; [done|]. apply Z.eqb_neq. by destruct (elem_at h [(p, d)] q e ps Hc). }
  destruct Hc as [Hl _ _ _].
  unfold manager_wiota_choose_freq. destruct (il_next h freq_head [] _ Hl) as [Hn _].
  erewrite bind_Ok by (apply get_next_eq; exact Hn). cbn [bare fmap list_fmap fst fst_or]. rewrite Hp.
  erewrite bind_Ok by reflexivity. rewrite Hcur, Hp0. erewrite bind_Ok by (apply get_next_eq; exact Hnx).
  destruct ps as [|[q e] ps]; cbn [fmap list_fmap fst fst_or]; [rewrite Z.eqb_refl|rewrite Hq]; done.
Qed.

Lemma chans_ext e h ps : fdata e = fdata (ext h) → chans h ps → chans (with_ext e h) ps.
Proof. intros E [Hl Hd Hp Hb]. split; try done; [by apply is_list_ext|]. cbn. rewrite E. done. Qed.

(** Decides the tests of the state of the machine. *)
Local Ltac states :=
  repeat match goal with
  | |- context [WIOTA_MANAGER_PROCESS_INIT =? ?b] =>
      let v := eval compute in (WIOTA_MANAGER_PROCESS_INIT =? b) in change (WIOTA_MANAGER_PROCESS_INIT =? b) with v
  | |- context [WIOTA_MANAGER_PROCESS_RUN =? ?b] =>
      let v := eval compute in (WIOTA_MANAGER_PROCESS_RUN =? b) in change (WIOTA_MANAGER_PROCESS_RUN =? b) with v
  end; cbv match.

Lemma loop_turn h h' fuel st :
  manager_state (ext h) = st → (st =? WIOTA_MANAGER_PROCESS_STRATEGY) = false →
  manager_wiota_turn h = Ok (tt, h') → manager_wiota_loop (S fuel) h = manager_wiota_loop fuel h'.
Proof.
  intros <- Hst E. cbn [manager_wiota_loop]. erewrite bind_Ok by reflexivity. rewrite Hst.
  rewrite (bind_Ok _ _ _ _ _ E). done.
Qed.

(** A turn in state SCAN. *)
Lemma turn_scan h m ev o r' :
  ranked h ([], m) → manager_state (ext h) = WIOTA_MANAGER_PROCESS_SCAN → scan_round (radio (ext h)) ev o r' →
  ∃ h', manager_wiota_turn h = Ok (tt, h') ∧ ranked h' (ranking o m) ∧ radio (ext h') = r' ∧
    current_freq_node (ext h') = RT_NULL ∧
    manager_state (ext h') = (if found_any o then WIOTA_MANAGER_PROCESS_INIT else WIOTA_MANAGER_PROCESS_SCAN) ∧
    radio_log (ext h') = radio_log (ext h) ++ ev ++ (if found_any o then [] else [Delay 1000]).
Proof.
  intros Hr Hst Hs. destruct (scan_freq_spec _ _ _ _ _ Hr Hs) as (h1 & E1 & Hr1 & Hra & Hc & Hf & Hlog).
  unfold manager_wiota_turn. erewrite bind_Ok by reflexivity. rewrite Hst, Z.eqb_refl.
  rewrite (bind_Ok _ _ _ _ _ E1). destruct (found_any o); cbn [Z.eqb negb].
  - eexists. split; [reflexivity|]. split; [apply ranked_ext; done|]. cbn. rewrite Hlog, app_nil_r. done.
  - unfold fbind, mods, fmod, gets, fgets, rt_thread_mdelay. cbn. rewrite Hf.
    eexists. split; [reflexivity|]. split; [do 3 (apply ranked_ext; [done|]); done|]. cbn.
    rewrite Hlog, app_assoc. done.
Qed.

(** A turn in state INIT, with and without channels. *)
Lemma turn_init_empty h m :
  ranked h ([], m) → manager_state (ext h) = WIOTA_MANAGER_PROCESS_INIT →
  manager_wiota_turn h = Ok (tt, with_ext (set_process WIOTA_MANAGER_PROCESS_SCAN (ext h)) h).
Proof.
  intros [(ps & Hc & Hnil) _] Hst. destruct ps; [|done].
  unfold manager_wiota_turn. erewrite bind_Ok by reflexivity. rewrite Hst. states.
  rewrite (bind_Ok _ _ _ _ _ (choose_empty _ Hc)). done.
Qed.

Lemma rcall_step {T} (e : wiotaE T) h {B} (k : T → FW (lheap (freq_state R)) B) :
  ∃ v r, wiota_call e (radio (ext h)) = (v, r) ∧
         fbind (rcall e) k h = k v (with_ext (set_radio r (Radio e) (ext h)) h).
Proof.
  destruct (wiota_call e (radio (ext h))) as [v r] eqn:E. exists v, r. split; [done|].
  rewrite (bind_Ok _ _ _ _ _ (rcall_eq _ _ _ _ E)). done.
Qed.

Lemma get_elem_eq h p d : fdata (ext h) !! p = Some d → get_elem p h = Ok (d, h).
Proof. intros E. unfold get_elem. rewrite E. done. Qed.

Lemma turn_init h p x rest :
  chans h ((p, x) :: rest) → manager_state (ext h) = WIOTA_MANAGER_PROCESS_INIT → current_freq_node (ext h) = RT_NULL →
  ∃ h', manager_wiota_turn h = Ok (tt, h') ∧ chans h' ((p, x) :: rest) ∧
    manager_state (ext h') = WIOTA_MANAGER_PROCESS_RUN ∧ oks h' = oks h ∧
    radio_log (ext h') ++ [Radio uc_wiota_run] = radio_log (ext h) ++ start_calls (x :: rest.*2).
Proof.
  intros Hc Hst Hcur. unfold manager_wiota_turn. erewrite bind_Ok by reflexivity. rewrite Hst. states.
  rewrite (bind_Ok _ _ _ _ _ (choose_first _ _ _ _ Hc Hcur)). cbn [Z.eqb negb].
  set (h1 := with_ext _ h). assert (chans h1 ((p, x) :: rest)) as Hc1 by (apply chans_ext; done).
  destruct (rcall_step uc_wiota_init h1 (λ _ : unit, cur <-- gets current_freq_node;; d <-- get_elem cur;;
      rcall (uc_wiota_set_freq_info (freq d));;;
      r <-- manager_wiota_choose_freq;;
      (if r =? 0 then
         cur <-- gets current_freq_node;; d <-- get_elem cur;;
         rcall (uc_wiota_set_hopping_freq (freq d));;;
         rcall (uc_wiota_set_hopping_mode 2 2);;; fret tt
       else fret tt);;;
      mods (set_process WIOTA_MANAGER_PROCESS_RUN))%fw) as (u & r1 & _ & ->).
  set (h2 := with_ext _ h1). assert (chans h2 ((p, x) :: rest)) as Hc2 by (apply chans_ext; done).
  erewrite bind_Ok by reflexivity. change (current_freq_node (ext h2)) with p.
  destruct (elem_at h2 [] p x rest Hc2) as (_ & Hg & _). erewrite bind_Ok by exact Hg.
  lazymatch goal with |- context [fbind (rcall ?e) ?k h2] => destruct (rcall_step e h2 k) as (v & r2 & _ & ->) end.
  set (h3 := with_ext _ h2). assert (chans h3 ((p, x) :: rest)) as Hc3 by (apply chans_ext; done).
  pose proof (choose_next h3 p x rest Hc3 eq_refl) as Hch. destruct rest as [|[q y] rest].
  - erewrite bind_Ok by exact Hch. cbn [Z.eqb]. erewrite bind_Ok by reflexivity. eexists. split; [reflexivity|].
    split; [do 2 (apply chans_ext; [done|]); exact Hc3|]. cbn. rewrite <- !app_assoc. done.
  - erewrite bind_Ok by exact Hch. cbn [Z.eqb]. set (h4 := with_ext _ h3).
    assert (chans h4 ((p, x) :: (q, y) :: rest)) as Hc4 by (apply chans_ext; done).
    rewrite fbind_assoc. erewrite bind_Ok by reflexivity. change (current_freq_node (ext h4)) with q.
    destruct (elem_at h4 [(p, x)] q y rest Hc4) as (_ & Hg4 & _). rewrite fbind_assoc. erewrite bind_Ok by exact Hg4.
    rewrite fbind_assoc.
    lazymatch goal with |- context [fbind (rcall ?e) ?k h4] => destruct (rcall_step e h4 k) as (v5 & r5 & _ & ->) end.
    set (h5 := with_ext _ h4). rewrite fbind_assoc.
    lazymatch goal with |- context [fbind (rcall ?e) ?k h5] => destruct (rcall_step e h5 k) as (v6 & r6 & _ & ->) end.
    erewrite bind_Ok by reflexivity. eexists. split; [reflexivity|].
    split; [do 3 (apply chans_ext; [done|]); exact Hc4|]. cbn. rewrite <- !app_assoc. done.
Qed.

Lemma turn_run h :
  manager_state (ext h) = WIOTA_MANAGER_PROCESS_RUN →
  ∃ r, manager_wiota_turn h = Ok (tt, with_ext (set_process WIOTA_MANAGER_PROCESS_STRATEGY (set_fail 0
         (set_radio r (Radio uc_wiota_run) (ext h)))) h) ∧ r = (wiota_call uc_wiota_run (radio (ext h))).2.
Proof.
  intros Hst. unfold manager_wiota_turn. erewrite bind_Ok by reflexivity. rewrite Hst. states.
  lazymatch goal with |- context [fbind (rcall ?e) ?k h] => destruct (rcall_step e h k) as (v & r & E & ->) end.
  exists r. rewrite E. done.
Qed.

Lemma loop_rounds n r m ev ds r' m' h fuel :
  rounds n r m ev ds r' m' →
  ranked h ([], m) → manager_state (ext h) = WIOTA_MANAGER_PROCESS_SCAN → radio (ext h) = r →
  (2 * n + 4 ≤ fuel)%nat →
  ∃ h', manager_wiota_loop fuel h = Ok (tt, h') ∧ ranked h' (ds, m') ∧
    manager_state (ext h') = WIOTA_MANAGER_PROCESS_STRATEGY ∧
    radio_log (ext h') = radio_log (ext h) ++ ev ++ start_calls ds.
Proof.
  intros Hro. revert h fuel.
  induction Hro as [r m ev o r' ds m' Hs Ho Hrk Hds|n r m ev o r' ev' ds r'' m' Hs Ho Hro IH
                   |n r m ev o r' m1 ev' ds r'' m' Hs Ho Hrk Hro IH]; intros h fuel Hr Hst Hra Hf; subst r;
    (destruct fuel as [|fuel]; [lia|]); destruct (turn_scan _ _ _ _ _ Hr Hst Hs) as (h1 & E1 & Hr1 & Hra1 & Hc1 & Hst1 & Hlog1);
    rewrite (loop_turn _ _ _ _ Hst eq_refl E1); rewrite Ho in *.
  - rewrite Hrk in Hr1. destruct Hr1 as [(ps & Hch & Hps) Hok]. cbn [fst snd] in Hps, Hok. subst ds m'.
    destruct ps as [|[p x] rest]; [done|].
    destruct (turn_init _ _ _ _ Hch Hst1 Hc1) as (h2 & E2 & Hch2 & Hst2 & Hok2 & Hlog2).
    destruct (turn_run _ Hst2) as (r3 & E3 & _). do 3 (destruct fuel as [|fuel]; [lia|]).
    rewrite (loop_turn _ _ _ _ Hst1 eq_refl E2), (loop_turn _ _ _ _ Hst2 eq_refl E3).
    cbn [manager_wiota_loop]. erewrite bind_Ok by reflexivity. cbn [ext with_ext manager_state set_process Z.eqb].
    eexists. split; [reflexivity|]. split; [|split; [done|]].
    + split; [|cbn; congruence]. exists ((p, x) :: rest). split; [by apply chans_ext|done].
    + cbn [ext with_ext radio_log set_process set_fail set_radio]. rewrite Hlog2, Hlog1, app_nil_r, <- app_assoc. done.
  - destruct o as [[|]|]; [|done|]; (destruct (IH h1 fuel) as (h2 & E2 & Hr2 & Hst2 & Hlog2); [done..|lia|]);
      (exists h2; split; [exact E2|]; split; [done|]; split; [done|]; rewrite Hlog2, Hlog1, <- !app_assoc; done).
  - rewrite Hrk in Hr1. destruct fuel as [|fuel]; [lia|].
    rewrite (loop_turn _ _ _ _ Hst1 eq_refl (turn_init_empty _ _ Hr1 Hst1)).
    destruct (IH (with_ext (set_process WIOTA_MANAGER_PROCESS_SCAN (ext h1)) h1) fuel) as (h2 & E2 & Hr2 & Hst2 & Hlog2);
      [by apply ranked_ext|done|done|lia|].
    exists h2. split; [exact E2|]. split; [done|]. split; [done|]. rewrite Hlog2. cbn. rewrite Hlog1, app_nil_r, <- !app_assoc. done.
Qed.

(** ** The ranking *)

Definition quieter (x y : t_freq_node_manager) : Prop := rssi x <= rssi y.
Definition free_channels (es : list uc_scan_freq_t) : list t_freq_node_manager :=
  node_of <$> filter (λ e, sf_is_synced e = 0) es.

Lemma place_perm x ds : place x ds ≡ₚ x :: ds.
Proof.
  induction ds as [|d ds IH]; cbn; [done|]. destruct (rssi d >? rssi x); [done|].
  rewrite IH. apply perm_swap.
Qed.

Lemma place_sorted x ds : StronglySorted quieter ds → StronglySorted quieter (place x ds).
Proof.
  induction 1 as [|d ds Hs IH Hd]; cbn.
  - repeat constructor.
  - destruct (rssi d >? rssi x) eqn:E.
    + assert (quieter x d) as Hxd by (unfold quieter; lia). constructor; [by constructor|]. constructor; [done|].
      eapply Forall_impl; [exact Hd|]. unfold quieter in *. intros y. lia.
    + constructor; [done|]. rewrite place_perm. constructor; [unfold quieter; lia|done].
Qed.

Lemma rank_distinct es ds :
  NoDup (sf_freq_idx <$> es) → (∀ e d, e ∈ es → d ∈ ds → freq d ≠ sf_freq_idx e) →
  StronglySorted quieter ds →
  ∃ ds', foldl rank_step (ds, []) es = (ds', []) ∧ ds' ≡ₚ ds ++ free_channels es ∧ StronglySorted quieter ds'.
Proof.
  unfold free_channels. revert ds. induction es as [|e es IH]; intros ds Hnd Hdis Hs.
  - exists ds. cbn. rewrite app_nil_r. done.
  - cbn [foldl fmap list_fmap] in *. apply NoDup_cons in Hnd as [He Hnd].
    assert (Forall (λ d, freq d ≠ sf_freq_idx e) ds) as Hne.
    { apply Forall_forall. intros d Hd. apply Hdis; [left|done]. }
    unfold rank_step at 2. rewrite filter_cons. destruct (Z.eqb_spec (sf_is_synced e) 0) as [Hz|Hz].
    + rewrite exists_none by done. rewrite decide_True by done.
      destruct (IH (place (node_of e) ds)) as (ds' & E & Hp & Hs'); [done| |by apply place_sorted|].
      { intros e' d He' Hd. rewrite place_perm in Hd. apply elem_of_cons in Hd as [->|Hd].
        - cbn. intros Heq. apply He. rewrite Heq. by apply list_elem_of_fmap_2.
        - apply Hdis; [by right|done]. }
      exists ds'. split; [exact E|]. split; [|done]. rewrite Hp, place_perm. cbn. apply Permutation_middle.
    + rewrite decide_False by done. rewrite drop_first_none by done. apply IH; [done| |done].
      intros e' d He' Hd. apply Hdis; [by right|done].
Qed.

(** C37: a successful scan with different channels, and enough memory, leaves the
    channels no other access point uses on the list, each once, the one with
    the least received power first. *)
Theorem scan_ranks_channels res es h :
  scan_outcome res (Some es) → NoDup (sf_freq_idx <$> es) → es ≠ [] → ranked h ([], []) →
  ∃ h' ds, manager_wiota_freq_manager res h = Ok (0, h') ∧ holds h' ds ∧
    ds ≡ₚ free_channels es ∧ StronglySorted quieter ds.
Proof.
  intros Ho Hnd Hne Hr. destruct (freq_manager_spec _ _ _ _ Ho Hr) as (h' & E & _ & Hr').
  destruct (rank_distinct es [] Hnd) as (ds & Erk & Hp & Hs); [|constructor|].
  { intros e d _ Hd. inversion Hd. }
  exists h', ds. split_and!; [rewrite E; by destruct es| |done..].
  destruct Hr' as [Hh _]. cbn [ranking] in Hh. unfold rank in Hh. rewrite Erk in Hh. done.
Qed.

(** C38: starting the radio: when a scan finds a free channel after any number of
    scans that failed or found every channel in use, [manager_wiota] ends with
    the access point running on the channel with the least power, hopping to
    the next one if there is one.  The pause after a failed scan is always one
    second: the counter that should make it longer is cleared by every scan. *)
Theorem manager_wiota_starts n ev ds r' m' h fuel :
  base h → rounds n (radio (ext h)) (oks h) ev ds r' m' → (2 * n + 4 ≤ fuel)%nat →
  ∃ h', manager_wiota fuel h = Ok (0, h') ∧ holds h' ds ∧
    manager_state (ext h') = WIOTA_MANAGER_PROCESS_STRATEGY ∧
    radio_log (ext h') = radio_log (ext h) ++ ev ++ start_calls ds.
Proof.
  intros Hb Hro Hf. destruct (freq_list_init_spec h Hb) as (h1 & E1 & Hr1 & He1).
  unfold manager_wiota. rewrite (bind_Ok _ _ _ _ _ E1). erewrite bind_Ok by reflexivity.
  set (h2 := with_ext _ h1).
  destruct (loop_rounds _ _ _ _ _ _ _ h2 fuel Hro) as (h3 & E3 & [Hh _] & Hst & Hlog); [|done| |done|].
  - apply ranked_ext; done.
  - cbn. rewrite He1. done.
  - rewrite (bind_Ok _ _ _ _ _ E3). exists h3. split_and!; try done. rewrite Hlog. cbn. rewrite He1. done.
Qed.

(** Stopping the radio while the list has channels reads the link of an
    element after it was freed. *)
Theorem exit_reads_freed h x ds : holds h (x :: ds) → manager_wiota_exit h = Fault NullDeref.
Proof.
  intros (ps & Hc & Hps). destruct ps as [|[p y] ps]; [done|].
  destruct (elem_at h [] p y ps Hc) as (Hp & _ & Hn). pose proof (nxt_Some _ _ _ Hn) as Ap.
  assert (walk clean_freq_loop freq_head h = Fault NullDeref) as E.
  { rewrite (walk_chans _ _ _ Hc). cbn [fmap list_fmap fst fst_or clean_freq_loop].
    rewrite (proj2 (Z.eqb_neq _ _)) by done. unfold elem_free. rewrite fbind_assoc.
    rewrite (bind_Ok _ _ _ _ _ (node_free_eq _ _ Ap)). erewrite bind_Ok by reflexivity.
    unfold fbind, get_next, fbind, load. cbn [cells with_ext upd_cells]. rewrite lookup_delete_eq. done. }
  unfold manager_wiota_exit, manager_wiota_clean_freq_list. unfold fbind. rewrite E. done.
Qed.
End Proofs.

(** ** A concrete start *)

(** A stack that counts its calls: three channels are preset, the first scan
    fails, later ones find the channels 10, 20 and 30, of which 30 is in use. *)
Definition demo_answer {T} (e : wiotaE T) (n : Z) : T :=
  match e in wiotaE T return T with
  | uc_wiota_get_freq_list => [10; 20; 30; 255; 255; 255; 255; 255; 255; 255; 255; 255; 255; 255; 255; 255]
  | uc_wiota_scan_freq _ _ _ _ _ =>
      if n <? 5 then (UC_OP_TIMEOUT, {| sc_data_len := 0; sc_result := UC_OP_TIMEOUT; sc_data := [] |})
      else (UC_OP_SUCC, {| sc_data_len := 12; sc_result := UC_OP_SUCC;
                           sc_data := [10; 5; 206; 0; 20; 5; 176; 0; 30; 5; 166; 1] |})
  | e => zero_answer e
  end.

Definition demo_radio : WiotaLib Z := {|
  wiota_call := λ T e n, (demo_answer e n, n + 1);
  uc_wiota_crc8_calc := toy_crc 256;
  uc_wiota_crc16_calc := toy_crc 65536;
  uc_wiota_crc32_calc := toy_crc 4294967296
|}.
#[local] Existing Instance demo_radio.

Definition demo_freq : lheap (freq_state Z) := {|
  cells := {[freq_head := {| ndata := 0; nnext := 0; npre := 0 |}]};
  brk := 2; oks := []; released := [];
  ext := {| fdata := ∅; current_freq_node := 0; continue_scan_fail := 0; manager_state := 0; wiota_state := 0;
            radio := 0; radio_log := [] |}
|}.

Definition demo_list : list Z := [10; 20; 30; 255; 255; 255; 255; 255; 255; 255; 255; 255; 255; 255; 255; 255].
Definition demo_scan : list radio_event :=
  scan_calls [Radio (uc_wiota_scan_freq (Some demo_list) 3 0 WIOTA_SCAN_TIMEOUT None)].
Definition demo_10 : t_freq_node_manager := {| freq := 10; snr := 5; rssi := -50; is_synced := 0; send_cucess_rate := 0 |}.
Definition demo_20 : t_freq_node_manager := {| freq := 20; snr := 5; rssi := -80; is_synced := 0; send_cucess_rate := 0 |}.
Definition demo_result : uc_scan_recv_t :=
  {| sc_data_len := 12; sc_result := UC_OP_SUCC; sc_data := [10; 5; 206; 0; 20; 5; 176; 0; 30; 5; 166; 1] |}.
Definition demo_entries : list uc_scan_freq_t :=
  [{| sf_freq_idx := 10; sf_snr := 5; sf_rssi := -50; sf_is_synced := 0 |};
   {| sf_freq_idx := 20; sf_snr := 5; sf_rssi := -80; sf_is_synced := 0 |};
   {| sf_freq_idx := 30; sf_snr := 5; sf_rssi := -90; sf_is_synced := 1 |}].

Lemma demo_freq_base : base demo_freq.
Proof.
  split; [vm_compute; eauto|]. intros p [n Hn]. cbn [cells demo_freq] in Hn. apply lookup_singleton_Some in Hn as [<- _]. done.
Qed.

Lemma demo_outcome : scan_outcome demo_result (Some demo_entries).
Proof. vm_compute. done. Qed.

Lemma demo_rounds : rounds 1 0 [] (demo_scan ++ Delay 1000 :: demo_scan) [demo_20; demo_10] 10 [].
Proof.
  assert (scan_round 0 demo_scan None 5) as H1.
  { exact (round_some 0 3 demo_list 3 UC_OP_TIMEOUT {| sc_data_len := 0; sc_result := UC_OP_TIMEOUT; sc_data := [] |} 4 None
             eq_refl eq_refl ltac:(lia) eq_refl ltac:(done)). }
  assert (scan_round 5 demo_scan (Some demo_entries) 10) as H2.
  { exact (round_some 5 3 demo_list 8 UC_OP_SUCC demo_result 9 (Some demo_entries)
             eq_refl eq_refl ltac:(lia) eq_refl demo_outcome). }
  apply (rounds_failed 0 0 [] demo_scan None 5); [exact H1|done|].
  apply (rounds_found 5 [] _ (Some demo_entries) 10); done.
Qed.

Lemma manager_wiota_starts_witness :
  ∃ h', manager_wiota 6 demo_freq = Ok (0, h') ∧ holds h' [demo_20; demo_10] ∧
    manager_state (ext h') = WIOTA_MANAGER_PROCESS_STRATEGY ∧
    radio_log (ext h') = [] ++ (demo_scan ++ Delay 1000 :: demo_scan) ++
      [Radio uc_wiota_init; Radio (uc_wiota_set_freq_info 20); Radio (uc_wiota_set_hopping_freq 10);
       Radio (uc_wiota_set_hopping_mode 2 2); Radio uc_wiota_run].
Proof. exact (manager_wiota_starts 1 _ _ _ _ demo_freq 6 demo_freq_base demo_rounds ltac:(lia)). Defined.

(** A list that is empty. *)
Definition demo_ring : lheap (freq_state Z) := {|
  cells := {[freq_head := {| ndata := 0; nnext := freq_head; npre := freq_head |}]};
  brk := 2; oks := []; released := []; ext := ext demo_freq
|}.
Lemma demo_ring_ok : ranked demo_ring ([], []).
Proof.
  split; [|done]. exists []. split; [|done]. split; [|constructor|constructor|done]. split; cbn.
  - apply NoDup_singleton.
  - vm_compute. done.
  - constructor.
  - intros p [n Hn]. cbn [cells demo_ring] in Hn. apply lookup_singleton_Some in Hn as [<- _]. done.
Qed.

Lemma scan_ranks_channels_witness :
  ∃ h' ds, manager_wiota_freq_manager demo_result demo_ring = Ok (0, h') ∧ holds h' ds ∧
    ds ≡ₚ [demo_10; demo_20] ∧ StronglySorted quieter ds.
Proof.
  apply (scan_ranks_channels demo_result demo_entries demo_ring demo_outcome); [|done|apply demo_ring_ok].
  apply (bool_decide_unpack _). vm_compute. exact I.
Defined.

(** A list with one channel. *)
Definition demo_one : lheap (freq_state Z) := {|
  cells := {[freq_head := {| ndata := 0; nnext := 2; npre := 2 |};
             2 := {| ndata := 0; nnext := freq_head; npre := freq_head |}]};
  brk := 3; oks := []; released := []; ext := set_fdata {[2 := demo_10]} (ext demo_freq)
|}.

Lemma demo_one_holds : holds demo_one [demo_10].
Proof.
  exists [(2, demo_10)]. split; [|done]. split.
  - split.
    + apply (bool_decide_unpack _). vm_compute. exact I.
    + vm_compute. done.
    + repeat constructor.
    + intros p [n Hn]. cbn [cells demo_one] in Hn. apply lookup_insert_Some in Hn as [[<- _]|[_ Hn]]; [done|].
      apply lookup_singleton_Some in Hn as [<- _]. done.
  - repeat constructor.
  - repeat constructor.
  - done.
Qed.

Lemma exit_reads_freed_witness : manager_wiota_exit demo_one = Fault NullDeref.
Proof. apply (exit_reads_freed demo_one demo_10 [] demo_one_holds). Defined.
