(* ===== verification/Operation.v ===== *)
(** * The radio task and the reports of its results

    app/wiota_manager/manager_wiota/manager_wiota_frame.c (the task that sends
    application messages over the air and repeats failed ones), the message
    queues of platfrom/manager_queue.c, and the side of the logic task that
    takes the results (manager_logic.c, manager_wiota_respons.c).  The list of
    messages in the air is the pointer list of [ManagerList]; operation records
    and segment counters live in stores that the tasks share. *)

From S2P Require Import Prelude ManagerList.

Definition MANAGER_SEND_DEFAULT : Z := 0.
Definition MANAGER_SEND_SUCCESS : Z := 1.
Definition MANAGER_SEND_FAIL : Z := 2.
Definition MANAGER_MAX_SEND_NUM : Z := 3.
Definition UC_OP_SUCC : Z := 0.
Definition SERVER_DEFAULT_ADDRESS : Z := 0xFFFFFFF1.
Definition APP_CMD_GET_SPECIFIC_DATA_SPONSE : Z := 53.

(** The functions that are called with the result of a message. *)
Inductive manager_message_exe_result :=
| manager_network_to_wiota_result_fn
| manager_control_message_result_fn
| manager_replace_response_to_wiota_fn
| manager_ota_state_result_fn
| manager_ota_msg_result_fn
| manager_ota_resend_msg_result_fn.

(** t_app_operation_head and t_app_operation_data; [op_segment] points at a
    counter that all segments of a message share. *)
Record t_app_operation_data := {
  src_address : Z;
  head_id : Z;
  head_state : Z;
  result_function : option manager_message_exe_result;
  head_cmd : Z;
  request_number : Z;
  op_len : Z;
  pload : list Z;
  op_segment : option Z
}.

Definition with_state (st : Z) (r : t_app_operation_data) : t_app_operation_data :=
  {| src_address := src_address r; head_id := head_id r; head_state := st;
     result_function := result_function r; head_cmd := head_cmd r; request_number := request_number r;
     op_len := op_len r; pload := pload r; op_segment := op_segment r |}.

(** A message of the server, network_data/manager_net_messager.h; [json_data] is
    the text without its end mark, so rt_strlen is its length. *)
Record t_from_network_message := {
  dest_len : Z;
  dest_address : list Z;
  net_cmd : Z;
  net_request_number : Z;
  json_data : list Z
}.

(** t_app_logic_message: the command with its data.  An operation record is
    given by its address; the other data are copies that only their message
    refers to. *)
Inductive t_app_logic_message :=
| MANAGER_OPERATION_MSG (d : Z)
| MANAGER_OPERATION_MSG_RESULT (user_id res : Z)
| MANAGER_OPERATION_RADIO (d : Z)
| MANAGER_OPERATION_OTA_RADIO (d : Z)
| MANAGER_OPERATION_OTA_RADIO_RESULT
| MANAGER_OPERATION_EXIT
| MANAGER_LOGIC_WIOTA_START
| MANAGER_LOGIC_SEND_RESULT (d : Z)
| MANAGER_LOGIC_RECV_WIOTA_DATA (user_id : Z) (data : list Z)
| MANAGER_LOGIC_FROM_NETWORK_MESSAGE (page : t_from_network_message)
| MANAGER_LOGIC_FROM_HTTP_MESSAGE (state down_file_size : Z).

(** What leaves the two tasks: unicast and broadcast transmissions of a record,
    the report of a record to the logic task, a response to the server, and
    data of a terminal for the server. *)
Inductive event :=
| EvSend (d : Z) (user_id : Z) (data : list Z)
| EvBroadcast (d : Z) (ota : bool) (data : list Z)
| EvReport (d st : Z)
| EvResponse (res number : Z)
| EvToNet (cmd src : Z) (data : list Z).

Record task_state := {
  recs : gmap Z t_app_operation_data;
  segs : gmap Z (Z * Z);
  nextp : Z;
  op_q : list t_app_logic_message;
  logic_q : list t_app_logic_message;
  trace : list event;
  recv_msg_count : Z;
  old_recv_msg_count : Z;
  running : bool
}.

Definition set_recs v s := {| recs := v; segs := segs s; nextp := nextp s; op_q := op_q s; logic_q := logic_q s;
  trace := trace s; recv_msg_count := recv_msg_count s; old_recv_msg_count := old_recv_msg_count s; running := running s |}.
Definition set_segs v s := {| recs := recs s; segs := v; nextp := nextp s; op_q := op_q s; logic_q := logic_q s;
  trace := trace s; recv_msg_count := recv_msg_count s; old_recv_msg_count := old_recv_msg_count s; running := running s |}.
Definition set_nextp v s := {| recs := recs s; segs := segs s; nextp := v; op_q := op_q s; logic_q := logic_q s;
  trace := trace s; recv_msg_count := recv_msg_count s; old_recv_msg_count := old_recv_msg_count s; running := running s |}.
Definition set_op_q v s := {| recs := recs s; segs := segs s; nextp := nextp s; op_q := v; logic_q := logic_q s;
  trace := trace s; recv_msg_count := recv_msg_count s; old_recv_msg_count := old_recv_msg_count s; running := running s |}.
Definition set_logic_q v s := {| recs := recs s; segs := segs s; nextp := nextp s; op_q := op_q s; logic_q := v;
  trace := trace s; recv_msg_count := recv_msg_count s; old_recv_msg_count := old_recv_msg_count s; running := running s |}.
Definition set_trace v s := {| recs := recs s; segs := segs s; nextp := nextp s; op_q := op_q s; logic_q := logic_q s;
  trace := v; recv_msg_count := recv_msg_count s; old_recv_msg_count := old_recv_msg_count s; running := running s |}.
Definition set_counts v w s := {| recs := recs s; segs := segs s; nextp := nextp s; op_q := op_q s; logic_q := logic_q s;
  trace := trace s; recv_msg_count := v; old_recv_msg_count := w; running := running s |}.
Definition set_running v s := {| recs := recs s; segs := segs s; nextp := nextp s; op_q := op_q s; logic_q := logic_q s;
  trace := trace s; recv_msg_count := recv_msg_count s; old_recv_msg_count := old_recv_msg_count s; running := v |}.

(** The static list object [wiota_send_manager_list]. *)
Definition wiota_send_manager_list : Z := 1.

(** rt_mq_init divides the pool by the aligned message size plus the link of a
    queue cell; manager_create_queue makes a pool of 4 bytes per message. *)
Definition queue_capacity (max_msgs : Z) : Z := 4 * max_msgs / (RT_ALIGN 4 4 + 4).
Definition operation_queue_capacity : Z := queue_capacity 32.
Definition logic_queue_capacity : Z := queue_capacity 16.

Inductive queue_id := operation_queue | logic_queue.

Section Tasks.
Local Abbreviation M := (FW (lheap task_state)).
Local Open Scope fw_scope.

Definition get_task : M task_state := fgets ext.
Definition mod_task (f : task_state → task_state) : M unit := fmod (λ h, with_ext (f (ext h)) h).
Definition emit (e : event) : M unit := mod_task (λ s, set_trace (trace s ++ [e]) s).

(** The outcome of the next rt_malloc, and MEMORY_ASSERT on it. *)
Definition malloc_ok : M bool :=
  λ h, match oks h with
       | [] => Ok (true, h)
       | b :: m => Ok (b, {| cells := cells h; brk := brk h; oks := m; released := released h; ext := ext h |})
       end.
Definition memory_assert (b : bool) : M unit := if b then fret tt else ffail NullDeref.

(** Access to an operation record. *)
Definition get_rec (d : Z) : M t_app_operation_data :=
  s <-- get_task;; match recs s !! d with Some r => fret r | None => ffail NullDeref end.
Definition put_rec (d : Z) (r : t_app_operation_data) : M unit :=
  get_rec d;;; mod_task (λ s, set_recs (<[d := r]> (recs s)) s).
Definition free_rec (d : Z) : M unit :=
  get_rec d;;; mod_task (λ s, set_recs (delete d (recs s)) s).

(** A full queue fails after the four ticks of waiting. *)
Definition manager_send_queue (q : queue_id) (m : t_app_logic_message) : M Z :=
  s <-- get_task;;
  match q with
  | operation_queue =>
      if zlen (op_q s) <? operation_queue_capacity then mod_task (set_op_q (op_q s ++ [m]));;; fret 0 else fret 1
  | logic_queue =>
      if zlen (logic_q s) <? logic_queue_capacity then mod_task (set_logic_q (logic_q s ++ [m]));;; fret 0 else fret 1
  end.

Definition manager_send_page (q : queue_id) (m : t_app_logic_message) : M Z :=
  ok <-- malloc_ok;;
  memory_assert ok;;;
  r <-- manager_send_queue q m;;
  if negb (r =? 0) then fret 2 else fret 0.

Definition to_operation_wiota_data (m : t_app_logic_message) : M unit :=
  ok <-- malloc_ok;;
  if negb ok then fret tt else manager_send_page operation_queue m;;; fret tt.

Definition to_queue_logic_data (m : t_app_logic_message) : M unit :=
  ok <-- malloc_ok;;
  memory_assert ok;;;
  manager_send_page logic_queue m;;; fret tt.

(** [msg_type] builds the message from the address of the new record. *)
Definition manager_logic_send_to_operater (msg_type : Z → t_app_logic_message)
  (request_number src_address cmd id len : Z) (data : list Z) (segment : option Z)
  (func : option manager_message_exe_result) : M unit :=
  ok <-- malloc_ok;;
  memory_assert ok;;;
  s <-- get_task;;
  let page := nextp s in
  mod_task (λ s, set_nextp (page + 1) (set_recs (<[page := {|
    src_address := src_address; head_id := id; head_state := MANAGER_SEND_DEFAULT; result_function := func;
    head_cmd := cmd; request_number := request_number; op_len := len; pload := data; op_segment := segment |}]> (recs s)) s));;;
  to_operation_wiota_data (msg_type page).

(** The callbacks the protocol stack calls: data from a terminal, the result of
    a unicast and of an OTA broadcast; and the timer of the radio task. *)
Definition manager_recv_data (user_id : Z) (recv_data : list Z) : M unit :=
  ok1 <-- malloc_ok;;
  ok2 <-- (if zlen recv_data =? 0 then fret false else malloc_ok);;
  if negb ok1 || negb ok2 then fret tt
  else
    to_queue_logic_data (MANAGER_LOGIC_RECV_WIOTA_DATA user_id recv_data);;;
    mod_task (λ s, set_counts (u32 (recv_msg_count s + 1)) (old_recv_msg_count s) s).

Definition manager_send_result (user_id res : Z) : M unit :=
  ok <-- malloc_ok;;
  if negb ok then fret tt else to_operation_wiota_data (MANAGER_OPERATION_MSG_RESULT user_id res).

Definition uc_send_radio_ota_callback : M unit := to_operation_wiota_data MANAGER_OPERATION_OTA_RADIO_RESULT.

Definition manager_recv_timer_func : M unit :=
  s <-- get_task;;
  if recv_msg_count s =? old_recv_msg_count s then to_operation_wiota_data MANAGER_OPERATION_EXIT
  else mod_task (λ s, set_counts (recv_msg_count s) (recv_msg_count s) s).

Definition query_result_callback (user_id : Z) : @cb_t task_state :=
  λ _ d s, (match recs s !! d with Some r => if negb (head_id r =? user_id) then 1 else 0 | None => 1 end, s).

Definition del_result_callback (target : Z) : @cb_t task_state := λ node _ s, (if node =? target then 0 else 1, s).

Definition manager_operate_result (user_id res : Z) : M unit :=
  node <-- query_head_list wiota_send_manager_list (Some (query_result_callback user_id));;
  match node with
  | None => fret tt
  | Some node =>
      process <-- get_data node;;
      r <-- get_rec process;;
      if res =? UC_OP_SUCC then
        remove_manager_node wiota_send_manager_list (del_result_callback node);;;
        put_rec process (with_state MANAGER_SEND_SUCCESS r);;;
        emit (EvReport process MANAGER_SEND_SUCCESS);;;
        to_queue_logic_data (MANAGER_LOGIC_SEND_RESULT process)
      else if head_state r >? MANAGER_MAX_SEND_NUM - 2 then
        remove_manager_node wiota_send_manager_list (del_result_callback node);;;
        put_rec process (with_state MANAGER_SEND_FAIL r);;;
        emit (EvReport process MANAGER_SEND_FAIL);;;
        to_queue_logic_data (MANAGER_LOGIC_SEND_RESULT process)
      else
        emit (EvSend process (head_id r) (pload r));;;
        put_rec process (with_state (head_state r + 1) r);;;
        remove_head_manager_node wiota_send_manager_list node;;; fret tt
  end.

Definition manager_ota_remove_cb : @cb_t task_state :=
  λ _ d s, (match recs s !! d with
            | Some r => if APP_CMD_GET_SPECIFIC_DATA_SPONSE =? head_cmd r then 0 else 1
            | None => 1
            end, s).

Definition manager_ota_result_msg : M unit :=
  node <-- query_head_list wiota_send_manager_list (Some manager_ota_remove_cb);;
  match node with
  | None => fret tt
  | Some node =>
      data <-- get_data node;;
      remove_manager_node wiota_send_manager_list manager_ota_remove_cb;;;
      r <-- get_rec data;;
      emit (EvReport data (head_state r));;;
      to_queue_logic_data (MANAGER_LOGIC_SEND_RESULT data)
  end.

(** The list frees the data of its nodes: those records are gone. *)
Definition drop_released (before : list Z) : M unit :=
  fmod (λ h, let freed := take (length (released h) - length before) (released h) in
             with_ext (set_recs (foldr delete (recs (ext h)) freed) (ext h)) h).

(** One message of the loop of [manager_operation]; a broadcast record is freed
    after it was given to the stack, EXIT leaves the loop. *)
Definition manager_operation_msg (m : t_app_logic_message) : M unit :=
  match m with
  | MANAGER_OPERATION_MSG d =>
      insert_tail_manager_list wiota_send_manager_list d;;;
      r <-- get_rec d;;
      emit (EvSend d (head_id r) (pload r))
  | MANAGER_OPERATION_MSG_RESULT user_id res => manager_operate_result user_id res
  | MANAGER_OPERATION_RADIO d =>
      r <-- get_rec d;;
      emit (EvBroadcast d false (pload r));;;
      free_rec d
  | MANAGER_OPERATION_OTA_RADIO d =>
      r <-- get_rec d;;
      insert_tail_manager_list wiota_send_manager_list d;;;
      emit (EvBroadcast d true (pload r))
  | MANAGER_OPERATION_OTA_RADIO_RESULT => manager_ota_result_msg
  | MANAGER_OPERATION_EXIT => mod_task (set_running false)
  | MANAGER_LOGIC_SEND_RESULT d => free_rec d
  | _ => fret tt
  end.

Definition manager_operation_start : M unit :=
  to_queue_logic_data MANAGER_LOGIC_WIOTA_START;;;
  init_manager_list wiota_send_manager_list;;;
  mod_task (set_running true).

(** One turn of the loop: the oldest message of the queue; behind the loop the
    list is cleaned.  Whether the loop ended. *)
Definition manager_operation_step : M bool :=
  s <-- get_task;;
  match op_q s with
  | [] => fret false
  | m :: q =>
      mod_task (set_op_q q);;;
      manager_operation_msg m;;;
      s <-- get_task;;
      if running s then fret false
      else
        h <-- fget;;
        clean_manager_list wiota_send_manager_list;;;
        drop_released (released h);;;
        fret true
  end.

(** manager_operation_task: when the loop ended it is entered anew, after the
    radio was stopped and started. *)
Definition manager_operation_task_step : M unit :=
  ended <-- manager_operation_step;;
  if ended : bool then manager_operation_start else fret tt.

(** ** The logic task *)

(** to_network_data: whether the task of the server connection gets the message;
    an outcome stands for rt_malloc and for a place in that task's queue. *)
Definition to_network_data (e : event) : M bool :=
  ok <-- malloc_ok;;
  if ok : bool then emit e;;; fret true else fret false.

(** manager_send_data_logic_to_net: only a failure of its own rt_malloc is
    reported; data that to_network_data does not take are lost. *)
Definition manager_send_data_logic_to_net (e : event) : M Z :=
  ok <-- malloc_ok;;
  if ok : bool then to_network_data e;;; fret 0 else fret 1.

Definition manager_response_message_result (res number : Z) : M Z :=
  ok <-- malloc_ok;;
  memory_assert ok;;;
  r <-- manager_send_data_logic_to_net (EvResponse res number);;
  if negb (r =? 0) then fret 1 else fret 0.

Definition get_seg (g : Z) : M (Z * Z) :=
  s <-- get_task;; match segs s !! g with Some c => fret c | None => ffail NullDeref end.

Definition manager_network_to_wiota_result (d : Z) : M unit :=
  r <-- get_rec d;;
  match op_segment r with
  | Some g =>
      c <-- get_seg g;;
      let st := if MANAGER_SEND_FAIL =? head_state r then MANAGER_SEND_FAIL else c.1 in
      let rem := u8 (c.2 - 1) in
      mod_task (λ s, set_segs (<[g := (st, rem)]> (segs s)) s);;;
      if 0 =? rem then
        (if SERVER_DEFAULT_ADDRESS =? src_address r then manager_response_message_result st (request_number r);;; fret tt
         else fret tt);;;
        mod_task (λ s, set_segs (delete g (segs s)) s)
      else fret tt
  | None =>
      if SERVER_DEFAULT_ADDRESS =? src_address r then
        manager_response_message_result (head_state r) (request_number r);;; fret tt
      else fret tt
  end.

End Tasks.

(** ** The invariant of the two tasks *)

(** The record a message carries. *)
Definition msg_data (m : t_app_logic_message) : list Z :=
  match m with
  | MANAGER_OPERATION_MSG d | MANAGER_OPERATION_RADIO d | MANAGER_OPERATION_OTA_RADIO d
  | MANAGER_LOGIC_SEND_RESULT d => [d]
  | _ => []
  end.
Definition qdata (q : list t_app_logic_message) : list Z := concat (map msg_data q).
Arguments qdata : simpl never.

(** All records some task still refers to; [ds] are those on the air list. *)
Definition own (s : task_state) (ds : list Z) : list Z := ds ++ qdata (op_q s) ++ qdata (logic_q s).

(** How often a record was transmitted and reported. *)
Definition ev_tx (d : Z) (e : event) : Z :=
  match e with EvSend d' _ _ | EvBroadcast d' _ _ => if d' =? d then 1 else 0 | _ => 0 end.
Definition ev_rep (d : Z) (e : event) : Z :=
  match e with EvReport d' _ => if d' =? d then 1 else 0 | _ => 0 end.
Definition total (f : event → Z) (tr : list event) : Z := foldr (λ e n, f e + n) 0 tr.
Definition tx (d : Z) (tr : list event) : Z := total (ev_tx d) tr.
Definition rep (d : Z) (tr : list event) : Z := total (ev_rep d) tr.
Arguments tx : simpl never.
Arguments rep : simpl never.

Definition seg_is (s : task_state) (g d : Z) : Prop := (recs s !! d ≫= op_segment) = Some g.
#[export] Instance seg_is_dec s g d : Decision (seg_is s g d).
Proof. unfold seg_is. apply _. Defined.
Definition cntseg (s : task_state) (g : Z) (l : list Z) : Z := zlen (filter (seg_is s g) l).

Record tinv (s : task_state) (ds : list Z) : Prop := {
  ti_nodup : NoDup (own s ds);
  ti_rec : ∀ d, d ∈ own s ds → is_Some (recs s !! d);
  ti_fresh : ∀ d, is_Some (recs s !! d) → d < nextp s;
  ti_segfresh : ∀ g, is_Some (segs s !! g) → g < nextp s;
  ti_new : ∀ d, nextp s <= d → tx d (trace s) = 0 ∧ rep d (trace s) = 0;
  ti_queued : ∀ d r, d ∈ qdata (op_q s) → recs s !! d = Some r →
    tx d (trace s) = 0 ∧ rep d (trace s) = 0 ∧ head_state r = MANAGER_SEND_DEFAULT;
  ti_air : ∀ d r, d ∈ ds → recs s !! d = Some r →
    tx d (trace s) = head_state r + 1 ∧ 0 <= head_state r < MANAGER_MAX_SEND_NUM ∧ rep d (trace s) = 0;
  ti_tx : ∀ d, tx d (trace s) <= MANAGER_MAX_SEND_NUM;
  ti_rep : ∀ d, rep d (trace s) <= 1;
  ti_fail : ∀ d, EvReport d MANAGER_SEND_FAIL ∈ trace s → tx d (trace s) = MANAGER_MAX_SEND_NUM;
  ti_seg : ∀ d g, d ∈ own s ds → seg_is s g d → is_Some (segs s !! g);
  ti_cnt : ∀ g st rem, segs s !! g = Some (st, rem) → cntseg s g (own s ds) <= rem < 256
}.

Lemma total_app f a b : total f (a ++ b) = total f a + total f b.
Proof. unfold total. induction a as [|e a IH]; cbn; [done|]. rewrite IH. lia. Qed.
Lemma tx_snoc d tr e : tx d (tr ++ [e]) = tx d tr + ev_tx d e.
Proof. unfold tx. rewrite total_app. unfold total at 2. cbn [foldr]. lia. Qed.
Lemma rep_snoc d tr e : rep d (tr ++ [e]) = rep d tr + ev_rep d e.
Proof. unfold rep. rewrite total_app. unfold total at 2. cbn [foldr]. lia. Qed.
Lemma total_nonneg f tr : (∀ e, 0 <= f e) → 0 <= total f tr.
Proof. intros Hf. unfold total. induction tr as [|e tr IH]; cbn; [lia|]. pose proof (Hf e). lia. Qed.
Lemma tx_nonneg d tr : 0 <= tx d tr.
Proof. apply total_nonneg. intros []; cbn; try case_match; lia. Qed.
Lemma rep_nonneg d tr : 0 <= rep d tr.
Proof. apply total_nonneg. intros []; cbn; try case_match; lia. Qed.

Lemma qdata_app a b : qdata (a ++ b) = qdata a ++ qdata b.
Proof. unfold qdata. rewrite map_app, concat_app. done. Qed.
Lemma qdata_cons m q : qdata (m :: q) = msg_data m ++ qdata q.
Proof. done. Qed.
Lemma qdata_one m : qdata [m] = msg_data m.
Proof. unfold qdata. cbn. apply app_nil_r. Qed.

Lemma cntseg_cons s g d l : cntseg s g (d :: l) = (if decide (seg_is s g d) then 1 else 0) + cntseg s g l.
Proof. unfold cntseg, zlen. rewrite filter_cons. case_decide; cbn [length]; lia. Qed.

Lemma cntseg_ext s s' g l :
  (∀ d, d ∈ l → recs s' !! d ≫= op_segment = recs s !! d ≫= op_segment) → cntseg s' g l = cntseg s g l.
Proof.
  induction l as [|d l IH]; intros H; [done|]. rewrite !cntseg_cons, IH by (intros; apply H; by right).
  f_equal. assert (seg_is s' g d ↔ seg_is s g d) as Hiff by (unfold seg_is; rewrite H by left; done).
  repeat case_decide; tauto.
Qed.

Lemma cntseg_perm s g l l' : l ≡ₚ l' → cntseg s g l = cntseg s g l'.
Proof. intros Hp. unfold cntseg, zlen. rewrite Hp. done. Qed.

Lemma cntseg_nonneg s g l : 0 <= cntseg s g l.
Proof. apply zlen_nonneg. Qed.

Lemma cntseg_app s g a b : cntseg s g (a ++ b) = cntseg s g a + cntseg s g b.
Proof. unfold cntseg, zlen. rewrite filter_app, length_app. lia. Qed.

(** ** Moves of a record

    A record that a task has in hand is on no list or queue; it can be changed,
    transmitted, reported or freed, and put on the air list or a queue when its
    segment counter still has room for it. *)
Definition room (s : task_state) (ds : list Z) (d : Z) : Prop :=
  ∀ g, seg_is s g d → ∃ st rem, segs s !! g = Some (st, rem) ∧ cntseg s g (own s ds) + 1 <= rem.

Record in_hand (s : task_state) (ds : list Z) (d : Z) (r : t_app_operation_data) : Prop := {
  ih_inv : tinv s ds;
  ih_not : d ∉ own s ds;
  ih_rec : recs s !! d = Some r;
  ih_room : room s ds d
}.

Lemma own_perm s ds ds' : ds ≡ₚ ds' → own s ds ≡ₚ own s ds'.
Proof. intros Hp. unfold own. rewrite Hp. done. Qed.

#[export] Instance tinv_proper s : Proper ((≡ₚ) ==> iff) (tinv s).
Proof.
  assert (∀ ds ds', ds ≡ₚ ds' → tinv s ds → tinv s ds') as Hmain.
  { intros ds ds' Hp [H1 H2 H3 H4 H5 H6 H7 H8 H9 H10 H11 H12].
    pose proof (own_perm s _ _ Hp) as Ho. constructor; try done.
    - rewrite <- Ho. done.
    - intros d. rewrite <- Ho. apply H2.
    - intros d r. rewrite <- Hp. apply H7.
    - intros d g. rewrite <- Ho. apply H11.
    - intros g st rem. rewrite <- (cntseg_perm s g _ _ Ho). apply H12. }
  intros ds ds' Hp. split; apply Hmain; [done|]. symmetry. done.
Qed.

(** Taking a record out of everything that is owned. *)
Lemma tinv_take s s' ds ds' d r :
  tinv s ds → own s ds ≡ₚ d :: own s' ds' → recs s !! d = Some r →
  recs s' = recs s → segs s' = segs s → nextp s' = nextp s → trace s' = trace s →
  (∀ x, x ∈ ds' → x ∈ ds) → (∀ x, x ∈ qdata (op_q s') → x ∈ qdata (op_q s)) →
  in_hand s' ds' d r.
Proof.
  intros [H1 H2 H3 H4 H5 H6 H7 H8 H9 H10 H11 H12] Ho Hr Er Es En Et Hds Hq.
  assert (∀ g l, cntseg s' g l = cntseg s g l) as Hc by (intros; apply cntseg_ext; rewrite Er; done).
  assert (∀ g x, seg_is s' g x = seg_is s g x) as Hsi by (intros; unfold seg_is; rewrite Er; done).
  assert (NoDup (d :: own s' ds')) as Hnd by (rewrite <- Ho; done). apply NoDup_cons in Hnd as [Hd Hnd].
  assert (∀ x, x ∈ own s' ds' → x ∈ own s ds) as Hsub by (intros x Hx; rewrite Ho; by right).
  assert (∀ g, cntseg s g (own s ds) = (if decide (seg_is s g d) then 1 else 0) + cntseg s g (own s' ds')) as Hcnt.
  { intros g. rewrite (cntseg_perm s g _ _ Ho), cntseg_cons. done. }
  constructor; [|done|congruence|].
  - constructor; rewrite ?Er, ?Es, ?En, ?Et; eauto.
    + intros x g. rewrite Hsi. eauto.
    + intros g st rem Hg. rewrite Hc. specialize (Hcnt g). specialize (H12 _ _ _ Hg). case_decide; lia.
  - intros g Hg. rewrite Hsi in Hg. destruct (H11 d g) as [[st rem] Hgs]; [rewrite Ho; left|done|].
    exists st, rem. rewrite Es, Hc. split; [done|]. specialize (Hcnt g). specialize (H12 _ _ _ Hgs).
    rewrite decide_True in Hcnt by done. lia.
Qed.

(** Putting it back somewhere. *)
Lemma tinv_give s s' ds ds' d r :
  in_hand s ds d r → own s' ds' ≡ₚ d :: own s ds →
  recs s' = recs s → segs s' = segs s → nextp s' = nextp s → trace s' = trace s →
  (∀ x, x ∈ ds' → x ∈ ds ∨
     (x = d ∧ tx d (trace s) = head_state r + 1 ∧ 0 <= head_state r < MANAGER_MAX_SEND_NUM ∧ rep d (trace s) = 0)) →
  (∀ x, x ∈ qdata (op_q s') → x ∈ qdata (op_q s) ∨
     (x = d ∧ tx d (trace s) = 0 ∧ rep d (trace s) = 0 ∧ head_state r = MANAGER_SEND_DEFAULT)) →
  tinv s' ds'.
Proof.
  intros [[H1 H2 H3 H4 H5 H6 H7 H8 H9 H10 H11 H12] Hd Hr Hroom] Ho Er Es En Et Hds Hq.
  assert (∀ g l, cntseg s' g l = cntseg s g l) as Hc by (intros; apply cntseg_ext; rewrite Er; done).
  assert (∀ g x, seg_is s' g x = seg_is s g x) as Hsi by (intros; unfold seg_is; rewrite Er; done).
  constructor; rewrite ?Er, ?Es, ?En, ?Et; eauto.
  - rewrite Ho. apply NoDup_cons. done.
  - intros x. rewrite Ho, elem_of_cons. intros [->|Hx]; [rewrite Hr|]; eauto.
  - intros x rx Hx Hrx. destruct (Hq x Hx) as [Hx'|(-> & ? & ? & ?)]; [eauto|]. simplify_eq. done.
  - intros x rx Hx Hrx. destruct (Hds x Hx) as [Hx'|(-> & ? & ? & ?)]; [eauto|]. simplify_eq. done.
  - intros x g. rewrite Ho, elem_of_cons, Hsi. intros [->|Hx] Hg; [|eauto].
    destruct (Hroom g Hg) as (? & ? & -> & _). done.
  - intros g st rem Hg. rewrite (cntseg_perm s' g _ _ Ho), cntseg_cons, !Hc.
    specialize (H12 _ _ _ Hg). case_decide as Hgd; [rewrite Hsi in Hgd|lia].
    destruct (Hroom g Hgd) as (? & ? & ? & ?). simplify_eq. lia.
Qed.

Lemma own_set_recs v s ds : own (set_recs v s) ds = own s ds.
Proof. done. Qed.

(** Changing the record in hand. *)
Lemma in_hand_rec s ds d r r' :
  in_hand s ds d r → op_segment r' = op_segment r → in_hand (set_recs (<[d := r']> (recs s)) s) ds d r'.
Proof.
  intros [[H1 H2 H3 H4 H5 H6 H7 H8 H9 H10 H11 H12] Hd Hr Hroom] Hseg.
  set (s' := set_recs _ s).
  assert (∀ x, x ∈ own s ds → recs s' !! x = recs s !! x) as Hother.
  { intros x Hx. cbn. apply lookup_insert_ne. congruence. }
  assert (∀ x, recs s' !! x ≫= op_segment = recs s !! x ≫= op_segment) as Hop.
  { intros x. cbn. destruct (decide (d = x)) as [<-|]; [rewrite lookup_insert_eq, Hr; done|].
    rewrite lookup_insert_ne; done. }
  assert (∀ g l, cntseg s' g l = cntseg s g l) as Hc by (intros; apply cntseg_ext; auto).
  assert (∀ g x, seg_is s' g x = seg_is s g x) as Hsi by (intros; unfold seg_is; rewrite Hop; done).
  assert (∀ x, x ∈ ds → x ∈ own s ds) as Hds by (intros; apply elem_of_app; auto).
  assert (∀ x, x ∈ qdata (op_q s) → x ∈ own s ds) as Hq.
  { intros. unfold own. rewrite !elem_of_app. auto. }
  constructor; [|done|apply lookup_insert_eq|].
  - constructor; try done.
    + intros x Hx. rewrite Hother by done. by apply H2.
    + intros x [y Hy]. cbn in *. apply H3. destruct (decide (d = x)) as [<-|]; [rewrite Hr; eauto|].
      rewrite lookup_insert_ne in Hy by done. eauto.
    + intros x rx Hx. rewrite Hother by auto. by apply H6.
    + intros x rx Hx. rewrite Hother by auto. by apply H7.
    + intros x g Hx. rewrite Hsi. by apply H11.
    + intros g st rem Hg. rewrite Hc. by eapply H12.
  - intros g. rewrite Hsi, Hc. apply Hroom.
Qed.

(** Appending an event.  A transmission needs a send that is left; a report
    must be the first one. *)
Definition event_ok (s : task_state) (d : Z) (e : event) : Prop :=
  match e with
  | EvSend d' _ _ | EvBroadcast d' _ _ => d' = d ∧ tx d (trace s) < MANAGER_MAX_SEND_NUM ∧ rep d (trace s) = 0
  | EvReport d' st => d' = d ∧ rep d (trace s) = 0 ∧ (st = MANAGER_SEND_FAIL → tx d (trace s) = MANAGER_MAX_SEND_NUM)
  | EvResponse _ _ | EvToNet _ _ _ => True
  end.

Lemma rep_zero_not d st tr : rep d tr = 0 → EvReport d st ∉ tr.
Proof.
  intros H Hin. apply list_elem_of_split in Hin as (a & b & ->).
  unfold rep in H. rewrite total_app in H. unfold total at 2 in H. cbn in H.
  pose proof (rep_nonneg d a) as Ha. pose proof (rep_nonneg d b) as Hb. unfold rep, total in *.
  rewrite Z.eqb_refl in H. lia.
Qed.

Lemma event_other s d e x : event_ok s d e → x ≠ d → ev_tx x e = 0 ∧ ev_rep x e = 0.
Proof.
  destruct e; cbn; [intros [-> _] Hx..|done|done]; (destruct (Z.eqb_spec d x); [congruence|done]).
Qed.

Lemma in_hand_event s ds d r e :
  in_hand s ds d r → event_ok s d e → in_hand (set_trace (trace s ++ [e]) s) ds d r.
Proof.
  intros [[H1 H2 H3 H4 H5 H6 H7 H8 H9 H10 H11 H12] Hd Hr Hroom] Hok.
  assert (∀ x, x ∈ ds → x ≠ d) as Hds by (intros x Hx ->; apply Hd, elem_of_app; auto).
  assert (∀ x, x ∈ qdata (op_q s) → x ≠ d) as Hq.
  { intros x Hx ->. apply Hd. unfold own. rewrite !elem_of_app. auto. }
  assert (∀ x, x ≠ d → tx x (trace s ++ [e]) = tx x (trace s) ∧ rep x (trace s ++ [e]) = rep x (trace s)) as Hx.
  { intros x Hx. rewrite tx_snoc, rep_snoc. destruct (event_other s d e x Hok Hx). lia. }
  constructor; [|done|done|done]. constructor; try done; cbn.
  - intros x Hn. assert (x ≠ d). { intros ->. assert (d < nextp s) by (apply H3; rewrite Hr; eauto). lia. }
    destruct (Hx x) as [-> ->]; auto.
  - intros x rx Hxq Hrx. destruct (Hx x) as [-> ->]; eauto.
  - intros x rx Hxd Hrx. destruct (Hx x) as [-> ->]; eauto.
  - intros x. destruct (decide (x = d)) as [->|Hne]; [|destruct (Hx x Hne) as [-> _]; auto].
    rewrite tx_snoc. specialize (H8 d). destruct e; cbn in Hok |- *; try destruct Hok as (-> & ? & ?);
      rewrite ?Z.eqb_refl; lia.
  - intros x. destruct (decide (x = d)) as [->|Hne]; [|destruct (Hx x Hne) as [_ ->]; auto].
    rewrite rep_snoc. specialize (H9 d). destruct e; cbn in Hok |- *; try destruct Hok as (-> & ? & ?);
      rewrite ?Z.eqb_refl; lia.
  - intros x. rewrite elem_of_app, list_elem_of_singleton.
    destruct (decide (x = d)) as [->|Hne].
    + rewrite tx_snoc. intros [Hin|<-].
      * specialize (H10 _ Hin). destruct e; cbn in Hok |- *; try lia; destruct Hok as (-> & ? & ?);
          (rewrite Z.eqb_refl || idtac); try lia; by eapply rep_zero_not in Hin.
      * destruct Hok as (_ & _ & Hf). cbn. rewrite Hf by done. lia.
    + destruct (Hx x Hne) as [-> _]. intros [Hin|<-]; [auto|]. destruct Hok. congruence.
Qed.

(** Letting go of a record: it is freed, or nobody refers to it any more. *)
Lemma tinv_free s ds d : tinv s ds → d ∉ own s ds → tinv (set_recs (delete d (recs s)) s) ds.
Proof.
  intros [H1 H2 H3 H4 H5 H6 H7 H8 H9 H10 H11 H12] Hd.
  set (s' := set_recs _ s).
  assert (∀ x, x ∈ own s ds → recs s' !! x = recs s !! x) as Hother.
  { intros x Hx. cbn. apply lookup_delete_ne. congruence. }
  assert (∀ g, cntseg s' g (own s ds) = cntseg s g (own s ds)) as Hc.
  { intros. apply cntseg_ext. intros x Hx. rewrite Hother; done. }
  assert (∀ x, x ∈ ds → x ∈ own s ds) as Hds by (intros; apply elem_of_app; auto).
  assert (∀ x, x ∈ qdata (op_q s) → x ∈ own s ds) as Hq.
  { intros. unfold own. rewrite !elem_of_app. auto. }
  constructor; try done.
  - intros x Hx. rewrite Hother by done. by apply H2.
  - intros x Hx. cbn in *. apply H3. destruct (decide (d = x)) as [<-|].
    + rewrite lookup_delete_eq in Hx. destruct Hx. done.
    + rewrite lookup_delete_ne in Hx by done. done.
  - intros x rx Hx. rewrite Hother by auto. by apply H6.
  - intros x rx Hx. rewrite Hother by auto. by apply H7.
  - intros x g Hx. unfold seg_is. rewrite Hother by done. by apply H11.
  - intros g st rem Hg. cbn in Hg. change (own s' ds) with (own s ds). rewrite Hc. by eapply H12.
Qed.

Lemma in_hand_free s ds d r : in_hand s ds d r → tinv (set_recs (delete d (recs s)) s) ds.
Proof. intros [Hi Hd _ _]. by apply tinv_free. Qed.

(** A new record. *)
Lemma in_hand_new s ds r :
  tinv s ds →
  (∀ g, op_segment r = Some g → ∃ st rem, segs s !! g = Some (st, rem) ∧ cntseg s g (own s ds) + 1 <= rem) →
  in_hand (set_nextp (nextp s + 1) (set_recs (<[nextp s := r]> (recs s)) s)) ds (nextp s) r ∧
  tx (nextp s) (trace s) = 0 ∧ rep (nextp s) (trace s) = 0.
Proof.
  intros [H1 H2 H3 H4 H5 H6 H7 H8 H9 H10 H11 H12] Hg. split; [|apply H5; lia].
  set (d := nextp s) in *. set (s' := set_nextp _ _).
  assert (d ∉ own s ds) as Hd. { intros Hin. apply H2, H3 in Hin. lia. }
  assert (∀ x, x ∈ own s ds → recs s' !! x = recs s !! x) as Hother.
  { intros x Hx. cbn. apply lookup_insert_ne. congruence. }
  assert (∀ g, cntseg s' g (own s ds) = cntseg s g (own s ds)) as Hc.
  { intros. apply cntseg_ext. intros x Hx. rewrite Hother; done. }
  assert (∀ x, x ∈ ds → x ∈ own s ds) as Hds by (intros; apply elem_of_app; auto).
  assert (∀ x, x ∈ qdata (op_q s) → x ∈ own s ds) as Hq.
  { intros. unfold own. rewrite !elem_of_app. auto. }
  constructor; [|done|apply lookup_insert_eq|].
  - constructor; try done.
    + intros x Hx. rewrite Hother by done. by apply H2.
    + intros x Hx. cbn in *. destruct (decide (d = x)) as [<-|]; [lia|].
      rewrite lookup_insert_ne in Hx by done. apply H3 in Hx. lia.
    + intros x Hx. cbn. apply H4 in Hx. lia.
    + intros x Hx. cbn in *. apply H5. lia.
    + intros x rx Hx. rewrite Hother by auto. by apply H6.
    + intros x rx Hx. rewrite Hother by auto. by apply H7.
    + intros x g Hx. unfold seg_is. rewrite Hother by done. by apply H11.
    + intros g st rem Hgs. cbn in Hgs. change (own s' ds) with (own s ds). rewrite Hc. by eapply H12.
  - intros g Hs. unfold seg_is in Hs. cbn in Hs. rewrite lookup_insert_eq in Hs.
    change (own s' ds) with (own s ds). rewrite Hc. apply Hg. done.
Qed.

(** Queue changes that move no record, and fields outside the invariant. *)
Lemma tinv_same s s' ds :
  tinv s ds → recs s' = recs s → segs s' = segs s → nextp s' = nextp s → trace s' = trace s →
  qdata (op_q s') = qdata (op_q s) → qdata (logic_q s') = qdata (logic_q s) → tinv s' ds.
Proof.
  intros [H1 H2 H3 H4 H5 H6 H7 H8 H9 H10 H11 H12] Er Es En Et Eq El.
  assert (own s' ds = own s ds) as Ho by (unfold own; rewrite Eq, El; done).
  assert (∀ g l, cntseg s' g l = cntseg s g l) as Hc by (intros; apply cntseg_ext; rewrite Er; done).
  assert (∀ g x, seg_is s' g x = seg_is s g x) as Hsi by (intros; unfold seg_is; rewrite Er; done).
  constructor; rewrite ?Ho, ?Er, ?Es, ?En, ?Et, ?Eq; try done.
  - intros d g. rewrite Hsi. apply H11.
  - intros g st rem. rewrite Hc. apply H12.
Qed.

(** Counting a segment down while its record is in hand. *)
Lemma in_hand_count s ds d r g st rem st' :
  in_hand s ds d r → op_segment r = Some g → segs s !! g = Some (st, rem) →
  0 < rem < 256 ∧
  tinv (set_segs (if 0 =? rem - 1 then delete g (segs s) else <[g := (st', rem - 1)]> (segs s)) s) ds.
Proof.
  intros [[H1 H2 H3 H4 H5 H6 H7 H8 H9 H10 H11 H12] Hd Hr Hroom] Hseg Hg.
  assert (seg_is s g d) as Hsd by (unfold seg_is; rewrite Hr; cbn; done).
  destruct (Hroom g Hsd) as (st0 & rem0 & Hg0 & Hlt).
  assert (rem0 = rem) as -> by congruence.
  pose proof (cntseg_nonneg s g (own s ds)) as Hnn. pose proof (H12 _ _ _ Hg) as Hle.
  split; [lia|].
  assert (∀ x, x ≠ g → (if 0 =? rem - 1 then delete g (segs s) else <[g:=(st', rem - 1)]> (segs s)) !! x = segs s !! x) as Hx.
  { intros x Hne. destruct (0 =? rem - 1); [apply lookup_delete_ne|apply lookup_insert_ne]; done. }
  set (segs' := if 0 =? rem - 1 then _ else _) in *.
  constructor; try done; cbn.
  - intros x [y Hy]. apply H4. destruct (decide (x = g)) as [->|Hne]; [rewrite Hg; eauto|].
    rewrite Hx in Hy by done. eauto.
  - intros x g' Hxo Hxs. change (seg_is s g' x) in Hxs. destruct (decide (g' = g)) as [->|Hne].
    + subst segs'. destruct (Z.eqb_spec 0 (rem - 1)); [|rewrite lookup_insert_eq; eauto].
      exfalso. assert (0 < cntseg s g (own s ds)); [|lia].
      apply list_elem_of_split in Hxo as (a & b & Ho). change (own _ ds) with (own s ds) in Ho.
      rewrite Ho, cntseg_app, cntseg_cons, decide_True by done.
      pose proof (cntseg_nonneg s g a). pose proof (cntseg_nonneg s g b). lia.
    + rewrite Hx by done. by eapply H11.
  - intros g' st1 rem1 Hg'. change (cntseg s g' (own s ds) <= rem1 < 256).
    destruct (decide (g' = g)) as [->|Hne]; [|rewrite Hx in Hg' by done; by eapply H12].
    subst segs'. destruct (Z.eqb_spec 0 (rem - 1)); [rewrite lookup_delete_eq in Hg'; done|].
    rewrite lookup_insert_eq in Hg'. simplify_eq. lia.
Qed.

(** ** The operations keep the invariant *)

Record hinv (h : lheap task_state) (ps : list (Z * Z)) : Prop := {
  hi_list : is_list h wiota_send_manager_list ps;
  hi_mem : oks h = [];
  hi_task : tinv (ext h) ps.*2
}.

Lemma mod_task_eq f h : mod_task f h = Ok (tt, with_ext (f (ext h)) h).
Proof. done. Qed.
Lemma get_rec_eq d r h : recs (ext h) !! d = Some r → get_rec d h = Ok (r, h).
Proof. intros E. unfold get_rec, get_task. fw_unfold. rewrite E. done. Qed.
Lemma put_rec_eq d r r' h :
  recs (ext h) !! d = Some r → put_rec d r' h = Ok (tt, with_ext (set_recs (<[d := r']> (recs (ext h))) (ext h)) h).
Proof. intros E. unfold put_rec. erewrite bind_Ok; [|by apply get_rec_eq]. done. Qed.
Lemma free_rec_eq d r h :
  recs (ext h) !! d = Some r → free_rec d h = Ok (tt, with_ext (set_recs (delete d (recs (ext h))) (ext h)) h).
Proof. intros E. unfold free_rec. erewrite bind_Ok; [|by apply get_rec_eq]. done. Qed.
Lemma emit_eq e h : emit e h = Ok (tt, with_ext (set_trace (trace (ext h) ++ [e]) (ext h)) h).
Proof. done. Qed.
Lemma malloc_ok_eq h : oks h = [] → malloc_ok h = Ok (true, h).
Proof. intros E. unfold malloc_ok. rewrite E. done. Qed.

(** Sending to a queue: the message is appended, or the queue is full. *)
Definition pushed (q : queue_id) (m : t_app_logic_message) (s : task_state) : task_state :=
  match q with
  | operation_queue => if zlen (op_q s) <? operation_queue_capacity then set_op_q (op_q s ++ [m]) s else s
  | logic_queue => if zlen (logic_q s) <? logic_queue_capacity then set_logic_q (logic_q s ++ [m]) s else s
  end.

Lemma with_ext_id (h : lheap task_state) : with_ext (ext h) h = h.
Proof. destruct h. done. Qed.

Lemma send_page_eq q m h :
  oks h = [] → ∃ z, manager_send_page q m h = Ok (z, with_ext (pushed q m (ext h)) h).
Proof.
  intros E. unfold manager_send_page. erewrite bind_Ok; [|by apply malloc_ok_eq].
  cbn [memory_assert]. erewrite bind_Ok; [|reflexivity].
  unfold manager_send_queue, get_task, mod_task, pushed. destruct q; fw_unfold; [
    destruct (zlen (op_q (ext h)) <? operation_queue_capacity)
  | destruct (zlen (logic_q (ext h)) <? logic_queue_capacity) ]; eexists; rewrite ?with_ext_id; reflexivity.
Qed.

Lemma to_operation_eq m h :
  oks h = [] → to_operation_wiota_data m h = Ok (tt, with_ext (pushed operation_queue m (ext h)) h).
Proof.
  intros E. unfold to_operation_wiota_data. erewrite bind_Ok; [|by apply malloc_ok_eq]. cbn [negb].
  destruct (send_page_eq operation_queue m h E) as [z Hz]. unfold fbind. rewrite Hz. done.
Qed.

Lemma to_logic_eq m h :
  oks h = [] → to_queue_logic_data m h = Ok (tt, with_ext (pushed logic_queue m (ext h)) h).
Proof.
  intros E. unfold to_queue_logic_data. erewrite bind_Ok; [|by apply malloc_ok_eq]. cbn [memory_assert].
  erewrite bind_Ok; [|reflexivity].
  destruct (send_page_eq logic_queue m h E) as [z Hz]. unfold fbind. rewrite Hz. done.
Qed.

(** Pushing on a queue keeps the invariant, whether there is place or not. *)
Lemma own_push_op s m d ds :
  msg_data m = [d] → own (set_op_q (op_q s ++ [m]) s) ds ≡ₚ d :: own s ds.
Proof.
  intros Hm. unfold own. cbn. rewrite qdata_app, qdata_one, Hm.
  rewrite <- !app_assoc. cbn. rewrite !(Permutation_middle). done.
Qed.
Lemma own_push_logic s m d ds :
  msg_data m = [d] → own (set_logic_q (logic_q s ++ [m]) s) ds ≡ₚ d :: own s ds.
Proof.
  intros Hm. unfold own. cbn. rewrite qdata_app, qdata_one, Hm.
  rewrite !app_assoc, <- Permutation_cons_append. done.
Qed.

Lemma push_op_inv s ds d r m :
  in_hand s ds d r → msg_data m = [d] → head_state r = MANAGER_SEND_DEFAULT →
  tx d (trace s) = 0 → rep d (trace s) = 0 → tinv (pushed operation_queue m s) ds.
Proof.
  intros Hi Hm Hs Ht Hr. unfold pushed. destruct (_ <? _); [|apply Hi].
  eapply tinv_give; [exact Hi|by apply own_push_op|try done..].
  - auto.
  - intros x. cbn. rewrite qdata_app, qdata_one, Hm, elem_of_app, list_elem_of_singleton. intros [?| ->]; auto.
Qed.

Lemma push_logic_inv s ds d r m :
  in_hand s ds d r → msg_data m = [d] → tinv (pushed logic_queue m s) ds.
Proof.
  intros Hi Hm. unfold pushed. destruct (_ <? _); [|apply Hi].
  eapply tinv_give; [exact Hi|by apply own_push_logic|try done..]; auto.
Qed.

Lemma push_free_inv s ds q m : tinv s ds → msg_data m = [] → tinv (pushed q m s) ds.
Proof.
  intros Hi Hm. unfold pushed. destruct q; (destruct (_ <? _); [|done]);
    (eapply tinv_same; [exact Hi|done..| |]); cbn; rewrite ?qdata_app, ?qdata_one, ?Hm, ?app_nil_r; done.
Qed.

(** Taking a record off the head of a queue or out of the air list. *)
Lemma pop_op s ds m q d :
  tinv s ds → op_q s = m :: q → msg_data m = [d] →
  ∃ r, in_hand (set_op_q q s) ds d r ∧ head_state r = MANAGER_SEND_DEFAULT ∧ tx d (trace s) = 0 ∧ rep d (trace s) = 0.
Proof.
  intros Hi Hq Hm. assert (d ∈ qdata (op_q s)) as Hd by (rewrite Hq, qdata_cons, Hm; left).
  destruct (ti_rec _ _ Hi d) as [r Hr]; [unfold own; rewrite !elem_of_app; auto|].
  exists r. split; [|destruct (ti_queued _ _ Hi d r Hd Hr) as (? & ? & ?); done].
  eapply (tinv_take s); try done.
  - unfold own. rewrite Hq, qdata_cons, Hm. cbn [op_q logic_q set_op_q app]. symmetry. apply Permutation_middle.
  - intros x Hx. rewrite Hq, qdata_cons, elem_of_app. auto.
Qed.

Lemma pop_logic s ds m q d :
  tinv s ds → logic_q s = m :: q → msg_data m = [d] → ∃ r, in_hand (set_logic_q q s) ds d r.
Proof.
  intros Hi Hq Hm.
  destruct (ti_rec _ _ Hi d) as [r Hr].
  { unfold own. rewrite Hq, qdata_cons, Hm, !elem_of_app. right. right. left. left. }
  exists r. eapply (tinv_take s); try done.
  unfold own. rewrite Hq, qdata_cons, Hm. cbn [op_q logic_q set_logic_q app].
  rewrite !app_assoc. symmetry. apply Permutation_middle.
Qed.

Lemma take_air s ds d ds' :
  tinv s ds → ds ≡ₚ d :: ds' →
  ∃ r, in_hand s ds' d r ∧ tx d (trace s) = head_state r + 1 ∧ 0 <= head_state r < MANAGER_MAX_SEND_NUM ∧
       rep d (trace s) = 0.
Proof.
  intros Hi Hp. assert (d ∈ ds) as Hd by (rewrite Hp; left).
  destruct (ti_rec _ _ Hi d) as [r Hr]; [apply elem_of_app; auto|].
  exists r. split; [|by apply (ti_air _ _ Hi)].
  eapply (tinv_take s); try done.
  - rewrite (own_perm s _ _ Hp). done.
  - intros x Hx. rewrite Hp. by right.
Qed.

Lemma give_air s ds ds' d r :
  in_hand s ds d r → ds' ≡ₚ d :: ds → tx d (trace s) = head_state r + 1 →
  0 <= head_state r < MANAGER_MAX_SEND_NUM → rep d (trace s) = 0 → tinv s ds'.
Proof.
  intros Hi Hp Ht Hs Hr. eapply tinv_give; [exact Hi| |try done..].
  - rewrite (own_perm s _ _ Hp). done.
  - intros x. rewrite Hp, elem_of_cons. intros [->|?]; auto.
  - auto.
Qed.

(** ** Searching the air list *)

Lemma scan_pure (cb : @cb_t task_state) ps s : pure_cb cb → (scan cb ps s).2 = s.
Proof.
  intros Hcb. induction ps as [|[p d] ps IH]; cbn; [done|].
  pose proof (Hcb p d s) as H. destruct (cb p d s) as [r s']. cbn in H. subst s'.
  destruct (r =? 0); [done|]. destruct (scan cb ps s) as [o s']. cbn in *. done.
Qed.

Lemma scan_hit (cb : @cb_t task_state) a p d b s :
  pure_cb cb → (cb p d s).1 = 0 → (∀ x y, (x, y) ∈ a → (cb x y s).1 ≠ 0) →
  scan cb (a ++ (p, d) :: b) s = (Some (a, (p, d), b), s).
Proof.
  intros Hcb Hp. induction a as [|[x y] a IH]; cbn; intros Ha.
  - pose proof (Hcb p d s) as H. destruct (cb p d s) as [r s']. cbn in *. subst. done.
  - pose proof (Hcb x y s) as H. assert ((cb x y s).1 ≠ 0) as Hr by (apply Ha; left).
    destruct (cb x y s) as [r s']. cbn in *. subst s'.
    rewrite (proj2 (Z.eqb_neq r 0)) by done. rewrite IH; [done|]. intros ?? ?. apply Ha. by right.
Qed.

Lemma pure_query u : pure_cb (query_result_callback u).
Proof. intros p d s. done. Qed.
Lemma pure_ota : pure_cb manager_ota_remove_cb.
Proof. intros p d s. done. Qed.
Lemma pure_del p : pure_cb (del_result_callback p).
Proof. intros x d s. done. Qed.

Lemma list_keys (h : lheap task_state) l a p d b x y : is_list h l (a ++ (p, d) :: b) → (x, y) ∈ a → x ≠ p.
Proof.
  intros Hl Hx ->. pose proof (il_nodup _ _ _ Hl) as Hnd. apply NoDup_cons in Hnd as [_ Hnd].
  rewrite fmap_app in Hnd. apply NoDup_app in Hnd as (_ & Hd & _). apply (Hd p); [|left].
  apply (list_elem_of_fmap_2 fst) in Hx. done.
Qed.

Lemma scan_del (h : lheap task_state) l a p d b s :
  is_list h l (a ++ (p, d) :: b) →
  scan (del_result_callback p) (a ++ (p, d) :: b) s = (Some (a, (p, d), b), s).
Proof.
  intros Hl. apply scan_hit; [apply pure_del|cbn; rewrite Z.eqb_refl; done|].
  intros x y Hx. cbn. rewrite (proj2 (Z.eqb_neq x p)); [done|]. by eapply list_keys.
Qed.

Lemma scan_node (h : lheap task_state) l a p d b (s : task_state) :
  is_list h l (a ++ (p, d) :: b) → scan (is_node p) (a ++ (p, d) :: b) s = (Some (a, (p, d), b), s).
Proof.
  intros Hl. apply scan_hit; [done|cbn; rewrite Z.eqb_refl; done|].
  intros x y Hx. cbn. rewrite (proj2 (Z.eqb_neq p x)); [done|]. intros ->. by eapply (list_keys _ _ _ x).
Qed.

(** A search: the first hit with its surroundings, the heap as it was. *)
Lemma query_spec (cb : @cb_t task_state) h ps :
  pure_cb cb → is_list h wiota_send_manager_list ps →
  query_head_list wiota_send_manager_list (Some cb) h =
  Ok (match (scan cb ps (ext h)).1 with Some (_, (p, _), _) => Some p | None => None end, h).
Proof.
  intros Hcb Hl. unfold query_head_list. erewrite find_spec by done. cbn [opt_cb].
  rewrite scan_pure, with_ext_id by done. done.
Qed.

Lemma remove_at (h : lheap task_state) a p d b :
  is_list h wiota_send_manager_list (a ++ (p, d) :: b) → ∀ cb,
  scan cb (a ++ (p, d) :: b) (ext h) = (Some (a, (p, d), b), ext h) →
  ∃ h', remove_manager_node wiota_send_manager_list cb h = Ok (0, h') ∧
        is_list h' wiota_send_manager_list (a ++ b) ∧ ext h' = ext h ∧ oks h' = oks h.
Proof.
  intros Hl cb Hs. destruct (remove_spec cb wiota_send_manager_list h _ Hl) as (h' & Hm & He & _ & Ho).
  rewrite Hs in Hm, He. cbn in Hm, He. destruct Hm as (E & Hl' & _). eauto 8.
Qed.

(** ** The handlers *)

Definition reported (st d : Z) (r : t_app_operation_data) (s : task_state) : task_state :=
  pushed logic_queue (MANAGER_LOGIC_SEND_RESULT d)
    (set_trace (trace s ++ [EvReport d st]) (set_recs (<[d := with_state st r]> (recs s)) s)).
Definition resent (d : Z) (r : t_app_operation_data) (s : task_state) : task_state :=
  set_recs (<[d := with_state (head_state r + 1) r]> (recs s))
    (set_trace (trace s ++ [EvSend d (head_id r) (pload r)]) s).

Lemma with_ext_with_ext (e e' : task_state) h : with_ext e (with_ext e' h) = with_ext e h.
Proof. done. Qed.

Lemma query_hit u ps s a p d b :
  (scan (query_result_callback u) ps s).1 = Some (a, (p, d), b) →
  ps = a ++ (p, d) :: b ∧ ∃ r, recs s !! d = Some r ∧ head_id r = u.
Proof.
  revert a. induction ps as [|[q e] ps IH]; intros a; cbn; [done|].
  destruct (recs s !! e) as [r|] eqn:E; cbn.
  - destruct (Z.eqb_spec (head_id r) u) as [Hu|]; cbn.
    + intros. simplify_eq. eauto.
    + destruct (scan _ ps s) as [[[[a' x] b']|] s']; cbn in *; [|done]. intros. simplify_eq.
      destruct (IH a' eq_refl) as [-> ?]. done.
  - destruct (scan _ ps s) as [[[[a' x] b']|] s']; cbn in *; [|done]. intros. simplify_eq.
    destruct (IH a' eq_refl) as [-> ?]. done.
Qed.

(** Taking a node off the list, changing its record and reporting it. *)
Lemma report_run (h : lheap task_state) a p d b r st :
  is_list h wiota_send_manager_list (a ++ (p, d) :: b) → oks h = [] → recs (ext h) !! d = Some r →
  ∃ h', fbind (remove_manager_node wiota_send_manager_list (del_result_callback p)) (λ _,
          fbind (put_rec d (with_state st r)) (λ _,
          fbind (emit (EvReport d st)) (λ _, to_queue_logic_data (MANAGER_LOGIC_SEND_RESULT d)))) h = Ok (tt, h') ∧
        is_list h' wiota_send_manager_list (a ++ b) ∧ oks h' = [] ∧ ext h' = reported st d r (ext h).
Proof.
  intros Hl Ho Hr. destruct (remove_at h a p d b Hl _ (scan_del h _ a p d b (ext h) Hl)) as (h1 & E1 & Hl1 & He1 & Ho1).
  erewrite bind_Ok; [|exact E1]. rewrite <- He1 in Hr. rewrite Ho in Ho1.
  erewrite bind_Ok; [|eapply put_rec_eq; exact Hr]. erewrite bind_Ok; [|apply emit_eq].
  rewrite to_logic_eq by done. eexists. split; [reflexivity|].
  split; [by repeat apply is_list_ext|]. split; [done|]. cbn. rewrite He1. done.
Qed.

Lemma operate_result_spec h ps user_id res :
  hinv h ps →
  match (scan (query_result_callback user_id) ps (ext h)).1 with
  | None => manager_operate_result user_id res h = Ok (tt, h)
  | Some (a, (p, d), b) =>
      ∃ r h', recs (ext h) !! d = Some r ∧ head_id r = user_id ∧
        manager_operate_result user_id res h = Ok (tt, h') ∧ oks h' = [] ∧
        if res =? UC_OP_SUCC then
          is_list h' wiota_send_manager_list (a ++ b) ∧ ext h' = reported MANAGER_SEND_SUCCESS d r (ext h)
        else if head_state r >? MANAGER_MAX_SEND_NUM - 2 then
          is_list h' wiota_send_manager_list (a ++ b) ∧ ext h' = reported MANAGER_SEND_FAIL d r (ext h)
        else ∃ n, is_list h' wiota_send_manager_list ((n, d) :: a ++ b) ∧ ext h' = resent d r (ext h)
  end.
Proof.
  intros [Hl Ho Hi]. unfold manager_operate_result.
  erewrite bind_Ok; [|apply query_spec; [apply pure_query|exact Hl]].
  destruct (scan _ ps (ext h)).1 as [[[a [p d]] b]|] eqn:Es; [|done].
  apply query_hit in Es as (-> & r & Hr & Hu).
  destruct (node_at _ _ _ _ _ _ Hl) as (_ & Hd & _).
  erewrite bind_Ok; [|by apply get_data_eq]. erewrite bind_Ok; [|by apply get_rec_eq].
  destruct (res =? UC_OP_SUCC).
  { destruct (report_run h a p d b r MANAGER_SEND_SUCCESS Hl Ho Hr) as (h' & E & Hl' & Ho' & He').
    exists r, h'. split_and!; first [done|exact E]. }
  destruct (head_state r >? MANAGER_MAX_SEND_NUM - 2) eqn:Ec.
  { destruct (report_run h a p d b r MANAGER_SEND_FAIL Hl Ho Hr) as (h' & E & Hl' & Ho' & He').
    exists r, h'. rewrite Ec. split_and!; first [done|exact E]. }
  erewrite bind_Ok; [|apply emit_eq]. erewrite bind_Ok; [|eapply put_rec_eq; exact Hr].
  rewrite with_ext_with_ext. change (ext (with_ext ?e h)) with e.
  set (h1 := with_ext _ h).
  assert (is_list h1 wiota_send_manager_list (a ++ (p, d) :: b)) as Hl1 by by apply is_list_ext.
  destruct (remove_head_spec p _ _ _ Hl1) as (h' & Hm & _ & He & Hoo & _).
  rewrite (scan_node h1 _ a p d b _ Hl1) in Hm, Hoo. cbn in Hm, Hoo. destruct Hm as (E1 & Hl' & _).
  assert (can_malloc h1) as Hc by (unfold can_malloc; cbn; rewrite Ho; done).
  unfold fbind. rewrite E1. exists r, h'. rewrite Ec. split; [done|]. split; [done|]. split; [done|].
  split; [rewrite Hoo; cbn; rewrite Ho; done|]. exists (brk h1). split; [by apply Hl'|]. rewrite He. done.
Qed.

Lemma reported_inv s ds ds' d r st :
  tinv s ds → ds ≡ₚ d :: ds' → recs s !! d = Some r →
  (st = MANAGER_SEND_FAIL → head_state r = MANAGER_MAX_SEND_NUM - 1) → tinv (reported st d r s) ds'.
Proof.
  intros Hi Hp Hr Hst. destruct (take_air s ds d ds' Hi Hp) as (r0 & Hh & Ht & Hs & Hrep).
  assert (r0 = r) as -> by (pose proof (ih_rec _ _ _ _ Hh); congruence).
  pose proof (in_hand_rec _ _ _ _ (with_state st r) Hh eq_refl) as Hh1.
  assert (event_ok (set_recs (<[d := with_state st r]> (recs s)) s) d (EvReport d st)) as Hok.
  { split; [done|]. split; [done|]. intros ->. cbn [trace set_recs]. rewrite Ht, Hst by done. done. }
  exact (push_logic_inv _ _ _ _ (MANAGER_LOGIC_SEND_RESULT d) (in_hand_event _ _ _ _ _ Hh1 Hok) eq_refl).
Qed.

Lemma resent_inv s ds ds' d r :
  tinv s ds → ds ≡ₚ d :: ds' → recs s !! d = Some r → head_state r <= MANAGER_MAX_SEND_NUM - 2 →
  tinv (resent d r s) ds.
Proof.
  intros Hi Hp Hr Hst. destruct (take_air s ds d ds' Hi Hp) as (r0 & Hh & Ht & Hs & Hrep).
  assert (r0 = r) as -> by (pose proof (ih_rec _ _ _ _ Hh); congruence).
  unfold MANAGER_MAX_SEND_NUM in *.
  assert (event_ok s d (EvSend d (head_id r) (pload r))) as He.
  { cbn. unfold MANAGER_MAX_SEND_NUM. split; [done|]. split; [lia|done]. }
  pose proof (in_hand_event _ _ _ _ _ Hh He) as Hh1.
  pose proof (in_hand_rec _ _ _ _ (with_state (head_state r + 1) r) Hh1 eq_refl) as Hh2.
  eapply give_air; [exact Hh2|exact Hp|..]; cbn.
  - rewrite tx_snoc. cbn. rewrite Z.eqb_refl. lia.
  - unfold MANAGER_MAX_SEND_NUM. lia.
  - rewrite rep_snoc. cbn. lia.
Qed.

Lemma fmap_snd_mid (a b : list (Z * Z)) (p d : Z) : (a ++ (p, d) :: b).*2 ≡ₚ d :: (a ++ b).*2.
Proof. rewrite !fmap_app. cbn. symmetry. apply Permutation_middle. Qed.

Lemma operate_result_inv h ps user_id res :
  hinv h ps → ∃ h' ps', manager_operate_result user_id res h = Ok (tt, h') ∧ hinv h' ps'.
Proof.
  intros Hh. pose proof (operate_result_spec h ps user_id res Hh) as Hs. destruct Hh as [Hl Ho Hi].
  destruct (scan _ ps (ext h)).1 as [[[a [p d]] b]|] eqn:Es; [|by exists h, ps].
  apply query_hit in Es as (-> & _).
  destruct Hs as (r & h' & Hr & Hu & E & Ho' & Hs). pose proof (fmap_snd_mid a b p d) as Hp.
  destruct (res =? UC_OP_SUCC).
  { destruct Hs as (Hl' & He). exists h', (a ++ b). split; [done|]. split; [done..|]. rewrite He.
    by eapply reported_inv. }
  destruct (Z.gtb_spec (head_state r) (MANAGER_MAX_SEND_NUM - 2)) as [Hgt|Hle].
  { destruct Hs as (Hl' & He). exists h', (a ++ b). split; [done|]. split; [done..|]. rewrite He.
    eapply reported_inv; try done. intros _.
    destruct (take_air _ _ _ _ Hi Hp) as (r0 & Hh & _ & Hst & _).
    assert (r0 = r) as -> by (pose proof (ih_rec _ _ _ _ Hh); congruence). lia. }
  destruct Hs as (n & Hl' & He). exists h', ((n, d) :: a ++ b). split; [done|]. split; [done..|].
  rewrite He. change (((n, d) :: a ++ b).*2) with (d :: (a ++ b).*2). rewrite <- Hp.
  by eapply resent_inv.
Qed.

Lemma ota_hit ps s a p d b :
  (scan manager_ota_remove_cb ps s).1 = Some (a, (p, d), b) →
  ps = a ++ (p, d) :: b ∧ scan manager_ota_remove_cb ps s = (Some (a, (p, d), b), s).
Proof.
  intros Hs. pose proof (scan_pure _ ps s pure_ota) as Hp.
  destruct (scan manager_ota_remove_cb ps s) as [o s'] eqn:E. cbn in Hs, Hp. subst. split; [|done].
  by apply scan_split in E.
Qed.

Lemma ota_result_inv h ps :
  hinv h ps → ∃ h' ps', manager_ota_result_msg h = Ok (tt, h') ∧ hinv h' ps'.
Proof.
  intros [Hl Ho Hi]. unfold manager_ota_result_msg.
  erewrite bind_Ok; [|apply query_spec; [apply pure_ota|exact Hl]].
  destruct (scan manager_ota_remove_cb ps (ext h)).1 as [[[a [p d]] b]|] eqn:Es; [|by exists h, ps].
  apply ota_hit in Es as (-> & Es). destruct (node_at _ _ _ _ _ _ Hl) as (_ & Hd & _).
  erewrite bind_Ok; [|by apply get_data_eq].
  destruct (remove_at h a p d b Hl _ Es) as (h1 & E1 & Hl1 & He1 & Ho1).
  erewrite bind_Ok; [|exact E1].
  destruct (take_air _ _ _ _ Hi (fmap_snd_mid a b p d)) as (r & Hh & Ht & Hs & Hrep).
  pose proof (ih_rec _ _ _ _ Hh) as Hr. rewrite <- He1 in Hh, Hr, Ht, Hrep.
  erewrite bind_Ok; [|eapply get_rec_eq; exact Hr]. erewrite bind_Ok; [|apply emit_eq].
  rewrite to_logic_eq by (cbn; congruence). eexists _, (a ++ b). split; [reflexivity|].
  split; [by repeat apply is_list_ext|cbn; congruence|].
  eapply (push_logic_inv _ _ d r); [|done]. apply in_hand_event; [done|].
  split; [done|]. split; [done|]. intros E. rewrite Ht, E. done.
Qed.

(** What a handler may assume of the record its message carries. *)
Definition carried (s : task_state) (ds : list Z) (m : t_app_logic_message) : Prop :=
  match msg_data m with
  | [d] => ∃ r, in_hand s ds d r ∧ head_state r = MANAGER_SEND_DEFAULT ∧ tx d (trace s) = 0 ∧ rep d (trace s) = 0
  | _ => tinv s ds
  end.

Lemma insert_inv (h : lheap task_state) ps d :
  is_list h wiota_send_manager_list ps → oks h = [] →
  ∃ h' p, insert_tail_manager_list wiota_send_manager_list d h = Ok (tt, h') ∧
        is_list h' wiota_send_manager_list (ps ++ [(p, d)]) ∧ ext h' = ext h ∧ oks h' = [].
Proof.
  intros Hl Ho. destruct (insert_tail_spec h _ ps d Hl) as (h' & E & Hl' & _ & He & _ & Ho').
  { unfold can_malloc. rewrite Ho. done. }
  exists h', (brk h). rewrite Ho in Ho'. done.
Qed.

Lemma sent_inv s ds ds' d r e :
  in_hand s ds d r → head_state r = MANAGER_SEND_DEFAULT → tx d (trace s) = 0 → rep d (trace s) = 0 →
  (e = EvSend d (head_id r) (pload r) ∨ e = EvBroadcast d true (pload r)) → ds' ≡ₚ d :: ds →
  tinv (set_trace (trace s ++ [e]) s) ds'.
Proof.
  intros Hh Hs Ht Hr He Hp. unfold MANAGER_SEND_DEFAULT in Hs.
  assert (event_ok s d e) as Hok.
  { destruct He as [->| ->]; cbn; unfold MANAGER_MAX_SEND_NUM; (split; [done|]; split; [lia|done]). }
  eapply (give_air _ ds); [by apply in_hand_event|done|cbn..].
  - rewrite tx_snoc. destruct He as [->| ->]; cbn; rewrite Z.eqb_refl; lia.
  - unfold MANAGER_MAX_SEND_NUM. lia.
  - rewrite rep_snoc. destruct He as [->| ->]; cbn; lia.
Qed.

Lemma operation_msg_inv h ps m :
  is_list h wiota_send_manager_list ps → oks h = [] → carried (ext h) ps.*2 m →
  ∃ h' ps', manager_operation_msg m h = Ok (tt, h') ∧ hinv h' ps'.
Proof.
  intros Hl Ho Hm. destruct m as [d|u res|d|d| | | |d|u data|page|st sz]; cbn [manager_operation_msg]; unfold carried in Hm; cbn [msg_data] in Hm.
  - destruct Hm as (r & Hh & Hs & Ht & Hr). destruct (insert_inv h ps d Hl Ho) as (h1 & p & E1 & Hl1 & He1 & Ho1).
    erewrite bind_Ok; [|exact E1]. rewrite <- He1 in Hh.
    erewrite bind_Ok; [|eapply get_rec_eq, ih_rec, Hh]. rewrite emit_eq.
    eexists _, (ps ++ [(p, d)]). split; [reflexivity|]. split; [by apply is_list_ext|done|].
    eapply (sent_inv (ext h1)); [exact Hh|done|rewrite He1; done..|auto|].
    rewrite fmap_app. cbn. rewrite <- Permutation_cons_append. done.
  - apply (operate_result_inv h ps). done.
  - destruct Hm as (r & Hh & Hs & Ht & Hr). erewrite bind_Ok; [|eapply get_rec_eq, ih_rec, Hh].
    erewrite bind_Ok; [|apply emit_eq]. erewrite free_rec_eq; [|exact (ih_rec _ _ _ _ Hh)].
    eexists _, ps. split; [reflexivity|]. split; [by repeat apply is_list_ext|done|].
    assert (event_ok (ext h) d (EvBroadcast d false (pload r))) as Hok.
    { cbn. unfold MANAGER_MAX_SEND_NUM. rewrite Ht. split; [done|]. split; [lia|done]. }
    exact (in_hand_free _ _ _ _ (in_hand_event _ _ _ _ _ Hh Hok)).
  - destruct Hm as (r & Hh & Hs & Ht & Hr). erewrite bind_Ok; [|eapply get_rec_eq, ih_rec, Hh].
    destruct (insert_inv h ps d Hl Ho) as (h1 & p & E1 & Hl1 & He1 & Ho1).
    erewrite bind_Ok; [|exact E1]. rewrite emit_eq. rewrite <- He1 in Hh.
    eexists _, (ps ++ [(p, d)]). split; [reflexivity|]. split; [by apply is_list_ext|done|].
    eapply (sent_inv (ext h1)); [exact Hh|done|rewrite He1; done..|auto|].
    rewrite fmap_app. cbn. rewrite <- Permutation_cons_append. done.
  - apply (ota_result_inv h ps). done.
  - rewrite mod_task_eq. eexists _, ps. split; [reflexivity|]. split; [by apply is_list_ext|done|].
    by eapply tinv_same.
  - exists h, ps. done.
  - destruct Hm as (r & Hh & _). erewrite free_rec_eq; [|exact (ih_rec _ _ _ _ Hh)].
    eexists _, ps. split; [reflexivity|]. split; [by apply is_list_ext|done|]. by eapply in_hand_free.
  - exists h, ps. done.
  - exists h, ps. done.
  - exists h, ps. done.
Qed.

(** ** One turn of each task, and the calls from outside *)

Lemma pop_carried s ds m q :
  tinv s ds → op_q s = m :: q → carried (set_op_q q s) ds m.
Proof.
  intros Hi Hq. unfold carried. destruct (msg_data m) as [|d [|d' l]] eqn:Hm.
  - eapply tinv_same; [exact Hi|done..| |done]. cbn. rewrite Hq, qdata_cons, Hm. done.
  - destruct (pop_op s ds m q d Hi Hq Hm) as (r & ? & ? & ? & ?). eauto.
  - destruct m; done.
Qed.

Lemma clean_inv s ds : tinv s ds → tinv (set_recs (foldr delete (recs s) (rev ds)) s) [].
Proof.
  revert s. induction ds as [|d ds IH]; intros s Hi.
  - destruct s. exact Hi.
  - destruct (take_air s (d :: ds) d ds Hi) as (r & Hh & _); [done|].
    cbn. rewrite foldr_app. exact (IH _ (in_hand_free _ _ _ _ Hh)).
Qed.

Lemma operation_step_inv h ps :
  hinv h ps → ∃ b h' ps', manager_operation_step h = Ok (b, h') ∧ hinv h' ps' ∧ (b = true → ps' = []).
Proof.
  intros [Hl Ho Hi]. unfold manager_operation_step. erewrite bind_Ok; [|reflexivity].
  destruct (op_q (ext h)) as [|m q] eqn:Hq; [by exists false, h, ps|].
  erewrite bind_Ok; [|apply mod_task_eq].
  destruct (operation_msg_inv (with_ext (set_op_q q (ext h)) h) ps m) as (h1 & ps1 & E1 & [Hl1 Ho1 Hi1]).
  { by apply is_list_ext. }
  { done. }
  { by apply pop_carried. }
  erewrite bind_Ok; [|exact E1]. erewrite bind_Ok; [|reflexivity].
  destruct (running (ext h1)); [by exists false, h1, ps1|].
  erewrite bind_Ok; [|reflexivity].
  destruct (clean_spec h1 _ _ Hl1) as (h2 & E2 & Hl2 & Hr2 & He2 & _ & Ho2).
  erewrite bind_Ok; [|exact E2]. erewrite bind_Ok; [|reflexivity].
  eexists true, _, []. split; [reflexivity|]. split; [|done].
  split; [by apply is_list_ext|cbn; congruence|]. cbn.
  rewrite Hr2, length_app. replace (_ + length (released h1) - length (released h1))%nat with (length (rev ps1.*2)) by lia.
  rewrite take_app_length, He2. by apply clean_inv.
Qed.

(** An event that is neither a transmission nor a report. *)
Definition outside (e : event) : Prop := match e with EvResponse _ _ | EvToNet _ _ _ => True | _ => False end.

Lemma tinv_event s ds e : outside e → tinv s ds → tinv (set_trace (trace s ++ [e]) s) ds.
Proof.
  intros He [H1 H2 H3 H4 H5 H6 H7 H8 H9 H10 H11 H12].
  assert (∀ x, tx x (trace s ++ [e]) = tx x (trace s)) as Ht by (intros; rewrite tx_snoc; destruct e; done || cbn; lia).
  assert (∀ x, rep x (trace s ++ [e]) = rep x (trace s)) as Hr by (intros; rewrite rep_snoc; destruct e; done || cbn; lia).
  constructor; try done; cbn; intros x; rewrite ?Ht, ?Hr; auto.
  rewrite elem_of_app, list_elem_of_singleton. intros [?|<-]; [auto|done].
Qed.

(** The state after an event. *)
Definition noted (e : event) (s : task_state) : task_state := set_trace (trace s ++ [e]) s.

Lemma data_to_net_eq e h :
  oks h = [] → manager_send_data_logic_to_net e h = Ok (0, with_ext (noted e (ext h)) h).
Proof.
  intros Ho. unfold manager_send_data_logic_to_net, to_network_data. rewrite (bind_Ok _ _ _ _ _ (malloc_ok_eq _ Ho)).
  rewrite fbind_assoc, (bind_Ok _ _ _ _ _ (malloc_ok_eq _ Ho)). done.
Qed.

Lemma response_eq res n h :
  oks h = [] → manager_response_message_result res n h = Ok (0, with_ext (noted (EvResponse res n) (ext h)) h).
Proof.
  intros Ho. unfold manager_response_message_result. rewrite (bind_Ok _ _ _ _ _ (malloc_ok_eq _ Ho)).
  cbn [memory_assert]. erewrite bind_Ok by reflexivity. rewrite (bind_Ok _ _ _ _ _ (data_to_net_eq _ _ Ho)). done.
Qed.

(** A record nobody refers to, as it is while its result function runs. *)
Record loose (s : task_state) (ds : list Z) (d : Z) : Prop := {
  lo_inv : tinv s ds;
  lo_not : d ∉ own s ds;
  lo_rec : is_Some (recs s !! d)
}.

Lemma in_hand_loose s ds d r : in_hand s ds d r → loose s ds d.
Proof. intros [? ? ? ?]. split; eauto. Qed.

Lemma loose_free h ds d :
  loose (ext h) ds d →
  ∃ s', free_rec d h = Ok (tt, with_ext s' h) ∧ tinv s' ds.
Proof.
  intros [Hi Hn [r Hr]]. rewrite (free_rec_eq d r h Hr). eexists. split; [reflexivity|]. by apply tinv_free.
Qed.

(** The state after the result of a record that belongs to a message of the
    server. *)
Definition answered (d : Z) (r : t_app_operation_data) (s : task_state) : task_state :=
  let answer st s := if SERVER_DEFAULT_ADDRESS =? src_address r then noted (EvResponse st (request_number r)) s else s in
  match op_segment r with
  | Some g =>
      match segs s !! g with
      | Some (st, rem) =>
          let st := if MANAGER_SEND_FAIL =? head_state r then MANAGER_SEND_FAIL else st in
          let s := set_segs (<[g := (st, u8 (rem - 1))]> (segs s)) s in
          if 0 =? u8 (rem - 1) then let s := answer st s in set_segs (delete g (segs s)) s else s
      | None => s
      end
  | None => answer (head_state r) s
  end.

Lemma network_result_eq h d r :
  oks h = [] → recs (ext h) !! d = Some r → (∀ g, op_segment r = Some g → is_Some (segs (ext h) !! g)) →
  manager_network_to_wiota_result d h = Ok (tt, with_ext (answered d r (ext h)) h).
Proof.
  intros Ho Hr Hg. unfold manager_network_to_wiota_result, answered.
  rewrite (bind_Ok _ _ _ _ _ (get_rec_eq d r h Hr)). destruct (op_segment r) as [g|] eqn:Es.
  - destruct (Hg g eq_refl) as [[st rem] Hs].
    assert (get_seg g h = Ok ((st, rem), h)) as E by (unfold get_seg, get_task; fw_unfold; rewrite Hs; done).
    rewrite (bind_Ok _ _ _ _ _ E), Hs. cbn [fst snd]. erewrite bind_Ok by apply mod_task_eq.
    destruct (0 =? u8 (rem - 1)); [|done].
    destruct (SERVER_DEFAULT_ADDRESS =? src_address r); [|done].
    rewrite fbind_assoc. erewrite bind_Ok by (by apply response_eq). done.
  - destruct (SERVER_DEFAULT_ADDRESS =? src_address r); [|rewrite with_ext_id; done].
    erewrite bind_Ok by (by apply response_eq). done.
Qed.

Lemma noted_loose s ds d e : outside e → loose s ds d → loose (noted e s) ds d.
Proof. intros He [Hi Hn Hr]. split; [by apply tinv_event|done|done]. Qed.

Lemma answered_loose s ds d r :
  in_hand s ds d r → (∀ g, op_segment r = Some g → is_Some (segs s !! g)) ∧ loose (answered d r s) ds d.
Proof.
  intros Hh. pose proof (ih_rec _ _ _ _ Hh) as Hr. pose proof (in_hand_loose _ _ _ _ Hh) as Hlo.
  unfold answered. destruct (op_segment r) as [g|] eqn:Hg.
  - destruct (ih_room _ _ _ _ Hh g) as (st & rem & Hsg & _); [unfold seg_is; rewrite Hr; done|].
    split; [intros ? [= <-]; eauto|]. rewrite Hsg.
    set (st' := if MANAGER_SEND_FAIL =? head_state r then MANAGER_SEND_FAIL else st).
    destruct (in_hand_count _ _ _ _ _ _ _ st' Hh Hg Hsg) as [Hb Hi].
    rewrite (u8_id (rem - 1)) by (unfold is_u8; lia). destruct Hlo as [_ Hn Hs].
    destruct (0 =? rem - 1); [|split; done].
    destruct (SERVER_DEFAULT_ADDRESS =? src_address r); cbn [set_segs segs noted set_trace]; rewrite delete_insert_eq.
    + refine (noted_loose (set_segs (delete g (segs s)) s) ds d (EvResponse st' (request_number r)) I _). split; done.
    + split; done.
  - split; [done|]. destruct (SERVER_DEFAULT_ADDRESS =? src_address r); [by apply noted_loose|done].
Qed.

Definition is_send (mt : Z → t_app_logic_message) : Prop := ∀ d, msg_data (mt d) = [d].

(** The state after a record was handed to the radio task. *)
Definition handed (mt : Z → t_app_logic_message) (r : t_app_operation_data) (s : task_state) : task_state :=
  pushed operation_queue (mt (nextp s)) (set_nextp (nextp s + 1) (set_recs (<[nextp s := r]> (recs s)) s)).

Lemma send_to_operater_eq h mt n src c i l data seg fn :
  oks h = [] →
  manager_logic_send_to_operater mt n src c i l data seg fn h =
  Ok (tt, with_ext (handed mt {| src_address := src; head_id := i; head_state := MANAGER_SEND_DEFAULT;
    result_function := fn; head_cmd := c; request_number := n; op_len := l; pload := data; op_segment := seg |} (ext h)) h).
Proof.
  intros Ho. unfold manager_logic_send_to_operater.
  erewrite bind_Ok; [|by apply malloc_ok_eq]. cbn [memory_assert]. erewrite bind_Ok; [|reflexivity].
  erewrite bind_Ok; [|reflexivity]. erewrite bind_Ok; [|apply mod_task_eq].
  rewrite to_operation_eq by done. done.
Qed.

(** Handing a message to the radio task uses at most one place of its segment
    counter. *)
Lemma send_to_operater_inv h ps mt n src c i l data seg fn :
  hinv h ps → is_send mt →
  (∀ g, seg = Some g → ∃ st rem, segs (ext h) !! g = Some (st, rem) ∧ cntseg (ext h) g (own (ext h) ps.*2) + 1 <= rem) →
  ∃ h', manager_logic_send_to_operater mt n src c i l data seg fn h = Ok (tt, h') ∧ hinv h' ps ∧
        segs (ext h') = segs (ext h) ∧ nextp (ext h') = nextp (ext h) + 1 ∧ trace (ext h') = trace (ext h) ∧
        ∀ g, cntseg (ext h') g (own (ext h') ps.*2) <= cntseg (ext h) g (own (ext h) ps.*2) + 1.
Proof.
  intros [Hl Ho Hi] Hmt Hg. rewrite send_to_operater_eq by done. unfold handed.
  set (r := {| src_address := src |}). set (d := nextp (ext h)).
  destruct (in_hand_new (ext h) ps.*2 r Hi Hg) as (Hh & Ht & Hrep). fold d in Hh, Ht, Hrep.
  set (s1 := set_nextp _ _) in *.
  eexists. split; [reflexivity|].
  assert (tinv (pushed operation_queue (mt d) s1) ps.*2) as Hi'.
  { eapply push_op_inv; [exact Hh|apply Hmt|done..]. }
  assert (∀ g, cntseg s1 g (own (ext h) ps.*2) = cntseg (ext h) g (own (ext h) ps.*2)) as Hc.
  { intros g. apply cntseg_ext. intros x Hx. subst s1. cbn. rewrite lookup_insert_ne; [done|].
    intros ->. by apply (ih_not _ _ _ _ Hh). }
  split; [split; [by repeat apply is_list_ext|done|done]|].
  split; [unfold pushed; destruct (_ <? _); done|]. split; [unfold pushed; destruct (_ <? _); done|].
  split; [unfold pushed; destruct (_ <? _); done|].
  intros g. cbn [ext with_ext]. unfold pushed. destruct (_ <? _).
  - change (cntseg (set_op_q (op_q s1 ++ [mt d]) s1) g) with (cntseg s1 g).
    rewrite (cntseg_perm s1 g _ _ (own_push_op s1 (mt d) d ps.*2 (Hmt d))), cntseg_cons.
    change (own s1 ps.*2) with (own (ext h) ps.*2). rewrite Hc. case_decide; lia.
  - change (own s1 ps.*2) with (own (ext h) ps.*2). rewrite Hc. lia.
Qed.

Lemma send_to_operater_loose h ps x mt n src c i l data fn :
  hinv h ps → loose (ext h) ps.*2 x → is_send mt →
  ∃ h', manager_logic_send_to_operater mt n src c i l data None fn h = Ok (tt, h') ∧ hinv h' ps ∧ loose (ext h') ps.*2 x.
Proof.
  intros Hh [Hi Hn [r Hr]] Hmt.
  destruct (send_to_operater_inv h ps mt n src c i l data None fn Hh Hmt) as (h' & E & Hh' & _); [done|].
  exists h'. split; [done|]. split; [done|]. rewrite send_to_operater_eq in E by apply Hh. simplify_eq.
  assert (x < nextp (ext h)) as Hx by (apply (ti_fresh _ _ Hi); eauto).
  split; [apply Hh'| |]; cbn [ext with_ext]; unfold handed; set (s1 := set_nextp _ _); unfold pushed; destruct (_ <? _).
  - rewrite (own_push_op s1 (mt (nextp (ext h))) (nextp (ext h)) ps.*2 (Hmt _)), elem_of_cons.
    intros [->|Hin]; [lia|]. by apply Hn.
  - exact Hn.
  - cbn. rewrite lookup_insert_ne by lia. eauto.
  - cbn. rewrite lookup_insert_ne by lia. eauto.
Qed.

(** Calls that only put a message without a record on a queue. *)
Lemma push_free_run q m h ps :
  hinv h ps → msg_data m = [] → hinv (with_ext (pushed q m (ext h)) h) ps.
Proof. intros [Hl Ho Hi] Hm. split; [by apply is_list_ext|done|by apply push_free_inv]. Qed.

Lemma counts_inv h ps v w : hinv h ps → hinv (with_ext (set_counts v w (ext h)) h) ps.
Proof. intros [Hl Ho Hi]. split; [by apply is_list_ext|done|by eapply tinv_same]. Qed.

Lemma recv_data_inv h ps u data : hinv h ps → ∃ h', manager_recv_data u data h = Ok (tt, h') ∧ hinv h' ps.
Proof.
  intros Hh. pose proof (hi_mem _ _ Hh) as Ho. unfold manager_recv_data.
  erewrite bind_Ok; [|by apply malloc_ok_eq].
  destruct (zlen data =? 0); [erewrite bind_Ok; [|reflexivity]; cbn; by exists h|].
  erewrite bind_Ok; [|by apply malloc_ok_eq]. cbn [negb orb].
  erewrite bind_Ok; [|by apply to_logic_eq]. rewrite mod_task_eq.
  eexists. split; [reflexivity|]. apply counts_inv. by apply push_free_run.
Qed.

Lemma send_result_inv h ps u res : hinv h ps → ∃ h', manager_send_result u res h = Ok (tt, h') ∧ hinv h' ps.
Proof.
  intros Hh. pose proof (hi_mem _ _ Hh) as Ho. unfold manager_send_result.
  erewrite bind_Ok; [|by apply malloc_ok_eq]. cbn [negb]. rewrite to_operation_eq by done.
  eexists. split; [reflexivity|]. by apply push_free_run.
Qed.

Lemma ota_callback_inv h ps : hinv h ps → ∃ h', uc_send_radio_ota_callback h = Ok (tt, h') ∧ hinv h' ps.
Proof.
  intros Hh. pose proof (hi_mem _ _ Hh) as Ho. unfold uc_send_radio_ota_callback. rewrite to_operation_eq by done.
  eexists. split; [reflexivity|]. by apply push_free_run.
Qed.

Lemma timer_inv h ps : hinv h ps → ∃ h', manager_recv_timer_func h = Ok (tt, h') ∧ hinv h' ps.
Proof.
  intros Hh. pose proof (hi_mem _ _ Hh) as Ho. unfold manager_recv_timer_func. erewrite bind_Ok; [|reflexivity].
  destruct (_ =? _).
  - rewrite to_operation_eq by done. eexists. split; [reflexivity|]. by apply push_free_run.
  - rewrite mod_task_eq. eexists. split; [reflexivity|]. by apply counts_inv.
Qed.

Lemma start_inv h :
  hinv h [] → ∃ h', manager_operation_start h = Ok (tt, h') ∧ hinv h' [].
Proof.
  intros Hh. pose proof (hi_mem _ _ Hh) as Ho. unfold manager_operation_start.
  erewrite bind_Ok; [|by apply to_logic_eq].
  pose proof (push_free_run logic_queue MANAGER_LOGIC_WIOTA_START h [] Hh eq_refl) as [Hl1 Ho1 Hi1].
  destruct (init_spec (with_ext (pushed logic_queue MANAGER_LOGIC_WIOTA_START (ext h)) h) wiota_send_manager_list)
    as (h2 & E2 & Hl2 & _ & He2 & _ & Ho2).
  { eapply il_alloc; [exact Hl1|left]. }
  { apply Hl1. }
  erewrite bind_Ok; [|exact E2]. rewrite mod_task_eq. eexists. split; [reflexivity|].
  split; [by apply is_list_ext|cbn; congruence|]. rewrite He2. by eapply tinv_same.
Qed.

Lemma operation_task_step_inv h ps :
  hinv h ps → ∃ h' ps', manager_operation_task_step h = Ok (tt, h') ∧ hinv h' ps'.
Proof.
  intros Hh. unfold manager_operation_task_step.
  destruct (operation_step_inv h ps Hh) as (b & h1 & ps1 & E & Hh1 & Hb). erewrite bind_Ok; [|exact E].
  destruct b; [|by exists h1, ps1]. rewrite Hb in Hh1 by done.
  destruct (start_inv h1 Hh1) as (h2 & E2 & Hh2). by exists h2, [].
Qed.

(** ** What the records and the logic queue hold

    A property of the result functions and of the messages to the logic task
    stays true when all that is added has it. *)

Section Content.
Context (F : option manager_message_exe_result → Prop) (L : t_app_logic_message → Prop).

Record content (s : task_state) : Prop := {
  co_rec : ∀ d r, recs s !! d = Some r → F (result_function r);
  co_logic : Forall L (logic_q s)
}.
Local Abbreviation P := (λ h : lheap task_state, content (ext h)).
Local Abbreviation keeps_content m := (Keeps P m (λ _, True)).

Lemma content_same s s' : recs s' = recs s → logic_q s' = logic_q s → content s → content s'.
Proof. intros Hr Hq [H1 H2]. split; [intros d r|]; rewrite ?Hr, ?Hq; eauto. Qed.
Lemma content_insert d r s : F (result_function r) → content s → content (set_recs (<[d := r]> (recs s)) s).
Proof.
  intros Hf [H1 H2]. split; [|done]. intros x rx Hx. cbn in Hx. apply lookup_insert_Some in Hx as [[_ <-]|[_ Hx]]; eauto.
Qed.
Lemma content_sub m s : m ⊆ recs s → content s → content (set_recs m s).
Proof. intros Hm [H1 H2]. split; [|done]. intros x r Hx. eapply H1, lookup_weaken; eauto. Qed.
Lemma content_delete d s : content s → content (set_recs (delete d (recs s)) s).
Proof. apply content_sub, delete_subseteq. Qed.
Lemma content_drop l s : content s → content (set_recs (foldr delete (recs s) l) s).
Proof.
  apply content_sub. induction l as [|d l IH]; cbn; [done|]. etransitivity; [apply delete_subseteq|exact IH].
Qed.
Lemma content_push m s : L m → content s → content (set_logic_q (logic_q s ++ [m]) s).
Proof. intros Hm [H1 H2]. split; [done|]. cbn. apply Forall_app. split; [done|]. by constructor. Qed.
Lemma content_pop m q s : logic_q s = m :: q → content s → L m ∧ content (set_logic_q q s).
Proof. intros Hq [H1 H2]. rewrite Hq in H2. apply Forall_cons in H2 as [Hm H2]. done. Qed.

Lemma keeps_task f : (∀ s, content s → content (f s)) → keeps_content (mod_task f).
Proof. intros Hf. apply keeps_mod. intros h. apply Hf. Qed.
Lemma keeps_task_same f : (∀ s, recs (f s) = recs s) → (∀ s, logic_q (f s) = logic_q s) → keeps_content (mod_task f).
Proof. intros H1 H2. apply keeps_task. intros s. by apply content_same. Qed.
Lemma keeps_get_task : Keeps P get_task content.
Proof. intros h a h' Hh [= <- <-]. done. Qed.
Lemma keeps_malloc_ok : keeps_content malloc_ok.
Proof. intros h a h' Hh. unfold malloc_ok. destruct (oks h); intros [= <- <-]; done. Qed.
Lemma keeps_assert b : keeps_content (memory_assert b).
Proof. unfold memory_assert. keeps. Qed.
Lemma keeps_emit e : keeps_content (emit e).
Proof. by apply keeps_task_same. Qed.
#[local] Hint Resolve keeps_get_task keeps_malloc_ok keeps_assert keeps_emit : keeps.
#[local] Hint Extern 1 (Keeps _ (mod_task _) _) => apply keeps_task_same; intro; reflexivity : keeps.

Lemma keeps_get_rec d : Keeps P (get_rec d) (λ r, F (result_function r)).
Proof.
  intros h a h' Hh. unfold get_rec, get_task. fw_unfold. destruct (recs (ext h) !! d) as [r|] eqn:E; [|done].
  intros [= <- <-]. split; [done|]. by eapply co_rec.
Qed.
#[local] Hint Resolve keeps_get_rec : keeps.
Lemma keeps_put_rec d r : F (result_function r) → keeps_content (put_rec d r).
Proof. intros Hf. unfold put_rec. eapply keeps_bind; [apply keeps_get_rec|]. intros _ _. apply keeps_task. intros s. by apply content_insert. Qed.
Lemma keeps_free_rec d : keeps_content (free_rec d).
Proof. unfold free_rec. eapply keeps_bind; [apply keeps_get_rec|]. intros _ _. apply keeps_task. intros s. by apply content_delete. Qed.
#[local] Hint Resolve keeps_put_rec keeps_free_rec : keeps.

Lemma keeps_send_op m : keeps_content (manager_send_page operation_queue m).
Proof. unfold manager_send_page, manager_send_queue. keeps. Qed.
Lemma keeps_logic_q q : Forall L q → keeps_content (mod_task (set_logic_q q)).
Proof. intros Hq. apply keeps_task. intros s [H1 _]. done. Qed.
Lemma keeps_send_logic m : L m → keeps_content (manager_send_page logic_queue m).
Proof.
  intros Hm. unfold manager_send_page, manager_send_queue. keeps. apply keeps_logic_q, Forall_app.
  split; [by eapply co_logic|by constructor].
Qed.
#[local] Hint Resolve keeps_send_op keeps_send_logic : keeps.

Lemma keeps_to_operation m : keeps_content (to_operation_wiota_data m).
Proof. unfold to_operation_wiota_data. keeps. Qed.
Lemma keeps_to_logic m : L m → keeps_content (to_queue_logic_data m).
Proof. intros Hm. unfold to_queue_logic_data. keeps. Qed.
#[local] Hint Resolve keeps_to_operation keeps_to_logic : keeps.

Lemma keeps_send_to_operater mt n src c i l data seg fn :
  F fn → keeps_content (manager_logic_send_to_operater mt n src c i l data seg fn).
Proof.
  intros Hf. unfold manager_logic_send_to_operater. keeps. apply keeps_task. intros t Ht.
  eapply (content_same (set_recs (<[_ := _]> (recs t)) t)); [reflexivity..|by apply content_insert].
Qed.

(** The calls from outside and the radio task, which puts results and the start
    message on the logic queue. *)
Context (HR : ∀ d, L (MANAGER_LOGIC_SEND_RESULT d)) (HS : L MANAGER_LOGIC_WIOTA_START).

Lemma keeps_recv_data u d : L (MANAGER_LOGIC_RECV_WIOTA_DATA u d) → keeps_content (manager_recv_data u d).
Proof. intros Hl. unfold manager_recv_data. keeps. Qed.
Lemma keeps_send_result u r : keeps_content (manager_send_result u r).
Proof. unfold manager_send_result. keeps. Qed.
Lemma keeps_ota_callback : keeps_content uc_send_radio_ota_callback.
Proof. unfold uc_send_radio_ota_callback. keeps. Qed.
Lemma keeps_timer : keeps_content manager_recv_timer_func.
Proof. unfold manager_recv_timer_func. keeps. Qed.

#[local] Hint Resolve pure_del pure_ota : keeps.
Lemma keeps_query_call cb : pure_cb cb → keeps_content (query_head_list wiota_send_manager_list (Some cb)).
Proof. intros Hc. apply keeps_query. by intros c [= <-]. Qed.
Lemma keeps_operate_result u r : keeps_content (manager_operate_result u r).
Proof using HR HS.
  unfold manager_operate_result. eapply keeps_bind; [apply keeps_query_call, pure_query|]. keeps.
Qed.
Lemma keeps_ota_result : keeps_content manager_ota_result_msg.
Proof using HR HS. unfold manager_ota_result_msg. eapply keeps_bind; [apply keeps_query_call, pure_ota|]. keeps. Qed.
#[local] Hint Resolve keeps_operate_result keeps_ota_result : keeps.
Lemma keeps_operation_msg m : keeps_content (manager_operation_msg m).
Proof using HR HS. destruct m; cbn [manager_operation_msg]; keeps. Qed.
Lemma keeps_drop_released l : keeps_content (drop_released l).
Proof. unfold drop_released. apply keeps_mod. intros h. apply content_drop. Qed.
Lemma keeps_operation_start : keeps_content manager_operation_start.
Proof using HR HS. unfold manager_operation_start. keeps. Qed.
#[local] Hint Resolve keeps_operation_msg keeps_drop_released keeps_operation_start : keeps.
Lemma keeps_operation_task_step : keeps_content manager_operation_task_step.
Proof using HR HS. unfold manager_operation_task_step, manager_operation_step. keeps. Qed.

(** The logic task's side. *)
Lemma keeps_data_to_net e : keeps_content (manager_send_data_logic_to_net e).
Proof. unfold manager_send_data_logic_to_net, to_network_data. keeps. Qed.
#[local] Hint Resolve keeps_data_to_net : keeps.
Lemma keeps_response r n : keeps_content (manager_response_message_result r n).
Proof. unfold manager_response_message_result. keeps. Qed.
#[local] Hint Resolve keeps_response : keeps.
Lemma keeps_get_seg g : keeps_content (get_seg g).
Proof. unfold get_seg. keeps. Qed.
#[local] Hint Resolve keeps_get_seg : keeps.
Lemma keeps_network_result d : keeps_content (manager_network_to_wiota_result d).
Proof. unfold manager_network_to_wiota_result. keeps. Qed.
End Content.
#[export] Hint Resolve keeps_get_task keeps_malloc_ok keeps_assert keeps_emit keeps_free_rec keeps_send_to_operater
  keeps_recv_data keeps_send_result keeps_ota_callback keeps_timer keeps_operation_task_step keeps_data_to_net
  keeps_response keeps_network_result keeps_get_rec keeps_to_logic : keeps.

(** ** What happens to a message in the air *)

(** When the result of a transmission comes in, it counts for the first
    message in the air to that terminal.  Success takes it off the list and is
    reported; a failure is repeated, and the message moves to the head of the
    list, until three transmissions failed, which is reported.  A result for a
    terminal without messages is ignored. *)
Theorem result_policy h ps user_id res :
  hinv h ps →
  match (scan (query_result_callback user_id) ps (ext h)).1 with
  | None => manager_operate_result user_id res h = Ok (tt, h)
  | Some (a, (p, d), b) =>
      ∃ r h', recs (ext h) !! d = Some r ∧ head_id r = user_id ∧
        manager_operate_result user_id res h = Ok (tt, h') ∧ oks h' = [] ∧
        if res =? UC_OP_SUCC then
          is_list h' wiota_send_manager_list (a ++ b) ∧ ext h' = reported MANAGER_SEND_SUCCESS d r (ext h)
        else if head_state r >? MANAGER_MAX_SEND_NUM - 2 then
          is_list h' wiota_send_manager_list (a ++ b) ∧ ext h' = reported MANAGER_SEND_FAIL d r (ext h)
        else ∃ n, is_list h' wiota_send_manager_list ((n, d) :: a ++ b) ∧ ext h' = resent d r (ext h)
  end.
Proof. apply operate_result_spec. Qed.

(** When the radio task stops, the messages in the air are dropped: their
    records are freed, nothing is reported for them and nobody is answered. *)
Theorem exit_drops_pending h ps q :
  hinv h ps → op_q (ext h) = MANAGER_OPERATION_EXIT :: q →
  ∃ h', manager_operation_step h = Ok (true, h') ∧ hinv h' [] ∧ trace (ext h') = trace (ext h) ∧
        logic_q (ext h') = logic_q (ext h) ∧ ∀ d, d ∈ ps.*2 → recs (ext h') !! d = None.
Proof.
  intros [Hl Ho Hi] Hq. unfold manager_operation_step. erewrite bind_Ok; [|reflexivity]. rewrite Hq.
  erewrite bind_Ok; [|apply mod_task_eq]. cbn [manager_operation_msg]. erewrite bind_Ok; [|apply mod_task_eq].
  erewrite bind_Ok; [|reflexivity]. cbn [running set_running ext with_ext].
  erewrite bind_Ok; [|reflexivity]. set (h1 := with_ext _ _).
  assert (is_list h1 wiota_send_manager_list ps) as Hl1 by by repeat apply is_list_ext.
  destruct (clean_spec h1 _ _ Hl1) as (h2 & E2 & Hl2 & Hr2 & He2 & _ & Ho2).
  erewrite bind_Ok; [|exact E2]. erewrite bind_Ok; [|reflexivity].
  eexists. split; [reflexivity|].
  rewrite Hr2, length_app. replace (_ + length (released h1) - length (released h1))%nat with (length (rev ps.*2)) by lia.
  rewrite take_app_length, He2. cbn. split; [|split; [done|split; [done|]]].
  - split; [by apply is_list_ext|cbn; rewrite Ho2; exact Ho|]. cbn.
    change (ext h1) with (set_running false (set_op_q q (ext h))).
    apply (clean_inv (set_running false (set_op_q q (ext h))) ps.*2).
    eapply tinv_same; [exact Hi|done..| |done]. cbn. rewrite Hq. done.
  - intros d Hd. assert (d ∈ rev ps.*2) as Hd' by (rewrite rev_alt, elem_of_reverse || rewrite list_elem_of_In, <- in_rev, <- list_elem_of_In; done).
    clear -Hd'. induction (rev ps.*2) as [|x l IH]; [inversion Hd'|]. cbn.
    destruct (decide (x = d)) as [->|]; [apply lookup_delete_eq|]. rewrite lookup_delete_ne by done.
    apply IH. apply elem_of_cons in Hd' as [?|?]; [congruence|done].
Qed.

(** A message that finds the queue of the radio task full is gone: nothing
    is transmitted, reported or answered for it. *)
Theorem full_queue_loses_message h ps number src cmd id data func :
  hinv h ps → operation_queue_capacity <= zlen (op_q (ext h)) →
  ∃ h', manager_logic_send_to_operater MANAGER_OPERATION_MSG number src cmd id (zlen data) data None func h = Ok (tt, h') ∧
    hinv h' ps ∧ own (ext h') ps.*2 = own (ext h) ps.*2 ∧ trace (ext h') = trace (ext h).
Proof.
  intros Hh Hq.
  destruct (send_to_operater_inv h ps MANAGER_OPERATION_MSG number src cmd id (zlen data) data None func) as
    (h' & E & Hh' & _ & _ & Ht & _); [done..|].
  exists h'. split; [done|]. split; [done|]. split; [|done].
  rewrite send_to_operater_eq in E by apply Hh.
  assert (h' = with_ext (handed MANAGER_OPERATION_MSG {| src_address := src; head_id := id; head_state := MANAGER_SEND_DEFAULT;
    result_function := func; head_cmd := cmd; request_number := number; op_len := zlen data; pload := data;
    op_segment := None |} (ext h)) h) as -> by congruence.
  cbn [ext with_ext]. unfold handed, pushed. cbn [op_q set_nextp set_recs].
  rewrite (proj2 (Z.ltb_ge _ _)) by done. done.
Qed.

(** ** Inputs for the witnesses *)

(** One message to terminal 5 in the air, sent once. *)
Definition demo_record : t_app_operation_data :=
  {| src_address := SERVER_DEFAULT_ADDRESS; head_id := 5; head_state := 0;
     result_function := Some manager_network_to_wiota_result_fn; head_cmd := 40; request_number := 9;
     op_len := 1; pload := [65]; op_segment := None |}.
Definition demo_air (q : list t_app_logic_message) : lheap task_state :=
  {| cells := {[1 := {| ndata := 0; nnext := 10; npre := 10 |}; 10 := {| ndata := 2; nnext := 1; npre := 1 |}]};
     brk := 11; oks := []; released := [];
     ext := {| recs := {[2 := demo_record]}; segs := ∅; nextp := 3; op_q := q; logic_q := []; trace := [EvSend 2 5 [65]];
               recv_msg_count := 0; old_recv_msg_count := 0; running := true |} |}.

Lemma demo_air_ok q : qdata q = [] → hinv (demo_air q) [(10, 2)].
Proof.
  intros Hq. split; [| reflexivity |].
  - split; cbn.
    + apply (bool_decide_unpack _). vm_compute. exact I.
    + vm_compute. done.
    + repeat constructor.
    + intros p [x Hx]. apply lookup_insert_Some in Hx as [[<- _]|[_ Hx]]; [lia|].
      apply lookup_singleton_Some in Hx as [<- _]. lia.
  - assert (∀ s, op_q s = q → logic_q s = [] → own s [2] = [2]) as Ho.
    { intros s H1 H2. unfold own. rewrite H1, H2, Hq. done. }
    assert (∀ d, tx d [EvSend 2 5 [65]] = if decide (d = 2) then 1 else 0) as Htx.
    { intros d. unfold tx, total. cbn. destruct (decide (d = 2)) as [->|]; [done|].
      destruct d as [|[]|]; try done. destruct p; done. }
    constructor; cbn [ext demo_air recs segs nextp op_q logic_q trace]; rewrite ?Ho by done.
    + apply NoDup_singleton.
    + intros d Hd. apply list_elem_of_singleton in Hd as ->. rewrite lookup_singleton_eq. eauto.
    + intros d [x Hx]. apply lookup_singleton_Some in Hx as [<- _]. lia.
    + intros g [x Hx]. rewrite lookup_empty in Hx. done.
    + intros d Hd. rewrite Htx, decide_False by lia. done.
    + intros d r Hd. rewrite Hq in Hd. inversion Hd.
    + intros d r Hd Hr. apply list_elem_of_singleton in Hd as ->. rewrite lookup_singleton_eq in Hr. simplify_eq.
      vm_compute. split_and!; congruence.
    + intros d. rewrite Htx. unfold MANAGER_MAX_SEND_NUM. destruct (decide _); lia.
    + intros d. vm_compute. congruence.
    + intros d Hd. apply list_elem_of_singleton in Hd. done.
    + intros d g Hd Hg. apply list_elem_of_singleton in Hd as ->. unfold seg_is in Hg. cbn in Hg.
      rewrite lookup_singleton_eq in Hg. done.
    + intros g st rem Hg. rewrite lookup_empty in Hg. done.
Qed.

Lemma result_policy_witness :
  ∃ r h', recs (ext (demo_air [])) !! 2 = Some r ∧ head_id r = 5 ∧
    manager_operate_result 5 1 (demo_air []) = Ok (tt, h') ∧ oks h' = [] ∧
    ∃ n, is_list h' wiota_send_manager_list [(n, 2)] ∧ ext h' = resent 2 r (ext (demo_air [])).
Proof.
  destruct (result_policy (demo_air []) [(10, 2)] 5 1 (demo_air_ok [] eq_refl)) as (r & h' & Hr & H1 & H2 & H3 & H4).
  exists r, h'. injection Hr as <-. split_and!; try done.
Defined.

Lemma exit_drops_pending_witness :
  ∃ h', manager_operation_step (demo_air [MANAGER_OPERATION_EXIT]) = Ok (true, h') ∧ hinv h' [] ∧
    trace (ext h') = [EvSend 2 5 [65]] ∧ recs (ext h') !! 2 = None.
Proof.
  destruct (exit_drops_pending (demo_air [MANAGER_OPERATION_EXIT]) [(10, 2)] [] (demo_air_ok [MANAGER_OPERATION_EXIT] eq_refl) eq_refl)
    as (h' & E & Hh & Ht & _ & Hr).
  exists h'. split_and!; [exact E|exact Hh|exact Ht|]. apply Hr. left.
Defined.

Lemma full_queue_loses_message_witness :
  let h := demo_air (replicate 16 MANAGER_OPERATION_OTA_RADIO_RESULT) in
  ∃ h', manager_logic_send_to_operater MANAGER_OPERATION_MSG 9 0 40 5 (zlen [66]) [66] None None h = Ok (tt, h') ∧
    hinv h' [(10, 2)] ∧ own (ext h') [2] = own (ext h) [2] ∧ trace (ext h') = trace (ext h).
Proof.
  apply (full_queue_loses_message (demo_air (replicate 16 MANAGER_OPERATION_OTA_RADIO_RESULT)) [(10, 2)] 9 0 40 5 [66] None).
  - apply demo_air_ok. reflexivity.
  - vm_compute. congruence.
Defined.
