(* ===== verification/NetMsg.v ===== *)
(** * Messages from the server

    app/wiota_manager/manager_network_data/manager_net_messager.c: a message of
    the server is coded, cut into segments when it is too long for the air, and
    handed to the radio task for every destination.  Uses the coding of
    [Coding], the address table of [UserId] and the queues of [Operation]. *)

From S2P Require Import Prelude ManagerList Coding DataPacket UserId Operation.

Definition AP_DEFAULT_RADIO_ADDRESS : Z := 0xDFFFFFFF.
Definition AP_MULTICAST_ADDRESS : Z := 0xE0000000.
Definition UC_WIOTA_MAX_SEND_NORMAL_DATA_LEN : Z := 310.
Definition UC_WIOTA_MAX_SEND_BROADCAST_DATA_LEN : Z := 1024.
Definition sizeof_header : Z := 16.

(** What cJSON finds in the text: None when it does not parse, and for each of
    the two numbers whether it is there. *)
Class AddressJson := { json_address_period : list Z → option (option Z * option Z) }.

(** The radio and result tasks, and the address table. *)
Record net_state := { tasks : lheap task_state; book : addr_state }.

Section Ops.
Context `{AddressJson}.
Context (cfg : frame_config) (positions : list Z → option (list uc_dev_pos_t)).
Local Abbreviation M := (FW net_state).
Local Open Scope fw_scope.

Definition on_tasks {A} (m : FW (lheap task_state) A) : M A :=
  λ s, match m (tasks s) with
       | Ok (a, h) => Ok (a, {| tasks := h; book := book s |})
       | Fault f => Fault f
       end.
Definition on_book {A} (m : FW addr_state A) : M A :=
  λ s, match m (book s) with
       | Ok (a, b) => Ok (a, {| tasks := tasks s; book := b |})
       | Fault f => Fault f
       end.
(** The coder shares the memory outcomes of the tasks. *)
Definition on_memory {A} (m : FW (list bool) A) : M A :=
  on_tasks (λ h, match m (oks h) with
                 | Ok (a, mem) => Ok (a, {| cells := cells h; brk := brk h; oks := mem; released := released h; ext := ext h |})
                 | Fault f => Fault f
                 end).

Definition manager_send_packet (ps_header : app_ps_header_t) (seg : option Z) (is_broadcast : bool)
  (request_number : Z) (input_data : list Z) (input_data_len : Z) : M unit :=
  r <-- on_memory (app_data_coding ps_header (Some input_data) input_data_len);;
  let '(code, hd, output) := r in
  match output with
  | Some output_data =>
      if code =? 0 then
        id <-- on_book (manager_query_wiotaid cfg (dest_addr hd));;
        if negb is_broadcast then
          on_tasks (manager_logic_send_to_operater MANAGER_OPERATION_MSG request_number (src_addr hd)
            (app_cmd_type hd) id (zlen output_data) output_data seg (Some manager_network_to_wiota_result_fn))
        else
          on_tasks (manager_logic_send_to_operater MANAGER_OPERATION_RADIO request_number (src_addr hd)
            (app_cmd_type hd) id (zlen output_data) output_data seg None);;;
          on_tasks (manager_response_message_result MANAGER_SEND_SUCCESS request_number);;;
          fret tt
      else fret tt
  | None => fret tt
  end.

Definition with_segment_info (total cur : Z) (h : app_ps_header_t) : app_ps_header_t :=
  {| property := property h; src_addr := src_addr h; dest_addr := dest_addr h; packet_num := packet_num h;
     total_num := total; current_num := cur; app_cmd_type := app_cmd_type h |}.

(** The loop over the segments; every turn takes at least one byte. *)
Fixpoint segment_loop (fuel : nat) (h : app_ps_header_t) (seg : Z) (is_broadcast : bool) (request_number max_len : Z)
  (input_data : list Z) : M unit :=
  match fuel with
  | O => ffail OutOfFuel
  | S fuel =>
      if zlen input_data >? 0 then
        let segment_len := if zlen input_data >? max_len then max_len else zlen input_data in
        manager_send_packet h (Some seg) is_broadcast request_number input_data segment_len;;;
        segment_loop fuel (with_segment_info (total_num h) (u8 (current_num h + 1)) h) seg is_broadcast
          request_number max_len (drop (Z.to_nat segment_len) input_data)
      else fret tt
  end.

Definition is_broadcast_address (a : Z) : bool :=
  (Z.land a AP_DEFAULT_ADDRESS =? AP_DEFAULT_ADDRESS) ||
  (Z.land a AP_DEFAULT_RADIO_ADDRESS =? AP_DEFAULT_RADIO_ADDRESS) ||
  (Z.land a AP_MULTICAST_ADDRESS =? AP_MULTICAST_ADDRESS).

(** The property byte that is built bit by bit, and the rest of the header. *)
Definition message_property (is_broadcast segmented : bool) : app_ps_property_t :=
  let p := app_set_header_property PRO_SRC_ADDR 1 (byte_property 0) in
  let p := app_set_header_property PRO_DEST_ADDR 1 p in
  let p := if is_broadcast then p else app_set_header_property PRO_NEED_RES 1 p in
  if segmented then app_set_header_property PRO_PACKET_NUM 1 (app_set_header_property PRO_SEGMENT_FLAG 1 p) else p.

Definition message_header (page : t_from_network_message) (dest : Z) (is_broadcast segmented : bool) (total : Z) : app_ps_header_t :=
  {| property := message_property is_broadcast segmented; src_addr := SERVER_DEFAULT_ADDRESS; dest_addr := dest;
     packet_num := u8 (net_request_number page); total_num := total; current_num := 0; app_cmd_type := u8 (net_cmd page) |}.

Definition max_data_len (is_broadcast : bool) : Z :=
  if is_broadcast then UC_WIOTA_MAX_SEND_BROADCAST_DATA_LEN - sizeof_header
  else UC_WIOTA_MAX_SEND_NORMAL_DATA_LEN - sizeof_header.

(** rt_malloc of the segment counter; it is written without a check. *)
Definition new_segment (total : Z) : M Z :=
  on_tasks (
    ok <-- malloc_ok;;
    memory_assert ok;;;
    s <-- get_task;;
    mod_task (λ s, set_nextp (nextp s + 1) (set_segs (<[nextp s := (MANAGER_SEND_SUCCESS, total)]> (segs s)) s));;;
    fret (nextp s)).

(** The body of the loop over the destinations. *)
Definition send_msg_to_one (page : t_from_network_message) (dest : Z) : M unit :=
  let is_broadcast := is_broadcast_address dest in
  let input_data := json_data page in
  let input_data_len := zlen input_data in
  let max_len := max_data_len is_broadcast in
  if input_data_len >? max_len then
    let total := u8 ((input_data_len + max_len - 1) / max_len) in
    seg <-- new_segment total;;
    segment_loop (S (length input_data)) (message_header page dest is_broadcast true total) seg is_broadcast
      (net_request_number page) max_len input_data
  else
    manager_send_packet (message_header page dest is_broadcast false 0) None is_broadcast
      (net_request_number page) input_data input_data_len.

Fixpoint dest_loop (page : t_from_network_message) (n : nat) (dests : list Z) : M unit :=
  match n with
  | O => fret tt
  | S n =>
      match dests with
      | [] => ffail OutOfBounds
      | d :: dests => send_msg_to_one page d;;; dest_loop page n dests
      end
  end.

Definition manager_send_msg_to_wiota (page : t_from_network_message) : M unit :=
  dest_loop page (Z.to_nat (Z.shiftr (dest_len page) 2)) (dest_address page).

Definition manager_send_config_to_wioata (page : t_from_network_message) : M unit :=
  on_tasks (manager_response_message_result MANAGER_SEND_SUCCESS (net_request_number page));;; fret tt.

(** Text that does not parse hits MEMORY_ASSERT, a missing number is a null
    dereference. *)
Definition manager_pasing_address (data : list Z) : M (Z * Z) :=
  match json_address_period data with
  | Some (Some a, Some b) => fret (a, b)
  | _ => ffail NullDeref
  end.

End Ops.

(** ** Coding without compression *)

Section Plain.

Lemma coding_plain h d len :
  compress_flag (property h) = false → 0 <= len <= APP_MAX_CODING_DATA_LEN → len <= zlen d →
  app_data_coding h (Some d) len [] = Ok ((0, h, Some (fields h ++ take (Z.to_nat len) d)), []).
Proof.
  intros Hc Hl Hd. unfold app_data_coding.
  destruct (Z.gtb_spec len APP_MAX_CODING_DATA_LEN); [lia|].
  unfold fbind at 1, mem_ok. cbn [negb]. unfold fbind at 1. unfold flift at 1.
  rewrite put_header_spec by lia. pose proof (length_fields h) as Hlf.
  destruct (Z.eqb_spec len 0) as [->|Hne].
  - cbn [fst snd]. rewrite take_written. cbn. rewrite app_nil_r. done.
  - unfold fbind at 1. unfold flift at 1. rewrite slice_Ok by lia. rewrite Hc.
    assert (zsub 0 len d = take (Z.to_nat len) d) as -> by (unfold zsub; rewrite drop_0; done).
    unfold fbind, flift. rewrite put_data by (rewrite length_take; lia). cbn [fst snd]. rewrite take_written. done.
Qed.
End Plain.

(** Cutting a text into pieces of at most [n] bytes. *)
Fixpoint cut (fuel : nat) (n : Z) (l : list Z) : list (list Z) :=
  match fuel with
  | O => []
  | S fuel => if zlen l >? 0 then take (Z.to_nat n) l :: cut fuel n (drop (Z.to_nat n) l) else []
  end.

Definition pieces (n : Z) (l : list Z) : list (list Z) := cut (S (length l)) n l.

Lemma cut_spec fuel n l :
  0 < n → (length l < fuel)%nat →
  concat (cut fuel n l) = l ∧ Forall (λ c, 0 < zlen c <= n) (cut fuel n l) ∧ zlen (cut fuel n l) = (zlen l + n - 1) / n.
Proof.
  intros Hn. revert l. induction fuel as [|fuel IH]; intros l Hl; [lia|]. cbn [cut].
  destruct (Z.gtb_spec (zlen l) 0) as [H0|H0].
  - destruct (IH (drop (Z.to_nat n) l)) as (Hc & Hf & Hlen).
    { rewrite length_drop. unfold zlen in H0. lia. }
    cbn [concat]. rewrite Hc, take_drop. split; [done|]. split.
    + constructor; [|done]. unfold zlen in *. rewrite length_take. lia.
    + change (zlen (take (Z.to_nat n) l :: ?x)) with (Z.of_nat (S (length x))).
      rewrite Nat2Z.inj_succ. fold (zlen (cut fuel n (drop (Z.to_nat n) l))). rewrite Hlen.
      destruct (Z.le_gt_cases (zlen l) n) as [Hle|Hgt].
      * assert (zlen (drop (Z.to_nat n) l) = 0) as -> by (unfold zlen in *; rewrite length_drop; lia).
        rewrite (Z.div_small (0 + n - 1)) by lia.
        apply (Z.div_unique _ _ _ (zlen l - 1)); lia.
      * assert (zlen (drop (Z.to_nat n) l) = zlen l - n) as -> by (unfold zlen in *; rewrite length_drop; lia).
        replace (zlen l + n - 1) with (zlen l - n + n - 1 + 1 * n) by lia.
        rewrite Z.div_add by lia. lia.
  - assert (l = []) as -> by (destruct l; [done|unfold zlen in H0; cbn in H0; lia]).
    split; [done|]. split; [done|]. unfold zlen. cbn. rewrite Z.div_small; lia.
Qed.

Lemma pieces_spec n l :
  0 < n → concat (pieces n l) = l ∧ Forall (λ c, 0 < zlen c <= n) (pieces n l) ∧ zlen (pieces n l) = (zlen l + n - 1) / n.
Proof. intros Hn. apply cut_spec; [done|]. lia. Qed.

(** ** One packet *)

Section Sending.
Context `{AddressJson}.
Context (cfg : frame_config) (positions : list Z → option (list uc_dev_pos_t)).

Record net_ok (s : net_state) (ps : list (Z * Z)) (hash : list (list t_manager_address)) : Prop := {
  no_tasks : hinv (tasks s) ps;
  no_book : addr_ok cfg (book s) hash
}.

(** The record of one packet. *)
Definition packet_record (h : app_ps_header_t) (id : Z) (seg : option Z) (bc : bool) (n : Z) (data : list Z)
  : t_app_operation_data :=
  {| src_address := src_addr h; head_id := id; head_state := MANAGER_SEND_DEFAULT;
     result_function := if bc then None else Some manager_network_to_wiota_result_fn;
     head_cmd := app_cmd_type h; request_number := n; op_len := zlen (fields h ++ data);
     pload := fields h ++ data; op_segment := seg |}.

Definition packet_message (bc : bool) : Z → t_app_logic_message :=
  if bc then MANAGER_OPERATION_RADIO else MANAGER_OPERATION_MSG.

(** The tasks after one packet; a broadcast is answered at once. *)
Definition packet_sent (h : app_ps_header_t) (id : Z) (seg : option Z) (bc : bool) (n : Z) (data : list Z)
  (s : task_state) : task_state :=
  let s := handed (packet_message bc) (packet_record h id seg bc n data) s in
  if bc then set_trace (trace s ++ [EvResponse MANAGER_SEND_SUCCESS n]) s else s.

Definition with_tasks (t : task_state) (s : net_state) : net_state :=
  {| tasks := with_ext t (tasks s); book := book s |}.

Lemma send_packet_eq h seg bc n data len s ps hash :
  net_ok s ps hash → compress_flag (property h) = false → 0 <= len <= APP_MAX_CODING_DATA_LEN → len <= zlen data →
  manager_send_packet cfg h seg bc n data len s =
  Ok (tt, with_tasks (packet_sent h (default (dest_addr h) (addr_of (all_addresses hash) (dest_addr h))) seg bc n
    (take (Z.to_nat len) data) (ext (tasks s))) s).
Proof.
  intros [[Hl Ho Hi] Hb] Hc Hlen Hd. unfold manager_send_packet.
  unfold fbind at 1, on_memory, on_tasks. rewrite Ho, coding_plain by done. cbn [Z.eqb].
  assert (∀ h0 : lheap task_state, oks h0 = [] →
    {| cells := cells h0; brk := brk h0; oks := []; released := released h0; ext := ext h0 |} = h0) as Hid.
  { intros [? ? ? ? ?]. cbn. intros ->. done. }
  rewrite Hid by done. unfold fbind at 1, on_book. cbn [book].
  rewrite (query_wiotaid_eq cfg (book s) hash) by done. cbn [tasks].
  destruct bc; cbn [negb].
  - unfold fbind. rewrite send_to_operater_eq by done. rewrite response_eq by done. reflexivity.
  - rewrite send_to_operater_eq by done. reflexivity.
Qed.

Lemma packet_sent_inv h id seg bc n data s ps hash :
  net_ok s ps hash →
  (∀ g, seg = Some g → ∃ st rem, segs (ext (tasks s)) !! g = Some (st, rem) ∧
     cntseg (ext (tasks s)) g (own (ext (tasks s)) ps.*2) + 1 <= rem) →
  let s' := with_tasks (packet_sent h id seg bc n data (ext (tasks s))) s in
  net_ok s' ps hash ∧ segs (ext (tasks s')) = segs (ext (tasks s)) ∧
  ∀ g, cntseg (ext (tasks s')) g (own (ext (tasks s')) ps.*2) <= cntseg (ext (tasks s)) g (own (ext (tasks s)) ps.*2) + 1.
Proof.
  intros [Hh Hb] Hseg s'.
  destruct (send_to_operater_inv (tasks s) ps (packet_message bc) n (src_addr h) (app_cmd_type h) id
    (zlen (fields h ++ data)) (fields h ++ data) seg (if bc then None else Some manager_network_to_wiota_result_fn))
    as (h' & E & Hh' & Hs & _ & _ & Hc); [done|destruct bc; done|done|].
  rewrite send_to_operater_eq in E by apply Hh.
  assert (h' = with_ext (handed (packet_message bc) (packet_record h id seg bc n data) (ext (tasks s))) (tasks s)) as ->
    by (unfold packet_record; congruence).
  subst s'. unfold packet_sent. pose proof (is_list_ext (handed (packet_message bc) (packet_record h id seg bc n data)
    (ext (tasks s))) _ _ _ (hi_list _ _ Hh)) as Hl.
  destruct Hh' as [_ Ho Hi]. set (t := handed _ _ _) in *.
  change (ext (with_ext t _)) with t in *. destruct bc.
  - split; [|split; [exact Hs|exact Hc]]. split; [|done].
    split; [exact (is_list_ext _ _ _ _ Hl)|exact Ho|]. exact (tinv_event _ _ (EvResponse MANAGER_SEND_SUCCESS n) I Hi).
  - split; [|split; [exact Hs|exact Hc]]. split; [|done]. split; [exact Hl|exact Ho|exact Hi].
Qed.

(** The tasks after all pieces of a text. *)
Fixpoint pieces_sent (h : app_ps_header_t) (id : Z) (seg : option Z) (bc : bool) (n : Z) (ds : list (list Z))
  (t : task_state) : task_state :=
  match ds with
  | [] => t
  | d :: ds => pieces_sent (with_segment_info (total_num h) (u8 (current_num h + 1)) h) id seg bc n ds
                 (packet_sent h id seg bc n d t)
  end.

Lemma segment_loop_spec fuel : ∀ h g bc n max_len data s ps hash st rem,
  let id := default (dest_addr h) (addr_of (all_addresses hash) (dest_addr h)) in
  net_ok s ps hash → compress_flag (property h) = false → 0 < max_len <= APP_MAX_CODING_DATA_LEN →
  (length data < fuel)%nat → segs (ext (tasks s)) !! g = Some (st, rem) →
  cntseg (ext (tasks s)) g (own (ext (tasks s)) ps.*2) + zlen (cut fuel max_len data) <= rem →
  segment_loop cfg fuel h g bc n max_len data s =
    Ok (tt, with_tasks (pieces_sent h id (Some g) bc n (cut fuel max_len data) (ext (tasks s))) s) ∧
  net_ok (with_tasks (pieces_sent h id (Some g) bc n (cut fuel max_len data) (ext (tasks s))) s) ps hash.
Proof.
  induction fuel as [|fuel IH]; intros h g bc n max_len data s ps hash st rem id Hok Hc Hm Hf Hg Hroom; [lia|].
  cbn [segment_loop cut] in *. destruct (Z.gtb_spec (zlen data) 0) as [H1|H1].
  2: { split; [|destruct s as [[] ?]; exact Hok]. destruct s as [[] ?]. done. }
  set (len := if zlen data >? max_len then max_len else zlen data).
  assert (0 < len <= max_len ∧ len <= zlen data ∧ take (Z.to_nat len) data = take (Z.to_nat max_len) data ∧
    drop (Z.to_nat len) data = drop (Z.to_nat max_len) data) as (Hl1 & Hl2 & Ht & Hd).
  { unfold len. destruct (Z.gtb_spec (zlen data) max_len); [split_and!; (done || lia)|]. unfold zlen in *.
    rewrite !take_ge, !drop_ge by lia. split_and!; (done || lia). }
  unfold fbind at 1. rewrite (send_packet_eq h (Some g) bc n data len s ps hash) by (done || lia).
  fold id. rewrite Ht, Hd. cbn [pieces_sent].
  change (zlen (take (Z.to_nat max_len) data :: ?x)) with (Z.of_nat (S (length x))) in Hroom.
  rewrite Nat2Z.inj_succ in Hroom. fold (zlen (cut fuel max_len (drop (Z.to_nat max_len) data))) in Hroom.
  pose proof (zlen_nonneg (cut fuel max_len (drop (Z.to_nat max_len) data))).
  destruct (packet_sent_inv h id (Some g) bc n (take (Z.to_nat max_len) data) s ps hash Hok) as (Hok' & Hs' & Hcnt').
  { intros g' [= <-]. exists st, rem. split; [done|]. lia. }
  specialize (Hcnt' g).
  set (s1 := with_tasks _ s) in *.
  destruct (IH (with_segment_info (total_num h) (u8 (current_num h + 1)) h) g bc n max_len
    (drop (Z.to_nat max_len) data) s1 ps hash st rem Hok' Hc Hm) as [E Hfin].
  - rewrite length_drop. unfold zlen in H1. lia.
  - rewrite Hs'. done.
  - lia.
  - split; [exact E|exact Hfin].
Qed.

Lemma cntseg_zero t g l : (∀ d, d ∈ l → ~ seg_is t g d) → cntseg t g l = 0.
Proof.
  induction l as [|d l IH]; intros Hl; [done|]. rewrite cntseg_cons, decide_False by (apply Hl; left).
  rewrite IH; [done|]. intros x Hx. apply Hl. by right.
Qed.

(** A new segment counter. *)
Definition counter_made (total : Z) (t : task_state) : task_state :=
  set_nextp (nextp t + 1) (set_segs (<[nextp t := (MANAGER_SEND_SUCCESS, total)]> (segs t)) t).

Lemma new_segment_spec total s ps hash :
  net_ok s ps hash → 0 <= total < 256 →
  let s' := with_tasks (counter_made total (ext (tasks s))) s in
  new_segment total s = Ok (nextp (ext (tasks s)), s') ∧ net_ok s' ps hash ∧
  cntseg (ext (tasks s')) (nextp (ext (tasks s))) (own (ext (tasks s')) ps.*2) = 0.
Proof.
  intros [[Hl Ho Hi] Hb] Ht s'. set (t := ext (tasks s)) in *.
  assert (cntseg t (nextp t) (own t ps.*2) = 0) as Hz.
  { apply cntseg_zero. intros d Hd Hs. destruct (ti_seg _ _ Hi d _ Hd Hs) as [x Hx].
    assert (nextp t < nextp t); [|lia]. apply (ti_segfresh _ _ Hi). eauto. }
  destruct Hi as [H1 H2 H3 H4 H5 H6 H7 H8 H9 H10 H11 H12].
  split; [|split; [|exact Hz]].
  - unfold new_segment, on_tasks. unfold fbind at 1. rewrite malloc_ok_eq by done. done.
  - split; [|done]. split; [exact (is_list_ext _ _ _ _ Hl)|exact Ho|].
    constructor; try done; cbn.
    + intros d Hd. apply H3 in Hd. lia.
    + intros g Hg. destruct (decide (g = nextp t)) as [->|]; [lia|].
      rewrite lookup_insert_ne in Hg by done. apply H4 in Hg. lia.
    + intros d Hd. apply H5. lia.
    + intros d g Hd Hs. destruct (decide (g = nextp t)) as [->|]; [rewrite lookup_insert_eq; eauto|].
      rewrite lookup_insert_ne by done. by eapply H11.
    + intros g st rem Hg. destruct (decide (g = nextp t)) as [->|].
      * rewrite lookup_insert_eq in Hg. simplify_eq. change (cntseg t (nextp t) (own t ps.*2) <= rem < 256). lia.
      * rewrite lookup_insert_ne in Hg by done. by eapply H12.
Qed.

Lemma message_property_flags bc sg :
  let p := message_property bc sg in
  compress_flag p = false ∧ is_src_addr p = true ∧ is_dest_addr p = true ∧ segment_flag p = sg ∧ is_packet_num p = sg ∧
  is_need_res p = negb bc ∧ response_flag p = false ∧ reserved p = false.
Proof. destruct bc, sg; vm_compute; done. Qed.

Lemma max_data_len_bounds bc : 0 < max_data_len bc <= APP_MAX_CODING_DATA_LEN.
Proof. destruct bc; vm_compute; split; congruence. Qed.

Lemma pieces_count n l : 0 < n → n < zlen l → zlen l <= 255 * n → 0 < zlen (pieces n l) < 256.
Proof.
  intros Hn H1 H2. destruct (pieces_spec n l Hn) as (_ & _ & ->).
  split; [apply Z.div_str_pos; lia|]. apply Z.div_lt_upper_bound; lia.
Qed.

Lemma send_to_one_segmented page dest s ps hash :
  let bc := is_broadcast_address dest in
  let max_len := max_data_len bc in
  let ds := pieces max_len (json_data page) in
  let t := ext (tasks s) in
  net_ok s ps hash → max_len < zlen (json_data page) <= 255 * max_len →
  let s' := with_tasks (pieces_sent (message_header page dest bc true (zlen ds))
              (default dest (addr_of (all_addresses hash) dest)) (Some (nextp t)) bc (net_request_number page) ds
              (counter_made (zlen ds) t)) s in
  send_msg_to_one cfg page dest s = Ok (tt, s') ∧ net_ok s' ps hash.
Proof.
  intros bc max_len ds t Hok Hlen s'. unfold send_msg_to_one. fold bc max_len.
  pose proof (max_data_len_bounds bc) as Hm. fold max_len in Hm.
  rewrite (proj2 (Z.gtb_lt _ _)) by lia.
  destruct (pieces_spec max_len (json_data page)) as (_ & _ & Hn); [lia|]. fold ds in Hn.
  pose proof (pieces_count max_len (json_data page)) as Hcount. fold ds in Hcount.
  rewrite <- Hn, u8_id by (unfold is_u8; lia).
  destruct (new_segment_spec (zlen ds) s ps hash Hok) as (E & Hok1 & Hz); [lia|].
  unfold fbind at 1. rewrite E. fold t. fold t in Hok1, Hz.
  destruct (segment_loop_spec (S (length (json_data page))) (message_header page dest bc true (zlen ds)) (nextp t) bc
    (net_request_number page) max_len (json_data page) (with_tasks (counter_made (zlen ds) t) s) ps hash
    MANAGER_SEND_SUCCESS (zlen ds) Hok1) as [E2 Hok2].
  - exact (proj1 (message_property_flags _ _)).
  - done.
  - lia.
  - apply lookup_insert_eq.
  - rewrite Hz. fold (pieces max_len (json_data page)) ds. lia.
  - split; [exact E2|exact Hok2].
Qed.

Lemma send_to_one_short page dest s ps hash :
  let bc := is_broadcast_address dest in
  net_ok s ps hash → zlen (json_data page) <= max_data_len bc →
  let s' := with_tasks (packet_sent (message_header page dest bc false 0)
              (default dest (addr_of (all_addresses hash) dest)) None bc (net_request_number page) (json_data page)
              (ext (tasks s))) s in
  send_msg_to_one cfg page dest s = Ok (tt, s') ∧ net_ok s' ps hash.
Proof.
  intros bc Hok Hlen s'. unfold send_msg_to_one. fold bc.
  pose proof (max_data_len_bounds bc) as Hm. pose proof (zlen_nonneg (json_data page)).
  destruct (Z.gtb_spec (zlen (json_data page)) (max_data_len bc)); [lia|].
  rewrite (send_packet_eq _ None bc _ (json_data page) (zlen (json_data page)) s ps hash); try done; try lia.
  - unfold zlen at 1. rewrite Nat2Z.id, firstn_all. cbn [dest_addr message_header]. split; [done|].
    apply packet_sent_inv; [done|]. intros g Hg. done.
  - exact (proj1 (message_property_flags _ _)).
Qed.

(** Every message of at most 255 segments keeps the state well-formed. *)
Lemma send_msg_inv page s ps hash :
  net_ok s ps hash → Z.shiftr (dest_len page) 2 <= zlen (dest_address page) →
  Forall (λ d, zlen (json_data page) <= 255 * max_data_len (is_broadcast_address d)) (dest_address page) →
  ∃ s', manager_send_msg_to_wiota cfg page s = Ok (tt, s') ∧ net_ok s' ps hash.
Proof.
  unfold manager_send_msg_to_wiota. intros Hok Hn Hf.
  assert (Z.to_nat (Z.shiftr (dest_len page) 2) <= length (dest_address page))%nat as Hn' by (unfold zlen in Hn; lia).
  clear Hn. revert Hn' Hf. generalize (Z.to_nat (Z.shiftr (dest_len page) 2)) as n.
  generalize (dest_address page). intros dests n. revert dests s Hok.
  induction n as [|n IH]; intros dests s Hok Hn Hf; [by exists s|].
  destruct dests as [|d dests]; [cbn in Hn; lia|]. cbn [dest_loop]. apply Forall_cons in Hf as [Hd Hf].
  assert (∃ s1, send_msg_to_one cfg page d s = Ok (tt, s1) ∧ net_ok s1 ps hash) as (s1 & E & Hok1).
  { destruct (Z.le_gt_cases (zlen (json_data page)) (max_data_len (is_broadcast_address d))).
    - eexists. by apply send_to_one_short.
    - eexists. apply send_to_one_segmented; [done|lia]. }
  unfold fbind. rewrite E. apply IH; [done|cbn in Hn; lia|done].
Qed.

Definition numbered (h : app_ps_header_t) (i : nat) : app_ps_header_t :=
  with_segment_info (total_num h) (u8 (current_num h + Z.of_nat i)) h.

Lemma numbered_0 h : is_u8 (current_num h) → numbered h 0 = h.
Proof. intros Hc. unfold numbered. rewrite Z.add_0_r, u8_id by done. destruct h. done. Qed.

Lemma numbered_S h i : numbered (numbered h 1) i = numbered h (S i).
Proof.
  unfold numbered, with_segment_info. cbn [property src_addr dest_addr packet_num total_num current_num app_cmd_type].
  f_equal. unfold u8. rewrite Zplus_mod_idemp_l. f_equal. lia.
Qed.

Lemma pieces_sent_queue id seg n ds : ∀ h t,
  is_u8 (current_num h) → zlen (op_q t) + zlen ds <= operation_queue_capacity →
  op_q (pieces_sent h id seg false n ds t) = op_q t ++ map MANAGER_OPERATION_MSG (seqZ (nextp t) (zlen ds)) ∧
  (∀ i d, ds !! i = Some d → recs (pieces_sent h id seg false n ds t) !! (nextp t + Z.of_nat i) =
     Some (packet_record (numbered h i) id seg false n d)) ∧
  (∀ x, x < nextp t → recs (pieces_sent h id seg false n ds t) !! x = recs t !! x) ∧
  segs (pieces_sent h id seg false n ds t) = segs t ∧ trace (pieces_sent h id seg false n ds t) = trace t.
Proof.
  induction ds as [|d ds IH]; intros h t Hc Hq.
  - cbn. rewrite app_nil_r. split; [done|]. split; [|done]. intros i d Hi. done.
  - cbn [pieces_sent]. change (zlen (d :: ds)) with (Z.of_nat (S (length ds))) in *.
    rewrite Nat2Z.inj_succ in *. fold (zlen ds) in *. pose proof (zlen_nonneg ds).
    change (with_segment_info (total_num h) (u8 (current_num h + 1)) h) with (numbered h 1).
    set (t1 := packet_sent h id seg false n d t).
    assert (op_q t1 = op_q t ++ [MANAGER_OPERATION_MSG (nextp t)] ∧ nextp t1 = nextp t + 1 ∧
      recs t1 = <[nextp t := packet_record h id seg false n d]> (recs t) ∧ segs t1 = segs t ∧ trace t1 = trace t) as (R1 & R2 & R3 & R4 & R5).
    { subst t1. unfold packet_sent, handed, pushed. cbn [op_q set_nextp set_recs].
      rewrite (proj2 (Z.ltb_lt _ _)) by lia. done. }
    destruct (IH (numbered h 1) t1) as (Q1 & Q2 & Q3 & Q4 & Q5).
    { apply u8_range. }
    { rewrite R1, zlen_app. unfold zlen at 2. cbn. lia. }
    rewrite Q1, Q4, Q5, R1, R2, R4, R5. split; [|split; [|split; [|done]]].
    + rewrite <- app_assoc. f_equal. cbn [app]. rewrite (seqZ_cons (nextp t) (Z.succ (zlen ds))) by lia. cbn.
      do 3 f_equal; lia.
    + intros i e Hi. destruct i as [|i].
      * cbn in Hi. simplify_eq. rewrite Z.add_0_r, Q3, numbered_0 by (done || lia). rewrite R3, lookup_insert_eq. done.
      * cbn in Hi. specialize (Q2 i e Hi). rewrite R2, numbered_S in Q2. rewrite <- Q2. f_equal. lia.
    + intros x Hx. rewrite Q3 by lia. rewrite R3. apply lookup_insert_ne. lia.
Qed.

Lemma pieces_sent_broadcast id seg n ds : ∀ h t,
  trace (pieces_sent h id seg true n ds t) = trace t ++ replicate (length ds) (EvResponse MANAGER_SEND_SUCCESS n) ∧
  segs (pieces_sent h id seg true n ds t) = segs t.
Proof.
  induction ds as [|d ds IH]; intros h t; cbn [pieces_sent length replicate].
  - rewrite app_nil_r. done.
  - set (t1 := packet_sent h id seg true n d t).
    assert (trace t1 = trace t ++ [EvResponse MANAGER_SEND_SUCCESS n] ∧ segs t1 = segs t) as [R1 R2].
    { subst t1. unfold packet_sent, handed, pushed. destruct (_ <? _); done. }
    destruct (IH (with_segment_info (total_num h) (u8 (current_num h + 1)) h) t1) as [-> ->].
    rewrite R1, R2, <- app_assoc. done.
Qed.

Lemma one_dest page dest s :
  dest_len page = 4 → dest_address page = [dest] →
  manager_send_msg_to_wiota cfg page s = fbind (send_msg_to_one cfg page dest) (λ _, fret tt) s.
Proof. intros H1 H2. unfold manager_send_msg_to_wiota. rewrite H1, H2. done. Qed.

(** ** Properties *)


(** The pieces of a text, received in any order by the reassembly of
    [DataPacket] under the numbers the sender gave them, come out as the text,
    once, with the last piece. *)
Theorem pieces_reassemble n text src pid order s m :
  0 < n < 65536 → n < zlen text <= 255 * n → DataPacket.rep s m → m !! (src, pid) = None →
  order ≡ₚ zip (seq 0 (length (pieces n text))) (pieces n text) →
  ∃ s', recv_all src pid (zlen (pieces n text)) order s =
          Ok (replicate (length order - 1) None ++ [Some (Some text)], s') ∧ DataPacket.rep s' m.
Proof.
  intros Hn Ht Hr Hm Hp. destruct (pieces_spec n text) as (Hcat & Hf & Hlen); [lia|].
  assert (0 < zlen (pieces n text) < 256) as Hcount by (apply pieces_count; lia).
  set (ds := pieces n text) in *.
  assert (order.*1 ≡ₚ seq 0 (length ds)) as Hp1.
  { rewrite Hp, fst_zip; [done|]. rewrite length_seq. lia. }
  destruct (recv_all_spec src pid ds order s m Hr) as (s' & E & Hr').
  - lia.
  - eapply Forall_impl; [exact Hf|]. cbv beta. lia.
  - rewrite Hp1. apply NoDup_seq.
  - rewrite Hp. apply Forall_lookup_2. intros i [j d] Hi. cbn.
    apply lookup_zip_with_Some in Hi as (j' & d' & [= -> ->] & Hj & Hd).
    apply lookup_seq in Hj as [-> _]. done.
  - intros ->. apply Permutation_length in Hp1. rewrite length_seq in Hp1. change (length ([] : list (nat * list Z)).*1) with O in Hp1. unfold zlen in Hcount. lia.
  - apply missing_all; [done|]. unfold slots. rewrite Hm. unfold zlen. rewrite Nat2Z.id. done.
  - exists s'. rewrite Hcat in E. split.
    + rewrite E. destruct text; [unfold zlen in Ht; cbn in Ht; lia|]. done.
    + rewrite delete_id in Hr' by done. done.
Qed.

(** A segmented broadcast is answered once per segment, always with
    success, and its segment counter stays allocated. *)
Theorem broadcast_segments_answered_each page dest s ps hash :
  net_ok s ps hash → dest_len page = 4 → dest_address page = [dest] → is_broadcast_address dest = true →
  max_data_len true < zlen (json_data page) <= 255 * max_data_len true →
  let n := zlen (pieces (max_data_len true) (json_data page)) in
  1 < n ∧ ∃ s', manager_send_msg_to_wiota cfg page s = Ok (tt, s') ∧
    trace (ext (tasks s')) = trace (ext (tasks s)) ++
      replicate (Z.to_nat n) (EvResponse MANAGER_SEND_SUCCESS (net_request_number page)) ∧
    segs (ext (tasks s')) !! nextp (ext (tasks s)) = Some (MANAGER_SEND_SUCCESS, n).
Proof.
  intros Hok Hdl Hda Hbc Hlen n. pose proof (max_data_len_bounds true) as Hm. split.
  { unfold n. destruct (pieces_spec (max_data_len true) (json_data page)) as (_ & _ & ->); [lia|].
    apply Z.lt_le_trans with 2; [lia|]. apply Z.div_le_lower_bound; lia. }
  rewrite one_dest with (dest := dest) by done.
  pose proof (send_to_one_segmented page dest s ps hash) as Hs. rewrite Hbc in Hs. cbv zeta in Hs.
  destruct (Hs Hok Hlen) as [E Hok']. unfold fbind. rewrite E. eexists. split; [reflexivity|].
  unfold with_tasks. cbn [tasks ext with_ext]. set (ds := pieces _ _) in *.
  destruct (pieces_sent_broadcast (default dest (addr_of (all_addresses hash) dest)) (Some (nextp (ext (tasks s))))
    (net_request_number page) ds (message_header page dest true true (zlen ds))
    (counter_made (zlen ds) (ext (tasks s)))) as [-> ->].
  split; [|apply lookup_insert_eq]. unfold n, zlen. rewrite Nat2Z.id. done.
Qed.
End Sending.

(** ** What the messages put into the tasks *)

Section Content.
Context `{AddressJson}.
Context (cfg : frame_config) (F : option manager_message_exe_result → Prop) (L : t_app_logic_message → Prop).
Local Abbreviation P := (λ n : net_state, content F L (ext (tasks n))).
Local Abbreviation keeps_net m := (Keeps P m (λ _, True)).

Lemma keeps_on_tasks {A} (C : task_state → Prop) (m : FW (lheap task_state) A) V :
  Keeps (λ h, C (ext h)) m V → Keeps (λ n, C (ext (tasks n))) (on_tasks m) V.
Proof.
  intros Hm n a n' Hn. unfold on_tasks. destruct (m (tasks n)) as [[b h]|] eqn:E; [|done]. intros [= <- <-].
  by eapply (Hm _ _ _ Hn).
Qed.
Lemma keeps_on_book {A} (C : task_state → Prop) (m : FW addr_state A) :
  Keeps (λ n, C (ext (tasks n))) (on_book m) (λ _, True).
Proof.
  intros n a n' Hn. unfold on_book. destruct (m (book n)) as [[b h]|]; [|done]. intros [= <- <-]. done.
Qed.
Lemma keeps_on_memory {A} (C : task_state → Prop) (m : FW (list bool) A) :
  Keeps (λ n, C (ext (tasks n))) (on_memory m) (λ _, True).
Proof.
  apply keeps_on_tasks. intros h a h' Hh. destruct (m (oks h)) as [[b mem]|]; [|done]. intros [= <- <-]. done.
Qed.
#[local] Hint Resolve keeps_on_tasks keeps_on_book keeps_on_memory : keeps.

Context (HN : F (Some manager_network_to_wiota_result_fn)) (HE : F None).

Lemma keeps_send_packet h seg bc n d len : keeps_net (manager_send_packet cfg h seg bc n d len).
Proof using HN HE. unfold manager_send_packet. keeps. Qed.
#[local] Hint Resolve keeps_send_packet : keeps.
Lemma keeps_segment_loop fuel : ∀ h seg bc n ml d, keeps_net (segment_loop cfg fuel h seg bc n ml d).
Proof using HN HE. induction fuel as [|fuel IH]; intros; cbn [segment_loop]; keeps. Qed.
Lemma keeps_new_segment total : keeps_net (new_segment total).
Proof. unfold new_segment. apply keeps_on_tasks. keeps. by apply keeps_task_same. Qed.
#[local] Hint Resolve keeps_segment_loop keeps_new_segment : keeps.
Lemma keeps_dest_loop page n : ∀ dests, keeps_net (dest_loop cfg page n dests).
Proof using HN HE. induction n as [|n IH]; intros [|d dests]; cbn [dest_loop]; unfold send_msg_to_one; keeps. Qed.
#[local] Hint Resolve keeps_dest_loop : keeps.
Lemma keeps_send_msg page : keeps_net (manager_send_msg_to_wiota cfg page).
Proof using HN HE. unfold manager_send_msg_to_wiota. keeps. Qed.
Lemma keeps_send_config page : keeps_net (manager_send_config_to_wioata page).
Proof. unfold manager_send_config_to_wioata. keeps. Qed.
Lemma keeps_parse_address d : keeps_net (manager_pasing_address d).
Proof. unfold manager_pasing_address. keeps. Qed.
End Content.
#[export] Hint Resolve keeps_on_tasks keeps_on_book keeps_on_memory keeps_send_msg keeps_send_config keeps_parse_address : keeps.

(** A full segment, as the access point sends it, is longer than what its
    own decoder accepts. *)
Theorem full_segment_refused page dest total i d old m :
  zlen d = max_data_len false →
  let msg := fields (numbered (message_header page dest false true total) i) ++ d in
  zlen msg <= UC_WIOTA_MAX_SEND_NORMAL_DATA_LEN ∧
  app_data_decoding (Some msg) (zlen msg) old m = Ok ((-1, old, None), m).
Proof.
  intros Hd msg. pose proof (length_fields (numbered (message_header page dest false true total) i)) as Hl.
  assert (zlen msg = zlen (fields (numbered (message_header page dest false true total) i)) + zlen d) as Hz by apply zlen_app.
  unfold max_data_len, UC_WIOTA_MAX_SEND_NORMAL_DATA_LEN, sizeof_header in *. unfold zlen at 2 in Hz.
  split; [lia|]. unfold app_data_decoding.
  rewrite (proj2 (Z.gtb_lt (zlen msg) _)) by (unfold APP_MAX_DECODING_DATA_LEN; lia).
  rewrite orb_true_r. done.
Qed.

(** ** Inputs for the witnesses *)

Definition no_task_state : task_state :=
  {| recs := ∅; segs := ∅; nextp := 1; op_q := []; logic_q := []; trace := [];
     recv_msg_count := 0; old_recv_msg_count := 0; running := true |}.
Definition demo_tasks : lheap task_state :=
  {| cells := {[wiota_send_manager_list := {| ndata := 0; nnext := wiota_send_manager_list; npre := wiota_send_manager_list |}]};
     brk := 10; oks := []; released := []; ext := no_task_state |}.
Definition demo_net : net_state := {| tasks := demo_tasks; book := demo_addr 0 |}.
Definition demo_json : AddressJson := {| json_address_period := λ _, None |}.

Lemma no_task_inv : tinv no_task_state [].
Proof.
  constructor; cbn; try done; try (intros d H; by inversion H); try (intros d r H; by inversion H).
  constructor.
Qed.

Lemma demo_tasks_ok : hinv demo_tasks [].
Proof.
  split; [|done|exact no_task_inv]. split; cbn.
  - apply NoDup_singleton.
  - done.
  - constructor.
  - intros p [x Hx]. apply lookup_singleton_Some in Hx as [<- _]. unfold wiota_send_manager_list. lia.
Qed.

Lemma demo_net_ok : net_ok demo_cfg demo_net [] demo_hash.
Proof. split; [exact demo_tasks_ok|]. apply demo_addr_ok. lia. Qed.

(** A text of 300 letters for the terminal 5. *)
Definition demo_page (dest len : Z) : t_from_network_message :=
  {| dest_len := 4; dest_address := [dest]; net_cmd := 40; net_request_number := 9; json_data := replicate (Z.to_nat len) 65 |}.


Lemma pieces_reassemble_witness :
  ∃ s', recv_all 7 1 2 [(1%nat, [3; 4]); (0%nat, [0; 1; 2])] no_packets = Ok ([None; Some (Some [0; 1; 2; 3; 4])], s') ∧
        DataPacket.rep s' ∅.
Proof.
  refine (pieces_reassemble 3 [0; 1; 2; 3; 4] 7 1 [(1%nat, [3; 4]); (0%nat, [0; 1; 2])] no_packets ∅ _ _ no_packets_rep _ _).
  - lia.
  - vm_compute. split; congruence.
  - reflexivity.
  - cbn. apply perm_swap.
Defined.

Lemma broadcast_segments_answered_each_witness :
  ∃ s', @manager_send_msg_to_wiota demo_cfg (demo_page AP_DEFAULT_RADIO_ADDRESS 2100) demo_net = Ok (tt, s') ∧
    trace (ext (tasks s')) = [EvResponse 1 9; EvResponse 1 9; EvResponse 1 9].
Proof.
  destruct (@broadcast_segments_answered_each demo_cfg (demo_page AP_DEFAULT_RADIO_ADDRESS 2100)
    AP_DEFAULT_RADIO_ADDRESS demo_net [] demo_hash demo_net_ok eq_refl eq_refl eq_refl) as (_ & s' & E & Ht & _).
  { vm_compute. split; congruence. }
  exists s'. split; [exact E|]. rewrite Ht. vm_compute. reflexivity.
Defined.

Lemma full_segment_refused_witness :
  let msg := fields (numbered (message_header (demo_page 5 300) 5 false true 2) 0) ++ replicate 294 65 in
  zlen msg <= 310 ∧ @app_data_decoding (Some msg) (zlen msg) zero_ps_header [] = Ok ((-1, zero_ps_header, None), []).
Proof. exact (@full_segment_refused (demo_page 5 300) 5 2 0 (replicate 294 65) zero_ps_header [] eq_refl). Defined.
