(* ===== verification/Update.v ===== *)
(** * Updates of the terminals and of the access point

    app/wiota_manager/manager_wiota/manager_update.c: the update message of the
    server, the transfer of the image in broadcasts of 512 bytes, and the
    blocks terminals ask for again.  Uses the coding of [Coding], the address
    table of [UserId] and the queue to the radio task of [Operation]. *)

From stdpp Require Import strings.
From S2P Require Import Prelude ManagerList Coding UserId Operation NetMsg.
#[local] Set Warnings "-register-all".
Local Open Scope fw_scope.


(** ** cJSON

    What the program builds: members with a number, a text (RT_NULL gives no
    member), a list of numbers or an object.  What it reads goes through the
    functions of the class; an item that is not there is None. *)

Inductive jvalue :=
| JNum (z : Z)
| JStr (s : option (list Z))
| JArr (l : list Z)
| JObj (fs : list (string * jvalue)).

Class CJson := {
  cJSON : Type;
  cJSON_Parse : list Z → option cJSON;
  cJSON_GetObjectItem : option cJSON → string → option cJSON;
  cJSON_IsNumber : cJSON → bool;
  cJSON_IsString : cJSON → bool;
  cJSON_IsObject : cJSON → bool;
  valueint : cJSON → Z;
  valuestring : cJSON → list Z;
  cJSON_GetArraySize : cJSON → Z;
  cJSON_GetArrayItem : cJSON → Z → option cJSON;
  cJSON_Print : list (string * jvalue) → option (list Z)
}.

Definition member (key : string) (v : jvalue) : string * jvalue := (key, v).

(** ** Data *)

Definition MANAGER_UPDATE_DEFAULT : Z := 0.
Definition MANAGER_UPDATE_RESPONSE_MSG : Z := 2.
Definition MANAGER_UPDATE_DOWN_PAGE : Z := 3.
Definition MANAGER_START_TRANSFER_DATA : Z := 4.
Definition MANAGER_UPDATE_SYSTEM : Z := 5.
Definition MANAGER_UPDATE_STOP : Z := 6.
Definition MANAGER_OTA_STOP : Z := 0.
Definition MANAGER_OTA_GONGING : Z := 1.
Definition MANAGER_OTA_NODATA : Z := 2.
Definition HTTP_DOWNLOAD_OK : Z := 0.
Definition MANAGER_OTA_SEND_BIN_SIZE : Z := 512.
Definition UC_OTA_PARTITION_START_ADDRESS : Z := 1016 * 1024.
Definition APP_CMD_GET_UPDATE_STATE_REQUEST : Z := 56.

(** "v1.0" and "ap". *)
Definition AP_DEMO_VERSION : list Z := [118; 49; 46; 48].
Definition dev_type_ap : list Z := [97; 112].

(** Strings are None for RT_NULL, otherwise their bytes without the end mark. *)
Record t_manager_netwwork_info := {
  access : Z; username : option (list Z); password : option (list Z); path : option (list Z);
  nw_address : option (list Z); port : Z
}.

Record t_manager_update_info := {
  active_state : Z;
  iote_num : Z;
  iote_id : option (list Z);
  new_version : option (list Z);
  old_version : option (list Z);
  dev_type : option (list Z);
  update_type : Z;
  range : Z;
  file_name : option (list Z);
  file_len : Z;
  md5 : option (list Z);
  network : t_manager_netwwork_info
}.

Record t_manager_update := {
  up_state : Z;
  ota_op_address : Z;
  info : t_manager_update_info;
  sub_flag_num : Z;
  rem_sub_flag : option (list Z)
}.

Definition set_up_state v u := {| up_state := v; ota_op_address := ota_op_address u; info := info u;
  sub_flag_num := sub_flag_num u; rem_sub_flag := rem_sub_flag u |}.
Definition set_ota_op_address v u := {| up_state := up_state u; ota_op_address := v; info := info u;
  sub_flag_num := sub_flag_num u; rem_sub_flag := rem_sub_flag u |}.
Definition set_info v u := {| up_state := up_state u; ota_op_address := ota_op_address u; info := v;
  sub_flag_num := sub_flag_num u; rem_sub_flag := rem_sub_flag u |}.
Definition set_flags n f u := {| up_state := up_state u; ota_op_address := ota_op_address u; info := info u;
  sub_flag_num := n; rem_sub_flag := f |}.
Definition set_file_len v i := {| active_state := active_state i; iote_num := iote_num i; iote_id := iote_id i;
  new_version := new_version i; old_version := old_version i; dev_type := dev_type i; update_type := update_type i;
  range := range i; file_name := file_name i; file_len := v; md5 := md5 i; network := network i |}.
Definition set_iotes n ids i := {| active_state := active_state i; iote_num := n; iote_id := ids;
  new_version := new_version i; old_version := old_version i; dev_type := dev_type i; update_type := update_type i;
  range := range i; file_name := file_name i; file_len := file_len i; md5 := md5 i; network := network i |}.

Definition no_network : t_manager_netwwork_info :=
  {| access := 0; username := None; password := None; path := None; nw_address := None; port := 0 |}.
(** free_update_info clears every member. *)
Definition free_update_info : t_manager_update_info :=
  {| active_state := 0; iote_num := 0; iote_id := None; new_version := None; old_version := None; dev_type := None;
     update_type := 0; range := 0; file_name := None; file_len := 0; md5 := None; network := no_network |}.

Record t_data_offset := { do_offset : Z; do_len : Z }.
Record t_manager_iote_resend_info := {
  rs_dev_type : list Z; rs_old_version : list Z; rs_new_version : list Z; rs_update_type : Z;
  data_info : list t_data_offset
}.

(** What leaves the component: a request to the downloader, and the restart of
    the access point with a new image. *)
Inductive up_event :=
| UpDownload (file md5 : option (list Z)) (net : t_manager_netwwork_info)
| UpReboot (file_size : Z).

Record upd_state := { un : net_state; up : t_manager_update; up_log : list up_event }.

(** ** The flags of blocks to send again *)

(** The byte count, and the memory that is asked for: one bit per block, and
    one more per byte of an incomplete last block. *)
Definition sub_flag_bits (len sub_len : Z) : Z :=
  Z.quot len sub_len + (if Z.rem len sub_len >? 0 then Z.rem len sub_len else 0).

(** [flag[start_bit/8] |= 1 << (start_bit%8)]; the place must be in the array. *)
Definition flag_bit (flag : list Z) (i : Z) : result (list Z) :=
  if i <? 0 then Fault OutOfBounds
  else match flag !! Z.to_nat (i / 8) with
       | Some b => Ok (<[Z.to_nat (i / 8) := Z.lor b (Z.shiftl 1 (i mod 8))]> flag)
       | None => Fault OutOfBounds
       end.

(** [while (block_num)]: a negative count does not end the loop before it
    leaves the array. *)
Fixpoint set_flag_loop (fuel : nat) (flag : list Z) (start_bit block_num : Z) : result (list Z) :=
  match fuel with
  | O => Fault OutOfFuel
  | S fuel =>
      if block_num =? 0 then Ok flag
      else flag <-? flag_bit flag start_bit;; set_flag_loop fuel flag (start_bit + 1) (block_num - 1)
  end.

Definition manager_set_resend_sub_flag (flag : list Z) (offset len sub_len : Z) : result (list Z) :=
  set_flag_loop (S (8 * length flag)) flag (Z.quot offset sub_len) (Z.quot len sub_len).

(** The lowest bit of a byte that is set. *)
Fixpoint low_bit (n : nat) (b j : Z) : option Z :=
  match n with
  | O => None
  | S n => if Z.testbit b j then Some j else low_bit n b (j + 1)
  end.

Fixpoint get_flag_loop (n : nat) (flag : list Z) (i : Z) : result Z :=
  match n with
  | O => Ok (-2)
  | S n =>
      match flag with
      | [] => Fault OutOfBounds
      | b :: flag =>
          if negb (b =? 0) then
            match low_bit 8 b 0 with
            | None => Ok (-1)
            | Some j => Ok (i * 8 + j)
            end
          else get_flag_loop n flag (i + 1)
      end
  end.

Definition manager_get_resend_sub_flag (flag : list Z) (flag_num : Z) : result Z :=
  get_flag_loop (Z.to_nat flag_num) flag 0.

Definition manager_clean_resend_sub_flag (flag : list Z) (bit_num : Z) : result (list Z) :=
  match flag !! Z.to_nat (bit_num / 8) with
  | Some b => Ok (<[Z.to_nat (bit_num / 8) := Z.land b (u8 (Z.lnot (Z.shiftl 1 (bit_num mod 8))))]> flag)
  | None => Fault OutOfBounds
  end.

Section Ops.
Context `{CJson}.

(** The address configuration, the flash of the OTA partition, and what
    rt_strlen finds in a text that was freed: manager_ota_msg_of_data asks for
    the length of its text after cJSON_free. *)
Context (cfg : frame_config) (uc_wiota_flash_read : Z → Z → list Z) (strlen_freed : list Z → Z).
Local Abbreviation M := (FW upd_state).

Definition on_net {A} (m : FW net_state A) : M A :=
  λ s, match m (un s) with
       | Ok (a, n) => Ok (a, {| un := n; up := up s; up_log := up_log s |})
       | Fault f => Fault f
       end.
Definition get_up : M t_manager_update := fgets up.
Definition mod_up (f : t_manager_update → t_manager_update) : M unit :=
  fmod (λ s, {| un := un s; up := f (up s); up_log := up_log s |}).
Definition up_emit (e : up_event) : M unit :=
  fmod (λ s, {| un := un s; up := up s; up_log := up_log s ++ [e] |}).

Definition up_malloc : M bool := on_net (on_tasks malloc_ok).

(** A pointer that is used without a test. *)
Definition deref {A} (o : option A) : M A := match o with Some a => fret a | None => ffail NullDeref end.

Definition manager_set_ota_state (st : Z) : M unit := mod_up (set_up_state st).
Definition manager_get_ota_state : M Z := fgets (λ s, up_state (up s)).

(** The flags; an array that was never made is RT_NULL. *)
Definition manager_init_resend_sub_flag (len sub_len : Z) : M Z :=
  let bits := sub_flag_bits len sub_len in
  let num := Z.quot bits 8 + (if Z.rem bits 8 >? 0 then 1 else 0) in
  ok <-- up_malloc;;
  if negb ok then mod_up (set_flags num None);;; fret 1
  else mod_up (set_flags num (Some (replicate (Z.to_nat (Z.quot bits 8 + 1)) 0)));;; fret 0.

Definition read_flags : M Z :=
  u <-- get_up;;
  match rem_sub_flag u with
  | Some f => flift (manager_get_resend_sub_flag f (sub_flag_num u))
  | None => if sub_flag_num u >? 0 then ffail NullDeref else fret (-2)
  end.

Definition change_flags (f : list Z → result (list Z)) : M unit :=
  u <-- get_up;;
  flag <-- deref (rem_sub_flag u);;
  flag <-- flift (f flag);;
  mod_up (set_flags (sub_flag_num u) (Some flag)).

(** ** The update message *)

Definition get_number (root : option cJSON) (key : string) (old : Z) : Z :=
  match cJSON_GetObjectItem root key with
  | Some i => if cJSON_IsNumber i then valueint i else old
  | None => old
  end.

(** A copy of a text; the memory for it is not checked. *)
Definition get_string (root : option cJSON) (key : string) (old : option (list Z)) : M (option (list Z)) :=
  match cJSON_GetObjectItem root key with
  | Some i =>
      if cJSON_IsString i then
        ok <-- up_malloc;;
        if ok : bool then fret (Some (valuestring i)) else ffail NullDeref
      else fret old
  | None => fret old
  end.

Definition need_int (root : option cJSON) (key : string) : M Z :=
  i <-- deref (cJSON_GetObjectItem root key);; fret (valueint i).

Definition parse_network (root : option cJSON) (old : t_manager_netwwork_info) : M t_manager_netwwork_info :=
  match cJSON_GetObjectItem root "access_info" with
  | Some i =>
      if cJSON_IsObject i then
        access <-- need_int (Some i) "access";;
        username <-- get_string (Some i) "username" (username old);;
        password <-- get_string (Some i) "password" (password old);;
        path <-- get_string (Some i) "path" (path old);;
        address <-- get_string (Some i) "url" (nw_address old);;
        fret {| access := access; username := username; password := password; path := path; nw_address := address;
                port := get_number (Some i) "port" (port old) |}
      else fret old
  | None => fret old
  end.

(** Text that does not parse is an object without members. *)
Definition manager_parsing_network_ota_msg (page : list Z) : M Z :=
  let root := cJSON_Parse page in
  u <-- get_up;;
  let old := info u in
  new_version <-- get_string root "new_version" (new_version old);;
  old_version <-- get_string root "old_version" (old_version old);;
  dev_type <-- get_string root "dev_type" (dev_type old);;
  update_type <-- need_int root "update_type";;
  file_name <-- get_string root "file" (file_name old);;
  file_len <-- need_int root "size";;
  md5 <-- get_string root "md5" (md5 old);;
  network <-- parse_network root (network old);;
  mod_up (set_info {|
    active_state := get_number root "state" (active_state old); iote_num := iote_num old; iote_id := iote_id old;
    new_version := new_version; old_version := old_version; dev_type := dev_type; update_type := update_type;
    range := get_number root "range" 0; file_name := file_name; file_len := file_len; md5 := md5;
    network := network |});;;
  fret 0.

Definition manager_check_ap_update_info (ver : t_manager_update_info) : M Z :=
  t <-- deref (dev_type ver);;
  if negb (bool_decide (t = dev_type_ap)) then fret 1
  else
    v <-- deref (old_version ver);;
    if negb (bool_decide (v = AP_DEMO_VERSION)) then fret 2 else fret 0.

Definition manager_start_down (i : t_manager_update_info) : M unit :=
  if negb (active_state i =? 0) then up_emit (UpDownload (file_name i) (md5 i) (network i)) else fret tt.

(** [dest_len] counts bytes, but that many numbers are copied.  The two callbacks
    of the function are RT_NULL in its only call. *)
Definition manager_update_response (page : t_from_network_message) : M Z :=
  mod_up (λ u, set_info (set_iotes (Z.shiftr (dest_len page) 2) (iote_id (info u)) (info u)) u);;;
  ok <-- up_malloc;;
  ids <-- (if ok : bool then ids <-- flift (slice 0 (dest_len page) (dest_address page));; fret (Some ids)
           else fret None);;
  mod_up (λ u, set_info (set_iotes (iote_num (info u)) ids (info u)) u);;;
  manager_parsing_network_ota_msg (json_data page);;;
  u <-- get_up;;
  r <-- manager_check_ap_update_info (info u);;
  if r =? 2 then fret 2
  else
    mod_up (set_ota_op_address UC_OTA_PARTITION_START_ADDRESS);;;
    manager_start_down (info u);;;
    manager_set_ota_state MANAGER_UPDATE_DOWN_PAGE;;;
    fret 0.

(** ** Sending the image *)

Definition manager_ota_state_msg (st : Z) : M (option (list Z)) :=
  u <-- get_up;;
  let i := info u in
  fret (cJSON_Print
    [member "state" (JNum (update_type i)); member "range" (JNum (range i)); member "new_version" (JStr (new_version i));
     member "old_version" (JStr (old_version i)); member "dev_type" (JStr (dev_type i)); member "ota_state" (JNum (Z.land st 1))]).

Fixpoint query_iotes (n : nat) (ids : list Z) : M (list Z) :=
  match n with
  | O => fret []
  | S n =>
      match ids with
      | [] => ffail OutOfBounds
      | a :: ids => id <-- on_net (on_book (manager_query_wiotaid cfg a));; l <-- query_iotes n ids;; fret (id :: l)
      end
  end.

(** The number of bytes of the block at [off]; None behind the image. *)
Definition block_len (off file_len : Z) : option Z :=
  if (u32 (off + MANAGER_OTA_SEND_BIN_SIZE) >? u32 file_len) && (off <? u32 file_len)
  then Some (RT_ALIGN (u32 (file_len - off)) 4)
  else if off >=? u32 file_len then None
  else Some MANAGER_OTA_SEND_BIN_SIZE.

Definition ota_fields (i : t_manager_update_info) (devs : option (list Z)) (off len : Z) : list (string * jvalue) :=
  [member "state" (JNum (update_type i)); member "range" (JNum (range i)); member "size" (JNum (file_len i));
   member "md5" (JStr (md5 i))] ++
  match devs with Some l => [member "dev_list" (JArr l)] | None => [] end ++
  [member "new_version" (JStr (new_version i)); member "old_version" (JStr (old_version i));
   member "dev_type" (JStr (dev_type i));
   member "info" (JObj [member "offset" (JNum off); member "len" (JNum len)])].

(** The length and the data; -1 and no data behind the end of the image. *)
Definition manager_ota_msg_of_data : M (Z * option (list Z)) :=
  u <-- get_up;;
  let i := info u in
  let off := u32 (ota_op_address u - UC_OTA_PARTITION_START_ADDRESS) in
  match block_len off (file_len i) with
  | None => fret (-1, None)
  | Some len =>
      bin <-- flift (store 0 (uc_wiota_flash_read (ota_op_address u) len)
                       (replicate (Z.to_nat MANAGER_OTA_SEND_BIN_SIZE) 0));;
      mod_up (set_ota_op_address (u32 (ota_op_address u + len)));;;
      devs <-- (if negb (update_type i =? 0) && (iote_num i >? 0) then
                  ids <-- deref (iote_id i);; l <-- query_iotes (Z.to_nat (iote_num i)) ids;; fret (Some l)
                else fret None);;
      data <-- deref (cJSON_Print (ota_fields i devs off len));;
      ok <-- up_malloc;;
      (if ok : bool then fret tt else ffail NullDeref);;;
      (if zlen data + len <=? 1024 then fret tt else ffail OutOfBounds);;;
      fret (strlen_freed data + len, Some (data ++ take (Z.to_nat len) bin))
  end.

Definition ota_header (cmd : Z) : app_ps_header_t :=
  {| property := app_set_header_property PRO_SRC_ADDR 1 (byte_property 0); src_addr := SERVER_DEFAULT_ADDRESS;
     dest_addr := 0; packet_num := 0; total_num := 0; current_num := 0; app_cmd_type := cmd |}.

Definition manager_ota_msg_coding (cmd : Z) (data : list Z) (data_len : Z) : M (Z * option (list Z)) :=
  r <-- on_net (on_memory (app_data_coding (ota_header cmd) (Some data) (u32 data_len)));;
  fret (r.1.1, r.2).

Definition send_ota (output_data : list Z) (func : manager_message_exe_result) : M unit :=
  on_net (on_tasks (manager_logic_send_to_operater MANAGER_OPERATION_OTA_RADIO 0 SERVER_DEFAULT_ADDRESS
    APP_CMD_GET_SPECIFIC_DATA_SPONSE 0 (zlen output_data) output_data None (Some func))).

Definition manager_ota_send_state (st : Z) : M Z :=
  data <-- manager_ota_state_msg st;;
  match data with
  | None => fret 0
  | Some data =>
      r <-- manager_ota_msg_coding APP_CMD_GET_UPDATE_STATE_REQUEST data (zlen data);;
      match r with
      | (0, Some output) => send_ota output manager_ota_state_result_fn;;; fret 0
      | _ => fret 0
      end
  end.

(** The coding is tried five times. *)
Fixpoint code_and_send (tries : nat) (data : list Z) (data_len : Z) : M Z :=
  match tries with
  | O => manager_ota_send_state MANAGER_OTA_STOP;;; fret 1
  | S tries =>
      r <-- manager_ota_msg_coding APP_CMD_GET_SPECIFIC_DATA_SPONSE data data_len;;
      match r with
      | (0, Some output) => send_ota output manager_ota_msg_result_fn;;; fret 0
      | _ => code_and_send tries data data_len
      end
  end.

Definition manager_start_send_page : M Z :=
  ' (data_len, data) <-- manager_ota_msg_of_data;;
  match data with
  | Some data =>
      if data_len >? 0 then code_and_send 5 data data_len
      else
        mod_up (λ u, set_ota_op_address UC_OTA_PARTITION_START_ADDRESS (set_up_state MANAGER_UPDATE_STOP u));;;
        manager_ota_send_state MANAGER_OTA_STOP;;; fret 2
  | None =>
      mod_up (λ u, set_ota_op_address UC_OTA_PARTITION_START_ADDRESS (set_up_state MANAGER_UPDATE_STOP u));;;
      manager_ota_send_state MANAGER_OTA_STOP;;; fret 2
  end.

Definition manager_start_iote_update : M Z :=
  mod_up (λ u, set_up_state MANAGER_START_TRANSFER_DATA (set_ota_op_address UC_OTA_PARTITION_START_ADDRESS u));;;
  u <-- get_up;;
  if negb (active_state (info u) =? 0) then manager_start_send_page else fret 1.

(** The access point restarts here; the model goes on. *)
Definition manager_ap_update (file_size : Z) : M unit :=
  mod_up (λ u, set_info free_update_info (set_up_state MANAGER_UPDATE_SYSTEM u));;;
  up_emit (UpReboot file_size).

Definition first_iote (i : t_manager_update_info) : M Z :=
  ids <-- deref (iote_id i);;
  match ids with a :: _ => fret a | [] => ffail OutOfBounds end.

(** The result of the downloader. *)
Definition manager_start_update (st down_file_size : Z) : M Z :=
  if st =? HTTP_DOWNLOAD_OK then
    u <-- get_up;;
    a <-- first_iote (info u);;
    is_ap <-- (if AP_DEFAULT_ADDRESS =? a then
                 t <-- deref (dev_type (info u));; fret (bool_decide (t = dev_type_ap))
               else fret false);;
    if is_ap : bool then manager_ap_update down_file_size;;; fret 0
    else
      mod_up (λ u, set_info (set_file_len down_file_size (info u)) u);;;
      manager_init_resend_sub_flag down_file_size MANAGER_OTA_SEND_BIN_SIZE;;;
      manager_start_iote_update;;; fret 0
  else manager_set_ota_state MANAGER_UPDATE_STOP;;; fret 0.

(** ** Blocks to send again *)

(** [data] is not initialised: behind the end of the image an arbitrary pointer
    is freed. *)
Definition manager_resend_data : M unit :=
  loc <-- read_flags;;
  if loc <? 0 then fret tt
  else
    mod_up (set_ota_op_address (u32 (UC_OTA_PARTITION_START_ADDRESS + loc * MANAGER_OTA_SEND_BIN_SIZE)));;;
    change_flags (λ f, manager_clean_resend_sub_flag f loc);;;
    ' (data_len, data) <-- manager_ota_msg_of_data;;
    match data with
    | None => ffail NullDeref
    | Some data =>
        if data_len >? 0 then
          r <-- manager_ota_msg_coding APP_CMD_GET_SPECIFIC_DATA_SPONSE data data_len;;
          match r with
          | (0, Some output) => send_ota output manager_ota_resend_msg_result_fn
          | _ => fret tt
          end
        else fret tt
    end.

(** The result functions of the two kinds of blocks. *)
Definition manager_ota_msg_result : M unit := manager_start_send_page;;; fret tt.
Definition manager_ota_resend_msg_result : M unit := manager_resend_data.

Definition require_string (root : option cJSON) (key : string) : M (option (list Z)) :=
  match cJSON_GetObjectItem root key with
  | Some i =>
      if cJSON_IsString i then
        ok <-- up_malloc;;
        if ok : bool then fret (Some (valuestring i)) else ffail NullDeref
      else fret None
  | None => fret None
  end.
Definition require_number (root : option cJSON) (key : string) : option Z :=
  match cJSON_GetObjectItem root key with
  | Some i => if cJSON_IsNumber i then Some (valueint i) else None
  | None => None
  end.

Fixpoint parse_offsets (n : nat) (list : cJSON) (m : Z) : option (Datatypes.list t_data_offset) :=
  match n with
  | O => Some []
  | S n =>
      let e := cJSON_GetArrayItem list m in
      match require_number e "offset", require_number e "len" with
      | Some o, Some l =>
          match parse_offsets n list (m + 1) with
          | Some r => Some ({| do_offset := o; do_len := l |} :: r)
          | None => None
          end
      | _, _ => None
      end
  end.

(** None when the message is refused; its texts and the parsed tree are not
    freed. *)
Definition manager_parsing_iote_resend_ota_msg (json_data : list Z) : M (option t_manager_iote_resend_info) :=
  match cJSON_Parse json_data with
  | None => fret None
  | Some root =>
      t <-- require_string (Some root) "dev_type";;
      match t with None => fret None | Some t =>
      o <-- require_string (Some root) "old_version";;
      match o with None => fret None | Some o =>
      n <-- require_string (Some root) "new_version";;
      match n with None => fret None | Some n =>
      match require_number (Some root) "update_type", cJSON_GetObjectItem (Some root) "data_info" with
      | Some ty, Some arr =>
          let num := cJSON_GetArraySize arr in
          let make l := {| rs_dev_type := t; rs_old_version := o; rs_new_version := n; rs_update_type := ty;
                           data_info := l |} in
          if num >? 0 then
            ok <-- up_malloc;;
            if ok : bool then fret (make <$> parse_offsets (Z.to_nat num) arr 0) else fret None
          else fret (Some (make []))
      | _, _ => fret None
      end end end end
  end.

Definition manager_check_iote_resend_quest (q : t_manager_iote_resend_info) (i : t_manager_update_info) : M Z :=
  nv <-- deref (new_version i);;
  if negb (bool_decide (rs_new_version q = nv)) then fret 1
  else
    ov <-- deref (old_version i);;
    if negb (bool_decide (rs_old_version q = ov)) then fret 2
    else if negb (rs_update_type q =? update_type i) then fret 3 else fret 0.

Fixpoint flag_offsets (l : list t_data_offset) : M unit :=
  match l with
  | [] => fret tt
  | d :: l =>
      (if Z.quot (do_len d) MANAGER_OTA_SEND_BIN_SIZE =? 0 then fret tt
       else change_flags (λ f, manager_set_resend_sub_flag f (do_offset d) (do_len d) MANAGER_OTA_SEND_BIN_SIZE));;;
      flag_offsets l
  end.

Definition manager_ota_resend_data (msg : list Z) : M Z :=
  q <-- manager_parsing_iote_resend_ota_msg msg;;
  match q with
  | None => fret 1
  | Some q =>
      u <-- get_up;;
      c <-- manager_check_iote_resend_quest q (info u);;
      if negb (c =? 0) then fret 2
      else
        flag <-- read_flags;;
        flag_offsets (data_info q);;;
        (if negb (flag =? 0) then manager_resend_data else fret tt);;;
        fret 0
  end.
End Ops.


(** ** The flags as a set of blocks *)

Definition bit_set (flag : list Z) (i : Z) : bool :=
  match flag !! Z.to_nat (i / 8) with Some b => Z.testbit b (i mod 8) | None => false end.

Definition blocks (flag : list Z) : gset Z :=
  list_to_set (filter (λ i, bit_set flag i = true) (seqZ 0 (8 * zlen flag))).

Lemma elem_of_blocks flag i : 0 <= i → i ∈ blocks flag ↔ bit_set flag i = true.
Proof.
  intros Hi. unfold blocks. rewrite elem_of_list_to_set, list_elem_of_filter, elem_of_seqZ.
  split; [tauto|]. intros H. split; [done|]. unfold bit_set in H.
  destruct (flag !! _) eqn:E; [|done]. apply lookup_lt_Some in E. unfold zlen. Z.div_mod_to_equations. lia.
Qed.

Lemma blocks_range flag i : i ∈ blocks flag → 0 <= i < 8 * zlen flag.
Proof. unfold blocks. rewrite elem_of_list_to_set, list_elem_of_filter, elem_of_seqZ. lia. Qed.

Lemma byte_of_bit i j : 0 <= i → 0 <= j → Z.to_nat (i / 8) = Z.to_nat (j / 8) → i mod 8 = j mod 8 → i = j.
Proof. intros. Z.div_mod_to_equations. lia. Qed.

(** Changing one bit of one byte. *)
Lemma bit_set_insert flag i b b' j :
  0 <= i → 0 <= j → flag !! Z.to_nat (i / 8) = Some b →
  (∀ k, 0 <= k < 8 → k ≠ i mod 8 → Z.testbit b' k = Z.testbit b k) →
  bit_set (<[Z.to_nat (i / 8) := b']> flag) j = if decide (j = i) then Z.testbit b' (i mod 8) else bit_set flag j.
Proof.
  intros Hi Hj Hb Hk. unfold bit_set. destruct (decide (Z.to_nat (j / 8) = Z.to_nat (i / 8))) as [He|He].
  - rewrite He, list_lookup_insert_eq by by apply lookup_lt_Some in Hb. destruct (decide (j = i)) as [->|Hne]; [done|].
    rewrite Hb. apply Hk; [apply Z.mod_pos_bound; lia|]. intros ?. apply Hne. by apply byte_of_bit.
  - rewrite list_lookup_insert_ne by done. rewrite decide_False by congruence. done.
Qed.

Lemma flag_bit_spec flag i :
  0 <= i < 8 * zlen flag →
  ∃ flag', flag_bit flag i = Ok flag' ∧ length flag' = length flag ∧
    ∀ j, 0 <= j → bit_set flag' j = bit_set flag j || (j =? i).
Proof.
  intros Hi. unfold flag_bit. rewrite (proj2 (Z.ltb_ge i 0)) by lia.
  destruct (lookup_lt_is_Some_2 flag (Z.to_nat (i / 8))) as [b Hb].
  { unfold zlen in Hi. Z.div_mod_to_equations. lia. }
  rewrite Hb. eexists. split; [reflexivity|]. split; [apply length_insert|]. intros j Hj.
  pose proof (Z.mod_pos_bound i 8 eq_refl) as Hm.
  assert (∀ k, 0 <= k → Z.testbit (Z.lor b (Z.shiftl 1 (i mod 8))) k = Z.testbit b k || (k =? i mod 8)) as Hlor.
  { intros k Hk. rewrite Z.lor_spec, Z.shiftl_1_l, Z.pow2_bits_eqb, Z.eqb_sym by lia. done. }
  rewrite (bit_set_insert flag i b) by (lia || done || (intros k Hk Hne; rewrite Hlor by lia;
    rewrite (proj2 (Z.eqb_neq _ _)) by done; apply orb_false_r)).
  destruct (decide (j = i)) as [->|Hne].
  - rewrite Hlor, Z.eqb_refl, Z.eqb_refl, !orb_true_r by lia. done.
  - rewrite (proj2 (Z.eqb_neq _ _)), orb_false_r by done. done.
Qed.

Lemma set_flag_loop_spec n : ∀ fuel flag start,
  0 <= start → start + Z.of_nat n <= 8 * zlen flag → (n < fuel)%nat →
  ∃ flag', set_flag_loop fuel flag start (Z.of_nat n) = Ok flag' ∧ length flag' = length flag ∧
    ∀ j, 0 <= j → bit_set flag' j = bit_set flag j || ((start <=? j) && (j <? start + Z.of_nat n)).
Proof.
  induction n as [|n IH]; intros [|fuel] flag start Hs He Hf; try lia; cbn [set_flag_loop].
  - exists flag. split; [done|]. split; [done|]. intros j Hj.
    replace ((start <=? j) && (j <? start + Z.of_nat 0)) with false; [rewrite orb_false_r; done|].
    symmetry. rewrite andb_false_iff, Z.leb_gt, Z.ltb_ge. lia.
  - rewrite (proj2 (Z.eqb_neq (Z.of_nat (S n)) 0)) by lia.
    destruct (flag_bit_spec flag start) as (f1 & -> & L1 & B1); [lia|]. cbn [rbind].
    replace (Z.of_nat (S n) - 1) with (Z.of_nat n) by lia.
    destruct (IH fuel f1 (start + 1)) as (f2 & -> & L2 & B2); [lia|unfold zlen in *; lia|lia|].
    exists f2. split; [done|]. split; [congruence|]. intros j Hj. rewrite B2, B1 by done.
    rewrite <- orb_assoc. f_equal. apply eq_bool_prop_intro. rewrite !orb_True, !andb_True, !Is_true_true.
    rewrite !Z.leb_le, !Z.ltb_lt, Z.eqb_eq. lia.
Qed.

Lemma low_bit_spec n : ∀ b j, 0 <= j →
  match low_bit n b j with
  | Some k => j <= k < j + Z.of_nat n ∧ Z.testbit b k = true ∧ ∀ i, j <= i < k → Z.testbit b i = false
  | None => ∀ i, j <= i < j + Z.of_nat n → Z.testbit b i = false
  end.
Proof.
  induction n as [|n IH]; intros b j Hj; cbn [low_bit]; [intros; lia|].
  destruct (Z.testbit b j) eqn:E; [split; [lia|]; split; [done|intros; lia]|].
  specialize (IH b (j + 1)). destruct (low_bit n b (j + 1)) as [k|].
  - destruct IH as (H1 & H2 & H3); [lia|]. split; [lia|]. split; [done|]. intros i Hi.
    destruct (decide (i = j)) as [->|]; [done|]. apply H3. lia.
  - intros i Hi. destruct (decide (i = j)) as [->|]; [done|]. apply IH; lia.
Qed.

Lemma byte_zero b : is_u8 b → (∀ i, 0 <= i < 8 → Z.testbit b i = false) → b = 0.
Proof.
  intros Hb H. apply Z.bits_inj'. intros i Hi. rewrite Z.bits_0. destruct (decide (i < 8)); [apply H; lia|].
  unfold is_u8 in Hb. destruct (decide (b = 0)) as [->|]; [apply Z.bits_0|].
  apply Z.bits_above_log2; [lia|]. apply Z.lt_le_trans with 8; [|lia]. apply Z.log2_lt_pow2; lia.
Qed.

Lemma bit_set_cons b flag i :
  0 <= i → bit_set (b :: flag) i = if decide (i < 8) then Z.testbit b i else bit_set flag (i - 8).
Proof.
  intros Hi. unfold bit_set. case_decide.
  - rewrite Z.div_small, Z.mod_small by lia. done.
  - replace (Z.to_nat (i / 8)) with (S (Z.to_nat ((i - 8) / 8))) by (Z.div_mod_to_equations; lia). cbn.
    replace ((i - 8) mod 8) with (i mod 8) by (Z.div_mod_to_equations; lia). done.
Qed.

Lemma get_flag_loop_spec n : ∀ flag k,
  (n <= length flag)%nat → Forall is_u8 flag →
  ∃ r, get_flag_loop n flag k = Ok r ∧
    ((r = -2 ∧ ∀ i, 0 <= i < 8 * Z.of_nat n → bit_set flag i = false) ∨
     (∃ i, r = k * 8 + i ∧ 0 <= i < 8 * Z.of_nat n ∧ bit_set flag i = true ∧ ∀ j, 0 <= j < i → bit_set flag j = false)).
Proof.
  induction n as [|n IH]; intros flag k Hn Hf; cbn [get_flag_loop]; [exists (-2); split; [done|]; left; split; [done|lia]|].
  destruct flag as [|b flag]; [cbn in Hn; lia|]. cbn in Hn. apply Forall_cons in Hf as [Hb Hf].
  pose proof (low_bit_spec 8 b 0 ltac:(lia)) as Hlow. change (0 + Z.of_nat 8) with 8 in Hlow.
  destruct (Z.eqb_spec b 0) as [->|Hne]; cbn [negb].
  - destruct (IH flag (k + 1)) as (r & -> & Hr); [lia|done|]. exists r. split; [done|].
    assert (∀ i, 0 <= i < 8 → bit_set (0 :: flag) i = false) as H8.
    { intros i Hi. rewrite bit_set_cons, decide_True by lia. apply Z.bits_0. }
    destruct Hr as [[-> H]|(i & -> & Hi & Ht & H)].
    + left. split; [done|]. intros i Hi. destruct (decide (i < 8)); [apply H8; lia|].
      rewrite bit_set_cons, decide_False by lia. apply H. lia.
    + right. exists (i + 8). split; [lia|]. split; [lia|]. split.
      * rewrite bit_set_cons, decide_False by lia. replace (i + 8 - 8) with i by lia. done.
      * intros j Hj. destruct (decide (j < 8)); [apply H8; lia|]. rewrite bit_set_cons, decide_False by lia. apply H. lia.
  - destruct (low_bit 8 b 0) as [j|].
    + destruct Hlow as (Hj & Ht & H). exists (k * 8 + j). split; [done|]. right. exists j. split; [done|]. split; [lia|].
      split; [rewrite bit_set_cons, decide_True by lia; done|].
      intros i Hi. rewrite bit_set_cons, decide_True by lia. apply H. lia.
    + exfalso. apply Hne. by apply byte_zero.
Qed.

Lemma clean_spec' flag i :
  0 <= i < 8 * zlen flag →
  ∃ flag', manager_clean_resend_sub_flag flag i = Ok flag' ∧ length flag' = length flag ∧
    ∀ j, 0 <= j → bit_set flag' j = bit_set flag j && negb (j =? i).
Proof.
  intros Hi. unfold manager_clean_resend_sub_flag.
  destruct (lookup_lt_is_Some_2 flag (Z.to_nat (i / 8))) as [b Hb].
  { unfold zlen in Hi. Z.div_mod_to_equations. lia. }
  rewrite Hb. eexists. split; [reflexivity|]. split; [apply length_insert|]. intros j Hj.
  pose proof (Z.mod_pos_bound i 8 eq_refl) as Hm.
  assert (∀ k, 0 <= k < 8 → Z.testbit (Z.land b (u8 (Z.lnot (Z.shiftl 1 (i mod 8))))) k =
                            Z.testbit b k && negb (k =? i mod 8)) as Hland.
  { intros k Hk. unfold u8. change 256 with (2 ^ 8).
    rewrite Z.land_spec, Z.mod_pow2_bits_low, Z.lnot_spec, Z.shiftl_1_l, Z.pow2_bits_eqb, Z.eqb_sym by lia. done. }
  rewrite (bit_set_insert flag i b) by (lia || done || (intros k Hk Hne; rewrite Hland by lia;
    rewrite (proj2 (Z.eqb_neq _ _)) by done; apply andb_true_r)).
  destruct (decide (j = i)) as [->|Hne].
  - rewrite Hland, Z.eqb_refl, Z.eqb_refl, !andb_false_r by lia. done.
  - rewrite (proj2 (Z.eqb_neq _ _)), andb_true_r by done. done.
Qed.

Lemma blocks_eq flag' (f : Z → bool) (B : gset Z) :
  (∀ j, 0 <= j → bit_set flag' j = f j) → (∀ j, j ∈ B → 0 <= j) → (∀ j, 0 <= j → f j = true ↔ j ∈ B) → blocks flag' = B.
Proof.
  intros Hf H0 HB. apply set_eq. intros j. destruct (decide (0 <= j)) as [Hj|Hj].
  - rewrite elem_of_blocks, Hf, HB by done. done.
  - split; intros Hin; exfalso; apply Hj; [apply blocks_range in Hin; lia|by apply H0].
Qed.

Lemma flag_bit_bytes flag i flag' :
  flag_bit flag i = Ok flag' → Forall is_u8 flag → Forall is_u8 flag'.
Proof.
  unfold flag_bit. destruct (Z.ltb_spec i 0); [done|]. destruct (flag !! _) as [b|] eqn:E; [|done].
  intros [= <-] Hf. apply Forall_insert; [done|]. unfold is_u8.
  apply lor_byte; [exact (Forall_lookup_1 _ _ _ _ Hf E)|].
  rewrite Z.shiftl_1_l. pose proof (Z.mod_pos_bound i 8 eq_refl). split; [apply Z.pow_nonneg; lia|].
  change 256 with (2 ^ 8). apply Z.pow_lt_mono_r; lia.
Qed.

Lemma set_flag_bytes fuel : ∀ flag start n flag',
  set_flag_loop fuel flag start n = Ok flag' → Forall is_u8 flag → Forall is_u8 flag'.
Proof.
  induction fuel as [|fuel IH]; intros flag start n flag'; cbn [set_flag_loop]; [done|].
  destruct (n =? 0); [intros [= <-]; done|]. destruct (flag_bit flag start) as [f1|] eqn:E; [|done].
  cbn [rbind]. intros E2 Hf. eapply IH; [exact E2|]. by eapply flag_bit_bytes.
Qed.

Lemma clean_bytes flag i flag' :
  manager_clean_resend_sub_flag flag i = Ok flag' → Forall is_u8 flag → Forall is_u8 flag'.
Proof.
  unfold manager_clean_resend_sub_flag. destruct (flag !! _) as [b|] eqn:E; [|done].
  intros [= <-] Hf. apply Forall_insert; [done|]. pose proof (Forall_lookup_1 _ _ _ _ Hf E) as Hb. unfold is_u8 in *.
  pose proof (u8_range (Z.lnot (Z.shiftl 1 (i mod 8)))) as Hu. unfold is_u8 in Hu.
  split; [apply Z.land_nonneg; lia|]. set (x := u8 _) in *.
  destruct (Z.eq_dec (Z.land b x) 0) as [->|Hne]; [lia|].
  change 256 with (2 ^ 8). apply Z.log2_lt_pow2; [pose proof (proj2 (Z.land_nonneg b x)); lia|].
  apply Z.le_lt_trans with (Z.min (Z.log2 b) (Z.log2 x)); [apply Z.log2_land; lia|].
  apply Z.le_lt_trans with (Z.log2 b); [lia|]. by apply log2_byte.
Qed.

Lemma set_resend_spec flag off len sub :
  0 < sub → 0 <= off → 0 <= len → off / sub + len / sub <= 8 * zlen flag →
  ∃ flag', manager_set_resend_sub_flag flag off len sub = Ok flag' ∧ length flag' = length flag ∧
    blocks flag' = blocks flag ∪ list_to_set (seqZ (off / sub) (len / sub)).
Proof.
  intros Hs Ho Hl Hb. unfold manager_set_resend_sub_flag. rewrite !Z.quot_div_nonneg by lia.
  pose proof (Z.div_pos off sub Ho Hs) as Ho'. pose proof (Z.div_pos len sub Hl Hs) as Hl'.
  destruct (set_flag_loop_spec (Z.to_nat (len / sub)) (S (8 * length flag)) flag (off / sub)) as (f & E & L & B);
    rewrite ?Z2Nat.id in * by lia; [lia|done|unfold zlen in Hb; lia|].
  exists f. split; [done|]. split; [done|].
  eapply blocks_eq; [exact B| |].
  - intros j. rewrite elem_of_union, elem_of_list_to_set, elem_of_seqZ. intros [Hj|Hj]; [apply blocks_range in Hj|]; lia.
  - intros j Hj. rewrite orb_true_iff, andb_true_iff, Z.leb_le, Z.ltb_lt.
    rewrite elem_of_union, elem_of_list_to_set, elem_of_seqZ, elem_of_blocks by done. done.
Qed.

Lemma get_resend_spec flag num :
  Forall is_u8 flag → 0 <= num <= zlen flag →
  ∃ r, manager_get_resend_sub_flag flag num = Ok r ∧
    ((r = -2 ∧ ∀ i, i ∈ blocks flag → 8 * num <= i) ∨
     (r ∈ blocks flag ∧ 0 <= r < 8 * num ∧ ∀ i, i ∈ blocks flag → r <= i)).
Proof.
  intros Hf Hn. unfold manager_get_resend_sub_flag.
  destruct (get_flag_loop_spec (Z.to_nat num) flag 0) as (r & E & Hr); [unfold zlen in Hn; lia|done|].
  exists r. split; [done|]. rewrite Z2Nat.id in Hr by lia.
  assert (∀ i k, i ∈ blocks flag → (∀ j, 0 <= j < k → bit_set flag j = false) → k <= i) as Hmin.
  { intros i k Hi Hj. pose proof (blocks_range _ _ Hi). rewrite elem_of_blocks in Hi by lia.
    destruct (decide (k <= i)); [done|]. rewrite Hj in Hi by lia. done. }
  destruct Hr as [[-> H]|(i & -> & Hi & Ht & H)].
  - left. split; [done|]. intros i Hi. by eapply Hmin.
  - right. cbn [Z.mul Z.add]. split; [by apply elem_of_blocks; [lia|]|]. split; [lia|]. intros j Hj. by eapply Hmin.
Qed.

Lemma clean_resend_spec flag i :
  i ∈ blocks flag →
  ∃ flag', manager_clean_resend_sub_flag flag i = Ok flag' ∧ length flag' = length flag ∧
    blocks flag' = blocks flag ∖ {[i]}.
Proof.
  intros Hi. pose proof (blocks_range _ _ Hi) as Hr. destruct (clean_spec' flag i Hr) as (f & E & L & B).
  exists f. split; [done|]. split; [done|]. eapply blocks_eq; [exact B| |].
  - intros j Hj. apply elem_of_difference in Hj as [Hj _]. apply blocks_range in Hj. lia.
  - intros j Hj. rewrite andb_true_iff, negb_true_iff, Z.eqb_neq.
    rewrite elem_of_difference, elem_of_singleton, elem_of_blocks by done. done.
Qed.



(** ** Sending one block *)

Section Sending.
Context `{CJson}.
Context (cfg : frame_config) (uc_wiota_flash_read : Z → Z → list Z) (strlen_freed : list Z → Z).

(** The flash gives as many bytes as are asked for, and the allocator leaves a
    text that was just freed as it was. *)
Hypothesis flash_len : ∀ a n, 0 <= n → zlen (uc_wiota_flash_read a n) = n.
Hypothesis freed_kept : ∀ d, strlen_freed d = zlen d.

Definition with_up (f : t_manager_update → t_manager_update) (s : upd_state) : upd_state :=
  {| un := un s; up := f (up s); up_log := up_log s |}.
Definition with_net (n : net_state) (s : upd_state) : upd_state := {| un := n; up := up s; up_log := up_log s |}.

Lemma mod_up_eq f s : mod_up f s = Ok (tt, with_up f s).
Proof. done. Qed.
Lemma get_up_eq s : get_up s = Ok (up s, s).
Proof. done. Qed.
Lemma on_net_Ok {A} (m : FW net_state A) s a n : m (un s) = Ok (a, n) → on_net m s = Ok (a, with_net n s).
Proof. intros E. unfold on_net. rewrite E. done. Qed.
Lemma on_tasks_Ok {A} (m : FW (lheap task_state) A) n a h :
  m (tasks n) = Ok (a, h) → on_tasks m n = Ok (a, {| tasks := h; book := book n |}).
Proof. intros E. unfold on_tasks. rewrite E. done. Qed.

(** Nothing is short of memory. *)
Definition mem_free (s : upd_state) : Prop := oks (tasks (un s)) = [].

Lemma upd_id s : {| un := {| tasks := tasks (un s); book := book (un s) |}; up := up s; up_log := up_log s |} = s.
Proof. destruct s as [[] ? ?]. done. Qed.

Lemma up_malloc_eq s : mem_free s → up_malloc s = Ok (true, s).
Proof.
  intros Hm. unfold up_malloc, on_net, on_tasks. rewrite (malloc_ok_eq _ Hm), upd_id. done.
Qed.

(** The devices a block names. *)
Definition dev_ids (hash : list (list t_manager_address)) (i : t_manager_update_info) (ids : list Z) : option (list Z) :=
  if negb (update_type i =? 0) && (iote_num i >? 0)
  then Some (map (λ a, default a (addr_of (all_addresses hash) a)) (take (Z.to_nat (iote_num i)) ids)) else None.

Lemma query_iotes_eq s hash n ids :
  addr_ok cfg (book (un s)) hash → (n <= length ids)%nat →
  query_iotes cfg n ids s = Ok (map (λ a, default a (addr_of (all_addresses hash) a)) (take n ids), s).
Proof.
  intros Hb. revert ids. induction n as [|n IH]; intros [|a ids] Hn; cbn [query_iotes take map length] in *; try done; try lia.
  erewrite bind_Ok.
  2:{ apply on_net_Ok. unfold on_book. rewrite (query_wiotaid_eq cfg (book (un s)) hash a Hb). reflexivity. }
  replace (with_net _ s) with s by (destruct s as [[] ? ?]; done).
  erewrite bind_Ok by (apply IH; lia). done.
Qed.

Lemma store_zeros (d : list Z) n : zlen d <= n → store 0 d (replicate (Z.to_nat n) 0) = Ok (d ++ replicate (Z.to_nat n - length d) 0).
Proof.
  intros Hd. pose proof (zlen_nonneg d). rewrite store_Ok by (unfold zlen in *; rewrite ?length_replicate; lia).
  unfold blit. rewrite drop_replicate. cbn. do 3 f_equal.
Qed.

(** What the access point knows of an image: the information of the message and
    the devices as they are listed. *)
Record image_ok (s : upd_state) (hash : list (list t_manager_address)) (ids : list Z) : Prop := {
  im_mem : mem_free s;
  im_book : addr_ok cfg (book (un s)) hash;
  im_ids : iote_id (info (up s)) = Some ids;
  im_num : 0 <= iote_num (info (up s)) <= zlen ids;
  im_len : 0 <= file_len (info (up s)) < 2147483648 - UC_OTA_PARTITION_START_ADDRESS
}.

(** The text of a block. *)
Definition block_text (hash : list (list t_manager_address)) (i : t_manager_update_info) (ids : list Z) (off len : Z)
  : option (list Z) :=
  cJSON_Print (ota_fields i (dev_ids hash i ids) off len).

Definition block_bytes (off len : Z) : list Z := uc_wiota_flash_read (UC_OTA_PARTITION_START_ADDRESS + off) len.

(** The size of the block at [off]: the last one is cut to whole words. *)
Definition block_size (off n : Z) : Z := if off + MANAGER_OTA_SEND_BIN_SIZE >? n then RT_ALIGN (n - off) 4 else MANAGER_OTA_SEND_BIN_SIZE.

Lemma block_size_bounds off n :
  off < n → 0 < block_size off n <= MANAGER_OTA_SEND_BIN_SIZE ∧
  (off + block_size off n < n → block_size off n = MANAGER_OTA_SEND_BIN_SIZE).
Proof.
  intros Ho. unfold block_size, MANAGER_OTA_SEND_BIN_SIZE. destruct (Z.gtb_spec (off + 512) n); [|lia].
  pose proof (RT_ALIGN_4_bounds (n - off)). rewrite RT_ALIGN_4 in *. split; [Z.div_mod_to_equations; lia|lia].
Qed.

Lemma block_len_in off n : 0 <= off < n → n < 2147483648 → block_len off n = Some (block_size off n).
Proof.
  intros Ho Hn. unfold block_len, block_size, MANAGER_OTA_SEND_BIN_SIZE. rewrite !u32_id by (unfold is_u32; lia).
  rewrite (proj2 (Z.ltb_lt off n)), andb_true_r by lia. destruct (off + 512 >? n); [done|].
  rewrite Z.geb_leb, (proj2 (Z.leb_gt n off)) by lia. done.
Qed.

Lemma block_len_end off n : 0 <= n <= off → n < 4294967296 → block_len off n = None.
Proof.
  intros Ho Hn. unfold block_len. rewrite (u32_id n) by (unfold is_u32; lia).
  rewrite (proj2 (Z.ltb_ge off n)), andb_false_r by lia. rewrite Z.geb_leb, (proj2 (Z.leb_le n off)) by lia. done.
Qed.

Lemma ota_msg_of_data_eq s hash ids off text :
  let len := block_size off (file_len (info (up s))) in
  image_ok s hash ids → ota_op_address (up s) = UC_OTA_PARTITION_START_ADDRESS + off →
  0 <= off < file_len (info (up s)) →
  block_text hash (info (up s)) ids off len = Some text → zlen text + len <= 1024 →
  manager_ota_msg_of_data cfg uc_wiota_flash_read strlen_freed s =
  Ok ((zlen text + len, Some (text ++ block_bytes off len)),
      with_up (set_ota_op_address (UC_OTA_PARTITION_START_ADDRESS + off + len)) s).
Proof using flash_len freed_kept.
  intros len [Hm Hb Hi Hn Hl] Ha Hoff Ht Hz.
  destruct (block_size_bounds off (file_len (info (up s)))) as [Hr _]; [lia|]. fold len in Hr.
  unfold manager_ota_msg_of_data. rewrite (bind_Ok _ _ _ _ _ (get_up_eq s)). rewrite Ha.
  replace (UC_OTA_PARTITION_START_ADDRESS + off - UC_OTA_PARTITION_START_ADDRESS) with off by lia.
  unfold UC_OTA_PARTITION_START_ADDRESS in Hl.
  rewrite (u32_id off), block_len_in by (unfold is_u32; lia). fold len.
  pose proof (flash_len (UC_OTA_PARTITION_START_ADDRESS + off) len ltac:(lia)) as Hfl. fold (block_bytes off len) in *.
  erewrite bind_Ok by (unfold flift; rewrite store_zeros by (rewrite Hfl; lia); reflexivity).
  rewrite (u32_id (_ + _ + _)) by (unfold is_u32, UC_OTA_PARTITION_START_ADDRESS, MANAGER_OTA_SEND_BIN_SIZE in *; lia).
  erewrite bind_Ok by apply mod_up_eq. set (s1 := with_up _ s).
  erewrite (bind_Ok _ _ s1).
  2:{ assert ((if negb (update_type (info (up s)) =? 0) && (iote_num (info (up s)) >? 0) then
             fbind (deref (iote_id (info (up s)))) (λ ids, fbind (query_iotes cfg (Z.to_nat (iote_num (info (up s)))) ids)
               (λ l, fret (Some l)))
           else fret None) s1 = Ok (dev_ids hash (info (up s)) ids, s1)) as E; [|exact E].
      unfold dev_ids. destruct (_ && _); [|done]. rewrite Hi. cbn [deref]. erewrite bind_Ok by reflexivity.
      erewrite bind_Ok by (apply query_iotes_eq; [exact Hb|unfold zlen in Hn; lia]). done. }
  unfold block_text in Ht. rewrite Ht. cbn [deref]. erewrite bind_Ok by reflexivity.
  erewrite bind_Ok by (apply up_malloc_eq; exact Hm). erewrite bind_Ok by reflexivity.
  rewrite (proj2 (Z.leb_le _ _)) by lia. erewrite bind_Ok by reflexivity. rewrite freed_kept.
  unfold fret. do 4 f_equal. f_equal.
  assert (Z.to_nat len = length (block_bytes off len)) as -> by (unfold zlen in Hfl; lia). apply take_app_length.
Qed.

(** The message of a block as the radio task gets it. *)
Definition block_header : app_ps_header_t := ota_header APP_CMD_GET_SPECIFIC_DATA_SPONSE.
Definition ota_record (pl : list Z) (func : manager_message_exe_result) : t_app_operation_data :=
  {| src_address := SERVER_DEFAULT_ADDRESS; head_id := 0; head_state := MANAGER_SEND_DEFAULT;
     result_function := Some func; head_cmd := APP_CMD_GET_SPECIFIC_DATA_SPONSE; request_number := 0;
     op_len := zlen pl; pload := pl; op_segment := None |}.
Definition sent_ota (pl : list Z) (func : manager_message_exe_result) (s : upd_state) : upd_state :=
  with_net {| tasks := with_ext (handed MANAGER_OPERATION_OTA_RADIO (ota_record pl func) (ext (tasks (un s)))) (tasks (un s));
              book := book (un s) |} s.

Lemma send_ota_eq pl func s : mem_free s → send_ota pl func s = Ok (tt, sent_ota pl func s).
Proof.
  intros Hm. unfold send_ota. apply on_net_Ok, on_tasks_Ok. apply send_to_operater_eq. exact Hm.
Qed.

Lemma ota_coding_eq cmd d n s :
  mem_free s → zlen d = n → n <= APP_MAX_CODING_DATA_LEN →
  manager_ota_msg_coding cmd d n s = Ok ((0, Some (fields (ota_header cmd) ++ d)), s).
Proof.
  intros Hm Hd Hn. pose proof (zlen_nonneg d). unfold APP_MAX_CODING_DATA_LEN in Hn. unfold manager_ota_msg_coding.
  rewrite u32_id by (unfold is_u32; lia).
  erewrite bind_Ok.
  2:{ apply on_net_Ok. unfold on_memory. apply on_tasks_Ok. rewrite Hm, coding_plain by (done || unfold APP_MAX_CODING_DATA_LEN; lia).
      reflexivity. }
  unfold fret. cbn [fst snd]. do 3 f_equal.
  - do 2 f_equal. rewrite <- Hd. unfold zlen. rewrite Nat2Z.id. apply take_ge. lia.
  - unfold mem_free in Hm. destruct s as [[[] ?] ? ?]. cbn in *. subst. done.
Qed.

(** The next block is queued for the radio task and the address moves on. *)
Lemma send_page_block s hash ids off text :
  let len := block_size off (file_len (info (up s))) in
  image_ok s hash ids → ota_op_address (up s) = UC_OTA_PARTITION_START_ADDRESS + off →
  0 <= off < file_len (info (up s)) →
  block_text hash (info (up s)) ids off len = Some text → zlen text + len <= APP_MAX_CODING_DATA_LEN →
  manager_start_send_page cfg uc_wiota_flash_read strlen_freed s =
  Ok (0, sent_ota (fields block_header ++ text ++ block_bytes off len) manager_ota_msg_result_fn
           (with_up (set_ota_op_address (UC_OTA_PARTITION_START_ADDRESS + off + len)) s)).
Proof using flash_len freed_kept.
  intros len Hs Ha Hoff Ht Hz. unfold manager_start_send_page.
  destruct (block_size_bounds off (file_len (info (up s)))) as [Hr _]; [lia|]. fold len in Hr.
  pose proof (flash_len (UC_OTA_PARTITION_START_ADDRESS + off) len ltac:(lia)) as Hfl. fold (block_bytes off len) in *.
  erewrite bind_Ok by (eapply ota_msg_of_data_eq; [done..|unfold APP_MAX_CODING_DATA_LEN in Hz; fold len; lia]).
  fold len. cbv beta match. rewrite (proj2 (Z.gtb_lt _ 0)) by (pose proof (zlen_nonneg text); lia). cbn [code_and_send].
  erewrite bind_Ok by (apply ota_coding_eq; [exact (im_mem _ _ _ Hs)|rewrite zlen_app; lia|done]).
  cbv match. erewrite bind_Ok by (apply send_ota_eq; exact (im_mem _ _ _ Hs)). done.
Qed.

(** The text of a state message. *)
Definition state_text (i : t_manager_update_info) (st : Z) : option (list Z) :=
  cJSON_Print [member "state" (JNum (update_type i)); member "range" (JNum (range i));
    member "new_version" (JStr (new_version i)); member "old_version" (JStr (old_version i));
    member "dev_type" (JStr (dev_type i)); member "ota_state" (JNum (Z.land st 1))].
Definition state_pload (text : list Z) : list Z := fields (ota_header APP_CMD_GET_UPDATE_STATE_REQUEST) ++ text.

Lemma ota_send_state_eq st s text :
  mem_free s → state_text (info (up s)) st = Some text → zlen text <= APP_MAX_CODING_DATA_LEN →
  manager_ota_send_state st s = Ok (0, sent_ota (state_pload text) manager_ota_state_result_fn s).
Proof.
  intros Hm Ht Hz. unfold manager_ota_send_state. rewrite (bind_Ok _ _ s (Some text) s).
  - rewrite (bind_Ok _ _ _ _ _ (ota_coding_eq _ text (zlen text) s Hm eq_refl Hz)). cbv match.
    rewrite (bind_Ok _ _ _ _ _ (send_ota_eq _ _ s Hm)). done.
  - unfold manager_ota_state_msg. rewrite (bind_Ok _ _ _ _ _ (get_up_eq s)). unfold fret. do 2 f_equal. done.
Qed.

(** Coding succeeds or refuses the length. *)
Lemma on_memory_eq {A} (m : FW (list bool) A) s a :
  mem_free s → m [] = Ok (a, []) → on_net (on_memory m) s = Ok (a, s).
Proof.
  intros Hm E. unfold on_net, on_memory, on_tasks. rewrite Hm, E. unfold mem_free in Hm.
  destruct s as [[[] ?] ? ?]. cbn in *. subst. done.
Qed.

Lemma coding_total h d :
  compress_flag (property h) = false →
  ∃ r, app_data_coding h (Some d) (u32 (zlen d)) [] = Ok ((r, h, if r =? 0 then Some (fields h ++ take (Z.to_nat (u32 (zlen d))) d) else None), []).
Proof.
  intros Hc. pose proof (u32_range (zlen d)) as Hu. pose proof (zlen_nonneg d) as Hz.
  assert (u32 (zlen d) <= zlen d) by (unfold u32; apply Z.mod_le; lia).
  destruct (Z_le_gt_dec (u32 (zlen d)) APP_MAX_CODING_DATA_LEN).
  - exists 0. apply coding_plain; [done| |lia]. unfold is_u32 in Hu. lia.
  - exists (-1). unfold app_data_coding. rewrite (proj2 (Z.gtb_lt _ _)) by lia. done.
Qed.

(** A state message that cannot be printed or is too long is not sent. *)
Lemma ota_send_state_total st s :
  mem_free s → ∃ s', manager_ota_send_state st s = Ok (0, s') ∧
    (s' = s ∨ ∃ pl, s' = sent_ota pl manager_ota_state_result_fn s).
Proof.
  intros Hm. unfold manager_ota_send_state. rewrite (bind_Ok _ _ s (state_text (info (up s)) st) s).
  2:{ unfold manager_ota_state_msg. rewrite (bind_Ok _ _ _ _ _ (get_up_eq s)). done. }
  destruct (state_text (info (up s)) st) as [text|]; [|eauto].
  destruct (coding_total (ota_header APP_CMD_GET_UPDATE_STATE_REQUEST) text eq_refl) as [rc Er].
  unfold manager_ota_msg_coding. rewrite fbind_assoc, (bind_Ok _ _ _ _ _ (on_memory_eq _ s _ Hm Er)).
  cbn [fst snd]. erewrite bind_Ok by reflexivity. destruct (decide (rc = 0)) as [Hrc|Hrc].
  - rewrite Hrc. cbn [Z.eqb]. rewrite (bind_Ok _ _ _ _ _ (send_ota_eq _ _ s Hm)). eauto.
  - destruct rc; [done|eauto..].
Qed.

(** Behind the last block the state goes to the terminals. *)
Lemma send_page_end s text :
  mem_free s → UC_OTA_PARTITION_START_ADDRESS + file_len (info (up s)) <= ota_op_address (up s) < 4294967296 →
  0 <= file_len (info (up s)) → state_text (info (up s)) MANAGER_OTA_STOP = Some text →
  zlen text <= APP_MAX_CODING_DATA_LEN →
  manager_start_send_page cfg uc_wiota_flash_read strlen_freed s =
  Ok (2, sent_ota (state_pload text) manager_ota_state_result_fn
           (with_up (λ u, set_ota_op_address UC_OTA_PARTITION_START_ADDRESS (set_up_state MANAGER_UPDATE_STOP u)) s)).
Proof.
  intros Hm Ha Hf Ht Hz. unfold manager_start_send_page. rewrite (bind_Ok _ _ s (-1, None) s).
  - cbv match. rewrite (bind_Ok _ _ _ _ _ (mod_up_eq _ s)).
    erewrite bind_Ok by (by apply ota_send_state_eq). done.
  - unfold manager_ota_msg_of_data. rewrite (bind_Ok _ _ _ _ _ (get_up_eq s)).
    unfold UC_OTA_PARTITION_START_ADDRESS in Ha. rewrite u32_id by (unfold is_u32, UC_OTA_PARTITION_START_ADDRESS; lia).
    rewrite block_len_end by (unfold UC_OTA_PARTITION_START_ADDRESS; lia). done.
Qed.

(** *** Blocks again *)

(** The flags are there, for every block of the image. *)
Record flags_ok (u : t_manager_update) (f : list Z) : Prop := {
  fo_flag : rem_sub_flag u = Some f;
  fo_bytes : Forall is_u8 f;
  fo_num : 0 <= sub_flag_num u <= zlen f
}.

Definition set_rem_flags (f : list Z) (u : t_manager_update) : t_manager_update := set_flags (sub_flag_num u) (Some f) u.

Lemma read_flags_eq s f r :
  flags_ok (up s) f → manager_get_resend_sub_flag f (sub_flag_num (up s)) = Ok r → read_flags s = Ok (r, s).
Proof.
  intros [Hf _ _] E. unfold read_flags. rewrite (bind_Ok _ _ _ _ _ (get_up_eq s)), Hf. unfold flift. rewrite E. done.
Qed.

Lemma change_flags_eq s f f' g :
  flags_ok (up s) f → g f = Ok f' → change_flags g s = Ok (tt, with_up (set_rem_flags f') s).
Proof.
  intros [Hf _ _] E. unfold change_flags. rewrite (bind_Ok _ _ _ _ _ (get_up_eq s)), Hf. cbn [deref].
  erewrite bind_Ok by reflexivity. erewrite bind_Ok by (unfold flift; rewrite E; reflexivity). done.
Qed.

Lemma set_rem_flags_ok u f f' :
  flags_ok u f → Forall is_u8 f' → length f' = length f → flags_ok (set_rem_flags f' u) f'.
Proof. intros [Hf Hb Hn] Hb' Hl. split; [done|done|]. unfold zlen in *. rewrite Hl. exact Hn. Qed.

(** The state after the block [b] was queued again. *)
Definition block_resent (b : Z) (f : list Z) (text : list Z) (s : upd_state) : upd_state :=
  let off := b * MANAGER_OTA_SEND_BIN_SIZE in
  let len := block_size off (file_len (info (up s))) in
  sent_ota (fields block_header ++ text ++ block_bytes off len) manager_ota_resend_msg_result_fn
    (with_up (λ u, set_ota_op_address (UC_OTA_PARTITION_START_ADDRESS + off + len) (set_rem_flags f u)) s).

Lemma resend_data_block s hash ids f b text :
  let off := b * MANAGER_OTA_SEND_BIN_SIZE in
  let len := block_size off (file_len (info (up s))) in
  image_ok s hash ids → flags_ok (up s) f → b ∈ blocks f → b < 8 * sub_flag_num (up s) → (∀ i, i ∈ blocks f → b <= i) →
  off < file_len (info (up s)) →
  block_text hash (info (up s)) ids off len = Some text → zlen text + len <= APP_MAX_CODING_DATA_LEN →
  ∃ f', manager_resend_data cfg uc_wiota_flash_read strlen_freed s = Ok (tt, block_resent b f' text s) ∧
    Forall is_u8 f' ∧ length f' = length f ∧ blocks f' = blocks f ∖ {[b]}.
Proof using flash_len freed_kept.
  intros off len Hs Hf Hb Hbn Hmin Hoff Ht Hz. pose proof (blocks_range _ _ Hb) as Hb0.
  destruct (get_resend_spec f (sub_flag_num (up s)) (fo_bytes _ _ Hf) (fo_num _ _ Hf)) as (r & Er & Hr).
  assert (r = b) as ->.
  { destruct Hr as [[-> H']|(Hi & _ & H')]; [specialize (H' b Hb); lia|]. specialize (H' b Hb). specialize (Hmin r Hi). lia. }
  destruct (clean_resend_spec f b Hb) as (f' & Ef & Lf & Bf). exists f'.
  split; [|split; [by eapply clean_bytes, Hf|done]].
  unfold manager_resend_data. rewrite (bind_Ok _ _ _ _ _ (read_flags_eq s f b Hf Er)).
  rewrite (proj2 (Z.ltb_ge b 0)) by lia. rewrite (bind_Ok _ _ _ _ _ (mod_up_eq _ s)). set (s1 := with_up _ s).
  rewrite (bind_Ok _ _ s1 tt (with_up (set_rem_flags f') s1)).
  2:{ apply change_flags_eq with f; [|done]. destruct Hf. split; done. }
  destruct (block_size_bounds off (file_len (info (up s)))) as [Hr' _]; [lia|]. fold len in Hr'.
  pose proof (im_len _ _ _ Hs) as Hl. unfold UC_OTA_PARTITION_START_ADDRESS in Hl.
  erewrite bind_Ok.
  2:{ eapply (ota_msg_of_data_eq _ hash ids off text); [destruct Hs; split; done| |split; [unfold off, MANAGER_OTA_SEND_BIN_SIZE; lia|exact Hoff]|exact Ht|].
      - cbn [up with_up set_rem_flags set_flags ota_op_address set_ota_op_address s1]. unfold off in *. apply u32_id.
        unfold is_u32, UC_OTA_PARTITION_START_ADDRESS, MANAGER_OTA_SEND_BIN_SIZE in *. lia.
      - unfold APP_MAX_CODING_DATA_LEN in Hz. cbn [up with_up set_rem_flags set_flags info set_ota_op_address s1]. fold len. lia. }
  cbv beta match. cbn [up with_up set_rem_flags set_flags info set_ota_op_address s1]. fold len.
  pose proof (flash_len (UC_OTA_PARTITION_START_ADDRESS + off) len ltac:(lia)) as Hfl. fold (block_bytes off len) in *.
  rewrite (proj2 (Z.gtb_lt _ 0)) by (pose proof (zlen_nonneg text); lia).
  erewrite bind_Ok by (apply ota_coding_eq; [exact (im_mem _ _ _ Hs)|rewrite zlen_app; lia|done]).
  cbv match. rewrite send_ota_eq by exact (im_mem _ _ _ Hs). done.
Qed.

Lemma resend_data_none s f :
  flags_ok (up s) f → (∀ i, i ∈ blocks f → 8 * sub_flag_num (up s) <= i) →
  manager_resend_data cfg uc_wiota_flash_read strlen_freed s = Ok (tt, s).
Proof.
  intros Hf Hn. destruct (get_resend_spec f (sub_flag_num (up s)) (fo_bytes _ _ Hf) (fo_num _ _ Hf)) as (r & Er & Hr).
  assert (r = -2) as -> by (destruct Hr as [[? _]|(Hi & ? & _)]; [done|]; specialize (Hn r Hi); lia).
  unfold manager_resend_data. rewrite (bind_Ok _ _ _ _ _ (read_flags_eq s f _ Hf Er)). done.
Qed.

(** The blocks a request asks for. *)
Definition requested (ds : list t_data_offset) : gset Z :=
  list_to_set (concat (map (λ d, seqZ (do_offset d / MANAGER_OTA_SEND_BIN_SIZE) (do_len d / MANAGER_OTA_SEND_BIN_SIZE)) ds)).

Definition offset_ok (f : list Z) (d : t_data_offset) : Prop :=
  0 <= do_offset d ∧ 0 <= do_len d ∧
  do_offset d / MANAGER_OTA_SEND_BIN_SIZE + do_len d / MANAGER_OTA_SEND_BIN_SIZE <= 8 * zlen f.

Lemma with_up_with_up f g s : with_up f (with_up g s) = with_up (λ u, f (g u)) s.
Proof. done. Qed.

Lemma flag_offsets_eq ds : ∀ s f,
  flags_ok (up s) f → Forall (offset_ok f) ds →
  ∃ f', flag_offsets ds s = Ok (tt, with_up (set_rem_flags f') s) ∧ Forall is_u8 f' ∧ length f' = length f ∧
    blocks f' = blocks f ∪ requested ds.
Proof.
  induction ds as [|d ds IH]; intros s f Hf Hd; cbn [flag_offsets].
  - exists f. split; [|split; [apply Hf|split; [done|symmetry; apply union_empty_r_L]]].
    unfold fret. do 2 f_equal. destruct s as [n [] l]. unfold with_up, set_rem_flags, set_flags. cbn.
    destruct Hf as [Hf _ _]. cbn in Hf. rewrite <- Hf. done.
  - apply Forall_cons in Hd as [(Ho & Hl & Hb) Hd].
    destruct (set_resend_spec f (do_offset d) (do_len d) MANAGER_OTA_SEND_BIN_SIZE eq_refl Ho Hl Hb) as (f1 & E1 & L1 & B1).
    pose proof (set_flag_bytes _ _ _ _ _ E1 (fo_bytes _ _ Hf)) as Hf1.
    assert (flags_ok (up (with_up (set_rem_flags f1) s)) f1) as Hok by (by eapply set_rem_flags_ok).
    destruct (IH (with_up (set_rem_flags f1) s) f1 Hok) as (f2 & E2 & Hf2 & L2 & B2).
    { eapply Forall_impl; [exact Hd|]. intros x. unfold offset_ok, zlen. rewrite L1. done. }
    exists f2. split; [|split; [done|split; [congruence|]]].
    + rewrite (bind_Ok _ _ s tt (with_up (set_rem_flags f1) s)).
      * rewrite E2, with_up_with_up. done.
      * destruct (Z.eqb_spec (Z.quot (do_len d) MANAGER_OTA_SEND_BIN_SIZE) 0) as [Hq|_].
        -- rewrite Z.quot_div_nonneg in Hq by (lia || done).
           assert (f1 = f) as ->.
           { unfold manager_set_resend_sub_flag in E1. rewrite !Z.quot_div_nonneg, Hq in E1 by (lia || done).
             cbn [set_flag_loop] in E1. injection E1. done. }
           unfold fret. do 2 f_equal. destruct s as [n [] l]. unfold with_up, set_rem_flags, set_flags. cbn.
           destruct Hf as [Hf _ _]. cbn in Hf. rewrite <- Hf. done.
        -- by eapply change_flags_eq.
    + rewrite B2, B1. unfold requested. cbn [map concat]. rewrite list_to_set_app_L. symmetry. apply assoc_L, _.
Qed.

Definition versions_match (q : t_manager_iote_resend_info) (i : t_manager_update_info) : Prop :=
  new_version i = Some (rs_new_version q) ∧ old_version i = Some (rs_old_version q) ∧ update_type i = rs_update_type q.

Lemma check_quest_eq q s i : versions_match q i → manager_check_iote_resend_quest q i s = Ok (0, s).
Proof.
  intros (H1 & H2 & H3). unfold manager_check_iote_resend_quest. rewrite H1, H2, H3. cbn [deref].
  erewrite bind_Ok by reflexivity. rewrite bool_decide_true by done. cbn [negb].
  erewrite bind_Ok by reflexivity. rewrite bool_decide_true by done. cbn [negb]. rewrite Z.eqb_refl. done.
Qed.

(** A terminal that asks for blocks of the image again gets them flagged,
    together with those that are flagged already; when none was flagged the
    least of them is queued at once, and its flag is cleared. *)
Theorem resend_request_flags msg q s hash ids f b text :
  let off := b * MANAGER_OTA_SEND_BIN_SIZE in
  let len := block_size off (file_len (info (up s))) in
  image_ok s hash ids → flags_ok (up s) f → blocks f = ∅ →
  manager_parsing_iote_resend_ota_msg msg s = Ok (Some q, s) → versions_match q (info (up s)) →
  Forall (offset_ok f) (data_info q) →
  b ∈ requested (data_info q) → (∀ i, i ∈ requested (data_info q) → b <= i) →
  b < 8 * sub_flag_num (up s) → off < file_len (info (up s)) →
  block_text hash (info (up s)) ids off len = Some text → zlen text + len <= APP_MAX_CODING_DATA_LEN →
  ∃ f', manager_ota_resend_data cfg uc_wiota_flash_read strlen_freed msg s = Ok (0, block_resent b f' text s) ∧
    Forall is_u8 f' ∧ length f' = length f ∧ blocks f' = requested (data_info q) ∖ {[b]}.
Proof using flash_len freed_kept.
  intros off len Hs Hf He Hp Hv Hd Hb Hmin Hn Hoff Ht Hz.
  destruct (get_resend_spec f (sub_flag_num (up s)) (fo_bytes _ _ Hf) (fo_num _ _ Hf)) as (r & Er & Hr).
  assert (r = -2) as -> by (destruct Hr as [[? _]|(Hi & _)]; [done|]; rewrite He in Hi; by apply elem_of_empty in Hi).
  destruct (flag_offsets_eq (data_info q) s f Hf Hd) as (f1 & E1 & Hf1 & L1 & B1). rewrite He, union_empty_l_L in B1.
  set (s1 := with_up (set_rem_flags f1) s) in *.
  destruct (resend_data_block s1 hash ids f1 b text) as (f2 & E2 & Hf2 & L2 & B2).
  - destruct Hs. split; done.
  - by eapply set_rem_flags_ok.
  - rewrite B1. done.
  - exact Hn.
  - intros i Hi. apply Hmin. rewrite <- B1. done.
  - exact Hoff.
  - exact Ht.
  - exact Hz.
  - exists f2. split; [|rewrite <- B1; split_and!; [done|congruence|done]].
    unfold manager_ota_resend_data. rewrite (bind_Ok _ _ _ _ _ Hp). erewrite bind_Ok by apply get_up_eq.
    erewrite bind_Ok by (by apply check_quest_eq). cbn [Z.eqb negb].
    rewrite (bind_Ok _ _ _ _ _ (read_flags_eq s f _ Hf Er)). rewrite (bind_Ok _ _ _ _ _ E1).
    change (negb (-2 =? 0)) with true. cbv match. rewrite (bind_Ok _ _ _ _ _ E2). done.
Qed.

(** A request after a download that failed: there are no flags to set. *)
Theorem resend_without_flags_faults msg q s d ds :
  rem_sub_flag (up s) = None → sub_flag_num (up s) = 0 → data_info q = d :: ds →
  MANAGER_OTA_SEND_BIN_SIZE <= do_len d →
  manager_parsing_iote_resend_ota_msg msg s = Ok (Some q, s) → versions_match q (info (up s)) →
  manager_ota_resend_data cfg uc_wiota_flash_read strlen_freed msg s = Fault NullDeref.
Proof.
  intros Hf Hn Hd Hl Hp Hv. unfold manager_ota_resend_data. rewrite (bind_Ok _ _ _ _ _ Hp).
  erewrite bind_Ok by apply get_up_eq. erewrite bind_Ok by (by apply check_quest_eq). cbn [Z.eqb negb].
  unfold read_flags. rewrite fbind_assoc. erewrite bind_Ok by apply get_up_eq. rewrite Hf, Hn. cbn [Z.gtb Z.compare].
  erewrite bind_Ok by reflexivity. rewrite Hd. cbn [flag_offsets].
  unfold MANAGER_OTA_SEND_BIN_SIZE in *. rewrite Z.quot_div_nonneg by lia.
  rewrite (proj2 (Z.eqb_neq (do_len d / 512) 0)) by (pose proof (Z.div_le_lower_bound (do_len d) 512 1); lia).
  unfold change_flags, fbind. rewrite get_up_eq, Hf. done.
Qed.

(** The update message of the server lists its destinations as words, but
    four times as many bytes are copied: every message that names one reads
    behind them. *)
Theorem update_response_overreads page s :
  mem_free s → dest_address page ≠ [] → dest_len page = 4 * zlen (dest_address page) →
  manager_update_response page s = Fault OutOfBounds.
Proof.
  intros Hm Hd Hl. unfold manager_update_response. rewrite (bind_Ok _ _ _ _ _ (mod_up_eq _ s)).
  erewrite bind_Ok by (apply up_malloc_eq; exact Hm). cbv match. unfold fbind, flift, slice. rewrite Hl.
  destruct (dest_address page) as [|a l]; [done|]. rewrite (proj2 (Z.leb_gt (0 + _) _)).
  - rewrite andb_false_r. done.
  - unfold zlen. cbn [length]. lia.
Qed.

(** *** The start of a transfer *)

Definition no_flags (n : Z) : list Z := replicate (Z.to_nat n) 0.

Lemma blocks_no_flags n : blocks (no_flags n) = ∅.
Proof.
  eapply (blocks_eq _ (λ _, false)).
  - intros j Hj. unfold bit_set. destruct (no_flags n !! _) as [b|] eqn:E; [|done].
    apply lookup_replicate in E as [-> _]. apply Z.bits_0.
  - intros j Hj. by apply elem_of_empty in Hj.
  - intros j Hj. split; [done|]. intros Hin. by apply elem_of_empty in Hin.
Qed.

(** The number of flag bytes for an image of [n] bytes. *)
Definition flag_bytes (n : Z) : Z :=
  let bits := sub_flag_bits n MANAGER_OTA_SEND_BIN_SIZE in bits / 8 + (if bits mod 8 >? 0 then 1 else 0).
Definition flag_memory (n : Z) : Z := sub_flag_bits n MANAGER_OTA_SEND_BIN_SIZE / 8 + 1.

Lemma sub_flag_bits_bounds n :
  0 <= n → (n + 511) / 512 <= sub_flag_bits n MANAGER_OTA_SEND_BIN_SIZE <= n / 512 + 511.
Proof.
  intros Hn. unfold sub_flag_bits, MANAGER_OTA_SEND_BIN_SIZE. rewrite Z.quot_div_nonneg, Z.rem_mod_nonneg by lia.
  destruct (Z.gtb_spec (n mod 512) 0); Z.div_mod_to_equations; lia.
Qed.

Lemma init_flags_eq n s :
  mem_free s → 0 <= n →
  manager_init_resend_sub_flag n MANAGER_OTA_SEND_BIN_SIZE s =
  Ok (0, with_up (set_flags (flag_bytes n) (Some (no_flags (flag_memory n)))) s).
Proof.
  intros Hm Hn. pose proof (sub_flag_bits_bounds n Hn) as Hb. unfold manager_init_resend_sub_flag, flag_bytes, flag_memory.
  set (bits := sub_flag_bits n MANAGER_OTA_SEND_BIN_SIZE) in *.
  assert (0 <= bits) by (Z.div_mod_to_equations; lia).
  rewrite (bind_Ok _ _ _ _ _ (up_malloc_eq s Hm)), Z.quot_div_nonneg, Z.rem_mod_nonneg by lia. done.
Qed.

Lemma new_flags_ok n u :
  0 <= n → flags_ok (set_flags (flag_bytes n) (Some (no_flags (flag_memory n))) u) (no_flags (flag_memory n)) ∧
  ∀ b, 0 <= b → b * MANAGER_OTA_SEND_BIN_SIZE < n → b < 8 * flag_bytes n.
Proof.
  intros Hn. pose proof (sub_flag_bits_bounds n Hn) as Hb. unfold flag_bytes, flag_memory.
  set (bits := sub_flag_bits n MANAGER_OTA_SEND_BIN_SIZE) in *. split.
  - split; [done| |].
    + apply Forall_replicate. unfold is_u8. lia.
    + unfold zlen, no_flags. rewrite length_replicate. cbn [sub_flag_num set_flags].
      destruct (Z.gtb_spec (bits mod 8) 0); Z.div_mod_to_equations; lia.
  - intros b H1 H2. unfold MANAGER_OTA_SEND_BIN_SIZE in H2.
    destruct (Z.gtb_spec (bits mod 8) 0); Z.div_mod_to_equations; lia.
Qed.

(** What the start of a transfer makes of the information. *)
Definition transfer_started (n off : Z) (u : t_manager_update) : t_manager_update :=
  {| up_state := MANAGER_START_TRANSFER_DATA; ota_op_address := UC_OTA_PARTITION_START_ADDRESS + off;
     info := set_file_len n (info u); sub_flag_num := flag_bytes n; rem_sub_flag := Some (no_flags (flag_memory n)) |}.

Lemma start_update_eq s hash ids n text :
  let s' := with_up (transfer_started n 0) s in
  let len := block_size 0 n in
  image_ok s' hash ids → 0 < n → active_state (info (up s)) ≠ 0 → ids ≠ [] → AP_DEFAULT_ADDRESS ∉ ids →
  block_text hash (info (up s')) ids 0 len = Some text → zlen text + len <= APP_MAX_CODING_DATA_LEN →
  manager_start_update cfg uc_wiota_flash_read strlen_freed HTTP_DOWNLOAD_OK n s =
  Ok (0, sent_ota (fields block_header ++ text ++ block_bytes 0 len) manager_ota_msg_result_fn
           (with_up (transfer_started n len) s)).
Proof using flash_len freed_kept.
  intros s' len Hs Hn Ha Hne Hap Ht Hz.
  unfold manager_start_update. change (HTTP_DOWNLOAD_OK =? HTTP_DOWNLOAD_OK) with true. cbv match.
  rewrite (bind_Ok _ _ _ _ _ (get_up_eq s)). pose proof (im_ids _ _ _ Hs) as Hi. cbn in Hi. unfold first_iote. rewrite Hi.
  cbn [deref]. destruct ids as [|a ids]; [done|].
  erewrite bind_Ok by (erewrite bind_Ok by reflexivity; reflexivity). rewrite (proj2 (Z.eqb_neq _ _)).
  2:{ intros <-. apply Hap. left. }
  erewrite bind_Ok by reflexivity. cbv match. rewrite (bind_Ok _ _ _ _ _ (mod_up_eq _ s)).
  erewrite bind_Ok by (apply init_flags_eq; [exact (im_mem _ _ _ Hs)|lia]).
  unfold manager_start_iote_update. rewrite fbind_assoc. erewrite bind_Ok by apply mod_up_eq.
  rewrite fbind_assoc. erewrite bind_Ok by apply get_up_eq.
  cbn [with_up up info set_up_state set_ota_op_address set_flags set_info set_file_len active_state].
  rewrite (proj2 (Z.eqb_neq _ 0)) by done. cbn [negb].
  erewrite bind_Ok.
  2:{ refine (send_page_block s' hash (a :: ids) 0 text Hs _ _ Ht Hz); [reflexivity|cbn; lia]. }
  done.
Qed.

(** When the image was loaded, a place for a flag of every block is made,
    none is flagged, and the first block goes to the radio task. *)
Theorem start_update_sends_first s hash ids n text :
  let s' := with_up (transfer_started n 0) s in
  let len := block_size 0 n in
  image_ok s' hash ids → 0 < n → active_state (info (up s)) ≠ 0 → ids ≠ [] → AP_DEFAULT_ADDRESS ∉ ids →
  block_text hash (info (up s')) ids 0 len = Some text → zlen text + len <= APP_MAX_CODING_DATA_LEN →
  manager_start_update cfg uc_wiota_flash_read strlen_freed HTTP_DOWNLOAD_OK n s =
  Ok (0, sent_ota (fields block_header ++ text ++ block_bytes 0 len) manager_ota_msg_result_fn
           (with_up (transfer_started n len) s)) ∧
  flags_ok (transfer_started n len (up s)) (no_flags (flag_memory n)) ∧ blocks (no_flags (flag_memory n)) = ∅ ∧
  ∀ b, 0 <= b → b * MANAGER_OTA_SEND_BIN_SIZE < n → b < 8 * flag_bytes n.
Proof using flash_len freed_kept.
  intros s' len Hs Hn Ha Hne Hap Ht Hz. destruct (new_flags_ok n (up s)) as [[H1 H2 H3] Hcov]; [lia|].
  split; [by eapply start_update_eq|split; [split; done|split; [apply blocks_no_flags|done]]].
Qed.

(** An image of [n] bytes has up to 511 flags too many, because the length
    of the rest is added where one is meant; for no image there are fewer flags
    than blocks. *)
Lemma flags_too_many n : 0 <= n → n mod 512 ≠ 0 →
  sub_flag_bits n MANAGER_OTA_SEND_BIN_SIZE = (n + 511) / 512 + n mod 512 - 1.
Proof.
  intros Hn Hr. unfold sub_flag_bits, MANAGER_OTA_SEND_BIN_SIZE. rewrite Z.quot_div_nonneg, Z.rem_mod_nonneg by lia.
  destruct (Z.gtb_spec (n mod 512) 0); Z.div_mod_to_equations; lia.
Qed.
End Sending.

(** ** Inputs for the witnesses *)

Definition jmember (key : string) (v : option jvalue) : option jvalue :=
  match v with Some (JObj fs) => snd <$> List.find (λ f, String.eqb f.1 key) fs | _ => None end.

(** A library that finds one given value in every text and prints "{}". *)
Definition toy_json (v : jvalue) : CJson := {|
  cJSON := jvalue;
  cJSON_Parse := λ _, Some v;
  cJSON_GetObjectItem := λ o key, jmember key o;
  cJSON_IsNumber := λ v, match v with JNum _ => true | _ => false end;
  cJSON_IsString := λ v, match v with JStr (Some _) => true | _ => false end;
  cJSON_IsObject := λ v, match v with JObj _ => true | _ => false end;
  valueint := λ v, match v with JNum z => z | _ => 0 end;
  valuestring := λ v, match v with JStr (Some l) => l | _ => [] end;
  cJSON_GetArraySize := λ v, match v with JObj fs => zlen fs | _ => 0 end;
  cJSON_GetArrayItem := λ v i, match v with JObj fs => snd <$> fs !! Z.to_nat i | _ => None end;
  cJSON_Print := λ _, Some [123; 125]
|}.

Definition demo_flash (a n : Z) : list Z := replicate (Z.to_nat n) (a mod 251).
Lemma demo_flash_len a n : 0 <= n → zlen (demo_flash a n) = n.
Proof. intros Hn. unfold demo_flash, zlen. rewrite length_replicate. lia. Qed.

(** An image of 1300 bytes for all terminals of the type 7. *)
Definition demo_image (n : Z) : t_manager_update_info :=
  {| active_state := 1; iote_num := 1; iote_id := Some [5]; new_version := Some [50]; old_version := Some [49];
     dev_type := Some [55]; update_type := 0; range := 0; file_name := None; file_len := n; md5 := None;
     network := no_network |}.
Definition demo_update (st : Z) (n : Z) (num : Z) (f : option (list Z)) : upd_state :=
  {| un := demo_net; up := {| up_state := st; ota_op_address := UC_OTA_PARTITION_START_ADDRESS; info := demo_image n;
                              sub_flag_num := num; rem_sub_flag := f |}; up_log := [] |}.

Lemma demo_image_ok st n num f : 0 <= n < 2147483648 - UC_OTA_PARTITION_START_ADDRESS →
  image_ok demo_cfg (demo_update st n num f) demo_hash [5].
Proof.
  intros Hn. split; [reflexivity|exact (no_book _ _ _ _ demo_net_ok)|reflexivity|vm_compute; split; congruence|exact Hn].
Qed.

(** The request for 600 bytes from the second block on. *)
Definition demo_request : jvalue :=
  JObj [member "dev_type" (JStr (Some [55])); member "old_version" (JStr (Some [49]));
        member "new_version" (JStr (Some [50])); member "update_type" (JNum 0);
        member "data_info" (JObj [member "0" (JObj [member "offset" (JNum 512); member "len" (JNum 600)])])].
Definition demo_offset : t_data_offset := {| do_offset := 512; do_len := 600 |}.
Definition demo_quest : t_manager_iote_resend_info :=
  {| rs_dev_type := [55]; rs_old_version := [49]; rs_new_version := [50]; rs_update_type := 0; data_info := [demo_offset] |}.

Lemma resend_request_flags_witness :
  let s := demo_update MANAGER_UPDATE_STOP 1300 1 (Some [0; 0]) in
  ∃ f', @manager_ota_resend_data (toy_json demo_request) demo_cfg demo_flash zlen [] s =
          Ok (0, @block_resent demo_flash 1 f' [123; 125] s) ∧ blocks f' = ∅.
Proof.
  pose (s := demo_update MANAGER_UPDATE_STOP 1300 1 (Some [0; 0])).
  destruct (@resend_request_flags (toy_json demo_request) demo_cfg demo_flash zlen demo_flash_len (λ _, eq_refl)
    [] demo_quest s demo_hash [5] [0; 0] 1 [123; 125]) as (f' & E & _ & _ & B).
  - apply demo_image_ok. vm_compute. split; congruence.
  - split; [reflexivity|repeat constructor; unfold is_u8; lia|vm_compute; split; congruence].
  - apply (bool_decide_unpack _). vm_compute. exact I.
  - vm_compute. reflexivity.
  - repeat split.
  - repeat constructor; vm_compute; congruence.
  - apply (bool_decide_unpack _). vm_compute. exact I.
  - intros i. unfold requested. rewrite elem_of_list_to_set. change (concat _) with [1].
    intros Hi. apply list_elem_of_singleton in Hi. subst i. vm_compute. congruence.
  - vm_compute. reflexivity.
  - vm_compute. reflexivity.
  - reflexivity.
  - vm_compute. congruence.
  - exists f'. split; [exact E|]. rewrite B. apply (bool_decide_unpack _). vm_compute. exact I.
Defined.

Lemma resend_without_flags_faults_witness :
  @manager_ota_resend_data (toy_json demo_request) demo_cfg demo_flash zlen []
    (demo_update MANAGER_UPDATE_STOP 1300 0 None) = Fault NullDeref.
Proof.
  apply (@resend_without_flags_faults (toy_json demo_request) demo_cfg demo_flash zlen [] demo_quest
    (demo_update MANAGER_UPDATE_STOP 1300 0 None) demo_offset []).
  - reflexivity.
  - reflexivity.
  - reflexivity.
  - vm_compute. congruence.
  - vm_compute. reflexivity.
  - repeat split.
Defined.

Lemma update_response_overreads_witness :
  @manager_update_response (toy_json (JObj [])) (demo_page 5 2) (demo_update 0 0 0 None) = Fault OutOfBounds.
Proof. exact (@update_response_overreads (toy_json (JObj [])) (demo_page 5 2) (demo_update 0 0 0 None) eq_refl ltac:(done) eq_refl). Defined.

Lemma start_update_sends_first_witness :
  ∃ s', @manager_start_update (toy_json (JObj [])) demo_cfg demo_flash zlen HTTP_DOWNLOAD_OK 1300 (demo_update 3 0 0 None) =
    Ok (0, s') ∧ op_q (ext (tasks (un s'))) = [MANAGER_OPERATION_OTA_RADIO 1] ∧ sub_flag_num (up s') = 35.
Proof.
  destruct (@start_update_sends_first (toy_json (JObj [])) demo_cfg demo_flash zlen demo_flash_len (λ _, eq_refl)
    (demo_update 3 0 0 None) demo_hash [5] 1300 [123; 125]) as (E & _).
  - destruct (demo_image_ok 3 1300 0 None) as [H1 H2 H3 H4 H5]; [vm_compute; split; congruence|]. split; done.
  - lia.
  - done.
  - done.
  - intros H. apply list_elem_of_singleton in H. vm_compute in H. discriminate.
  - reflexivity.
  - vm_compute. congruence.
  - eexists. split; [exact E|]. split; reflexivity.
Defined.
