(* ===== verification/Logic.v ===== *)
(** * The logic task

    app/wiota_manager/manager_logic.c: the loop that takes results, terminal
    messages, messages of the server and downloads one after the other;
    manager_iote_data/manager_iote_message.c: what a message of a terminal
    starts; manager_network_data/manager_net_messager.c: the dispatch of the
    messages of the server.  Here the components meet: the queues and records of
    [Operation], the coding of [Coding], the segments of [DataPacket], the
    addresses of [UserId], the messages of [NetMsg] and the image transfer of
    [Update]. *)

From stdpp Require Import strings.
From S2P Require Import Prelude ManagerList Coding DataPacket UserId Operation NetMsg Update.
Local Open Scope fw_scope.

(** manager_logic_cmd.h. *)
Definition APP_CMD_IOTE_PROPERTY_REPORT : Z := 0.
Definition APP_CMD_AP_PROPERTY_REPORT : Z := 1.
Definition APP_CMD_IOTE_STATE_REPORT : Z := 11.
Definition APP_CMD_IOTE_PAIR_REQUEST : Z := 30.
Definition APP_CMD_NET_PAIR_RESPONSE : Z := 31.
Definition APP_CMD_NET_PAIR_CANCEL : Z := 33.
Definition APP_CMD_NET_CTRL_IOTE : Z := 40.
Definition APP_CMD_UPDATE_VERSION_REQUEST : Z := 50.
Definition APP_CMD_UPDATE_VERSION_SPONSE : Z := 51.
Definition APP_CMD_GET_SPECIFIC_DATA_REQUEST : Z := 52.
Definition APP_CMD_IOTE_MUTICAST_REQUEST : Z := 100.
Definition APP_CMD_NET_MUTICAST_ASSIGNMENT : Z := 101.
Definition APP_CMD_NET_DELIVER_IOTE_CONFIG : Z := 121.
Definition WIOTA_AP_REQUEST_RESERVE_ADDR : Z := 122.
Definition MANAGER_LOGIC_RESPONSE_RESERVE_ADDR : Z := 123.
Definition APP_CMD_AP_REQUEST_IOTE_REPLACE_ADDR : Z := 130.
Definition APP_CMD_IOTE_RESPONSE_REPLACE_ADDR : Z := 131.

(** The whole application: the tasks with their queues, the addresses and the
    update; the messages that are put together; whether the address timer runs. *)
Record app_state := { upd : upd_state; packets : packet_state; id_timer : bool }.

Definition zero_header : app_ps_header_t :=
  {| property := byte_property 0; src_addr := 0; dest_addr := 0; packet_num := 0; total_num := 0; current_num := 0;
     app_cmd_type := 0 |}.

Section Ops.
Context `{AddressJson} `{CJson}.
Context (cfg : frame_config) (positions : list Z → option (list uc_dev_pos_t)).
Context (uc_wiota_flash_read : Z → Z → list Z) (strlen_freed : list Z → Z).

(** What is found behind a buffer that does not hold an end mark. *)
Context (behind : list Z → list Z).
Local Abbreviation M := (FW app_state).

Definition on_upd {A} (m : FW upd_state A) : M A :=
  λ s, match m (upd s) with
       | Ok (a, u) => Ok (a, {| upd := u; packets := packets s; id_timer := id_timer s |})
       | Fault f => Fault f
       end.
Definition on_packets {A} (m : FW packet_state A) : M A :=
  λ s, match m (packets s) with
       | Ok (a, p) => Ok (a, {| upd := upd s; packets := p; id_timer := id_timer s |})
       | Fault f => Fault f
       end.
Definition app_net {A} (m : FW net_state A) : M A := on_upd (on_net m).
Definition app_tasks {A} (m : FW (lheap task_state) A) : M A := app_net (on_tasks m).

(** ** Results *)

(** The functions a record may carry; all of them free its message. *)
Definition call_result_function (f : manager_message_exe_result) (d : Z) : M unit :=
  match f with
  | manager_network_to_wiota_result_fn => app_tasks (manager_network_to_wiota_result d)
  | manager_ota_msg_result_fn => on_upd (manager_ota_msg_result cfg uc_wiota_flash_read strlen_freed)
  | manager_ota_resend_msg_result_fn => on_upd (manager_ota_resend_msg_result cfg uc_wiota_flash_read strlen_freed)
  | manager_control_message_result_fn | manager_replace_response_to_wiota_fn | manager_ota_state_result_fn => fret tt
  end.

(** ** Messages of terminals *)

(** The bytes a function for texts sees. *)
Fixpoint until_zero (l : list Z) : option (list Z) :=
  match l with
  | [] => None
  | b :: l => if b =? 0 then Some [] else cons b <$> until_zero l
  end.
Definition c_text (terminated : bool) (d : list Z) : list Z :=
  match until_zero d with Some t => t | None => if terminated then d else d ++ behind d end.

(** [reply] is the call manager_reallocated_wiotaid makes with the device
    address, the terminal's number and the new address. *)
Definition replace_header : app_ps_header_t :=
  {| property := app_set_header_property PRO_SRC_ADDR 1 (byte_property 0); src_addr := SERVER_DEFAULT_ADDRESS;
     dest_addr := 0; packet_num := 0; total_num := 0; current_num := 0;
     app_cmd_type := APP_CMD_IOTE_RESPONSE_REPLACE_ADDR |}.

Definition manager_send_replace_response (src_address dest_address new_address : Z) : M unit :=
  match cJSON_Print [member "new_address" (JNum new_address)] with
  | None => ffail NullDeref
  | Some data =>
      r <-- app_net (on_memory (app_data_coding replace_header (Some data) (u32 (zlen data))));;
      match r with
      | (0, hd, Some output_data) =>
          app_tasks (manager_logic_send_to_operater MANAGER_OPERATION_MSG 0 src_address (app_cmd_type hd) dest_address
            (zlen output_data) output_data None (Some manager_replace_response_to_wiota_fn))
      | _ => fret tt
      end
  end.

Fixpoint send_replies (l : list (Z * Z * Z)) : M unit :=
  match l with
  | [] => fret tt
  | (src, dest, new) :: l => manager_send_replace_response src dest new;;; send_replies l
  end.

Definition replace_address (dev user_id : Z) : M unit :=
  before <-- app_net (on_book (fgets replies));;
  app_net (on_book (manager_reallocated_wiotaid cfg dev user_id));;;
  after <-- app_net (on_book (fgets replies));;
  send_replies (drop (length before) after).

Definition ota_state : M Z := on_upd manager_get_ota_state.
Definition ota_send_state (st : Z) : M unit := on_upd (manager_ota_send_state st);;; fret tt.
Definition ota_idle (st : Z) : bool := (st =? MANAGER_UPDATE_STOP) || (st =? MANAGER_UPDATE_DEFAULT).

(** The data goes to the server's task, or is freed with the message. *)
Definition data_to_net (cmd : Z) (hd : app_ps_header_t) (decode_data : option (list Z)) : M unit :=
  app_tasks (manager_send_data_logic_to_net (EvToNet cmd (src_addr hd) (default [] decode_data)));;; fret tt.

(** A message for another terminal goes on as it came in; the answer to it is
    only wanted by a message to the access point itself. *)
Definition control_iote (hd : app_ps_header_t) (ul_data : list Z) : M unit :=
  if negb (SERVER_DEFAULT_ADDRESS =? dest_addr hd) && is_dest_addr (property hd) then
    let src := if negb (is_need_res (property hd)) || negb (AP_DEFAULT_ADDRESS =? dest_addr hd) then 0 else src_addr hd in
    id <-- app_net (on_book (manager_query_wiotaid cfg (dest_addr hd)));;
    app_tasks (manager_logic_send_to_operater MANAGER_OPERATION_MSG (packet_num hd) src APP_CMD_NET_CTRL_IOTE id
      (zlen ul_data) ul_data None (Some manager_control_message_result_fn))
  else fret tt.

(** A message that does not parse is refused before anything is used. *)
Definition resend_data (text : option (list Z)) : M unit :=
  match text with
  | Some t => on_upd (manager_ota_resend_data cfg uc_wiota_flash_read strlen_freed t);;; fret tt
  | None => fret tt
  end.

Definition recv_command (hd : app_ps_header_t) (user_id : Z) (ul_data : list Z) (terminated : bool)
  (decode_data : option (list Z)) : M unit :=
  let cmd := app_cmd_type hd in
  if (cmd =? APP_CMD_IOTE_PROPERTY_REPORT) || (cmd =? APP_CMD_IOTE_STATE_REPORT) || (cmd =? APP_CMD_IOTE_PAIR_REQUEST) ||
     (cmd =? APP_CMD_IOTE_MUTICAST_REQUEST) then data_to_net cmd hd decode_data
  else if cmd =? APP_CMD_NET_CTRL_IOTE then control_iote hd ul_data
  else if cmd =? APP_CMD_UPDATE_VERSION_REQUEST then
    st <-- ota_state;;
    if ota_idle st then data_to_net cmd hd decode_data else ota_send_state MANAGER_OTA_STOP
  else if cmd =? APP_CMD_GET_SPECIFIC_DATA_REQUEST then
    st <-- ota_state;;
    if negb (ota_idle st) then ota_send_state MANAGER_OTA_GONGING
    else if st =? MANAGER_UPDATE_STOP then resend_data (c_text terminated <$> decode_data)
    else ota_send_state MANAGER_OTA_NODATA
  else if cmd =? APP_CMD_AP_REQUEST_IOTE_REPLACE_ADDR then replace_address (src_addr hd) user_id
  else fret tt.

(** A buffer of the decoder ends with a zero, unless decompression filled it;
    the buffer of a message that was put together does not. *)
Definition decoded_terminated (hd : app_ps_header_t) (d : option (list Z)) : bool :=
  negb (compress_flag (property hd)) || (zlen (default [] d) <? APP_MAX_DECODING_DATA_LEN).

(** Answers of terminals are decoded and then dropped. *)
Definition manager_recv_wiota_msg (user_id : Z) (data : list Z) : M unit :=
  r <-- app_net (on_memory (app_data_decoding (Some data) (zlen data) zero_header));;
  let '(code, hd, decode_data) := r in
  if negb (code =? 0) then fret tt
  else if segment_flag (property hd) then
    m <-- on_packets (recv_segment user_id (packet_num hd) (total_num hd) (current_num hd) decode_data
                        (zlen (default [] decode_data)));;
    match m with
    | None => fret tt
    | Some whole => if response_flag (property hd) then fret tt else recv_command hd user_id data false whole
    end
  else if response_flag (property hd) then fret tt
  else recv_command hd user_id data (decoded_terminated hd decode_data) decode_data.

(** ** Messages of the server *)

(** The first destination is printed, so there must be one. *)
Definition manager_net_data_logic (page : t_from_network_message) : M unit :=
  match dest_address page with
  | [] => ffail NullDeref
  | _ :: _ =>
      let cmd := net_cmd page in
      if (cmd =? APP_CMD_NET_PAIR_RESPONSE) || (cmd =? APP_CMD_NET_PAIR_CANCEL) || (cmd =? APP_CMD_NET_CTRL_IOTE) ||
         (cmd =? APP_CMD_NET_MUTICAST_ASSIGNMENT) then app_net (manager_send_msg_to_wiota cfg page)
      else if cmd =? APP_CMD_UPDATE_VERSION_SPONSE then
        on_upd (manager_set_ota_state MANAGER_UPDATE_RESPONSE_MSG);;;
        on_upd (manager_update_response page);;; fret tt
      else if cmd =? APP_CMD_NET_DELIVER_IOTE_CONFIG then app_net (manager_send_config_to_wioata page)
      else if cmd =? MANAGER_LOGIC_RESPONSE_RESERVE_ADDR then
        ' (a, b) <-- app_net (manager_pasing_address (json_data page));;
        app_net (on_book (manager_get_reserved_address positions (Z.lor a 2147483648) (Z.lor b 2147483648)))
      else fret tt
  end.

(** ** The loop *)

(** The timer is made once; its function does nothing. *)
Definition manager_wiotaid_start : M unit :=
  s <-- fget;;
  if id_timer s then fret tt
  else
    ok <-- app_tasks malloc_ok;;
    app_tasks (memory_assert ok);;;
    fmod (λ s, {| upd := upd s; packets := packets s; id_timer := true |}).

(** One message; its data is freed afterwards. *)
Definition logic_message (m : t_app_logic_message) : M unit :=
  match m with
  | MANAGER_LOGIC_WIOTA_START => manager_wiotaid_start
  | MANAGER_LOGIC_SEND_RESULT d =>
      r <-- app_tasks (get_rec d);;
      match result_function r with Some f => call_result_function f d | None => fret tt end;;;
      app_tasks (free_rec d)
  | MANAGER_LOGIC_RECV_WIOTA_DATA user_id data => manager_recv_wiota_msg user_id data
  | MANAGER_LOGIC_FROM_NETWORK_MESSAGE page => manager_net_data_logic page
  | MANAGER_LOGIC_FROM_HTTP_MESSAGE st size =>
      on_upd (manager_start_update cfg uc_wiota_flash_read strlen_freed st size);;; fret tt
  | MANAGER_OPERATION_MSG d | MANAGER_OPERATION_RADIO d | MANAGER_OPERATION_OTA_RADIO d => app_tasks (free_rec d)
  | MANAGER_OPERATION_MSG_RESULT _ _ | MANAGER_OPERATION_OTA_RADIO_RESULT | MANAGER_OPERATION_EXIT => fret tt
  end.

Definition manager_wiota_task_step : M unit :=
  s <-- app_tasks get_task;;
  match logic_q s with
  | [] => fret tt
  | m :: q => app_tasks (mod_task (set_logic_q q));;; logic_message m
  end.

(** What the start reports: objects that hold the address of the access point. *)
Definition manager_input_attribute : M unit :=
  app_tasks (to_network_data (EvToNet APP_CMD_AP_PROPERTY_REPORT AP_DEFAULT_ADDRESS []));;; fret tt.
Definition manager_request_reserve_addr : M unit :=
  app_tasks (to_network_data (EvToNet WIOTA_AP_REQUEST_RESERVE_ADDR AP_DEFAULT_ADDRESS []));;; fret tt.

(** manager_wiota_task before the loop.  manager_address_init calls the request
    function when it makes the table. *)
Definition manager_wiota_task_start : M unit :=
  before <-- app_net (on_book (fgets requests));;
  app_net (on_book (manager_address_init cfg true));;;
  after <-- app_net (on_book (fgets requests));;
  (if after >? before then manager_request_reserve_addr else fret tt);;;
  on_packets recv_data_packet_init;;;
  manager_input_attribute.
End Ops.

(** ** Runs on parts of the state *)

Section Frames.
Definition net_of (s : app_state) : net_state := un (upd s).
Definition with_app_net (n : net_state) (s : app_state) : app_state :=
  {| upd := with_net n (upd s); packets := packets s; id_timer := id_timer s |}.

Lemma on_upd_Ok {A} (m : FW upd_state A) s a u :
  m (upd s) = Ok (a, u) → on_upd m s = Ok (a, {| upd := u; packets := packets s; id_timer := id_timer s |}).
Proof. intros E. unfold on_upd. rewrite E. done. Qed.
Lemma app_net_Ok {A} (m : FW net_state A) s a n : m (net_of s) = Ok (a, n) → app_net m s = Ok (a, with_app_net n s).
Proof. intros E. apply on_upd_Ok, on_net_Ok, E. Qed.
Lemma app_tasks_Ok {A} (m : FW (lheap task_state) A) s a h :
  m (tasks (net_of s)) = Ok (a, h) → app_tasks m s = Ok (a, with_app_net {| tasks := h; book := book (net_of s) |} s).
Proof. intros E. apply app_net_Ok, on_tasks_Ok, E. Qed.
Lemma app_book_Ok {A} (m : FW addr_state A) s a b :
  m (book (net_of s)) = Ok (a, b) → app_net (on_book m) s = Ok (a, with_app_net {| tasks := tasks (net_of s); book := b |} s).
Proof. intros E. apply app_net_Ok. unfold on_book. rewrite E. done. Qed.
Lemma on_packets_Ok {A} (m : FW packet_state A) s a p :
  m (packets s) = Ok (a, p) → on_packets m s = Ok (a, {| upd := upd s; packets := p; id_timer := id_timer s |}).
Proof. intros E. unfold on_packets. rewrite E. done. Qed.
Lemma app_net_id s : with_app_net (net_of s) s = s.
Proof. destruct s as [[] ? ?]. done. Qed.
Lemma app_tasks_id s : with_app_net {| tasks := tasks (net_of s); book := book (net_of s) |} s = s.
Proof. destruct s as [[[] ? ?] ? ?]. done. Qed.
End Frames.

(** ** Every message is taken without a fault *)

Section Safety.
Context `{AddressJson} `{CJson}.
Context (cfg : frame_config) (positions : list Z → option (list uc_dev_pos_t)).
Context (uc_wiota_flash_read : Z → Z → list Z) (strlen_freed : list Z → Z) (behind : list Z → list Z).

(** cJSON prints what it was given while there is memory. *)
Hypothesis print_some : ∀ fs, is_Some (cJSON_Print fs).

(** The tasks and the addresses are as they should be; the list of messages in
    the air and the addresses may have changed. *)
Definition net_safe (s : app_state) (ps : list (Z * Z)) : Prop := ∃ hash, net_ok cfg (net_of s) ps hash.

(** A run that ends, and leaves the packets alone. *)
Definition runs (m : FW app_state unit) (s : app_state) (ps : list (Z * Z)) : Prop :=
  ∃ s', m s = Ok (tt, s') ∧ net_safe s' ps ∧ packets s' = packets s.

Lemma runs_ret s ps : net_safe s ps → runs (fret tt) s ps.
Proof. intros Hs. exists s. done. Qed.
Lemma runs_bind (m : FW app_state unit) (k : unit → FW app_state unit) s ps :
  runs m s ps → (∀ s', net_safe s' ps → packets s' = packets s → runs (k tt) s' ps) → runs (fbind m k) s ps.
Proof.
  intros (s1 & E & Hs1 & Hp) Hk. destruct (Hk s1 Hs1 Hp) as (s2 & E2 & Hs2 & Hp2).
  exists s2. rewrite (bind_Ok _ _ _ _ _ E). split; [done|]. split; [done|congruence].
Qed.
Lemma runs_pure {A} (m : FW app_state A) (k : A → FW app_state unit) s ps a :
  m s = Ok (a, s) → runs (k a) s ps → runs (fbind m k) s ps.
Proof. intros E (s2 & E2 & Hs). exists s2. rewrite (bind_Ok _ _ _ _ _ E). done. Qed.

Lemma app_tasks_runs (m : FW (lheap task_state) unit) s ps :
  net_safe s ps → (∀ h, hinv h ps → ∃ h', m h = Ok (tt, h') ∧ hinv h' ps) → runs (app_tasks m) s ps.
Proof.
  intros [hash [Ht Hb]] Hm. destruct (Hm _ Ht) as (h' & E & Hh'). eexists. split; [by apply app_tasks_Ok|].
  split; [|done]. by exists hash.
Qed.

Lemma noted_hinv h ps e : outside e → hinv h ps → hinv (with_ext (noted e (ext h)) h) ps.
Proof. intros He [Hl Ho Hi]. split; [by apply is_list_ext|done|by apply tinv_event]. Qed.

Lemma data_to_net_runs cmd hd d s ps : net_safe s ps → runs (data_to_net cmd hd d) s ps.
Proof.
  intros [hash [Ht Hb]]. unfold data_to_net. eexists. split.
  - rewrite (bind_Ok _ _ _ _ _ (app_tasks_Ok _ _ _ _ (data_to_net_eq _ _ (hi_mem _ _ Ht)))). reflexivity.
  - split; [|done]. exists hash. split; [by apply noted_hinv|done].
Qed.

Lemma send_runs mt n src c i data fn s ps :
  net_safe s ps → is_send mt →
  runs (app_tasks (manager_logic_send_to_operater mt n src c i (zlen data) data None fn)) s ps.
Proof.
  intros Hs Hmt. apply app_tasks_runs; [done|]. intros h Hh.
  destruct (send_to_operater_inv h ps mt n src c i (zlen data) data None fn Hh Hmt) as (h' & E & Hh' & _); [done|]. eauto.
Qed.

Lemma control_iote_runs hd d s ps : net_safe s ps → runs (control_iote cfg hd d) s ps.
Proof.
  intros Hs. unfold control_iote. destruct (_ && _); [|by apply runs_ret]. pose proof Hs as [hash [Ht Hb]].
  eapply runs_pure; [|by apply send_runs].
  rewrite (app_book_Ok _ _ _ _ (query_wiotaid_eq cfg _ hash (dest_addr hd) Hb)), app_tasks_id. done.
Qed.

Lemma ota_send_state_runs st s ps : net_safe s ps → runs (ota_send_state st) s ps.
Proof.
  intros [hash [Ht Hb]]. unfold ota_send_state.
  destruct (ota_send_state_total st (upd s) (hi_mem _ _ Ht)) as (u & E & Hu).
  eexists. split; [rewrite (bind_Ok _ _ _ _ _ (on_upd_Ok _ _ _ _ E)); reflexivity|]. split; [|done]. exists hash.
  destruct Hu as [->|[pl ->]]; [done|]. split; [|done].
  destruct (send_to_operater_inv (tasks (net_of s)) ps MANAGER_OPERATION_OTA_RADIO 0 SERVER_DEFAULT_ADDRESS
    APP_CMD_GET_SPECIFIC_DATA_SPONSE 0 (zlen pl) pl None (Some manager_ota_state_result_fn) Ht) as (h' & E' & Hh' & _); [done..|].
  rewrite send_to_operater_eq in E' by apply Ht. injection E' as <-. exact Hh'.
Qed.

Lemma app_memory_eq {A} (m : FW (list bool) A) s ps a :
  net_safe s ps → m [] = Ok (a, []) → app_net (on_memory m) s = Ok (a, s).
Proof.
  intros [hash [Ht _]] E. unfold app_net, on_upd. rewrite (on_memory_eq m (upd s) a (hi_mem _ _ Ht) E). destruct s; done.
Qed.

Lemma replace_response_runs src dest new s ps :
  net_safe s ps → runs (manager_send_replace_response src dest new) s ps.
Proof using print_some.
  intros Hs. unfold manager_send_replace_response.
  destruct (print_some [member "new_address" (JNum new)]) as [text ->].
  destruct (coding_total replace_header text eq_refl) as [rc Er].
  eapply runs_pure; [by eapply app_memory_eq|]. destruct (decide (rc = 0)) as [Hrc|Hrc].
  - rewrite Hrc. cbn [Z.eqb]. by apply send_runs.
  - destruct rc; [done|by apply runs_ret..].
Qed.

Lemma send_replies_runs l s ps : net_safe s ps → runs (send_replies l) s ps.
Proof using print_some.
  revert s. induction l as [|[[src dest] new] l IH]; intros s Hs; cbn [send_replies]; [by apply runs_ret|].
  apply runs_bind; [by apply replace_response_runs|]. intros s' Hs' _. by apply IH.
Qed.

Lemma replace_address_runs dev user s ps : net_safe s ps → runs (replace_address cfg dev user) s ps.
Proof using print_some.
  intros Hs. pose proof Hs as [hash [Ht Hb]]. unfold replace_address.
  eapply runs_pure; [rewrite (app_book_Ok _ _ (replies (book (net_of s))) (book (net_of s)) eq_refl), app_tasks_id; reflexivity|].
  apply runs_bind.
  - destruct (reallocate_total cfg _ hash dev user Hb) as (b' & hash' & E & Hb'). eexists.
    split; [by apply app_book_Ok|]. split; [|done]. by exists hash'.
  - intros s' Hs' _.
    eapply runs_pure; [rewrite (app_book_Ok _ _ (replies (book (net_of s'))) (book (net_of s')) eq_refl), app_tasks_id; reflexivity|].
    by apply send_replies_runs.
Qed.

Definition quiet (s : app_state) : Prop := up_state (up (upd s)) = MANAGER_UPDATE_DEFAULT.

Lemma ota_state_eq s : ota_state s = Ok (up_state (up (upd s)), s).
Proof. destruct s as [[] ? ?]. done. Qed.

Lemma recv_command_runs hd user ul t d s ps :
  net_safe s ps → quiet s → runs (recv_command cfg uc_wiota_flash_read strlen_freed behind hd user ul t d) s ps.
Proof using print_some.
  intros Hs Hq. unfold recv_command.
  destruct (_ || _); [by apply data_to_net_runs|]. destruct (_ =? APP_CMD_NET_CTRL_IOTE); [by apply control_iote_runs|].
  destruct (_ =? APP_CMD_UPDATE_VERSION_REQUEST).
  { eapply runs_pure; [apply ota_state_eq|]. rewrite Hq. by apply data_to_net_runs. }
  destruct (_ =? APP_CMD_GET_SPECIFIC_DATA_REQUEST).
  { eapply runs_pure; [apply ota_state_eq|]. rewrite Hq. by apply ota_send_state_runs. }
  destruct (_ =? _); [by apply replace_address_runs|by apply runs_ret].
Qed.

(** What a terminal may send: bytes, a message that is not too short for the
    header its flags announce, a segment of a message that has segments, and
    compressed data that does not stop in the middle of a match. *)
Definition wiota_msg_ok (data : list Z) : Prop :=
  bytes_ok data ∧
  (zlen data = 0 ∨ APP_MAX_DECODING_DATA_LEN < zlen data ∨
   match get_header data zero_header with
   | Ok (h, off) =>
       (segment_flag (property h) = true → 0 < total_num h < 256 ∧ 0 <= current_num h) ∧
       (compress_flag (property h) = true → off < zlen data → decompresses (zsub off (zlen data - off) data))
   | Fault _ => False
   end).

Lemma decoding_runs data :
  wiota_msg_ok data →
  ∃ c h d, app_data_decoding (Some data) (zlen data) zero_header [] = Ok ((c, h, d), []) ∧
    (c = 0 → zlen (default [] d) < 65536 ∧ (segment_flag (property h) = true → 0 < total_num h < 256 ∧ 0 <= current_num h)).
Proof.
  intros Hd. pose proof (zlen_nonneg data) as Hz. unfold app_data_decoding.
  destruct ((zlen data =? 0) || (zlen data >? APP_MAX_DECODING_DATA_LEN)) eqn:El; [by exists (-1), zero_header, None|].
  apply orb_false_iff in El as [E0 E1]. rewrite Z.eqb_neq in E0. rewrite Z.gtb_ltb, Z.ltb_ge in E1.
  destruct Hd as [Hok [?|[?|Hh]]]; [lia|lia|].
  destruct (get_header_len data zero_header) as [(h & Eh & Hlen)|Ef]; [|rewrite Ef in Hh; done]. rewrite Eh in Hh.
  destruct Hh as [Hh Hz2].
  unfold flift. rewrite Eh. erewrite bind_Ok by reflexivity. cbv beta match.
  set (off := header_len _) in *.
  assert (0 <= off) by (unfold off, header_len; repeat case_match; lia).
  unfold APP_MAX_DECODING_DATA_LEN in E1. rewrite u32_id by (unfold is_u32; lia).
  destruct (Z.gtb_spec (zlen data - off) 0).
  - erewrite bind_Ok by reflexivity. cbn [negb]. rewrite slice_Ok by lia. erewrite bind_Ok by reflexivity.
    destruct (compress_flag (property h)).
    + erewrite bind_Ok by reflexivity. cbn [negb].
      set (d := zsub off (zlen data - off) data) in *. assert (zlen d = zlen data - off) as Hzd by (apply zlen_zsub; lia).
      destruct (decompresses_run d) as (n & out & Ed & Hn & r & Er & Hr); [by apply zsub_bytes|lia|apply Hz2; [done|lia]|].
      rewrite Hzd in Ed. rewrite Ed. erewrite bind_Ok by reflexivity. cbv beta match. rewrite Er. erewrite bind_Ok by reflexivity.
      eexists 0, h, _. split; [reflexivity|]. intros _. split; [|done]. change (zlen r < 65536). unfold APP_MAX_DECODING_DATA_LEN in Hn. lia.
    + eexists 0, h, _. split; [reflexivity|]. intros _. split; [|done]. change (zlen (zsub off (zlen data - off) data) < 65536). rewrite zlen_zsub by lia. lia.
  - eexists 0, h, _. split; [reflexivity|]. intros _. split; [done|done].
Qed.

Lemma recv_wiota_runs user data s ps m :
  net_safe s ps → quiet s → DataPacket.rep (packets s) m → wiota_msg_ok data →
  ∃ s' m', manager_recv_wiota_msg cfg uc_wiota_flash_read strlen_freed behind user data s = Ok (tt, s') ∧
    net_safe s' ps ∧ DataPacket.rep (packets s') m'.
Proof using print_some.
  intros Hs Hq Hp Hd. destruct (decoding_runs data Hd) as (c & h & d & E & Hc). unfold manager_recv_wiota_msg.
  assert (∀ k : FW app_state unit, ∀ s1 m1, runs k s1 ps → DataPacket.rep (packets s1) m1 →
    ∃ s' m', k s1 = Ok (tt, s') ∧ net_safe s' ps ∧ DataPacket.rep (packets s') m') as Hrun.
  { intros k s1 m1 (s' & E' & Hs' & Hp') Hp1. exists s', m1. rewrite Hp'. done. }
  rewrite (bind_Ok _ _ _ _ _ (app_memory_eq _ s ps _ Hs E)).
  destruct (Z.eqb_spec c 0) as [Hc0|Hc0]; cbn [negb]; [|by eapply Hrun, Hp; apply runs_ret].
  destruct (Hc Hc0) as [Hlen Hseg]. destruct (segment_flag (property h)) eqn:Es.
  - destruct (Hseg eq_refl) as [Ht Hcur].
    destruct (recv_segment_total (packets s) m user (packet_num h) (total_num h) (current_num h) d Hp Ht Hcur Hlen)
      as (r & p' & m' & Er & Hp').
    rewrite (bind_Ok _ _ _ _ _ (on_packets_Ok _ s _ _ Er)). set (s1 := {| upd := upd s |}).
    destruct r as [whole|]; [|by eapply Hrun, Hp'; apply runs_ret].
    destruct (response_flag (property h)); [by eapply Hrun, Hp'; apply runs_ret|].
    eapply Hrun, Hp'. by apply recv_command_runs.
  - destruct (response_flag (property h)); [by eapply Hrun, Hp; apply runs_ret|].
    eapply Hrun, Hp. by apply recv_command_runs.
Qed.

(** A message of the server that lists its destinations and needs at most 255
    segments.  Updates and reserved addresses are not among the messages here. *)
Definition page_ok (page : t_from_network_message) : Prop :=
  dest_address page ≠ [] ∧ Z.shiftr (dest_len page) 2 <= zlen (dest_address page) ∧
  Forall (λ d, zlen (json_data page) <= 255 * max_data_len (is_broadcast_address d)) (dest_address page) ∧
  net_cmd page ≠ APP_CMD_UPDATE_VERSION_SPONSE ∧ net_cmd page ≠ MANAGER_LOGIC_RESPONSE_RESERVE_ADDR.

Lemma net_data_logic_runs page s ps :
  net_safe s ps → page_ok page → runs (manager_net_data_logic cfg positions page) s ps.
Proof.
  intros [hash Hok] (Hne & Hd & Hl & H51 & H123). unfold manager_net_data_logic. destruct (dest_address page) as [|a l] eqn:Ea; [done|].
  rewrite <- Ea in *. destruct (_ || _).
  - destruct (send_msg_inv cfg page (net_of s) ps hash Hok Hd Hl) as (n' & E & Hn). eexists. split; [by apply app_net_Ok|].
    split; [|done]. by exists hash.
  - rewrite (proj2 (Z.eqb_neq _ _) H51). destruct (_ =? APP_CMD_NET_DELIVER_IOTE_CONFIG).
    + pose proof Hok as [Ht Hb]. eexists. split.
      * apply app_net_Ok. unfold manager_send_config_to_wioata.
        erewrite bind_Ok by (apply on_tasks_Ok, response_eq, Ht). reflexivity.
      * split; [|done]. exists hash. split; [by apply noted_hinv|done].
    + rewrite (proj2 (Z.eqb_neq _ _) H123). apply runs_ret. by exists hash.
Qed.

(** The messages of the logic queue, and the results that are waited for, while
    there is no update. *)
Definition lmsg_ok (m : t_app_logic_message) : Prop :=
  match m with
  | MANAGER_LOGIC_WIOTA_START | MANAGER_LOGIC_SEND_RESULT _ => True
  | MANAGER_LOGIC_RECV_WIOTA_DATA _ data => wiota_msg_ok data
  | MANAGER_LOGIC_FROM_NETWORK_MESSAGE page => page_ok page
  | _ => False
  end.
Definition fn_ok (f : option manager_message_exe_result) : Prop :=
  f ≠ Some manager_ota_msg_result_fn ∧ f ≠ Some manager_ota_resend_msg_result_fn.

Record calm (s : app_state) : Prop := {
  ca_content : content fn_ok lmsg_ok (ext (tasks (net_of s)));
  ca_quiet : quiet s
}.

Record app_ok (s : app_state) (ps : list (Z * Z)) (m : gmap (Z * Z) (list (option (list Z)))) : Prop := {
  ap_net : net_safe s ps;
  ap_packets : DataPacket.rep (packets s) m;
  ap_calm : calm s
}.

Lemma app_malloc_eq s ps : net_safe s ps → app_tasks malloc_ok s = Ok (true, s).
Proof.
  intros [hash [Ht _]]. rewrite (app_tasks_Ok _ s _ _ (malloc_ok_eq _ (hi_mem _ _ Ht))), app_tasks_id. done.
Qed.

Lemma wiotaid_start_runs s ps : net_safe s ps → runs manager_wiotaid_start s ps.
Proof.
  intros Hs. unfold manager_wiotaid_start. eapply runs_pure; [reflexivity|].
  destruct (id_timer s); [by apply runs_ret|]. eapply runs_pure; [by eapply app_malloc_eq|].
  eapply runs_pure; [rewrite (app_tasks_Ok _ s tt (tasks (net_of s)) eq_refl), app_tasks_id; reflexivity|].
  eexists. split; [reflexivity|]. done.
Qed.

Lemma call_result_runs f d r s ps :
  fn_ok (Some f) → in_hand (ext (tasks (net_of s))) ps.*2 d r → net_safe s ps →
  ∃ s', call_result_function cfg uc_wiota_flash_read strlen_freed f d s = Ok (tt, s') ∧ packets s' = packets s ∧
    net_safe s' ps ∧ loose (ext (tasks (net_of s'))) ps.*2 d.
Proof.
  intros [Hf1 Hf2] Hh Hs. pose proof (in_hand_loose _ _ _ _ Hh) as Hlo.
  destruct f; cbn [call_result_function]; try by (exists s; done).
  pose proof Hs as [hash [[Hl Ho Hi] Hb]]. destruct (answered_loose _ _ _ _ Hh) as [Hg Hlo'].
  eexists. split; [apply app_tasks_Ok, network_result_eq; [exact Ho|exact (ih_rec _ _ _ _ Hh)|exact Hg]|].
  split; [done|]. split; [|done]. exists hash. split; [|done].
  split; [by apply is_list_ext|done|exact (lo_inv _ _ _ Hlo')].
Qed.

Lemma free_rec_runs d s ps :
  net_safe s ps → loose (ext (tasks (net_of s))) ps.*2 d → runs (app_tasks (free_rec d)) s ps.
Proof.
  intros [hash [[Hl Ho Hi] Hb]] Hlo. destruct (loose_free (tasks (net_of s)) ps.*2 d Hlo) as (t & E & Ht).
  eexists. split; [by apply app_tasks_Ok|]. split; [|done]. exists hash. split; [|done].
  split; [by apply is_list_ext|done|done].
Qed.

Lemma send_result_runs d r s ps :
  net_safe s ps → in_hand (ext (tasks (net_of s))) ps.*2 d r → fn_ok (result_function r) →
  runs (logic_message cfg positions uc_wiota_flash_read strlen_freed behind (MANAGER_LOGIC_SEND_RESULT d)) s ps.
Proof.
  intros Hs Hh Hf. cbn [logic_message].
  eapply runs_pure.
  { rewrite (app_tasks_Ok _ s _ _ (get_rec_eq d r _ (ih_rec _ _ _ _ Hh))), app_tasks_id. reflexivity. }
  destruct (result_function r) as [f|].
  - destruct (call_result_runs f d r s ps Hf Hh Hs) as (s1 & E & Hp & Hs1 & Hlo).
    destruct (free_rec_runs d s1 ps Hs1 Hlo) as (s2 & E2 & Hs2 & Hp2). exists s2.
    rewrite (bind_Ok _ _ _ _ _ E). split; [done|]. split; [done|congruence].
  - eapply runs_pure; [reflexivity|]. apply free_rec_runs; [done|]. by eapply in_hand_loose.
Qed.

(** ** The contents stay as they are *)

Local Abbreviation C := (content fn_ok lmsg_ok).
Local Abbreviation keeps_calm m := (Keeps calm m (λ _, True)).

Lemma keeps_app_net {A} (m : FW net_state A) V :
  Keeps (λ n, C (ext (tasks n))) m V → Keeps calm (app_net m) V.
Proof.
  intros Hm s a s' [Hc Hq]. unfold app_net, on_upd, on_net. destruct (m (un (upd s))) as [[b n]|] eqn:E; [|done].
  intros [= <- <-]. destruct (Hm _ _ _ Hc E). split; [split; done|done].
Qed.
Lemma keeps_app_tasks {A} (m : FW (lheap task_state) A) V :
  Keeps (λ h, C (ext h)) m V → Keeps calm (app_tasks m) V.
Proof. intros Hm. by apply keeps_app_net, keeps_on_tasks. Qed.
Lemma keeps_app_book {A} (m : FW addr_state A) : keeps_calm (app_net (on_book m)).
Proof. apply keeps_app_net, keeps_on_book. Qed.
Lemma keeps_app_memory {A} (m : FW (list bool) A) : keeps_calm (app_net (on_memory m)).
Proof. apply keeps_app_net, keeps_on_memory. Qed.
Lemma keeps_packets {A} (m : FW packet_state A) : keeps_calm (on_packets m).
Proof. intros s a s' [Hc Hq]. unfold on_packets. destruct (m (packets s)) as [[b p]|]; [|done]. intros [= <- <-]. done. Qed.
Lemma keeps_ota_state : Keeps calm ota_state (λ st, st = MANAGER_UPDATE_DEFAULT).
Proof. intros s a s' Hs E. rewrite ota_state_eq in E. injection E as <- <-. split; [done|]. apply Hs. Qed.
#[local] Hint Resolve keeps_app_tasks keeps_app_book keeps_app_memory keeps_packets keeps_ota_state keeps_app_net : keeps.

Lemma fn_none : fn_ok None.
Proof. done. Qed.
Lemma fn_network : fn_ok (Some manager_network_to_wiota_result_fn).
Proof. done. Qed.
Lemma fn_control : fn_ok (Some manager_control_message_result_fn).
Proof. done. Qed.
Lemma fn_replace : fn_ok (Some manager_replace_response_to_wiota_fn).
Proof. done. Qed.
Lemma fn_state : fn_ok (Some manager_ota_state_result_fn).
Proof. done. Qed.
#[local] Hint Resolve fn_none fn_network fn_control fn_replace fn_state : keeps.

Lemma keeps_ota_send_state st : keeps_calm (ota_send_state st).
Proof.
  unfold ota_send_state. refine (keeps_bind _ _ _ (λ _, True) _ _ _); [|intros; by apply keeps_ret].
  assert (Keeps (λ u, C (ext (tasks (un u))) ∧ up_state (up u) = MANAGER_UPDATE_DEFAULT) (manager_ota_send_state st) (λ _, True))
    as Hm.
  { assert (∀ A (m : FW net_state A), Keeps (λ n, C (ext (tasks n))) m (λ _, True) →
      Keeps (λ u, C (ext (tasks (un u))) ∧ up_state (up u) = MANAGER_UPDATE_DEFAULT) (on_net m) (λ _, True)) as Hnet.
    { intros A m Hm u a u' [Hc Hq]. unfold on_net. destruct (m (un u)) as [[b n]|] eqn:E; [|done].
      intros [= <- <-]. destruct (Hm _ _ _ Hc E). done. }
    assert (∀ f, Keeps (λ u, C (ext (tasks (un u))) ∧ up_state (up u) = MANAGER_UPDATE_DEFAULT) (fgets f) (λ _ : t_manager_update, True))
      as Hget by (intros f u a u' Hu [= <- <-]; done).
    unfold manager_ota_send_state, manager_ota_state_msg, manager_ota_msg_coding, send_ota, get_up. keeps. }
  intros s a s' [Hc Hq]. unfold on_upd. destruct (manager_ota_send_state st (upd s)) as [[b u]|] eqn:E; [|done].
  intros [= <- <-]. destruct (Hm _ _ _ (conj Hc Hq) E) as [[Ha Hb] _]. split; [split; [exact Ha|exact Hb]|done].
Qed.
#[local] Hint Resolve keeps_ota_send_state : keeps.

Lemma keeps_send_replies l : keeps_calm (send_replies l).
Proof. induction l as [|[[src dest] new] l IH]; cbn [send_replies]; unfold manager_send_replace_response; keeps. Qed.
#[local] Hint Resolve keeps_send_replies : keeps.

Lemma keeps_recv_command hd user ul t d :
  keeps_calm (recv_command cfg uc_wiota_flash_read strlen_freed behind hd user ul t d).
Proof.
  unfold recv_command, data_to_net, control_iote, replace_address.
  destruct (_ || _); [keeps|]. destruct (_ =? APP_CMD_NET_CTRL_IOTE); [keeps|].
  destruct (_ =? APP_CMD_UPDATE_VERSION_REQUEST); [keeps|].
  destruct (_ =? APP_CMD_GET_SPECIFIC_DATA_REQUEST); [|keeps].
  eapply keeps_bind; [apply keeps_ota_state|]. intros st ->.
  change (negb (ota_idle MANAGER_UPDATE_DEFAULT)) with false. change (MANAGER_UPDATE_DEFAULT =? MANAGER_UPDATE_STOP) with false. keeps.
Qed.
#[local] Hint Resolve keeps_recv_command : keeps.

Lemma keeps_recv_wiota user d : keeps_calm (manager_recv_wiota_msg cfg uc_wiota_flash_read strlen_freed behind user d).
Proof. unfold manager_recv_wiota_msg. keeps. Qed.

Lemma keeps_net_data page :
  net_cmd page ≠ APP_CMD_UPDATE_VERSION_SPONSE → keeps_calm (manager_net_data_logic cfg positions page).
Proof.
  intros Hne. unfold manager_net_data_logic. rewrite (proj2 (Z.eqb_neq _ _) Hne). destruct (dest_address page); [keeps|].
  keeps.
Qed.

Lemma keeps_call_result f d :
  fn_ok (Some f) → keeps_calm (call_result_function cfg uc_wiota_flash_read strlen_freed f d).
Proof. intros [Hf1 Hf2]. destruct f; cbn [call_result_function]; try done; keeps. Qed.
#[local] Hint Resolve keeps_recv_wiota keeps_net_data keeps_call_result : keeps.

Lemma keeps_logic_message m :
  lmsg_ok m → keeps_calm (logic_message cfg positions uc_wiota_flash_read strlen_freed behind m).
Proof.
  destruct m; try done; cbn [logic_message lmsg_ok]; intros Hm.
  - unfold manager_wiotaid_start. keeps. apply keeps_mod. intros s [Hc Hq]. done.
  - eapply keeps_bind; [apply keeps_app_tasks, keeps_get_rec|]. intros r. cbv beta. destruct (result_function r); keeps.
  - keeps.
  - destruct Hm as (_ & _ & _ & Hne & _). keeps.
Qed.

Lemma keeps_step : keeps_calm (manager_wiota_task_step cfg positions uc_wiota_flash_read strlen_freed behind).
Proof.
  unfold manager_wiota_task_step. eapply keeps_bind; [apply keeps_app_tasks, keeps_get_task|]. intros t Ht.
  destruct (logic_q t) as [|m q] eqn:Eq; [keeps|]. destruct (content_pop _ _ m q t Eq Ht) as [Hm Hq].
  eapply keeps_bind; [|intros _ _; by apply keeps_logic_message].
  apply keeps_app_tasks, keeps_logic_q, Hq.
Qed.

(** ** One turn of the loop *)

Lemma logic_step_ok s ps m :
  app_ok s ps m →
  ∃ s' m', manager_wiota_task_step cfg positions uc_wiota_flash_read strlen_freed behind s = Ok (tt, s') ∧ app_ok s' ps m'.
Proof using print_some.
  intros [Hs Hp Hc].
  assert (∃ s' m', manager_wiota_task_step cfg positions uc_wiota_flash_read strlen_freed behind s = Ok (tt, s') ∧
    net_safe s' ps ∧ DataPacket.rep (packets s') m') as (s' & m' & E & Hs' & Hp').
  2:{ exists s', m'. split; [done|]. split; [done|done|]. by destruct (keeps_step _ _ _ Hc E). }
  assert (∀ k s1, runs k s1 ps → packets s1 = packets s →
    ∃ s' m', k s1 = Ok (tt, s') ∧ net_safe s' ps ∧ DataPacket.rep (packets s') m') as Hrun.
  { intros k s1 (s2 & E2 & Hs2 & Hp2) Hp1. exists s2, m. rewrite Hp2, Hp1. done. }
  pose proof Hs as [hash [[Hl Ho Hi] Hb]]. unfold manager_wiota_task_step.
  erewrite bind_Ok by (rewrite (app_tasks_Ok get_task s _ _ eq_refl), app_tasks_id; reflexivity).
  destruct (logic_q (ext (tasks (net_of s)))) as [|msg q] eqn:Eq; [by exists s, m|].
  erewrite bind_Ok by (apply app_tasks_Ok, mod_task_eq). set (s1 := with_app_net _ s).
  destruct (content_pop _ _ msg q _ Eq (ca_content _ Hc)) as [Hm _].
  assert (quiet s1) as Hq1 by apply Hc.
  assert (msg_data msg = [] → net_safe s1 ps) as Hfree.
  { intros Hd. exists hash. split; [|done]. split; [by apply is_list_ext|done|].
    eapply tinv_same; [exact Hi|done..|]. cbn. rewrite Eq, qdata_cons, Hd. done. }
  destruct msg; try done.
  - eapply Hrun; [|done]. by apply wiotaid_start_runs, Hfree.
  - destruct (pop_logic _ _ _ _ d Hi Eq eq_refl) as [r Hh]. eapply Hrun; [|done].
    eapply send_result_runs; [|exact Hh|].
    + exists hash. split; [|done]. split; [by apply is_list_ext|done|exact (ih_inv _ _ _ _ Hh)].
    + eapply (co_rec _ _ _ (ca_content _ Hc) d). exact (ih_rec _ _ _ _ Hh).
  - by eapply recv_wiota_runs; [apply Hfree| |exact Hp|].
  - eapply Hrun; [|done]. by apply net_data_logic_runs; [apply Hfree|].
Qed.
End Safety.

(** ** The answer to a segmented message *)

(** The state of a segment group after one more result. *)
Definition merge_state (st head : Z) : Z := if MANAGER_SEND_FAIL =? head then MANAGER_SEND_FAIL else st.

(** A record of a message of the server, one of its segments. *)
Record in_group (s : task_state) (g number : Z) (d st : Z) : Prop := {
  ig_rec : ∃ r, recs s !! d = Some r ∧ op_segment r = Some g ∧ head_state r = st ∧
    result_function r = Some manager_network_to_wiota_result_fn ∧ src_address r = SERVER_DEFAULT_ADDRESS ∧
    request_number r = number
}.

Definition task_of (s : app_state) : task_state := ext (tasks (net_of s)).
Definition with_task (t : task_state) (s : app_state) : app_state :=
  with_app_net {| tasks := with_ext t (tasks (net_of s)); book := book (net_of s) |} s.

Lemma merge_states st heads :
  foldl merge_state st heads = if decide (MANAGER_SEND_FAIL ∈ heads) then MANAGER_SEND_FAIL else st.
Proof.
  revert st. induction heads as [|x heads IH]; intros st; cbn; [done|]. rewrite IH. unfold merge_state.
  destruct (Z.eqb_spec MANAGER_SEND_FAIL x) as [<-|Hne].
  - rewrite (decide_True (P := MANAGER_SEND_FAIL ∈ MANAGER_SEND_FAIL :: heads)) by left. destruct (decide _); done.
  - destruct (decide (MANAGER_SEND_FAIL ∈ heads)).
    + rewrite decide_True by by right. done.
    + rewrite decide_False; [done|]. rewrite elem_of_cons. tauto.
Qed.

Section Segments.
Context `{AddressJson} `{CJson}.
Context (cfg : frame_config) (positions : list Z → option (list uc_dev_pos_t)).
Context (uc_wiota_flash_read : Z → Z → list Z) (strlen_freed : list Z → Z) (behind : list Z → list Z).
Local Abbreviation step := (manager_wiota_task_step cfg positions uc_wiota_flash_read strlen_freed behind).

Lemma answered_group d r g st rem t :
  op_segment r = Some g → segs t !! g = Some (st, rem) → 0 < rem < 256 → src_address r = SERVER_DEFAULT_ADDRESS →
  let st' := merge_state st (head_state r) in
  answered d r t =
    (if rem =? 1 then set_segs (delete g (segs t)) (noted (EvResponse st' (request_number r)) t)
     else set_segs (<[g := (st', rem - 1)]> (segs t)) t).
Proof.
  intros Hg Hs Hr Hsrc st'. unfold answered. rewrite Hg, Hs, (u8_id (rem - 1)) by (unfold is_u8; lia).
  fold (merge_state st (head_state r)). fold st'. destruct (Z.eqb_spec rem 1) as [->|Hne].
  - change (0 =? 1 - 1) with true. rewrite Hsrc, Z.eqb_refl. cbn [noted set_segs set_trace segs trace].
    rewrite delete_insert_eq. done.
  - rewrite (proj2 (Z.eqb_neq 0 (rem - 1))) by lia. done.
Qed.

(** A result: the function of the record runs, then the record is freed. *)
Lemma result_step s d q r f s2 r2 :
  logic_q (task_of s) = MANAGER_LOGIC_SEND_RESULT d :: q → recs (task_of s) !! d = Some r → result_function r = Some f →
  call_result_function cfg uc_wiota_flash_read strlen_freed f d (with_task (set_logic_q q (task_of s)) s) = Ok (tt, s2) →
  recs (task_of s2) !! d = Some r2 →
  step s = Ok (tt, with_task (set_recs (delete d (recs (task_of s2))) (task_of s2)) s2).
Proof.
  intros Hq Hr Hf Hc Hr2. unfold manager_wiota_task_step.
  erewrite bind_Ok by (rewrite (app_tasks_Ok get_task s _ _ eq_refl), app_tasks_id; reflexivity).
  fold (task_of s). rewrite Hq. pose (s1 := with_task (set_logic_q q (task_of s)) s).
  rewrite (bind_Ok _ _ s tt s1) by apply app_tasks_Ok, mod_task_eq. cbn [logic_message].
  erewrite bind_Ok by (rewrite (app_tasks_Ok _ s1 _ _ (get_rec_eq d r (tasks (net_of s1)) Hr)), app_tasks_id; reflexivity).
  rewrite Hf, (bind_Ok _ _ s1 tt s2 Hc).
  exact (app_tasks_Ok _ s2 _ _ (free_rec_eq d r2 (tasks (net_of s2)) Hr2)).
Qed.

(** One result of a segment: the counter goes down, the last one answers. *)
Lemma group_step s d q g number st head rem :
  mem_free (upd s) → logic_q (task_of s) = MANAGER_LOGIC_SEND_RESULT d :: q → in_group (task_of s) g number d head →
  segs (task_of s) !! g = Some (st, rem) → 0 < rem < 256 →
  ∃ t, step s = Ok (tt, with_task t s) ∧ logic_q t = q ∧ recs t = delete d (recs (task_of s)) ∧
    segs t = (if rem =? 1 then delete g (segs (task_of s)) else <[g := (merge_state st head, rem - 1)]> (segs (task_of s))) ∧
    trace t = trace (task_of s) ++ (if rem =? 1 then [EvResponse (merge_state st head) number] else []).
Proof.
  intros Hmem Hq [(r & Hr & Hg & Hst & Hf & Hsrc & Hn)] Hs Hrem.
  pose (t1 := set_logic_q q (task_of s)). pose (t2 := answered d r t1).
  pose proof (answered_group d r g st rem t1 Hg Hs Hrem Hsrc) as Ha. cbv zeta in Ha. rewrite Hst, Hn in Ha. fold t2 in Ha.
  assert (recs t2 !! d = Some r) as Hr2 by (rewrite Ha; destruct (rem =? 1); done).
  pose proof (result_step s d q r _ (with_task t2 s) r Hq Hr Hf) as E. cbn [call_result_function] in E.
  exists (set_recs (delete d (recs t2)) t2). split.
  - refine (E (app_tasks_Ok _ (with_task t1 s) _ _ (network_result_eq (tasks (net_of (with_task t1 s))) d r Hmem Hr _)) Hr2).
    intros g' Hg'. assert (g' = g) as -> by congruence. cbn. rewrite Hs. eauto.
  - rewrite Ha. destruct (rem =? 1); cbn; rewrite ?app_nil_r; done.
Qed.

Fixpoint logic_steps (n : nat) : FW app_state unit :=
  match n with O => fret tt | S n => fbind step (λ _, logic_steps n) end.

Lemma task_of_with t s : task_of (with_task t s) = t.
Proof. done. Qed.

Lemma group_steps g number heads : ∀ ds s st,
  mem_free (upd s) → ds ≠ [] → NoDup ds → Forall2 (in_group (task_of s) g number) ds heads →
  logic_q (task_of s) = map MANAGER_LOGIC_SEND_RESULT ds → segs (task_of s) !! g = Some (st, zlen ds) → zlen ds < 256 →
  ∃ t, logic_steps (length ds) s = Ok (tt, with_task t s) ∧ logic_q t = [] ∧ segs t = delete g (segs (task_of s)) ∧
    trace t = trace (task_of s) ++ [EvResponse (foldl merge_state st heads) number] ∧
    ∀ d, recs t !! d = if decide (d ∈ ds) then None else recs (task_of s) !! d.
Proof.
  induction heads as [|head heads IH]; intros ds s st Hm Hne Hnd Hall Hq Hs Hlen.
  { apply Forall2_nil_inv_r in Hall. done. }
  apply Forall2_cons_inv_r in Hall as (d & ds' & Hd & Hall & ->).
  apply NoDup_cons in Hnd as [Hd' Hnd].
  pose proof (zlen_nonneg ds') as Hnn.
  assert (zlen (d :: ds') = zlen ds' + 1) as Hz by (unfold zlen; cbn [length]; lia). rewrite Hz in *.
  destruct (group_step s d (map MANAGER_LOGIC_SEND_RESULT ds') g number st head (zlen ds' + 1) Hm Hq Hd Hs)
    as (t1 & E1 & Q1 & R1 & S1 & T1); [lia|].
  cbn [length logic_steps]. erewrite bind_Ok; [|exact E1].
  destruct ds' as [|x ds'].
  - apply Forall2_nil_inv_l in Hall as ->. cbn in *. exists t1. split; [done|]. split; [done|]. split; [done|].
    split; [done|]. intros y. rewrite R1. destruct (decide (y ∈ [d])) as [Hy|Hy]; rewrite list_elem_of_singleton in Hy.
    + subst. apply lookup_delete_eq.
    + apply lookup_delete_ne. done.
  - rewrite (proj2 (Z.eqb_neq (zlen (x :: ds') + 1) 1)) in S1, T1 by (unfold zlen; cbn; lia).
    rewrite app_nil_r in T1.
    destruct (IH (x :: ds') (with_task t1 s) (merge_state st head)) as (t2 & E2 & Q2 & S2 & T2 & R2);
      rewrite ?task_of_with in *.
    + exact Hm.
    + done.
    + done.
    + clear -Hall R1 Hd'. revert Hd'. induction Hall as [|y hd ys hds [(r & Hr & Hrest)] _ IH]; intros Hd'; constructor.
      * constructor. exists r. rewrite R1, lookup_delete_ne; [done|]. intros ->. apply Hd'. left.
      * apply IH. intros ?. apply Hd'. by right.
    + exact Q1.
    + rewrite S1, lookup_insert_eq. do 2 f_equal. lia.
    + lia.
    + exists t2. split; [exact E2|]. split; [done|].
      split; [rewrite S2, S1; apply delete_insert_eq|]. split; [rewrite T2, T1; done|].
      intros y. rewrite R2, R1. destruct (decide (y ∈ x :: ds')) as [Hy|Hy].
      * rewrite decide_True by by right. done.
      * destruct (decide (y = d)) as [->|Hyd].
        -- rewrite decide_True by left. apply lookup_delete_eq.
        -- rewrite decide_False by (rewrite elem_of_cons; tauto). apply lookup_delete_ne. done.
Qed.

(** The results of all segments of a message, taken in any order, give the
    server exactly one answer, with the last of them: failure when a segment
    failed, success otherwise.  The segment counter is freed with it. *)
Theorem segments_answered_once g number ds heads s :
  mem_free (upd s) → ds ≠ [] → NoDup ds → zlen ds < 256 → Forall2 (in_group (task_of s) g number) ds heads →
  logic_q (task_of s) = map MANAGER_LOGIC_SEND_RESULT ds → segs (task_of s) !! g = Some (MANAGER_SEND_SUCCESS, zlen ds) →
  ∃ t, logic_steps (length ds) s = Ok (tt, with_task t s) ∧ logic_q t = [] ∧ segs t = delete g (segs (task_of s)) ∧
    trace t = trace (task_of s) ++
      [EvResponse (if decide (MANAGER_SEND_FAIL ∈ heads) then MANAGER_SEND_FAIL else MANAGER_SEND_SUCCESS) number] ∧
    ∀ d, d ∈ ds → recs t !! d = None.
Proof.
  intros Hm Hne Hnd Hlen Hall Hq Hs.
  destruct (group_steps g number heads ds s MANAGER_SEND_SUCCESS Hm Hne Hnd Hall Hq Hs Hlen) as (t & E & Q & S & T & R).
  exists t. rewrite merge_states in T. split; [done|]. split; [done|]. split; [done|]. split; [done|].
  intros d Hd. rewrite R, decide_True by done. done.
Qed.
End Segments.

(** ** Inputs for the witnesses *)

Definition demo_app (n : net_state) : app_state :=
  {| upd := with_net n (demo_update MANAGER_UPDATE_DEFAULT 0 0 None); packets := no_packets; id_timer := false |}.

Definition demo_segment (st : Z) : t_app_operation_data :=
  {| src_address := SERVER_DEFAULT_ADDRESS; head_id := 5; head_state := st;
     result_function := Some manager_network_to_wiota_result_fn; head_cmd := 40; request_number := 9;
     op_len := 1; pload := [65]; op_segment := Some 1 |}.
Definition demo_results : app_state :=
  demo_app {| tasks := {| cells := ∅; brk := 10; oks := []; released := [];
     ext := {| recs := {[2 := demo_segment 1; 3 := demo_segment 2]}; segs := {[1 := (MANAGER_SEND_SUCCESS, 2)]}; nextp := 4;
               op_q := []; logic_q := [MANAGER_LOGIC_SEND_RESULT 3; MANAGER_LOGIC_SEND_RESULT 2]; trace := [];
               recv_msg_count := 0; old_recv_msg_count := 0; running := true |} |}; book := book demo_net |}.

Lemma segments_answered_once_witness :
  ∃ t, @logic_steps demo_json (toy_json (JObj [])) demo_cfg (λ _, None) demo_flash zlen id 2 demo_results =
         Ok (tt, with_task t demo_results) ∧ trace t = [EvResponse MANAGER_SEND_FAIL 9].
Proof.
  destruct (@segments_answered_once demo_json (toy_json (JObj [])) demo_cfg (λ _, None) demo_flash zlen id
    1 9 [3; 2] [2; 1] demo_results) as (t & E & _ & _ & T & _).
  - reflexivity.
  - done.
  - apply (bool_decide_unpack _). vm_compute. exact I.
  - vm_compute. reflexivity.
  - repeat constructor; eexists; split_and!; reflexivity.
  - reflexivity.
  - reflexivity.
  - exists t. split; [exact E|exact T].
Defined.
