(* ===== verification/System.v ===== *)
(** * The application tasks together

    The radio task, the logic task, the messages of the server and the calls of
    the protocol stack work on one state.  A schedule is the order in which
    their steps happen; the theorems hold for every schedule. *)

From stdpp Require Import strings.
From S2P Require Import Prelude ManagerList Coding DataPacket UserId Operation NetMsg Update Logic.

Section System.
Context `{AddressJson} `{CJson}.
Context (cfg : frame_config) (positions : list Z → option (list uc_dev_pos_t)).
Context (uc_wiota_flash_read : Z → Z → list Z) (strlen_freed : list Z → Z) (behind : list Z → list Z).

(** A turn of the radio task or of the logic task; the task of the server
    connection, the downloader, and the callbacks of the protocol stack put a
    message on a queue. *)
Inductive sys_op :=
| SysOperation
| SysLogic
| SysServer (page : t_from_network_message)
| SysDownload (st size : Z)
| SysResult (user_id res : Z)
| SysOtaDone
| SysReceive (user_id : Z) (data : list Z)
| SysTimer.

Definition run_sys_op (op : sys_op) : FW app_state unit :=
  match op with
  | SysOperation => app_tasks manager_operation_task_step
  | SysLogic => manager_wiota_task_step cfg positions uc_wiota_flash_read strlen_freed behind
  | SysServer page => app_tasks (to_queue_logic_data (MANAGER_LOGIC_FROM_NETWORK_MESSAGE page))
  | SysDownload st size => app_tasks (to_queue_logic_data (MANAGER_LOGIC_FROM_HTTP_MESSAGE st size))
  | SysResult user_id res => app_tasks (manager_send_result user_id res)
  | SysOtaDone => app_tasks uc_send_radio_ota_callback
  | SysReceive user_id data => app_tasks (manager_recv_data user_id data)
  | SysTimer => app_tasks manager_recv_timer_func
  end.

Fixpoint run_sys (ops : list sys_op) : FW app_state unit :=
  match ops with
  | [] => fret tt
  | op :: ops => fbind (run_sys_op op) (λ _, run_sys ops)
  end.

Lemma run_sys_app a b s : run_sys (a ++ b) s = fbind (run_sys a) (λ _, run_sys b) s.
Proof.
  revert s. induction a as [|op a IH]; intros s; [done|]. cbn [app run_sys]. rewrite fbind_assoc. unfold fbind at 1 2.
  destruct (run_sys_op op s) as [[[] s1]|]; [apply IH|done].
Qed.

(** What comes from outside while there is no update: messages of the server and
    of terminals of any content that are not cut short. *)
Definition op_valid (op : sys_op) : Prop :=
  match op with
  | SysServer page => page_ok page
  | SysReceive _ data => wiota_msg_ok data
  | SysDownload _ _ => False
  | _ => True
  end.

Hypothesis print_some : ∀ fs, is_Some (cJSON_Print fs).

Lemma task_op_ok (t : FW (lheap task_state) unit) s ps m :
  app_ok cfg s ps m →
  (∀ h, hinv h ps → ∃ h' ps', t h = Ok (tt, h') ∧ hinv h' ps') →
  Keeps (λ h, content fn_ok lmsg_ok (ext h)) t (λ _, True) →
  ∃ s' ps', app_tasks t s = Ok (tt, s') ∧ app_ok cfg s' ps' m.
Proof.
  intros [[hash [Ht Hb]] Hp Hc] Hrun Hk. destruct (Hrun _ Ht) as (h' & ps' & E & Hh').
  pose proof (app_tasks_Ok t s tt h' E) as E'. eexists _, ps'. split; [exact E'|].
  split; [by exists hash|done|]. by destruct (keeps_app_tasks t _ Hk _ _ _ Hc E').
Qed.

Lemma to_logic_inv h ps msg :
  hinv h ps → msg_data msg = [] → ∃ h', to_queue_logic_data msg h = Ok (tt, h') ∧ hinv h' ps.
Proof. intros Hh Hd. rewrite to_logic_eq by apply Hh. eexists. split; [reflexivity|]. by apply push_free_run. Qed.

Lemma run_sys_op_inv op s ps m :
  app_ok cfg s ps m → op_valid op → ∃ s' ps' m', run_sys_op op s = Ok (tt, s') ∧ app_ok cfg s' ps' m'.
Proof using print_some.
  intros Hs Hv.
  assert (∀ t, (∀ h, hinv h ps → ∃ h' ps', t h = Ok (tt, h') ∧ hinv h' ps') →
    Keeps (λ h, content fn_ok lmsg_ok (ext h)) t (λ _, True) →
    ∃ s' ps' m', app_tasks t s = Ok (tt, s') ∧ app_ok cfg s' ps' m') as Htask.
  { intros t Ht Hk. destruct (task_op_ok t s ps m Hs Ht Hk) as (s' & ps' & ? & ?). eauto. }
  destruct op as [| |page|st n|u r| |u d|]; cbn [run_sys_op op_valid] in *; try done.
  - apply Htask; [|by apply keeps_operation_task_step]. intros h Hh. by apply operation_task_step_inv with ps.
  - destruct (logic_step_ok cfg positions uc_wiota_flash_read strlen_freed behind print_some s ps m Hs)
      as (s' & m' & E & Hs'). eauto.
  - apply Htask; [|by apply keeps_to_logic]. intros h Hh. destruct (to_logic_inv h ps (MANAGER_LOGIC_FROM_NETWORK_MESSAGE page) Hh eq_refl) as (h' & ? & ?). eauto.
  - apply Htask; [|by apply keeps_send_result]. intros h Hh. destruct (send_result_inv h ps u r Hh) as (h' & ? & ?); eauto.
  - apply Htask; [|by apply keeps_ota_callback]. intros h Hh. destruct (ota_callback_inv h ps Hh) as (h' & ? & ?); eauto.
  - apply Htask; [|by apply keeps_recv_data]. intros h Hh. destruct (recv_data_inv h ps u d Hh) as (h' & ? & ?); eauto.
  - apply Htask; [|by apply keeps_timer]. intros h Hh. destruct (timer_inv h ps Hh) as (h' & ? & ?); eauto.
Qed.

Lemma run_sys_inv ops s ps m :
  app_ok cfg s ps m → Forall op_valid ops → ∃ s' ps' m', run_sys ops s = Ok (tt, s') ∧ app_ok cfg s' ps' m'.
Proof using print_some.
  intros Hs Hv. revert s ps m Hs. induction Hv as [|op ops Hop _ IH]; intros s ps m Hs; cbn [run_sys]; [by exists s, ps, m|].
  destruct (run_sys_op_inv op s ps m Hs Hop) as (s1 & ps1 & m1 & E & Hs1). unfold fbind. rewrite E. by eapply IH.
Qed.


End System.

(** ** Witnesses *)

Lemma toy_print_some fs : is_Some (@cJSON_Print (toy_json (JObj [])) fs).
Proof. eexists. reflexivity. Qed.

Definition demo_start : app_state := demo_app demo_net.

Lemma demo_start_ok : app_ok demo_cfg demo_start [] ∅.
Proof.
  split; [exists demo_hash; exact demo_net_ok|exact no_packets_rep|]. split; [|done]. split; [|constructor].
  intros d r Hd. cbn in Hd. by rewrite lookup_empty in Hd.
Qed.

(** A message of the server in two segments, and a terminal that asks for an
    address and reports its state. *)
Definition demo_schedule : list sys_op :=
  [SysServer (demo_page 5 300); SysLogic; SysReceive 7 [128; 7; 0; 0; 0; 130]; SysOperation; SysOperation; SysResult 5 0;
   SysOperation; SysLogic; SysResult 5 0; SysOperation; SysReceive 7 [128; 7; 0; 0; 0; 11; 123; 125]; SysLogic; SysLogic;
   SysOperation; SysLogic].

Lemma demo_schedule_valid : Forall op_valid demo_schedule.
Proof.
  unfold demo_schedule. repeat (apply Forall_cons; split); try exact I; try apply Forall_nil_2.
  - split_and!; [done|vm_compute; congruence|repeat constructor; vm_compute; congruence|vm_compute; congruence..].
  - split; [apply (bool_decide_unpack _); vm_compute; exact I|]. right. right. vm_compute. split; intros ?; discriminate.
  - split; [apply (bool_decide_unpack _); vm_compute; exact I|]. right. right. vm_compute. split; intros ?; discriminate.
Qed.

Local Abbreviation demo_run :=
  (@run_sys demo_json (toy_json (JObj [])) demo_cfg (λ _, None) demo_flash zlen id demo_schedule).


