(* ===== verification/Transfer.v ===== *)
(** * The transfer of an image

    From the end of a download to the last block: every block is queued by the
    result of the one before, so the radio task, the callback of the protocol
    stack and the logic task take turns.  The theorem here follows the turns to
    the end. *)

From stdpp Require Import strings.
From S2P Require Import Prelude ManagerList Coding DataPacket UserId Operation NetMsg Update Logic System.

(** A broadcast waits for the radio task; nothing else is on its way. *)
Record waiting (h : lheap task_state) (d : Z) (pl : list Z) (fn : manager_message_exe_result) : Prop := {
  wa_list : is_list h wiota_send_manager_list [];
  wa_mem : oks h = [];
  wa_op : op_q (ext h) = [MANAGER_OPERATION_OTA_RADIO d];
  wa_logic : logic_q (ext h) = [];
  wa_rec : recs (ext h) !! d = Some (ota_record pl fn);
  wa_next : d < nextp (ext h);
  wa_run : running (ext h) = true
}.

(** It was sent, and its result waits for the logic task. *)
Record answered_to (h : lheap task_state) (d : Z) (pl : list Z) (fn : manager_message_exe_result) : Prop := {
  an_list : is_list h wiota_send_manager_list [];
  an_mem : oks h = [];
  an_op : op_q (ext h) = [];
  an_logic : logic_q (ext h) = [MANAGER_LOGIC_SEND_RESULT d];
  an_rec : recs (ext h) !! d = Some (ota_record pl fn);
  an_next : d < nextp (ext h);
  an_run : running (ext h) = true
}.

(** The step of the task when the loop goes on. *)
Lemma task_step_on h m q h' :
  op_q (ext h) = m :: q → manager_operation_msg m (with_ext (set_op_q q (ext h)) h) = Ok (tt, h') → running (ext h') = true →
  manager_operation_task_step h = Ok (tt, h').
Proof.
  intros Hq E Hr. unfold manager_operation_task_step, manager_operation_step. rewrite fbind_assoc.
  erewrite bind_Ok by reflexivity. rewrite Hq, fbind_assoc. erewrite bind_Ok by apply mod_task_eq.
  rewrite fbind_assoc, (bind_Ok _ _ _ _ _ E), fbind_assoc. erewrite bind_Ok by reflexivity. rewrite Hr. done.
Qed.

Lemma broadcast_step h d pl fn :
  waiting h d pl fn →
  ∃ h1 p, manager_operation_task_step h = Ok (tt, h1) ∧ is_list h1 wiota_send_manager_list [(p, d)] ∧ oks h1 = [] ∧
    ext h1 = noted (EvBroadcast d true pl) (set_op_q [] (ext h)).
Proof.
  intros [Hl Ho Hop Hlo Hr Hn Hrun].
  destruct (insert_inv (with_ext (set_op_q [] (ext h)) h) [] d) as (h1 & p & E & Hl1 & He1 & Ho1);
    [by apply is_list_ext|done|].
  exists (with_ext (noted (EvBroadcast d true pl) (ext h1)) h1), p. split_and!; [|by apply is_list_ext|done|cbn; by rewrite He1].
  eapply task_step_on; [exact Hop| |cbn; rewrite He1; done]. cbn [manager_operation_msg].
  erewrite bind_Ok by (apply get_rec_eq; exact Hr). rewrite (bind_Ok _ _ _ _ _ E), emit_eq. done.
Qed.

Lemma result_msg_step h d p pl fn :
  is_list h wiota_send_manager_list [(p, d)] → oks h = [] → op_q (ext h) = [MANAGER_OPERATION_OTA_RADIO_RESULT] →
  recs (ext h) !! d = Some (ota_record pl fn) → logic_q (ext h) = [] → running (ext h) = true →
  ∃ h1, manager_operation_task_step h = Ok (tt, h1) ∧ is_list h1 wiota_send_manager_list [] ∧ oks h1 = [] ∧
    ext h1 = set_logic_q [MANAGER_LOGIC_SEND_RESULT d] (noted (EvReport d MANAGER_SEND_DEFAULT) (set_op_q [] (ext h))).
Proof.
  intros Hl Ho Hop Hr Hlo Hrun. set (h0 := with_ext (set_op_q [] (ext h)) h).
  assert (is_list h0 wiota_send_manager_list [(p, d)]) as Hl0 by by apply is_list_ext.
  assert (scan manager_ota_remove_cb [(p, d)] (ext h0) = (Some ([], (p, d), []), ext h0)) as Hs.
  { cbn. rewrite Hr. done. }
  destruct (remove_at h0 [] p d [] Hl0 _ Hs) as (h1 & E1 & Hl1 & He1 & Ho1).
  assert (oks h1 = []) as Ho1' by (rewrite Ho1; exact Ho). clear Ho1.
  exists (with_ext (set_logic_q [MANAGER_LOGIC_SEND_RESULT d] (noted (EvReport d MANAGER_SEND_DEFAULT) (ext h1))) h1).
  split_and!; [|by apply is_list_ext|exact Ho1'|cbn; by rewrite He1].
  eapply task_step_on; [exact Hop| |cbn; rewrite He1; done]. fold h0. cbn [manager_operation_msg]. unfold manager_ota_result_msg.
  erewrite bind_Ok by (by apply query_spec; [apply pure_ota|]). rewrite Hs. cbn [fst].
  destruct (node_at h0 wiota_send_manager_list [] p d [] Hl0) as (_ & Hd & _).
  erewrite bind_Ok by (by apply get_data_eq). rewrite (bind_Ok _ _ _ _ _ E1).
  erewrite bind_Ok by (apply (get_rec_eq d (ota_record pl fn)); rewrite He1; exact Hr).
  erewrite bind_Ok by apply emit_eq. rewrite to_logic_eq by exact Ho1'.
  cbn [ext with_ext]. do 2 f_equal. unfold pushed, set_trace. cbn [logic_q]. rewrite He1. cbn [logic_q set_op_q h0 ext with_ext].
  rewrite Hlo. done.
Qed.

(** The way of one broadcast through the radio task. *)
Lemma transmit h d pl fn :
  waiting h d pl fn →
  ∃ h1 h2 h3, manager_operation_task_step h = Ok (tt, h1) ∧ uc_send_radio_ota_callback h1 = Ok (tt, h2) ∧
    manager_operation_task_step h2 = Ok (tt, h3) ∧ answered_to h3 d pl fn ∧ nextp (ext h3) = nextp (ext h) ∧
    trace (ext h3) = trace (ext h) ++ [EvBroadcast d true pl; EvReport d MANAGER_SEND_DEFAULT].
Proof.
  intros Hw. destruct (broadcast_step h d pl fn Hw) as (h1 & p & E1 & Hl1 & Ho1 & He1).
  destruct Hw as [Hl Ho Hop Hlo Hr Hn Hrun].
  set (h2 := with_ext (pushed operation_queue MANAGER_OPERATION_OTA_RADIO_RESULT (ext h1)) h1).
  assert (ext h2 = set_op_q [MANAGER_OPERATION_OTA_RADIO_RESULT] (ext h1)) as He2.
  { cbn. unfold pushed. rewrite He1. done. }
  destruct (result_msg_step h2 d p pl fn) as (h3 & E3 & Hl3 & Ho3 & He3).
  - by apply is_list_ext.
  - done.
  - rewrite He2. done.
  - rewrite He2, He1. done.
  - rewrite He2, He1. done.
  - rewrite He2, He1. done.
  - exists h1, h2, h3. split; [done|]. split; [by apply to_operation_eq|]. split; [done|].
    rewrite He2, He1 in He3. split; [split; rewrite ?He3; done|]. rewrite He3. cbn. rewrite <- app_assoc. done.
Qed.

(** An empty queue takes the message of a new record. *)
Lemma handed_first mt r t :
  op_q t = [] → handed mt r t = set_op_q [mt (nextp t)] (set_nextp (nextp t + 1) (set_recs (<[nextp t := r]> (recs t)) t)).
Proof. intros Hq. unfold handed, pushed. cbn [op_q set_nextp set_recs]. rewrite Hq. done. Qed.

(** What was broadcast. *)
Definition broadcast_of (e : event) : option (list Z) := match e with EvBroadcast _ true data => Some data | _ => None end.
Definition broadcasts (tr : list event) : list (list Z) := omap broadcast_of tr.

Section Transfer.
Context `{AddressJson} `{CJson}.
Context (cfg : frame_config) (positions : list Z → option (list uc_dev_pos_t)).
Context (uc_wiota_flash_read : Z → Z → list Z) (strlen_freed : list Z → Z) (behind : list Z → list Z).
Local Abbreviation step := (manager_wiota_task_step cfg positions uc_wiota_flash_read strlen_freed behind).
Local Abbreviation run := (run_sys cfg positions uc_wiota_flash_read strlen_freed behind).

Hypothesis flash_len : ∀ a n, 0 <= n → zlen (uc_wiota_flash_read a n) = n.
Hypothesis flash_split : ∀ a n k, 0 <= n → 0 <= k →
  uc_wiota_flash_read a (n + k) = uc_wiota_flash_read a n ++ uc_wiota_flash_read (a + n) k.
Hypothesis freed_kept : ∀ d, strlen_freed d = zlen d.

(** One broadcast and its result. *)
Definition round : list sys_op := [SysOperation; SysOtaDone; SysOperation; SysLogic].

Lemma run_tasks op (t : FW (lheap task_state) unit) ops s h :
  (∀ s, run_sys_op cfg positions uc_wiota_flash_read strlen_freed behind op s = app_tasks t s) →
  t (tasks (net_of s)) = Ok (tt, h) →
  run (op :: ops) s = run ops (with_app_net {| tasks := h; book := book (net_of s) |} s).
Proof. intros Hop E. cbn [run_sys]. unfold fbind. rewrite Hop, (app_tasks_Ok _ _ _ _ E). done. Qed.

Lemma round_run s d pl fn :
  waiting (tasks (net_of s)) d pl fn →
  ∃ h, run round s = run [SysLogic] (with_app_net {| tasks := h; book := book (net_of s) |} s) ∧ answered_to h d pl fn ∧
    nextp (ext h) = nextp (task_of s) ∧
    trace (ext h) = trace (task_of s) ++ [EvBroadcast d true pl; EvReport d MANAGER_SEND_DEFAULT].
Proof.
  intros Hw. destruct (transmit _ d pl fn Hw) as (h1 & h2 & h3 & E1 & E2 & E3 & Ha & Hn & Ht).
  exists h3. split_and!; [|done..]. unfold round.
  rewrite (run_tasks SysOperation _ _ s h1 (λ _, eq_refl) E1).
  rewrite (run_tasks SysOtaDone _ _ (with_app_net {| tasks := h1; book := book (net_of s) |} s) h2 (λ _, eq_refl) E2).
  rewrite (run_tasks SysOperation _ _ (with_app_net {| tasks := h2; book := book (net_of s) |} s) h3 (λ _, eq_refl) E3).
  done.
Qed.

(** The result of one broadcast queues the next one. *)
Lemma logic_queues_next s d pl fn pl' fn' u' :
  answered_to (tasks (net_of s)) d pl fn →
  let s1 := with_task (set_logic_q [] (task_of s)) s in
  call_result_function cfg uc_wiota_flash_read strlen_freed fn d s1 =
    Ok (tt, {| upd := sent_ota pl' fn' {| un := net_of s1; up := u'; up_log := up_log (upd s) |}; packets := packets s;
               id_timer := id_timer s |}) →
  ∃ s', step s = Ok (tt, s') ∧ waiting (tasks (net_of s')) (nextp (task_of s)) pl' fn' ∧ up (upd s') = u' ∧
    book (net_of s') = book (net_of s) ∧ packets s' = packets s ∧ trace (task_of s') = trace (task_of s).
Proof.
  intros [Hl Ho Hop Hlo Hr Hn Hrun] s1 Hc. change (ext (tasks (net_of s))) with (task_of s) in *. set (s2 := {| upd := _ |}) in Hc.
  assert (task_of s2 = handed MANAGER_OPERATION_OTA_RADIO (ota_record pl' fn') (set_logic_q [] (task_of s))) as Ht2 by done.
  assert (recs (task_of s2) = <[nextp (task_of s) := ota_record pl' fn']> (recs (task_of s)) ∧
          op_q (task_of s2) = [MANAGER_OPERATION_OTA_RADIO (nextp (task_of s))] ∧ logic_q (task_of s2) = [] ∧
          nextp (task_of s2) = nextp (task_of s) + 1 ∧ trace (task_of s2) = trace (task_of s) ∧
          running (task_of s2) = true) as (Hrecs & Hop2 & Hlo2 & Hn2 & Htr2 & Hrun2).
  { rewrite Ht2, handed_first by exact Hop. done. }
  assert (recs (task_of s2) !! d = Some (ota_record pl fn)) as Hr2 by (rewrite Hrecs, lookup_insert_ne by lia; done).
  pose proof (result_step cfg positions uc_wiota_flash_read strlen_freed behind s d [] _ _ s2 _ Hlo Hr eq_refl Hc Hr2) as E.
  set (t := set_recs _ (task_of s2)) in E. exists (with_task t s2). split; [exact E|]. rewrite task_of_with.
  split; [|split_and!; [done..|exact Htr2]].
  assert (is_list (tasks (net_of s2)) wiota_send_manager_list []) as Hl2 by by apply is_list_ext, is_list_ext.
  split; [by apply is_list_ext|exact Ho|exact Hop2|exact Hlo2| |change (nextp (task_of s) < nextp (task_of s2)); lia|exact Hrun2].
  change (ext (tasks (net_of (with_task t s2)))) with t. unfold t. cbn [recs set_recs].
  rewrite Hrecs, lookup_delete_ne by lia. apply lookup_insert_eq.
Qed.

(** The broadcast of one message, up to the turn of the logic task. *)
Lemma round_to_logic s d pl fn :
  waiting (tasks (net_of s)) d pl fn →
  ∃ s1, run round s = run [SysLogic] s1 ∧ answered_to (tasks (net_of s1)) d pl fn ∧ book (net_of s1) = book (net_of s) ∧
    up (upd s1) = up (upd s) ∧ nextp (task_of s1) = nextp (task_of s) ∧ packets s1 = packets s ∧
    trace (task_of s1) = trace (task_of s) ++ [EvBroadcast d true pl; EvReport d MANAGER_SEND_DEFAULT].
Proof.
  intros Hw. destruct (round_run s d pl fn Hw) as (h & E & Ha & Hn & Ht). eexists. split; [exact E|]. split_and!; done.
Qed.

Lemma run_logic s s' : step s = Ok (tt, s') → run [SysLogic] s = Ok (tt, s').
Proof. intros E. cbn [run_sys run_sys_op]. rewrite (bind_Ok _ _ _ _ _ E). done. Qed.

(** A round whose result function queues another broadcast. *)
Lemma round_with s d pl fn pl' fn' u' :
  waiting (tasks (net_of s)) d pl fn →
  (∀ s1, mem_free (upd s1) → up (upd s1) = up (upd s) → book (net_of s1) = book (net_of s) →
     call_result_function cfg uc_wiota_flash_read strlen_freed fn d s1 =
       Ok (tt, {| upd := sent_ota pl' fn' (with_up (λ _, u') (upd s1)); packets := packets s1; id_timer := id_timer s1 |})) →
  ∃ s' d', run round s = Ok (tt, s') ∧ waiting (tasks (net_of s')) d' pl' fn' ∧ up (upd s') = u' ∧
    book (net_of s') = book (net_of s) ∧
    trace (task_of s') = trace (task_of s) ++ [EvBroadcast d true pl; EvReport d MANAGER_SEND_DEFAULT].
Proof.
  intros Hw Hc. destruct (round_to_logic s d _ _ Hw) as (s1 & E & Han & Hb & Hu & _ & _ & Htr).
  destruct (logic_queues_next s1 d _ _ pl' fn' u' Han) as (s' & E' & Hw' & Hu' & Hb' & _ & Htr').
  { rewrite Hc; [done| |exact Hu|exact Hb]. exact (an_mem _ _ _ _ Han). }
  exists s', (nextp (task_of s1)). rewrite E, (run_logic _ _ E'), Htr', Htr, Hb', Hb. done.
Qed.

(** *** The blocks of an image *)

Context (i : t_manager_update_info) (hash : list (list t_manager_address)) (ids : list Z) (text : Z → list Z) (st : list Z).
Local Abbreviation n := (file_len i).
Local Abbreviation off k := (k * MANAGER_OTA_SEND_BIN_SIZE).
Local Abbreviation size k := (block_size (off k) n).

(** The texts of the blocks and of the last message fit. *)
Hypothesis text_ok : ∀ k, 0 <= k → off k < n →
  block_text hash i ids (off k) (size k) = Some (text k) ∧ zlen (text k) + size k <= APP_MAX_CODING_DATA_LEN.
Hypothesis state_ok : state_text i MANAGER_OTA_STOP = Some st ∧ zlen st <= APP_MAX_CODING_DATA_LEN.

Definition block_pload (k : Z) : list Z :=
  fields block_header ++ text k ++ block_bytes uc_wiota_flash_read (off k) (size k).

(** Block [k] waits for the radio task. *)
Record sending (s : app_state) (k d : Z) : Prop := {
  se_wait : waiting (tasks (net_of s)) d (block_pload k) manager_ota_msg_result_fn;
  se_image : image_ok cfg (upd s) hash ids;
  se_info : info (up (upd s)) = i;
  se_addr : ota_op_address (up (upd s)) = UC_OTA_PARTITION_START_ADDRESS + off k + size k;
  se_block : 0 <= k ∧ off k < n
}.

Lemma next_offset k : off k < n →
  (off (k + 1) < n → off k + size k = off (k + 1)) ∧ (n <= off (k + 1) → n <= off k + size k < n + 4).
Proof.
  unfold block_size, MANAGER_OTA_SEND_BIN_SIZE. intros Hk. destruct (Z.gtb_spec (k * 512 + 512) n); [|lia].
  pose proof (RT_ALIGN_4_bounds (n - k * 512)). lia.
Qed.


Lemma round_next s k d :
  sending s k d → off (k + 1) < n →
  ∃ s' d', run round s = Ok (tt, s') ∧ sending s' (k + 1) d' ∧
    trace (task_of s') = trace (task_of s) ++ [EvBroadcast d true (block_pload k); EvReport d MANAGER_SEND_DEFAULT].
Proof using flash_len freed_kept text_ok.
  intros [Hw [Hm Hb Hi Hnum Hlen] Hinf Ha [Hk Hoff]] Hnext. destruct (next_offset k Hoff) as [Hno _]. specialize (Hno Hnext).
  destruct (text_ok (k + 1)) as [Ht Hz]; [lia|done|].
  destruct (round_with s d _ _ (block_pload (k + 1)) manager_ota_msg_result_fn
    (set_ota_op_address (UC_OTA_PARTITION_START_ADDRESS + off (k + 1) + size (k + 1)) (up (upd s))) Hw)
    as (s' & d' & E & Hw' & Hu' & Hb' & Htr').
  { intros s1 Hm1 Hu1 Hb1. cbn [call_result_function]. unfold on_upd, manager_ota_msg_result.
    pose proof (send_page_block cfg uc_wiota_flash_read strlen_freed flash_len freed_kept (upd s1) hash ids (off (k + 1))
      (text (k + 1))) as Hsend. cbv zeta in Hsend. rewrite Hu1, Hinf in Hsend.
    unfold block_pload. erewrite bind_Ok; [|apply Hsend].
    - unfold with_up. rewrite Hu1. done.
    - unfold net_of in Hb1. split; rewrite ?Hu1, ?Hb1, ?Hinf in *; done.
    - rewrite Ha. lia.
    - unfold MANAGER_OTA_SEND_BIN_SIZE in *. lia.
    - exact Ht.
    - exact Hz. }
  exists s', d'. split; [done|]. split; [|done].
  split; [exact Hw'| |rewrite Hu'; exact Hinf|rewrite Hu'; done|lia].
  unfold net_of in Hb'. split; rewrite ?Hu', ?Hb'; try done. exact (wa_mem _ _ _ _ Hw').
Qed.

(** Behind the last block the state of the transfer is broadcast. *)
Lemma round_last s k d :
  sending s k d → n <= off (k + 1) →
  ∃ s' d', run round s = Ok (tt, s') ∧ waiting (tasks (net_of s')) d' (state_pload st) manager_ota_state_result_fn ∧
    up (upd s') = set_ota_op_address UC_OTA_PARTITION_START_ADDRESS (set_up_state MANAGER_UPDATE_STOP (up (upd s))) ∧
    trace (task_of s') = trace (task_of s) ++ [EvBroadcast d true (block_pload k); EvReport d MANAGER_SEND_DEFAULT].
Proof using state_ok.
  intros [Hw [Hm Hb Hi Hnum Hlen] Hinf Ha [Hk Hoff]] Hnext. destruct (next_offset k Hoff) as [_ Hno]. specialize (Hno Hnext).
  rewrite Hinf in Hlen. destruct state_ok as [Hst Hsz].
  destruct (round_with s d _ _ (state_pload st) manager_ota_state_result_fn
    (set_ota_op_address UC_OTA_PARTITION_START_ADDRESS (set_up_state MANAGER_UPDATE_STOP (up (upd s)))) Hw)
    as (s' & d' & E & Hw' & Hu' & Hb' & Htr'); [|by exists s', d'].
  intros s1 Hm1 Hu1 Hb1. cbn [call_result_function]. unfold on_upd, manager_ota_msg_result.
  erewrite bind_Ok; [|apply (send_page_end cfg uc_wiota_flash_read strlen_freed (upd s1) st); rewrite ?Hu1, ?Hinf; try done].
  - unfold with_up. rewrite Hu1. done.
  - rewrite Ha. unfold UC_OTA_PARTITION_START_ADDRESS in *. lia.
  - lia.
Qed.

(** The last result is taken: nothing is on its way any more. *)
Record idle (h : lheap task_state) : Prop := {
  id_list : is_list h wiota_send_manager_list [];
  id_mem : oks h = [];
  id_op : op_q (ext h) = [];
  id_logic : logic_q (ext h) = [];
  id_run : running (ext h) = true
}.

Lemma round_end s d pl :
  waiting (tasks (net_of s)) d pl manager_ota_state_result_fn →
  ∃ s', run round s = Ok (tt, s') ∧ idle (tasks (net_of s')) ∧ up (upd s') = up (upd s) ∧
    trace (task_of s') = trace (task_of s) ++ [EvBroadcast d true pl; EvReport d MANAGER_SEND_DEFAULT].
Proof.
  intros Hw. destruct (round_to_logic s d _ _ Hw) as (s1 & E & [Hl Ho Hop Hlo Hr _ Hrun] & _ & Hu & _ & _ & Htr).
  pose proof (result_step cfg positions uc_wiota_flash_read strlen_freed behind s1 d [] _ _ _ _ Hlo Hr eq_refl eq_refl Hr) as E'.
  eexists. rewrite E. split; [exact (run_logic _ _ E')|]. split; [|split; [exact Hu|exact Htr]].
  split; [by apply is_list_ext, is_list_ext|done..].
Qed.

(** The rounds of the blocks from [k] on. *)
Definition block_count : Z := (n + MANAGER_OTA_SEND_BIN_SIZE - 1) / MANAGER_OTA_SEND_BIN_SIZE.
Definition rounds (m : nat) : list sys_op := concat (replicate m round).

Lemma more_blocks k : off (k + 1) < n ↔ k + 1 < block_count.
Proof using Type. clear. unfold block_count, MANAGER_OTA_SEND_BIN_SIZE. split; intros ?; Z.div_mod_to_equations; lia. Qed.

Lemma broadcasts_round tr d pl :
  broadcasts (tr ++ [EvBroadcast d true pl; EvReport d MANAGER_SEND_DEFAULT]) = broadcasts tr ++ [pl].
Proof. unfold broadcasts. rewrite omap_app. done. Qed.

Lemma run_round m s s' : run round s = Ok (tt, s') → run (rounds (S m)) s = run (rounds m) s'.
Proof. intros E. unfold rounds. cbn [replicate concat]. rewrite run_sys_app, (bind_Ok _ _ _ _ _ E). done. Qed.

Lemma rounds_all m : ∀ k s d,
  sending s k d → Z.of_nat m = block_count - k →
  ∃ s', run (rounds (S m)) s = Ok (tt, s') ∧ idle (tasks (net_of s')) ∧ up_state (up (upd s')) = MANAGER_UPDATE_STOP ∧
    broadcasts (trace (task_of s')) = broadcasts (trace (task_of s)) ++ map block_pload (seqZ k (Z.of_nat m)) ++ [state_pload st].
Proof using flash_len freed_kept text_ok state_ok.
  induction m as [|m IH]; intros k s d Hs Hm.
  - destruct (se_block _ _ _ Hs) as [Hk Ho]. pose proof (more_blocks (k - 1)) as Hb. replace (k - 1 + 1) with k in Hb by lia.
    apply Hb in Ho. lia.
  - rewrite seqZ_cons by lia. cbn [map]. replace (Z.pred (Z.of_nat (S m))) with (Z.of_nat m) by lia. rewrite <- Z.add_1_r.
    destruct (Z_lt_ge_dec (off (k + 1)) n) as [Hlt|Hge].
    + destruct (round_next s k d Hs Hlt) as (s1 & d1 & E & Hs1 & Htr). rewrite (run_round _ _ _ E).
      destruct (IH (k + 1) s1 d1 Hs1 ltac:(lia)) as (s' & E' & Hi & Hu & Hb). exists s'.
      rewrite Hb, Htr, broadcasts_round, <- app_assoc. done.
    + assert (m = 0%nat) as ->. { destruct (more_blocks k) as [_ Hb]. destruct m; [done|lia]. }
      destruct (round_last s k d Hs ltac:(lia)) as (s1 & d1 & E & Hw & Hu & Htr). rewrite (run_round _ _ _ E).
      destruct (round_end s1 d1 _ Hw) as (s' & E' & Hi & Hu' & Htr'). rewrite (run_round _ _ _ E'). exists s'.
      split; [done|]. split; [done|]. split; [rewrite Hu', Hu; done|].
      rewrite Htr', broadcasts_round, Htr, broadcasts_round, <- app_assoc. done.
Qed.

(** The blocks are the image, filled up to whole words. *)
Lemma image_bytes m : ∀ k, 0 <= k → off k < n → Z.of_nat m = block_count - k →
  concat (map (λ k, block_bytes uc_wiota_flash_read (off k) (size k)) (seqZ k (Z.of_nat m))) =
  uc_wiota_flash_read (UC_OTA_PARTITION_START_ADDRESS + off k) (RT_ALIGN n 4 - off k).
Proof using flash_split.
  clear - flash_split. induction m as [|m IH]; intros k Hk Ho Hm.
  - pose proof (more_blocks (k - 1)) as Hb. replace (k - 1 + 1) with k in Hb by lia. apply Hb in Ho. lia.
  - rewrite seqZ_cons by lia. cbn [map concat]. replace (Z.pred (Z.of_nat (S m))) with (Z.of_nat m) by lia.
    rewrite <- Z.add_1_r. unfold block_bytes at 1. pose proof (more_blocks k) as Hmore.
    destruct (Z_lt_ge_dec (off (k + 1)) n) as [Hlt|Hge].
    + rewrite IH by lia. unfold block_size. rewrite Z.gtb_ltb, (proj2 (Z.ltb_ge _ _)) by lia.
      replace (UC_OTA_PARTITION_START_ADDRESS + off (k + 1))
        with (UC_OTA_PARTITION_START_ADDRESS + off k + MANAGER_OTA_SEND_BIN_SIZE) by lia.
      pose proof (RT_ALIGN_4_bounds n). rewrite <- flash_split; [f_equal; lia|done|lia].
    + assert (m = 0%nat) as -> by lia. cbn [seqZ Z.of_nat]. change (seqZ (k + 1) 0) with (@nil Z). cbn [map concat].
      rewrite app_nil_r. f_equal. unfold block_size, MANAGER_OTA_SEND_BIN_SIZE in *.
      rewrite !RT_ALIGN_4. destruct (Z.gtb_spec (k * 512 + 512) n); Z.div_mod_to_equations; lia.
Qed.

(** The end of the download starts the first block. *)
Lemma start_logic s :
  let h := tasks (net_of s) in
  is_list h wiota_send_manager_list [] → oks h = [] → op_q (ext h) = [] → running (ext h) = true →
  logic_q (ext h) = [MANAGER_LOGIC_FROM_HTTP_MESSAGE HTTP_DOWNLOAD_OK n] →
  i = set_file_len n (info (up (upd s))) → image_ok cfg (with_up (transfer_started n 0) (upd s)) hash ids →
  0 < n → active_state i ≠ 0 → ids ≠ [] → AP_DEFAULT_ADDRESS ∉ ids →
  ∃ s' d, run [SysLogic] s = Ok (tt, s') ∧ sending s' 0 d ∧ trace (task_of s') = trace (task_of s).
Proof using flash_len freed_kept text_ok.
  intros h Hl Ho Hop Hrun Hlo Hi Him Hn Hact Hne Hap. destruct (text_ok 0) as [Ht Hz]; [lia|lia|].
  set (s1 := with_task (set_logic_q [] (task_of s)) s).
  assert (image_ok cfg (with_up (transfer_started n 0) (upd s1)) hash ids) as Him1 by (destruct Him as [A1 A2 A3 A4 A5]; split; [exact A1|exact A2|exact A3|exact A4|exact A5]).
  assert (info (up (with_up (transfer_started n 0) (upd s1))) = i) as Hinf by (symmetry; exact Hi).
  pose proof (start_update_eq cfg uc_wiota_flash_read strlen_freed flash_len freed_kept (upd s1) hash ids n (text 0)
    Him1 Hn ltac:(rewrite Hi in Hact; exact Hact) Hne Hap ltac:(rewrite Hinf; exact Ht) Hz) as E.
  assert (step s = Ok (tt, {| upd := sent_ota (block_pload 0) manager_ota_msg_result_fn
    (with_up (transfer_started n (size 0)) (upd s1)); packets := packets s; id_timer := id_timer s |})) as Es.
  { unfold manager_wiota_task_step.
    erewrite bind_Ok by (rewrite (app_tasks_Ok get_task s _ _ eq_refl), app_tasks_id; reflexivity).
    fold h. rewrite Hlo. rewrite (bind_Ok _ _ s tt s1) by apply app_tasks_Ok, mod_task_eq. cbn [logic_message].
    rewrite (bind_Ok _ _ _ _ _ (on_upd_Ok _ s1 _ _ E)). done. }
  set (s2 := {| upd := _ |}) in Es.
  assert (ext (tasks (net_of s2)) = set_op_q [MANAGER_OPERATION_OTA_RADIO (nextp (task_of s))]
    (set_nextp (nextp (task_of s) + 1) (set_recs (<[nextp (task_of s) := ota_record (block_pload 0) manager_ota_msg_result_fn]>
      (recs (task_of s))) (set_logic_q [] (task_of s))))) as He by exact (handed_first _ _ (set_logic_q [] (task_of s)) Hop).
  exists s2, (nextp (task_of s)). split; [exact (run_logic _ _ Es)|].
  split; [|change (trace (ext (tasks (net_of s2))) = trace (task_of s)); rewrite He; done].
  split; [|destruct Him as [A1 A2 A3 A4 A5]; split; [exact A1|exact A2|exact A3|exact A4|exact A5]|symmetry; exact Hi|done|lia].
  split; [by apply is_list_ext, is_list_ext|exact Ho|rewrite He; done..| |rewrite He; cbn; lia|rewrite He; exact Hrun].
  rewrite He. apply lookup_insert_eq.
Qed.

End Transfer.

(** ** Witness *)

Definition linear_flash (a n : Z) : list Z := map (λ x, x mod 251) (seqZ a n).
Lemma linear_flash_len a n : 0 <= n → zlen (linear_flash a n) = n.
Proof. intros Hn. unfold linear_flash, zlen. rewrite length_map, length_seqZ. lia. Qed.
Lemma linear_flash_split a n k : 0 <= n → 0 <= k → linear_flash a (n + k) = linear_flash a n ++ linear_flash (a + n) k.
Proof. intros Hn Hk. unfold linear_flash. rewrite seqZ_app, map_app by done. done. Qed.

(** An image of 1300 bytes was loaded: three blocks. *)
Definition demo_loaded : app_state :=
  {| upd := {| un := {| tasks := with_ext (set_logic_q [MANAGER_LOGIC_FROM_HTTP_MESSAGE HTTP_DOWNLOAD_OK 1300]
                                             (ext (tasks demo_net))) (tasks demo_net); book := book demo_net |};
               up := up (demo_update MANAGER_UPDATE_DOWN_PAGE 1300 0 None); up_log := [] |};
     packets := no_packets; id_timer := false |}.

