(* ===== verification/NetPass.v ===== *)
(** * The connection to the server

    app/net_passthrough/net_passthrough.c: the task that publishes what the
    terminals and the access point report, turns requests of the server into
    messages of the logic task, and answers them.  Topics and payloads are C
    strings in buffers of fixed size; a buffer is the list of its bytes.  The
    MQTT client is what it publishes; cJSON is a parameter. *)

From stdpp Require Import strings.
From S2P Require Import Prelude ManagerList Coding DataPacket UserId Operation NetMsg Update Logic.
#[local] Set Warnings "-register-all".
Local Open Scope fw_scope.

(** manager_logic_cmd.h. *)
Definition APP_CMD_IOTE_REQUEST_NEW_CONFIG : Z := 120.
Definition MANAGER_LOGIC_MQTT_REQUEST : Z := 0xF000000F.
Definition MANAGER_LOGIC_MQTT_RESPONSE : Z := 0xF0000010.
Definition MANAGER_LOGIC_MQTT_EXE_RESPONSE : Z := 0xF0000011.
Definition MQTT_TOPIC_MAX_LENGTH : Z := 64.
Definition MQTT_PAYLOAD_MAX_LENGTH : Z := 512.

(** The bytes of a string literal, without the end mark. *)
Definition text (s : string) : list Z := map (λ a, Z.of_N (Ascii.N_of_ascii a)) (String.list_ascii_of_string s).

Definition PUB_ATTR : list Z := text "v1/devices/me/attributes".
Definition PUB_IOTE_ATTR : list Z := text "v1/gateway/attributes".
Definition PUB_IOTE_STATE : list Z := text "v1/gateway/telemetry".
Definition TOPIC_PLATFORM_RESPONSE : list Z := text "v1/devices/me/rpc/response/".
Definition TOPIC_REQUEST : list Z := text "v1/devices/me/rpc/request/".
Definition slash : Z := 47.
Definition minus : Z := 45.
Definition quote : Z := 34.
Definition sub_client_name : list Z := text "sub_client_".
Definition sub_client_key : list Z := [123; quote] ++ sub_client_name.

(** ** C strings *)

(** rt_strlen reads up to the end mark. *)
Fixpoint c_strlen (buf : list Z) : result Z :=
  match buf with
  | [] => Fault OutOfBounds
  | b :: buf => if b =? 0 then Ok 0 else n <-? c_strlen buf;; Ok (n + 1)
  end.

(** The text in a buffer. *)
Definition c_string (buf : list Z) : list Z := match until_zero buf with Some t => t | None => buf end.

(** [rt_memcpy(buf + rt_strlen(buf), s, rt_strlen(s))] *)
Definition c_append (s buf : list Z) : result (list Z) := e <-? c_strlen buf;; store e s buf.

Definition get_byte (buf : list Z) (i : Z) : result Z :=
  b <-? slice i 1 buf;; match b with [b] => Ok b | _ => Fault OutOfBounds end.

(** ** Numbers as text *)

(** [do { p[i++] = num % 10 + 48; num /= 10; } while (num);] an int has at most
    ten digits. *)
Fixpoint digit_loop (fuel : nat) (num : Z) (buf : list Z) (p i : Z) : result (list Z * Z) :=
  match fuel with
  | O => Fault OutOfFuel
  | S fuel =>
      buf <-? store (p + i) [u8 (Z.rem num 10 + 48)] buf;;
      let num := Z.quot num 10 in
      if num =? 0 then Ok (buf, i + 1) else digit_loop fuel num buf p (i + 1)
  end.

(** Both ends are exchanged by sums and differences of [char]s. *)
Fixpoint swap_loop (fuel : nat) (buf : list Z) (p i j : Z) : result (list Z) :=
  match fuel with
  | O => Fault OutOfFuel
  | S fuel =>
      if j <? Z.shiftr i 1 then
        let k := i - 1 - j in
        a <-? get_byte buf (p + j);; b <-? get_byte buf (p + k);;
        buf <-? store (p + j) [u8 (a + b)] buf;;
        a <-? get_byte buf (p + j);; b <-? get_byte buf (p + k);;
        buf <-? store (p + k) [u8 (a - b)] buf;;
        a <-? get_byte buf (p + j);; b <-? get_byte buf (p + k);;
        buf <-? store (p + j) [u8 (a - b)] buf;;
        swap_loop fuel buf p i (j + 1)
      else Ok buf
  end.

(** The parameter is an int, whatever the caller has. *)
Definition dec2str (arg : Z) (str : list Z) : result (list Z) :=
  let num := s32 arg in
  p <-? c_strlen str;;
  r <-? (if num <? 0 then buf <-? store p [minus] str;; digit_loop 10 (s32 (- num)) buf p 1
         else digit_loop 10 num str p 0);;
  let '(buf, i) := r in
  buf <-? store (p + i) [0] buf;;
  b <-? get_byte buf p;;
  if b =? minus then swap_loop 10 buf p (i + 1) 1 else swap_loop 10 buf p i 0.

(** The index behind the last slash; None for RT_NULL. *)
Fixpoint slash_loop (n : nat) (s : list Z) : result (option Z) :=
  match n with
  | O => Ok None
  | S n =>
      b <-? get_byte s (Z.of_nat n);;
      if b =? slash then Ok (if Z.of_nat n =? 0 then None else Some (Z.of_nat n + 1)) else slash_loop n s
  end.
Definition find_last_slash (s : list Z) (n : Z) : result (option Z) :=
  b <-? get_byte s 0;;
  if (b =? 0) || (n <=? 0) then Ok None else slash_loop (Z.to_nat n) s.

(** atoi of the C library: leading white space, a sign, digits; a number that
    does not fit becomes the largest or smallest int, as strtol has it. *)
Definition is_space (b : Z) : bool := (b =? 32) || ((9 <=? b) && (b <=? 13)).
Definition is_digit (b : Z) : bool := (48 <=? b) && (b <=? 57).
Fixpoint skip_space (s : list Z) : list Z :=
  match s with b :: s' => if is_space b then skip_space s' else s | [] => [] end.
Fixpoint digits_value (acc : Z) (s : list Z) : Z :=
  match s with b :: s => if is_digit b then digits_value (10 * acc + (b - 48)) s else acc | [] => acc end.
Definition clamp (z : Z) : Z := Z.max (-2147483648) (Z.min z 2147483647).
Definition atoi (s : list Z) : Z :=
  match skip_space s with
  | b :: s' => if b =? minus then clamp (- digits_value 0 s')
               else if b =? 43 then clamp (digits_value 0 s') else clamp (digits_value 0 (b :: s'))
  | [] => 0
  end.

(** ** cJSON *)

(** What is built here: numbers, texts, arrays, objects with texts as keys, and
    values that were parsed, with numbers added to them. *)
Inductive jdoc (J : Type) :=
| DNum (z : Z)
| DStr (s : list Z)
| DArr (l : list (jdoc J))
| DObj (fs : list (list Z * jdoc J))
| DItem (j : J) (added : list (list Z * Z)).
Arguments DNum {J} _. Arguments DStr {J} _. Arguments DArr {J} _. Arguments DObj {J} _. Arguments DItem {J} _ _.

Class CJsonDoc `{CJson} := {
  cJSON_GetObjectItemCaseSensitive : option cJSON → string → option cJSON;
  cJSON_IsArray : cJSON → bool;
  cJSON_ArrayForEach : cJSON → list cJSON;
  valuedouble_unsigned : cJSON → Z;
  cJSON_PrintDoc : jdoc cJSON → option (list Z)
}.

(** ** Data *)

(** What a message of this task carries: data of a terminal (length and text),
    an object the access point made, a request of the server, the result of
    one. *)
Inductive pass_data :=
| PassIote (src_addr data_len : Z) (data : list Z)
| PassObject (fields : list (string * (Z + list Z)))
| PassRequest (nId : Z) (payload : list Z)
| PassResult (response_number result : Z).

Record t_app_passthrough_message := { pt_cmd : Z; pt_data : pass_data }.

(** The message for the logic task; None for a text or addresses that are
    RT_NULL. *)
Record net_page := { pg_len : Z; pg_dest : option (list Z); pg_cmd : Z; pg_number : Z; pg_json : option (list Z) }.

Record pass_state := {
  connected : bool;
  s_nRequestId : Z;
  pass_q : list t_app_passthrough_message;
  published : list (list Z * list Z);
  to_logic : list net_page;
  pass_oks : list bool
}.
Definition set_request_id v s := {| connected := connected s; s_nRequestId := v; pass_q := pass_q s;
  published := published s; to_logic := to_logic s; pass_oks := pass_oks s |}.
Definition set_pass_q v s := {| connected := connected s; s_nRequestId := s_nRequestId s; pass_q := v;
  published := published s; to_logic := to_logic s; pass_oks := pass_oks s |}.
Definition set_published v s := {| connected := connected s; s_nRequestId := s_nRequestId s; pass_q := pass_q s;
  published := v; to_logic := to_logic s; pass_oks := pass_oks s |}.
Definition set_to_logic v s := {| connected := connected s; s_nRequestId := s_nRequestId s; pass_q := pass_q s;
  published := published s; to_logic := v; pass_oks := pass_oks s |}.
Definition set_pass_oks v s := {| connected := connected s; s_nRequestId := s_nRequestId s; pass_q := pass_q s;
  published := published s; to_logic := to_logic s; pass_oks := v |}.

Section Ops.
Context `{CJsonDoc}.
Local Abbreviation M := (FW pass_state).

Definition pass_malloc : M bool :=
  λ s, match pass_oks s with [] => Ok (true, s) | b :: m => Ok (b, set_pass_oks m s) end.

(** rt_calloc and the MEMORY_ASSERT or RT_ASSERT behind it. *)
Definition calloc_or (f : fault) (n : Z) : M (list Z) :=
  ok <-- pass_malloc;;
  if ok : bool then fret (replicate (Z.to_nat n) 0) else ffail f.
Definition need {A} (o : option A) : M A := match o with Some a => fret a | None => ffail NullDeref end.

(** The queue holds half of the 16 messages it was made for. *)
Definition net_to_network_data (m : t_app_passthrough_message) : M Z :=
  ok <-- pass_malloc;;
  if negb ok then fret (-12)
  else
    s <-- fget;;
    if zlen (pass_q s) <? queue_capacity 16 then fmod (set_pass_q (pass_q s ++ [m]));;; fret 0 else fret 1.

(** wiota_mqtt.c: the length is a uint16_t; an empty payload or topic and a
    lost connection are refused. *)
Definition uc_mqtt_publish (topic data : list Z) (nLength : Z) : M Z :=
  s <-- fget;;
  n <-- flift (c_strlen topic);;
  if negb (connected s) || (n =? 0) || (u16 nLength =? 0) then fret (-1)
  else
    d <-- flift (slice 0 (u16 nLength) data);;
    fmod (set_published (published s ++ [(take (Z.to_nat n) topic, d)]));;; fret 0.

(** A payload is published up to its end mark. *)
Definition publish_text (topic payload : list Z) : M unit :=
  n <-- flift (c_strlen payload);;
  uc_mqtt_publish topic payload n;;; fret tt.

(** ** Requests of the server *)

(** Members that are not numbers are left out; the rest stays 0. *)
Definition dest_numbers (n : nat) (items : list cJSON) : list Z :=
  let l := map valuedouble_unsigned (List.filter cJSON_IsNumber items) in
  take n (l ++ replicate n 0).

Definition parse_dest (arr : option cJSON) : M (Z * option (list Z)) :=
  match arr with
  | Some a =>
      if cJSON_IsArray a && negb (cJSON_GetArraySize a =? 0) then
        let n := cJSON_GetArraySize a in
        ok <-- pass_malloc;;
        fret (n, if ok then Some (dest_numbers (Z.to_nat n) (cJSON_ArrayForEach a)) else None)
      else if cJSON_IsNumber a then
        ok <-- pass_malloc;;
        if ok : bool then fret (1, Some [valuedouble_unsigned a]) else ffail NullDeref
      else fret (0, None)
  | None => fret (0, None)
  end.

Definition parse_mqtt_payload (payload : cJSON) (request_number : Z) : M (option net_page) :=
  match cJSON_GetObjectItemCaseSensitive (Some payload) "params" with
  | None => fret None
  | Some param =>
      ' (dest_len, dest_address) <-- parse_dest (cJSON_GetObjectItemCaseSensitive (Some param) "dest_address");;
      let cmd := match cJSON_GetObjectItemCaseSensitive (Some param) "cmd" with
                 | Some c => if cJSON_IsNumber c then valueint c else 0
                 | None => 0
                 end in
      let json := match cJSON_GetObjectItemCaseSensitive (Some param) "data" with
                  | Some d => cJSON_PrintDoc (DItem d [])
                  | None => None
                  end in
      ok <-- pass_malloc;;
      if negb ok then ffail NullDeref
      else fret (Some {| pg_len := u32 (dest_len * 4); pg_dest := dest_address; pg_cmd := cmd;
                         pg_number := u32 request_number; pg_json := json |})
  end.

(** The callback of the MQTT client for a part of a message; only the first
    part has the topic. *)
Definition uc_mqtt_msg_process (topic_name buffer : list Z) (msg_new msg_done : bool) : M unit :=
  ' (topic, nId) <-- (if msg_new then
      let n := Z.min (zlen topic_name) MQTT_TOPIC_MAX_LENGTH in
      topic <-- calloc_or AssertFail (n + 1);;
      topic <-- flift (store 0 (take (Z.to_nat n) topic_name) topic);;
      id <-- flift (find_last_slash topic n);;
      match id with
      | Some k =>
          str <-- flift (slice k (zlen topic - k) topic);;
          fret (Some topic, atoi str)
      | None => fret (Some topic, -1)
      end
    else fret (None, -1));;
  let n := Z.min (zlen buffer) MQTT_PAYLOAD_MAX_LENGTH in
  payload <-- calloc_or AssertFail (n + 1);;
  if negb msg_done then fret tt
  else
    ok <-- pass_malloc;;
    if negb ok then ffail NullDeref
    else
      ok <-- pass_malloc;;
      if negb ok then ffail AssertFail
      else
        topic <-- need topic;;
        let cmd :=
          if bool_decide (take (length TOPIC_REQUEST) topic = TOPIC_REQUEST) then MANAGER_LOGIC_MQTT_REQUEST
          else if bool_decide (take (length TOPIC_PLATFORM_RESPONSE) topic = TOPIC_PLATFORM_RESPONSE)
          then MANAGER_LOGIC_MQTT_RESPONSE else 0 in
        net_to_network_data {| pt_cmd := cmd; pt_data := PassRequest nId (take (Z.to_nat n) buffer) |};;; fret tt.

(** ** Commands *)

(** The data of a terminal; the structure of a request is smaller. *)
Definition iote_data (d : pass_data) : M (Z * Z * list Z) :=
  match d with PassIote src len data => fret (src, len, data) | _ => ffail OutOfBounds end.

Definition cmd_iote_property_report (d : pass_data) : M unit :=
  ' (src, len, data) <-- iote_data d;;
  payload <-- calloc_or NullDeref (u32 (len * 4));;
  payload <-- flift (store 0 sub_client_key payload);;
  payload <-- flift (dec2str src payload);;
  payload <-- flift (c_append [quote; 58] payload);;
  payload <-- flift (c_append data payload);;
  payload <-- flift (c_append [125] payload);;
  publish_text (PUB_IOTE_ATTR ++ [0]) payload.

(** The object the access point made has its printed text as payload. *)
Definition publish_doc (topic : list Z) (doc : option (list Z)) : M unit :=
  match doc with Some t => publish_text topic (t ++ [0]) | None => fret tt end.

Definition object_fields (fs : list (string * (Z + list Z))) : list (list Z * jdoc cJSON) :=
  (λ f, (text f.1, match f.2 with inl z => DNum z | inr t => DStr t end)) <$> fs.

Definition cmd_ap_property_report (d : pass_data) : M unit :=
  match d with
  | PassObject fs => publish_doc (PUB_ATTR ++ [0]) (cJSON_PrintDoc (DObj (object_fields fs)))
  | _ => ffail OutOfBounds
  end.

Definition cmd_iote_state_report (d : pass_data) : M unit :=
  ' (src, len, data) <-- iote_data d;;
  sub_client <-- flift (dec2str src (sub_client_name ++ replicate 19 0));;
  let values := match cJSON_Parse data with Some j => [(text "values", DItem j [])] | None => [] end in
  publish_doc (PUB_IOTE_STATE ++ [0])
    (cJSON_PrintDoc (DObj [(c_string sub_client, DArr [DObj ((text "ts", DNum 50) :: values)])])).

(** The topic of the next request of the access point. *)
Definition next_topic : M (list Z) :=
  s <-- fget;;
  topic <-- flift (store 0 TOPIC_REQUEST (replicate (Z.to_nat MQTT_TOPIC_MAX_LENGTH) 0));;
  fmod (set_request_id (u32 (s_nRequestId s + 1)));;;
  flift (dec2str (s_nRequestId s) topic).

Definition cmd_iote_request (cmd : Z) (d : pass_data) : M unit :=
  ' (src, len, data) <-- iote_data d;;
  calloc_or NullDeref MQTT_TOPIC_MAX_LENGTH;;;
  json_data <-- need (cJSON_Parse data);;
  json_string <-- need (cJSON_PrintDoc (DObj [(text "method", DStr (text "open"));
    (text "params", DItem json_data [(text "cmd", cmd); (text "src_address", src)])]));;
  topic <-- next_topic;;
  publish_text topic (json_string ++ [0]).

Definition cmd_ap_request_reserve_addr (cmd : Z) (d : pass_data) : M unit :=
  match d with
  | PassObject fs =>
      calloc_or AssertFail MQTT_TOPIC_MAX_LENGTH;;;
      topic <-- next_topic;;
      publish_doc topic (cJSON_PrintDoc (DObj [(text "method", DStr (text "test"));
        (text "params", DObj [(text "cmd", DNum cmd); (text "data", DObj (object_fields fs))])]))
  | _ => ffail OutOfBounds
  end.

Definition cmd_mqtt_request_or_response (cmd : Z) (d : pass_data) : M unit :=
  match d with
  | PassRequest nId payload =>
      payload <-- need (cJSON_Parse (c_string payload));;
      info <-- parse_mqtt_payload payload (if cmd =? MANAGER_LOGIC_MQTT_RESPONSE then 0 else nId);;
      match info with
      | Some page => fmod (λ s, set_to_logic (to_logic s ++ [page]) s)
      | None => fret tt
      end
  | _ => ffail OutOfBounds
  end.

Definition res_ok : list Z := [123; quote] ++ text "res" ++ [quote; 58; quote] ++ text "ok" ++ [quote; 125].
Definition res_err : list Z := [123; quote] ++ text "res" ++ [quote; 58; quote] ++ text "err" ++ [quote; 125].

Definition cm_mqtt_exe_response (d : pass_data) : M unit :=
  match d with
  | PassResult response_number result =>
      if negb (response_number =? 0) then
        topic <-- calloc_or AssertFail MQTT_TOPIC_MAX_LENGTH;;
        topic <-- flift (store 0 TOPIC_PLATFORM_RESPONSE topic);;
        topic <-- flift (dec2str response_number topic);;
        publish_text topic ((if result =? MANAGER_SEND_SUCCESS then res_ok else res_err) ++ [0])
      else fret tt
  | _ => ffail OutOfBounds
  end.

Definition pass_dispatch (m : t_app_passthrough_message) : M unit :=
  let cmd := pt_cmd m in
  if cmd =? APP_CMD_IOTE_PROPERTY_REPORT then cmd_iote_property_report (pt_data m)
  else if cmd =? APP_CMD_AP_PROPERTY_REPORT then cmd_ap_property_report (pt_data m)
  else if cmd =? APP_CMD_IOTE_STATE_REPORT then cmd_iote_state_report (pt_data m)
  else if (cmd =? APP_CMD_IOTE_PAIR_REQUEST) || (cmd =? APP_CMD_UPDATE_VERSION_REQUEST) || (cmd =? APP_CMD_IOTE_MUTICAST_REQUEST)
  then cmd_iote_request cmd (pt_data m)
  else if (cmd =? APP_CMD_IOTE_REQUEST_NEW_CONFIG) || (cmd =? WIOTA_AP_REQUEST_RESERVE_ADDR)
  then cmd_ap_request_reserve_addr cmd (pt_data m)
  else if (cmd =? MANAGER_LOGIC_MQTT_REQUEST) || (cmd =? MANAGER_LOGIC_MQTT_RESPONSE)
  then cmd_mqtt_request_or_response cmd (pt_data m)
  else if cmd =? MANAGER_LOGIC_MQTT_EXE_RESPONSE then cm_mqtt_exe_response (pt_data m)
  else fret tt.

(** One turn of the loop of passthrough_manager_task while the server is
    connected. *)
Definition passthrough_step : M unit :=
  s <-- fget;;
  match pass_q s with
  | [] => fret tt
  | m :: q => if connected s then fmod (set_pass_q q);;; pass_dispatch m else fret tt
  end.
End Ops.

(** What the tasks hand to this one (the events of [Operation] that leave for
    the server) as its messages. *)
Definition pass_message (e : event) : option t_app_passthrough_message :=
  match e with
  | EvResponse res number => Some {| pt_cmd := MANAGER_LOGIC_MQTT_EXE_RESPONSE; pt_data := PassResult number res |}
  | EvToNet cmd src data =>
      if cmd =? APP_CMD_AP_PROPERTY_REPORT
      then Some {| pt_cmd := cmd; pt_data := PassObject [("src_address"%string, inl src)] |}
      else if cmd =? WIOTA_AP_REQUEST_RESERVE_ADDR
      then Some {| pt_cmd := cmd; pt_data := PassObject [("src_address"%string, inl src); ("type"%string, inr dev_type_ap)] |}
      else Some {| pt_cmd := cmd; pt_data := PassIote src (zlen data) (c_string data) |}
  | _ => None
  end.

(** ** Numbers *)

(** The digits of a number, the last one first, and as they are written. *)
Fixpoint rev_digits (fuel : nat) (n : Z) : list Z :=
  match fuel with
  | O => []
  | S fuel => n mod 10 + 48 :: if n / 10 =? 0 then [] else rev_digits fuel (n / 10)
  end.
Definition digits (n : Z) : list Z := rev (rev_digits 10 n).
Definition decimal (z : Z) : list Z := if z <? 0 then minus :: digits (- z) else digits z.

Lemma store_front (pre d room : list Z) :
  (length d <= length room)%nat → store (zlen pre) d (pre ++ room) = Ok (pre ++ d ++ drop (length d) room).
Proof.
  intros Hd. pose proof (zlen_nonneg pre). rewrite <- (take_drop (length d) room) at 1.
  rewrite store_Ok by (rewrite ?zlen_app; unfold zlen; rewrite ?length_app, ?length_take; lia).
  rewrite blit_app_mid; [done|done|unfold zlen; rewrite length_take; lia].
Qed.

Lemma get_byte_at (pre rest : list Z) b : get_byte (pre ++ b :: rest) (zlen pre) = Ok b.
Proof. unfold get_byte. rewrite (slice_at pre [b] rest) by done. done. Qed.

Lemma store_byte_at (pre rest : list Z) b c : store (zlen pre) [c] (pre ++ b :: rest) = Ok (pre ++ c :: rest).
Proof. rewrite store_front by (cbn; lia). done. Qed.

Lemma c_strlen_app (pre rest : list Z) : Forall (λ b, b ≠ 0) pre → c_strlen (pre ++ 0 :: rest) = Ok (zlen pre).
Proof.
  induction 1 as [|b pre Hb _ IH]; [done|]. cbn [app c_strlen]. rewrite (proj2 (Z.eqb_neq b 0) Hb), IH. cbn [rbind].
  f_equal. unfold zlen. cbn [length]. lia.
Qed.

Lemma rev_digits_range fuel n : Forall (λ b, 48 <= b < 58) (rev_digits fuel n).
Proof.
  revert n. induction fuel as [|fuel IH]; intros n; cbn [rev_digits]; [done|]. constructor; [pose proof (Z.mod_pos_bound n 10); lia|].
  destruct (n / 10 =? 0); [done|apply IH].
Qed.

Lemma rev_digits_len fuel n : (length (rev_digits fuel n) <= fuel)%nat.
Proof. revert n. induction fuel as [|fuel IH]; intros n; cbn; [done|]. destruct (n / 10 =? 0); cbn; [lia|]. specialize (IH (n / 10)). lia. Qed.

Lemma digit_loop_spec fuel : ∀ n pre room p i,
  0 <= n < 10 ^ Z.of_nat fuel → fuel ≠ O → zlen pre = p + i → (length (rev_digits fuel n) <= length room)%nat →
  digit_loop fuel n (pre ++ room) p i =
    Ok (pre ++ rev_digits fuel n ++ drop (length (rev_digits fuel n)) room, i + zlen (rev_digits fuel n)).
Proof.
  induction fuel as [|fuel IH]; intros n pre room p i Hn Hf Hp Hlen; [done|]. cbn [digit_loop].
  rewrite Z.rem_mod_nonneg, Z.quot_div_nonneg by lia. pose proof (Z.mod_pos_bound n 10 ltac:(lia)).
  rewrite u8_id by (unfold is_u8; lia). rewrite <- Hp. cbn [rev_digits length] in *.
  rewrite store_front by (cbn [length] in *; lia). cbn [rbind length]. destruct (Z.eqb_spec (n / 10) 0) as [E|E].
  - cbn [length]. done.
  - rewrite (app_assoc pre [_]). destruct fuel as [|fuel]; [rewrite Z.pow_1_r in Hn; Z.div_mod_to_equations; lia|].
    rewrite (IH (n / 10) (pre ++ [n mod 10 + 48]) (drop 1 room) p (i + 1)).
    + rewrite drop_drop, <- app_assoc. cbn [app]. do 2 f_equal. unfold zlen. cbn [length]. lia.
    + rewrite (Nat2Z.inj_succ (S fuel)), Z.pow_succ_r in Hn by lia. Z.div_mod_to_equations. lia.
    + done.
    + rewrite zlen_app. change (zlen [n mod 10 + 48]) with 1. lia.
    + rewrite length_drop. lia.
Qed.

Lemma swap_loop_spec fuel : ∀ mid a b p i j,
  zlen a = p + j → zlen mid = i - 2 * j → 0 <= j → Forall (λ x, 0 <= x < 128) mid → (length mid < 2 * fuel)%nat →
  swap_loop fuel (a ++ mid ++ b) p i j = Ok (a ++ rev mid ++ b).
Proof.
  induction fuel as [|fuel IH]; intros mid a b p i j Ha Hm Hj Hb Hf; [lia|]. cbn [swap_loop].
  rewrite Z.shiftr_div_pow2 by lia. change (2 ^ 1) with 2. destruct (Z.ltb_spec j (i / 2)) as [Hlt|Hge].
  - destruct mid as [|x mid]; [unfold zlen in Hm; cbn in Hm; Z.div_mod_to_equations; lia|].
    destruct mid as [|y m _] using rev_ind; [unfold zlen in Hm; cbn in Hm; Z.div_mod_to_equations; lia|].
    apply Forall_cons in Hb as [Hx Hb]. apply Forall_app in Hb as [Hb Hy]. apply Forall_cons_1 in Hy as [Hy _].
    rewrite <- Ha. assert (zlen (x :: m ++ [y]) = zlen m + 2) as Hz by (unfold zlen; cbn; rewrite length_app; cbn; lia).
    rewrite Hz in Hm. pose (k := zlen a + 1 + zlen m).
    replace (p + (i - 1 - j)) with k by (unfold k; lia).
    assert (∀ u v, a ++ (u :: m ++ [v]) ++ b = (a ++ u :: m) ++ v :: b) as Happ.
    { intros u v. rewrite <- !app_assoc. cbn. rewrite <- app_assoc. done. }
    assert (∀ u, zlen (a ++ u :: m) = k) as Hk by (intros u; unfold k, zlen; rewrite length_app; cbn; lia).
    assert (∀ u v, get_byte (a ++ (u :: m ++ [v]) ++ b) k = Ok v) as Gk.
    { intros u v. rewrite Happ, <- (Hk u). apply get_byte_at. }
    assert (∀ u v w, store k [w] (a ++ (u :: m ++ [v]) ++ b) = Ok (a ++ (u :: m ++ [w]) ++ b)) as Sk.
    { intros u v w. rewrite !Happ, <- (Hk u). apply store_byte_at. }
    assert (∀ u v, get_byte (a ++ (u :: m ++ [v]) ++ b) (zlen a) = Ok u) as Ga by (intros u v; apply get_byte_at).
    assert (∀ u v w, store (zlen a) [w] (a ++ (u :: m ++ [v]) ++ b) = Ok (a ++ (w :: m ++ [v]) ++ b)) as Sa
      by (intros u v w; apply store_byte_at).
    rewrite Ga, Gk. cbn [rbind]. rewrite Sa. cbn [rbind]. rewrite Ga, Gk. cbn [rbind]. rewrite Sk. cbn [rbind].
    rewrite Ga, Gk. cbn [rbind]. rewrite Sa. cbn [rbind].
    rewrite (u8_id (x + y)) by (unfold is_u8; lia). replace (x + y - y) with x by lia. rewrite (u8_id x) by (unfold is_u8; lia).
    replace (x + y - x) with y by lia. rewrite (u8_id y) by (unfold is_u8; lia).
    replace (a ++ (y :: m ++ [x]) ++ b) with ((a ++ [y]) ++ m ++ (x :: b)) by (rewrite <- !app_assoc; cbn; rewrite <- app_assoc; done).
    rewrite (IH m (a ++ [y]) (x :: b) p i (j + 1)).
    + cbn [rev]. rewrite rev_app_distr. cbn [rev app]. rewrite <- !app_assoc. done.
    + rewrite zlen_app. change (zlen [y]) with 1. lia.
    + lia.
    + lia.
    + done.
    + cbn [length] in Hf. rewrite length_app in Hf. cbn [length] in Hf. lia.
  - destruct mid as [|x [|y m]]; [done|done|]. exfalso. unfold zlen in Hm. cbn [length] in Hm. Z.div_mod_to_equations. lia.
Qed.

Lemma digits_chars n : Forall (λ b, 48 <= b < 58) (digits n).
Proof. unfold digits. apply Forall_rev, rev_digits_range. Qed.

Lemma drop_room (x : Z) (rest : list Z) n : (n <= length rest)%nat → ∃ c, drop n (x :: rest) = c :: drop n rest.
Proof.
  revert x rest. induction n as [|n IH]; intros x rest Hn; [by exists x|]. destruct rest as [|y rest]; [cbn in Hn; lia|].
  destruct (IH y rest) as [c Hc]; [cbn in Hn; lia|]. exists c. exact Hc.
Qed.

(** The second half of dec2str: the end mark, and the digits turned round. *)
Lemma dec2str_turn (pre sg room : list Z) m c :
  sg = [] ∨ sg = [minus] →
  (let buf := pre ++ sg ++ rev_digits 10 m ++ c :: room in
   let i := zlen (sg ++ rev_digits 10 m) in
   buf <-? store (zlen pre + i) [0] buf;;
   b <-? get_byte buf (zlen pre);;
   if b =? minus then swap_loop 10 buf (zlen pre) (i + 1) 1 else swap_loop 10 buf (zlen pre) i 0)%fw =
  Ok (pre ++ sg ++ digits m ++ 0 :: room).
Proof.
  intros Hsg. cbv zeta. pose proof (rev_digits_range 10 m) as Hr. pose proof (rev_digits_len 10 m) as Hl.
  unfold digits. revert Hr Hl. destruct (rev_digits 10 m) as [|d ds] eqn:E; [done|]. clear E. intros Hr Hl.
  replace (pre ++ sg ++ (d :: ds) ++ c :: room) with ((pre ++ sg ++ d :: ds) ++ c :: room) by (rewrite <- !app_assoc; done).
  rewrite <- zlen_app, store_byte_at. cbn [rbind].
  assert (Forall (λ x, 0 <= x < 128) (d :: ds)) as Hc by (eapply Forall_impl; [exact Hr|cbn; lia]).
  apply Forall_cons in Hr as [Hd _].
  assert (∀ sg', zlen (sg' ++ d :: ds) = zlen sg' + zlen (d :: ds)) as Hz by (intros sg'; apply zlen_app).
  destruct Hsg as [-> | ->].
  - rewrite <- (app_assoc pre). cbn [app]. rewrite get_byte_at. cbn [rbind].
    rewrite (proj2 (Z.eqb_neq d minus)) by (unfold minus; lia).
    change (pre ++ d :: ds ++ 0 :: room) with (pre ++ (d :: ds) ++ 0 :: room).
    apply swap_loop_spec; [lia|lia|lia|done|cbn [length] in *; lia].
  - rewrite <- (app_assoc pre). cbn [app]. rewrite get_byte_at. cbn [rbind]. rewrite Z.eqb_refl.
    replace (pre ++ minus :: d :: ds ++ 0 :: room) with ((pre ++ [minus]) ++ (d :: ds) ++ 0 :: room) by (rewrite <- app_assoc; done).
    rewrite swap_loop_spec.
    + rewrite <- app_assoc. done.
    + apply zlen_app.
    + change (minus :: d :: ds) with ([minus] ++ d :: ds). rewrite Hz. change (zlen [minus]) with 1. lia.
    + lia.
    + done.
    + cbn [length] in *. lia.
Qed.

(** dec2str appends the decimal text of the int its argument becomes. *)
Lemma dec2str_spec arg (pre rest : list Z) :
  Forall (λ b, b ≠ 0) pre → s32 arg ≠ -2147483648 → (length (decimal (s32 arg)) <= length rest)%nat →
  dec2str arg (pre ++ 0 :: rest) =
    Ok (pre ++ decimal (s32 arg) ++ 0 :: drop (length (decimal (s32 arg))) rest).
Proof.
  intros Hpre Hmin Hlen. unfold dec2str. rewrite c_strlen_app by done. cbn [rbind].
  assert (-2147483648 <= s32 arg < 2147483648) as Hr by (unfold s32; pose proof (Z.mod_pos_bound (arg + 2147483648) 4294967296); lia).
  set (num := s32 arg) in *. unfold decimal in *. destruct (Z.ltb_spec num 0).
  - rewrite store_front by (cbn; lia). cbn [rbind length]. change (drop 1 (0 :: rest)) with rest.
    replace (s32 (- num)) with (- num) by (unfold s32; rewrite Z.mod_small; lia).
    rewrite (app_assoc pre [minus]). cbn [length] in Hlen. unfold digits in Hlen. rewrite length_rev in Hlen.
    rewrite digit_loop_spec; [|change (10 ^ Z.of_nat 10) with 10000000000; lia|done|apply zlen_app|cbn [drop]; lia].
    cbn [rbind]. replace (drop (length (minus :: digits (- num))) rest) with (drop (length (rev_digits 10 (- num))) (drop 1 rest)).
    2:{ rewrite drop_drop. unfold digits. cbn [length]. rewrite length_rev. done. }
    destruct rest as [|c rest]; [cbn [length] in Hlen; lia|]. cbn [drop].
    destruct (drop_room c rest (length (rev_digits 10 (- num)))) as [c' ->]; [cbn [length] in Hlen; lia|].
    rewrite <- (app_assoc pre [minus]).
    replace (1 + zlen (rev_digits 10 (- num))) with (zlen ([minus] ++ rev_digits 10 (- num))) by apply zlen_app.
    rewrite (dec2str_turn pre [minus]) by by right. unfold digits. rewrite length_rev. done.
  - unfold digits in Hlen. rewrite length_rev in Hlen.
    rewrite digit_loop_spec; [|change (10 ^ Z.of_nat 10) with 10000000000; lia|done|lia|cbn [length]; lia].
    cbn [rbind]. destruct (drop_room 0 rest (length (rev_digits 10 num))) as [c' ->]; [lia|].
    replace (length (digits num)) with (length (rev_digits 10 num)) by (unfold digits; by rewrite length_rev).
    rewrite Z.add_0_l. exact (dec2str_turn pre [] _ num c' (or_introl eq_refl)).
Qed.

Lemma digits_value_app acc l rest :
  Forall (λ b, 48 <= b < 58) l → digits_value acc (l ++ rest) = digits_value (foldl (λ a b, 10 * a + (b - 48)) acc l) rest.
Proof.
  intros Hl. revert acc. induction Hl as [|b l Hb _ IH]; intros acc; [done|]. cbn [app digits_value foldl].
  unfold is_digit. rewrite (proj2 (Z.leb_le 48 b)), (proj2 (Z.leb_le b 57)) by lia. apply IH.
Qed.

Lemma digits_fold fuel n :
  0 <= n < 10 ^ Z.of_nat fuel → foldl (λ a b, 10 * a + (b - 48)) 0 (rev (rev_digits fuel n)) = n.
Proof.
  revert n. induction fuel as [|fuel IH]; intros n Hn; [cbn in *; lia|]. cbn [rev_digits rev]. rewrite foldl_app. cbn [foldl].
  destruct (Z.eqb_spec (n / 10) 0) as [E|E].
  - cbn [rev foldl]. Z.div_mod_to_equations. lia.
  - rewrite IH; [Z.div_mod_to_equations; lia|]. rewrite Nat2Z.inj_succ, Z.pow_succ_r in Hn by lia. Z.div_mod_to_equations. lia.
Qed.

(** Reading the digits of a number gives the number. *)
Lemma atoi_digits n rest : 0 <= n < 2147483648 → atoi (digits n ++ 0 :: rest) = n.
Proof.
  intros Hn. pose proof (digits_chars n) as Hc. pose proof (digits_value_app 0 (digits n) (0 :: rest) Hc) as Hv.
  unfold digits at 2 in Hv. rewrite digits_fold in Hv by (change (10 ^ Z.of_nat 10) with 10000000000; lia). cbn [digits_value] in Hv.
  change (is_digit 0) with false in Hv. cbv match in Hv.
  destruct (digits n) as [|b l] eqn:E; [apply (f_equal length) in E; unfold digits in E; rewrite length_rev in E; done|].
  apply Forall_cons in Hc as [Hb _]. unfold atoi. cbn [app skip_space]. unfold is_space.
  rewrite (proj2 (Z.eqb_neq b 32)), (proj2 (Z.leb_gt b 13)), andb_false_r by lia. cbn [orb].
  rewrite (proj2 (Z.eqb_neq b minus)), (proj2 (Z.eqb_neq b 43)) by (unfold minus; lia).
  change (b :: l ++ 0 :: rest) with ((b :: l) ++ 0 :: rest). rewrite Hv. unfold clamp. lia.
Qed.

Lemma decimal_digits n : 0 <= n → decimal n = digits n.
Proof. intros Hn. unfold decimal. rewrite (proj2 (Z.ltb_ge n 0)) by lia. done. Qed.

Lemma digits_len n : (length (digits n) <= 10)%nat.
Proof. unfold digits. rewrite length_rev. apply rev_digits_len. Qed.

(** ** The last slash *)

Lemma slash_loop_spec pre id rest :
  pre ≠ [] → Forall (λ b, b ≠ slash) id →
  slash_loop (length (pre ++ slash :: id)) (pre ++ slash :: id ++ rest) = Ok (Some (zlen pre + 1)).
Proof.
  intros Hpre Hid. revert rest. induction id as [|b id IH] using rev_ind; intros rest.
  - rewrite length_app. cbn [length app]. replace (length pre + 1)%nat with (S (length pre)) by lia. cbn [slash_loop].
    change (Z.of_nat (length pre)) with (zlen pre). rewrite get_byte_at. cbn [rbind]. rewrite Z.eqb_refl.
    rewrite (proj2 (Z.eqb_neq (zlen pre) 0)); [done|]. unfold zlen. destruct pre; [done|]. cbn. lia.
  - apply Forall_app in Hid as [Hid Hb]. apply Forall_cons in Hb as [Hb _].
    replace (length (pre ++ slash :: id ++ [b])) with (S (length (pre ++ slash :: id))) by (rewrite !length_app; cbn [length]; rewrite length_app; cbn [length]; lia).
    cbn [slash_loop]. change (Z.of_nat (length ?l)) with (zlen l).
    replace (pre ++ slash :: (id ++ [b]) ++ rest) with ((pre ++ slash :: id) ++ b :: rest) by (rewrite <- !app_assoc; done).
    rewrite get_byte_at. cbn [rbind]. rewrite (proj2 (Z.eqb_neq b slash)) by done.
    rewrite <- (IH Hid (b :: rest)). rewrite <- app_assoc. done.
Qed.

Lemma find_last_slash_spec pre id rest :
  pre ≠ [] → head pre ≠ Some 0 → Forall (λ b, b ≠ slash) id →
  find_last_slash (pre ++ slash :: id ++ rest) (zlen (pre ++ slash :: id)) = Ok (Some (zlen pre + 1)).
Proof.
  intros Hpre Hz Hid. unfold find_last_slash. destruct pre as [|b pre]; [done|].
  rewrite (get_byte_at [] (pre ++ slash :: id ++ rest) b : get_byte ((b :: pre) ++ slash :: id ++ rest) 0 = Ok b).
  cbn [rbind]. cbn [head] in Hz. rewrite (proj2 (Z.eqb_neq b 0)) by congruence.
  rewrite (proj2 (Z.leb_gt _ 0)) by (unfold zlen; cbn [length app]; lia). cbn [orb].
  unfold zlen. rewrite Nat2Z.id. apply slash_loop_spec; done.
Qed.

(** ** Topics and payloads *)

Definition nonzero (l : list Z) : Prop := Forall (λ b, b ≠ 0) l.

Lemma digits_nonzero n : nonzero (digits n).
Proof. eapply Forall_impl; [apply digits_chars|cbn; lia]. Qed.
Lemma decimal_nonzero z : nonzero (decimal z).
Proof. unfold decimal. destruct (z <? 0); [constructor; [done|]|]; apply digits_nonzero. Qed.
Lemma decimal_len z : (length (decimal z) <= 11)%nat.
Proof. unfold decimal. pose proof (digits_len z). pose proof (digits_len (- z)). destruct (z <? 0); cbn [length]; lia. Qed.

(** The start of a buffer of zeros. *)
Lemma store_zero_buffer (d : list Z) (n : nat) :
  (length d <= n)%nat → store 0 d (replicate n 0) = Ok (d ++ replicate (n - length d) 0).
Proof. intros Hd. etrans; [apply (store_front [] d); rewrite length_replicate; lia|]. rewrite drop_replicate. done. Qed.

Lemma c_append_spec (s pre : list Z) n :
  nonzero pre → (length s < n)%nat →
  c_append s (pre ++ replicate n 0) = Ok ((pre ++ s) ++ replicate (n - length s) 0).
Proof.
  intros Hp Hn. unfold c_append. destruct n as [|n]; [lia|]. cbn [replicate]. rewrite c_strlen_app by done. cbn [rbind].
  change (0 :: replicate n 0) with (replicate (S n) 0). rewrite store_front by (rewrite length_replicate; lia).
  rewrite drop_replicate, app_assoc. done.
Qed.

Lemma dec2str_buffer arg (pre : list Z) n :
  nonzero pre → s32 arg ≠ -2147483648 → (length (decimal (s32 arg)) < n)%nat →
  dec2str arg (pre ++ replicate n 0) = Ok ((pre ++ decimal (s32 arg)) ++ replicate (n - length (decimal (s32 arg))) 0).
Proof.
  intros Hp Hm Hn. destruct n as [|n]; [lia|]. cbn [replicate]. rewrite dec2str_spec; [|done|done|rewrite length_replicate; lia].
  rewrite drop_replicate, <- app_assoc. do 3 f_equal.
  replace (S n - length (decimal (s32 arg)))%nat with (S (n - length (decimal (s32 arg)))) by lia. done.
Qed.

Section Server.
Context `{CJsonDoc}.

Lemma publish_eq s (topic payload : list Z) m n :
  connected s = true → nonzero topic → topic ≠ [] → nonzero payload → payload ≠ [] → zlen payload < 65536 →
  (0 < m)%nat → (0 < n)%nat →
  publish_text (topic ++ replicate m 0) (payload ++ replicate n 0) s =
    Ok (tt, set_published (published s ++ [(topic, payload)]) s).
Proof.
  intros Hc Ht Htn Hp Hpn Hl Hm Hn. destruct m as [|m]; [lia|]. destruct n as [|n]; [lia|]. cbn [replicate].
  assert (0 < zlen topic ∧ 0 < zlen payload) as [Hzt Hzp] by (unfold zlen; destruct topic, payload; cbn; done || lia).
  unfold publish_text, uc_mqtt_publish. rewrite c_strlen_app by done. erewrite bind_Ok by reflexivity.
  rewrite fbind_assoc. erewrite bind_Ok by reflexivity. rewrite c_strlen_app by done. rewrite fbind_assoc. erewrite bind_Ok by reflexivity.
  rewrite Hc, u16_id by (unfold is_u16; lia). rewrite (proj2 (Z.eqb_neq (zlen topic) 0)), (proj2 (Z.eqb_neq (zlen payload) 0)) by lia.
  cbn [negb orb]. rewrite (slice_at [] payload (0 :: replicate n 0) 0 (zlen payload) eq_refl eq_refl : slice 0 (zlen payload) (payload ++ 0 :: replicate n 0) = Ok payload). erewrite bind_Ok by reflexivity. unfold fmod, fret, fbind.
  unfold zlen. rewrite Nat2Z.id, take_app_length. done.
Qed.

(** A terminal's data on the topic of the gateway.  The buffer has four bytes
    for each byte of the data, and everything has to fit in it. *)
Definition property_payload (src : Z) (data : list Z) : list Z :=
  sub_client_key ++ decimal (s32 src) ++ [quote; 58] ++ data ++ [125].

Lemma pass_malloc_eq s : pass_oks s = [] → pass_malloc s = Ok (true, s).
Proof. intros E. unfold pass_malloc. rewrite E. done. Qed.
Lemma calloc_eq f n s : pass_oks s = [] → calloc_or f n s = Ok (replicate (Z.to_nat n) 0, s).
Proof. intros E. unfold calloc_or. rewrite (bind_Ok _ _ _ _ _ (pass_malloc_eq _ E)). done. Qed.

Lemma property_report_eq s src data :
  pass_oks s = [] → connected s = true → nonzero data → s32 src ≠ -2147483648 → zlen data < 16384 →
  17 + zlen (decimal (s32 src)) + zlen data <= 4 * zlen data →
  cmd_iote_property_report (PassIote src (zlen data) data) s =
    Ok (tt, set_published (published s ++ [(PUB_IOTE_ATTR, property_payload src data)]) s).
Proof.
  intros Ho Hc Hd Hsrc Hmax Hfit. unfold cmd_iote_property_report, iote_data. erewrite bind_Ok by reflexivity.
  cbv beta match. rewrite (bind_Ok _ _ _ _ _ (calloc_eq _ _ s Ho)). pose proof (zlen_nonneg data).
  rewrite u32_id by (unfold is_u32; lia). set (n := Z.to_nat (zlen data * 4)).
  pose proof (decimal_nonzero (s32 src)) as Hdn. set (dec := decimal (s32 src)) in *.
  assert (length sub_client_key = 13%nat) as Hk by done.
  assert (17 + length dec + length data <= n)%nat as Hn by (unfold n, zlen in *; lia).
  assert (nonzero sub_client_key) as Hkn by (repeat constructor; done).
  erewrite bind_Ok by (unfold flift; rewrite store_zero_buffer by lia; reflexivity).
  erewrite bind_Ok by (unfold flift; rewrite dec2str_buffer by (done || (fold dec; lia)); reflexivity). fold dec.
  assert (nonzero (sub_client_key ++ dec)) as N1 by (apply Forall_app; done).
  erewrite bind_Ok by (unfold flift; rewrite c_append_spec by (done || (cbn [length]; lia)); reflexivity). cbn [length].
  assert (nonzero ((sub_client_key ++ dec) ++ [quote; 58])) as N2 by (apply Forall_app; split; [done|repeat constructor; done]).
  erewrite bind_Ok by (unfold flift; rewrite c_append_spec by (done || lia); reflexivity).
  assert (nonzero (((sub_client_key ++ dec) ++ [quote; 58]) ++ data)) as N3 by (apply Forall_app; done).
  erewrite bind_Ok by (unfold flift; rewrite c_append_spec by (done || (cbn [length]; lia)); reflexivity). cbn [length].
  replace (((((sub_client_key ++ dec) ++ [quote; 58]) ++ data) ++ [125])) with (property_payload src data)
    by (unfold property_payload; fold dec; rewrite <- !app_assoc; done).
  apply (publish_eq s PUB_IOTE_ATTR (property_payload src data) 1); try done.
  - repeat constructor; done.
  - unfold property_payload. fold dec. rewrite !app_assoc. apply Forall_app. split; [done|repeat constructor; done].
  - unfold property_payload. fold dec. unfold zlen in *. rewrite !length_app. cbn [length]. lia.
  - lia.
  - lia.
Qed.

Lemma number_id n : 0 <= n < 2147483648 → s32 n = n ∧ u32 n = n.
Proof. intros Hn. unfold s32, u32. split; rewrite Z.mod_small; lia. Qed.

Definition answer (res : Z) : list Z := if res =? MANAGER_SEND_SUCCESS then res_ok else res_err.

(** A result is published on the topic that ends with its number. *)
Lemma exe_response_eq s n res :
  pass_oks s = [] → connected s = true → 0 < n < 2147483648 →
  cm_mqtt_exe_response (PassResult n res) s =
    Ok (tt, set_published (published s ++ [(TOPIC_PLATFORM_RESPONSE ++ digits n, answer res)]) s).
Proof.
  intros Ho Hc Hn. destruct (number_id n) as [Hs _]; [lia|]. unfold cm_mqtt_exe_response.
  rewrite (proj2 (Z.eqb_neq n 0)) by lia. cbn [negb]. rewrite (bind_Ok _ _ _ _ _ (calloc_eq _ _ s Ho)).
  pose proof (digits_len n). pose proof (digits_nonzero n). change (Z.to_nat MQTT_TOPIC_MAX_LENGTH) with 64%nat.
  assert (length TOPIC_PLATFORM_RESPONSE = 27%nat) as Hl by done.
  assert (nonzero TOPIC_PLATFORM_RESPONSE) as Hnz by (apply (bool_decide_unpack _); vm_compute; exact I).
  erewrite bind_Ok by (unfold flift; rewrite store_zero_buffer by lia; reflexivity).
  erewrite bind_Ok by (unfold flift; rewrite dec2str_buffer by (rewrite ?Hs, ?decimal_digits; done || lia); reflexivity).
  rewrite Hs, decimal_digits by lia.
  apply (publish_eq s (TOPIC_PLATFORM_RESPONSE ++ digits n) (answer res) _ 1); unfold answer; try done.
  - by apply Forall_app.
  - destruct (res =? _); apply (bool_decide_unpack _); vm_compute; exact I.
  - destruct (res =? _); done.
  - destruct (res =? _); done.
  - lia.
  - lia.
Qed.

Lemma take_min {A} (l : list A) m : take (Z.to_nat (Z.min (zlen l) m)) l = take (Z.to_nat m) l.
Proof.
  unfold zlen. destruct (Z.min_spec (Z.of_nat (length l)) m) as [[Hm ->]|[Hm ->]]; [|done].
  rewrite Nat2Z.id, !take_ge by lia. done.
Qed.

(** A request whose topic ends with a number is queued with that number. *)
Lemma msg_process_eq s n payload :
  pass_oks s = [] → zlen (pass_q s) < queue_capacity 16 → 0 <= n < 2147483648 →
  uc_mqtt_msg_process (TOPIC_REQUEST ++ digits n) payload true true s =
    Ok (tt, set_pass_q (pass_q s ++ [{| pt_cmd := MANAGER_LOGIC_MQTT_REQUEST;
              pt_data := PassRequest n (take (Z.to_nat MQTT_PAYLOAD_MAX_LENGTH) payload) |}]) s).
Proof.
  intros Ho Hq Hn. unfold uc_mqtt_msg_process. pose proof (digits_len n) as Hl. pose proof (digits_chars n) as Hch.
  set (topic := TOPIC_REQUEST ++ digits n) in *.
  assert (zlen topic = 26 + zlen (digits n)) as Hz by apply zlen_app.
  rewrite (Z.min_l (zlen topic)) by (unfold MQTT_TOPIC_MAX_LENGTH, zlen in *; lia).
  assert (take (Z.to_nat (zlen topic)) topic = topic) as Ht by (unfold zlen; rewrite Nat2Z.id; apply take_ge; lia).
  erewrite (bind_Ok _ _ s (Some (topic ++ [0]), n) s).
  2:{ rewrite (bind_Ok _ _ _ _ _ (calloc_eq _ _ s Ho)).
      erewrite bind_Ok.
      2:{ unfold flift. rewrite Ht, store_zero_buffer by (unfold zlen; lia). reflexivity. }
      replace (Z.to_nat (zlen topic + 1) - length topic)%nat with 1%nat by (unfold zlen; lia). cbn [replicate].
      pose proof (find_last_slash_spec (text "v1/devices/me/rpc/request") (digits n) [0]) as Hslash.
      change (text "v1/devices/me/rpc/request" ++ slash :: digits n ++ [0]) with (topic ++ [0]) in Hslash.
      change (text "v1/devices/me/rpc/request" ++ slash :: digits n) with topic in Hslash.
      erewrite bind_Ok.
      2:{ unfold flift. rewrite Hslash; [reflexivity|done|done|]. eapply Forall_impl; [exact Hch|]. unfold slash. cbn. lia. }
      cbv match. change (zlen (text "v1/devices/me/rpc/request") + 1) with (zlen TOPIC_REQUEST).
      assert (slice (zlen TOPIC_REQUEST) (zlen (topic ++ [0]) - zlen TOPIC_REQUEST) (topic ++ [0]) = Ok (digits n ++ [0])) as Hsl.
      { pose proof (slice_at TOPIC_REQUEST (digits n ++ [0]) [] (zlen TOPIC_REQUEST) (zlen (digits n ++ [0])) eq_refl eq_refl) as E.
        rewrite app_nil_r in E. rewrite <- E. unfold topic. rewrite <- app_assoc. f_equal. rewrite !zlen_app. lia. }
      erewrite bind_Ok by (unfold flift; rewrite Hsl; reflexivity). rewrite (atoi_digits n []) by lia. done. }
  cbv beta match. rewrite (bind_Ok _ _ _ _ _ (calloc_eq _ _ s Ho)). cbn [negb].
  do 2 (rewrite (bind_Ok _ _ _ _ _ (pass_malloc_eq s Ho)); cbn [negb]). cbn [need]. erewrite bind_Ok by reflexivity.
  rewrite bool_decide_eq_true_2.
  2:{ unfold topic. rewrite <- app_assoc. apply take_app_length. }
  unfold net_to_network_data. rewrite fbind_assoc, (bind_Ok _ _ _ _ _ (pass_malloc_eq s Ho)). cbn [negb].
  rewrite fbind_assoc. erewrite bind_Ok by reflexivity. rewrite (proj2 (Z.ltb_lt _ _) Hq).
  unfold fmod, fret, fbind. rewrite take_min. done.
Qed.

Lemma parse_page s j num param :
  pass_oks s = [] → cJSON_GetObjectItemCaseSensitive (Some j) "params" = Some param →
  ∃ page, parse_mqtt_payload j num s = Ok (Some page, s) ∧ pg_number page = u32 num.
Proof.
  intros Ho Hp. unfold parse_mqtt_payload. rewrite Hp.
  assert (∀ a, ∃ r, parse_dest a s = Ok (r, s)) as Hd.
  { intros a. unfold parse_dest. destruct a as [a|]; [|by eexists]. destruct (_ && _).
    - rewrite (bind_Ok _ _ _ _ _ (pass_malloc_eq s Ho)). by eexists.
    - destruct (cJSON_IsNumber a); [|by eexists]. rewrite (bind_Ok _ _ _ _ _ (pass_malloc_eq s Ho)). by eexists. }
  destruct (Hd (cJSON_GetObjectItemCaseSensitive (Some param) "dest_address")) as [[l d] E].
  rewrite (bind_Ok _ _ _ _ _ E). rewrite (bind_Ok _ _ _ _ _ (pass_malloc_eq s Ho)). cbn [negb]. eexists. split; [reflexivity|done].
Qed.

(** The message that is first in the queue is handled. *)
Lemma step_eq s m q :
  connected s = true → pass_q s = m :: q → passthrough_step s = pass_dispatch m (set_pass_q q s).
Proof. intros Hc Hq. unfold passthrough_step. erewrite bind_Ok by reflexivity. rewrite Hq, Hc. done. Qed.

(** The number a request topic of the server ends with is the number of the
    message the logic task gets, and the result for that number is published on
    the response topic that ends with the same digits. *)
Theorem request_id_roundtrip s n payload j param res :
  pass_oks s = [] → connected s = true → pass_q s = [] → 0 < n < 2147483648 →
  cJSON_Parse (c_string (take (Z.to_nat MQTT_PAYLOAD_MAX_LENGTH) payload)) = Some j →
  cJSON_GetObjectItemCaseSensitive (Some j) "params" = Some param →
  ∃ s1 s2 page,
    uc_mqtt_msg_process (TOPIC_REQUEST ++ decimal n) payload true true s = Ok (tt, s1) ∧
    passthrough_step s1 = Ok (tt, s2) ∧ to_logic s2 = to_logic s ++ [page] ∧ pg_number page = n ∧
    cm_mqtt_exe_response (PassResult (pg_number page) res) s2 =
      Ok (tt, set_published (published s2 ++ [(TOPIC_PLATFORM_RESPONSE ++ decimal n, answer res)]) s2).
Proof.
  intros Ho Hc Hq Hn Hj Hp. rewrite decimal_digits by lia. destruct (number_id n) as [_ Hu]; [lia|].
  set (m := {| pt_cmd := MANAGER_LOGIC_MQTT_REQUEST; pt_data := PassRequest n (take (Z.to_nat MQTT_PAYLOAD_MAX_LENGTH) payload) |}).
  destruct (parse_page s j n param Ho Hp) as (page & Epage & Hnum).
  exists (set_pass_q [m] s), (set_to_logic (to_logic s ++ [page]) s), page.
  rewrite Hu in Hnum. split; [|split; [|split; [done|split; [done|]]]].
  - rewrite msg_process_eq; [by rewrite Hq|done|rewrite Hq; done|lia].
  - rewrite (step_eq (set_pass_q [m] s) m []) by done. cbn [pass_dispatch m pt_cmd pt_data].
    assert (set_pass_q [] (set_pass_q [m] s) = s) as -> by (destruct s; cbn in *; subst; done).
    change (pass_dispatch m s) with (cmd_mqtt_request_or_response MANAGER_LOGIC_MQTT_REQUEST (pt_data m) s).
    cbn [cmd_mqtt_request_or_response m pt_data]. rewrite Hj. cbn [need]. erewrite bind_Ok by reflexivity.
    rewrite (bind_Ok _ _ _ _ _ Epage). done.
  - rewrite Hnum. by apply exe_response_eq.
Qed.

(** What a terminal reports is published for it under its address, as long
    as the data has ten bytes; the buffer for the report of an empty object is
    shorter than the text in front of it. *)
Theorem property_report_published s src data q :
  pass_oks s = [] → connected s = true → nonzero data → s32 src ≠ -2147483648 → zlen data < 16384 →
  pass_q s = {| pt_cmd := APP_CMD_IOTE_PROPERTY_REPORT; pt_data := PassIote src (zlen data) data |} :: q →
  (10 <= zlen data →
   passthrough_step s =
     Ok (tt, set_published (published s ++ [(PUB_IOTE_ATTR, property_payload src data)]) (set_pass_q q s))) ∧
  (zlen data < 4 → passthrough_step s = Fault OutOfBounds).
Proof.
  intros Ho Hc Hd Hsrc Hmax Hq. rewrite (step_eq _ _ _ Hc Hq).
  change (pass_dispatch _ (set_pass_q q s)) with (cmd_iote_property_report (PassIote src (zlen data) data) (set_pass_q q s)).
  split; intros Hlen.
  - rewrite property_report_eq; try done. pose proof (decimal_len (s32 src)). unfold zlen in *. lia.
  - unfold cmd_iote_property_report, iote_data. erewrite bind_Ok by reflexivity. cbv beta match.
    rewrite (bind_Ok _ _ _ _ _ (calloc_eq _ _ (set_pass_q q s) Ho)). pose proof (zlen_nonneg data).
    rewrite u32_id by (unfold is_u32; lia). unfold flift at 1, fbind at 1, store.
    rewrite (proj2 (Z.leb_gt (0 + zlen sub_client_key) _)), andb_false_r; [done|]. change (zlen sub_client_key) with 13.
    unfold zlen at 1. rewrite length_replicate. lia.
Qed.

(** A terminal whose request is not JSON, and a server whose request is not,
    stop the access point: what was not parsed is used. *)
Theorem not_json_faults s m q data :
  pass_oks s = [] → connected s = true → pass_q s = m :: q → cJSON_Parse data = None →
  (∃ src cmd, m = {| pt_cmd := cmd; pt_data := PassIote src (zlen data) data |} ∧
     (cmd = APP_CMD_IOTE_PAIR_REQUEST ∨ cmd = APP_CMD_UPDATE_VERSION_REQUEST ∨ cmd = APP_CMD_IOTE_MUTICAST_REQUEST)) ∨
  (∃ n payload, m = {| pt_cmd := MANAGER_LOGIC_MQTT_REQUEST; pt_data := PassRequest n payload |} ∧ data = c_string payload) →
  passthrough_step s = Fault NullDeref.
Proof.
  intros Ho Hc Hq Hj Hm. rewrite (step_eq _ _ _ Hc Hq).
  assert (∀ src cmd, cmd_iote_request cmd (PassIote src (zlen data) data) (set_pass_q q s) = Fault NullDeref) as Hreq.
  { intros src cmd. unfold cmd_iote_request. erewrite bind_Ok by reflexivity. cbv beta match.
    rewrite (bind_Ok _ _ _ _ _ (calloc_eq _ _ (set_pass_q q s) Ho)), Hj. done. }
  destruct Hm as [(src & cmd & -> & [->|[->| ->]])|(n & payload & -> & ->)].
  - exact (Hreq src APP_CMD_IOTE_PAIR_REQUEST).
  - exact (Hreq src APP_CMD_UPDATE_VERSION_REQUEST).
  - exact (Hreq src APP_CMD_IOTE_MUTICAST_REQUEST).
  - change (cmd_mqtt_request_or_response MANAGER_LOGIC_MQTT_REQUEST (PassRequest n payload) (set_pass_q q s) = Fault NullDeref).
    cbn [cmd_mqtt_request_or_response]. rewrite Hj. done.
Qed.

(** A message that reaches the client in more than one part stops the access
    point with its last part: only the first one has a topic. *)
Theorem last_part_faults s buffer topic_name :
  pass_oks s = [] → uc_mqtt_msg_process topic_name buffer false true s = Fault NullDeref.
Proof.
  intros Ho. unfold uc_mqtt_msg_process. erewrite bind_Ok by reflexivity. cbv beta match.
  rewrite (bind_Ok _ _ _ _ _ (calloc_eq _ _ s Ho)). cbn [negb].
  do 2 (rewrite (bind_Ok _ _ _ _ _ (pass_malloc_eq s Ho)); cbn [negb]). done.
Qed.

Fixpoint passthrough_steps (n : nat) : FW pass_state unit :=
  match n with O => fret tt | S n => fbind passthrough_step (λ _, passthrough_steps n) end.
End Server.

(** ** From the results on the air to the server *)

Section Answer.
Context `{AddressJson} `{CJsonDoc}.
Context (cfg : frame_config) (positions : list Z → option (list uc_dev_pos_t)).
Context (uc_wiota_flash_read : Z → Z → list Z) (strlen_freed : list Z → Z) (behind : list Z → list Z).

(** What the logic task hands to this task from one state to another. *)
Definition handed_over (t t' : task_state) : list t_app_passthrough_message :=
  omap pass_message (drop (length (trace t)) (trace t')).

End Answer.

(** ** Witnesses *)

Definition toy_doc (v : jvalue) : @CJsonDoc (toy_json v) :=
  @Build_CJsonDoc (toy_json v) (λ (o : option jvalue) (key : string), jmember key o)
    (λ v : jvalue, match v with JArr _ => true | _ => false end)
    (λ v : jvalue, match v with JArr l => map JNum l | _ => [] end)
    (λ v : jvalue, match v with JNum z => u32 z | _ => 0 end)
    (λ _ : jdoc jvalue, Some [123; 125]).

Definition demo_pass (q : list t_app_passthrough_message) : pass_state :=
  {| connected := true; s_nRequestId := 1; pass_q := q; published := []; to_logic := []; pass_oks := [] |}.

(** {"params": {"dest_address": [5], "cmd": 40, "data": 1}} *)
Definition demo_params : jvalue := JObj [member "dest_address" (JArr [5]); member "cmd" (JNum 40); member "data" (JNum 1)].

Lemma request_id_roundtrip_witness :
  ∃ s1 s2 page,
    uc_mqtt_msg_process (text "v1/devices/me/rpc/request/1207") [123; 125] true true (demo_pass []) = Ok (tt, s1) ∧
    @passthrough_step _ (toy_doc (JObj [member "params" demo_params])) s1 = Ok (tt, s2) ∧ pg_number page = 1207 ∧
    cm_mqtt_exe_response (PassResult 1207 MANAGER_SEND_SUCCESS) s2 =
      Ok (tt, set_published (published s2 ++ [(text "v1/devices/me/rpc/response/1207", res_ok)]) s2).
Proof.
  destruct (@request_id_roundtrip (toy_json (JObj [member "params" demo_params])) (toy_doc (JObj [member "params" demo_params]))
    (demo_pass []) 1207 [123; 125] (JObj [member "params" demo_params]) demo_params MANAGER_SEND_SUCCESS)
    as (s1 & s2 & page & E1 & E2 & E3 & E4 & E5).
  - reflexivity.
  - reflexivity.
  - reflexivity.
  - lia.
  - reflexivity.
  - reflexivity.
  - exists s1, s2, page. rewrite E4 in E5. split; [exact E1|]. split; [exact E2|]. split; [exact E4|exact E5].
Defined.

(** A report of ten bytes from the terminal 5, and one of an empty object. *)
Lemma property_report_published_witness :
  let data := [123; 34; 118; 34; 58; 49; 50; 51; 52; 125] in
  let m d := {| pt_cmd := APP_CMD_IOTE_PROPERTY_REPORT; pt_data := PassIote 5 (zlen d) d |} in
  @passthrough_step _ (toy_doc (JObj [])) (demo_pass [m data]) =
    Ok (tt, set_published [(PUB_IOTE_ATTR, property_payload 5 data)] (demo_pass [])) ∧
  @passthrough_step _ (toy_doc (JObj [])) (demo_pass [m [123; 125]]) = Fault OutOfBounds.
Proof.
  intros data m. split.
  - apply (@property_report_published _ (toy_doc (JObj [])) (demo_pass [m data]) 5 data []);
      [reflexivity|reflexivity|repeat constructor; lia|vm_compute; congruence|reflexivity|reflexivity|vm_compute; congruence].
  - apply (@property_report_published _ (toy_doc (JObj [])) (demo_pass [m [123; 125]]) 5 [123; 125] []);
      [reflexivity|reflexivity|repeat constructor; lia|vm_compute; congruence|reflexivity|reflexivity|vm_compute; congruence].
Defined.

(** A library that takes no text. *)
Definition deaf_json : CJson := {|
  cJSON := jvalue; cJSON_Parse := λ _, None; cJSON_GetObjectItem := λ o key, jmember key o; cJSON_IsNumber := λ _, false;
  cJSON_IsString := λ _, false; cJSON_IsObject := λ _, false; valueint := λ _, 0; valuestring := λ _, [];
  cJSON_GetArraySize := λ _, 0; cJSON_GetArrayItem := λ _ _, None; cJSON_Print := λ _, Some [123; 125]
|}.
Definition deaf_doc : @CJsonDoc deaf_json :=
  @Build_CJsonDoc deaf_json (λ (o : option jvalue) (key : string), None) (λ _ : jvalue, false) (λ _ : jvalue, [])
    (λ _ : jvalue, 0) (λ _ : jdoc jvalue, Some [123; 125]).

Lemma not_json_faults_witness :
  @passthrough_step _ deaf_doc (demo_pass [{| pt_cmd := APP_CMD_IOTE_PAIR_REQUEST; pt_data := PassIote 5 2 [104; 105] |}]) =
    Fault NullDeref.
Proof.
  apply (@not_json_faults _ deaf_doc _ {| pt_cmd := APP_CMD_IOTE_PAIR_REQUEST; pt_data := PassIote 5 2 [104; 105] |} [] [104; 105]);
    [reflexivity..|]. left. exists 5, APP_CMD_IOTE_PAIR_REQUEST. split; [reflexivity|left; reflexivity].
Defined.

Lemma last_part_faults_witness : uc_mqtt_msg_process [] [123; 125] false true (demo_pass []) = Fault NullDeref.
Proof. exact (last_part_faults (demo_pass []) [123; 125] [] eq_refl). Defined.

