(* ===== verification/Cbor.v ===== *)
(** * CBOR coding

    app/codec/cbor: uc_cbor.c (the decoder, which builds a tree of linked nodes
    in one loop, and the release of such a tree), uc_cbor_encoder.c (the
    encoder, which walks the tree along its links), uc_cbor_create.c and
    uc_cbor_get.c.  Nodes are cells of a heap that gives out rising addresses;
    a string is the bytes from its pointer on.  The target has 32-bit longs
    and pointers and no floating point (CBOR_NO_FLOAT). *)

From S2P Require Import Prelude.
#[local] Set Warnings "-register-all".

Inductive cn_cbor_type :=
| CN_CBOR_FALSE | CN_CBOR_TRUE | CN_CBOR_NULL | CN_CBOR_UNDEF | CN_CBOR_UINT | CN_CBOR_INT | CN_CBOR_BYTES | CN_CBOR_TEXT
| CN_CBOR_BYTES_CHUNKED | CN_CBOR_TEXT_CHUNKED | CN_CBOR_ARRAY | CN_CBOR_MAP | CN_CBOR_TAG | CN_CBOR_SIMPLE
| CN_CBOR_DOUBLE | CN_CBOR_FLOAT | CN_CBOR_INVALID.
#[export] Instance cn_cbor_type_eq_dec : EqDecision cn_cbor_type.
Proof. solve_decision. Defined.

Inductive cn_cbor_error :=
| CN_CBOR_NO_ERROR | CN_CBOR_ERR_OUT_OF_DATA | CN_CBOR_ERR_NOT_ALL_DATA_CONSUMED | CN_CBOR_ERR_ODD_SIZE_INDEF_MAP
| CN_CBOR_ERR_BREAK_OUTSIDE_INDEF | CN_CBOR_ERR_MT_UNDEF_FOR_INDEF | CN_CBOR_ERR_RESERVED_AI
| CN_CBOR_ERR_WRONG_NESTING_IN_INDEF_STRING | CN_CBOR_ERR_INVALID_PARAMETER | CN_CBOR_ERR_OUT_OF_MEMORY
| CN_CBOR_ERR_FLOAT_NOT_SUPPORTED.

Definition CN_CBOR_FL_COUNT : Z := 1.
Definition CN_CBOR_FL_INDEF : Z := 2.
Definition IB_BREAK : Z := 255.
Definition AI_INDEF : Z := 31.

(** The union of a node: a 32-bit word, or a pointer to bytes. *)
Inductive cbor_value := VWord (w : Z) | VStr (s : list Z).

Record cn_cbor := {
  c_type : cn_cbor_type;
  c_flags : Z;
  c_v : cbor_value;
  c_length : Z;
  first_child : Z;
  last_child : Z;
  c_next : Z;
  c_parent : Z
}.

Definition set_type v n := {| c_type := v; c_flags := c_flags n; c_v := c_v n; c_length := c_length n;
  first_child := first_child n; last_child := last_child n; c_next := c_next n; c_parent := c_parent n |}.
Definition set_flags v n := {| c_type := c_type n; c_flags := v; c_v := c_v n; c_length := c_length n;
  first_child := first_child n; last_child := last_child n; c_next := c_next n; c_parent := c_parent n |}.
Definition set_v v n := {| c_type := c_type n; c_flags := c_flags n; c_v := v; c_length := c_length n;
  first_child := first_child n; last_child := last_child n; c_next := c_next n; c_parent := c_parent n |}.
Definition set_length v n := {| c_type := c_type n; c_flags := c_flags n; c_v := c_v n; c_length := v;
  first_child := first_child n; last_child := last_child n; c_next := c_next n; c_parent := c_parent n |}.
Definition set_first v n := {| c_type := c_type n; c_flags := c_flags n; c_v := c_v n; c_length := c_length n;
  first_child := v; last_child := last_child n; c_next := c_next n; c_parent := c_parent n |}.
Definition set_last v n := {| c_type := c_type n; c_flags := c_flags n; c_v := c_v n; c_length := c_length n;
  first_child := first_child n; last_child := v; c_next := c_next n; c_parent := c_parent n |}.
Definition set_cnext v n := {| c_type := c_type n; c_flags := c_flags n; c_v := c_v n; c_length := c_length n;
  first_child := first_child n; last_child := last_child n; c_next := v; c_parent := c_parent n |}.
Definition set_parent v n := {| c_type := c_type n; c_flags := c_flags n; c_v := c_v n; c_length := c_length n;
  first_child := first_child n; last_child := last_child n; c_next := c_next n; c_parent := v |}.

(** What rt_calloc gives. *)
Definition zero_node : cn_cbor :=
  {| c_type := CN_CBOR_FALSE; c_flags := 0; c_v := VWord 0; c_length := 0; first_child := 0; last_child := 0; c_next := 0;
     c_parent := 0 |}.

(** The heap of nodes, and the outcomes of the next allocations. *)
Record cbor_heap := { nodes : gmap Z cn_cbor; cbrk : Z; coks : list bool }.
Definition NULL : Z := 0.

Definition is_indef (n : cn_cbor) : bool := negb (Z.land (c_flags n) CN_CBOR_FL_INDEF =? 0).
Definition is_count (n : cn_cbor) : bool := negb (Z.land (c_flags n) CN_CBOR_FL_COUNT =? 0).

Section Heap.
Local Abbreviation M := (FW cbor_heap).
Local Open Scope fw_scope.

Definition get_node (p : Z) : M cn_cbor :=
  λ h, match nodes h !! p with Some n => Ok (n, h) | None => Fault NullDeref end.
Definition put_cnode (p : Z) (n : cn_cbor) : M unit :=
  fmod (λ h, {| nodes := <[p := n]> (nodes h); cbrk := cbrk h; coks := coks h |}).
Definition mod_node (p : Z) (f : cn_cbor → cn_cbor) : M unit := n <-- get_node p;; put_cnode p (f n).
Definition CN_FREE (p : Z) : M unit :=
  get_node p;;; fmod (λ h, {| nodes := delete p (nodes h); cbrk := cbrk h; coks := coks h |}).

(** A node on the stack or from rt_calloc. *)
Definition new_node (n : cn_cbor) : M Z :=
  λ h, Ok (cbrk h, {| nodes := <[cbrk h := n]> (nodes h); cbrk := cbrk h + 1; coks := coks h |}).
Definition CN_CALLOC : M (option Z) :=
  λ h, match coks h with
       | false :: m => Ok (None, {| nodes := nodes h; cbrk := cbrk h; coks := m |})
       | m => fbind (new_node zero_node) (λ p, fret (Some p)) {| nodes := nodes h; cbrk := cbrk h; coks := tail m |}
       end.

(** ** Release of a tree *)

Fixpoint go_down (fuel : nat) (p : Z) : M Z :=
  match fuel with
  | O => ffail OutOfFuel
  | S fuel => n <-- get_node p;; if first_child n =? NULL then fret p else go_down fuel (first_child n)
  end.

Fixpoint free_loop (fuel : nat) (p : Z) : M unit :=
  match fuel with
  | O => ffail OutOfFuel
  | S fuel =>
      if p =? NULL then fret tt
      else
        h <-- fget;;
        p <-- go_down (S (size (nodes h))) p;;
        n <-- get_node p;;
        (if (c_next n =? NULL) && negb (c_parent n =? NULL) then mod_node (c_parent n) (set_first NULL) else fret tt);;;
        CN_FREE p;;;
        free_loop fuel (if c_next n =? NULL then c_parent n else c_next n)
  end.

Definition cn_cbor_free (cb : Z) : M unit :=
  if cb =? NULL then fret tt
  else
    n <-- get_node cb;;
    fassert (c_parent n =? NULL);;;
    h <-- fget;;
    free_loop (S (S (size (nodes h)))) cb.

(** ** Decoding *)

(** Reads from the buffer, least significant byte first, and the exchange of
    the bytes. *)
Definition BSWAP_16 (x : Z) : Z := Z.lor (Z.shiftl (Z.land x 0x00FF) 8) (Z.shiftr (Z.land x 0xFF00) 8).
Definition BSWAP_32 (x : Z) : Z :=
  Z.lor (Z.lor (Z.lor (Z.shiftr (Z.land x 0xFF000000) 24) (Z.shiftr (Z.land x 0x00FF0000) 8))
           (Z.shiftl (Z.land x 0x0000FF00) 8)) (Z.shiftl (Z.land x 0x000000FF) 24).
Definition ntoh16p (b : list Z) : Z := BSWAP_16 (le_val (take 2 b)).
Definition ntoh32p (b : list Z) : Z := BSWAP_32 (le_val (take 4 b)).
Definition ntoh64p (b : list Z) : Z := Z.shiftl (ntoh32p b) 32 + ntoh32p (drop 4 b).

Definition mt_trans (mt : Z) : cn_cbor_type :=
  match Z.to_nat mt with
  | 0%nat => CN_CBOR_UINT | 1%nat => CN_CBOR_INT | 2%nat => CN_CBOR_BYTES | 3%nat => CN_CBOR_TEXT
  | 4%nat => CN_CBOR_ARRAY | 5%nat => CN_CBOR_MAP | 6%nat => CN_CBOR_TAG | _ => CN_CBOR_SIMPLE
  end.

(** The labels of decode_item with its variables; [inp] are the bytes from
    [pos] on. *)
Inductive label :=
| Again (cb parent : Z) (inp : list Z)
| Fill (cb parent : Z) (inp : list Z)
| Done (cb : Z)
| Failed (e : cn_cbor_error) (inp : list Z).

(** The number behind an initial byte. *)
Inductive ai_value := AiVal (val : Z) (inp : list Z) | AiErr (e : cn_cbor_error) (inp : list Z) | AiPush (inp : list Z).

Definition take_ai (mt ai : Z) (inp : list Z) : ai_value :=
  let read n f := if n >? zlen inp then AiErr CN_CBOR_ERR_OUT_OF_DATA inp else AiVal (f inp) (drop (Z.to_nat n) inp) in
  if ai =? 24 then read 1 (λ b, le_val (take 1 b))
  else if ai =? 25 then read 2 ntoh16p
  else if ai =? 26 then read 4 ntoh32p
  else if ai =? 27 then read 8 ntoh64p
  else if (28 <=? ai) && (ai <=? 30) then AiErr CN_CBOR_ERR_RESERVED_AI inp
  else if ai =? AI_INDEF then
    if u32 (mt - 2) <=? 5 then AiPush inp else AiErr CN_CBOR_ERR_MT_UNDEF_FOR_INDEF inp
  else AiVal ai inp.

(** [decode_complete]: the parent is filled. *)
Definition decode_complete (top cb parent : Z) (inp : list Z) : M label :=
  if parent =? top then
    match inp with [] => fret (Done cb) | _ => fret (Failed CN_CBOR_ERR_NOT_ALL_DATA_CONSUMED inp) end
  else n <-- get_node parent;; fret (Fill parent (c_parent n) inp).

(** The switch over the major type. *)
Definition decode_content (cb parent mt ai val : Z) (inp : list Z) : M label :=
  if mt =? 0 then mod_node cb (set_v (VWord (u32 val)));;; fret (Fill cb parent inp)
  else if mt =? 1 then mod_node cb (set_v (VWord (u32 (Z.lnot val))));;; fret (Fill cb parent inp)
  else if (mt =? 2) || (mt =? 3) then
    mod_node cb (set_v (VStr inp));;; mod_node cb (set_length (s32 val));;;
    if val >? zlen inp then fret (Failed CN_CBOR_ERR_OUT_OF_DATA inp)
    else fret (Fill cb parent (drop (Z.to_nat val) inp))
  else if (mt =? 4) || (mt =? 5) then
    let count := u32 (if mt =? 5 then 2 * val else val) in
    mod_node cb (set_v (VWord count));;;
    if negb (count =? 0) then
      mod_node cb (λ n, set_flags (Z.lor (c_flags n) CN_CBOR_FL_COUNT) n);;; fret (Again cb cb inp)
    else fret (Fill cb parent inp)
  else if mt =? 6 then mod_node cb (set_v (VWord (u32 val)));;; fret (Again cb cb inp)
  else if ai =? 20 then mod_node cb (set_type CN_CBOR_FALSE);;; fret (Fill cb parent inp)
  else if ai =? 21 then mod_node cb (set_type CN_CBOR_TRUE);;; fret (Fill cb parent inp)
  else if ai =? 22 then mod_node cb (set_type CN_CBOR_NULL);;; fret (Fill cb parent inp)
  else if ai =? 23 then mod_node cb (set_type CN_CBOR_UNDEF);;; fret (Fill cb parent inp)
  else if (ai =? 25) || (ai =? 26) || (ai =? 27) then fret (Failed CN_CBOR_ERR_FLOAT_NOT_SUPPORTED inp)
  else mod_node cb (set_v (VWord (u32 val)));;; fret (Fill cb parent inp).

(** A new node becomes the last child. *)
Definition link_child (cb parent : Z) : M unit :=
  mod_node cb (set_parent parent);;;
  p <-- get_node parent;;
  (if negb (last_child p =? NULL) then mod_node (last_child p) (set_cnext cb) else mod_node parent (set_first cb));;;
  mod_node parent (set_last cb);;;
  mod_node parent (λ n, set_length (s32 (c_length n + 1)) n).

Definition decode_again (top cb parent : Z) (inp : list Z) : M label :=
  match inp with
  | [] => fret (Failed CN_CBOR_ERR_OUT_OF_DATA inp)
  | ib :: inp =>
      if ib =? IB_BREAK then
        p <-- get_node parent;;
        if negb (is_indef p) then fret (Failed CN_CBOR_ERR_BREAK_OUTSIDE_INDEF inp)
        else
          match c_type p with
          | CN_CBOR_BYTES => mod_node parent (set_type CN_CBOR_BYTES_CHUNKED);;; decode_complete top cb parent inp
          | CN_CBOR_TEXT => mod_node parent (set_type CN_CBOR_TEXT_CHUNKED);;; decode_complete top cb parent inp
          | CN_CBOR_MAP =>
              if Z.odd (c_length p) then fret (Failed CN_CBOR_ERR_ODD_SIZE_INDEF_MAP inp) else decode_complete top cb parent inp
          | _ => decode_complete top cb parent inp
          end
      else
        let mt := Z.shiftr ib 5 in
        let ai := Z.land ib 0x1f in
        new <-- CN_CALLOC;;
        match new with
        | None => fret (Failed CN_CBOR_ERR_OUT_OF_MEMORY inp)
        | Some cb =>
            mod_node cb (set_type (mt_trans mt));;;
            link_child cb parent;;;
            match take_ai mt ai inp with
            | AiErr e inp => fret (Failed e inp)
            | AiPush inp => mod_node cb (λ n, set_flags (Z.lor (c_flags n) CN_CBOR_FL_INDEF) n);;; fret (Again cb cb inp)
            | AiVal val inp => decode_content cb parent mt ai val inp
            end
        end
  end.

Definition word_of (v : cbor_value) : M Z := match v with VWord w => fret w | VStr _ => ffail OutOfBounds end.

Definition decode_fill (top cb parent : Z) (inp : list Z) : M label :=
  p <-- get_node parent;;
  if is_indef p then
    c <-- get_node cb;;
    if (bool_decide (c_type p = CN_CBOR_BYTES) || bool_decide (c_type p = CN_CBOR_TEXT)) && negb (bool_decide (c_type c = c_type p))
    then fret (Failed CN_CBOR_ERR_WRONG_NESTING_IN_INDEF_STRING inp)
    else fret (Again cb parent inp)
  else if is_count p then
    w <-- word_of (c_v p);;
    let count := u32 (w - 1) in
    mod_node parent (set_v (VWord count));;;
    if negb (count =? 0) then fret (Again cb parent inp) else decode_complete top cb parent inp
  else decode_complete top cb parent inp.

Fixpoint decode_loop (fuel : nat) (top : Z) (l : label) : M label :=
  match fuel with
  | O => ffail OutOfFuel
  | S fuel =>
      match l with
      | Again cb parent inp => l <-- decode_again top cb parent inp;; decode_loop fuel top l
      | Fill cb parent inp => l <-- decode_fill top cb parent inp;; decode_loop fuel top l
      | Done _ | Failed _ _ => fret l
      end
  end.

(** Every byte starts at most one node. *)
Definition decode_fuel (buf : list Z) : nat := S (S (3 * length buf)).

(** The root, or NULL with the error and its position. *)
Definition cn_cbor_decode (buf : list Z) : M (Z * option (cn_cbor_error * Z)) :=
  catcher <-- new_node (set_type CN_CBOR_INVALID zero_node);;
  l <-- decode_loop (decode_fuel buf) catcher (Again NULL catcher buf);;
  match l with
  | Done ret =>
      mod_node ret (set_parent NULL);;;
      CN_FREE catcher;;;
      fret (ret, None)
  | Failed e inp =>
      c <-- get_node catcher;;
      (if negb (first_child c =? NULL) then
         mod_node (first_child c) (set_parent NULL);;; cn_cbor_free (first_child c)
       else fret tt);;;
      CN_FREE catcher;;;
      fret (NULL, Some (e, zlen buf - zlen inp))
  | _ => ffail OutOfFuel
  end.

(** ** Encoding *)

Record cn_write_state := { ws_buf : list Z; ws_offset : Z; ws_size : Z }.
Definition set_offset v ws := {| ws_buf := ws_buf ws; ws_offset := v; ws_size := ws_size ws |}.

Definition ensure_writable (sz : Z) (ws : cn_write_state) : bool :=
  negb ((ws_offset ws <? 0) || (ws_offset ws + sz >=? ws_size ws)).
Definition write_bytes (d : list Z) (ws : cn_write_state) : result cn_write_state :=
  b <-? store (ws_offset ws) d (ws_buf ws);;
  Ok {| ws_buf := b; ws_offset := ws_offset ws + zlen d; ws_size := ws_size ws |}.
(** [ensure_writable(sz)] with the writes behind it. *)
Definition write_ensured (sz : Z) (d : list Z) (ws : cn_write_state) : result cn_write_state :=
  if ensure_writable sz ws then write_bytes d ws else Ok (set_offset (-1) ws).

(** The macros of uc_cbor.h; the object that is copied is little-endian. *)
Definition htons (x : Z) : Z := Z.lor (Z.shiftl (Z.land x 0xFF) 8) (Z.land (Z.shiftr x 8) 0xFF).
Definition htonl (x : Z) : Z :=
  Z.lor (Z.lor (Z.lor (Z.shiftl (Z.land x 0xFF) 24) (Z.shiftl (Z.land (Z.shiftr x 8) 0xFF) 16))
           (Z.shiftl (Z.land (Z.shiftr x 16) 0xFF) 8)) (Z.land (Z.shiftr x 24) 0xFF).
Definition hton16p (p : list Z) : Z := htons (le_val (take 2 p)).
Definition hton32p (p : list Z) : Z := htonl (le_val (take 4 p)).
Definition hton64p (p : list Z) : Z := Z.lor (Z.shiftl (hton32p p) 32) (hton32p (drop 4 p)).

(** The sixteen entries of _xlate. *)
Definition _xlate (t : cn_cbor_type) : option Z :=
  match t with
  | CN_CBOR_FALSE => Some 244 | CN_CBOR_TRUE => Some 245 | CN_CBOR_NULL => Some 246 | CN_CBOR_UNDEF => Some 247
  | CN_CBOR_UINT => Some 0 | CN_CBOR_INT => Some 32 | CN_CBOR_BYTES => Some 64 | CN_CBOR_TEXT => Some 96
  | CN_CBOR_BYTES_CHUNKED => Some 64 | CN_CBOR_TEXT_CHUNKED => Some 96 | CN_CBOR_ARRAY => Some 128 | CN_CBOR_MAP => Some 160
  | CN_CBOR_TAG => Some 192 | CN_CBOR_SIMPLE => Some 224 | CN_CBOR_DOUBLE => Some 255 | CN_CBOR_FLOAT => Some 255
  | CN_CBOR_INVALID => None
  end.

Definition _write_positive (typ : cn_cbor_type) (val : Z) (ws : cn_write_state) : result cn_write_state :=
  match _xlate typ with
  | None => Fault AssertFail
  | Some ib =>
      if ib =? 0xFF then Ok (set_offset (-1) ws)
      else if val <? 24 then write_ensured 1 [Z.lor ib val] ws
      else if val <? 256 then write_ensured 2 [Z.lor ib 24; val] ws
      else if val <? 65536 then write_ensured 3 (Z.lor ib 25 :: le_bytes 2 (hton16p (le_bytes 2 val))) ws
      else if val <? 4294967296 then write_ensured 5 (Z.lor ib 26 :: le_bytes 4 (hton32p (le_bytes 4 val))) ws
      else write_ensured 9 (Z.lor ib 27 :: le_bytes 8 (hton64p (le_bytes 8 val))) ws
  end.

Definition word_value (v : cbor_value) : result Z := match v with VWord w => Ok w | VStr _ => Fault OutOfBounds end.
Definition str_value (v : cbor_value) (n : Z) : result (list Z) :=
  match v with VStr s => slice 0 n s | VWord _ => Fault NullDeref end.

Definition _encoder_visitor (cb : cn_cbor) (ws : cn_write_state) : result cn_write_state :=
  match c_type cb with
  | CN_CBOR_ARRAY =>
      if is_indef cb then write_ensured 1 [Z.lor 128 AI_INDEF] ws
      else _write_positive CN_CBOR_ARRAY (c_length cb mod 2 ^ 64) ws
  | CN_CBOR_MAP =>
      if is_indef cb then write_ensured 1 [Z.lor 160 AI_INDEF] ws
      else _write_positive CN_CBOR_MAP (Z.quot (c_length cb) 2 mod 2 ^ 64) ws
  | CN_CBOR_BYTES_CHUNKED => write_ensured 1 [Z.lor 64 AI_INDEF] ws
  | CN_CBOR_TEXT_CHUNKED => write_ensured 1 [Z.lor 96 AI_INDEF] ws
  | CN_CBOR_TEXT | CN_CBOR_BYTES =>
      ws <-? _write_positive (c_type cb) (c_length cb mod 2 ^ 64) ws;;
      if ws_offset ws <? 0 then Ok ws
      else if ensure_writable (c_length cb) ws then
        s <-? str_value (c_v cb) (c_length cb);; write_bytes s ws
      else Ok (set_offset (-1) ws)
  | CN_CBOR_FALSE => write_ensured 1 [244] ws
  | CN_CBOR_TRUE => write_ensured 1 [245] ws
  | CN_CBOR_NULL => write_ensured 1 [246] ws
  | CN_CBOR_UNDEF => write_ensured 1 [247] ws
  | CN_CBOR_TAG | CN_CBOR_UINT | CN_CBOR_SIMPLE => w <-? word_value (c_v cb);; _write_positive (c_type cb) w ws
  | CN_CBOR_INT =>
      w <-? word_value (c_v cb);;
      if s32 w <? 0 then _write_positive CN_CBOR_INT (Z.lnot (s32 w)) ws else Fault AssertFail
  | CN_CBOR_DOUBLE | CN_CBOR_FLOAT => Ok ws
  | CN_CBOR_INVALID => Ok (set_offset (-1) ws)
  end.

Definition _encoder_breaker (ws : cn_write_state) : result cn_write_state := write_ensured 1 [IB_BREAK] ws.

(** The walk: [Visit] a node, or [Leave] it when nothing is below it any
    more.  A node that is left is the next one's elder sibling or the last child
    of the next one to be left. *)
Inductive visit_label := Visit (p : Z) | Leave (p : Z).

Fixpoint _visit (fuel : nat) (l : visit_label) (ws : cn_write_state) : M cn_write_state :=
  match fuel with
  | O => ffail OutOfFuel
  | S fuel =>
      match l with
      | Visit p =>
          n <-- get_node p;;
          ws <-- flift (_encoder_visitor n ws);;
          _visit fuel (if first_child n =? NULL then Leave p else Visit (first_child n)) ws
      | Leave p =>
          n <-- get_node p;;
          ws <-- (if is_indef n then flift (_encoder_breaker ws) else fret ws);;
          if negb (c_next n =? NULL) then _visit fuel (Visit (c_next n)) ws
          else if negb (c_parent n =? NULL) then _visit fuel (Leave (c_parent n)) ws
          else fret ws
      end
  end.

(** The bytes that were written, or -1, with the buffer. *)
Definition cn_cbor_encoder_write (buf : list Z) (buf_offset buf_size cb : Z) : M (Z * list Z) :=
  h <-- fget;;
  ws <-- (let ws := {| ws_buf := buf; ws_offset := buf_offset; ws_size := buf_size |} in
          if cb =? NULL then fret ws else _visit (S (2 * size (nodes h))) (Visit cb) ws);;
  if ws_offset ws <? 0 then fret (-1, ws_buf ws) else fret (ws_offset ws - buf_offset, ws_buf ws).

(** ** Making and reading trees *)

Definition INIT_CB (n : cn_cbor) : M Z :=
  p <-- CN_CALLOC;; match p with Some p => put_cnode p n;;; fret p | None => fret NULL end.

Definition cn_cbor_map_create : M Z := INIT_CB (set_flags CN_CBOR_FL_COUNT (set_type CN_CBOR_MAP zero_node)).
Definition cn_cbor_array_create : M Z := INIT_CB (set_flags CN_CBOR_FL_COUNT (set_type CN_CBOR_ARRAY zero_node)).
Definition cn_cbor_data_create (data : list Z) (len : Z) : M Z :=
  INIT_CB (set_v (VStr data) (set_length len (set_type CN_CBOR_BYTES zero_node))).
(** [data] ends with its end mark. *)
Definition cn_cbor_string_create (data : list Z) : M Z :=
  INIT_CB (set_v (VStr data) (set_length (zlen data - 1) (set_type CN_CBOR_TEXT zero_node))).
Definition cn_cbor_int_create (value : Z) : M Z :=
  INIT_CB (set_v (VWord (u32 value)) (set_type (if value <? 0 then CN_CBOR_INT else CN_CBOR_UINT) zero_node)).

Definition cn_cbor_array_append (cb_array cb_value : Z) : M bool :=
  if (cb_array =? NULL) || (cb_value =? NULL) then fret false
  else
    a <-- get_node cb_array;;
    if negb (bool_decide (c_type a = CN_CBOR_ARRAY)) then fret false
    else
      mod_node cb_value (λ n, set_cnext NULL (set_parent cb_array n));;;
      (if negb (last_child a =? NULL) then mod_node (last_child a) (set_cnext cb_value)
       else mod_node cb_array (set_first cb_value));;;
      mod_node cb_array (set_last cb_value);;;
      mod_node cb_array (λ n, set_length (s32 (c_length n + 1)) n);;;
      fret true.

Definition _append_kv (cb_map key val : Z) : M bool :=
  mod_node key (λ n, set_cnext val (set_parent cb_map n));;;
  mod_node val (λ n, set_cnext NULL (set_parent cb_map n));;;
  m <-- get_node cb_map;;
  (if negb (last_child m =? NULL) then mod_node (last_child m) (set_cnext key) else mod_node cb_map (set_first key));;;
  mod_node cb_map (set_last val);;;
  mod_node cb_map (λ n, set_length (s32 (c_length n + 2)) n);;;
  fret true.

Definition map_of (cb_map : Z) : M bool :=
  if cb_map =? NULL then fret false else m <-- get_node cb_map;; fret (bool_decide (c_type m = CN_CBOR_MAP)).

Definition cn_cbor_map_put (cb_map cb_key cb_value : Z) : M bool :=
  ok <-- map_of cb_map;;
  if negb ok || (cb_key =? NULL) || (cb_value =? NULL) then fret false else _append_kv cb_map cb_key cb_value.
Definition cn_cbor_mapput_int (cb_map key cb_value : Z) : M bool :=
  ok <-- map_of cb_map;;
  if negb ok || (cb_value =? NULL) then fret false
  else k <-- cn_cbor_int_create key;; if k =? NULL then fret false else _append_kv cb_map k cb_value.
Definition cn_cbor_mapput_string (cb_map : Z) (key : list Z) (cb_value : Z) : M bool :=
  ok <-- map_of cb_map;;
  if negb ok || (cb_value =? NULL) then fret false
  else k <-- cn_cbor_string_create key;; if k =? NULL then fret false else _append_kv cb_map k cb_value.

(** A key and the node behind it, two at a time; [key] an int. *)
Fixpoint mapget_loop (fuel : nat) (test : cn_cbor → M bool) (cp : Z) : M Z :=
  match fuel with
  | O => ffail OutOfFuel
  | S fuel =>
      if cp =? NULL then fret NULL
      else
        n <-- get_node cp;;
        if c_next n =? NULL then fret NULL
        else
          found <-- test n;;
          if found : bool then fret (c_next n)
          else v <-- get_node (c_next n);; mapget_loop fuel test (c_next v)
  end.
Definition int_key (key : Z) (n : cn_cbor) : M bool :=
  match c_type n with
  | CN_CBOR_UINT | CN_CBOR_INT => w <-- word_of (c_v n);; fret (w =? u32 key)
  | _ => fret false
  end.
Definition cn_cbor_mapget_int (cb key : Z) : M Z :=
  n <-- get_node cb;; h <-- fget;; mapget_loop (S (size (nodes h))) (int_key key) (first_child n).

(** [key] without its end mark. *)
Definition string_key (key : list Z) (n : cn_cbor) : M bool :=
  match c_type n with
  | CN_CBOR_TEXT | CN_CBOR_BYTES =>
      if negb (zlen key =? c_length n) then fret false
      else s <-- flift (str_value (c_v n) (zlen key));; fret (bool_decide (s = key))
  | _ => fret false
  end.
Definition cn_cbor_mapget_string (cb : Z) (key : list Z) : M Z :=
  n <-- get_node cb;; h <-- fget;; mapget_loop (S (size (nodes h))) (string_key key) (first_child n).

Fixpoint index_loop (fuel : nat) (cp i idx : Z) : M Z :=
  match fuel with
  | O => ffail OutOfFuel
  | S fuel =>
      if cp =? NULL then fret NULL
      else if i =? idx then fret cp
      else n <-- get_node cp;; index_loop fuel (c_next n) (u32 (i + 1)) idx
  end.
Definition cn_cbor_index (cb idx : Z) : M Z :=
  n <-- get_node cb;; h <-- fget;; index_loop (S (size (nodes h))) (first_child n) 0 idx.
End Heap.

(** ** Trees of nodes *)

(** The addresses of a tree. *)
Inductive stree := STree (p : Z) (kids : list stree).
Definition addr (t : stree) : Z := match t with STree p _ => p end.
Definition kids_of (t : stree) : list stree := match t with STree _ ks => ks end.
Definition first_addr (ts : list stree) : Z := match ts with [] => NULL | t :: _ => addr t end.
Definition last_addr (ts : list stree) : Z := match last ts with None => NULL | Some t => addr t end.
Fixpoint addrs (t : stree) : list Z := match t with STree p ks => p :: concat (map addrs ks) end.
Definition addrss (ks : list stree) : list Z := concat (map addrs ks).

Lemma stree_rect' (P : stree → Prop) : (∀ p ks, Forall P ks → P (STree p ks)) → ∀ t, P t.
Proof. intros Hs. fix IH 1. intros [p ks]. apply Hs. induction ks as [|k ks IHks]; constructor; [apply IH|exact IHks]. Qed.

(** Siblings, each with the address of the next one; behind the last is [nxt]. *)
Definition next_addr (ts : list stree) (nxt : Z) : Z := match ts with [] => nxt | t :: _ => addr t end.
Section Each.
Context (f : Z → stree → Prop) (nxt : Z).
Fixpoint each (ks : list stree) : Prop := match ks with [] => True | k :: ks => f (next_addr ks nxt) k ∧ each ks end.
End Each.

(** The links of a tree: those of its root to the outside are given. *)
Definition links (par nxt fst lst : Z) (n : cn_cbor) : Prop :=
  c_parent n = par ∧ c_next n = nxt ∧ first_child n = fst ∧ last_child n = lst.
Fixpoint srep (h : gmap Z cn_cbor) (par nxt : Z) (t : stree) : Prop :=
  match t with
  | STree p ks =>
      p ≠ NULL ∧ (∃ n, h !! p = Some n ∧ links par nxt (first_addr ks) (last_addr ks) n) ∧ each (srep h p) NULL ks
  end.
Definition sreps (h : gmap Z cn_cbor) (p nxt : Z) (ks : list stree) : Prop := each (srep h p) nxt ks.

Lemma srep_eq h par nxt p ks :
  srep h par nxt (STree p ks) ↔
  p ≠ NULL ∧ (∃ n, h !! p = Some n ∧ links par nxt (first_addr ks) (last_addr ks) n) ∧ sreps h p NULL ks.
Proof. reflexivity. Qed.

Lemma srep_addr h par nxt t : srep h par nxt t → addr t ≠ NULL.
Proof. destruct t. intros [? _]. done. Qed.

Lemma addr_in t : addr t ∈ addrs t.
Proof. destruct t. cbn. apply elem_of_cons. by left. Qed.

(** Only the cells of the tree, and of them only the links, matter. *)
Definition same_links (n m : cn_cbor) : Prop :=
  c_parent n = c_parent m ∧ c_next n = c_next m ∧ first_child n = first_child m ∧ last_child n = last_child m.

Lemma srep_frame h h' t :
  (∀ q n, q ∈ addrs t → h !! q = Some n → ∃ m, h' !! q = Some m ∧ same_links n m) →
  ∀ par nxt, srep h par nxt t → srep h' par nxt t.
Proof.
  induction t as [p ks IH] using stree_rect'. intros Hsame par nxt. rewrite !srep_eq. intros (Hp & (n & Hn & H1 & H2 & H3 & H4) & Hks).
  split; [done|]. split.
  - destruct (Hsame p n) as (m & Hm & S1 & S2 & S3 & S4); [apply elem_of_cons; by left|done|].
    exists m. unfold links. rewrite <- S1, <- S2, <- S3, <- S4. done.
  - assert (∀ q n, q ∈ addrss ks → h !! q = Some n → ∃ m, h' !! q = Some m ∧ same_links n m) as Hsame'
      by (intros q m Hq; apply Hsame; apply elem_of_cons; by right). clear Hsame Hn n H1 H2 H3 H4 Hp.
    unfold sreps in *. induction IH as [|k ks Hk _ IHks]; [done|]. destruct Hks as [Hk1 Hks].
    split.
    + apply Hk; [|done]. intros q m Hq. apply Hsame'. apply elem_of_app. by left.
    + apply IHks; [done|]. intros q m Hq. apply Hsame'. apply elem_of_app. by right.
Qed.

Lemma sreps_frame h h' p nxt ks :
  (∀ q n, q ∈ addrss ks → h !! q = Some n → ∃ m, h' !! q = Some m ∧ same_links n m) → sreps h p nxt ks → sreps h' p nxt ks.
Proof.
  unfold sreps. induction ks as [|k ks IH]; [done|]. intros Hq [Hk Hks]. split.
  - eapply srep_frame; [|exact Hk]. intros q n Hin. apply Hq, elem_of_app. by left.
  - apply IH; [|done]. intros q n Hin. apply Hq, elem_of_app. by right.
Qed.

Lemma same_links_refl n : same_links n n.
Proof. done. Qed.

Lemma sreps_frame_eq h h' p nxt ks : (∀ q, q ∈ addrss ks → h' !! q = h !! q) → sreps h p nxt ks → sreps h' p nxt ks.
Proof. intros Hq. apply sreps_frame. intros q n Hin Hn. exists n. rewrite Hq by done. done. Qed.

Lemma srep_frame_eq h h' t par nxt : (∀ q, q ∈ addrs t → h' !! q = h !! q) → srep h par nxt t → srep h' par nxt t.
Proof. intros Hq. apply srep_frame. intros q n Hin Hn. exists n. rewrite Hq by done. done. Qed.

Lemma srep_dom h par nxt t : srep h par nxt t → ∀ q, q ∈ addrs t → is_Some (h !! q).
Proof.
  revert par nxt. induction t as [p ks IH] using stree_rect'. intros par nxt. rewrite srep_eq. intros (_ & (n & Hn & _) & Hks) q Hq.
  apply elem_of_cons in Hq as [->|Hq]; [eauto|]. clear Hn n. unfold sreps in Hks.
  induction IH as [|k ks Hk _ IHks]; [by apply elem_of_nil in Hq|].
  destruct Hks as [Hk1 Hks]. cbn in Hq. apply elem_of_app in Hq as [Hq|Hq]; [by eapply Hk|by apply IHks].
Qed.

Lemma srep_null h t : ∀ par nxt, srep h par nxt t → NULL ∉ addrs t.
Proof.
  induction t as [p ks IH] using stree_rect'. intros par nxt (Hp & _ & Hks) Hin. apply elem_of_cons in Hin as [E|Hin]; [by symmetry in E|].
  revert Hin. clear Hp. induction IH as [|k ks Hk _ IHks]; [apply not_elem_of_nil|]. destruct Hks as [Hk1 Hks].
  intros Hin. apply elem_of_app in Hin as [Hin|Hin]; [by eapply Hk|by apply IHks].
Qed.

Lemma addrs_bound h par nxt t : srep h par nxt t → NoDup (addrs t) → (length (addrs t) <= size h)%nat.
Proof.
  intros Hr Hnd. rewrite <- (size_list_to_set (C := gset Z) (addrs t)) by done. rewrite <- size_dom.
  apply subseteq_size. intros q Hq. apply elem_of_list_to_set in Hq. apply elem_of_dom. by eapply srep_dom.
Qed.

(** ** Release *)

Definition wipe (ps : list Z) (h : gmap Z cn_cbor) : gmap Z cn_cbor := foldr delete h ps.

Lemma lookup_wipe ps h q : wipe ps h !! q = (if decide (q ∈ ps) then None else h !! q).
Proof.
  induction ps as [|p ps IH]; cbn; [rewrite decide_False by (intros E; by apply elem_of_nil in E); done|].
  destruct (decide (p = q)) as [->|Hne].
  - rewrite lookup_delete_eq, decide_True by (apply elem_of_cons; by left). done.
  - rewrite lookup_delete_ne by done. fold (wipe ps h). rewrite IH. destruct (decide (q ∈ ps)).
    + rewrite decide_True by (apply elem_of_cons; by right). done.
    + rewrite decide_False by (rewrite elem_of_cons; intros [?|?]; congruence). done.
Qed.

(** The parent forgets its children when the last one goes. *)
Definition forget (par nxt : Z) (h : gmap Z cn_cbor) : gmap Z cn_cbor :=
  if (nxt =? NULL) && negb (par =? NULL) then alter (set_first NULL) par h else h.
Lemma forget_last p h : p ≠ NULL → forget p NULL h = alter (set_first NULL) p h.
Proof. intros Hp. unfold forget. rewrite (proj2 (Z.eqb_neq p NULL)) by done. done. Qed.
Definition with_nodes (m : gmap Z cn_cbor) (h : cbor_heap) : cbor_heap := {| nodes := m; cbrk := cbrk h; coks := coks h |}.
Definition up_next (par nxt : Z) : Z := if nxt =? NULL then par else nxt.

(** A leaf is freed, and its next sibling or its parent is the next one. *)
Lemma free_leaf h p n f :
  nodes h !! p = Some n → first_child n = NULL → p ≠ NULL →
  (c_next n = NULL → c_parent n ≠ NULL → c_parent n ≠ p ∧ is_Some (nodes h !! c_parent n)) →
  free_loop (S f) p h =
    free_loop f (up_next (c_parent n) (c_next n)) (with_nodes (forget (c_parent n) (c_next n) (delete p (nodes h))) h).
Proof.
  intros Hn Hf Hp Hpar. cbn [free_loop]. rewrite (proj2 (Z.eqb_neq p NULL)) by done.
  erewrite bind_Ok by reflexivity. cbn [go_down]. unfold get_node at 1. rewrite fbind_assoc.
  erewrite bind_Ok by (rewrite Hn; reflexivity). rewrite Hf. erewrite bind_Ok by reflexivity.
  unfold get_node at 1. erewrite bind_Ok by (rewrite Hn; reflexivity). unfold forget, up_next.
  destruct (Z.eqb_spec (c_next n) NULL) as [En|En]; [destruct (Z.eqb_spec (c_parent n) NULL) as [Ep|Ep]|]; cbn [negb andb].
  2: { destruct (Hpar En Ep) as [Hne [m Hm]]. erewrite bind_Ok.
       2:{ unfold mod_node, get_node. erewrite bind_Ok by (rewrite Hm; reflexivity). reflexivity. }
       unfold CN_FREE. rewrite fbind_assoc. unfold get_node. cbn [nodes].
       erewrite bind_Ok by (cbn [nodes]; rewrite lookup_insert_ne by done; rewrite Hn; reflexivity). erewrite bind_Ok by reflexivity.
       cbn [nodes cbrk coks]. unfold with_nodes. do 2 f_equal. apply map_eq. intros q.
       destruct (decide (q = p)) as [->|Hq].
       - rewrite lookup_delete_eq, lookup_alter_ne, lookup_delete_eq by done. done.
       - rewrite lookup_delete_ne by done. destruct (decide (q = c_parent n)) as [->|Hq'].
         + rewrite lookup_insert_eq, lookup_alter_eq, lookup_delete_ne by done. rewrite Hm. done.
         + rewrite lookup_insert_ne, lookup_alter_ne, lookup_delete_ne by done. done. }
  all: erewrite bind_Ok by reflexivity; unfold CN_FREE; rewrite fbind_assoc; unfold get_node at 1;
    erewrite bind_Ok by (rewrite Hn; reflexivity); erewrite bind_Ok by reflexivity; done.
Qed.

Lemma go_down_fuel fuel p h r : go_down fuel p h = Ok r → ∀ fuel', (fuel <= fuel')%nat → go_down fuel' p h = Ok r.
Proof.
  revert p. induction fuel as [|fuel IH]; [done|]. intros p E fuel' Hle. destruct fuel' as [|fuel']; [lia|]. cbn [go_down] in *.
  apply fbind_Ok in E as (n & s & E1 & E2). rewrite (bind_Ok _ _ _ _ _ E1).
  destruct (_ =? _); [done|]. assert (s = h) as -> by (unfold get_node in E1; destruct (nodes h !! p); congruence).
  apply IH; [done|lia].
Qed.

Fixpoint leftmost (t : stree) : Z := match t with STree p ks => match ks with [] => p | k :: _ => leftmost k end end.

Lemma go_down_spec t : ∀ h par nxt fuel,
  srep (nodes h) par nxt t → (length (addrs t) <= fuel)%nat → go_down fuel (addr t) h = Ok (leftmost t, h).
Proof.
  induction t as [p ks IH] using stree_rect'. intros h par nxt fuel. rewrite srep_eq.
  intros (Hp & (n & Hn & _ & _ & Hf & _) & Hks) Hl.
  destruct fuel as [|fuel]; [cbn in Hl; lia|]. cbn [go_down addr]. unfold get_node. erewrite bind_Ok by (rewrite Hn; reflexivity).
  rewrite Hf. destruct ks as [|k ks]; [done|]. cbn [first_addr leftmost]. destruct Hks as [Hk Hks].
  rewrite (proj2 (Z.eqb_neq _ NULL)) by (by eapply srep_addr). apply Forall_cons in IH as [IHk _]. eapply IHk; [exact Hk|].
  cbn in Hl. rewrite length_app in Hl. lia.
Qed.

(** Above its first child a node is passed by. *)
Lemma free_down h par nxt p k ks f :
  srep (nodes h) par nxt (STree p (k :: ks)) → NoDup (addrs (STree p (k :: ks))) →
  free_loop (S f) p h = free_loop (S f) (addr k) h.
Proof.
  intros Hr Hnd. pose proof (addrs_bound _ _ _ _ Hr Hnd) as Hb. cbn [free_loop].
  pose proof (go_down_spec _ _ _ _ (S (size (nodes h))) Hr ltac:(lia)) as E1.
  rewrite (proj2 (Z.eqb_neq p NULL)) by apply Hr. apply srep_eq in Hr as (_ & _ & Hk & _).
  rewrite (proj2 (Z.eqb_neq (addr k) NULL)) by (by eapply srep_addr).
  assert (go_down (S (size (nodes h))) (addr k) h = Ok (leftmost k, h)) as E2.
  { eapply go_down_spec; [exact Hk|]. cbn in Hb. rewrite length_app in Hb. lia. }
  rewrite !(bind_Ok fget _ h h h eq_refl). rewrite (bind_Ok _ _ _ _ _ E1), (bind_Ok _ _ _ _ _ E2). done.
Qed.

Definition freed (par nxt : Z) (ps : list Z) (h : cbor_heap) : cbor_heap :=
  with_nodes (forget par nxt (wipe ps (nodes h))) h.

(** What is asked of the surroundings of a tree that is freed. *)
Definition parent_ok (h : gmap Z cn_cbor) (par nxt : Z) (ps : list Z) : Prop :=
  h !! NULL = None ∧ NoDup ps ∧ (par ∉ ps) ∧ (nxt = NULL → par ≠ NULL → is_Some (h !! par)).

Lemma lookup_freed par nxt ps h q :
  q ≠ par → (nodes (freed par nxt ps h) !! q) = (if decide (q ∈ ps) then None else nodes h !! q).
Proof. intros Hq. cbn. unfold forget. destruct (_ && _); [rewrite lookup_alter_ne by done|]; apply lookup_wipe. Qed.

Lemma freed_app par nxt ps qs h : freed par nxt qs (freed NULL nxt ps h) = freed par nxt (qs ++ ps) h.
Proof.
  unfold freed, with_nodes. cbn [nodes cbrk coks]. unfold forget at 2. rewrite andb_false_r. unfold wipe at 3.
  rewrite foldr_app. done.
Qed.

Definition frees (t : stree) : Prop := ∀ h par nxt f,
  srep (nodes h) par nxt t → parent_ok (nodes h) par nxt (addrs t) →
  free_loop (length (addrs t) + f) (addr t) h = free_loop f (up_next par nxt) (freed par nxt (addrs t) h).

Lemma wipe_perm ps qs h : (∀ q, q ∈ ps ↔ q ∈ qs) → wipe ps h = wipe qs h.
Proof.
  intros Hpq. apply map_eq. intros q. rewrite !lookup_wipe.
  destruct (decide (q ∈ ps)) as [E|E]; [rewrite decide_True by (by apply Hpq)|rewrite decide_False by (by rewrite <- Hpq)]; done.
Qed.

Lemma free_siblings ks : Forall frees ks → ∀ h p f, ks ≠ [] → sreps (nodes h) p NULL ks →
  p ≠ NULL → parent_ok (nodes h) p NULL (addrss ks) →
  free_loop (length (addrss ks) + f) (first_addr ks) h = free_loop f p (freed p NULL (addrss ks) h).
Proof.
  intros HF. induction HF as [|k ks Hk _ IH]; intros h p f Hne Hr Hp (Hnull & Hnd & Hpar & Hsome); [done|]. clear Hne.
  destruct Hr as [Hr Hks]. unfold addrss in *. cbn [map concat] in *. apply NoDup_app in Hnd as (Hnd1 & Hdis & Hnd2).
  rewrite elem_of_app in Hpar. rewrite length_app, <- Nat.add_assoc. cbn [first_addr].
  rewrite (Hk h p (next_addr ks NULL) _ Hr) by (split; [done|]; split; [done|]; split; [tauto|]; intros _; by apply Hsome).
  destruct ks as [|k' ks]; cbn [next_addr] in *.
  { cbn [map concat length Nat.add up_next]. rewrite app_nil_r. done. }
  assert (addr k' ≠ NULL) as Hk' by (destruct Hks as [Hk' _]; by eapply srep_addr).
  assert (freed p (addr k') (addrs k) h = freed NULL NULL (addrs k) h) as E.
  { unfold freed, forget. rewrite (proj2 (Z.eqb_neq (addr k') NULL)) by done. done. }
  rewrite E. unfold up_next. rewrite (proj2 (Z.eqb_neq (addr k') NULL)) by done.
  assert (∀ q, q ∉ addrs k → nodes (freed NULL NULL (addrs k) h) !! q = nodes h !! q) as Hsame.
  { intros q Hq. cbn. rewrite lookup_wipe, decide_False by done. done. }
  assert (addr k' ∈ addrss (k' :: ks)) as Hin by (apply elem_of_app; left; apply addr_in).
  change (addr k') with (first_addr (k' :: ks)). rewrite (IH _ p); [|done| |done|].
  - rewrite freed_app. unfold freed. do 3 f_equal. apply (wipe_perm (_ ++ _) (_ ++ _)). intros q. rewrite !elem_of_app. tauto.
  - eapply sreps_frame_eq; [|exact Hks]. intros q Hq. apply Hsame. intros Hq'. by eapply Hdis.
  - repeat split; [|done|tauto|].
    + cbn. rewrite lookup_wipe. destruct (decide _); done.
    + intros _ _. rewrite Hsame by tauto. by apply Hsome.
Qed.

Lemma free_tree t : frees t.
Proof.
  induction t as [p ks IH] using stree_rect'. intros h par nxt f Hr Hok.
  pose proof Hok as (Hnull & Hnd & Hpar & Hsome). pose proof Hr as (Hp & (n & Hn & Hp1 & Hn1 & Hf1 & Hl1) & Hks).
  cbn [addrs length addr]. destruct ks as [|k ks].
  - cbn [concat map length Nat.add]. rewrite (free_leaf _ _ n); [|done..|].
    + rewrite Hp1, Hn1. done.
    + rewrite Hp1, Hn1. intros E1 E2. split; [|by apply Hsome]. intros ->. apply Hpar. apply elem_of_cons. by left.
  - fold (addrss (k :: ks)). replace (S (length (addrss (k :: ks))) + f)%nat with (S (length (addrss (k :: ks)) + f)) by lia.
    rewrite (free_down _ _ _ _ _ _ _ Hr Hnd). cbn [addrs] in Hnd, Hpar.
    apply NoDup_cons in Hnd as [Hnot Hnd]. apply not_elem_of_cons in Hpar as [Hpp Hpar].
    rewrite <- Nat.add_succ_r.
    change (addr k) with (first_addr (k :: ks)). rewrite (free_siblings _ IH _ p); [|done|exact Hks|done|repeat split; eauto].
    rewrite (free_leaf _ _ (set_first NULL n)).
    + cbn [c_parent c_next set_first]. rewrite Hp1, Hn1. f_equal. unfold freed, with_nodes. cbn [nodes cbrk coks wipe foldr].
      fold (wipe (addrss (k :: ks)) (nodes h)). f_equal. f_equal. rewrite forget_last by done.
      apply map_eq. intros q. destruct (decide (q = p)) as [->|Hq].
      * rewrite !lookup_delete_eq. done.
      * rewrite !lookup_delete_ne, lookup_alter_ne by done. done.
    + unfold freed, with_nodes. cbn [nodes]. rewrite forget_last by done. rewrite lookup_alter_eq, lookup_wipe, decide_False, Hn by done. done.
    + done.
    + done.
    + cbn [c_parent c_next set_first]. rewrite Hp1, Hn1. intros E1 E2. split; [done|].
      rewrite lookup_freed by done. rewrite decide_False by done. by apply Hsome.
Qed.

(** Freeing the root of a tree gives back every node of the tree, each once, and nothing else. *)
Lemma free_root t h :
  srep (nodes h) NULL NULL t → NoDup (addrs t) → nodes h !! NULL = None →
  cn_cbor_free (addr t) h = Ok (tt, with_nodes (wipe (addrs t) (nodes h)) h).
Proof.
  intros Hr Hnd Hnull. pose proof (addrs_bound _ _ _ _ Hr Hnd) as Hb. unfold cn_cbor_free.
  rewrite (proj2 (Z.eqb_neq (addr t) NULL)) by (by eapply srep_addr).
  assert (∃ n, nodes h !! addr t = Some n ∧ c_parent n = NULL) as (n & Hn & Hp).
  { destruct t as [p ks]. destruct Hr as (_ & (n & Hn & Hp & _) & _). eauto. }
  unfold get_node at 1. erewrite bind_Ok by (rewrite Hn; reflexivity). rewrite Hp. cbn [fassert Z.eqb NULL].
  rewrite !(bind_Ok (fret tt) _ h tt h eq_refl), (bind_Ok fget _ h h h eq_refl).
  set (F := S (S (size (nodes h)))). replace F with (length (addrs t) + S (F - S (length (addrs t))))%nat by (unfold F; lia).
  rewrite (free_tree t h NULL NULL _ Hr); [done|]. split; [done|]. split; [done|]. split; [|done].
  intros Hin. eapply srep_dom in Hin as [m Hm]; [|exact Hr]. congruence.
Qed.

(** ** The decoder's tree while it grows

    The open nodes, innermost first, each with its complete children; below
    them the innermost tree. *)
Abbreviation frame := (Z * list stree)%type.
Definition top_addr (fr : list frame) : Z := match fr with [] => NULL | (p, _) :: _ => p end.
Definition faddrs (fr : list frame) : list Z := concat (map (λ f, f.1 :: addrss f.2) fr).
Definition zaddrs (t : stree) (fr : list frame) : list Z := addrs t ++ faddrs fr.

Fixpoint ctx (h : gmap Z cn_cbor) (a : Z) (fr : list frame) : Prop :=
  match fr with
  | [] => True
  | (p, ks) :: fr =>
      p ≠ NULL ∧ (∃ n, h !! p = Some n ∧ links (top_addr fr) NULL (next_addr ks a) a n) ∧ sreps h p a ks ∧ ctx h p fr
  end.
Definition zip (h : gmap Z cn_cbor) (t : stree) (fr : list frame) : Prop := srep h (top_addr fr) NULL t ∧ ctx h (addr t) fr.

Lemma next_addr_snoc ks t nxt : next_addr (ks ++ [t]) nxt = next_addr ks (addr t).
Proof. by destruct ks. Qed.
Lemma first_addr_snoc ks t : first_addr (ks ++ [t]) = next_addr ks (addr t).
Proof. by destruct ks. Qed.
Lemma last_addr_snoc ks t : last_addr (ks ++ [t]) = addr t.
Proof. unfold last_addr. rewrite last_snoc. done. Qed.
Lemma addrss_app ks ls : addrss (ks ++ ls) = addrss ks ++ addrss ls.
Proof. unfold addrss. rewrite map_app, concat_app. done. Qed.
Lemma addrss_one t : addrss [t] = addrs t.
Proof. unfold addrss. cbn. apply app_nil_r. Qed.
Create Rewrite HintDb zip.
#[export] Hint Rewrite next_addr_snoc first_addr_snoc last_addr_snoc addrss_app addrss_one : zip.

Lemma sreps_snoc h p nxt ks t : sreps h p nxt (ks ++ [t]) ↔ sreps h p (addr t) ks ∧ srep h p nxt t.
Proof.
  unfold sreps. induction ks as [|k ks IH]; cbn [app each]; [cbn [next_addr]; tauto|].
  rewrite IH, next_addr_snoc. tauto.
Qed.

Lemma zip_close h t p ks fr : zip h t ((p, ks) :: fr) → zip h (STree p (ks ++ [t])) fr.
Proof.
  intros [Ht (Hp & (n & Hn & Hl) & Hks & Hc)]. split; [|done]. apply srep_eq. autorewrite with zip.
  split; [done|]. split; [eauto|]. by apply sreps_snoc.
Qed.

Lemma zaddrs_close t p ks fr : zaddrs (STree p (ks ++ [t])) fr ≡ₚ zaddrs t ((p, ks) :: fr).
Proof.
  unfold zaddrs, faddrs. cbn. fold (addrss (ks ++ [t])). autorewrite with zip. rewrite (Permutation_app_comm (addrss ks)).
  solve_Permutation.
Qed.

Lemma in_faddrs q p ks fr : q ∈ faddrs ((p, ks) :: fr) ↔ q = p ∨ q ∈ addrss ks ∨ q ∈ faddrs fr.
Proof. unfold faddrs. cbn. rewrite elem_of_cons, elem_of_app. done. Qed.

Lemma ctx_frame h h' a fr :
  (∀ q n, q ∈ faddrs fr → h !! q = Some n → ∃ m, h' !! q = Some m ∧ same_links n m) → ctx h a fr → ctx h' a fr.
Proof.
  revert a. induction fr as [|[p ks] fr IH]; [done|]. intros a Hs (Hp & (n & Hn & H1 & H2 & H3 & H4) & Hks & Hc).
  split; [done|]. split; [|split].
  - destruct (Hs p n) as (m & Hm & S1 & S2 & S3 & S4); [apply in_faddrs; by left|done|].
    exists m. unfold links. rewrite <- S1, <- S2, <- S3, <- S4. done.
  - eapply sreps_frame; [|exact Hks]. intros q m Hq. apply Hs, in_faddrs. tauto.
  - apply IH; [|done]. intros q m Hq. apply Hs, in_faddrs. tauto.
Qed.

Lemma zip_frame h h' t fr :
  (∀ q n, q ∈ zaddrs t fr → h !! q = Some n → ∃ m, h' !! q = Some m ∧ same_links n m) → zip h t fr → zip h' t fr.
Proof.
  intros Hs [Ht Hc]. split.
  - eapply srep_frame; [|exact Ht]. intros q n Hq. apply Hs, elem_of_app. by left.
  - eapply ctx_frame; [|exact Hc]. intros q n Hq. apply Hs, elem_of_app. by right.
Qed.

(** A new last child [c] below the root of the innermost tree. *)
Definition linked (a c : Z) (n : cn_cbor) : cn_cbor :=
  set_length (s32 (c_length n + 1)) (set_last c (if last_child n =? NULL then set_first c n else n)).
Definition link_nodes (a c lst : Z) (nc na : cn_cbor) (m m' : gmap Z cn_cbor) : Prop :=
  ∀ q, m' !! q = (if decide (q = c) then Some (set_parent a nc)
                  else if decide (q = a) then Some (linked a c na)
                  else if decide (q = lst) then set_cnext c <$> m !! q else m !! q).

(** Lookups in a map that was written. *)
Ltac lk := repeat first [rewrite lookup_insert_eq | rewrite lookup_insert_ne by done].

Lemma mod_node_run p f n h : nodes h !! p = Some n → mod_node p f h = Ok (tt, with_nodes (<[p:=f n]> (nodes h)) h).
Proof. intros Hn. unfold mod_node, get_node. erewrite bind_Ok by (rewrite Hn; reflexivity). done. Qed.
Lemma get_node_run p n h : nodes h !! p = Some n → get_node p h = Ok (n, h).
Proof. intros Hn. unfold get_node. rewrite Hn. done. Qed.

Lemma link_child_run c a nc na lst h :
  nodes h !! c = Some nc → nodes h !! a = Some na → last_child na = lst → c ≠ a → lst ≠ c → lst ≠ a →
  (lst ≠ NULL → is_Some (nodes h !! lst)) → nodes h !! NULL = None →
  ∃ m, link_child c a h = Ok (tt, with_nodes m h) ∧ link_nodes a c lst nc na (nodes h) m.
Proof.
  intros Hc Ha El Hca Hlc Hla Hlst Hnull. unfold link_child. rewrite (bind_Ok _ _ _ _ _ (mod_node_run _ _ _ _ Hc)).
  assert (nodes (with_nodes (<[c:=set_parent a nc]> (nodes h)) h) !! a = Some na) as Ha1
    by (cbn; rewrite lookup_insert_ne by done; done).
  rewrite (bind_Ok _ _ _ _ _ (get_node_run _ _ _ Ha1)). rewrite El.
  destruct (Z.eqb_spec lst NULL) as [El0|El0]; cbn [negb].
  - rewrite (bind_Ok _ _ _ _ _ (mod_node_run _ _ _ _ Ha1)).
    erewrite bind_Ok by (apply mod_node_run; cbn; apply lookup_insert_eq).
    erewrite mod_node_run by (cbn; apply lookup_insert_eq). eexists. split; [reflexivity|].
    intros q. cbn. rewrite !insert_insert_eq. unfold linked. rewrite El, El0. cbn [Z.eqb NULL].
    repeat case_decide; subst; lk; rewrite ?El0, ?Hnull; done.
  - destruct (Hlst El0) as [nl Hnl].
    erewrite bind_Ok by (apply (mod_node_run _ _ nl); cbn; rewrite lookup_insert_ne by done; done).
    erewrite bind_Ok by (apply (mod_node_run _ _ na); cbn; rewrite !lookup_insert_ne by done; done).
    erewrite mod_node_run by (cbn; apply lookup_insert_eq). eexists. split; [reflexivity|].
    intros q. cbn. rewrite !insert_insert_eq. unfold linked. rewrite El. rewrite (proj2 (Z.eqb_neq _ _) El0).
    repeat case_decide; subst; lk; rewrite ?Hnl; done.
Qed.

Lemma srep_renext m m' par nxt c p ks :
  srep m par nxt (STree p ks) → m' !! p = set_cnext c <$> m !! p → (∀ q, q ∈ addrss ks → m' !! q = m !! q) →
  srep m' par c (STree p ks).
Proof.
  rewrite !srep_eq. intros (Hp & (n & Hn & H1 & H2 & H3 & H4) & Hks) Hm Hq. split; [done|]. split.
  - exists (set_cnext c n). rewrite Hm, Hn. done.
  - by eapply sreps_frame_eq.
Qed.

Lemma zaddrs_push c a ks fr : zaddrs (STree c []) ((a, ks) :: fr) = c :: zaddrs (STree a ks) fr.
Proof. reflexivity. Qed.

Lemma last_in_addrss ks k : last ks = Some k → ∀ q, q ∈ addrs k → q ∈ addrss ks.
Proof.
  destruct ks as [|k' ks _] using rev_ind; [done|]. rewrite last_snoc. intros [= ->] q Hq. autorewrite with zip.
  apply elem_of_app. by right.
Qed.

Lemma last_addr_last ks : ks ≠ [] → ∃ k, last ks = Some k ∧ last_addr ks = addr k.
Proof. intros Hks. unfold last_addr. destruct (last ks) as [k|] eqn:E; [eauto|]. by apply last_None in E. Qed.

Lemma last_addr_in h p nxt ks : sreps h p nxt ks → ks ≠ [] → last_addr ks ≠ NULL ∧ last_addr ks ∈ addrss ks.
Proof.
  destruct ks as [|k ks _] using rev_ind; [done|]. rewrite sreps_snoc, last_addr_snoc. intros [_ Hk] _.
  split; [by eapply srep_addr|]. autorewrite with zip. apply elem_of_app. right. apply addr_in.
Qed.

(** The siblings of a new last child: only the last of them is written. *)
Lemma relink m m' a c ks nc na :
  sreps m a NULL ks → link_nodes a c (last_addr ks) nc na m m' → NoDup (addrss ks) → (a ∉ addrss ks) → (c ∉ addrss ks) →
  sreps m' a c ks.
Proof.
  intros Hks Hm Hnd Ha Hc. destruct ks as [|k ks _] using rev_ind; [done|]. rewrite last_addr_snoc in *. apply sreps_snoc in Hks as [Hks Hk].
  autorewrite with zip in *. rewrite elem_of_app in Ha, Hc. apply NoDup_app in Hnd as (_ & Hd & Hnd).
  assert (∀ q, q ≠ c → q ≠ a → q ≠ addr k → m' !! q = m !! q) as Hsame
    by (intros q ???; rewrite Hm; do 3 (rewrite decide_False by done); done).
  pose proof (addr_in k) as Hin. destruct k as [p kks]. cbn [addr addrs] in *. fold (addrss kks) in *.
  apply NoDup_cons in Hnd as [Hpk Hnd]. apply sreps_snoc. split.
  - eapply sreps_frame_eq; [|exact Hks]. intros q Hq. apply Hsame; intros ->; [tauto|tauto|]. by eapply Hd.
  - eapply srep_renext; [exact Hk| |].
    + rewrite Hm. rewrite (decide_False (P := p = c)) by (intros ->; tauto). rewrite (decide_False (P := p = a)) by (intros ->; tauto).
      rewrite decide_True; done.
    + intros q Hq. rewrite elem_of_cons in Ha, Hc. apply Hsame; intros ->; tauto.
Qed.

(** The parent of a new last child. *)
Lemma linked_links a c par nxt ks na m p :
  links par nxt (first_addr ks) (last_addr ks) na → sreps m p NULL ks → links par nxt (next_addr ks c) c (linked a c na).
Proof.
  intros (L1 & L2 & L3 & L4) Hks. unfold linked. destruct ks as [|k ks].
  - rewrite L4. done.
  - destruct (last_addr_in _ _ _ _ Hks) as [Hl _]; [done|]. rewrite L4, (proj2 (Z.eqb_neq _ NULL)) by done. done.
Qed.

Lemma zip_push m m' a ks fr c nc na :
  zip m (STree a ks) fr → NoDup (c :: zaddrs (STree a ks) fr) → c ≠ NULL → m !! NULL = None → m !! a = Some na →
  first_child nc = NULL → last_child nc = NULL → c_next nc = NULL → link_nodes a c (last_addr ks) nc na m m' →
  zip m' (STree c []) ((a, ks) :: fr).
Proof.
  intros [Ht Hc] Hnd Hc0 Hnull Hna N1 N2 N3 Hm. apply srep_eq in Ht as (Ha0 & (n & Hn & Hl) & Hks).
  assert (n = na) as -> by congruence. apply NoDup_cons in Hnd as [Hcz Hnd]. unfold zaddrs in *. cbn [addrs] in *. fold (addrss ks) in *.
  cbn [app] in *. apply NoDup_cons in Hnd as [Haz Hnd]. apply not_elem_of_cons in Hcz as [Hca Hcz].
  rewrite elem_of_app in Hcz, Haz. apply NoDup_app in Hnd as (Hnd1 & Hdis & Hnd2).
  assert (m' !! c = Some (set_parent a nc)) as Hmc by (rewrite Hm, decide_True by done; done).
  assert (m' !! a = Some (linked a c na)) as Hma by (rewrite Hm, decide_False, decide_True by congruence; done).
  split; [|split; [done|]; split; [|split]].
  - apply srep_eq. split; [done|]. split; [|done]. eexists. split; [exact Hmc|]. done.
  - eexists. split; [exact Hma|]. by eapply linked_links.
  - eapply relink; [done|exact Hm|done|tauto|tauto].
  - eapply ctx_frame; [|exact Hc]. intros q n Hq Hn'. exists n. split; [|done]. rewrite Hm.
    rewrite (decide_False (P := q = c)) by (intros ->; tauto). rewrite (decide_False (P := q = a)) by (intros ->; tauto).
    case_decide as E; [|done]. destruct ks as [|k ks].
    + rewrite E in Hn'. cbn in Hn'. congruence.
    + destruct (last_addr_in _ _ _ _ Hks) as [_ Hl']; [done|]. rewrite <- E in Hl'. exfalso. by eapply Hdis.
Qed.

(** ** The decoder's invariant *)

(** Addresses that were not given out are not in use. *)
Definition heap_ok (h : cbor_heap) : Prop := 0 < cbrk h ∧ ∀ q, is_Some (nodes h !! q) → 0 < q < cbrk h.

Section Decode.
Context (h0 : cbor_heap) (top : Z).
Hypothesis (h0_ok : heap_ok h0).

(** Everything the decoder made hangs on its stack, the rest of the heap is as
    it was, a counted node holds a count, and the catcher takes one item only. *)
Record good (h : cbor_heap) (t : stree) (fr : list frame) : Prop := {
  g_zip : zip (nodes h) t fr;
  g_nodup : NoDup (zaddrs t fr);
  g_range : ∀ q, (q ∈ zaddrs t fr) → cbrk h0 <= q < cbrk h;
  g_out : ∀ q, q ∉ zaddrs t fr → nodes h !! q = nodes h0 !! q;
  g_count : ∀ q n, q ∈ zaddrs t fr → nodes h !! q = Some n → is_count n = true → ∃ w, c_v n = VWord w;
  g_top : ∃ n, nodes h !! top = Some n ∧ c_flags n = 0;
  g_bot : match last fr with None => t = STree top [] | Some f => f = (top, []) end
}.

Lemma addr_in_z t fr : addr t ∈ zaddrs t fr.
Proof. apply elem_of_app. left. apply addr_in. Qed.

Lemma good_node h t fr : good h t fr → ∃ n, nodes h !! addr t = Some n ∧ links (top_addr fr) NULL (first_addr (kids_of t)) (last_addr (kids_of t)) n.
Proof. intros [[Hz _] _ _ _ _ _ _]. destruct t as [p ks]. destruct Hz as (_ & Hn & _). exact Hn. Qed.

Lemma good_brk h t fr : good h t fr → 0 < cbrk h0 /\ cbrk h0 < cbrk h.
Proof using h0_ok. intros G. destruct h0_ok as [Hp _]. pose proof (g_range _ _ _ G _ (addr_in_z t fr)). lia. Qed.

Lemma good_free h t fr q : good h t fr → q = NULL ∨ cbrk h <= q → (q ∉ zaddrs t fr) ∧ nodes h !! q = None.
Proof using h0_ok.
  intros G Hq. pose proof (good_brk _ _ _ G) as Hb. assert (q ∉ zaddrs t fr) as Hn.
  { intros Hin. pose proof (g_range _ _ _ G _ Hin). unfold NULL in *. lia. }
  split; [done|]. rewrite (g_out _ _ _ G) by done. destruct (nodes h0 !! q) eqn:E; [|done].
  destruct h0_ok as [_ Hr]. specialize (Hr q ltac:(eauto)). unfold NULL in *. lia.
Qed.

(** A change of a node's data. *)
Lemma good_mod h t fr q n f :
  good h t fr → q ∈ zaddrs t fr → nodes h !! q = Some n → same_links n (f n) →
  (is_count (f n) = true → ∃ w, c_v (f n) = VWord w) → (q = top → c_flags (f n) = 0) →
  good (with_nodes (<[q:=f n]> (nodes h)) h) t fr.
Proof.
  intros G Hq Hn Hl Hc Ht. constructor; cbn [nodes with_nodes cbrk].
  - eapply zip_frame; [|exact (g_zip _ _ _ G)]. intros q' n' _ Hn'. destruct (decide (q' = q)) as [->|Hne].
    + exists (f n). lk. replace n' with n by congruence. done.
    + exists n'. lk. done.
  - exact (g_nodup _ _ _ G).
  - exact (g_range _ _ _ G).
  - intros q' Hq'. lk. rewrite lookup_insert_ne by (intros ->; done). by apply (g_out _ _ _ G).
  - intros q' n' Hq'. destruct (decide (q' = q)) as [->|Hne]; lk; [intros [= <-]; done|]. by apply (g_count _ _ _ G).
  - destruct (g_top _ _ _ G) as (m & Hm & Hf). destruct (decide (q = top)) as [->|Hne]; lk; [|eauto].
    eexists. split; [reflexivity|]. by apply Ht.
  - exact (g_bot _ _ _ G).
Qed.

Lemma good_close h t p ks fr : good h t ((p, ks) :: fr) → p ≠ top → good h (STree p (ks ++ [t])) fr.
Proof.
  intros G Hp. pose proof (zaddrs_close t p ks fr) as Hperm. constructor.
  - apply zip_close, G.
  - rewrite Hperm. apply G.
  - intros q Hq. rewrite Hperm in Hq. by apply (g_range _ _ _ G).
  - intros q Hq. rewrite Hperm in Hq. by apply (g_out _ _ _ G).
  - intros q n Hq. rewrite Hperm in Hq. by apply (g_count _ _ _ G).
  - apply G.
  - pose proof (g_bot _ _ _ G) as Hb. rewrite last_cons in Hb. destruct (last fr) as [f|] eqn:El; [exact Hb|congruence].
Qed.

(** The catcher is the outermost open node and nothing else. *)
Lemma good_outer h t p ks fr : good h t ((p, ks) :: fr) → p = top → ks = [] ∧ fr = [].
Proof.
  intros G ->. pose proof (g_bot _ _ _ G) as Hb. destruct fr as [|f fr]; [cbn in Hb; by simplify_eq|].
  exfalso. pose proof (g_nodup _ _ _ G) as Hnd. unfold zaddrs in Hnd. apply NoDup_app in Hnd as (_ & _ & Hnd).
  assert (top ∈ faddrs (f :: fr)) as Hin.
  { rewrite last_cons in Hb. destruct (last (f :: fr)) as [g|] eqn:E.
    - subst g. apply last_Some in E as [l E]. rewrite E. unfold faddrs. rewrite map_app, concat_app. cbn.
      apply elem_of_app. right. apply elem_of_cons. by left.
    - by apply last_None in E. }
  change (NoDup (top :: addrss ks ++ faddrs (f :: fr))) in Hnd. apply NoDup_cons in Hnd as [Hnot _].
  apply Hnot, elem_of_app. by right.
Qed.

Lemma good_inner h t fr : good h t fr → addr t = top → fr = [].
Proof.
  intros G E. destruct fr as [|f fr]; [done|]. exfalso. pose proof (g_nodup _ _ _ G) as Hnd. pose proof (g_bot _ _ _ G) as Hb.
  apply NoDup_app in Hnd as (_ & Hdis & _). apply (Hdis (addr t)); [apply addr_in|]. rewrite E.
  destruct (last (f :: fr)) as [g|] eqn:El; [|by apply last_None in El]. subst g.
  apply last_Some in El as [l ->]. unfold faddrs. rewrite map_app, concat_app. apply elem_of_app. right. cbn. apply elem_of_cons. by left.
Qed.

(** A new node below the innermost open one. *)
Definition data (n : cn_cbor) : cn_cbor_type * Z * cbor_value * Z := (c_type n, c_flags n, c_v n, c_length n).
Definition fresh_heap (h : cbor_heap) (m : list bool) : cbor_heap :=
  {| nodes := <[cbrk h := zero_node]> (nodes h); cbrk := cbrk h + 1; coks := m |}.

Lemma last_addr_ok h t fr :
  good h t fr → last_addr (kids_of t) ≠ NULL →
  last_addr (kids_of t) ≠ addr t ∧ (last_addr (kids_of t) ∈ zaddrs t fr) ∧ is_Some (nodes h !! last_addr (kids_of t)).
Proof.
  intros G Hl0. destruct t as [a ks]. cbn [addr kids_of] in *. destruct ks as [|k ks]; [done|].
  destruct (g_zip _ _ _ G) as [Hz _]. pose proof Hz as (_ & _ & Hks).
  destruct (last_addr_in _ _ _ _ Hks) as [_ Hl]; [done|]. pose proof (g_nodup _ _ _ G) as Hnd. unfold zaddrs in *.
  cbn [addrs app] in Hnd. apply NoDup_cons in Hnd as [Hnot _]. fold (addrss (k :: ks)) in *. rewrite not_elem_of_app in Hnot.
  split; [intros E; rewrite E in Hl; tauto|]. assert (last_addr (k :: ks) ∈ addrs (STree a (k :: ks))) as Hin by (apply elem_of_cons; by right).
  split; [apply elem_of_app; by left|by eapply srep_dom].
Qed.

Lemma attach_run h t fr ty m :
  good h t fr →
  ∃ na m', fbind (mod_node (cbrk h) (set_type ty)) (λ _, link_child (cbrk h) (addr t)) (fresh_heap h m)
             = Ok (tt, with_nodes m' (fresh_heap h m)) ∧
    nodes h !! addr t = Some na ∧
    link_nodes (addr t) (cbrk h) (last_addr (kids_of t)) (set_type ty zero_node) na (nodes h) m'.
Proof using h0_ok.
  intros G. destruct (good_free _ _ _ (cbrk h) G) as [Hcz Hcn]; [right; lia|].
  destruct (good_free _ _ _ NULL G) as [Hnz Hnn]; [by left|]. destruct (good_brk _ _ _ G) as [Hb0 Hb1].
  destruct (good_node _ _ _ G) as (na & Hna & L1 & L2 & L3 & L4).
  assert (cbrk h ≠ addr t) as Hca by (intros E; rewrite E in Hcn; congruence).
  pose proof (last_addr_ok _ _ _ G) as Hl.
  erewrite bind_Ok by (apply mod_node_run; cbn; apply lookup_insert_eq). set (h1 := with_nodes _ _).
  assert (∀ q, q ≠ cbrk h → nodes h1 !! q = nodes h !! q) as H1 by (intros q Hq; cbn; lk; done).
  assert (last_addr (kids_of t) ≠ cbrk h) as Hlc.
  { destruct (decide (last_addr (kids_of t) = NULL)) as [E|E]; [rewrite E; unfold NULL; lia|].
    intros E'. apply Hcz. rewrite <- E'. by apply Hl. }
  destruct (link_child_run (cbrk h) (addr t) (set_type ty zero_node) na (last_addr (kids_of t)) h1) as (m' & Erun & Hm); try done.
  { cbn. lk. done. }
  { rewrite H1 by done. done. }
  { destruct (decide (last_addr (kids_of t) = NULL)) as [E|E]; [|by apply Hl]. intros E'. rewrite E' in E. congruence. }
  { intros E. rewrite H1 by done. by apply Hl. }
  { rewrite H1 by (unfold NULL; lia). done. }
  exists na, m'. split; [exact Erun|]. split; [done|]. intros q. rewrite Hm. repeat case_decide; try done; rewrite H1; done.
Qed.

Lemma link_data a c lst nc na m m' q n :
  link_nodes a c lst nc na m m' → m !! a = Some na → q ≠ c → m !! q = Some n →
  ∃ n', m' !! q = Some n' ∧ (data n' = if decide (q = a) then (c_type n, c_flags n, c_v n, s32 (c_length n + 1)) else data n).
Proof using Type.
  intros Hm Hna Hq Hn. rewrite Hm, decide_False by done. case_decide as Eq.
  - subst q. assert (na = n) as -> by congruence. eexists. split; [done|]. unfold linked, data. destruct (_ =? _); done.
  - rewrite Hn. case_decide; cbn; eauto.
Qed.

Lemma link_good h t fr nc na m m' :
  good h t fr → nodes h !! addr t = Some na → first_child nc = NULL → last_child nc = NULL → c_next nc = NULL → is_count nc = false →
  link_nodes (addr t) (cbrk h) (last_addr (kids_of t)) nc na (nodes h) m' →
  good (with_nodes m' (fresh_heap h m)) (STree (cbrk h) []) ((addr t, kids_of t) :: fr).
Proof using h0_ok.
  intros G Hna N1 N2 N3 N4 Hm. destruct (good_free _ _ _ (cbrk h) G) as [Hcz Hcn]; [right; lia|].
  destruct (good_free _ _ _ NULL G) as [Hnz Hnn]; [by left|]. destruct (good_brk _ _ _ G) as [Hb0 Hb1].
  assert (m' !! cbrk h = Some (set_parent (addr t) nc)) as Hmc by (rewrite Hm, decide_True by done; done).
  pose proof (λ q n, link_data _ _ _ _ _ _ _ q n Hm Hna) as Hdata.
  destruct t as [a ks]. cbn [addr kids_of] in *. constructor; cbn [nodes with_nodes cbrk fresh_heap]; rewrite ?zaddrs_push.
  - eapply zip_push; [exact (g_zip _ _ _ G)| |unfold NULL; lia|done|exact Hna|exact N1|exact N2|exact N3|exact Hm].
    apply NoDup_cons. split; [done|apply (g_nodup _ _ _ G)].
  - apply NoDup_cons. split; [done|apply (g_nodup _ _ _ G)].
  - intros q Hq. apply elem_of_cons in Hq as [->|Hq]; [lia|]. pose proof (g_range _ _ _ G _ Hq). lia.
  - intros q Hq. apply not_elem_of_cons in Hq as [Hqc Hq]. rewrite Hm, decide_False by done.
    rewrite decide_False by (intros ->; apply Hq, (addr_in_z (STree a ks))).
    rewrite <- (g_out _ _ _ G) by done. case_decide as E; [|done]. destruct (decide (last_addr ks = NULL)) as [E0|E0].
    + rewrite E, E0, Hnn. done.
    + exfalso. apply Hq. rewrite E. by apply (last_addr_ok _ _ _ G).
  - intros q n Hq Hn Hc. apply elem_of_cons in Hq as [->|Hq].
    { rewrite Hmc in Hn. injection Hn as <-. unfold is_count in *. cbn in Hc. congruence. }
    assert (q ≠ cbrk h) as Hqc by (intros ->; done). destruct (nodes h !! q) as [n0|] eqn:En.
    + destruct (Hdata q n0 Hqc En) as (n' & Hn' & Hd). replace n' with n in * by congruence. unfold data in Hd.
      destruct (g_count _ _ _ G q n0 Hq En) as [w Hw]; [|exists w; case_decide; congruence].
      unfold is_count in *. replace (c_flags n0) with (c_flags n); [done|]. case_decide; congruence.
    + exfalso. rewrite Hm, decide_False, En in Hn by done. case_decide; [congruence|]. case_decide; done.
  - destruct (g_top _ _ _ G) as (n & Hn & Hf). assert (top ≠ cbrk h) as Htc by (intros E; rewrite E in Hn; congruence).
    destruct (Hdata top n Htc Hn) as (n' & Hn' & Hd). exists n'. split; [done|]. unfold data in Hd. case_decide; congruence.
  - pose proof (g_bot _ _ _ G) as Hb. rewrite last_cons. destruct (last fr); [done|]. injection Hb as -> ->. done.
Qed.

Lemma attach h t fr ty m :
  good h t fr →
  ∃ h', fbind (mod_node (cbrk h) (set_type ty)) (λ _, link_child (cbrk h) (addr t)) (fresh_heap h m) = Ok (tt, h') ∧
    good h' (STree (cbrk h) []) ((addr t, kids_of t) :: fr) ∧ coks h' = m ∧
    (nodes h' !! cbrk h = Some (set_parent (addr t) (set_type ty zero_node))) ∧
    (∀ q n, q ≠ cbrk h → nodes h !! q = Some n → ∃ n', nodes h' !! q = Some n' ∧
       (data n' = if decide (q = addr t) then (c_type n, c_flags n, c_v n, s32 (c_length n + 1)) else data n)).
Proof using h0_ok.
  intros G. destruct (attach_run h t fr ty m G) as (na & m' & Erun & Hna & Hm). exists (with_nodes m' (fresh_heap h m)).
  split; [done|]. split; [by apply (link_good _ _ _ (set_type ty zero_node) na)|]. split; [done|].
  split; [cbn; rewrite Hm, decide_True; done|]. intros q n. by apply (link_data _ _ _ _ _ _ _ _ _ Hm).
Qed.

(** What the switch over the major type writes and where it goes on. *)
Definition content_node (mt ai val : Z) (inp : list Z) (n : cn_cbor) : cn_cbor :=
  if mt =? 0 then set_v (VWord (u32 val)) n
  else if mt =? 1 then set_v (VWord (u32 (Z.lnot val))) n
  else if (mt =? 2) || (mt =? 3) then set_length (s32 val) (set_v (VStr inp) n)
  else if (mt =? 4) || (mt =? 5) then
    let count := u32 (if mt =? 5 then 2 * val else val) in
    if count =? 0 then set_v (VWord count) n else set_flags (Z.lor (c_flags n) CN_CBOR_FL_COUNT) (set_v (VWord count) n)
  else if mt =? 6 then set_v (VWord (u32 val)) n
  else if ai =? 20 then set_type CN_CBOR_FALSE n
  else if ai =? 21 then set_type CN_CBOR_TRUE n
  else if ai =? 22 then set_type CN_CBOR_NULL n
  else if ai =? 23 then set_type CN_CBOR_UNDEF n
  else if (ai =? 25) || (ai =? 26) || (ai =? 27) then n
  else set_v (VWord (u32 val)) n.
Definition content_next (cb parent mt ai val : Z) (inp : list Z) : label :=
  if (mt =? 0) || (mt =? 1) then Fill cb parent inp
  else if (mt =? 2) || (mt =? 3) then
    if val >? zlen inp then Failed CN_CBOR_ERR_OUT_OF_DATA inp else Fill cb parent (drop (Z.to_nat val) inp)
  else if (mt =? 4) || (mt =? 5) then
    if u32 (if mt =? 5 then 2 * val else val) =? 0 then Fill cb parent inp else Again cb cb inp
  else if mt =? 6 then Again cb cb inp
  else if (ai =? 25) || (ai =? 26) || (ai =? 27) then Failed CN_CBOR_ERR_FLOAT_NOT_SUPPORTED inp
  else Fill cb parent inp.

Lemma with_nodes_id h : with_nodes (nodes h) h = h.
Proof using Type. by destruct h. Qed.

Lemma content_run cb parent mt ai val inp h n :
  nodes h !! cb = Some n →
  decode_content cb parent mt ai val inp h =
    Ok (content_next cb parent mt ai val inp, with_nodes (<[cb := content_node mt ai val inp n]> (nodes h)) h).
Proof using Type.
  intros Hn. assert (∀ f, mod_node cb f h = Ok (tt, with_nodes (<[cb:=f n]> (nodes h)) h)) as Hmod by (intros f; by apply mod_node_run).
  assert (∀ f m, mod_node cb f (with_nodes (<[cb:=m]> (nodes h)) h) = Ok (tt, with_nodes (<[cb:=f m]> (nodes h)) h)) as Hmod2.
  { intros f m. rewrite (mod_node_run _ _ m) by (cbn; apply lookup_insert_eq). cbn. rewrite insert_insert_eq. done. }
  unfold decode_content, content_next, content_node.
  destruct (mt =? 0); [rewrite (bind_Ok _ _ _ _ _ (Hmod _)); done|]. destruct (mt =? 1); [rewrite (bind_Ok _ _ _ _ _ (Hmod _)); done|].
  cbn [orb]. destruct (_ || _).
  { rewrite (bind_Ok _ _ _ _ _ (Hmod _)), (bind_Ok _ _ _ _ _ (Hmod2 _ _)). destruct (val >? _); done. }
  destruct (_ || _).
  { rewrite (bind_Ok _ _ _ _ _ (Hmod _)). set (count := u32 _). destruct (count =? 0); cbn [negb]; [done|].
    rewrite (bind_Ok _ _ _ _ _ (Hmod2 _ _)). done. }
  destruct (mt =? 6); [rewrite (bind_Ok _ _ _ _ _ (Hmod _)); done|].
  destruct (ai =? 20) eqn:E0; [apply Z.eqb_eq in E0; subst; rewrite (bind_Ok _ _ _ _ _ (Hmod _)); done|].
  destruct (ai =? 21) eqn:E1; [apply Z.eqb_eq in E1; subst; rewrite (bind_Ok _ _ _ _ _ (Hmod _)); done|].
  destruct (ai =? 22) eqn:E2; [apply Z.eqb_eq in E2; subst; rewrite (bind_Ok _ _ _ _ _ (Hmod _)); done|].
  destruct (ai =? 23) eqn:E3; [apply Z.eqb_eq in E3; subst; rewrite (bind_Ok _ _ _ _ _ (Hmod _)); done|].
  destruct (_ || _); [|rewrite (bind_Ok _ _ _ _ _ (Hmod _)); done].
  rewrite insert_id by done. rewrite with_nodes_id. done.
Qed.

Lemma content_node_links mt ai val inp n : same_links n (content_node mt ai val inp n).
Proof using Type. unfold content_node. repeat case_match; done. Qed.

Lemma content_node_count mt ai val inp n :
  is_count n = false → is_count (content_node mt ai val inp n) = true → ∃ w, c_v (content_node mt ai val inp n) = VWord w.
Proof using Type. unfold content_node, is_count. intros Hn. repeat case_match; cbn; intros; try congruence; eauto. Qed.

(** *** Where the decoder is, and what is left to do there *)

Definition left_of (l : label) : nat :=
  match l with Again _ _ inp | Fill _ _ inp | Failed _ inp => length inp | Done _ => 0 end.

Inductive at_label (h : cbor_heap) : label → nat → Prop :=
| at_again cb t fr inp : good h t fr → at_label h (Again cb (addr t) inp) (3 * length inp + length fr + 1)
| at_fill t p ks fr inp : good h t ((p, ks) :: fr) → at_label h (Fill (addr t) p inp) (3 * length inp + length fr + 3)
| at_done t : good h t [(top, [])] → at_label h (Done (addr t)) 0
| at_failed e t fr inp : good h t fr → at_label h (Failed e inp) 0.

Definition steps (m : FW cbor_heap label) (h : cbor_heap) (w n : nat) : Prop :=
  ∃ l' h' w', m h = Ok (l', h') ∧ at_label h' l' w' ∧ (w' < w)%nat ∧ (left_of l' <= n)%nat.

Lemma complete_steps h t fr cb inp w n :
  good h t fr → addr t ≠ top → (3 * length inp + length fr + 2 < w)%nat → (length inp <= n)%nat →
  steps (decode_complete top cb (addr t) inp) h w n.
Proof.
  intros G Hne Hw Hn. destruct (good_node _ _ _ G) as (m & Hm & Hp & _). unfold steps, decode_complete.
  rewrite (proj2 (Z.eqb_neq _ _) Hne), (bind_Ok _ _ _ _ _ (get_node_run _ _ _ Hm)), Hp.
  destruct fr as [|[p ks] fr]; [pose proof (g_bot _ _ _ G) as Hb; cbn in Hb; subst t; done|].
  do 3 eexists. split; [reflexivity|]. split; [eapply at_fill; exact G|]. cbn in *. lia.
Qed.

Lemma at_again' h t fr cb a inp w : good h t fr → a = addr t → w = (3 * length inp + length fr + 1)%nat → at_label h (Again cb a inp) w.
Proof. intros G -> ->. by constructor. Qed.
Lemma at_fill' h t cb p ks fr inp w :
  good h t ((p, ks) :: fr) → cb = addr t → w = (3 * length inp + length fr + 3)%nat → at_label h (Fill cb p inp) w.
Proof. intros G -> ->. by econstructor. Qed.

Lemma content_steps h c a ks fr n mt ai val inp :
  good h (STree c []) ((a, ks) :: fr) → nodes h !! c = Some n → is_count n = false →
  steps (decode_content c a mt ai val inp) h (3 * length inp + length fr + 4) (length inp).
Proof.
  intros G Hn Hcount. set (h' := with_nodes (<[c := content_node mt ai val inp n]> (nodes h)) h).
  assert (good h' (STree c []) ((a, ks) :: fr)) as G'.
  { apply (good_mod h _ _ c n (content_node mt ai val inp)); [done|apply (addr_in_z (STree c []))|done|apply content_node_links| |].
    - by apply content_node_count.
    - intros ->. pose proof (good_inner _ _ _ G eq_refl). done. }
  exists (content_next c a mt ai val inp), h'.
  assert (∃ w', at_label h' (content_next c a mt ai val inp) w' ∧ (w' < 3 * length inp + length fr + 4)%nat
            ∧ (left_of (content_next c a mt ai val inp) <= length inp)%nat) as (w' & Hw).
  { unfold content_next. repeat case_match; eexists;
      (split; [first [eapply at_fill'; [exact G'|reflexivity|reflexivity] | eapply at_again'; [exact G'|reflexivity|reflexivity]
                     | eapply at_failed; exact G']|]); cbn; rewrite ?length_drop; lia. }
  exists w'. split; [by apply content_run|exact Hw].
Qed.

Lemma take_ai_left mt ai inp :
  match take_ai mt ai inp with AiVal _ inp' | AiErr _ inp' | AiPush inp' => (length inp' <= length inp)%nat end.
Proof using Type. unfold take_ai. repeat case_match; simplify_eq; cbn; rewrite ?length_drop; lia. Qed.

Lemma good_coks h t fr m : good h t fr → good {| nodes := nodes h; cbrk := cbrk h; coks := m |} t fr.
Proof. intros G. constructor; apply G. Qed.

Lemma fill_complete h t p ks fr inp :
  good h t ((p, ks) :: fr) → steps (decode_complete top (addr t) p inp) h (3 * length inp + length fr + 3) (length inp).
Proof.
  intros G. destruct (decide (p = top)) as [->|Hne].
  - destruct (good_outer _ _ _ _ _ G eq_refl) as [-> ->]. unfold steps, decode_complete. rewrite Z.eqb_refl.
    destruct inp; do 3 eexists; (split; [reflexivity|]); (split; [econstructor; exact G|]); cbn; lia.
  - destruct (decide (p = top)); [done|]. pose proof (good_close _ _ _ _ _ G Hne) as G'.
    destruct (complete_steps h _ _ (addr t) inp (3 * length inp + length fr + 3) (length inp) G') as (l & h' & w & E & Hs);
      [done|lia|lia|]. exists l, h', w. split; [|done]. exact E.
Qed.

Lemma open_node h t p ks fr : good h t ((p, ks) :: fr) → ∃ n, nodes h !! p = Some n ∧ (p = top → c_flags n = 0) ∧ (p ∈ zaddrs t ((p, ks) :: fr)).
Proof.
  intros G. destruct (g_zip _ _ _ G) as [_ (_ & (n & Hn & _) & _)]. exists n. split; [done|]. split.
  - intros ->. destruct (g_top _ _ _ G) as (m & Hm & Hf). congruence.
  - apply elem_of_app. right. apply in_faddrs. by left.
Qed.

Lemma flags_0 n : c_flags n = 0 → is_indef n = false ∧ is_count n = false.
Proof using Type. unfold is_indef, is_count. intros ->. done. Qed.

Lemma fill_steps h t p ks fr inp :
  good h t ((p, ks) :: fr) → steps (decode_fill top (addr t) p inp) h (3 * length inp + length fr + 3) (length inp).
Proof.
  intros G. destruct (open_node _ _ _ _ _ G) as (n & Hn & Hflags & Hin). unfold steps, decode_fill.
  rewrite (bind_Ok _ _ _ _ _ (get_node_run _ _ _ Hn)).
  assert (∀ h', good h' t ((p, ks) :: fr) → p ≠ top → steps (fret (Again (addr t) p inp)) h' (3 * length inp + length fr + 3) (length inp)) as Hagain.
  { intros h' G' Hne. do 3 eexists. split; [reflexivity|]. split; [|cbn; split; [|lia]].
    - eapply at_again'; [by apply good_close|reflexivity|reflexivity].
    - lia. }
  destruct (is_indef n) eqn:Ei.
  - assert (p ≠ top) as Hne by (intros E; destruct (flags_0 n) as [? ?]; [by apply Hflags|congruence]).
    destruct (good_node _ _ _ G) as (m & Hm & _). rewrite (bind_Ok _ _ _ _ _ (get_node_run _ _ _ Hm)).
    destruct (_ && _); [|by apply Hagain]. do 3 eexists. split; [reflexivity|]. split; [by eapply at_failed|cbn; lia].
  - destruct (is_count n) eqn:Ec; [|by eapply fill_complete].
    assert (p ≠ top) as Hne by (intros E; destruct (flags_0 n) as [? ?]; [by apply Hflags|congruence]).
    destruct (g_count _ _ _ G _ _ Hin Hn Ec) as [w Hw]. rewrite Hw. cbn [word_of].
    rewrite (bind_Ok (fret w) _ h w h eq_refl). rewrite (bind_Ok _ _ _ _ _ (mod_node_run _ _ _ _ Hn)).
    assert (good (with_nodes (<[p:=set_v (VWord (u32 (w - 1))) n]> (nodes h)) h) t ((p, ks) :: fr)) as G'.
    { apply (good_mod h _ _ p n (set_v _)); [done|done|done|done|cbn; eauto|done]. }
    destruct (negb _); [by apply Hagain|by eapply fill_complete].
Qed.

(** The node at whose end the decoder is. *)
Lemma inner_node h t fr : good h t fr → ∃ n, nodes h !! addr t = Some n ∧ (addr t = top → c_flags n = 0).
Proof.
  intros G. destruct (good_node _ _ _ G) as (n & Hn & _). exists n. split; [done|]. intros E.
  destruct (g_top _ _ _ G) as (m & Hm & Hf). congruence.
Qed.

Lemma break_steps h t fr cb inp :
  good h t fr → steps (decode_again top cb (addr t) (IB_BREAK :: inp)) h (3 * S (length inp) + length fr + 1) (S (length inp)).
Proof.
  intros G. destruct (inner_node _ _ _ G) as (n & Hn & Hflags). unfold steps, decode_again. rewrite Z.eqb_refl.
  rewrite (bind_Ok _ _ _ _ _ (get_node_run _ _ _ Hn)). destruct (is_indef n) eqn:Ei; cbn [negb].
  2:{ do 3 eexists. split; [reflexivity|]. split; [by eapply at_failed|cbn; lia]. }
  assert (addr t ≠ top) as Hne by (intros E; destruct (flags_0 n) as [? ?]; [by apply Hflags|congruence]).
  assert (∀ ty, good (with_nodes (<[addr t:=set_type ty n]> (nodes h)) h) t fr) as G'.
  { intros ty. apply (good_mod h _ _ (addr t) n (set_type ty)); [done|apply addr_in_z|done|done| |done].
    intros Hc. apply (g_count _ _ _ G _ _ (addr_in_z _ _) Hn Hc). }
  destruct (c_type n);
    try (rewrite (bind_Ok _ _ _ _ _ (mod_node_run _ _ _ _ Hn)); eapply complete_steps; [apply G'|done|lia|lia]);
    try (eapply complete_steps; [exact G|done|lia|lia]).
  destruct (Z.odd _); [|eapply complete_steps; [exact G|done|lia|lia]].
  do 3 eexists. split; [reflexivity|]. split; [by eapply at_failed|cbn; lia].
Qed.

Lemma item_steps h t fr cb ib inp :
  good h t fr → ib ≠ IB_BREAK →
  steps (decode_again top cb (addr t) (ib :: inp)) h (3 * S (length inp) + length fr + 1) (S (length inp)).
Proof using h0_ok.
  intros G Hib. unfold steps, decode_again. rewrite (proj2 (Z.eqb_neq _ _) Hib).
  assert (∀ m, CN_CALLOC h = Ok (None, m) → good m t fr) as Hnone.
  { intros m. unfold CN_CALLOC. destruct (coks h) as [|[] l]; [done|done|]. intros [= <-]. by apply good_coks. }
  assert (∀ p m, CN_CALLOC h = Ok (Some p, m) → p = cbrk h ∧ m = fresh_heap h (tail (coks h))) as Hsome.
  { intros p m. unfold CN_CALLOC. destruct (coks h) as [|[] l]; [| |done]; intros [= <- <-]; done. }
  destruct (CN_CALLOC h) as [[[p|] m]|f] eqn:Ealloc; [| |unfold CN_CALLOC in Ealloc; destruct (coks h) as [|[] l]; done].
  2:{ rewrite (bind_Ok _ _ _ _ _ Ealloc). do 3 eexists. split; [reflexivity|]. split; [by eapply at_failed, Hnone|cbn; lia]. }
  destruct (Hsome p m eq_refl) as [-> ->]. rewrite (bind_Ok _ _ _ _ _ Ealloc).
  set (mt := Z.shiftr ib 5). set (ai := Z.land ib 0x1f).
  destruct (attach h t fr (mt_trans mt) (tail (coks h)) G) as (h1 & E1 & G1 & _ & Hc & _). rewrite <- fbind_assoc, (bind_Ok _ _ _ _ _ E1).
  pose proof (take_ai_left mt ai inp) as Hleft. destruct (take_ai mt ai inp) as [val inp'|e inp'|inp'].
  - destruct (content_steps h1 _ _ _ _ _ mt ai val inp' G1 Hc eq_refl) as (l & h' & w & E & Hl & Hw & Hll).
    exists l, h', w. split; [exact E|]. split; [done|]. lia.
  - do 3 eexists. split; [reflexivity|]. split; [by eapply at_failed|cbn; lia].
  - rewrite (bind_Ok _ _ _ _ _ (mod_node_run _ _ _ _ Hc)). do 3 eexists. split; [reflexivity|]. split.
    + eapply (at_again' _ (STree (cbrk h) [])); [|reflexivity|reflexivity].
      apply (good_mod h1 _ _ (cbrk h) _ (λ n, set_flags (Z.lor (c_flags n) CN_CBOR_FL_INDEF) n) G1); [apply (addr_in_z (STree (cbrk h) []))|done|done| |].
      * cbn. done.
      * intros E. pose proof (good_inner _ _ _ G1 E). done.
    + cbn. lia.
Qed.

Lemma label_steps h l w :
  at_label h l w → match l with Again cb p inp => steps (decode_again top cb p inp) h w (length inp)
                              | Fill cb p inp => steps (decode_fill top cb p inp) h w (length inp) | _ => True end.
Proof using h0_ok.
  destruct 1 as [cb t fr inp G|t p ks fr inp G| |]; [|by eapply fill_steps|done|done]. destruct inp as [|ib inp].
  - do 3 eexists. split; [reflexivity|]. split; [by eapply at_failed|cbn; lia].
  - destruct (decide (ib = IB_BREAK)) as [->|Hib]; [by apply break_steps|by apply item_steps].
Qed.

Definition final (l : label) : Prop := match l with Done _ | Failed _ _ => True | _ => False end.

Lemma decode_loop_ends fuel : ∀ l h w, at_label h l w → (w < fuel)%nat →
  ∃ l' h' w', decode_loop fuel top l h = Ok (l', h') ∧ at_label h' l' w' ∧ final l' ∧ (left_of l' <= left_of l)%nat.
Proof using h0_ok.
  induction fuel as [|fuel IH]; [lia|]. intros l h w Hl Hw. pose proof (label_steps _ _ _ Hl) as Hs. cbn [decode_loop].
  destruct l as [cb p inp|cb p inp|cb|e inp]; try (exists (Done cb), h, w; by auto); try (exists (Failed e inp), h, w; by auto).
  all: destruct Hs as (l' & h' & w' & E & Hl' & Hw' & Hn'); rewrite (bind_Ok _ _ _ _ _ E);
    destruct (IH l' h' w' Hl') as (l2 & h2 & w2 & E2 & Hl2 & Hf & Hn2); [lia|]; exists l2, h2, w2; cbn [left_of]; repeat split; auto; lia.
Qed.

(** *** The ends of the decoder *)

Lemma zip_outer m fr : ∀ t, zip m t fr → last fr = Some (top, []) →
  ∃ k, zip m (STree top [k]) [] ∧ addrs (STree top [k]) ≡ₚ zaddrs t fr.
Proof using Type.
  induction fr as [|[p ks] fr IH]; [done|]. intros t Hz Hl. rewrite last_cons in Hl. pose proof (zip_close _ _ _ _ _ Hz) as Hz'.
  pose proof (zaddrs_close t p ks fr) as Hperm. destruct (last fr) eqn:El.
  - destruct (IH _ Hz' ltac:(congruence)) as (k & Hk & Hp). exists k. split; [done|]. rewrite Hp. done.
  - apply last_None in El as ->. injection Hl as -> ->. exists t. split; [exact Hz'|]. cbn [app] in Hperm. rewrite <- Hperm.
    unfold zaddrs, faddrs. cbn [concat map]. rewrite app_nil_r. done.
Qed.

Lemma srep_reparent m par nxt t n :
  srep m par nxt t → NoDup (addrs t) → m !! addr t = Some n → srep (<[addr t := set_parent NULL n]> m) NULL nxt t.
Proof using Type.
  destruct t as [p ks]. rewrite !srep_eq. cbn [addr addrs]. intros (Hp & (n' & Hn & H1 & H2 & H3 & H4) & Hks) Hnd Hn'.
  apply NoDup_cons in Hnd as [Hnot _]. assert (n' = n) as -> by congruence. split; [done|]. split.
  - eexists. split; [apply lookup_insert_eq|]. done.
  - eapply sreps_frame_eq; [|exact Hks]. intros q Hq. apply lookup_insert_ne. intros <-. done.
Qed.

Lemma free_run p n h : nodes h !! p = Some n → CN_FREE p h = Ok (tt, with_nodes (delete p (nodes h)) h).
Proof using Type. intros Hn. unfold CN_FREE. rewrite (bind_Ok _ _ _ _ _ (get_node_run _ _ _ Hn)). done. Qed.

(** After success the item stands alone, after failure nothing stands. *)
Lemma done_ends h t :
  good h t [(top, [])] → nodes h0 !! top = None →
  ∃ h', fbind (mod_node (addr t) (set_parent NULL)) (λ _, CN_FREE top) h = Ok (tt, h') ∧ cbrk h' = cbrk h ∧
    srep (nodes h') NULL NULL t ∧ NoDup (addrs t) ∧ (∀ q, q ∉ addrs t → nodes h' !! q = nodes h0 !! q).
Proof using Type.
  intros G Htop. destruct (good_node _ _ _ G) as (n & Hn & _). destruct (g_top _ _ _ G) as (m & Hm & _).
  pose proof (g_nodup _ _ _ G) as Hnd. apply NoDup_app in Hnd as (Hnd & Hdis & _).
  assert (top ∉ addrs t) as Hnot.
  { intros Hin. apply (Hdis _ Hin). apply in_faddrs. by left. }
  assert (top ≠ addr t) as Hne by (intros E; apply Hnot; rewrite E; apply addr_in).
  rewrite (bind_Ok _ _ _ _ _ (mod_node_run _ _ _ _ Hn)).
  rewrite (free_run _ m) by (cbn; lk; done). eexists. split; [reflexivity|]. cbn [nodes with_nodes cbrk]. split; [done|]. split; [|split; [done|]].
  - destruct (g_zip _ _ _ G) as [Hz _]. eapply srep_frame_eq; [|eapply srep_reparent; [exact Hz|done|exact Hn]].
    intros q Hq. apply lookup_delete_ne. intros <-. done.
  - intros q Hq. destruct (decide (q = top)) as [->|Hq']; [rewrite lookup_delete_eq; done|].
    rewrite lookup_delete_ne by done. rewrite lookup_insert_ne by (intros <-; apply Hq, addr_in).
    apply (g_out _ _ _ G). intros Hin. apply elem_of_app in Hin as [Hin|Hin]; [done|]. apply in_faddrs in Hin.
    destruct Hin as [?|[Hin|Hin]]; [done|by apply elem_of_nil in Hin|by apply elem_of_nil in Hin].
Qed.

Definition drop_all : FW cbor_heap unit :=
  fbind (get_node top) (λ c,
    fbind (if negb (first_child c =? NULL) then
             fbind (mod_node (first_child c) (set_parent NULL)) (λ _, cn_cbor_free (first_child c))
           else fret tt) (λ _, CN_FREE top)).

Lemma drop_all_single h :
  good h (STree top []) [] → nodes h0 !! top = None →
  ∃ h', drop_all h = Ok (tt, h') ∧ cbrk h' = cbrk h ∧ nodes h' = nodes h0.
Proof using Type.
  intros G Htop. destruct (good_node _ _ _ G) as (n & Hn & L1 & L2 & L3 & L4). cbn [addr kids_of] in *. unfold drop_all.
  rewrite (bind_Ok _ _ _ _ _ (get_node_run _ _ _ Hn)), L3. cbn [first_addr Z.eqb NULL negb].
  rewrite (bind_Ok (fret tt) _ h tt h eq_refl), (free_run _ _ _ Hn). eexists. split; [reflexivity|]. split; [done|].
  cbn. apply map_eq. intros q. destruct (decide (q = top)) as [->|Hq]; [rewrite lookup_delete_eq; done|].
  rewrite lookup_delete_ne by done. apply (g_out _ _ _ G). cbn. intros Hin. apply elem_of_cons in Hin as [?|Hin]; [done|by apply elem_of_nil in Hin].
Qed.

Lemma drop_all_item h t fr :
  good h t fr → fr ≠ [] → nodes h0 !! top = None →
  ∃ h', drop_all h = Ok (tt, h') ∧ cbrk h' = cbrk h ∧ nodes h' = nodes h0.
Proof using h0_ok.
  intros G Hne Htop. pose proof (g_bot _ _ _ G) as Hb. destruct (last fr) as [f|] eqn:El; [subst f|by apply last_None in El].
  destruct (zip_outer _ _ _ (g_zip _ _ _ G) El) as (k & Hz & Hperm). destruct Hz as [Hz _].
  pose proof Hz as (Ht0 & (n & Hn & L1 & L2 & L3 & L4) & Hk & _). cbn [top_addr next_addr first_addr] in *.
  assert (NoDup (top :: addrs k)) as Hnd.
  { pose proof (g_nodup _ _ _ G) as Hnd. rewrite <- Hperm in Hnd. cbn in Hnd. rewrite app_nil_r in Hnd. exact Hnd. }
  assert (∀ q, q ∈ zaddrs t fr ↔ q = top ∨ q ∈ addrs k) as Hin.
  { intros q. rewrite <- Hperm. cbn. rewrite app_nil_r, elem_of_cons. done. }
  apply NoDup_cons in Hnd as [Hnot Hnd]. assert (top ≠ addr k) as Htk by (intros E; apply Hnot; rewrite E; apply addr_in).
  destruct (srep_dom _ _ _ _ Hk _ (addr_in k)) as [nk Hnk].
  unfold drop_all. rewrite (bind_Ok _ _ _ _ _ (get_node_run _ _ _ Hn)), L3.
  rewrite (proj2 (Z.eqb_neq (addr k) NULL)) by (by eapply srep_addr). cbn [negb].
  rewrite fbind_assoc, (bind_Ok _ _ _ _ _ (mod_node_run _ _ _ _ Hnk)). set (h1 := with_nodes _ h).
  destruct (good_free _ _ _ NULL G) as [_ Hnull]; [by left|].
  assert (cn_cbor_free (addr k) h1 = Ok (tt, with_nodes (wipe (addrs k) (nodes h1)) h1)) as Efree.
  { apply free_root; [|done|]; cbn.
    - by eapply srep_reparent.
    - rewrite lookup_insert_ne by (by eapply srep_addr). done. }
  rewrite (bind_Ok _ _ _ _ _ Efree). rewrite (free_run _ n).
  2:{ cbn. rewrite lookup_wipe, decide_False by done. lk. done. }
  eexists. split; [reflexivity|]. split; [done|]. cbn. apply map_eq. intros q.
  destruct (decide (q = top)) as [->|Hq]; [rewrite lookup_delete_eq; done|]. rewrite lookup_delete_ne, lookup_wipe by done.
  case_decide as Hqk.
  - destruct (nodes h0 !! q) eqn:E; [|done]. exfalso. destruct h0_ok as [_ Hr]. specialize (Hr q ltac:(eauto)).
    pose proof (g_range _ _ _ G q (proj2 (Hin q) (or_intror Hqk))). lia.
  - rewrite lookup_insert_ne by (intros <-; apply Hqk, addr_in). apply (g_out _ _ _ G). rewrite Hin. tauto.
Qed.
End Decode.

Lemma good_start h : heap_ok h →
  good h (cbrk h) {| nodes := <[cbrk h := set_type CN_CBOR_INVALID zero_node]> (nodes h); cbrk := cbrk h + 1; coks := coks h |}
    (STree (cbrk h) []) [].
Proof.
  intros [Hp Hr]. assert (∀ q, q ∈ zaddrs (STree (cbrk h) []) [] ↔ q = cbrk h) as Hin.
  { intros q. unfold zaddrs. cbn. rewrite elem_of_cons, elem_of_nil. tauto. }
  constructor; cbn [nodes cbrk].
  - split; [|done]. apply srep_eq. split; [unfold NULL; lia|]. split; [|done]. eexists. split; [apply lookup_insert_eq|]. done.
  - unfold zaddrs. cbn. apply NoDup_singleton.
  - intros q Hq. apply Hin in Hq. lia.
  - intros q Hq. rewrite Hin in Hq. lk. done.
  - intros q n Hq. apply Hin in Hq as ->. lk. intros [= <-]. done.
  - eexists. split; [apply lookup_insert_eq|]. done.
  - done.
Qed.

(** A tree of its own in a heap that is otherwise as it was. *)
Record new_tree (h : cbor_heap) (t : stree) (h' : cbor_heap) : Prop := {
  nt_rep : srep (nodes h') NULL NULL t;
  nt_nodup : NoDup (addrs t);
  nt_fresh : ∀ q, q ∈ addrs t → nodes h !! q = None;
  nt_rest : ∀ q, (q ∉ addrs t) → nodes h' !! q = nodes h !! q;
  nt_ok : heap_ok h'
}.

(** The ends of decode_item, and what cn_cbor_decode makes of them. *)
Lemma decode_run buf h : heap_ok h →
  ∃ l h1 w, decode_loop (decode_fuel buf) (cbrk h) (Again NULL (cbrk h) buf)
    {| nodes := <[cbrk h := set_type CN_CBOR_INVALID zero_node]> (nodes h); cbrk := cbrk h + 1; coks := coks h |} = Ok (l, h1) ∧
    at_label h (cbrk h) h1 l w ∧ final l ∧ (left_of l <= length buf)%nat.
Proof.
  intros Hok. destruct (decode_loop_ends h (cbrk h) Hok (decode_fuel buf) (Again NULL (cbrk h) buf)
    {| nodes := <[cbrk h := set_type CN_CBOR_INVALID zero_node]> (nodes h); cbrk := cbrk h + 1; coks := coks h |}
    (3 * length buf + 1)) as (l & h1 & w & E & Hl & Hf & Hn).
  - eapply (at_again' _ _ _ (STree (cbrk h) []) []); [by apply good_start|done|cbn [length]; lia].
  - unfold decode_fuel. lia.
  - exists l, h1, w. done.
Qed.

Lemma heap_top h : heap_ok h → nodes h !! cbrk h = None.
Proof. intros [_ Hr]. destruct (nodes h !! cbrk h) eqn:E; [|done]. specialize (Hr (cbrk h) ltac:(eauto)). lia. Qed.

Lemma decode_done buf h t h1 :
  heap_ok h → good h (cbrk h) h1 t [(cbrk h, [])] →
  decode_loop (decode_fuel buf) (cbrk h) (Again NULL (cbrk h) buf)
    {| nodes := <[cbrk h := set_type CN_CBOR_INVALID zero_node]> (nodes h); cbrk := cbrk h + 1; coks := coks h |} = Ok (Done (addr t), h1) →
  ∃ h', cn_cbor_decode buf h = Ok ((addr t, None), h') ∧ new_tree h t h' ∧
    fbind (mod_node (addr t) (set_parent NULL)) (λ _, CN_FREE (cbrk h)) h1 = Ok (tt, h').
Proof.
  intros Hok G E. destruct (done_ends _ _ _ _ G (heap_top _ Hok)) as (h' & Ee & Hb & Hr & Hnd & Hrest). exists h'. split; [|split; [|exact Ee]].
  - unfold cn_cbor_decode, new_node. erewrite bind_Ok by reflexivity. rewrite (bind_Ok _ _ _ _ _ E).
    rewrite <- fbind_assoc, (bind_Ok _ _ _ _ _ Ee). done.
  - assert (∀ q, q ∈ addrs t → cbrk h <= q < cbrk h') as Hrng.
    { intros q Hq. rewrite Hb. apply (g_range _ _ _ _ _ G). apply elem_of_app. by left. }
    destruct Hok as [Hp Hold]. split; [done|done| |done|].
    + intros q Hq. destruct (nodes h !! q) eqn:En; [|done]. specialize (Hrng q Hq). specialize (Hold q ltac:(eauto)). lia.
    + pose proof (Hrng _ (addr_in t)). split; [lia|]. intros q Hq. destruct (decide (q ∈ addrs t)) as [Hin|Hin].
      * specialize (Hrng q Hin). lia.
      * rewrite Hrest in Hq by done. specialize (Hold q Hq). lia.
Qed.

(** Of the decoder's run on any bytes and in any memory. *)
Definition decode_result (buf : list Z) (h : cbor_heap) (r : result (Z * option (cn_cbor_error * Z) * cbor_heap)) : Prop :=
  match r with
  | Ok (root, None, h') => ∃ t, root = addr t ∧ new_tree h t h'
  | Ok (root, Some (e, pos), h') => root = NULL ∧ 0 <= pos <= zlen buf ∧ nodes h' = nodes h
  | Fault _ => False
  end.

Lemma decode_ends buf h : heap_ok h → decode_result buf h (cn_cbor_decode buf h).
Proof.
  intros Hok. destruct (decode_run buf h Hok) as (l & h1 & w & E & Hl & Hf & Hn).
  destruct Hl as [| |t G|e t fr inp G]; [done|done| |].
  - destruct (decode_done buf h t h1 Hok G E) as (h' & -> & Ht & _). exists t. done.
  - unfold cn_cbor_decode, new_node. erewrite bind_Ok by reflexivity. rewrite (bind_Ok _ _ _ _ _ E).
    assert (∃ h', drop_all (cbrk h) h1 = Ok (tt, h') ∧ cbrk h' = cbrk h1 ∧ nodes h' = nodes h) as (h' & Ed & _ & Hnodes).
    { destruct fr as [|f fr]; [|by eapply drop_all_item; [|exact G| |apply heap_top]].
      pose proof (g_bot _ _ _ _ _ G) as Hb. cbn in Hb. subst t. by eapply drop_all_single; [exact G|apply heap_top]. }
    assert (∀ x : Z * option (cn_cbor_error * Z), fbind (drop_all (cbrk h)) (λ _, fret x) h1 = Ok (x, h')) as Ed' by (intros x; rewrite (bind_Ok _ _ _ _ _ Ed); done).
    specialize (Ed' (NULL, Some (e, zlen buf - zlen inp))). unfold drop_all in Ed'. rewrite fbind_assoc in Ed'.
    destruct (g_top _ _ _ _ _ G) as (m & Hm & _).
    rewrite (bind_Ok _ _ _ _ _ (get_node_run _ _ _ Hm)) in Ed'. rewrite (bind_Ok _ _ _ _ _ (get_node_run _ _ _ Hm)).
    rewrite fbind_assoc in Ed'. rewrite Ed'.
    cbn. cbn in Hn. unfold zlen. split; [done|]. split; [lia|done].
Qed.

(** C16: on any bytes and in any memory, with any allocations failing, the decoder ends: with a tree of its own that
    hangs together and shares nothing with the rest of the heap, or with NULL, a position inside the buffer and no
    node left behind. *)
Theorem cn_cbor_decode_ends buf h : heap_ok h → decode_result buf h (cn_cbor_decode buf h).
Proof. apply decode_ends. Qed.

(** A tree that was decoded is given back by freeing its root: the heap is as it was before the decoder ran. *)
Theorem decode_free buf h root h1 :
  heap_ok h → cn_cbor_decode buf h = Ok (root, None, h1) →
  ∃ h2, cn_cbor_free root h1 = Ok (tt, h2) ∧ nodes h2 = nodes h.
Proof.
  intros Hok E. pose proof (decode_ends buf h Hok) as Hd. rewrite E in Hd. destruct Hd as (t & -> & Ht).
  assert (nodes h1 !! NULL = None) as Hnull.
  { destruct (nt_ok _ _ _ Ht) as [_ Hr]. destruct (nodes h1 !! NULL) eqn:En; [|done]. specialize (Hr NULL ltac:(eauto)). unfold NULL in Hr. lia. }
  eexists. split; [apply free_root; [apply Ht|apply Ht|done]|]. cbn. apply map_eq. intros q. rewrite lookup_wipe. case_decide as Hq.
  - symmetry. by apply (nt_fresh _ _ _ Ht).
  - by apply (nt_rest _ _ _ Ht).
Qed.
