(* ===== verification/CborCodec.v ===== *)
(** * CBOR: encoding and decoding are inverse

    The items a tree of nodes stands for, their encoding as bytes, and that
    cn_cbor_decode reads it and cn_cbor_encoder_write writes it (uc_cbor.c and
    uc_cbor_encoder.c of app/codec/cbor, modelled in Cbor.v). *)

From S2P Require Import Prelude Cbor.
#[local] Set Warnings "-register-all".

(** ** Byte order *)


Lemma land_mid x w k : 0 <= k → 0 <= w → Z.land x (Z.shiftl (Z.ones w) k) = Z.shiftl ((x / 2 ^ k) mod 2 ^ w) k.
Proof.
  intros Hk Hw. rewrite <- Z.land_ones, <- Z.shiftr_div_pow2 by lia. apply Z.bits_inj'. intros i Hi.
  rewrite Z.land_spec, !Z.shiftl_spec, Z.land_spec by lia. destruct (decide (i < k)) as [Hik|Hik].
  - rewrite (Z.testbit_neg_r _ (i - k)) by lia. rewrite andb_false_r, Z.testbit_neg_r by lia. done.
  - rewrite Z.shiftr_spec by lia. replace (i - k + k) with i by lia. done.
Qed.

(** The four bytes of a word, most significant first. *)
Lemma lor_bytes a b c d : is_u8 b → is_u8 c → is_u8 d →
  Z.lor (Z.lor (Z.lor (Z.shiftl a 24) (Z.shiftl b 16)) (Z.shiftl c 8)) d = le_val [d; c; b; a].
Proof.
  unfold is_u8. intros Hb Hc Hd. rewrite <- !Z.lor_assoc. rewrite (lor_add c d 8) by lia.
  rewrite (lor_add b (c * 2 ^ 8 + d) 16) by lia. rewrite lor_add by lia. cbn [le_val]. lia.
Qed.

Lemma byte_of_word x k : 0 <= k → Z.land (Z.shiftr x k) 0xFF = (x / 2 ^ k) mod 256.
Proof. intros Hk. change 0xFF with (Z.ones 8). rewrite Z.land_ones, Z.shiftr_div_pow2 by lia. done. Qed.

Lemma bytes_div a b c d : is_u8 a → is_u8 b → is_u8 c → is_u8 d →
  le_val [a; b; c; d] mod 256 = a ∧ (le_val [a; b; c; d] / 256) mod 256 = b ∧ (le_val [a; b; c; d] / 65536) mod 256 = c ∧
  (le_val [a; b; c; d] / 16777216) mod 256 = d.
Proof. unfold is_u8. cbn [le_val]. intros. Z.div_mod_to_equations. lia. Qed.

Lemma htonl_bytes a b c d : is_u8 a → is_u8 b → is_u8 c → is_u8 d → htonl (le_val [a; b; c; d]) = le_val [d; c; b; a].
Proof.
  intros Ha Hb Hc Hd. unfold htonl. rewrite <- (Z.shiftr_0_r (le_val [a; b; c; d])) at 1. rewrite !byte_of_word by lia.
  destruct (bytes_div a b c d) as (E1 & E2 & E3 & E4); [done..|]. change (2 ^ 0) with 1. rewrite Z.div_1_r.
  change (2 ^ 8) with 256. change (2 ^ 16) with 65536. change (2 ^ 24) with 16777216. rewrite E1, E2, E3, E4. by apply lor_bytes.
Qed.

Lemma BSWAP_32_bytes a b c d : is_u8 a → is_u8 b → is_u8 c → is_u8 d → BSWAP_32 (le_val [a; b; c; d]) = le_val [d; c; b; a].
Proof.
  intros Ha Hb Hc Hd. unfold BSWAP_32. set (x := le_val [a; b; c; d]).
  change 0xFF000000 with (Z.shiftl (Z.ones 8) 24). change 0x00FF0000 with (Z.shiftl (Z.ones 8) 16).
  change 0x0000FF00 with (Z.shiftl (Z.ones 8) 8). change 0x000000FF with (Z.shiftl (Z.ones 8) 0). rewrite !land_mid by lia.
  destruct (bytes_div a b c d) as (E1 & E2 & E3 & E4); [done..|]. fold x in E1, E2, E3, E4.
  change (2 ^ 8) with 256. change (2 ^ 16) with 65536. change (2 ^ 24) with 16777216. change (2 ^ 0) with 1.
  rewrite Z.div_1_r, E1, E2, E3, E4. rewrite !Z.shiftr_shiftl_l, !Z.shiftl_shiftl by lia. cbn [Z.add Z.sub Z.opp Z.pos_sub].
  change (24 - 24) with 0. change (16 - 8) with 8. change (8 + 8) with 16. change (0 + 24) with 24. rewrite Z.shiftl_0_r.
  rewrite (Z.lor_comm _ (Z.shiftl a 24)), (Z.lor_comm _ (Z.shiftl b 16)), (Z.lor_comm d). rewrite !Z.lor_assoc. by apply lor_bytes.
Qed.

Lemma bytes_div2 a b : is_u8 a → is_u8 b → le_val [a; b] mod 256 = a ∧ (le_val [a; b] / 256) mod 256 = b.
Proof. unfold is_u8. cbn [le_val]. intros. Z.div_mod_to_equations. lia. Qed.

Lemma htons_bytes a b : is_u8 a → is_u8 b → htons (le_val [a; b]) = le_val [b; a].
Proof.
  intros Ha Hb. unfold htons. rewrite <- (Z.shiftr_0_r (le_val [a; b])) at 1. rewrite !byte_of_word by lia.
  destruct (bytes_div2 a b) as (E1 & E2); [done..|]. change (2 ^ 0) with 1. rewrite Z.div_1_r. change (2 ^ 8) with 256.
  rewrite E1, E2. unfold is_u8 in *. rewrite lor_add by lia. cbn [le_val]. lia.
Qed.

Lemma BSWAP_16_bytes a b : is_u8 a → is_u8 b → BSWAP_16 (le_val [a; b]) = le_val [b; a].
Proof.
  intros Ha Hb. unfold BSWAP_16. change 0x00FF with (Z.shiftl (Z.ones 8) 0). change 0xFF00 with (Z.shiftl (Z.ones 8) 8).
  rewrite !land_mid by lia. destruct (bytes_div2 a b) as (E1 & E2); [done..|]. change (2 ^ 0) with 1. change (2 ^ 8) with 256.
  rewrite Z.div_1_r, E1, E2. rewrite Z.shiftr_shiftl_l, Z.shiftl_shiftl by lia. change (8 - 8) with 0. change (0 + 8) with 8.
  rewrite Z.shiftl_0_r. unfold is_u8 in *. rewrite lor_add by lia. cbn [le_val]. lia.
Qed.

(** Big-endian bytes: what the encoder writes and the decoder reads. *)
Definition be_bytes (n : nat) (z : Z) : list Z := rev (le_bytes n z).

Lemma u8_mod z : is_u8 (z mod 256).
Proof. apply u8_range. Qed.

Lemma hton16p_bytes z : le_bytes 2 (hton16p (le_bytes 2 z)) = be_bytes 2 z.
Proof.
  unfold hton16p, be_bytes. rewrite take_ge by (rewrite length_le_bytes; lia). cbn [le_bytes rev app].
  rewrite htons_bytes by apply u8_mod. apply (le_bytes_val [_; _]). repeat constructor; apply u8_mod.
Qed.
Lemma hton32p_bytes z : le_bytes 4 (hton32p (le_bytes 4 z)) = be_bytes 4 z.
Proof.
  unfold hton32p, be_bytes. rewrite take_ge by (rewrite length_le_bytes; lia). cbn [le_bytes rev app].
  rewrite htonl_bytes by apply u8_mod. apply (le_bytes_val [_; _; _; _]). repeat constructor; apply u8_mod.
Qed.
Lemma ntoh16p_bytes z rest : is_u16 z → ntoh16p (be_bytes 2 z ++ rest) = z.
Proof.
  intros Hz. unfold ntoh16p, be_bytes. cbn [le_bytes rev app take]. rewrite BSWAP_16_bytes by apply u8_mod. by apply (le2_roundtrip z).
Qed.
Lemma ntoh32p_bytes z rest : is_u32 z → ntoh32p (be_bytes 4 z ++ rest) = z.
Proof.
  intros Hz. unfold ntoh32p, be_bytes. cbn [le_bytes rev app take]. rewrite BSWAP_32_bytes by apply u8_mod. by apply (le4_roundtrip z).
Qed.

(** ** Items and their encoding *)

Inductive ikind := IBytes | IText | IArray | IMap.
#[export] Instance ikind_eq_dec : EqDecision ikind.
Proof. solve_decision. Defined.
Inductive nkind := KArray | KMap | KTag (n : Z) | KIndef (k : ikind).
Inductive cval :=
| VInt (neg : bool) (n : Z)
| VString (text : bool) (s : list Z)
| VSimple (n : Z)
| VConst (c : Z)
| VNode (k : nkind) (items : list cval).

Lemma cval_rect' (P : cval → Prop) :
  (∀ neg n, P (VInt neg n)) → (∀ text s, P (VString text s)) → (∀ n, P (VSimple n)) → (∀ c, P (VConst c)) →
  (∀ k items, Forall P items → P (VNode k items)) → ∀ v, P v.
Proof.
  intros H1 H2 H3 H4 H5. fix IH 1. intros [neg n|text s|n|c|k items]; [apply H1|apply H2|apply H3|apply H4|apply H5].
  induction items as [|v items IHitems]; constructor; [apply IH|exact IHitems].
Qed.

Definition ai_of (n : Z) : Z := if n <? 24 then n else if n <? 256 then 24 else if n <? 65536 then 25 else 26.
Definition more_of (n : Z) : list Z :=
  if n <? 24 then [] else if n <? 256 then [n] else if n <? 65536 then be_bytes 2 n else be_bytes 4 n.
Definition head (mt n : Z) : list Z := (32 * mt + ai_of n) :: more_of n.

Definition kind_mt (k : ikind) : Z := match k with IBytes => 2 | IText => 3 | IArray => 4 | IMap => 5 end.
Definition intro (k : nkind) (len : Z) : list Z :=
  match k with
  | KArray => head 4 len | KMap => head 5 (len / 2) | KTag n => head 6 n | KIndef k => [32 * kind_mt k + AI_INDEF]
  end.
Definition outro (k : nkind) : list Z := match k with KIndef _ => [IB_BREAK] | _ => [] end.

Fixpoint enc (v : cval) : list Z :=
  match v with
  | VInt neg n => head (if neg then 1 else 0) n
  | VString text s => head (if text then 3 else 2) (zlen s) ++ s
  | VSimple n => head 7 n
  | VConst c => [224 + c]
  | VNode k items => intro k (zlen items) ++ concat (map enc items) ++ outro k
  end.

(** The items the decoder keeps whole: 32-bit numbers, negative numbers and
    lengths of an int. *)
Definition chunk_of (k : nkind) (v : cval) : Prop :=
  match k with
  | KIndef IBytes => match v with VString false _ => True | _ => False end
  | KIndef IText => match v with VString true _ => True | _ => False end
  | _ => True
  end.
Definition kind_ok (k : nkind) (len : Z) : Prop :=
  match k with
  | KArray => True | KMap | KIndef IMap => len mod 2 = 0 | KTag n => len = 1 ∧ is_u32 n | KIndef _ => True
  end.
Section All.
Context (P : cval → Prop).
Fixpoint all (vs : list cval) : Prop := match vs with [] => True | v :: vs => P v ∧ all vs end.
End All.
Fixpoint item_ok (v : cval) : Prop :=
  match v with
  | VInt neg n => 0 <= n < (if neg then 2147483648 else 4294967296)
  | VString _ s => bytes_ok s ∧ zlen s < 2147483648
  | VSimple n => 0 <= n < 20 ∨ 24 <= n < 256
  | VConst c => 20 <= c < 24
  | VNode k items => zlen items < 2147483648 ∧ kind_ok k (zlen items) ∧ all (λ v, chunk_of k v ∧ item_ok v) items
  end.

(** ** The number behind an initial byte *)

Lemma ib_parts mt ai : 0 <= mt < 8 → 0 <= ai < 32 → Z.shiftr (32 * mt + ai) 5 = mt ∧ Z.land (32 * mt + ai) 0x1f = ai.
Proof.
  intros Hm Ha. split.
  - rewrite Z.shiftr_div_pow2 by lia. change (2 ^ 5) with 32. Z.div_mod_to_equations. lia.
  - change 0x1f with (Z.ones 5). rewrite Z.land_ones by lia. change (2 ^ 5) with 32. Z.div_mod_to_equations. lia.
Qed.

Lemma ib_lor mt ai : 0 <= ai < 32 → Z.lor (32 * mt) ai = 32 * mt + ai.
Proof. intros Ha. replace (32 * mt) with (Z.shiftl mt 5) by (rewrite Z.shiftl_mul_pow2 by lia; lia). rewrite lor_add by lia. rewrite Z.shiftl_mul_pow2 by lia. lia. Qed.

Lemma ai_of_range n : 0 <= n → 0 <= ai_of n < 28.
Proof. intros Hn. unfold ai_of. repeat case_match; lia. Qed.

Lemma more_of_len n : 0 <= zlen (more_of n) <= 4.
Proof. unfold more_of, be_bytes, zlen. repeat case_match; cbn; rewrite ?length_rev, ?length_le_bytes; cbn; lia. Qed.

Lemma take_ai_head mt n rest : is_u32 n → take_ai mt (ai_of n) (more_of n ++ rest) = AiVal n rest.
Proof.
  intros Hn. unfold is_u32 in Hn. unfold ai_of, more_of.
  destruct (Z.ltb_spec n 24) as [H1|H1]; [|destruct (Z.ltb_spec n 256) as [H2|H2]; [|destruct (Z.ltb_spec n 65536) as [H3|H3]]].
  - unfold take_ai, AI_INDEF. do 4 (rewrite (proj2 (Z.eqb_neq n _)) by lia). rewrite (proj2 (Z.leb_gt 28 n)) by lia. cbn [andb].
    rewrite (proj2 (Z.eqb_neq n _)) by lia. done.
  - unfold take_ai. cbn [Z.eqb Pos.eqb]. unfold zlen. cbn [length app].
    destruct (1 >? Z.of_nat (S (length rest))) eqn:E; [apply Z.gtb_lt in E; lia|]. change (Z.to_nat 1) with 1%nat. cbn [take drop le_val]. change (take 0 rest) with (@nil Z). cbn [le_val]. f_equal. lia.
  - unfold take_ai. cbn [Z.eqb Pos.eqb]. unfold be_bytes, zlen. rewrite length_app, length_rev, length_le_bytes.
    destruct (2 >? _) eqn:E; [apply Z.gtb_lt in E; lia|]. fold (be_bytes 2 n). rewrite ntoh16p_bytes by (unfold is_u16; lia).
    rewrite drop_app_length'; [done|]. unfold be_bytes. rewrite length_rev, length_le_bytes. done.
  - unfold take_ai. cbn [Z.eqb Pos.eqb]. unfold be_bytes, zlen. rewrite length_app, length_rev, length_le_bytes.
    destruct (4 >? _) eqn:E; [apply Z.gtb_lt in E; lia|]. fold (be_bytes 4 n). rewrite ntoh32p_bytes by (unfold is_u32; lia).
    rewrite drop_app_length'; [done|]. unfold be_bytes. rewrite length_rev, length_le_bytes. done.
Qed.

(** ** Trees of nodes that stand for an item *)

Definition const_type (c : Z) : cn_cbor_type :=
  if c =? 20 then CN_CBOR_FALSE else if c =? 21 then CN_CBOR_TRUE else if c =? 22 then CN_CBOR_NULL else CN_CBOR_UNDEF.
Definition open_type (k : nkind) : cn_cbor_type :=
  match k with
  | KArray | KIndef IArray => CN_CBOR_ARRAY | KMap | KIndef IMap => CN_CBOR_MAP | KTag _ => CN_CBOR_TAG
  | KIndef IBytes => CN_CBOR_BYTES | KIndef IText => CN_CBOR_TEXT
  end.
Definition closed_type (k : nkind) : cn_cbor_type :=
  match k with KIndef IBytes => CN_CBOR_BYTES_CHUNKED | KIndef IText => CN_CBOR_TEXT_CHUNKED | _ => open_type k end.
Definition indef_kind (k : nkind) : bool := match k with KIndef _ => true | _ => false end.

Definition rep_data (v : cval) (n : cn_cbor) : Prop :=
  match v with
  | VInt neg k =>
      c_type n = (if neg then CN_CBOR_INT else CN_CBOR_UINT) ∧ c_v n = VWord (u32 (if neg then Z.lnot k else k)) ∧ is_indef n = false
  | VString text s =>
      c_type n = (if text then CN_CBOR_TEXT else CN_CBOR_BYTES) ∧ c_length n = zlen s ∧ (∃ rest, c_v n = VStr (s ++ rest)) ∧
      is_indef n = false
  | VSimple k => c_type n = CN_CBOR_SIMPLE ∧ c_v n = VWord k ∧ is_indef n = false
  | VConst c => c_type n = const_type c ∧ is_indef n = false
  | VNode k items =>
      c_type n = closed_type k ∧ is_indef n = indef_kind k ∧
      match k with KArray | KMap => c_length n = zlen items | KTag x => c_v n = VWord x | KIndef _ => True end
  end.

Section All2.
Context (R : stree → cval → Prop).
Fixpoint all2 (ks : list stree) (vs : list cval) {struct vs} : Prop :=
  match vs, ks with [], [] => True | v :: vs, k :: ks => R k v ∧ all2 ks vs | _, _ => False end.
End All2.
Fixpoint rep (m : gmap Z cn_cbor) (t : stree) (v : cval) {struct v} : Prop :=
  (∃ n, m !! addr t = Some n ∧ rep_data v n) ∧
  match v with VNode _ items => all2 (rep m) (kids_of t) items | _ => kids_of t = [] end.

Lemma all2_snoc R ks vs k v : all2 R ks vs → R k v → all2 R (ks ++ [k]) (vs ++ [v]).
Proof. revert ks. induction vs as [|w vs IH]; intros [|k' ks]; cbn; try done. intros [? ?] ?. split; [done|]. by apply IH. Qed.

(** The data of a node is as it was, or one child was added. *)
Definition unchanged (h h' : cbor_heap) (q : Z) : Prop :=
  ∀ n, nodes h !! q = Some n → ∃ n', nodes h' !! q = Some n' ∧ data n' = data n.
Definition bumped (h h' : cbor_heap) (q : Z) : Prop :=
  ∀ n, nodes h !! q = Some n → ∃ n', nodes h' !! q = Some n' ∧ data n' = (c_type n, c_flags n, c_v n, s32 (c_length n + 1)).

Lemma unchanged_refl h q : unchanged h h q.
Proof. intros n Hn. eauto. Qed.
Lemma unchanged_trans h1 h2 h3 q : unchanged h1 h2 q → unchanged h2 h3 q → unchanged h1 h3 q.
Proof. intros H1 H2 n Hn. destruct (H1 n Hn) as (n2 & Hn2 & E2). destruct (H2 n2 Hn2) as (n3 & Hn3 & E3). exists n3. split; [done|congruence]. Qed.
Lemma unchanged_insert h p n q : q ≠ p → unchanged h (with_nodes (<[p:=n]> (nodes h)) h) q.
Proof. intros Hq m Hm. exists m. cbn. lk. done. Qed.

Lemma rep_data_ext v n n' : data n' = data n → rep_data v n → rep_data v n'.
Proof. unfold data. intros [= E1 E2 E3 E4]. unfold rep_data, is_indef. rewrite E1, E2, E3, E4. done. Qed.

Lemma rep_unchanged h h' v : ∀ t, (∀ q, q ∈ addrs t → unchanged h h' q) → rep (nodes h) t v → rep (nodes h') t v.
Proof.
  assert (∀ v t, (∀ q, q ∈ addrs t → unchanged h h' q) → (∃ n, nodes h !! addr t = Some n ∧ rep_data v n) →
            ∃ n, nodes h' !! addr t = Some n ∧ rep_data v n) as Hroot.
  { intros w t Hq (n & Hn & Hd). destruct (Hq _ (addr_in t) n Hn) as (n' & Hn' & E). exists n'. split; [done|]. by eapply rep_data_ext. }
  induction v as [neg n|text s|n|c|k items IH] using cval_rect'; intros t Hq [Hr Hk]; (split; [by eapply Hroot|]); try exact Hk.
  destruct t as [p ks]. cbn [kids_of] in *. assert (∀ q, q ∈ addrss ks → unchanged h h' q) as Hq'
    by (intros q Hin; apply Hq; apply elem_of_cons; by right). clear Hq Hr. revert ks Hk Hq'.
  induction IH as [|v items Hv _ IH]; intros [|t ks] Hk Hq; cbn in Hk |- *; try done. destruct Hk as [Ht Hk]. split.
  - apply Hv; [|done]. intros q Hin. apply Hq. apply elem_of_app. by left.
  - apply IH; [done|]. intros q Hin. apply Hq. apply elem_of_app. by right.
Qed.

Lemma all2_unchanged h h' ks vs :
  (∀ q, q ∈ addrss ks → unchanged h h' q) → all2 (rep (nodes h)) ks vs → all2 (rep (nodes h')) ks vs.
Proof.
  revert ks. induction vs as [|v vs IH]; intros [|t ks] Hq; cbn; try done. intros [Ht Hk]. split.
  - eapply rep_unchanged; [|exact Ht]. intros q Hin. apply Hq. apply elem_of_app. by left.
  - apply IH; [|done]. intros q Hin. apply Hq. apply elem_of_app. by right.
Qed.

(** ** Decoding an encoding *)

Section Decode.
Context (h0 : cbor_heap) (top : Z).
Hypothesis (h0_ok : heap_ok h0).
Local Abbreviation good := (good h0 top).

Definition reach (l : label) (h : cbor_heap) (l' : label) (h' : cbor_heap) : Prop :=
  ∃ k, ∀ fuel, decode_loop (k + fuel) top l h = decode_loop fuel top l' h'.

Lemma reach_trans l1 h1 l2 h2 l3 h3 : reach l1 h1 l2 h2 → reach l2 h2 l3 h3 → reach l1 h1 l3 h3.
Proof using Type. intros [k H1] [j H2]. exists (k + j)%nat. intros fuel. rewrite <- Nat.add_assoc, H1, H2. done. Qed.
Lemma reach_again cb p inp h l' h' : decode_again top cb p inp h = Ok (l', h') → reach (Again cb p inp) h l' h'.
Proof using Type. intros E. exists 1%nat. intros fuel. cbn [Nat.add decode_loop]. rewrite (bind_Ok _ _ _ _ _ E). done. Qed.
Lemma reach_fill cb p inp h l' h' : decode_fill top cb p inp h = Ok (l', h') → reach (Fill cb p inp) h l' h'.
Proof using Type. intros E. exists 1%nat. intros fuel. cbn [Nat.add decode_loop]. rewrite (bind_Ok _ _ _ _ _ E). done. Qed.

(** No allocation fails. *)
Definition plenty (h : cbor_heap) : Prop := Forall (λ b, b = true) (coks h).

Lemma calloc_run h : plenty h → CN_CALLOC h = Ok (Some (cbrk h), fresh_heap h (tail (coks h))) ∧ Forall (λ b, b = true) (tail (coks h)).
Proof using Type. unfold plenty, CN_CALLOC. destruct 1 as [|b l -> Hl] eqn:E; done. Qed.

Lemma item_run h t fr cb mt ai inp :
  good h t fr → plenty h → 0 <= mt < 8 → 0 <= ai < 32 → (mt = 7 → ai < 31) →
  ∃ h1, good h1 (STree (cbrk h) []) ((addr t, kids_of t) :: fr) ∧ plenty h1 ∧
    nodes h1 !! cbrk h = Some (set_parent (addr t) (set_type (mt_trans mt) zero_node)) ∧
    (∀ q, q ∈ zaddrs t fr → q ≠ addr t → unchanged h h1 q) ∧ bumped h h1 (addr t) ∧
    decode_again top cb (addr t) ((32 * mt + ai) :: inp) h =
      match take_ai mt ai inp with
      | AiErr e inp => Ok (Failed e inp, h1)
      | AiPush inp => fbind (mod_node (cbrk h) (λ n, set_flags (Z.lor (c_flags n) CN_CBOR_FL_INDEF) n))
                        (λ _, fret (Again (cbrk h) (cbrk h) inp)) h1
      | AiVal val inp => decode_content (cbrk h) (addr t) mt ai val inp h1
      end.
Proof using h0_ok.
  intros G Hplenty Hmt Hai H7. destruct (calloc_run h Hplenty) as [Ealloc Htail].
  destruct (attach h0 top h0_ok h t fr (mt_trans mt) (tail (coks h)) G) as (h1 & E1 & G1 & Hcoks & Hc & Hdata).
  destruct (good_free _ _ h0_ok _ _ _ (cbrk h) G) as [Hcz _]; [right; lia|].
  exists h1. split; [done|]. split; [by unfold plenty; rewrite Hcoks|]. split; [done|]. split; [|split].
  - intros q Hq Hne n Hn. destruct (Hdata q n) as (n' & Hn' & Hd); [intros ->; done|done|]. rewrite decide_False in Hd by done. eauto.
  - intros n Hn. destruct (Hdata (addr t) n) as (n' & Hn' & Hd); [|done|].
    + intros E. apply Hcz. rewrite <- E. apply addr_in_z.
    + rewrite decide_True in Hd by done. eauto.
  - unfold decode_again. rewrite (proj2 (Z.eqb_neq _ IB_BREAK)) by (unfold IB_BREAK; lia).
    rewrite (bind_Ok _ _ _ _ _ Ealloc). destruct (ib_parts mt ai Hmt Hai) as [-> ->].
    rewrite <- fbind_assoc, (bind_Ok _ _ _ _ _ E1). destruct (take_ai mt ai inp); done.
Qed.

(** Where an item that was read leaves the decoder. *)
Definition item_read (v : cval) (h : cbor_heap) (t : stree) (fr : list frame) (l : label) (rest : list Z) : Prop :=
  ∃ t' h', reach l h (Fill (addr t') (addr t) rest) h' ∧ good h' t' ((addr t, kids_of t) :: fr) ∧ rep (nodes h') t' v ∧ plenty h' ∧
    (∀ q, q ∈ zaddrs t fr → q ≠ addr t → unchanged h h' q) ∧ bumped h h' (addr t).

(** The content is written into the new node only. *)
Lemma content_reach h t fr cb mt ai inp val inp' :
  good h t fr → plenty h → 0 <= mt < 8 → 0 <= ai < 32 → (mt = 7 → ai < 31) → take_ai mt ai inp = AiVal val inp' →
  ∃ h' n', reach (Again cb (addr t) ((32 * mt + ai) :: inp)) h (content_next (cbrk h) (addr t) mt ai val inp') h' ∧
    good h' (STree (cbrk h) []) ((addr t, kids_of t) :: fr) ∧ plenty h' ∧ nodes h' !! cbrk h = Some n' ∧
    n' = content_node mt ai val inp' (set_parent (addr t) (set_type (mt_trans mt) zero_node)) ∧
    (∀ q, q ∈ zaddrs t fr → q ≠ addr t → unchanged h h' q) ∧ bumped h h' (addr t).
Proof using h0_ok.
  intros G Hplenty Hmt Hai H7 Eai. destruct (item_run h t fr cb mt ai inp G Hplenty Hmt Hai H7) as (h1 & G1 & Hp1 & Hc & Hun & Hbump & E).
  rewrite Eai in E. rewrite (content_run _ _ _ _ _ _ _ _ Hc) in E. set (n' := content_node _ _ _ _ _) in E.
  destruct (good_free _ _ h0_ok _ _ _ (cbrk h) G) as [Hcz _]; [right; lia|].
  assert (∀ q, q ∈ zaddrs t fr → q ≠ cbrk h) as Hne by (intros q Hq ->; done).
  exists (with_nodes (<[cbrk h:=n']> (nodes h1)) h1), n'. split; [by apply reach_again|]. split; [|split; [done|split; [apply lookup_insert_eq|split; [done|split]]]].
  - apply (good_mod _ _ h1 _ _ (cbrk h) _ (content_node mt ai val inp') G1); [apply (addr_in_z (STree _ []))|done|apply content_node_links| |].
    + by apply content_node_count.
    + intros E'. pose proof (good_inner _ _ _ _ _ G1 E'). done.
  - intros q Hq Hqa. eapply unchanged_trans; [by apply Hun|]. apply unchanged_insert. by apply Hne.
  - intros n Hn. destruct (Hbump n Hn) as (m & Hm & Hd). exists m. split; [|done]. cbn. rewrite lookup_insert_ne; [done|].
    intros E'. apply (Hne (addr t)); [apply addr_in_z|done].
Qed.

Lemma leaf_read h t fr cb mt ai inp val inp' rest v :
  good h t fr → plenty h → 0 <= mt < 8 → 0 <= ai < 32 → (mt = 7 → ai < 31) → take_ai mt ai inp = AiVal val inp' →
  content_next (cbrk h) (addr t) mt ai val inp' = Fill (cbrk h) (addr t) rest →
  rep_data v (content_node mt ai val inp' (set_parent (addr t) (set_type (mt_trans mt) zero_node))) →
  match v with VNode _ items => items = [] | _ => True end →
  item_read v h t fr (Again cb (addr t) ((32 * mt + ai) :: inp)) rest.
Proof using h0_ok.
  intros G Hplenty Hmt Hai H7 Eai Enext Hrep Hleaf.
  destruct (content_reach h t fr cb mt ai inp val inp' G Hplenty Hmt Hai H7 Eai) as (h' & n' & Hr & G' & Hp & Hn & -> & Hun & Hbump).
  rewrite Enext in Hr. exists (STree (cbrk h) []), h'. do 2 (split; [done|]). split; [|done].
  destruct v as [| | | |k items]; try (split; [by eexists|done]). subst items. split; [by eexists|done].
Qed.

Lemma s32_id z : -2147483648 <= z < 2147483648 → s32 z = z.
Proof using Type. intros Hz. unfold s32. rewrite Z.mod_small; lia. Qed.

Lemma read_int neg n h t fr cb rest :
  good h t fr → plenty h → item_ok (VInt neg n) → item_read (VInt neg n) h t fr (Again cb (addr t) (enc (VInt neg n) ++ rest)) rest.
Proof using h0_ok.
  cbn [item_ok enc]. intros G Hp Hn. assert (is_u32 n) as Hu by (unfold is_u32; destruct neg; lia).
  pose proof (ai_of_range n ltac:(lia)). unfold head. cbn [app].
  eapply leaf_read; try done; [destruct neg; lia|lia|destruct neg; lia|by apply take_ai_head|by destruct neg|by destruct neg].
Qed.

Lemma read_simple n h t fr cb rest :
  good h t fr → plenty h → item_ok (VSimple n) → item_read (VSimple n) h t fr (Again cb (addr t) (enc (VSimple n) ++ rest)) rest.
Proof using h0_ok.
  cbn [item_ok enc]. intros G Hp Hn. assert (is_u32 n) as Hu by (unfold is_u32; lia).
  pose proof (ai_of_range n ltac:(lia)). unfold head. cbn [app].
  assert (ai_of n ≠ 20 ∧ ai_of n ≠ 21 ∧ ai_of n ≠ 22 ∧ ai_of n ≠ 23 ∧ ai_of n ≠ 25 ∧ ai_of n ≠ 26 ∧ ai_of n ≠ 27) as Hai.
  { unfold ai_of. destruct (Z.ltb_spec n 24); [lia|]. rewrite (proj2 (Z.ltb_lt n 256)) by lia. lia. }
  eapply leaf_read; try done; [lia|lia|by apply take_ai_head| |].
  - unfold content_next. cbn [Z.eqb Pos.eqb orb]. repeat rewrite (proj2 (Z.eqb_neq (ai_of n) _)) by lia. done.
  - unfold content_node. cbn [Z.eqb Pos.eqb orb]. repeat rewrite (proj2 (Z.eqb_neq (ai_of n) _)) by lia. cbn. rewrite u32_id by done. done.
Qed.

Lemma read_const c h t fr cb rest :
  good h t fr → plenty h → item_ok (VConst c) → item_read (VConst c) h t fr (Again cb (addr t) (enc (VConst c) ++ rest)) rest.
Proof using h0_ok.
  cbn [item_ok enc]. intros G Hp Hc. change (224 + c) with (32 * 7 + c). cbn [app].
  assert (c = 20 ∨ c = 21 ∨ c = 22 ∨ c = 23) as [->|[->|[->| ->]]] by lia;
    (eapply (leaf_read _ _ _ _ 7); [done|done|lia|lia|lia|reflexivity|reflexivity|done|done]).
Qed.

Lemma read_string text s h t fr cb rest :
  good h t fr → plenty h → item_ok (VString text s) → item_read (VString text s) h t fr (Again cb (addr t) (enc (VString text s) ++ rest)) rest.
Proof using h0_ok.
  cbn [item_ok enc]. intros G Hp [Hs Hlen]. pose proof (zlen_nonneg s). assert (is_u32 (zlen s)) as Hu by (unfold is_u32; lia).
  pose proof (ai_of_range (zlen s) ltac:(lia)). unfold head. rewrite <- app_assoc. cbn [app].
  assert ((zlen s >? zlen (s ++ rest)) = false) as Hfit.
  { rewrite Z.gtb_ltb. apply Z.ltb_ge. rewrite zlen_app. pose proof (zlen_nonneg rest). lia. }
  assert (drop (Z.to_nat (zlen s)) (s ++ rest) = rest) as Hdrop by (unfold zlen; rewrite Nat2Z.id; apply drop_app_length).
  eapply leaf_read; try done; [destruct text; lia|lia|destruct text; lia|by apply take_ai_head| |].
  - unfold content_next. destruct text; cbn [Z.eqb Pos.eqb orb]; rewrite Hfit, Hdrop; done.
  - destruct text; cbn; (rewrite s32_id by lia); eauto 10.
Qed.

(** *** Nodes with items *)

(** An open node with [d] items, [todo] more of which are announced. *)
Definition node_state (k : nkind) (d todo : Z) (n : cn_cbor) : Prop :=
  c_type n = open_type k ∧ c_length n = d ∧
  match k with
  | KArray | KMap => c_flags n = CN_CBOR_FL_COUNT ∧ c_v n = VWord todo
  | KTag x => c_flags n = 0 ∧ c_v n = VWord x
  | KIndef _ => c_flags n = CN_CBOR_FL_INDEF
  end.

Lemma read_empty k h t fr cb rest :
  good h t fr → plenty h → k = KArray ∨ k = KMap → item_read (VNode k []) h t fr (Again cb (addr t) (enc (VNode k []) ++ rest)) rest.
Proof using h0_ok.
  intros G Hp [->| ->]; cbn [enc intro outro map concat]; rewrite app_nil_r; change (zlen []) with 0.
  - eapply (leaf_read _ _ _ _ 4 0 _ 0 rest); [done|done|lia|lia|lia|exact (take_ai_head 4 0 rest ltac:(unfold is_u32; lia))|done|done|done].
  - change (0 / 2) with 0.
    eapply (leaf_read _ _ _ _ 5 0 _ 0 rest); [done|done|lia|lia|lia|exact (take_ai_head 5 0 rest ltac:(unfold is_u32; lia))|done|done|done].
Qed.

(** The decoder is below a new open node. *)
Definition node_open (k : nkind) (len : Z) (h : cbor_heap) (t : stree) (fr : list frame) (l : label) (rest : list Z) : Prop :=
  ∃ h' n, reach l h (Again (cbrk h) (cbrk h) rest) h' ∧ good h' (STree (cbrk h) []) ((addr t, kids_of t) :: fr) ∧ plenty h' ∧
    nodes h' !! cbrk h = Some n ∧ node_state k 0 len n ∧
    (∀ q, q ∈ zaddrs t fr → q ≠ addr t → unchanged h h' q) ∧ bumped h h' (addr t).

Lemma open_counted k mt n len h t fr cb rest :
  good h t fr → plenty h → 0 <= mt < 7 → is_u32 n →
  content_next (cbrk h) (addr t) mt (ai_of n) n rest = Again (cbrk h) (cbrk h) rest →
  node_state k 0 len (content_node mt (ai_of n) n rest (set_parent (addr t) (set_type (mt_trans mt) zero_node))) →
  node_open k len h t fr (Again cb (addr t) (head mt n ++ rest)) rest.
Proof using h0_ok.
  intros G Hp Hmt Hn Enext Hstate. unfold head. cbn [app]. unfold is_u32 in Hn. pose proof (ai_of_range n ltac:(lia)).
  destruct (content_reach h t fr cb mt (ai_of n) (more_of n ++ rest) n rest G Hp) as (h' & n' & Hr & G' & Hp' & Hn' & -> & Hf);
    [lia|lia|lia|by apply take_ai_head|].
  rewrite Enext in Hr. exists h'. by eexists.
Qed.

Lemma open_indef k h t fr cb len rest :
  good h t fr → plenty h → node_open (KIndef k) len h t fr (Again cb (addr t) ((32 * kind_mt k + AI_INDEF) :: rest)) rest.
Proof using h0_ok.
  intros G Hp. destruct (item_run h t fr cb (kind_mt k) AI_INDEF rest G Hp) as (h1 & G1 & Hp1 & Hc & Hun & Hbump & E);
    [destruct k; cbn; lia|unfold AI_INDEF; lia|destruct k; done|].
  replace (take_ai (kind_mt k) AI_INDEF rest) with (AiPush rest) in E by (by destruct k).
  rewrite (bind_Ok _ _ _ _ _ (mod_node_run _ _ _ _ Hc)) in E. set (n' := set_flags _ _) in E.
  destruct (good_free _ _ h0_ok _ _ _ (cbrk h) G) as [Hcz _]; [right; lia|].
  assert (∀ q, q ∈ zaddrs t fr → q ≠ cbrk h) as Hne by (intros q Hq ->; done).
  exists (with_nodes (<[cbrk h:=n']> (nodes h1)) h1), n'. split; [by apply reach_again|].
  split; [|split; [done|split; [apply lookup_insert_eq|split; [by destruct k|split]]]].
  - apply (good_mod _ _ h1 _ _ (cbrk h) _ (λ n, set_flags (Z.lor (c_flags n) CN_CBOR_FL_INDEF) n) G1);
      [apply (addr_in_z (STree _ []))|done|done|done|].
    intros E'. pose proof (good_inner _ _ _ _ _ G1 E'). done.
  - intros q Hq Hqa. eapply unchanged_trans; [by apply Hun|]. apply unchanged_insert. by apply Hne.
  - intros n Hn. destruct (Hbump n Hn) as (m & Hm & Hd). exists m. split; [|done]. cbn. rewrite lookup_insert_ne; [done|].
    intros E'. apply (Hne (addr t)); [apply addr_in_z|done].
Qed.

Lemma open_node_read k len h t fr cb rest :
  good h t fr → plenty h → kind_ok k len → 0 <= len < 2147483648 → 0 < len ∨ indef_kind k = true →
  node_open k len h t fr (Again cb (addr t) (intro k len ++ rest)) rest.
Proof using h0_ok.
  intros G Hp Hk Hlen Hpos. destruct k as [| |x|k]; cbn [intro indef_kind kind_ok] in *; [| | |by apply open_indef]; destruct Hpos as [Hpos|]; try done.
  - assert (is_u32 len) by (unfold is_u32; lia).
    apply open_counted; try done; cbn [content_next content_node Z.eqb Pos.eqb orb]; rewrite u32_id by done;
      rewrite (proj2 (Z.eqb_neq len 0)) by lia; done.
  - assert (is_u32 (len / 2)) by (unfold is_u32; Z.div_mod_to_equations; lia).
    assert (2 * (len / 2) = len) as E by (Z.div_mod_to_equations; lia).
    apply open_counted; try done; cbn [content_next content_node Z.eqb Pos.eqb orb]; rewrite E, u32_id by (unfold is_u32; lia);
      rewrite (proj2 (Z.eqb_neq len 0)) by lia; done.
  - destruct Hk as [_ Hx]. apply open_counted; try done. cbn. rewrite u32_id by done. done.
Qed.

Lemma node_state_bumped k d todo n n' :
  node_state k d todo n → data n' = (c_type n, c_flags n, c_v n, s32 (c_length n + 1)) → 0 <= d < 2147483647 → node_state k (d + 1) todo n'.
Proof using Type.
  unfold data, node_state. intros (H1 & H2 & H3) [= E1 E2 E3 E4] Hd. rewrite E1, E2, E3, E4, H1, H2, s32_id by lia. done.
Qed.

Lemma complete_run h t fr cb rest :
  good h t fr → addr t ≠ top → decode_complete top cb (addr t) rest h = Ok (Fill (addr t) (top_addr fr) rest, h).
Proof using Type.
  intros G Hne. destruct (good_node _ _ _ _ _ G) as (m & Hm & Hp & _). unfold decode_complete.
  rewrite (proj2 (Z.eqb_neq _ _) Hne), (bind_Ok _ _ _ _ _ (get_node_run _ _ _ Hm)), Hp. done.
Qed.

(** Whether the parent takes another item. *)
Definition go_on (k : nkind) (todo : Z) : bool := match k with KIndef _ => true | KTag _ => false | _ => negb (todo =? 0) end.

Lemma chunk_type k v n :
  chunk_of (KIndef k) v → rep_data v n →
  (bool_decide (open_type (KIndef k) = CN_CBOR_BYTES) || bool_decide (open_type (KIndef k) = CN_CBOR_TEXT)) &&
    negb (bool_decide (c_type n = open_type (KIndef k))) = false.
Proof using Type.
  intros Hc Hr. destruct k; cbn in *; try done; destruct v as [|text s| | |]; try done; destruct text; try done;
    destruct Hr as [-> _]; done.
Qed.

Lemma rep_root m t v : rep m t v → ∃ n, m !! addr t = Some n ∧ rep_data v n.
Proof using Type. destruct v; intros [Hn _]; exact Hn. Qed.

Lemma fill_counted h t' c ks fr rest n todo :
  good h t' ((c, ks) :: fr) → fr ≠ [] → nodes h !! c = Some n → c_flags n = CN_CBOR_FL_COUNT → c_v n = VWord (todo + 1) →
  0 <= todo < 2147483648 →
  let h' := with_nodes (<[c:=set_v (VWord todo) n]> (nodes h)) h in
  decode_fill top (addr t') c rest h = (if negb (todo =? 0) then Ok (Again (addr t') c rest, h') else decode_complete top (addr t') c rest h') ∧
  good h' t' ((c, ks) :: fr).
Proof using Type.
  intros G Hfr Hn Hf Hv Htodo. assert (c ≠ top) as Hct by (intros E; by destruct (good_outer _ _ _ _ _ _ _ G E)).
  destruct (open_node _ _ _ _ _ _ _ G) as (n0 & Hn0 & _ & Hin). unfold decode_fill. rewrite (bind_Ok _ _ _ _ _ (get_node_run _ _ _ Hn)).
  assert (is_indef n = false) as -> by (unfold is_indef; rewrite Hf; done).
  assert (is_count n = true) as -> by (unfold is_count; rewrite Hf; done). rewrite Hv. cbn [word_of].
  rewrite (bind_Ok (fret _) _ h _ h eq_refl). replace (u32 (todo + 1 - 1)) with todo by (unfold u32; rewrite Z.mod_small; lia).
  rewrite (bind_Ok _ _ _ _ _ (mod_node_run _ _ _ _ Hn)). split; [by destruct (todo =? 0)|].
  apply (good_mod _ _ h _ _ c n (set_v (VWord todo)) G); [done|done|done|cbn; eauto|done].
Qed.

Lemma fill_run k h t' c ks fr rest n d todo v :
  good h t' ((c, ks) :: fr) → fr ≠ [] → nodes h !! c = Some n → node_state k d (todo + 1) n → rep (nodes h) t' v → chunk_of k v →
  0 <= todo < 2147483648 →
  ∃ n', let h' := with_nodes (<[c:=n']> (nodes h)) h in
    decode_fill top (addr t') c rest h = (if go_on k todo then Ok (Again (addr t') c rest, h') else decode_complete top (addr t') c rest h') ∧
    good h' t' ((c, ks) :: fr) ∧ node_state k d todo n'.
Proof using Type.
  intros G Hfr Hn (Hty & Hlen & Hk) Hrep Hchunk Htodo. destruct (rep_root _ _ _ Hrep) as (m & Hm & Hd).
  assert (k = KArray ∨ k = KMap → ∃ n', let h' := with_nodes (<[c:=n']> (nodes h)) h in
    decode_fill top (addr t') c rest h = (if negb (todo =? 0) then Ok (Again (addr t') c rest, h') else decode_complete top (addr t') c rest h') ∧
    good h' t' ((c, ks) :: fr) ∧ node_state k d todo n') as Hcounted.
  { intros Hkk. destruct (fill_counted h t' c ks fr rest n todo G Hfr Hn) as [E G']; [destruct Hkk; subst k; apply Hk|destruct Hkk; subst k; apply Hk|done|].
    exists (set_v (VWord todo) n). split; [exact E|]. split; [exact G'|]. by destruct Hkk as [-> | ->]; destruct Hk. }
  destruct k as [| |x|ik]; [by apply Hcounted; left|by apply Hcounted; right| |]; exists n; rewrite insert_id, with_nodes_id by done;
    (split; [|done]); unfold decode_fill; rewrite (bind_Ok _ _ _ _ _ (get_node_run _ _ _ Hn)).
  - destruct Hk as [Hf Hv]. unfold is_indef, is_count. rewrite Hf. done.
  - assert (is_indef n = true) as -> by (unfold is_indef; rewrite Hk; done).
    rewrite (bind_Ok _ _ _ _ _ (get_node_run _ _ _ Hm)), Hty, (chunk_type ik v m) by done. done.
Qed.

Lemma inner_not_top h t fr : good h t fr → fr ≠ [] → addr t ≠ top.
Proof using Type. intros G Hfr E. apply Hfr. by eapply good_inner. Qed.

Lemma break_run ik d todo h c ks fr cb rest n :
  good h (STree c ks) fr → fr ≠ [] → nodes h !! c = Some n → node_state (KIndef ik) d todo n → kind_ok (KIndef ik) d →
  ∃ n', let h' := with_nodes (<[c:=n']> (nodes h)) h in
    decode_again top cb c (IB_BREAK :: rest) h = Ok (Fill c (top_addr fr) rest, h') ∧ good h' (STree c ks) fr ∧
    c_type n' = closed_type (KIndef ik) ∧ is_indef n' = true.
Proof using Type.
  intros G Hfr Hn (Hty & Hlen & Hf) Hok. pose proof (inner_not_top _ _ _ G Hfr) as Hct. cbn [addr] in Hct.
  assert (is_indef n = true) as Hi by (unfold is_indef; rewrite Hf; done).
  assert (∀ ty, good (with_nodes (<[c:=set_type ty n]> (nodes h)) h) (STree c ks) fr) as G'.
  { intros ty. apply (good_mod _ _ h _ _ c n (set_type ty) G); [apply (addr_in_z (STree c ks))|done|done| |done].
    unfold is_count. cbn. rewrite Hf. done. }
  assert (∀ ty, decode_complete top cb c rest (with_nodes (<[c:=set_type ty n]> (nodes h)) h) =
    Ok (Fill c (top_addr fr) rest, with_nodes (<[c:=set_type ty n]> (nodes h)) h)) as Hc.
  { intros ty. apply (complete_run _ (STree c ks)); [apply G'|done]. }
  unfold decode_again. rewrite Z.eqb_refl, (bind_Ok _ _ _ _ _ (get_node_run _ _ _ Hn)), Hi, Hty. cbn [negb].
  assert (set_type (c_type n) n = n) as Hsame by (by destruct n).
  assert (with_nodes (<[c:=n]> (nodes h)) h = h) as Hid by (rewrite insert_id, with_nodes_id by done; done).
  destruct ik; cbn [open_type closed_type] in *.
  - exists (set_type CN_CBOR_BYTES_CHUNKED n). rewrite (bind_Ok _ _ _ _ _ (mod_node_run _ _ _ _ Hn)), Hc. done.
  - exists (set_type CN_CBOR_TEXT_CHUNKED n). rewrite (bind_Ok _ _ _ _ _ (mod_node_run _ _ _ _ Hn)), Hc. done.
  - exists n. rewrite Hid. specialize (Hc (c_type n)). rewrite Hsame, Hid in Hc. rewrite Hc. done.
  - exists n. rewrite Hid. specialize (Hc (c_type n)). rewrite Hsame, Hid in Hc. rewrite Hlen.
    cbn [kind_ok] in Hok. rewrite Zodd_mod, Hok. cbn [Z.eqb]. rewrite Hc. done.
Qed.

(** The items of a node have been read up to [ds]. *)
Definition items_at (k : nkind) (ds : list cval) (todo : Z) (h : cbor_heap) (c : Z) (ks : list stree) (fr : list frame) : Prop :=
  good h (STree c ks) fr ∧ plenty h ∧ all2 (rep (nodes h)) ks ds ∧ ∃ n, nodes h !! c = Some n ∧ node_state k (zlen ds) todo n.

Definition node_read (k : nkind) (items : list cval) (h : cbor_heap) (c : Z) (fr : list frame) (l : label) (rest : list Z) : Prop :=
  ∃ ks' h', reach l h (Fill c (top_addr fr) rest) h' ∧ good h' (STree c ks') fr ∧ rep (nodes h') (STree c ks') (VNode k items) ∧
    plenty h' ∧ ∀ q, q ∈ faddrs fr → unchanged h h' q.

Lemma good_apart h c ks fr : good h (STree c ks) fr → (c ∉ addrss ks) ∧ (c ∉ faddrs fr) ∧ ∀ q, q ∈ addrss ks → q ∉ faddrs fr.
Proof using Type.
  intros G. pose proof (g_nodup _ _ _ _ _ G) as Hnd. unfold zaddrs in Hnd. cbn in Hnd. fold (addrss ks) in Hnd.
  apply NoDup_cons in Hnd as [Hc Hnd]. rewrite elem_of_app in Hc. apply NoDup_app in Hnd as (_ & Hd & _).
  split; [tauto|]. split; [tauto|done].
Qed.

(** Counted nodes end with their last item. *)
Lemma closed_counted k ds h c ks n :
  indef_kind k = false → nodes h !! c = Some n → node_state k (zlen ds) 0 n → all2 (rep (nodes h)) ks ds → rep (nodes h) (STree c ks) (VNode k ds).
Proof using Type.
  intros Hk Hn (Hty & Hlen & Hst) Hks. split; [|exact Hks]. exists n. split; [done|].
  destruct k; try done; cbn; unfold is_indef; destruct Hst as [Hf Hv]; rewrite Hf, Hty; done.
Qed.

(** One more item, up to the end of the node. *)
Lemma item_step k v ds todo h c ks fr cb inp :
  items_at k ds (todo + 1) h c ks fr → fr ≠ [] → chunk_of k v → 0 <= todo → zlen ds + todo < 2147483647 →
  item_read v h (STree c ks) fr (Again cb c inp) (drop (length (enc v)) inp) →
  let rest := drop (length (enc v)) inp in
  ∃ t' h', items_at k (ds ++ [v]) todo h' c (ks ++ [t']) fr ∧ (∀ q, q ∈ faddrs fr → unchanged h h' q) ∧
    reach (Again cb c inp) h (if go_on k todo then Again (addr t') c rest else Fill c (top_addr fr) rest) h'.
Proof using h0_ok.
  intros (G & Hp & Hks & n & Hn & Hst) Hfr Hchunk Htodo Hsum (t' & h1 & Hr & G1 & Hrep & Hp1 & Hun & Hbump). cbn [addr kids_of] in *.
  set (rest := drop _ inp) in *. destruct (Hbump n Hn) as (n1 & Hn1 & Hd1). pose proof (zlen_nonneg ds).
  pose proof (node_state_bumped _ _ _ _ _ Hst Hd1 ltac:(lia)) as Hst1.
  destruct (fill_run k h1 t' c ks fr rest n1 _ todo v G1 Hfr Hn1 Hst1 Hrep Hchunk ltac:(lia)) as (n2 & E & G2 & Hst2).
  set (h2 := with_nodes _ h1) in *. assert (c ≠ top) as Hct by (intros E'; by destruct (good_outer _ _ _ _ _ _ _ G1 E')).
  pose proof (good_close _ _ _ _ _ _ _ G2 Hct) as G3. destruct (good_apart _ _ _ _ G3) as (Hc1 & Hc2 & _).
  rewrite addrss_app, addrss_one, elem_of_app in Hc1. destruct (good_apart _ _ _ _ G) as (Hk1 & Hk2 & Hk3).
  assert (∀ q, q ∈ addrss ks ∨ q ∈ faddrs fr → unchanged h h2 q) as Hun2.
  { intros q Hq. assert (q ≠ c) as Hqc by (intros ->; tauto). eapply unchanged_trans; [apply Hun|by apply unchanged_insert]; [|done].
    apply elem_of_app. destruct Hq as [Hq|Hq]; [left; apply elem_of_cons; by right|by right]. }
  exists t', h2. split; [|split].
  - split; [done|]. split; [done|]. split.
    + apply all2_snoc; [eapply all2_unchanged; [|exact Hks]; auto|]. eapply rep_unchanged; [|exact Hrep].
      intros q Hq. apply unchanged_insert. intros ->. tauto.
    + exists n2. split; [apply lookup_insert_eq|]. rewrite zlen_app. exact Hst2.
  - auto.
  - eapply reach_trans; [exact Hr|]. apply reach_fill. rewrite E. destruct (go_on k todo); [done|].
    rewrite (complete_run h2 (STree c (ks ++ [t'])) fr) by done. done.
Qed.

Definition reads (v : cval) : Prop :=
  item_ok v → ∀ h t fr cb rest, good h t fr → plenty h → item_read v h t fr (Again cb (addr t) (enc v ++ rest)) rest.

Lemma node_read_step l h l' h' k items c fr rest :
  reach l h l' h' → (∀ q, q ∈ faddrs fr → unchanged h h' q) → node_read k items h' c fr l' rest → node_read k items h c fr l rest.
Proof using Type.
  intros Hr Hun (ks' & h2 & Hr2 & G2 & Hrep & Hp & Hun2). exists ks', h2. split; [by eapply reach_trans|].
  do 3 (split; [done|]). intros q Hq. eapply unchanged_trans; [by apply Hun|by apply Hun2].
Qed.

(** What is left of a node whose items are all read. *)
Lemma node_end k ds h c ks fr cb rest :
  items_at k ds 0 h c ks fr → fr ≠ [] → kind_ok k (zlen ds) →
  node_read k ds h c fr (if indef_kind k then Again cb c (outro k ++ rest) else Fill c (top_addr fr) (outro k ++ rest)) rest.
Proof using Type.
  intros (G & Hp & Hks & n & Hn & Hst) Hfr Hok. destruct (indef_kind k) eqn:Ek.
  - destruct k as [| | |ik]; try done. cbn [outro app].
    destruct (break_run ik (zlen ds) 0 h c ks fr cb rest n G Hfr Hn Hst Hok) as (n' & E & G' & Hty & Hi).
    destruct (good_apart _ _ _ _ G) as (Hc1 & Hc2 & _).
    exists ks, (with_nodes (<[c:=n']> (nodes h)) h). split; [by apply reach_again|]. split; [done|]. split; [|split; [done|]].
    + split; [exists n'; split; [apply lookup_insert_eq|done]|]. eapply all2_unchanged; [|exact Hks].
      intros q Hq. apply unchanged_insert. intros ->. done.
    + intros q Hq. apply unchanged_insert. intros ->. done.
  - exists ks, h. replace (outro k) with (@nil Z) by (by destruct k). split; [exists 0%nat; done|]. split; [done|].
    split; [by apply (closed_counted _ _ _ _ _ n)|]. split; [done|]. intros q _. apply unchanged_refl.
Qed.

Lemma items_read k items : Forall reads items → ∀ ds ks h c fr cb rest,
  items_at k ds (zlen items) h c ks fr → fr ≠ [] → zlen ds + zlen items < 2147483648 →
  all (λ v, chunk_of k v ∧ item_ok v) items → items ≠ [] ∨ indef_kind k = true → kind_ok k (zlen ds + zlen items) →
  node_read k (ds ++ items) h c fr (Again cb c (concat (map enc items) ++ outro k ++ rest)) rest.
Proof using h0_ok.
  induction 1 as [|v items Hv _ IH]; intros ds ks h c fr cb rest Hat Hfr Hsum Hall Hne Hok.
  - destruct Hne as [?|Hi]; [done|]. rewrite app_nil_r. cbn [map concat app]. change (zlen (@nil cval)) with 0 in *. rewrite Z.add_0_r in Hok.
    pose proof (node_end k ds h c ks fr cb rest Hat Hfr Hok) as H. rewrite Hi in H. exact H.
  - destruct Hall as [[Hchunk Hiok] Hall]. rewrite zlen_more in *. pose proof (zlen_nonneg items). cbn [map concat]. rewrite <- !app_assoc.
    set (rest' := concat (map enc items) ++ outro k ++ rest).
    pose proof Hat as (G & Hp & _). pose proof (Hv Hiok h (STree c ks) fr cb rest' G Hp) as Hread. cbn [addr] in Hread.
    assert (drop (length (enc v)) (enc v ++ rest') = rest') as Edrop by apply drop_app_length. rewrite <- Edrop in Hread at 2.
    destruct (item_step k v ds (zlen items) h c ks fr cb (enc v ++ rest') Hat Hfr Hchunk ltac:(lia) ltac:(lia) Hread) as (t' & h' & Hat' & Hun & Hr).
    rewrite Edrop in Hr. eapply node_read_step; [exact Hr|exact Hun|]. rewrite cons_middle, app_assoc.
    destruct items as [|w items].
    + cbn [map concat app] in rest'. change (zlen (@nil cval)) with 0 in *. rewrite app_nil_r.
      assert (kind_ok k (zlen (ds ++ [v]))) as Hok' by (rewrite zlen_app; exact Hok).
      pose proof (node_end k (ds ++ [v]) h' c (ks ++ [t']) fr (addr t') rest Hat' Hfr Hok') as Hend. by destruct k.
    + assert (go_on k (zlen (w :: items)) = true) as ->.
      { rewrite zlen_more. pose proof (zlen_nonneg items). pose proof (zlen_nonneg ds).
        destruct k; cbn; [rewrite (proj2 (Z.eqb_neq _ 0)) by lia; done..| |done].
        destruct Hok as [Hok _]. rewrite zlen_more in Hok. lia. }
      eapply IH; [exact Hat'|done|rewrite zlen_app; change (zlen [v]) with 1; lia|done|by left|].
      rewrite zlen_app. change (zlen [v]) with 1. replace (zlen ds + 1 + zlen (w :: items)) with (zlen ds + (zlen (w :: items) + 1)) by lia. done.
Qed.

Lemma read_node k items : Forall reads items → reads (VNode k items).
Proof using h0_ok.
  intros Hitems (Hlen & Hok & Hall) h t fr cb rest G Hp. cbn [enc]. fold enc. pose proof (zlen_nonneg items).
  assert ((items = [] ∧ (k = KArray ∨ k = KMap)) ∨ (items ≠ [] ∨ indef_kind k = true)) as [[-> Hk]|Hne']; [|by apply read_empty|].
  { destruct items as [|v items]; [|by right; left]. destruct k as [| |x|]; [by left; auto|by left; auto| |by right; right]. destruct Hok as [Hok _]. done. }
  rewrite <- !app_assoc.
  destruct (open_node_read k (zlen items) h t fr cb (concat (map enc items) ++ outro k ++ rest) G Hp Hok) as (h1 & n & Hr & G1 & Hp1 & Hn & Hst & Hun & Hbump);
    [lia|destruct Hne' as [Hne'|?]; [left|by right]; destruct items; [done|rewrite zlen_more; pose proof (zlen_nonneg items); lia]|].
  destruct (items_read k items Hitems [] [] h1 (cbrk h) ((addr t, kids_of t) :: fr) (cbrk h) rest) as (ks' & h' & Hr' & G' & Hrep & Hp' & Hun');
    [by split; [|split; [|split; [|eauto]]]|done|change (zlen (@nil cval)) with 0; lia|done|done|exact Hok|].
  exists (STree (cbrk h) ks'), h'. split; [by eapply reach_trans|]. split; [done|]. split; [exact Hrep|]. split; [done|].
  assert (∀ q, q ∈ zaddrs t fr → q ∈ faddrs ((addr t, kids_of t) :: fr)) as Hin.
  { intros q Hq. apply in_faddrs. destruct t as [a ks]. apply elem_of_app in Hq as [Hq|Hq]; [|tauto]. apply elem_of_cons in Hq. tauto. }
  split.
  - intros q Hq Hqa. eapply unchanged_trans; [by apply Hun|apply Hun', Hin, Hq].
  - intros m Hm. destruct (Hbump m Hm) as (m1 & Hm1 & E1). destruct (Hun' (addr t) (Hin _ (addr_in_z t fr)) m1 Hm1) as (m2 & Hm2 & E2).
    exists m2. split; [done|congruence].
Qed.

Lemma read_item v : reads v.
Proof using h0_ok.
  induction v as [neg n|text s|n|c|k items IH] using cval_rect'; [| | | |by apply read_node]; intros Hok h t fr cb rest G Hp;
    [by apply read_int|by apply read_string|by apply read_simple|by apply read_const].
Qed.
End Decode.

Lemma decode_loop_mono top f l h r : decode_loop f top l h = Ok r → ∀ g, decode_loop (f + g) top l h = Ok r.
Proof.
  revert l h. induction f as [|f IH]; [done|]. intros l h E g. cbn [Nat.add decode_loop] in *.
  destruct l; try exact E; apply fbind_Ok in E as (l' & h' & E1 & E2); rewrite (bind_Ok _ _ _ _ _ E1); by apply IH.
Qed.

Lemma ends_unchanged h1 h' p top q :
  fbind (mod_node p (set_parent NULL)) (λ _, CN_FREE top) h1 = Ok (tt, h') → q ≠ top → unchanged h1 h' q.
Proof.
  intros E Hq n Hn. destruct (nodes h1 !! p) as [m|] eqn:Em.
  2:{ unfold mod_node, get_node, fbind in E. rewrite Em in E. done. }
  rewrite (bind_Ok _ _ _ _ _ (mod_node_run _ _ _ _ Em)) in E. set (h2 := with_nodes _ h1) in E.
  destruct (nodes h2 !! top) as [k|] eqn:Ek; [|unfold CN_FREE, get_node, fbind in E; rewrite Ek in E; done].
  rewrite (free_run top k h2 Ek) in E. injection E as <-. cbn. rewrite lookup_delete_ne by done.
  destruct (decide (q = p)) as [->|Hne]; lk; [|eauto]. assert (m = n) as -> by congruence. eexists. split; [done|]. done.
Qed.

(** A run that reaches the end of the item is a run of cn_cbor_decode. *)
Lemma decode_reached buf h h1 t :
  heap_ok h → good h (cbrk h) h1 t [(cbrk h, [])] →
  reach (cbrk h) (Again NULL (cbrk h) buf)
    {| nodes := <[cbrk h := set_type CN_CBOR_INVALID zero_node]> (nodes h); cbrk := cbrk h + 1; coks := coks h |} (Fill (addr t) (cbrk h) []) h1 →
  decode_loop (decode_fuel buf) (cbrk h) (Again NULL (cbrk h) buf)
    {| nodes := <[cbrk h := set_type CN_CBOR_INVALID zero_node]> (nodes h); cbrk := cbrk h + 1; coks := coks h |} = Ok (Done (addr t), h1).
Proof.
  intros Hok G [k Hk]. destruct (decode_run buf h Hok) as (l & h2 & w & E & _). pose proof (decode_loop_mono _ _ _ _ _ E (k + 2)) as E1.
  assert (decode_fill (cbrk h) (addr t) (cbrk h) [] h1 = Ok (Done (addr t), h1)) as Ef.
  { destruct (g_top _ _ _ _ _ G) as (n & Hn & Hf). unfold decode_fill. rewrite (bind_Ok _ _ _ _ _ (get_node_run _ _ _ Hn)).
    destruct (flags_0 n Hf) as [-> ->]. unfold decode_complete. rewrite Z.eqb_refl. done. }
  replace (decode_fuel buf + (k + 2))%nat with (k + S (S (decode_fuel buf)))%nat in E1 by lia. rewrite Hk in E1.
  cbn [decode_loop] in E1. rewrite (bind_Ok _ _ _ _ _ Ef) in E1. unfold fret in E1. injection E1 as <- <-. exact E.
Qed.

Lemma decode_enc v h : heap_ok h → plenty h → item_ok v →
  ∃ t h', cn_cbor_decode (enc v) h = Ok ((addr t, None), h') ∧ new_tree h t h' ∧ rep (nodes h') t v.
Proof.
  intros Hok Hp Hv. destruct (read_item h (cbrk h) Hok v Hv _ (STree (cbrk h) []) [] NULL [] (good_start h Hok) Hp) as (t & h1 & Hr & G & Hrep & _).
  rewrite app_nil_r in Hr. cbn [addr kids_of] in *.
  destruct (decode_done (enc v) h t h1 Hok G (decode_reached _ _ _ _ Hok G Hr)) as (h' & E & Ht & Eend).
  exists t, h'. split; [done|]. split; [done|]. eapply rep_unchanged; [|exact Hrep]. intros q Hq.
  eapply ends_unchanged; [exact Eend|]. intros ->. pose proof (g_nodup _ _ _ _ _ G) as Hnd.
  apply NoDup_app in Hnd as (_ & Hd & _). apply (Hd _ Hq). apply in_faddrs. by left.
Qed.

(** ** Writing *)

Definition put (d : list Z) (ws : cn_write_state) : cn_write_state :=
  {| ws_buf := blit (ws_offset ws) d (ws_buf ws); ws_offset := ws_offset ws + zlen d; ws_size := ws_size ws |}.

(** The writer stands in its buffer, or has given up. *)
Definition writer_ok (ws : cn_write_state) : Prop :=
  ws_size ws <= zlen (ws_buf ws) ∧ (ws_offset ws = -1 ∨ 0 <= ws_offset ws < ws_size ws).
(** [d] was written, or the writer has given up because [d] and one byte more do not fit. *)
Definition wrote (d : list Z) (ws ws' : cn_write_state) : Prop :=
  zlen (ws_buf ws') = zlen (ws_buf ws) ∧ ws_size ws' = ws_size ws ∧
  if decide (ws_offset ws = -1) then ws_offset ws' = -1
  else if decide (ws_offset ws + zlen d < ws_size ws) then ws' = put d ws else ws_offset ws' = -1.
Definition writes (d : list Z) (ws : cn_write_state) (r : result cn_write_state) : Prop := ∃ ws', r = Ok ws' ∧ wrote d ws ws'.

Lemma wrote_ok d ws ws' : writer_ok ws → wrote d ws ws' → writer_ok ws'.
Proof.
  intros [Hs Ho] (Hb & Hz & Hw). split; [congruence|]. pose proof (zlen_nonneg d). repeat case_decide; [by left| |by left].
  right. rewrite Hw. cbn. lia.
Qed.

Lemma blit_app (off : Z) (d e l : list Z) :
  0 <= off → off + zlen d + zlen e <= zlen l → blit (off + zlen d) e (blit off d l) = blit off (d ++ e) l.
Proof.
  intros Ho Hl. rewrite (zsub_split off (zlen d + zlen e) l) by (pose proof (zlen_nonneg d); pose proof (zlen_nonneg e); lia).
  pose proof (zlen_nonneg d). pose proof (zlen_nonneg e). set (a := take _ l). set (m := zsub _ _ l). set (z := drop _ l).
  assert (zlen a = off) as Ha by (unfold a, zlen in *; rewrite length_take; lia).
  assert (zlen m = zlen d + zlen e) as Hm by (apply zlen_zsub; lia).
  rewrite (blit_app_mid a m z (d ++ e)) by (rewrite ?zlen_app; lia).
  rewrite <- (take_drop (length d) m), <- app_assoc. assert (zlen (take (length d) m) = zlen d) as H1
    by (unfold zlen in *; rewrite length_take; lia).
  rewrite (blit_app_mid a _ _ d) by lia. rewrite (app_assoc a).
  rewrite (blit_app_mid (a ++ d) (drop (length d) m) z e); [by rewrite <- !app_assoc|rewrite zlen_app; lia|].
  unfold zlen in *. rewrite length_drop. lia.
Qed.

Lemma zsub_blit (off : Z) (d l : list Z) : 0 <= off → off + zlen d <= zlen l → zsub off (zlen d) (blit off d l) = d.
Proof. intros Ho Hl. unfold blit. apply zsub_app_mid; [|done]. unfold zlen in *. rewrite length_take. lia. Qed.

Lemma put_app d e ws : 0 <= ws_offset ws → ws_offset ws + zlen d + zlen e <= zlen (ws_buf ws) → put e (put d ws) = put (d ++ e) ws.
Proof. intros Ho Hl. unfold put. cbn. rewrite blit_app by done. rewrite zlen_app. f_equal. lia. Qed.

Lemma wrote_app d e ws1 ws2 ws3 : writer_ok ws1 → wrote d ws1 ws2 → wrote e ws2 ws3 → wrote (d ++ e) ws1 ws3.
Proof.
  intros [Hs Ho] (B1 & S1 & W1) (B2 & S2 & W2). split; [congruence|]. split; [congruence|]. rewrite zlen_app.
  pose proof (zlen_nonneg d). pose proof (zlen_nonneg e). destruct (decide (ws_offset ws1 = -1)).
  - rewrite decide_True in W2 by done. done.
  - destruct (decide (ws_offset ws1 + zlen d < ws_size ws1)) as [Hd|Hd].
    + subst ws2. cbn [ws_offset put ws_size] in W2. rewrite decide_False in W2 by lia. rewrite Z.add_assoc. case_decide; [|done].
      rewrite W2. apply put_app; lia.
    + rewrite decide_True in W2 by done. rewrite decide_False by lia. done.
Qed.

Lemma wrote_nil ws : writer_ok ws → wrote [] ws ws.
Proof.
  intros [Hs Ho]. split; [done|]. split; [done|]. change (zlen []) with 0. repeat case_decide; [done| |lia].
  unfold put, blit. cbn [app length]. rewrite Nat.add_0_r, take_drop, Z.add_0_r. by destruct ws.
Qed.

Lemma wrote_failed d e ws ws' : writer_ok ws → wrote d ws ws' → ws_offset ws' = -1 → wrote (d ++ e) ws ws'.
Proof.
  intros [Hs Ho] (B & Hz & W) Hf. split; [done|]. split; [done|]. rewrite zlen_app. pose proof (zlen_nonneg e). pose proof (zlen_nonneg d).
  destruct (decide _); [done|]. destruct (decide (_ + zlen d < _)) as [Hd|Hd]; [rewrite W in Hf; cbn in Hf; lia|].
  rewrite decide_False by lia. done.
Qed.

Lemma write_ensured_writes sz d ws : zlen d = sz → writer_ok ws → writes d ws (write_ensured sz d ws).
Proof.
  intros <- [Hs Ho]. pose proof (zlen_nonneg d). unfold write_ensured, ensure_writable, writes, wrote.
  destruct (Z.ltb_spec (ws_offset ws) 0).
  - cbn [orb negb]. eexists. split; [reflexivity|]. cbn. rewrite decide_True by lia. done.
  - rewrite Z.geb_leb. cbn [orb]. destruct (Z.leb_spec (ws_size ws) (ws_offset ws + zlen d)); cbn [negb].
    + eexists. split; [reflexivity|]. rewrite !decide_False by lia. done.
    + unfold write_bytes. rewrite store_Ok by lia. cbn [rbind]. eexists. split; [reflexivity|].
      rewrite decide_False, decide_True by lia. cbn. rewrite zlen_blit by lia. done.
Qed.

Lemma write_positive_writes typ mt n ws :
  _xlate typ = Some (32 * mt) → 0 <= mt < 8 → is_u32 n → writer_ok ws → writes (head mt n) ws (_write_positive typ n ws).
Proof.
  intros Hx Hmt Hn Hw. unfold is_u32 in Hn. unfold _write_positive. rewrite Hx. rewrite (proj2 (Z.eqb_neq _ 255)) by lia. unfold head, ai_of, more_of.
  destruct (Z.ltb_spec n 24); [rewrite ib_lor by lia; by apply write_ensured_writes|].
  rewrite !ib_lor by lia. destruct (Z.ltb_spec n 256); [by apply write_ensured_writes|].
  destruct (Z.ltb_spec n 65536); [rewrite hton16p_bytes; by apply write_ensured_writes|].
  rewrite (proj2 (Z.ltb_lt n 4294967296)) by lia. rewrite hton32p_bytes. by apply write_ensured_writes.
Qed.

(** What a visit writes: a leaf, or the head of a node. *)
Definition front (v : cval) : list Z := match v with VNode k items => intro k (zlen items) | _ => enc v end.

Lemma visit_string text s n ws :
  item_ok (VString text s) → rep_data (VString text s) n → writer_ok ws → writes (enc (VString text s)) ws (_encoder_visitor n ws).
Proof.
  intros [Hs Hlen] (Hty & Hl & (rest & Hv) & Hi) Hw. pose proof (zlen_nonneg s). set (mt := if text then 3 else 2).
  assert (is_u32 (zlen s)) as Hu by (unfold is_u32; lia).
  assert (writes (head mt (zlen s)) ws (_write_positive (c_type n) (c_length n mod 2 ^ 64) ws)) as (ws1 & E1 & W1).
  { rewrite Hl, Hty, Z.mod_small by lia. apply write_positive_writes; [by destruct text|destruct text; cbn; lia|done|done]. }
  assert (_encoder_visitor n ws = rbind (_write_positive (c_type n) (c_length n mod 2 ^ 64) ws) (λ ws,
      if ws_offset ws <? 0 then Ok ws
      else if ensure_writable (c_length n) ws then rbind (str_value (c_v n) (c_length n)) (λ s, write_bytes s ws)
      else Ok (set_offset (-1) ws))) as -> by (unfold _encoder_visitor; rewrite Hty; by destruct text).
  rewrite E1. cbn [rbind enc]. fold mt. pose proof (wrote_ok _ _ _ Hw W1) as Hw1. destruct (Z.ltb_spec (ws_offset ws1) 0).
  { exists ws1. split; [done|]. eapply wrote_failed; [done|exact W1|]. destruct Hw1 as [_ ?]. lia. }
  rewrite Hv. cbn [str_value]. rewrite Hl, slice_Ok by (rewrite ?zlen_app; pose proof (zlen_nonneg rest); lia). cbn [rbind].
  assert (zsub 0 (zlen s) (s ++ rest) = s) as -> by (apply (zsub_app_mid [] s rest); done).
  destruct (write_ensured_writes (zlen s) s ws1 eq_refl Hw1) as (ws2 & E2 & W2). exists ws2. split; [exact E2|]. by eapply wrote_app.
Qed.

Lemma s32_lnot k : 0 <= k < 2147483648 → s32 (u32 (Z.lnot k)) = Z.lnot k.
Proof. intros Hk. unfold Z.lnot, u32, s32. Z.div_mod_to_equations. lia. Qed.

Lemma visitor_writes v n ws : item_ok v → rep_data v n → writer_ok ws → writes (front v) ws (_encoder_visitor n ws).
Proof.
  intros Hv Hr Hw. destruct v as [neg k|text s|k|c|k items]; cbn [front].
  - destruct Hr as (Hty & Hval & Hi). unfold _encoder_visitor. rewrite Hty, Hval. cbn [item_ok enc] in *. destruct neg; cbn [word_value rbind].
    + rewrite s32_lnot by done. unfold Z.lnot. rewrite (proj2 (Z.ltb_lt (Z.pred (- k)) 0)) by lia.
      replace (Z.pred (- Z.pred (- k))) with k by lia. apply write_positive_writes; [done|lia|unfold is_u32; lia|done].
    + rewrite u32_id by (unfold is_u32; lia). apply write_positive_writes; [done|lia|unfold is_u32; lia|done].
  - by apply visit_string.
  - destruct Hr as (Hty & Hval & Hi). unfold _encoder_visitor. rewrite Hty, Hval. cbn [item_ok enc word_value rbind] in *.
    apply write_positive_writes; [done|lia|unfold is_u32; lia|done].
  - destruct Hr as (Hty & Hi). unfold _encoder_visitor. rewrite Hty. cbn [item_ok enc] in *.
    assert (c = 20 ∨ c = 21 ∨ c = 22 ∨ c = 23) as [->|[->|[->| ->]]] by lia; by apply (write_ensured_writes 1).
  - destruct Hr as (Hty & Hi & Hk). destruct Hv as (Hlen & Hok & _). pose proof (zlen_nonneg items). unfold _encoder_visitor. rewrite Hty.
    destruct k as [| |x|[]]; cbn [closed_type open_type intro indef_kind kind_ok] in *;
      rewrite ?Hi; try (by apply (write_ensured_writes 1)).
    + rewrite Hk, Z.mod_small by lia. apply write_positive_writes; [done|lia|unfold is_u32; lia|done].
    + rewrite Hk, Z.quot_div_nonneg, Z.mod_small by (Z.div_mod_to_equations; lia).
      apply write_positive_writes; [done|lia|unfold is_u32; Z.div_mod_to_equations; lia|done].
    + rewrite Hk. cbn [word_value rbind]. apply write_positive_writes; [done|lia|apply Hok|done].
Qed.

(** *** The walk along the links *)

Definition leave_next (par nxt : Z) (f : nat) (ws : cn_write_state) : FW cbor_heap cn_write_state :=
  if negb (nxt =? NULL) then _visit f (Visit nxt) ws else if negb (par =? NULL) then _visit f (Leave par) ws else fret ws.

Definition walks (v : cval) : Prop := ∀ t h par nxt ws,
  srep (nodes h) par nxt t → rep (nodes h) t v → item_ok v → writer_ok ws →
  ∃ ws', wrote (enc v) ws ws' ∧
    ∀ f, _visit (2 * length (addrs t) + f) (Visit (addr t)) ws h = leave_next par nxt f ws' h.

Lemma leave_run h p n f ws ws' :
  nodes h !! p = Some n → (if is_indef n then _encoder_breaker ws else Ok ws) = Ok ws' →
  _visit (S f) (Leave p) ws h = leave_next (c_parent n) (c_next n) f ws' h.
Proof.
  intros Hn E. cbn [_visit]. rewrite (bind_Ok _ _ _ _ _ (get_node_run _ _ _ Hn)).
  assert ((if is_indef n then flift (_encoder_breaker ws) else fret ws) h = Ok (ws', h)) as E'.
  { destruct (is_indef n); [unfold flift; rewrite E; done|by injection E as ->]. }
  rewrite (bind_Ok _ _ _ _ _ E'). done.
Qed.

Lemma visit_run h p n f ws ws' :
  nodes h !! p = Some n → _encoder_visitor n ws = Ok ws' →
  _visit (S f) (Visit p) ws h = _visit f (if first_child n =? NULL then Leave p else Visit (first_child n)) ws' h.
Proof.
  intros Hn E. cbn [_visit]. rewrite (bind_Ok _ _ _ _ _ (get_node_run _ _ _ Hn)).
  assert (flift (_encoder_visitor n ws) h = Ok (ws', h)) as E' by (unfold flift; rewrite E; done). rewrite (bind_Ok _ _ _ _ _ E'). done.
Qed.

Lemma walk_siblings items : Forall walks items → ∀ ks h p ws,
  ks ≠ [] → p ≠ NULL → sreps (nodes h) p NULL ks → all2 (rep (nodes h)) ks items → all item_ok items → writer_ok ws →
  ∃ ws', wrote (concat (map enc items)) ws ws' ∧
    ∀ f, _visit (2 * length (addrss ks) + f) (Visit (first_addr ks)) ws h = _visit f (Leave p) ws' h.
Proof.
  induction 1 as [|v items Hv _ IH]; intros [|k ks] h p ws Hne Hp Hs Hr Hok Hw; try done.
  destruct Hs as [Hk Hks], Hr as [Hrk Hrks], Hok as [Hvok Hok]. cbn [first_addr map concat].
  destruct (Hv k h p _ ws Hk Hrk Hvok Hw) as (ws1 & W1 & E1). pose proof (wrote_ok _ _ _ Hw W1) as Hw1.
  change (addrss (k :: ks)) with (addrs k ++ addrss ks). rewrite length_app. destruct ks as [|k' ks].
  - destruct items; [|done]. exists ws1. cbn [map concat]. rewrite app_nil_r. split; [done|]. intros f. change (addrss []) with (@nil Z).
    cbn [length next_addr] in *. rewrite Nat.add_0_r, E1. unfold leave_next. cbn [Z.eqb NULL negb]. rewrite (proj2 (Z.eqb_neq p NULL)) by done. done.
  - destruct (IH (k' :: ks) h p ws1) as (ws2 & W2 & E2); [done..|]. exists ws2. split; [by eapply wrote_app|]. intros f.
    replace (2 * (length (addrs k) + length (addrss (k' :: ks))) + f)%nat
      with (2 * length (addrs k) + (2 * length (addrss (k' :: ks)) + f))%nat by lia.
    rewrite E1. unfold leave_next. cbn [next_addr]. assert (addr k' ≠ NULL) as Hk' by (destruct Hks as [Hk' _]; by eapply srep_addr).
    rewrite (proj2 (Z.eqb_neq _ NULL)) by done. cbn [negb]. exact (E2 f).
Qed.

Lemma all_items_ok k items : all (λ v, chunk_of k v ∧ item_ok v) items → all item_ok items.
Proof. induction items as [|v items IH]; [done|]. intros [[_ Hv] Hall]. split; [done|by apply IH]. Qed.

Lemma break_writes k n ws :
  is_indef n = indef_kind k → writer_ok ws → writes (outro k) ws (if is_indef n then _encoder_breaker ws else Ok ws).
Proof.
  intros -> Hw. destruct k; cbn [indef_kind outro]; try (eexists; split; [reflexivity|by apply wrote_nil]).
  by apply (write_ensured_writes 1).
Qed.

Lemma walk_leaf v : (match v with VNode _ items => items = [] | _ => True end) → walks v.
Proof.
  intros Hleaf t h par nxt ws Hs Hr Hok Hw. destruct (rep_root _ _ _ Hr) as (n & Hn & Hd).
  destruct t as [p ks]. assert (ks = []) as ->.
  { destruct v as [| | | |k items]; destruct Hr as [_ Hk]; try exact Hk. subst items. destruct ks; done. }
  destruct Hs as (Hp & (n' & Hn' & L1 & L2 & L3 & L4) & _). cbn [addr] in *. assert (n' = n) as -> by congruence.
  destruct (visitor_writes v n ws Hok Hd Hw) as (ws1 & E1 & W1). pose proof (wrote_ok _ _ _ Hw W1) as Hw1.
  assert (∃ ws2, (if is_indef n then _encoder_breaker ws1 else Ok ws1) = Ok ws2 ∧ wrote (enc v) ws ws2) as (ws2 & E2 & W2).
  { destruct v as [| | | |k items].
    1-4: exists ws1; split; [|done]. 1: destruct Hd as (_ & _ & ->); done. 1: destruct Hd as (_ & _ & _ & ->); done.
    1: destruct Hd as (_ & _ & ->); done. 1: destruct Hd as (_ & ->); done.
    subst items. destruct Hd as (_ & Hi & _). destruct (break_writes k n ws1 Hi Hw1) as (ws2 & E2 & W2). exists ws2. split; [done|].
    cbn [enc map concat app]. by eapply wrote_app. }
  exists ws2. split; [done|]. intros f. cbn [addrs map concat length Nat.mul Nat.add addr].
  rewrite (visit_run h p n _ ws ws1 Hn E1), L3. cbn [first_addr Z.eqb NULL].
  rewrite (leave_run h p n f ws1 ws2 Hn E2), L1, L2. done.
Qed.

Lemma walk_node k items : Forall walks items → walks (VNode k items).
Proof.
  intros Hitems. destruct items as [|v items]; [by apply walk_leaf|]. intros t h par nxt ws Hs Hr Hok Hw.
  destruct (rep_root _ _ _ Hr) as (n & Hn & Hd). destruct Hr as [_ Hks].
  destruct t as [p ks]. cbn [addr kids_of] in *. destruct ks as [|k' ks]; [done|].
  destruct Hs as (Hp & (n' & Hn' & L1 & L2 & L3 & L4) & Hsk). assert (n' = n) as -> by congruence.
  destruct (visitor_writes _ n ws Hok Hd Hw) as (ws1 & E1 & W1). pose proof (wrote_ok _ _ _ Hw W1) as Hw1.
  assert (all item_ok (v :: items)) as Hall by (destruct Hok as (_ & _ & Hall); by eapply all_items_ok).
  destruct (walk_siblings _ Hitems (k' :: ks) h p ws1) as (ws2 & W2 & E2); [done..|]. pose proof (wrote_ok _ _ _ Hw1 W2) as Hw2.
  destruct Hd as (_ & Hi & _). destruct (break_writes k n ws2 Hi Hw2) as (ws3 & E3 & W3).
  exists ws3. split.
  - cbn [enc]. fold enc. eapply wrote_app; [done|exact W1|]. by eapply wrote_app.
  - intros f. cbn [addrs length addr]. fold (addrss (k' :: ks)).
    replace (2 * S (length (addrss (k' :: ks))) + f)%nat with (S (2 * length (addrss (k' :: ks)) + S f)) by lia.
    rewrite (visit_run h p n _ ws ws1 Hn E1), L3.
    assert (first_addr (k' :: ks) ≠ NULL) as Hk' by (destruct Hsk as [Hk' _]; by eapply srep_addr).
    rewrite (proj2 (Z.eqb_neq _ NULL)) by done. rewrite E2, (leave_run h p n f ws2 ws3 Hn E3), L1, L2. done.
Qed.

Lemma walk_item v : walks v.
Proof. induction v using cval_rect'; [by apply walk_leaf..|by apply walk_node]. Qed.

(** What cn_cbor_encoder_write gives for a tree that stands for an item. *)
Definition written (off bsize : Z) (d buf : list Z) (r : Z * list Z) : Prop :=
  if decide (off + zlen d < bsize) then r = (zlen d, blit off d buf) else r.1 = -1 ∧ zlen r.2 = zlen buf.

Lemma encode_tree t v h buf off bsize :
  srep (nodes h) NULL NULL t → NoDup (addrs t) → rep (nodes h) t v → item_ok v → 0 <= off < bsize → bsize <= zlen buf →
  ∃ r, cn_cbor_encoder_write buf off bsize (addr t) h = Ok (r, h) ∧ written off bsize (enc v) buf r.
Proof.
  intros Hs Hnd Hr Hok Hoff Hsize. pose proof (addrs_bound _ _ _ _ Hs Hnd) as Hb. unfold cn_cbor_encoder_write.
  rewrite (bind_Ok fget _ h h h eq_refl), (proj2 (Z.eqb_neq (addr t) NULL)) by (by eapply srep_addr).
  set (ws := {| ws_buf := buf; ws_offset := off; ws_size := bsize |}).
  assert (writer_ok ws) as Hw by (split; cbn; lia).
  destruct (walk_item v t h NULL NULL ws Hs Hr Hok Hw) as (ws' & W & E).
  set (F := S (2 * size (nodes h))). replace F with (2 * length (addrs t) + (F - 2 * length (addrs t)))%nat by (unfold F; lia).
  rewrite (bind_Ok _ _ h ws' h) by (rewrite E; done). pose proof (zlen_nonneg (enc v)).
  destruct W as (Wb & Wz & W). cbn [ws_offset ws_size ws_buf ws] in *. rewrite decide_False in W by lia. unfold written.
  destruct (decide (off + zlen (enc v) < bsize)) as [Hfit|Hfit].
  - subst ws'. cbn. rewrite (proj2 (Z.ltb_ge _ 0)) by lia. eexists. split; [reflexivity|]. f_equal. lia.
  - rewrite W. cbn. eexists. split; [reflexivity|]. done.
Qed.

(** ** Building and reading trees *)

Lemma array_append_run a v ks h par nxt na nv :
  srep (nodes h) par nxt (STree a ks) → NoDup (addrs (STree a ks)) → nodes h !! a = Some na → c_type na = CN_CBOR_ARRAY →
  nodes h !! v = Some nv → v ≠ NULL → (v ∉ addrs (STree a ks)) → nodes h !! NULL = None →
  ∃ m', cn_cbor_array_append a v h = Ok (true, with_nodes m' h) ∧ link_nodes a v (last_addr ks) (set_cnext NULL nv) na (nodes h) m'.
Proof.
  intros (Ha0 & (n & Hn & L1 & L2 & L3 & L4) & Hks) Hnd Hna Hty Hv Hv0 Hnot Hnull. assert (n = na) as -> by congruence.
  cbn [addrs] in *. fold (addrss ks) in *. apply not_elem_of_cons in Hnot as [Hva Hvk]. apply NoDup_cons in Hnd as [Hak Hnd].
  set (h1 := with_nodes (<[v:=set_cnext NULL nv]> (nodes h)) h).
  assert (∀ q, q ≠ v → nodes h1 !! q = nodes h !! q) as H1 by (intros q Hq; cbn; lk; done).
  assert (nodes h1 !! v = Some (set_cnext NULL nv)) as Hv1 by (cbn; lk; done).
  assert (last_addr ks ≠ NULL → (last_addr ks ∈ addrss ks) ∧ is_Some (nodes h !! last_addr ks)) as Hl.
  { intros Hl0. destruct ks as [|k ks]; [done|]. destruct (last_addr_in _ _ _ _ Hks) as [_ Hl]; [done|]. split; [done|].
    assert (srep (nodes h) par nxt (STree a (k :: ks))) as Hs by (split; [done|]; split; [by exists na|done]).
    eapply srep_dom; [exact Hs|]. apply elem_of_cons. by right. }
  destruct (link_child_run v a (set_cnext NULL nv) na (last_addr ks) h1) as (m' & E & Hm); try done.
  { rewrite H1 by done. done. }
  { destruct (decide (last_addr ks = NULL)) as [->|E]; [done|]. intros E'. apply Hvk. rewrite <- E'. by apply Hl. }
  { destruct (decide (last_addr ks = NULL)) as [->|E]; [done|]. intros E'. apply Hak. rewrite <- E'. by apply Hl. }
  { intros E. rewrite H1; [by apply Hl|]. intros E'. apply Hvk. rewrite <- E'. by apply Hl. }
  { rewrite H1 by done. done. }
  exists m'. split.
  - unfold cn_cbor_array_append. rewrite (proj2 (Z.eqb_neq a NULL)), (proj2 (Z.eqb_neq v NULL)) by done. cbn [orb].
    rewrite (bind_Ok _ _ _ _ _ (get_node_run _ _ _ Hna)), Hty. cbn [negb]. rewrite bool_decide_eq_true_2 by done. cbn [negb].
    rewrite (bind_Ok _ _ _ _ _ (mod_node_run _ _ _ _ Hv)).
    set (h2 := with_nodes (<[v:=set_cnext NULL (set_parent a nv)]> (nodes h)) h).
    assert (mod_node v (set_parent a) h1 = Ok (tt, h2)) as E0.
    { rewrite (mod_node_run _ _ _ _ Hv1). unfold h1, h2, with_nodes. cbn [nodes cbrk coks]. rewrite insert_insert_eq. done. }
    unfold link_child in E. rewrite (bind_Ok _ _ _ _ _ E0) in E.
    rewrite (bind_Ok (get_node a) _ h2 na h2) in E by (apply get_node_run; cbn; lk; done).
    match goal with |- fbind ?m _ _ = _ => set (mm := m) in * end.
    apply fbind_Ok in E as ([] & s1 & E1 & E). rewrite (bind_Ok _ _ _ _ _ E1).
    apply fbind_Ok in E as ([] & s2 & E2 & E). rewrite (bind_Ok _ _ _ _ _ E2), (bind_Ok _ _ _ _ _ E). done.
  - intros q. rewrite Hm. repeat case_decide; try done; rewrite H1; done.
Qed.

(** The tree behind an append: the value, a tree of its own, is the array's last child. *)
Lemma append_tree m m' par nxt a ks t par' nxt' na nv :
  srep m par nxt (STree a ks) → srep m par' nxt' t → NoDup (addrs (STree a ks) ++ addrs t) → m !! a = Some na → m !! addr t = Some nv →
  link_nodes a (addr t) (last_addr ks) (set_cnext NULL nv) na m m' → srep m' par nxt (STree a (ks ++ [t])).
Proof.
  intros (Ha0 & (n & Hn & Hl) & Hks) Ht Hnd Hna Hnv Hm. assert (n = na) as -> by congruence. cbn [addrs] in Hnd. fold (addrss ks) in Hnd.
  rewrite <- app_comm_cons in Hnd. apply NoDup_cons in Hnd as [Ha Hnd]. rewrite elem_of_app in Ha.
  apply NoDup_app in Hnd as (Hnd1 & Hd & Hnd2). pose proof (addr_in t) as Hin.
  assert (a ≠ addr t) as Hat by (intros E; rewrite <- E in Hin; tauto). assert (addr t ∉ addrss ks) as Htk by (intros E; by eapply Hd).
  apply srep_eq. autorewrite with zip. split; [done|]. split.
  - exists (linked a (addr t) na). rewrite Hm, decide_False, decide_True by done. split; [done|]. by eapply linked_links.
  - apply sreps_snoc. split; [eapply relink; [exact Hks|exact Hm|done|tauto|done]|]. destruct t as [p kts]. cbn [addr addrs] in *.
    fold (addrss kts) in *. destruct Ht as (Hp & (n & Hn' & T1 & T2 & T3 & T4) & Hkts). assert (n = nv) as -> by congruence.
    apply srep_eq. split; [done|]. split.
    + eexists. rewrite Hm, decide_True by done. split; [done|]. done.
    + apply NoDup_cons in Hnd2 as [Hpk _]. eapply sreps_frame_eq; [|exact Hkts]. intros q Hq. rewrite Hm.
      rewrite (decide_False (P := q = p)) by (intros ->; done).
      rewrite (decide_False (P := q = a)) by (intros ->; apply Ha; right; apply elem_of_cons; by right).
      case_decide as E; [|done]. destruct ks as [|k ks].
      * exfalso. cbn in E. subst q. eapply (srep_null m (STree p kts) par' nxt'); [by split; [|split; [exists nv|]]|].
        apply elem_of_cons. by right.
      * exfalso. destruct (last_addr_in _ _ _ _ Hks) as [_ Hl']; [done|]. rewrite <- E in Hl'. eapply Hd; [exact Hl'|]. apply elem_of_cons. by right.
Qed.

(** The value behind the first key that passes. *)
Fixpoint value_for (test : cval → bool) (items : list cval) (ks : list stree) : Z :=
  match items, ks with
  | k :: _ :: items, _ :: t :: ks => if test k then addr t else value_for test items ks
  | _, _ => NULL
  end.
Definition int_is (key : Z) (v : cval) : bool :=
  match v with VInt neg n => u32 (if neg then Z.lnot n else n) =? u32 key | _ => false end.
Definition string_is (key : list Z) (v : cval) : bool := match v with VString _ s => bool_decide (s = key) | _ => false end.

Lemma int_key_run key v n h : rep_data v n → int_key key n h = Ok (int_is key v, h).
Proof.
  intros Hd. unfold int_key. destruct v as [neg k|text s|k|c|k items]; destruct Hd as [-> Hd]; cbn [int_is].
  - destruct Hd as [-> _]. by destruct neg.
  - by destruct text.
  - done.
  - unfold const_type. repeat case_match; done.
  - by destruct k as [| | |[]].
Qed.

Lemma string_key_run key v n h : rep_data v n → string_key key n h = Ok (string_is key v, h).
Proof.
  intros Hd. unfold string_key. destruct v as [neg k|text s|k|c|k items]; destruct Hd as [-> Hd]; cbn [string_is].
  - by destruct neg.
  - destruct Hd as (Hl & (rest & Hv) & _). rewrite Hl, Hv. cbn [str_value].
    assert ((if negb (zlen key =? zlen s) then fret false
             else fbind (flift (slice 0 (zlen key) (s ++ rest))) (λ s0, fret (bool_decide (s0 = key)))) h = Ok (bool_decide (s = key), h)) as E;
      [|by destruct text].
    destruct (Z.eqb_spec (zlen key) (zlen s)) as [E|E]; cbn [negb].
    + pose proof (zlen_nonneg s). pose proof (zlen_nonneg rest). rewrite E, slice_Ok by (rewrite ?zlen_app; lia).
      assert (zsub 0 (zlen s) (s ++ rest) = s) as -> by (apply (zsub_app_mid [] s rest); done). done.
    + rewrite bool_decide_eq_false_2; [done|]. intros ->. done.
  - done.
  - unfold const_type. repeat case_match; done.
  - by destruct k as [| | |[]].
Qed.

Lemma mapget_loop_run (testm : cn_cbor → FW cbor_heap bool) test h p :
  (∀ n v, rep_data v n → testm n h = Ok (test v, h)) → ∀ fuel items ks,
  sreps (nodes h) p NULL ks → all2 (rep (nodes h)) ks items → (length ks < fuel)%nat →
  mapget_loop fuel testm (first_addr ks) h = Ok (value_for test items ks, h).
Proof.
  intros Htest. induction fuel as [|fuel IH]; [lia|]. intros items ks Hs Hr Hlen. cbn [mapget_loop].
  destruct ks as [|k ks]; [destruct items; done|]. destruct items as [|v items]; [done|]. cbn [first_addr].
  destruct Hs as [Hk Hs], Hr as [Hrk Hr]. rewrite (proj2 (Z.eqb_neq (addr k) NULL)) by (by eapply srep_addr).
  destruct (rep_root _ _ _ Hrk) as (n & Hn & Hd). rewrite (bind_Ok _ _ _ _ _ (get_node_run _ _ _ Hn)).
  assert (c_next n = next_addr ks NULL) as ->.
  { destruct k as [a kk]. destruct Hk as (_ & (n' & Hn' & _ & Hx & _) & _). cbn [addr] in Hn. congruence. }
  destruct ks as [|t ks]; [destruct items; done|]. destruct items as [|w items]; [done|]. cbn [next_addr value_for].
  destruct Hs as [Ht Hs], Hr as [Hrt Hr]. rewrite (proj2 (Z.eqb_neq (addr t) NULL)) by (by eapply srep_addr).
  rewrite (bind_Ok _ _ _ _ _ (Htest n v Hd)). destruct (test v); [done|].
  destruct (rep_root _ _ _ Hrt) as (m & Hm & _). rewrite (bind_Ok _ _ _ _ _ (get_node_run _ _ _ Hm)).
  assert (c_next m = first_addr ks) as ->.
  { destruct t as [a kk]. destruct Ht as (_ & (m' & Hm' & _ & Hx & _) & _). cbn [addr] in Hm. replace m with m' by congruence. rewrite Hx. by destruct ks. }
  apply IH; [done|done|cbn in Hlen; lia].
Qed.

Lemma kids_bound h par nxt p ks : srep h par nxt (STree p ks) → NoDup (addrs (STree p ks)) → (length ks < size h)%nat.
Proof.
  intros Hs Hnd. pose proof (addrs_bound _ _ _ _ Hs Hnd) as Hb. cbn in Hb. enough (length ks <= length (concat (map addrs ks)))%nat by lia.
  clear. induction ks as [|[q qs] ks IH]; [done|]. cbn. rewrite length_app. lia.
Qed.

Lemma mapget_run (testm : cn_cbor → FW cbor_heap bool) test h par nxt p ks k items :
  (∀ n v, rep_data v n → testm n h = Ok (test v, h)) → srep (nodes h) par nxt (STree p ks) → NoDup (addrs (STree p ks)) →
  rep (nodes h) (STree p ks) (VNode k items) →
  fbind (get_node p) (λ n, fbind fget (λ h, mapget_loop (S (size (nodes h))) testm (first_child n))) h = Ok (value_for test items ks, h).
Proof.
  intros Htest Hs Hnd [_ Hr]. pose proof (kids_bound _ _ _ _ _ Hs Hnd). destruct Hs as (_ & (n & Hn & _ & _ & Hf & _) & Hs).
  rewrite (bind_Ok _ _ _ _ _ (get_node_run _ _ _ Hn)), (bind_Ok fget _ h h h eq_refl), Hf.
  eapply mapget_loop_run; [done|exact Hs|done|lia].
Qed.

(** ** What the codec promises *)


(** C36: what the encoder writes for a tree that stands for an item is the item's encoding, which the decoder reads back as a
    tree that stands for the same item; the encoder gives up exactly when the bytes and one more do not fit. *)
Theorem encode_then_decode t v h buf off bsize :
  srep (nodes h) NULL NULL t → NoDup (addrs t) → rep (nodes h) t v → item_ok v → heap_ok h → plenty h →
  0 <= off < bsize → bsize <= zlen buf →
  ∃ n buf', cn_cbor_encoder_write buf off bsize (addr t) h = Ok ((n, buf'), h) ∧ zlen buf' = zlen buf ∧
    (n = if decide (off + zlen (enc v) < bsize) then zlen (enc v) else -1) ∧
    (n ≠ -1 → ∃ t' h', cn_cbor_decode (zsub off n buf') h = Ok ((addr t', None), h') ∧ new_tree h t' h' ∧ rep (nodes h') t' v).
Proof.
  intros Hs Hnd Hr Hv Hok Hp Hoff Hsize. destruct (encode_tree t v h buf off bsize Hs Hnd Hr Hv Hoff Hsize) as ([n buf'] & E & Hw).
  exists n, buf'. split; [done|]. pose proof (zlen_nonneg (enc v)). unfold written in Hw. destruct (decide _) as [Hfit|Hfit].
  - injection Hw as -> ->. rewrite zlen_blit by lia. split; [done|]. split; [done|]. intros _.
    assert (zsub off (zlen (enc v)) (blit off (enc v) buf) = enc v) as -> by (apply zsub_blit; lia). by apply decode_enc.
  - cbn in Hw. destruct Hw as [-> Hb]. done.
Qed.

(** Appending an item to an array makes the array's tree stand for the items and the new one. *)
Theorem array_append_item a ks t items v h :
  srep (nodes h) NULL NULL (STree a ks) → srep (nodes h) NULL NULL t → NoDup (addrs (STree a ks) ++ addrs t) → heap_ok h →
  rep (nodes h) (STree a ks) (VNode KArray items) → rep (nodes h) t v → zlen items < 2147483647 →
  ∃ h', cn_cbor_array_append a (addr t) h = Ok (true, h') ∧ srep (nodes h') NULL NULL (STree a (ks ++ [t])) ∧
    rep (nodes h') (STree a (ks ++ [t])) (VNode KArray (items ++ [v])).
Proof.
  intros Hs Ht Hnd Hok Hr Hrt Hlen. pose proof Hnd as Hnd'. apply NoDup_app in Hnd' as (Hnda & Hd & Hndt).
  destruct Hr as [(na & Hna & Hty & Hi & Hl) Hks]. cbn [addr kids_of] in *.
  destruct (srep_dom _ _ _ _ Ht _ (addr_in t)) as [nv Hnv].
  assert (addr t ∉ addrs (STree a ks)) as Hnot by (intros Hin; apply (Hd _ Hin), addr_in).
  assert (nodes h !! NULL = None) as Hnull.
  { destruct Hok as [_ Hrng]. destruct (nodes h !! NULL) eqn:E; [|done]. specialize (Hrng NULL ltac:(eauto)). unfold NULL in Hrng. lia. }
  destruct (array_append_run a (addr t) ks h _ _ na nv Hs Hnda Hna Hty Hnv (srep_addr _ _ _ _ Ht) Hnot Hnull) as (m' & E & Hm).
  exists (with_nodes m' h). split; [done|]. split; [by eapply append_tree|].
  assert (∀ q, q ≠ a → unchanged h (with_nodes m' h) q) as Hun.
  { intros q Hq n Hn. cbn. rewrite Hm. case_decide as E1; [subst q; assert (nv = n) as -> by congruence; eexists; done|].
    rewrite decide_False, Hn by done. case_decide; cbn; eauto. }
  apply not_elem_of_cons in Hnot as [Hta _]. apply NoDup_cons in Hnda as [Hak _]. fold (addrss ks) in Hak. split.
  - exists (linked a (addr t) na). cbn [nodes with_nodes addr]. rewrite Hm, decide_False, decide_True by done. split; [done|].
    pose proof (zlen_nonneg items). unfold linked. cbn [rep_data closed_type open_type indef_kind]. rewrite zlen_app. change (zlen [v]) with 1.
    destruct (_ =? _); cbn; (split; [done|]; split; [exact Hi|]); rewrite Hl; unfold s32; rewrite Z.mod_small; lia.
  - cbn [kids_of]. apply all2_snoc; [eapply all2_unchanged; [|exact Hks]|eapply rep_unchanged; [|exact Hrt]]; intros q Hq; apply Hun; intros ->; [done|].
    apply (Hd a); [apply elem_of_cons; by left|done].
Qed.

(** A lookup in a map gives the value behind the first key that is the number, read as 32 bits, or the string. *)
Theorem mapget_spec h p ks k items key skey :
  srep (nodes h) NULL NULL (STree p ks) → NoDup (addrs (STree p ks)) → rep (nodes h) (STree p ks) (VNode k items) →
  cn_cbor_mapget_int p key h = Ok (value_for (int_is key) items ks, h) ∧
  cn_cbor_mapget_string p skey h = Ok (value_for (string_is skey) items ks, h).
Proof.
  intros Hs Hnd Hr. split.
  - eapply (mapget_run (int_key key)); [|exact Hs|done|done]. intros n v. apply int_key_run.
  - eapply (mapget_run (string_key skey)); [|exact Hs|done|done]. intros n v. apply string_key_run.
Qed.

(** ** The theorems at work *)

Definition empty_heap : cbor_heap := {| nodes := ∅; cbrk := 1; coks := [] |}.
Definition after {A} (m : FW cbor_heap A) (h : cbor_heap) : cbor_heap := match m h with Ok (_, h') => h' | Fault _ => h end.

Lemma heap_ok_check h : 0 < cbrk h → map_Forall (λ q _, 0 < q < cbrk h) (nodes h) → heap_ok h.
Proof. intros Hp Hall. split; [done|]. intros q [n Hn]. by apply (Hall q n). Qed.

(** { 1: (_ "hi", "!"), -5: 32(true) } *)
Definition demo_item : cval :=
  VNode KMap [VInt false 1; VNode (KIndef IText) [VString true [104; 105]; VString true [33]]; VInt true 4;
              VNode (KTag 32) [VConst 21]].
Definition demo_bytes : list Z := [162; 1; 127; 98; 104; 105; 97; 33; 255; 36; 216; 32; 245].
Example demo_enc : enc demo_item = demo_bytes.
Proof. reflexivity. Qed.

(** An array of 7 in the heap, and 300 beside it. *)
Definition demo_heap : cbor_heap :=
  after (fbind cn_cbor_array_create (λ a, fbind (cn_cbor_int_create 7) (λ v, fbind (cn_cbor_array_append a v) (λ _, cn_cbor_int_create 300)))) empty_heap.
(** A map from 7 to 300. *)
Definition demo_map : cbor_heap :=
  after (fbind cn_cbor_map_create (λ m, fbind (cn_cbor_int_create 300) (λ v, cn_cbor_mapput_int m 7 v))) empty_heap.

Ltac demo_tree :=
  hnf;
  lazymatch goal with
  | |- _ ∧ _ => split; demo_tree
  | |- ∃ _, _ => eexists; demo_tree
  | |- _ => first [reflexivity | done]
  end.
Lemma demo_ok h : h = demo_heap ∨ h = demo_map ∨ h = empty_heap → heap_ok h.
Proof.
  intros Hh. apply heap_ok_check; [destruct Hh as [->|[->| ->]]; done|].
  destruct Hh as [->|[->| ->]]; apply (bool_decide_unpack _); vm_compute; exact I.
Qed.

Lemma cn_cbor_decode_ends_witness :
  let h := {| nodes := ∅; cbrk := 1; coks := [true; false] |} in
  heap_ok h ∧ decode_result demo_bytes h (cn_cbor_decode demo_bytes h).
Proof.
  assert (heap_ok {| nodes := ∅; cbrk := 1; coks := [true; false] |}) as Hok
    by (apply heap_ok_check; [done|apply (bool_decide_unpack _); vm_compute; exact I]).
  split; [exact Hok|]. apply cn_cbor_decode_ends, Hok.
Defined.

Lemma decode_free_witness :
  ∃ h2, cn_cbor_free 2 (after (cn_cbor_decode demo_bytes) empty_heap) = Ok (tt, h2) ∧ nodes h2 = ∅.
Proof.
  apply (decode_free demo_bytes empty_heap 2); [apply demo_ok; auto|vm_compute; reflexivity].
Defined.


Lemma encode_then_decode_witness :
  ∃ n buf', cn_cbor_encoder_write (replicate 8 0) 1 4 1 demo_heap = Ok ((n, buf'), demo_heap) ∧ zlen buf' = 8 ∧ n = 2 ∧
    (n ≠ -1 → ∃ t' h', cn_cbor_decode (zsub 1 n buf') demo_heap = Ok ((addr t', None), h') ∧ new_tree demo_heap t' h' ∧
       rep (nodes h') t' (VNode KArray [VInt false 7])).
Proof.
  apply (encode_then_decode (STree 1 [STree 2 []]) (VNode KArray [VInt false 7]) demo_heap (replicate 8 0) 1 4).
  - demo_tree.
  - apply (bool_decide_unpack _). vm_compute. exact I.
  - cbn. demo_tree.
  - cbn. repeat split; lia.
  - apply demo_ok. auto.
  - constructor.
  - lia.
  - done.
Defined.

Lemma array_append_item_witness :
  ∃ h', cn_cbor_array_append 1 3 demo_heap = Ok (true, h') ∧ srep (nodes h') NULL NULL (STree 1 [STree 2 []; STree 3 []]) ∧
    rep (nodes h') (STree 1 [STree 2 []; STree 3 []]) (VNode KArray [VInt false 7; VInt false 300]).
Proof.
  apply (array_append_item 1 [STree 2 []] (STree 3 []) [VInt false 7] (VInt false 300) demo_heap).
  - demo_tree.
  - demo_tree.
  - apply (bool_decide_unpack _). vm_compute. exact I.
  - apply demo_ok. auto.
  - cbn. demo_tree.
  - cbn. demo_tree.
  - done.
Defined.

Lemma mapget_spec_witness :
  cn_cbor_mapget_int 1 7 demo_map = Ok (2, demo_map) ∧ cn_cbor_mapget_string 1 [55] demo_map = Ok (NULL, demo_map).
Proof.
  apply (mapget_spec demo_map 1 [STree 3 []; STree 2 []] KMap [VInt false 7; VInt false 300] 7 [55]).
  - demo_tree.
  - apply (bool_decide_unpack _). vm_compute. exact I.
  - cbn. demo_tree.
Defined.

(** ** What the codec does outside these items *)

(** The bytes that come back for bytes that are decoded. *)
Definition recoded (buf : list Z) : option (result (Z * list Z)) :=
  match cn_cbor_decode buf empty_heap with
  | Ok (root, None, h) =>
      Some match cn_cbor_encoder_write (replicate 16 0) 0 16 root h with Ok (n, b, _) => Ok (n, take (Z.to_nat n) b) | Fault f => Fault f end
  | _ => None
  end.

(** A tag of indefinite length, which CBOR does not have, is accepted, and written as a tag with a break behind its items. *)
Lemma indefinite_tag_accepted : recoded [223; 1; 255] = Some (Ok (3, [192; 1; 255])).
Proof. vm_compute. reflexivity. Qed.

(** A number of more than 32 bits loses its upper half. *)
Lemma long_number_truncated : recoded [27; 0; 0; 0; 1; 0; 0; 0; 5] = Some (Ok (1, [5])).
Proof. vm_compute. reflexivity. Qed.

(** A negative number below -2^31 is decoded to a positive one, at which the encoder's assertion fails. *)
Lemma large_negative_asserts : recoded [58; 128; 0; 0; 0] = Some (Fault AssertFail).
Proof. vm_compute. reflexivity. Qed.

(** The key 4294967295 is found when -1 is looked up. *)
Lemma negative_key_confused : int_is (-1) (VInt false 4294967295) = true.
Proof. reflexivity. Qed.
