(* ===== verification/Downloader.v ===== *)
(** * Downloading an image

    wiota_manager/manager_downloader/http_downloader.c: the image is fetched in
    pieces, each is written into the flash in the byte order of the flash, and
    the whole is read back and compared with its MD5.  The HTTP client, the
    flash and the MD5 routines are parameters. *)

From S2P Require Import Prelude Update.
#[local] Set Warnings "-register-all".

Definition HTTP_DOWNLOADER_RETRY : nat := 3.
Definition HTTP_DOWNLOADER_DELAY : Z := 2000.
Definition HTTP_DOWNLOADER_BLOCK_SIZE : Z := 4096.
Definition FLASH_ALIGN (size : Z) : Z := RT_ALIGN size 4.
Definition MANAGER_OTA_DOWNLOAD_REQUEST : Z := 67.
Definition WEBCLIENT_OK : Z := 0.

(** What one session with the server gives: whether it is made, the answer to
    the question for the length, the buffers handed to the handler with the
    lengths of their data, and the return code. *)
Record attempt := {
  session_ok : bool;
  head_rc : Z;
  head_length : Z;
  shards : list (list Z * Z);
  get_rc : Z
}.

(** t_app_downloader_message; the data is the address of the file. *)
Record t_app_downloader_message := { dm_cmd : Z; dm_file_name : list Z; dm_md5 : list Z; dm_address : list Z }.

(** uc_wiota_flash_erase_4K, uc_wiota_flash_write and uc_wiota_flash_read. *)
Class Flash := {
  flash_mem : Type;
  flash_erase_4K : Z → flash_mem → flash_mem;
  flash_write : list Z → Z → flash_mem → flash_mem;
  flash_read : Z → Z → flash_mem → list Z
}.
(** tiny_md5_starts, tiny_md5_update and tiny_md5_finish. *)
Class Md5 := {
  md5_context : Type;
  md5_starts : md5_context;
  md5_update : list Z → md5_context → md5_context;
  md5_finish : md5_context → list Z
}.

(** What is seen from outside: the pauses, and the message for the logic task. *)
Inductive dl_event := EvPause (ms : Z) | EvHttpMessage (down_file_size state : Z).

Section Downloader.
Context {fl : Flash} {md : Md5} (http : nat → attempt).

(** download_file with the flash, the sessions so far, and the outcomes of the
    next allocations. *)
Record dl_state := {
  flash : flash_mem;
  file_size : Z;
  recv_len : Z;
  md5_text : list Z;
  sessions : nat;
  dl_oks : list bool;
  dl_log : list dl_event
}.
Local Abbreviation M := (FW dl_state).
Local Open Scope fw_scope.

Definition set_flash v s := {| flash := v; file_size := file_size s; recv_len := recv_len s; md5_text := md5_text s;
  sessions := sessions s; dl_oks := dl_oks s; dl_log := dl_log s |}.
Definition set_file_size v s := {| flash := flash s; file_size := v; recv_len := recv_len s; md5_text := md5_text s;
  sessions := sessions s; dl_oks := dl_oks s; dl_log := dl_log s |}.
Definition set_recv_len v s := {| flash := flash s; file_size := file_size s; recv_len := v; md5_text := md5_text s;
  sessions := sessions s; dl_oks := dl_oks s; dl_log := dl_log s |}.
Definition set_md5_text v s := {| flash := flash s; file_size := file_size s; recv_len := recv_len s; md5_text := v;
  sessions := sessions s; dl_oks := dl_oks s; dl_log := dl_log s |}.
Definition dl_emit e s := {| flash := flash s; file_size := file_size s; recv_len := recv_len s; md5_text := md5_text s;
  sessions := sessions s; dl_oks := dl_oks s; dl_log := dl_log s ++ [e] |}.

Definition dl_malloc : M bool := λ s,
  Ok (default true (head (dl_oks s)), {| flash := flash s; file_size := file_size s; recv_len := recv_len s; md5_text := md5_text s;
    sessions := sessions s; dl_oks := tail (dl_oks s); dl_log := dl_log s |}).
Definition webclient_session : M attempt := λ s,
  Ok (http (sessions s), {| flash := flash s; file_size := file_size s; recv_len := recv_len s; md5_text := md5_text s;
    sessions := S (sessions s); dl_oks := dl_oks s; dl_log := dl_log s |}).

(** Exchanges the first byte of a word with its last and the second with the third. *)
Definition swap_word (w : list Z) : list Z := match w with [a; b; c; d] => [d; c; b; a] | _ => w end.
Fixpoint swap_words_loop (fuel : nat) (buffer : list Z) (i length : Z) : result (list Z) :=
  match fuel with
  | O => Fault OutOfFuel
  | S fuel =>
      if i <? length then
        w <-? slice i 4 buffer;;
        buffer <-? store i (swap_word w) buffer;;
        swap_words_loop fuel buffer (i + 4) length
      else Ok buffer
  end.
Definition byte_swap (buffer : list Z) (length : Z) : result (list Z) := swap_words_loop (S (Z.to_nat length)) buffer 0 length.

Definition shard_download_handle (buffer : list Z) (length : Z) : M unit :=
  s <-- fget;;
  let at_ := u32 (UC_OTA_PARTITION_START_ADDRESS + recv_len s) in
  fmod (λ s, set_flash (flash_erase_4K at_ (flash s)) s);;;
  buffer <-- flift (byte_swap buffer length);;
  data <-- flift (slice 0 (u16 length) buffer);;
  fmod (λ s, set_flash (flash_write data at_ (flash s)) s);;;
  fmod (λ s, set_recv_len (s32 (recv_len s + length)) s).

Fixpoint handle_shards (l : list (list Z * Z)) : M unit :=
  match l with [] => fret tt | (buffer, length) :: l => shard_download_handle buffer length;;; handle_shards l end.

Definition webclient_downloader : M Z :=
  a <-- webclient_session;;
  if negb (session_ok a) then fret (-5)
  else if head_rc a <? 0 then fret (-1)
  else
    fmod (λ s, set_recv_len 0 (set_file_size (head_length a) s));;;
    handle_shards (shards a);;;
    if negb (get_rc a =? WEBCLIENT_OK) then fret (get_rc a) else fret 0.

(** "%02x" of every byte. *)
Definition hex_digit (d : Z) : Z := if d <? 10 then 48 + d else 87 + d.
Definition hex (l : list Z) : list Z := concat (map (λ b, [hex_digit (b / 16); hex_digit (b mod 16)]) l).

(** Reads [n] bytes at [i] of the image into the buffer and takes the first
    [len] of them, in the byte order of the file. *)
Definition md5_block (buffer : list Z) (i n len : Z) (ctx : md5_context) : M (md5_context * list Z) :=
  s <-- fget;;
  buffer <-- flift (store 0 (flash_read (u32 (UC_OTA_PARTITION_START_ADDRESS + i)) (u16 n) (flash s)) buffer);;
  buffer <-- flift (byte_swap buffer n);;
  data <-- flift (slice 0 len buffer);;
  fret (md5_update data ctx, buffer).

Fixpoint md5_loop (fuel : nat) (buffer : list Z) (i : Z) (ctx : md5_context) : M (Z * md5_context * list Z) :=
  match fuel with
  | O => ffail OutOfFuel
  | S fuel =>
      s <-- fget;;
      if i <? file_size s - HTTP_DOWNLOADER_BLOCK_SIZE then
        '(ctx, buffer) <-- md5_block buffer i HTTP_DOWNLOADER_BLOCK_SIZE HTTP_DOWNLOADER_BLOCK_SIZE ctx;;
        md5_loop fuel buffer (i + HTTP_DOWNLOADER_BLOCK_SIZE) ctx
      else fret (i, ctx, buffer)
  end.

Definition md5_verification : M Z :=
  s <-- fget;;
  if recv_len s <? file_size s then fret 1
  else
    ok <-- dl_malloc;;
    if negb ok then ffail NullDeref
    else
      let buffer := replicate (Z.to_nat HTTP_DOWNLOADER_BLOCK_SIZE) 0 in
      '(i, ctx, buffer) <-- md5_loop (S (Z.to_nat (file_size s))) buffer 0 md5_starts;;
      ctx <-- (if i <? file_size s then
                 r <-- md5_block buffer i (FLASH_ALIGN (file_size s - i)) (file_size s - i) ctx;; fret r.1
               else fret ctx);;
      text <-- flift (slice 0 32 (md5_text s));;
      if bool_decide (text = take 32 (hex (md5_finish ctx))) then fret 0 else fret 2.

Fixpoint retry_loop (n : nat) : M Z :=
  match n with
  | O => fret 1
  | S n =>
      rc <-- webclient_downloader;;
      v <-- (if rc =? 0 then md5_verification else fret (-1));;
      if v =? 0 then fret 0 else fmod (dl_emit (EvPause HTTP_DOWNLOADER_DELAY));;; retry_loop n
  end.

Definition http_ota_download_task (m : t_app_downloader_message) : M Z :=
  fmod (set_md5_text (dm_md5 m));;; retry_loop HTTP_DOWNLOADER_RETRY.

(** A turn of the task. *)
Definition manager_downloader_step (m : t_app_downloader_message) : M unit :=
  if dm_cmd m =? MANAGER_OTA_DOWNLOAD_REQUEST then
    ok <-- dl_malloc;;
    if negb ok then http_ota_download_task m;;; ffail NullDeref
    else
      state <-- http_ota_download_task m;;
      s <-- fget;;
      fmod (dl_emit (EvHttpMessage (file_size s) state))
  else fret tt.
End Downloader.

(** ** The byte order of the flash *)

Fixpoint swap_words (l : list Z) : list Z :=
  match l with a :: b :: c :: d :: l => d :: c :: b :: a :: swap_words l | _ => l end.

Inductive words : list Z → Prop :=
| words_nil : words []
| words_cons a b c d l : words l → words (a :: b :: c :: d :: l).

Lemma words_split l : zlen l mod 4 = 0 → words l.
Proof.
  assert (∀ n l, length l = (4 * n)%nat → words l) as Hn.
  { induction n as [|n IH]; intros k Hk; [destruct k; [constructor|done]|].
    destruct k as [|a [|b [|c [|d k]]]]; cbn in Hk; try lia. constructor. apply IH. lia. }
  intros Hl. apply (Hn (Z.to_nat (zlen l / 4))). unfold zlen in *. Z.div_mod_to_equations. lia.
Qed.

Lemma swap_words_length l : length (swap_words l) = length l.
Proof. assert (∀ n l, (length l <= n)%nat → length (swap_words l) = length l) as Hn; [|by apply (Hn (length l))].
  induction n as [|n IH]; intros k Hk; [destruct k; [done|cbn in Hk; lia]|]. destruct k as [|a [|b [|c [|d k]]]]; try done. cbn in *. rewrite IH by lia. done.
Qed.
Lemma zlen_swap_words l : zlen (swap_words l) = zlen l.
Proof. unfold zlen. by rewrite swap_words_length. Qed.

Lemma swap_words_app l k : words l → swap_words (l ++ k) = swap_words l ++ swap_words k.
Proof. induction 1 as [|a b c d l _ IH]; [done|]. cbn. by rewrite IH. Qed.

Lemma swap_words_twice l : words l → swap_words (swap_words l) = l.
Proof. induction 1 as [|a b c d l _ IH]; [done|]. cbn. by rewrite IH. Qed.

Lemma swap_words_ok l : words l → bytes_ok l → bytes_ok (swap_words l).
Proof.
  unfold bytes_ok. induction 1 as [|a b c d l _ IH]; [done|]. cbn. rewrite !Forall_cons. intuition.
Qed.

(** The loop goes over whole words. *)
Lemma swap_words_loop_words pre l rest n fuel :
  words l → zlen pre + zlen l <= n →
  swap_words_loop (length l / 4 + fuel) (pre ++ l ++ rest) (zlen pre) n = swap_words_loop fuel (pre ++ swap_words l ++ rest) (zlen pre + zlen l) n.
Proof.
  intros Hw. revert pre. induction Hw as [|a b c d l Hw IH]; intros pre Hn.
  - change (zlen []) with 0. rewrite Z.add_0_r. done.
  - assert (length (a :: b :: c :: d :: l) / 4 = S (length l / 4))%nat as ->.
    { change (length (a :: b :: c :: d :: l)) with (1 * 4 + length l)%nat. rewrite Nat.div_add_l by done. done. }
    change (a :: b :: c :: d :: l) with ([a; b; c; d] ++ l) in *. rewrite zlen_app in *. change (zlen [a; b; c; d]) with 4 in *.
    pose proof (zlen_nonneg pre). pose proof (zlen_nonneg l). pose proof (zlen_nonneg rest).
    cbn [Nat.add swap_words_loop]. rewrite (proj2 (Z.ltb_lt _ _)) by lia. rewrite <- app_assoc, slice_at by done. cbn [rbind swap_word].
    rewrite store_Ok by (rewrite ?zlen_app; change (zlen [a; b; c; d]) with 4; change (zlen [d; c; b; a]) with 4; lia).
    cbn [rbind]. rewrite blit_app_mid by done. specialize (IH (pre ++ [d; c; b; a])). rewrite zlen_app in IH.
    change (zlen [d; c; b; a]) with 4 in IH. rewrite <- !app_assoc in IH. rewrite IH by lia. rewrite Z.add_assoc. done.
Qed.

(** The whole words of a buffer are exchanged, what is behind them stays. *)
Lemma byte_swap_run l rest : words l → byte_swap (l ++ rest) (zlen l) = Ok (swap_words l ++ rest).
Proof.
  intros Hw. unfold byte_swap. assert (length l / 4 <= length l)%nat as Hd by (apply Nat.Div0.div_le_upper_bound; lia).
  replace (S (Z.to_nat (zlen l))) with (length l / 4 + S (length l - length l / 4))%nat by (unfold zlen; lia).
  pose proof (swap_words_loop_words [] l rest (zlen l) (S (length l - length l / 4)) Hw ltac:(change (zlen []) with 0; lia)) as E.
  cbn [app] in E. change (zlen []) with 0 in E. rewrite E. cbn [Z.add swap_words_loop]. rewrite Z.ltb_irrefl. done.
Qed.

(** A tail of less than a word: the exchange takes in the bytes behind it. *)
Lemma byte_swap_tail l tail n :
  words l → zlen l < n < zlen l + 4 →
  byte_swap (l ++ tail) n = match tail with a :: b :: c :: d :: rest => Ok (swap_words l ++ d :: c :: b :: a :: rest) | _ => Fault OutOfBounds end.
Proof.
  intros Hw Hn. unfold byte_swap. assert (length l / 4 <= length l)%nat as Hd by (apply Nat.Div0.div_le_upper_bound; lia).
  replace (S (Z.to_nat n)) with (length l / 4 + S (S (Z.to_nat n - length l / 4 - 1)))%nat by (unfold zlen in *; lia).
  pose proof (swap_words_loop_words [] l tail n (S (S (Z.to_nat n - length l / 4 - 1))) Hw ltac:(change (zlen []) with 0; lia)) as E.
  cbn [app] in E. change (zlen []) with 0 in E. rewrite E. cbn [Z.add]. rewrite <- (zlen_swap_words l) in *. set (w := swap_words l) in *.
  pose proof (zlen_nonneg w). cbn [swap_words_loop]. rewrite (proj2 (Z.ltb_lt _ _)) by lia. destruct tail as [|a [|b [|c [|d rest]]]];
    try (unfold slice; rewrite (proj2 (Z.leb_gt (zlen w + 4) _)), andb_false_r by (rewrite zlen_app; unfold zlen; cbn; lia); done).
  change (a :: b :: c :: d :: rest) with ([a; b; c; d] ++ rest). rewrite slice_at by done. cbn [rbind swap_word].
  rewrite store_Ok by (rewrite ?zlen_app; pose proof (zlen_nonneg rest); change (zlen [a; b; c; d]) with 4; change (zlen [d; c; b; a]) with 4; lia).
  cbn [rbind]. rewrite blit_app_mid by done. rewrite (proj2 (Z.ltb_ge _ _)) by lia. done.
Qed.

(** ** Fetching and checking *)

Section Laws.
Context {fl : Flash} {md : Md5} (byte : flash_mem → Z → Z).
(** Reading gives the bytes of the flash; erasing sets a page to 0xFF; writing
    whole words onto erased flash stores them. *)
Hypothesis read_bytes : ∀ f a n, 0 <= n → flash_read a n f = map (byte f) (seqZ a n).
Hypothesis erase_bytes : ∀ f a x, a mod 4096 = 0 →
  byte (flash_erase_4K a f) x = if decide (a <= x < a + 4096) then 255 else byte f x.
Hypothesis write_bytes : ∀ f d a x, bytes_ok d → a mod 4 = 0 → zlen d mod 4 = 0 →
  (∀ y, a <= y < a + zlen d → byte f y = 255) →
  byte (flash_write d a f) x = if decide (a <= x < a + zlen d) then default 0 (d !! Z.to_nat (x - a)) else byte f x.
(** The MD5 of data that is given in pieces is that of the whole. *)
Hypothesis update_nil : ∀ c, md5_update [] c = c.
Hypothesis update_app : ∀ a b c, md5_update b (md5_update a c) = md5_update (a ++ b) c.

Definition holds (f : flash_mem) (a : Z) (d : list Z) : Prop := map (byte f) (seqZ a (zlen d)) = d.

Lemma holds_app f a d e : holds f a d → holds f (a + zlen d) e → holds f a (d ++ e).
Proof using Type.
  unfold holds. intros Hd He. rewrite zlen_app, seqZ_app, map_app, Hd, He by apply zlen_nonneg. done.
Qed.

Lemma holds_ext f f' a d : (∀ x, a <= x < a + zlen d → byte f' x = byte f x) → holds f a d → holds f' a d.
Proof using Type.
  unfold holds. intros Hx Hd. rewrite <- Hd at 2. apply map_ext_in. intros x Hin. apply list_elem_of_In, elem_of_seqZ in Hin. by apply Hx.
Qed.

Lemma holds_written f a d : bytes_ok d → a mod 4 = 0 → zlen d mod 4 = 0 → (∀ y, a <= y < a + zlen d → byte f y = 255) →
  holds (flash_write d a f) a d.
Proof using write_bytes.
  intros Hd Ha Hn Hf. unfold holds. apply list_eq. intros i. change (map ?g ?l) with (g <$> l). rewrite list_lookup_fmap.
  destruct (decide (i < length d)%nat) as [Hi|Hi].
  - rewrite lookup_seqZ_lt by (unfold zlen; lia). cbn. rewrite write_bytes by done.
    rewrite decide_True by (unfold zlen; lia). replace (Z.to_nat (a + Z.of_nat i - a)) with i by lia.
    destruct (d !! i) eqn:E; [done|]. apply lookup_ge_None in E. lia.
  - rewrite lookup_seqZ_ge by (unfold zlen; lia). cbn. symmetry. apply lookup_ge_None. lia.
Qed.

(** The pieces of an image: whole pages, and a last one of whole words. *)
Inductive pages : list Z → list (list Z * Z) → Prop :=
| pages_nil : pages [] []
| pages_last c slack : 0 < zlen c <= 4096 → zlen c mod 4 = 0 → pages c [(c ++ slack, zlen c)]
| pages_cons c slack img l : zlen c = 4096 → pages img l → pages (c ++ img) ((c ++ slack, 4096) :: l).

Definition PART : Z := UC_OTA_PARTITION_START_ADDRESS.

Lemma s32_small z : -2147483648 <= z < 2147483648 → s32 z = z.
Proof using Type. intros Hz. unfold s32. rewrite Z.mod_small; lia. Qed.

Lemma shard_run s c slack :
  0 <= recv_len s → recv_len s mod 4096 = 0 → PART + recv_len s + 4096 < 2147483648 → bytes_ok c → 0 < zlen c <= 4096 → zlen c mod 4 = 0 →
  ∃ f', shard_download_handle (c ++ slack) (zlen c) s = Ok (tt, set_recv_len (recv_len s + zlen c) (set_flash f' s)) ∧
    holds f' (PART + recv_len s) (swap_words c) ∧ ∀ x, x < PART + recv_len s → byte f' x = byte (flash s) x.
Proof using erase_bytes write_bytes.
  intros Hr Hpage Hbound Hc Hlen Hw. pose proof (words_split c Hw) as Hwords. unfold PART in *. set (a := UC_OTA_PARTITION_START_ADDRESS + recv_len s).
  assert (a mod 4096 = 0) as Ha by (unfold a, UC_OTA_PARTITION_START_ADDRESS; Z.div_mod_to_equations; lia).
  assert (u32 a = a) as Ha32 by (apply u32_id; unfold is_u32, a, UC_OTA_PARTITION_START_ADDRESS in *; lia).
  set (f1 := flash_erase_4K a (flash s)).
  assert (∀ y, a <= y < a + 4096 → byte f1 y = 255) as He by (intros y Hy; unfold f1; rewrite erase_bytes, decide_True by done; done).
  exists (flash_write (swap_words c) a f1). split; [|split].
  - unfold shard_download_handle. erewrite bind_Ok by reflexivity. fold a. rewrite Ha32. erewrite bind_Ok by reflexivity.
    rewrite byte_swap_run by done. erewrite bind_Ok by reflexivity. rewrite u16_id by (unfold is_u16; lia).
    assert (slice 0 (zlen c) (swap_words c ++ slack) = Ok (swap_words c)) as ->.
    { apply (slice_at [] (swap_words c) slack); [done|by rewrite zlen_swap_words]. }
    unfold flift. erewrite bind_Ok by reflexivity. erewrite bind_Ok by reflexivity. unfold fmod. do 2 f_equal. unfold set_recv_len, set_flash. cbn.
    rewrite s32_small by (unfold UC_OTA_PARTITION_START_ADDRESS in *; lia). done.
  - apply holds_written; [by apply swap_words_ok|Z.div_mod_to_equations; lia|by rewrite zlen_swap_words|].
    intros y Hy. rewrite zlen_swap_words in Hy. apply He. lia.
  - intros x Hx. rewrite write_bytes; [|by apply swap_words_ok|Z.div_mod_to_equations; lia|by rewrite zlen_swap_words|].
    + rewrite decide_False by lia. unfold f1. rewrite erase_bytes, decide_False by (done || lia). done.
    + intros y Hy. rewrite zlen_swap_words in Hy. apply He. lia.
Qed.

(** All pieces of an image: the flash holds it in its byte order. *)
Lemma shards_run img l : pages img l → bytes_ok img → ∀ s,
  0 <= recv_len s → recv_len s mod 4096 = 0 → PART + recv_len s + zlen img + 4096 < 2147483648 →
  ∃ f', handle_shards l s = Ok (tt, set_recv_len (recv_len s + zlen img) (set_flash f' s)) ∧
    holds f' (PART + recv_len s) (swap_words img) ∧ ∀ x, x < PART + recv_len s → byte f' x = byte (flash s) x.
Proof using erase_bytes write_bytes.
  induction 1 as [|c slack Hc Hw|c slack img l Hc Hl IH]; intros Hb s Hr Hpage Hbound.
  - exists (flash s). split; [|done]. cbn. change (zlen []) with 0. rewrite Z.add_0_r. unfold fret. do 2 f_equal. by destruct s.
  - destruct (shard_run s c slack) as (f' & E & Hh & Hx); [done|done|lia|done|done|done|]. exists f'. split; [|done].
    cbn [handle_shards]. rewrite (bind_Ok _ _ _ _ _ E). done.
  - unfold bytes_ok in Hb. apply Forall_app in Hb as [Hbc Hbi]. rewrite zlen_app in *. pose proof (zlen_nonneg img).
    destruct (shard_run s c slack) as (f1 & E1 & Hh1 & Hx1); [done|done|lia|done|lia|by rewrite Hc|]. rewrite Hc in *.
    set (s1 := set_recv_len _ _) in *.
    destruct (IH Hbi s1) as (f2 & E2 & Hh2 & Hx2); [cbn; lia|cbn; Z.div_mod_to_equations; lia|cbn; lia|]. exists f2. split; [|split].
    + cbn [handle_shards]. rewrite (bind_Ok _ _ _ _ _ E1), E2. cbn. do 2 f_equal. rewrite Z.add_assoc. done.
    + rewrite swap_words_app by (apply words_split; rewrite Hc; done). apply holds_app.
      * eapply holds_ext; [|exact Hh1]. intros x Hx. rewrite zlen_swap_words in Hx. apply Hx2. cbn. lia.
      * rewrite zlen_swap_words, Hc. cbn in Hh2. rewrite Z.add_assoc in Hh2. exact Hh2.
    + intros x Hx. rewrite Hx2 by (cbn; lia). by apply Hx1.
Qed.

(** A piece that is not a number of whole words is exchanged with the bytes behind it: in a buffer that holds the piece
    and one byte, as the HTTP client allocates it, the access leaves the buffer, or, when three bytes are over, the
    byte behind the piece is written to the flash and one of the three is lost. *)
Theorem odd_piece pre tail z s :
  zlen pre mod 4 = 0 → 0 < zlen tail < 4 → zlen pre + zlen tail < 65536 →
  shard_download_handle (pre ++ tail ++ [z]) (zlen pre + zlen tail) s =
    match tail with
    | [a; b; c] =>
        let at_ := u32 (PART + recv_len s) in
        Ok (tt, set_recv_len (s32 (recv_len s + (zlen pre + 3)))
              (set_flash (flash_write (swap_words pre ++ [z; c; b]) at_ (flash_erase_4K at_ (flash s))) s))
    | _ => Fault OutOfBounds
    end.
Proof using Type.
  intros Hp Ht Hn. pose proof (zlen_nonneg pre). unfold shard_download_handle. erewrite bind_Ok by reflexivity. fold PART. set (at_ := u32 _).
  erewrite bind_Ok by reflexivity. pose proof (byte_swap_tail pre (tail ++ [z]) (zlen pre + zlen tail) (words_split _ Hp) ltac:(lia)) as E. rewrite E.
  destruct tail as [|a [|b [|c [|d tail]]]]; cbn [app]; try done; [|exfalso; unfold zlen in Ht; cbn in Ht; lia].
  erewrite bind_Ok by reflexivity. change (zlen [a; b; c]) with 3 in *. rewrite u16_id by (unfold is_u16; lia).
  assert (slice 0 (zlen pre + 3) (swap_words pre ++ [z; c; b; a]) = Ok (swap_words pre ++ [z; c; b])) as ->.
  { change [z; c; b; a] with ([z; c; b] ++ [a]). rewrite app_assoc. apply (slice_at [] (swap_words pre ++ [z; c; b]) [a]); [done|].
    rewrite zlen_app, zlen_swap_words. done. }
  erewrite bind_Ok by reflexivity. done.
Qed.

(** *** The MD5 of what the flash holds *)

(** The first [n] bytes of the image, in the byte order of the file. *)
Definition image (f : flash_mem) (n : Z) : list Z := take (Z.to_nat n) (swap_words (flash_read PART (FLASH_ALIGN n) f)).
Definition md5_of (d : list Z) : list Z := md5_finish (md5_update d md5_starts).

Lemma zlen_read f a n : 0 <= n → zlen (flash_read a n f) = n.
Proof using read_bytes. intros Hn. rewrite read_bytes by done. unfold zlen. rewrite length_map, length_seqZ. lia. Qed.

Lemma read_words f a n : 0 <= n → n mod 4 = 0 → words (flash_read a n f).
Proof using read_bytes. intros Hn Hw. apply words_split. by rewrite zlen_read. Qed.

Lemma read_app f a n k : 0 <= n → 0 <= k → flash_read a (n + k) f = flash_read a n f ++ flash_read (a + n) k f.
Proof using read_bytes. intros Hn Hk. rewrite !read_bytes by lia. rewrite seqZ_app, map_app by done. done. Qed.

Lemma md5_block_run buffer i n len c (s : dl_state) :
  zlen buffer = 4096 → 0 <= i → PART + i < 4294967296 → 0 <= len <= n → n <= 4096 → n mod 4 = 0 →
  ∃ buffer', md5_block buffer i n len c s =
      Ok ((md5_update (take (Z.to_nat len) (swap_words (flash_read (PART + i) n (flash s)))) c, buffer'), s) ∧ zlen buffer' = 4096.
Proof using read_bytes.
  intros Hb Hi Ha Hlen Hn Hw. unfold md5_block. erewrite bind_Ok by reflexivity. fold PART.
  rewrite u32_id by (unfold is_u32, PART, UC_OTA_PARTITION_START_ADDRESS in *; lia). rewrite u16_id by (unfold is_u16; lia).
  set (d := flash_read (PART + i) n (flash s)). assert (zlen d = n) as Hd by (apply zlen_read; lia).
  assert (store 0 d buffer = Ok (d ++ drop (length d) buffer)) as -> by (rewrite store_Ok by lia; done).
  erewrite bind_Ok by reflexivity.
  pose proof (byte_swap_run d (drop (length d) buffer) (read_words (flash s) (PART + i) n ltac:(lia) Hw)) as Es. rewrite Hd in Es. rewrite Es.
  erewrite bind_Ok by reflexivity. pose proof (zlen_nonneg d).
  rewrite slice_Ok by (rewrite ?zlen_app, ?zlen_swap_words; pose proof (zlen_nonneg (drop (length d) buffer)); lia).
  erewrite bind_Ok by reflexivity. eexists. split.
  - unfold fret. do 4 f_equal. unfold zsub. cbn [drop Z.to_nat]. rewrite drop_0, take_app_le; [done|].
    rewrite swap_words_length. unfold zlen in *. lia.
  - rewrite zlen_app, zlen_swap_words. unfold zlen in *. rewrite length_drop. lia.
Qed.

(** Where the loop over whole blocks ends. *)
Lemma md5_loop_run fuel : ∀ buffer i c (s : dl_state),
  zlen buffer = 4096 → 0 <= i → i mod 4096 = 0 → file_size s + PART < 4294967296 → i < file_size s → (Z.to_nat (file_size s - i) < fuel)%nat →
  ∃ j buffer', md5_loop fuel buffer i c s = Ok ((j, md5_update (swap_words (flash_read (PART + i) (j - i) (flash s))) c, buffer'), s) ∧
    zlen buffer' = 4096 ∧ i <= j ∧ j mod 4096 = 0 ∧ 0 < file_size s - j <= 4096.
Proof using read_bytes update_nil update_app.
  induction fuel as [|fuel IH]; [lia|]. intros buffer i c s Hb Hi Hm Hsize Hlt Hf. cbn [md5_loop]. erewrite bind_Ok by reflexivity.
  unfold HTTP_DOWNLOADER_BLOCK_SIZE in *. destruct (Z.ltb_spec i (file_size s - 4096)).
  - destruct (md5_block_run buffer i 4096 4096 c s) as (b1 & E1 & Hb1); [done|done|lia|lia|lia|done|]. rewrite (bind_Ok _ _ _ _ _ E1).
    rewrite take_ge by (rewrite swap_words_length; pose proof (zlen_read (flash s) (PART + i) 4096 ltac:(lia)); unfold zlen in *; lia).
    destruct (IH b1 (i + 4096) (md5_update (swap_words (flash_read (PART + i) 4096 (flash s))) c) s) as (j & b2 & E2 & Hb2 & Hj & Hjm & Hend);
      [done|lia|Z.div_mod_to_equations; lia|done|lia|lia|].
    exists j, b2. split; [|split; [done|split; [lia|done]]]. rewrite E2. do 4 f_equal. rewrite update_app. f_equal.
    replace (j - i) with (4096 + (j - (i + 4096))) by lia. rewrite read_app by lia. rewrite swap_words_app by (apply read_words; done).
    rewrite Z.add_assoc. done.
  - exists i, buffer. rewrite Z.sub_diag. split; [|split; [done|split; [lia|split; [done|lia]]]].
    unfold fret. do 4 f_equal. rewrite read_bytes by lia. cbn. by rewrite update_nil.
Qed.

Lemma image_split f n j : 0 <= j → j mod 4 = 0 → j < n →
  image f n = swap_words (flash_read PART j f) ++ take (Z.to_nat (n - j)) (swap_words (flash_read (PART + j) (FLASH_ALIGN (n - j)) f)).
Proof using read_bytes.
  intros Hj Hm Hn. unfold image, FLASH_ALIGN. rewrite !RT_ALIGN_4. assert (4 * ((n + 3) / 4) = j + 4 * ((n - j + 3) / 4)) as ->
    by (Z.div_mod_to_equations; lia). rewrite read_app by (Z.div_mod_to_equations; lia). rewrite swap_words_app by (by apply read_words).
  rewrite take_app. f_equal.
  - apply take_ge. rewrite swap_words_length. pose proof (zlen_read f PART j Hj). unfold zlen in *. lia.
  - f_equal. rewrite swap_words_length. pose proof (zlen_read f PART j Hj). unfold zlen in *. lia.
Qed.

Definition malloced (s : dl_state) : dl_state :=
  {| flash := flash s; file_size := file_size s; recv_len := recv_len s; md5_text := md5_text s; sessions := sessions s;
     dl_oks := tail (dl_oks s); dl_log := dl_log s |}.

(** The check of a complete image. *)
Lemma md5_verification_run (s : dl_state) :
  0 < file_size s → file_size s + PART < 4294967296 → file_size s <= recv_len s → default true (head (dl_oks s)) = true →
  md5_verification s =
    match slice 0 32 (md5_text s) with
    | Ok text => Ok (if bool_decide (text = take 32 (hex (md5_of (image (flash s) (file_size s))))) then 0 else 2, malloced s)
    | Fault e => Fault e
    end.
Proof using read_bytes update_nil update_app.
  intros Hpos Hsize Hrecv Hmem. unfold md5_verification. erewrite bind_Ok by reflexivity. rewrite (proj2 (Z.ltb_ge _ _)) by done.
  unfold dl_malloc at 1. erewrite bind_Ok by reflexivity. rewrite Hmem. cbn [negb]. fold (malloced s).
  destruct (md5_loop_run (S (Z.to_nat (file_size s))) (replicate (Z.to_nat HTTP_DOWNLOADER_BLOCK_SIZE) 0) 0 md5_starts (malloced s))
    as (j & b & E & Hb & Hj & Hjm & Hend); [done|lia|done|done|done|cbn; lia|]. cbn [file_size malloced] in *.
  rewrite (bind_Ok _ _ _ _ _ E). rewrite (proj2 (Z.ltb_lt j (file_size s))) by lia. rewrite fbind_assoc.
  destruct (md5_block_run b j (FLASH_ALIGN (file_size s - j)) (file_size s - j) (md5_update (swap_words (flash_read (PART + 0) (j - 0) (flash (malloced s)))) md5_starts) (malloced s))
    as (b' & E' & _); [done|done|lia|split; [lia|apply RT_ALIGN_4_bounds]| |apply RT_ALIGN_4_mod|].
  { unfold FLASH_ALIGN. rewrite RT_ALIGN_4. Z.div_mod_to_equations. lia. }
  rewrite (bind_Ok _ _ _ _ _ E'). erewrite bind_Ok by reflexivity. cbn [fst flash malloced]. rewrite Z.add_0_r, Z.sub_0_r, update_app.
  rewrite <- image_split by (try (Z.div_mod_to_equations; lia)). fold (md5_of (image (flash s) (file_size s))).
  destruct (slice 0 32 (md5_text s)) as [text|e]; [|done]. unfold flift. erewrite bind_Ok by reflexivity.
  unfold md5_of. destruct (bool_decide _); done.
Qed.

(** *** The task *)
Context (http : nat → attempt).

(** The announced MD5 is that of the image the flash holds. *)
Definition verified (m : t_app_downloader_message) (s : dl_state) : Prop :=
  file_size s <= recv_len s ∧ take 32 (dm_md5 m) = take 32 (hex (md5_of (image (flash s) (file_size s)))).

Lemma downloader_keeps_md5 (s s' : dl_state) rc : webclient_downloader http s = Ok (rc, s') → md5_text s' = md5_text s.
Proof using Type.
  assert (∀ buffer n (s s' : dl_state) u, shard_download_handle buffer n s = Ok (u, s') → md5_text s' = md5_text s) as Hshard.
  { intros buffer n s1 s2 u. unfold shard_download_handle. fw_unfold. destruct (byte_swap buffer n) as [b|]; [|done].
    destruct (slice 0 (u16 n) b); [|done]. intros [= <- <-]. done. }
  assert (∀ l (s s' : dl_state) u, handle_shards l s = Ok (u, s') → md5_text s' = md5_text s) as Hall.
  { induction l as [|[b n] l IH]; cbn [handle_shards]; intros s1 s2 u E; [injection E as <- <-; done|].
    apply fbind_Ok in E as (v & s3 & E1 & E2). rewrite (IH _ _ _ E2). by eapply Hshard. }
  unfold webclient_downloader. intros E. apply fbind_Ok in E as (a & s1 & E1 & E). injection E1 as <- <-.
  destruct (negb _); [injection E as <- <-; done|]. destruct (_ <? _); [injection E as <- <-; done|].
  apply fbind_Ok in E as (u & s2 & E2 & E). injection E2 as <- <-. apply fbind_Ok in E as (v & s3 & E3 & E).
  apply Hall in E3. destruct (negb _); injection E as <- <-; exact E3.
Qed.

Lemma md5_block_same b i n l c (s s' : dl_state) r : md5_block b i n l c s = Ok (r, s') → s' = s.
Proof using Type.
  unfold md5_block. fw_unfold. destruct (store _ _ _) as [b1|]; [|done]. destruct (byte_swap _ _) as [b2|]; [|done].
  destruct (slice _ _ _); congruence.
Qed.

Lemma md5_loop_same fuel : ∀ b i c (s s' : dl_state) r, md5_loop fuel b i c s = Ok (r, s') → s' = s.
Proof using Type.
  induction fuel as [|fuel IH]; [done|]. intros b i c s s' r. cbn [md5_loop]. intros E. apply fbind_Ok in E as (x & y & Ex & E).
  injection Ex as <- <-. destruct (_ <? _); [|injection E as _ <-; done].
  apply fbind_Ok in E as ([c' b'] & z & Ez & E). apply md5_block_same in Ez. subst z. by eapply IH.
Qed.

Lemma verification_frame (s s' : dl_state) v : md5_verification s = Ok (v, s') →
  md5_text s' = md5_text s ∧ file_size s' = file_size s ∧ (v = 0 → file_size s <= recv_len s ∧ default true (head (dl_oks s)) = true).
Proof using Type.
  unfold md5_verification. intros E. apply fbind_Ok in E as (s1 & s2 & E1 & E). injection E1 as <- <-.
  destruct (Z.ltb_spec (recv_len s) (file_size s)); [by injection E as <- <-|]. apply fbind_Ok in E as (ok & s3 & E3 & E). injection E3 as <- <-.
  destruct (default true _); [|done]. cbn [negb] in E. fold (malloced s) in E.
  apply fbind_Ok in E as ([[i c] b] & s4 & E4 & E). apply md5_loop_same in E4. subst s4.
  apply fbind_Ok in E as (c' & s5 & E5 & E). assert (s5 = malloced s) as ->.
  { destruct (_ <? _); [|injection E5 as _ <-; done]. apply fbind_Ok in E5 as (r & s6 & E6 & E5). apply md5_block_same in E6. by injection E5 as _ <-. }
  apply fbind_Ok in E as (text & s6 & E6 & E). assert (s6 = malloced s) as -> by (unfold flift in E6; destruct (slice _ _ _); congruence).
  destruct (bool_decide _); injection E as <- <-; done.
Qed.

Lemma verification_ok (s s' : dl_state) m :
  md5_text s = dm_md5 m → md5_verification s = Ok (0, s') → 0 < file_size s' → file_size s' + PART < 4294967296 → verified m s'.
Proof using read_bytes update_nil update_app.
  intros Hm E Hpos Hsize. destruct (verification_frame _ _ _ E) as (_ & Hf & Hok). destruct (Hok eq_refl) as [Hr Hmem].
  rewrite Hf in Hpos, Hsize. rewrite md5_verification_run in E by done. rewrite Hm in E. unfold slice in E. destruct (_ && _); [|done].
  destruct (bool_decide _) eqn:Eb; [|done]. apply bool_decide_eq_true_1 in Eb. injection E as <-. split; [exact Hr|]. exact Eb.
Qed.

(** C27: whatever the server sends: a download that is reported as good leaves an image in the flash whose MD5 is the one
    that was announced, and all of it was received. *)
Theorem download_verified m s s' :
  http_ota_download_task http m s = Ok (0, s') → 0 < file_size s' → file_size s' + PART < 4294967296 → verified m s'.
Proof using read_bytes update_nil update_app.
  unfold http_ota_download_task. intros E Hpos Hsize. apply fbind_Ok in E as (u & s1 & E1 & E). injection E1 as <- <-.
  assert (md5_text (set_md5_text (dm_md5 m) s) = dm_md5 m) as Hm by done. revert E Hm. generalize (set_md5_text (dm_md5 m) s).
  induction HTTP_DOWNLOADER_RETRY as [|n IH]; intros t E Hm; [done|]. cbn [retry_loop] in E.
  apply fbind_Ok in E as (rc & t1 & E1 & E). apply downloader_keeps_md5 in E1. apply fbind_Ok in E as (v & t2 & E2 & E).
  assert (md5_text t2 = dm_md5 m ∧ (v = 0 → verified m t2 ∨ t2 ≠ s')) as [Hm2 Hv].
  { destruct (rc =? 0); [|injection E2 as <- <-; split; [congruence|done]].
    split; [destruct (verification_frame _ _ _ E2) as [-> _]; congruence|]. intros ->.
    destruct (Z.eqb_spec 0 0); [|done]. injection E as <-. left. apply (verification_ok t1); [congruence|done..]. }
  destruct (Z.eqb_spec v 0) as [->|Hne].
  - injection E as <-. by destruct (Hv eq_refl).
  - apply fbind_Ok in E as (x & t3 & E3 & E). injection E3 as <- <-. by eapply IH; [exact E|].
Qed.

(** *** A server that answers *)

Definition runnable (l : list (list Z * Z)) : Prop := Forall (λ p, 0 <= p.2 <= zlen p.1 ∧ p.2 mod 4 = 0 ∧ p.2 < 65536) l.
Definition fails (a : attempt) : Prop := session_ok a = false ∨ head_rc a < 0 ∨ get_rc a ≠ 0 ∧ runnable (shards a).
Definition delivers (img : list Z) (a : attempt) : Prop :=
  session_ok a = true ∧ 0 <= head_rc a ∧ head_length a = zlen img ∧ pages img (shards a) ∧ get_rc a = 0.

Lemma runnable_run l : runnable l → ∀ s : dl_state, ∃ f' r, handle_shards l s = Ok (tt, set_recv_len r (set_flash f' s)).
Proof using Type.
  induction 1 as [|[b n] l (Hn & Hw & Hm) _ IH]; intros s.
  - exists (flash s), (recv_len s). unfold set_recv_len, set_flash. cbn. by destruct s.
  - cbn [fst snd] in *. rewrite <- (take_drop (Z.to_nat n) b). set (c := take _ b). assert (zlen c = n) as Hc.
    { unfold c, zlen in *. rewrite length_take. lia. }
    assert (words c) as Hwords by (apply words_split; by rewrite Hc). cbn [handle_shards]. unfold shard_download_handle.
    pose proof (byte_swap_run c (drop (Z.to_nat n) b) Hwords) as Es. rewrite Hc in Es.
    rewrite fbind_assoc. erewrite bind_Ok by reflexivity. rewrite fbind_assoc. erewrite bind_Ok by reflexivity. rewrite Es, fbind_assoc.
    erewrite bind_Ok by reflexivity. rewrite u16_id by (unfold is_u16; lia).
    assert (slice 0 (zlen c) (swap_words c ++ drop (Z.to_nat n) b) = Ok (swap_words c)) as Esl
      by (apply (slice_at [] (swap_words c)); [done|by rewrite zlen_swap_words]).
    rewrite Hc in Esl at 1. rewrite Esl, fbind_assoc. erewrite bind_Ok by reflexivity.
    rewrite fbind_assoc. erewrite bind_Ok by reflexivity. erewrite bind_Ok by reflexivity.
    match goal with |- ∃ _ _, handle_shards _ ?s1 = _ => destruct (IH s1) as (f' & r & E) end.
    exists f', r. rewrite E. done.
Qed.

(** What a failed session leaves: the progress and the flash are lost. *)
Lemma failed_run (s : dl_state) : fails (http (sessions s)) → ∃ rc f' n r, rc ≠ 0 ∧
  webclient_downloader http s = Ok (rc, {| flash := f'; file_size := n; recv_len := r; md5_text := md5_text s; sessions := S (sessions s);
    dl_oks := dl_oks s; dl_log := dl_log s |}).
Proof using Type.
  intros Hf. unfold webclient_downloader. erewrite bind_Ok by reflexivity. set (a := http (sessions s)) in *.
  destruct (session_ok a) eqn:Es; cbn [negb]; [|exists (-5); do 3 eexists; split; [done|reflexivity]].
  destruct (Z.ltb_spec (head_rc a) 0); [exists (-1); do 3 eexists; split; [done|reflexivity]|].
  destruct Hf as [?|[?|[Hrc Hrun]]]; [congruence|lia|]. erewrite bind_Ok by reflexivity.
  match goal with |- ∃ _ _ _ _, _ ∧ fbind (handle_shards ?l) _ ?s1 = _ => destruct (runnable_run l Hrun s1) as (f' & r & E) end.
  rewrite (bind_Ok _ _ _ _ _ E). rewrite (proj2 (Z.eqb_neq _ WEBCLIENT_OK)) by done. cbn [negb].
  exists (get_rc a), f', (head_length a), r. split; [done|reflexivity].
Qed.

Lemma delivered_run (s : dl_state) img : delivers img (http (sessions s)) → bytes_ok img → PART + zlen img + 4096 < 2147483648 → ∃ f',
  holds f' PART (swap_words img) ∧
  webclient_downloader http s = Ok (0, {| flash := f'; file_size := zlen img; recv_len := zlen img; md5_text := md5_text s; sessions := S (sessions s);
    dl_oks := dl_oks s; dl_log := dl_log s |}).
Proof using erase_bytes write_bytes.
  intros (Hs & Hh & Hl & Hp & Hrc) Hb Hsize. unfold webclient_downloader. erewrite bind_Ok by reflexivity. set (a := http (sessions s)) in *.
  rewrite Hs, (proj2 (Z.ltb_ge _ _)) by done. cbn [negb]. erewrite bind_Ok by reflexivity. rewrite Hl.
  match goal with |- ∃ _, _ ∧ fbind (handle_shards ?l) _ ?s1 = _ => destruct (shards_run img l Hp Hb s1) as (f' & E & Hh' & _); [cbn; lia|done|cbn; lia|] end.
  cbn [recv_len set_recv_len] in *. rewrite Z.add_0_r in Hh'. rewrite (bind_Ok _ _ _ _ _ E), Hrc. exists f'. split; [done|]. cbn. done.
Qed.

End Laws.

(** ** Witnesses *)

(** A flash as a function, and a digest that is the beginning of the data. *)
#[local] Instance toy_flash : Flash := {|
  flash_mem := Z → Z;
  flash_erase_4K a f := λ x, if decide (a <= x < a + 4096) then 255 else f x;
  flash_write d a f := λ x, if decide (a <= x < a + zlen d) then default 0 (d !! Z.to_nat (x - a)) else f x;
  flash_read a n f := map f (seqZ a n)
|}.
#[local] Instance toy_md5 : Md5 := {|
  md5_context := list Z;
  md5_starts := [];
  md5_update d c := c ++ d;
  md5_finish c := take 16 (c ++ replicate 16 0)
|}.

Definition toy_byte : @flash_mem toy_flash → Z → Z := λ (f : Z → Z) x, f x.
Definition demo_img : list Z := [1; 2; 3; 4; 250; 6; 7; 8].
Definition demo_msg : t_app_downloader_message :=
  {| dm_cmd := MANAGER_OTA_DOWNLOAD_REQUEST; dm_file_name := []; dm_md5 := hex (take 16 (demo_img ++ replicate 16 0)) ++ [0]; dm_address := [] |}.
(** The first session ends early, the second gives the image. *)
Definition demo_http (k : nat) : attempt :=
  match k with
  | O => {| session_ok := true; head_rc := 0; head_length := 8; shards := [([9; 9; 9; 9; 0], 4)]; get_rc := 1 |}
  | _ => {| session_ok := true; head_rc := 0; head_length := 8; shards := [(demo_img ++ [0], 8)]; get_rc := 0 |}
  end.
Definition demo_dl : dl_state :=
  {| flash := (λ _, 77) : flash_mem; file_size := 0; recv_len := 0; md5_text := []; sessions := 0; dl_oks := []; dl_log := [] |}.
Definition demo_end : dl_state := match http_ota_download_task demo_http demo_msg demo_dl with Ok (_, s) => s | Fault _ => demo_dl end.

Lemma odd_piece_witness :
  shard_download_handle ([1; 2; 3; 4] ++ [5] ++ [0]) (4 + 1) demo_dl = Fault OutOfBounds.
Proof. apply (odd_piece [1; 2; 3; 4] [5] 0 demo_dl); [done|unfold zlen; cbn; lia|done]. Defined.

Lemma demo_run : http_ota_download_task demo_http demo_msg demo_dl = Ok (0, demo_end).
Proof.
  assert (match http_ota_download_task demo_http demo_msg demo_dl with Ok (rc, _) => rc | Fault _ => 1 end = 0) as E by (vm_compute; reflexivity).
  unfold demo_end. destruct (http_ota_download_task demo_http demo_msg demo_dl) as [[rc s]|]; [by rewrite E|done].
Qed.

Lemma download_verified_witness : file_size demo_end = 8 ∧ verified demo_msg demo_end.
Proof.
  split; [vm_compute; reflexivity|]. apply (download_verified toy_byte) with (http := demo_http) (s := demo_dl).
  - done.
  - intros c. apply app_nil_r.
  - intros a b c. cbn. by rewrite app_assoc.
  - exact demo_run.
  - vm_compute. reflexivity.
  - vm_compute. reflexivity.
Defined.

