(* ===== verification/CustomData.v ===== *)
(** * Stored configuration

    app/custom_data/custom_data.c: the address of the server, the client and the
    login, kept in the user part of the static data. *)

From S2P Require Import Prelude WiotaApi.

Record custom_data_t := { cd_ip : list Z; cd_port : Z; cd_client_id : list Z; cd_account : list Z; cd_password : list Z }.

Definition set_ip v c := {| cd_ip := v; cd_port := cd_port c; cd_client_id := cd_client_id c; cd_account := cd_account c; cd_password := cd_password c |}.
Definition set_port v c := {| cd_ip := cd_ip c; cd_port := v; cd_client_id := cd_client_id c; cd_account := cd_account c; cd_password := cd_password c |}.
Definition set_client_id v c := {| cd_ip := cd_ip c; cd_port := cd_port c; cd_client_id := v; cd_account := cd_account c; cd_password := cd_password c |}.
Definition set_account v c := {| cd_ip := cd_ip c; cd_port := cd_port c; cd_client_id := cd_client_id c; cd_account := v; cd_password := cd_password c |}.
Definition set_password v c := {| cd_ip := cd_ip c; cd_port := cd_port c; cd_client_id := cd_client_id c; cd_account := cd_account c; cd_password := v |}.

Section CustomData.
Local Abbreviation M := (FW custom_data_t).
Local Open Scope fw_scope.

(** rt_memset over a field of [n] bytes, then rt_memcpy of [len] bytes of [src]. *)
Definition fill_field (n : Z) (src : list Z) (len : Z) : result (list Z) :=
  d <-? slice 0 len src;; store 0 d (replicate (Z.to_nat n) 0).

Definition custom_set_server_info (ip : list Z) (len port : Z) : M Z :=
  if (len =? 0) || (len >? 16) then fret UC_OP_FAIL
  else
    v <-- flift (fill_field 16 ip len);;
    fmod (set_ip v);;; fmod (set_port port);;; fret UC_OP_SUCC.

Definition custom_set_client_id (id : list Z) (len : Z) : M Z :=
  if (len =? 0) || (len >? 16) then fret UC_OP_FAIL
  else v <-- flift (fill_field 16 id len);; fmod (set_client_id v);;; fret UC_OP_SUCC.

(** A null pointer leaves its field alone. *)
Definition custom_set_login_info (account : option (list Z)) (acc_len : Z) (password : option (list Z)) (pwd_len : Z) : M Z :=
  ok <-- match account with
         | None => fret true
         | Some a =>
             if (acc_len =? 0) || (acc_len >? 32) then fret false
             else v <-- flift (fill_field 32 a acc_len);; fmod (set_account v);;; fret true
         end;;
  if negb ok then fret UC_OP_FAIL
  else
    match password with
    | None => fret UC_OP_SUCC
    | Some p =>
        if (pwd_len =? 0) || (pwd_len >? 32) then fret UC_OP_FAIL
        else v <-- flift (fill_field 32 p pwd_len);; fmod (set_password v);;; fret UC_OP_SUCC
    end.

(** The count of the bytes in front of the first zero. *)
Fixpoint count_bytes (n : nat) (l : list Z) : Z :=
  match n, l with S n, b :: l => if b =? 0 then 0 else count_bytes n l + 1 | _, _ => 0 end.

(** The whole field is copied to the caller's buffer; the buffer and the length. *)
Definition read_field (n : Z) (field out : list Z) : result (list Z * Z) :=
  out <-? store 0 field out;; Ok (out, count_bytes (Z.to_nat n) out).

Definition custom_get_server_info (ip : list Z) : M (list Z * Z * Z) :=
  c <-- fget;; r <-- flift (read_field 16 (cd_ip c) ip);; fret (r, cd_port c).
Definition custom_get_client_id (id : list Z) : M (list Z * Z) :=
  c <-- fget;; flift (read_field 16 (cd_client_id c) id).
Definition custom_get_login_info (account password : list Z) : M (list Z * Z * (list Z * Z)) :=
  c <-- fget;;
  a <-- flift (store 0 (cd_account c) account);;
  p <-- flift (store 0 (cd_password c) password);;
  fret (a, count_bytes 32 a, (p, count_bytes 32 p)).
End CustomData.

(** ** The fields keep their sizes *)

Record custom_ok (c : custom_data_t) : Prop := {
  ip_16 : zlen (cd_ip c) = 16;
  client_16 : zlen (cd_client_id c) = 16;
  account_32 : zlen (cd_account c) = 32;
  password_32 : zlen (cd_password c) = 32
}.

Inductive custom_op :=
| OpServer (ip : list Z) (len port : Z)
| OpClient (id : list Z) (len : Z)
| OpLogin (account : option (list Z)) (acc_len : Z) (password : option (list Z)) (pwd_len : Z).
Definition custom_run (op : custom_op) : FW custom_data_t Z :=
  match op with
  | OpServer ip len port => custom_set_server_info ip len port
  | OpClient id len => custom_set_client_id id len
  | OpLogin a n p k => custom_set_login_info a n p k
  end.
(** The pointers of a call point to as many bytes as it says. *)
Definition op_ok (op : custom_op) : Prop :=
  match op with
  | OpServer ip len _ => 0 <= len <= zlen ip
  | OpClient id len => 0 <= len <= zlen id
  | OpLogin a n p k => (∀ l, a = Some l → 0 <= n <= zlen l) ∧ (∀ l, p = Some l → 0 <= k <= zlen l)
  end.
(** The fields a call asks for are filled, unless it refuses a length. *)
Definition padded (n : nat) (src : list Z) (len : Z) : list Z := take (Z.to_nat len) src ++ replicate (n - Z.to_nat len) 0.
Definition fits (n len : Z) : bool := negb ((len =? 0) || (len >? n)).
Definition custom_spec (op : custom_op) (c : custom_data_t) : Z * custom_data_t :=
  match op with
  | OpServer ip len port => if fits 16 len then (UC_OP_SUCC, set_port port (set_ip (padded 16 ip len) c)) else (UC_OP_FAIL, c)
  | OpClient id len => if fits 16 len then (UC_OP_SUCC, set_client_id (padded 16 id len) c) else (UC_OP_FAIL, c)
  | OpLogin a n p k =>
      let c1 := match a with Some l => if fits 32 n then Some (set_account (padded 32 l n) c) else None | None => Some c end in
      match c1 with
      | None => (UC_OP_FAIL, c)
      | Some c1 => match p with
                   | Some l => if fits 32 k then (UC_OP_SUCC, set_password (padded 32 l k) c1) else (UC_OP_FAIL, c1)
                   | None => (UC_OP_SUCC, c1)
                   end
      end
  end.

Lemma fill_field_run (n : nat) src len :
  0 <= len <= zlen src → fits (Z.of_nat n) len = true → fill_field (Z.of_nat n) src len = Ok (padded n src len).
Proof.
  unfold fits. intros Hl Hf. assert (0 < len <= Z.of_nat n) as Hn.
  { destruct (Z.eqb_spec len 0); [done|]. rewrite Z.gtb_ltb in Hf. destruct (Z.ltb_spec (Z.of_nat n) len); [done|]. lia. }
  unfold fill_field. rewrite slice_Ok by lia. cbn [rbind]. unfold zsub. cbn [Z.to_nat]. rewrite drop_0, Nat2Z.id.
  rewrite store_Ok; [|lia|unfold zlen in *; rewrite length_take, length_replicate; lia].
  unfold blit, padded. change (Z.to_nat 0) with 0%nat. rewrite take_0. cbn [app Nat.add]. do 2 f_equal.
  rewrite length_take, Nat.min_l by (unfold zlen in *; lia). apply drop_replicate.
Qed.

Lemma padded_len (n : nat) src len : 0 <= len <= zlen src → fits (Z.of_nat n) len = true → zlen (padded n src len) = Z.of_nat n.
Proof.
  unfold fits, padded. intros Hl Hf. rewrite Z.gtb_ltb in Hf. destruct (Z.eqb_spec len 0); [done|].
  destruct (Z.ltb_spec (Z.of_nat n) len); [done|]. rewrite zlen_app. unfold zlen in *. rewrite length_take, length_replicate. lia.
Qed.

Lemma fits_bounds n len : fits n len = true → 0 <= len → 0 < len <= n.
Proof.
  unfold fits. rewrite Z.gtb_ltb. destruct (Z.eqb_spec len 0); [done|]. destruct (Z.ltb_spec n len); [done|]. lia.
Qed.

(** A length is refused, or the field is filled. *)
Lemma fill_cases (n : nat) src len :
  0 <= len <= zlen src →
  (len =? 0) || (len >? Z.of_nat n) = negb (fits (Z.of_nat n) len) ∧
  (fits (Z.of_nat n) len = true → fill_field (Z.of_nat n) src len = Ok (padded n src len) ∧ zlen (padded n src len) = Z.of_nat n).
Proof.
  intros Hl. split; [unfold fits; by rewrite negb_involutive|]. intros Hf. split; [by apply fill_field_run|by apply padded_len].
Qed.

(** C40: every call that changes the configuration, from pointers to as many bytes as it says, does what its description
    says: it refuses the length 0 and a length above the field, or fills the field with the bytes and zeros; the fields
    keep their sizes; a login call that refuses the password has stored the account. *)
Theorem custom_set_spec op c :
  custom_ok c → op_ok op → custom_run op c = Ok (custom_spec op c) ∧ custom_ok (custom_spec op c).2.
Proof.
  intros [H1 H2 H3 H4] Hop. destruct op as [ip len port|id len|a n p k]; cbn [custom_run custom_spec op_ok] in *.
  - unfold custom_set_server_info. destruct (fill_cases 16 ip len Hop) as [G E]. change (Z.of_nat 16) with 16 in *. rewrite G.
    destruct (fits 16 len); cbn [negb]; [|by split; [|split]]. destruct (E eq_refl) as [-> ?]. split; [done|by split].
  - unfold custom_set_client_id. destruct (fill_cases 16 id len Hop) as [G E]. change (Z.of_nat 16) with 16 in *. rewrite G.
    destruct (fits 16 len); cbn [negb]; [|by split; [|split]]. destruct (E eq_refl) as [-> ?]. split; [done|by split].
  - unfold custom_set_login_info. destruct Hop as [Ha Hp].
    assert (∀ l, p = Some l → (k =? 0) || (k >? 32) = negb (fits 32 k) ∧
      (fits 32 k = true → fill_field 32 l k = Ok (padded 32 l k) ∧ zlen (padded 32 l k) = 32)) as Ep by (intros l E; apply (fill_cases 32 l k (Hp l E))).
    destruct a as [a|].
    + destruct (fill_cases 32 a n (Ha a eq_refl)) as [G E]. change (Z.of_nat 32) with 32 in *. rewrite G.
      destruct (fits 32 n); cbn [negb]; [|by split; [|split]]. destruct (E eq_refl) as [-> ?].
      destruct p as [p|]; [|by split; [|split]]. destruct (Ep p eq_refl) as [-> Ek].
      destruct (fits 32 k); cbn [negb]; [|by split; [|split]]. destruct (Ek eq_refl) as [Ef ?].
      split; [|by split]. fw_unfold. cbn. by rewrite Ef.
    + destruct p as [p|]; [|by split; [|split]]. destruct (Ep p eq_refl) as [-> Ek].
      destruct (fits 32 k); cbn [negb]; [|by split; [|split]]. destruct (Ek eq_refl) as [Ef ?].
      split; [|by split]. fw_unfold. cbn. by rewrite Ef.
Qed.

(** ** Reading back *)

(** The text of a field ends in front of its first zero. *)
Fixpoint text (l : list Z) : list Z := match l with b :: l => if b =? 0 then [] else b :: text l | [] => [] end.

Lemma count_text n l : count_bytes n l = zlen (text (take n l)).
Proof.
  revert l. induction n as [|n IH]; intros [|b l]; cbn [count_bytes take text]; try done.
  destruct (b =? 0); [done|]. rewrite IH. unfold zlen. cbn [length]. lia.
Qed.
Lemma text_zeros l n : text (l ++ replicate n 0) = text l.
Proof. induction l as [|b l IH]; cbn; [by destruct n|]. by rewrite IH. Qed.

Lemma read_padded (n : nat) src len out :
  0 <= len <= zlen src → fits (Z.of_nat n) len = true → Z.of_nat n <= zlen out →
  ∃ out', store 0 (padded n src len) out = Ok out' ∧ take n out' = padded n src len ∧ drop n out' = drop n out ∧
    count_bytes n out' = zlen (text (take (Z.to_nat len) src)).
Proof.
  intros Hl Hf Ho. pose proof (padded_len n src len Hl Hf) as Hp. eexists. split; [apply store_Ok; lia|].
  unfold blit. change (Z.to_nat 0) with 0%nat. rewrite take_0. cbn [app Nat.add]. assert (length (padded n src len) = n) as En by (unfold zlen in Hp; lia).
  rewrite count_text, take_app_length' by done. split_and!; [done| |by unfold padded; rewrite text_zeros].
  rewrite drop_app_length' by done. by rewrite En.
Qed.

(** What was stored is read back: the server address and port, the client and the login come back as the bytes that were
    given, followed by zeros, with the count of the bytes in front of the first zero; the rest of the caller's buffers and
    the configuration stay as they are. *)
Theorem custom_read_back ip ip_len port id id_len acc acc_len pwd pwd_len out1 out2 out3 out4 c :
  0 <= ip_len <= zlen ip → 0 <= id_len <= zlen id → 0 <= acc_len <= zlen acc → 0 <= pwd_len <= zlen pwd →
  fits 16 ip_len && fits 16 id_len && fits 32 acc_len && fits 32 pwd_len = true →
  16 <= zlen out1 → 16 <= zlen out2 → 32 <= zlen out3 → 32 <= zlen out4 →
  ∃ c' o1 o2 o3 o4,
    (custom_set_server_info ip ip_len port;;; custom_set_client_id id id_len;;;
     custom_set_login_info (Some acc) acc_len (Some pwd) pwd_len)%fw c = Ok (UC_OP_SUCC, c') ∧
    custom_get_server_info out1 c' = Ok ((o1, zlen (text (take (Z.to_nat ip_len) ip)), port), c') ∧
    custom_get_client_id out2 c' = Ok ((o2, zlen (text (take (Z.to_nat id_len) id))), c') ∧
    custom_get_login_info out3 out4 c' = Ok ((o3, zlen (text (take (Z.to_nat acc_len) acc)),
                                             (o4, zlen (text (take (Z.to_nat pwd_len) pwd)))), c') ∧
    o1 = padded 16 ip ip_len ++ drop 16 out1 ∧ o2 = padded 16 id id_len ++ drop 16 out2 ∧
    o3 = padded 32 acc acc_len ++ drop 32 out3 ∧ o4 = padded 32 pwd pwd_len ++ drop 32 out4.
Proof.
  intros Hl1 Hl2 Hl3 Hl4 Hf Ho1 Ho2 Ho3 Ho4. rewrite !andb_true_iff in Hf. destruct Hf as [[[F1 F2] F3] F4].
  destruct (read_padded 16 ip ip_len out1 Hl1 F1 Ho1) as (o1 & R1 & T1 & D1 & C1).
  destruct (read_padded 16 id id_len out2 Hl2 F2 Ho2) as (o2 & R2 & T2 & D2 & C2).
  destruct (read_padded 32 acc acc_len out3 Hl3 F3 Ho3) as (o3 & R3 & T3 & D3 & C3).
  destruct (read_padded 32 pwd pwd_len out4 Hl4 F4 Ho4) as (o4 & R4 & T4 & D4 & C4).
  exists (set_password (padded 32 pwd pwd_len) (set_account (padded 32 acc acc_len)
    (set_client_id (padded 16 id id_len) (set_port port (set_ip (padded 16 ip ip_len) c))))), o1, o2, o3, o4.
  destruct (fill_cases 16 ip ip_len Hl1) as [G1 E1], (fill_cases 16 id id_len Hl2) as [G2 E2],
    (fill_cases 32 acc acc_len Hl3) as [G3 E3], (fill_cases 32 pwd pwd_len Hl4) as [G4 E4].
  change (Z.of_nat 16) with 16 in *. change (Z.of_nat 32) with 32 in *.
  unfold custom_set_server_info, custom_set_client_id, custom_set_login_info. rewrite G1, G2, G3, G4, F1, F2, F3, F4. cbn [negb].
  rewrite (proj1 (E1 F1)), (proj1 (E2 F2)), (proj1 (E3 F3)), (proj1 (E4 F4)).
  split; [done|]. unfold custom_get_server_info, custom_get_client_id, custom_get_login_info, read_field. fw_unfold.
  cbn [cd_ip cd_port cd_client_id cd_account cd_password set_ip set_port set_client_id set_account set_password].
  rewrite R1, R2, R3, R4. change (Z.to_nat 16) with 16%nat. rewrite C1, C2, C3, C4.
  rewrite <- T1, <- T2, <- T3, <- T4, <- D1, <- D2, <- D3, <- D4, !take_drop. done.
Qed.

(** ** Witnesses *)

Definition empty_config : custom_data_t :=
  {| cd_ip := replicate 16 0; cd_port := 0; cd_client_id := replicate 16 0; cd_account := replicate 32 0; cd_password := replicate 32 0 |}.
Definition demo_ip : list Z := [49; 48; 46; 48; 46; 48; 46; 49].

Lemma custom_set_spec_witness :
  custom_run (OpServer demo_ip 8 1883) empty_config = Ok (custom_spec (OpServer demo_ip 8 1883) empty_config) ∧
  custom_ok (custom_spec (OpServer demo_ip 8 1883) empty_config).2.
Proof. apply custom_set_spec; [by split|]. cbn. unfold zlen. cbn. lia. Defined.

Lemma custom_read_back_witness :
  ∃ c' o1 o2 o3 o4,
    (custom_set_server_info demo_ip 8 1883;;; custom_set_client_id [65; 80] 2;;;
     custom_set_login_info (Some [97; 98; 99]) 3 (Some [120; 0; 121]) 3)%fw empty_config = Ok (UC_OP_SUCC, c') ∧
    custom_get_server_info (replicate 20 255) c' = Ok ((o1, 8, 1883), c') ∧
    custom_get_client_id (replicate 16 255) c' = Ok ((o2, 2), c') ∧
    custom_get_login_info (replicate 32 255) (replicate 33 255) c' = Ok ((o3, 3, (o4, 1)), c') ∧
    o1 = padded 16 demo_ip 8 ++ drop 16 (replicate 20 255) ∧ o2 = padded 16 [65; 80] 2 ++ drop 16 (replicate 16 255) ∧
    o3 = padded 32 [97; 98; 99] 3 ++ drop 32 (replicate 32 255) ∧ o4 = padded 32 [120; 0; 121] 3 ++ drop 32 (replicate 33 255).
Proof.
  apply (custom_read_back demo_ip 8 1883 [65; 80] 2 [97; 98; 99] 3 [120; 0; 121] 3 (replicate 20 255) (replicate 16 255)
    (replicate 32 255) (replicate 33 255) empty_config); first [by split|reflexivity|unfold zlen; cbn; lia].
Defined.
