(* ===== verification/AtServer.v ===== *)
(** * The AT server

    rt-thread/components/net/at/src/at_server.c as this firmware changed it: the
    characters of the serial device are collected in [recv_buffer] until the end
    mark "\r\n" is in it; the name in front of the first '?', '=', '\r' or digit
    is looked up in the table of commands, and the rest of the line selects the
    test, query, setup or exec function.  The server's results and the lines a
    command prints are a list of outputs with the format and its arguments.

    The device is a list of what it delivers: a character, or a silence longer
    than any bounded wait.  The outcomes of rt_malloc to come are a list of
    booleans, and [at_live] counts the blocks in use. *)

From S2P Require Import Prelude WiotaApi.
From stdpp Require Import strings.
#[local] Open Scope Z_scope.
#[local] Open Scope list_scope.

(** ** Text *)

Definition chars (s : string) : list Z :=
  map (λ c, Z.of_nat (Ascii.nat_of_ascii c)) (String.list_ascii_of_string s).

Definition CR : Z := 13.
Definition LF : Z := 10.
Definition AT_CMD_END_MARK : list Z := [CR; LF].
Definition AT_CMD_QUESTION_MARK : Z := 63.
Definition AT_CMD_EQUAL_MARK : Z := 61.
Definition AT_CMD_COMMA_MARK : Z := 44.
Definition AT_CMD_CHAR_0 : Z := 48.
Definition AT_CMD_CHAR_9 : Z := 57.
Definition is_digit (c : Z) : bool := (AT_CMD_CHAR_0 <=? c) && (c <=? AT_CMD_CHAR_9).

(** A C string in a block of memory: the bytes in front of the first zero. *)
Fixpoint cstring (l : list Z) : result (list Z) :=
  match l with
  | [] => Fault OutOfBounds
  | b :: l => if b =? 0 then Ok [] else rbind (cstring l) (λ s, Ok (b :: s))
  end.

(** One byte of a block. *)
Definition peek (l : list Z) (i : Z) : result Z :=
  match (if i <? 0 then None else l !! Z.to_nat i) with Some b => Ok b | None => Fault OutOfBounds end.

(** Comparing the bytes of a block one after the other, up to the first difference. *)
Fixpoint starts (a pat : list Z) : result bool :=
  match pat with
  | [] => Ok true
  | p :: pat => match a with
                | [] => Fault OutOfBounds
                | c :: a => if c =? p then starts a pat else Ok false
                end
  end.

(** rt_strstr: is [s2] somewhere in [s1]? *)
Fixpoint rt_strstr (s1 s2 : list Z) : bool :=
  if (length s1 <? length s2)%nat then false
  else if bool_decide (take (length s2) s1 = s2) then true
  else match s1 with [] => false | _ :: s1 => rt_strstr s1 s2 end.

Definition lower (c : Z) : Z := if (65 <=? c) && (c <=? 90) then c + 32 else c.
(** strcasecmp(a, b) == 0. *)
Definition same_name (a b : list Z) : bool := bool_decide (map lower a = map lower b).

(** ** State *)

Inductive at_result : Set :=
| AT_RESULT_OK | AT_RESULT_FAILE | AT_RESULT_NULL | AT_RESULT_CMD_ERR | AT_RESULT_CHECK_FAILE
| AT_RESULT_PARSE_FAILE | AT_RESULT_REPETITIVE_FAILE
| AT_RESULT_VALUE (code : Z).   (* a value the enumeration has no name for *)
#[export] Instance at_result_eq_dec : EqDecision at_result.
Proof. solve_decision. Defined.

(** What is sent: a format with its arguments, with or without a new line, or bytes. *)
(** A float is its bits, printed with four decimals. *)
Inductive at_arg : Set := AInt (z : Z) | AStr (s : list Z) | AFloat (bits : Z).
Inductive at_output : Set :=
| Println (format : string) (args : list at_arg)
| Printf (format : string) (args : list at_arg)
| Data (buffer : list Z).

(** What the commands do with the serial device and the console. *)
Inductive device_op : Set :=
| DeviceClose | DeviceOpen | DeviceBaud (baud : Z) | ConsoleSet (uart : Z).

Record at_state (R : Type) := {
  at_lib : R;
  at_out : list at_output;
  at_uart : list (option Z);
  at_mem : list bool;
  at_live : Z;
  at_echo : bool;
  recv_buffer : list Z;
  cur_recv_len : Z;
  at_str : list Z;
  at_device : list device_op;
  at_meminfo : Z * Z
}.
Arguments at_lib {R} _.
Arguments at_out {R} _.
Arguments at_uart {R} _.
Arguments at_mem {R} _.
Arguments at_live {R} _.
Arguments at_echo {R} _.
Arguments recv_buffer {R} _.
Arguments cur_recv_len {R} _.
Arguments at_str {R} _.
Arguments at_device {R} _.
Arguments at_meminfo {R} _.

Section Setters.
Context {R : Type}.
Implicit Types s : at_state R.
Definition with_lib v s : at_state R := {| at_lib := v; at_out := at_out s; at_uart := at_uart s; at_mem := at_mem s; at_live := at_live s; at_echo := at_echo s; recv_buffer := recv_buffer s; cur_recv_len := cur_recv_len s; at_str := at_str s; at_device := at_device s; at_meminfo := at_meminfo s |}.
Definition with_out v s := {| at_lib := at_lib s; at_out := v; at_uart := at_uart s; at_mem := at_mem s; at_live := at_live s; at_echo := at_echo s; recv_buffer := recv_buffer s; cur_recv_len := cur_recv_len s; at_str := at_str s; at_device := at_device s; at_meminfo := at_meminfo s |}.
Definition with_uart v s := {| at_lib := at_lib s; at_out := at_out s; at_uart := v; at_mem := at_mem s; at_live := at_live s; at_echo := at_echo s; recv_buffer := recv_buffer s; cur_recv_len := cur_recv_len s; at_str := at_str s; at_device := at_device s; at_meminfo := at_meminfo s |}.
Definition with_mem v n s := {| at_lib := at_lib s; at_out := at_out s; at_uart := at_uart s; at_mem := v; at_live := n; at_echo := at_echo s; recv_buffer := recv_buffer s; cur_recv_len := cur_recv_len s; at_str := at_str s; at_device := at_device s; at_meminfo := at_meminfo s |}.
Definition with_buf v n s := {| at_lib := at_lib s; at_out := at_out s; at_uart := at_uart s; at_mem := at_mem s; at_live := at_live s; at_echo := at_echo s; recv_buffer := v; cur_recv_len := n; at_str := at_str s; at_device := at_device s; at_meminfo := at_meminfo s |}.
Definition with_str v s := {| at_lib := at_lib s; at_out := at_out s; at_uart := at_uart s; at_mem := at_mem s; at_live := at_live s; at_echo := at_echo s; recv_buffer := recv_buffer s; cur_recv_len := cur_recv_len s; at_str := v; at_device := at_device s; at_meminfo := at_meminfo s |}.
Definition with_device v s := {| at_lib := at_lib s; at_out := at_out s; at_uart := at_uart s; at_mem := at_mem s; at_live := at_live s; at_echo := at_echo s; recv_buffer := recv_buffer s; cur_recv_len := cur_recv_len s; at_str := at_str s; at_device := v; at_meminfo := at_meminfo s |}.
Lemma at_state_ext s t :
  at_lib s = at_lib t → at_out s = at_out t → at_uart s = at_uart t → at_mem s = at_mem t → at_live s = at_live t → at_echo s = at_echo t →
  recv_buffer s = recv_buffer t → cur_recv_len s = cur_recv_len t → at_str s = at_str t → at_device s = at_device t → at_meminfo s = at_meminfo t →
  s = t.
Proof. destruct s, t. cbn. intros; subst; done. Qed.
End Setters.

(** Code that is not in the repository: [parse] of ati_prs.h reads the arguments
    by a format and gives one value for each conversion, [None] for one it does
    not reach; [uninit] is what an uninitialised variable holds; the GNSS
    receiver takes the lines that begin with '$'. *)
Class AtEnv (R : Type) := {
  parse : list Z → string → option (list (option Z));
  uninit : nat → Z;
  gnss_send_cmd : list Z → R → Z * R
}.

Section Server.
Context {R : Type} `{LIB : WiotaLib R} `{ENV : AtEnv R}.
Local Abbreviation M := (FW (at_state R)).
Local Open Scope fw_scope.

(** ** Output, input and memory *)

Definition wiota {T} (e : wiotaE T) : M T :=
  λ s, let r := wiota_call e (at_lib s) in Ok (r.1, with_lib r.2 s).
Definition emit (o : at_output) : M unit := fmod (λ s, with_out (at_out s ++ [o]) s).
Definition at_server_printfln (format : string) (args : list at_arg) : M unit := emit (Println format args).
Definition at_server_printf (format : string) (args : list at_arg) : M unit := emit (Printf format args).
Definition at_send_data (buffer : list Z) (len : Z) : M unit :=
  d <-- flift (slice 0 len buffer);; emit (Data d).

Definition rt_malloc (size : Z) : M bool := λ s,
  if size =? 0 then Ok (false, s)
  else let b := default true (head (at_mem s)) in
       Ok (b, with_mem (tail (at_mem s)) (at_live s + (if b then 1 else 0)) s).
Definition rt_free : M unit := fmod (λ s, with_mem (at_mem s) (at_live s - 1) s).
(** The library hands [n] blocks to the caller. *)
Definition adopt (n : Z) : M unit := fmod (λ s, with_mem (at_mem s) (at_live s + n) s).

(** The next character; without a limit a silence is only waited out. *)
Fixpoint next_char (l : list (option Z)) : option (Z * list (option Z)) :=
  match l with
  | [] => None
  | None :: l => next_char l
  | Some c :: l => Some (c, l)
  end.
Definition at_server_gerchar (forever : bool) : M (option Z) := λ s,
  if forever then
    match next_char (at_uart s) with
    | None => Ok (None, s)
    | Some (c, l) => Ok (Some c, with_uart l s)
    end
  else
    match at_uart s with
    | [] => Ok (None, s)
    | x :: l => Ok (x, with_uart l s)
    end.

(** The count that was read, 0 after a wait that timed out, and the bytes. *)
Fixpoint recv_loop (n : nat) (got : list Z) : M (Z * list Z) :=
  match n with
  | O => fret (zlen got, got)
  | S n => ch <-- at_server_gerchar false;;
           match ch with None => fret (0, got) | Some c => recv_loop n (got ++ [c]) end
  end.
Definition at_server_recv (size : Z) : M (Z * list Z) := recv_loop (Z.to_nat size) [].

(** ** Results *)

Definition at_server_print_result (result : at_result) : M unit :=
  match result with
  | AT_RESULT_OK => at_server_printfln "OK" []
  | AT_RESULT_FAILE => at_server_printfln "ERROR" []
  | AT_RESULT_NULL | AT_RESULT_VALUE _ => fret tt
  | AT_RESULT_CMD_ERR => at_server_printfln "ERR CMD MATCH FAILED!" [];;; at_server_printfln "ERROR" []
  | AT_RESULT_CHECK_FAILE => at_server_printfln "ERR CHECK ARGS FORMAT FAILED!" [];;; at_server_printfln "ERROR" []
  | AT_RESULT_PARSE_FAILE => at_server_printfln "ERR PARSE ARGS FAILED!" [];;; at_server_printfln "ERROR" []
  | AT_RESULT_REPETITIVE_FAILE => at_server_printfln "ERR REPETITIVE OPERATION FAILED!" [];;; at_server_printfln "ERROR" []
  end.

(** ** Commands *)

Record at_cmd := {
  cmd_name : string;
  args_expr : option string;
  cmd_test : option (M at_result);
  cmd_query : option (M at_result);
  cmd_setup : option (list Z → M at_result);
  cmd_exec : option (M at_result)
}.

Definition count (c : Z) (l : list Z) : Z := zlen (filter (λ x, x = c) l).
(** 0, or -1 when the brackets of the format or the commas of the line do not fit. *)
Definition at_check_args (args args_format : list Z) : Z :=
  let left_sq := count 91 args_format in
  let right_sq := count 93 args_format in
  let left_angle := count 60 args_format in
  let right_angle := count 62 args_format in
  if negb (left_sq =? right_sq) || negb (left_angle =? right_angle) || (left_angle <? left_sq) then -1
  else
    let comma := count AT_CMD_COMMA_MARK args in
    if (comma + 1 <? u32 (left_angle - left_sq)) || (left_angle <? comma + 1) then -1 else 0.

(** Commands whose arguments are not checked: rt_strncmp over the length of the name. *)
Definition unchecked (name : list Z) : bool :=
  bool_decide (take (length name) (chars "AT+RSSI") = name) || bool_decide (take (length name) (chars "AT+FREQ") = name).

Definition run_cmd (f : option (M at_result)) : M Z :=
  match f with
  | None => at_server_print_result AT_RESULT_CMD_ERR;;; fret (-1)
  | Some f => result <-- f;; at_server_print_result result;;; fret 0
  end.

Definition at_cmd_process (cmd : at_cmd) (cmd_args : list Z) : M Z :=
  is_test <-- flift (starts cmd_args [AT_CMD_EQUAL_MARK; AT_CMD_QUESTION_MARK; CR]);;
  if is_test : bool then run_cmd (cmd_test cmd)
  else
    is_query <-- flift (starts cmd_args [AT_CMD_QUESTION_MARK; CR]);;
    if is_query : bool then run_cmd (cmd_query cmd)
    else
      c0 <-- flift (peek cmd_args 0);;
      is_setup <-- (if c0 =? AT_CMD_EQUAL_MARK then fret true
                    else if is_digit c0 then c1 <-- flift (peek cmd_args 1);; fret (c1 =? CR)
                    else fret false);;
      if is_setup : bool then
        match cmd_setup cmd with
        | None => run_cmd None
        | Some setup =>
            ok <-- (if unchecked (chars (cmd_name cmd)) then fret true
                    else match args_expr cmd with
                         | None => ffail AssertFail
                         | Some e => s <-- flift (cstring cmd_args);; fret (negb (at_check_args s (chars e) <? 0))
                         end);;
            if negb ok then at_server_print_result AT_RESULT_CHECK_FAILE;;; fret (-1)
            else run_cmd (Some (setup cmd_args))
        end
      else if c0 =? CR then run_cmd (cmd_exec cmd)
      else fret (-1).

Variable cmd_table : list at_cmd.

Definition at_find_cmd (cmd : list Z) : option at_cmd :=
  List.find (λ c, same_name cmd (chars (cmd_name c))) cmd_table.

Definition AT_CMD_NAME_LEN : Z := 20.
Definition AT_SERVER_RECV_BUFF_LEN : Z := 1024.

Definition name_end (c : Z) : bool :=
  (c =? AT_CMD_QUESTION_MARK) || (c =? AT_CMD_EQUAL_MARK) || (c =? CR) || is_digit c.
Fixpoint name_loop (i : Z) (l : list Z) : option Z :=
  match l with
  | [] => None
  | c :: l => if name_end c then Some i else name_loop (i + 1) l
  end.
(** 0 and the name, which ends with a zero, in the caller's array; or -1. *)
Definition at_cmd_get_name (cmd_buffer cmd_name : list Z) : result (Z * list Z) :=
  s <-? cstring cmd_buffer;;
  match name_loop 0 s with
  | None => Ok (-1, cmd_name)
  | Some i =>
      if i >=? AT_CMD_NAME_LEN then Ok (-1, cmd_name)
      else n <-? slice 0 i cmd_buffer;; cmd_name <-? store 0 (n ++ [0]) cmd_name;; Ok (0, cmd_name)
  end.

(** ** The parser *)

Definition clear_buffer : M unit := fmod (with_buf (replicate (Z.to_nat AT_SERVER_RECV_BUFF_LEN) 0) 0).

Definition to_gnss (line : list Z) : M Z := λ s, let r := gnss_send_cmd line (at_lib s) in Ok (r.1, with_lib r.2 s).
(** A whole line is in the buffer; the array with the name is kept by the caller. *)
Definition handle_line (cur_cmd_name : list Z) : M (list Z) :=
  s <-- fget;;
  let buf := recv_buffer s in
  b0 <-- flift (peek buf 0);;
  taken <-- (if b0 =? 36 then
               line <-- flift (cstring buf);;
               r <-- to_gnss line;;
               fret (r =? 0)
             else fret false);;
  if taken : bool then at_server_print_result AT_RESULT_OK;;; fret cur_cmd_name
  else
    r <-- flift (at_cmd_get_name buf cur_cmd_name);;
    let '(err, cur_cmd_name) := r in
    if err <? 0 then at_server_print_result AT_RESULT_CMD_ERR;;; fret cur_cmd_name
    else
      name <-- flift (cstring cur_cmd_name);;
      match at_find_cmd name with
      | None => at_server_print_result AT_RESULT_CMD_ERR;;; fret cur_cmd_name
      | Some cmd => at_cmd_process cmd (drop (length name) buf);;; fret cur_cmd_name
      end.

(** What a round of the parser's loop leads to: another one with the last
    character and the name array, the end of the thread, or waiting for ever. *)
Inductive parser_next : Set := Again (last_ch : Z) (name : list Z) | Quit | Waits.

(** The echo; true when the character was a correction. *)
Definition echo (ch last_ch : Z) : M bool :=
  s <-- fget;;
  if negb (at_echo s) then fret false
  else if (ch =? CR) || ((ch =? LF) && negb (last_ch =? CR)) then at_server_printf "%c%c" [AInt CR; AInt LF];;; fret false
  else if ch =? LF then fret false
  else if (ch =? 8) || (ch =? 127) then
    (if negb (cur_recv_len s =? 0) then
       b <-- flift (store (cur_recv_len s - 1) [0] (recv_buffer s));;
       fmod (with_buf b (cur_recv_len s - 1));;; at_server_printf "\b \b" []
     else fret tt);;; fret true
  else at_server_printf "%c" [AInt ch];;; fret false.

Definition parser_step (last_ch : Z) (name : list Z) : M parser_next :=
  c <-- at_server_gerchar true;;
  match c with
  | None => fret Waits
  | Some ch =>
      if ch =? 0 then fret (Again last_ch name)
      else if ch =? 27 then fret Quit
      else
        correction <-- echo ch last_ch;;
        if correction : bool then fret (Again last_ch name)
        else
          s <-- fget;;
          b <-- flift (store (cur_recv_len s) [ch] (recv_buffer s));;
          let n := cur_recv_len s + 1 in
          fmod (with_buf b n);;;
          line <-- flift (cstring b);;
          if negb (rt_strstr line AT_CMD_END_MARK) then
            (if n + 1 =? AT_SERVER_RECV_BUFF_LEN then clear_buffer else fret tt);;; fret (Again ch name)
          else name <-- handle_line name;; clear_buffer;;; fret (Again ch name)
  end.

(** The thread; a round reads at least one character. *)
Fixpoint parser_loop (n : nat) (last_ch : Z) (name : list Z) : M bool :=
  match n with
  | O => ffail OutOfFuel
  | S n => r <-- parser_step last_ch name;;
           match r with Again l nm => parser_loop n l nm | Quit => fret true | Waits => fret false end
  end.
Definition server_parser : M bool :=
  s <-- fget;; parser_loop (S (length (at_uart s))) 32 (replicate (Z.to_nat AT_CMD_NAME_LEN) 0).
End Server.

(** ** The buffer is a line being typed

    The abstract server keeps the characters of the line as a list; a line is
    over when it ends with the end mark, and a line that fills the buffer is
    dropped. *)

Section Lines.
Context {R : Type} `{LIB : WiotaLib R} `{ENV : AtEnv R}.
Variable cmd_table : list (@at_cmd R).

Definition with_line (acc : list Z) (s : at_state R) : at_state R :=
  with_buf (acc ++ replicate (Z.to_nat AT_SERVER_RECV_BUFF_LEN - length acc) 0) (zlen acc) s.
Definition ends_line (l : list Z) : bool := bool_decide (drop (length l - 2) l = AT_CMD_END_MARK).

Fixpoint line_loop (n : nat) (acc name : list Z) (s : at_state R) : result (bool * list Z * at_state R) :=
  match n with
  | O => Fault OutOfFuel
  | S n =>
      match next_char (at_uart s) with
      | None => Ok (false, acc, s)
      | Some (c, u) =>
          if c =? 0 then line_loop n acc name (with_uart u s)
          else if c =? 27 then Ok (true, acc, with_uart u s)
          else if ends_line (acc ++ [c]) then
            match handle_line cmd_table name (with_line (acc ++ [c]) (with_uart u s)) with
            | Ok (name, s) => line_loop n [] name s
            | Fault f => Fault f
            end
          else line_loop n (if (length acc =? 1022)%nat then [] else acc ++ [c]) name (with_uart u s)
      end
  end.

Definition line_ok (acc : list Z) : Prop :=
  Forall (λ c, c ≠ 0) acc ∧ (length acc ≤ 1022)%nat ∧ rt_strstr acc AT_CMD_END_MARK = false.

Lemma cstring_at l k : Forall (λ c, c ≠ 0) l → cstring (l ++ 0 :: k) = Ok l.
Proof. induction 1 as [|c l Hc _ IH]; cbn [app cstring]; [done|]. rewrite (proj2 (Z.eqb_neq c 0)), IH by done. done. Qed.

Lemma cstring_zeros l n : Forall (λ c, c ≠ 0) l → (0 < n)%nat → cstring (l ++ replicate n 0) = Ok l.
Proof.
  intros Hl Hn. destruct n; [lia|]. by apply cstring_at.
Qed.

Lemma strstr_more x y l : rt_strstr (x :: y :: l) AT_CMD_END_MARK =
  if bool_decide ([x; y] = AT_CMD_END_MARK) then true else rt_strstr (y :: l) AT_CMD_END_MARK.
Proof. reflexivity. Qed.

Lemma strstr_snoc l c : rt_strstr l AT_CMD_END_MARK = false → rt_strstr (l ++ [c]) AT_CMD_END_MARK = ends_line (l ++ [c]).
Proof.
  unfold ends_line. induction l as [|x l IH]; intros Hl; [cbn; by case_bool_decide|].
  destruct l as [|y l]; [cbn; repeat case_bool_decide; done|].
  cbn [app]. rewrite strstr_more in Hl. rewrite strstr_more. destruct (bool_decide ([x; y] = _)); [done|].
  specialize (IH Hl). cbn [app] in IH. rewrite IH. cbn [length]. rewrite !length_app. cbn [length].
  replace (S (length l + 1) - 2)%nat with (length l) by lia.
  replace (S (S (length l + 1)) - 2)%nat with (S (length l)) by lia. done.
Qed.

Lemma strstr_prefix l k : rt_strstr (l ++ k) AT_CMD_END_MARK = false → rt_strstr l AT_CMD_END_MARK = false.
Proof.
  induction l as [|x l IH]; [done|]. destruct l as [|y l]; [done|]. cbn [app]. rewrite !strstr_more.
  destruct (bool_decide _); [done|]. exact IH.
Qed.

Lemma line_ok_snoc acc c : line_ok acc → c ≠ 0 → ends_line (acc ++ [c]) = false →
  line_ok (if (length acc =? 1022)%nat then [] else acc ++ [c]).
Proof.
  intros (Ha & Hl & Hs) Hc He. destruct (Nat.eqb_spec (length acc) 1022); [repeat split; [constructor|cbn; lia]|].
  split_and!; [by apply Forall_app; auto using Forall_cons, Forall_nil|rewrite length_app; cbn [length]; lia|].
  by rewrite strstr_snoc.
Qed.

Lemma line_ok_nil : line_ok [].
Proof. repeat split; [constructor|cbn; lia]. Qed.

(** One more character in the buffer. *)
Lemma store_char acc c : (length acc ≤ 1022)%nat →
  store (zlen acc) [c] (acc ++ replicate (Z.to_nat AT_SERVER_RECV_BUFF_LEN - length acc) 0)
  = Ok ((acc ++ [c]) ++ replicate (Z.to_nat AT_SERVER_RECV_BUFF_LEN - length (acc ++ [c])) 0).
Proof.
  intros Hl. unfold AT_SERVER_RECV_BUFF_LEN. rewrite store_Ok; [|apply zlen_nonneg|rewrite zlen_app; unfold zlen; rewrite length_replicate; cbn [length]; lia].
  rewrite length_app. cbn [length]. replace (Z.to_nat 1024 - length acc)%nat with (S (Z.to_nat 1024 - (length acc + 1))) by lia.
  cbn [replicate]. change (0 :: ?l) with ([0] ++ l). rewrite blit_app_mid by done. by rewrite <- app_assoc.
Qed.

(** A round of the loop with a character that belongs to a line. *)
Lemma step_char last acc name s c u :
  line_ok acc → at_echo s = false → next_char (at_uart s) = Some (c, u) → c ≠ 0 → c ≠ 27 →
  parser_step cmd_table last name (with_line acc s) =
  if ends_line (acc ++ [c]) then
    match handle_line cmd_table name (with_line (acc ++ [c]) (with_uart u s)) with
    | Ok (nm, s) => Ok (Again c nm, with_line [] s)
    | Fault f => Fault f
    end
  else Ok (Again c name, with_line (if (length acc =? 1022)%nat then [] else acc ++ [c]) (with_uart u s)).
Proof.
  intros (Ha & Hl & Hs) He En Hc0 Hc1. unfold parser_step.
  assert (at_server_gerchar true (with_line acc s) = Ok (Some c, with_line acc (with_uart u s))) as Eg.
  { unfold at_server_gerchar. cbn [at_uart with_line with_buf]. rewrite En. done. }
  rewrite (bind_Ok _ _ _ _ _ Eg), (proj2 (Z.eqb_neq c 0)), (proj2 (Z.eqb_neq c 27)) by done.
  assert (echo c last (with_line acc (with_uart u s)) = Ok (false, with_line acc (with_uart u s))) as Ee.
  { unfold echo. erewrite bind_Ok by reflexivity. cbn [at_echo with_line with_buf with_uart]. rewrite He. done. }
  rewrite (bind_Ok _ _ _ _ _ Ee). erewrite bind_Ok by reflexivity.
  cbn [recv_buffer cur_recv_len with_line with_buf]. rewrite store_char by done.
  erewrite bind_Ok by reflexivity. erewrite bind_Ok by reflexivity.
  rewrite cstring_zeros; [|apply Forall_app; auto using Forall_cons, Forall_nil|unfold AT_SERVER_RECV_BUFF_LEN; rewrite length_app; cbn [length]; lia].
  erewrite bind_Ok by reflexivity. rewrite strstr_snoc by done.
  replace (with_buf _ _ _) with (with_line (acc ++ [c]) (with_uart u s)).
  2: { unfold with_line. rewrite zlen_app. done. }
  destruct (ends_line (acc ++ [c])); cbn [negb].
  - unfold fbind at 1. destruct (handle_line _ _ _) as [[nm s']|f]; done.
  - destruct (Nat.eqb_spec (length acc) 1022) as [E|E].
    + rewrite (proj2 (Z.eqb_eq _ _)) by (unfold zlen, AT_SERVER_RECV_BUFF_LEN; lia). done.
    + rewrite (proj2 (Z.eqb_neq _ _)) by (unfold zlen, AT_SERVER_RECV_BUFF_LEN; lia). done.
Qed.

Lemma parser_line n : ∀ last acc name s,
  line_ok acc → at_echo s = false →
  (∀ name, Keeps (λ s, at_echo s = false) (handle_line cmd_table name) (λ _, True)) →
  parser_loop cmd_table n last name (with_line acc s) =
  match line_loop n acc name s with
  | Ok (b, acc, s) => Ok (b, with_line acc s)
  | Fault f => Fault f
  end.
Proof.
  induction n as [|n IH]; intros last acc name s Hok He Hk; [done|].
  cbn [parser_loop line_loop]. destruct (next_char (at_uart s)) as [[c u]|] eqn:En.
  2: { unfold parser_step, fbind, at_server_gerchar. cbn [at_uart with_line with_buf]. rewrite En. done. }
  assert (at_server_gerchar true (with_line acc s) = Ok (Some c, with_line acc (with_uart u s))) as Eg.
  { unfold at_server_gerchar. cbn [at_uart with_line with_buf]. rewrite En. done. }
  destruct (Z.eqb_spec c 0) as [->|Hc].
  { unfold parser_step. rewrite fbind_assoc, (bind_Ok _ _ _ _ _ Eg). by apply IH. }
  destruct (Z.eqb_spec c 27) as [->|Hc'].
  { unfold parser_step. rewrite fbind_assoc, (bind_Ok _ _ _ _ _ Eg). done. }
  unfold fbind. rewrite (step_char last acc name s c u) by done. destruct (ends_line (acc ++ [c])) eqn:El.
  - destruct (handle_line _ _ _) as [[nm s']|f] eqn:Eh; [|done]. apply IH; [apply line_ok_nil| |done].
    eapply Hk; [|exact Eh]. exact He.
  - apply IH; [by apply line_ok_snoc|done|done].
Qed.

(** The characters of a line are collected. *)
Lemma line_collect l : ∀ acc name s u n,
  line_ok (acc ++ l) → Forall (λ c, c ≠ 27) l → at_uart s = map Some l ++ u →
  line_loop (length l + n) acc name s = line_loop n (acc ++ l) name (with_uart u s).
Proof.
  induction l as [|c l IH]; intros acc name s u n Hok Hq Hu.
  - rewrite app_nil_r. cbn [map app length] in *. rewrite <- Hu. cbn. by destruct s.
  - inversion Hq as [|? ? Hc Hq']; subst. cbn [length Nat.add line_loop map app] in *. rewrite Hu. cbn [next_char].
    rewrite (app_assoc acc [c] l : acc ++ c :: l = _) in Hok |- *. pose proof Hok as (Ha & Hl & Hs).
    apply Forall_app in Ha as [Ha _]. apply strstr_prefix in Hs. rewrite length_app in Hl.
    pose proof (proj1 (Forall_app _ _ _) Ha) as [_ Hc0]. inversion Hc0 as [|? ? Hc0' _]; subst.
    rewrite (proj2 (Z.eqb_neq c 0)), (proj2 (Z.eqb_neq c 27)) by done.
    rewrite <- strstr_snoc, Hs by (by eapply strstr_prefix).
    rewrite length_app in Hl. cbn [length] in Hl. rewrite (proj2 (Nat.eqb_neq (length acc) 1022)) by lia.
    by rewrite (IH (acc ++ [c]) name _ u).
Qed.

(** ** Requests *)

Inductive request : Set := RTest | RQuery | RExec | RSetup (args : list Z).
Definition request_text (r : request) : list Z :=
  match r with
  | RTest => [AT_CMD_EQUAL_MARK; AT_CMD_QUESTION_MARK]
  | RQuery => [AT_CMD_QUESTION_MARK]
  | RExec => []
  | RSetup args => AT_CMD_EQUAL_MARK :: args
  end.
Definition request_ok (r : request) : Prop :=
  match r with RSetup args => args ≠ [AT_CMD_QUESTION_MARK] ∧ take 2 args ≠ [AT_CMD_QUESTION_MARK; CR] | _ => True end.

Definition answer (f : option (FW (at_state R) at_result)) : FW (at_state R) unit :=
  match f with
  | None => at_server_print_result AT_RESULT_CMD_ERR
  | Some f => fbind f at_server_print_result
  end.
(** What the function of a request gets: the rest of the line in the buffer. *)
Definition serve (cmd : @at_cmd R) (r : request) (rest : list Z) : FW (at_state R) unit :=
  match r with
  | RTest => answer (cmd_test cmd)
  | RQuery => answer (cmd_query cmd)
  | RExec => answer (cmd_exec cmd)
  | RSetup args =>
      match cmd_setup cmd, args_expr cmd with
      | None, _ => at_server_print_result AT_RESULT_CMD_ERR
      | Some setup, None => if unchecked (chars (cmd_name cmd)) then answer (Some (setup rest)) else ffail AssertFail
      | Some setup, Some e =>
          if unchecked (chars (cmd_name cmd)) || (0 <=? at_check_args (AT_CMD_EQUAL_MARK :: args) (chars e))
          then answer (Some (setup rest)) else at_server_print_result AT_RESULT_CHECK_FAILE
      end
  end.

Lemma check_args_crlf a e : at_check_args (a ++ AT_CMD_END_MARK) e = at_check_args a e.
Proof.
  unfold at_check_args. replace (count AT_CMD_COMMA_MARK (a ++ AT_CMD_END_MARK)) with (count AT_CMD_COMMA_MARK a); [done|].
  unfold count. rewrite filter_app, app_nil_r. done.
Qed.

Lemma run_cmd_answer (f : option (FW (at_state R) at_result)) A (x : A) s :
  fbind (run_cmd f) (λ _, fret x) s = fbind (answer f) (λ _, fret x) s.
Proof.
  destruct f as [f|]; cbn [run_cmd answer]; [|reflexivity]. unfold fbind. destruct (f s) as [[a s']|]; [|done]. destruct a; reflexivity.
Qed.

Lemma process_serves cmd r k A (x : A) s :
  request_ok r → Forall (λ c, c ≠ 0) (request_text r) → (0 < k)%nat →
  let rest := request_text r ++ AT_CMD_END_MARK ++ replicate k 0 in
  fbind (at_cmd_process cmd rest) (λ _, fret x) s = fbind (serve cmd r rest) (λ _, fret x) s.
Proof.
  intros Hr H0 Hk rest. subst rest. unfold at_cmd_process. destruct r as [| | |args]; cbn [request_text app].
  - fw_run. apply run_cmd_answer.
  - do 2 fw_run. apply run_cmd_answer.
  - do 4 fw_run. apply run_cmd_answer.
  - assert (starts (AT_CMD_EQUAL_MARK :: args ++ AT_CMD_END_MARK ++ replicate k 0) [AT_CMD_EQUAL_MARK; AT_CMD_QUESTION_MARK; CR] = Ok false) as E.
    { cbn [request_ok] in Hr. destruct args as [|a [|b args]]; cbn [starts app AT_CMD_END_MARK Z.eqb AT_CMD_EQUAL_MARK Pos.eqb].
      - done.
      - destruct (Z.eqb_spec a AT_CMD_QUESTION_MARK) as [->|]; [|done]. by destruct Hr.
      - destruct (Z.eqb_spec a AT_CMD_QUESTION_MARK) as [->|]; [|done]. destruct (Z.eqb_spec b CR) as [->|]; [|done]. by destruct Hr. }
    rewrite E. do 4 fw_run. cbn [serve].
    destruct (cmd_setup cmd) as [setup|]; [|apply (run_cmd_answer None)].
    rewrite fbind_assoc. destruct (unchecked _).
    { fw_run. destruct (args_expr cmd); apply run_cmd_answer. }
    destruct (args_expr cmd) as [e|]; [|reflexivity]. cbn [request_text] in H0.
    rewrite fbind_assoc. rewrite (app_assoc (_ :: _) AT_CMD_END_MARK (replicate k 0) : AT_CMD_EQUAL_MARK :: args ++ _ = _).
    rewrite cstring_zeros; [|apply Forall_app; split; [done|repeat constructor; done]|done].
    do 2 fw_run. rewrite check_args_crlf. cbn [orb].
    rewrite Z.leb_antisym. destruct (at_check_args _ _ <? 0); cbn [negb]; [reflexivity|apply run_cmd_answer].
Qed.

(** ** The name of a command *)

Definition name_ok (n : list Z) : bool :=
  forallb (λ c, negb (name_end c) && negb (c =? 0)) n && (zlen n <? AT_CMD_NAME_LEN) && match n with c :: _ => lower c =? 97 | [] => false end.
Definition table_ok (l : list (@at_cmd R)) : bool :=
  forallb (λ c, name_ok (chars (cmd_name c))) l && bool_decide (NoDup (map (λ c, map lower (chars (cmd_name c))) l)).

Definition name_char (c : Z) : bool := negb (name_end c) && negb (c =? 0).
Lemma name_char_lower c : name_char (lower c) = name_char c.
Proof.
  unfold name_char, lower, name_end, is_digit, AT_CMD_QUESTION_MARK, AT_CMD_EQUAL_MARK, CR, AT_CMD_CHAR_0, AT_CMD_CHAR_9.
  destruct (Z.leb_spec 65 c), (Z.leb_spec c 90); cbn [andb]; try done.
  repeat match goal with
  | |- context [?a =? ?b] => destruct (Z.eqb_spec a b); [lia|]
  | |- context [?a <=? ?b] => destruct (Z.leb_spec a b); try lia
  end; done.
Qed.
Lemma name_ok_same a b : same_name a b = true → name_ok b = name_ok a.
Proof.
  unfold same_name. intros E%bool_decide_eq_true. unfold name_ok. fold name_char.
  assert (∀ l, forallb name_char l = forallb name_char (map lower l)) as Hf.
  { induction l as [|c l IH]; [done|]. cbn [map forallb]. by rewrite name_char_lower, IH. }
  rewrite (Hf a), (Hf b), E. pose proof (f_equal zlen E) as El. rewrite !zlen_map in El. rewrite El.
  f_equal. destruct a, b; try done. cbn [map] in E. by injection E as -> _.
Qed.

Lemma name_loop_at n x l : ∀ i, forallb (λ c, negb (name_end c)) n = true → name_end x = true → name_loop i (n ++ x :: l) = Some (i + zlen n).
Proof.
  induction n as [|c n IH]; intros i Hn Hx; cbn [name_loop app].
  - rewrite Hx, zlen_nil. f_equal. lia.
  - cbn [forallb] in Hn. apply andb_prop in Hn as [Hc Hn]. apply negb_true_iff in Hc. rewrite Hc, (IH (i + 1)), zlen_cons by done. f_equal. lia.
Qed.

Lemma find_same nm cmd l : table_ok l = true → cmd ∈ l → same_name nm (chars (cmd_name cmd)) = true →
  List.find (λ c, same_name nm (chars (cmd_name c))) l = Some cmd.
Proof.
  unfold table_ok. intros [_ Hn%bool_decide_eq_true]%andb_prop Hin Hs. induction Hin as [c l|c d l Hin IH]; cbn [List.find].
  - by rewrite Hs.
  - cbn [map] in Hn. inversion Hn as [|? ? Hnin Hn']; subst. destruct (same_name nm (chars (cmd_name d))) eqn:Ed; [|by apply IH].
    destruct Hnin. unfold same_name in Hs, Ed. apply bool_decide_eq_true in Hs, Ed. rewrite <- Ed, Hs.
    exact (list_elem_of_fmap_2 (λ c, map lower (chars (cmd_name c))) l c Hin).
Qed.

(** A line whose name is that of a command. *)
Lemma handle_line_serves nm cmd r arr s :
  table_ok cmd_table = true → cmd ∈ cmd_table → same_name nm (chars (cmd_name cmd)) = true →
  request_ok r → Forall (λ c, c ≠ 0) (request_text r) → (length nm + length (request_text r) + 2 ≤ 1023)%nat → zlen arr = AT_CMD_NAME_LEN →
  let line := nm ++ request_text r ++ AT_CMD_END_MARK in
  ∃ arr', zlen arr' = AT_CMD_NAME_LEN ∧
    handle_line cmd_table arr (with_line line s) =
    fbind (serve cmd r (drop (length nm) (recv_buffer (with_line line s)))) (λ _, fret arr') (with_line line s).
Proof.
  intros Ht Hin Hs Hr H0 Hlen Harr line. assert (name_ok nm = true) as Hnm.
  { rewrite <- (name_ok_same _ _ Hs). unfold table_ok in Ht. apply andb_prop in Ht as [Ht _].
    rewrite forallb_forall in Ht. apply Ht. by apply list_elem_of_In. }
  unfold name_ok in Hnm. apply andb_prop in Hnm as [[Hch Hl]%andb_prop Hh]. apply Z.ltb_lt in Hl.
  assert (∃ c0 nm', nm = c0 :: nm' ∧ lower c0 = 97) as (c0 & nm' & Enm & Hc0)
    by (destruct nm; [done|]; apply Z.eqb_eq in Hh; eauto).
  set (k := (Z.to_nat AT_SERVER_RECV_BUFF_LEN - length line)%nat).
  assert (0 < k)%nat as Hk by (subst k line; unfold AT_SERVER_RECV_BUFF_LEN; rewrite !length_app; cbn [length AT_CMD_END_MARK]; lia).
  assert (recv_buffer (with_line line s) = nm ++ request_text r ++ AT_CMD_END_MARK ++ replicate k 0) as Eb.
  { cbn [recv_buffer with_line with_buf]. subst line k. by rewrite <- !app_assoc. }
  assert (Forall (λ c, c ≠ 0) nm) as Hn0.
  { apply Forall_forall. intros c Hc. rewrite forallb_forall in Hch. apply list_elem_of_In, Hch in Hc.
    apply andb_prop in Hc as [_ Hc]. apply negb_true_iff, Z.eqb_neq in Hc. done. }
  assert (cstring (nm ++ request_text r ++ AT_CMD_END_MARK ++ replicate k 0) = Ok line) as Ec.
  { rewrite !app_assoc, cstring_zeros; [by rewrite <- app_assoc| |done].
    repeat (apply Forall_app; split); [done|done|]. repeat constructor; done. }
  assert (∃ x l, request_text r ++ AT_CMD_END_MARK = x :: l ∧ name_end x = true) as (x & l & Ex & Hx)
    by (destruct r; cbn; eauto).
  set (arr' := blit 0 (nm ++ [0]) arr). exists arr'. split.
  { subst arr'. rewrite zlen_blit; [done|lia|unfold zlen in *; rewrite length_app; cbn [length]; lia]. }
  unfold handle_line. fw_run. rewrite Eb.
  replace (peek _ 0) with (@Ok Z c0) by (subst nm; done). fw_run.
  rewrite (proj2 (Z.eqb_neq c0 36)) by (intros ->; done). fw_run.
  unfold at_cmd_get_name. rewrite Ec. cbn [rbind]. subst line. rewrite Ex, name_loop_at; [| |done].
  2: { apply forallb_forall. intros c Hc. rewrite forallb_forall in Hch. by apply Hch, andb_prop in Hc as [Hc _]. }
  rewrite Z.add_0_l, Z.geb_leb, (proj2 (Z.leb_gt _ _)) by done.
  replace (slice _ _ _) with (@Ok (list Z) nm) by (symmetry; by apply (slice_at [] nm _ 0 (zlen nm))). cbn [rbind].
  rewrite store_Ok; [|lia|unfold zlen in *; rewrite length_app; cbn [length]; lia]. cbn [rbind]. fw_run. cbn [Z.ltb Z.compare].
  replace (cstring _) with (@Ok (list Z) nm) by (unfold blit; cbn [take Z.to_nat app]; rewrite <- app_assoc; symmetry; by apply cstring_at).
  fw_run. unfold at_find_cmd. rewrite (find_same nm cmd cmd_table) by done. rewrite drop_app_length. by apply process_serves.
Qed.

(** A line that is typed is answered, and the server goes on with the next one. *)
Lemma line_served nm cmd r last arr s u n :
  table_ok cmd_table = true → (∀ name, Keeps (λ s, at_echo s = false) (handle_line cmd_table name) (λ _, True)) →
  cmd ∈ cmd_table → same_name nm (chars (cmd_name cmd)) = true →
  request_ok r → Forall (λ c, c ≠ 0 ∧ c ≠ 27) (nm ++ request_text r) → rt_strstr (nm ++ request_text r) AT_CMD_END_MARK = false →
  (length nm + length (request_text r) + 2 ≤ 1023)%nat → zlen arr = AT_CMD_NAME_LEN → at_echo s = false →
  let line := nm ++ request_text r ++ AT_CMD_END_MARK in
  at_uart s = map Some line ++ u →
  ∃ arr', zlen arr' = AT_CMD_NAME_LEN ∧
    parser_loop cmd_table (length line + n) last arr (with_line [] s) =
    match serve cmd r (drop (length nm) (recv_buffer (with_line line s))) (with_line line (with_uart u s)) with
    | Ok (_, s') => parser_loop cmd_table n LF arr' (with_line [] s')
    | Fault f => Fault f
    end.
Proof.
  intros Ht Hk Hin Hs Hr Hc Hcl Hlen Harr He line Hu. set (body := nm ++ request_text r) in *.
  assert (line = (body ++ [CR]) ++ [LF]) as El by (subst line body; unfold AT_CMD_END_MARK; by rewrite <- !app_assoc).
  destruct (handle_line_serves nm cmd r arr (with_uart u s)) as (arr' & Harr' & Eh); try done.
  { by apply Forall_app in Hc as [_ Hc]; eapply Forall_impl; [exact Hc|intros ? []]. }
  exists arr'. split; [done|]. fold line in Eh.
  rewrite (parser_line _ last []) by auto using line_ok_nil.
  assert (line_ok (body ++ [CR])) as Hok.
  { split_and!; [|rewrite !length_app; subst body; rewrite length_app; cbn [length]; lia|].
    - apply Forall_app. split; [by eapply Forall_impl; [exact Hc|intros ? []]|repeat constructor; done].
    - rewrite strstr_snoc by done. unfold ends_line. apply bool_decide_eq_false_2.
      rewrite drop_app, length_app. cbn [length]. replace (length body + 1 - 2 - length body)%nat with 0%nat by lia.
      intros E%(f_equal list.last). rewrite drop_0, last_snoc in E. by injection E. }
  replace (length line + n)%nat with (length (body ++ [CR]) + S n)%nat by (rewrite El, !length_app; cbn [length]; lia).
  rewrite (line_collect (body ++ [CR]) [] arr s (Some LF :: u)); [|done| |rewrite Hu, El, map_app, <- app_assoc; done].
  2: { apply Forall_app. split; [by eapply Forall_impl; [exact Hc|intros ? []]|repeat constructor; done]. }
  cbn [line_loop at_uart with_uart next_char app]. cbn [Z.eqb LF]. rewrite <- El.
  assert (ends_line line = true) as ->.
  { apply bool_decide_eq_true_2. rewrite El, <- app_assoc, length_app. cbn [length app].
    replace (length body + 2 - 2)%nat with (length body) by lia. by rewrite drop_app_length. }
  change (with_uart u (with_uart _ s)) with (with_uart u s).
  change (recv_buffer (with_line line (with_uart u s))) with (recv_buffer (with_line line s)) in Eh. rewrite Eh. unfold fbind at 1.
  destruct (serve _ _ _ _) as [[[] s']|f] eqn:Es; [|done]. cbn [fret]. symmetry. apply parser_line; [apply line_ok_nil| |done].
  eapply (Hk arr); [|rewrite Eh; unfold fbind; rewrite Es; reflexivity]. done.
Qed.
End Lines.

(** ** What every command leaves alone

    A property of states that output, memory, input and those calls of the
    library that [ok] admits do not change. *)

Section Frame.
Context {R : Type} `{LIB : WiotaLib R} `{ENV : AtEnv R}.
Variable P : at_state R → Prop.
Variable ok : ∀ T, wiotaE T → bool.

Record at_frame : Prop := {
  frame_lib : ∀ T (e : wiotaE T) s, ok T e = true → P s → P (with_lib (wiota_call e (at_lib s)).2 s);
  frame_gnss : ∀ line s, P s → P (with_lib (gnss_send_cmd line (at_lib s)).2 s);
  frame_out : ∀ v s, P s → P (with_out v s);
  frame_uart : ∀ u s, (∃ v, at_uart s = v ++ u) → P s → P (with_uart u s);
  frame_mem : ∀ v n s, P s → P (with_mem v n s);
  frame_str : ∀ v s, P s → P (with_str v s);
  frame_device : ∀ v s, P s → P (with_device v s)
}.
Hypothesis FR : at_frame.

Lemma keeps_wiota T (e : wiotaE T) : ok T e = true → Keeps P (wiota e) (λ _, True).
Proof using FR. intros He s a s' Hs [= <- <-]. split; [by apply FR|done]. Qed.
Lemma keeps_output o : Keeps P (emit o) (λ _, True).
Proof using FR. apply keeps_mod. intros s Hs. by apply FR. Qed.
Lemma keeps_printfln f l : Keeps P (at_server_printfln f l) (λ _, True).
Proof using FR. apply keeps_output. Qed.
Lemma keeps_printf f l : Keeps P (at_server_printf f l) (λ _, True).
Proof using FR. apply keeps_output. Qed.
Lemma keeps_rt_malloc n : Keeps P (rt_malloc n) (λ _, True).
Proof using FR. intros s a s' Hs. unfold rt_malloc. destruct (n =? 0); intros [= <- <-]; [done|]. split; [by apply FR|done]. Qed.
Lemma keeps_rt_free : Keeps P rt_free (λ _, True).
Proof using FR. apply keeps_mod. intros s Hs. by apply FR. Qed.
Lemma keeps_adopt n : Keeps P (adopt n) (λ _, True).
Proof using FR. apply keeps_mod. intros s Hs. by apply FR. Qed.

Lemma next_char_suffix l c u : next_char l = Some (c, u) → ∃ v, l = v ++ u.
Proof.
  induction l as [|[x|] l IH]; cbn [next_char]; [done| |].
  - intros [= <- <-]. by exists [Some x].
  - intros H%IH. destruct H as [v ->]. by exists (None :: v).
Qed.
Lemma keeps_gerchar b : Keeps P (at_server_gerchar b) (λ _, True).
Proof using FR.
  intros s a s' Hs. unfold at_server_gerchar. destruct b.
  - destruct (next_char _) as [[c u]|] eqn:E; intros [= <- <-]; [|done]. split; [|done]. apply FR; [|done]. by eapply next_char_suffix.
  - destruct (at_uart s) as [|x u] eqn:E; intros [= <- <-]; [done|]. split; [|done]. apply FR; [|done]. exists [x]. done.
Qed.
Hint Resolve keeps_wiota keeps_output keeps_printfln keeps_printf keeps_rt_malloc keeps_rt_free keeps_adopt keeps_gerchar : keeps.

Lemma keeps_send_data b n : Keeps P (at_send_data b n) (λ _, True).
Proof using FR. unfold at_send_data. keeps. Qed.
Lemma keeps_recv n : Keeps P (at_server_recv n) (λ _, True).
Proof using FR.
  unfold at_server_recv. generalize (@nil Z). induction (Z.to_nat n) as [|k IH]; intros got; cbn [recv_loop]; keeps.
Qed.
Lemma keeps_print_result r : Keeps P (at_server_print_result r) (λ _, True).
Proof using FR. unfold at_server_print_result. keeps. Qed.
Hint Resolve keeps_send_data keeps_recv keeps_print_result : keeps.

Definition cmd_keeps (c : @at_cmd R) : Prop :=
  (∀ f, cmd_test c = Some f → Keeps P f (λ _, True)) ∧ (∀ f, cmd_query c = Some f → Keeps P f (λ _, True)) ∧
  (∀ f args, cmd_setup c = Some f → Keeps P (f args) (λ _, True)) ∧ (∀ f, cmd_exec c = Some f → Keeps P f (λ _, True)).

Lemma keeps_run_cmd f : (∀ g, f = Some g → Keeps P g (λ _, True)) → Keeps P (run_cmd f) (λ _, True).
Proof using FR. intros Hf. destruct f as [f|]; cbn [run_cmd]; [pose proof (Hf f eq_refl)|]; keeps. Qed.
Lemma keeps_cmd_process c args : cmd_keeps c → Keeps P (at_cmd_process c args) (λ _, True).
Proof using FR.
  intros (Ht & Hq & Hs & He). pose proof keeps_run_cmd. unfold at_cmd_process. keeps.
  all: apply keeps_run_cmd; first [assumption|discriminate|intros g [= <-]; eauto].
Qed.
Lemma keeps_to_gnss line : Keeps P (to_gnss line) (λ _, True).
Proof using FR. intros s a s' Hs [= <- <-]. split; [by apply FR|done]. Qed.
Lemma keeps_handle_line table name : Forall cmd_keeps table → Keeps P (handle_line table name) (λ _, True).
Proof using FR.
  intros Ht. pose proof keeps_to_gnss. unfold handle_line. keeps.
  all: apply keeps_cmd_process.
  all: match goal with H : at_find_cmd _ _ = Some _ |- _ => apply find_some in H as [H _]; apply list_elem_of_In in H end.
  all: rewrite Forall_forall in Ht; by apply Ht.
Qed.
End Frame.

(** ** The loop ends when the input does *)

Section Ends.
Context {R : Type} `{LIB : WiotaLib R} `{ENV : AtEnv R}.

Definition all_calls (T : Type) (e : wiotaE T) : bool := true.
Lemma echo_frame : at_frame (λ s : at_state R, at_echo s = false) all_calls.
Proof. constructor; intros; done. Qed.
Lemma uart_frame k : at_frame (λ s : at_state R, (length (at_uart s) ≤ k)%nat) all_calls.
Proof. constructor; intros; try done. destruct H as [v Hv]. cbn. rewrite Hv, length_app in H0. lia. Qed.

Variable cmd_table : list (@at_cmd R).
Hypothesis table_frame : ∀ P, at_frame P all_calls → Forall (cmd_keeps P) cmd_table.

Lemma next_char_shorter l c u : next_char l = Some (c, u) → (length u < length l)%nat.
Proof.
  induction l as [|[x|] l IH]; cbn [next_char length]; [done| |].
  - intros [= <- <-]. lia.
  - intros H%IH. lia.
Qed.

Lemma line_loop_ends n : ∀ acc name s f,
  (length (at_uart s) < n)%nat → line_loop cmd_table n acc name s = Fault f →
  ∃ nm line s', handle_line cmd_table nm (with_line line s') = Fault f.
Proof using table_frame.
  induction n as [|n IH]; intros acc name s f Hn; [lia|]. cbn [line_loop].
  destruct (next_char (at_uart s)) as [[c u]|] eqn:En; [|done]. apply next_char_shorter in En.
  assert (length (at_uart (with_uart u s)) < n)%nat as Hn' by (cbn; lia).
  destruct (c =? 0); [by apply IH|]. destruct (c =? 27); [done|]. destruct (ends_line _); [|by apply IH].
  destruct (handle_line _ _ _) as [[nm s']|f'] eqn:Eh; [|intros [= <-]; eauto]. apply IH.
  destruct (keeps_handle_line _ _ (uart_frame (length u)) _ name (table_frame _ (uart_frame _)) _ _ _ (le_n (length u) : length (at_uart (with_line (acc ++ [c]) (with_uart u s))) ≤ _)%nat Eh) as [Hl _].
  lia.
Qed.
End Ends.
