(* ===== verification/AtText.v ===== *)
(** * Lists of numbers as text

    The conversions of PS/at/at_wiota.c between arrays of bytes and decimal
    numbers separated by commas, which the commands for frequency lists use.
    Pointers into a string are offsets into its block; an access outside a block
    is a fault. *)

From S2P Require Import Prelude WiotaApi AtServer.
From stdpp Require Import strings.
#[local] Open Scope Z_scope.
#[local] Open Scope list_scope.

Section Text.
Context {R : Type} `{LIB : WiotaLib R}.
Local Abbreviation M := (FW (at_state R)).
Local Open Scope fw_scope.

Fixpoint power_loop (n : nat) (num s : Z) : Z :=
  match n with O => s | S n => power_loop n num (u32 (s * num)) end.
Definition uc_nth_power (num n : Z) : Z := power_loop (Z.to_nat n) num 1.

(** One digit after the other is added to the array's cell. *)
Fixpoint digits_loop (k : nat) (len nth num p_start : Z) (string temp array : list Z) : result (list Z) :=
  match k with
  | O => Ok array
  | S k =>
      c <-? peek string (p_start + len);;
      temp <-? store len [u8 (c - 48)] temp;;
      t <-? peek temp len;;
      a <-? peek array num;;
      array <-? store num [u8 (a + uc_nth_power 10 (nth - 1) * t)] array;;
      digits_loop k (len + 1) (nth - 1) num p_start string temp array
  end%fw.
Definition uc_string_to_int (num_len num p_start : Z) (string array : list Z) : M (list Z) :=
  ok <-- rt_malloc num_len;;
  if negb ok then fret array
  else
    array <-- flift (digits_loop (Z.to_nat num_len) 0 num_len num p_start string (replicate (Z.to_nat num_len) 0) array);;
    rt_free;;; fret array.

(** The inner loop: from a comma it goes on behind the character that follows it. *)
Fixpoint comma_loop (n : nat) (string : list Z) (p_start p_end num num_len : Z) (array : list Z) : M (Z * Z * Z * Z * list Z) :=
  match n with
  | O => ffail OutOfFuel
  | S n =>
      c <-- flift (peek string p_end);;
      if c =? 0 then fret (p_start, p_end, num, num_len, array)
      else if c =? AT_CMD_COMMA_MARK then
        array <-- uc_string_to_int num_len num p_start string array;;
        comma_loop n string (p_end + 1) (p_end + 1 + 1) (num + 1) (0 + 1) array
      else comma_loop n string p_start (p_end + 1) num (num_len + 1) array
  end.
(** The outer loop; it leaves the string at its end, so it is run once. *)
Fixpoint array_loop (n : nat) (string : list Z) (p_start p_end num num_len : Z) (array : list Z) : M (Z * list Z) :=
  match n with
  | O => ffail OutOfFuel
  | S n =>
      c <-- flift (peek string p_start);;
      if c =? 0 then fret (num, array)
      else
        r <-- comma_loop (S (length string)) string p_start p_end num num_len array;;
        let '(p_start, p_end, num, num_len, array) := r in
        array <-- uc_string_to_int num_len num p_start string array;;
        array_loop n string p_end p_end (num + 1) num_len array
  end.
(** The count of the numbers and the array. *)
Definition uc_string_to_array (string array : list Z) : M (Z * list Z) := array_loop 2 string 0 0 0 0 array.

(** Exchanging the ends of a string until the pointers meet. *)
Fixpoint reverse_loop (n : nat) (str : list Z) (p_start p_end : Z) : result (list Z) :=
  match n with
  | O => Fault OutOfFuel
  | S n =>
      if p_end >? p_start then
        temp <-? peek str p_start;;
        e <-? peek str p_end;;
        str <-? store p_start [e] str;;
        str <-? store p_end [temp] str;;
        reverse_loop n str (p_start + 1) (p_end - 1)
      else Ok str
  end%fw.
Definition uc_str_reverse (str : list Z) : result (list Z) :=
  s <-? cstring str;; reverse_loop (S (length str)) str 0 (zlen s - 1).

(** The digits of an int, lowest first. *)
Fixpoint itoa_loop (n : nat) (num i : Z) (str : list Z) : result (Z * list Z) :=
  match n with
  | O => Fault OutOfFuel
  | S n =>
      str <-? store i [u8 (Z.rem num 10 + 48)] str;;
      let num := Z.quot num 10 in
      if num >? 0 then itoa_loop n num (i + 1) str else Ok (i + 1, str)
  end%fw.
(** The result stays in a static array. *)
Definition uc_itoa (num : Z) : M (list Z) :=
  s <-- fget;;
  r <-- flift (itoa_loop 11 (if num <? 0 then s32 (- num) else num) 0 (at_str s));;
  let '(i, str) := r in
  r <-- flift (if num <? 0 then str <-? store i [45] str;; Ok (i + 1, str) else Ok (i, str));;
  let '(i, str) := r in
  str <-- flift (store i [0] str);;
  str <-- flift (uc_str_reverse str);;
  fmod (with_str str);;; fret str.

(** The bytes rt_strncpy writes: those of the string, then zeros. *)
Fixpoint rt_strncpy (n : nat) (src : list Z) : result (list Z) :=
  match n with
  | O => Ok []
  | S k => match src with
           | [] => Fault OutOfBounds
           | b :: src => if b =? 0 then Ok (replicate n 0) else rbind (rt_strncpy k src) (λ l, Ok (b :: l))
           end
  end.

Fixpoint string_loop (k : nat) (i offset array_len : Z) (str_temp array string : list Z) : M (list Z) :=
  match k with
  | O => fret string
  | S k =>
      a <-- flift (peek array i);;
      s <-- uc_itoa a;;
      t <-- flift (rt_strncpy 10 s);;
      str_temp <-- flift (store 0 t str_temp);;
      text <-- flift (cstring str_temp);;
      d <-- flift (rt_strncpy (length text) str_temp);;
      string <-- flift (store offset d string);;
      let offset := offset + zlen text in
      if i <? array_len - 1 then
        string <-- flift (store offset [AT_CMD_COMMA_MARK] string);;
        string_loop k (i + 1) (offset + 1) array_len str_temp array string
      else string_loop k (i + 1) offset array_len str_temp array string
  end.
Definition uc_array_to_string (array : list Z) (array_len : Z) (string : list Z) : M (list Z) :=
  string_loop (Z.to_nat array_len) 0 0 array_len (replicate 10 0) array string.
End Text.

(** ** Blocks built from their parts *)

Lemma peek_at (pre post : list Z) c i : i = zlen pre → peek (pre ++ c :: post) i = Ok c.
Proof.
  intros ->. unfold peek. pose proof (zlen_nonneg pre). rewrite (proj2 (Z.ltb_ge _ _)) by lia.
  unfold zlen. rewrite Nat2Z.id, list_lookup_middle by done. done.
Qed.
Lemma store_cell {A} (pre post : list A) c d i : i = zlen pre → store i [d] (pre ++ c :: post) = Ok (pre ++ d :: post).
Proof.
  intros ->. rewrite store_Ok; [|apply zlen_nonneg|rewrite zlen_app, !zlen_cons, zlen_nil; pose proof (zlen_nonneg post); lia].
  change (c :: post) with ([c] ++ post). by rewrite blit_app_mid.
Qed.
(** Writing a whole piece. *)
Lemma store_piece {A} (pre old post d : list A) i :
  i = zlen pre → zlen old = zlen d → store i d (pre ++ old ++ post) = Ok (pre ++ d ++ post).
Proof.
  intros -> Hl. rewrite store_Ok; [|apply zlen_nonneg|rewrite !zlen_app, Hl; pose proof (zlen_nonneg post); lia].
  by rewrite blit_app_mid.
Qed.

(** ** Decimal numbers *)

Fixpoint rdigits (n : nat) (z : Z) : list Z :=
  match n with
  | O => []
  | S n => (z mod 10 + 48) :: (if z / 10 >? 0 then rdigits n (z / 10) else [])
  end.
Definition decimal (z : Z) : list Z := reverse (rdigits 11 z).
(** The value of a string of digits. *)
Definition value (l : list Z) : Z := foldl (λ v c, 10 * v + (c - 48)) 0 l.
(** The numbers with commas between them. *)
Fixpoint comma_text (l : list Z) : list Z :=
  match l with
  | [] => []
  | [a] => decimal a
  | a :: l => decimal a ++ AT_CMD_COMMA_MARK :: comma_text l
  end.

Lemma comma_text_cons a b l : comma_text (a :: b :: l) = decimal a ++ AT_CMD_COMMA_MARK :: comma_text (b :: l).
Proof. reflexivity. Qed.

Definition byte_check (b : Z) : bool :=
  let l := decimal b in
  (value l =? b) && forallb is_digit l && (length l <=? 3)%nat && negb (bool_decide (l = [])).
Lemma byte_checked b : is_u8 b → byte_check b = true.
Proof.
  intros Hb. assert (forallb byte_check (map Z.of_nat (seq 0 256)) = true) as H by (vm_compute; reflexivity).
  rewrite forallb_forall in H. apply H. apply in_map_iff. exists (Z.to_nat b). unfold is_u8 in Hb. split; [lia|]. apply in_seq. lia.
Qed.
Lemma decimal_byte b : is_u8 b → value (decimal b) = b ∧ Forall (λ c, is_digit c = true) (decimal b) ∧ (length (decimal b) ≤ 3)%nat ∧ decimal b ≠ [].
Proof.
  intros Hb%byte_checked. unfold byte_check in Hb. rewrite !andb_true_iff in Hb. destruct Hb as [[[H1 H2] H3] H4].
  split_and!; [by apply Z.eqb_eq|by apply Forall_forall; intros c Hc; eapply forallb_forall; [exact H2|by apply list_elem_of_In]|by apply Nat.leb_le|].
  apply negb_true_iff, bool_decide_eq_false in H4. done.
Qed.
Lemma digit_plain c : is_digit c = true → c ≠ 0 ∧ c ≠ AT_CMD_COMMA_MARK ∧ c ≠ CR ∧ c ≠ LF ∧ is_u8 (c - 48) ∧ is_u8 c.
Proof. unfold is_digit, is_u8, AT_CMD_CHAR_0, AT_CMD_CHAR_9, AT_CMD_COMMA_MARK, CR, LF. rewrite andb_true_iff, !Z.leb_le. lia. Qed.

(** ** Numbers to text *)

Lemma itoa_loop_spec n : ∀ num pre rest,
  0 <= num < 10 ^ Z.of_nat n → (n ≤ length rest)%nat → (0 < n)%nat →
  itoa_loop n num (zlen pre) (pre ++ rest) =
  Ok (zlen (pre ++ rdigits n num), pre ++ rdigits n num ++ drop (length (rdigits n num)) rest).
Proof.
  induction n as [|n IH]; intros num pre rest Hnum Hl Hn; [lia|]. destruct rest as [|c rest]; cbn [length] in Hl; [lia|].
  cbn [itoa_loop rdigits]. rewrite store_cell by done. cbn [rbind].
  rewrite Z.rem_mod_nonneg, Z.quot_div_nonneg, u8_id by (unfold is_u8; Z.div_mod_to_equations; lia).
  rewrite Nat2Z.inj_succ, Z.pow_succ_r in Hnum by lia.
  destruct (Z.gtb_spec (num / 10) 0) as [Hq|Hq].
  - destruct (decide (n = 0)%nat) as [->|Hn0]; [cbn in Hnum; Z.div_mod_to_equations; lia|].
    pose proof (IH (num / 10) (pre ++ [num mod 10 + 48]) rest) as E. rewrite <- !app_assoc in E. cbn [app] in E.
    replace (zlen pre + 1) with (zlen (pre ++ [num mod 10 + 48])) by (rewrite zlen_app; done).
    rewrite E; [done|split; Z.div_mod_to_equations; lia|lia|lia].
  - cbn [length drop app]. rewrite zlen_app. done.
Qed.

Lemma reverse_loop_spec n : ∀ pre mid post, (length mid < n)%nat →
  reverse_loop n (pre ++ mid ++ post) (zlen pre) (zlen pre + zlen mid - 1) = Ok (pre ++ reverse mid ++ post).
Proof.
  induction n as [|n IH]; intros pre mid post Hn; [lia|]. cbn [reverse_loop]. destruct mid as [|x mid].
  { rewrite zlen_nil. destruct (Z.gtb_spec (zlen pre + 0 - 1) (zlen pre)); [lia|]. done. }
  destruct (Z.gtb_spec (zlen pre + zlen (x :: mid) - 1) (zlen pre)) as [Hgt|Hle].
  2: { rewrite zlen_cons in Hle. destruct mid; [done|]. rewrite zlen_cons in Hle. pose proof (zlen_nonneg mid). lia. }
  destruct mid as [|y mid] using rev_ind; [rewrite zlen_cons, zlen_nil in Hgt; lia|]. clear IHmid.
  rewrite zlen_cons, zlen_app, zlen_cons, zlen_nil. cbn [app]. rewrite peek_at by done. cbn [rbind].
  rewrite <- !app_assoc. cbn [app]. rewrite (app_assoc pre (x :: mid) (y :: post) : pre ++ x :: mid ++ y :: post = _).
  rewrite peek_at by (rewrite zlen_app, zlen_cons; lia). cbn [rbind]. rewrite <- app_assoc. cbn [app].
  rewrite store_cell by done. cbn [rbind]. rewrite (app_assoc pre (y :: mid) (y :: post) : pre ++ y :: mid ++ y :: post = _).
  rewrite store_cell by (rewrite zlen_app, zlen_cons; lia). cbn [rbind]. rewrite <- app_assoc. cbn [app].
  pose proof (IH (pre ++ [y]) mid (x :: post)) as E. rewrite <- !app_assoc in E. cbn [app] in E.
  assert (zlen (pre ++ [y]) = zlen pre + 1) as El by (rewrite zlen_app; done). rewrite El in E.
  replace (zlen pre + (1 + (zlen mid + (1 + 0))) - 1 - 1) with (zlen pre + 1 + zlen mid - 1) by lia. cbn [length] in Hn. rewrite length_app in Hn. cbn [length] in Hn. rewrite E by lia.
  rewrite reverse_cons, reverse_app. cbn. by rewrite <- app_assoc.
Qed.

Section TextSpec.
Context {R : Type} `{LIB : WiotaLib R}.
Implicit Types s : at_state R.

Lemma uc_itoa_spec num s :
  0 <= num < 10 ^ 11 → Forall (λ c, c ≠ 0) (decimal num) → (12 ≤ length (at_str s))%nat →
  ∃ rest, uc_itoa num s = Ok (decimal num ++ 0 :: rest, with_str (decimal num ++ 0 :: rest) s) ∧
          length (decimal num ++ 0 :: rest) = length (at_str s).
Proof.
  intros Hn Hz Hl. unfold uc_itoa. fw_run. rewrite (proj2 (Z.ltb_ge num 0)) by lia.
  pose proof (itoa_loop_spec 11 num [] (at_str s) ltac:(lia) ltac:(lia) ltac:(lia)) as E. rewrite zlen_nil in E.
  cbn [app] in E. rewrite E. set (ds := rdigits 11 num) in *.
  assert (length ds ≤ 11)%nat as Hd.
  { subst ds. generalize 11%nat num. clear. induction n as [|n IH]; intros z; cbn [rdigits length]; [lia|].
    destruct (z / 10 >? 0); cbn [length]; [specialize (IH (z / 10)); lia|lia]. }
  do 2 fw_run. destruct (drop (length ds) (at_str s)) as [|x rest] eqn:Er.
  { apply (f_equal length) in Er. rewrite length_drop in Er. cbn [length] in Er. lia. }
  rewrite store_cell by done. fw_run. unfold uc_str_reverse. exists rest.
  assert (decimal num = reverse ds) as Ed by done. rewrite Ed in *.
  rewrite cstring_at by (rewrite <- (reverse_involutive ds); by apply Forall_reverse). cbn [rbind].
  pose proof (reverse_loop_spec (S (length (ds ++ 0 :: rest))) [] ds (0 :: rest)) as Ev. change (zlen (@nil Z)) with 0 in Ev. cbn [app] in Ev.
  rewrite Z.add_0_l in Ev. rewrite Ev by (rewrite length_app; lia). fw_run. fw_run. split; [done|].
  rewrite length_app, length_reverse. apply (f_equal length) in Er. rewrite length_drop in Er. cbn [length] in *. lia.
Qed.

Lemma strncpy_full l k n : Forall (λ c, c ≠ 0) l → (length l < n)%nat → rt_strncpy n (l ++ 0 :: k) = Ok (l ++ replicate (n - length l) 0).
Proof.
  intros Hl. revert n. induction Hl as [|c l Hc _ IH]; intros n Hn; (destruct n as [|n]; [cbn [length] in Hn; lia|]); cbn [app rt_strncpy].
  - done.
  - cbn [length] in Hn. rewrite (proj2 (Z.eqb_neq c 0)), IH by lia. done.
Qed.
Lemma strncpy_part l k : Forall (λ c, c ≠ 0) l → rt_strncpy (length l) (l ++ k) = Ok l.
Proof.
  induction 1 as [|c l Hc _ IH]; cbn [app rt_strncpy length]; [done|]. rewrite (proj2 (Z.eqb_neq c 0)), IH by done. done.
Qed.

Lemma decimal_plain b : is_u8 b → Forall (λ c, c ≠ 0) (decimal b).
Proof. intros (_ & H & _)%decimal_byte. eapply Forall_impl; [exact H|]. intros c Hc. by apply digit_plain. Qed.

(** Text of the numbers still to come is put behind the text so far. *)
Lemma string_loop_spec l more : ∀ before pre old post tmp len s,
  bytes_ok l → length tmp = 10%nat → (12 ≤ length (at_str s))%nat → zlen old = zlen (comma_text l) → len = zlen before + zlen l →
  ∃ st, string_loop (length l) (zlen before) (zlen pre) len tmp (before ++ l ++ more) (pre ++ old ++ post) s =
        Ok (pre ++ comma_text l ++ post, with_str st s) ∧ length st = length (at_str s).
Proof.
  induction l as [|a l IH]; intros before pre old post tmp len s Hb Ht Hs Ho Hlen.
  - exists (at_str s). cbn [comma_text] in *. destruct old; [|rewrite zlen_cons, zlen_nil in Ho; pose proof (zlen_nonneg old); lia].
    cbn [length string_loop app]. split; [|done]. by destruct s.
  - inversion Hb as [|? ? Ha Hb']; subst. cbn [length string_loop app]. rewrite peek_at by done. fw_run.
    pose proof (decimal_plain a Ha) as Hz. pose proof (decimal_byte a Ha) as (_ & _ & Hd & Hne).
    destruct (uc_itoa_spec a s) as (rest & Ei & Hil); [unfold is_u8 in Ha; lia|done|done|].
    rewrite (bind_Ok _ _ _ _ _ Ei), strncpy_full by (done || lia). fw_run.
    assert (store 0 (decimal a ++ replicate (10 - length (decimal a)) 0) tmp = Ok (decimal a ++ replicate (10 - length (decimal a)) 0)) as Est.
    { pose proof (store_piece [] tmp [] (decimal a ++ replicate (10 - length (decimal a)) 0) 0) as E. cbn [app] in E.
      rewrite !app_nil_r in E. apply E; [done|]. unfold zlen. rewrite Ht, length_app, length_replicate. lia. }
    rewrite Est. fw_run. rewrite cstring_zeros by (done || lia). fw_run. rewrite strncpy_part by done. fw_run.
    rewrite zlen_cons. set (n1 := (10 - length (decimal a))%nat) in *.
    destruct l as [|a' l].
    + cbn [comma_text] in *. rewrite (store_piece pre old post (decimal a)) by done. fw_run.
      rewrite zlen_nil, (proj2 (Z.ltb_ge _ _)) by lia. cbn [length string_loop fret]. eexists. split; [done|]. done.
    + rewrite comma_text_cons in Ho |- *. set (jl := comma_text (a' :: l)) in *.
      rewrite (proj2 (Z.ltb_lt _ _)) by (rewrite zlen_cons; pose proof (zlen_nonneg l); lia).
      assert (∃ o1 x o2, old = o1 ++ x :: o2 ∧ zlen o1 = zlen (decimal a) ∧ zlen o2 = zlen jl) as (o1 & x & o2 & -> & Ho1 & Ho2).
      { rewrite zlen_app, zlen_cons in Ho. rewrite <- (take_drop (length (decimal a)) old).
        assert (length (decimal a) < length old)%nat as Hlt by (unfold zlen in *; lia).
        destruct (drop (length (decimal a)) old) as [|x o2] eqn:Ed; apply (f_equal length) in Ed; rewrite length_drop in Ed; cbn [length] in Ed; [lia|].
        exists (take (length (decimal a)) old), x, o2. split; [done|]. unfold zlen in *. rewrite length_take. lia. }
      rewrite <- !app_assoc. rewrite (store_piece pre o1 _ (decimal a)) by done. fw_run. rewrite !app_assoc, <- !app_assoc. cbn [app].
      rewrite (app_assoc pre (decimal a)). rewrite store_cell by (rewrite zlen_app; done). fw_run.
      destruct (IH (before ++ [a]) ((pre ++ decimal a) ++ [AT_CMD_COMMA_MARK]) o2 post (decimal a ++ replicate n1 0) (zlen before + (1 + zlen (a' :: l))) (with_str (decimal a ++ 0 :: rest) s))
        as (st & E & Hst); [done|subst n1; rewrite length_app, length_replicate; lia|cbn [at_str with_str]; lia|done|rewrite zlen_app, !zlen_cons, zlen_nil; lia|].
      exists st. cbn [at_str with_str] in Hst. split; [|lia]. rewrite <- !app_assoc in E. cbn [app] in E. rewrite <- !app_assoc. cbn [app].
      rewrite !zlen_app, !zlen_cons, !zlen_nil, !Z.add_0_r in E. rewrite !zlen_cons. rewrite Z.add_assoc in E. exact E.
Qed.

(** The text of the first cells of an array, behind it what was in the caller's buffer. *)
Lemma array_to_string_prefix a more old post s :
  bytes_ok a → (12 ≤ length (at_str s))%nat → zlen old = zlen (comma_text a) →
  ∃ st, uc_array_to_string (a ++ more) (zlen a) (old ++ post) s = Ok (comma_text a ++ post, with_str st s) ∧ length st = length (at_str s).
Proof.
  intros Ha Hs Ho. unfold uc_array_to_string. replace (Z.to_nat (zlen a)) with (length a) by (unfold zlen; lia).
  exact (string_loop_spec a more [] [] old post (replicate 10 0) (zlen a) s Ha eq_refl Hs Ho eq_refl).
Qed.
Lemma array_to_string_spec a old post s :
  bytes_ok a → (12 ≤ length (at_str s))%nat → zlen old = zlen (comma_text a) →
  ∃ st, uc_array_to_string a (zlen a) (old ++ post) s = Ok (comma_text a ++ post, with_str st s) ∧ length st = length (at_str s).
Proof. intros Ha Hs Ho. pose proof (array_to_string_prefix a [] old post s Ha Hs Ho) as H. by rewrite app_nil_r in H. Qed.

(** ** Text to numbers *)

Lemma nth_power_spec n : 0 <= n <= 9 → uc_nth_power 10 n = 10 ^ n.
Proof.
  intros Hn. unfold uc_nth_power. assert (∀ k x, 0 < x → x * 10 ^ Z.of_nat k < 2 ^ 32 → power_loop k 10 x = x * 10 ^ Z.of_nat k) as H.
  { induction k as [|k IH]; intros x Hx Hk; cbn [power_loop]; [lia|]. rewrite Nat2Z.inj_succ, Z.pow_succ_r in * by lia.
    assert (0 < 10 ^ Z.of_nat k) by (apply Z.pow_pos_nonneg; lia). rewrite u32_id by (unfold is_u32; nia). rewrite IH; nia. }
  rewrite H by (try lia; rewrite Z2Nat.id by lia; assert (10 ^ n <= 10 ^ 9) by (apply Z.pow_le_mono_r; lia); lia).
  rewrite Z2Nat.id by lia. lia.
Qed.

Lemma value_cons c l : value (c :: l) = (c - 48) * 10 ^ zlen l + value l.
Proof.
  unfold value. cbn [foldl]. assert (∀ v, foldl (λ v c, 10 * v + (c - 48)) v l = v * 10 ^ zlen l + foldl (λ v c, 10 * v + (c - 48)) 0 l) as H.
  { induction l as [|d l IH]; intros v; cbn [foldl]; [rewrite zlen_nil; lia|].
    rewrite (IH (10 * v + (d - 48))), (IH (10 * 0 + (d - 48))), zlen_cons, Z.pow_add_r by (try apply zlen_nonneg; lia). lia. }
  rewrite H. lia.
Qed.

Lemma digits_loop_spec ds : ∀ pre done post tmp arr1 a arr2,
  Forall (λ c, is_digit c = true) ds → (length ds ≤ 9)%nat → length tmp = (length done + length ds)%nat →
  digits_loop (length ds) (zlen done) (zlen ds) (zlen arr1) (zlen pre) (pre ++ done ++ ds ++ post) tmp (arr1 ++ u8 a :: arr2)
  = Ok (arr1 ++ u8 (a + value ds) :: arr2).
Proof.
  induction ds as [|c ds IH]; intros pre done post tmp arr1 a arr2 Hd Hl Ht.
  { cbn [length digits_loop]. unfold value. cbn [foldl]. by rewrite Z.add_0_r. }
  inversion Hd as [|? ? Hc Hd']; subst. cbn [length] in Hl, Ht. cbn [length digits_loop].
  cbn [app]. rewrite (app_assoc pre done (c :: ds ++ post)). rewrite (peek_at (pre ++ done)) by (rewrite zlen_app; done). cbn [rbind].
  assert (∃ t1 x t2, tmp = t1 ++ x :: t2 ∧ zlen t1 = zlen done ∧ length t2 = length ds) as (t1 & x & t2 & -> & Ht1 & Ht2).
  { rewrite <- (take_drop (length done) tmp). destruct (drop (length done) tmp) as [|x t2] eqn:Ed; apply (f_equal length) in Ed;
      rewrite length_drop in Ed; cbn [length] in Ed; [lia|].
    exists (take (length done) tmp), x, t2. unfold zlen. rewrite length_take. split; [done|]. lia. }
  rewrite store_cell by done. cbn [rbind]. rewrite peek_at by done. cbn [rbind]. rewrite peek_at by done. cbn [rbind].
  rewrite store_cell by done. cbn [rbind]. apply digit_plain in Hc as (_ & _ & _ & _ & Hc & _).
  rewrite (u8_id (c - 48)) by done. rewrite zlen_cons. replace (1 + zlen ds - 1) with (zlen ds) by lia.
  rewrite nth_power_spec by (unfold zlen; lia).
  replace (u8 (u8 a + 10 ^ zlen ds * (c - 48))) with (u8 (a + (c - 48) * 10 ^ zlen ds)) by (unfold u8; rewrite Zplus_mod_idemp_l; f_equal; lia).
  pose proof (IH pre (done ++ [c]) post (t1 ++ c - 48 :: t2) arr1 (a + (c - 48) * 10 ^ zlen ds) arr2) as E.
  rewrite value_cons, Z.add_assoc, <- E; [|done|lia|rewrite !length_app; cbn [length]; unfold zlen in Ht1; lia].
  rewrite zlen_app, zlen_cons, zlen_nil, <- !app_assoc. cbn [app]. done.
Qed.

Lemma string_to_int_spec pre ds post arr1 arr2 s :
  Forall (λ c, is_digit c = true) ds → (0 < length ds ≤ 9)%nat → at_mem s = [] →
  uc_string_to_int (zlen ds) (zlen arr1) (zlen pre) (pre ++ ds ++ post) (arr1 ++ 0 :: arr2) s = Ok (arr1 ++ u8 (value ds) :: arr2, s).
Proof.
  intros Hd [Hl Hl'] Hm. unfold uc_string_to_int, rt_malloc, fbind.
  rewrite (proj2 (Z.eqb_neq (zlen ds) 0)) by (unfold zlen; lia). rewrite Hm. cbn [head default tail negb].
  pose proof (digits_loop_spec ds pre [] post (replicate (length ds) 0) arr1 0 arr2 Hd Hl' (length_replicate _ _)) as E.
  change (u8 0) with 0 in E. change (zlen (@nil Z)) with 0 in E. cbn [app] in E.
  replace (Z.to_nat (zlen ds)) with (length ds) by (unfold zlen; lia). rewrite E. cbn [flift rt_free fmod fret].
  unfold flift, rt_free, fmod, fret. f_equal. f_equal. destruct s. cbn in *. subst. unfold with_mem. cbn. f_equal. lia.
Qed.

Lemma comma_digits d : ∀ pre c post num arr n s, Forall (λ c, is_digit c = true) d →
  comma_loop (length d + n) (pre ++ c ++ d ++ post) (zlen pre) (zlen pre + zlen c) num (zlen c) arr s =
  comma_loop n (pre ++ c ++ d ++ post) (zlen pre) (zlen pre + zlen (c ++ d)) num (zlen (c ++ d)) arr s.
Proof.
  induction d as [|x d IH]; intros pre c post num arr n s Hd; [by rewrite app_nil_r|].
  inversion Hd as [|? ? Hx Hd']; subst. apply digit_plain in Hx as (Hx0 & Hx1 & _).
  cbn [length Nat.add comma_loop app]. rewrite (app_assoc pre c (x :: d ++ post)). rewrite (peek_at (pre ++ c)) by (rewrite zlen_app; done).
  fw_run. rewrite (proj2 (Z.eqb_neq x 0)), (proj2 (Z.eqb_neq x AT_CMD_COMMA_MARK)) by done.
  pose proof (IH pre (c ++ [x]) post num arr n s Hd') as E. rewrite <- !app_assoc in E. cbn [app] in E.
  rewrite <- app_assoc, <- E, zlen_app, zlen_cons, zlen_nil, Z.add_assoc. done.
Qed.

Lemma comma_number ds c d pre post num arr n s : ds = c ++ d → Forall (λ c, is_digit c = true) d →
  comma_loop (length d + n) (pre ++ ds ++ post) (zlen pre) (zlen pre + zlen c) num (zlen c) arr s =
  comma_loop n (pre ++ ds ++ post) (zlen pre) (zlen pre + zlen ds) num (zlen ds) arr s.
Proof. intros -> Hd. rewrite <- (app_assoc c d). by apply comma_digits. Qed.

Lemma comma_loop_join l : ∀ a pre c d post arr1 arr2 n s,
  bytes_ok (a :: l) → decimal a = c ++ d → at_mem s = [] → (length (comma_text (a :: l)) < n + length c)%nat →
  ∃ pre' last init, a :: l = init ++ [last] ∧ pre ++ comma_text (a :: l) = pre' ++ decimal last ∧
    comma_loop n (pre ++ comma_text (a :: l) ++ 0 :: post) (zlen pre) (zlen pre + zlen c) (zlen arr1) (zlen c) (arr1 ++ replicate (S (length l)) 0 ++ arr2) s =
    Ok (zlen pre', zlen pre' + zlen (decimal last), zlen arr1 + zlen init, zlen (decimal last), arr1 ++ init ++ 0 :: arr2, s).
Proof.
  induction l as [|a' l IH]; intros a pre c d post arr1 arr2 n s Hb Hcd Hm Hn; inversion Hb as [|? ? Ha Hb']; subst;
    pose proof (decimal_byte a Ha) as (Hv & Hdig & Hlen & Hne);
    assert (Forall (λ c, is_digit c = true) d) as Hd by (rewrite Hcd in Hdig; by apply Forall_app in Hdig as [_ ?]).
  - exists pre, a, []. split; [done|]. split; [done|]. cbn [comma_text] in *. rewrite Hcd, length_app in Hn.
    replace n with (length d + S (n - length d - 1))%nat by lia. rewrite (comma_number (decimal a) c d) by done.
    cbn [comma_loop]. rewrite (app_assoc pre (decimal a)), (peek_at (pre ++ decimal a)) by (rewrite zlen_app; done).
    fw_run. cbn [Z.eqb length replicate app]. change (zlen (@nil Z)) with 0. rewrite Z.add_0_r. done.
  - inversion Hb' as [|? ? Ha' _]; subst. destruct (decimal a') as [|x d'] eqn:Ed'; [by apply decimal_byte in Ha' as (_ & _ & _ & ?)|].
    rewrite comma_text_cons in *. pose proof (f_equal length Hcd) as Hcl. rewrite length_app in Hcl. rewrite length_app in Hn. cbn [length] in Hn.
    destruct (IH a' (pre ++ decimal a ++ [AT_CMD_COMMA_MARK]) [x] d' post (arr1 ++ [a]) arr2 (n - length d - 1)%nat s Hb' Ed' Hm)
      as (pre' & last & init & El & Ep & E); [cbn [length]; lia|].
    exists pre', last, (a :: init). split; [by rewrite El|]. rewrite <- !app_assoc in *. cbn [app] in *. split; [done|].
    replace n with (length d + S (n - length d - 1))%nat by lia. rewrite (comma_number (decimal a) c d) by done. cbn [comma_loop].
    rewrite (app_assoc pre (decimal a)), (peek_at (pre ++ decimal a)) by (rewrite zlen_app; done). rewrite <- (app_assoc pre (decimal a)).
    fw_run. cbn [Z.eqb AT_CMD_COMMA_MARK Pos.eqb length replicate app].
    rewrite (bind_Ok _ _ _ _ _ (string_to_int_spec pre (decimal a) _ arr1 _ s Hdig ltac:(destruct (decimal a); [done|cbn [length] in *; lia]) Hm)).
    rewrite Hv, u8_id by done. cbn [length replicate app] in E.
    rewrite !zlen_app, !zlen_cons in E. change (zlen (@nil Z)) with 0 in E. rewrite zlen_cons.
    replace (zlen pre + zlen (decimal a) + 1) with (zlen pre + (zlen (decimal a) + (1 + 0))) by lia.
    replace (zlen pre + (zlen (decimal a) + (1 + 0)) + 1) with (zlen pre + (zlen (decimal a) + (1 + 0)) + (1 + 0)) by lia.
    replace (zlen arr1 + 1) with (zlen arr1 + (1 + 0)) by lia. change (0 + 1) with (1 + 0). rewrite E.
    replace (zlen arr1 + (1 + 0) + zlen init) with (zlen arr1 + (1 + zlen init)) by lia. done.
Qed.

(** The numbers of a text, written over zeros. *)
Lemma string_to_array_spec a post arr2 s :
  bytes_ok a → a ≠ [] → at_mem s = [] →
  uc_string_to_array (comma_text a ++ 0 :: post) (replicate (length a) 0 ++ arr2) s = Ok (zlen a, a ++ arr2, s).
Proof.
  intros Hb Hne Hm. destruct a as [|a l]; [done|]. pose proof (Forall_inv Hb) as Ha.
  destruct (comma_loop_join l a [] [] (decimal a) post [] arr2 (S (length (comma_text (a :: l) ++ 0 :: post))) s Hb eq_refl Hm)
    as (pre' & last & init & El & Ep & E); [rewrite length_app; cbn [length]; lia|].
  change (zlen (@nil Z)) with 0 in E. cbn [app] in E, Ep. rewrite !Z.add_0_l in E. unfold uc_string_to_array.
  assert (is_u8 last) as Hlast by (rewrite El in Hb; apply Forall_app in Hb as [_ Hb]; by inversion Hb).
  pose proof (decimal_byte last Hlast) as (Hv & Hdig & Hlen & Hne').
  assert (∃ x d, comma_text (a :: l) = x :: d ∧ is_digit x = true) as (x & d & Ej & Hx).
  { pose proof (decimal_byte a Ha) as (_ & H & _ & H0). destruct l; cbn [comma_text]; destruct (decimal a) as [|x k]; [done| |done|]; inversion H; cbn [app]; eauto. }
  assert (peek (comma_text (a :: l) ++ 0 :: post) 0 = Ok x) as Ek by (by rewrite Ej).
  cbn [array_loop]. rewrite Ek. fw_run.
  apply digit_plain in Hx as (Hx0 & _). rewrite (proj2 (Z.eqb_neq x 0)) by done. rewrite (bind_Ok _ _ _ _ _ E). cbv beta iota.
  rewrite Ep, <- app_assoc. pose proof (string_to_int_spec pre' (decimal last) (0 :: post) init arr2 s Hdig) as Ei.
  rewrite (bind_Ok _ _ _ _ _ (Ei ltac:(destruct (decimal last); [done|cbn [length] in *; lia]) Hm)).
  rewrite app_assoc, (peek_at (pre' ++ decimal last)) by (rewrite zlen_app; done). fw_run. cbn [Z.eqb]. rewrite Hv, u8_id by done.
  rewrite El, zlen_app, <- app_assoc. done.
Qed.

(** An array of bytes that uc_array_to_string writes as text into a buffer is
    read back by uc_string_to_array, whatever lies behind the text's zero. *)
Theorem text_roundtrip a old post s :
  bytes_ok a → a ≠ [] → at_mem s = [] → (12 ≤ length (at_str s))%nat → zlen old = zlen (comma_text a) →
  ∃ text s1, uc_array_to_string a (zlen a) (old ++ 0 :: post) s = Ok (text, s1) ∧ zlen text = zlen (old ++ 0 :: post) ∧
    uc_string_to_array text (replicate (length a) 0) s1 = Ok (zlen a, a, s1).
Proof.
  intros Hb Hne Hm Hs Ho. destruct (array_to_string_spec a old (0 :: post) s Hb Hs Ho) as (st & E & Hst).
  exists (comma_text a ++ 0 :: post), (with_str st s). split; [done|]. split; [rewrite !zlen_app, Ho; done|].
  pose proof (string_to_array_spec a post [] (with_str st s) Hb Hne Hm) as E2. by rewrite !app_nil_r in E2.
Qed.
End TextSpec.

(** ** Instances and limits *)

Definition text_state (uart : list (option Z)) : at_state Z :=
  {| at_lib := 0; at_out := []; at_uart := uart; at_mem := []; at_live := 0; at_echo := false;
     recv_buffer := replicate (Z.to_nat AT_SERVER_RECV_BUFF_LEN) 0; cur_recv_len := 0;
     at_str := replicate 100 0; at_device := []; at_meminfo := (0, 0) |}.

Lemma text_roundtrip_witness :
  ∃ text s1, uc_array_to_string [160; 7; 25] 3 (replicate 8 9 ++ 0 :: [1; 2]) (text_state []) = Ok (text, s1) ∧ zlen text = 11 ∧
    uc_string_to_array text [0; 0; 0] s1 = Ok (3, [160; 7; 25], s1).
Proof.
  apply (text_roundtrip [160; 7; 25] (replicate 8 9) [1; 2] (text_state [])); [|done|done|cbn; lia|done].
  apply (bool_decide_unpack _). vm_compute. exact I.
Defined.

(** The character behind a comma is not looked at, so a comma at the end of the
    text leads past its zero and here out of the block; and the array is not
    tested against the count of the numbers. *)
Lemma text_overruns :
  uc_string_to_array (chars "7," ++ [0; LF]) [0; 0] (text_state []) = Fault OutOfBounds ∧
  uc_string_to_array (chars "1,2" ++ [0; LF]) [0] (text_state []) = Fault OutOfBounds.
Proof. split; vm_compute; reflexivity. Qed.
