(* ===== verification/AtCmd.v ===== *)
(** * AT commands

    The functions of PS/at/at_wiota.c behind the AT commands and its callbacks,
    and wiota_quick_connect_start and _stop of applications/quick_connect.  A
    setup function gets the rest of the line as [args], from the '=' on.  The
    values [parse] gives are converted to the types of the variables they are
    stored in, and then to those of the library's parameters.

    WIOTA_AP_STATE_INFO, WIOTA_IOTE_INFO, WIOTA_BC_MODE_TEST and ZCRD_CUSTOMER
    are not defined, so the throughput test and the customer variants are not part
    of the program; g_t_test_data.time then stays 0. *)

From S2P Require Import Prelude WiotaApi AtServer AtText.
From stdpp Require Import strings.
#[local] Open Scope Z_scope.
#[local] Open Scope list_scope.

Definition WIOTA_WAIT_DATA_TIMEOUT : Z := 10000.
Definition WIOTA_SEND_TIMEOUT : Z := 60000.
Definition WIOTA_STATE_DEFAULT : Z := 0.
Definition WIOTA_STATE_INIT : Z := 1.
Definition WIOTA_STATE_RUN : Z := 2.
Definition WIOTA_STATE_EXIT : Z := 3.
Definition TIME_SERVICE_NULL : Z := 0.
Definition TIME_SERVICE_START : Z := 1.
Definition DATA_TYPE_ACCESS : Z := 0.
Definition DATA_TYPE_SUBF_DATA : Z := 2.
Definition UC_LOG_UART : Z := 0.
Definition UC_LOG_SPI : Z := 1.
Definition UC_LOG_DEBUG : Z := 2.
Definition UC_LOG_TS : Z := 3.
Definition UC_RATE_NORMAL : Z := 0.
Definition QC_MODE_MAX : Z := 5.

(** The value of an argument, or what its variable held before. *)
Definition arg (vs : list (option Z)) (i : nat) (before : Z) : Z :=
  match vs !! i with Some (Some v) => v | _ => before end.
Definition uarg vs i before : Z := u32 (arg vs i before).
Definition iarg vs i before : Z := s32 (arg vs i before).

(** An array of [n] bytes, zero before the library fills it. *)
Definition filled (n : nat) (l : list Z) : list Z := take n (l ++ replicate n 0).

Record qc_config_t := { qc_symbol_len : Z; qc_dlul_ratio : Z; qc_group_num : Z; qc_mcs : Z; qc_up_pow : Z; qc_down_pow : Z }.
Definition g_qc_cfg : list qc_config_t :=
  [{| qc_symbol_len := 0; qc_dlul_ratio := 1; qc_group_num := 1; qc_mcs := 2; qc_up_pow := 42; qc_down_pow := 44 |};
   {| qc_symbol_len := 1; qc_dlul_ratio := 0; qc_group_num := 0; qc_mcs := 3; qc_up_pow := 42; qc_down_pow := 44 |};
   {| qc_symbol_len := 1; qc_dlul_ratio := 1; qc_group_num := 1; qc_mcs := 2; qc_up_pow := 42; qc_down_pow := 44 |};
   {| qc_symbol_len := 2; qc_dlul_ratio := 0; qc_group_num := 0; qc_mcs := 0; qc_up_pow := 42; qc_down_pow := 44 |};
   {| qc_symbol_len := 3; qc_dlul_ratio := 0; qc_group_num := 0; qc_mcs := 0; qc_up_pow := 42; qc_down_pow := 44 |}].

Section Commands.
Context {R : Type} `{LIB : WiotaLib R} `{ENV : AtEnv R}.
Local Abbreviation M := (FW (at_state R)).
Local Open Scope fw_scope.
Local Abbreviation println := at_server_printfln.
Local Abbreviation OK := (fret AT_RESULT_OK).
Local Abbreviation FAILE := (fret AT_RESULT_FAILE).

(** [args = parse((char * )(++args), format, ...)] with the return on failure. *)
Definition parsed (args : list Z) (format : string) (k : list (option Z) → M at_result) : M at_result :=
  match parse (tail args) format with None => fret AT_RESULT_PARSE_FAILE | Some vs => k vs end.
(** [if (0 != call) return AT_RESULT_FAILE; return AT_RESULT_OK;]. *)
Definition checked (e : wiotaE Z) : M at_result :=
  r <-- wiota e;; if negb (r =? 0) then FAILE else OK.
(** A call whose result is not looked at. *)
Definition ignored {T} (e : wiotaE T) : M at_result := wiota e;;; OK.
(** A query that prints one number. *)
Definition show (format : string) (e : wiotaE Z) : M at_result :=
  v <-- wiota e;; println format [AInt v];;; OK.

(** A buffer of [len] bytes that is filled from the serial device; it stays
    allocated for the rest. *)
Definition receive (len : Z) (k : list Z → M at_result) : M at_result :=
  ok <-- rt_malloc len;;
  if negb ok then FAILE
  else
    println ">" [];;;
    r <-- at_server_recv len;;
    if negb (r.1 =? len) then rt_free;;; FAILE else k r.2.

(** ** Configuration, start and stop *)

Definition at_freq_query : M at_result := show "+WIOTAFREQ:%u" uc_wiota_get_freq_info.
Definition at_freq_setup (args : list Z) : M at_result :=
  parsed args "d" (λ vs, checked (uc_wiota_set_freq_info (u8 (uarg vs 0 0)))).

Definition at_system_config_query : M at_result :=
  config <-- wiota uc_wiota_get_system_config;;
  println "+WIOTACONFIG:%d,%d,%d,%d,%d,%d,%d,%d,%d,0x%x"
    (map AInt [ap_tx_power config; id_len config; symbol_length config; dlul_ratio config; bt_value config;
               group_number config; spectrum_idx config; old_subsys_v config; bitscb config; subsystem_id config]);;;
  OK.

Definition at_system_config_setup (args : list Z) : M at_result :=
  st <-- wiota uc_wiota_get_state;;
  refused <-- (if negb (st =? WIOTA_STATE_INIT)
               then st <-- wiota uc_wiota_get_state;; fret (negb (st =? WIOTA_STATE_RUN)) else fret false);;
  if refused : bool then fret AT_RESULT_REPETITIVE_FAILE
  else
    config <-- wiota uc_wiota_get_system_config;;
    parsed args "d,d,d,d,d,d,d,d,d,y" (λ vs,
      checked (uc_wiota_set_system_config
        {| ap_tx_power := s8 (u8 (iarg vs 0 0) - 20); id_len := u8 (iarg vs 1 0); pp := 1;
           symbol_length := u8 (iarg vs 2 0); dlul_ratio := u8 (iarg vs 3 0); bt_value := u8 (iarg vs 4 0);
           group_number := u8 (iarg vs 5 0); spectrum_idx := u8 (iarg vs 6 0); old_subsys_v := u8 (iarg vs 7 0);
           bitscb := u8 (iarg vs 8 0); freq_idx := freq_idx config; cfg_reserved := cfg_reserved config;
           subsystem_id := uarg vs 9 (subsystem_id config) |})).

Definition at_wiota_init_exec : M at_result :=
  st <-- wiota uc_wiota_get_state;;
  ready <-- (if st =? WIOTA_STATE_DEFAULT then fret true
             else st <-- wiota uc_wiota_get_state;; fret (st =? WIOTA_STATE_EXIT));;
  if ready : bool then wiota uc_wiota_init;;; OK else fret AT_RESULT_REPETITIVE_FAILE.

Definition uc_wiota_register_callbacks : M unit :=
  wiota (uc_wiota_register_callback at_show_drop);;;
  wiota (uc_wiota_register_callback at_show_recv_data);;;
  wiota (uc_wiota_register_callback at_sync_paging_ctrl);;;
  wiota (uc_wiota_register_callback at_cce_abnormal).

Definition at_wiota_func_setup (args : list Z) : M at_result :=
  parsed args "d" (λ vs,
    let state := iarg vs 0 0 in
    starts <-- (if state =? 1 then st <-- wiota uc_wiota_get_state;; fret (st =? WIOTA_STATE_INIT) else fret false);;
    if starts : bool then
      ts <-- wiota uc_wiota_get_time_service_state;;
      if ts =? TIME_SERVICE_START then fret AT_RESULT_REPETITIVE_FAILE
      else wiota uc_wiota_run;;; println "+WIOTARUN:OK" [];;; uc_wiota_register_callbacks;;; OK
    else
      stops <-- (if state =? 0 then st <-- wiota uc_wiota_get_state;; fret (st =? WIOTA_STATE_RUN) else fret false);;
      if stops : bool then wiota uc_wiota_exit;;; OK else fret AT_RESULT_REPETITIVE_FAILE).

Definition at_wiota_new_callback_setup (args : list Z) : M at_result :=
  parsed args "d,d" (λ vs,
    (if negb (uarg vs 0 0 =? 0) then wiota (uc_wiota_register_callback at_show_recv_data_detail) else fret tt);;;
    (if negb (uarg vs 1 0 =? 0) then wiota (uc_wiota_register_callback at_ts_info) else fret tt);;; OK).

(** [if (uc_wiota_get_state() < WIOTA_STATE_INIT) return ...]. *)
Definition after_init (k : M at_result) : M at_result :=
  st <-- wiota uc_wiota_get_state;;
  if st <? WIOTA_STATE_INIT then fret AT_RESULT_REPETITIVE_FAILE else k.
(** [if (uc_wiota_get_state() != WIOTA_STATE_RUN) return ...]. *)
Definition while_run (k : M at_result) : M at_result :=
  st <-- wiota uc_wiota_get_state;;
  if negb (st =? WIOTA_STATE_RUN) then fret AT_RESULT_REPETITIVE_FAILE else k.

Fixpoint show_each (format : string) (l : list Z) : M unit :=
  match l with [] => fret tt | x :: l => println format [AInt x];;; show_each format l end.
Definition at_blacklist_query : M at_result :=
  after_init (
    r <-- wiota uc_wiota_get_blacklist;;
    println "+WIOTABLACKLIST:%d" [AInt r.2];;; show_each "+WIOTABLACKLIST:0x%x" r.1;;; OK).
Definition at_blacklist_setup (args : list Z) : M at_result :=
  after_init (parsed args "y,d" (λ vs,
    let user_id := uarg vs 0 0 in
    let mode := uarg vs 1 0 in
    if mode =? 0 then checked (uc_wiota_add_iote_to_blacklist [user_id] 1)
    else if mode =? 1 then checked (uc_wiota_remove_iote_from_blacklist [user_id] 1)
    else fret AT_RESULT_CHECK_FAILE)).

Definition at_active_time_query : M at_result := show "+WIOTAACTIVETIME:%u" uc_wiota_get_active_time.
Definition at_active_time_setup (args : list Z) : M at_result :=
  after_init (parsed args "d" (λ vs, checked (uc_wiota_set_active_time (uarg vs 0 0)))).

(** ** Transmissions *)

Definition get_char_timeout : M (option Z) :=
  c <-- at_server_gerchar false;;
  match c with
  | None => fret None
  | Some ch => s <-- fget;; (if at_echo s then at_server_printf "%c" [AInt ch] else fret tt);;; fret (Some ch)
  end.

(** AT_RESULT_FAILE, -1, as it comes back from [unsigned char ret]. *)
Definition ret_FAILE : at_result := AT_RESULT_VALUE (u8 (-1)).
Definition send_timeout (timeout : Z) : Z := if timeout >? 0 then timeout else WIOTA_SEND_TIMEOUT.
Definition unless_block (is_block : Z) (cb : callback) : option callback := if negb (is_block =? 0) then None else Some cb.
(** The report of a call that blocks. *)
Definition send_report (is_block result : Z) (format : string) (args : list at_arg) : M at_result :=
  if negb (is_block =? 0) then
    println format (AInt result :: args);;; fret (if result =? UC_OP_SUCC then AT_RESULT_OK else ret_FAILE)
  else OK.

Definition at_multicast_setup (args : list Z) : M at_result :=
  parsed args "y,d,y,d,d" (λ vs,
    let data_id := uarg vs 0 0 in let data_len := uarg vs 1 0 in let mc_id := uarg vs 2 0 in
    let timeout := iarg vs 3 0 in let is_block := uarg vs 4 1 in
    if data_len >? 0 then
      receive data_len (λ send_buf,
        result <-- wiota (uc_wiota_send_multicast_data send_buf (u16 data_len) mc_id (send_timeout timeout) (unless_block is_block at_send_mc) data_id);;
        rt_free;;; send_report is_block result "+WIOTAMC:%d,0x%x,0x%x" [AInt mc_id; AInt data_id])
    else OK).

Definition at_broadcast_setup (args : list Z) : M at_result :=
  parsed args "y,d,d,d,d" (λ vs,
    let data_id := uarg vs 0 0 in let data_len := uarg vs 1 0 in let mode := uarg vs 2 0 in
    let timeout := iarg vs 3 0 in let is_block := uarg vs 4 1 in
    if data_len >? 0 then
      receive data_len (λ send_buf,
        r <-- wiota (uc_wiota_send_broadcast_data send_buf (u16 data_len) mode (send_timeout timeout) (unless_block is_block at_send_bc) data_id);;
        rt_free;;; send_report is_block (u8 r) "+WIOTABC:%d,0x%x" [AInt data_id])
    else OK).

Definition at_send_data_setup (args : list Z) : M at_result :=
  parsed args "y,d,y,d,d" (λ vs,
    let data_id := uarg vs 0 0 in let data_len := uarg vs 1 0 in let user_id := uarg vs 2 0 in
    let timeout := iarg vs 3 0 in let is_block := uarg vs 4 1 in
    if data_len >? 0 then
      receive data_len (λ send_buf,
        result <-- wiota (uc_wiota_send_data send_buf (u16 data_len) user_id (send_timeout timeout) (unless_block is_block at_send) data_id);;
        rt_free;;; send_report is_block result "+WIOTASEND:%d,0x%x,0x%x" [AInt user_id; AInt data_id])
    else OK).

Definition at_send_data_order_setup (args : list Z) : M at_result :=
  parsed args "y,d,y,d,d,d" (λ vs,
    let data_id := uarg vs 0 0 in let data_len := uarg vs 1 0 in let user_id := uarg vs 2 0 in
    let timeout := iarg vs 3 0 in let order_business := iarg vs 4 0 in let is_block := uarg vs 5 1 in
    if data_len >? 0 then
      receive data_len (λ send_buf,
        result <-- wiota (uc_wiota_send_data_order send_buf (u16 data_len) user_id (send_timeout timeout) (u32 order_business) (unless_block is_block at_send) data_id);;
        rt_free;;; send_report is_block result "+WIOTASEND:%d,0x%x,0x%x" [AInt user_id; AInt data_id])
    else OK).

(** ** Frequencies *)

(** The lines of a scan: index, signal to noise, strength and synchronisation are
    one byte each; the index of the loop is a byte. *)
Fixpoint scan_lines (n : nat) (idx pos result_num : Z) (data : list Z) : M unit :=
  match n with
  | O => ffail OutOfFuel
  | S n =>
      if idx <? result_num then
        f <-- flift (peek data pos);; snr <-- flift (peek data (pos + 1));;
        rssi <-- flift (peek data (pos + 2));; sync <-- flift (peek data (pos + 3));;
        println "+WIOTASCANFREQ:%d,%d,%d,%d" [AInt f; AInt (s8 rssi); AInt (s8 snr); AInt sync];;;
        scan_lines n (u8 (idx + 1)) (pos + 4) result_num data
      else fret tt
  end.

Definition scan_report (is_gateway : Z) (scan_info : uc_scan_recv_t) : M at_result :=
  if sc_result scan_info =? UC_OP_SUCC then
    let result_num := sc_data_len scan_info / 4 in
    adopt 1;;;
    if negb (is_gateway =? 0) then
      ok <-- rt_malloc 4096;;
      if negb ok then rt_free;;; FAILE
      else
        conver_buf <-- uc_array_to_string (sc_data scan_info) (sc_data_len scan_info) (replicate 4096 0);;
        text <-- flift (cstring conver_buf);;
        let conver_buf_len := zlen text in
        at_server_printf "+WIOTASCANFREQ,%d,%d,%d:" [AInt UC_OP_SUCC; AInt result_num; AInt (conver_buf_len + 1)];;;
        at_send_data conver_buf (conver_buf_len + 1);;;
        at_server_printf "\r\n" [];;;
        rt_free;;; rt_free;;; OK
    else scan_lines (S (Z.to_nat result_num)) 0 0 result_num (sc_data scan_info);;; rt_free;;; OK
  else
    println "+WIOTASCANFREQ:%d,%d,%d" [AInt (sc_result scan_info); AInt 0; AInt 0];;; fret ret_FAILE.

Definition at_scan_freq_setup (args : list Z) : M at_result :=
  parsed args "d,d,d,d,d" (λ vs,
    let timeout := iarg vs 0 0 in let data_len := uarg vs 1 0 in let freq_num := uarg vs 2 0 in
    let scan_type := uarg vs 3 0 in let is_gateway := uarg vs 4 0 in
    if freq_num >? 0 then
      receive data_len (λ freq_string,
        ok <-- rt_malloc freq_num;;
        if negb ok then rt_free;;; FAILE
        else
          freq_string <-- flift (store (u32 (data_len - 2)) [0] freq_string);;
          r <-- uc_string_to_array freq_string (replicate (Z.to_nat freq_num) 0);;
          let '(convert_num, freq_arry) := r in
          if negb (u8 convert_num =? freq_num) then rt_free;;; rt_free;;; FAILE
          else
            rt_free;;;
            r <-- wiota (uc_wiota_scan_freq (Some freq_arry) (u8 freq_num) (u8 scan_type) timeout None);;
            rt_free;;; scan_report is_gateway r.2)
    else
      r <-- wiota (uc_wiota_scan_freq None 0 (u8 scan_type) timeout None);; scan_report is_gateway r.2).

(** The ids that are not zero, each at its own place. *)
Definition at_multicast_id_setup (args : list Z) : M at_result :=
  parsed args "d,y,y,y,y" (λ vs,
    let type := uarg vs 0 0 in
    let mc_id := [uarg vs 1 0; uarg vs 2 0; uarg vs 3 0; uarg vs 4 0] in
    if type >? 1 then fret AT_RESULT_CMD_ERR
    else
      let mc_id_array := mc_id in
      let id_num := zlen (filter (λ x, x ≠ 0) mc_id) in
      if id_num =? 0 then fret AT_RESULT_CMD_ERR
      else if type =? 0 then checked (uc_wiota_set_multicast_id mc_id_array id_num)
      else if type =? 1 then checked (uc_wiota_del_multicast_id mc_id_array id_num)
      else fret AT_RESULT_CMD_ERR).

Fixpoint until_255 (n : nat) (l : list Z) : Z :=
  match n, l with S n, b :: l => if b =? 255 then 0 else until_255 n l + 1 | _, _ => 0 end.
Definition at_freq_list_query : M at_result :=
  l <-- wiota uc_wiota_get_freq_list;;
  let freq_list := filled 16 l in
  freq_list_str <-- uc_array_to_string freq_list (until_255 16 freq_list) (replicate 64 0);;
  text <-- flift (cstring freq_list_str);;
  println "+WIOTAFREQLIST:%s\n" [AStr text];;; OK.

(** Characters up to a line feed: nothing after a time-out, the place of the
    line feed, or no place when the buffer is full first. *)
Fixpoint line_chars (n : nat) (i : Z) (freq_string : list Z) : M (option (option Z * list Z)) :=
  match n with
  | O => fret (Some (None, freq_string))
  | S n =>
      c <-- get_char_timeout;;
      match c with
      | None => fret None
      | Some ch =>
          freq_string <-- flift (store i [ch] freq_string);;
          if ch =? LF then fret (Some (Some i, freq_string)) else line_chars n (i + 1) freq_string
      end
  end.
(** The place behind the line feed, unless another character than a digit, a comma
    or the end of a line comes first. *)
Fixpoint plain_chars (n : nat) (i : Z) (freq_string : list Z) : result (option Z) :=
  match n with
  | O => Ok (Some i)
  | S n =>
      c <-? peek freq_string i;;
      if negb (is_digit c) && negb (c =? AT_CMD_COMMA_MARK) && negb (c =? CR) && negb (c =? LF) then Ok None
      else if c =? LF then Ok (Some (i + 1)) else plain_chars n (i + 1) freq_string
  end.

Definition at_freq_list_exec : M at_result :=
  ok <-- rt_malloc 65;;
  if negb ok then fret AT_RESULT_PARSE_FAILE
  else
    println ">" [];;;
    r <-- line_chars 65 0 (replicate 65 0);;
    match r with
    | None => rt_free;;; fret AT_RESULT_PARSE_FAILE
    | Some (None, _) => fret AT_RESULT_PARSE_FAILE
    | Some (Some _, freq_string) =>
        e <-- flift (plain_chars 65 0 freq_string);;
        match e with
        | None => fret AT_RESULT_PARSE_FAILE
        | Some temp_freq =>
            c <-- flift (peek freq_string (temp_freq - 3));;
            if c =? AT_CMD_COMMA_MARK then fret AT_RESULT_PARSE_FAILE
            else
              freq_string <-- flift (store (temp_freq - 2) [0] freq_string);;
              freq_string <-- flift (store (temp_freq - 1) [0] freq_string);;
              ok <-- rt_malloc 32;;
              if negb ok then rt_free;;; fret AT_RESULT_PARSE_FAILE
              else
                r <-- uc_string_to_array freq_string (replicate 32 0);;
                let '(freq_num, freq_arry) := r in
                if freq_num >? 16 then rt_free;;; rt_free;;; fret AT_RESULT_PARSE_FAILE
                else
                  rt_free;;;
                  wiota (uc_wiota_set_freq_list freq_arry (u8 freq_num));;;
                  wiota (uc_wiota_save_static_info 0);;;
                  rt_free;;; OK
        end
    end.

(** ** Power, versions, rates *)

Definition at_read_temp_query : M at_result :=
  while_run (
    r <-- wiota (uc_wiota_read_temperature None 10000);;
    if r.1 =? UC_OP_SUCC then println "+WIOTATEMP:%d" [AInt (tr_temp r.2)];;; OK else FAILE).

Definition at_ap_tx_power_setup (args : list Z) : M at_result :=
  parsed args "d" (λ vs, checked (uc_wiota_set_ap_tx_power (s8 (iarg vs 0 0 - 20)))).
Definition at_ap_tx_power_query : M at_result :=
  while_run (config <-- wiota uc_wiota_get_system_config;; println "+WIOTAPOW:%d" [AInt (ap_tx_power config)];;; OK).

Definition at_version_query : M at_result :=
  v <-- wiota uc_wiota_get_version;;
  v1 <-- flift (cstring (filled 15 (wiota_version_8088 v)));; v2 <-- flift (cstring (filled 15 (wiota_version_8288 v)));;
  println "+WIOTAVERSION:%s,%s" [AStr v1; AStr v2];;;
  g1 <-- flift (cstring (filled 36 (git_info_8088 v)));; g2 <-- flift (cstring (filled 36 (git_info_8288 v)));;
  println "+GITINFO:%s,%s" [AStr g1; AStr g2];;;
  t1 <-- flift (cstring (filled 36 (make_time_8088 v)));; t2 <-- flift (cstring (filled 36 (make_time_8288 v)));;
  println "+TIME:%s,%s" [AStr t1; AStr t2];;;
  println "+CCEVERSION:%x" [AInt (cce_version v)];;; OK.

Definition at_max_iote_num_query : M at_result := show "+WIOTAIOTENUM:%d" uc_wiota_get_max_num_of_active_iote.
Definition at_max_iote_num_setup (args : list Z) : M at_result :=
  parsed args "d" (λ vs, checked (uc_wiota_set_max_num_of_active_iote (u16 (uarg vs 0 0)))).
Definition at_bc_mcs_query : M at_result := show "+WIOTABCMCS:%d" uc_wiota_get_broadcast_mcs.
Definition at_bc_mcs_setup (args : list Z) : M at_result :=
  parsed args "d" (λ vs, checked (uc_wiota_set_broadcast_mcs (uarg vs 0 0))).

Definition device (op : device_op) : M unit := fmod (λ s, with_device (at_device s ++ [op]) s).
(** The console moves to the serial device of the server or to its own. *)
Definition at_handle_log_uart (uart_number : Z) : M unit :=
  device DeviceClose;;;
  (if uart_number =? 0 then device (ConsoleSet 0) else if uart_number =? 1 then device (ConsoleSet 1) else fret tt);;;
  device DeviceOpen;;;
  device (DeviceBaud (if uart_number =? 0 then 460800 else 115200)).

Definition at_wiotalog_setup (args : list Z) : M at_result :=
  parsed args "d" (λ vs,
    let mode := iarg vs 0 0 in
    if (mode =? 0) || (mode =? 1) then checked (uc_wiota_log_switch UC_LOG_UART mode)
    else if (mode =? 2) || (mode =? 3) then at_handle_log_uart (mode - 2);;; OK
    else if (mode =? 4) || (mode =? 5) then checked (uc_wiota_log_switch UC_LOG_SPI (mode - 4))
    else if (mode =? 6) || (mode =? 7) then checked (uc_wiota_log_switch UC_LOG_DEBUG (mode - 6))
    else if (mode =? 8) || (mode =? 9) then checked (uc_wiota_log_switch UC_LOG_TS (mode - 8))
    else FAILE).

Definition at_wiotacrc_query : M at_result := show "+WIOTACRC:%d" uc_wiota_get_crc.
Definition at_wiotacrc_setup (args : list Z) : M at_result :=
  parsed args "d" (λ vs, checked (uc_wiota_set_crc (u16 (iarg vs 0 0)))).

Definition at_wiota_read_mem_setup (args : list Z) : M at_result :=
  parsed args "d,y,d" (λ vs,
    let type := uarg vs 0 0 in let addr := uarg vs 1 0 in let len := uarg vs 2 0 in
    ok <-- rt_malloc len;;
    if negb ok then FAILE
    else
      r <-- wiota (uc_wiota_read_value_from_mem type addr len);;
      if negb (r.1 =? 0) then rt_free;;; fret AT_RESULT_CMD_ERR
      else
        w <-- flift (slice 0 4 (filled (Z.to_nat len) r.2));;
        println "+WIOTAREADMEM:0x%x" [AInt (le_val w)];;;
        rt_free;;; OK).

Definition at_wiota_rate_setup (args : list Z) : M at_result :=
  parsed args "d,d" (λ vs, checked (uc_wiota_set_data_rate (uarg vs 0 0) (uarg vs 1 0))).
Definition at_wiota_rate_query_setup (args : list Z) : M at_result :=
  parsed args "d" (λ vs,
    rate_value <-- wiota (uc_wiota_get_data_rate_value (uarg vs 0 0));;
    if rate_value =? 255 then fret AT_RESULT_CMD_ERR
    else println "+WIOTARATEQUERY:%d" [AInt rate_value];;; OK).

(** ** Paging, positions, broadcasts *)

Definition at_wiota_sync_paging_setup (args : list Z) : M at_result :=
  parsed args "y,d,d,d,d,d" (λ vs,
    let is_block := uarg vs 5 0 in
    result <-- wiota (uc_wiota_sync_paging
      {| pg_user_id := uarg vs 0 0; pg_fn_index := uarg vs 1 0; pg_detection_period := uarg vs 2 0;
         pg_send_round := u16 (uarg vs 3 0); pg_continue_fn := u16 (uarg vs 4 0) |} (unless_block is_block at_paging));;
    if negb (is_block =? 0) && negb (result =? UC_OP_SUCC) then FAILE else OK).

Definition at_sync_paging_num_setup (args : list Z) : M at_result :=
  parsed args "d,d" (λ vs,
    sp_num <-- wiota (uc_wiota_get_sync_paging_num (u8 (uarg vs 0 0)) (u8 (uarg vs 1 0)));;
    if sp_num =? 255 then fret AT_RESULT_CMD_ERR else println "+WIOTASPNUM:%d" [AInt sp_num];;; OK).

(** The positions of [n] terminals. *)
Fixpoint show_positions (n : nat) (dev_pos : list uc_dev_pos_t) : M unit :=
  match n with
  | O => fret tt
  | S n => match dev_pos with
           | [] => ffail OutOfBounds
           | p :: dev_pos =>
               println "+POS:%d,%d,%d" [AInt (dp_group_idx p); AInt (dp_burst_idx p); AInt (dp_slot_idx p)];;; show_positions n dev_pos
           end
  end.
Definition at_wiota_pos_query_setup (args : list Z) : M at_result :=
  parsed args "y,d" (λ vs,
    let start_addr := uarg vs 0 0 in let addr_cnt := uarg vs 1 0 in
    if (addr_cnt =? 0) || (start_addr =? 0) then fret AT_RESULT_CMD_ERR
    else
      let id_array_len := u32 (4 * addr_cnt) in
      ok <-- rt_malloc id_array_len;;
      fassert ok;;;
      id_array <-- (if id_array_len / 4 <? addr_cnt then ffail OutOfBounds
                    else fret (map (λ i, u32 (start_addr + i)) (seqZ 0 addr_cnt)));;
      dev_pos <-- wiota (uc_wiota_query_dev_pos_by_userid id_array addr_cnt);;
      match dev_pos with
      | Some dev_pos => adopt 1;;; show_positions (Z.to_nat addr_cnt) dev_pos;;; rt_free;;; rt_free;;; OK
      | None => OK
      end).

Definition at_wiota_single_tone_setup (args : list Z) : M at_result :=
  parsed args "d" (λ vs, checked (uc_wiota_set_single_tone (uarg vs 0 0))).
Definition at_wiota_bc_fn_cycle_query : M at_result := show "+WIOTABCFNCYCLE:%d" uc_wiota_get_broadcast_fn_cycle.
Definition at_wiota_bc_fn_cycle_setup (args : list Z) : M at_result :=
  parsed args "d" (λ vs, ignored (uc_wiota_set_broadcast_fn_cycle (u8 (uarg vs 0 0)))).
Definition at_wiota_bc_send_round_query : M at_result := show "+WIOTABCROUND:%d" uc_wiota_get_broadcast_send_round.
Definition at_wiota_bc_send_round_setup (args : list Z) : M at_result :=
  parsed args "d" (λ vs, checked (uc_wiota_set_broadcast_send_round (u8 (uarg vs 0 0)))).
Definition at_wiota_frame_len_query : M at_result := show "+WIOTAFRAMELEN:%d" uc_wiota_get_frame_len.
Definition at_wiota_frame_num_query : M at_result := show "+WIOTAFRAMENUM:%d" uc_wiota_get_frame_num.
Definition at_wiota_sync_assistant_pps_query : M at_result := show "+WIOTAPPS:%d" uc_wiota_get_sync_assistant_pps.
Definition at_wiota_sync_assistant_pps_setup (args : list Z) : M at_result :=
  parsed args "d" (λ vs, checked (uc_wiota_set_sync_assistant_pps (u8 (uarg vs 0 0)))).
Definition at_wiota_iote_leaving_setup (args : list Z) : M at_result :=
  parsed args "y" (λ vs, checked (uc_wiota_iote_leaving_active_state [uarg vs 0 0] 1)).
Definition at_wiota_module_id_query : M at_result :=
  m <-- wiota uc_wiota_get_module_id;; id <-- flift (cstring (filled 20 m));; println "+WIOTAMODULEID:%s" [AStr id];;; OK.

(** ** Subframes *)

Definition at_send_subf_mode_cfg_query : M at_result :=
  c <-- wiota uc_wiota_get_subframe_mode_cfg;;
  println "+WIOTASUBFCFG:%d,%d,%d,%d" [AInt (ul_vfs c); AInt (dl_vfs c); AInt (sf_send_round c); AInt (once_len c)];;; OK.
Definition at_send_subf_mode_cfg_setup (args : list Z) : M at_result :=
  parsed args "d,d,d,d" (λ vs,
    ignored (uc_wiota_set_subframe_mode_cfg
      {| ul_vfs := u8 (uarg vs 0 0); dl_vfs := u8 (uarg vs 1 0); sf_send_round := u8 (uarg vs 2 0); once_len := u8 (uarg vs 3 0) |})).
Definition at_wiota_ul_subf_mode_setup (args : list Z) : M at_result :=
  parsed args "d,y,d" (λ vs, checked (uc_wiota_set_ul_subframe_mode (u8 (uarg vs 0 0)) (uarg vs 1 0) (u8 (uarg vs 2 0)))).
Definition at_send_dl_subf_data_setup (args : list Z) : M at_result :=
  parsed args "d,d" (λ vs,
    let data_len := uarg vs 0 0 in let fn := uarg vs 1 0 in
    if data_len >? 0 then
      receive data_len (λ subf_data,
        r <-- wiota (uc_wiota_add_dl_subframe_data subf_data (u8 data_len) (u8 fn));;
        rt_free;;; if negb (r =? 0) then FAILE else OK)
    else OK).

Fixpoint subf_lines (n : nat) (i num : Z) (nodes : list (Z * Z)) : M unit :=
  match n with
  | O => ffail OutOfFuel
  | S n =>
      if i <? num then
        match nodes !! Z.to_nat i with
        | None => ffail OutOfBounds
        | Some p => println "+WIOTASUBFTEST:0x%x,%u" [AInt p.1; AInt p.2];;; subf_lines n (u8 (i + 1)) num nodes
        end
      else fret tt
  end.
Definition at_send_subf_mode_test_setup (args : list Z) : M at_result :=
  parsed args "d" (λ vs,
    let mode := uarg vs 0 0 in
    if mode <=? 2 then checked (uc_wiota_set_subframe_test (u8 mode))
    else if mode =? 3 then
      t <-- wiota uc_wiota_get_subframe_test;;
      match t with
      | None => OK
      | Some test_info =>
          adopt (match st_subf_node test_info with Some _ => 2 | None => 1 end);;;
          println "+WIOTASUBFSENDCNT:%u" [AInt (st_send_cnt test_info)];;;
          println "+WIOTASUBFNODENUM:%u" [AInt (st_subf_node_num test_info)];;;
          match st_subf_node test_info with
          | Some nodes =>
              if st_subf_node_num test_info >? 0 then
                subf_lines (S (Z.to_nat (st_subf_node_num test_info))) 0 (st_subf_node_num test_info) nodes;;; rt_free
              else fret tt
          | None => fret tt
          end;;;
          rt_free;;; OK
      end
    else fret AT_RESULT_CMD_ERR).

(** ** Other settings *)

Definition at_mem_info_query : M at_result :=
  s <-- fget;; println "+MEMINFO:%d" [AInt ((at_meminfo s).1 - (at_meminfo s).2)];;; OK.
Definition at_wiota_boost_level05_setup (args : list Z) : M at_result :=
  parsed args "d" (λ vs, checked (uc_wiota_set_boost_level_0_5 (u8 (uarg vs 0 0)))).
Definition at_wiota_resend_query : M at_result := show "+WIOTARESEND:%d" uc_wiota_get_sm_resend_times.
Definition at_wiota_resend_setup (args : list Z) : M at_result :=
  parsed args "d" (λ vs, ignored (uc_wiota_set_sm_resend_times (u8 (uarg vs 0 0)))).
Definition at_wiota_fn_refresh_cb_exec : M at_result := ignored (uc_wiota_register_callback at_fn_refresh).

Definition at_wiota_recv_send_sm_by_fn_setup (args : list Z) : M at_result :=
  parsed args "y,d,y,d,d,d" (λ vs,
    let data_id := uarg vs 0 0 in let data_len := uarg vs 1 0 in let send_fns := uarg vs 5 0 in
    let rs data cb fns len para := {| rs_user_id := uarg vs 2 0; rs_start_recv_fn := uarg vs 3 0; rs_recv_fns := u8 (uarg vs 4 0);
                                      rs_send_fns := fns; rs_data_len := len; rs_data := data; rs_callback := cb; rs_para := para |} in
    if (data_len >? 0) && (send_fns >? 0) then
      receive data_len (λ send_buf,
        wiota (uc_wiota_recv_send_sm_by_fn (rs (Some send_buf) (Some at_send) (u8 send_fns) (u16 data_len) data_id));;; rt_free;;; OK)
    else ignored (uc_wiota_recv_send_sm_by_fn (rs None None 0 0 0))).

Definition at_wiota_ramp_type_setup (args : list Z) : M at_result :=
  parsed args "d" (λ vs, checked (uc_wiota_set_ramp_type (u8 (uarg vs 0 0)))).
Definition at_wiota_ramp_value_setup (args : list Z) : M at_result :=
  parsed args "d" (λ vs, checked (uc_wiota_set_ramp_value (uarg vs 0 0))).
Definition at_wiota_ramp_power_setup (args : list Z) : M at_result :=
  parsed args "d" (λ vs, checked (uc_wiota_set_ramp_power (uarg vs 0 0))).
Definition at_wiota_rf_setup (args : list Z) : M at_result :=
  parsed args "d" (λ vs, checked (uc_wiota_set_rf_ctrl_idx (uarg vs 0 0))).
Definition at_wiota_aagc_idx_setup (args : list Z) : M at_result :=
  parsed args "d" (λ vs, checked (uc_wiota_set_aagc_idx (u8 (uarg vs 0 0)))).
Definition at_wiota_bnack_query : M at_result := show "+WIOTABNACK:%d" uc_wiota_get_bnack_func.
Definition at_wiota_bnack_setup (args : list Z) : M at_result :=
  parsed args "d" (λ vs, ignored (uc_wiota_set_bnack_func (s32 (uarg vs 0 0)))).
Definition at_wiota_dl_rf_mode_query : M at_result := show "+WIOTADLRF:%d" uc_wiota_get_dl_rf_mode.
Definition at_wiota_dl_rf_mode_setup (args : list Z) : M at_result :=
  parsed args "d" (λ vs, checked (uc_wiota_set_dl_rf_mode (u8 (uarg vs 0 0)))).
Definition at_wiota_ota_last_subf_idle_query : M at_result := show "+WIOTADLRF:%d" uc_wiota_get_ota_last_subframe_idle.
Definition at_wiota_ota_last_subf_idle_setup (args : list Z) : M at_result :=
  parsed args "d" (λ vs, checked (uc_wiota_set_ota_last_subframe_idle (u8 (uarg vs 0 0)))).
Definition at_wiota_afh_func_query : M at_result := show "+WIOTAAFH:%d" uc_wiota_get_afh_func.
Definition at_wiota_afh_func_setup (args : list Z) : M at_result :=
  parsed args "d" (λ vs, checked (uc_wiota_set_afh_func (u8 (uarg vs 0 0)))).

Definition at_wiota_afh_map_setup (args : list Z) : M at_result :=
  parsed args "d" (λ vs,
    let afh_string_len := iarg vs 0 (uninit 0) in
    receive (u32 afh_string_len) (λ afh_string,
      afh_string <-- flift (store (afh_string_len - 2) [0] afh_string);;
      r <-- uc_string_to_array afh_string (replicate 26 0);;
      let '(convert_num, afh_map) := r in
      if negb (convert_num =? 26) then rt_free;;; FAILE
      else rt_free;;; checked (uc_wiota_set_afh_map afh_map))).

Definition at_wiota_pwm_ctrl_pa_setup (args : list Z) : M at_result :=
  parsed args "d,d" (λ vs, checked (uc_wiota_set_pwm_ctrl_pa (uarg vs 0 (uninit 0)) (uarg vs 1 (uninit 1)))).

(** ** Time service *)

Definition at_wiota_frame_boundary_align_setup (args : list Z) : M at_result :=
  parsed args "d" (λ vs, ignored (uc_wiota_set_frame_boundary_align_func (u8 (uarg vs 0 0)))).
Definition at_wiota_time_service_cycle_setup (args : list Z) : M at_result :=
  parsed args "d" (λ vs, ignored (uc_wiota_set_time_service_cycle (u8 (uarg vs 0 0)))).
Definition at_wiota_time_service_cycle_query : M at_result := show "+WIOTATSCYCLE:%d" uc_wiota_get_time_service_cycle.

Definition at_wiota_time_service_setup (args : list Z) : M at_result :=
  func_gnss <-- wiota (uc_wiota_get_time_service_func TIME_SERVICE_GNSS);;
  func_1588 <-- wiota (uc_wiota_get_time_service_func TIME_SERVICE_1588_PS);;
  func_sync <-- wiota (uc_wiota_get_time_service_func TIME_SERVICE_SYNC_ASSISTANT);;
  parsed args "d" (λ vs,
    let state := uarg vs 0 0 in
    if negb (func_gnss =? 1) && negb (func_1588 =? 1) && negb (func_sync =? 1) then FAILE
    else
      starts <-- (if state =? 1 then
                    st <-- wiota uc_wiota_get_state;;
                    if st =? WIOTA_STATE_INIT then fret true else st <-- wiota uc_wiota_get_state;; fret (st =? WIOTA_STATE_RUN)
                  else fret false);;
      if starts : bool then
        (if negb (func_gnss =? 0) || negb (func_1588 =? 0) then wiota (uc_wiota_register_callback at_ts_state) else fret tt);;;
        wiota uc_wiota_time_service_start;;; OK
      else
        stops <-- (if state =? 0 then ts <-- wiota uc_wiota_get_time_service_state;; fret (negb (ts =? TIME_SERVICE_NULL)) else fret false);;
        if stops : bool then wiota uc_wiota_time_service_stop;;; OK else FAILE).

Definition at_wiota_time_setup (args : list Z) : M at_result :=
  parsed args "d,d" (λ vs,
    let sec := uarg vs 0 0 in let usec := uarg vs 1 0 in
    if (sec =? 0) && (usec =? 0) then fret AT_RESULT_PARSE_FAILE else ignored (uc_wiota_set_1588_protocol_rtc sec usec)).
Definition at_wiota_bc_utc_setup (args : list Z) : M at_result :=
  parsed args "d" (λ vs, ignored (uc_wiota_set_broadcast_utc_func (u8 (uarg vs 0 0)))).
Definition at_wiota_time_service_mode_setup (args : list Z) : M at_result :=
  parsed args "d,d" (λ vs, checked (uc_wiota_set_time_service_func (uarg vs 0 0) (u8 (uarg vs 1 0)))).
Definition at_wiota_time_service_mode_query : M at_result :=
  func_gnss <-- wiota (uc_wiota_get_time_service_func TIME_SERVICE_GNSS);;
  func_1588 <-- wiota (uc_wiota_get_time_service_func TIME_SERVICE_1588_PS);;
  func_sync <-- wiota (uc_wiota_get_time_service_func TIME_SERVICE_SYNC_ASSISTANT);;
  println "+WIOTATSMODE:%d,%d,%d" [AInt func_gnss; AInt func_1588; AInt func_sync];;; OK.
Definition at_wiota_time_service_state_query : M at_result := show "+WIOTATSSTATE:%d" uc_wiota_get_time_service_state.

Definition at_wiota_gnss_pos_query (args : list Z) : M at_result :=
  parsed args "d" (λ vs,
    let type := uarg vs 0 0 in
    if type =? 0 then
      '(x, y, z) <-- wiota uc_wiota_gnss_query_coordinate_xyz;; println "+GNSSPOSQUERY:%d,%d,%d" [AInt x; AInt y; AInt z];;; OK
    else if type =? 1 then
      '(x, y, z) <-- wiota uc_wiota_gnss_query_coordinate_lla;; println "+GNSSPOSQUERY:%s,%s,%s" [AFloat x; AFloat y; AFloat z];;; OK
    else FAILE).
Definition at_wiota_gnss_relocation_setup (args : list Z) : M at_result :=
  parsed args "d" (λ vs, ignored (uc_wiota_set_gnss_relocation (u8 (uarg vs 0 0)))).

(** ** Paging *)

Definition at_paging_tx_config_setup (args : list Z) : M at_result :=
  parsed args "d,d,d,d,d,d" (λ vs,
    let temp i := uarg vs i (uninit i) in
    config <-- wiota uc_wiota_get_paging_tx_cfg;;
    checked (uc_wiota_set_paging_tx_cfg
      {| tx_freq := u8 (temp 0%nat); tx_spectrum_idx := u8 (temp 1%nat); tx_bandwidth := u8 (temp 2%nat);
         tx_symbol_length := u8 (temp 3%nat); tx_awaken_id := u16 (temp 4%nat); tx_mode := tx_mode config; tx_send_time := temp 5%nat |})).
Definition at_paging_tx_config_query : M at_result :=
  c <-- wiota uc_wiota_get_paging_tx_cfg;;
  println "+WIOTAPAGINGTX:%d,%d,%d,%d,%d,%d"
    (map AInt [tx_freq c; tx_spectrum_idx c; tx_bandwidth c; tx_symbol_length c; tx_awaken_id c; tx_send_time c]);;; OK.
Definition at_paging_tx_send_exec : M at_result := checked uc_wiota_paging_tx_start.
Definition at_paging_tx_frame_send_exec : M at_result := checked uc_wiota_paging_tx_frame_start.

Definition at_paging_config_mode_query : M at_result :=
  rx <-- wiota uc_wiota_get_paging_rx_cfg;; tx <-- wiota uc_wiota_get_paging_tx_cfg;;
  println "+WIOTAPAGINGMODE=%d,%d" [AInt (rx_mode rx); AInt (tx_mode tx)];;; OK.
Definition at_paging_config_mode_setup (args : list Z) : M at_result :=
  parsed args "d,d" (λ vs,
    let new_rx := uarg vs 0 (uninit 0) in let new_tx := uarg vs 1 (uninit 1) in
    rx <-- wiota uc_wiota_get_paging_rx_cfg;; tx <-- wiota uc_wiota_get_paging_tx_cfg;;
    r <-- wiota (uc_wiota_set_paging_rx_cfg
      {| rx_freq := rx_freq rx; rx_spectrum_idx := rx_spectrum_idx rx; rx_bandwidth := rx_bandwidth rx; rx_symbol_length := rx_symbol_length rx;
         rx_lpm_nlen := rx_lpm_nlen rx; rx_lpm_utimes := rx_lpm_utimes rx; rx_threshold := rx_threshold rx; rx_extra_flag := rx_extra_flag rx;
         rx_awaken_id := rx_awaken_id rx; rx_detect_period := rx_detect_period rx; rx_extra_period := rx_extra_period rx; rx_mode := u8 new_rx;
         rx_period_multiple := rx_period_multiple rx; rx_awaken_id_another := rx_awaken_id_another rx |});;
    if negb (r =? 0) then FAILE
    else checked (uc_wiota_set_paging_tx_cfg
      {| tx_freq := tx_freq tx; tx_spectrum_idx := tx_spectrum_idx tx; tx_bandwidth := tx_bandwidth tx; tx_symbol_length := tx_symbol_length tx;
         tx_awaken_id := tx_awaken_id tx; tx_mode := u8 new_tx; tx_send_time := tx_send_time tx |})).

Definition at_paging_rx_config_query : M at_result :=
  c <-- wiota uc_wiota_get_paging_rx_cfg;;
  println "+WIOTAPAGINGRX=%d,%d,%d,%d,%d,%d,%d,%d,%d,%d,%d,%d,%d"
    (map AInt [rx_freq c; rx_spectrum_idx c; rx_bandwidth c; rx_symbol_length c; rx_awaken_id c; rx_detect_period c; rx_lpm_nlen c;
               rx_lpm_utimes c; rx_threshold c; rx_extra_flag c; rx_extra_period c; rx_period_multiple c; rx_awaken_id_another c]);;; OK.
Definition at_paging_rx_config_setup (args : list Z) : M at_result :=
  parsed args "d,d,d,d,d,d,d,d,d,d,d,d,d" (λ vs,
    let temp i := uarg vs i (uninit i) in
    config <-- wiota uc_wiota_get_paging_rx_cfg;;
    checked (uc_wiota_set_paging_rx_cfg
      {| rx_freq := u8 (temp 0%nat); rx_spectrum_idx := u8 (temp 1%nat); rx_bandwidth := u8 (temp 2%nat); rx_symbol_length := u8 (temp 3%nat);
         rx_lpm_nlen := u8 (temp 6%nat); rx_lpm_utimes := u8 (temp 7%nat); rx_threshold := u8 (u16 (temp 8%nat)); rx_extra_flag := u8 (u16 (temp 9%nat));
         rx_awaken_id := u16 (temp 4%nat); rx_detect_period := temp 5%nat; rx_extra_period := temp 10%nat; rx_mode := rx_mode config;
         rx_period_multiple := u8 (temp 11%nat); rx_awaken_id_another := u16 (temp 12%nat) |})).
Definition at_paging_rx_enter_setup (args : list Z) : M at_result :=
  parsed args "d,d" (λ vs,
    println "OK" [];;; ignored (uc_wiota_paging_rx_enter (u8 (uarg vs 0 0)) (uarg vs 1 0))).

Definition at_wiota_awaken_query : M at_result :=
  a <-- wiota uc_wiota_get_awakened_cause;;
  println "+WIOTAAWAKEN:%d,%d,%d,%u,%d"
    (map AInt [aw_awaken_cause a; aw_is_cs_awakened a; aw_lpm_last_wakeup_cause a; aw_lpm_detected_times a; aw_lpm_last_wakeup_idx a]);;; OK.
Definition at_wiota_hardware_query : M at_result := show "+WIOTAHW:%d" uc_wiota_get_is_new_hardware.
Definition at_wiota_ap8288_state_query : M at_result := while_run (show "+WIOTAAPSTATE:%d" uc_wiota_get_ap8288_state).

(** ** Quick connection *)

Definition wiota_quick_connect_start (freq mode : Z) : M Z :=
  if (mode >=? QC_MODE_MAX) || (freq >? 200) then fret 1
  else
    wiota uc_wiota_exit;;;
    wiota uc_wiota_init;;;
    config <-- wiota uc_wiota_get_system_config;;
    match g_qc_cfg !! Z.to_nat mode with
    | None => ffail OutOfBounds
    | Some qc =>
        r <-- wiota (uc_wiota_set_system_config
          {| ap_tx_power := s8 (qc_down_pow qc - 20); id_len := id_len config; pp := pp config; symbol_length := qc_symbol_len qc;
             dlul_ratio := qc_dlul_ratio qc; bt_value := bt_value config; group_number := qc_group_num qc; spectrum_idx := spectrum_idx config;
             old_subsys_v := old_subsys_v config; bitscb := bitscb config; freq_idx := freq; cfg_reserved := cfg_reserved config;
             subsystem_id := subsystem_id config |});;
        if negb (r =? 0) then wiota uc_wiota_exit;;; fret 2
        else
          wiota (uc_wiota_save_static_info 0);;;
          r <-- wiota (uc_wiota_set_freq_info freq);;
          if negb (r =? 0) then wiota uc_wiota_exit;;; fret 3
          else
            wiota uc_wiota_run;;;
            uc_wiota_register_callbacks;;;
            r <-- wiota (uc_wiota_set_data_rate UC_RATE_NORMAL (qc_mcs qc));;
            if negb (r =? 0) then wiota uc_wiota_exit;;; fret 4 else fret 0
    end.
Definition wiota_quick_connect_stop : M unit := wiota uc_wiota_exit.

(** [parse] stores an int where [onoff] has one byte; the low byte is kept. *)
Definition at_wiota_quick_start_setup (args : list Z) : M at_result :=
  parsed args "d,d,d" (λ vs,
    let onoff := u8 (arg vs 0 0) in let freq := uarg vs 1 0 in let mode := uarg vs 2 0 in
    if mode <? QC_MODE_MAX then
      if onoff =? 1 then r <-- wiota_quick_connect_start (u8 freq) mode;; if r =? 0 then OK else FAILE
      else if onoff =? 0 then wiota_quick_connect_stop;;; OK
      else FAILE
    else FAILE).

Definition at_wdt_reset_exec : M at_result := println "OK" [];;; ignored wdt_reset.

(** ** Callbacks *)

Definition uc_wiota_show_drop_func (user_id : Z) : M unit := wiota uc_wiota_get_frame_num;;; fret tt.
Definition uc_wiota_show_recv_data (user_id : Z) (recv_data : list Z) (data_len type : Z) : M unit :=
  (if type =? DATA_TYPE_ACCESS then wiota uc_wiota_get_frame_num;;; fret tt else fret tt);;;
  println "+WIOTARECV:0x%x,%d,%d:" [AInt user_id; AInt type; AInt data_len];;;
  if negb (type =? DATA_TYPE_SUBF_DATA) then at_send_data recv_data data_len;;; at_server_printf "\r\n" [] else fret tt.
Definition uc_wiota_show_recv_data_detail (d : uc_recv_detail_t) : M unit :=
  (if rd_data_type d =? DATA_TYPE_ACCESS then wiota uc_wiota_get_frame_num;;; fret tt else fret tt);;;
  println "+WIOTARECV:0x%x,%d,%d,%d,%d,%d,%d,%d,%d,%u:"
    (map AInt [rd_user_id d; rd_data_type d; rd_data_len d; rd_rssi d; rd_delay d; rd_fn_cnt d; rd_group_idx d; rd_burst_idx d; rd_slot_idx d; rd_frame_num d]);;;
  if negb (rd_data_type d =? DATA_TYPE_SUBF_DATA) then at_send_data (rd_data d) (rd_data_len d);;; at_server_printf "\r\n" [] else fret tt.
Definition uc_wiota_sync_paging_cb (user_id burst_idx fn_index : Z) : M unit :=
  println "+WIOTASPCTRL:0x%x,%d,%u" [AInt user_id; AInt burst_idx; AInt fn_index].
Definition uc_wiota_cce_abnormal_callback (dfe_err_cnt rf_err_cnt : Z) : M unit :=
  println "+WIOTACCEABNORMAL:%d,%d" [AInt dfe_err_cnt; AInt rf_err_cnt].
Definition uc_wiota_send_mc_callback (r : uc_send_recv_t) : M unit :=
  println "+WIOTAMC:%d,0x%x,0x%x" [AInt (sr_result r); AInt (sr_user_id r); AInt (sr_data_id r)].
Definition uc_wiota_send_bc_callback (r : uc_send_recv_t) : M unit :=
  println "+WIOTABC:%d,0x%x" [AInt (sr_result r); AInt (sr_data_id r)].
Definition uc_wiota_send_callback (r : uc_send_recv_t) : M unit :=
  println "+WIOTASEND:%d,0x%x,0x%x" [AInt (sr_result r); AInt (sr_user_id r); AInt (sr_data_id r)].
Definition uc_wiota_paging_callback (r : uc_paging_recv_t) : M unit :=
  println "+WIOTASP:%d,0x%x" [AInt (pr_result r); AInt (pr_user_id r)].
Definition uc_wiota_fn_refresh (frame_num : Z) : M unit := println "+WIOTAFN:%u" [AInt frame_num].
Definition uc_wiota_time_service_state_cb (state : Z) : M unit :=
  match ["TS NULL"; "TS START"; "TS SUC"; "TS FAIL"; "TS INIT END"; "TS ALIGN END"; "TS STOP"]%string !! Z.to_nat state with
  | None => ffail OutOfBounds
  | Some str => println "%s" [AStr (chars str)]
  end.
Definition uc_wiota_time_service_info_cb (t : uc_ts_info_t) : M unit :=
  println "+WIOTATSINFO:%d,%u,%d,%u,%u,%d,%d,%d,%s,%s,%s"
    (map AInt [ts_state t; ts_frame_head t; ts_frame_head_offset t; ts_cur_time_s t; ts_cur_time_us t; ts_pos_x t; ts_pos_y t; ts_pos_z t] ++
     [AFloat (ts_longitude t); AFloat (ts_latitude t); AFloat (ts_altitude t)]).

(** ** The table *)

Local Abbreviation queried name q := {| cmd_name := name; args_expr := None; cmd_test := None; cmd_query := Some q; cmd_setup := None; cmd_exec := None |}.
Local Abbreviation executed name e := {| cmd_name := name; args_expr := None; cmd_test := None; cmd_query := None; cmd_setup := None; cmd_exec := Some e |}.
Local Abbreviation set name expr f := {| cmd_name := name; args_expr := Some expr; cmd_test := None; cmd_query := None; cmd_setup := Some f; cmd_exec := None |}.
Local Abbreviation both name expr q f := {| cmd_name := name; args_expr := Some expr; cmd_test := None; cmd_query := Some q; cmd_setup := Some f; cmd_exec := None |}.

Definition at_wiota_table : list (@at_cmd R) := [
  executed "AT+WDTRST" at_wdt_reset_exec;
  executed "AT+WIOTAINIT" at_wiota_init_exec;
  both "AT+WIOTAFREQ" "=<freq_idx>" at_freq_query at_freq_setup;
  both "AT+WIOTAACTIVETIME" "=<active_time>" at_active_time_query at_active_time_setup;
  set "AT+WIOTARUN" "=<state>" at_wiota_func_setup;
  set "AT+WIOTAREGNEWCB" "=<new_recv_cb>,<new_ts_cb>" at_wiota_new_callback_setup;
  both "AT+WIOTABLACKLIST" "=<user_id>,<mode>" at_blacklist_query at_blacklist_setup;
  set "AT+WIOTAMCID" "=<type>,<id0>,<id1>,<id2>,<id3>" at_multicast_id_setup;
  both "AT+WIOTACONFIG" "=<ap_max_pow>,<id_len>,<symbol_len>,<dlul_ratio>,<bt_value>,<group_num>,<spectrum_idx>,<old_subsys_v>,<bitscb>,<subsystem_id>"
    at_system_config_query at_system_config_setup;
  set "AT+WIOTAMC" "=<data_id>,<len>,<mc_id>,<timeout>,<is_block>" at_multicast_setup;
  set "AT+WIOTABC" "=<data_id>,<len>,<mode>,<timeout>,<is_block>" at_broadcast_setup;
  set "AT+WIOTASEND" "=<data_id>,<len>,<user_id>,<timeout>,<is_block>" at_send_data_setup;
  set "AT+WIOTASENDORDER" "=<data_id>,<len>,<user_id>,<timeout>,<order_business>,<is_block>" at_send_data_order_setup;
  set "AT+WIOTASCANFREQ" "=<timeout>,<data_len>,<freq_num>,<scan_type>,<is_gwmode>" at_scan_freq_setup;
  set "AT+WIOTASP" "=<user_id>,<fn_index>,<period>,<send_round>,<continue_fn>,<is_block>" at_wiota_sync_paging_setup;
  set "AT+WIOTASPNUM" "=<group_idx>,<subf_idx>" at_sync_paging_num_setup;
  set "AT+WIOTAPOSQUERY" "=<start_addr>,<addr_cnt>" at_wiota_pos_query_setup;
  queried "AT+WIOTATEMP" at_read_temp_query;
  both "AT+WIOTAPOW" "=<power>" at_ap_tx_power_query at_ap_tx_power_setup;
  queried "AT+WIOTAVERSION" at_version_query;
  both "AT+WIOTAIOTENUM" "=<max_num>" at_max_iote_num_query at_max_iote_num_setup;
  both "AT+WIOTABCMCS" "=<bc_mcs>" at_bc_mcs_query at_bc_mcs_setup;
  set "AT+WIOTALOG" "=<mode>" at_wiotalog_setup;
  both "AT+WIOTACRC" "=<crc_limit>" at_wiotacrc_query at_wiotacrc_setup;
  set "AT+WIOTAREADMEM" "=<type>,<addr>,<len>" at_wiota_read_mem_setup;
  set "AT+WIOTARATE" "=<rate_mode>,<rate_value>" at_wiota_rate_setup;
  set "AT+WIOTARATEQUERY" "=<rate_mode>" at_wiota_rate_query_setup;
  {| cmd_name := "AT+WIOTAFREQLIST"; args_expr := None; cmd_test := None; cmd_query := Some at_freq_list_query; cmd_setup := None; cmd_exec := Some at_freq_list_exec |};
  set "AT+WIOTAFBALIGN" "=<state>" at_wiota_frame_boundary_align_setup;
  both "AT+WIOTATSMODE" "=<type>,<state>" at_wiota_time_service_mode_query at_wiota_time_service_mode_setup;
  set "AT+WIOTATIME" "=<sec>,<usec>" at_wiota_time_setup;
  set "AT+WIOTABCUTC" "=<is_bc_utc>" at_wiota_bc_utc_setup;
  both "AT+WIOTATSCYCLE" "=<cycle_min>" at_wiota_time_service_cycle_query at_wiota_time_service_cycle_setup;
  set "AT+WIOTATSRUN" "=<state>" at_wiota_time_service_setup;
  queried "AT+WIOTATSSTATE" at_wiota_time_service_state_query;
  set "AT+GNSSPOSQUERY" "=<type>" at_wiota_gnss_pos_query;
  set "AT+GNSSRELOCATION" "=<state>" at_wiota_gnss_relocation_setup;
  both "AT+WIOTAPAGINGTX" "=<freq>,<spec_idx>,<band>,<symbol>,<awaken_id>,<send_time>" at_paging_tx_config_query at_paging_tx_config_setup;
  executed "AT+WIOTASENDPT" at_paging_tx_send_exec;
  executed "AT+WIOTASENDPTF" at_paging_tx_frame_send_exec;
  both "AT+WIOTAPAGINGRX" "=<freq>,<spec_i>,<band>,<symbol>,<aw_id>,<d_period>,<nlen>,<ut>,<thres>,<ex_flag>,<ex_period>,<period_mult>,<aw_id_ano>"
    at_paging_rx_config_query at_paging_rx_config_setup;
  both "AT+WIOTAPAGINGMODE" "=<rx_mode>,<tx_mode>" at_paging_config_mode_query at_paging_config_mode_setup;
  set "AT+WIOTASENDPR" "=<is_need_32k_div>,<timeout_max>" at_paging_rx_enter_setup;
  queried "AT+WIOTAAWAKEN" at_wiota_awaken_query;
  queried "AT+WIOTAHW" at_wiota_hardware_query;
  queried "AT+WIOTAAPSTATE" at_wiota_ap8288_state_query;
  set "AT+WIOTASINGLETONE" "=<is_open>" at_wiota_single_tone_setup;
  both "AT+WIOTABCFNCYCLE" "=<bc_fn_cycle>" at_wiota_bc_fn_cycle_query at_wiota_bc_fn_cycle_setup;
  both "AT+WIOTABCROUND" "=<bc_send_round>" at_wiota_bc_send_round_query at_wiota_bc_send_round_setup;
  queried "AT+WIOTAFRAMELEN" at_wiota_frame_len_query;
  queried "AT+WIOTAFRAMENUM" at_wiota_frame_num_query;
  both "AT+WIOTAPPS" "=<is_pps>" at_wiota_sync_assistant_pps_query at_wiota_sync_assistant_pps_setup;
  set "AT+WIOTAIOTELEAV" "=<user_id>" at_wiota_iote_leaving_setup;
  queried "AT+WIOTAMODULEID" at_wiota_module_id_query;
  both "AT+WIOTASUBFCFG" "=<ul_vfs>,<dl_vfs>,<send_round>,<once_len>" at_send_subf_mode_cfg_query at_send_subf_mode_cfg_setup;
  set "AT+WIOTAULSUBF" "=<subf_mode>,<user_id>,<rach_delay>" at_wiota_ul_subf_mode_setup;
  set "AT+WIOTADLSUBF" "=<data_len>,<fn>" at_send_dl_subf_data_setup;
  set "AT+WIOTASUBFTEST" "=<mode>" at_send_subf_mode_test_setup;
  queried "AT+MEMINFO" at_mem_info_query;
  set "AT+WIOTABLZF" "=<is_open>" at_wiota_boost_level05_setup;
  both "AT+WIOTARESEND" "=<times>" at_wiota_resend_query at_wiota_resend_setup;
  executed "AT+WIOTAFN" at_wiota_fn_refresh_cb_exec;
  set "AT+WIOTARSBYFN" "=<data_id>,<len>,<user_id>,<start_recv_fn>,<recv_fns>,<send_fns>" at_wiota_recv_send_sm_by_fn_setup;
  set "AT+WIOTARAMPTYPE" "=<ramp_type>" at_wiota_ramp_type_setup;
  set "AT+WIOTARAMPVALUE" "=<ramp_value>" at_wiota_ramp_value_setup;
  set "AT+WIOTARAMPPOWER" "=<ramp_power>" at_wiota_ramp_power_setup;
  set "AT+WIOTASETRF" "=<rf_ctrl_idx>" at_wiota_rf_setup;
  set "AT+WIOTASETAAGC" "=<aagc_idx>" at_wiota_aagc_idx_setup;
  both "AT+WIOTABNACK" "=<is_open>" at_wiota_bnack_query at_wiota_bnack_setup;
  both "AT+WIOTADLRF" "=<mode>" at_wiota_dl_rf_mode_query at_wiota_dl_rf_mode_setup;
  both "AT+WIOTASUBFIDLE" "=<is_idle>" at_wiota_ota_last_subf_idle_query at_wiota_ota_last_subf_idle_setup;
  both "AT+WIOTAAFH" "=<is_open>" at_wiota_afh_func_query at_wiota_afh_func_setup;
  set "AT+WIOTAAFHMAP" "=<map_len>" at_wiota_afh_map_setup;
  set "AT+WIOTAPWMCTRLPA" "=<period>,<duty>" at_wiota_pwm_ctrl_pa_setup;
  set "AT+WIOTAQC" "=<onoff>,<freq>,<mode>" at_wiota_quick_start_setup].
End Commands.
