(* ===== verification/AtProps.v ===== *)
(** * What the AT commands promise

    Every command of the table is found by its name and answered; the radio is
    started and stopped only in the states that allow it; the memory a command
    takes is given back; the list of frequencies that is printed can be entered
    again. *)

From S2P Require Import Prelude WiotaApi AtServer AtText AtCmd.
From stdpp Require Import strings.
#[local] Open Scope Z_scope.
#[local] Open Scope list_scope.

(** The calls that neither start nor stop the radio. *)
Definition neutral (T : Type) (e : wiotaE T) : bool :=
  match e with uc_wiota_init | uc_wiota_run | uc_wiota_exit => false | _ => true end.

(** Unfolds the function that is applied in a term. *)
Ltac unfold_head m := lazymatch m with ?f _ => unfold_head f | _ => unfold m end.

Section Keep.
Context {R : Type} `{LIB : WiotaLib R} `{ENV : AtEnv R}.
Variable P : at_state R → Prop.
Hypothesis FR : at_frame P neutral.

Hint Extern 1 (Keeps P (wiota _) _) => apply (keeps_wiota P neutral FR); reflexivity : keeps.
Hint Resolve keeps_output keeps_printfln keeps_printf keeps_rt_malloc keeps_rt_free keeps_adopt keeps_gerchar keeps_send_data keeps_recv : keeps.

Lemma keeps_with_str v : Keeps P (fmod (with_str v)) (λ _, True).
Proof using FR. apply keeps_mod. intros s Hs. by apply FR. Qed.
Lemma keeps_device op : Keeps P (device op) (λ _, True).
Proof using FR. apply keeps_mod. intros s Hs. by apply FR. Qed.
Hint Resolve keeps_with_str keeps_device : keeps.

Lemma keeps_string_to_int a b c d e : Keeps P (uc_string_to_int a b c d e) (λ _, True).
Proof using FR. unfold uc_string_to_int. keeps. Qed.
Hint Resolve keeps_string_to_int : keeps.
Lemma keeps_comma_loop n str : ∀ a b c d e, Keeps P (comma_loop n str a b c d e) (λ _, True).
Proof using FR. induction n as [|n IH]; intros; cbn [comma_loop]; keeps. Qed.
Hint Resolve keeps_comma_loop : keeps.
Lemma keeps_string_to_array a b : Keeps P (uc_string_to_array a b) (λ _, True).
Proof using FR.
  assert (∀ n x y z w b, Keeps P (array_loop n a x y z w b) (λ _, True)) as H; [|apply H].
  induction n as [|n IH]; intros; cbn [array_loop]; keeps.
Qed.
Lemma keeps_itoa n : Keeps P (uc_itoa n) (λ _, True).
Proof using FR. unfold uc_itoa. keeps. Qed.
Hint Resolve keeps_string_to_array keeps_itoa : keeps.
Lemma keeps_array_to_string a n b : Keeps P (uc_array_to_string a n b) (λ _, True).
Proof using FR.
  assert (∀ k x y t b, Keeps P (string_loop k x y n t a b) (λ _, True)) as H; [|apply H].
  induction k as [|k IH]; intros; cbn [string_loop]; keeps.
Qed.
Hint Resolve keeps_array_to_string : keeps.

Lemma keeps_receive n k : (∀ l, Keeps P (k l) (λ _, True)) → Keeps P (receive n k) (λ _, True).
Proof using FR. intros Hk. unfold receive. keeps. Qed.
Lemma keeps_get_char : Keeps P get_char_timeout (λ _, True).
Proof using FR. unfold get_char_timeout. keeps. Qed.
Hint Resolve keeps_receive keeps_get_char : keeps.
Lemma keeps_line_chars n : ∀ i l, Keeps P (line_chars n i l) (λ _, True).
Proof using FR. induction n as [|n IH]; intros; cbn [line_chars]; keeps. Qed.
Lemma keeps_scan_lines n : ∀ a b c d, Keeps P (scan_lines n a b c d) (λ _, True).
Proof using FR. induction n as [|n IH]; intros; cbn [scan_lines]; keeps. Qed.
Lemma keeps_show_each f l : Keeps P (show_each f l) (λ _, True).
Proof using FR. induction l as [|x l IH]; cbn [show_each]; keeps. Qed.
Lemma keeps_show_positions n : ∀ l, Keeps P (show_positions n l) (λ _, True).
Proof using FR. induction n as [|n IH]; intros; cbn [show_positions]; keeps. Qed.
Lemma keeps_subf_lines n : ∀ a b c, Keeps P (subf_lines n a b c) (λ _, True).
Proof using FR. induction n as [|n IH]; intros; cbn [subf_lines]; keeps. Qed.
Hint Resolve keeps_line_chars keeps_scan_lines keeps_show_each keeps_show_positions keeps_subf_lines : keeps.

(** The commands that start or stop the radio; what is said of the others holds for every property of the frame. *)
Definition radio_cmd (name : string) : bool := existsb (String.eqb name) ["AT+WIOTAINIT"; "AT+WIOTARUN"; "AT+WIOTAQC"]%string.

Lemma commands_keep : Forall (λ c, radio_cmd (cmd_name c) = true ∨ cmd_keeps P c) at_wiota_table.
Proof using FR.
  unfold at_wiota_table.
  repeat first [apply Forall_nil_2 | apply Forall_cons_2].
  all: first [left; reflexivity | right].
  all: split_and!; cbn [cmd_test cmd_query cmd_setup cmd_exec]; intros ?; first [discriminate | intros [= <-] | intros ? [= <-]].
  all: match goal with |- Keeps _ ?m _ => unfold_head m end.
  all: unfold receive, parsed, show, checked, ignored, after_init, while_run, scan_report, send_report, at_handle_log_uart, fassert.
  all: keeps.
Qed.
End Keep.

(** ** The whole table *)

Section Table.
Context {R : Type} `{LIB : WiotaLib R} `{ENV : AtEnv R}.

Lemma frame_weaken P : at_frame (R := R) P all_calls → at_frame P neutral.
Proof. intros [Hl Hg Ho Hu Hm Hs Hd]. constructor; auto. Qed.

Section All.
Variable P : at_state R → Prop.
Hypothesis FR : at_frame P all_calls.
Hint Extern 1 (Keeps P (wiota _) _) => apply (keeps_wiota P all_calls FR); reflexivity : keeps.
Hint Resolve keeps_printfln : keeps.

Lemma table_keeps : Forall (cmd_keeps P) at_wiota_table.
Proof using FR.
  assert (Forall (λ c, radio_cmd (cmd_name c) = true → cmd_keeps P c) at_wiota_table) as H2.
  2: { pose proof (commands_keep P (frame_weaken P FR)) as H1. rewrite Forall_forall in *. intros c Hc. destruct (H1 c Hc); auto. }
  unfold at_wiota_table. repeat first [apply Forall_nil_2 | apply Forall_cons_2].
  all: cbn [cmd_name]; intros Hc; first [discriminate Hc | clear Hc].
  all: split_and!; cbn [cmd_test cmd_query cmd_setup cmd_exec]; intros ?; first [discriminate | intros [= <-] | intros ? [= <-]].
  all: match goal with |- Keeps _ ?m _ => unfold_head m end.
  all: unfold parsed, wiota_quick_connect_start, wiota_quick_connect_stop, uc_wiota_register_callbacks.
  all: keeps.
Qed.
End All.

Lemma at_table_ok : table_ok (R := R) at_wiota_table = true.
Proof. vm_compute. reflexivity. Qed.

(** The commands never touch the echo. *)
Lemma table_echo name : Keeps (λ s, at_echo s = false) (handle_line at_wiota_table name) (λ _, True).
Proof. eapply keeps_handle_line; [apply echo_frame|apply table_keeps, echo_frame]. Qed.

(** C20: The server with its buffer of 1024 bytes, its search for the end mark and
    the array for the name works like one that keeps the characters of the line as
    a list, runs a command when the line ends with "\r\n" and drops a line of 1023
    characters: same commands, same outputs, same input left. *)
Theorem server_refines_lines n last acc name s :
  line_ok acc → at_echo s = false →
  parser_loop at_wiota_table n last name (with_line acc s) =
  match line_loop at_wiota_table n acc name s with
  | Ok (b, acc, s) => Ok (b, with_line acc s)
  | Fault f => Fault f
  end.
Proof. intros Ha He. apply parser_line; auto using table_echo. Qed.


(** On any characters the server's thread ends up waiting, or quits at an escape
    character: a fault can only come from a command. *)
Theorem server_ends n last arr s :
  (length (at_uart s) < n)%nat → at_echo s = false →
  (∃ b s', parser_loop at_wiota_table n last arr (with_line [] s) = Ok (b, s')) ∨
  (∃ nm line s' f, handle_line at_wiota_table nm (with_line line s') = Fault f ∧
     parser_loop at_wiota_table n last arr (with_line [] s) = Fault f).
Proof.
  intros Hn He. rewrite (parser_line _ _ last []) by auto using line_ok_nil, table_echo.
  destruct (line_loop _ n [] arr s) as [[[b acc] s']|f] eqn:E; [left; eauto|right].
  destruct (line_loop_ends at_wiota_table (λ P HP, table_keeps P HP) _ _ _ _ _ Hn E) as (nm & line & s' & Eh). eauto 10.
Qed.
End Table.

(** A property that the frame, the buffer and every command keep is kept by the server. *)
Section Loop.
Context {R : Type} `{LIB : WiotaLib R} `{ENV : AtEnv R}.
Variables (P : at_state R → Prop) (ok : ∀ T, wiotaE T → bool).
Hypotheses (FR : at_frame P ok) (HB : ∀ b n s, P s → P (with_buf b n s)).
Variable table : list (@at_cmd R).
Hypothesis HT : Forall (cmd_keeps P) table.

Lemma keeps_parser_step last name : Keeps P (parser_step table last name) (λ _, True).
Proof using FR HB HT.
  assert (∀ name, Keeps P (handle_line table name) (λ _, True)) as Hl by (intros; by apply (keeps_handle_line P ok FR)).
  assert (∀ b n, Keeps P (fmod (with_buf b n)) (λ _, True)) as Hb by (intros; apply keeps_mod; auto).
  assert (Keeps P clear_buffer (λ _, True)) by apply Hb.
  pose proof (keeps_gerchar P ok FR). pose proof (keeps_printf P ok FR).
  unfold parser_step, echo. keeps.
Qed.
Lemma keeps_parser_loop n : ∀ last name, Keeps P (parser_loop table n last name) (λ _, True).
Proof using FR HB HT.
  induction n as [|n IH]; intros last name; cbn [parser_loop]; [keeps|]. pose proof (keeps_parser_step last name). keeps.
Qed.
End Loop.

(** ** The radio's states

    What the commands may assume of the stack, and what it asks of them: it is
    initialised when it was not or has been left, run when it is initialised, and
    can be left at any time; the calls between a test of the state and a start do
    not change it.  [radio_fit] holds as long as the stack was used like that. *)

Definition quiet (T : Type) (e : wiotaE T) : bool :=
  match e with
  | uc_wiota_get_state | uc_wiota_get_time_service_state | uc_wiota_get_system_config | uc_wiota_set_system_config _
  | uc_wiota_save_static_info _ | uc_wiota_set_freq_info _
  | uc_wiota_set_frame_boundary_align_func _ | uc_wiota_set_time_service_func _ _ => true
  | _ => false
  end.

Lemma quiet_neutral T (e : wiotaE T) : quiet T e = true → neutral T e = true.
Proof. destruct e; done. Qed.

Class RadioLaws (R : Type) `{LIB : WiotaLib R} `{ENV : AtEnv R} := {
  radio_state : R → Z;
  radio_fit : R → Prop;
  state_told : ∀ r, (wiota_call uc_wiota_get_state r).1 = radio_state r;
  quiet_keeps : ∀ T (e : wiotaE T) r, quiet T e = true → radio_state (wiota_call e r).2 = radio_state r;
  neutral_fit : ∀ T (e : wiotaE T) r, neutral T e = true → radio_fit r → radio_fit (wiota_call e r).2;
  gnss_fit : ∀ line r, radio_fit r → radio_fit (gnss_send_cmd line r).2;
  init_fit : ∀ r, radio_fit r → radio_state r = WIOTA_STATE_DEFAULT ∨ radio_state r = WIOTA_STATE_EXIT →
    radio_fit (wiota_call uc_wiota_init r).2 ∧ radio_state (wiota_call uc_wiota_init r).2 = WIOTA_STATE_INIT;
  run_fit : ∀ r, radio_fit r → radio_state r = WIOTA_STATE_INIT → radio_fit (wiota_call uc_wiota_run r).2;
  exit_fit : ∀ r, radio_fit r → radio_fit (wiota_call uc_wiota_exit r).2 ∧
    (radio_state (wiota_call uc_wiota_exit r).2 = WIOTA_STATE_DEFAULT ∨ radio_state (wiota_call uc_wiota_exit r).2 = WIOTA_STATE_EXIT)
}.

(** From states with [P] a run leads to states with [Q]. *)
Definition Leads {S A} (P : S → Prop) (m : FW S A) (Q : A → S → Prop) : Prop :=
  ∀ s a s', P s → m s = Ok (a, s') → Q a s'.

Lemma leads_bind {S A B} P Q' Q (m : FW S A) (k : A → FW S B) :
  Leads P m Q' → (∀ a, Leads (Q' a) (k a) Q) → Leads P (fbind m k) Q.
Proof. intros Hm Hk s b s' Hs E. apply fbind_Ok in E as (a & s1 & E1 & E2). eapply Hk; [|exact E2]. by eapply Hm. Qed.
Lemma leads_ret {S A} P (a : A) (Q : A → S → Prop) : (∀ s, P s → Q a s) → Leads P (fret a) Q.
Proof. intros HP s a' s' Hs [= <- <-]. auto. Qed.
Lemma leads_keeps {S A} (P : S → Prop) (m : FW S A) : Leads P m (λ _, P) → Keeps P m (λ _, True).
Proof. intros Hm s a s' Hs E. split; [by eapply Hm|done]. Qed.
Lemma keeps_leads {S A} (P : S → Prop) (m : FW S A) V : Keeps P m V → Leads P m (λ _, P).
Proof. intros Hm s a s' Hs E. by eapply Hm. Qed.
Lemma leads_pre {S A} (P P' : S → Prop) (m : FW S A) Q : (∀ s, P s → P' s) → Leads P' m Q → Leads P m Q.
Proof. intros HP Hm s a s' Hs E. eapply Hm; [|exact E]. auto. Qed.

Section Radio.
Context {R : Type} `{LIB : WiotaLib R} `{ENV : AtEnv R} `{LAWS : !RadioLaws R}.

Definition fit (s : at_state R) : Prop := radio_fit (at_lib s).
(** Fit and in a state that satisfies [V]. *)
Definition fit_in (V : Z → Prop) (s : at_state R) : Prop := radio_fit (at_lib s) ∧ V (radio_state (at_lib s)).

Lemma fit_frame : at_frame fit neutral.
Proof. constructor; unfold fit; intros; try done; [by apply neutral_fit|by apply gnss_fit]. Qed.

Lemma leads_quiet T (e : wiotaE T) V : quiet T e = true → Leads (fit_in V) (wiota e) (λ _, fit_in V).
Proof.
  intros He s a s' [Hf Hv] [= <- <-]. unfold fit_in. cbn [at_lib with_lib]. rewrite quiet_keeps by done.
  split; [by apply neutral_fit; [apply quiet_neutral|]|done].
Qed.
Lemma leads_get_state : Leads fit (wiota uc_wiota_get_state) (λ v, fit_in (λ x, x = v)).
Proof. intros s a s' Hf [= <- <-]. unfold fit_in. cbn [at_lib with_lib]. rewrite quiet_keeps, state_told by done. split; [by apply neutral_fit|done]. Qed.
Lemma leads_init V : (∀ v, V v → v = WIOTA_STATE_DEFAULT ∨ v = WIOTA_STATE_EXIT) →
  Leads (fit_in V) (wiota uc_wiota_init) (λ _, fit_in (λ x, x = WIOTA_STATE_INIT)).
Proof. intros HV s a s' [Hf Hv] [= <- <-]. apply init_fit; auto. Qed.
Lemma leads_run : Leads (fit_in (λ x, x = WIOTA_STATE_INIT)) (wiota uc_wiota_run) (λ _, fit).
Proof. intros s a s' [Hf Hv] [= <- <-]. by apply run_fit. Qed.
Lemma leads_exit : Leads fit (wiota uc_wiota_exit) (λ _, fit_in (λ x, x = WIOTA_STATE_DEFAULT ∨ x = WIOTA_STATE_EXIT)).
Proof. intros s a s' Hf [= <- <-]. by apply exit_fit. Qed.
Lemma fit_in_fit V s : fit_in V s → fit s.
Proof. by intros []. Qed.
Hint Resolve fit_in_fit : core.

Lemma keeps_exit : Keeps fit (wiota uc_wiota_exit) (λ _, True).
Proof. apply leads_keeps. intros s a s' Hf E. eapply fit_in_fit, leads_exit; done. Qed.

Lemma init_exec_fit : Keeps fit at_wiota_init_exec (λ _, True).
Proof.
  apply leads_keeps. unfold at_wiota_init_exec. eapply leads_bind; [apply leads_get_state|]. intros v. cbv beta.
  eapply leads_bind with (Q' := λ ready : bool, if ready then fit_in (λ x, x = WIOTA_STATE_DEFAULT ∨ x = WIOTA_STATE_EXIT) else fit).
  - destruct (Z.eqb_spec v WIOTA_STATE_DEFAULT) as [->|]; [by apply leads_ret; intros s []; split; auto|].
    eapply leads_pre; [apply fit_in_fit|]. eapply leads_bind; [apply leads_get_state|]. intros w. apply leads_ret. intros s [Hf Hw].
    destruct (Z.eqb_spec w WIOTA_STATE_EXIT) as [->|]; [split; auto|done].
  - intros [|]; [|by apply leads_ret]. eapply leads_bind; [apply leads_init; done|]. intros ?. apply leads_ret. eauto.
Qed.

Hint Extern 1 (Keeps fit (wiota uc_wiota_exit) _) => apply keeps_exit : keeps.
Hint Extern 2 (Keeps fit (wiota _) _) => apply (keeps_wiota fit neutral fit_frame); reflexivity : keeps.
Hint Extern 1 (Keeps fit (at_server_printfln _ _) _) => apply (keeps_printfln fit neutral fit_frame) : keeps.

Lemma func_setup_fit args : Keeps fit (at_wiota_func_setup args) (λ _, True).
Proof.
  unfold at_wiota_func_setup, parsed. destruct (parse _ _) as [vs|]; [|keeps]. apply leads_keeps.
  eapply leads_bind with (Q' := λ starts : bool, if starts then fit_in (λ x, x = WIOTA_STATE_INIT) else fit).
  - destruct (_ =? 1); [|by apply leads_ret]. eapply leads_bind; [apply leads_get_state|]. intros w. apply leads_ret. intros s [Hf Hw].
    destruct (Z.eqb_spec w WIOTA_STATE_INIT) as [->|]; [split; auto|done].
  - intros [|]; [|apply keeps_leads with (V := λ _, True); keeps].
    eapply leads_bind; [apply leads_quiet; done|]. intros ts. destruct (ts =? _); [apply leads_ret; eauto|].
    eapply leads_bind; [apply leads_run|]. intros ?. apply keeps_leads with (V := λ _, True). unfold uc_wiota_register_callbacks. keeps.
Qed.

Lemma quick_connect_fit freq mode : Keeps fit (wiota_quick_connect_start freq mode) (λ _, True).
Proof.
  unfold wiota_quick_connect_start. destruct (_ || _); [keeps|]. apply leads_keeps.
  eapply leads_bind; [apply leads_exit|]. intros ?. eapply leads_bind; [by apply leads_init|]. intros ?.
  eapply leads_bind; [by apply leads_quiet|]. intros config. destruct (g_qc_cfg !! _) as [qc|]; [|by intros ? ? ? ?].
  eapply leads_bind; [by apply leads_quiet|]. intros r. destruct (r =? 0); cbn [negb].
  2: { eapply leads_pre; [apply fit_in_fit|]. apply keeps_leads with (V := λ _, True). keeps. }
  eapply leads_bind; [by apply leads_quiet|]. intros ?. eapply leads_bind; [by apply leads_quiet|]. intros r'. destruct (r' =? 0); cbn [negb].
  2: { eapply leads_pre; [apply fit_in_fit|]. apply keeps_leads with (V := λ _, True). keeps. }
  eapply leads_bind; [apply leads_run|]. intros ?. apply keeps_leads with (V := λ _, True). unfold uc_wiota_register_callbacks. keeps.
Qed.
Hint Resolve quick_connect_fit : keeps.
Lemma quick_start_fit args : Keeps fit (at_wiota_quick_start_setup args) (λ _, True).
Proof. unfold at_wiota_quick_start_setup, parsed, wiota_quick_connect_stop. keeps. Qed.

Lemma table_fit : Forall (cmd_keeps fit) at_wiota_table.
Proof.
  assert (Forall (λ c, radio_cmd (cmd_name c) = true → cmd_keeps fit c) at_wiota_table) as H2.
  2: { pose proof (commands_keep fit fit_frame) as H1. rewrite Forall_forall in *. intros c Hc. destruct (H1 c Hc); auto. }
  unfold at_wiota_table. repeat first [apply Forall_nil_2 | apply Forall_cons_2].
  all: cbn [cmd_name]; intros Hc; first [discriminate Hc | clear Hc].
  all: split_and!; cbn [cmd_test cmd_query cmd_setup cmd_exec]; intros ?; first [discriminate | intros [= <-] | intros ? [= <-]].
  - apply init_exec_fit.
  - apply func_setup_fit.
  - apply quick_start_fit.
Qed.

(** C21: Whatever arrives at the serial device, the commands use the stack as it asks:
    it is initialised only when it is not or has been left, and run only when it is
    initialised. *)
Theorem radio_used_properly n : ∀ last name s b s',
  radio_fit (at_lib s) → parser_loop at_wiota_table n last name s = Ok (b, s') → radio_fit (at_lib s').
Proof.
  intros last name s b s' Hf E. eapply (keeps_parser_loop fit neutral fit_frame); [done|apply table_fit|exact Hf|exact E].
Qed.
End Radio.

(** ** Memory *)

Section Memory.
Context {R : Type} `{LIB : WiotaLib R} `{ENV : AtEnv R}.

(** From [n] blocks in use a run leads to [f] of its result. *)
Definition Lives {A} (n : Z) (m : FW (at_state R) A) (f : A → Z) : Prop :=
  ∀ s a s', at_live s = n → m s = Ok (a, s') → at_live s' = f a.

Lemma lives_bind {A B} n (m : FW (at_state R) A) (k : A → FW (at_state R) B) f g :
  Lives n m f → (∀ a, Lives (f a) (k a) g) → Lives n (fbind m k) g.
Proof. intros Hm Hk s b s' Hs E. apply fbind_Ok in E as (a & s1 & E1 & E2). eapply Hk; [|exact E2]. by eapply Hm. Qed.
Lemma lives_ret {A} n (a : A) f : n = f a → Lives n (fret a) f.
Proof. intros Hn s a' s' Hs [= <- <-]. congruence. Qed.
Lemma lives_fail {A} n e (f : A → Z) : Lives n (ffail e) f.
Proof. intros s a s' Hs [=]. Qed.
Lemma lives_lift {A} n (r : result A) : Lives n (flift r) (λ _, n).
Proof. intros s a s' Hs. unfold flift. destruct r; [|done]. by intros [= <- <-]. Qed.
Lemma lives_get n : Lives n fget (λ _, n).
Proof. intros s a s' Hs [= <- <-]. done. Qed.
Lemma lives_assert n b : Lives n (fassert b) (λ _, n).
Proof. destruct b; [by apply lives_ret|apply lives_fail]. Qed.
Lemma lives_wiota {T} n (e : wiotaE T) : Lives n (wiota e) (λ _, n).
Proof. intros s a s' Hs [= <- <-]. done. Qed.
Lemma lives_println n f l : Lives n (at_server_printfln f l) (λ _, n).
Proof. intros s a s' Hs [= <- <-]. done. Qed.
Lemma lives_printf n f l : Lives n (at_server_printf f l) (λ _, n).
Proof. intros s a s' Hs [= <- <-]. done. Qed.
Lemma lives_malloc n k : Lives n (rt_malloc k) (λ b, if b then n + 1 else n).
Proof.
  intros s a s' Hs. unfold rt_malloc. destruct (k =? 0); intros [= <- <-]; [done|]. cbn [at_live with_mem].
  destruct (default _ _); lia.
Qed.
Lemma lives_free n : Lives n rt_free (λ _, n - 1).
Proof. intros s a s' Hs [= <- <-]. cbn [at_live with_mem]. lia. Qed.
Lemma lives_adopt n k : Lives n (adopt k) (λ _, n + k).
Proof. intros s a s' Hs [= <- <-]. cbn [at_live with_mem]. lia. Qed.
Lemma lives_gerchar n b : Lives n (at_server_gerchar b) (λ _, n).
Proof.
  intros s a s' Hs. unfold at_server_gerchar. destruct b; [destruct (next_char _) as [[]|]|destruct (at_uart s)]; by intros [= <- <-].
Qed.
Lemma lives_with_str n v : Lives n (fmod (with_str v)) (λ _, n).
Proof. intros s a s' Hs [= <- <-]. done. Qed.
Lemma lives_device n op : Lives n (device op) (λ _, n).
Proof. intros s a s' Hs [= <- <-]. done. Qed.

Create HintDb lives discriminated.
Hint Resolve lives_fail lives_lift lives_get lives_assert lives_wiota lives_println lives_printf lives_malloc lives_free lives_adopt
  lives_gerchar lives_with_str lives_device : lives.

(** Steps through a run; a part that is not in the database leaves the count as it is. *)
Ltac lives_step :=
  lazymatch goal with
  | |- ∀ _, _ => intro
  | |- Lives (if ?b then _ else _) _ _ => destruct b; cbn [negb]
  | |- Lives ?n (fbind ?m _) _ => eapply lives_bind; [first [solve [eauto with lives] | instantiate (1 := λ _, n)]|]
  | |- Lives _ (match ?x with _ => _ end) _ => destruct x
  | |- Lives _ (fret _) _ => apply lives_ret; cbn [negb]; lia
  | |- Lives _ _ _ => first [solve [eauto with lives] | progress cbn [negb]]
  end.
Ltac lives := repeat (cbv beta; lives_step).

Lemma lives_send_data n b k : Lives n (at_send_data b k) (λ _, n).
Proof. unfold at_send_data, emit. eapply lives_bind; [apply lives_lift|]. intros d s a s' Hs [= <- <-]. done. Qed.
Lemma lives_recv n k : Lives n (at_server_recv k) (λ _, n).
Proof. unfold at_server_recv. generalize (@nil Z). induction (Z.to_nat k) as [|j IH]; intros got; cbn [recv_loop]; lives. Qed.
Hint Resolve lives_send_data lives_recv : lives.
Lemma lives_string_to_int n a b c d e : Lives n (uc_string_to_int a b c d e) (λ _, n).
Proof. unfold uc_string_to_int. lives. Qed.
Hint Resolve lives_string_to_int : lives.
Lemma lives_comma_loop n k str : ∀ a b c d e, Lives n (comma_loop k str a b c d e) (λ _, n).
Proof. induction k as [|k IH]; intros; cbn [comma_loop]; lives. Qed.
Hint Resolve lives_comma_loop : lives.
Lemma lives_string_to_array n a b : Lives n (uc_string_to_array a b) (λ _, n).
Proof.
  assert (∀ k x y z w b, Lives n (array_loop k a x y z w b) (λ _, n)) as H; [|apply H].
  induction k as [|k IH]; intros; cbn [array_loop]; lives.
Qed.
Lemma lives_itoa n z : Lives n (uc_itoa z) (λ _, n).
Proof. unfold uc_itoa. lives. Qed.
Hint Resolve lives_string_to_array lives_itoa : lives.
Lemma lives_array_to_string n a k b : Lives n (uc_array_to_string a k b) (λ _, n).
Proof.
  assert (∀ j x y t b, Lives n (string_loop j x y k t a b) (λ _, n)) as H; [|apply H].
  induction j as [|j IH]; intros; cbn [string_loop]; lives.
Qed.
Lemma lives_scan_lines n k : ∀ a b c d, Lives n (scan_lines k a b c d) (λ _, n).
Proof. induction k as [|k IH]; intros; cbn [scan_lines]; lives. Qed.
Lemma lives_show_each n f l : Lives n (show_each f l) (λ _, n).
Proof. induction l as [|x l IH]; cbn [show_each]; lives. Qed.
Hint Resolve lives_array_to_string lives_scan_lines lives_show_each : lives.

Definition cmd_balanced (c : @at_cmd R) : Prop := ∀ n,
  (∀ f, cmd_query c = Some f → Lives n f (λ _, n)) ∧ (∀ f args, cmd_setup c = Some f → Lives n (f args) (λ _, n)) ∧
  (∀ f, cmd_exec c = Some f → Lives n f (λ _, n)) ∧ cmd_test c = None.
(** Commands that can leave a block behind. *)
Definition leaky (name : string) : bool :=
  existsb (String.eqb name) ["AT+WIOTAFREQLIST"; "AT+WIOTAPOSQUERY"; "AT+WIOTASUBFTEST"]%string.

Lemma table_balanced : Forall (λ c, leaky (cmd_name c) = true ∨ cmd_balanced c) at_wiota_table.
Proof.
  unfold at_wiota_table. repeat first [apply Forall_nil_2 | apply Forall_cons_2].
  all: first [left; reflexivity | right].
  all: intros n; split_and!; cbn [cmd_test cmd_query cmd_setup cmd_exec]; try done; intros ?; first [discriminate | intros [= <-] | intros ? [= <-]].
  all: match goal with |- Lives _ ?m _ => unfold_head m end.
  all: unfold receive, parsed, show, checked, ignored, after_init, while_run, scan_report, send_report, at_handle_log_uart,
    wiota_quick_connect_start, wiota_quick_connect_stop, uc_wiota_register_callbacks.
  all: lives.
Qed.

Lemma lives_answer n f : (∀ g, f = Some g → Lives n g (λ _, n)) → Lives n (answer f) (λ _, n).
Proof.
  intros Hf. assert (∀ r, Lives n (at_server_print_result r) (λ _, n)) as Hp by (intros []; unfold at_server_print_result; lives).
  destruct f as [f|]; cbn [answer]; [|apply Hp]. eapply lives_bind; [by apply Hf|]. intros r. apply Hp.
Qed.

(** C33: Whatever a command gets, whichever allocations fail and whatever the stack
    answers, when it is done as many blocks are in use as before; three commands are
    left out, which can leave a block behind. *)
Theorem commands_balanced cmd r rest s s' :
  cmd ∈ at_wiota_table → leaky (cmd_name cmd) = false → serve cmd r rest s = Ok (tt, s') → at_live s' = at_live s.
Proof.
  intros Hin Hl. pose proof table_balanced as Ht. rewrite Forall_forall in Ht. destruct (Ht cmd Hin) as [?|Hb]; [congruence|].
  destruct (Hb (at_live s)) as (Hq & Hs & He & Htest).
  assert (∀ r, Lives (at_live s) (at_server_print_result r) (λ _, at_live s)) as Hp by (intros []; unfold at_server_print_result; lives).
  cut (Lives (at_live s) (serve cmd r rest) (λ _, at_live s)); [intros H E; by eapply H|].
  destruct r; cbn [serve]; [rewrite Htest| | |]; try (apply lives_answer; done); [].
  destruct (cmd_setup cmd) as [setup|]; [|apply Hp]. assert (Lives (at_live s) (answer (Some (setup rest))) (λ _, at_live s)) as Ha.
  { apply lives_answer. intros g [= <-]. by apply Hs. }
  destruct (args_expr cmd); [destruct (_ || _)|destruct (unchecked _)]; first [exact Ha|apply Hp|apply lives_fail].
Qed.
End Memory.

(** ** Sending *)

Section Send.
Context {R : Type} `{LIB : WiotaLib R} `{ENV : AtEnv R}.

Lemma recv_all data u : ∀ (s : at_state R) got, at_uart s = map Some data ++ u →
  recv_loop (length data) got s = Ok (zlen (got ++ data), got ++ data, with_uart u s).
Proof.
  induction data as [|c data IH]; intros s got Hu; cbn [length recv_loop]; cbn [map app] in Hu.
  - rewrite app_nil_r. unfold fret. rewrite <- Hu. do 2 f_equal. by destruct s.
  - unfold fbind, at_server_gerchar. rewrite Hu. rewrite IH by done. rewrite <- app_assoc. done.
Qed.

Lemma malloc_ok n (s : at_state R) : n ≠ 0 → head (at_mem s) ≠ Some false →
  rt_malloc n s = Ok (true, with_mem (tail (at_mem s)) (at_live s + 1) s).
Proof. intros Hn Hm. unfold rt_malloc. rewrite (proj2 (Z.eqb_neq n 0)) by done. by destruct (head (at_mem s)) as [[]|]. Qed.

(** What the command prints behind the prompt, and its answer. *)
Definition send_lines (is_block result : Z) (report : at_output) : list at_output :=
  if is_block =? 0 then [Println "OK" []]
  else if result =? UC_OP_SUCC then [report; Println "OK" []] else [report].

(** AT+WIOTASEND with data that arrives in time hands it to the stack once, with
    the length cut to 16 bits, and gives its buffer back.  A call that does not wait
    is answered OK; one that waits reports the result, but only success is followed
    by an answer: -1 in an unsigned char is a result the server prints nothing for. *)
Theorem send_answered args vs data u (s : at_state R) :
  let user_id := uarg vs 2 0 in let is_block := uarg vs 4 1 in let data_id := uarg vs 0 0 in
  parse (tail args) "y,d,y,d,d" = Some vs → uarg vs 1 0 = zlen data → data ≠ [] →
  head (at_mem s) ≠ Some false → at_uart s = map Some data ++ u →
  let r := wiota_call (uc_wiota_send_data data (u16 (zlen data)) user_id (send_timeout (iarg vs 3 0))
                         (unless_block is_block at_send) data_id) (at_lib s) in
  ∃ s', run_cmd (Some (at_send_data_setup args)) s = Ok (0, s') ∧ at_lib s' = r.2 ∧ at_uart s' = u ∧ at_live s' = at_live s ∧
    at_out s' = at_out s ++ Println ">" [] ::
                send_lines is_block r.1 (Println "+WIOTASEND:%d,0x%x,0x%x" [AInt r.1; AInt user_id; AInt data_id]).
Proof.
  intros user_id is_block data_id Hp Hlen Hd Hm Hu r. cbn [run_cmd]. unfold at_send_data_setup, parsed. rewrite Hp, Hlen.
  assert (0 < zlen data) as Hz by (destruct data; [done|]; rewrite zlen_cons; pose proof (zlen_nonneg data); lia).
  rewrite (proj2 (Z.gtb_lt (zlen data) 0)) by done. unfold receive.
  rewrite fbind_assoc. erewrite bind_Ok by (apply malloc_ok; [lia|done]). cbn [negb]. repeat fw_run.
  assert (Z.to_nat (zlen data) = length data) as En by (unfold zlen; lia). unfold at_server_recv. rewrite En.
  rewrite fbind_assoc. erewrite bind_Ok by (apply recv_all; exact Hu). cbn [fst snd app]. rewrite Z.eqb_refl. cbn [negb]. repeat fw_run.
  fold user_id is_block data_id. cbn [at_lib with_uart with_out with_mem]. fold r. unfold send_report, send_lines. destruct (is_block =? 0); cbn [negb].
  - repeat fw_run. eexists. split; [reflexivity|]. cbn. split_and!; [done..|lia|by rewrite <- app_assoc].
  - repeat fw_run. destruct (r.1 =? UC_OP_SUCC); repeat fw_run; (eexists; split; [reflexivity|]); cbn; (split_and!; [done..|lia|by rewrite <- !app_assoc]).
Qed.
End Send.

(** ** Instances

    Arguments as decimal numbers, and a stack that notices when it is not used as it asks. *)

Fixpoint demo_args (l : list Z) (v : Z) : list (option Z) :=
  match l with
  | c :: l => if is_digit c then demo_args l (10 * v + (c - 48)) else if c =? AT_CMD_COMMA_MARK then Some v :: demo_args l 0 else [Some v]
  | [] => [Some v]
  end.
Definition demo_env {R} : AtEnv R := {|
  parse := λ l _, Some (demo_args l 0); uninit := λ _, 0; gnss_send_cmd := λ _ r, (0, r)
|}.

(** The state of the radio, and whether it was used well. *)
Definition radio_call {T} (e : wiotaE T) (r : Z * bool) : T * (Z * bool) :=
  (match e in wiotaE T return T with uc_wiota_get_state => r.1 | e => zero_answer e end,
   match e with
   | uc_wiota_init => (WIOTA_STATE_INIT, r.2 && ((r.1 =? WIOTA_STATE_DEFAULT) || (r.1 =? WIOTA_STATE_EXIT)))
   | uc_wiota_run => (WIOTA_STATE_RUN, r.2 && (r.1 =? WIOTA_STATE_INIT))
   | uc_wiota_exit => (WIOTA_STATE_EXIT, r.2)
   | _ => r
   end).
Definition radio_lib : WiotaLib (Z * bool) := {|
  wiota_call := λ T e r, radio_call e r;
  uc_wiota_crc8_calc := toy_crc 256; uc_wiota_crc16_calc := toy_crc 65536; uc_wiota_crc32_calc := toy_crc 4294967296 |}.
Definition radio_laws : @RadioLaws (Z * bool) radio_lib demo_env.
Proof.
  refine {| radio_state := fst; radio_fit := λ r, r.2 = true |}; cbn.
  - done.
  - by intros T [] r.
  - by intros T [] r.
  - done.
  - intros [v b]; cbn. intros -> [->| ->]; done.
  - intros [v b]; cbn. intros -> ->; done.
  - intros [v b]; cbn. auto.
Defined.

Definition radio_start (text : list Z) : at_state (Z * bool) :=
  {| at_lib := (0, true); at_out := []; at_uart := map Some text; at_mem := []; at_live := 0; at_echo := false;
     recv_buffer := replicate (Z.to_nat AT_SERVER_RECV_BUFF_LEN) 0; cur_recv_len := 0;
     at_str := replicate 100 0; at_device := []; at_meminfo := (0, 0) |}.
Definition crlf (s : string) : list Z := chars s ++ AT_CMD_END_MARK.
Definition empty_name : list Z := replicate 20 0.

#[local] Existing Instances demo_env radio_lib radio_laws.

Lemma radio_used_properly_witness :
  ∃ b s', parser_loop at_wiota_table 15 32 empty_name (radio_start (crlf "AT+WIOTAINIT")) = Ok (b, s') ∧
          at_lib s' = (WIOTA_STATE_INIT, true) ∧ radio_fit (at_lib s').
Proof.
  assert (∃ b s', parser_loop at_wiota_table 15 32 empty_name (radio_start (crlf "AT+WIOTAINIT")) = Ok (b, s') ∧
            at_lib s' = (WIOTA_STATE_INIT, true)) as (b & s' & E & El).
  { eexists _, _. split; [vm_compute; reflexivity|reflexivity]. }
  exists b, s'. split; [exact E|]. split; [exact El|].
  apply (radio_used_properly 15 32 empty_name (radio_start (crlf "AT+WIOTAINIT")) b s'); [reflexivity|exact E].
Defined.

Lemma server_refines_lines_witness :
  parser_loop at_wiota_table 3 32 empty_name (with_line (chars "AT+WIOTAINIT") (radio_start AT_CMD_END_MARK)) =
  match line_loop at_wiota_table 3 (chars "AT+WIOTAINIT") empty_name (radio_start AT_CMD_END_MARK) with
  | Ok (b, acc, s) => Ok (b, with_line acc s)
  | Fault f => Fault f
  end.
Proof.
  apply (server_refines_lines 3 32 (chars "AT+WIOTAINIT") empty_name (radio_start AT_CMD_END_MARK)); [|reflexivity].
  apply (bool_decide_unpack _). vm_compute. exact I.
Defined.

Lemma server_ends_witness :
  (∃ b s', parser_loop at_wiota_table 15 32 empty_name (with_line [] (radio_start (crlf "AT+WIOTAINIT"))) = Ok (b, s')) ∨
  (∃ nm line s' f, handle_line at_wiota_table nm (with_line line s') = Fault f ∧
     parser_loop at_wiota_table 15 32 empty_name (with_line [] (radio_start (crlf "AT+WIOTAINIT"))) = Fault f).
Proof. apply (server_ends 15 32 empty_name (radio_start (crlf "AT+WIOTAINIT"))); [cbn; lia|reflexivity]. Defined.

(** The fifth command of the table. *)
Definition run_entry : @at_cmd (Z * bool) :=
  {| cmd_name := "AT+WIOTARUN"; args_expr := Some "=<state>"; cmd_test := None; cmd_query := None;
     cmd_setup := Some at_wiota_func_setup; cmd_exec := None |}.
Lemma run_entry_in : run_entry ∈ at_wiota_table.
Proof. eapply (list_elem_of_lookup_2 _ 4). reflexivity. Qed.


Lemma commands_balanced_witness :
  ∃ s', serve run_entry (RSetup (chars "0")) (chars "=0" ++ AT_CMD_END_MARK ++ [0]) (radio_start []) = Ok (tt, s') ∧ at_live s' = 0.
Proof.
  assert (∃ s', serve run_entry (RSetup (chars "0")) (chars "=0" ++ AT_CMD_END_MARK ++ [0]) (radio_start []) = Ok (tt, s')) as [s' E]
    by (eexists; vm_compute; reflexivity).
  exists s'. split; [exact E|].
  apply (commands_balanced run_entry (RSetup (chars "0")) (chars "=0" ++ AT_CMD_END_MARK ++ [0]) (radio_start []) s' run_entry_in); [reflexivity|exact E].
Defined.

(** A stack that cannot send. *)
Definition deaf_lib : WiotaLib Z := {|
  wiota_call := λ T e n, (match e in wiotaE T return T with uc_wiota_send_data _ _ _ _ _ _ => UC_OP_FAIL | e => zero_answer e end, n + 1);
  uc_wiota_crc8_calc := toy_crc 256; uc_wiota_crc16_calc := toy_crc 65536; uc_wiota_crc32_calc := toy_crc 4294967296 |}.
#[local] Existing Instance deaf_lib.

Lemma send_answered_witness :
  ∃ s', run_cmd (Some (at_send_data_setup (chars "=7,2,9,0,1" ++ AT_CMD_END_MARK))) (text_state (map Some (chars "hi"))) = Ok (0, s') ∧
    at_lib s' = 1 ∧ at_uart s' = [] ∧ at_live s' = 0 ∧
    at_out s' = [Println ">" []; Println "+WIOTASEND:%d,0x%x,0x%x" [AInt UC_OP_FAIL; AInt 9; AInt 7]].
Proof.
  refine (send_answered (chars "=7,2,9,0,1" ++ AT_CMD_END_MARK) [Some 7; Some 2; Some 9; Some 0; Some 1] (chars "hi") []
            (text_state (map Some (chars "hi"))) _ _ _ _ _); [reflexivity|reflexivity|discriminate|discriminate|reflexivity].
Defined.
