(* ===== verification/AtFreqList.v ===== *)
(** * The list of frequencies as text

    AT+WIOTAFREQLIST of PS/at/at_wiota.c: the query prints the stored list, the
    command reads a line with a list and stores it. *)

From S2P Require Import Prelude WiotaApi AtServer AtText AtCmd.
From stdpp Require Import strings.
#[local] Open Scope Z_scope.
#[local] Open Scope list_scope.

(** ** The text of a list *)

Lemma comma_text_chars a : bytes_ok a → Forall (λ c, is_digit c = true ∨ c = AT_CMD_COMMA_MARK) (comma_text a).
Proof.
  intros Ha. assert (∀ b, is_u8 b → Forall (λ c, is_digit c = true ∨ c = AT_CMD_COMMA_MARK) (decimal b)) as Hd.
  { intros b (_ & H & _)%decimal_byte. eapply Forall_impl; [exact H|auto]. }
  induction Ha as [|b a Hb Ha IH]; [constructor|]. destruct a as [|c a]; [by apply Hd|].
  rewrite comma_text_cons. apply Forall_app. split; [by apply Hd|]. constructor; auto.
Qed.

Lemma comma_text_last a : bytes_ok a → a ≠ [] → ∃ l x, comma_text a = l ++ [x] ∧ is_digit x = true.
Proof.
  intros Ha Hne. induction Ha as [|b a Hb Ha IH]; [done|]. destruct a as [|c a].
  - pose proof (decimal_byte b Hb) as (_ & Hd & _ & Hn). cbn [comma_text]. destruct (decimal b) as [|x l] using rev_ind; [done|].
    exists l, x. split; [done|]. apply Forall_app in Hd as [_ Hd]. by inversion Hd.
  - destruct IH as (l & x & E & Hx); [done|]. exists (decimal b ++ AT_CMD_COMMA_MARK :: l), x. split; [|done].
    rewrite comma_text_cons, E, <- app_assoc. done.
Qed.

Lemma comma_text_length a : bytes_ok a → a ≠ [] → (length (comma_text a) + 1 ≤ 4 * length a)%nat.
Proof.
  intros Ha Hne. induction Ha as [|b a Hb Ha IH]; [done|]. pose proof (decimal_byte b Hb) as (_ & _ & Hl & _). destruct a as [|c a].
  - cbn [comma_text length]. lia.
  - rewrite comma_text_cons, length_app. cbn [length] in *. specialize (IH ltac:(done)). lia.
Qed.

Section List.
Context {R : Type} `{LIB : WiotaLib R} `{ENV : AtEnv R}.
Implicit Types s : at_state R.

(** ** Reading a line *)

Lemma get_char_run s c u : at_echo s = false → at_uart s = Some c :: u → get_char_timeout s = Ok (Some c, with_uart u s).
Proof.
  intros He Hu. unfold get_char_timeout, at_server_gerchar, fbind. rewrite Hu. cbn [fget at_echo with_uart]. unfold fget.
  cbn [at_echo with_uart]. rewrite He. done.
Qed.

Lemma line_chars_run l : ∀ n pre old u s,
  Forall (λ c, c ≠ LF) l → (length l < n)%nat → (length l < length old)%nat → at_echo s = false → at_uart s = map Some (l ++ [LF]) ++ u →
  line_chars n (zlen pre) (pre ++ old) s = Ok (Some (Some (zlen pre + zlen l), pre ++ l ++ LF :: drop (S (length l)) old), with_uart u s).
Proof.
  induction l as [|c l IH]; intros n pre old u s Hl Hn Ho He Hu; (destruct n as [|n]; [cbn [length] in Hn; lia|]);
    (destruct old as [|o old]; [cbn [length] in Ho; lia|]); cbn [map app] in Hu; cbn [line_chars];
    rewrite (bind_Ok _ _ _ _ _ (get_char_run s _ _ He Hu)), store_cell by done; fw_run.
  - cbn [Z.eqb LF Pos.eqb length drop app]. change (zlen (@nil Z)) with 0. rewrite Z.add_0_r. done.
  - inversion Hl as [|? ? Hc Hl']; subst. rewrite (proj2 (Z.eqb_neq c LF)) by done. cbn [length] in *.
    pose proof (IH n (pre ++ [c]) old u (with_uart (map Some (l ++ [LF]) ++ u) s) Hl' ltac:(lia) ltac:(lia) He eq_refl) as E.
    assert (zlen (pre ++ [c]) = zlen pre + 1) as El by (rewrite zlen_app; done). rewrite El in E. rewrite <- !app_assoc in E. cbn [app] in E.
    rewrite E, zlen_cons. cbn [length drop app]. rewrite Z.add_assoc. done.
Qed.

Lemma plain_chars_run l : ∀ n pre rest,
  Forall (λ c, is_digit c = true ∨ c = AT_CMD_COMMA_MARK ∨ c = CR) l → (length l < n)%nat →
  plain_chars n (zlen pre) (pre ++ l ++ LF :: rest) = Ok (Some (zlen pre + zlen l + 1)).
Proof.
  induction l as [|c l IH]; intros n pre rest Hl Hn; (destruct n as [|n]; [cbn [length] in Hn; lia|]); cbn [plain_chars app].
  - rewrite peek_at by done. cbn [rbind]. change (zlen (@nil Z)) with 0. rewrite Z.add_0_r. done.
  - inversion Hl as [|? ? Hc Hl']; subst. rewrite peek_at by done. cbn [rbind].
    assert (negb (is_digit c) && negb (c =? AT_CMD_COMMA_MARK) && negb (c =? CR) && negb (c =? LF) = false ∧ c ≠ LF) as [-> Hlf].
    { destruct Hc as [Hc|[->| ->]]; [rewrite Hc; split; [done|by apply digit_plain in Hc as (_ & _ & _ & ? & _)]|done|done]. }
    rewrite (proj2 (Z.eqb_neq c LF)) by done. cbn [length] in Hn. pose proof (IH n (pre ++ [c]) rest Hl' ltac:(lia)) as E.
    assert (zlen (pre ++ [c]) = zlen pre + 1) as El by (rewrite zlen_app; done). rewrite El, <- app_assoc in E. cbn [app] in E.
    rewrite E, zlen_cons. do 2 f_equal. lia.
Qed.

(** A list that is entered is stored. *)
Lemma freq_list_entered a u s :
  bytes_ok a → a ≠ [] → (length a ≤ 16)%nat → at_mem s = [] → at_echo s = false →
  at_uart s = map Some (comma_text a ++ AT_CMD_END_MARK) ++ u →
  let lib1 := (wiota_call (uc_wiota_set_freq_list (a ++ replicate (32 - length a) 0) (zlen a)) (at_lib s)).2 in
  at_freq_list_exec s = Ok (AT_RESULT_OK, with_lib (wiota_call (uc_wiota_save_static_info 0) lib1).2
                                            (with_out (at_out s ++ [Println ">" []]) (with_uart u s))).
Proof.
  intros Ha Hne Hl Hm He Hu lib1. pose proof (comma_text_length a Ha Hne) as Hj. pose proof (comma_text_chars a Ha) as Hc.
  set (t := comma_text a) in *. assert (Forall (λ c, is_digit c = true ∨ c = AT_CMD_COMMA_MARK ∨ c = CR) (t ++ [CR])) as Hp.
  { apply Forall_app. split; [eapply Forall_impl; [exact Hc|cbn; tauto]|apply Forall_singleton; auto]. }
  assert (Forall (λ c, c ≠ LF) (t ++ [CR])) as Hn.
  { eapply Forall_impl; [exact Hp|]. intros c [H|[->| ->]]; [by apply digit_plain in H as (_ & _ & _ & ? & _)|done|done]. }
  unfold at_freq_list_exec, rt_malloc at 1. unfold fbind at 1. cbn [Z.eqb]. rewrite Hm. cbn [head default tail negb]. fw_run.
  set (s1 := with_out _ _). assert (length (t ++ [CR]) < 65)%nat as Hlen by (rewrite length_app; cbn [length]; lia).
  assert (at_uart s1 = map Some ((t ++ [CR]) ++ [LF]) ++ u) as Hu1 by (cbn; rewrite Hu; unfold AT_CMD_END_MARK; by rewrite <- app_assoc).
  pose proof (line_chars_run (t ++ [CR]) 65 [] (replicate 65 0) u s1 Hn Hlen ltac:(rewrite length_replicate; lia) He Hu1) as El.
  change (zlen (@nil Z)) with 0 in El. cbn [app] in El. rewrite (bind_Ok _ _ _ _ _ El). cbv beta iota.
  set (rest := drop _ (replicate 65 0)). pose proof (plain_chars_run (t ++ [CR]) 65 [] rest Hp Hlen) as Ep.
  change (zlen (@nil Z)) with 0 in Ep. cbn [app] in Ep. rewrite Ep. fw_run.
  destruct (comma_text_last a Ha Hne) as (t1 & x & Et & Hx). fold t in Et.
  assert (zlen t = zlen t1 + 1) as Ez by (rewrite Et, zlen_app; done).
  assert (zlen (t ++ [CR]) = zlen t + 1) as Ez' by (rewrite zlen_app; done). rewrite Ez'.
  replace ((t ++ [CR]) ++ LF :: rest) with (t1 ++ x :: CR :: LF :: rest) by (rewrite Et, <- !app_assoc; done).
  rewrite peek_at by lia. fw_run. apply digit_plain in Hx as (_ & Hx & _). rewrite (proj2 (Z.eqb_neq x _)) by done.
  rewrite (app_assoc t1 [x] (CR :: LF :: rest) : t1 ++ x :: _ = _), <- Et. rewrite store_cell by lia. fw_run.
  rewrite (app_assoc t [0] (LF :: rest) : t ++ 0 :: _ = _). rewrite store_cell by (rewrite zlen_app, zlen_cons; change (zlen (@nil Z)) with 0; lia). fw_run.
  unfold rt_malloc at 1. unfold fbind at 1. cbn [Z.eqb]. replace (at_mem (with_uart u s1)) with (@nil bool) by done.
  cbn [head default tail negb]. set (s2 := with_mem _ _ _). rewrite <- app_assoc. cbn [app].
  replace (replicate 32 0) with (replicate (length a) 0 ++ replicate (32 - length a) 0) by (rewrite <- replicate_add; f_equal; lia).
  rewrite (bind_Ok _ _ _ _ _ (string_to_array_spec a (0 :: rest) _ s2 Ha Hne eq_refl)). cbv beta iota.
  destruct (Z.gtb_spec (zlen a) 16); [unfold zlen in *; lia|]. do 4 fw_run.
  rewrite u8_id by (unfold is_u8, zlen; lia). unfold fret. do 2 f_equal. apply at_state_ext; try reflexivity; [exact (eq_sym Hm)|]. subst s2 s1. cbn [at_live with_mem with_lib with_out with_uart]. lia.
Qed.

(** The number of frequencies in the stored list. *)
Lemma until_255_run a : ∀ n k, Forall (λ b, b ≠ 255) a → (length a ≤ n)%nat →
  until_255 n (a ++ replicate k 255) = zlen a.
Proof.
  induction a as [|b a IH]; intros n k Ha Hn.
  - destruct n, k; done.
  - inversion Ha as [|? ? Hb Ha']; subst. destruct n as [|n]; [cbn [length] in Hn; lia|]. cbn [app until_255].
    rewrite (proj2 (Z.eqb_neq b 255)) by done. cbn [length] in Hn. rewrite zlen_cons, IH by (done || lia). lia.
Qed.

Lemma freq_list_shown a s lib1 :
  bytes_ok a → a ≠ [] → Forall (λ b, b ≠ 255) a → (length a ≤ 16)%nat → (12 ≤ length (at_str s))%nat →
  wiota_call uc_wiota_get_freq_list (at_lib s) = (a ++ replicate (16 - length a) 255, lib1) →
  ∃ st, at_freq_list_query s =
    Ok (AT_RESULT_OK, with_out (at_out s ++ [Println "+WIOTAFREQLIST:%s\n" [AStr (comma_text a)]]) (with_str st (with_lib lib1 s))) ∧
    length st = length (at_str s).
Proof.
  intros Ha Hne H255 Hl Hs Hlib. pose proof (comma_text_length a Ha Hne) as Hj. unfold at_freq_list_query.
  unfold fbind at 1, wiota at 1. rewrite Hlib. cbn [fst snd].
  assert (filled 16 (a ++ replicate (16 - length a) 255) = a ++ replicate (16 - length a) 255) as ->.
  { unfold filled. apply take_app_length'. rewrite length_app, length_replicate. lia. }
  rewrite until_255_run by (done || lia).
  replace (replicate 64 0) with (replicate (length (comma_text a)) 0 ++ replicate (64 - length (comma_text a)) 0) by (rewrite <- replicate_add; f_equal; lia).
  destruct (array_to_string_prefix a (replicate (16 - length a) 255) (replicate (length (comma_text a)) 0) (replicate (64 - length (comma_text a)) 0) (with_lib lib1 s))
    as (st & E & Hst); [done|done|unfold zlen; by rewrite length_replicate|].
  exists st. rewrite (bind_Ok _ _ _ _ _ E). split; [|done].
  rewrite cstring_zeros; [|eapply Forall_impl; [by apply comma_text_chars|]; intros c [H| ->]; [by apply digit_plain in H as [? _]|done]|lia].
  do 2 fw_run. done.
Qed.

(** C30: The text AT+WIOTAFREQLIST? prints for a list of at most 16 frequencies can be
    typed in again after AT+WIOTAFREQLIST: the stack gets the same list and its
    length, and stores it; a line with 16 numbers of three digits just fits. *)
Theorem freq_list_roundtrip a s lib1 :
  bytes_ok a → a ≠ [] → Forall (λ b, b ≠ 255) a → (length a ≤ 16)%nat → (12 ≤ length (at_str s))%nat →
  wiota_call uc_wiota_get_freq_list (at_lib s) = (a ++ replicate (16 - length a) 255, lib1) →
  ∃ text s1, at_freq_list_query s = Ok (AT_RESULT_OK, s1) ∧ at_out s1 = at_out s ++ [Println "+WIOTAFREQLIST:%s\n" [AStr text]] ∧
    ∀ u s2, at_mem s2 = [] → at_echo s2 = false → at_uart s2 = map Some (text ++ AT_CMD_END_MARK) ++ u →
      ∃ s3, at_freq_list_exec s2 = Ok (AT_RESULT_OK, s3) ∧ at_uart s3 = u ∧ at_live s3 = at_live s2 ∧
        at_lib s3 = (wiota_call (uc_wiota_save_static_info 0)
                      (wiota_call (uc_wiota_set_freq_list (a ++ replicate (32 - length a) 0) (zlen a)) (at_lib s2)).2).2.
Proof.
  intros Ha Hne H255 Hl Hs Hlib. destruct (freq_list_shown a s lib1 Ha Hne H255 Hl Hs Hlib) as (st & E & _).
  eexists (comma_text a), _. split; [exact E|]. split; [done|]. intros u s2 Hm He Hu.
  eexists. split; [exact (freq_list_entered a u s2 Ha Hne Hl Hm He Hu)|]. done.
Qed.

(** ** Any line *)

Lemma peek_ok l i : 0 <= i < zlen l → ∃ b, peek l i = Ok b.
Proof.
  intros Hi. unfold peek. rewrite (proj2 (Z.ltb_ge i 0)) by lia. destruct (l !! Z.to_nat i) eqn:E; [eauto|].
  apply lookup_ge_None in E. unfold zlen in Hi. lia.
Qed.
Lemma store_ok (l : list Z) i b : 0 <= i < zlen l → ∃ l', store i [b] l = Ok l' ∧ zlen l' = zlen l.
Proof.
  intros Hi. rewrite store_Ok by (rewrite ?zlen_cons; change (zlen (@nil Z)) with 0; lia). eexists. split; [done|].
  apply zlen_blit; [lia|]. rewrite zlen_cons. change (zlen (@nil Z)) with 0. lia.
Qed.

Lemma digits_loop_safe k : ∀ len nth num p_start str tmp arr,
  0 <= len → 0 <= p_start → len + Z.of_nat k = zlen tmp → p_start + zlen tmp <= zlen str → 0 <= num < zlen arr →
  ∃ arr', digits_loop k len nth num p_start str tmp arr = Ok arr' ∧ zlen arr' = zlen arr.
Proof.
  induction k as [|k IH]; intros len nth num p_start str tmp arr Hlen Hp Hk Hs Hn; cbn [digits_loop]; [eauto|].
  destruct (peek_ok str (p_start + len)) as [c ->]; [lia|]. cbn [rbind].
  destruct (store_ok tmp len (u8 (c - 48))) as (tmp' & -> & Ht); [lia|]. cbn [rbind].
  destruct (peek_ok tmp' len) as [t ->]; [lia|]. cbn [rbind]. destruct (peek_ok arr num) as [a ->]; [lia|]. cbn [rbind].
  destruct (store_ok arr num (u8 (a + uc_nth_power 10 (nth - 1) * t))) as (arr1 & -> & Ha); [lia|]. cbn [rbind].
  destruct (IH (len + 1) (nth - 1) num p_start str tmp' arr1) as (arr' & E & Ha'); try lia. exists arr'. split; [done|lia].
Qed.

Lemma string_to_int_safe num_len num p_start str arr s :
  0 <= num_len → 0 <= p_start → p_start + num_len <= zlen str → 0 <= num < zlen arr →
  ∃ arr' s', uc_string_to_int num_len num p_start str arr s = Ok (arr', s') ∧ zlen arr' = zlen arr.
Proof.
  intros Hl Hp Hs Hn. unfold uc_string_to_int, fbind at 1. destruct (rt_malloc num_len s) as [[b s1]|] eqn:E.
  2: { unfold rt_malloc in E. destruct (num_len =? 0); done. }
  destruct b; cbn [negb]; [|by eexists _, _].
  destruct (digits_loop_safe (Z.to_nat num_len) 0 num_len num p_start str (replicate (Z.to_nat num_len) 0) arr) as (arr' & Ed & Ha);
    try (unfold zlen; rewrite ?length_replicate; unfold zlen in *; lia).
  rewrite Ed. do 2 fw_run. by eexists _, _.
Qed.

Lemma comma_loop_safe t rest n : ∀ p_start p_end num num_len arr s,
  Forall (λ c, c ≠ 0) t → (length t ≤ 63)%nat → (∀ l, t ≠ l ++ [AT_CMD_COMMA_MARK]) →
  0 <= p_start <= p_end → p_end <= zlen t → num_len = p_end - p_start → 0 <= 2 * num <= p_end → zlen arr = 32 → zlen t - p_end < Z.of_nat n →
  ∃ p' num' arr' s', comma_loop n (t ++ 0 :: rest) p_start p_end num num_len arr s = Ok (p', zlen t, num', zlen t - p', arr', s') ∧
    0 <= p' <= zlen t ∧ 0 <= 2 * num' <= zlen t ∧ zlen arr' = 32.
Proof.
  induction n as [|n IH]; intros p_start p_end num num_len arr s Ht Hlen Hcomma Hp Hp' -> Hnum Harr Hn; [lia|]. cbn [comma_loop].
  destruct (decide (p_end = zlen t)) as [->|Hne].
  { rewrite peek_at by done. fw_run. cbn [Z.eqb]. eexists _, _, _, _. split; [reflexivity|]. lia. }
  destruct (lookup_lt_is_Some_2 t (Z.to_nat p_end)) as [c Hc]; [unfold zlen in *; lia|].
  assert (peek (t ++ 0 :: rest) p_end = Ok c) as ->.
  { unfold peek. rewrite (proj2 (Z.ltb_ge p_end 0)), lookup_app_l, Hc by (unfold zlen in *; lia). done. }
  fw_run. rewrite (proj2 (Z.eqb_neq c 0)) by (by eapply (Forall_lookup_1 _ _ _ _ Ht)).
  destruct (Z.eqb_spec c AT_CMD_COMMA_MARK) as [->|Hcc]; [|apply IH; auto; lia].
  assert (p_end + 1 <> zlen t) as Hlast.
  { intros Heq. destruct t as [|y t' _] using rev_ind; [change (zlen (@nil Z)) with 0 in *; lia|].
    rewrite zlen_app, zlen_cons in Heq. change (zlen (@nil Z)) with 0 in Heq.
    apply (Hcomma t'). rewrite lookup_app_r in Hc by (unfold zlen in *; lia). unfold zlen in *.
    replace (Z.to_nat p_end - length t')%nat with 0%nat in Hc by lia. by injection Hc as ->. }
  destruct (string_to_int_safe (p_end - p_start) num p_start (t ++ 0 :: rest) arr s) as (arr1 & s1 & E & Ha);
    [lia|lia|rewrite zlen_app; pose proof (zlen_nonneg (0 :: rest)); lia|unfold zlen in *; lia|].
  rewrite (bind_Ok _ _ _ _ _ E). apply IH; auto; lia.
Qed.

Lemma string_to_array_safe t rest arr s :
  Forall (λ c, c ≠ 0) t → (0 < length t ≤ 63)%nat → (∀ l, t ≠ l ++ [AT_CMD_COMMA_MARK]) → zlen arr = 32 →
  ∃ k arr' s', uc_string_to_array (t ++ 0 :: rest) arr s = Ok (k, arr', s') ∧ 0 <= k <= 32.
Proof.
  intros Ht [Hpos Hlen] Hcomma Harr. unfold uc_string_to_array. destruct t as [|x t']; [cbn [length] in Hpos; lia|].
  inversion Ht as [|? ? Hx _]; subst. cbn [array_loop app]. rewrite (peek_at [] (t' ++ 0 :: rest) x 0 eq_refl : peek (x :: _) 0 = _). fw_run.
  rewrite (proj2 (Z.eqb_neq x 0)) by done. set (t := x :: t') in *. change (x :: t' ++ 0 :: rest) with (t ++ 0 :: rest).
  destruct (comma_loop_safe t rest (S (length (t ++ 0 :: rest))) 0 0 0 0 arr s) as (p & num & arr1 & s1 & E & Hp & Hn & Ha);
    auto; try (pose proof (zlen_nonneg t); unfold zlen in *; rewrite ?length_app; cbn [length]; lia).
  rewrite (bind_Ok _ _ _ _ _ E). cbv beta iota.
  destruct (string_to_int_safe (zlen t - p) num p (t ++ 0 :: rest) arr1 s1) as (arr2 & s2 & E2 & Ha2);
    [lia|lia|rewrite zlen_app; pose proof (zlen_nonneg (0 :: rest)); lia|unfold zlen in *; lia|].
  rewrite (bind_Ok _ _ _ _ _ E2). rewrite peek_at by done. fw_run. cbn [Z.eqb]. eexists _, _, _. split; [reflexivity|]. unfold zlen in *. lia.
Qed.

Lemma get_char_any s : ∃ r s', get_char_timeout s = Ok (r, s') ∧ (∀ c, r = Some c → at_uart s = Some c :: at_uart s').
Proof.
  unfold get_char_timeout, at_server_gerchar, fbind, fret, fget. destruct (at_uart s) as [|x u] eqn:Eu; [by eexists _, _|].
  destruct x as [c|]; [|by eexists _, _]. cbn [at_echo with_uart]. destruct (at_echo s); eexists _, _; (split; [reflexivity|]); intros ? [= <-]; done.
Qed.

Lemma line_chars_any n : ∀ pre old s, length old = n →
  ∃ r s', line_chars n (zlen pre) (pre ++ old) s = Ok (r, s') ∧
    ∀ i str, r = Some (Some i, str) → ∃ l u rest, at_uart s = map Some (l ++ [LF]) ++ u ∧ Forall (λ c, c ≠ LF) l ∧ str = pre ++ l ++ LF :: rest ∧ (length l < n)%nat.
Proof.
  induction n as [|n IH]; intros pre old s Ho; cbn [line_chars]; [by eexists _, _|]. destruct old as [|o old]; [done|].
  destruct (get_char_any s) as (r & s1 & E & Hr). rewrite (bind_Ok _ _ _ _ _ E). destruct r as [c|]; [|by eexists _, _].
  rewrite store_cell by done. fw_run. destruct (Z.eqb_spec c LF) as [->|Hc].
  - eexists _, _. split; [reflexivity|]. intros i str [= _ <-]. exists [], (at_uart s1), old. split_and!; [by rewrite (Hr LF)|constructor|done|cbn; lia].
  - cbn [length] in Ho. destruct (IH (pre ++ [c]) old s1) as (r & s2 & E2 & Hr2); [lia|].
    assert (zlen (pre ++ [c]) = zlen pre + 1) as El by (rewrite zlen_app; done). rewrite El, <- app_assoc in E2. cbn [app] in E2.
    exists r, s2. split; [done|]. intros i str Er. destruct (Hr2 i str Er) as (l & u & rest & Hu & Hl & -> & Hn).
    exists (c :: l), u, rest. split_and!; [by rewrite (Hr c), Hu|by constructor|by rewrite <- app_assoc|cbn [length]; lia].
Qed.

Lemma plain_chars_any l : ∀ n pre rest, Forall (λ c, c ≠ LF) l → (length l < n)%nat →
  plain_chars n (zlen pre) (pre ++ l ++ LF :: rest) = Ok None ∨
  (plain_chars n (zlen pre) (pre ++ l ++ LF :: rest) = Ok (Some (zlen pre + zlen l + 1)) ∧ Forall (λ c, c ≠ 0) l).
Proof.
  intros n pre rest Hl Hn.
  destruct (decide (Forall (λ c, is_digit c = true ∨ c = AT_CMD_COMMA_MARK ∨ c = CR) l)) as [Hp|Hp].
  { right. split; [by apply plain_chars_run|]. eapply Forall_impl; [exact Hp|].
    intros c [H|[->| ->]]; [by apply digit_plain in H as [? _]|done|done]. }
  left. revert n pre Hn. induction Hl as [|c l Hc Hl IH]; intros n pre Hn; [destruct Hp; constructor|].
  destruct n as [|n]; [cbn [length] in Hn; lia|]. cbn [plain_chars app length] in *. rewrite peek_at by done. cbn [rbind].
  rewrite (proj2 (Z.eqb_neq c LF)) by done.
  destruct (is_digit c) eqn:Ed, (Z.eqb_spec c AT_CMD_COMMA_MARK), (Z.eqb_spec c CR); cbn [negb andb]; try done.
  all: pose proof (IH ltac:(intros H; apply Hp; constructor; tauto) n (pre ++ [c]) ltac:(lia)) as E.
  all: assert (zlen (pre ++ [c]) = zlen pre + 1) as El by (rewrite zlen_app; done); rewrite El, <- app_assoc in E; exact E.
Qed.

(** AT+WIOTAFREQLIST stays inside its buffers on every line that has at least two
    characters in front of its line feed, whatever they are, and with any
    allocations failing: the 63 characters that fit hold at most the 32 numbers of
    the array. *)
Theorem freq_list_safe s :
  (∀ u, at_uart s ≠ Some LF :: u) → (∀ c u, at_uart s ≠ Some c :: Some LF :: u) →
  ∃ r s', at_freq_list_exec s = Ok (r, s').
Proof.
  intros H0 H1. unfold at_freq_list_exec, fbind at 1. destruct (rt_malloc 65 s) as [[b s1]|] eqn:Em; [|done].
  assert (at_uart s1 = at_uart s) as Eu by (unfold rt_malloc in Em; cbn in Em; injection Em as <- <-; done).
  destruct b; cbn [negb]; [|by eexists _, _]. fw_run. set (s2 := with_out _ s1).
  destruct (line_chars_any 65 [] (replicate 65 0) s2 eq_refl) as (r & s3 & E & Hr). change (zlen (@nil Z)) with 0 in E. cbn [app] in E.
  rewrite (bind_Ok _ _ _ _ _ E). cbv beta iota. destruct r as [[[i|] str]|]; [|by eexists _, _|fw_run; by eexists _, _].
  destruct (Hr i str eq_refl) as (l & u & rest & Hu & Hl & -> & Hlen). cbn [app] in *. change (at_uart s2) with (at_uart s1) in Hu. rewrite Eu in Hu.
  assert (∃ l1 x y, l = l1 ++ [x; y]) as (l1 & x & y & ->).
  { destruct l as [|y l _] using rev_ind; [by apply H0 in Hu|]. destruct l as [|x l _] using rev_ind; [by apply H1 in Hu|].
    exists l, x, y. by rewrite <- app_assoc. }
  destruct (plain_chars_any (l1 ++ [x; y]) 65 [] rest Hl Hlen) as [Ep|[Ep Hz]]; change (zlen (@nil Z)) with 0 in Ep; cbn [app] in Ep; rewrite Ep; fw_run;
    [by eexists _, _|].
  assert (zlen (l1 ++ [x; y]) = zlen l1 + 2) as Ez by (rewrite zlen_app; done). rewrite Ez, <- app_assoc. cbn [app].
  rewrite peek_at by lia. fw_run. destruct (Z.eqb_spec x AT_CMD_COMMA_MARK) as [->|Hx]; [by eexists _, _|].
  rewrite (app_assoc l1 [x] (y :: LF :: rest) : l1 ++ x :: _ = _). rewrite store_cell by (rewrite zlen_app, zlen_cons; change (zlen (@nil Z)) with 0; lia). fw_run.
  rewrite (app_assoc (l1 ++ [x]) [0] (LF :: rest) : (l1 ++ [x]) ++ 0 :: _ = _).
  rewrite store_cell by (rewrite !zlen_app, !zlen_cons; change (zlen (@nil Z)) with 0; lia). fw_run. rewrite <- (app_assoc (l1 ++ [x])). cbn [app].
  unfold fbind at 1. destruct (rt_malloc 32 s3) as [[b s4]|] eqn:Em2; [|done]. destruct b; cbn [negb]; [|fw_run; by eexists _, _].
  rewrite length_app in Hlen. cbn [length] in Hlen.
  destruct (string_to_array_safe (l1 ++ [x]) (0 :: rest) (replicate 32 0) s4) as (k & arr & s5 & E5 & Hk).
  - rewrite (app_assoc l1 [x] [y] : l1 ++ [x; y] = _) in Hz. by apply Forall_app in Hz as [? _].
  - rewrite length_app. cbn [length]. lia.
  - intros l' El. apply app_inj_tail in El as [_ ?]. done.
  - done.
  - rewrite (bind_Ok _ _ _ _ _ E5). cbv beta iota. destruct (k >? 16); repeat fw_run; by eexists _, _.
Qed.
End List.

(** ** Instances and limits *)

Definition freq_lib : WiotaLib Z := {|
  wiota_call := λ T e n, (match e in wiotaE T return T with
                          | uc_wiota_get_freq_list => [10; 200; 254] ++ replicate 13 255
                          | e => zero_answer e
                          end, n + 1);
  uc_wiota_crc8_calc := toy_crc 256; uc_wiota_crc16_calc := toy_crc 65536; uc_wiota_crc32_calc := toy_crc 4294967296 |}.

Lemma freq_list_roundtrip_witness :
  ∃ text s1, @at_freq_list_query Z freq_lib (text_state []) = Ok (AT_RESULT_OK, s1) ∧
    at_out s1 = [Println "+WIOTAFREQLIST:%s\n" [AStr text]] ∧
    ∀ u s2, at_mem s2 = [] → at_echo s2 = false → at_uart s2 = map Some (text ++ AT_CMD_END_MARK) ++ u →
      ∃ s3, @at_freq_list_exec Z freq_lib s2 = Ok (AT_RESULT_OK, s3) ∧ at_uart s3 = u ∧ at_live s3 = at_live s2 ∧
        at_lib s3 = (@wiota_call Z freq_lib _ (uc_wiota_save_static_info 0)
                      (@wiota_call Z freq_lib _ (uc_wiota_set_freq_list ([10; 200; 254] ++ replicate 29 0) 3) (at_lib s2)).2).2.
Proof.
  refine (@freq_list_roundtrip Z freq_lib [10; 200; 254] (text_state []) 1 _ _ _ _ _ _).
  - apply (bool_decide_unpack _). vm_compute. exact I.
  - done.
  - apply (bool_decide_unpack _). vm_compute. exact I.
  - cbn. lia.
  - cbn. lia.
  - reflexivity.
Defined.

Lemma freq_list_safe_witness :
  ∃ r s', @at_freq_list_exec Z toy_lib (text_state (map Some (chars "7,,8,r" ++ [LF]))) = Ok (r, s').
Proof. apply (@freq_list_safe Z toy_lib); [intros u [=]|intros c u [=]]. Defined.

(** A line feed alone is written in front of the buffer, and a line that is refused
    leaves the buffer allocated. *)
Lemma freq_list_limits :
  @at_freq_list_exec Z toy_lib (text_state [Some LF]) = Fault OutOfBounds ∧
  match @at_freq_list_exec Z toy_lib (text_state (map Some (chars "7;8" ++ AT_CMD_END_MARK))) with
  | Ok (r, s) => r = AT_RESULT_PARSE_FAILE ∧ at_live s = 1
  | Fault _ => False
  end.
Proof. split; [vm_compute; reflexivity|]. vm_compute. split; reflexivity. Qed.
