(* ===== verification/AtSimple.v ===== *)
(** * The simplified AT commands

    PS/at_simplified/at_simplified.c, the command set of the builds with
    _AT_SIMPLIFIED_: a few settings (network, power, frequency, rate) that are kept
    in [at_simplified_local], messages that are compressed when that makes them
    shorter, and paging.  It runs on the server of [AtServer], and its copy of
    fastlz.c is the code of [Fastlz].

    The variables of the file and the pins it drives stand beside the state of the
    protocol stack: [simple_t] is the library state of these commands. *)

From S2P Require Import Prelude WiotaApi Fastlz AtServer AtCmd.
From stdpp Require Import strings.
#[local] Open Scope Z_scope.
#[local] Open Scope list_scope.
#[local] Open Scope fw_scope.

Record rate_mode_t := { rm_symbol_length : Z; rm_dlul_ratio : Z; rm_mcs : Z }.

Record at_simplified_t := {
  as_addr : Z;
  as_subsystemid : Z;
  as_base_freq : Z;
  as_cur_freq : Z;
  as_spectrum_idx : Z;
  as_power : Z;
  as_rate_mode : Z;
  as_rate_mode_map : list rate_mode_t
}.

Definition set_addr v l := {| as_addr := v; as_subsystemid := as_subsystemid l; as_base_freq := as_base_freq l; as_cur_freq := as_cur_freq l; as_spectrum_idx := as_spectrum_idx l; as_power := as_power l; as_rate_mode := as_rate_mode l; as_rate_mode_map := as_rate_mode_map l |}.
Definition set_subsystemid v l := {| as_addr := as_addr l; as_subsystemid := v; as_base_freq := as_base_freq l; as_cur_freq := as_cur_freq l; as_spectrum_idx := as_spectrum_idx l; as_power := as_power l; as_rate_mode := as_rate_mode l; as_rate_mode_map := as_rate_mode_map l |}.
Definition set_base_freq v l := {| as_addr := as_addr l; as_subsystemid := as_subsystemid l; as_base_freq := v; as_cur_freq := as_cur_freq l; as_spectrum_idx := as_spectrum_idx l; as_power := as_power l; as_rate_mode := as_rate_mode l; as_rate_mode_map := as_rate_mode_map l |}.
Definition set_cur_freq v l := {| as_addr := as_addr l; as_subsystemid := as_subsystemid l; as_base_freq := as_base_freq l; as_cur_freq := v; as_spectrum_idx := as_spectrum_idx l; as_power := as_power l; as_rate_mode := as_rate_mode l; as_rate_mode_map := as_rate_mode_map l |}.
Definition set_spectrum_idx v l := {| as_addr := as_addr l; as_subsystemid := as_subsystemid l; as_base_freq := as_base_freq l; as_cur_freq := as_cur_freq l; as_spectrum_idx := v; as_power := as_power l; as_rate_mode := as_rate_mode l; as_rate_mode_map := as_rate_mode_map l |}.
Definition set_power v l := {| as_addr := as_addr l; as_subsystemid := as_subsystemid l; as_base_freq := as_base_freq l; as_cur_freq := as_cur_freq l; as_spectrum_idx := as_spectrum_idx l; as_power := v; as_rate_mode := as_rate_mode l; as_rate_mode_map := as_rate_mode_map l |}.
Definition set_rate_mode v l := {| as_addr := as_addr l; as_subsystemid := as_subsystemid l; as_base_freq := as_base_freq l; as_cur_freq := as_cur_freq l; as_spectrum_idx := as_spectrum_idx l; as_power := as_power l; as_rate_mode := v; as_rate_mode_map := as_rate_mode_map l |}.
Definition set_rate_mode_map v l := {| as_addr := as_addr l; as_subsystemid := as_subsystemid l; as_base_freq := as_base_freq l; as_cur_freq := as_cur_freq l; as_spectrum_idx := as_spectrum_idx l; as_power := as_power l; as_rate_mode := as_rate_mode l; as_rate_mode_map := v |}.

Definition RATE_MODE_1 : Z := 1.
Definition RATE_MODE_8 : Z := 8.
Definition RATE_MODE_MAX : Z := 9.
Definition MIN_SLEEP_TIME : Z := 100.
Definition MAX_SLEEP_TIME : Z := 44000.
Definition SERIAL_NUM_LEN : nat := 20.
Definition SOFTWARE_VER_LEN : nat := 15.
Definition MAX_SUBSYSTEMID : Z := 16777215.
Definition DEFAULT_SUBSYSTEMID : Z := 354689.
Definition DEFAULE_FREQ : Z := 502000000.
Definition DEFAULE_BW_HZ : Z := 200000.
Definition DEFAULE_POWER : Z := 20.
Definition DEFAULE_RATE_MODE : Z := 4.
Definition INDEX_TO_FREQ (index base_freq bw : Z) : Z := u32 (index * bw + base_freq).
Definition FREQ_TO_INDEX (freq base_freq bw : Z) : Z := u32 (freq - base_freq) / bw.
Definition RUN_STATE_PIN : Z := 5.
Definition TX_STATE_PIN : Z := 28.
Definition RX_STATE_PIN : Z := 7.
Definition FREQ_LIST_NUM : Z := 16.
Definition SCAN_SINGLE_TIMEOUT : Z := 10000.
Definition RATE_MODE_OFFSET : Z := 1.
Definition RATE_MODE_MAP : list rate_mode_t :=
  map (λ p, {| rm_symbol_length := p.1; rm_dlul_ratio := 1; rm_mcs := p.2 |})
    [(0, 3); (0, 2); (1, 3); (1, 2); (1, 1); (1, 0); (2, 0); (3, 0)].
Definition BASE_FREQ : Z := 223000000.
Definition FREQ_SPECTRUM_COUNT : Z := 8.
Definition POWER_MIN : Z := 0.
Definition POWER_MAX : Z := 27.
Definition DECOMPRESS_MAX_LEN : Z := 1024.
Definition COMPRESS_BUFFER_FACTOR : Z := 2.
Definition UC_WIOTA_MAX_SEND_BROADCAST_DATA_LEN : Z := 1024.
Definition UC_WIOTA_MAX_SEND_NORMAL_DATA_LEN : Z := 310.
Definition FREQ_RANGES : list (Z * Z) :=
  [(BASE_FREQ, 235000000); (400000000, 440000000); (433050000, 434790000); (470000000, 510000000);
   (779000000, 787000000); (840000000, 845000000); (863000000, 870000000); (902000000, 928000000)].
Definition g_max_freq_num_table : list Z := [60; 200; 8; 200; 40; 25; 35; 130].
Definition g_max_awaken_id_table : list Z := [1023; 4095; 16383; 65535].

(** What is done with the pins. *)
Inductive pin_op : Set := PinMux (pin : Z) | PinMode (pin : Z) | PinWrite (pin value : Z).

Record simple_t (R : Type) := { sm_lib : R; sm_local : at_simplified_t; sm_pins : list pin_op }.
Arguments sm_lib {R} _.
Arguments sm_local {R} _.
Arguments sm_pins {R} _.

(** The stack and the receiver act on their own part. *)
#[export] Instance simple_lib R `{LIB : WiotaLib R} : WiotaLib (simple_t R) := {|
  wiota_call := λ T e r, let x := wiota_call e (sm_lib r) in (x.1, {| sm_lib := x.2; sm_local := sm_local r; sm_pins := sm_pins r |});
  uc_wiota_crc8_calc := uc_wiota_crc8_calc;
  uc_wiota_crc16_calc := uc_wiota_crc16_calc;
  uc_wiota_crc32_calc := uc_wiota_crc32_calc
|}.
#[export] Instance simple_env R `{ENV : AtEnv R} : AtEnv (simple_t R) := {|
  parse := parse; uninit := uninit;
  gnss_send_cmd := λ line r, let x := gnss_send_cmd line (sm_lib r) in (x.1, {| sm_lib := x.2; sm_local := sm_local r; sm_pins := sm_pins r |})
|}.

(** ** Numbers as text *)

Definition is_space (c : Z) : bool :=
  (c =? 32) || (c =? 9) || (c =? 10) || (c =? 13) || (c =? 11) || (c =? 12).

(** The characters of a string from an offset on. *)
Fixpoint str_to_int_loop (k : nat) (str : list Z) (i num : Z) : result Z :=
  match k with
  | O => Ok num
  | S k =>
      c <-? peek str i;;
      if negb (is_digit c) then Ok (-1) else str_to_int_loop k str (i + 1) (s32 (num * 10 + (c - 48)))
  end.
Definition str_to_int (str : list Z) (off len : Z) : result Z := str_to_int_loop (Z.to_nat len) str off 0.

Fixpoint skip_front (n : nat) (str : list Z) (start end_ : Z) : result Z :=
  match n with
  | O => Fault OutOfFuel
  | S n =>
      if start <=? end_ then
        c <-? peek str start;;
        if is_space c then skip_front n str (start + 1) end_ else Ok start
      else Ok start
  end.
Fixpoint skip_back (n : nat) (str : list Z) (start end_ : Z) : result Z :=
  match n with
  | O => Fault OutOfFuel
  | S n =>
      if start <=? end_ then
        c <-? peek str end_;;
        if is_space c then skip_back n str start (end_ - 1) else Ok end_
      else Ok end_
  end.

(** One segment per comma; the result, the array and the count. *)
Fixpoint segment_loop_at (n : nat) (str : list Z) (i end_ num_start : Z) (out_array : list Z) (out_count : Z) : result (Z * list Z * Z) :=
  match n with
  | O => Fault OutOfFuel
  | S n =>
      if i <=? end_ + 1 then
        at_end <-? (if i =? end_ + 1 then Ok true else c <-? peek str i;; Ok (c =? AT_CMD_COMMA_MARK));;
        if at_end : bool then
          seg_start <-? skip_front (S (length str)) str num_start (i - 1);;
          seg_end <-? skip_back (S (length str)) str seg_start (i - 1);;
          if seg_start >? seg_end then segment_loop_at n str (i + 1) end_ (i + 1) out_array out_count
          else if out_count >=? FREQ_LIST_NUM then Ok (-2, out_array, out_count)
          else
            num <-? str_to_int str seg_start (seg_end - seg_start + 1);;
            if num =? -1 then Ok (-3, out_array, out_count)
            else
              out_array <-? store out_count [u32 num] out_array;;
              segment_loop_at n str (i + 1) end_ (i + 1) out_array (out_count + 1)
        else segment_loop_at n str (i + 1) end_ num_start out_array out_count
      else Ok (0, out_array, out_count)
  end.

Definition str_to_int_array (input_str out_array : list Z) : result (Z * list Z * Z) :=
  s <-? cstring input_str;;
  start <-? skip_front (S (length input_str)) input_str 0 (zlen s - 1);;
  end_ <-? skip_back (S (length input_str)) input_str start (zlen s - 1);;
  if start >? end_ then Ok (-1, out_array, 0)
  else segment_loop_at (S (S (length input_str))) input_str start end_ start out_array 0.

(** ** Frequencies *)

(** The base frequency, or 1, and the index of the range with the frequency on its grid. *)
Fixpoint range_loop (i : nat) (freq : Z) : Z * option (Z * Z) :=
  match i with
  | O => (1, None)
  | S i =>
      match FREQ_RANGES !! i with
      | None => (1, None)
      | Some (base_freq, top) =>
          if (base_freq <=? freq) && (freq <=? top) then
            let diff_freq_hz := freq - base_freq in
            (base_freq, Some (Z.of_nat i, if negb (Z.rem diff_freq_hz DEFAULE_BW_HZ =? 0)
                                          then base_freq + Z.quot diff_freq_hz DEFAULE_BW_HZ * DEFAULE_BW_HZ else freq))
          else range_loop i freq
      end
  end.
Definition at_get_base_freq_and_spectrum_idx (freq : Z) : Z * option (Z * Z) :=
  range_loop (Z.to_nat FREQ_SPECTRUM_COUNT) freq.

Definition at_get_max_freq_num (spectrum_idx : Z) : Z :=
  if spectrum_idx >=? FREQ_SPECTRUM_COUNT then 0 else default 0 (g_max_freq_num_table !! Z.to_nat spectrum_idx).

(** The list of indices, its length, the range and its base; or an error. *)
Fixpoint index_list_loop (n : nat) (i freq_num last_base_freq base_freq spectrum_idx actual_freq : Z) (freq_array freq_list : list Z) :
    result (Z * list Z * Z * Z) :=
  match n with
  | O => Fault OutOfFuel
  | S n =>
      if i <? freq_num then
        f <-? peek freq_array i;;
        let '(base_freq, found) := at_get_base_freq_and_spectrum_idx f in
        let '(spectrum_idx, actual_freq) := default (spectrum_idx, actual_freq) found in
        if (last_base_freq >? 0) && negb (base_freq =? last_base_freq) then Ok (2, freq_list, spectrum_idx, base_freq)
        else
          let idx := u8 (FREQ_TO_INDEX actual_freq base_freq DEFAULE_BW_HZ) in
          freq_list <-? store i [idx] freq_list;;
          if idx >? at_get_max_freq_num spectrum_idx then Ok (3, freq_list, spectrum_idx, base_freq)
          else index_list_loop n (i + 1) freq_num base_freq base_freq spectrum_idx actual_freq freq_array freq_list
      else Ok (0, freq_list, spectrum_idx, base_freq)
  end.
(** What the caller's variables hold then; they are not written on an error. *)
Definition at_get_freq_list (freq_str freq_list : list Z) : result (Z * list Z * option (Z * Z * Z)) :=
  r <-? str_to_int_array freq_str (replicate (Z.to_nat FREQ_LIST_NUM) 0);;
  let '(code, freq_array, freq_num) := r in
  if negb (code =? 0) || (freq_num >? FREQ_LIST_NUM) then Ok (1, freq_list, None)
  else
    r <-? index_list_loop (S (Z.to_nat freq_num)) 0 freq_num 0 0 0 0 freq_array freq_list;;
    let '(code, freq_list, spectrum_idx, base_freq) := r in
    if code =? 0 then Ok (0, freq_list, Some (freq_num, spectrum_idx, base_freq)) else Ok (code, freq_list, None).

(** ** The commands *)

Section Commands.
Context {R : Type} `{LIB : WiotaLib R} `{ENV : AtEnv R}.
Local Abbreviation M := (FW (at_state (simple_t R))).
Local Abbreviation println := at_server_printfln.
Local Abbreviation OK := (fret AT_RESULT_OK).
Local Abbreviation FAILE := (fret AT_RESULT_FAILE).

Definition local : M at_simplified_t := fgets (λ s, sm_local (at_lib s)).
Definition set_local (f : at_simplified_t → at_simplified_t) : M unit :=
  fmod (λ s, with_lib {| sm_lib := sm_lib (at_lib s); sm_local := f (sm_local (at_lib s)); sm_pins := sm_pins (at_lib s) |} s).
Definition pin (op : pin_op) : M unit :=
  fmod (λ s, with_lib {| sm_lib := sm_lib (at_lib s); sm_local := sm_local (at_lib s); sm_pins := sm_pins (at_lib s) ++ [op] |} s).

Definition at_state_pin_init : M unit :=
  pin (PinMux RUN_STATE_PIN);;; pin (PinMode RUN_STATE_PIN);;; pin (PinWrite RUN_STATE_PIN 0);;;
  pin (PinMux TX_STATE_PIN);;; pin (PinMode TX_STATE_PIN);;; pin (PinWrite TX_STATE_PIN 0);;;
  pin (PinMux RX_STATE_PIN);;; pin (PinMode RX_STATE_PIN);;; pin (PinWrite RX_STATE_PIN 0).
Definition at_simplified_running : M unit := pin (PinWrite RUN_STATE_PIN 1);;; pin (PinWrite RUN_STATE_PIN 0).
Definition at_tx_start : M unit := pin (PinWrite TX_STATE_PIN 1).
Definition at_tx_end : M unit := pin (PinWrite TX_STATE_PIN 0).
Definition at_rx_notity : M unit := pin (PinWrite RX_STATE_PIN 1).
Definition at_rx_complete : M unit := pin (PinWrite RX_STATE_PIN 0).

(** An entry of an array. *)
Definition entry {A} (l : list A) (i : Z) : M A :=
  match (if i <? 0 then None else l !! Z.to_nat i) with Some x => fret x | None => ffail OutOfBounds end.

Definition at_get_max_awaken_id : M Z :=
  l <-- local;; rate_mode <-- entry (as_rate_mode_map l) (as_rate_mode l);; entry g_max_awaken_id_table (rm_symbol_length rate_mode).

Definition at_get_address : M Z :=
  m <-- wiota uc_wiota_get_module_id;;
  let serial := filled SERIAL_NUM_LEN m in
  a <-- flift (peek serial 8);; b <-- flift (peek serial 9);; c <-- flift (peek serial 10);; d <-- flift (peek serial 11);;
  fret (u32 (Z.lor (Z.lor (Z.lor (Z.shiftl a 24) (Z.shiftl b 16)) (Z.shiftl c 8)) d)).

Definition at_set_subsystemid (subsystemid : Z) : M Z :=
  l <-- local;;
  if negb (as_subsystemid l =? subsystemid) then
    config <-- wiota uc_wiota_get_system_config;;
    r <-- wiota (uc_wiota_set_system_config
      {| ap_tx_power := ap_tx_power config; id_len := id_len config; pp := pp config; symbol_length := symbol_length config;
         dlul_ratio := dlul_ratio config; bt_value := bt_value config; group_number := group_number config; spectrum_idx := spectrum_idx config;
         old_subsys_v := old_subsys_v config; bitscb := bitscb config; freq_idx := freq_idx config; cfg_reserved := cfg_reserved config;
         subsystem_id := subsystemid |});;
    if r =? 0 then set_local (set_subsystemid subsystemid);;; fret 0 else fret 1
  else fret 0.

Definition at_set_power (power : Z) : M Z :=
  l <-- local;;
  if negb (as_power l =? power) then
    r <-- wiota (uc_wiota_set_ap_tx_power (s8 power));;
    if r =? 0 then set_local (set_power power);;; fret 0 else fret 1
  else fret 0.

Definition send_timeout_table : list (list Z) := [[20; 40; 80; 160]; [40; 80; 160; 320]].
Definition at_get_send_timeout (type : Z) : M Z :=
  l <-- local;;
  rate_mode <-- entry (as_rate_mode_map l) (as_rate_mode l - 1);;
  row <-- entry send_timeout_table type;;
  t <-- entry row (rm_symbol_length rate_mode);;
  fret (t * 1000).

Definition at_wiota_recv_callback (recv_detail : uc_recv_detail_t) : M unit :=
  if rd_data_len recv_detail <? 1 then fret tt
  else
    h <-- flift (peek (rd_data recv_detail) 0);;
    let data_len := rd_data_len recv_detail - 1 in
    let recv_data := drop 1 (rd_data recv_detail) in
    let report recv_data data_len : M unit :=
      at_rx_notity;;;
      at_server_printf "+RECV:%u,%d,%d," [AInt (rd_user_id recv_detail); AInt (rd_rssi recv_detail); AInt data_len];;;
      at_send_data recv_data data_len;;;
      println "" [];;;
      at_rx_complete in
    if negb (Z.land h 1 =? 0) then
      ok <-- rt_malloc DECOMPRESS_MAX_LEN;;
      if negb ok then fret tt
      else
        r <-- flift (fastlz_decompress recv_data data_len (replicate (Z.to_nat DECOMPRESS_MAX_LEN) 0) DECOMPRESS_MAX_LEN);;
        let '(decompress_len, decompress_data) := r in
        if decompress_len >? 0 then report decompress_data decompress_len;;; rt_free else rt_free
    else report recv_data data_len.

Definition at_wiota_run : M unit :=
  wiota uc_wiota_exit;;;
  wiota (uc_wiota_set_frame_boundary_align_func 1);;;
  wiota (uc_wiota_set_time_service_func TIME_SERVICE_GNSS 1);;;
  wiota uc_wiota_init;;;
  l <-- local;;
  rate_mode <-- entry (as_rate_mode_map l) (as_rate_mode l - 1);;
  config <-- wiota uc_wiota_get_system_config;;
  wiota (uc_wiota_set_system_config
    {| ap_tx_power := s8 (as_power l); id_len := id_len config; pp := pp config; symbol_length := rm_symbol_length rate_mode;
       dlul_ratio := rm_dlul_ratio rate_mode; bt_value := bt_value config; group_number := rm_dlul_ratio rate_mode;
       spectrum_idx := as_spectrum_idx l; old_subsys_v := old_subsys_v config; bitscb := bitscb config;
       freq_idx := u8 (FREQ_TO_INDEX (as_cur_freq l) (as_base_freq l) DEFAULE_BW_HZ); cfg_reserved := cfg_reserved config;
       subsystem_id := as_subsystemid l |});;;
  wiota uc_wiota_run;;;
  wiota uc_wiota_time_service_start;;;
  wiota (uc_wiota_set_data_rate 0 (rm_mcs rate_mode));;;
  wiota (uc_wiota_set_broadcast_mcs (rm_mcs rate_mode));;;
  wiota (uc_wiota_set_crc 1);;;
  wiota (uc_wiota_register_callback at_simplified_recv).

Definition at_simplified_init : M unit :=
  at_state_pin_init;;;
  addr <-- at_get_address;;
  set_local (set_addr addr);;;
  set_local (set_subsystemid DEFAULT_SUBSYSTEMID);;;
  let '(base_freq, found) := at_get_base_freq_and_spectrum_idx DEFAULE_FREQ in
  (match found with
   | Some (spectrum_idx, cur_freq) => set_local (λ l, set_cur_freq cur_freq (set_spectrum_idx spectrum_idx l))
   | None => fret tt
   end);;;
  set_local (set_base_freq base_freq);;;
  fassert (BASE_FREQ <=? base_freq);;;
  set_local (set_power DEFAULE_POWER);;;
  set_local (set_rate_mode DEFAULE_RATE_MODE);;;
  set_local (set_rate_mode_map RATE_MODE_MAP);;;
  at_wiota_run;;;
  println "+WIOTA:OK" [].

Definition at_wiota_sn_query : M at_result :=
  m <-- wiota uc_wiota_get_module_id;; serial <-- flift (cstring (filled SERIAL_NUM_LEN m));; println "+SN:%s" [AStr serial];;; OK.
Definition at_wiota_version_query : M at_result :=
  v <-- wiota uc_wiota_get_version;; version <-- flift (cstring (filled SOFTWARE_VER_LEN (wiota_version_8088 v)));;
  println "+VER:%s" [AStr version];;; OK.

(** The lines of a scan. *)
Fixpoint rssi_lines (n : nat) (i base_freq : Z) (data : list Z) : M unit :=
  match n with
  | O => fret tt
  | S n =>
      f <-- flift (peek data (4 * i));; rssi <-- flift (peek data (4 * i + 2));; sync <-- flift (peek data (4 * i + 3));;
      println "+RSSI:%d,%d,%d" [AInt (INDEX_TO_FREQ f base_freq DEFAULE_BW_HZ); AInt (s8 rssi); AInt sync];;;
      rssi_lines n (i + 1) base_freq data
  end.
(** No data stands for RT_NULL. *)
Definition scanned (scan_result : uc_scan_recv_t) : bool :=
  (sc_result scan_result =? UC_OP_SUCC) && negb (bool_decide (sc_data scan_result = [])).
Definition at_wiota_scan_freq (freq_list : option (list Z)) (freq_num spectrum_idx base_freq : Z) : M at_result :=
  let timeout := u32 (SCAN_SINGLE_TIMEOUT * (if freq_num =? 0 then at_get_max_freq_num spectrum_idx else freq_num)) in
  r <-- wiota (uc_wiota_scan_freq freq_list (u8 freq_num) 0 (s32 timeout) None);;
  if scanned r.2 then
    adopt 1;;;
    rssi_lines (Z.to_nat (sc_data_len r.2 / 4)) 0 base_freq (sc_data r.2);;;
    rt_free;;; OK
  else FAILE.

Definition at_wiota_rssi_test : M at_result := println "AT+RSSI=<freq1>[,<freq2>[,...,<freq16>]]" [];;; OK.
Definition at_wiota_rssi_query : M at_result :=
  freq_idx <-- wiota uc_wiota_get_freq_info;; l <-- local;;
  at_wiota_scan_freq (Some [freq_idx]) 1 (as_spectrum_idx l) (as_base_freq l).
Definition at_wiota_rssi_setup (args : list Z) : M at_result :=
  r <-- flift (at_get_freq_list (drop 1 args) (replicate (Z.to_nat FREQ_LIST_NUM) 0));;
  match r with
  | (_, freq_list, Some (freq_num, spectrum_idx, base_freq)) => at_wiota_scan_freq (Some freq_list) freq_num spectrum_idx base_freq
  | (_, _, None) => fret AT_RESULT_PARSE_FAILE
  end.
Definition at_wiota_rssi_exec : M at_result :=
  l <-- local;; at_wiota_scan_freq None 0 (as_spectrum_idx l) (as_base_freq l).

Definition at_wiota_sync_test : M at_result := println "AT+SYNC=<sync[1-%d]>" [AInt MAX_SUBSYSTEMID];;; OK.
Definition at_wiota_sync_query : M at_result := l <-- local;; println "+SYNC:%u" [AInt (as_subsystemid l)];;; OK.
Definition at_wiota_sync_setup (args : list Z) : M at_result :=
  parsed args "d" (λ vs,
    let subsystemid := uarg vs 0 0 in
    if subsystemid <=? MAX_SUBSYSTEMID then r <-- at_set_subsystemid subsystemid;; if r =? 0 then OK else FAILE else FAILE).
Definition at_wiota_address_query : M at_result := l <-- local;; println "+ADDR:%u" [AInt (as_addr l)];;; OK.
Definition at_wiota_power_test : M at_result := println "AT+POWER=<power[%d-%d]>" [AInt POWER_MIN; AInt POWER_MAX];;; OK.
Definition at_wiota_power_query : M at_result := l <-- local;; println "+POWER:%d" [AInt (as_power l)];;; OK.
Definition at_wiota_power_setup (args : list Z) : M at_result :=
  parsed args "d" (λ vs,
    let power := iarg vs 0 0 in
    if (POWER_MIN <=? power) && (power <=? POWER_MAX) then r <-- at_set_power (u8 power);; if r =? 0 then OK else FAILE else FAILE).

Definition at_wiota_freq_test : M at_result := println "AT+FREQ=<freq1>[,<freq2>[,...,<freq16>]]" [];;; OK.
Definition at_wiota_freq_query : M at_result := l <-- local;; println "+FREQ:%u" [AInt (as_cur_freq l)];;; OK.

(** The least [rssi] among the entries that are not synchronised. *)
Fixpoint min_rssi_loop (n : nat) (i min_rssi_idx : Z) (data : list Z) : result Z :=
  match n with
  | O => Ok min_rssi_idx
  | S n =>
      sync <-? peek data (4 * i + 3);;
      min_rssi_idx <-?
        (if sync =? 0 then
           less <-? (if min_rssi_idx =? 0 then Ok true
                     else a <-? peek data (4 * i + 2);; b <-? peek data (4 * min_rssi_idx + 2);; Ok (s8 a <? s8 b));;
           Ok (if less : bool then u8 i else min_rssi_idx)
         else Ok min_rssi_idx);;
      min_rssi_loop n (i + 1) min_rssi_idx data
  end.
Definition at_wiota_freq_setup (args : list Z) : M at_result :=
  r <-- flift (at_get_freq_list (drop 1 args) (replicate (Z.to_nat FREQ_LIST_NUM) 0));;
  match r with
  | (_, _, None) => fret AT_RESULT_PARSE_FAILE
  | (_, freq_list, Some (freq_num, spectrum_idx, base_freq)) =>
      set_local (set_base_freq base_freq);;;
      l <-- local;;
      (if negb (spectrum_idx =? as_spectrum_idx l) then set_local (set_spectrum_idx spectrum_idx);;; at_wiota_run else fret tt);;;
      freq_idx <--
        (if freq_num =? 1 then flift (peek freq_list 0)
         else
           r <-- wiota (uc_wiota_scan_freq (Some freq_list) (u8 freq_num) 0 (s32 (u32 (SCAN_SINGLE_TIMEOUT * freq_num))) None);;
           if scanned r.2 then
             adopt 1;;;
             min_rssi_idx <-- flift (min_rssi_loop (Z.to_nat (sc_data_len r.2 / 4)) 0 255 (sc_data r.2));;
             freq_idx <-- flift (if negb (min_rssi_idx =? 255) then peek (sc_data r.2) (4 * min_rssi_idx) else peek freq_list 0);;
             rt_free;;; fret freq_idx
           else fret 255);;
      r <-- wiota (uc_wiota_set_freq_info freq_idx);;
      if r =? 0 then
        set_local (λ l, set_cur_freq (INDEX_TO_FREQ freq_idx (as_base_freq l) DEFAULE_BW_HZ) l);;;
        l <-- local;; println "+FREQ:%u" [AInt (as_cur_freq l)];;; OK
      else FAILE
  end.

Definition at_wiota_rate_test : M at_result := println "AT+RATE=<rate[%d-%d]>" [AInt RATE_MODE_1; AInt (RATE_MODE_MAX - 1)];;; OK.
Definition at_wiota_rate_query : M at_result := l <-- local;; println "+RATE:%d" [AInt (as_rate_mode l)];;; OK.
Definition at_wiota_rate_setup (args : list Z) : M at_result :=
  parsed args "d" (λ vs,
    let rate := uarg vs 0 0 in
    if (rate <=? RATE_MODE_8) && (RATE_MODE_1 <=? rate) then
      l <-- local;;
      let last_rate := as_rate_mode l in
      (if negb (last_rate =? rate) then
         last_rate_mode <-- entry (as_rate_mode_map l) (last_rate - RATE_MODE_OFFSET);;
         cur_rate_mode <-- entry (as_rate_mode_map l) (rate - RATE_MODE_OFFSET);;
         if negb (rm_symbol_length last_rate_mode =? rm_symbol_length cur_rate_mode) ||
            negb (rm_dlul_ratio last_rate_mode =? rm_dlul_ratio cur_rate_mode) then
           set_local (set_rate_mode rate);;; at_wiota_run
         else wiota (uc_wiota_set_data_rate 0 (rm_mcs cur_rate_mode));;; fret tt
       else fret tt);;;
      OK
    else FAILE).

(** ** Messages *)

(** The compressor takes its table from the heap and gives it back. *)
Definition compress (input : list Z) (length : Z) (output : list Z) : M (Z * list Z) :=
  λ s, match fastlz_compress input length output (at_mem s) with
       | Ok (r, mem) => Ok (r, with_mem mem (at_live s) s)
       | Fault f => Fault f
       end.
(** The result, the byte of flags, the data and the length of both. *)
Definition at_wiota_compress_and_pack (data_buf : list Z) (data_len header header_len : Z) : M (Z * Z * list Z * Z) :=
  let comp_data_len := s32 (data_len * COMPRESS_BUFFER_FACTOR) in
  ok <-- rt_malloc comp_data_len;;
  if negb ok then fret (-2, header, data_buf, 0)
  else
    r <-- compress data_buf data_len (replicate (Z.to_nat comp_data_len) 0);;
    let '(compressed_len, comp_data) := r in
    if u32 compressed_len <? data_len then
      c <-- flift (slice 0 compressed_len comp_data);;
      data_buf <-- flift (store 0 c data_buf);;
      rt_free;;; fret (0, Z.lor header 1, data_buf, header_len + compressed_len)
    else rt_free;;; fret (0, Z.land header 254, data_buf, header_len + data_len).

Definition at_wiota_send_test : M at_result :=
  println "AT+SEND=<addr[1-4294967295]>,<len[1-%d]>" [AInt (UC_WIOTA_MAX_SEND_NORMAL_DATA_LEN - 1)];;;
  println "AT+SEND=<addr[0]>,<len[1-%d]>" [AInt (UC_WIOTA_MAX_SEND_BROADCAST_DATA_LEN - 1)];;; OK.

(** The address of the buffer is passed as the parameter of a callback that is not given. *)
Definition at_wiota_send_setup (args : list Z) : M at_result :=
  parsed args "d,d" (λ vs,
    let addr := uarg vs 0 0 in let recv_len := uarg vs 1 0 in
    let header_len := 1 in
    let max_data_len := if negb (addr =? 0) then UC_WIOTA_MAX_SEND_NORMAL_DATA_LEN - header_len
                        else UC_WIOTA_MAX_SEND_BROADCAST_DATA_LEN - header_len in
    if (recv_len <? 1) || (recv_len >? max_data_len) then FAILE
    else
      ok <-- rt_malloc (header_len + recv_len);;
      if negb ok then FAILE
      else
        println ">" [];;;
        r <-- at_server_recv recv_len;;
        if negb (r.1 =? recv_len) then rt_free;;; FAILE
        else
          p <-- at_wiota_compress_and_pack r.2 recv_len 0 header_len;;
          let '(err, header, data, data_len) := p in
          if negb (err =? 0) then rt_free;;; FAILE
          else
            at_tx_start;;;
            result <--
              (if addr >? 0 then
                 timeout <-- at_get_send_timeout 0;;
                 wiota (uc_wiota_send_data (header :: data) (u16 data_len) addr (s32 timeout) None (uninit 0))
               else
                 timeout <-- at_get_send_timeout 1;;
                 wiota (uc_wiota_send_broadcast_data (header :: data) (u16 data_len) OTA_BROADCAST (s32 timeout) None (uninit 0)));;
            at_tx_end;;;
            rt_free;;;
            if result =? UC_OP_SUCC then OK else FAILE).

(** ** Paging *)

Definition at_wiota_sleep_test : M at_result := println "AT+SLEEP=<time[%d-%d]>" [AInt MIN_SLEEP_TIME; AInt MAX_SLEEP_TIME];;; OK.
Definition at_wiota_sleep_setup (args : list Z) : M at_result :=
  parsed args "d" (λ vs,
    let time := uarg vs 0 0 in
    if (time <? MIN_SLEEP_TIME) || (time >? MAX_SLEEP_TIME) then FAILE
    else
      println "OK" [];;;
      max_awaken_id <-- at_get_max_awaken_id;;
      config <-- wiota uc_wiota_get_system_config;;
      pr_cfg <-- wiota uc_wiota_get_paging_rx_cfg;;
      l <-- local;;
      wiota (uc_wiota_set_paging_rx_cfg
        {| rx_freq := freq_idx config; rx_spectrum_idx := spectrum_idx config; rx_bandwidth := rx_bandwidth pr_cfg;
           rx_symbol_length := symbol_length config; rx_lpm_nlen := rx_lpm_nlen pr_cfg; rx_lpm_utimes := rx_lpm_utimes pr_cfg;
           rx_threshold := rx_threshold pr_cfg; rx_extra_flag := rx_extra_flag pr_cfg;
           rx_awaken_id := u16 (as_addr l mod (max_awaken_id - 1)); rx_detect_period := time; rx_extra_period := rx_extra_period pr_cfg;
           rx_mode := 1; rx_period_multiple := 1; rx_awaken_id_another := max_awaken_id |});;;
      wiota (uc_wiota_paging_rx_enter 0 0);;;
      OK).

Definition at_wiota_wakeup_test : M at_result :=
  println "AT+WAKEUP=<addr[0-4294967295]>,<time[%d-%d]>" [AInt MIN_SLEEP_TIME; AInt MAX_SLEEP_TIME];;; OK.
Definition at_wiota_wakeup_setup (args : list Z) : M at_result :=
  parsed args "d,d" (λ vs,
    let addr := uarg vs 0 0 in let time := uarg vs 1 0 in
    if (MIN_SLEEP_TIME <=? time) && (time <=? MAX_SLEEP_TIME) then
      max_awaken_id <-- at_get_max_awaken_id;;
      config <-- wiota uc_wiota_get_system_config;;
      pt_cfg <-- wiota uc_wiota_get_paging_tx_cfg;;
      wiota (uc_wiota_set_paging_tx_cfg
        {| tx_freq := freq_idx config; tx_spectrum_idx := spectrum_idx config; tx_bandwidth := tx_bandwidth pt_cfg;
           tx_symbol_length := symbol_length config;
           tx_awaken_id := (if addr =? 0 then max_awaken_id else u16 (addr mod (max_awaken_id - 1)));
           tx_mode := 1; tx_send_time := time + 100 |});;;
      r <-- wiota uc_wiota_paging_tx_start;;
      if r =? 0 then OK else FAILE
    else FAILE).

Definition at_wiota_gnss_query : M at_result :=
  '(x, y, z) <-- wiota uc_wiota_gnss_query_coordinate_lla;; println "+GNSS:%s,%s,%s" [AFloat x; AFloat y; AFloat z];;; OK.

Local Abbreviation cmd name e t q f x :=
  {| cmd_name := name; args_expr := e; cmd_test := t; cmd_query := q; cmd_setup := f; cmd_exec := x |}.
Definition at_simplified_table : list (@at_cmd (simple_t R)) := [
  cmd "AT+SN" None None (Some at_wiota_sn_query) None None;
  cmd "AT+VER" None None (Some at_wiota_version_query) None None;
  cmd "AT+RSSI" (Some "=<freq>"%string) (Some at_wiota_rssi_test) (Some at_wiota_rssi_query) (Some at_wiota_rssi_setup) (Some at_wiota_rssi_exec);
  cmd "AT+SYNC" (Some "=<sync>"%string) (Some at_wiota_sync_test) (Some at_wiota_sync_query) (Some at_wiota_sync_setup) None;
  cmd "AT+ADDR" None None (Some at_wiota_address_query) None None;
  cmd "AT+POWER" (Some "=<power>"%string) (Some at_wiota_power_test) (Some at_wiota_power_query) (Some at_wiota_power_setup) None;
  cmd "AT+FREQ" (Some "=<freq>"%string) (Some at_wiota_freq_test) (Some at_wiota_freq_query) (Some at_wiota_freq_setup) None;
  cmd "AT+RATE" (Some "=<rate>"%string) (Some at_wiota_rate_test) (Some at_wiota_rate_query) (Some at_wiota_rate_setup) None;
  cmd "AT+SEND" (Some "=<addr>,<data>"%string) (Some at_wiota_send_test) None (Some at_wiota_send_setup) None;
  cmd "AT+SLEEP" (Some "=<time>"%string) (Some at_wiota_sleep_test) None (Some at_wiota_sleep_setup) None;
  cmd "AT+WAKEUP" (Some "=<addr>,<time>"%string) (Some at_wiota_wakeup_test) None (Some at_wiota_wakeup_setup) None;
  cmd "AT+GNSS" None None (Some at_wiota_gnss_query) None None
].
End Commands.
