(* ===== verification/AtSimpleText.v ===== *)
(** * Lists of numbers in the simplified commands

    str_to_int_array of PS/at_simplified/at_simplified.c works with offsets into
    the text of a command; here it is shown to be the reading of the text cut at
    its commas, for every text. *)

From S2P Require Import Prelude WiotaApi AtServer AtText AtCmd AtSimple.
From stdpp Require Import strings.
#[local] Open Scope Z_scope.
#[local] Open Scope list_scope.

(** ** Reference *)

Fixpoint lstrip (l : list Z) : list Z := match l with c :: l' => if is_space c then lstrip l' else l | [] => [] end.
Definition rstrip (l : list Z) : list Z := rev (lstrip (rev l)).
Definition strip (l : list Z) : list Z := rstrip (lstrip l).

Fixpoint fields (l : list Z) : list (list Z) :=
  match l with
  | [] => [[]]
  | c :: l => if c =? AT_CMD_COMMA_MARK then [] :: fields l
              else match fields l with f :: fs => (c :: f) :: fs | [] => [[c]] end
  end.
(** The number of a field, -1 when it is none; long ones wrap around. *)
Fixpoint int_of (num : Z) (l : list Z) : Z :=
  match l with
  | [] => num
  | c :: l => if is_digit c then int_of (s32 (num * 10 + (c - 48))) l else -1
  end.
(** Empty fields do not count, and at most 16 others are read. *)
Fixpoint read_fields (fs : list (list Z)) (out : list Z) : Z * list Z :=
  match fs with
  | [] => (0, out)
  | f :: fs =>
      if bool_decide (strip f = []) then read_fields fs out
      else if zlen out >=? FREQ_LIST_NUM then (-2, out)
      else let num := int_of 0 (strip f) in
           if num =? -1 then (-3, out) else read_fields fs (out ++ [u32 num])
  end.

(** ** Stripping *)

Lemma lstrip_split l : ∃ sp, l = sp ++ lstrip l.
Proof.
  induction l as [|c l [sp IH]]; cbn [lstrip]; [by exists []|]. destruct (is_space c); [|by exists []].
  exists (c :: sp). cbn [app]. by rewrite <- IH.
Qed.
Lemma rstrip_split l : ∃ sp, l = rstrip l ++ sp.
Proof. destruct (lstrip_split (rev l)) as [sp E]. exists (rev sp). unfold rstrip. by rewrite <- rev_app_distr, <- E, rev_involutive. Qed.
Lemma rstrip_snoc l c : rstrip (l ++ [c]) = if is_space c then rstrip l else l ++ [c].
Proof. unfold rstrip. rewrite rev_app_distr. cbn [rev app lstrip]. destruct (is_space c); [done|]. cbn [rev]. by rewrite rev_involutive. Qed.

Lemma skip_front_spec w : ∀ n pre post, (length w < n)%nat →
  skip_front n (pre ++ w ++ post) (zlen pre) (zlen pre + zlen w - 1) = Ok (zlen pre + (zlen w - zlen (lstrip w))).
Proof.
  induction w as [|c w IH]; intros n pre post Hn; (destruct n as [|n]; [lia|]); cbn [skip_front lstrip].
  - change (zlen (@nil Z)) with 0. destruct (Z.leb_spec (zlen pre) (zlen pre + 0 - 1)); [lia|]. do 2 f_equal; lia.
  - rewrite zlen_cons. pose proof (zlen_nonneg w). destruct (Z.leb_spec (zlen pre) (zlen pre + (1 + zlen w) - 1)); [|lia].
    cbn [app]. rewrite peek_at by done. cbn [rbind]. destruct (is_space c).
    + cbn [length] in Hn. replace (pre ++ c :: w ++ post) with ((pre ++ [c]) ++ w ++ post) by (by rewrite <- app_assoc).
      assert (zlen (pre ++ [c]) = zlen pre + 1) as E by (rewrite zlen_app, zlen_cons; change (zlen (@nil Z)) with 0; lia).
      specialize (IH n (pre ++ [c]) post). rewrite E in IH.
      replace (zlen pre + (1 + zlen w) - 1) with (zlen pre + 1 + zlen w - 1) by lia. rewrite IH by lia. f_equal. lia.
    + rewrite zlen_cons. f_equal. lia.
Qed.

Lemma skip_back_spec w : ∀ n pre post, (length w < n)%nat →
  skip_back n (pre ++ w ++ post) (zlen pre) (zlen pre + zlen w - 1) = Ok (zlen pre + zlen (rstrip w) - 1).
Proof.
  induction w as [|c w IH] using rev_ind; intros n pre post Hn; (destruct n as [|n]; [lia|]); cbn [skip_back].
  - change (zlen (rstrip [])) with 0. change (zlen (@nil Z)) with 0. destruct (Z.leb_spec (zlen pre) (zlen pre + 0 - 1)); [lia|]. done.
  - assert (zlen (w ++ [c]) = zlen w + 1) as E by (rewrite zlen_app, zlen_cons; change (zlen (@nil Z)) with 0; lia).
    rewrite rstrip_snoc, E. pose proof (zlen_nonneg w). destruct (Z.leb_spec (zlen pre) (zlen pre + (zlen w + 1) - 1)); [|lia].
    rewrite <- (app_assoc w [c] post), (app_assoc pre w). cbn [app]. rewrite peek_at by (rewrite zlen_app; lia). cbn [rbind].
    destruct (is_space c).
    + rewrite length_app in Hn. cbn [length] in Hn. rewrite <- app_assoc.
      replace (zlen pre + (zlen w + 1) - 1 - 1) with (zlen pre + zlen w - 1) by lia. by rewrite IH by lia.
    + f_equal. lia.
Qed.

Lemma str_to_int_spec t : ∀ pre post num,
  str_to_int_loop (length t) (pre ++ t ++ post) (zlen pre) num = Ok (int_of num t).
Proof.
  induction t as [|c t IH]; intros pre post num; cbn [length str_to_int_loop int_of]; [done|]. cbn [app]. rewrite peek_at by done. cbn [rbind].
  destruct (is_digit c); cbn [negb]; [|done]. replace (pre ++ c :: t ++ post) with ((pre ++ [c]) ++ t ++ post) by (by rewrite <- app_assoc).
  replace (zlen pre + 1) with (zlen (pre ++ [c])) by (rewrite zlen_app, zlen_cons; change (zlen (@nil Z)) with 0; lia). apply IH.
Qed.

(** ** One field *)

(** What the code does with a field between two commas. *)
Lemma segment_spec cur pre post n :
  let str := pre ++ cur ++ post in
  (length cur < n)%nat →
  ∃ seg_start seg_end,
    skip_front n str (zlen pre) (zlen pre + zlen cur - 1) = Ok seg_start ∧
    skip_back n str seg_start (zlen pre + zlen cur - 1) = Ok seg_end ∧
    (seg_start >? seg_end) = bool_decide (strip cur = []) ∧
    str_to_int str seg_start (seg_end - seg_start + 1) = Ok (int_of 0 (strip cur)).
Proof.
  intros str Hn. destruct (lstrip_split cur) as [sp E1]. destruct (rstrip_split (lstrip cur)) as [sp' E2]. fold (strip cur) in E2.
  assert (zlen cur = zlen sp + zlen (lstrip cur)) as Ez by (rewrite E1 at 1; apply zlen_app).
  exists (zlen pre + zlen sp), (zlen pre + zlen sp + zlen (strip cur) - 1). split.
  { unfold str. rewrite skip_front_spec by done. f_equal. lia. }
  assert (zlen (pre ++ sp) = zlen pre + zlen sp) as Ep by apply zlen_app. split.
  { assert (str = (pre ++ sp) ++ lstrip cur ++ post) as -> by (unfold str; rewrite E1 at 1; by rewrite <- !app_assoc).
    replace (zlen pre + zlen cur - 1) with (zlen (pre ++ sp) + zlen (lstrip cur) - 1) by lia. rewrite <- Ep.
    apply skip_back_spec. assert (length cur = length sp + length (lstrip cur))%nat by (rewrite E1 at 1; apply length_app). lia. }
  split.
  { destruct (strip cur) as [|c t] eqn:Es.
    - rewrite bool_decide_eq_true_2 by done. change (zlen (@nil Z)) with 0. apply Z.gtb_lt. lia.
    - rewrite bool_decide_eq_false_2 by done. rewrite zlen_cons. pose proof (zlen_nonneg t). rewrite Z.gtb_ltb. apply Z.ltb_ge. lia. }
  assert (str = (pre ++ sp) ++ strip cur ++ sp' ++ post) as ->.
  { unfold str. rewrite E1 at 1. rewrite E2 at 1. by rewrite <- !app_assoc. }
  unfold str_to_int. rewrite <- Ep. replace (zlen (pre ++ sp) + zlen (strip cur) - 1 - zlen (pre ++ sp) + 1) with (zlen (strip cur)) by lia.
  unfold zlen at 1. rewrite Nat2Z.id. apply str_to_int_spec.
Qed.

(** ** All fields *)

Definition no_comma (l : list Z) : Prop := Forall (λ c, c ≠ AT_CMD_COMMA_MARK) l.

Lemma fields_app cur rest : no_comma cur →
  fields (cur ++ rest) = match fields rest with f :: fs => (cur ++ f) :: fs | [] => [cur] end.
Proof.
  induction 1 as [|c cur Hc _ IH]; cbn [app fields]; [by destruct rest as [|c' rest]; cbn [fields]; repeat case_match|].
  rewrite (proj2 (Z.eqb_neq c AT_CMD_COMMA_MARK)), IH by done. by destruct (fields rest).
Qed.

(** The array with the numbers read so far, and what the caller gets. *)
Definition out_of (out : list Z) : list Z := out ++ replicate (16 - length out) 0.
Definition read_result (r : Z * list Z) : Z * list Z * Z := (r.1, out_of r.2, zlen r.2).

Lemma out_store out v : zlen out < 16 → store (zlen out) [v] (out_of out) = Ok (out_of (out ++ [v])).
Proof.
  intros Hl. unfold zlen in Hl. unfold out_of. rewrite length_app. cbn [length].
  replace (16 - length out)%nat with (S (16 - (length out + 1))) by lia. cbn [replicate].
  rewrite store_cell by done. by rewrite <- app_assoc.
Qed.

(** One field, and the loop behind it. *)
Lemma field_step cur pre post n i end_ out :
  i = zlen pre + zlen cur → zlen out <= 16 → i <= end_ + 1 →
  (if i =? end_ + 1 then Ok true else c <-? peek (pre ++ cur ++ post) i;; Ok (c =? AT_CMD_COMMA_MARK))%fw = Ok true →
  segment_loop_at (S n) (pre ++ cur ++ post) i end_ (zlen pre) (out_of out) (zlen out) =
  if bool_decide (strip cur = []) then segment_loop_at n (pre ++ cur ++ post) (i + 1) end_ (i + 1) (out_of out) (zlen out)
  else if zlen out >=? FREQ_LIST_NUM then Ok (-2, out_of out, zlen out)
  else let num := int_of 0 (strip cur) in
       if num =? -1 then Ok (-3, out_of out, zlen out)
       else segment_loop_at n (pre ++ cur ++ post) (i + 1) end_ (i + 1) (out_of (out ++ [u32 num])) (zlen (out ++ [u32 num])).
Proof.
  intros Hi Ho He Ha. cbn [segment_loop_at]. destruct (Z.leb_spec i (end_ + 1)); [|lia]. rewrite Ha. cbn [rbind].
  set (str := pre ++ cur ++ post) in *.
  destruct (segment_spec cur pre post (S (length str))) as (a & b & E1 & E2 & E3 & E4).
  { unfold str. rewrite !length_app. lia. }
  fold str in E1, E2, E4. replace (i - 1) with (zlen pre + zlen cur - 1) by lia. rewrite E1. cbn [rbind]. rewrite E2. cbn [rbind]. rewrite E3.
  destruct (bool_decide (strip cur = [])); [done|]. destruct (zlen out >=? FREQ_LIST_NUM) eqn:Eg; [done|]. rewrite E4. cbn [rbind].
  destruct (int_of 0 (strip cur) =? -1); [done|]. assert (zlen out < 16) by (unfold FREQ_LIST_NUM in Eg; rewrite Z.geb_leb in Eg; lia).
  rewrite out_store by done. cbn [rbind]. rewrite (zlen_app out), zlen_cons. change (zlen (@nil Z)) with 0. done.
Qed.

Lemma segments_read rest : ∀ n pre cur post out end_,
  end_ + 1 = zlen pre + zlen cur + zlen rest → no_comma cur → zlen out <= 16 → (length rest + 1 < n)%nat →
  segment_loop_at n (pre ++ cur ++ rest ++ post) (zlen pre + zlen cur) end_ (zlen pre) (out_of out) (zlen out) =
  Ok (read_result (read_fields (fields (cur ++ rest)) out)).
Proof.
  induction rest as [|c rest IH]; intros n pre cur post out end_ He Hc Ho Hn; (destruct n as [|n]; [lia|]); cbn [length] in Hn.
  - change (zlen (@nil Z)) with 0 in He. cbn [app]. rewrite field_step by (rewrite ?(proj2 (Z.eqb_eq (zlen pre + zlen cur) (end_ + 1))) by lia; done || lia).
    rewrite fields_app by done. cbn [fields read_fields]. rewrite app_nil_r. destruct n as [|n]; [lia|].
    assert (∀ str a o k, segment_loop_at (S n) str (zlen pre + zlen cur + 1) end_ a o k = Ok (0, o, k)) as Hend.
    { intros. cbn [segment_loop_at]. destruct (Z.leb_spec (zlen pre + zlen cur + 1) (end_ + 1)); [lia|done]. }
    rewrite !Hend. repeat case_match; done.
  - rewrite zlen_cons in He. pose proof (zlen_nonneg rest).
    assert (peek (pre ++ cur ++ (c :: rest) ++ post) (zlen pre + zlen cur) = Ok c) as Ep.
    { rewrite (app_assoc pre cur). cbn [app]. apply peek_at. symmetry. apply zlen_app. }
    destruct (Z.eq_dec c AT_CMD_COMMA_MARK) as [->|Hne].
    + rewrite field_step; [|done|done|lia|rewrite (proj2 (Z.eqb_neq (zlen pre + zlen cur) (end_ + 1))), Ep by lia; done].
      rewrite fields_app by done. cbn [fields read_fields]. change (AT_CMD_COMMA_MARK =? AT_CMD_COMMA_MARK) with true. cbn iota. rewrite app_nil_r.
      assert (∀ out, zlen out <= 16 → segment_loop_at n (pre ++ cur ++ (AT_CMD_COMMA_MARK :: rest) ++ post) (zlen pre + zlen cur + 1) end_
                (zlen pre + zlen cur + 1) (out_of out) (zlen out) = Ok (read_result (read_fields (fields rest) out))) as Hgo.
      { intros o Hlo. specialize (IH n (pre ++ cur ++ [AT_CMD_COMMA_MARK]) [] post o end_).
        assert (zlen (pre ++ cur ++ [AT_CMD_COMMA_MARK]) = zlen pre + zlen cur + 1) as E by (rewrite !zlen_app, zlen_cons; change (zlen (@nil Z)) with 0; lia).
        rewrite E in IH. change (zlen (@nil Z)) with 0 in IH. rewrite Z.add_0_r in IH. rewrite <- !app_assoc in IH. cbn [app] in IH. cbn [app].
        apply IH; [lia|constructor|done|lia]. }
      rewrite Hgo by done. cbn [read_fields]. destruct (bool_decide _); [done|]. destruct (zlen out >=? FREQ_LIST_NUM) eqn:Eg; [done|]. cbv zeta.
      destruct (_ =? -1); [done|]. rewrite Hgo; [done|]. rewrite zlen_app, zlen_cons. change (zlen (@nil Z)) with 0.
      unfold FREQ_LIST_NUM in Eg. rewrite Z.geb_leb in Eg. lia.
    + cbn [segment_loop_at]. destruct (Z.leb_spec (zlen pre + zlen cur) (end_ + 1)); [|lia].
      rewrite (proj2 (Z.eqb_neq (zlen pre + zlen cur) (end_ + 1))) by lia. rewrite Ep. cbn [rbind]. rewrite (proj2 (Z.eqb_neq c _)) by done.
      specialize (IH n pre (cur ++ [c]) post out end_).
      assert (zlen (cur ++ [c]) = zlen cur + 1) as E by (rewrite zlen_app, zlen_cons; change (zlen (@nil Z)) with 0; lia).
      rewrite E, <- !app_assoc in IH. cbn [app] in IH. cbn [app]. rewrite Z.add_assoc in IH.
      apply IH; [lia|apply Forall_app; split; [done|by repeat constructor]|done|lia].
Qed.

(** Reading a list of numbers, with its pointers into the text of the command, is
    reading the text cut at its commas and stripped of white space, for every text:
    never a byte outside of it or of the array of 16. *)
Lemma str_to_int_array_spec s rest :
  Forall (λ c, c ≠ 0) s →
  str_to_int_array (s ++ 0 :: rest) (replicate 16 0) =
  Ok (if bool_decide (strip s = []) then (-1, replicate 16 0, 0) else read_result (read_fields (fields (strip s)) [])).
Proof.
  intros Hs. unfold str_to_int_array. rewrite cstring_at by done. cbn [rbind].
  destruct (segment_spec s [] (0 :: rest) (S (length (s ++ 0 :: rest)))) as (a & b & E1 & E2 & E3 & _); [rewrite length_app; lia|].
  change (zlen (@nil Z)) with 0 in *. cbn [app] in *. rewrite Z.add_0_l in *. rewrite E1. cbn [rbind]. rewrite E2. cbn [rbind]. rewrite E3.
  destruct (bool_decide (strip s = [])) eqn:Eb; [done|].
  destruct (lstrip_split s) as [sp Es]. destruct (rstrip_split (lstrip s)) as [sp' Es']. fold (strip s) in Es'.
  assert (s ++ 0 :: rest = sp ++ strip s ++ sp' ++ 0 :: rest) as Estr by (rewrite Es at 1; rewrite Es' at 1; by rewrite <- !app_assoc).
  pose proof (skip_front_spec s (S (length (s ++ 0 :: rest))) [] (0 :: rest)) as F1. change (zlen (@nil Z)) with 0 in F1. cbn [app] in F1.
  rewrite Z.add_0_l in F1. rewrite F1 in E1 by (rewrite length_app; lia). injection E1 as <-.
  assert (zlen s = zlen sp + zlen (lstrip s)) as Ez by (rewrite Es at 1; apply zlen_app).
  replace (0 + (zlen s - zlen (lstrip s))) with (zlen sp) in * by lia.
  pose proof (skip_back_spec (lstrip s) (S (length (s ++ 0 :: rest))) sp (0 :: rest)) as F2.
  rewrite app_assoc, <- Es in F2. replace (zlen sp + zlen (lstrip s) - 1) with (zlen s - 1) in F2 by lia.
  rewrite F2 in E2 by (assert (length s = length sp + length (lstrip s))%nat by (rewrite Es at 1; apply length_app); rewrite length_app; lia).
  injection E2 as <-. fold (strip s). rewrite Estr.
  pose proof (segments_read (strip s) (S (S (length (sp ++ strip s ++ sp' ++ 0 :: rest)))) sp [] (sp' ++ 0 :: rest) [] (zlen sp + zlen (strip s) - 1)) as L.
  change (zlen (@nil Z)) with 0 in L. cbn [app] in L. rewrite Z.add_0_r in L. apply L; [lia|constructor|lia|rewrite !length_app; lia].
Qed.

(** ** Lists of frequencies *)

(** The range a frequency is in, and its place on the grid of the range. *)
Definition range_of (f : Z) : option Z := (λ p, p.1) <$> (at_get_base_freq_and_spectrum_idx f).2.
Definition base_of (i : Z) : Z := default 0 ((λ p, p.1) <$> FREQ_RANGES !! Z.to_nat i).
Definition grid_index (i f : Z) : Z := (f - base_of i) / DEFAULE_BW_HZ.

Lemma range_loop_spec n f : (n ≤ 8)%nat →
  match range_loop n f with
  | (b, None) => b = 1 ∧ ∀ i p, (i < n)%nat → FREQ_RANGES !! i = Some p → ¬ (p.1 <= f <= p.2)
  | (b, Some (i, a)) => ∃ top, 0 <= i < Z.of_nat n ∧ FREQ_RANGES !! Z.to_nat i = Some (b, top) ∧ b <= f <= top ∧
      a = b + (f - b) / DEFAULE_BW_HZ * DEFAULE_BW_HZ ∧ ∀ j p, (Z.to_nat i < j < n)%nat → FREQ_RANGES !! j = Some p → ¬ (p.1 <= f <= p.2)
  end.
Proof.
  induction n as [|n IH]; intros Hn; cbn [range_loop]; [split; [done|lia]|].
  destruct (FREQ_RANGES !! n) as [[b top]|] eqn:E.
  2: { apply lookup_ge_None in E. cbn in E. lia. }
  destruct ((b <=? f) && (f <=? top)) eqn:Eb; [rewrite andb_true_iff in Eb|rewrite andb_false_iff in Eb].
  - exists top. split_and!; [lia|lia|by rewrite Nat2Z.id|lia|lia| |intros; lia].
    rewrite Z.rem_mod_nonneg, Z.quot_div_nonneg by (unfold DEFAULE_BW_HZ; lia).
    destruct (Z.eqb_spec ((f - b) mod DEFAULE_BW_HZ) 0) as [Ez|]; cbn [negb]; [|done].
    pose proof (Z.div_mod (f - b) DEFAULE_BW_HZ). unfold DEFAULE_BW_HZ in *. lia.
  - assert (∀ p, FREQ_RANGES !! n = Some p → ¬ (p.1 <= f <= p.2)) as Hlast by (intros p; rewrite E; intros [= <-]; cbn; lia).
    specialize (IH ltac:(lia)). destruct (range_loop n f) as [b' [[i a]|]].
    + destruct IH as (t & Hi & Hr & Hf & Ha & Hj). exists t. split_and!; [lia|lia|done|lia|lia|done|].
      intros j p Hjn Ej. destruct (decide (j = n)) as [->|]; [by apply Hlast|]. apply (Hj j p); [lia|done].
    + destruct IH as [-> Hj]. split; [done|]. intros i p Hi Ei. destruct (decide (i = n)) as [->|]; [by apply Hlast|]. apply (Hj i p); [lia|done].
Qed.

(** Every range and its count of channels. *)
Lemma range_bounds i p : FREQ_RANGES !! i = Some p →
  223000000 <= p.1 ∧ p.2 < 1000000000 ∧ (p.2 - p.1) / DEFAULE_BW_HZ <= at_get_max_freq_num (Z.of_nat i) <= 200.
Proof.
  intros E. assert (forallb (λ i, match FREQ_RANGES !! i with
      | Some p => (223000000 <=? p.1) && (p.2 <? 1000000000) && ((p.2 - p.1) / DEFAULE_BW_HZ <=? at_get_max_freq_num (Z.of_nat i)) &&
                  (at_get_max_freq_num (Z.of_nat i) <=? 200) | None => true end) (seq 0 8) = true) as F by (vm_compute; reflexivity).
  rewrite forallb_forall in F. specialize (F i). rewrite E in F.
  assert (i < 8)%nat by (apply lookup_lt_Some in E; cbn in E; lia). specialize (F ltac:(apply in_seq; lia)).
  rewrite !andb_true_iff in F. lia.
Qed.
Lemma range_base_inj i j p q : FREQ_RANGES !! i = Some p → FREQ_RANGES !! j = Some q → p.1 = q.1 → i = j.
Proof.
  intros Ei Ej E. assert (NoDup (map fst FREQ_RANGES)) as Hd by (apply (bool_decide_unpack _); vm_compute; exact I).
  eapply NoDup_lookup; [exact Hd|rewrite list_lookup_fmap, Ei; reflexivity|rewrite list_lookup_fmap, Ej; cbn; by rewrite E].
Qed.

(** What the loop finds for one frequency. *)
Lemma freq_found f :
  match at_get_base_freq_and_spectrum_idx f with
  | (b, None) => range_of f = None ∧ b = 1
  | (b, Some (i, a)) => range_of f = Some i ∧ 0 <= i < 8 ∧ b = base_of i ∧ 223000000 <= b ∧ b <= f < 1000000000 ∧
      u8 (FREQ_TO_INDEX a b DEFAULE_BW_HZ) = grid_index i f ∧ 0 <= grid_index i f <= at_get_max_freq_num i
  end.
Proof.
  pose proof (range_loop_spec 8 f ltac:(lia)) as H. unfold range_of, at_get_base_freq_and_spectrum_idx. change (Z.to_nat FREQ_SPECTRUM_COUNT) with 8%nat.
  destruct (range_loop 8 f) as [b [[i a]|]]; cbn [snd fst fmap option_fmap option_map]; [|by destruct H].
  destruct H as (top & Hi & Hr & Hf & -> & _). destruct (range_bounds _ _ Hr) as (H1 & H2 & H3 & H4). cbn [fst snd] in *.
  rewrite Z2Nat.id in H3, H4 by lia.
  assert (base_of i = b) as Eb by (unfold base_of; by rewrite Hr). split_and!; try done; try lia.
  - unfold grid_index, FREQ_TO_INDEX. rewrite Eb. replace (b + (f - b) / DEFAULE_BW_HZ * DEFAULE_BW_HZ - b) with ((f - b) / DEFAULE_BW_HZ * DEFAULE_BW_HZ) by lia.
    assert (0 <= (f - b) / DEFAULE_BW_HZ <= 200).
    { split; [apply Z.div_pos; unfold DEFAULE_BW_HZ; lia|]. etransitivity; [|exact H4]. etransitivity; [|exact H3]. apply Z.div_le_mono; unfold DEFAULE_BW_HZ; lia. }
    rewrite (u32_id (_ * _)) by (unfold is_u32, DEFAULE_BW_HZ in *; lia). rewrite Z.div_mul by done. apply u8_id. unfold is_u8. lia.
  - unfold grid_index. apply Z.div_pos; unfold DEFAULE_BW_HZ; lia.
  - unfold grid_index. rewrite Eb. etransitivity; [|exact H3]. apply Z.div_le_mono; unfold DEFAULE_BW_HZ; lia.
Qed.

(** The rest of a list, behind a first frequency in range [i]. *)
Lemma index_rest rest : ∀ n done i act wanted,
  wanted = done ++ rest → zlen wanted <= 16 → 0 <= i < 8 → (length rest < n)%nat → range_of (nth 0 wanted 0) = Some i → done ≠ [] →
  let ks := map (grid_index i) in
  ∃ code l sp b, index_list_loop n (zlen done) (zlen wanted) (base_of i) (base_of i) i act (out_of wanted) (out_of (ks done)) = Ok (code, l, sp, b) ∧
    if bool_decide (Forall (λ f, range_of f = Some i) rest) then (code, l, sp, b) = (0, out_of (ks wanted), i, base_of i) else code ≠ 0.
Proof.
  induction rest as [|f rest IH]; intros n done i act wanted Hw Hl Hi Hn H0 Hd ks; (destruct n as [|n]; [lia|]); cbn [index_list_loop].
  - rewrite app_nil_r in Hw. subst wanted. rewrite Z.ltb_irrefl. rewrite bool_decide_eq_true_2 by done. eauto 10.
  - assert (zlen wanted = zlen done + (1 + zlen rest)) as Ez by (rewrite Hw, zlen_app, zlen_cons; done). pose proof (zlen_nonneg rest).
    destruct (Z.ltb_spec (zlen done) (zlen wanted)); [|lia].
    assert (peek (out_of wanted) (zlen done) = Ok f) as Ep by (unfold out_of; rewrite Hw, <- app_assoc; cbn [app]; by apply peek_at).
    rewrite Ep. cbn [rbind].
    assert (223000000 <= base_of i) as Hbi.
    { pose proof (freq_found (nth 0 wanted 0)) as F0. destruct (at_get_base_freq_and_spectrum_idx (nth 0 wanted 0)) as [b0 [[i0 a0]|]];
        destruct F0 as [E0 F0]; rewrite H0 in E0; [injection E0 as <-; destruct F0 as (_ & <- & ? & _); done|done]. }
    pose proof (freq_found f) as Ff. destruct (at_get_base_freq_and_spectrum_idx f) as [b [[j a]|]]; cbn [default from_option id].
    + destruct Ff as (Ej & Hj & -> & Hb & Hf & Hk & Hmax). destruct (decide (j = i)) as [->|Hne].
      * rewrite (proj2 (Z.gtb_lt (base_of i) 0)), Z.eqb_refl by lia. cbn [andb negb]. cbv zeta. rewrite Hk.
        assert (zlen (ks done) = zlen done) as Ek by apply zlen_map.
        pose proof (out_store (ks done) (grid_index i f)) as Es. rewrite Ek in Es. rewrite Es by lia. cbn [rbind].
        destruct (Z.gtb_spec (grid_index i f) (at_get_max_freq_num i)); [lia|].
        specialize (IH n (done ++ [f]) i a wanted). unfold ks in *. rewrite map_app in IH. cbn [map] in IH. rewrite zlen_app, zlen_cons in IH.
        change (zlen (@nil Z)) with 0 in IH. cbn [length] in Hn.
        destruct IH as (code & l & sp & b & E & Hr); [rewrite Hw, <- app_assoc; done|done|done|lia|done|by destruct done|].
        exists code, l, sp, b. split; [exact E|]. destruct (decide (Forall (λ f, range_of f = Some i) rest)) as [Hall|Hn'].
        -- rewrite bool_decide_eq_true_2 in Hr by done. rewrite bool_decide_eq_true_2 by (by constructor). done.
        -- rewrite bool_decide_eq_false_2 in Hr by done. rewrite bool_decide_eq_false_2 by (by inversion 1). done.
      * assert (base_of j ≠ base_of i) as Hbj.
        { intros E. apply Hne. unfold base_of in E.
          destruct (FREQ_RANGES !! Z.to_nat j) as [p|] eqn:E1; [|apply lookup_ge_None in E1; cbn in E1; lia].
          destruct (FREQ_RANGES !! Z.to_nat i) as [q|] eqn:E2; [|apply lookup_ge_None in E2; cbn in E2; lia].
          pose proof (range_base_inj _ _ _ _ E1 E2 E). lia. }
        rewrite (proj2 (Z.gtb_lt (base_of i) 0)), (proj2 (Z.eqb_neq (base_of j) _)) by (lia || done). cbn [andb negb]. eexists _, _, _, _. split; [reflexivity|].
        rewrite bool_decide_eq_false_2; [done|]. inversion 1; subst. congruence.
    + destruct Ff as [Ej ->]. rewrite (proj2 (Z.gtb_lt (base_of i) 0)), (proj2 (Z.eqb_neq 1 _)) by lia. cbn [andb negb]. eexists _, _, _, _. split; [reflexivity|].
      rewrite bool_decide_eq_false_2; [done|]. inversion 1; subst. congruence.
Qed.

Lemma index_list_spec wanted : wanted ≠ [] → zlen wanted <= 16 →
  ∃ code l sp b, index_list_loop (S (length wanted)) 0 (zlen wanted) 0 0 0 0 (out_of wanted) (out_of []) = Ok (code, l, sp, b) ∧
    (code ≠ 0 ∧ ¬ (∃ i, Forall (λ f, range_of f = Some i) wanted) ∨
     ∃ i, 0 <= i < 8 ∧ Forall (λ f, range_of f = Some i) wanted ∧ (code, l, sp, b) = (0, out_of (map (grid_index i) wanted), i, base_of i)).
Proof.
  intros Hd Hl. destruct wanted as [|f rest]; [done|]. cbn [length]. set (n := S (length rest)). cbn [index_list_loop].
  assert (zlen (f :: rest) = 1 + zlen rest) as Ez by apply zlen_cons. pose proof (zlen_nonneg rest).
  destruct (Z.ltb_spec 0 (zlen (f :: rest))); [|lia].
  assert (peek (out_of (f :: rest)) 0 = Ok f) as -> by (by apply (peek_at [])). cbn [rbind].
  pose proof (freq_found f) as Ff. destruct (at_get_base_freq_and_spectrum_idx f) as [b [[i a]|]]; cbn [default from_option id].
  - destruct Ff as (Ei & Hi & -> & Hb & Hf & Hk & Hmax). change (0 >? 0) with false. cbn [andb]. cbv zeta. rewrite Hk.
    pose proof (out_store [] (grid_index i f)) as Es. change (zlen (@nil Z)) with 0 in Es. rewrite Es by lia. cbn [rbind app].
    destruct (Z.gtb_spec (grid_index i f) (at_get_max_freq_num i)); [lia|].
    destruct (index_rest rest n [f] i a (f :: rest)) as (code & l & sp & b & E & Hr); [done|done|done|lia|done|done|].
    exists code, l, sp, b. split; [exact E|]. destruct (decide (Forall (λ f, range_of f = Some i) rest)) as [Hall|Hn'].
    + rewrite bool_decide_eq_true_2 in Hr by done. right. exists i. split; [done|]. split; [by constructor|done].
    + rewrite bool_decide_eq_false_2 in Hr by done. left. split; [done|]. intros [j Hj]. inversion Hj; subst. assert (i = j) as -> by congruence. done.
  - destruct Ff as [Ei ->]. cbn [app]. change (u8 (FREQ_TO_INDEX 0 1 DEFAULE_BW_HZ)) with 226. change (0 >? 0) with false. cbn [andb].
    pose proof (out_store [] 226) as Es. change (zlen (@nil Z)) with 0 in Es. rewrite Es by lia. cbn [rbind].
    eexists _, _, _, _. split; [reflexivity|]. left. split; [done|]. intros [j Hj]. inversion Hj; subst. congruence.
Qed.

Lemma read_fields_len fs : ∀ out, zlen out <= 16 → zlen (read_fields fs out).2 <= 16.
Proof.
  induction fs as [|f fs IH]; intros out Ho; cbn [read_fields]; [done|]. destruct (bool_decide _); [by apply IH|].
  destruct (zlen out >=? FREQ_LIST_NUM) eqn:E; [done|]. cbv zeta. destruct (_ =? -1); [done|]. apply IH.
  rewrite zlen_app, zlen_cons. change (zlen (@nil Z)) with 0. unfold FREQ_LIST_NUM in E. rewrite Z.geb_leb in E. lia.
Qed.

Lemma freq_list_cases s rest code wanted :
  Forall (λ c, c ≠ 0) s → strip s ≠ [] → read_fields (fields (strip s)) [] = (code, wanted) → wanted ≠ [] →
  ∃ err l r, at_get_freq_list (s ++ 0 :: rest) (replicate 16 0) = Ok (err, l, r) ∧
    (err ≠ 0 ∧ r = None ∧ ¬ (code = 0 ∧ ∃ i, Forall (λ f, range_of f = Some i) wanted) ∨
     ∃ i, code = 0 ∧ Forall (λ f, range_of f = Some i ∧ 0 <= grid_index i f <= at_get_max_freq_num i) wanted ∧
       err = 0 ∧ l = out_of (map (grid_index i) wanted) ∧ r = Some (zlen wanted, i, base_of i)).
Proof.
  intros Hs Hne Er Hw. pose proof (str_to_int_array_spec s rest Hs) as Ea. rewrite Er in Ea. unfold at_get_freq_list. change (Z.to_nat FREQ_LIST_NUM) with 16%nat. rewrite Ea, bool_decide_eq_false_2 by done. cbn [rbind read_result fst snd].
  pose proof (read_fields_len (fields (strip s)) [] ltac:(by apply Z.leb_le)) as Hlen. rewrite Er in Hlen. cbn [snd] in Hlen.
  destruct (Z.eqb_spec code 0) as [->|Hc]; cbn [negb orb].
  2: { eexists _, _, _. split; [reflexivity|]. left. split; [done|]. split; [done|]. tauto. }
  destruct (Z.gtb_spec (zlen wanted) FREQ_LIST_NUM) as [Hgt|_]; [unfold FREQ_LIST_NUM in Hgt; lia|].
  unfold zlen at 1. rewrite Nat2Z.id. change (replicate 16 0) with (out_of []).
  destruct (index_list_spec wanted Hw Hlen) as (err & l & sp & b & E & Hr). rewrite E. cbn [rbind].
  destruct Hr as [[Herr Hno]|(i & Hi & Hall & [= -> -> -> ->])].
  - rewrite (proj2 (Z.eqb_neq err 0)) by done. eexists _, _, _. split; [reflexivity|]. left. split; [done|]. split; [done|]. tauto.
  - cbn. eexists _, _, _. split; [reflexivity|]. right. exists i. split_and!; try done.
    eapply Forall_impl; [exact Hall|]. cbn. intros f Hf. split; [done|]. pose proof (freq_found f) as F.
    destruct (at_get_base_freq_and_spectrum_idx f) as [b' [[j a]|]]; destruct F as [Ej F]; rewrite Hf in Ej; [|done]. injection Ej as <-. by destruct F as (_ & _ & _ & _ & _ & ?).
Qed.

(** C31: A list of frequencies is taken exactly when all of them are in one range of
    the spectrum; then each gets the index of the channel it falls into, which is one
    the range has, and the range and its base are given back.  A list that cannot be
    read, has more than 16 numbers or mixes ranges is refused and changes nothing. *)
Theorem freq_list_taken s rest code wanted :
  Forall (λ c, c ≠ 0) s → strip s ≠ [] → read_fields (fields (strip s)) [] = (code, wanted) → wanted ≠ [] →
  ∃ err l r, at_get_freq_list (s ++ 0 :: rest) (replicate 16 0) = Ok (err, l, r) ∧
    (err ≠ 0 ∧ r = None ∧ ¬ (code = 0 ∧ ∃ i, Forall (λ f, range_of f = Some i) wanted) ∨
     ∃ i, code = 0 ∧ Forall (λ f, range_of f = Some i ∧ 0 <= grid_index i f <= at_get_max_freq_num i) wanted ∧
       err = 0 ∧ l = out_of (map (grid_index i) wanted) ∧ r = Some (zlen wanted, i, base_of i)).
Proof. apply freq_list_cases. Qed.

(** A comma alone is taken too, as a list without frequencies at base 0. *)
Lemma comma_taken : at_get_freq_list (chars "," ++ [0]) (replicate 16 0) = Ok (0, replicate 16 0, Some (0, 0, 0)).
Proof. vm_compute. reflexivity. Qed.

Lemma freq_list_taken_witness :
  ∃ err l r, at_get_freq_list (chars " 470300000,, 510000000" ++ AT_CMD_END_MARK ++ [0]) (replicate 16 0) = Ok (err, l, r) ∧
    r = Some (2, 3, 470000000) ∧ take 2 l = [1; 200].
Proof.
  destruct (freq_list_taken (chars " 470300000,, 510000000" ++ AT_CMD_END_MARK) [] 0 [470300000; 510000000]) as (err & l & r & E & H).
  - apply (bool_decide_unpack _). vm_compute. exact I.
  - vm_compute. discriminate.
  - vm_compute. reflexivity.
  - discriminate.
  - exists err, l, r. rewrite <- app_assoc in E. split; [exact E|]. destruct H as [(_ & _ & Hn)|(i & _ & Hall & _ & -> & ->)].
    + exfalso. apply Hn. split; [reflexivity|]. exists 3. apply (bool_decide_unpack _). vm_compute. exact I.
    + apply Forall_inv in Hall as [Hi _]. vm_compute in Hi. injection Hi as <-. split; vm_compute; reflexivity.
Defined.
