(* ===== verification/AtSimpleProps.v ===== *)
(** * What the simplified AT commands promise

    The settings stay within their limits and the stack is used as it asks,
    whatever arrives at the serial device; a message that is sent is shown as it
    was entered by the side that receives it; a frequency that is entered is set. *)

From S2P Require Import Prelude WiotaApi Fastlz FastlzSpec AtServer AtText AtCmd AtProps AtSimple AtSimpleText.
From stdpp Require Import strings.
#[local] Open Scope Z_scope.
#[local] Open Scope list_scope.

(** ** The settings and the radio *)

Definition simple_ok (l : at_simplified_t) : Prop :=
  0 <= as_subsystemid l <= MAX_SUBSYSTEMID ∧ POWER_MIN <= as_power l <= POWER_MAX ∧ RATE_MODE_1 <= as_rate_mode l <= RATE_MODE_8 ∧
  0 <= as_spectrum_idx l < FREQ_SPECTRUM_COUNT ∧ as_rate_mode_map l = RATE_MODE_MAP.

(** The stack beside the settings is the stack. *)
#[export] Instance simple_radio R `{LIB : WiotaLib R} `{ENV : AtEnv R} `{LAWS : !RadioLaws R} : RadioLaws (simple_t R).
Proof.
  refine {| radio_state := λ r, radio_state (sm_lib r); radio_fit := λ r, radio_fit (sm_lib r) |}; cbn.
  - intros r. apply state_told.
  - intros T e r He. by apply quiet_keeps.
  - intros T e r He Hf. by apply neutral_fit.
  - intros line r Hf. by apply gnss_fit.
  - intros r Hf Hs. by apply init_fit.
  - intros r Hf Hs. by apply run_fit.
  - intros r Hf. by apply exit_fit.
Defined.

Section Settings.
Context {R : Type} `{LIB : WiotaLib R} `{ENV : AtEnv R}.
Local Abbreviation state := (at_state (simple_t R)).

Definition settings (s : state) : Prop := simple_ok (sm_local (at_lib s)).

(** A property of the settings alone is kept by all but the assignments. *)
Section Frame.
Variables (P : state → Prop) (ok : ∀ T, wiotaE T → bool).
Hypotheses (FR : at_frame P ok) (HP : ∀ op s, P s → P (with_lib {| sm_lib := sm_lib (at_lib s); sm_local := sm_local (at_lib s); sm_pins := sm_pins (at_lib s) ++ [op] |} s)).
Lemma keeps_pin op : Keeps P (pin op) (λ _, True).
Proof using HP. apply keeps_mod. auto. Qed.
Lemma keeps_local : Keeps P local (λ l, ∃ s, P s ∧ l = sm_local (at_lib s)).
Proof. apply keeps_gets. Qed.
Lemma keeps_entry {A} (l : list A) i : Keeps P (entry l i) (λ _, True).
Proof. unfold entry. keeps. Qed.
Lemma keeps_compress a b c : Keeps P (compress a b c) (λ _, True).
Proof using FR. intros s r s' Hs. unfold compress. destruct (fastlz_compress _ _ _ _) as [[v m]|]; [|done]. intros [= <- <-]. split; [by apply FR|done]. Qed.
End Frame.

Lemma settings_frame : at_frame settings all_calls.
Proof. constructor; unfold settings; intros; done. Qed.
Lemma keeps_set_local f : (∀ l, simple_ok l → simple_ok (f l)) → Keeps settings (set_local f) (λ _, True).
Proof. intros Hf. apply keeps_mod. intros s Hs. unfold settings. cbn. by apply Hf. Qed.

Hint Extern 1 (Keeps settings (wiota _) _) => apply (keeps_wiota settings all_calls settings_frame); reflexivity : keeps.
Hint Extern 1 (Keeps settings (at_server_printfln _ _) _) => apply (keeps_printfln settings all_calls settings_frame) : keeps.
Hint Extern 1 (Keeps settings (at_server_printf _ _) _) => apply (keeps_printf settings all_calls settings_frame) : keeps.
Hint Extern 1 (Keeps settings (rt_malloc _) _) => apply (keeps_rt_malloc settings all_calls settings_frame) : keeps.
Hint Extern 1 (Keeps settings rt_free _) => apply (keeps_rt_free settings all_calls settings_frame) : keeps.
Hint Extern 1 (Keeps settings (adopt _) _) => apply (keeps_adopt settings all_calls settings_frame) : keeps.
Hint Extern 1 (Keeps settings (at_server_recv _) _) => apply (keeps_recv settings all_calls settings_frame) : keeps.
Hint Extern 1 (Keeps settings (compress _ _ _) _) => apply (keeps_compress settings all_calls settings_frame) : keeps.
Hint Extern 1 (Keeps settings (pin _) _) => apply keeps_pin; done : keeps.
Hint Extern 1 (Keeps settings local _) => apply (keeps_local settings) : keeps.
Hint Extern 1 (Keeps settings (entry _ _) _) => apply keeps_entry : keeps.
Hint Extern 1 (Keeps settings (set_local _) _) =>
  apply keeps_set_local; intros ? (? & ? & ? & ? & ?); unfold simple_ok; cbn; split_and!;
  unfold POWER_MIN, POWER_MAX, RATE_MODE_1, RATE_MODE_8, MAX_SUBSYSTEMID, FREQ_SPECTRUM_COUNT in *; solve [done | lia] : keeps.

Lemma keeps_at_wiota_run : Keeps settings at_wiota_run (λ _, True).
Proof using LIB ENV. unfold at_wiota_run. keeps. Qed.
Hint Resolve keeps_at_wiota_run : keeps.
Lemma keeps_rssi_lines n : ∀ i b d, Keeps settings (rssi_lines n i b d) (λ _, True).
Proof using LIB ENV. induction n as [|n IH]; intros; cbn [rssi_lines]; keeps. Qed.
Hint Resolve keeps_rssi_lines : keeps.

(** A range that is found is one of the table. *)
Lemma taken_spectrum text list code l n i b : at_get_freq_list text list = Ok (code, l, Some (n, i, b)) → 0 <= i < FREQ_SPECTRUM_COUNT.
Proof.
  unfold at_get_freq_list. intros E. apply rbind_Ok in E as ([[c arr] k] & _ & E). destruct (negb _ || _); [done|].
  apply rbind_Ok in E as ([[[c' l'] sp] b'] & E1 & E). destruct (c' =? 0); [|done]. injection E as <- <- <- <- <-.
  assert (∀ n i last b sp act arr l r, 0 <= sp < 8 → index_list_loop n i k last b sp act arr l = Ok r → 0 <= r.1.2 < 8) as H.
  2: by eapply (H _ _ _ _ _ _ _ _ _) in E1.
  clear. induction n as [|n IH]; intros i last b sp act arr l r Hs E; cbn [index_list_loop] in E; [done|].
  destruct (i <? k); [|by injection E as <-]. apply rbind_Ok in E as (f & _ & E). pose proof (freq_found f) as F.
  destruct (at_get_base_freq_and_spectrum_idx f) as [b' [[j a]|]]; cbn [default from_option id] in E.
  - destruct F as (_ & Hj & _). destruct (_ && _); [by injection E as <-|]. cbv zeta in E. apply rbind_Ok in E as (l' & _ & E).
    destruct (_ >? _); [by injection E as <-|]. by eapply IH.
  - destruct (_ && _); [by injection E as <-|]. cbv zeta in E. apply rbind_Ok in E as (l' & _ & E).
    destruct (_ >? _); [by injection E as <-|]. by eapply IH.
Qed.

Lemma keeps_lift_eq {S A B} (P : S → Prop) (r : result A) (k : A → FW S B) V :
  (∀ a, r = Ok a → Keeps P (k a) V) → Keeps P (fbind (flift r) k) V.
Proof. intros Hk s b s' Hs E. apply fbind_Ok in E as (a & s1 & E1 & E2). unfold flift in E1. destruct r; [|done]. injection E1 as <- <-. by eapply Hk. Qed.

Lemma freq_setup_keeps args : Keeps settings (at_wiota_freq_setup args) (λ _, True).
Proof using LIB ENV.
  apply keeps_lift_eq. intros [[c l] [[[n i] b]|]] E; [pose proof (taken_spectrum _ _ _ _ _ _ _ E)|]; keeps.
Qed.
Hint Resolve freq_setup_keeps : keeps.

Lemma sync_setup_keeps args : Keeps settings (at_wiota_sync_setup args) (λ _, True).
Proof using LIB ENV.
  unfold at_wiota_sync_setup, parsed, at_set_subsystemid. destruct (parse _ _) as [vs|]; [|keeps]. pose proof (u32_range (arg vs 0 0)) as Hu. fold (uarg vs 0 0) in Hu. unfold is_u32 in Hu. keeps.
Qed.
Lemma power_setup_keeps args : Keeps settings (at_wiota_power_setup args) (λ _, True).
Proof using LIB ENV.
  unfold at_wiota_power_setup, parsed, at_set_power. destruct (parse _ _) as [vs|]; [|keeps]. cbv zeta.
  destruct (_ && _) eqn:E; [|keeps]. apply andb_true_iff in E as [E1 E2]. unfold POWER_MIN, POWER_MAX in *. rewrite u8_id by (unfold is_u8; lia). keeps.
Qed.
Hint Resolve sync_setup_keeps power_setup_keeps : keeps.

Lemma simple_table_settings : Forall (cmd_keeps settings) at_simplified_table.
Proof using LIB ENV.
  unfold at_simplified_table. repeat first [apply Forall_nil_2 | apply Forall_cons_2].
  all: split_and!; cbn [cmd_test cmd_query cmd_setup cmd_exec]; intros ?; first [discriminate | intros [= <-] | intros ? [= <-]].
  all: try solve [keeps].
  all: try (match goal with |- Keeps _ ?m _ => unfold_head m end; unfold parsed, at_wiota_scan_freq, at_get_send_timeout, at_get_max_awaken_id,
    at_set_power, at_set_subsystemid, at_wiota_compress_and_pack, at_tx_start, at_tx_end; keeps; fail).
  all: keeps.
Qed.
End Settings.

Section Radio.
Context {R : Type} `{LIB : WiotaLib R} `{ENV : AtEnv R} `{LAWS : !RadioLaws R}.
Local Abbreviation fits := (fit (R := simple_t R)).

Lemma leads_local (P : at_state (simple_t R) → Prop) : Leads P local (λ _, P).
Proof. intros s a s' Hs [= <- <-]. done. Qed.
Lemma leads_entry {A} (P : at_state (simple_t R) → Prop) (l : list A) i : Leads P (entry l i) (λ _, P).
Proof. intros s a s' Hs. unfold entry. case_match; [by intros [= <- <-]|done]. Qed.

Lemma keeps_set_local_fit f : Keeps fits (set_local f) (λ _, True).
Proof. apply keeps_mod. intros s Hs. done. Qed.

Hint Extern 1 (Keeps fits (wiota uc_wiota_exit) _) => apply keeps_exit : keeps.
Hint Extern 2 (Keeps fits (wiota _) _) => apply (keeps_wiota fits neutral fit_frame); reflexivity : keeps.
Hint Extern 1 (Keeps fits (at_server_printfln _ _) _) => apply (keeps_printfln fits neutral fit_frame) : keeps.
Hint Extern 1 (Keeps fits (at_server_printf _ _) _) => apply (keeps_printf fits neutral fit_frame) : keeps.
Hint Extern 1 (Keeps fits (rt_malloc _) _) => apply (keeps_rt_malloc fits neutral fit_frame) : keeps.
Hint Extern 1 (Keeps fits rt_free _) => apply (keeps_rt_free fits neutral fit_frame) : keeps.
Hint Extern 1 (Keeps fits (adopt _) _) => apply (keeps_adopt fits neutral fit_frame) : keeps.
Hint Extern 1 (Keeps fits (at_server_recv _) _) => apply (keeps_recv fits neutral fit_frame) : keeps.
Hint Extern 1 (Keeps fits (compress _ _ _) _) => apply (keeps_compress fits neutral fit_frame) : keeps.
Hint Extern 1 (Keeps fits (pin _) _) => apply keeps_pin; done : keeps.
Hint Extern 1 (Keeps fits local _) => apply (keeps_local fits) : keeps.
Hint Extern 1 (Keeps fits (entry _ _) _) => apply keeps_entry : keeps.
Hint Resolve keeps_set_local_fit : keeps.

Lemma run_keeps_fit : Keeps fits at_wiota_run (λ _, True).
Proof.
  apply leads_keeps. unfold at_wiota_run.
  eapply leads_bind; [apply leads_exit|]. intros ?. do 2 (eapply leads_bind; [by apply leads_quiet|]; intros ?).
  eapply leads_bind; [by apply leads_init|]. intros ?. eapply leads_bind; [apply leads_local|]. intros l.
  eapply leads_bind; [apply leads_entry|]. intros rm. do 2 (eapply leads_bind; [by apply leads_quiet|]; intros ?).
  eapply leads_bind; [apply leads_run|]. intros ?. apply keeps_leads with (V := λ _, True). keeps.
Qed.
Hint Resolve run_keeps_fit : keeps.
Lemma keeps_rssi_fit n : ∀ i b d, Keeps fits (rssi_lines n i b d) (λ _, True).
Proof. induction n as [|n IH]; intros; cbn [rssi_lines]; keeps. Qed.
Hint Resolve keeps_rssi_fit : keeps.

Lemma simple_table_fit : Forall (cmd_keeps fits) at_simplified_table.
Proof.
  unfold at_simplified_table. repeat first [apply Forall_nil_2 | apply Forall_cons_2].
  all: split_and!; cbn [cmd_test cmd_query cmd_setup cmd_exec]; intros ?; first [discriminate | intros [= <-] | intros ? [= <-]].
  all: match goal with |- Keeps _ ?m _ => unfold_head m end; unfold parsed, at_wiota_scan_freq, at_get_send_timeout, at_get_max_awaken_id,
    at_set_power, at_set_subsystemid, at_wiota_compress_and_pack, at_tx_start, at_tx_end; keeps.
Qed.


(** The start leaves the settings within their limits. *)
Lemma simple_init_ok s s' : at_simplified_init s = Ok (tt, s') → simple_ok (sm_local (at_lib s')).
Proof using ENV.
  unfold at_simplified_init. intros E. apply fbind_Ok in E as (? & s1 & _ & E). apply fbind_Ok in E as (addr & s2 & _ & E).
  assert (at_get_base_freq_and_spectrum_idx DEFAULE_FREQ = (470000000, Some (3, 502000000))) as E0 by (vm_compute; reflexivity).
  rewrite E0 in E. cbv beta iota in E.
  do 4 (apply fbind_Ok in E as (? & ? & E' & E); injection E' as <- <-).
  apply fbind_Ok in E as (? & s3 & E' & E). 
  rewrite (proj2 (Z.leb_le BASE_FREQ 470000000)) in E' by (by apply Z.leb_le). injection E' as <- <-.
  do 3 (apply fbind_Ok in E as (? & ? & E' & E); injection E' as <- <-).
  apply fbind_Ok in E as ([] & s4 & E' & E). injection E as <-. cbn [at_lib with_out].
  eapply keeps_at_wiota_run in E' as [H _]; [exact H|]. unfold settings, simple_ok. cbn.
  unfold DEFAULT_SUBSYSTEMID, MAX_SUBSYSTEMID, DEFAULE_POWER, POWER_MIN, POWER_MAX, DEFAULE_RATE_MODE, RATE_MODE_1, RATE_MODE_8, FREQ_SPECTRUM_COUNT. split_and!; (lia || done).
Qed.
End Radio.

(** ** Messages *)

(** Only the table of the compressor comes from the heap. *)
Lemma compressor_mem lv input length out mem :
  FASTLZ_COMPRESSOR lv input length out mem =
  if default true (head mem) then match FASTLZ_COMPRESSOR lv input length out [] with Ok (r, _) => Ok (r, tail mem) | Fault f => Fault f end
  else Ok ((-1, out), tail mem).
Proof.
  unfold FASTLZ_COMPRESSOR, fbind, mem_ok. destruct mem as [|[] mem]; cbn [head hd_error default from_option id tail negb]; [| |done].
  all: destruct (length <? 4); unfold flift; [by destruct (compress_short _ _ _)|].
  all: cbv zeta; destruct (rbind (slice 0 2 input) _) as [r|]; [|done].
  all: by destruct (rbind (left_over _ _ _ _ _ _ _) _).
Qed.

(** The bytes behind the flags are the data, or decompress to it. *)
Definition carries (h : Z) (body data : list Z) : Prop :=
  h = 0 ∧ body = data ∨
  h = 1 ∧ ∃ dest, fastlz_decompress body (zlen body) (replicate (Z.to_nat DECOMPRESS_MAX_LEN) 0) DECOMPRESS_MAX_LEN = Ok (zlen data, dest) ∧
    slice 0 (zlen data) dest = Ok data.

Section Messages.
Context {R : Type} `{LIB : WiotaLib R} `{ENV : AtEnv R}.

Lemma pack_spec data (s : at_state (simple_t R)) :
  bytes_ok data → 0 < zlen data <= 1023 → head (at_mem s) ≠ Some false →
  ∃ h d n, at_wiota_compress_and_pack data (zlen data) 0 1 s = Ok ((0, h, d, n), with_mem (tail (tail (at_mem s))) (at_live s) s) ∧
    1 <= n <= 1 + zlen data ∧ zlen d = zlen data ∧ carries h (take (Z.to_nat (n - 1)) d) data.
Proof.
  intros Hok Hz Hm. unfold at_wiota_compress_and_pack, COMPRESS_BUFFER_FACTOR.
  assert (s32 (zlen data * 2) = zlen data * 2) as -> by (unfold s32; rewrite Z.mod_small by lia; lia).
  erewrite bind_Ok by (apply malloc_ok; [lia|done]). cbn [negb].
  set (out := replicate (Z.to_nat (zlen data * 2)) 0). assert (zlen out = zlen data * 2) as Ho by (unfold out, zlen at 1; rewrite length_replicate; lia).
  assert (room (zlen data) <= zlen out) as Hr.
  { rewrite Ho. unfold room, MAX_COPY. pose proof (Z.div_lt (zlen data) 32). lia. }
  destruct (compressor_roundtrip Level1 data (zlen data) out Hok) as (n & out' & E & Hn & Hzo & Hd); [lia|lia|done|].
  assert (compress data (zlen data) out (with_mem (tail (at_mem s)) (at_live s + 1) s) =
    Ok (if default true (head (tail (at_mem s))) then (n, out') else (-1, out), with_mem (tail (tail (at_mem s))) (at_live s + 1) s)) as Ec.
  { unfold compress, fastlz_compress. rewrite (proj2 (Z.ltb_lt (zlen data) 65536)) by lia. rewrite compressor_mem, E. cbn [at_mem at_live with_mem].
    by destruct (default true _). }
  erewrite bind_Ok by exact Ec. clear Ec.
  assert (∀ m v, m = at_live s → (rt_free;;; fret v)%fw (with_mem (tail (tail (at_mem s))) (m + 1) s) = Ok (v : Z * Z * list Z * Z, with_mem (tail (tail (at_mem s))) (at_live s) s)) as Hfree.
  { intros m v ->. unfold rt_free, fbind, fmod, fret. cbn [at_mem at_live with_mem]. do 2 f_equal. replace (at_live s + 1 - 1) with (at_live s) by lia. done. }
  assert (∀ c o, (u32 c <? zlen data) = false → ∃ h d k, ((let '(compressed_len, comp_data) := (c, o) in
      if u32 compressed_len <? zlen data then c <-- flift (slice 0 compressed_len comp_data);; d <-- flift (store 0 c data);; rt_free;;; fret (0, Z.lor 0 1, d, 1 + compressed_len)
      else rt_free;;; fret (0, Z.land 0 254, data, 1 + zlen data)) : FW (at_state (simple_t R)) _)%fw (with_mem (tail (tail (at_mem s))) (at_live s + 1) s) =
      Ok ((0, h, d, k), with_mem (tail (tail (at_mem s))) (at_live s) s) ∧ 1 <= k <= 1 + zlen data ∧ zlen d = zlen data ∧ carries h (take (Z.to_nat (k - 1)) d) data) as Hraw.
  { intros c o Hc. cbv beta iota. rewrite Hc, Hfree by done. eexists _, _, _. split; [reflexivity|]. split; [lia|]. split; [done|]. left. split; [done|].
    replace (Z.to_nat (1 + zlen data - 1)) with (length data) by (unfold zlen; lia). apply firstn_all. }
  destruct (default true (head (tail (at_mem s)))); [|apply Hraw; change (u32 (-1)) with 4294967295; lia].
  destruct (decide (u32 n < zlen data)) as [Eu|Hge]; [|apply Hraw; lia]. cbv beta iota. rewrite (proj2 (Z.ltb_lt (u32 n) (zlen data))) by done.
  assert (n <= room (zlen data)) by lia. assert (room (zlen data) <= 2046) by lia. rewrite u32_id in Eu by (unfold is_u32; lia).
  set (body := take (Z.to_nat n) out'). assert (zlen body = n) as Hb by (apply zlen_take; lia).
  assert (slice 0 n out' = Ok body) as Es by (rewrite slice_Ok by lia; done).
  erewrite bind_Ok by (unfold flift; rewrite Es; reflexivity).
  destruct (store 0 body data) as [d|] eqn:Est; [|rewrite store_Ok in Est by lia; done].
  erewrite bind_Ok by reflexivity. cbv beta. rewrite Hfree by done. eexists _, _, _. split; [reflexivity|]. split; [lia|].
  rewrite store_Ok in Est by lia. injection Est as <-.
  split; [apply zlen_blit; lia|]. right. split; [done|].
  assert (take (Z.to_nat (1 + n - 1)) (blit 0 body data) = body) as ->.
  { unfold blit. change (Z.to_nat 0) with 0%nat. rewrite take_0. cbn [app]. replace (Z.to_nat (1 + n - 1)) with (length body) by (unfold zlen in Hb; lia). apply take_app_length. }
  assert (zlen (replicate (Z.to_nat DECOMPRESS_MAX_LEN) 0) = DECOMPRESS_MAX_LEN) as Hz2 by (unfold zlen; rewrite length_replicate; done).
  rewrite Hb. destruct (Hd body (replicate (Z.to_nat DECOMPRESS_MAX_LEN) 0) DECOMPRESS_MAX_LEN) as (dest & Ed & Ht & Hzd); [by exists []; rewrite app_nil_r|rewrite Hz2; unfold DECOMPRESS_MAX_LEN; lia|].
  exists dest. split; [done|]. rewrite slice_Ok; [|lia|lia|rewrite Hzd, Hz2; unfold DECOMPRESS_MAX_LEN; lia].
  unfold zsub. change (Z.to_nat 0) with 0%nat. rewrite drop_0, Ht. unfold zlen. by rewrite Nat2Z.id, firstn_all.
Qed.

(** The report of a message, between the two changes of its pin. *)
Lemma recv_spec rd h body data (t : at_state (simple_t R)) :
  rd_data rd = h :: body → rd_data_len rd = 1 + zlen body → carries h body data → data ≠ [] → head (at_mem t) ≠ Some false →
  ∃ t', at_wiota_recv_callback rd t = Ok (tt, t') ∧ at_live t' = at_live t ∧
    at_out t' = at_out t ++ [Printf "+RECV:%u,%d,%d," [AInt (rd_user_id rd); AInt (rd_rssi rd); AInt (zlen data)]; Data data; Println "" []].
Proof.
  intros Hd Hl Hc Hne Hm. unfold at_wiota_recv_callback. rewrite Hd, Hl. pose proof (zlen_nonneg body).
  destruct (Z.ltb_spec (1 + zlen body) 1); [lia|]. change (peek (h :: body) 0) with (@Ok Z h). fw_run. cbv zeta. change (drop 1 (h :: body)) with body.
  replace (1 + zlen body - 1) with (zlen body) by lia. destruct Hc as [[-> ->]|(-> & dest & Ed & Es)].
  - change (negb (Z.land 0 1 =? 0)) with false. cbv iota. unfold at_rx_notity, at_rx_complete, at_send_data. repeat fw_run.
    assert (slice 0 (zlen data) data = Ok data) as -> by (rewrite slice_Ok by lia; unfold zsub, zlen; rewrite Nat2Z.id; cbn; by rewrite firstn_all).
    repeat fw_run. eexists. split; [reflexivity|]. split; [done|]. cbn. by rewrite <- !app_assoc.
  - change (negb (Z.land 1 1 =? 0)) with true. cbv iota. erewrite bind_Ok by (apply malloc_ok; done). cbn [negb]. rewrite Ed. fw_run.
    assert (0 < zlen data) by (destruct data; [done|]; rewrite zlen_cons; pose proof (zlen_nonneg data); lia).
    rewrite (proj2 (Z.gtb_lt (zlen data) 0)) by done. unfold at_rx_notity, at_rx_complete, at_send_data. repeat fw_run. rewrite Es. repeat fw_run.
    eexists. split; [reflexivity|]. split; [cbn; lia|]. cbn. by rewrite <- !app_assoc.
Qed.

Lemma send_timeout_ok type (s : at_state (simple_t R)) : simple_ok (sm_local (at_lib s)) → 0 <= type < 2 →
  ∃ v, at_get_send_timeout type s = Ok (v, s).
Proof.
  intros (_ & _ & Hr & _ & Em) Ht. unfold at_get_send_timeout. fw_run. rewrite Em. set (m := as_rate_mode _) in *. clearbody m.
  unfold RATE_MODE_1, RATE_MODE_8 in Hr.
  assert (m = 1 ∨ m = 2 ∨ m = 3 ∨ m = 4 ∨ m = 5 ∨ m = 6 ∨ m = 7 ∨ m = 8) as Hm by lia. assert (type = 0 ∨ type = 1) as Ht' by lia.
  destruct_or! Hm; destruct_or! Ht'; subst; eexists; reflexivity.
Qed.

(** The call that sends a message. *)
Definition send_call (addr : Z) (buf : list Z) (len timeout : Z) : wiotaE Z :=
  if addr =? 0 then uc_wiota_send_broadcast_data buf len OTA_BROADCAST timeout None (uninit 0)
  else uc_wiota_send_data buf len addr timeout None (uninit 0).

Lemma send_step addr buf len (s : at_state (simple_t R)) : 0 <= addr → simple_ok (sm_local (at_lib s)) →
  ∃ timeout, (if addr >? 0 then t <-- at_get_send_timeout 0;; wiota (uc_wiota_send_data buf len addr (s32 t) None (uninit 0))
              else t <-- at_get_send_timeout 1;; wiota (uc_wiota_send_broadcast_data buf len OTA_BROADCAST (s32 t) None (uninit 0)))%fw s =
             wiota (send_call addr buf len timeout) s.
Proof.
  intros Ha Hs. unfold send_call. destruct (Z.gtb_spec addr 0).
  - destruct (send_timeout_ok 0 s Hs) as [v E]; [lia|]. exists (s32 v). erewrite bind_Ok by exact E. by rewrite (proj2 (Z.eqb_neq addr 0)) by lia.
  - destruct (send_timeout_ok 1 s Hs) as [v E]; [lia|]. exists (s32 v). erewrite bind_Ok by exact E. by rewrite (proj2 (Z.eqb_eq addr 0)) by lia.
Qed.

(** C17: AT+SEND with data that arrives in time hands one message to the stack, at most
    a byte longer than the data, answers with the stack's result and gives back its
    buffers; whether it was compressed or not, the side that receives the message
    prints the data as it was entered. *)
Theorem send_received args vs data u (s : at_state (simple_t R)) :
  let addr := uarg vs 0 0 in
  parse (tail args) "d,d" = Some vs → uarg vs 1 0 = zlen data → bytes_ok data →
  0 < zlen data <= (if addr =? 0 then 1023 else 309) →
  head (at_mem s) ≠ Some false → head (tail (at_mem s)) ≠ Some false → at_uart s = map Some data ++ u → simple_ok (sm_local (at_lib s)) →
  ∃ buf len timeout s', 1 <= len <= 1 + zlen data ∧ len <= zlen buf ∧
    let r := wiota_call (send_call addr buf len timeout) (sm_lib (at_lib s)) in
    run_cmd (Some (at_wiota_send_setup args)) s = Ok (0, s') ∧ sm_lib (at_lib s') = r.2 ∧ at_uart s' = u ∧ at_live s' = at_live s ∧
    at_out s' = at_out s ++ [Println ">" []; Println (if r.1 =? UC_OP_SUCC then "OK" else "ERROR") []] ∧
    ∀ rd (t : at_state (simple_t R)), rd_data rd = take (Z.to_nat len) buf → rd_data_len rd = len → head (at_mem t) ≠ Some false →
      ∃ t', at_wiota_recv_callback rd t = Ok (tt, t') ∧ at_live t' = at_live t ∧
        at_out t' = at_out t ++ [Printf "+RECV:%u,%d,%d," [AInt (rd_user_id rd); AInt (rd_rssi rd); AInt (zlen data)]; Data data; Println "" []].
Proof.
  intros addr Hp Hlen Hok Hz Hm1 Hm2 Hu Hs. cbn [run_cmd]. unfold at_wiota_send_setup, parsed.
  change (parse (tail args) "d,d") with (@parse R ENV (tail args) "d,d"). rewrite Hp, Hlen. cbv zeta. fold addr.
  assert (zlen data <= 1023) as Hz' by (destruct (addr =? 0); lia).
  match goal with |- context [if ?c then fret AT_RESULT_FAILE else _] => assert (c = false) as -> end.
  { unfold UC_WIOTA_MAX_SEND_NORMAL_DATA_LEN, UC_WIOTA_MAX_SEND_BROADCAST_DATA_LEN. apply orb_false_iff. rewrite Z.gtb_ltb. destruct (addr =? 0); cbn [negb]; lia. }
  rewrite fbind_assoc. erewrite bind_Ok by (apply malloc_ok; [lia|done]). cbn [negb]. repeat fw_run.
  assert (Z.to_nat (zlen data) = length data) as En by (unfold zlen; lia). unfold at_server_recv. rewrite En.
  rewrite fbind_assoc. erewrite bind_Ok by (apply recv_all; exact Hu). cbn [fst snd app]. rewrite Z.eqb_refl. cbn [negb].
  destruct (pack_spec data (with_uart u (with_out (at_out s ++ [Println ">" []]) (with_mem (tail (at_mem s)) (at_live s + 1) s))) Hok) as (h & d & n & E & Hn & Hd & Hc); [lia|done|].
  rewrite fbind_assoc. erewrite bind_Ok by exact E. cbv beta iota. change (negb (0 =? 0)) with false. cbv iota. unfold at_tx_start, at_tx_end. repeat fw_run.
  rewrite u16_id by (unfold is_u16; lia).
  match goal with |- context [fbind _ _ ?st = _] => set (s2 := st) end.
  destruct (send_step addr (h :: d) n s2) as [timeout Et]; [apply u32_range|done|]. exists (h :: d), n, timeout.
  rewrite fbind_assoc. unfold fbind at 1. rewrite Et. unfold wiota at 1.
  set (r := wiota_call (send_call addr (h :: d) n timeout) (sm_lib (at_lib s))).
  change (wiota_call (send_call addr (h :: d) n timeout) (at_lib s2)) with
    (r.1, {| sm_lib := r.2; sm_local := sm_local (at_lib s2); sm_pins := sm_pins (at_lib s2) |}).
  cbn [fst snd]. repeat fw_run. rewrite zlen_cons, Hd.
  assert (∀ rd (t : at_state (simple_t R)), rd_data rd = take (Z.to_nat n) (h :: d) → rd_data_len rd = n → head (at_mem t) ≠ Some false →
      ∃ t', at_wiota_recv_callback rd t = Ok (tt, t') ∧ at_live t' = at_live t ∧
        at_out t' = at_out t ++ [Printf "+RECV:%u,%d,%d," [AInt (rd_user_id rd); AInt (rd_rssi rd); AInt (zlen data)]; Data data; Println "" []]) as Hrecv.
  { intros rd t Hrd Hrl. apply (recv_spec rd h (take (Z.to_nat (n - 1)) d)); [|rewrite Hrl, zlen_take by lia; lia|done|by destruct data].
    rewrite Hrd. replace (Z.to_nat n) with (S (Z.to_nat (n - 1))) by lia. done. }
  destruct (r.1 =? UC_OP_SUCC); repeat fw_run; eexists; (split; [done|]); (split; [lia|]); (split; [reflexivity|]);
    (split; [done|]); (split; [done|]); (split; [cbn; lia|]); (split; [cbn; by rewrite <- !app_assoc|exact Hrecv]).
Qed.
End Messages.

(** ** Frequencies *)

Section Frequency.
Context {R : Type} `{LIB : WiotaLib R} `{ENV : AtEnv R}.

Lemma wiota_unit (e : wiotaE unit) (s : at_state (simple_t R)) : wiota e s = Ok (tt, with_lib (wiota_call e (at_lib s)).2 s).
Proof. unfold wiota. by destruct (wiota_call e (at_lib s)).1. Qed.

(** Starting the radio only changes the stack. *)
Lemma run_ok (s : at_state (simple_t R)) : simple_ok (sm_local (at_lib s)) →
  ∃ x, at_wiota_run s = Ok (tt, with_lib {| sm_lib := x; sm_local := sm_local (at_lib s); sm_pins := sm_pins (at_lib s) |} s).
Proof.
  intros (_ & _ & Hr & _ & Em). unfold at_wiota_run. repeat fw_run. cbn [sm_local at_lib with_lib wiota_call simple_lib snd]. rewrite Em.
  assert (∃ rm, ∀ t : at_state (simple_t R), entry RATE_MODE_MAP (as_rate_mode (sm_local (at_lib s)) - 1) t = Ok (rm, t)) as [rm Erm].
  { set (m := as_rate_mode _) in *. clearbody m. unfold RATE_MODE_1, RATE_MODE_8 in Hr.
    assert (m = 1 ∨ m = 2 ∨ m = 3 ∨ m = 4 ∨ m = 5 ∨ m = 6 ∨ m = 7 ∨ m = 8) as Hm by lia. destruct_or! Hm; subst m; eexists; intros t; reflexivity. }
  erewrite bind_Ok by apply Erm. repeat fw_run. rewrite wiota_unit. eexists. reflexivity.
Qed.

(** AT+FREQ with one frequency of a range sets the channel the frequency falls into,
    after a restart of the radio when the range is a new one, and prints the channel's
    frequency, which AT+FREQ? prints from then on: at most the one that was asked for
    and less than a channel below it. *)
Theorem freq_set text rest f i (s : at_state (simple_t R)) :
  Forall (λ c, c ≠ 0) text → strip text ≠ [] → read_fields (fields (strip text)) [] = (0, [f]) → range_of f = Some i →
  simple_ok (sm_local (at_lib s)) →
  let l := set_spectrum_idx i (set_base_freq (base_of i) (sm_local (at_lib s))) in
  let g := base_of i + grid_index i f * DEFAULE_BW_HZ in
  g <= f < g + DEFAULE_BW_HZ ∧
  ∃ x s', run_cmd (Some (at_wiota_freq_setup (AT_CMD_EQUAL_MARK :: text ++ 0 :: rest))) s = Ok (0, s') ∧
    (i = as_spectrum_idx (sm_local (at_lib s)) → x = sm_lib (at_lib s)) ∧
    let r := wiota_call (uc_wiota_set_freq_info (grid_index i f)) x in
    sm_lib (at_lib s') = r.2 ∧
    sm_local (at_lib s') = (if r.1 =? 0 then set_cur_freq g l else l) ∧
    at_out s' = at_out s ++ (if r.1 =? 0 then [Println "+FREQ:%u" [AInt g]; Println "OK" []] else [Println "ERROR" []]).
Proof.
  intros Hs Hne Er Hi Hok l g.
  pose proof (freq_found f) as F. destruct (at_get_base_freq_and_spectrum_idx f) as [b0 [[j a]|]]; destruct F as [Ej F]; rewrite Hi in Ej; [|done].
  injection Ej as <-. destruct F as (Hi8 & -> & Hb & Hf & _ & Hk).
  assert (g <= f < g + DEFAULE_BW_HZ) as Hg.
  { unfold g, grid_index. pose proof (Z.div_mod (f - base_of i) DEFAULE_BW_HZ). pose proof (Z.mod_pos_bound (f - base_of i) DEFAULE_BW_HZ). unfold DEFAULE_BW_HZ in *. lia. }
  split; [done|]. cbn [run_cmd]. unfold at_wiota_freq_setup. change (drop 1 (AT_CMD_EQUAL_MARK :: text ++ 0 :: rest)) with (text ++ 0 :: rest).
  change (replicate (Z.to_nat FREQ_LIST_NUM) 0) with (replicate 16 0).
  assert (∃ k, at_get_freq_list (text ++ 0 :: rest) (replicate 16 0) = Ok (k, out_of [grid_index i f], Some (1, i, base_of i))) as [k Ek].
  { destruct (freq_list_cases text rest 0 [f] Hs Hne Er) as (err & fl & r & E & [(_ & _ & Hn)|(j & _ & Hall & -> & -> & ->)]); [done| |].
    - exfalso. apply Hn. split; [done|]. exists i. by repeat constructor.
    - apply Forall_inv in Hall as [Ej _]. rewrite Hi in Ej. injection Ej as <-. eauto. }
  rewrite Ek. do 3 fw_run. set (s1 := with_lib _ s).
  assert (∃ x, (if negb (i =? as_spectrum_idx (sm_local (at_lib s1))) then set_local (set_spectrum_idx i);;; at_wiota_run else fret tt)%fw s1 =
      Ok (tt, with_lib {| sm_lib := x; sm_local := l; sm_pins := sm_pins (at_lib s) |} s) ∧
      (i = as_spectrum_idx (sm_local (at_lib s)) → x = sm_lib (at_lib s))) as (x & Ex & Hx).
  { change (as_spectrum_idx (sm_local (at_lib s1))) with (as_spectrum_idx (sm_local (at_lib s))). destruct (Z.eqb_spec i (as_spectrum_idx (sm_local (at_lib s)))) as [E|E]; cbn [negb].
    - exists (sm_lib (at_lib s)). split; [|done]. unfold fret. do 2 f_equal. unfold s1, l. rewrite E. by destruct (sm_local (at_lib s)).
    - fw_run. match goal with |- context [at_wiota_run ?st] => destruct (run_ok st) as [x Ex] end.
      { destruct Hok as (? & ? & ? & ? & ?). unfold simple_ok, FREQ_SPECTRUM_COUNT. cbn. split_and!; (done || lia). }
      exists x. split; [exact Ex|done]. }
  exists x. rewrite fbind_assoc. erewrite bind_Ok by exact Ex. change (1 =? 1) with true. cbv iota.
  assert (peek (out_of [grid_index i f]) 0 = Ok (grid_index i f)) as -> by done. do 2 fw_run. cbn [fst snd].
  set (r := wiota_call (uc_wiota_set_freq_info (grid_index i f)) x).
  change (wiota_call (uc_wiota_set_freq_info (grid_index i f)) (at_lib (with_lib {| sm_lib := x; sm_local := l; sm_pins := sm_pins (at_lib s) |} s)))
    with (r.1, {| sm_lib := r.2; sm_local := l; sm_pins := sm_pins (at_lib s) |}). cbn [fst snd]. cbv zeta.
  assert (INDEX_TO_FREQ (grid_index i f) (base_of i) DEFAULE_BW_HZ = g) as Eg.
  { unfold INDEX_TO_FREQ. rewrite Z.add_comm. fold g. apply u32_id. unfold is_u32. destruct Hk as [Hk _]. unfold g, DEFAULE_BW_HZ in *. lia. }
  destruct (r.1 =? 0); repeat fw_run; eexists; (split; [reflexivity|]); (split; [exact Hx|]); (split; [done|]).
  - cbn [at_lib with_lib with_out sm_local]. change (as_base_freq l) with (base_of i). rewrite Eg. split; [done|].
    cbn [at_out with_lib with_out]. by rewrite <- app_assoc.
  - done.
Qed.
End Frequency.

(** ** Instances and limits *)

Definition demo_local (rate : Z) : at_simplified_t :=
  {| as_addr := 7; as_subsystemid := DEFAULT_SUBSYSTEMID; as_base_freq := 470000000; as_cur_freq := DEFAULE_FREQ; as_spectrum_idx := 3;
     as_power := DEFAULE_POWER; as_rate_mode := rate; as_rate_mode_map := RATE_MODE_MAP |}.
Definition simple_start {R} (r : R) (rate : Z) (text : list Z) : at_state (simple_t R) :=
  {| at_lib := {| sm_lib := r; sm_local := demo_local rate; sm_pins := [] |}; at_out := []; at_uart := map Some text; at_mem := []; at_live := 0;
     at_echo := false; recv_buffer := replicate (Z.to_nat AT_SERVER_RECV_BUFF_LEN) 0; cur_recv_len := 0; at_str := replicate 100 0;
     at_device := []; at_meminfo := (0, 0) |}.
#[local] Existing Instances radio_lib radio_laws.
#[local] Existing Instance demo_env | 10.

(** A stack that keeps its configurations and finds two free channels in a scan. *)
Definition simple_call {T} (e : wiotaE T) (r : list sub_system_config_t) : T * list sub_system_config_t :=
  (match e in wiotaE T return T with
   | uc_wiota_scan_freq _ _ _ _ _ => (0, {| sc_data_len := 8; sc_result := UC_OP_SUCC; sc_data := [1; 0; 200; 0; 2; 0; 190; 0] |})
   | e => zero_answer e
   end,
   match e with uc_wiota_set_system_config c => c :: r | _ => r end).
Definition simple_demo : WiotaLib (list sub_system_config_t) := {|
  wiota_call := λ T e r, simple_call e r;
  uc_wiota_crc8_calc := toy_crc 256; uc_wiota_crc16_calc := toy_crc 65536; uc_wiota_crc32_calc := toy_crc 4294967296 |}.
#[local] Existing Instance simple_demo.

(** The number of wake-up ids is looked up for the rate behind the one in use: there is
    none behind the slowest, and the second gets the one of longer symbols. *)
Lemma awaken_id_shifted :
  at_get_max_awaken_id (simple_start ([] : list sub_system_config_t) 8 []) = Fault OutOfBounds ∧
  at_get_max_awaken_id (simple_start ([] : list sub_system_config_t) 2 []) = Ok (4095, simple_start [] 2 []).
Proof. split; vm_compute; reflexivity. Qed.

(** The search for the quietest channel compares the first one with entry 255. *)
Lemma quietest_overreads :
  at_wiota_freq_setup (chars "=470200000,470400000" ++ [0]) (simple_start ([] : list sub_system_config_t) 4 []) = Fault OutOfBounds.
Proof. vm_compute. reflexivity. Qed.

(** A rate with the same symbols is passed on but not remembered. *)
Lemma rate_not_kept :
  match at_wiota_rate_setup (chars "=3" ++ [0]) (simple_start ([] : list sub_system_config_t) 4 []) with
  | Ok (r, s) => r = AT_RESULT_OK ∧ as_rate_mode (sm_local (at_lib s)) = 4
  | Fault _ => False
  end.
Proof. vm_compute. split; reflexivity. Qed.

(** The restart for a new range uses the old frequency: here channel 115 of a range with 60. *)
Lemma restart_on_old_frequency :
  match at_wiota_freq_setup (chars "=223200000" ++ [0]) (simple_start ([] : list sub_system_config_t) 4 []) with
  | Ok (_, s) => map freq_idx (sm_lib (at_lib s)) = [115] ∧ map spectrum_idx (sm_lib (at_lib s)) = [0]
  | Fault _ => False
  end.
Proof. vm_compute. split; reflexivity. Qed.

Lemma demo_local_ok rate : 1 <= rate <= 8 → simple_ok (demo_local rate).
Proof. intros Hr. unfold simple_ok. cbn. unfold DEFAULT_SUBSYSTEMID, MAX_SUBSYSTEMID, DEFAULE_POWER, POWER_MIN, POWER_MAX, RATE_MODE_1, RATE_MODE_8, FREQ_SPECTRUM_COUNT. split_and!; (lia || done). Qed.


Lemma freq_set_witness :
  ∃ x s', run_cmd (Some (at_wiota_freq_setup (chars "= 502123456" ++ AT_CMD_END_MARK ++ [0]))) (simple_start ([] : list sub_system_config_t) 4 []) = Ok (0, s') ∧
    at_out s' = [Println "+FREQ:%u" [AInt 502000000]; Println "OK" []] ∧ x = ([] : list sub_system_config_t).
Proof.
  pose proof (freq_set (chars " 502123456" ++ AT_CMD_END_MARK) [] 502123456 3 (simple_start ([] : list sub_system_config_t) 4 [])) as H.
  cbv zeta in H. destruct H as [_ (x & s' & E & Hx & _ & _ & Ho)].
  - apply (bool_decide_unpack _). vm_compute. exact I.
  - vm_compute. discriminate.
  - vm_compute. reflexivity.
  - vm_compute. reflexivity.
  - apply demo_local_ok. lia.
  - exists x, s'. rewrite <- app_assoc in E. split; [exact E|]. split; [exact Ho|]. by apply Hx.
Defined.

Lemma send_received_witness :
  ∃ buf len s', 1 <= len <= 12 ∧
    run_cmd (Some (at_wiota_send_setup (chars "=7,11" ++ AT_CMD_END_MARK ++ [0]))) (simple_start ([] : list sub_system_config_t) 4 (chars "hello hello")) = Ok (0, s') ∧
    at_out s' = [Println ">" []; Println "OK" []] ∧
    ∀ rd (t : at_state (simple_t (list sub_system_config_t))), rd_data rd = take (Z.to_nat len) buf → rd_data_len rd = len → head (at_mem t) ≠ Some false →
      ∃ t', at_wiota_recv_callback rd t = Ok (tt, t') ∧ at_live t' = at_live t ∧
        at_out t' = at_out t ++ [Printf "+RECV:%u,%d,%d," [AInt (rd_user_id rd); AInt (rd_rssi rd); AInt 11]; Data (chars "hello hello"); Println "" []].
Proof.
  destruct (send_received (chars "=7,11" ++ AT_CMD_END_MARK ++ [0]) [Some 7; Some 11] (chars "hello hello") []
    (simple_start ([] : list sub_system_config_t) 4 (chars "hello hello"))) as (buf & len & timeout & s' & Hl & _ & E & _ & _ & _ & Ho & Hr).
  1, 2, 7: reflexivity.
  1: apply (bool_decide_unpack _); vm_compute; exact I.
  1: vm_compute; split; [reflexivity|discriminate].
  1, 2: discriminate.
  1: apply demo_local_ok; lia.
  exists buf, len, s'. split; [exact Hl|]. split; [exact E|]. split; [|exact Hr]. exact Ho.
Defined.
