(* ===== verification/SepLog.v ===== *)
(** * A separation logic for code with a heap

    Assertions on parts of a heap ([hProp]), as an instance of the interface of
    Iris's proof mode: [p ↦ b] owns the block [b] at address [p], [P ∗ Q] splits
    the heap.  The logic is linear: what a run owns it returns or has freed, so a
    specification also says that nothing leaks.  [wp mf m Φ] says that [m], a
    program of the monad [FW] over a heap, ends without a fault on every heap that
    has the owned part, leaves the rest alone, and its result and what it owns then
    satisfy [Φ]; [mf] says whether allocations may fail. *)

From S2P Require Import Prelude.
From iris.proofmode Require Export proofmode.
#[export] Unset SsrRewrite.
#[global] Open Scope Z_scope.
#[local] Set Warnings "-register-all,-redundant-canonical-projection".

(** ** Memory *)

Record mem (B : Type) := { blocks : gmap Z B; mbrk : Z; moks : list bool }.
Arguments blocks {B} _.
Arguments mbrk {B} _.
Arguments moks {B} _.
Definition NULL : Z := 0.

Section Mem.
Context {B : Type}.
Local Abbreviation M := (FW (mem B)).

Definition set_blocks (b : gmap Z B) (s : mem B) : mem B := {| blocks := b; mbrk := mbrk s; moks := moks s |}.

(** malloc: addresses rise and are not used again; the outcome comes from the list. *)
Definition alloc (b : B) : M Z :=
  λ s, match moks s with
       | false :: m => Ok (NULL, {| blocks := blocks s; mbrk := mbrk s; moks := m |})
       | m => Ok (mbrk s, {| blocks := <[mbrk s := b]> (blocks s); mbrk := mbrk s + 1; moks := tail m |})
       end.
Definition load (p : Z) : M B :=
  λ s, match blocks s !! p with Some b => Ok (b, s) | None => Fault NullDeref end.
Definition put (p : Z) (b : B) : M unit :=
  λ s, match blocks s !! p with Some _ => Ok (tt, set_blocks (<[p := b]> (blocks s)) s) | None => Fault NullDeref end.
Definition dealloc (p : Z) : M unit :=
  λ s, match blocks s !! p with Some _ => Ok (tt, set_blocks (delete p (blocks s)) s) | None => Fault NullDeref end.

Definition mem_wf (s : mem B) : Prop := 0 < mbrk s ∧ ∀ p, is_Some (blocks s !! p) → 0 < p < mbrk s.

End Mem.

(** ** Assertions *)

Section HProp.
Context {B : Type}.

Record hProp := HProp { holds : gmap Z B → Prop }.

Record hprop_equiv (P Q : hProp) : Prop := { equiv_holds : ∀ h, holds P h ↔ holds Q h }.
Record entails (P Q : hProp) : Prop := { entails_holds : ∀ h, holds P h → holds Q h }.
#[local] Instance hprop_equiv_inst : Equiv hProp := hprop_equiv.
#[local] Instance hprop_equivalence : Equivalence (≡@{hProp}).
Proof.
  split.
  - by intros P.
  - intros P Q [H]. constructor. intros h. symmetry. apply H.
  - intros P Q R [H1] [H2]. constructor. intros h. rewrite H1. apply H2.
Qed.
Canonical Structure hPropO : ofe := discreteO hProp.

Definition h_emp : hProp := HProp (λ h, h = ∅).
Definition h_pure (φ : Prop) : hProp := HProp (λ _, φ).
Definition h_and (P Q : hProp) : hProp := HProp (λ h, holds P h ∧ holds Q h).
Definition h_or (P Q : hProp) : hProp := HProp (λ h, holds P h ∨ holds Q h).
Definition h_impl (P Q : hProp) : hProp := HProp (λ h, holds P h → holds Q h).
Definition h_forall (A : Type) (Φ : A → hProp) : hProp := HProp (λ h, ∀ a, holds (Φ a) h).
Definition h_exist (A : Type) (Φ : A → hProp) : hProp := HProp (λ h, ∃ a, holds (Φ a) h).
Definition h_sep (P Q : hProp) : hProp := HProp (λ h, ∃ h1 h2, h = h1 ∪ h2 ∧ h1 ##ₘ h2 ∧ holds P h1 ∧ holds Q h2).
Definition h_wand (P Q : hProp) : hProp := HProp (λ h, ∀ h', h ##ₘ h' → holds P h' → holds Q (h ∪ h')).
Definition h_persistently (P : hProp) : hProp := h_pure (entails h_emp P).
Definition h_later (P : hProp) : hProp := P.

Lemma sep_split P Q h1 h2 : h1 ##ₘ h2 → holds P h1 → holds Q h2 → holds (h_sep P Q) (h1 ∪ h2).
Proof. intros. exists h1, h2. done. Qed.

Lemma h_mixin : BiMixin entails h_emp h_pure h_and h_or h_impl h_forall h_exist h_sep h_wand.
Proof.
  split.
  - split; [by constructor|]. intros P Q R [H1] [H2]. constructor. auto.
  - intros P Q. split.
    + intros [H]. split; constructor; apply H.
    + intros [[H1] [H2]]. constructor. split; auto.
  - intros n φ ψ H. constructor. intros h. apply H.
  - intros n P P' [HP] Q Q' [HQ]. constructor. intros h. cbn. rewrite HP, HQ. done.
  - intros n P P' [HP] Q Q' [HQ]. constructor. intros h. cbn. rewrite HP, HQ. done.
  - intros n P P' [HP] Q Q' [HQ]. constructor. intros h. cbn. rewrite HP, HQ. done.
  - intros A n Φ Ψ H. constructor. intros h. cbn. split; intros Hh a; by apply H.
  - intros A n Φ Ψ H. constructor. intros h. cbn. split; intros [a Hh]; exists a; by apply H.
  - intros n P P' [HP] Q Q' [HQ]. constructor. intros h. cbn. by setoid_rewrite HP; setoid_rewrite HQ.
  - intros n P P' [HP] Q Q' [HQ]. constructor. intros h. cbn. by setoid_rewrite HP; setoid_rewrite HQ.
  - intros φ P H. by constructor.
  - intros φ P H. constructor. intros h Hφ. by apply (H Hφ).
  - intros P Q. constructor. by intros h [? _].
  - intros P Q. constructor. by intros h [_ ?].
  - intros P Q R [H1] [H2]. constructor. intros h HP. split; auto.
  - intros P Q. constructor. by left.
  - intros P Q. constructor. by right.
  - intros P Q R [H1] [H2]. constructor. intros h [?|?]; auto.
  - intros P Q R [H]. constructor. intros h HP HQ. apply H. done.
  - intros P Q R [H]. constructor. intros h [HP HQ]. by apply H.
  - intros A P Ψ H. constructor. intros h HP a. by apply H.
  - intros A Ψ a. constructor. intros h H. apply H.
  - intros A Ψ a. constructor. intros h H. by exists a.
  - intros A Φ Q H. constructor. intros h [a Ha]. by apply (H a).
  - intros P P' Q Q' [H1] [H2]. constructor. intros h (h1 & h2 & -> & Hd & HP & HQ). apply sep_split; auto.
  - intros P. constructor. intros h HP. exists ∅, h. rewrite (left_id_L ∅ (∪)). split_and!; [done|apply map_disjoint_empty_l|done..].
  - intros P. constructor. intros h (h1 & h2 & -> & Hd & HE & HP). rewrite HE, (left_id_L ∅ (∪)). done.
  - intros P Q. constructor. intros h (h1 & h2 & -> & Hd & HP & HQ). rewrite map_union_comm by done. by apply sep_split.
  - intros P Q R. constructor. intros h (h1 & h2 & -> & Hd & (h3 & h4 & -> & Hd' & HP & HQ) & HR).
    apply map_disjoint_union_l in Hd as [? ?]. rewrite <- (assoc_L (∪)). apply sep_split; [by apply map_disjoint_union_r_2|done|].
    by apply sep_split.
  - intros P Q R [H]. constructor. intros h HP h' Hd HQ. apply H. by apply sep_split.
  - intros P Q R [H]. constructor. intros h (h1 & h2 & -> & Hd & HP & HQ). by apply H.
Qed.

Lemma h_persistently_mixin : BiPersistentlyMixin entails h_emp h_and h_exist h_sep h_persistently.
Proof.
  eapply bi_persistently_mixin_discrete, h_mixin; [done| |done].
  intros A Φ [H]. destruct (H ∅) as [a Ha]; [done|]. exists a. constructor. intros h ->. done.
Qed.
Lemma h_later_mixin :
  BiLaterMixin entails h_pure h_or h_impl h_forall h_exist h_sep h_persistently h_later.
Proof. eapply bi_later_mixin_id, h_mixin. done. Qed.

Canonical Structure hPropI : bi :=
  {| bi_ofe_mixin := ofe_mixin_of hProp; bi_bi_mixin := h_mixin; bi_bi_persistently_mixin := h_persistently_mixin;
     bi_bi_later_mixin := h_later_mixin |}.

#[export] Instance hprop_pure_forall : BiPureForall hPropI.
Proof. intros A φ. constructor. intros h H a. apply H. Qed.
End HProp.
Arguments hProp B : clear implicits.
Arguments hPropO B : clear implicits.
Arguments hPropI B : clear implicits.

(** A fact that owns nothing. *)
Notation "⟨ φ ⟩" := (bi_affinely (bi_pure φ%type)) (at level 0, φ at level 200) : bi_scope.

Section Wp.
Context {B : Type}.
Local Abbreviation M := (FW (mem B)).
Local Abbreviation hP := (hPropI B).

Definition points_to (p : Z) (b : B) : hP := HProp (λ h, h = {[p := b]} ∧ p ≠ NULL).

(** No allocation fails in the runs that [mf = false] describes. *)
Definition oks_ok (mf : bool) (s : mem B) : Prop := mf = false → Forall (eq true) (moks s).

Definition wp {A} (mf : bool) (m : M A) (Φ : A → hP) : hP :=
  HProp (λ h, ∀ s hf, blocks s = h ∪ hf → h ##ₘ hf → mem_wf s → oks_ok mf s →
    ∃ a s' h', m s = Ok (a, s') ∧ blocks s' = h' ∪ hf ∧ h' ##ₘ hf ∧ mem_wf s' ∧ oks_ok mf s' ∧ holds (Φ a) h').
End Wp.

Notation "p ↦ b" := (points_to p b) (at level 20) : bi_scope.

Section Rules.
Context {B : Type}.
Local Abbreviation M := (FW (mem B)).
Local Abbreviation hP := (hPropI B).
Implicit Types P Q : hP.

Lemma entails_of P Q : (∀ h, holds P h → holds Q h) → P ⊢ Q.
Proof. intros H. constructor. exact H. Qed.

(** Results of the same program on two parts of the heap. *)
Lemma wp_ret {A} mf (a : A) (Φ : A → hP) : Φ a ⊢ wp mf (fret a) Φ.
Proof. apply entails_of. intros h H s hf Hs Hd Hw Ho. exists a, s, h. done. Qed.

Lemma wp_bind {A C} mf (m : M A) (k : A → M C) (Φ : C → hP) :
  wp mf m (λ a, wp mf (k a) Φ) ⊢ wp mf (fbind m k) Φ.
Proof.
  apply entails_of. intros h H s hf Hs Hd Hw Ho. destruct (H s hf) as (a & s1 & h1 & E & Hs1 & Hd1 & Hw1 & Ho1 & H1); [done..|].
  destruct (H1 s1 hf) as (c & s2 & h2 & E2 & Hs2); [done..|]. exists c, s2, h2. rewrite (bind_Ok _ _ _ _ _ E). done.
Qed.

Lemma wand2_of P Q R :
  (∀ h1 h2, h1 ##ₘ h2 → holds P h1 → holds Q h2 → holds R (h1 ∪ h2)) → ⊢ P -∗ Q -∗ R.
Proof.
  intros H. apply bi.entails_wand, bi.wand_intro_r. apply entails_of. intros h (h1 & h2 & -> & Hd & HP & HQ). by apply H.
Qed.

Lemma wp_wand {A} mf (m : M A) (Φ Ψ : A → hP) : ⊢ wp mf m Φ -∗ (∀ a, Φ a -∗ Ψ a) -∗ wp mf m Ψ.
Proof.
  apply wand2_of. intros h1 h2 Hd Hwp Hk s hf Hs Hd' Hw Ho.
  apply map_disjoint_union_l in Hd' as [Hd1 Hd2]. rewrite <- (assoc_L (∪)) in Hs.
  destruct (Hwp s (h2 ∪ hf)) as (a & s1 & h3 & E & Hs1 & Hd3 & Hw1 & Ho1 & H1); [done|by apply map_disjoint_union_r_2|done..|].
  apply map_disjoint_union_r in Hd3 as [Hd3 Hd4]. exists a, s1, (h2 ∪ h3). split; [done|]. split.
  - rewrite Hs1, (assoc_L (∪)), (map_union_comm h3 h2) by done. done.
  - split; [by apply map_disjoint_union_l_2|]. split; [done|]. split; [done|]. by apply Hk.
Qed.

Lemma wp_mono {A} mf (m : M A) (Φ Ψ : A → hP) : (∀ a, Φ a ⊢ Ψ a) → wp mf m Φ ⊢ wp mf m Ψ.
Proof. intros H. iIntros "W". iApply (wp_wand with "W"). iIntros (a) "Ha". by iApply H. Qed.

Lemma wp_frame {A} mf (m : M A) (Φ : A → hP) R : R ∗ wp mf m Φ ⊢ wp mf m (λ a, R ∗ Φ a).
Proof. iIntros "[R W]". iApply (wp_wand with "W"). iIntros (a) "$". done. Qed.

Lemma points_to_lookup (p : Z) (b : B) (h2 hf : gmap Z B) : ({[p := b]} ∪ h2 ∪ hf) !! p = Some b.
Proof. rewrite <- (assoc_L (∪)). apply lookup_union_Some_l. apply lookup_singleton_eq. Qed.

Lemma wp_load mf p (b : B) (Φ : B → hP) : ⊢ p ↦ b -∗ (p ↦ b -∗ Φ b) -∗ wp mf (load p) Φ.
Proof.
  apply wand2_of. intros h1 h2 Hd [-> Hp] Hk s hf Hs Hd' Hw Ho.
  exists b, s, ({[p := b]} ∪ h2). split; [|split_and!; [done..|]].
  - unfold load. rewrite Hs, points_to_lookup. done.
  - rewrite map_union_comm by done. by apply Hk.
Qed.

Lemma wp_put mf p (b c : B) (Φ : unit → hP) : ⊢ p ↦ b -∗ (p ↦ c -∗ Φ tt) -∗ wp mf (put p c) Φ.
Proof.
  apply wand2_of. intros h1 h2 Hd [-> Hp] Hk s hf Hs Hd' Hw Ho.
  apply map_disjoint_union_l in Hd' as [Hd1 Hd2].
  rewrite map_disjoint_singleton_l in Hd, Hd1.
  exists tt, (set_blocks (<[p := c]> (blocks s)) s), ({[p := c]} ∪ h2). split; [|split_and!].
  - unfold put. rewrite Hs, points_to_lookup. done.
  - cbn. rewrite Hs, <- !(assoc_L (∪)), insert_union_l, insert_singleton_eq. done.
  - apply map_disjoint_union_l_2; [by apply map_disjoint_singleton_l_2|done].
  - destruct Hw as [Hb Hw]. split; [done|]. intros q. cbn. destruct (decide (q = p)) as [->|Hne].
    + intros _. apply Hw. rewrite Hs, points_to_lookup. eauto.
    + rewrite lookup_insert_ne by done. apply Hw.
  - done.
  - rewrite map_union_comm by (by apply map_disjoint_singleton_l_2). apply Hk; [by apply map_disjoint_singleton_r_2|done].
Qed.

Lemma wp_dealloc mf p (b : B) (Φ : unit → hP) : ⊢ p ↦ b -∗ Φ tt -∗ wp mf (dealloc p) Φ.
Proof.
  apply wand2_of. intros h1 h2 Hd [-> Hp] Hk s hf Hs Hd' Hw Ho.
  apply map_disjoint_union_l in Hd' as [Hd1 Hd2].
  rewrite map_disjoint_singleton_l in Hd, Hd1.
  exists tt, (set_blocks (delete p (blocks s)) s), h2. split; [|split_and!].
  - unfold dealloc. rewrite Hs, points_to_lookup. done.
  - cbn. rewrite Hs, <- (assoc_L (∪)), delete_union, delete_singleton_eq, (left_id_L ∅ (∪)).
    apply delete_id. by apply lookup_union_None.
  - done.
  - destruct Hw as [Hb Hw]. split; [done|]. intros q. cbn. destruct (decide (q = p)) as [->|Hne].
    + rewrite lookup_delete_eq. by intros [? ?].
    + rewrite lookup_delete_ne by done. apply Hw.
  - done.
  - done.
Qed.

Lemma wp_alloc mf (b : B) (Φ : Z → hP) :
  (⌜mf = true⌝ → Φ NULL) ∧ (∀ p, p ↦ b -∗ Φ p) ⊢ wp mf (alloc b) Φ.
Proof.
  apply entails_of. intros h [Hf Hk] s hf Hs Hd Hw Ho. unfold alloc.
  assert (blocks s !! mbrk s = None) as Hn.
  { destruct (blocks s !! mbrk s) eqn:E; [|done]. destruct Hw as [_ Hw]. destruct (Hw (mbrk s)); [eauto|lia]. }
  pose proof Hn as Hn'. rewrite Hs in Hn'. apply lookup_union_None in Hn' as [Hn1 Hn2].
  destruct (moks s) as [|[] m] eqn:Em; [| |exists NULL, {| blocks := blocks s; mbrk := mbrk s; moks := m |}, h].
  3: { split; [done|]. split; [done|]. split; [done|]. split; [apply Hw|]. assert (mf = true) as ->.
       { destruct mf; [done|]. specialize (Ho eq_refl). rewrite Em in Ho. by apply Forall_cons_1 in Ho as [? _]. }
       split; [done|]. by apply Hf. }
  all: eexists _, _, (h ∪ {[mbrk s := b]}); split; [done|]; split_and!.
  1,6: cbn; rewrite Hs, insert_union_l, insert_union_singleton_r; done.
  1,5: apply map_disjoint_union_l_2; [done|by apply map_disjoint_singleton_l_2].
  1,4: destruct Hw as [Hb Hw]; split; cbn; [lia|]; intros q; destruct (decide (q = mbrk s)) as [->|Hne]; [lia|];
    rewrite lookup_insert_ne by done; intros Hq; apply Hw in Hq; lia.
  1,3: intros E; specialize (Ho E); rewrite Em in Ho; cbn; by inversion Ho.
  all: apply (Hk (mbrk s)); [by apply map_disjoint_singleton_r_2|]; split; [done|]; unfold NULL; destruct Hw; lia.
Qed.

Lemma points_to_not_null p (b : B) : p ↦ b ⊢ ⌜p ≠ NULL⌝.
Proof. apply entails_of. by intros h [_ ?]. Qed.
Lemma points_to_ne p q (b c : B) : p ↦ b ∗ q ↦ c ⊢ ⌜p ≠ q⌝.
Proof.
  apply entails_of. intros h (h1 & h2 & _ & Hd & [-> _] & [-> _]). rewrite map_disjoint_singleton_l in Hd.
  intros ->. by rewrite lookup_singleton_eq in Hd.
Qed.

(** From the logic to a run on a heap of which [P] describes all. *)
Lemma wp_run {A} mf (m : M A) (Φ : A → hP) P s :
  (P ⊢ wp mf m Φ) → holds P (blocks s) → mem_wf s → oks_ok mf s →
  ∃ a s', m s = Ok (a, s') ∧ mem_wf s' ∧ oks_ok mf s' ∧ holds (Φ a) (blocks s').
Proof.
  intros [H] HP Hw Ho. destruct (H _ HP s ∅) as (a & s' & h' & E & Hb & _ & Hw' & Ho' & HΦ); [| |done..|].
  - by rewrite (right_id_L ∅ (∪)).
  - apply map_disjoint_empty_r.
  - rewrite (right_id_L ∅ (∪)) in Hb. subst h'. eauto 10.
Qed.

(** ** The number of blocks, which the fuel of walks comes from *)

Definition heap_size : M nat := λ s, Ok (size (blocks s), s).
Definition at_least (n : nat) : hP := HProp (λ h, (n ≤ size h)%nat).

Lemma at_least_sep n k : at_least n ∗ at_least k ⊢ at_least (n + k).
Proof.
  apply entails_of. intros h (h1 & h2 & -> & Hd & H1 & H2). cbn in *. rewrite map_size_disj_union by done. lia.
Qed.
Lemma at_least_mono n k : (k ≤ n)%nat → at_least n ⊢ at_least k.
Proof. intros. apply entails_of. intros h Hh. cbn in *. lia. Qed.
Lemma at_least_0 P : P ⊢ at_least 0.
Proof. apply entails_of. intros h _. cbn. lia. Qed.
Lemma at_least_points_to p (b : B) : p ↦ b ⊢ at_least 1.
Proof. apply entails_of. intros h [-> _]. cbn. rewrite map_size_singleton. done. Qed.

Lemma wp_heap_size mf n P (Φ : nat → hP) :
  (P ⊢ at_least n) → ⊢ P -∗ (∀ k, ⌜(n ≤ k)%nat⌝ → P -∗ Φ k) -∗ wp mf heap_size Φ.
Proof.
  intros [HP]. apply wand2_of. intros h1 h2 Hd H1 Hk s hf Hs Hd' Hw Ho.
  exists (size (blocks s)), s, (h1 ∪ h2). split; [done|]. split; [done|]. split; [done|]. split; [done|]. split; [done|].
  rewrite map_union_comm by done. assert (n ≤ size h1)%nat as Hn by (by apply HP).
  apply (Hk (size (blocks s))); [|done..]. change (n <= size (blocks s))%nat.
  rewrite Hs, !map_size_disj_union by done. lia.
Qed.
End Rules.

(** One step of a program that starts with a load, a store or a release of an
    owned block. *)
Tactic Notation "wp_bind" := iApply wp_bind.
Tactic Notation "wp_load" constr(H) := try iApply wp_bind; iApply (wp_load with H); iIntros H; cbv beta iota.
Tactic Notation "wp_put" constr(H) := try iApply wp_bind; iApply (wp_put with H); iIntros H; cbv beta iota.
Tactic Notation "wp_free" constr(H) := try iApply wp_bind; iApply (wp_dealloc with H); cbv beta iota.
Tactic Notation "wp_ret" := try iApply wp_bind; iApply wp_ret; cbv beta iota.
