(* ===== verification/Threads.v ===== *)
(** * Threads and queues

    app/platfrom/manager_task.c and manager_queue.c: the blocks a thread and a queue
    are made of, on any memory that has such blocks ([KernelBlocks]).  The rules say
    what a call leaves behind, also when there is no memory for all of it. *)

From S2P Require Import Prelude SepLog.
#[local] Set Warnings "-register-all".
Local Open Scope fw_scope.

(** The control block of a thread holds the address of its stack, that of a queue the
    address of its messages. *)
Class KernelBlocks (B : Type) := {
  thread_block : Z → B;
  stack_block : Z → B;
  queue_block : Z → B;
  pool_block : Z → B;
  stack_addr : B → option Z;
  msg_pool : B → option Z;
  stack_addr_thread : ∀ a, stack_addr (thread_block a) = Some a;
  msg_pool_queue : ∀ a, msg_pool (queue_block a) = Some a
}.

Section Kernel.
Context `{KernelBlocks B}.
Local Abbreviation M := (FW (mem B)).

(** rt_free takes a null pointer. *)
Definition free_block (p : Z) : M unit := if p =? NULL then fret tt else dealloc p.

(** The result and the thread; rt_thread_init has no way to fail. *)
Definition manager_thread_create_task (stack_size : Z) : M (Z * Z) :=
  thread <-- alloc (thread_block NULL);;
  start_stack <-- alloc (stack_block (stack_size * 4));;
  if (start_stack =? NULL) || (thread =? NULL) then fret (1, thread)
  else put thread (thread_block start_stack);;; fret (0, thread).

(** What follows the detaching. *)
Definition free_thread (thread : Z) : M unit :=
  b <-- load thread;;
  match stack_addr b with
  | Some a => free_block a;;; free_block thread
  | None => ffail OutOfBounds
  end.
Definition manager_thread_del (thread : Z) : M Z := free_thread thread;;; fret 0.

(** The queue; rt_mq_init has no way to fail. *)
Definition manager_create_queue (max_msgs : Z) : M Z :=
  mq <-- alloc (queue_block NULL);;
  msgpool <-- alloc (pool_block (4 * max_msgs));;
  if (mq =? NULL) || (msgpool =? NULL) then fret NULL
  else put mq (queue_block msgpool);;; fret mq.

Definition manager_dele_queue (queue : Z) : M Z :=
  b <-- load queue;;
  match msg_pool b with
  | Some a => free_block a;;; free_block queue;;; fret 0
  | None => ffail OutOfBounds
  end.

Local Abbreviation hP := (hPropI B).

(** [n] blocks nobody knows any more. *)
Fixpoint lost (n : nat) : hP := match n with O => emp | S n => (∃ p b, p ↦ b) ∗ lost n end%I.
Lemma lost_app n k : ⊢ lost n -∗ lost k -∗ lost (n + k).
Proof.
  induction n as [|n IH]; cbn [Nat.add lost]; iIntros "N K"; [done|]. iDestruct "N" as "[$ N]". by iApply (IH with "N K").
Qed.
Lemma lost_one p b : p ↦ b ⊢ lost 1.
Proof. iIntros "H". cbn [lost]. iSplitL; [by iExists p, b|done]. Qed.

(** A thread with its stack, a queue with its messages. *)
Definition thread_at (size t : Z) : hP := ∃ a, t ↦ thread_block a ∗ a ↦ stack_block size.
Definition queue_at (size q : Z) : hP := ∃ a, q ↦ queue_block a ∗ a ↦ pool_block size.

(** Two blocks that belong together: both, or at most one that is lost. *)
Lemma wp_pair {A} mf (b c : B) (k : Z → Z → M A) (Φ : A → hP) :
  ⊢ (∀ p q, ⟨ p ≠ NULL ∧ q ≠ NULL ⟩ -∗ p ↦ b -∗ q ↦ c -∗ wp mf (k p q) Φ) ∧
    (∀ p q n, ⟨ mf = true ∧ (p = NULL ∨ q = NULL) ∧ (n ≤ 1)%nat ⟩ -∗ lost n -∗ wp mf (k p q) Φ) -∗
    wp mf (p <-- alloc b;; q <-- alloc c;; k p q) Φ.
Proof.
  iIntros "K". iApply wp_bind. iApply wp_alloc. iSplit.
  - iIntros (Hm). iApply wp_bind. iApply wp_alloc. iSplit.
    + iIntros (_). iDestruct "K" as "[_ K]". iApply ("K" $! NULL NULL 0%nat with "[]"); [|done]. iPureIntro. split_and!; [done|by left|lia].
    + iIntros (q) "Q". iDestruct "K" as "[_ K]". iApply ("K" $! NULL q 1%nat with "[]"); [|by iApply lost_one]. iPureIntro. split_and!; [done|by left|lia].
  - iIntros (p) "P". iApply wp_bind. iApply wp_alloc. iSplit.
    + iIntros (Hm). iDestruct "K" as "[_ K]". iApply ("K" $! p NULL 1%nat with "[]"); [|by iApply lost_one]. iPureIntro. split_and!; [done|by right|lia].
    + iIntros (q) "Q". iDestruct (points_to_not_null with "P") as %Hp. iDestruct (points_to_not_null with "Q") as %Hq.
      iDestruct "K" as "[K _]". iApply ("K" with "[] P Q"). by iPureIntro.
Qed.

Lemma wp_create_task mf stack_size (Φ : Z * Z → hP) :
  ⊢ (∀ t, thread_at (stack_size * 4) t -∗ Φ (0, t)) ∧ (∀ t n, ⟨ mf = true ∧ (n ≤ 1)%nat ⟩ -∗ lost n -∗ Φ (1, t)) -∗
    wp mf (manager_thread_create_task stack_size) Φ.
Proof.
  iIntros "K". unfold manager_thread_create_task. iApply wp_pair. iSplit.
  - iIntros (p q) "(%Hp & %Hq) P Q". rewrite (proj2 (Z.eqb_neq _ _) Hp), (proj2 (Z.eqb_neq _ _) Hq). cbn [orb].
    wp_put "P". wp_ret. iDestruct "K" as "[K _]". iApply "K". iExists q. iFrame.
  - iIntros (p q n) "%Hf L". destruct Hf as (Hm & Hz & Hn). iDestruct "K" as "[_ K]".
    assert ((q =? NULL) || (p =? NULL) = true) as -> by (destruct Hz as [-> | ->]; [by rewrite orb_true_r|done]).
    wp_ret. iApply ("K" with "[] L"). by iPureIntro.
Qed.

Lemma wp_free_thread mf size t (Φ : unit → hP) : ⊢ thread_at size t -∗ Φ tt -∗ wp mf (free_thread t) Φ.
Proof.
  iIntros "(%a & T & A) K". iDestruct (points_to_not_null with "T") as %Ht. iDestruct (points_to_not_null with "A") as %Ha.
  unfold free_thread, free_block. wp_load "T". rewrite stack_addr_thread, (proj2 (Z.eqb_neq _ _) Ha), (proj2 (Z.eqb_neq _ _) Ht).
  wp_free "A". iApply (wp_dealloc with "T K").
Qed.

Lemma wp_create_queue mf max_msgs (Φ : Z → hP) :
  ⊢ (∀ q, queue_at (4 * max_msgs) q -∗ Φ q) ∧ (∀ n, ⟨ mf = true ∧ (n ≤ 1)%nat ⟩ -∗ lost n -∗ Φ NULL) -∗
    wp mf (manager_create_queue max_msgs) Φ.
Proof.
  iIntros "K". unfold manager_create_queue. iApply wp_pair. iSplit.
  - iIntros (p q) "(%Hp & %Hq) P Q". rewrite (proj2 (Z.eqb_neq _ _) Hp), (proj2 (Z.eqb_neq _ _) Hq). cbn [orb].
    wp_put "P". wp_ret. iDestruct "K" as "[K _]". iApply "K". iExists q. iFrame.
  - iIntros (p q n) "%Hf L". destruct Hf as (Hm & Hz & Hn). iDestruct "K" as "[_ K]".
    assert ((p =? NULL) || (q =? NULL) = true) as -> by (destruct Hz as [-> | ->]; [done|by rewrite orb_true_r]).
    wp_ret. iApply ("K" with "[] L"). by iPureIntro.
Qed.

Lemma wp_dele_queue mf size q (Φ : Z → hP) : ⊢ queue_at size q -∗ Φ 0 -∗ wp mf (manager_dele_queue q) Φ.
Proof.
  iIntros "(%a & Q & A) K". iDestruct (points_to_not_null with "Q") as %Hq. iDestruct (points_to_not_null with "A") as %Ha.
  unfold manager_dele_queue, free_block. wp_load "Q". rewrite msg_pool_queue, (proj2 (Z.eqb_neq _ _) Ha), (proj2 (Z.eqb_neq _ _) Hq).
  wp_free "A". wp_free "Q". wp_ret. done.
Qed.
End Kernel.
