(* ===== verification/AppStart.v ===== *)
(** * The start of the application

    manager_enter of app/manager_app.c: it makes the queues and the threads of the
    four tasks, one after the other, and starts the threads when all of them were
    made.  Memory holds the blocks of Threads, the semaphore of the radio task and the
    static variables. *)

From S2P Require Import Prelude SepLog Threads.
#[local] Set Warnings "-register-all".
Local Open Scope fw_scope.

(** ** Data *)

Inductive app_task : Set := OperationTask | LogicTask | PassthroughTask | DownloaderTask.

Record app_static := {
  operation_queue_handle : Z;
  manager_list_sem : Z;
  manager_queue_handle : Z;
  net_passthrough_handle : Z;
  http_downloader_handle : Z;
  peripherals_queue_handle : Z;
  tasks_started : list (app_task * Z)    (* with their threads, in order *)
}.
Definition set_operation_queue v s := {| operation_queue_handle := v; manager_list_sem := manager_list_sem s; manager_queue_handle := manager_queue_handle s; net_passthrough_handle := net_passthrough_handle s; http_downloader_handle := http_downloader_handle s; peripherals_queue_handle := peripherals_queue_handle s; tasks_started := tasks_started s |}.
Definition set_list_sem v s := {| operation_queue_handle := operation_queue_handle s; manager_list_sem := v; manager_queue_handle := manager_queue_handle s; net_passthrough_handle := net_passthrough_handle s; http_downloader_handle := http_downloader_handle s; peripherals_queue_handle := peripherals_queue_handle s; tasks_started := tasks_started s |}.
Definition set_logic_queue v s := {| operation_queue_handle := operation_queue_handle s; manager_list_sem := manager_list_sem s; manager_queue_handle := v; net_passthrough_handle := net_passthrough_handle s; http_downloader_handle := http_downloader_handle s; peripherals_queue_handle := peripherals_queue_handle s; tasks_started := tasks_started s |}.
Definition set_passthrough_queue v s := {| operation_queue_handle := operation_queue_handle s; manager_list_sem := manager_list_sem s; manager_queue_handle := manager_queue_handle s; net_passthrough_handle := v; http_downloader_handle := http_downloader_handle s; peripherals_queue_handle := peripherals_queue_handle s; tasks_started := tasks_started s |}.
Definition set_downloader_queue v s := {| operation_queue_handle := operation_queue_handle s; manager_list_sem := manager_list_sem s; manager_queue_handle := manager_queue_handle s; net_passthrough_handle := net_passthrough_handle s; http_downloader_handle := v; peripherals_queue_handle := peripherals_queue_handle s; tasks_started := tasks_started s |}.
Definition set_peripherals_queue v s := {| operation_queue_handle := operation_queue_handle s; manager_list_sem := manager_list_sem s; manager_queue_handle := manager_queue_handle s; net_passthrough_handle := net_passthrough_handle s; http_downloader_handle := http_downloader_handle s; peripherals_queue_handle := v; tasks_started := tasks_started s |}.
Definition add_started v s := {| operation_queue_handle := operation_queue_handle s; manager_list_sem := manager_list_sem s; manager_queue_handle := manager_queue_handle s; net_passthrough_handle := net_passthrough_handle s; http_downloader_handle := http_downloader_handle s; peripherals_queue_handle := peripherals_queue_handle s; tasks_started := tasks_started s ++ [v] |}.

Inductive app_block :=
| AStatic (s : app_static) | ASem (value : Z)
| AThread (stack : Z) | AStack (size : Z) | AQueue (pool : Z) | APool (size : Z).
#[export] Instance app_kernel : KernelBlocks app_block := {|
  thread_block := AThread; stack_block := AStack; queue_block := AQueue; pool_block := APool;
  stack_addr b := match b with AThread a => Some a | _ => None end; msg_pool b := match b with AQueue a => Some a | _ => None end;
  stack_addr_thread a := eq_refl; msg_pool_queue a := eq_refl
|}.

(** The address of the static variables. *)
Definition app_statics : Z := 1.
Local Abbreviation M := (FW (mem app_block)).
Local Abbreviation hP := (hPropI app_block).

Definition mod_app (f : app_static → app_static) : M unit :=
  b <-- load app_statics;; match b with AStatic s => put app_statics (AStatic (f s)) | _ => ffail OutOfBounds end.

(** ** Queues *)

(** A queue whose handle is kept; the result is 0, or 1 without memory. *)
Definition create_kept (max_msgs : Z) (keep : Z → app_static → app_static) : M Z :=
  q <-- manager_create_queue max_msgs;; mod_app (keep q);;; fret (if q =? NULL then 1 else 0).

Definition manager_create_operation_queue : M Z :=
  r <-- create_kept 32 set_operation_queue;;
  if negb (r =? 0) then fret r
  else sem <-- alloc (ASem 1);; mod_app (set_list_sem sem);;; fret (if sem =? NULL then 1 else 0).
Definition manager_create_logic_queue : M Z := create_kept 16 set_logic_queue.
Definition manager_create_passthrough_queue : M Z := create_kept 16 set_passthrough_queue.
Definition manager_create_downloader_queue : M Z := create_kept 16 set_downloader_queue.
Definition peripherals_manager_create_queue : M Z := create_kept 16 set_peripherals_queue.

(** ** Threads *)

Definition rt_thread_startup (task : app_task) (thread : Z) : M unit :=
  b <-- load thread;;
  match stack_addr b with Some _ => mod_app (add_started (task, thread)) | None => ffail OutOfBounds end.

(** The rest is run with the thread, when it was made. *)
Definition with_thread (stack_size : Z) (rest : Z → M unit) : M unit :=
  t <-- manager_thread_create_task stack_size;; if negb (t.1 =? 0) then fret tt else rest t.2.

Definition manager_enter : M unit :=
  manager_create_operation_queue;;;
  with_thread 1024 (λ app_operation_handle,
    manager_create_logic_queue;;;
    with_thread 1524 (λ app_manager_handle,
      manager_create_passthrough_queue;;;
      with_thread 1024 (λ app_passthrough_handle,
        manager_create_downloader_queue;;;
        with_thread 512 (λ app_downloader_handle,
          rt_thread_startup OperationTask app_operation_handle;;;
          rt_thread_startup LogicTask app_manager_handle;;;
          rt_thread_startup PassthroughTask app_passthrough_handle;;;
          rt_thread_startup DownloaderTask app_downloader_handle)))).

Definition app_static0 : app_static := {| operation_queue_handle := NULL; manager_list_sem := NULL; manager_queue_handle := NULL;
  net_passthrough_handle := NULL; http_downloader_handle := NULL; peripherals_queue_handle := NULL; tasks_started := [] |}.
Definition app_boot (oks : list bool) : mem app_block :=
  {| blocks := {[ app_statics := AStatic app_static0 ]};
     mbrk := 2; moks := oks |}.

(** Some answer of the allocator is that there is no memory. *)
Definition memory_fails (oks : list bool) : bool := negb (bool_decide (Forall (eq true) oks)).

(** ** Rules *)

Lemma wp_mod_app mf s f (Φ : unit → hP) :
  ⊢ app_statics ↦ AStatic s -∗ (app_statics ↦ AStatic (f s) -∗ Φ tt) -∗ wp mf (mod_app f) Φ.
Proof. iIntros "S K". unfold mod_app. wp_load "S". iApply (wp_put with "S K"). Qed.

(** A queue, or none when memory may fail. *)
Definition queue_if (mf : bool) (size q : Z) : hP := queue_at size q ∨ ⟨ q = NULL ∧ mf = true ⟩.

Lemma wp_create_kept mf max_msgs keep s (Φ : Z → hP) :
  ⊢ app_statics ↦ AStatic s -∗
    (∀ q n, app_statics ↦ AStatic (keep q s) -∗ queue_if mf (4 * max_msgs) q -∗ lost n -∗ Φ (if q =? NULL then 1 else 0)) -∗
    wp mf (create_kept max_msgs keep) Φ.
Proof.
  iIntros "S K". unfold create_kept. wp_bind. iApply wp_create_queue. iSplit.
  - iIntros (q) "Q". wp_bind. iApply (wp_mod_app with "S"). iIntros "S". wp_ret. iApply ("K" $! q 0%nat with "S [Q]"); [by iLeft|done].
  - iIntros (n) "(%Hm & _) L". wp_bind. iApply (wp_mod_app with "S"). iIntros "S". wp_ret.
    iApply ("K" $! NULL n with "S [] L"). iRight. by iPureIntro.
Qed.

Lemma wp_create_operation mf s (Φ : Z → hP) :
  ⊢ app_statics ↦ AStatic s -∗
    (∀ r q sem n, app_statics ↦ AStatic (set_list_sem sem (set_operation_queue q s)) -∗ queue_if mf 128 q -∗ lost n -∗ Φ r) -∗
    wp mf manager_create_operation_queue Φ.
Proof.
  iIntros "S K". unfold manager_create_operation_queue. wp_bind. iApply (wp_create_kept with "S"). iIntros (q n) "S Q L".
  destruct (q =? NULL) eqn:E; cbn [Z.eqb negb].
  - wp_ret. iApply ("K" $! 1 q (manager_list_sem s) n with "S Q L").
  - wp_bind. iApply wp_alloc. iSplit.
    + iIntros (_). wp_bind. iApply (wp_mod_app with "S"). iIntros "S". wp_ret. iApply ("K" with "S Q L").
    + iIntros (p) "P". wp_bind. iApply (wp_mod_app with "S"). iIntros "S". wp_ret.
      iDestruct (lost_one with "P") as "P". iDestruct (lost_app with "L P") as "L". iApply ("K" with "S Q L").
Qed.

Lemma wp_startup mf s task size t (Φ : unit → hP) :
  ⊢ app_statics ↦ AStatic s -∗ thread_at size t -∗ (app_statics ↦ AStatic (add_started (task, t) s) -∗ thread_at size t -∗ Φ tt) -∗
    wp mf (rt_thread_startup task t) Φ.
Proof.
  iIntros "S (%a & T & A) K". unfold rt_thread_startup. wp_load "T". cbn [stack_addr app_kernel]. iApply (wp_mod_app with "S"). iIntros "S".
  iApply ("K" with "S"). iExists a. iFrame.
Qed.

Lemma wp_with_thread mf stack_size (rest : Z → M unit) (Φ : unit → hP) :
  ⊢ (∀ t, thread_at (stack_size * 4) t -∗ wp mf (rest t) Φ) ∧ (⟨ mf = true ⟩ -∗ True -∗ Φ tt) -∗ wp mf (with_thread stack_size rest) Φ.
Proof.
  iIntros "K". unfold with_thread. wp_bind. iApply wp_create_task. iSplit.
  - iIntros (t) "T". iDestruct "K" as "[K _]". by iApply "K".
  - iIntros (t n) "(%Hm & _) L". cbn [fst snd Z.eqb negb]. wp_ret. iDestruct "K" as "[_ K]". iApply ("K" with "[]"); by iPureIntro.
Qed.

(** ** All tasks or none *)

Definition all_started (t1 t2 t3 t4 : Z) : list (app_task * Z) :=
  [(OperationTask, t1); (LogicTask, t2); (PassthroughTask, t3); (DownloaderTask, t4)].
Definition entered (mf : bool) : hP :=
  ∃ s, app_statics ↦ AStatic s ∗
    ((⟨ tasks_started s = [] ∧ mf = true ⟩ ∗ True) ∨
     ∃ t1 t2 t3 t4, ⟨ tasks_started s = all_started t1 t2 t3 t4 ⟩ ∗
       thread_at 4096 t1 ∗ thread_at 6096 t2 ∗ thread_at 4096 t3 ∗ thread_at 2048 t4 ∗
       queue_if mf 128 (operation_queue_handle s) ∗ queue_if mf 64 (manager_queue_handle s) ∗
       queue_if mf 64 (net_passthrough_handle s) ∗ queue_if mf 64 (http_downloader_handle s) ∗ True).

Lemma wp_manager_enter mf s :
  tasks_started s = [] → app_statics ↦ AStatic s ⊢ wp mf manager_enter (λ _, entered mf).
Proof.
  iIntros (Hs) "S". unfold manager_enter.
  assert (∀ s', tasks_started s' = [] → mf = true → ⊢ app_statics ↦ AStatic s' -∗ True -∗ entered mf) as Hnone.
  { iIntros (s' Hs' Hm) "S P". iExists s'. iFrame "S". iLeft. iSplitR; by iPureIntro. }
  wp_bind. iApply (wp_create_operation with "S"). iIntros (r1 q1 sem n1) "S Q1 L1".
  iApply wp_with_thread. iSplit; [iIntros (t1) "T1"|iIntros "%Hm _"; iApply (Hnone with "S"); [done..|by iPureIntro]].
  wp_bind. iApply (wp_create_kept with "S"). iIntros (q2 n2) "S Q2 L2".
  iApply wp_with_thread. iSplit; [iIntros (t2) "T2"|iIntros "%Hm _"; iApply (Hnone with "S"); [done..|by iPureIntro]].
  wp_bind. iApply (wp_create_kept with "S"). iIntros (q3 n3) "S Q3 L3".
  iApply wp_with_thread. iSplit; [iIntros (t3) "T3"|iIntros "%Hm _"; iApply (Hnone with "S"); [done..|by iPureIntro]].
  wp_bind. iApply (wp_create_kept with "S"). iIntros (q4 n4) "S Q4 L4".
  iApply wp_with_thread. iSplit; [iIntros (t4) "T4"|iIntros "%Hm _"; iApply (Hnone with "S"); [done..|by iPureIntro]].
  wp_bind. iApply (wp_startup with "S T1"). iIntros "S T1". wp_bind. iApply (wp_startup with "S T2"). iIntros "S T2".
  wp_bind. iApply (wp_startup with "S T3"). iIntros "S T3". iApply (wp_startup with "S T4"). iIntros "S T4".
  iExists _. iFrame "S". iRight. iExists t1, t2, t3, t4. iFrame "T1 T2 T3 T4". cbn. iFrame "Q1 Q2 Q3 Q4". rewrite Hs. iSplitR; by iPureIntro.
Qed.

(** What the heap shows. *)
Definition has_thread (size t : Z) (h : gmap Z app_block) : Prop := ∃ a, h !! t = Some (AThread a) ∧ h !! a = Some (AStack size).
Definition has_queue (size q : Z) (h : gmap Z app_block) : Prop := ∃ a, h !! q = Some (AQueue a) ∧ h !! a = Some (APool size).

(** Two blocks in a part of the heap, and the rest of it. *)
Lemma pair_held (b c : Z → app_block) size t Q (h : gmap Z app_block) :
  holds ((∃ a, t ↦ b a ∗ a ↦ c size) ∗ Q)%I h →
  (∃ a, h !! t = Some (b a) ∧ h !! a = Some (c size)) ∧ ∃ h', h' ⊆ h ∧ holds Q h'.
Proof.
  intros (h1 & h2 & -> & Hd & (a & h3 & h4 & -> & Hd' & [-> _] & [-> _]) & HQ). split.
  - exists a. split; apply lookup_union_Some_l.
    + apply lookup_union_Some_l, lookup_singleton_eq.
    + apply lookup_union_Some_r; [done|]. apply lookup_singleton_eq.
  - exists h2. split; [by apply map_union_subseteq_r|done].
Qed.

(** All threads and queues are there, or the queues could not be made. *)
Definition queue_ok (mf : bool) (h : gmap Z app_block) (sq : Z * Z) : Prop :=
  has_queue sq.1 sq.2 h ∨ (sq.2 = NULL ∧ mf = true).
Definition all_running (mf : bool) (s : app_static) (h : gmap Z app_block) : Prop :=
  ∃ t1 t2 t3 t4, tasks_started s = all_started t1 t2 t3 t4 ∧
    has_thread 4096 t1 h ∧ has_thread 6096 t2 h ∧ has_thread 4096 t3 h ∧ has_thread 2048 t4 h ∧
    Forall (queue_ok mf h) [(128, operation_queue_handle s); (64, manager_queue_handle s);
                            (64, net_passthrough_handle s); (64, http_downloader_handle s)].
Definition enter_result (mf : bool) (h : gmap Z app_block) : Prop :=
  ∃ s, h !! app_statics = Some (AStatic s) ∧ ((tasks_started s = [] ∧ mf = true) ∨ all_running mf s h).

Lemma thread_held size t Q h : holds (thread_at size t ∗ Q)%I h → has_thread size t h ∧ ∃ h', h' ⊆ h ∧ holds Q h'.
Proof. apply (pair_held AThread AStack). Qed.
Lemma queue_held mf size q Q h : holds (queue_if mf size q ∗ Q)%I h → queue_ok mf h (size, q) ∧ ∃ h', h' ⊆ h ∧ holds Q h'.
Proof.
  intros (h1 & h2 & -> & Hd & [H|[_ H]] & HQ).
  - destruct (pair_held AQueue APool size q Q (h1 ∪ h2)) as [Hp Hr]; [by exists h1, h2|]. split; [by left|done].
  - split; [by right|]. exists h2. split; [by apply map_union_subseteq_r|done].
Qed.
Lemma pair_mono (b c : Z → app_block) size t (h h' : gmap Z app_block) :
  h ⊆ h' → (∃ a, h !! t = Some (b a) ∧ h !! a = Some (c size)) → ∃ a, h' !! t = Some (b a) ∧ h' !! a = Some (c size).
Proof. intros Hs (a & H1 & H2). exists a. split; by eapply lookup_weaken. Qed.
Lemma thread_mono size t h h' : h ⊆ h' → has_thread size t h → has_thread size t h'.
Proof. apply (pair_mono AThread AStack). Qed.
Lemma queue_mono mf h h' sq : h ⊆ h' → queue_ok mf h sq → queue_ok mf h' sq.
Proof. intros Hs [H|H]; [left; by eapply (pair_mono AQueue APool)|by right]. Qed.

Lemma entered_result mf h : holds (entered mf) h → enter_result mf h.
Proof.
  intros (s & h1 & h0 & -> & Hd & [-> _] & H). exists s. split; [by apply lookup_union_Some_l, lookup_singleton_eq|].
  assert (h0 ⊆ {[app_statics := AStatic s]} ∪ h0) as H0 by (by apply map_union_subseteq_r).
  destruct H as [(h3 & h4 & _ & _ & [_ Hn] & _)|(t1 & t2 & t3 & t4 & h3 & h4 & -> & _ & [He Ht] & Hr)]; [left; exact Hn|right].
  cbn in He, Ht. rewrite He, (left_id_L ∅ (∪)) in H0 |- *. exists t1, t2, t3, t4. split; [exact Ht|].
  apply thread_held in Hr as (R1 & h5 & H5 & Hr). apply thread_held in Hr as (R2 & h6 & H6 & Hr).
  apply thread_held in Hr as (R3 & h7 & H7 & Hr). apply thread_held in Hr as (R4 & h8 & H8 & Hr).
  apply queue_held in Hr as (Q1 & h9 & H9 & Hr). apply queue_held in Hr as (Q2 & h10 & H10 & Hr).
  apply queue_held in Hr as (Q3 & h11 & H11 & Hr). apply queue_held in Hr as (Q4 & _).
  split_and!; [..|rewrite !Forall_cons, Forall_nil; split_and!; [..|done]];
    first [eapply thread_mono; [|eassumption]|eapply queue_mono; [|eassumption]];
    repeat (etrans; [eassumption|]); reflexivity.
Qed.

(** For every answer of the allocator manager_enter ends without a fault.  It started
    no task, which only happens when an allocation failed, or all four of them in the
    order radio, logic, server connection, downloads, each on a thread with a stack of
    its size and with its queue, unless there was no memory for the queue. *)
Theorem manager_enter_all_or_none oks :
  ∃ s, manager_enter (app_boot oks) = Ok (tt, s) ∧ mem_wf s ∧ enter_result (memory_fails oks) (blocks s).
Proof.
  destruct (wp_run (memory_fails oks) manager_enter (λ _, entered (memory_fails oks))
    (app_statics ↦ AStatic app_static0) (app_boot oks)) as ([] & s & E & Hw & _ & H).
  - by apply wp_manager_enter.
  - by split.
  - split; [done|]. intros p [x Hx]. cbn in Hx. apply lookup_singleton_Some in Hx as [<- _]. done.
  - intros Hm. by apply negb_false_iff, bool_decide_eq_true in Hm.
  - exists s. split; [done|]. split; [done|]. by apply entered_result.
Qed.

(** Without memory for its queue a task is started all the same. *)
Lemma started_without_queue :
  ∃ s st, manager_enter (app_boot [false]) = Ok (tt, s) ∧ blocks s !! app_statics = Some (AStatic st) ∧
    length (tasks_started st) = 4%nat ∧ operation_queue_handle st = NULL ∧ manager_list_sem st = NULL.
Proof. eexists _, _. split; [vm_compute; reflexivity|]. split; [vm_compute; reflexivity|]. by vm_compute. Qed.

(** The thread and the queues made before a failure are not given back. *)
Lemma failed_start_leaks :
  ∃ s st, manager_enter (app_boot (replicate 8 true ++ [false])) = Ok (tt, s) ∧
    blocks s !! app_statics = Some (AStatic st) ∧ tasks_started st = [] ∧ size (blocks s) = 9%nat.
Proof. eexists _, _. split; [vm_compute; reflexivity|]. split; [vm_compute; reflexivity|]. by vm_compute. Qed.
