(* ===== verification/CJsonNum.v ===== *)
(** * Numbers of JSON texts

    What app/codec/cJSON/cJSON.c uses of C's arithmetic on double and of the C
    library: strtod, sprintf with %d, %1.15g and %1.17g, the conversions between
    int and double, and on them the saturating valueint, compare_double and the
    text print_number chooses.  A double is a number of the Standard Library's
    model of IEEE 754 with 53 bits; the conversions from and to decimal round the
    exact value once, to the nearest, ties to even. *)

From stdpp Require Import strings.
From Stdlib Require Import SpecFloat.
From S2P Require Import Prelude.
#[local] Set Warnings "-register-all".

Definition lit (s : string) : list Z := map (λ a, Z.of_N (Ascii.N_of_ascii a)) (String.list_ascii_of_string s).

(** ** double *)

Definition double : Type := spec_float.
Definition prec : Z := 53.
Definition emax : Z := 1024.
Definition INT_MAX : Z := 2147483647.
Definition INT_MIN : Z := -2147483648.

Definition int_to_double (z : Z) : double := binary_normalize prec emax z 0 false.
(** DBL_EPSILON *)
Definition DBL_EPSILON : double := S754_finite false 4503599627370496 (-104).

(** [(int)number] drops the fraction; of a number that is not finite nothing is
    said in C. *)
Definition double_to_int (d : double) : Z :=
  match d with
  | S754_finite s m e => SpecFloat.cond_Zopp s (if 0 <=? e then Z.shiftl (Zpos m) e else Z.shiftr (Zpos m) (- e))
  | _ => 0
  end.

(** The three-way choice of parse_number, cJSON_SetNumberHelper and
    cJSON_CreateNumber. *)
Definition saturate (number : double) : Z :=
  if SFleb (int_to_double INT_MAX) number then INT_MAX
  else if SFleb number (int_to_double INT_MIN) then INT_MIN
  else double_to_int number.

Definition isnan (d : double) : bool := match d with S754_nan => true | _ => false end.
Definition isinf (d : double) : bool := match d with S754_infinity _ => true | _ => false end.

Definition compare_double (a b : double) : bool :=
  let maxVal := if SFltb (SFabs b) (SFabs a) then SFabs a else SFabs b in
  SFleb (SFabs (SFsub prec emax a b)) (SFmul prec emax maxVal DBL_EPSILON).

(** ** From decimal to double *)

Definition is_digit (b : Z) : bool := (48 <=? b) && (b <=? 57).
Fixpoint span_digits (s : list Z) : list Z * list Z :=
  match s with
  | b :: s' => if is_digit b then let '(ds, r) := span_digits s' in (b :: ds, r) else ([], s)
  | [] => ([], [])
  end.
Definition digits_value (ds : list Z) : Z := fold_left (λ acc b, 10 * acc + (b - 48)) ds 0.

(** [d * 10 ^ e], rounded.  Texts have fewer than 64 characters, so beyond these
    exponents the result is 0 or infinite. *)
Definition decimal_to_double (neg : bool) (d e : Z) : double :=
  match d with
  | Zpos m =>
      if 400 <? e then S754_infinity neg
      else if e <? -500 then S754_zero neg
      else if 0 <=? e then binary_normalize prec emax (SpecFloat.cond_Zopp neg (d * 10 ^ e)) 0 neg
      else SFdiv prec emax (S754_finite neg m 0) (S754_finite false (Z.to_pos (10 ^ (- e))) 0)
  | _ => S754_zero neg
  end.

(** The exponent, or nothing when no digit follows the letter. *)
Definition scan_exponent (s : list Z) : Z * Z :=
  match s with
  | b :: s' =>
      if (b =? 101) || (b =? 69) then
        let '(neg, n, s') := match s' with
                             | c :: s'' => if c =? 45 then (true, 1, s'') else if c =? 43 then (false, 1, s'') else (false, 0, s')
                             | [] => (false, 0, [])
                             end in
        let ds := (span_digits s').1 in
        if zlen ds =? 0 then (0, 0) else (SpecFloat.cond_Zopp neg (digits_value ds), 1 + n + zlen ds)
      else (0, 0)
  | [] => (0, 0)
  end.

(** The number at the start of a text and how many characters it takes; 0 when
    there is none.  The texts hold digits, signs, points and the letters e and E,
    so there are no hexadecimal numbers, infinities or white space. *)
Definition strtod (s : list Z) : double * Z :=
  let '(neg, n0, s1) := match s with
                        | c :: s' => if c =? 45 then (true, 1, s') else if c =? 43 then (false, 1, s') else (false, 0, s)
                        | [] => (false, 0, [])
                        end in
  let '(ds, s2) := span_digits s1 in
  let '(fs, n1, s3) := match s2 with
                       | c :: s' => if c =? 46 then let '(fs, s3) := span_digits s' in (fs, 1 + zlen fs, s3) else ([], 0, s2)
                       | [] => ([], 0, [])
                       end in
  if zlen ds + zlen fs =? 0 then (S754_zero false, 0)
  else
    let '(e, n2) := scan_exponent s3 in
    (decimal_to_double neg (digits_value (ds ++ fs)) (e - zlen fs), n0 + zlen ds + n1 + n2).

(** ** From double to decimal *)

Fixpoint rev_digits (fuel : nat) (z : Z) : list Z :=
  match fuel with
  | O => []
  | S fuel => (48 + z mod 10) :: (if z <? 10 then [] else rev_digits fuel (z / 10))
  end.
(** The digits of a number that is not negative; a number of [b] bits has at most [b]. *)
Definition digits (z : Z) : list Z := reverse (rev_digits (S (Z.to_nat (Z.log2 z))) z).

(** [sprintf(.., "%d", z)] *)
Definition print_int (z : Z) : list Z := if z <? 0 then 45 :: digits (- z) else digits z.

(** The nearest integer to [n / k], ties to even. *)
Definition div_nearest (n k : Z) : Z :=
  let q := n / k in let r := n mod k in
  if 2 * r <? k then q else if k <? 2 * r then q + 1 else if Z.even q then q else q + 1.

(** The decimal exponent of a fraction below 1: how often it can be multiplied by
    ten until it is not. *)
Fixpoint tens_below (fuel : nat) (n k : Z) : Z :=
  match fuel with
  | O => 0
  | S fuel => if n <? k then 1 + tens_below fuel (10 * n) k else 0
  end.

(** [n / k] to [p] significant digits: the digits and the exponent of the first. *)
Definition significant (p n k : Z) : Z * Z :=
  let x := if k <=? n then zlen (digits (n / k)) - 1 else - tens_below 400 n k in
  let sh := p - 1 - x in
  let d := if 0 <=? sh then div_nearest (n * 10 ^ sh) k else div_nearest n (k * 10 ^ (- sh)) in
  if 10 ^ p <=? d then (10 ^ (p - 1), x + 1) else (d, x).

Definition strip_zeros (l : list Z) : list Z :=
  reverse ((fix strip l := match l with 48 :: l => strip l | _ => l end) (reverse l)).
Definition with_fraction (ip fp : list Z) : list Z :=
  match strip_zeros fp with [] => ip | fp => ip ++ 46 :: fp end.

(** [sprintf(.., "%1.<p>g", d)] for a number that is finite: the style with an
    exponent of at least two digits below -4 and from [p] on, no zeros at the end
    of the fraction. *)
Definition print_g (p : Z) (d : double) : list Z :=
  match d with
  | S754_finite s m e =>
      let '(n, k) := if 0 <=? e then (Z.shiftl (Zpos m) e, 1) else (Zpos m, Z.shiftl 1 (- e)) in
      let '(v, x) := significant p n k in
      let ds := digits v in
      (if s then [45] else []) ++
      if (x <? -4) || (p <=? x) then
        with_fraction (take 1 ds) (drop 1 ds) ++ [101; if x <? 0 then 45 else 43] ++
        (if Z.abs x <? 10 then [48] else []) ++ digits (Z.abs x)
      else if 0 <=? x then with_fraction (take (Z.to_nat (x + 1)) ds) (drop (Z.to_nat (x + 1)) ds)
      else with_fraction [48] (replicate (Z.to_nat (- x - 1)) 48 ++ ds)
  | S754_zero s => (if s then [45] else []) ++ [48]
  | _ => []
  end.

(** The text of a number in print_number. *)
Definition number_text (d : double) (valueint : Z) : list Z :=
  if isnan d || isinf d then lit "null"
  else if SFeqb d (int_to_double valueint) then print_int valueint
  else
    let t := print_g 15 d in
    let '(test, n) := strtod t in
    if (n =? 0) || negb (compare_double test d) then print_g 17 d else t.

Example strtod_examples :
  (strtod (lit "12.5e1,")) = (int_to_double 125, 6) ∧ (strtod (lit "1e")) = (int_to_double 1, 1) ∧
  (strtod (lit "-")).2 = 0 ∧ (strtod (lit "0.1")).1 = S754_finite false 7205759403792794 (-56) ∧
  saturate (strtod (lit "4294967295")).1 = INT_MAX ∧ saturate (strtod (lit "-7.9")).1 = -7.
Proof. vm_compute. done. Qed.
Example number_text_examples :
  let t s := let d := (strtod (lit s)).1 in number_text d (saturate d) in
  t "0.1" = lit "0.1" ∧ t "4294967295" = lit "4294967295" ∧ t "1e21" = lit "1e+21" ∧ t "0.00001" = lit "1e-05" ∧
  t "-12" = lit "-12" ∧ t "1e999" = lit "null" ∧
  t "123456.789" = lit "123456.789" ∧ t "5e-324" = lit "4.94065645841247e-324".
Proof. vm_compute. done. Qed.

(** The test whether a double can be recovered from its 15 digits allows for a
    difference of one unit in the last place, so it is not always recovered. *)
Lemma fraction_not_recovered :
  let d := (strtod (lit "0.30000000000000004")).1 in
  number_text d (saturate d) = lit "0.3" ∧ (strtod (lit "0.3")).1 ≠ d.
Proof. vm_compute. done. Qed.

(** ** Integers are exact *)

Lemma size_digits p : digits2_pos p = Pos.size p.
Proof. induction p; cbn; congruence. Qed.
Lemma iter_xO p k : Zpos (Pos.iter xO p k) = Zpos p * 2 ^ Zpos k.
Proof.
  revert p. induction k as [|k IH] using Pos.peano_ind; intros p; [cbn [Pos.iter]; lia|].
  rewrite Pos.iter_succ, Pos2Z.inj_succ, Z.pow_succ_r by lia. specialize (IH p). lia.
Qed.
Lemma size_bounds p : 2 ^ (Zpos (Pos.size p) - 1) <= Zpos p < 2 ^ Zpos (Pos.size p).
Proof.
  pose proof (Pos.size_le p) as H1. pose proof (Pos.size_gt p) as H2.
  assert (Zpos (2 ^ Pos.size p) = 2 ^ Zpos (Pos.size p)) as E by apply Pos2Z.inj_pow.
  assert (2 ^ Zpos (Pos.size p) = 2 * 2 ^ (Zpos (Pos.size p) - 1)) as E2.
  { rewrite <- Z.pow_succ_r by lia. f_equal. lia. }
  lia.
Qed.

(** How a positive integer below [2^53] is stored. *)
Definition stored (p : positive) (m : positive) (k : Z) : Prop :=
  0 <= k ∧ Zpos m = Zpos p * 2 ^ k ∧ 2 ^ 52 <= Zpos m < 2 ^ 53.

Lemma shr_fexp_stored m k : 2 ^ 52 <= Zpos m < 2 ^ 53 → 0 <= k <= 52 →
  shr_fexp prec emax (Zpos m) (- k) loc_Exact = ({| shr_m := Zpos m; shr_r := false; shr_s := false |}, - k).
Proof.
  intros Hm Hk. unfold shr_fexp. cbn [Zdigits2]. rewrite size_digits. pose proof (size_bounds m) as Hs.
  assert (Zpos (Pos.size m) = 53) as ->.
  { destruct (Z.lt_total (Zpos (Pos.size m)) 53) as [H|[H|H]]; [|done|].
    - assert (2 ^ Zpos (Pos.size m) <= 2 ^ 52) by (apply Z.pow_le_mono_r; lia). lia.
    - assert (2 ^ 53 <= 2 ^ (Zpos (Pos.size m) - 1)) by (apply Z.pow_le_mono_r; lia). lia. }
  unfold SpecFloat.fexp, SpecFloat.emin, prec, emax. replace (_ - _) with 0 by lia. done.
Qed.

Lemma round_stored s p : Zpos p < 2 ^ 53 → ∃ m k, binary_round prec emax s p 0 = S754_finite s m (- k) ∧ stored p m k ∧ k <= 52.
Proof.
  intros Hp. unfold binary_round. rewrite size_digits. pose proof (size_bounds p) as Hs.
  assert (Zpos (Pos.size p) <= 53) as Hle.
  { destruct (Z.le_gt_cases (Zpos (Pos.size p)) 53) as [|H]; [done|].
    assert (2 ^ 53 <= 2 ^ (Zpos (Pos.size p) - 1)) by (apply Z.pow_le_mono_r; lia). lia. }
  assert (SpecFloat.fexp prec emax (Zpos (Pos.size p) + 0) = Zpos (Pos.size p) - 53) as ->
    by (unfold SpecFloat.fexp, SpecFloat.emin, prec, emax; lia).
  remember (53 - Zpos (Pos.size p)) as k eqn:Hk0. replace (Zpos (Pos.size p) - 53) with (- k) by lia.
  assert (∃ m, shl_align p 0 (- k) = (m, - k) ∧ Zpos m = Zpos p * 2 ^ k) as (m & -> & Em).
  { unfold shl_align. rewrite Z.sub_0_r. destruct k as [|k|k]; cbn [Z.opp]; [exists p; split; [done|lia]|by rewrite <- iter_xO; eauto|lia]. }
  assert (2 ^ 52 <= Zpos m < 2 ^ 53) as Hm.
  { rewrite Em. assert (2 ^ 52 = 2 ^ (Zpos (Pos.size p) - 1) * 2 ^ k) as -> by (rewrite <- Z.pow_add_r by lia; f_equal; lia).
    assert (2 ^ 53 = 2 ^ Zpos (Pos.size p) * 2 ^ k) as -> by (rewrite <- Z.pow_add_r by lia; f_equal; lia).
    assert (0 < 2 ^ k) by (apply Z.pow_pos_nonneg; lia). nia. }
  exists m, k. split; [|split; [split; [lia|done]|lia]]. unfold binary_round_aux.
  rewrite shr_fexp_stored by lia. cbn [shr_m loc_of_shr_record round_nearest_even]. rewrite shr_fexp_stored by lia. cbn [shr_m].
  rewrite (proj2 (Z.leb_le _ _)) by (unfold prec, emax; lia). done.
Qed.

Definition small (z : Z) : Prop := -2 ^ 53 < z < 2 ^ 53.

Lemma int_to_double_cases z : small z →
  (z = 0 ∧ int_to_double z = S754_zero false) ∨
  (∃ s p m k, z = SpecFloat.cond_Zopp s (Zpos p) ∧ int_to_double z = S754_finite s m (- k) ∧ stored p m k).
Proof.
  intros Hz. unfold int_to_double, binary_normalize, small in *. destruct z as [|p|p]; [by left|right..].
  - destruct (round_stored false p) as (m & k & E & H & _); [lia|]. exists false, p, m, k. done.
  - destruct (round_stored true p) as (m & k & E & H & _); [lia|]. exists true, p, m, k. done.
Qed.

Lemma double_to_int_of_int z : small z → double_to_int (int_to_double z) = z.
Proof.
  intros Hz. destruct (int_to_double_cases z Hz) as [[-> ->]|(s & p & m & k & -> & -> & Hk & Em & _)]; [done|].
  cbn [double_to_int]. f_equal. assert (0 < 2 ^ k) as H2 by (apply Z.pow_pos_nonneg; lia).
  destruct (Z.leb_spec 0 (- k)) as [H|H].
  - assert (k = 0) as -> by lia. rewrite Em. cbn [Z.opp]. rewrite Z.shiftl_0_r. lia.
  - rewrite Z.opp_involutive, Z.shiftr_div_pow2, Em, Z.div_mul by lia. done.
Qed.

Lemma stored_compare p q m n j k : stored p m j → stored q n k →
  match Z.compare (- j) (- k) with Lt => Lt | Gt => Gt | Eq => Pos.compare_cont Eq m n end = Z.compare (Zpos p) (Zpos q).
Proof.
  intros (Hj & Em & Hm) (Hk & En & Hn).
  assert (∀ a b x y, 0 <= a → a < b → x * 2 ^ b < 2 ^ 53 → 2 ^ 52 <= y * 2 ^ a → 0 < x → x < y) as Hlt.
  { intros a b x y Ha Hab Hx Hy Hx0. assert (2 ^ b = 2 ^ (b - a - 1) * (2 * 2 ^ a)) as E.
    { rewrite <- Z.pow_succ_r, <- Z.pow_add_r by lia. f_equal. lia. }
    assert (0 < 2 ^ (b - a - 1)) by (apply Z.pow_pos_nonneg; lia). assert (0 < 2 ^ a) by (apply Z.pow_pos_nonneg; lia). nia. }
  destruct (Z.compare_spec (- j) (- k)) as [E|E|E].
  - assert (j = k) as -> by lia. change (Pos.compare_cont Eq m n) with (Pos.compare m n). rewrite Pos2Z.inj_compare, Em, En.
    assert (0 < 2 ^ k) by (apply Z.pow_pos_nonneg; lia). destruct (Z.compare_spec (Zpos p) (Zpos q)) as [->|H'|H'].
    + apply Z.compare_refl.
    + apply Z.compare_lt_iff. nia.
    + apply Z.compare_gt_iff. nia.
  - symmetry. apply Z.compare_lt_iff. apply (Hlt k j); lia.
  - symmetry. apply Z.compare_gt_iff. apply (Hlt j k); lia.
Qed.

Lemma SFcompare_ints x y : small x → small y → SFcompare (int_to_double x) (int_to_double y) = Some (Z.compare x y).
Proof.
  intros Hx Hy. destruct (int_to_double_cases x Hx) as [[-> ->]|(s & p & m & j & -> & -> & Hp)],
    (int_to_double_cases y Hy) as [[-> ->]|(t & q & n & k & -> & -> & Hq)]; cbn [SFcompare]; [done|by destruct t|by destruct s|].
  pose proof (stored_compare _ _ _ _ _ _ Hp Hq) as E. destruct s, t; cbn [SpecFloat.cond_Zopp]; f_equal; [|exact E].
  transitivity (CompOpp (Z.compare (Zpos p) (Zpos q))); [rewrite <- E|done].
  destruct (Z.compare (- j) (- k)); done.
Qed.

Lemma SFeqb_int z : small z → SFeqb (int_to_double z) (int_to_double z) = true.
Proof. intros H. unfold SFeqb. rewrite SFcompare_ints, Z.compare_refl by done. done. Qed.

(** An int goes through double unchanged. *)
Definition is_int (z : Z) : Prop := INT_MIN <= z <= INT_MAX.
Lemma int_small z : is_int z → small z.
Proof. unfold is_int, small, INT_MIN, INT_MAX. lia. Qed.

Lemma saturate_int z : is_int z → saturate (int_to_double z) = z.
Proof.
  intros H. pose proof (int_small z H) as Hz. unfold is_int in H. unfold saturate, SFleb.
  rewrite !SFcompare_ints by (try done; apply int_small; unfold is_int, INT_MIN, INT_MAX; lia).
  rewrite double_to_int_of_int by done.
  destruct (Z.compare_spec INT_MAX z), (Z.compare_spec z INT_MIN); unfold INT_MAX, INT_MIN in *; lia.
Qed.

Lemma int_not_special z : small z → isnan (int_to_double z) || isinf (int_to_double z) = false.
Proof. intros Hz. destruct (int_to_double_cases z Hz) as [[_ ->]|(s & p & m & k & _ & -> & _)]; done. Qed.

Lemma number_text_int z : is_int z → number_text (int_to_double z) z = print_int z.
Proof. intros H. unfold number_text. rewrite int_not_special, SFeqb_int by (by apply int_small). done. Qed.

(** ** Reading what was printed *)

Lemma rev_digits_ok fuel z : 0 <= z → Forall (λ b, is_digit b = true) (rev_digits fuel z).
Proof.
  revert z. induction fuel as [|fuel IH]; intros z Hz; cbn [rev_digits]; [done|]. constructor.
  - unfold is_digit. pose proof (Z.mod_pos_bound z 10). rewrite andb_true_iff, !Z.leb_le. lia.
  - destruct (z <? 10); [done|]. apply IH. apply Z.div_pos; lia.
Qed.

Definition digits_step (acc b : Z) : Z := 10 * acc + (b - 48).
Lemma rev_digits_value fuel z : 0 <= z < 2 ^ Z.of_nat fuel → foldr (λ b acc, digits_step acc b) 0 (rev_digits fuel z) = z.
Proof.
  revert z. induction fuel as [|fuel IH]; intros z Hz; cbn [rev_digits foldr]; [cbn in Hz; lia|].
  unfold digits_step at 1. destruct (Z.ltb_spec z 10) as [H|H].
  - cbn [foldr]. rewrite Z.mod_small by lia. lia.
  - rewrite IH; [|rewrite Nat2Z.inj_succ, Z.pow_succ_r in Hz by lia; Z.div_mod_to_equations; lia].
    Z.div_mod_to_equations. lia.
Qed.

Lemma digits_ok z : 0 <= z → Forall (λ b, is_digit b = true) (digits z).
Proof. intros. unfold digits. apply Forall_reverse. by apply rev_digits_ok. Qed.
Lemma digits_value_digits z : 0 <= z → digits_value (digits z) = z.
Proof.
  intros H. unfold digits, digits_value. rewrite <- fold_left_rev_right, rev_alt. fold (reverse (reverse (rev_digits (S (Z.to_nat (Z.log2 z))) z))).
  rewrite reverse_involutive.
  apply rev_digits_value. rewrite Nat2Z.inj_succ, Z2Nat.id by apply Z.log2_nonneg.
  destruct (decide (z = 0)) as [->|]; [cbn; lia|]. pose proof (Z.log2_spec z). lia.
Qed.
Lemma digits_nonempty z : 0 < zlen (digits z).
Proof. unfold digits, zlen. rewrite length_reverse. cbn [rev_digits length]. lia. Qed.

(** Behind the digits comes something that does not belong to a number. *)
Definition number_ends (r : list Z) : Prop :=
  match r with [] => True | b :: _ => is_digit b = false ∧ b ≠ 46 ∧ b ≠ 101 ∧ b ≠ 69 end.

Lemma span_digits_app ds r : Forall (λ b, is_digit b = true) ds → number_ends r → span_digits (ds ++ r) = (ds, r).
Proof.
  induction 1 as [|b ds Hb Hds IH]; intros Hr; cbn [app span_digits].
  - destruct r as [|b r]; [done|]. destruct Hr as [Hr _]. cbn [span_digits]. by rewrite Hr.
  - rewrite Hb, IH by done. done.
Qed.

(** The text of an int is read as that int, up to its last digit. *)
Lemma strtod_print_int z r : is_int z → number_ends r → strtod (print_int z ++ r) = (int_to_double z, zlen (print_int z)).
Proof.
  intros Hz Hr. assert (∀ n, 0 <= n → ∃ b ds, digits n = b :: ds ∧ is_digit b = true) as Hd.
  { intros n Hn. pose proof (digits_nonempty n). pose proof (digits_ok n Hn) as H'.
    destruct (digits n) as [|b ds]; [done|]. apply Forall_cons in H' as [? _]. eauto. }
  assert (∀ neg n, 0 <= n → z = SpecFloat.cond_Zopp neg n → (neg = true → 0 < n) → 
    decimal_to_double neg (digits_value (digits n ++ [])) (0 - 0) = int_to_double z) as Hv.
  { intros neg n Hn -> Hneg. rewrite app_nil_r, digits_value_digits by done. unfold decimal_to_double, int_to_double.
    destruct n as [|p|p]; [|change (0 - 0) with 0; rewrite Z.pow_0_r, Z.mul_1_r; by destruct neg|lia]. destruct neg; [lia|done]. }
  assert (∀ r, number_ends r → (match r with
      | c :: s' => if c =? 46 then let '(fs, s3) := span_digits s' in (fs, 1 + zlen fs, s3) else ([], 0, r)
      | [] => ([], 0, [])
      end) = ([], 0, r) ∧ scan_exponent r = (0, 0)) as Hend.
  { intros [|b r'] Hb; [done|]. destruct Hb as (_ & H1 & H2 & H3). unfold scan_exponent.
    rewrite (proj2 (Z.eqb_neq b 46)), (proj2 (Z.eqb_neq b 101)), (proj2 (Z.eqb_neq b 69)) by done. done. }
  destruct (Hend r Hr) as [E1 E2]. unfold print_int. destruct (Z.ltb_spec z 0) as [Hneg|Hneg].
  - cbn [app strtod]. unfold strtod. change (45 =? 45) with true. cbv iota. rewrite span_digits_app by (try done; apply digits_ok; lia).
    rewrite E1. change (zlen (@nil Z)) with 0. pose proof (digits_nonempty (- z)). rewrite (proj2 (Z.eqb_neq _ _)) by lia.
    rewrite E2, (Hv true) by (cbn; lia). rewrite zlen_cons. f_equal. lia.
  - destruct (Hd z Hneg) as (b & ds & Eb & Hb). unfold strtod. rewrite Eb. cbn [app].
    assert (b ≠ 45 ∧ b ≠ 43) as [Hb1 Hb2] by (split; intros ->; done).
    rewrite (proj2 (Z.eqb_neq b 45)), (proj2 (Z.eqb_neq b 43)) by done.
    change (b :: ds ++ r) with ((b :: ds) ++ r). rewrite <- Eb, span_digits_app by (try done; by apply digits_ok).
    rewrite E1. change (zlen (@nil Z)) with 0. pose proof (digits_nonempty z). rewrite (proj2 (Z.eqb_neq _ _)) by lia.
    rewrite E2, (Hv false) by (cbn; lia). f_equal. lia.
Qed.
