(* ===== verification/CJson.v ===== *)
(** * JSON

    app/codec/cJSON/cJSON.c, every function but the ones that only exchange the
    allocator (cJSON_InitHooks) or print the version: the nodes, the release of a
    tree, the parser, the printer, access, insertion, removal, replacement,
    construction, duplication, comparison and minification.

    Memory holds blocks: nodes and character arrays.  A text that a function only
    reads is given by its characters, [None] for a null pointer; a text it keeps is
    the address of its block.  Sizes are those of objects in a 32-bit memory and do
    not wrap around. *)

From stdpp Require Import strings.
From Stdlib Require Import SpecFloat.
From S2P Require Import Prelude SepLog CJsonNum.
#[local] Set Warnings "-register-all".

(** ** Nodes *)

Definition cJSON_Invalid : Z := 0.
Definition cJSON_False : Z := 1.
Definition cJSON_True : Z := 2.
Definition cJSON_NULL : Z := 4.
Definition cJSON_Number : Z := 8.
Definition cJSON_String : Z := 16.
Definition cJSON_Array : Z := 32.
Definition cJSON_Object : Z := 64.
Definition cJSON_Raw : Z := 128.
Definition cJSON_IsReference : Z := 256.
Definition cJSON_StringIsConst : Z := 512.
Definition CJSON_NESTING_LIMIT : Z := 1000.

Record cJSON := {
  j_next : Z;
  j_prev : Z;
  j_child : Z;
  j_type : Z;
  j_valuestring : Z;
  j_valueint : Z;
  j_valuedouble : double;
  j_string : Z
}.

Definition set_next v n := {| j_next := v; j_prev := j_prev n; j_child := j_child n; j_type := j_type n;
  j_valuestring := j_valuestring n; j_valueint := j_valueint n; j_valuedouble := j_valuedouble n; j_string := j_string n |}.
Definition set_prev v n := {| j_next := j_next n; j_prev := v; j_child := j_child n; j_type := j_type n;
  j_valuestring := j_valuestring n; j_valueint := j_valueint n; j_valuedouble := j_valuedouble n; j_string := j_string n |}.
Definition set_child v n := {| j_next := j_next n; j_prev := j_prev n; j_child := v; j_type := j_type n;
  j_valuestring := j_valuestring n; j_valueint := j_valueint n; j_valuedouble := j_valuedouble n; j_string := j_string n |}.
Definition set_type v n := {| j_next := j_next n; j_prev := j_prev n; j_child := j_child n; j_type := v;
  j_valuestring := j_valuestring n; j_valueint := j_valueint n; j_valuedouble := j_valuedouble n; j_string := j_string n |}.
Definition set_valuestring v n := {| j_next := j_next n; j_prev := j_prev n; j_child := j_child n; j_type := j_type n;
  j_valuestring := v; j_valueint := j_valueint n; j_valuedouble := j_valuedouble n; j_string := j_string n |}.
Definition set_valueint v n := {| j_next := j_next n; j_prev := j_prev n; j_child := j_child n; j_type := j_type n;
  j_valuestring := j_valuestring n; j_valueint := v; j_valuedouble := j_valuedouble n; j_string := j_string n |}.
Definition set_valuedouble v n := {| j_next := j_next n; j_prev := j_prev n; j_child := j_child n; j_type := j_type n;
  j_valuestring := j_valuestring n; j_valueint := j_valueint n; j_valuedouble := v; j_string := j_string n |}.
Definition set_string v n := {| j_next := j_next n; j_prev := j_prev n; j_child := j_child n; j_type := j_type n;
  j_valuestring := j_valuestring n; j_valueint := j_valueint n; j_valuedouble := j_valuedouble n; j_string := v |}.

Definition zero_item : cJSON :=
  {| j_next := NULL; j_prev := NULL; j_child := NULL; j_type := cJSON_Invalid; j_valuestring := NULL; j_valueint := 0;
     j_valuedouble := S754_zero false; j_string := NULL |}.

Inductive jblock := JNode (n : cJSON) | JBytes (l : list Z).
Abbreviation M := (FW (mem jblock)).
Local Open Scope fw_scope.

(** A byte of memory that was not written yet; no character has this value. *)
Definition uninit : Z := 256.

Definition has_flag (t flag : Z) : bool := negb (Z.land t flag =? 0).
Definition kind (t : Z) : Z := Z.land t 255.

(** ** Access to blocks *)

Definition get_item (p : Z) : M cJSON :=
  b <-- load p;; match b with JNode n => fret n | JBytes _ => ffail OutOfBounds end.
Definition mod_item (p : Z) (f : cJSON → cJSON) : M unit :=
  n <-- get_item p;; put p (JNode (f n)).
Definition get_bytes (p : Z) : M (list Z) :=
  b <-- load p;; match b with JBytes l => fret l | JNode _ => ffail OutOfBounds end.

(** The characters up to the end mark. *)
Fixpoint until_end (l : list Z) : option (list Z) :=
  match l with
  | [] => None
  | b :: l => if b =? 0 then Some [] else t ← until_end l; Some (b :: t)
  end.
Definition c_str (p : Z) : M (list Z) :=
  l <-- get_bytes p;; match until_end l with Some t => fret t | None => ffail OutOfBounds end.

(** free *)
Definition deallocate (p : Z) : M unit := if p =? NULL then fret tt else dealloc p.

(** realloc: the block moves; the old one stays when there is no memory. *)
Definition reallocate (p size : Z) : M Z :=
  l <-- get_bytes p;;
  q <-- alloc (JBytes (take (Z.to_nat size) (l ++ replicate (Z.to_nat size) uninit)));;
  if q =? NULL then fret NULL else dealloc p;;; fret q.

Definition cJSON_strdup (s : option (list Z)) : M Z :=
  match s with None => fret NULL | Some s => alloc (JBytes (s ++ [0])) end.

Definition cJSON_New_Item : M Z := alloc (JNode zero_item).

(** ** Release *)

Fixpoint delete_loop (fuel : nat) (item : Z) : M unit :=
  match fuel with
  | O => ffail OutOfFuel
  | S fuel =>
      if item =? NULL then fret tt
      else
        n <-- get_item item;;
        (if negb (has_flag (j_type n) cJSON_IsReference) && negb (j_child n =? NULL) then delete_loop fuel (j_child n)
         else fret tt);;;
        (if negb (has_flag (j_type n) cJSON_IsReference) && negb (j_valuestring n =? NULL) then deallocate (j_valuestring n)
         else fret tt);;;
        (if negb (has_flag (j_type n) cJSON_StringIsConst) && negb (j_string n =? NULL) then deallocate (j_string n)
         else fret tt);;;
        deallocate item;;;
        delete_loop fuel (j_next n)
  end.

Definition cJSON_Delete (item : Z) : M unit := n <-- heap_size;; delete_loop (S n) item.

(** ** The text that is parsed *)

(** [blen] is the field length. *)
Record parse_buffer := { content : list Z; blen : Z; offset : Z; depth : Z }.
Definition set_offset v b := {| content := content b; blen := blen b; offset := v; depth := depth b |}.
Definition set_depth v b := {| content := content b; blen := blen b; offset := offset b; depth := v |}.

Definition byte_at (l : list Z) (i : Z) : result Z :=
  if i <? 0 then Fault OutOfBounds else match l !! Z.to_nat i with Some b => Ok b | None => Fault OutOfBounds end.
Definition can_read (b : parse_buffer) (size : Z) : bool := offset b + size <=? blen b.
Definition can_access (b : parse_buffer) (i : Z) : bool := offset b + i <? blen b.
Definition here (b : parse_buffer) : result Z := byte_at (content b) (offset b).
(** [strncmp(buffer_at_offset(buffer), word, n) == 0] for a word of [n] characters. *)
Definition starts (b : parse_buffer) (word : list Z) : bool :=
  bool_decide (take (List.length word) (drop (Z.to_nat (offset b)) (content b)) = word).

(** [can_access_at_index(buffer, 0) && buffer_at_offset(buffer)[0] == c] *)
Definition sees (b : parse_buffer) (c : Z) : result bool :=
  if can_access b 0 then x <-? here b;; Ok (x =? c) else Ok false.

Fixpoint skip_loop (fuel : nat) (b : parse_buffer) : result parse_buffer :=
  match fuel with
  | O => Fault OutOfFuel
  | S fuel =>
      if can_access b 0 then
        x <-? here b;;
        if x <=? 32 then skip_loop fuel (set_offset (offset b + 1) b) else Ok b
      else Ok b
  end.
Definition buffer_skip_whitespace (b : parse_buffer) : result parse_buffer :=
  if negb (can_access b 0) then Ok b
  else
    b <-? skip_loop (S (Z.to_nat (blen b - offset b))) b;;
    Ok (if offset b =? blen b then set_offset (offset b - 1) b else b).

Definition skip_utf8_bom (b : parse_buffer) : option parse_buffer :=
  if negb (offset b =? 0) then None
  else if can_access b 4 && starts b [0xEF; 0xBB; 0xBF] then Some (set_offset (offset b + 3) b) else Some b.

(** ** Numbers *)

Definition number_char (c : Z) : bool :=
  CJsonNum.is_digit c || (c =? 43) || (c =? 45) || (c =? 101) || (c =? 69) || (c =? 46).
(** At most 63 characters are copied. *)
Fixpoint copy_number (room : nat) (b : parse_buffer) (i : Z) : result (list Z) :=
  match room with
  | O => Ok []
  | S room =>
      if can_access b i then
        c <-? byte_at (content b) (offset b + i);;
        if number_char c then t <-? copy_number room b (i + 1);; Ok (c :: t) else Ok []
      else Ok []
  end.

Definition set_number (number : double) (n : cJSON) : cJSON :=
  set_type cJSON_Number (set_valueint (saturate number) (set_valuedouble number n)).

Definition parse_number (item : Z) (b : parse_buffer) : M (bool * parse_buffer) :=
  number_c_string <-- flift (copy_number 63 b 0);;
  let '(number, after_end) := strtod number_c_string in
  if after_end =? 0 then fret (false, b)
  else mod_item item (set_number number);;; fret (true, set_offset (offset b + after_end) b).

Definition cJSON_SetNumberHelper (object : Z) (number : double) : M double :=
  mod_item object (λ n, set_valuedouble number (set_valueint (saturate number) n));;; fret number.

(** ** Strings *)

Definition hex_digit (c : Z) : option Z :=
  if (48 <=? c) && (c <=? 57) then Some (c - 48)
  else if (65 <=? c) && (c <=? 70) then Some (10 + c - 65)
  else if (97 <=? c) && (c <=? 102) then Some (10 + c - 97)
  else None.

(** Anything else than a digit makes the number 0. *)
Fixpoint hex_loop (k : nat) (h : Z) (l : list Z) (pos : Z) : result Z :=
  match k with
  | O => Ok h
  | S k =>
      c <-? byte_at l pos;;
      match hex_digit c with
      | Some v => let h := h + v in hex_loop k (match k with O => h | _ => Z.shiftl h 4 end) l (pos + 1)
      | None => Ok 0
      end
  end.
Definition parse_hex4 (l : list Z) (pos : Z) : result Z := hex_loop 4 0 l pos.

(** The bytes behind the first, from the last on. *)
Fixpoint utf8_tail (k : nat) (codepoint : Z) (acc : list Z) : Z * list Z :=
  match k with
  | O => (codepoint, acc)
  | S k => utf8_tail k (Z.shiftr codepoint 6) (u8 (Z.land (Z.lor codepoint 0x80) 0xBF) :: acc)
  end.
Definition utf8_encode (codepoint : Z) : option (list Z) :=
  let enc k mark := let '(c, tl) := utf8_tail k codepoint [] in Some (Z.land (Z.lor c mark) 0xFF :: tl) in
  if codepoint <? 0x80 then Some [Z.land codepoint 0x7F]
  else if codepoint <? 0x800 then enc 1%nat 0xC0
  else if codepoint <? 0x10000 then enc 2%nat 0xE0
  else if codepoint <=? 0x10FFFF then enc 3%nat 0xF0
  else None.

(** The length of the sequence, 0 for a failure, and what it stands for. *)
Definition utf16_literal_to_utf8 (l : list Z) (pos input_end : Z) : result (Z * list Z) :=
  let fail := Ok (0, []) in
  let encode n c := match utf8_encode c with Some d => Ok (n, d) | None => fail end in
  if input_end - pos <? 6 then fail
  else
    first_code <-? parse_hex4 l (pos + 2);;
    if (0xDC00 <=? first_code) && (first_code <=? 0xDFFF) then fail
    else if (0xD800 <=? first_code) && (first_code <=? 0xDBFF) then
      let second := pos + 6 in
      if input_end - second <? 6 then fail
      else
        c0 <-? byte_at l second;;
        if negb (c0 =? 92) then fail
        else
          c1 <-? byte_at l (second + 1);;
          if negb (c1 =? 117) then fail
          else
            second_code <-? parse_hex4 l (second + 2);;
            if (second_code <? 0xDC00) || (0xDFFF <? second_code) then fail
            else encode 12 (0x10000 + Z.lor (Z.shiftl (Z.land first_code 0x3FF) 10) (Z.land second_code 0x3FF))
    else encode 6 first_code.

(** Looks for the closing quote; counts the backslashes in front of characters. *)
Fixpoint scan_string (fuel : nat) (b : parse_buffer) (input_end skipped : Z) : result (option (Z * Z)) :=
  match fuel with
  | O => Fault OutOfFuel
  | S fuel =>
      if input_end <? blen b then
        c <-? byte_at (content b) input_end;;
        if c =? 34 then Ok (Some (input_end, skipped))
        else if c =? 92 then
          if blen b <=? input_end + 1 then Ok None else scan_string fuel b (input_end + 2) (skipped + 1)
        else scan_string fuel b (input_end + 1) skipped
      else Ok None
  end.

Definition escape_char (c : Z) : option Z :=
  if c =? 98 then Some 8 else if c =? 102 then Some 12 else if c =? 110 then Some 10
  else if c =? 114 then Some 13 else if c =? 116 then Some 9
  else if (c =? 34) || (c =? 92) || (c =? 47) then Some c else None.

(** What is written behind [out] must fit into the block of [size] bytes. *)
Definition emit (size : Z) (out d : list Z) : result (list Z) :=
  if zlen out + zlen d <=? size then Ok (out ++ d) else Fault OutOfBounds.

(** The characters that were written, or a failure, and the place in the text. *)
Fixpoint decode_string (fuel : nat) (l : list Z) (pos input_end size : Z) (out : list Z) : result (option (list Z) * Z) :=
  match fuel with
  | O => Fault OutOfFuel
  | S fuel =>
      if pos <? input_end then
        c <-? byte_at l pos;;
        if negb (c =? 92) then
          out <-? emit size out [c];; decode_string fuel l (pos + 1) input_end size out
        else if input_end - pos <? 1 then Ok (None, pos)
        else
          e <-? byte_at l (pos + 1);;
          if e =? 117 then
            r <-? utf16_literal_to_utf8 l pos input_end;;
            if r.1 =? 0 then Ok (None, pos)
            else out <-? emit size out r.2;; decode_string fuel l (pos + r.1) input_end size out
          else
            match escape_char e with
            | Some x => out <-? emit size out [x];; decode_string fuel l (pos + 2) input_end size out
            | None => Ok (None, pos)
            end
      else out <-? emit size out [0];; Ok (Some out, pos)
  end.

Definition parse_string (item : Z) (b : parse_buffer) : M (bool * parse_buffer) :=
  let input_pointer := offset b + 1 in
  let fail pos := (false, set_offset pos b) in
  c <-- flift (here b);;
  if negb (c =? 34) then fret (fail input_pointer)
  else
    r <-- flift (scan_string (S (Z.to_nat (blen b - offset b))) b input_pointer 0);;
    match r with
    | None => fret (fail input_pointer)
    | Some (input_end, skipped_bytes) =>
        let size := input_end - offset b - skipped_bytes + 1 in
        output <-- alloc (JBytes (replicate (Z.to_nat size) uninit));;
        if output =? NULL then fret (fail input_pointer)
        else
          r <-- flift (decode_string (S (Z.to_nat (input_end - input_pointer))) (content b) input_pointer input_end size []);;
          match r with
          | (Some out, _) =>
              put output (JBytes (out ++ replicate (Z.to_nat (size - zlen out)) uninit));;;
              mod_item item (λ n, set_valuestring output (set_type cJSON_String n));;;
              fret (true, set_offset (input_end + 1) b)
          | (None, pos) => dealloc output;;; fret (fail pos)
          end
    end.

(** ** Values *)

(** The list of the elements so far and its end grow by a node. *)
Definition attach (head current_item new_item : Z) : M Z :=
  if head =? NULL then fret new_item
  else
    mod_item current_item (set_next new_item);;;
    mod_item new_item (set_prev current_item);;;
    fret head.

Definition advance (b : parse_buffer) : result parse_buffer := buffer_skip_whitespace (set_offset (offset b + 1) b).

(** The label [fail] of parse_array and parse_object. *)
Definition fail_list (head : Z) (b : parse_buffer) : M (bool * parse_buffer) :=
  (if negb (head =? NULL) then cJSON_Delete head else fret tt);;; fret (false, b).

(** Their label [success]. *)
Definition close_list (item ty head current_item : Z) (b : parse_buffer) : M (bool * parse_buffer) :=
  (if negb (head =? NULL) then mod_item head (set_prev current_item) else fret tt);;;
  mod_item item (λ n, set_child head (set_type ty n));;;
  fret (true, set_offset (offset b + 1) (set_depth (depth b - 1) b)).

Fixpoint parse_value (fuel : nat) (item : Z) (b : parse_buffer) : M (bool * parse_buffer) :=
  match fuel with
  | O => ffail OutOfFuel
  | S fuel =>
      if can_read b 4 && starts b (lit "null") then
        mod_item item (set_type cJSON_NULL);;; fret (true, set_offset (offset b + 4) b)
      else if can_read b 5 && starts b (lit "false") then
        mod_item item (set_type cJSON_False);;; fret (true, set_offset (offset b + 5) b)
      else if can_read b 4 && starts b (lit "true") then
        mod_item item (λ n, set_valueint 1 (set_type cJSON_True n));;; fret (true, set_offset (offset b + 4) b)
      else if negb (can_access b 0) then fret (false, b)
      else
        c <-- flift (here b);;
        if c =? 34 then parse_string item b
        else if (c =? 45) || ((48 <=? c) && (c <=? 57)) then parse_number item b
        else if c =? 91 then parse_array fuel item b
        else if c =? 123 then parse_object fuel item b
        else fret (false, b)
  end
with parse_array (fuel : nat) (item : Z) (b : parse_buffer) : M (bool * parse_buffer) :=
  match fuel with
  | O => ffail OutOfFuel
  | S fuel =>
      if CJSON_NESTING_LIMIT <=? depth b then fret (false, b)
      else
        let b := set_depth (depth b + 1) b in
        c <-- flift (here b);;
        if negb (c =? 91) then fail_list NULL b
        else
          b <-- flift (advance b);;
          e <-- flift (sees b 93);;
          if e then close_list item cJSON_Array NULL NULL b
          else if negb (can_access b 0) then fail_list NULL (set_offset (offset b - 1) b)
          else parse_elements fuel item NULL NULL (set_offset (offset b - 1) b)
  end
with parse_elements (fuel : nat) (item head current_item : Z) (b : parse_buffer) : M (bool * parse_buffer) :=
  match fuel with
  | O => ffail OutOfFuel
  | S fuel =>
      new_item <-- cJSON_New_Item;;
      if new_item =? NULL then fail_list head b
      else
        head <-- attach head current_item new_item;;
        b <-- flift (advance b);;
        r <-- parse_value fuel new_item b;;
        let '(ok, b) := r in
        if negb ok then fail_list head b
        else
          b <-- flift (buffer_skip_whitespace b);;
          more <-- flift (sees b 44);;
          if more then parse_elements fuel item head new_item b
          else
            e <-- flift (sees b 93);;
            if negb e then fail_list head b else close_list item cJSON_Array head new_item b
  end
with parse_object (fuel : nat) (item : Z) (b : parse_buffer) : M (bool * parse_buffer) :=
  match fuel with
  | O => ffail OutOfFuel
  | S fuel =>
      if CJSON_NESTING_LIMIT <=? depth b then fret (false, b)
      else
        let b := set_depth (depth b + 1) b in
        e <-- flift (sees b 123);;
        if negb e then fail_list NULL b
        else
          b <-- flift (advance b);;
          e <-- flift (sees b 125);;
          if e then close_list item cJSON_Object NULL NULL b
          else if negb (can_access b 0) then fail_list NULL (set_offset (offset b - 1) b)
          else parse_members fuel item NULL NULL (set_offset (offset b - 1) b)
  end
with parse_members (fuel : nat) (item head current_item : Z) (b : parse_buffer) : M (bool * parse_buffer) :=
  match fuel with
  | O => ffail OutOfFuel
  | S fuel =>
      new_item <-- cJSON_New_Item;;
      if new_item =? NULL then fail_list head b
      else
        head <-- attach head current_item new_item;;
        b <-- flift (advance b);;
        r <-- parse_string new_item b;;
        let '(ok, b) := r in
        if negb ok then fail_list head b
        else
          b <-- flift (buffer_skip_whitespace b);;
          mod_item new_item (λ n, set_valuestring NULL (set_string (j_valuestring n) n));;;
          e <-- flift (sees b 58);;
          if negb e then fail_list head b
          else
            b <-- flift (advance b);;
            r <-- parse_value fuel new_item b;;
            let '(ok, b) := r in
            if negb ok then fail_list head b
            else
              b <-- flift (buffer_skip_whitespace b);;
              more <-- flift (sees b 44);;
              if more then parse_members fuel item head new_item b
              else
                e <-- flift (sees b 125);;
                if negb e then fail_list head b else close_list item cJSON_Object head new_item b
  end.

(** A value that is nested takes a character and three calls. *)
Definition parse_fuel (buffer_length : Z) : nat := S (S (3 * Z.to_nat buffer_length)).

(** The root or NULL, and the place in the text where parsing stopped: the one
    return_parse_end gets, and after a failure the one cJSON_GetErrorPtr gives. *)
Definition cJSON_ParseWithLengthOpts (value : option (list Z)) (buffer_length : Z) (require_null_terminated : bool) : M (Z * Z) :=
  match value with
  | None => fret (NULL, 0)
  | Some value =>
      let fail b := fret (NULL, if offset b <? blen b then offset b else if 0 <? blen b then blen b - 1 else 0) in
      if buffer_length =? 0 then fret (NULL, 0)
      else
        let b := {| content := value; blen := buffer_length; offset := 0; depth := 0 |} in
        item <-- cJSON_New_Item;;
        if item =? NULL then fail b
        else
          match skip_utf8_bom b with
          | None => cJSON_Delete item;;; fail b
          | Some b =>
              b <-- flift (buffer_skip_whitespace b);;
              r <-- parse_value (parse_fuel buffer_length) item b;;
              let '(ok, b) := r in
              if negb ok then cJSON_Delete item;;; fail b
              else if require_null_terminated then
                b <-- flift (buffer_skip_whitespace b);;
                c <-- (if blen b <=? offset b then fret 1 else flift (here b));;
                if negb (c =? 0) then cJSON_Delete item;;; fail b else fret (item, offset b)
              else fret (item, offset b)
          end
  end.

(** The text has its end mark behind it, and is as long as strlen says. *)
Definition cJSON_ParseWithOpts (value : option (list Z)) (require_null_terminated : bool) : M (Z * Z) :=
  match value with
  | None => fret (NULL, 0)
  | Some s => cJSON_ParseWithLengthOpts (Some (s ++ [0])) (zlen s + 1) require_null_terminated
  end.
Definition cJSON_Parse (value : option (list Z)) : M Z := r <-- cJSON_ParseWithOpts value false;; fret r.1.
Definition cJSON_ParseWithLength (value : option (list Z)) (buffer_length : Z) : M Z :=
  r <-- cJSON_ParseWithLengthOpts value buffer_length false;; fret r.1.

(** ** Printing *)

Record printbuffer := { pb_buffer : Z; pb_length : Z; pb_offset : Z; pb_depth : Z; pb_noalloc : bool; pb_format : bool }.
Definition pb_set_offset v p := {| pb_buffer := pb_buffer p; pb_length := pb_length p; pb_offset := v; pb_depth := pb_depth p;
  pb_noalloc := pb_noalloc p; pb_format := pb_format p |}.
Definition pb_set_depth v p := {| pb_buffer := pb_buffer p; pb_length := pb_length p; pb_offset := pb_offset p; pb_depth := v;
  pb_noalloc := pb_noalloc p; pb_format := pb_format p |}.
Definition pb_set_buffer a n p := {| pb_buffer := a; pb_length := n; pb_offset := pb_offset p; pb_depth := pb_depth p;
  pb_noalloc := pb_noalloc p; pb_format := pb_format p |}.

(** False for the result NULL; else the place to write is at the offset. *)
Definition ensure (p : printbuffer) (needed : Z) : M (bool * printbuffer) :=
  if pb_buffer p =? NULL then fret (false, p)
  else if (0 <? pb_length p) && (pb_length p <=? pb_offset p) then fret (false, p)
  else if INT_MAX <? needed then fret (false, p)
  else
    let needed := needed + pb_offset p + 1 in
    if needed <=? pb_length p then fret (true, p)
    else if pb_noalloc p then fret (false, p)
    else if (INT_MAX / 2 <? needed) && (INT_MAX <? needed) then fret (false, p)
    else
      let newsize := if INT_MAX / 2 <? needed then INT_MAX else needed * 2 in
      newbuffer <-- reallocate (pb_buffer p) newsize;;
      if newbuffer =? NULL then deallocate (pb_buffer p);;; fret (false, pb_set_buffer NULL 0 p)
      else fret (true, pb_set_buffer newbuffer newsize p).

(** Characters written [at] bytes behind the offset. *)
Definition pb_write (p : printbuffer) (at_ : Z) (d : list Z) : M unit :=
  l <-- get_bytes (pb_buffer p);;
  l <-- flift (store (pb_offset p + at_) d l);;
  put (pb_buffer p) (JBytes l).

Definition update_offset (p : printbuffer) : M printbuffer :=
  if pb_buffer p =? NULL then fret p
  else
    l <-- get_bytes (pb_buffer p);;
    match until_end (drop (Z.to_nat (pb_offset p)) l) with
    | Some t => fret (pb_set_offset (pb_offset p + zlen t) p)
    | None => ffail OutOfBounds
    end.

(** A fixed text with its end mark behind it; [needed] is what is asked for. *)
Definition print_word (p : printbuffer) (needed : Z) (d : list Z) : M (bool * printbuffer) :=
  r <-- ensure p needed;;
  let '(ok, p) := r in
  if negb ok then fret (false, p) else pb_write p 0 (d ++ [0]);;; fret (true, p).

Definition print_number (item : Z) (p : printbuffer) : M (bool * printbuffer) :=
  n <-- get_item item;;
  let number_buffer := number_text (j_valuedouble n) (j_valueint n) in
  if 25 <? zlen number_buffer then fret (false, p)
  else
    r <-- print_word p (zlen number_buffer + 1) number_buffer;;
    let '(ok, p) := r in
    if negb ok then fret (false, p) else fret (true, pb_set_offset (pb_offset p + zlen number_buffer) p).

(** The letter of an escape sequence of one character. *)
Definition short_escape (c : Z) : option Z :=
  if c =? 34 then Some 34 else if c =? 92 then Some 92 else if c =? 8 then Some 98 else if c =? 12 then Some 102
  else if c =? 10 then Some 110 else if c =? 13 then Some 114 else if c =? 9 then Some 116 else None.
Definition hex_char (v : Z) : Z := if v <? 10 then 48 + v else 87 + v.
(** "u%04x" of a byte *)
Definition unicode_escape (c : Z) : list Z := [117; 48; 48; hex_char (c / 16); hex_char (c mod 16)].
Definition escape (c : Z) : list Z :=
  if (31 <? c) && negb (c =? 34) && negb (c =? 92) then [c]
  else 92 :: match short_escape c with Some e => [e] | None => unicode_escape c end.
Definition escape_extra (c : Z) : Z :=
  match short_escape c with Some _ => 1 | None => if c <? 32 then 5 else 0 end.

Definition print_string_ptr (input : Z) (p : printbuffer) : M (bool * printbuffer) :=
  if input =? NULL then print_word p 3 [34; 34]
  else
    s <-- c_str input;;
    let escape_characters := foldr (λ c k, escape_extra c + k) 0 s in
    let output_length := zlen s + escape_characters in
    r <-- ensure p (output_length + 3);;
    let '(ok, p) := r in
    if negb ok then fret (false, p)
    else if escape_characters =? 0 then
      pb_write p 0 [34];;; pb_write p 1 s;;; pb_write p (output_length + 1) [34; 0];;; fret (true, p)
    else
      pb_write p 0 [34];;; pb_write p 1 (concat (map escape s));;; pb_write p (output_length + 1) [34; 0];;; fret (true, p).

Definition print_string (item : Z) (p : printbuffer) : M (bool * printbuffer) :=
  n <-- get_item item;; print_string_ptr (j_valuestring n) p.

Definition tabs (n : Z) : list Z := replicate (Z.to_nat n) 9.

(** Behind a key: the colon. *)
Definition print_colon (p : printbuffer) : M (bool * printbuffer) :=
  let len := if pb_format p then 2 else 1 in
  r <-- ensure p len;;
  let '(ok, p) := r in
  if negb ok then fret (false, p)
  else pb_write p 0 (if pb_format p then [58; 9] else [58]);;; fret (true, pb_set_offset (pb_offset p + len) p).

(** In front of a key: the indentation. *)
Definition print_indent (p : printbuffer) : M (bool * printbuffer) :=
  if pb_format p then
    r <-- ensure p (pb_depth p);;
    let '(ok, p) := r in
    if negb ok then fret (false, p)
    else pb_write p 0 (tabs (pb_depth p));;; fret (true, pb_set_offset (pb_offset p + pb_depth p) p)
  else fret (true, p).

(** Behind a member: a comma unless it is the last, and a new line. *)
Definition print_comma (last : bool) (p : printbuffer) : M (bool * printbuffer) :=
  let d := (if last then [] else [44]) ++ (if pb_format p then [10] else []) in
  r <-- ensure p (zlen d + 1);;
  let '(ok, p) := r in
  if negb ok then fret (false, p) else pb_write p 0 (d ++ [0]);;; fret (true, pb_set_offset (pb_offset p + zlen d) p).

(** Behind an element that is not the last. *)
Definition print_array_comma (p : printbuffer) : M (bool * printbuffer) :=
  let d := if pb_format p then [44; 32] else [44] in
  r <-- ensure p (zlen d + 1);;
  let '(ok, p) := r in
  if negb ok then fret (false, p) else pb_write p 0 (d ++ [0]);;; fret (true, pb_set_offset (pb_offset p + zlen d) p).

(** A step that gives up when its result is false. *)
Notation "p <-! m ;; k" :=
  (fbind m (λ r, let '(ok, p) := r in if negb ok then fret (false, p) else k%fw))
  (at level 20, m at level 99, k at level 200, right associativity) : fw_scope.

Fixpoint print_value (fuel : nat) (item : Z) (p : printbuffer) : M (bool * printbuffer) :=
  match fuel with
  | O => ffail OutOfFuel
  | S fuel =>
      if item =? NULL then fret (false, p)
      else
        n <-- get_item item;;
        let k := kind (j_type n) in
        if k =? cJSON_NULL then print_word p 5 (lit "null")
        else if k =? cJSON_False then print_word p 6 (lit "false")
        else if k =? cJSON_True then print_word p 5 (lit "true")
        else if k =? cJSON_Number then print_number item p
        else if k =? cJSON_Raw then
          if j_valuestring n =? NULL then fret (false, p)
          else s <-- c_str (j_valuestring n);; print_word p (zlen s + 1) s
        else if k =? cJSON_String then print_string item p
        else if k =? cJSON_Array then
          p <-! ensure p 1;;
          pb_write p 0 [91];;;
          print_elements fuel (j_child n) (pb_set_depth (pb_depth p + 1) (pb_set_offset (pb_offset p + 1) p))
        else if k =? cJSON_Object then
          let len := if pb_format p then 2 else 1 in
          p <-! ensure p (len + 1);;
          pb_write p 0 (if pb_format p then [123; 10] else [123]);;;
          print_members fuel (j_child n) (pb_set_depth (pb_depth p + 1) (pb_set_offset (pb_offset p + len) p))
        else fret (false, p)
  end
with print_elements (fuel : nat) (current_element : Z) (p : printbuffer) : M (bool * printbuffer) :=
  match fuel with
  | O => ffail OutOfFuel
  | S fuel =>
      if current_element =? NULL then
        p <-! print_word p 2 [93];;
        fret (true, pb_set_depth (pb_depth p - 1) p)
      else
        p <-! print_value fuel current_element p;;
        p <-- update_offset p;;
        n <-- get_item current_element;;
        p <-! (if negb (j_next n =? NULL) then print_array_comma p else fret (true, p));;
        print_elements fuel (j_next n) p
  end
with print_members (fuel : nat) (current_item : Z) (p : printbuffer) : M (bool * printbuffer) :=
  match fuel with
  | O => ffail OutOfFuel
  | S fuel =>
      if current_item =? NULL then
        p <-! ensure p (if pb_format p then pb_depth p + 1 else 2);;
        pb_write p 0 ((if pb_format p then tabs (pb_depth p - 1) else []) ++ [125; 0]);;;
        fret (true, pb_set_depth (pb_depth p - 1) p)
      else
        p <-! print_indent p;;
        n <-- get_item current_item;;
        p <-! print_string_ptr (j_string n) p;;
        p <-- update_offset p;;
        p <-! print_colon p;;
        p <-! print_value fuel current_item p;;
        p <-- update_offset p;;
        p <-! print_comma (j_next n =? NULL) p;;
        print_members fuel (j_next n) p
  end.

(** Every node takes at most two calls. *)
Definition print_fuel (n : nat) : nat := S (S (2 * n)).

Definition print (item : Z) (format : bool) : M Z :=
  buffer <-- alloc (JBytes (replicate 256 uninit));;
  if buffer =? NULL then fret NULL
  else
    n <-- heap_size;;
    r <-- print_value (print_fuel n) item
            {| pb_buffer := buffer; pb_length := 256; pb_offset := 0; pb_depth := 0; pb_noalloc := false; pb_format := format |};;
    let '(ok, p) := r in
    if negb ok then deallocate (pb_buffer p);;; fret NULL
    else
      p <-- update_offset p;;
      printed <-- reallocate (pb_buffer p) (pb_offset p + 1);;
      if printed =? NULL then deallocate (pb_buffer p);;; fret NULL else fret printed.

Definition cJSON_Print (item : Z) : M Z := print item true.
Definition cJSON_PrintUnformatted (item : Z) : M Z := print item false.

Definition cJSON_PrintBuffered (item prebuffer : Z) (fmt : bool) : M Z :=
  if prebuffer <? 0 then fret NULL
  else
    buffer <-- alloc (JBytes (replicate (Z.to_nat prebuffer) uninit));;
    if buffer =? NULL then fret NULL
    else
      n <-- heap_size;;
      r <-- print_value (print_fuel n) item
              {| pb_buffer := buffer; pb_length := prebuffer; pb_offset := 0; pb_depth := 0; pb_noalloc := false;
                 pb_format := fmt |};;
      let '(ok, p) := r in
      if negb ok then deallocate (pb_buffer p);;; fret NULL else fret (pb_buffer p).

Definition cJSON_PrintPreallocated (item buffer len : Z) (format : bool) : M bool :=
  if (len <? 0) || (buffer =? NULL) then fret false
  else
    n <-- heap_size;;
    r <-- print_value (print_fuel n) item
            {| pb_buffer := buffer; pb_length := len; pb_offset := 0; pb_depth := 0; pb_noalloc := true; pb_format := format |};;
    fret r.1.

(** ** Access *)

Definition tolower (c : Z) : Z := if (65 <=? c) && (c <=? 90) then c + 32 else c.
(** 0 for texts that differ at most in the case of their letters. *)
Fixpoint case_insensitive_loop (s t : list Z) : Z :=
  match s, t with
  | a :: s, b :: t => if tolower a =? tolower b then case_insensitive_loop s t else tolower a - tolower b
  | [], [] => 0
  | a :: _, [] => tolower a
  | [], b :: _ => - tolower b
  end.
Definition case_insensitive_strcmp (string1 string2 : option (list Z)) : Z :=
  match string1, string2 with
  | Some s, Some t => case_insensitive_loop s t
  | _, _ => 1
  end.

(** The text at an address that may be NULL. *)
Definition c_str_opt (p : Z) : M (option (list Z)) := if p =? NULL then fret None else s <-- c_str p;; fret (Some s).

Fixpoint size_loop (fuel : nat) (child size : Z) : M Z :=
  match fuel with
  | O => ffail OutOfFuel
  | S fuel => if child =? NULL then fret size else n <-- get_item child;; size_loop fuel (j_next n) (size + 1)
  end.
Definition cJSON_GetArraySize (array : Z) : M Z :=
  if array =? NULL then fret 0
  else n <-- get_item array;; k <-- heap_size;; size <-- size_loop (S k) (j_child n) 0;; fret (s32 size).

Fixpoint index_loop (fuel : nat) (current_child index : Z) : M Z :=
  match fuel with
  | O => ffail OutOfFuel
  | S fuel =>
      if negb (current_child =? NULL) && (0 <? index) then
        n <-- get_item current_child;; index_loop fuel (j_next n) (index - 1)
      else fret current_child
  end.
Definition get_array_item (array index : Z) : M Z :=
  if array =? NULL then fret NULL
  else n <-- get_item array;; k <-- heap_size;; index_loop (S k) (j_child n) index.
Definition cJSON_GetArrayItem (array index : Z) : M Z := if index <? 0 then fret NULL else get_array_item array index.

Fixpoint member_loop (fuel : nat) (current_element : Z) (name : list Z) (case_sensitive : bool) : M Z :=
  match fuel with
  | O => ffail OutOfFuel
  | S fuel =>
      if current_element =? NULL then fret NULL
      else
        n <-- get_item current_element;;
        s <-- c_str_opt (j_string n);;
        let goes_on := if case_sensitive then match s with Some s => negb (bool_decide (name = s)) | None => false end
                       else negb (case_insensitive_strcmp (Some name) s =? 0) in
        if goes_on then member_loop fuel (j_next n) name case_sensitive
        else fret (match s with Some _ => current_element | None => NULL end)
  end.
Definition get_object_item (object : Z) (name : option (list Z)) (case_sensitive : bool) : M Z :=
  match name with
  | None => fret NULL
  | Some name =>
      if object =? NULL then fret NULL
      else n <-- get_item object;; k <-- heap_size;; member_loop (S k) (j_child n) name case_sensitive
  end.
Definition cJSON_GetObjectItem (object : Z) (string : option (list Z)) : M Z := get_object_item object string false.
Definition cJSON_GetObjectItemCaseSensitive (object : Z) (string : option (list Z)) : M Z := get_object_item object string true.
Definition cJSON_HasObjectItem (object : Z) (string : option (list Z)) : M bool :=
  p <-- cJSON_GetObjectItem object string;; fret (negb (p =? NULL)).

Definition is_kind (item k : Z) : M bool :=
  if item =? NULL then fret false else n <-- get_item item;; fret (kind (j_type n) =? k).
Definition cJSON_IsInvalid (item : Z) : M bool := is_kind item cJSON_Invalid.
Definition cJSON_IsFalse (item : Z) : M bool := is_kind item cJSON_False.
Definition cJSON_IsTrue (item : Z) : M bool := is_kind item cJSON_True.
Definition cJSON_IsBool (item : Z) : M bool :=
  if item =? NULL then fret false else n <-- get_item item;; fret (has_flag (j_type n) (Z.lor cJSON_True cJSON_False)).
Definition cJSON_IsNull (item : Z) : M bool := is_kind item cJSON_NULL.
Definition cJSON_IsNumber (item : Z) : M bool := is_kind item cJSON_Number.
Definition cJSON_IsString (item : Z) : M bool := is_kind item cJSON_String.
Definition cJSON_IsArray (item : Z) : M bool := is_kind item cJSON_Array.
Definition cJSON_IsObject (item : Z) : M bool := is_kind item cJSON_Object.
Definition cJSON_IsRaw (item : Z) : M bool := is_kind item cJSON_Raw.

Definition cJSON_GetStringValue (item : Z) : M Z :=
  b <-- cJSON_IsString item;; if negb b then fret NULL else n <-- get_item item;; fret (j_valuestring n).
Definition cJSON_GetNumberValue (item : Z) : M double :=
  b <-- cJSON_IsNumber item;; if negb b then fret S754_nan else n <-- get_item item;; fret (j_valuedouble n).

(** ** Insertion *)

Definition suffix_object (prev item : Z) : M unit := mod_item prev (set_next item);;; mod_item item (set_prev prev).

Definition create_reference (item : Z) : M Z :=
  if item =? NULL then fret NULL
  else
    reference <-- cJSON_New_Item;;
    if reference =? NULL then fret NULL
    else
      n <-- get_item item;;
      mod_item reference (λ _, set_next NULL (set_prev NULL (set_type (Z.lor (j_type n) cJSON_IsReference) (set_string NULL n))));;;
      fret reference.

Definition add_item_to_array (array item : Z) : M bool :=
  if (item =? NULL) || (array =? NULL) || (array =? item) then fret false
  else
    a <-- get_item array;;
    (if j_child a =? NULL then
       mod_item array (set_child item);;; mod_item item (λ n, set_next NULL (set_prev item n))
     else
       c <-- get_item (j_child a);;
       if negb (j_prev c =? NULL) then
         suffix_object (j_prev c) item;;; mod_item (j_child a) (set_prev item)
       else fret tt);;;
    fret true.
Definition cJSON_AddItemToArray (array item : Z) : M bool := add_item_to_array array item.

(** With [constant_key] the address of the key is kept, otherwise a copy of the text. *)
Definition add_item_to_object (object : Z) (string : option (list Z)) (key_address item : Z) (constant_key : bool) : M bool :=
  match string with
  | None => fret false
  | Some s =>
      if (object =? NULL) || (item =? NULL) || (object =? item) then fret false
      else
        new_key <-- (if constant_key then fret key_address else cJSON_strdup (Some s));;
        if new_key =? NULL then fret false
        else
          n <-- get_item item;;
          (if negb (has_flag (j_type n) cJSON_StringIsConst) && negb (j_string n =? NULL) then deallocate (j_string n)
           else fret tt);;;
          mod_item item (λ n, set_type (if constant_key then Z.lor (j_type n) cJSON_StringIsConst
                                        else Z.ldiff (j_type n) cJSON_StringIsConst) (set_string new_key n));;;
          add_item_to_array object item
  end.
Definition cJSON_AddItemToObject (object : Z) (string : option (list Z)) (item : Z) : M bool :=
  add_item_to_object object string NULL item false.
Definition cJSON_AddItemToObjectCS (object key_address item : Z) : M bool :=
  s <-- c_str_opt key_address;; add_item_to_object object s key_address item true.
Definition cJSON_AddItemReferenceToArray (array item : Z) : M bool :=
  if array =? NULL then fret false else r <-- create_reference item;; add_item_to_array array r.
Definition cJSON_AddItemReferenceToObject (object : Z) (string : option (list Z)) (item : Z) : M bool :=
  match string with
  | None => fret false
  | Some s =>
      if object =? NULL then fret false
      else r <-- create_reference item;; add_item_to_object object (Some s) NULL r false
  end.

(** ** Construction *)

Definition create (f : cJSON → cJSON) : M Z :=
  item <-- cJSON_New_Item;;
  (if negb (item =? NULL) then mod_item item f else fret tt);;;
  fret item.
Definition cJSON_CreateNull : M Z := create (set_type cJSON_NULL).
Definition cJSON_CreateTrue : M Z := create (set_type cJSON_True).
Definition cJSON_CreateFalse : M Z := create (set_type cJSON_False).
Definition cJSON_CreateBool (boolean : bool) : M Z := create (set_type (if boolean then cJSON_True else cJSON_False)).
Definition cJSON_CreateNumber (num : double) : M Z := create (set_number num).
Definition create_text (ty : Z) (string : option (list Z)) : M Z :=
  item <-- cJSON_New_Item;;
  if item =? NULL then fret NULL
  else
    mod_item item (set_type ty);;;
    s <-- cJSON_strdup string;;
    mod_item item (set_valuestring s);;;
    if s =? NULL then cJSON_Delete item;;; fret NULL else fret item.
Definition cJSON_CreateString (string : option (list Z)) : M Z := create_text cJSON_String string.
Definition cJSON_CreateRaw (raw : option (list Z)) : M Z := create_text cJSON_Raw raw.
Definition cJSON_CreateStringReference (string : Z) : M Z :=
  create (λ n, set_valuestring string (set_type (Z.lor cJSON_String cJSON_IsReference) n)).
Definition cJSON_CreateObjectReference (child : Z) : M Z :=
  create (λ n, set_child child (set_type (Z.lor cJSON_Object cJSON_IsReference) n)).
Definition cJSON_CreateArrayReference (child : Z) : M Z :=
  create (λ n, set_child child (set_type (Z.lor cJSON_Array cJSON_IsReference) n)).
Definition cJSON_CreateArray : M Z := create (set_type cJSON_Array).
Definition cJSON_CreateObject : M Z := create (set_type cJSON_Object).

(** The item that was added, or NULL and the item is gone. *)
Definition add_created (object : Z) (name : option (list Z)) (create_item : M Z) : M Z :=
  item <-- create_item;;
  ok <-- add_item_to_object object name NULL item false;;
  if ok then fret item else cJSON_Delete item;;; fret NULL.
Definition cJSON_AddNullToObject (object : Z) name : M Z := add_created object name cJSON_CreateNull.
Definition cJSON_AddTrueToObject (object : Z) name : M Z := add_created object name cJSON_CreateTrue.
Definition cJSON_AddFalseToObject (object : Z) name : M Z := add_created object name cJSON_CreateFalse.
Definition cJSON_AddBoolToObject (object : Z) name (boolean : bool) : M Z := add_created object name (cJSON_CreateBool boolean).
Definition cJSON_AddNumberToObject (object : Z) name (number : double) : M Z := add_created object name (cJSON_CreateNumber number).
Definition cJSON_AddStringToObject (object : Z) name string : M Z := add_created object name (cJSON_CreateString string).
Definition cJSON_AddRawToObject (object : Z) name raw : M Z := add_created object name (cJSON_CreateRaw raw).
Definition cJSON_AddObjectToObject (object : Z) name : M Z := add_created object name cJSON_CreateObject.
Definition cJSON_AddArrayToObject (object : Z) name : M Z := add_created object name cJSON_CreateArray.

(** The loop of the functions that make an array of the items [ns]; [n] is the
    last one made, [p] the one before. *)
Fixpoint create_array_loop (ns : list (M Z)) (a p : Z) : M Z :=
  match ns with
  | [] =>
      n <-- get_item a;;
      (if negb (j_child n =? NULL) then mod_item (j_child n) (set_prev p) else fret tt);;;
      fret a
  | m :: ns =>
      n <-- m;;
      if n =? NULL then cJSON_Delete a;;; fret NULL
      else
        (if p =? NULL then mod_item a (set_child n) else suffix_object p n);;;
        create_array_loop ns a n
  end.
Definition create_array (ns : list (M Z)) : M Z :=
  a <-- cJSON_CreateArray;; if a =? NULL then fret NULL else create_array_loop ns a NULL.
Definition cJSON_CreateIntArray (numbers : list Z) : M Z := create_array (map (λ z, cJSON_CreateNumber (int_to_double z)) numbers).
Definition cJSON_CreateFloatArray (numbers : list double) : M Z := create_array (map cJSON_CreateNumber numbers).
Definition cJSON_CreateDoubleArray (numbers : list double) : M Z := create_array (map cJSON_CreateNumber numbers).
Definition cJSON_CreateStringArray (strings : list (option (list Z))) : M Z := create_array (map cJSON_CreateString strings).

(** ** Removal and replacement *)

Definition cJSON_DetachItemViaPointer (parent item : Z) : M Z :=
  if (parent =? NULL) || (item =? NULL) then fret NULL
  else
    a <-- get_item parent;;
    n <-- get_item item;;
    (if negb (item =? j_child a) then mod_item (j_prev n) (set_next (j_next n)) else fret tt);;;
    (if negb (j_next n =? NULL) then mod_item (j_next n) (set_prev (j_prev n)) else fret tt);;;
    (if item =? j_child a then mod_item parent (set_child (j_next n))
     else if j_next n =? NULL then mod_item (j_child a) (set_prev (j_prev n)) else fret tt);;;
    mod_item item (λ n, set_next NULL (set_prev NULL n));;;
    fret item.
Definition cJSON_DetachItemFromArray (array which : Z) : M Z :=
  if which <? 0 then fret NULL else item <-- get_array_item array which;; cJSON_DetachItemViaPointer array item.
Definition cJSON_DeleteItemFromArray (array which : Z) : M unit :=
  item <-- cJSON_DetachItemFromArray array which;; cJSON_Delete item.
Definition cJSON_DetachItemFromObject (object : Z) (string : option (list Z)) : M Z :=
  item <-- cJSON_GetObjectItem object string;; cJSON_DetachItemViaPointer object item.
Definition cJSON_DetachItemFromObjectCaseSensitive (object : Z) (string : option (list Z)) : M Z :=
  item <-- cJSON_GetObjectItemCaseSensitive object string;; cJSON_DetachItemViaPointer object item.
Definition cJSON_DeleteItemFromObject (object : Z) (string : option (list Z)) : M unit :=
  item <-- cJSON_DetachItemFromObject object string;; cJSON_Delete item.
Definition cJSON_DeleteItemFromObjectCaseSensitive (object : Z) (string : option (list Z)) : M unit :=
  item <-- cJSON_DetachItemFromObjectCaseSensitive object string;; cJSON_Delete item.

Definition cJSON_InsertItemInArray (array which newitem : Z) : M bool :=
  if which <? 0 then fret false
  else
    after_inserted <-- get_array_item array which;;
    if after_inserted =? NULL then add_item_to_array array newitem
    else
      after <-- get_item after_inserted;;
      mod_item newitem (λ n, set_prev (j_prev after) (set_next after_inserted n));;;
      mod_item after_inserted (set_prev newitem);;;
      a <-- get_item array;;
      (if after_inserted =? j_child a then mod_item array (set_child newitem)
       else mod_item (j_prev after) (set_next newitem));;;
      fret true.

Definition cJSON_ReplaceItemViaPointer (parent item replacement : Z) : M bool :=
  if (parent =? NULL) || (replacement =? NULL) || (item =? NULL) then fret false
  else if replacement =? item then fret true
  else
    n <-- get_item item;;
    mod_item replacement (λ r, set_prev (j_prev n) (set_next (j_next n) r));;;
    (if negb (j_next n =? NULL) then mod_item (j_next n) (set_prev replacement) else fret tt);;;
    a <-- get_item parent;;
    (if j_child a =? item then
       c <-- get_item (j_child a);;
       (if j_prev c =? j_child a then mod_item replacement (set_prev replacement) else fret tt);;;
       mod_item parent (set_child replacement)
     else
       r <-- get_item replacement;;
       (if negb (j_prev r =? NULL) then mod_item (j_prev r) (set_next replacement) else fret tt);;;
       (if j_next r =? NULL then mod_item (j_child a) (set_prev replacement) else fret tt));;;
    mod_item item (λ n, set_prev NULL (set_next NULL n));;;
    cJSON_Delete item;;;
    fret true.
Definition cJSON_ReplaceItemInArray (array which newitem : Z) : M bool :=
  if which <? 0 then fret false
  else item <-- get_array_item array which;; cJSON_ReplaceItemViaPointer array item newitem.
Definition replace_item_in_object (object : Z) (string : option (list Z)) (replacement : Z) (case_sensitive : bool) : M bool :=
  match string with
  | None => fret false
  | Some s =>
      if replacement =? NULL then fret false
      else
        n <-- get_item replacement;;
        (if negb (has_flag (j_type n) cJSON_StringIsConst) && negb (j_string n =? NULL) then deallocate (j_string n)
         else fret tt);;;
        key <-- cJSON_strdup (Some s);;
        mod_item replacement (set_string key);;;
        if key =? NULL then fret false
        else
          mod_item replacement (λ n, set_type (Z.ldiff (j_type n) cJSON_StringIsConst) n);;;
          item <-- get_object_item object (Some s) case_sensitive;;
          cJSON_ReplaceItemViaPointer object item replacement
  end.
Definition cJSON_ReplaceItemInObject (object : Z) (string : option (list Z)) (newitem : Z) : M bool :=
  replace_item_in_object object string newitem false.
Definition cJSON_ReplaceItemInObjectCaseSensitive (object : Z) (string : option (list Z)) (newitem : Z) : M bool :=
  replace_item_in_object object string newitem true.

(** NULL, or the address of the text that is in the item now. *)
Definition cJSON_SetValuestring (object : Z) (valuestring : list Z) : M Z :=
  n <-- get_item object;;
  if negb (has_flag (j_type n) cJSON_String) || has_flag (j_type n) cJSON_IsReference then fret NULL
  else
    old <-- c_str (j_valuestring n);;
    if zlen valuestring <=? zlen old then
      l <-- get_bytes (j_valuestring n);;
      l <-- flift (store 0 (valuestring ++ [0]) l);;
      put (j_valuestring n) (JBytes l);;;
      fret (j_valuestring n)
    else
      copy <-- cJSON_strdup (Some valuestring);;
      if copy =? NULL then fret NULL
      else
        deallocate (j_valuestring n);;;
        mod_item object (set_valuestring copy);;;
        fret copy.

(** ** Duplication *)

Fixpoint duplicate_loop (fuel : nat) (item : Z) (recurse : bool) : M Z :=
  match fuel with
  | O => ffail OutOfFuel
  | S fuel =>
      if item =? NULL then fret NULL
      else
        newitem <-- cJSON_New_Item;;
        if newitem =? NULL then fret NULL
        else
          n <-- get_item item;;
          mod_item newitem (λ m, set_valuedouble (j_valuedouble n) (set_valueint (j_valueint n)
                                   (set_type (Z.ldiff (j_type n) cJSON_IsReference) m)));;;
          s <-- c_str_opt (j_valuestring n);;
          v <-- cJSON_strdup s;;
          mod_item newitem (set_valuestring v);;;
          if negb (j_valuestring n =? NULL) && (v =? NULL) then cJSON_Delete newitem;;; fret NULL
          else
            k <-- (if has_flag (j_type n) cJSON_StringIsConst then fret (j_string n)
                   else s <-- c_str_opt (j_string n);; cJSON_strdup s);;
            mod_item newitem (set_string k);;;
            if negb (j_string n =? NULL) && (k =? NULL) then cJSON_Delete newitem;;; fret NULL
            else if negb recurse then fret newitem
            else duplicate_children fuel (j_child n) newitem NULL
  end
with duplicate_children (fuel : nat) (child newitem next : Z) : M Z :=
  match fuel with
  | O => ffail OutOfFuel
  | S fuel =>
      if child =? NULL then
        m <-- get_item newitem;;
        (if negb (j_child m =? NULL) then mod_item (j_child m) (set_prev next) else fret tt);;;
        fret newitem
      else
        newchild <-- duplicate_loop fuel child true;;
        if newchild =? NULL then cJSON_Delete newitem;;; fret NULL
        else
          (if negb (next =? NULL) then suffix_object next newchild else mod_item newitem (set_child newchild));;;
          n <-- get_item child;;
          duplicate_children fuel (j_next n) newitem newchild
  end.
Definition cJSON_Duplicate (item : Z) (recurse : bool) : M Z :=
  n <-- heap_size;; duplicate_loop (S (S (2 * n))) item recurse.

(** ** Comparison *)

Definition valid_kind (k : Z) : bool :=
  existsb (Z.eqb k) [cJSON_False; cJSON_True; cJSON_NULL; cJSON_Number; cJSON_String; cJSON_Raw; cJSON_Array; cJSON_Object].

Fixpoint compare_items (fuel : nat) (a b : Z) (case_sensitive : bool) : M bool :=
  match fuel with
  | O => ffail OutOfFuel
  | S fuel =>
      if (a =? NULL) || (b =? NULL) then fret false
      else
        m <-- get_item a;; n <-- get_item b;;
        let k := kind (j_type m) in
        if negb (k =? kind (j_type n)) || negb (valid_kind k) then fret false
        else if a =? b then fret true
        else if (k =? cJSON_False) || (k =? cJSON_True) || (k =? cJSON_NULL) then fret true
        else if k =? cJSON_Number then fret (compare_double (j_valuedouble m) (j_valuedouble n))
        else if (k =? cJSON_String) || (k =? cJSON_Raw) then
          if (j_valuestring m =? NULL) || (j_valuestring n =? NULL) then fret false
          else s <-- c_str (j_valuestring m);; t <-- c_str (j_valuestring n);; fret (bool_decide (s = t))
        else if k =? cJSON_Array then compare_elements fuel (j_child m) (j_child n) case_sensitive
        else
          ok <-- compare_members fuel (j_child m) b case_sensitive;;
          if ok then compare_members fuel (j_child n) a case_sensitive else fret false
  end
with compare_elements (fuel : nat) (a b : Z) (case_sensitive : bool) : M bool :=
  match fuel with
  | O => ffail OutOfFuel
  | S fuel =>
      if (a =? NULL) || (b =? NULL) then fret (a =? b)
      else
        ok <-- compare_items fuel a b case_sensitive;;
        if negb ok then fret false
        else m <-- get_item a;; n <-- get_item b;; compare_elements fuel (j_next m) (j_next n) case_sensitive
  end
with compare_members (fuel : nat) (a_element b : Z) (case_sensitive : bool) : M bool :=
  match fuel with
  | O => ffail OutOfFuel
  | S fuel =>
      if a_element =? NULL then fret true
      else
        m <-- get_item a_element;;
        s <-- c_str_opt (j_string m);;
        b_element <-- get_object_item b s case_sensitive;;
        if b_element =? NULL then fret false
        else
          ok <-- compare_items fuel a_element b_element case_sensitive;;
          if negb ok then fret false else compare_members fuel (j_next m) b case_sensitive
  end.
Definition cJSON_Compare (a b : Z) (case_sensitive : bool) : M bool :=
  n <-- heap_size;; compare_items (S (S (2 * n))) a b case_sensitive.

(** ** Minification

    In place: [json] and [into] are places in the same text. *)

Fixpoint skip_oneline (fuel : nat) (l : list Z) (json : Z) : result Z :=
  match fuel with
  | O => Fault OutOfFuel
  | S fuel =>
      c <-? byte_at l json;;
      if c =? 0 then Ok json else if c =? 10 then Ok (json + 1) else skip_oneline fuel l (json + 1)
  end.
Fixpoint skip_multiline (fuel : nat) (l : list Z) (json : Z) : result Z :=
  match fuel with
  | O => Fault OutOfFuel
  | S fuel =>
      c <-? byte_at l json;;
      if c =? 0 then Ok json
      else if c =? 42 then
        d <-? byte_at l (json + 1);; if d =? 47 then Ok (json + 2) else skip_multiline fuel l (json + 1)
      else skip_multiline fuel l (json + 1)
  end.
Definition skip_oneline_comment (l : list Z) (json : Z) : result Z := skip_oneline (S (List.length l)) l (json + 2).
Definition skip_multiline_comment (l : list Z) (json : Z) : result Z := skip_multiline (S (List.length l)) l (json + 2).

Fixpoint minify_string_loop (fuel : nat) (l : list Z) (json into : Z) : result (list Z * Z * Z) :=
  match fuel with
  | O => Fault OutOfFuel
  | S fuel =>
      c <-? byte_at l json;;
      if c =? 0 then Ok (l, json, into)
      else
        l <-? store into [c] l;;
        if c =? 34 then l <-? store into [34] l;; Ok (l, json + 1, into + 1)
        else if c =? 92 then
          d <-? byte_at l (json + 1);;
          if d =? 34 then l <-? store (into + 1) [d] l;; minify_string_loop fuel l (json + 2) (into + 2)
          else minify_string_loop fuel l (json + 1) (into + 1)
        else minify_string_loop fuel l (json + 1) (into + 1)
  end.
Definition minify_string (l : list Z) (json into : Z) : result (list Z * Z * Z) :=
  c <-? byte_at l json;;
  l <-? store into [c] l;;
  minify_string_loop (S (List.length l)) l (json + 1) (into + 1).

Fixpoint minify_loop (fuel : nat) (l : list Z) (json into : Z) : result (list Z) :=
  match fuel with
  | O => Fault OutOfFuel
  | S fuel =>
      c <-? byte_at l json;;
      if c =? 0 then store into [0] l
      else if (c =? 32) || (c =? 9) || (c =? 13) || (c =? 10) then minify_loop fuel l (json + 1) into
      else if c =? 47 then
        d <-? byte_at l (json + 1);;
        if d =? 47 then json <-? skip_oneline_comment l json;; minify_loop fuel l json into
        else if d =? 42 then json <-? skip_multiline_comment l json;; minify_loop fuel l json into
        else minify_loop fuel l (json + 1) into
      else if c =? 34 then
        r <-? minify_string l json into;;
        let '(l, json, into) := r in
        minify_loop fuel l json into
      else l <-? store into [c] l;; minify_loop fuel l (json + 1) (into + 1)
  end.
Definition cJSON_Minify (json : Z) : M unit :=
  if json =? NULL then fret tt
  else l <-- get_bytes json;; l <-- flift (minify_loop (S (List.length l)) l 0 0);; put json (JBytes l).

(** cJSON_malloc and cJSON_free *)
Definition cJSON_malloc (size : Z) : M Z := alloc (JBytes (replicate (Z.to_nat size) uninit)).
Definition cJSON_free (object : Z) : M unit := deallocate object.

(** The text in a block. *)

Definition text_at (s : mem jblock) (p : Z) : option (list Z) :=
  match blocks s !! p with Some (JBytes l) => until_end l | _ => None end.
