(* ===== verification/CJsonTree.v ===== *)
(** * JSON trees in memory

    A tree [jtree] is what a node and everything below it stand for; [item t p nx pv]
    owns such a tree at address [p], with the given links to its neighbours, and
    [kids] a list of siblings whose first knows the last.  On them: the release of
    trees, access to elements and members, and every operation that inserts,
    removes or replaces an element, as operations on lists of trees. *)

From Stdlib Require Import SpecFloat.
From S2P Require Import Prelude SepLog CJsonNum CJson.
#[local] Set Warnings "-register-all".
Local Open Scope fw_scope.

(** What a node says, without its links. *)
Record jinfo := { i_type : Z; i_valuestring : option (list Z); i_valueint : Z; i_valuedouble : double; i_name : option (list Z) }.
Inductive jtree := JTree (i : jinfo) (ks : list jtree).
Definition info (t : jtree) : jinfo := match t with JTree i _ => i end.
Definition children (t : jtree) : list jtree := match t with JTree _ ks => ks end.

Fixpoint jtree_ind' (P : jtree → Prop) (H : ∀ i ks, Forall P ks → P (JTree i ks)) (t : jtree) : P t :=
  match t with
  | JTree i ks => H i ks ((fix go ks : Forall P ks := match ks with [] => Forall_nil_2 P | k :: ks => Forall_cons_2 P k ks (jtree_ind' P H k) (go ks) end) ks)
  end.

Fixpoint tsize (t : jtree) : nat := match t with JTree _ ks => S (sum_list (map tsize ks)) end.
Definition tsizes (ts : list jtree) : nat := sum_list (map tsize ts).

Abbreviation hP := (hPropI jblock).

(** A node that owns its text, its name and its children. *)
Definition plain (ty : Z) : Prop := has_flag ty cJSON_IsReference = false ∧ has_flag ty cJSON_StringIsConst = false.

(** A text in a block that may be larger. *)
Definition own_str (p : Z) (s : option (list Z)) : hP :=
  match s with
  | None => ⟨ p = NULL ⟩
  | Some s => ∃ rest, p ↦ JBytes (s ++ 0 :: rest) ∗ ⟨ 0 ∉ s ⟩
  end%I.

Definition node (i : jinfo) (nx pv child vp np : Z) : cJSON :=
  {| j_next := nx; j_prev := pv; j_child := child; j_type := i_type i; j_valuestring := vp; j_valueint := i_valueint i;
     j_valuedouble := i_valuedouble i; j_string := np |}.

Definition last_addr (ps : list Z) (d : Z) : Z := default d (last ps).

Fixpoint item (t : jtree) (p nx pv : Z) {struct t} : hP :=
  match t with
  | JTree i ks =>
      ∃ vp np ps, p ↦ JNode (node i nx pv (hd NULL ps) vp np) ∗ ⟨ plain (i_type i) ⟩ ∗
        own_str vp (i_valuestring i) ∗ own_str np (i_name i) ∗
        (fix chain (ts : list jtree) (ps : list Z) (nx pv : Z) : hP :=
           match ts, ps with
           | [], [] => emp
           | t :: ts, p :: ps => item t p (hd nx ps) pv ∗ chain ts ps nx p
           | _, _ => False
           end) ks ps NULL (last_addr ps NULL)
  end%I.

(** Neighbours at the addresses [ps]. *)
Fixpoint chain (ts : list jtree) (ps : list Z) (nx pv : Z) : hP :=
  match ts, ps with
  | [], [] => emp
  | t :: ts, p :: ps => item t p (hd nx ps) pv ∗ chain ts ps nx p
  | _, _ => False
  end%I.

(** All children, from the address [child] of the first. *)
Definition kids (child : Z) (ks : list jtree) : hP :=
  (∃ ps, ⟨ child = hd NULL ps ⟩ ∗ chain ks ps NULL (last_addr ps NULL))%I.

Lemma item_eq i ks p nx pv :
  item (JTree i ks) p nx pv ⊣⊢
  ∃ vp np child, p ↦ JNode (node i nx pv child vp np) ∗ ⟨ plain (i_type i) ⟩ ∗ own_str vp (i_valuestring i) ∗
    own_str np (i_name i) ∗ kids child ks.
Proof.
  cbn [item]. iSplit.
  - iIntros "(%vp & %np & %ps & H & P & V & N & K)". iExists vp, np, (hd NULL ps). iFrame. by iPureIntro.
  - iIntros "(%vp & %np & %child & H & P & V & N & %ps & -> & K)". iExists vp, np, ps. iFrame.
Qed.

(** ** Steps on nodes and texts *)

Lemma wp_get_item mf p n (Φ : cJSON → hP) : ⊢ p ↦ JNode n -∗ (p ↦ JNode n -∗ Φ n) -∗ wp mf (get_item p) Φ.
Proof. iIntros "H K". unfold get_item. wp_load "H". wp_ret. by iApply "K". Qed.
Lemma wp_mod_item mf p n f (Φ : unit → hP) : ⊢ p ↦ JNode n -∗ (p ↦ JNode (f n) -∗ Φ tt) -∗ wp mf (mod_item p f) Φ.
Proof.
  iIntros "H K". unfold mod_item. wp_bind. iApply (wp_get_item with "H"). iIntros "H". wp_put "H". by iApply "K".
Qed.
Lemma wp_get_bytes mf p l (Φ : list Z → hP) : ⊢ p ↦ JBytes l -∗ (p ↦ JBytes l -∗ Φ l) -∗ wp mf (get_bytes p) Φ.
Proof. iIntros "H K". unfold get_bytes. wp_load "H". wp_ret. by iApply "K". Qed.

Lemma until_end_app s l : 0 ∉ s → until_end (s ++ 0 :: l) = Some s.
Proof.
  induction s as [|b s IH]; [done|]. intros H. apply not_elem_of_cons in H as [Hb H]. cbn [app until_end].
  rewrite (proj2 (Z.eqb_neq b 0)), IH by congruence. done.
Qed.
Lemma until_end_split l s : until_end l = Some s → ∃ r, l = s ++ 0 :: r ∧ 0 ∉ s.
Proof.
  revert s. induction l as [|b l IH]; intros s; cbn [until_end]; [done|]. destruct (Z.eqb_spec b 0) as [->|Hb].
  - intros [= <-]. exists l. split; [done|apply not_elem_of_nil].
  - destruct (until_end l) as [t|]; [|done]. intros [= <-]. destruct (IH t eq_refl) as (r & -> & Ht). exists r. split; [done|].
    apply not_elem_of_cons. split; congruence.
Qed.

Lemma wp_c_str mf p s (Φ : list Z → hP) :
  ⊢ own_str p (Some s) -∗ (own_str p (Some s) -∗ Φ s) -∗ wp mf (c_str p) Φ.
Proof.
  iIntros "(%r & H & %Hs) K". unfold c_str. wp_bind. iApply (wp_get_bytes with "H"). iIntros "H".
  rewrite until_end_app by done. wp_ret. iApply "K". iExists r. iFrame. by iPureIntro.
Qed.

Lemma own_str_null p s : own_str p s ⊢ ⌜p = NULL ↔ s = None⌝.
Proof.
  destruct s as [s|]; cbn [own_str].
  - iIntros "(%r & H & _)". iDestruct (points_to_not_null with "H") as %Hp. iPureIntro. done.
  - iIntros "%". iPureIntro. done.
Qed.

(** A text that may be missing is freed where it is owned. *)
Lemma wp_free_str mf p s (Φ : unit → hP) : ⊢ own_str p s -∗ Φ tt -∗ wp mf (deallocate p) Φ.
Proof.
  iIntros "H K". iDestruct (own_str_null with "H") as %Hp. unfold deallocate. destruct s as [s|]; cbn [own_str].
  - rewrite (proj2 (Z.eqb_neq p NULL)) by (intros E; by apply Hp in E). iDestruct "H" as (r) "[H _]". iApply (wp_dealloc with "H"). done.
  - rewrite (proj2 Hp) by done. iDestruct "H" as "%". by wp_ret.
Qed.

(** A walk over the links has an address at every place. *)
Lemma item_not_null t p nx pv : item t p nx pv ⊢ ⌜p ≠ NULL⌝.
Proof. destruct t. rewrite item_eq. iIntros "(% & % & % & H & _)". by iApply (points_to_not_null with "H"). Qed.
Lemma chain_length ts ps nx pv : chain ts ps nx pv ⊢ ⌜List.length ps = List.length ts⌝.
Proof.
  iIntros "H". iInduction ts as [|t ts] "IH" forall (ps pv); destruct ps as [|p ps]; cbn [chain]; try done.
  iDestruct "H" as "[_ H]". iDestruct ("IH" with "H") as %E. iPureIntro. cbn. lia.
Qed.

Lemma at_least_item t : ∀ p nx pv, item t p nx pv ⊢ at_least (tsize t).
Proof.
  induction t as [i ks IH] using jtree_ind'. intros p nx pv. cbn [tsize].
  assert (∀ ps nx pv, chain ks ps nx pv ⊢ at_least (tsizes ks)) as Hc.
  { unfold tsizes. clear i. induction IH as [|k ks Hk _ IHks]; intros ps nx' pv'; [apply at_least_0|].
    destruct ps as [|q ps]; [apply bi.False_elim|]. cbn [chain map sum_list]. rewrite Hk, IHks. apply at_least_sep. }
  rewrite item_eq. iIntros "(%vp & %np & %child & H & _ & V & N & %ps & _ & K)".
  iApply (at_least_sep 1). iSplitL "H".
  { by iApply at_least_points_to. }
  iApply (at_least_mono (0 + tsizes ks)%nat); [done|]. iApply at_least_sep. iSplitL "V N"; [|by iApply Hc].
  iApply (at_least_0 (own_str vp (i_valuestring i) ∗ own_str np (i_name i))%I). iFrame.
Qed.
Lemma at_least_chain ts ps nx pv : chain ts ps nx pv ⊢ at_least (tsizes ts).
Proof.
  revert ps pv. induction ts as [|t ts IH]; intros ps pv; [apply at_least_0|]. destruct ps as [|p ps]; [apply bi.False_elim|].
  cbn [chain]. rewrite at_least_item, IH. apply at_least_sep.
Qed.
Lemma length_le_tsizes ts : (List.length ts <= tsizes ts)%nat.
Proof. unfold tsizes. induction ts as [|[i ks] ts IH]; simpl in *; lia. Qed.

(** ** Chains *)

Lemma last_addr_cons p ps d : last_addr (p :: ps) d = last_addr ps p.
Proof.
  unfold last_addr. destruct ps as [|q ps]; [done|]. rewrite last_cons_cons. destruct (last (q :: ps)) eqn:E; [done|].
  by apply last_None in E.
Qed.
Lemma linked_app ts1 ts2 ps1 ps2 nx pv :
  List.length ps1 = List.length ts1 →
  chain (ts1 ++ ts2) (ps1 ++ ps2) nx pv ⊣⊢ chain ts1 ps1 (hd nx ps2) pv ∗ chain ts2 ps2 nx (last_addr ps1 pv).
Proof.
  revert ps1 pv. induction ts1 as [|t ts1 IH]; intros [|p ps1] pv Hl; try done; cbn [app chain].
  - iSplit; [iIntros "$"|iIntros "[_ $]"].
  - assert (hd nx (ps1 ++ ps2) = hd (hd nx ps2) ps1) as -> by (by destruct ps1). rewrite last_addr_cons.
    cbn in Hl. specialize (IH ps1 p ltac:(lia)). apply bi.equiv_entails in IH as [H1 H2].
    iSplit.
    + iIntros "[$ H]". by iApply H1.
    + iIntros "[[$ H1] H2]". iApply H2. iFrame.
Qed.

(** The rest of a chain behind its first element. *)
Lemma chain_cons t ts p ps nx pv : chain (t :: ts) (p :: ps) nx pv ⊣⊢ item t p (hd nx ps) pv ∗ chain ts ps nx p.
Proof. done. Qed.
Lemma chain_snoc ts ps t p nx pv :
  List.length ps = List.length ts →
  chain (ts ++ [t]) (ps ++ [p]) nx pv ⊣⊢ chain ts ps p pv ∗ item t p nx (last_addr ps pv).
Proof.
  intros Hl. pose proof (linked_app ts [t] ps [p] nx pv Hl) as H. apply bi.equiv_entails in H as [H1 H2]. cbn [chain hd] in *.
  iSplit.
  - iIntros "H". iDestruct (H1 with "H") as "($ & $ & _)".
  - iIntros "[H1 H2]". iApply H2. iFrame.
Qed.
Lemma last_item_snoc ps p d : last_addr (ps ++ [p]) d = p.
Proof. unfold last_addr. by rewrite last_snoc. Qed.

(** ** Release *)

Lemma wp_delete_chain mf ts : ∀ fuel ps pv (Φ : unit → hP),
  (tsizes ts < fuel)%nat → ⊢ chain ts ps NULL pv -∗ Φ tt -∗ wp mf (delete_loop fuel (hd NULL ps)) Φ.
Proof.
  assert (∀ k ts fuel ps pv (Φ : unit → hP), (tsizes ts <= k)%nat → (tsizes ts < fuel)%nat →
    ⊢ chain ts ps NULL pv -∗ Φ tt -∗ wp mf (delete_loop fuel (hd NULL ps)) Φ) as H; [|intros; by eapply H].
  clear ts. induction k as [|k IH]; intros ts fuel ps pv Φ Hk Hf; (destruct fuel as [|fuel]; [lia|]);
    destruct ts as [|[i ks] ts], ps as [|p ps]; cbn [chain delete_loop hd]; try (iIntros "[]"); try by (iIntros "_ K"; wp_ret).
  { unfold tsizes in Hk. simpl in Hk. lia. }
  rewrite item_eq. iIntros "[(%vp & %np & %child & H & %Hpl & V & N & %qs & -> & K) R] HΦ".
  iDestruct (points_to_not_null with "H") as %Hp. rewrite (proj2 (Z.eqb_neq p NULL)) by done. destruct Hpl as [Hr Hc].
  unfold tsizes in Hk, Hf. simpl in Hk, Hf. fold (tsizes ks) (tsizes ts) in Hk, Hf.
  wp_bind. iApply (wp_get_item with "H"). iIntros "H". cbn [j_type j_child j_valuestring j_string j_next node]. rewrite Hr, Hc.
  cbn [negb andb]. wp_bind. iAssert (wp mf (if negb (hd NULL qs =? NULL) then delete_loop fuel (hd NULL qs) else fret tt)
    (λ _, emp))%I with "[K]" as "D".
  { destruct (Z.eqb_spec (hd NULL qs) NULL) as [E|E]; cbn [negb].
    - destruct qs as [|q qs]; [|destruct ks as [|k' ks]; cbn [chain]; [done|iDestruct "K" as "[K K2]";
        iDestruct (item_not_null with "K") as %Hq; done]].
      destruct ks; cbn [chain]; [by wp_ret|done].
    - iApply (IH with "K"); [lia|lia|done]. }
  iApply (wp_wand with "D"). iIntros (_) "_". wp_bind.
  assert (∀ (q : Z) (o : option (list Z)) (Ψ : unit → hP),
    ⊢ own_str q o -∗ Ψ tt -∗ wp mf (if negb (q =? NULL) then deallocate q else fret tt) Ψ) as Hs.
  { intros q o Ψ. iIntros "S K". destruct (Z.eqb_spec q NULL) as [->|E]; cbn [negb]; [|by iApply (wp_free_str with "S")].
    iDestruct (own_str_null with "S") as %Hn. rewrite (proj1 Hn) by done. iDestruct "S" as "%". by wp_ret. }
  iApply (Hs with "V"). wp_bind. iApply (Hs with "N"). wp_bind. unfold deallocate at 1. rewrite (proj2 (Z.eqb_neq p NULL)) by done.
  iApply (wp_dealloc with "H"). iApply (IH with "R"); [lia|lia|done].
Qed.

(** A tree that is deleted leaves nothing behind. *)
Lemma wp_delete mf t p pv (Φ : unit → hP) : ⊢ item t p NULL pv -∗ Φ tt -∗ wp mf (cJSON_Delete p) Φ.
Proof.
  iIntros "H K". unfold cJSON_Delete. wp_bind. iApply (wp_heap_size with "H"); [apply at_least_item|]. iIntros (n Hn) "H".
  iApply (wp_delete_chain mf [t] (S n) [p] pv with "[H]"); [unfold tsizes; simpl; lia|cbn [chain hd]; by iFrame|done].
Qed.
Lemma wp_delete_null mf (Φ : unit → hP) : Φ tt ⊢ wp mf (cJSON_Delete NULL) Φ.
Proof.
  iIntros "K". unfold cJSON_Delete. wp_bind. iApply (wp_heap_size mf 0 emp%I); [apply at_least_0|done|].
  iIntros (n Hn) "_". cbn [delete_loop]. rewrite Z.eqb_refl. by wp_ret.
Qed.

(** ** Links *)

Lemma item_links t p nx pv :
  item t p nx pv ⊢ ∃ n, p ↦ JNode n ∗ ⟨ j_next n = nx ∧ j_prev n = pv ∧ j_type n = i_type (info t) ⟩ ∗
    (∀ nx' pv', p ↦ JNode (set_next nx' (set_prev pv' n)) -∗ item t p nx' pv').
Proof.
  destruct t as [i ks]. setoid_rewrite item_eq. iIntros "(%vp & %np & %child & H & P & V & N & K)".
  iExists _. iFrame "H". iSplitR; [by iPureIntro|]. iIntros (nx' pv') "H". iExists vp, np, child. iFrame.
Qed.

Lemma node_same n : set_next (j_next n) (set_prev (j_prev n) n) = n.
Proof. by destruct n. Qed.

Lemma wp_get_links mf t p nx pv (Φ : cJSON → hP) :
  ⊢ item t p nx pv -∗ (∀ n, ⟨ j_next n = nx ∧ j_prev n = pv ∧ j_type n = i_type (info t) ⟩ -∗ item t p nx pv -∗ Φ n) -∗ wp mf (get_item p) Φ.
Proof.
  iIntros "H K". iDestruct (item_links with "H") as "(%n & H & %Hn & R)". iApply (wp_get_item with "H"). iIntros "H".
  iApply ("K" with "[]"); [by iPureIntro|]. destruct Hn as (<- & <- & _). iApply "R". by rewrite node_same.
Qed.

Lemma wp_set_next mf t p nx pv nx' (Φ : unit → hP) :
  ⊢ item t p nx pv -∗ (item t p nx' pv -∗ Φ tt) -∗ wp mf (mod_item p (set_next nx')) Φ.
Proof.
  iIntros "H K". iDestruct (item_links with "H") as "(%n & H & %Hn & R)". iApply (wp_mod_item with "H"). iIntros "H".
  iApply "K". destruct Hn as (_ & <- & _). iApply "R". by destruct n.
Qed.
Lemma wp_set_prev mf t p nx pv pv' (Φ : unit → hP) :
  ⊢ item t p nx pv -∗ (item t p nx pv' -∗ Φ tt) -∗ wp mf (mod_item p (set_prev pv')) Φ.
Proof.
  iIntros "H K". iDestruct (item_links with "H") as "(%n & H & %Hn & R)". iApply (wp_mod_item with "H"). iIntros "H".
  iApply "K". destruct Hn as (<- & _). iApply "R". by destruct n.
Qed.
Lemma wp_set_links mf t p nx pv nx' pv' f (Φ : unit → hP) :
  (∀ n, f n = set_next nx' (set_prev pv' n)) →
  ⊢ item t p nx pv -∗ (item t p nx' pv' -∗ Φ tt) -∗ wp mf (mod_item p f) Φ.
Proof.
  iIntros (Hf) "H K". iDestruct (item_links with "H") as "(%n & H & _ & R)". iApply (wp_mod_item with "H"). rewrite Hf. iIntros "H".
  iApply "K". by iApply "R".
Qed.

(** The links at both ends of a chain. *)
Lemma wp_chain_set_next mf ts ps nx pv nx' d (Φ : unit → hP) :
  ps ≠ [] → ⊢ chain ts ps nx pv -∗ (chain ts ps nx' pv -∗ Φ tt) -∗ wp mf (mod_item (last_addr ps d) (set_next nx')) Φ.
Proof.
  iIntros (Hps) "H K". iDestruct (chain_length with "H") as %Hl. destruct (exists_last Hps) as (ps0 & p & ->).
  destruct ts as [|t0 ts0 _] using rev_ind; [rewrite length_app in Hl; cbn in Hl; lia|].
  rewrite !length_app in Hl. cbn in Hl. rewrite last_item_snoc, !chain_snoc by lia. iDestruct "H" as "[C I]".
  iApply (wp_set_next with "I"). iIntros "I". iApply "K". iFrame.
Qed.
Lemma wp_chain_set_prev mf ts ps nx pv pv' d (Φ : unit → hP) :
  ps ≠ [] → ⊢ chain ts ps nx pv -∗ (chain ts ps nx pv' -∗ Φ tt) -∗ wp mf (mod_item (hd d ps) (set_prev pv')) Φ.
Proof.
  iIntros (Hps) "H K". destruct ps as [|p ps]; [done|]. destruct ts as [|t ts]; cbn [chain hd]; [done|]. iDestruct "H" as "[I C]".
  iApply (wp_set_prev with "I"). iIntros "I". iApply "K". iFrame.
Qed.
Lemma chain_hd_null ts ps nx pv : chain ts ps nx pv ⊢ ⌜hd NULL ps = NULL ↔ ps = []⌝.
Proof.
  destruct ps as [|p ps]; [by iIntros "_"|]. destruct ts as [|t ts]; cbn [chain]; [iIntros "[]"|]. iIntros "[I _]".
  iDestruct (item_not_null with "I") as %Hp. by iPureIntro.
Qed.
Lemma chain_last_null ts ps nx pv : chain ts ps nx pv ⊢ ⌜last_addr ps NULL = NULL ↔ ps = []⌝.
Proof.
  iIntros "H". iDestruct (chain_length with "H") as %Hl. destruct ps as [|p ps _] using rev_ind; [by iPureIntro|].
  destruct ts as [|t0 ts0 _] using rev_ind; [rewrite length_app in Hl; cbn in Hl; lia|].
  rewrite !length_app in Hl. cbn in Hl. rewrite last_item_snoc, chain_snoc by lia. iDestruct "H" as "[C I]".
  iDestruct (item_not_null with "I") as %Hp. iPureIntro. split; [done|]. intros E. by apply app_nil in E as [_ ?].
Qed.

(** ** A parent with the addresses of its children *)

Definition opened (i : jinfo) (ks : list jtree) (p nx pv : Z) (ps : list Z) : hP :=
  (∃ vp np, p ↦ JNode (node i nx pv (hd NULL ps) vp np) ∗ ⟨ plain (i_type i) ⟩ ∗ own_str vp (i_valuestring i) ∗
     own_str np (i_name i) ∗ chain ks ps NULL (last_addr ps NULL))%I.

Lemma item_opened i ks p nx pv : item (JTree i ks) p nx pv ⊣⊢ ∃ ps, opened i ks p nx pv ps.
Proof.
  cbn [item]. unfold opened. iSplit.
  - iIntros "(%vp & %np & %ps & H)". iExists ps, vp, np. iFrame.
  - iIntros "(%ps & %vp & %np & H)". iExists vp, np, ps. iFrame.
Qed.

(** The parent and its children apart; the children may change in between. *)
Lemma opened_split i ks p nx pv ps :
  opened i ks p nx pv ps ⊢ ∃ n, p ↦ JNode n ∗ ⟨ j_child n = hd NULL ps ∧ p ≠ NULL ⟩ ∗ chain ks ps NULL (last_addr ps NULL) ∗
    (∀ ks' ps', p ↦ JNode (set_child (hd NULL ps') n) -∗ chain ks' ps' NULL (last_addr ps' NULL) -∗ opened i ks' p nx pv ps').
Proof.
  iIntros "(%vp & %np & H & P & V & N & C)". iDestruct (points_to_not_null with "H") as %Hp. iExists _. iFrame "H C".
  iSplitR; [by iPureIntro|]. iIntros (ks' ps') "H C". iExists vp, np. iFrame.
Qed.
Lemma node_child_same n c : j_child n = c → set_child c n = n.
Proof. intros <-. by destruct n. Qed.

(** ** Access *)

Lemma item_name t p nx pv :
  item t p nx pv ⊢ ∃ n, p ↦ JNode n ∗ ⟨ j_next n = nx ∧ j_prev n = pv ∧ j_type n = i_type (info t) ⟩ ∗
    own_str (j_string n) (i_name (info t)) ∗
    (p ↦ JNode n -∗ own_str (j_string n) (i_name (info t)) -∗ item t p nx pv).
Proof.
  destruct t as [i ks]. setoid_rewrite item_eq. iIntros "(%vp & %np & %child & H & P & V & N & K)".
  iExists _. iFrame "H N". iSplitR; [by iPureIntro|]. iIntros "H N". iExists vp, np, child. iFrame.
Qed.

Lemma wp_c_str_opt mf p o (Φ : option (list Z) → hP) :
  ⊢ own_str p o -∗ (own_str p o -∗ Φ o) -∗ wp mf (c_str_opt p) Φ.
Proof.
  iIntros "H K". iDestruct (own_str_null with "H") as %Hp. unfold c_str_opt. destruct o as [s|].
  - rewrite (proj2 (Z.eqb_neq p NULL)) by (intros E; by apply Hp in E). wp_bind. iApply (wp_c_str with "H"). iIntros "H".
    wp_ret. by iApply "K".
  - rewrite (proj2 (Z.eqb_eq p NULL)) by (by apply Hp). wp_ret. by iApply "K".
Qed.

Lemma wp_size_loop mf ts : ∀ fuel ps pv size (Φ : Z → hP), (List.length ts < fuel)%nat →
  ⊢ chain ts ps NULL pv -∗ (chain ts ps NULL pv -∗ Φ (size + zlen ts)) -∗ wp mf (size_loop fuel (hd NULL ps) size) Φ.
Proof.
  induction ts as [|t ts IH]; intros fuel ps pv size Φ Hf; (destruct fuel as [|fuel]; [lia|]); destruct ps as [|p ps];
    cbn [chain size_loop hd List.length] in *; try (by iIntros "[]").
  - iIntros "_ K". wp_ret. rewrite zlen_nil, Z.add_0_r. by iApply "K".
  - iIntros "[I C] K". iDestruct (item_not_null with "I") as %Hp. rewrite (proj2 (Z.eqb_neq p NULL)) by done. wp_bind.
    iApply (wp_get_links with "I"). iIntros (n) "(%Hn & _) I". rewrite Hn. iApply (IH with "C"); [lia|]. iIntros "C".
    rewrite zlen_cons. replace (size + 1 + zlen ts) with (size + (1 + zlen ts)) by lia. iApply "K". iFrame.
Qed.

Lemma wp_index_loop mf ts : ∀ fuel ps pv k (Φ : Z → hP), (List.length ts < fuel)%nat → 0 <= k →
  ⊢ chain ts ps NULL pv -∗ (chain ts ps NULL pv -∗ Φ (hd NULL (drop (Z.to_nat k) ps))) -∗ wp mf (index_loop fuel (hd NULL ps) k) Φ.
Proof.
  induction ts as [|t ts IH]; intros fuel ps pv k Φ Hf Hk; (destruct fuel as [|fuel]; [lia|]); destruct ps as [|p ps];
    cbn [chain index_loop hd List.length] in *; try (by iIntros "[]").
  - iIntros "_ K". cbn [negb andb Z.eqb NULL]. wp_ret. rewrite drop_nil. by iApply "K".
  - iIntros "[I C] K". iDestruct (item_not_null with "I") as %Hp. rewrite (proj2 (Z.eqb_neq p NULL)) by done. cbn [negb andb].
    destruct (Z.ltb_spec 0 k) as [H|H].
    + wp_bind. iApply (wp_get_links with "I"). iIntros (n) "(%Hn & _) I". rewrite Hn. iApply (IH with "C"); [lia|lia|]. iIntros "C".
      replace (Z.to_nat k) with (S (Z.to_nat (k - 1))) by lia. cbn [drop]. iApply "K". iFrame.
    + assert (k = 0) as -> by lia. wp_ret. iApply "K". iFrame.
Qed.

(** Whether a name fits, and the first member that has one. *)
Definition name_fits (case_sensitive : bool) (name s : list Z) : bool :=
  if case_sensitive then bool_decide (name = s) else case_insensitive_loop name s =? 0.
Fixpoint find_member (case_sensitive : bool) (name : list Z) (ts : list jtree) : option nat :=
  match ts with
  | [] => None
  | t :: ts =>
      match i_name (info t) with
      | Some s => if name_fits case_sensitive name s then Some O else S <$> find_member case_sensitive name ts
      | None => if case_sensitive then None else S <$> find_member case_sensitive name ts
      end
  end.
Definition addr_of (k : option nat) (ps : list Z) : Z := match k with Some k => hd NULL (drop k ps) | None => NULL end.

Lemma wp_member_loop mf name cs ts : ∀ fuel ps pv (Φ : Z → hP), (List.length ts < fuel)%nat →
  ⊢ chain ts ps NULL pv -∗ (chain ts ps NULL pv -∗ Φ (addr_of (find_member cs name ts) ps)) -∗
    wp mf (member_loop fuel (hd NULL ps) name cs) Φ.
Proof.
  induction ts as [|t ts IH]; intros fuel ps pv Φ Hf; (destruct fuel as [|fuel]; [lia|]); destruct ps as [|p ps];
    cbn [chain member_loop hd List.length find_member] in *; try (by iIntros "[]").
  - iIntros "_ K". wp_ret. by iApply "K".
  - iIntros "[I C] K". iDestruct (item_not_null with "I") as %Hp. rewrite (proj2 (Z.eqb_neq p NULL)) by done. wp_bind.
    iDestruct (item_name with "I") as "(%n & H & %Hn & N & R)". iApply (wp_get_item with "H"). iIntros "H". wp_bind.
    iApply (wp_c_str_opt with "N"). iIntros "N". iDestruct ("R" with "H N") as "I". destruct Hn as [-> _].
    assert (addr_of (S <$> find_member cs name ts) (p :: ps) = addr_of (find_member cs name ts) ps) as Hs
      by (by destruct (find_member cs name ts)).
    assert (⊢ item t p (hd NULL ps) pv -∗ chain ts ps NULL p -∗
      (item t p (hd NULL ps) pv ∗ chain ts ps NULL p -∗ Φ (addr_of (S <$> find_member cs name ts) (p :: ps))) -∗
      wp mf (member_loop fuel (hd NULL ps) name cs) Φ) as Hgo.
    { iIntros "I C K". iApply (IH with "C"); [lia|]. iIntros "C". rewrite <- Hs. iApply "K". iFrame. }
    destruct (i_name (info t)) as [s|]; cbn [case_insensitive_strcmp].
    + unfold name_fits. destruct cs; [destruct (bool_decide (name = s))|destruct (case_insensitive_loop name s =? 0)]; cbn [negb];
        try (iApply (Hgo with "I C K")); wp_ret; iApply "K"; iFrame.
    + destruct cs; [|iApply (Hgo with "I C K")]. wp_ret. iApply "K". iFrame.
Qed.

(** Access leaves the tree as it is. *)
Lemma wp_get_array_item mf i ks p nx pv ps k (Φ : Z → hP) : 0 <= k →
  ⊢ opened i ks p nx pv ps -∗ (opened i ks p nx pv ps -∗ Φ (hd NULL (drop (Z.to_nat k) ps))) -∗ wp mf (get_array_item p k) Φ.
Proof.
  iIntros (Hk) "O K". iDestruct (opened_split with "O") as "(%n & H & (%Hc & %Hp) & C & R)". unfold get_array_item.
  rewrite (proj2 (Z.eqb_neq p NULL)) by done. wp_bind. iApply (wp_get_item with "H"). iIntros "H". wp_bind.
  iApply (wp_heap_size with "C"); [apply at_least_chain|]. iIntros (m Hm) "C". pose proof (length_le_tsizes ks). rewrite Hc.
  iApply (wp_index_loop with "C"); [lia|done|]. iIntros "C". iApply "K". iApply ("R" with "[H] C"). by rewrite node_child_same.
Qed.
Lemma wp_get_object_item mf i ks p nx pv ps name cs (Φ : Z → hP) :
  ⊢ opened i ks p nx pv ps -∗ (opened i ks p nx pv ps -∗ Φ (addr_of (find_member cs name ks) ps)) -∗
    wp mf (get_object_item p (Some name) cs) Φ.
Proof.
  iIntros "O K". iDestruct (opened_split with "O") as "(%n & H & (%Hc & %Hp) & C & R)". unfold get_object_item.
  rewrite (proj2 (Z.eqb_neq p NULL)) by done. wp_bind. iApply (wp_get_item with "H"). iIntros "H". wp_bind.
  iApply (wp_heap_size with "C"); [apply at_least_chain|]. iIntros (m Hm) "C". pose proof (length_le_tsizes ks). rewrite Hc.
  iApply (wp_member_loop with "C"); [lia|]. iIntros "C". iApply "K". iApply ("R" with "[H] C"). by rewrite node_child_same.
Qed.
Lemma wp_get_array_size mf i ks p nx pv ps (Φ : Z → hP) :
  ⊢ opened i ks p nx pv ps -∗ (opened i ks p nx pv ps -∗ Φ (s32 (zlen ks))) -∗ wp mf (cJSON_GetArraySize p) Φ.
Proof.
  iIntros "O K". iDestruct (opened_split with "O") as "(%n & H & (%Hc & %Hp) & C & R)". unfold cJSON_GetArraySize.
  rewrite (proj2 (Z.eqb_neq p NULL)) by done. wp_bind. iApply (wp_get_item with "H"). iIntros "H". wp_bind.
  iApply (wp_heap_size with "C"); [apply at_least_chain|]. iIntros (m Hm) "C". pose proof (length_le_tsizes ks). rewrite Hc. wp_bind.
  iApply (wp_size_loop with "C"); [lia|]. iIntros "C". wp_ret. iApply "K". iApply ("R" with "[H] C"). by rewrite node_child_same.
Qed.

(** ** Insertion *)

Lemma opened_item_ne i ks p nx pv ps t q nx' pv' : opened i ks p nx pv ps ∗ item t q nx' pv' ⊢ ⌜p ≠ NULL ∧ q ≠ NULL ∧ p ≠ q⌝.
Proof.
  iIntros "[(%vp & %np & H & _) I]". iDestruct (item_links with "I") as "(%n & I & _)".
  iDestruct (points_to_not_null with "H") as %Hp. iDestruct (points_to_not_null with "I") as %Hq.
  iDestruct (points_to_ne with "[$H $I]") as %Hpq. by iPureIntro.
Qed.

Lemma last_addr_ne ps d d' : ps ≠ [] → last_addr ps d = last_addr ps d'.
Proof. unfold last_addr. destruct (last ps) eqn:E; [done|]. by apply last_None in E. Qed.

Lemma wp_get_prev mf ts ps nx pv (Φ : cJSON → hP) : ps ≠ [] →
  ⊢ chain ts ps nx pv -∗ (∀ n, ⟨ j_prev n = pv ⟩ -∗ chain ts ps nx pv -∗ Φ n) -∗ wp mf (get_item (hd NULL ps)) Φ.
Proof.
  iIntros (Hps) "C K". destruct ps as [|p ps]; [done|]. destruct ts as [|t ts]; cbn [chain hd]; [done|]. iDestruct "C" as "[I C]".
  iApply (wp_get_links with "I"). iIntros (n) "(_ & %Hn & _) I". iApply ("K" with "[]"); [by iPureIntro|]. iFrame.
Qed.

Lemma wp_add_item mf i ks p nx pv ps t q pv0 (Φ : bool → hP) :
  ⊢ opened i ks p nx pv ps -∗ item t q NULL pv0 -∗ (opened i (ks ++ [t]) p nx pv (ps ++ [q]) -∗ Φ true) -∗
    wp mf (add_item_to_array p q) Φ.
Proof.
  iIntros "O I K". iDestruct (opened_item_ne with "[$O $I]") as %(Hp & Hq & Hpq).
  iDestruct (opened_split with "O") as "(%n & H & (%Hc & _) & C & R)". unfold add_item_to_array.
  rewrite (proj2 (Z.eqb_neq q NULL)), (proj2 (Z.eqb_neq p NULL)), (proj2 (Z.eqb_neq p q)) by done. cbn [orb]. wp_bind.
  iApply (wp_get_item with "H"). iIntros "H". rewrite Hc. iDestruct (chain_hd_null with "C") as %Hh.
  iDestruct (chain_length with "C") as %Hl. destruct (Z.eqb_spec (hd NULL ps) NULL) as [E|E].
  - apply Hh in E as ->. destruct ks; [|done]. wp_bind. wp_bind. iApply (wp_mod_item with "H"). iIntros "H".
    iApply (wp_set_links _ _ _ _ _ NULL q with "I"); [done|]. iIntros "I". wp_ret. iApply "K". cbn [app].
    iApply ("R" $! [t] [q] with "H"). cbn [chain hd]. unfold last_addr. cbn [last default]. iFrame.
  - assert (ps ≠ []) as Hps by (intros ->; done). wp_bind. wp_bind. iApply (wp_get_prev with "C"); [done|]. iIntros (c) "%Hcp C".
    rewrite Hcp. iDestruct (chain_last_null with "C") as %Hln. rewrite (proj2 (Z.eqb_neq _ NULL)) by (intros E'; by apply Hln in E').
    cbn [negb]. unfold suffix_object. wp_bind. wp_bind. iApply (wp_chain_set_next with "C"); [done|]. iIntros "C".
    iApply (wp_set_prev with "I"). iIntros "I". iApply (wp_chain_set_prev with "C"); [done|]. iIntros "C". wp_ret. iApply "K".
    assert (hd NULL (ps ++ [q]) = hd NULL ps) as Eh by (by destruct ps). 
    iApply ("R" with "[H]"); [rewrite Eh, node_child_same by done; by iFrame|].
    rewrite last_item_snoc, chain_snoc by done. rewrite (last_addr_ne ps NULL q) by done. iFrame.
Qed.

(** The name of an item is replaced; its type loses the flag for a constant name,
    which it did not have. *)
Definition set_name (s : list Z) (t : jtree) : jtree :=
  match t with
  | JTree i ks => JTree {| i_type := i_type i; i_valuestring := i_valuestring i; i_valueint := i_valueint i;
                           i_valuedouble := i_valuedouble i; i_name := Some s |} ks
  end.

Lemma plain_ldiff ty : plain ty → Z.ldiff ty cJSON_StringIsConst = ty.
Proof.
  intros [_ H]. unfold has_flag in H. apply negb_false_iff, Z.eqb_eq in H. apply Z.bits_inj'. intros k Hk.
  rewrite Z.ldiff_spec. assert (Z.testbit (Z.land ty cJSON_StringIsConst) k = false) as E by (by rewrite H, Z.bits_0).
  rewrite Z.land_spec in E. destruct (Z.testbit ty k), (Z.testbit cJSON_StringIsConst k); done.
Qed.

(** An item without its name. *)
Lemma item_unnamed t q nx pv :
  item t q nx pv ⊢ ∃ n, q ↦ JNode n ∗ ⟨ plain (j_type n) ⟩ ∗ own_str (j_string n) (i_name (info t)) ∗
    (∀ key s, q ↦ JNode (set_string key n) -∗ own_str key (Some s) -∗ item (set_name s t) q nx pv).
Proof.
  destruct t as [i ks]. setoid_rewrite item_eq. iIntros "(%vp & %np & %child & H & %P & V & N & K)".
  iExists _. iFrame "H N". iSplitR; [by iPureIntro|]. iIntros (key s) "H N". iExists vp, key, child. iFrame. by iPureIntro.
Qed.

Lemma own_strdup key s : 0 ∉ s → key ↦ JBytes (s ++ [0]) ⊢ own_str key (Some s).
Proof. intros H. iIntros "H". iExists []. iFrame. by iPureIntro. Qed.

(** The text that a node owned is freed. *)
Lemma wp_free_owned mf (q : Z) o b (Ψ : unit → hP) :
  b = true → ⊢ own_str q o -∗ Ψ tt -∗ wp mf (if b && negb (q =? NULL) then deallocate q else fret tt) Ψ.
Proof.
  intros ->. iIntros "S K". cbn [andb]. destruct (Z.eqb_spec q NULL) as [->|E]; cbn [negb]; [|by iApply (wp_free_str with "S")].
  iDestruct (own_str_null with "S") as %Hn. rewrite (proj1 Hn) by done. iDestruct "S" as "%". by wp_ret.
Qed.

Lemma wp_strdup mf s (Φ : Z → hP) : 0 ∉ s →
  (⌜mf = true⌝ → Φ NULL) ∧ (∀ p, own_str p (Some s) -∗ Φ p) ⊢ wp mf (cJSON_strdup (Some s)) Φ.
Proof.
  iIntros (Hs) "K". cbn [cJSON_strdup]. iApply wp_alloc. iSplit; [by iDestruct "K" as "[K _]"|]. iIntros (p) "H".
  iDestruct "K" as "[_ K]". iApply "K". by iApply own_strdup.
Qed.

Lemma wp_add_to_object mf i ks p nx pv ps t q pv0 s (Φ : bool → hP) : 0 ∉ s →
  ⊢ opened i ks p nx pv ps -∗ item t q NULL pv0 -∗
    ((⌜mf = true⌝ → opened i ks p nx pv ps -∗ item t q NULL pv0 -∗ Φ false) ∧
     (opened i (ks ++ [set_name s t]) p nx pv (ps ++ [q]) -∗ Φ true)) -∗
    wp mf (cJSON_AddItemToObject p (Some s) q) Φ.
Proof.
  iIntros (Hs) "O I K". iDestruct (opened_item_ne with "[$O $I]") as %(Hp & Hq & Hpq). unfold cJSON_AddItemToObject, add_item_to_object.
  rewrite (proj2 (Z.eqb_neq q NULL)), (proj2 (Z.eqb_neq p NULL)), (proj2 (Z.eqb_neq p q)) by done. cbn [orb]. wp_bind.
  iApply wp_strdup; [done|]. iSplit.
  - iIntros (Hm). rewrite Z.eqb_refl. wp_ret. iDestruct "K" as "[K _]". iApply ("K" with "[//] O I").
  - iIntros (key) "S". iDestruct "K" as "[_ K]". iDestruct (own_str_null with "S") as %Hk.
    rewrite (proj2 (Z.eqb_neq key NULL)) by (intros E; by apply Hk in E). wp_bind.
    iDestruct (item_unnamed with "I") as "(%n & H & %Hpl & N & R)". iApply (wp_get_item with "H"). iIntros "H". wp_bind.
    iApply (wp_free_owned with "N"); [by rewrite (proj2 Hpl)|]. wp_bind. iApply (wp_mod_item with "H"). iIntros "H".
    iApply (wp_add_item with "O [H S R] K"). iApply ("R" with "[H] S"). cbn [set_string j_type]. rewrite plain_ldiff by done.
    by destruct n.
Qed.

(** ** Removal *)

Lemma hd_app {A} (d : A) l k : l ≠ [] → hd d (l ++ k) = hd d l.
Proof. by destruct l. Qed.
Lemma last_addr_app ps qs d : qs ≠ [] → last_addr (ps ++ qs) d = last_addr qs d.
Proof.
  intros H. destruct (exists_last H) as (qs0 & q & ->). rewrite (assoc_L (++)), !last_item_snoc. done.
Qed.

(** A place in a list of children. *)
Lemma opened_at i ks1 t ks2 p nx pv ps1 q ps2 :
  List.length ps1 = List.length ks1 →
  opened i (ks1 ++ t :: ks2) p nx pv (ps1 ++ q :: ps2) ⊢ ∃ n, p ↦ JNode n ∗
    ⟨ j_child n = hd q ps1 ∧ p ≠ NULL ∧ q ≠ NULL ∧ (ps1 ≠ [] → hd q ps1 ≠ q) ⟩ ∗
    chain ks1 ps1 q (last_addr (q :: ps2) NULL) ∗ item t q (hd NULL ps2) (last_addr ps1 (last_addr (q :: ps2) NULL)) ∗
    chain ks2 ps2 NULL q ∗
    (∀ ks' ps', p ↦ JNode (set_child (hd NULL ps') n) -∗ chain ks' ps' NULL (last_addr ps' NULL) -∗ opened i ks' p nx pv ps').
Proof.
  intros Hl. iIntros "O". iDestruct (opened_split with "O") as "(%n & H & (%Hc & %Hp) & C & R)".
  pose proof (linked_app ks1 (t :: ks2) ps1 (q :: ps2) NULL (last_addr (ps1 ++ q :: ps2) NULL) Hl) as [E _]%bi.equiv_entails.
  iDestruct (E with "C") as "[C1 C2]". cbn [chain hd]. iDestruct "C2" as "[I C2]". rewrite last_addr_app by done.
  iDestruct (item_not_null with "I") as %Hq.
  iAssert (⌜ps1 ≠ [] → hd q ps1 ≠ q⌝)%I as %Hne.
  { destruct ps1 as [|p1 ps1]; [by iPureIntro|]. destruct ks1 as [|k1 ks1]; [done|]. cbn [chain hd]. iDestruct "C1" as "[J _]".
    iDestruct (item_links with "I") as "(%n1 & I & _)". iDestruct (item_links with "J") as "(%n2 & J & _)".
    iDestruct (points_to_ne with "[$I $J]") as %Hij. iPureIntro. done. }
  iExists n. iFrame. iPureIntro. split; [|done]. rewrite Hc. by destruct ps1.
Qed.

Lemma hd_ne {A} (l : list A) d d' : l ≠ [] → hd d l = hd d' l.
Proof. by destruct l. Qed.

(** Two neighbouring chains are one. *)
Lemma chain_join ks1 ks2 ps1 ps2 pv :
  chain ks1 ps1 (hd NULL ps2) pv ∗ chain ks2 ps2 NULL (last_addr ps1 pv) ⊢ chain (ks1 ++ ks2) (ps1 ++ ps2) NULL pv.
Proof.
  iIntros "[C1 C2]". iDestruct (chain_length with "C1") as %Hl.
  pose proof (linked_app ks1 ks2 ps1 ps2 NULL pv Hl) as [_ E]%bi.equiv_entails. iApply E. iFrame.
Qed.

Lemma wp_detach mf i ks1 t ks2 p nx pv ps1 q ps2 (Φ : Z → hP) :
  List.length ps1 = List.length ks1 →
  ⊢ opened i (ks1 ++ t :: ks2) p nx pv (ps1 ++ q :: ps2) -∗
    (opened i (ks1 ++ ks2) p nx pv (ps1 ++ ps2) -∗ item t q NULL NULL -∗ Φ q) -∗
    wp mf (cJSON_DetachItemViaPointer p q) Φ.
Proof.
  iIntros (Hl) "O K". iDestruct (opened_at with "O") as "(%n & H & (%Hc & %Hp & %Hq & %Hne) & C1 & I & C2 & R)"; [done|].
  unfold cJSON_DetachItemViaPointer. rewrite (proj2 (Z.eqb_neq p NULL)), (proj2 (Z.eqb_neq q NULL)) by done. cbn [orb].
  wp_bind. iApply (wp_get_item with "H"). iIntros "H". wp_bind. iApply (wp_get_links with "I"). iIntros (m) "(%Hnx & %Hpv & _) I".
  rewrite Hc, Hnx, Hpv. iDestruct (chain_hd_null with "C2") as %Hh2. set (L := last_addr (q :: ps2) NULL).
  destruct (decide (ps1 = [])) as [->|Hps1].
  - destruct ks1; [|done]. cbn [hd]. rewrite Z.eqb_refl. cbn [negb chain]. wp_bind. wp_ret. wp_bind.
    change (last_addr [] L) with L.
    iAssert (wp mf (if negb (hd NULL ps2 =? NULL) then mod_item (hd NULL ps2) (set_prev L) else fret tt)
      (λ _, chain ks2 ps2 NULL (last_addr ps2 NULL)))%I with "[C2]" as "W".
    { destruct (Z.eqb_spec (hd NULL ps2) NULL) as [E|E]; cbn [negb].
      - apply Hh2 in E as ->. destruct ks2; cbn [chain]; [by wp_ret|done].
      - assert (ps2 ≠ []) as H2 by (intros ->; done). iApply (wp_chain_set_prev with "C2"); [done|]. unfold L.
        rewrite last_addr_cons, (last_addr_ne ps2 q NULL) by done. iIntros "$". }
    iApply (wp_wand with "W"). iIntros (_) "C2". wp_bind. iApply (wp_mod_item with "H"). iIntros "H". wp_bind.
    iApply (wp_set_links _ _ _ _ _ NULL NULL with "I"); [done|]. iIntros "I". wp_ret. iApply ("K" with "[C1 C2 H R] I").
    cbn [app]. iApply ("R" with "H C2").
  - specialize (Hne Hps1). rewrite (proj2 (Z.eqb_neq q _)) by congruence. cbn [negb]. wp_bind.
    iApply (wp_chain_set_next with "C1"); [done|]. iIntros "C1". wp_bind.
    iAssert (wp mf (if negb (hd NULL ps2 =? NULL) then mod_item (hd NULL ps2) (set_prev (last_addr ps1 L)) else fret tt)
      (λ _, chain ks2 ps2 NULL (last_addr ps1 L)))%I with "[C2]" as "W".
    { destruct (Z.eqb_spec (hd NULL ps2) NULL) as [E|E]; cbn [negb].
      - apply Hh2 in E as ->. destruct ks2; cbn [chain]; [by wp_ret|done].
      - assert (ps2 ≠ []) as H2 by (intros ->; done). iApply (wp_chain_set_prev with "C2"); [done|]. iIntros "$". }
    iApply (wp_wand with "W"). iIntros (_) "C2". wp_bind.
    iAssert (wp mf (if hd NULL ps2 =? NULL then mod_item (hd q ps1) (set_prev (last_addr ps1 L)) else fret tt)
      (λ _, chain ks1 ps1 (hd NULL ps2) (last_addr (ps1 ++ ps2) NULL)))%I with "[C1]" as "W".
    { destruct (Z.eqb_spec (hd NULL ps2) NULL) as [E|E].
      - pose proof E as E'. apply Hh2 in E' as ->. iApply (wp_chain_set_prev with "C1"); [done|]. rewrite app_nil_r, (last_addr_ne ps1 L NULL) by done.
        iIntros "$".
      - assert (ps2 ≠ []) as H2 by (intros ->; done). wp_ret. unfold L. rewrite last_addr_cons, last_addr_app, (last_addr_ne ps2 q NULL) by done.
        iFrame. }
    iApply (wp_wand with "W"). iIntros (_) "C1". wp_bind. iApply (wp_set_links _ _ _ _ _ NULL NULL with "I"); [done|]. iIntros "I". wp_ret.
    iApply ("K" with "[C1 C2 H R] I"). iApply ("R" with "[H]").
    { rewrite hd_app, node_child_same by (try done; rewrite Hc; by apply hd_ne). by iFrame. }
    iApply chain_join. rewrite (last_addr_ne ps1 L (last_addr (ps1 ++ ps2) NULL)) by done. iFrame.
Qed.

(** ** Insertion in front of an element *)

Lemma wp_insert_before mf i ks1 t ks2 p nx pv ps1 q ps2 t' r k nx0 pv0 (Φ : bool → hP) :
  List.length ps1 = List.length ks1 → k = zlen ks1 →
  ⊢ opened i (ks1 ++ t :: ks2) p nx pv (ps1 ++ q :: ps2) -∗ item t' r nx0 pv0 -∗
    (opened i (ks1 ++ t' :: t :: ks2) p nx pv (ps1 ++ r :: q :: ps2) -∗ Φ true) -∗
    wp mf (cJSON_InsertItemInArray p k r) Φ.
Proof.
  iIntros (Hl ->) "O I' K". unfold cJSON_InsertItemInArray. pose proof (zlen_nonneg ks1). rewrite (proj2 (Z.ltb_ge _ 0)) by lia.
  wp_bind. iApply (wp_get_array_item with "O"); [done|]. iIntros "O". unfold zlen. rewrite Nat2Z.id, <- Hl, drop_app_length. cbn [hd].
  iDestruct (opened_at with "O") as "(%n & H & (%Hc & %Hp & %Hq & %Hne) & C1 & I & C2 & R)"; [done|].
  rewrite (proj2 (Z.eqb_neq q NULL)) by done. wp_bind. iApply (wp_get_links with "I"). iIntros (m) "(%Hnx & %Hpv & _) I".
  set (L := last_addr (q :: ps2) NULL). wp_bind. iApply (wp_set_links _ _ _ _ _ q (j_prev m) with "I'").
  { intros x. by destruct x. } iIntros "I'". wp_bind. iApply (wp_set_prev with "I"). iIntros "I". wp_bind.
  iApply (wp_get_item with "H"). iIntros "H". rewrite Hc, Hpv. wp_bind. destruct (decide (ps1 = [])) as [->|Hps1].
  - destruct ks1; [|done]. cbn [hd]. rewrite Z.eqb_refl. iApply (wp_mod_item with "H"). iIntros "H". wp_ret. iApply "K". cbn [app].
    iApply ("R" $! (t' :: t :: ks2) (r :: q :: ps2) with "H"). cbn [chain hd app]. rewrite (last_addr_cons r). fold L.
    change (last_addr [] L) with L. rewrite (last_addr_ne (q :: ps2) r NULL) by done. iFrame.
  - specialize (Hne Hps1). rewrite (proj2 (Z.eqb_neq q _)) by congruence. iApply (wp_chain_set_next with "C1"); [done|].
    iIntros "C1". wp_ret. iApply "K". iApply ("R" with "[H]").
    { rewrite hd_app, node_child_same by (try done; rewrite Hc; by apply hd_ne). by iFrame. }
    rewrite last_addr_app, (last_addr_cons r), (last_addr_ne (q :: ps2) r NULL) by done. fold L. iApply chain_join. cbn [chain hd]. iFrame.
Qed.

(** ** Replacement *)

Lemma chain_last_ne ts ps nx pv t q nx' pv' d : chain ts ps nx pv ∗ item t q nx' pv' ⊢ ⌜ps ≠ [] → last_addr ps d ≠ q⌝.
Proof.
  iIntros "[C I]". iDestruct (chain_length with "C") as %Hl. destruct ps as [|p ps _] using rev_ind; [by iPureIntro|].
  destruct ts as [|t0 ts0 _] using rev_ind; [rewrite length_app in Hl; cbn in Hl; lia|].
  rewrite !length_app in Hl. cbn in Hl. rewrite last_item_snoc, chain_snoc by lia. iDestruct "C" as "[C J]".
  iDestruct (item_links with "I") as "(%n & I & _)". iDestruct (item_links with "J") as "(%m & J & _)".
  iDestruct (points_to_ne with "[$J $I]") as %Hij. by iPureIntro.
Qed.

Lemma item_ne t p nx pv t' q nx' pv' : item t p nx pv ∗ item t' q nx' pv' ⊢ ⌜p ≠ q⌝.
Proof.
  iIntros "[I J]". iDestruct (item_links with "I") as "(%n & I & _)". iDestruct (item_links with "J") as "(%m & J & _)".
  iDestruct (points_to_ne with "[$I $J]") as %Hij. by iPureIntro.
Qed.

(** The element that is replaced is deleted. *)
Lemma wp_replace mf i ks1 t ks2 p nx pv ps1 q ps2 t' r nx0 pv0 (Φ : bool → hP) :
  List.length ps1 = List.length ks1 →
  ⊢ opened i (ks1 ++ t :: ks2) p nx pv (ps1 ++ q :: ps2) -∗ item t' r nx0 pv0 -∗
    (opened i (ks1 ++ t' :: ks2) p nx pv (ps1 ++ r :: ps2) -∗ Φ true) -∗
    wp mf (cJSON_ReplaceItemViaPointer p q r) Φ.
Proof.
  iIntros (Hl) "O I' K". iDestruct (opened_at with "O") as "(%n & H & (%Hc & %Hp & %Hq & %Hne) & C1 & I & C2 & R)"; [done|].
  iDestruct (item_ne with "[$I' $I]") as %Hrq. iDestruct (item_not_null with "I'") as %Hr.
  iDestruct (chain_last_ne _ _ _ _ _ _ _ _ NULL with "[$C2 $I]") as %Hlast. iDestruct (chain_hd_null with "C2") as %Hh2.
  unfold cJSON_ReplaceItemViaPointer. rewrite (proj2 (Z.eqb_neq p NULL)), (proj2 (Z.eqb_neq r NULL)), (proj2 (Z.eqb_neq q NULL)),
    (proj2 (Z.eqb_neq r q)) by done. cbn [orb]. wp_bind. iApply (wp_get_links with "I"). iIntros (m) "(%Hnx & %Hpv & _) I".
  set (L := last_addr (q :: ps2) NULL). rewrite Hnx, Hpv. wp_bind.
  iApply (wp_set_links _ _ _ _ _ (hd NULL ps2) (last_addr ps1 L) with "I'"); [intros x; by destruct x|]. iIntros "I'". wp_bind.
  iAssert (wp mf (if negb (hd NULL ps2 =? NULL) then mod_item (hd NULL ps2) (set_prev r) else fret tt)
    (λ _, chain ks2 ps2 NULL r))%I with "[C2]" as "W".
  { destruct (Z.eqb_spec (hd NULL ps2) NULL) as [E|E]; cbn [negb].
    - apply Hh2 in E as ->. destruct ks2; cbn [chain]; [by wp_ret|done].
    - assert (ps2 ≠ []) as H2 by (intros ->; done). iApply (wp_chain_set_prev with "C2"); [done|]. iIntros "$". }
  iApply (wp_wand with "W"). iIntros (_) "C2". wp_bind. iApply (wp_get_item with "H"). iIntros "H". rewrite Hc.
  assert (∀ (Ψ : bool → hP), ⊢ item t q (hd NULL ps2) (last_addr ps1 L) -∗ Ψ true -∗
    wp mf (mod_item q (λ n, set_prev NULL (set_next NULL n));;; cJSON_Delete q;;; fret true)%fw Ψ) as Hend.
  { iIntros (Ψ) "I K". wp_bind. iApply (wp_set_links _ _ _ _ _ NULL NULL with "I"); [by intros []|]. iIntros "I". wp_bind.
    iApply (wp_delete with "I"). by wp_ret. }
  wp_bind. destruct (decide (ps1 = [])) as [->|Hps1].
  - destruct ks1; [|done]. cbn [hd]. rewrite Z.eqb_refl. change (last_addr [] L) with L. wp_bind. iApply (wp_get_links with "I").
    iIntros (c) "(_ & %Hcp & _) I". rewrite Hcp. wp_bind.
    iAssert (wp mf (if L =? q then mod_item r (set_prev r) else fret tt)
      (λ _, item t' r (hd NULL ps2) (last_addr (r :: ps2) NULL)))%I with "[I']" as "W".
    { unfold L. rewrite !last_addr_cons. destruct (decide (ps2 = [])) as [->|H2].
      - rewrite Z.eqb_refl. iApply (wp_set_prev with "I'"). iIntros "$".
      - rewrite (last_addr_ne ps2 q NULL), (last_addr_ne ps2 r NULL), (proj2 (Z.eqb_neq _ _)) by auto. wp_ret. iFrame. }
    iApply (wp_wand with "W"). iIntros (_) "I'". iApply (wp_mod_item with "H"). iIntros "H".
    iApply (Hend with "I"). iApply "K". cbn [app]. iApply ("R" $! (t' :: ks2) (r :: ps2) with "H"). cbn [chain]. iFrame.
  - specialize (Hne Hps1). rewrite (proj2 (Z.eqb_neq _ q)) by done. wp_bind. iApply (wp_get_links with "I'").
    iIntros (c) "(%Hcn & %Hcp & _) I'". rewrite Hcn, Hcp. iDestruct (chain_last_null with "C1") as %Hln.
    rewrite (last_addr_ne ps1 L NULL) in * by done.
    rewrite (proj2 (Z.eqb_neq _ NULL)) by (intros E; by apply Hln in E). cbn [negb]. wp_bind.
    iApply (wp_chain_set_next with "C1"); [done|]. iIntros "C1".
    iAssert (wp mf (if hd NULL ps2 =? NULL then mod_item (hd q ps1) (set_prev r) else fret tt)
      (λ _, chain ks1 ps1 r (last_addr (r :: ps2) NULL)))%I with "[C1]" as "W".
    { unfold L. rewrite !last_addr_cons. destruct (Z.eqb_spec (hd NULL ps2) NULL) as [E|E].
      - apply Hh2 in E as ->. iApply (wp_chain_set_prev with "C1"); [done|]. iIntros "$".
      - assert (ps2 ≠ []) as H2 by (intros ->; done). wp_ret. rewrite (last_addr_ne ps2 q NULL), (last_addr_ne ps2 r NULL) by done. iFrame. }
    iApply (wp_wand with "W"). iIntros (_) "C1". iApply (Hend with "I"). iApply "K". iApply ("R" with "[H]").
    { rewrite hd_app, node_child_same by (try done; rewrite Hc; by apply hd_ne). by iFrame. }
    rewrite last_addr_app by done. iApply chain_join. cbn [chain hd]. rewrite (last_addr_ne ps1 NULL (last_addr (r :: ps2) NULL)) by done. iFrame.
Qed.
