(* ===== verification/CJsonParse.v ===== *)
(** * The JSON parser

    The parser on trees ([tp_value] and the others): the same decisions on the
    text, with a tree as the result and no memory.  [wp_parse_value]: the parser of
    cJSON.c builds that tree in memory, and gives back everything it allocated when
    it fails.  [tp_parse_safe]: on every text with an end mark the parser ends, never
    reads outside the text and never writes outside the strings it allocates. *)

From Stdlib Require Import SpecFloat.
From S2P Require Import Prelude SepLog CJsonNum CJson CJsonTree.
#[local] Set Warnings "-register-all".
Local Open Scope fw_scope.

(** ** The parser on trees *)

Definition value (ty : Z) (s : option (list Z)) (vi : Z) (vd : double) (ks : list jtree) : jtree :=
  JTree {| i_type := ty; i_valuestring := s; i_valueint := vi; i_valuedouble := vd; i_name := None |} ks.
Definition simple (ty : Z) (ks : list jtree) : jtree := value ty None 0 (S754_zero false) ks.
Definition number (d : double) : jtree := value cJSON_Number None (saturate d) d [].
Definition text_value (s : list Z) : jtree := value cJSON_String (Some s) 0 (S754_zero false) [].

Definition tp_number (b : parse_buffer) : result (option jtree * parse_buffer) :=
  t <-? copy_number 63 b 0;;
  let '(d, n) := strtod t in
  if n =? 0 then Ok (None, b) else Ok (Some (number d), set_offset (offset b + n) b).

Definition tp_string (b : parse_buffer) : result (option (list Z) * parse_buffer) :=
  c <-? here b;;
  if negb (c =? 34) then Ok (None, set_offset (offset b + 1) b)
  else
    r <-? scan_string (S (Z.to_nat (blen b - offset b))) b (offset b + 1) 0;;
    match r with
    | None => Ok (None, set_offset (offset b + 1) b)
    | Some (e, skipped) =>
        r <-? decode_string (S (Z.to_nat (e - (offset b + 1)))) (content b) (offset b + 1) e (e - offset b - skipped + 1) [];;
        match r with
        | (Some out, _) => Ok (until_end out, set_offset (e + 1) b)
        | (None, pos) => Ok (None, set_offset pos b)
        end
    end.

Definition tp_close (ty : Z) (ks : list jtree) (b : parse_buffer) : result (option jtree * parse_buffer) :=
  Ok (Some (simple ty ks), set_offset (offset b + 1) (set_depth (depth b - 1) b)).

Fixpoint tp_value (fuel : nat) (b : parse_buffer) : result (option jtree * parse_buffer) :=
  match fuel with
  | O => Fault OutOfFuel
  | S fuel =>
      if can_read b 4 && starts b (lit "null") then Ok (Some (simple cJSON_NULL []), set_offset (offset b + 4) b)
      else if can_read b 5 && starts b (lit "false") then Ok (Some (simple cJSON_False []), set_offset (offset b + 5) b)
      else if can_read b 4 && starts b (lit "true") then
        Ok (Some (value cJSON_True None 1 (S754_zero false) []), set_offset (offset b + 4) b)
      else if negb (can_access b 0) then Ok (None, b)
      else
        c <-? here b;;
        if c =? 34 then r <-? tp_string b;; Ok (option_map text_value r.1, r.2)
        else if (c =? 45) || ((48 <=? c) && (c <=? 57)) then tp_number b
        else if c =? 91 then tp_array fuel b
        else if c =? 123 then tp_object fuel b
        else Ok (None, b)
  end
with tp_array (fuel : nat) (b : parse_buffer) : result (option jtree * parse_buffer) :=
  match fuel with
  | O => Fault OutOfFuel
  | S fuel =>
      if CJSON_NESTING_LIMIT <=? depth b then Ok (None, b)
      else
        let b := set_depth (depth b + 1) b in
        c <-? here b;;
        if negb (c =? 91) then Ok (None, b)
        else
          b <-? advance b;;
          e <-? sees b 93;;
          if e then tp_close cJSON_Array [] b
          else if negb (can_access b 0) then Ok (None, set_offset (offset b - 1) b)
          else tp_elements fuel [] (set_offset (offset b - 1) b)
  end
with tp_elements (fuel : nat) (acc : list jtree) (b : parse_buffer) : result (option jtree * parse_buffer) :=
  match fuel with
  | O => Fault OutOfFuel
  | S fuel =>
      b <-? advance b;;
      r <-? tp_value fuel b;;
      match r with
      | (None, b) => Ok (None, b)
      | (Some t, b) =>
          b <-? buffer_skip_whitespace b;;
          more <-? sees b 44;;
          if more then tp_elements fuel (acc ++ [t]) b
          else e <-? sees b 93;; if negb e then Ok (None, b) else tp_close cJSON_Array (acc ++ [t]) b
      end
  end
with tp_object (fuel : nat) (b : parse_buffer) : result (option jtree * parse_buffer) :=
  match fuel with
  | O => Fault OutOfFuel
  | S fuel =>
      if CJSON_NESTING_LIMIT <=? depth b then Ok (None, b)
      else
        let b := set_depth (depth b + 1) b in
        e <-? sees b 123;;
        if negb e then Ok (None, b)
        else
          b <-? advance b;;
          e <-? sees b 125;;
          if e then tp_close cJSON_Object [] b
          else if negb (can_access b 0) then Ok (None, set_offset (offset b - 1) b)
          else tp_members fuel [] (set_offset (offset b - 1) b)
  end
with tp_members (fuel : nat) (acc : list jtree) (b : parse_buffer) : result (option jtree * parse_buffer) :=
  match fuel with
  | O => Fault OutOfFuel
  | S fuel =>
      b <-? advance b;;
      r <-? tp_string b;;
      match r with
      | (None, b) => Ok (None, b)
      | (Some name, b) =>
          b <-? buffer_skip_whitespace b;;
          e <-? sees b 58;;
          if negb e then Ok (None, b)
          else
            b <-? advance b;;
            r <-? tp_value fuel b;;
            match r with
            | (None, b) => Ok (None, b)
            | (Some t, b) =>
                let acc := acc ++ [set_name name t] in
                b <-? buffer_skip_whitespace b;;
                more <-? sees b 44;;
                if more then tp_members fuel acc b
                else e <-? sees b 125;; if negb e then Ok (None, b) else tp_close cJSON_Object acc b
            end
      end
  end.

(** ** The parser in memory *)

(** A node that was made for a value and has none yet. *)
Definition blank (n : cJSON) : Prop :=
  j_child n = NULL ∧ j_valuestring n = NULL ∧ j_valueint n = 0 ∧ j_valuedouble n = S754_zero false ∧ plain (j_type n).

(** The node with its value; the name is kept apart. *)
Definition filled (p : Z) (n : cJSON) (t : jtree) : hP :=
  (∃ child vp, p ↦ JNode (node (info t) (j_next n) (j_prev n) child vp (j_string n)) ∗ ⟨ plain (i_type (info t)) ⟩ ∗
     own_str vp (i_valuestring (info t)) ∗ kids child (children t))%I.

(** A result [r] of the code when the parser on trees has [ot] and [b1]. *)
Definition parsed (mf : bool) (p : Z) (n : cJSON) (ot : option jtree) (b1 : parse_buffer) (r : bool * parse_buffer) : hP :=
  (if r.1 then ∃ t, ⟨ ot = Some t ∧ r.2 = b1 ∧ i_name (info t) = None ⟩ ∗ filled p n t
   else ⟨ mf = true ∨ (ot = None ∧ r.2 = b1) ⟩ ∗ p ↦ JNode n)%I.

Definition implements (mf : bool) (code : Z → parse_buffer → M (bool * parse_buffer))
    (spec : parse_buffer → result (option jtree * parse_buffer)) : Prop :=
  ∀ p n b ot b1 (Φ : bool * parse_buffer → hP), blank n → spec b = Ok (ot, b1) →
    ⊢ p ↦ JNode n -∗ (∀ r, parsed mf p n ot b1 r -∗ Φ r) -∗ wp mf (code p b) Φ.

Lemma wp_lift {A} mf (r : result A) a (Φ : A → hP) : r = Ok a → Φ a ⊢ wp mf (flift r) Φ.
Proof. intros ->. apply wp_ret. Qed.

Lemma kids_nil : ⊢ kids NULL [].
Proof. iExists []. cbn [chain]. by iSplit. Qed.

(** A value without text and children. *)
Lemma filled_simple p n n' ty vi vd :
  plain ty → n' = node (info (value ty None vi vd [])) (j_next n) (j_prev n) NULL NULL (j_string n) →
  p ↦ JNode n' ⊢ filled p n (value ty None vi vd []).
Proof.
  intros Hp ->. iIntros "H". iExists NULL, NULL. iFrame. iSplitR; [by iPureIntro|]. iSplitR; [by iPureIntro|]. iApply kids_nil.
Qed.

Lemma tp_number_ok mf : implements mf parse_number tp_number.
Proof.
  intros p n b ot b1 Φ Hb H. iIntros "H K". unfold tp_number in H. apply rbind_Ok in H as (t & Et & H). unfold parse_number. wp_bind.
  iApply (wp_lift _ _ _ _ Et). destruct (strtod t) as [d k]. destruct (k =? 0).
  - injection H as <- <-. wp_ret. iApply "K". cbn [parsed fst snd]. iFrame. iPureIntro. auto.
  - injection H as <- <-. wp_bind. iApply (wp_mod_item with "H"). iIntros "H". wp_ret. iApply "K". cbn [parsed fst].
    iExists _. iSplitR; [by iPureIntro|]. iApply (filled_simple with "H"); [done|].
    destruct Hb as (H1 & H2 & _), n. cbn in *. by subst.
Qed.

(** What is written into the block of a string. *)
Lemma decode_string_fits fuel l e size : ∀ pos out r pos', decode_string fuel l pos e size out = Ok (Some r, pos') →
  zlen r <= size ∧ ∃ d, r = d ++ [0].
Proof.
  induction fuel as [|fuel IH]; intros pos out r pos'; cbn [decode_string]; [done|].
  assert (∀ o d, emit size o d = Ok r → zlen r <= size) as He.
  { intros o d. unfold emit. destruct (Z.leb_spec (zlen o + zlen d) size); [|done]. intros [= <-]. rewrite zlen_app. lia. }
  destruct (pos <? e).
  - intros H. apply rbind_Ok in H as (c & _ & H). destruct (negb (c =? 92)).
    { apply rbind_Ok in H as (o & _ & H). by eapply IH. }
    destruct (e - pos <? 1); [done|]. apply rbind_Ok in H as (x & _ & H). destruct (x =? 117).
    { apply rbind_Ok in H as (u & _ & H). destruct (u.1 =? 0); [done|]. apply rbind_Ok in H as (o & _ & H). by eapply IH. }
    destruct (escape_char x); [|done]. apply rbind_Ok in H as (o & _ & H). by eapply IH.
  - intros H. apply rbind_Ok in H as (o & Eo & H). injection H as -> <-. split; [by eapply He|].
    unfold emit in Eo. destruct (_ <=? _); [|done]. injection Eo as <-. eauto.
Qed.

Lemma until_end_zero d : ∃ s r, until_end (d ++ [0]) = Some s ∧ d ++ [0] = s ++ 0 :: r ∧ 0 ∉ s.
Proof.
  assert (∃ s, until_end (d ++ [0]) = Some s) as [s Hs].
  { induction d as [|b d [s IH]]; [by exists []|]. cbn [app until_end]. rewrite IH. destruct (b =? 0); eauto. }
  destruct (until_end_split _ _ Hs) as (r & E & H0). eauto.
Qed.

(** A string: the value of the node, or nothing. *)
Lemma wp_parse_string mf p n b os b1 (Φ : bool * parse_buffer → hP) :
  tp_string b = Ok (os, b1) →
  ⊢ p ↦ JNode n -∗
    ((∀ vp s, ⟨ os = Some s ⟩ -∗ own_str vp (Some s) -∗ p ↦ JNode (set_valuestring vp (set_type cJSON_String n)) -∗ Φ (true, b1)) ∧
     (∀ b', ⟨ mf = true ∨ (os = None ∧ b' = b1) ⟩ -∗ p ↦ JNode n -∗ Φ (false, b'))) -∗
    wp mf (parse_string p b) Φ.
Proof.
  intros H. iIntros "H K". unfold tp_string in H. apply rbind_Ok in H as (c & Ec & H). unfold parse_string. wp_bind.
  iApply (wp_lift _ _ _ _ Ec). destruct (negb (c =? 34)).
  { injection H as <- <-. wp_ret. iDestruct "K" as "[_ K]". iApply ("K" with "[] H"). iPureIntro. auto. }
  apply rbind_Ok in H as (sc & Es & H). wp_bind. iApply (wp_lift _ _ _ _ Es). destruct sc as [[e sk]|].
  2: { injection H as <- <-. wp_ret. iDestruct "K" as "[_ K]". iApply ("K" with "[] H"). iPureIntro. auto. }
  apply rbind_Ok in H as ([o pos] & Ed & H). wp_bind. iApply wp_alloc. iSplit.
  { iIntros (Hm). rewrite Z.eqb_refl. wp_ret. iDestruct "K" as "[_ K]". iApply ("K" with "[] H"). iPureIntro. auto. }
  iIntros (vp) "V". iDestruct (points_to_not_null with "V") as %Hv. rewrite (proj2 (Z.eqb_neq vp NULL)) by done. wp_bind.
  iApply (wp_lift _ _ _ _ Ed). destruct o as [out|].
  - injection H as <- <-. destruct (decode_string_fits _ _ _ _ _ _ _ _ Ed) as [_ [d ->]].
    destruct (until_end_zero d) as (s & r & E1 & E2 & H0). rewrite E1. wp_put "V". wp_bind. iApply (wp_mod_item with "H"). iIntros "H".
    wp_ret. iDestruct "K" as "[K _]". iApply ("K" with "[//] [V] H"). rewrite E2, <- app_assoc. cbn [app]. iExists _. iFrame. by iPureIntro.
  - injection H as <- <-. wp_free "V". wp_ret. iDestruct "K" as "[_ K]". iApply ("K" with "[] H"). iPureIntro. auto.
Qed.

(** ** Lists under construction *)

Lemma wp_fail_list mf ts ps pv b (Φ : bool * parse_buffer → hP) :
  ⊢ chain ts ps NULL pv -∗ Φ (false, b) -∗ wp mf (fail_list (hd NULL ps) b) Φ.
Proof.
  iIntros "C K". unfold fail_list. wp_bind. iDestruct (chain_hd_null with "C") as %Hh.
  destruct (Z.eqb_spec (hd NULL ps) NULL) as [E|E]; cbn [negb].
  - apply Hh in E as ->. destruct ts; cbn [chain]; [|done]. wp_ret. by wp_ret.
  - unfold cJSON_Delete. wp_bind. iApply (wp_heap_size with "C"); [apply at_least_chain|]. iIntros (m Hm) "C".
    iApply (wp_delete_chain with "C"); [lia|]. by wp_ret.
Qed.

Lemma wp_close_list mf p n ks ps ty b (Φ : bool * parse_buffer → hP) :
  blank n → plain ty →
  ⊢ p ↦ JNode n -∗ chain ks ps NULL NULL -∗
    (filled p n (simple ty ks) -∗ Φ (true, set_offset (offset b + 1) (set_depth (depth b - 1) b))) -∗
    wp mf (close_list p ty (hd NULL ps) (last_addr ps NULL) b) Φ.
Proof.
  iIntros (Hb Hty) "H C K". unfold close_list. wp_bind. iDestruct (chain_hd_null with "C") as %Hh.
  iAssert (wp mf (if negb (hd NULL ps =? NULL) then mod_item (hd NULL ps) (set_prev (last_addr ps NULL)) else fret tt)
    (λ _, chain ks ps NULL (last_addr ps NULL)))%I with "[C]" as "W".
  { destruct (Z.eqb_spec (hd NULL ps) NULL) as [E|E]; cbn [negb].
    - apply Hh in E as ->. destruct ks; cbn [chain]; [by wp_ret|done].
    - iApply (wp_chain_set_prev with "C"); [by intros ->|]. iIntros "$". }
  iApply (wp_wand with "W"). iIntros (_) "C". wp_bind. iApply (wp_mod_item with "H"). iIntros "H". wp_ret. iApply "K".
  iExists (hd NULL ps), NULL. iSplitL "H".
  { destruct Hb as (H1 & H2 & H3 & H4 & _), n. cbn in *. subst. iFrame. }
  iSplitR; [by iPureIntro|]. iSplitR; [by iPureIntro|]. iExists ps. iFrame. by iPureIntro.
Qed.

Lemma wp_attach mf acc ps pv q (Φ : Z → hP) :
  ⊢ chain acc ps NULL pv -∗ q ↦ JNode zero_item -∗
    (chain acc ps q pv -∗ q ↦ JNode (set_prev (last_addr ps NULL) zero_item) -∗ Φ (hd NULL (ps ++ [q]))) -∗
    wp mf (attach (hd NULL ps) (last_addr ps NULL) q) Φ.
Proof.
  iIntros "C Q K". unfold attach. iDestruct (chain_hd_null with "C") as %Hh. destruct (Z.eqb_spec (hd NULL ps) NULL) as [E|E].
  - apply Hh in E as ->. destruct acc; cbn [chain]; [|done]. wp_ret. iApply ("K" with "C Q").
  - assert (ps ≠ []) as Hps by (by intros ->). wp_bind. iApply (wp_chain_set_next with "C"); [done|]. iIntros "C". wp_bind.
    iApply (wp_mod_item with "Q"). iIntros "Q". wp_ret. rewrite hd_app by done. iApply ("K" with "C Q").
Qed.

(** A node that got no value is an item too. *)
Definition blank_tree (n : cJSON) (o : option (list Z)) : jtree :=
  JTree {| i_type := j_type n; i_valuestring := None; i_valueint := 0; i_valuedouble := S754_zero false; i_name := o |} [].
Lemma blank_item p n o : blank n → p ↦ JNode n ∗ own_str (j_string n) o ⊢ item (blank_tree n o) p (j_next n) (j_prev n).
Proof.
  intros (H1 & H2 & H3 & H4 & H5). unfold blank_tree. rewrite item_eq. iIntros "[H N]". iExists NULL, (j_string n), NULL. iFrame "N".
  iSplitL "H"; [destruct n; cbn in *; subst; iFrame|]. iSplitR; [by iPureIntro|]. iSplitR; [by iPureIntro|]. iApply kids_nil.
Qed.
Lemma filled_item p n t : i_name (info t) = None → filled p n t ∗ own_str (j_string n) None ⊢ item t p (j_next n) (j_prev n).
Proof.
  destruct t as [i ks]. cbn [info]. intros Hn. rewrite item_eq, Hn. iIntros "[(%child & %vp & H & P & V & C) N]". cbn [info children].
  iExists vp, (j_string n), child. iFrame.
Qed.
Lemma filled_named p n t s : filled p n t ∗ own_str (j_string n) (Some s) ⊢ item (set_name s t) p (j_next n) (j_prev n).
Proof.
  destruct t as [i ks]. cbn [set_name]. rewrite item_eq. iIntros "[(%child & %vp & H & P & V & C) N]". cbn [info children].
  iExists vp, (j_string n), child. iFrame.
Qed.

Lemma blank_zero pv : blank (set_prev pv zero_item).
Proof. done. Qed.
Lemma wp_New_Item mf (Φ : Z → hP) : (⌜mf = true⌝ → Φ NULL) ∧ (∀ p, p ↦ JNode zero_item -∗ Φ p) ⊢ wp mf cJSON_New_Item Φ.
Proof. apply wp_alloc. Qed.

(** ** Values *)

Definition list_spec (mf : bool) (code : Z → Z → Z → parse_buffer → M (bool * parse_buffer))
    (spec : list jtree → parse_buffer → result (option jtree * parse_buffer)) : Prop :=
  ∀ p n acc ps b ot b1 (Φ : bool * parse_buffer → hP), blank n → spec acc b = Ok (ot, b1) →
    ⊢ p ↦ JNode n -∗ chain acc ps NULL NULL -∗ (∀ r, parsed mf p n ot b1 r -∗ Φ r) -∗
      wp mf (code p (hd NULL ps) (last_addr ps NULL) b) Φ.

(** The new element is an item at the end of the list. *)
Lemma chain_grow acc ps q t : chain acc ps q NULL ∗ item t q NULL (last_addr ps NULL) ⊢ chain (acc ++ [t]) (ps ++ [q]) NULL NULL.
Proof.
  iIntros "[C I]". iDestruct (chain_length with "C") as %Hl.
  pose proof (chain_snoc acc ps t q NULL NULL Hl) as [_ E]%bi.equiv_entails. iApply E. iFrame.
Qed.

Lemma parse_elements_ok mf fuel :
  implements mf (parse_value fuel) (tp_value fuel) → list_spec mf (parse_elements fuel) (tp_elements fuel) →
  list_spec mf (parse_elements (S fuel)) (tp_elements (S fuel)).
Proof.
  intros IHv IHl p n acc ps b ot b1 Φ Hb H. iIntros "H C K". cbn [parse_elements]. cbn [tp_elements] in H.
  apply rbind_Ok in H as (b2 & E2 & H). apply rbind_Ok in H as ([o b3] & E3 & H). wp_bind. iApply wp_New_Item. iSplit.
  { iIntros (Hm). rewrite Z.eqb_refl. iApply (wp_fail_list with "C"). iApply "K". cbn [parsed fst]. iFrame. iPureIntro. auto. }
  iIntros (q) "Q". iDestruct (points_to_not_null with "Q") as %Hq. rewrite (proj2 (Z.eqb_neq q NULL)) by done. wp_bind.
  iApply (wp_attach with "C Q"). iIntros "C Q". wp_bind. iApply (wp_lift _ _ _ _ E2). wp_bind.
  iApply (IHv with "Q"); [apply blank_zero|exact E3|]. iIntros ([ok b4]) "P". cbn [parsed fst snd]. destruct ok; cbn [negb].
  - iDestruct "P" as (t) "[%Ht F]". cbn [snd] in Ht. destruct Ht as (-> & -> & Hn). iDestruct (filled_item with "[$F]") as "I"; [done|by iPureIntro|].
    iDestruct (chain_grow with "[$C $I]") as "C". apply rbind_Ok in H as (b5 & E5 & H). wp_bind. iApply (wp_lift _ _ _ _ E5).
    apply rbind_Ok in H as (more & E6 & H). wp_bind. iApply (wp_lift _ _ _ _ E6).
    destruct more.
    + pose proof (IHl p n (acc ++ [t]) (ps ++ [q]) b5 ot b1 Φ Hb H) as W. rewrite last_item_snoc in W. iApply (W with "H C K").
    + apply rbind_Ok in H as (e & E7 & H). wp_bind. iApply (wp_lift _ _ _ _ E7). destruct e; cbn [negb] in *.
      * pose proof (wp_close_list mf p n (acc ++ [t]) (ps ++ [q]) cJSON_Array b5 Φ Hb) as W. rewrite last_item_snoc in W.
        iApply (W with "H C"); [done|]. iIntros "F". iApply "K". injection H as <- <-.
        cbn [parsed fst snd]. iExists _. iFrame. by iPureIntro.
      * injection H as <- <-. iApply (wp_fail_list with "C"). iApply "K". cbn [parsed fst snd]. iFrame. iPureIntro. auto.
  - iDestruct "P" as "[%Hf Q]". iDestruct (blank_item _ _ None with "[$Q]") as "I"; [done|by iPureIntro|].
    iDestruct (chain_grow with "[$C $I]") as "C". iApply (wp_fail_list with "C"). iApply "K". cbn [parsed fst snd]. iFrame.
    iPureIntro. cbn [snd] in Hf. destruct Hf as [?|[-> ->]]; [by left|]. right. by injection H as <- <-.
Qed.

(** The name of a member moves from the value to the name of its node. *)
Lemma wp_take_name mf q n vp (Φ : unit → hP) : blank n →
  ⊢ q ↦ JNode (set_valuestring vp (set_type cJSON_String n)) -∗
    (∀ m, ⟨ blank m ∧ j_next m = j_next n ∧ j_prev m = j_prev n ∧ j_string m = vp ⟩ -∗ q ↦ JNode m -∗ Φ tt) -∗
    wp mf (mod_item q (λ n, set_valuestring NULL (set_string (j_valuestring n) n))) Φ.
Proof.
  iIntros (Hb) "Q K". iApply (wp_mod_item with "Q"). iIntros "Q". iApply ("K" with "[] Q"). iPureIntro.
  destruct Hb as (H1 & H2 & H3 & H4 & _), n. done.
Qed.

Lemma parse_members_ok mf fuel :
  implements mf (parse_value fuel) (tp_value fuel) → list_spec mf (parse_members fuel) (tp_members fuel) →
  list_spec mf (parse_members (S fuel)) (tp_members (S fuel)).
Proof.
  intros IHv IHl p n acc ps b ot b1 Φ Hb H. iIntros "H C K". cbn [parse_members]. cbn [tp_members] in H.
  apply rbind_Ok in H as (b2 & E2 & H). apply rbind_Ok in H as ([o b3] & E3 & H). wp_bind. iApply wp_New_Item. iSplit.
  { iIntros (Hm). rewrite Z.eqb_refl. iApply (wp_fail_list with "C"). iApply "K". cbn [parsed fst]. iFrame. iPureIntro. auto. }
  iIntros (q) "Q". iDestruct (points_to_not_null with "Q") as %Hq. rewrite (proj2 (Z.eqb_neq q NULL)) by done. wp_bind.
  iApply (wp_attach with "C Q"). iIntros "C Q". wp_bind. iApply (wp_lift _ _ _ _ E2). wp_bind.
  assert (∀ b', (mf = true ∨ ot = None ∧ b' = b1) → ∀ o m, blank m → j_next m = NULL → j_prev m = last_addr ps NULL →
    ⊢ q ↦ JNode m -∗ own_str (j_string m) o -∗ chain acc ps q NULL -∗ p ↦ JNode n -∗ (∀ r, parsed mf p n ot b1 r -∗ Φ r) -∗
      wp mf (fail_list (hd NULL (ps ++ [q])) b') Φ) as Hfail.
  { intros b' Hf o' m Hm E1' E2'. iIntros "Q N C H K". iDestruct (blank_item with "[$Q $N]") as "I"; [done|]. rewrite E1', E2'.
    iDestruct (chain_grow with "[$C $I]") as "C". iApply (wp_fail_list with "C"). iApply "K". cbn [parsed fst snd]. iFrame. by iPureIntro. }
  iApply (wp_parse_string with "Q"); [exact E3|]. iSplit.
  2: { iIntros (b4) "%Hf Q". cbn [negb]. assert (mf = true ∨ ot = None ∧ b4 = b1) as Hf'.
       { destruct Hf as [?|[-> ->]]; [by left|]. right. by injection H as <- <-. }
       iApply (Hfail b4 Hf' None with "Q [] C H K"); [done..|by iPureIntro]. }
  iIntros (vp s) "-> N Q". cbn [negb]. apply rbind_Ok in H as (b4 & E4 & H). wp_bind. iApply (wp_lift _ _ _ _ E4). wp_bind.
  iApply (wp_take_name with "Q"); [apply blank_zero|]. iIntros (m) "%Hm Q". destruct Hm as (Hm & Hnx & Hpv & Hst).
  apply rbind_Ok in H as (e & E5 & H). wp_bind. iApply (wp_lift _ _ _ _ E5). destruct e; cbn [negb] in *.
  2: { injection H as <- <-. iApply (Hfail with "Q [N] C H K"); [by right|done..|by rewrite Hst]. }
  apply rbind_Ok in H as (b5 & E6 & H). apply rbind_Ok in H as ([ov b6] & E7 & H). wp_bind. iApply (wp_lift _ _ _ _ E6). wp_bind.
  iApply (IHv with "Q"); [exact Hm|exact E7|]. iIntros ([ok b7]) "P". cbn [parsed fst snd]. destruct ok; cbn [negb].
  2: { iDestruct "P" as "[%Hf Q]". cbn [snd] in Hf. iApply (Hfail with "Q [N] C H K"); [|done..|by rewrite Hst].
       destruct Hf as [?|[-> ->]]; [by left|]. right. by injection H as <- <-. }
  iDestruct "P" as (t) "[%Ht F]". cbn [snd] in Ht. destruct Ht as (-> & -> & _). rewrite <- Hst.
  iDestruct (filled_named with "[$F $N]") as "I". rewrite Hnx, Hpv. iDestruct (chain_grow with "[$C $I]") as "C".
  apply rbind_Ok in H as (b8 & E8 & H). wp_bind. iApply (wp_lift _ _ _ _ E8).
  apply rbind_Ok in H as (more & E9 & H). wp_bind. iApply (wp_lift _ _ _ _ E9). destruct more.
  - pose proof (IHl p n (acc ++ [set_name s t]) (ps ++ [q]) b8 ot b1 Φ Hb H) as W. rewrite last_item_snoc in W. iApply (W with "H C K").
  - apply rbind_Ok in H as (e & E10 & H). wp_bind. iApply (wp_lift _ _ _ _ E10). destruct e; cbn [negb] in *.
    + pose proof (wp_close_list mf p n (acc ++ [set_name s t]) (ps ++ [q]) cJSON_Object b8 Φ Hb) as W. rewrite last_item_snoc in W.
      iApply (W with "H C"); [done|]. iIntros "F". iApply "K". injection H as <- <-. cbn [parsed fst snd]. iExists _. iFrame.
      by iPureIntro.
    + injection H as <- <-. iApply (wp_fail_list with "C"). iApply "K". cbn [parsed fst snd]. iFrame. iPureIntro. auto.
Qed.

Lemma wp_fail_null mf p n ot b1 b (Φ : bool * parse_buffer → hP) : ot = None → b = b1 →
  ⊢ p ↦ JNode n -∗ (∀ r, parsed mf p n ot b1 r -∗ Φ r) -∗ wp mf (fail_list NULL b) Φ.
Proof.
  iIntros (-> ->) "H K". iApply (wp_fail_list mf [] [] NULL); [done|]. iApply "K". cbn [parsed fst]. iFrame. iPureIntro. auto.
Qed.

Lemma wp_close_empty mf p n ty b ot b1 (Φ : bool * parse_buffer → hP) : blank n → plain ty → tp_close ty [] b = Ok (ot, b1) →
  ⊢ p ↦ JNode n -∗ (∀ r, parsed mf p n ot b1 r -∗ Φ r) -∗ wp mf (close_list p ty NULL NULL b) Φ.
Proof.
  intros Hb Hty H. injection H as <- <-. iIntros "H K". iApply (wp_close_list mf p n [] [] ty b with "H []"); [done|done|done|].
  iIntros "F". iApply "K". cbn [parsed fst]. iExists _. iFrame. by iPureIntro.
Qed.

Lemma parse_array_ok mf fuel : list_spec mf (parse_elements fuel) (tp_elements fuel) → implements mf (parse_array (S fuel)) (tp_array (S fuel)).
Proof.
  intros IH p n b ot b1 Φ Hb H. iIntros "H K". cbn [parse_array]. cbn [tp_array] in H. destruct (_ <=? depth b).
  { injection H as <- <-. wp_ret. iApply "K". cbn [parsed fst]. iFrame. iPureIntro. auto. }
  apply rbind_Ok in H as (c & E1 & H). wp_bind. iApply (wp_lift _ _ _ _ E1). destruct (negb (c =? 91)).
  { injection H as <- <-. by iApply (wp_fail_null with "H K"). }
  apply rbind_Ok in H as (b2 & E2 & H). wp_bind. iApply (wp_lift _ _ _ _ E2).
  apply rbind_Ok in H as (e & E3 & H). wp_bind. iApply (wp_lift _ _ _ _ E3). destruct e; [by iApply (wp_close_empty with "H K")|].
  destruct (negb (can_access b2 0)); [injection H as <- <-; by iApply (wp_fail_null with "H K")|].
  iApply (IH p n [] [] _ ot b1 Φ Hb H with "H [] K"). done.
Qed.

Lemma parse_object_ok mf fuel : list_spec mf (parse_members fuel) (tp_members fuel) → implements mf (parse_object (S fuel)) (tp_object (S fuel)).
Proof.
  intros IH p n b ot b1 Φ Hb H. iIntros "H K". cbn [parse_object]. cbn [tp_object] in H. destruct (_ <=? depth b).
  { injection H as <- <-. wp_ret. iApply "K". cbn [parsed fst]. iFrame. iPureIntro. auto. }
  apply rbind_Ok in H as (c & E1 & H). wp_bind. iApply (wp_lift _ _ _ _ E1). destruct (negb c).
  { injection H as <- <-. by iApply (wp_fail_null with "H K"). }
  apply rbind_Ok in H as (b2 & E2 & H). wp_bind. iApply (wp_lift _ _ _ _ E2).
  apply rbind_Ok in H as (e & E3 & H). wp_bind. iApply (wp_lift _ _ _ _ E3). destruct e; [by iApply (wp_close_empty with "H K")|].
  destruct (negb (can_access b2 0)); [injection H as <- <-; by iApply (wp_fail_null with "H K")|].
  iApply (IH p n [] [] _ ot b1 Φ Hb H with "H [] K"). done.
Qed.

(** A word: the node gets its type. *)
Lemma wp_word mf p n ty vi f ot b1 b (Φ : bool * parse_buffer → hP) : blank n → plain ty →
  f n = set_valueint vi (set_type ty n) → ot = Some (value ty None vi (S754_zero false) []) → b = b1 →
  ⊢ p ↦ JNode n -∗ (∀ r, parsed mf p n ot b1 r -∗ Φ r) -∗ wp mf (mod_item p f;;; fret (true, b))%fw Φ.
Proof.
  iIntros (Hb Hty Hf -> ->) "H K". wp_bind. iApply (wp_mod_item with "H"). iIntros "H". wp_ret. iApply "K". cbn [parsed fst].
  iExists _. iSplitR; [by iPureIntro|]. iApply (filled_simple with "H"); [done|]. rewrite Hf.
  destruct Hb as (H1 & H2 & H3 & H4 & _), n. cbn in *. by subst.
Qed.

Lemma parse_value_ok mf fuel :
  implements mf (parse_array fuel) (tp_array fuel) → implements mf (parse_object fuel) (tp_object fuel) →
  implements mf (parse_value (S fuel)) (tp_value (S fuel)).
Proof.
  intros IHa IHo p n b ot b1 Φ Hb H. iIntros "H K". cbn [parse_value]. cbn [tp_value] in H.
  assert (∀ ty, set_type ty n = set_valueint 0 (set_type ty n)) as Hz by (destruct Hb as (_ & _ & H3 & _), n; cbn in *; by subst).
  destruct (can_read b 4 && starts b (lit "null")); [injection H as <- <-; iApply (wp_word mf p n cJSON_NULL 0 with "H K"); [done|done|apply Hz|done|done]|].
  destruct (can_read b 5 && starts b (lit "false")); [injection H as <- <-; iApply (wp_word mf p n cJSON_False 0 with "H K"); [done|done|apply Hz|done|done]|].
  destruct (can_read b 4 && starts b (lit "true")); [injection H as <- <-; iApply (wp_word mf p n cJSON_True 1 with "H K"); done|].
  destruct (negb (can_access b 0)).
  { injection H as <- <-. wp_ret. iApply "K". cbn [parsed fst]. iFrame. iPureIntro. auto. }
  apply rbind_Ok in H as (c & E1 & H). wp_bind. iApply (wp_lift _ _ _ _ E1). destruct (c =? 34).
  { apply rbind_Ok in H as ([os b2] & E2 & H). injection H as <- <-. iApply (wp_parse_string with "H"); [exact E2|]. iSplit.
    - iIntros (vp s) "%Hs V H". iApply "K". cbn [parsed fst snd]. iExists (text_value s). iSplitR; [by rewrite Hs; iPureIntro|].
      iExists NULL, vp. iFrame "V". iSplitL "H"; [destruct Hb as (H1 & H2 & H3 & H4 & _), n; cbn in *; subst; iFrame|].
      iSplitR; [by iPureIntro|]. iApply kids_nil.
    - iIntros (b') "%Hf H". iApply "K". cbn [parsed fst snd]. iFrame. iPureIntro. destruct Hf as [?|[-> ->]]; auto. }
  destruct ((c =? 45) || _); [by iApply (tp_number_ok with "H K")|].
  destruct (c =? 91); [by iApply (IHa with "H K")|]. destruct (c =? 123); [by iApply (IHo with "H K")|].
  injection H as <- <-. wp_ret. iApply "K". cbn [parsed fst]. iFrame. iPureIntro. auto.
Qed.

Lemma parse_ok mf fuel :
  implements mf (parse_value fuel) (tp_value fuel) ∧ implements mf (parse_array fuel) (tp_array fuel) ∧
  list_spec mf (parse_elements fuel) (tp_elements fuel) ∧ implements mf (parse_object fuel) (tp_object fuel) ∧
  list_spec mf (parse_members fuel) (tp_members fuel).
Proof.
  induction fuel as [|fuel (Hv & Ha & He & Ho & Hm)]; [by repeat split|].
  split; [by apply parse_value_ok|]. split; [by apply parse_array_ok|]. split; [by apply parse_elements_ok|].
  split; [by apply parse_object_ok|by apply parse_members_ok].
Qed.
Lemma wp_parse_value mf fuel : implements mf (parse_value fuel) (tp_value fuel).
Proof. apply parse_ok. Qed.

(** ** The parser on trees ends *)

(** The text is all there and ends with its mark. *)
Definition terminated (b : parse_buffer) : Prop :=
  zlen (content b) = blen b ∧ 0 <= offset b < blen b ∧ last (content b) = Some 0.
(** A later place in the same text. *)
Definition later (b b' : parse_buffer) : Prop :=
  content b' = content b ∧ blen b' = blen b ∧ offset b <= offset b' <= blen b.

Lemma text_byte_ok l i : 0 <= i < zlen l → ∃ c, byte_at l i = Ok c ∧ l !! Z.to_nat i = Some c.
Proof.
  intros H. unfold byte_at. rewrite (proj2 (Z.ltb_ge i 0)) by lia.
  destruct (lookup_lt_is_Some_2 l (Z.to_nat i)) as [c E]; [unfold zlen in H; lia|]. rewrite E. eauto.
Qed.
Lemma byte_at_inv l i c : byte_at l i = Ok c → 0 <= i < zlen l ∧ l !! Z.to_nat i = Some c.
Proof.
  unfold byte_at. destruct (Z.ltb_spec i 0); [done|]. destruct (l !! Z.to_nat i) eqn:E; [|done]. intros [= ->].
  apply lookup_lt_Some in E as H'. unfold zlen. split; [lia|done].
Qed.
(** A character that is not the end mark has another behind it. *)
Lemma not_last l i c : last l = Some 0 → byte_at l i = Ok c → c ≠ 0 → i + 1 < zlen l.
Proof.
  intros Hl H Hc. apply byte_at_inv in H as [Hi E]. rewrite last_lookup in Hl. unfold zlen in *.
  destruct (decide (i + 1 < Z.of_nat (List.length l))) as [|Hn]; [done|]. assert (Z.to_nat i = pred (List.length l)) as E' by lia.
  rewrite E' in E. congruence.
Qed.

Lemma later_refl b : 0 <= offset b <= blen b → later b b.
Proof. repeat split; lia. Qed.
Lemma later_trans b b' b'' : later b b' → later b' b'' → later b b''.
Proof. intros (H1 & H2 & H3) (H4 & H5 & H6). repeat split; [congruence..|lia|lia]. Qed.
Lemma later_terminated b b' : terminated b → later b b' → offset b' < blen b → terminated b'.
Proof. intros (H1 & H2 & H3) (H4 & H5 & H6) H. repeat split; rewrite ?H4, ?H5; [done|lia|lia|done]. Qed.

Lemma skip_loop_ok fuel b : (Z.to_nat (blen b - offset b) < fuel)%nat → terminated b → ∃ b', skip_loop fuel b = Ok b' ∧ later b b'.
Proof.
  revert b. induction fuel as [|fuel IH]; intros b Hf Hb; [lia|]. cbn [skip_loop]. unfold can_access. rewrite Z.add_0_r.
  pose proof Hb as (H1 & H2 & H3). rewrite (proj2 (Z.ltb_lt _ _)) by lia. unfold here.
  destruct (text_byte_ok (content b) (offset b)) as (c & -> & _); [lia|]. cbn [rbind].
  destruct (c <=? 32); [|eexists; split; [done|]; apply later_refl; lia].
  destruct (decide (offset b + 1 = blen b)) as [E|E].
  - destruct fuel as [|fuel]; [lia|]. cbn [skip_loop]. unfold can_access. cbn [offset blen set_offset].
    rewrite (proj2 (Z.ltb_ge _ _)) by lia. eexists. split; [done|]. repeat split; cbn; lia.
  - destruct (IH (set_offset (offset b + 1) b)) as (b' & -> & Hl).
    + cbn. lia.
    + repeat split; cbn; try done; lia.
    + exists b'. split; [done|]. eapply later_trans; [|exact Hl]. repeat split; cbn; lia.
Qed.

Lemma skip_ok b : terminated b → ∃ b', buffer_skip_whitespace b = Ok b' ∧ terminated b' ∧ later b b'.
Proof.
  intros Hb. pose proof Hb as (H1 & H2 & H3). unfold buffer_skip_whitespace, can_access.
  rewrite (proj2 (Z.ltb_lt _ _)) by lia. cbn [negb].
  destruct (skip_loop_ok (S (Z.to_nat (blen b - offset b))) b) as (b' & -> & Hl); [lia|done|]. cbn [rbind]. pose proof Hl as (E1 & E2 & E3).
  destruct (Z.eqb_spec (offset b') (blen b')) as [E|E].
  - eexists. split; [done|]. assert (later b (set_offset (offset b' - 1) b')) as Hl'.
    { repeat split; cbn; [done..|lia|lia]. }
    split; [|done]. eapply later_terminated; [done|done|]. cbn. lia.
  - eexists. split; [done|]. split; [|done]. eapply later_terminated; [done|done|lia].
Qed.

Lemma advance_ok b : terminated b → offset b + 1 < blen b → ∃ b', advance b = Ok b' ∧ terminated b' ∧ later b b' ∧ offset b < offset b'.
Proof.
  intros (H1 & H2 & H3) H. unfold advance. destruct (skip_ok (set_offset (offset b + 1) b)) as (b' & -> & Ht & Hl).
  { repeat split; cbn; try done; lia. }
  exists b'. destruct Hl as (E1 & E2 & E3). cbn in *. split; [done|]. split; [done|]. repeat split; try done; lia.
Qed.

Lemma here_ok b : terminated b → ∃ c, here b = Ok c ∧ (c ≠ 0 → offset b + 1 < blen b).
Proof.
  intros (H1 & H2 & H3). unfold here. destruct (text_byte_ok (content b) (offset b)) as (c & E & _); [lia|]. exists c.
  split; [done|]. intros Hc. rewrite <- H1. by eapply not_last.
Qed.
Lemma sees_ok b c : terminated b → c ≠ 0 → ∃ e, sees b c = Ok e ∧ (e = true → offset b + 1 < blen b).
Proof.
  intros Hb Hc. unfold sees, can_access. pose proof Hb as (H1 & H2 & H3). rewrite (proj2 (Z.ltb_lt _ _)) by lia.
  destruct (here_ok b Hb) as (x & -> & Hx). cbn [rbind]. eexists. split; [done|]. intros E. apply Z.eqb_eq in E as ->. auto.
Qed.

(** ** Numbers and words end within the text *)

Lemma copy_number_ok room b : ∀ i, terminated b → 0 <= i → offset b + i < blen b →
  ∃ t, copy_number room b i = Ok t ∧ offset b + i + zlen t < blen b.
Proof.
  induction room as [|room IH]; intros i Hb Hi Hl; cbn [copy_number]; [exists []; rewrite zlen_nil; split; [done|lia]|].
  unfold can_access. rewrite (proj2 (Z.ltb_lt _ _)) by lia. pose proof Hb as (H1 & H2 & H3).
  destruct (text_byte_ok (content b) (offset b + i)) as (c & E & _); [lia|]. rewrite E. cbn [rbind].
  destruct (number_char c) eqn:Ec; [|exists []; rewrite zlen_nil; split; [done|lia]].
  assert (c ≠ 0) as Hc by (intros ->; done). pose proof (not_last _ _ _ H3 E Hc) as Hn.
  destruct (IH (i + 1)) as (t & -> & Ht); [done|lia|lia|]. cbn [rbind]. eexists. split; [done|]. rewrite zlen_cons. lia.
Qed.

Lemma span_digits_len s : let '(ds, r) := span_digits s in zlen s = zlen ds + zlen r.
Proof.
  induction s as [|b s IH]; cbn [span_digits]; [done|]. destruct (CJsonNum.is_digit b); [|rewrite zlen_nil; lia].
  destruct (span_digits s) as [ds r]. rewrite !zlen_cons. lia.
Qed.
Lemma scan_exponent_len s : 0 <= (scan_exponent s).2 <= zlen s.
Proof.
  destruct s as [|b s]; cbn [scan_exponent]; [done|]. rewrite zlen_cons. pose proof (zlen_nonneg s).
  destruct ((b =? 101) || (b =? 69)); [|cbn [snd]; lia].
  destruct (match s with [] => _ | _ => _ end) as [[neg n] s'] eqn:E.
  assert (0 <= n ∧ zlen s' + n = zlen s) as [Hn Hs].
  { destruct s as [|c s]; [injection E as _ <- <-; done|]. rewrite !zlen_cons in *. 
    destruct (c =? 45); [injection E as _ <- <-; lia|]. destruct (c =? 43); injection E as _ <- <-; [lia|rewrite zlen_cons; lia]. }
  pose proof (span_digits_len s') as Hd. destruct (span_digits s') as [ds r]. cbn [fst]. pose proof (zlen_nonneg r). pose proof (zlen_nonneg ds).
  destruct (zlen ds =? 0); cbn [snd]; lia.
Qed.
Lemma strtod_len s : 0 <= (strtod s).2 <= zlen s.
Proof.
  unfold strtod. destruct (match s with [] => _ | _ => _ end) as [[neg n0] s1] eqn:E. pose proof (zlen_nonneg s).
  assert (0 <= n0 ∧ zlen s1 + n0 = zlen s) as [Hn Hs].
  { destruct s as [|c s]; [injection E as _ <- <-; done|]. rewrite !zlen_cons in *.
    destruct (c =? 45); [injection E as _ <- <-; lia|]. destruct (c =? 43); injection E as _ <- <-; [lia|rewrite zlen_cons; lia]. }
  pose proof (span_digits_len s1) as Hd. destruct (span_digits s1) as [ds s2].
  destruct (match s2 with [] => _ | _ => _ end) as [[fs n1] s3] eqn:E2.
  assert (0 <= n1 ∧ zlen s3 + n1 = zlen s2) as [Hn1 Hs3].
  { destruct s2 as [|c s2]; [injection E2 as _ <- <-; done|]. destruct (c =? 46).
    - pose proof (span_digits_len s2) as Hd2. destruct (span_digits s2) as [fs' r]. injection E2 as <- <- <-. rewrite zlen_cons.
      pose proof (zlen_nonneg fs'). lia.
    - injection E2 as _ <- <-. lia. }
  pose proof (zlen_nonneg ds). pose proof (scan_exponent_len s3) as He. destruct (zlen ds + zlen fs =? 0); [cbn [snd]; lia|].
  destruct (scan_exponent s3) as [e n2]. cbn [snd] in *. lia.
Qed.

(** A result of a parser of a text with an end mark: a value takes at least one
    character and leaves the end mark. *)
Definition safe_result {A} (b : parse_buffer) (r : result (option A * parse_buffer)) : Prop :=
  ∃ o b', r = Ok (o, b') ∧ match o with Some _ => terminated b' ∧ later b b' ∧ offset b < offset b' | None => 0 <= offset b' end.

Lemma tp_number_safe b : terminated b → safe_result b (tp_number b).
Proof.
  intros Hb. pose proof Hb as (H1 & H2 & H3). unfold tp_number. destruct (copy_number_ok 63 b 0) as (t & -> & Ht); [done|lia|lia|]. cbn [rbind].
  pose proof (strtod_len t) as Hs. destruct (strtod t) as [d k]. cbn [snd] in Hs. destruct (Z.eqb_spec k 0) as [->|Hk].
  - exists None, b. split; [done|lia].
  - eexists _, _. split; [done|]. cbn. repeat split; cbn; try done; lia.
Qed.

Lemma starts_ok b w k : terminated b → can_read b k && starts b w = true → k = zlen w → Forall (λ c, c ≠ 0) w → offset b + zlen w < blen b.
Proof.
  intros (H1 & H2 & H3) H -> Hw. apply andb_true_iff in H as [Hr Hs]. unfold can_read in Hr. apply Z.leb_le in Hr.
  unfold starts in Hs. apply bool_decide_eq_true in Hs. destruct (decide (offset b + zlen w < blen b)) as [|Hn]; [done|].
  exfalso. assert (offset b + zlen w = blen b) as E by lia. destruct w as [|c w _] using rev_ind; [rewrite zlen_nil in E; lia|].
  apply Forall_app in Hw as [_ Hc]. apply Forall_cons_1 in Hc as [Hc _]. apply Hc. 
  assert (take (List.length (w ++ [c])) (drop (Z.to_nat (offset b)) (content b)) !! List.length w = Some c) as Hl.
  { rewrite Hs. apply list_lookup_middle. done. }
  rewrite lookup_take_lt, lookup_drop in Hl by (rewrite length_app; cbn; lia). rewrite last_lookup in H3.
  rewrite zlen_app, zlen_cons, zlen_nil in E. unfold zlen in *.
  replace (Z.to_nat (offset b) + List.length w)%nat with (pred (List.length (content b))) in Hl by lia. congruence.
Qed.

(** ** Strings stay inside their blocks

    [scanned l e p S]: from [p] on the closing quote is found at [e], and [S] are the
    places of the backslashes that the search counts.  The decoder may start at
    other places (a backslash in the middle of an escape sequence it skips), so
    its room is what is left of the text without the backslashes still counted. *)

Inductive scanned (l : list Z) (e : Z) : Z → list Z → Prop :=
| scanned_end : byte_at l e = Ok 34 → scanned l e e []
| scanned_escape p S : byte_at l p = Ok 92 → p + 2 <= e → scanned l e (p + 2) S → scanned l e p (p :: S)
| scanned_plain p S c : byte_at l p = Ok c → c ≠ 92 → p + 1 <= e → scanned l e (p + 1) S → scanned l e p S.

Lemma scanned_le l e p S : scanned l e p S → p <= e ∧ byte_at l e = Ok 34.
Proof. induction 1; [split; [lia|done]|split; [lia|tauto]..]. Qed.

Lemma scan_string_ok fuel b : ∀ p k, terminated b → offset b < p → p < blen b → (Z.to_nat (blen b - p) < fuel)%nat →
  ∃ r, scan_string fuel b p k = Ok r ∧
    match r with Some (e, k') => ∃ S, scanned (content b) e p S ∧ k' = k + zlen S ∧ e + 1 < blen b | None => True end.
Proof.
  induction fuel as [|fuel IH]; intros p k Hb Hp Hl Hf; [lia|]. cbn [scan_string]. rewrite (proj2 (Z.ltb_lt _ _)) by lia.
  pose proof Hb as (H1 & H2 & H3). destruct (text_byte_ok (content b) p) as (c & E & _); [lia|]. rewrite E. cbn [rbind].
  destruct (Z.eqb_spec c 34) as [->|Hq].
  { eexists. split; [done|]. exists []. split; [by constructor|]. split; [rewrite zlen_nil; lia|].
    rewrite <- H1. by eapply not_last. }
  destruct (Z.eqb_spec c 92) as [->|Hc].
  - destruct (Z.leb_spec (blen b) (p + 1)); [eexists; done|].
    destruct (decide (p + 2 < blen b)) as [Hlt|Hge].
    + destruct (IH (p + 2) (k + 1)) as (r & -> & Hr); [done|lia|lia|lia|]. exists r. split; [done|].
      destruct r as [[e k']|]; [|done]. destruct Hr as (S & HS & -> & He). exists (p :: S). split; [|rewrite zlen_cons; split; [lia|done]].
      pose proof (scanned_le _ _ _ _ HS). constructor; [done|lia|done].
    + destruct fuel as [|fuel]; [lia|]. cbn [scan_string]. rewrite (proj2 (Z.ltb_ge _ _)) by lia. eexists. done.
  - destruct (decide (p + 1 < blen b)) as [Hlt|Hge].
    + destruct (IH (p + 1) k) as (r & -> & Hr); [done|lia|lia|lia|]. exists r. split; [done|].
      destruct r as [[e k']|]; [|done]. destruct Hr as (S & HS & -> & He). exists S. split; [|done].
      pose proof (scanned_le _ _ _ _ HS). by eapply scanned_plain; [done|done|lia|].
    + destruct fuel as [|fuel]; [lia|]. cbn [scan_string]. rewrite (proj2 (Z.ltb_ge _ _)) by lia. eexists. done.
Qed.

(** How many of the counted backslashes are at [q] or behind it. *)
Definition count_from (q : Z) (S : list Z) : Z := zlen (filter (λ s, q <= s) S).

Lemma scanned_bounds l e p S : scanned l e p S → Forall (λ s, p <= s ∧ s + 2 <= e ∧ byte_at l s = Ok 92) S.
Proof.
  induction 1 as [|p S Hp Hle HS IH|p S c Hp Hc Hle HS IH]; [constructor|constructor; [done|]|];
    (eapply Forall_impl; [exact IH|]; cbn; intros s (? & ? & ?); repeat split; [lia|lia|done]).
Qed.
Lemma count_from_all q S : Forall (λ s, q <= s) S → count_from q S = zlen S.
Proof.
  unfold count_from. induction 1 as [|s S Hs _ IH]; [done|]. rewrite filter_cons_True, !zlen_cons by done. lia.
Qed.
Lemma count_from_cons q s S : count_from q (s :: S) = (if decide (q <= s) then 1 else 0) + count_from q S.
Proof.
  unfold count_from. destruct (decide (q <= s)); [rewrite filter_cons_True, zlen_cons|rewrite filter_cons_False]; done.
Qed.
Lemma count_from_mono q q' S : q <= q' → count_from q' S <= count_from q S.
Proof. induction S as [|s S IH]; [done|]. rewrite !count_from_cons. intros. destruct (decide _), (decide _); lia. Qed.

(** Of two neighbouring places at most one is counted. *)
Lemma count_two l e p S q : scanned l e p S → count_from q S <= count_from (q + 2) S + 1.
Proof.
  induction 1 as [|p S Hp Hle HS IH|p S c Hp Hc Hle HS IH]; [done| |done]. rewrite !count_from_cons.
  destruct (decide (q + 2 <= p)) as [H|H]; [rewrite decide_True by lia; lia|].
  destruct (decide (q <= p)) as [H'|H']; [|lia]. pose proof (scanned_bounds _ _ _ _ HS) as HF.
  rewrite !count_from_all; [lia|..]; (eapply Forall_impl; [exact HF|]; cbn; intros s (? & _); lia).
Qed.
Lemma count_even l e p S q k : scanned l e p S → count_from q S <= count_from (q + 2 * Z.of_nat k) S + Z.of_nat k.
Proof.
  intros HS. induction k as [|k IH]; [replace (q + 2 * Z.of_nat 0) with q by lia; lia|]. pose proof (count_two _ _ _ _ (q + 2 * Z.of_nat k) HS) as H.
  replace (q + 2 * Z.of_nat (Datatypes.S k)) with (q + 2 * Z.of_nat k + 2) by lia. lia.
Qed.
Lemma count_other l e p S q c : scanned l e p S → byte_at l q = Ok c → c ≠ 92 → count_from q S = count_from (q + 1) S.
Proof.
  intros HS Hq Hc. pose proof (scanned_bounds _ _ _ _ HS) as HF. clear HS.
  induction HF as [|s S (_ & _ & Hs) _ IH]; [done|]. rewrite !count_from_cons, IH.
  assert (s ≠ q) by (intros ->; congruence). destruct (decide _), (decide _); lia.
Qed.
Lemma count_end l e p S : scanned l e p S → count_from (e - 1) S = 0 ∧ count_from e S = 0.
Proof.
  intros HS. pose proof (scanned_bounds _ _ _ _ HS) as HF. clear HS.
  induction HF as [|s S (_ & Hs & _) _ [IH1 IH2]]; [done|]. rewrite !count_from_cons, !decide_False by lia. lia.
Qed.

(** *** Sequences of hexadecimal digits *)

Lemma hex_digit_range c v : hex_digit c = Some v → 0 <= v < 16.
Proof.
  unfold hex_digit. destruct ((48 <=? c) && (c <=? 57)) eqn:E1; [|destruct ((65 <=? c) && (c <=? 70)) eqn:E2;
    [|destruct ((97 <=? c) && (c <=? 102)) eqn:E3; [|done]]]; rewrite andb_true_iff, !Z.leb_le in *; intros [= <-]; lia.
Qed.
Lemma parse_hex4_ok l pos : 0 <= pos → pos + 4 <= zlen l → ∃ h, parse_hex4 l pos = Ok h ∧ 0 <= h < 65536.
Proof.
  intros Hp Hl. unfold parse_hex4. cbn [hex_loop].
  destruct (text_byte_ok l pos) as (c1 & -> & _); [lia|]. cbn [rbind]. destruct (hex_digit c1) as [v1|] eqn:E1; [|eexists; split; [done|lia]].
  destruct (text_byte_ok l (pos + 1)) as (c2 & -> & _); [lia|]. cbn [rbind]. destruct (hex_digit c2) as [v2|] eqn:E2; [|eexists; split; [done|lia]].
  destruct (text_byte_ok l (pos + 1 + 1)) as (c3 & -> & _); [lia|]. cbn [rbind]. destruct (hex_digit c3) as [v3|] eqn:E3; [|eexists; split; [done|lia]].
  destruct (text_byte_ok l (pos + 1 + 1 + 1)) as (c4 & -> & _); [lia|]. cbn [rbind]. destruct (hex_digit c4) as [v4|] eqn:E4; [|eexists; split; [done|lia]].
  apply hex_digit_range in E1, E2, E3, E4. eexists. split; [done|]. rewrite !Z.shiftl_mul_pow2 by lia. lia.
Qed.

Lemma utf8_tail_len k c acc : zlen (utf8_tail k c acc).2 = Z.of_nat k + zlen acc.
Proof. revert c acc. induction k as [|k IH]; intros c acc; cbn [utf8_tail]; [done|]. rewrite IH, zlen_cons. lia. Qed.
Lemma utf8_encode_len c d : utf8_encode c = Some d → 1 <= zlen d <= 4 ∧ (c < 0x10000 → zlen d <= 3).
Proof.
  unfold utf8_encode. assert (∀ k mark, (let '(c', tl) := utf8_tail k c [] in Some (Z.land (Z.lor c' mark) 0xFF :: tl)) = Some d →
    zlen d = 1 + Z.of_nat k) as Hk.
  { intros k mark. pose proof (utf8_tail_len k c []) as H. destruct (utf8_tail k c []) as [x tl]. cbn [snd] in H. intros [= <-].
    rewrite zlen_cons, H. change (zlen (@nil Z)) with 0. lia. }
  destruct (Z.ltb_spec c 0x80); [intros [= <-]; change (zlen _) with 1; lia|].
  destruct (Z.ltb_spec c 0x800); [|destruct (Z.ltb_spec c 0x10000); [|destruct (c <=? 0x10FFFF); [|done]]]; intros E%Hk; lia.
Qed.

(** A sequence lies within the string and is not longer than half of its text. *)
Lemma utf16_ok l pos e : 0 <= pos → e < zlen l →
  ∃ n d, utf16_literal_to_utf8 l pos e = Ok (n, d) ∧
    (n = 0 ∨ (n = 6 ∧ zlen d <= 3 ∧ pos + 6 <= e) ∨ (n = 12 ∧ zlen d <= 4 ∧ pos + 12 <= e)).
Proof.
  intros Hp He. unfold utf16_literal_to_utf8. destruct (Z.ltb_spec (e - pos) 6); [eexists _, _; split; [done|by left]|].
  destruct (parse_hex4_ok l (pos + 2)) as (h & -> & Hh); [lia|lia|]. cbn [rbind].
  destruct ((0xDC00 <=? h) && (h <=? 0xDFFF)); [eexists _, _; split; [done|by left]|].
  destruct ((0xD800 <=? h) && (h <=? 0xDBFF)).
  - destruct (Z.ltb_spec (e - (pos + 6)) 6); [eexists _, _; split; [done|by left]|].
    destruct (text_byte_ok l (pos + 6)) as (c0 & -> & _); [lia|]. cbn [rbind]. destruct (negb (c0 =? 92)); [eexists _, _; split; [done|by left]|].
    destruct (text_byte_ok l (pos + 6 + 1)) as (c1 & -> & _); [lia|]. cbn [rbind]. destruct (negb (c1 =? 117)); [eexists _, _; split; [done|by left]|].
    destruct (parse_hex4_ok l (pos + 6 + 2)) as (g & -> & Hg); [lia|lia|]. cbn [rbind].
    destruct ((g <? 0xDC00) || (0xDFFF <? g)); [eexists _, _; split; [done|by left]|].
    destruct (utf8_encode _) as [d|] eqn:Ed; [|eexists _, _; split; [done|by left]]. apply utf8_encode_len in Ed as [Ed _].
    eexists _, _. split; [done|]. right. right. lia.
  - destruct (utf8_encode h) as [d|] eqn:Ed; [|eexists _, _; split; [done|by left]]. apply utf8_encode_len in Ed as [_ Ed].
    eexists _, _. split; [done|]. right. left. lia.
Qed.

Lemma decode_string_ok l e st S : scanned l e st S → 0 <= st → e < zlen l → ∀ fuel pos out,
  0 <= pos <= e → (Z.to_nat (e - pos) < fuel)%nat →
  zlen out + (e - pos) - count_from pos S <= e - st - zlen S →
  ∃ r, decode_string fuel l pos e (e - st - zlen S + 2) out = Ok r ∧ 0 <= r.2.
Proof.
  intros HS Hst He. induction fuel as [|fuel IH]; intros pos out Hpos Hf Hroom; [lia|]. cbn [decode_string].
  set (size := e - st - zlen S + 2). pose proof (count_end _ _ _ _ HS) as [Hc1 Hc2]. pose proof (scanned_le _ _ _ _ HS) as [Hse _].
  assert (∀ d, zlen out + zlen d <= size → emit size out d = Ok (out ++ d)) as Hemit.
  { intros d Hd. unfold emit. rewrite (proj2 (Z.leb_le _ _)) by done. done. }
  assert (∀ fuel o, zlen o + 1 <= size → ∃ r, decode_string (Datatypes.S fuel) l (e + 1) e size o = Ok r ∧ 0 <= r.2) as Hover.
  { intros f o Ho. cbn [decode_string]. rewrite (proj2 (Z.ltb_ge _ _)) by lia. unfold emit.
    rewrite (proj2 (Z.leb_le _ _)) by (rewrite zlen_cons, zlen_nil; lia). eexists. split; [done|]. cbn. lia. }
  pose proof (zlen_nonneg out) as Ho. destruct (Z.ltb_spec pos e) as [Hlt|Hge].
  2: { assert (count_from pos S <= 0) as H0 by (pose proof (count_from_mono e pos S ltac:(lia)); lia).
       rewrite Hemit by (change (zlen [0]) with 1; lia). eexists. split; [done|]. cbn. lia. }
  destruct (text_byte_ok l pos) as (c & Ec & _); [lia|]. rewrite Ec. cbn [rbind].
  assert (∀ q, q <= e → count_from q S <= e - q) as Hle.
  { intros q Hq. pose proof (count_even _ _ _ _ q (Z.to_nat (e - q)) HS).
    pose proof (count_from_mono e (q + 2 * Z.of_nat (Z.to_nat (e - q))) S ltac:(lia)). lia. }
  pose proof (Hle pos ltac:(lia)) as Hle0.
  destruct (Z.eqb_spec c 92) as [->|Hc]; cbn [negb].
  2: { assert (count_from pos S = count_from (pos + 1) S) as E by (by eapply count_other).
       rewrite Hemit by (rewrite zlen_cons, zlen_nil; lia). cbn [rbind]. apply IH; [lia|lia|].
       rewrite zlen_app, zlen_cons, zlen_nil. lia. }
  rewrite (proj2 (Z.ltb_ge (e - pos) 1)) by lia.
  destruct (text_byte_ok l (pos + 1)) as (x & Ex & _); [lia|]. rewrite Ex. cbn [rbind]. destruct (Z.eqb_spec x 117) as [->|Hx].
  - destruct (utf16_ok l pos e) as (n & d & Eu & Hn); [lia|done|]. rewrite Eu. cbn [rbind fst snd].
    destruct Hn as [->|[(-> & Hd & Hn)|(-> & Hd & Hn)]]; [eexists; split; [done|cbn; lia]| |];
      cbn [Z.eqb]; [pose proof (count_even _ _ _ _ pos 3 HS) as Hk|pose proof (count_even _ _ _ _ pos 6 HS) as Hk]; cbn [Z.of_nat] in Hk.
    + replace (pos + 2 * Z.of_nat 3) with (pos + 6) in Hk by lia. pose proof (Hle (pos + 6) ltac:(lia)). rewrite Hemit by lia. cbn [rbind]. apply IH; [lia|lia|]. rewrite zlen_app. lia.
    + replace (pos + 2 * Z.of_nat 6) with (pos + 12) in Hk by lia. pose proof (Hle (pos + 12) ltac:(lia)). rewrite Hemit by lia. cbn [rbind]. apply IH; [lia|lia|]. rewrite zlen_app. lia.
  - destruct (escape_char x) as [y|]; [|eexists; split; [done|cbn; lia]]. pose proof (count_even _ _ _ _ pos 1 HS) as Hk.
    replace (pos + 2 * Z.of_nat 1) with (pos + 2) in Hk by lia. rewrite Hemit by (rewrite zlen_cons, zlen_nil; lia). cbn [rbind].
    destruct (decide (pos + 2 <= e)) as [Hin|Hout]; [apply IH; [lia|lia|rewrite zlen_app, zlen_cons, zlen_nil; lia]|].
    assert (pos = e - 1) as -> by lia. replace (e - 1 + 2) with (e + 1) by lia. destruct fuel as [|fuel]; [lia|].
    apply Hover. rewrite zlen_app, zlen_cons, zlen_nil. lia.
Qed.

Lemma tp_string_safe b : terminated b → offset b + 1 < blen b → safe_result b (tp_string b).
Proof.
  intros Hb Hlt. pose proof Hb as (H1 & H2 & H3). unfold tp_string. destruct (here_ok b Hb) as (c & -> & _). cbn [rbind].
  destruct (negb (c =? 34)); [exists None; eexists; split; [done|cbn; lia]|].
  destruct (scan_string_ok (S (Z.to_nat (blen b - offset b))) b (offset b + 1) 0) as (r & -> & Hr); [done|lia|lia|lia|]. cbn [rbind].
  destruct r as [[e k]|]; [|exists None; eexists; split; [done|cbn; lia]]. destruct Hr as (S & HS & -> & He).
  pose proof (scanned_le _ _ _ _ HS) as [Hle Hq]. pose proof (scanned_bounds _ _ _ _ HS) as HF.
  destruct (decode_string_ok _ _ _ _ HS) with (fuel := Datatypes.S (Z.to_nat (e - (offset b + 1)))) (pos := offset b + 1) (out := @nil Z)
    as ([o pos] & Ed & Hpos); [lia|lia|lia|lia| |].
  { rewrite zlen_nil, count_from_all; [lia|]. eapply Forall_impl; [exact HF|]. cbn. intros s (? & _). lia. }
  replace (e - (offset b + 1) - zlen S + 2) with (e - offset b - (0 + zlen S) + 1) in Ed by lia. rewrite Ed. cbn [rbind].
  destruct o as [out|]; [|exists None; eexists; split; [done|exact Hpos]].
  destruct (decode_string_fits _ _ _ _ _ _ _ _ Ed) as [_ [d ->]]. destruct (until_end_zero d) as (s & r & -> & _).
  eexists _, _. split; [done|]. cbn. repeat split; cbn; try done; lia.
Qed.

(** ** Values end *)

Lemma safe_none {A} b b' : 0 <= offset b' → safe_result (A := A) b (Ok (None, b')).
Proof. intros. eexists _, _. split; [done|]. done. Qed.
Lemma safe_some {A} b (a : A) b' : terminated b' → later b b' → offset b < offset b' → safe_result b (Ok (Some a, b')).
Proof. intros. eexists _, _. split; [done|]. done. Qed.
Lemma safe_later {A} b b2 (r : result (option A * parse_buffer)) : later b b2 → safe_result b2 r → safe_result b r.
Proof.
  intros Hl (o & b' & -> & H). exists o, b'. split; [done|]. destruct o; [|done]. destruct H as (H1 & H2 & H3).
  split; [done|]. split; [by eapply later_trans|]. destruct Hl as (_ & _ & ?). lia.
Qed.
Lemma safe_word b (w : list Z) k (t : jtree) : terminated b → can_read b k && starts b w = true → k = zlen w → 0 < k → Forall (λ c, c ≠ 0) w →
  safe_result b (Ok (Some t, set_offset (offset b + k) b)).
Proof.
  intros Hb H Hk Hp Hw. pose proof (starts_ok _ _ _ Hb H Hk Hw). pose proof Hb as (H1 & H2 & H3).
  apply safe_some; [repeat split; cbn; try done; lia|repeat split; cbn; try done; lia|cbn; lia].
Qed.
Lemma safe_close b b2 ty ks : later b b2 → terminated b2 → offset b2 + 1 < blen b2 → safe_result b (tp_close ty ks b2).
Proof.
  intros Hl Ht H. pose proof Ht as (H1 & H2 & H3). pose proof Hl as (E1 & E2 & E3).
  apply safe_some; [repeat split; cbn; try done; lia|repeat split; cbn; try done; lia|cbn; lia].
Qed.

Definition rest (b : parse_buffer) : Z := blen b - offset b.
Definition value_safe (fuel : nat) : Prop := ∀ b, terminated b → 3 * rest b + 2 <= Z.of_nat fuel → safe_result b (tp_value fuel b).
Definition array_safe (fuel : nat) : Prop := ∀ b, terminated b → here b = Ok 91 → 3 * rest b + 1 <= Z.of_nat fuel → safe_result b (tp_array fuel b).
Definition object_safe (fuel : nat) : Prop := ∀ b, terminated b → 3 * rest b + 1 <= Z.of_nat fuel → safe_result b (tp_object fuel b).
Definition list_safe (tp : list jtree → parse_buffer → result (option jtree * parse_buffer)) (fuel : nat) : Prop :=
  ∀ acc b, terminated b → offset b + 1 < blen b → 3 * rest b <= Z.of_nat fuel → safe_result b (tp acc b).

Lemma terminated_depth b d : terminated b → terminated (set_depth d b).
Proof. done. Qed.
Lemma terminated_back b : terminated b → 0 < offset b → terminated (set_offset (offset b - 1) b) ∧ offset b - 1 + 1 < blen b.
Proof. intros (H1 & H2 & H3) H. split; [|lia]. repeat split; cbn; try done; lia. Qed.

Lemma elements_step fuel : value_safe fuel → list_safe (tp_elements fuel) fuel → list_safe (tp_elements (S fuel)) (S fuel).
Proof.
  intros IHv IHl acc b Hb Hlt Hf. unfold rest in Hf. cbn [tp_elements]. destruct (advance_ok b Hb Hlt) as (b2 & -> & Hb2 & Hl2 & Ho2). cbn [rbind].
  pose proof Hl2 as (E1 & E2 & E3). destruct (IHv b2 Hb2) as (o & b3 & -> & H3); [unfold rest; lia|]. cbn [rbind].
  destruct o as [t|]; [|by apply safe_none]. destruct H3 as (Hb3 & Hl3 & Ho3).
  destruct (skip_ok b3 Hb3) as (b4 & -> & Hb4 & Hl4). cbn [rbind]. pose proof Hl3 as (E4 & E5 & E6). pose proof Hl4 as (E7 & E8 & E9).
  assert (later b b4) as Hl by (repeat split; [congruence..|lia|lia]).
  destruct (sees_ok b4 44 Hb4) as (e & -> & He); [done|]. cbn [rbind]. destruct e.
  - eapply safe_later; [exact Hl|]. apply IHl; [done|auto|unfold rest; lia].
  - destruct (sees_ok b4 93 Hb4) as (e & -> & He'); [done|]. cbn [rbind]. destruct e; cbn [negb]; [by apply safe_close; auto|].
    apply safe_none. destruct Hb4. lia.
Qed.

Lemma members_step fuel : value_safe fuel → list_safe (tp_members fuel) fuel → list_safe (tp_members (S fuel)) (S fuel).
Proof.
  intros IHv IHl acc b Hb Hlt Hf. unfold rest in Hf. cbn [tp_members]. destruct (advance_ok b Hb Hlt) as (b2 & -> & Hb2 & Hl2 & Ho2). cbn [rbind].
  pose proof Hl2 as (E1 & E2 & E3). pose proof Hb2 as (T1 & T2 & T3).
  assert (safe_result b2 (tp_string b2)) as (o & b3 & -> & H3).
  { destruct (decide (offset b2 + 1 < blen b2)) as [H|H]; [by apply tp_string_safe|]. unfold tp_string.
    destruct (here_ok b2 Hb2) as (c & -> & Hc). cbn [rbind]. destruct (Z.eqb_spec c 34) as [->|]; [lia|]. cbn [negb]. apply safe_none. cbn. lia. }
  cbn [rbind]. destruct o as [name|]; [|by apply safe_none]. destruct H3 as (Hb3 & Hl3 & Ho3).
  destruct (skip_ok b3 Hb3) as (b4 & -> & Hb4 & Hl4). cbn [rbind]. pose proof Hl3 as (E4 & E5 & E6). pose proof Hl4 as (E7 & E8 & E9).
  destruct (sees_ok b4 58 Hb4) as (e & -> & He); [done|]. cbn [rbind]. destruct e; cbn [negb]; [|apply safe_none; destruct Hb4; lia].
  destruct (advance_ok b4 Hb4) as (b5 & -> & Hb5 & Hl5 & Ho5); [auto|]. cbn [rbind]. pose proof Hl5 as (E10 & E11 & E12).
  destruct (IHv b5 Hb5) as (o & b6 & -> & H6); [unfold rest; lia|]. cbn [rbind].
  destruct o as [t|]; [|by apply safe_none]. destruct H6 as (Hb6 & Hl6 & Ho6).
  destruct (skip_ok b6 Hb6) as (b7 & -> & Hb7 & Hl7). cbn [rbind]. pose proof Hl6 as (E13 & E14 & E15). pose proof Hl7 as (E16 & E17 & E18).
  assert (later b b7) as Hl by (repeat split; [congruence..|lia|lia]).
  destruct (sees_ok b7 44 Hb7) as (e & -> & He1); [done|]. cbn [rbind]. destruct e.
  - eapply safe_later; [exact Hl|]. apply IHl; [done|auto|unfold rest; lia].
  - destruct (sees_ok b7 125 Hb7) as (e & -> & He'); [done|]. cbn [rbind]. destruct e; cbn [negb]; [by apply safe_close; auto|].
    apply safe_none. destruct Hb7. lia.
Qed.

Lemma array_step fuel : list_safe (tp_elements fuel) fuel → array_safe (S fuel).
Proof.
  intros IHl b Hb Hc Hf. unfold rest in Hf. cbn [tp_array]. pose proof Hb as (H1 & H2 & H3).
  destruct (_ <=? depth b); [by apply safe_none; lia|]. change (here (set_depth (depth b + 1) b)) with (here b). rewrite Hc. cbn [rbind].
  rewrite Z.eqb_refl. cbn [negb]. pose proof (not_last _ _ _ H3 Hc) as Hlt. rewrite H1 in Hlt.
  destruct (advance_ok (set_depth (depth b + 1) b)) as (b2 & -> & Hb2 & Hl2 & Ho2); [done|cbn; by apply Hlt|]. cbn [rbind].
  pose proof Hl2 as (E1 & E2 & E3). cbn in *. destruct (sees_ok b2 93 Hb2) as (e & -> & He); [done|]. cbn [rbind].
  assert (later b b2) as Hl by (repeat split; [done..|lia|lia]).
  destruct e; [apply safe_close; auto|]. destruct (terminated_back b2) as [Hb3 Hlt3]; [done|lia|].
  destruct (negb (can_access b2 0)); [apply safe_none; cbn; lia|].
  eapply safe_later; [|apply IHl; [done|cbn; lia|unfold rest; cbn; lia]]. repeat split; cbn; try done; lia.
Qed.

Lemma object_step fuel : list_safe (tp_members fuel) fuel → object_safe (S fuel).
Proof.
  intros IHl b Hb Hf. unfold rest in Hf. cbn [tp_object]. pose proof Hb as (H1 & H2 & H3).
  destruct (_ <=? depth b); [by apply safe_none; lia|].
  destruct (sees_ok (set_depth (depth b + 1) b) 123) as (e & -> & He); [done|done|]. cbn [rbind]. cbn in He.
  destruct e; cbn [negb]; [|apply safe_none; cbn; lia].
  destruct (advance_ok (set_depth (depth b + 1) b)) as (b2 & -> & Hb2 & Hl2 & Ho2); [done|cbn; by apply He|]. cbn [rbind].
  pose proof Hl2 as (E1 & E2 & E3). cbn in *. destruct (sees_ok b2 125 Hb2) as (e & -> & He'); [done|]. cbn [rbind].
  assert (later b b2) as Hl by (repeat split; [done..|lia|lia]).
  destruct e; [apply safe_close; auto|]. destruct (terminated_back b2) as [Hb3 Hlt3]; [done|lia|].
  destruct (negb (can_access b2 0)); [apply safe_none; cbn; lia|].
  eapply safe_later; [|apply IHl; [done|cbn; lia|unfold rest; cbn; lia]]. repeat split; cbn; try done; lia.
Qed.

Lemma value_step fuel : array_safe fuel → object_safe fuel → value_safe (S fuel).
Proof.
  intros IHa IHo b Hb Hf. unfold rest in Hf. cbn [tp_value]. pose proof Hb as (H1 & H2 & H3).
  assert (∀ w, Forall (λ c, c ≠ 0) (lit w) ↔ forallb (λ c, negb (c =? 0)) (lit w) = true) as Hw.
  { intros w. rewrite forallb_forall, Forall_forall. setoid_rewrite list_elem_of_In. setoid_rewrite negb_true_iff. 
    by setoid_rewrite Z.eqb_neq. }
  destruct (can_read b 4 && starts b (lit "null")) eqn:Ew1; [eapply safe_word; [done|exact Ew1|done|done|by apply Hw]|].
  destruct (can_read b 5 && starts b (lit "false")) eqn:Ew2; [eapply safe_word; [done|exact Ew2|done|done|by apply Hw]|].
  destruct (can_read b 4 && starts b (lit "true")) eqn:Ew3; [eapply safe_word; [done|exact Ew3|done|done|by apply Hw]|].
  destruct (negb (can_access b 0)); [apply safe_none; lia|]. destruct (here_ok b Hb) as (c & Ec & Hc). rewrite Ec. cbn [rbind].
  destruct (Z.eqb_spec c 34) as [->|_].
  { destruct (tp_string_safe b Hb) as (o & b2 & -> & H); [by apply Hc|]. cbn [rbind fst snd]. exists (option_map text_value o), b2.
    split; [done|]. by destruct o. }
  destruct ((c =? 45) || _); [by apply tp_number_safe|].
  destruct (Z.eqb_spec c 91) as [->|_]; [apply IHa; [done|done|unfold rest; lia]|].
  destruct (c =? 123); [apply IHo; [done|unfold rest; lia]|apply safe_none; lia].
Qed.

Lemma tp_safe fuel : value_safe fuel ∧ array_safe fuel ∧ list_safe (tp_elements fuel) fuel ∧ object_safe fuel ∧ list_safe (tp_members fuel) fuel.
Proof.
  induction fuel as [|fuel (Hv & Ha & He & Ho & Hm)].
  - split_and!; intros b; intros; exfalso; unfold rest in *.
    all: match goal with H : terminated _ |- _ => destruct H as (? & ? & ?); lia end.
  - split; [by apply value_step|]. split; [by apply array_step|]. split; [by apply elements_step|]. split; [by apply object_step|by apply members_step].
Qed.

(** ** Texts *)

(** The place that is reported for a failure. *)
Definition error_position (b : parse_buffer) : Z :=
  if offset b <? blen b then offset b else if 0 <? blen b then blen b - 1 else 0.

Definition start (s : list Z) : parse_buffer := {| content := s ++ [0]; blen := zlen s + 1; offset := 0; depth := 0 |}.

(** The tree and the place where parsing stopped. *)
Definition tp_document (s : list Z) (require_null_terminated : bool) : result (option jtree * Z) :=
  match skip_utf8_bom (start s) with
  | None => Ok (None, 0)
  | Some b =>
      b <-? buffer_skip_whitespace b;;
      r <-? tp_value (parse_fuel (zlen s + 1)) b;;
      match r with
      | (None, b) => Ok (None, error_position b)
      | (Some t, b) =>
          if require_null_terminated then
            b <-? buffer_skip_whitespace b;;
            c <-? (if blen b <=? offset b then Ok 1 else here b);;
            Ok (if negb (c =? 0) then (None, error_position b) else (Some t, offset b))
          else Ok (Some t, offset b)
      end
  end.

Lemma terminated_start s : terminated (start s).
Proof. repeat split; cbn; [by rewrite zlen_app|lia|pose proof (zlen_nonneg s); lia|by rewrite last_snoc]. Qed.

Lemma skip_bom_ok s : ∃ b, skip_utf8_bom (start s) = Some b ∧ terminated b ∧ later (start s) b.
Proof.
  pose proof (terminated_start s) as Ht. unfold skip_utf8_bom. cbn [offset start]. rewrite Z.eqb_refl. cbn [negb].
  assert (later (start s) (start s)) as Hr by (apply later_refl; destruct Ht; lia).
  destruct (can_access (start s) 4) eqn:Ec; cbn [andb]; [|eexists; split; [done|done]].
  unfold can_access in Ec. cbn in Ec. apply Z.ltb_lt in Ec.
  destruct (starts (start s) _); eexists; (split; [done|]); [|done].
  assert (later (start s) (set_offset (0 + 3) (start s))) as Hl by (repeat split; cbn; lia).
  split; [|exact Hl]. eapply later_terminated; [done|exact Hl|cbn; lia].
Qed.

Lemma tp_document_ok s require : ∃ o pos, tp_document s require = Ok (o, pos).
Proof.
  unfold tp_document. destruct (skip_bom_ok s) as (b & -> & Hb & Hl). destruct (skip_ok b Hb) as (b2 & -> & Hb2 & Hl2). cbn [rbind].
  destruct (tp_safe (parse_fuel (zlen s + 1))) as [Hv _]. pose proof (later_trans _ _ _ Hl Hl2) as (E1 & E2 & E3).
  destruct (Hv b2 Hb2) as (o & b3 & -> & H3).
  { unfold rest, parse_fuel. rewrite E2. cbn [blen start offset] in *. pose proof (zlen_nonneg s). lia. }
  cbn [rbind]. destruct o as [t|]; [|eauto]. destruct H3 as (Hb3 & _). destruct require; [|eauto].
  destruct (skip_ok b3 Hb3) as (b4 & -> & Hb4 & _). cbn [rbind]. destruct (blen b4 <=? offset b4); [cbn; eauto|].
  destruct (here_ok b4 Hb4) as (c & -> & _). cbn [rbind]. destruct (negb (c =? 0)); eauto.
Qed.

(** The result in memory: the tree, or nothing at all. *)
Definition document (mf : bool) (o : option jtree) (pos : Z) (r : Z * Z) : hP :=
  ((∃ t, ⟨ o = Some t ∧ r.2 = pos ⟩ ∗ item t r.1 NULL NULL) ∨ ⟨ r.1 = NULL ∧ (mf = true ∨ (o = None ∧ r.2 = pos)) ⟩)%I.

Lemma wp_parse_text mf s require o pos :
  tp_document s require = Ok (o, pos) → ⊢ wp mf (cJSON_ParseWithOpts (Some s) require) (document mf o pos).
Proof.
  intros H. unfold tp_document in H. cbn [cJSON_ParseWithOpts]. unfold cJSON_ParseWithLengthOpts. fold (start s).
  pose proof (zlen_nonneg s). rewrite (proj2 (Z.eqb_neq _ 0)) by lia.
  cbv zeta beta.
  wp_bind. iApply wp_New_Item. iSplit.
  { iIntros (Hm). rewrite Z.eqb_refl. wp_ret. iRight. iPureIntro. auto. }
  iIntros (p) "H". iDestruct (points_to_not_null with "H") as %Hp. rewrite (proj2 (Z.eqb_neq p NULL)) by done.
  destruct (skip_bom_ok s) as (b & E & _ & _). rewrite E in *. apply rbind_Ok in H as (b2 & E2 & H). wp_bind. iApply (wp_lift _ _ _ _ E2).
  apply rbind_Ok in H as ([ot b3] & E3 & H). wp_bind. iApply (wp_parse_value with "H"); [done|exact E3|]. iIntros ([ok b4]) "P".
  cbn [parsed fst snd]. destruct ok; cbn [negb].
  - iDestruct "P" as (t) "[%Ht F]". cbn [snd] in Ht. destruct Ht as (-> & -> & Hn).
    iDestruct (filled_item _ zero_item with "[$F]") as "I"; [done|by iPureIntro|]. cbn [j_next j_prev zero_item]. destruct require.
    + apply rbind_Ok in H as (b5 & E5 & H). wp_bind. iApply (wp_lift _ _ _ _ E5). apply rbind_Ok in H as (c & E6 & H). wp_bind.
      iAssert (wp mf (if blen b5 <=? offset b5 then fret 1 else flift (here b5)) (λ x, ⟨ x = c ⟩))%I as "W".
      { destruct (blen b5 <=? offset b5); [injection E6 as <-; by wp_ret|by iApply (wp_lift _ _ _ _ E6)]. }
      iApply (wp_wand with "W"). iIntros (x) "->". destruct (negb (c =? 0)); injection H as <- <-.
      * wp_bind. iApply (wp_delete with "I"). wp_ret. iRight. iPureIntro. auto.
      * wp_ret. iLeft. iExists t. iFrame. by iPureIntro.
    + injection H as <- <-. wp_ret. iLeft. iExists t. iFrame. by iPureIntro.
  - iDestruct "P" as "[%Hf H]". cbn [snd] in Hf. iDestruct (blank_item _ zero_item None with "[$H]") as "I"; [done|by iPureIntro|].
    wp_bind. iApply (wp_delete with "I"). wp_ret. iRight. iPureIntro. split; [done|]. destruct Hf as [?|[-> ->]]; [by left|]. right.
    by injection H as <- <-.
Qed.
