(* ===== verification/CJsonPrint.v ===== *)
(** * The JSON printer

    The text of a tree ([value_text]) as a function of the tree alone, and the
    printer of cJSON.c against it: [wp_print_value] and [wp_print].  The printer
    writes that text into its buffer, which it makes larger where it must, never
    writes outside of it, leaves the tree as it is, and gives the buffer back when it
    fails; with enough memory it fails only for trees without a text and for texts
    that are longer than an [int] can say. *)

From Stdlib Require Import SpecFloat.
From S2P Require Import Prelude SepLog CJsonNum CJson CJsonTree CJsonParse.
#[local] Set Warnings "-register-all".
Local Open Scope fw_scope.

(** ** The text of a tree *)

Definition string_text (s : option (list Z)) : list Z := [34] ++ concat (map escape (default [] s)) ++ [34].

Definition comma_text (fmt : bool) : list Z := if fmt then [44; 32] else [44].
Definition colon_text (fmt : bool) : list Z := if fmt then [58; 9] else [58].
Definition line_text (fmt last : bool) : list Z := (if last then [] else [44]) ++ (if fmt then [10] else []).
Definition indent_text (fmt : bool) (depth : Z) : list Z := if fmt then tabs depth else [].
Definition open_text (fmt : bool) : list Z := if fmt then [123; 10] else [123].
Definition is_nil {A} (l : list A) : bool := match l with [] => true | _ => false end.

Section Lists.
Context (fmt : bool) (depth : Z) (text : jtree → option (list Z)).

Fixpoint elements_text (ks : list jtree) : option (list Z) :=
  match ks with
  | [] => Some [93]
  | t :: ks =>
      a ← text t;
      b ← elements_text ks;
      Some (a ++ (if is_nil ks then [] else comma_text fmt) ++ b)
  end.
Fixpoint members_text (ks : list jtree) : option (list Z) :=
  match ks with
  | [] => Some (indent_text fmt (depth - 1) ++ [125])
  | t :: ks =>
      a ← text t;
      b ← members_text ks;
      Some (indent_text fmt depth ++ string_text (i_name (info t)) ++ colon_text fmt ++ a ++ line_text fmt (is_nil ks) ++ b)
  end.
End Lists.

Fixpoint value_text (fmt : bool) (depth : Z) (t : jtree) {struct t} : option (list Z) :=
  match t with
  | JTree i ks =>
      let k := kind (i_type i) in
      if k =? cJSON_NULL then Some (lit "null")
      else if k =? cJSON_False then Some (lit "false")
      else if k =? cJSON_True then Some (lit "true")
      else if k =? cJSON_Number then
        let d := number_text (i_valuedouble i) (i_valueint i) in if 25 <? zlen d then None else Some d
      else if k =? cJSON_Raw then i_valuestring i
      else if k =? cJSON_String then Some (string_text (i_valuestring i))
      else if k =? cJSON_Array then b ← elements_text fmt (value_text fmt (depth + 1)) ks; Some ([91] ++ b)
      else if k =? cJSON_Object then
        b ← members_text fmt (depth + 1) (value_text fmt (depth + 1)) ks; Some (open_text fmt ++ b)
      else None
  end.

(** Texts of the tree are bytes. *)
Definition conj_map (f : jtree → Prop) : list jtree → Prop :=
  fix go ks := match ks with [] => True | t :: ks => f t ∧ go ks end.
Fixpoint tree_all (P : jinfo → Prop) (t : jtree) : Prop :=
  match t with JTree i ks => P i ∧ conj_map (tree_all P) ks end.
Abbreviation all_trees P := (conj_map (tree_all P)).
Definition bytes_ok (o : option (list Z)) : Prop := match o with Some s => Forall (λ c, 0 < c < 256) s | None => True end.
Definition texts_ok (i : jinfo) : Prop := bytes_ok (i_valuestring i) ∧ bytes_ok (i_name i).

Lemma hex_char_pos v : 0 <= v → hex_char v ≠ 0.
Proof. intros. unfold hex_char. destruct (v <? 10); lia. Qed.
Lemma escape_ok c : 0 < c < 256 → 0 ∉ escape c.
Proof.
  intros Hc. unfold escape, unicode_escape. pose proof (hex_char_pos (c / 16) ltac:(apply Z.div_pos; lia)).
  pose proof (hex_char_pos (c mod 16) ltac:(apply Z.mod_pos_bound; lia)).
  destruct (_ && _); [|apply not_elem_of_cons; split; [done|destruct (short_escape c) as [e|] eqn:E]].
  - apply not_elem_of_cons. split; [lia|apply not_elem_of_nil].
  - apply not_elem_of_cons. split; [|apply not_elem_of_nil]. intros <-. unfold short_escape in E. repeat case_match; done.
  - rewrite !not_elem_of_cons. split_and!; try done; try congruence. apply not_elem_of_nil.
Qed.
Lemma escapes_ok s : Forall (λ c, 0 < c < 256) s → 0 ∉ concat (map escape s).
Proof.
  induction 1 as [|c s Hc _ IH]; cbn [map concat]; [apply not_elem_of_nil|]. rewrite elem_of_app.
  intros [H|H]; [by apply escape_ok in H|done].
Qed.
Lemma escape_length c : zlen (escape c) = 1 + escape_extra c.
Proof.
  unfold escape, escape_extra. destruct (Z.ltb_spec 31 c), (Z.eqb_spec c 34), (Z.eqb_spec c 92); cbn [negb andb]; try done; subst; try done.
  2: destruct (short_escape c); [done|]; by rewrite (proj2 (Z.ltb_lt c 32)) by lia.
  assert (short_escape c = None) as ->.
  { unfold short_escape. by repeat (match goal with |- context [?x =? ?y] => destruct (Z.eqb_spec x y); [lia|] end). }
  by rewrite (proj2 (Z.ltb_ge c 32)) by lia.
Qed.
Lemma escapes_length s : zlen (concat (map escape s)) = zlen s + foldr (λ c k, escape_extra c + k) 0 s.
Proof.
  induction s as [|c s IH]; [done|]. cbn [map concat foldr]. rewrite zlen_app, escape_length, IH, zlen_cons. lia.
Qed.
Lemma escape_extra_nonneg c : 0 <= escape_extra c.
Proof. unfold escape_extra. destruct (short_escape c); [done|]. destruct (c <? 32); done. Qed.
Lemma extras_nonneg s : 0 <= foldr (λ c k, escape_extra c + k) 0 s.
Proof. induction s as [|c s IH]; [done|]. cbn [foldr]. pose proof (escape_extra_nonneg c). lia. Qed.
(** The copy without escapes is the same text. *)
Lemma escapes_none s : foldr (λ c k, escape_extra c + k) 0 s = 0 → concat (map escape s) = s.
Proof.
  induction s as [|c s IH]; [done|]. cbn [map concat foldr]. pose proof (escape_extra_nonneg c). pose proof (extras_nonneg s). intros E.
  rewrite IH by lia. assert (escape_extra c = 0) as H1 by lia. pose proof (escape_length c) as H2. rewrite H1 in H2. unfold escape in *.
  destruct (_ && _) eqn:Ec; [done|]. unfold escape_extra in H1. destruct (short_escape c) eqn:Es; [done|].
  destruct (Z.ltb_spec c 32); [done|]. unfold short_escape in Es. rewrite (proj2 (Z.ltb_lt 31 c)) in Ec by lia. repeat case_match; done.
Qed.
Lemma string_text_ok s : bytes_ok s → 0 ∉ string_text s.
Proof.
  intros H. unfold string_text. rewrite !elem_of_app, !list_elem_of_singleton.
  intros [H1|[H1|H1]]; [done| |done]. destruct s as [s|]; [|by apply elem_of_nil in H1]. by apply escapes_ok in H1.
Qed.

(** ** The buffer *)

Definition same_mode (p q : printbuffer) : Prop :=
  pb_depth q = pb_depth p ∧ pb_noalloc q = pb_noalloc p ∧ pb_format q = pb_format p.

(** The text [w] so far, and room behind it for at least one character once the
    buffer has a size. *)
Definition pbuf (p : printbuffer) (w : list Z) : hP :=
  (∃ rest, pb_buffer p ↦ JBytes (w ++ rest) ∗
     ⟨ pb_offset p = zlen w ∧ pb_length p = zlen (w ++ rest) ∧ (zlen w < pb_length p ∨ pb_length p = 0) ⟩)%I.

(** The text [w] with its end mark; the offset may still be in front of the last piece. *)
Definition written (p : printbuffer) (w : list Z) : hP :=
  (∃ a b rest, pb_buffer p ↦ JBytes (w ++ 0 :: rest) ∗
     ⟨ w = a ++ b ∧ pb_offset p = zlen a ∧ pb_length p = zlen (w ++ 0 :: rest) ∧ 0 ∉ b ⟩)%I.

(** What is left of the buffer after a failure. *)
Definition leftover (p : printbuffer) : hP := (⟨ pb_buffer p = NULL ⟩ ∨ ∃ l, pb_buffer p ↦ JBytes l)%I.

(** A failure has a reason: no memory, a buffer that must not grow, or a text of
    [n] characters that is missing or too long. *)
Definition excuse (mf : bool) (p : printbuffer) (on : option Z) : Prop :=
  mf = true ∨ pb_noalloc p = true ∨ ∀ n, on = Some n → INT_MAX < n + 2.

Definition reached (mf : bool) (p : printbuffer) (w : list Z) (ot : option (list Z)) (R : printbuffer → list Z → hP)
    (r : bool * printbuffer) : hP :=
  (if r.1 then ∃ t, ⟨ ot = Some t ∧ same_mode p r.2 ⟩ ∗ R r.2 (w ++ t)
   else ⟨ excuse mf p (option_map (λ t, (zlen w + zlen t)%Z) ot) ⟩ ∗ leftover r.2)%I.

Lemma same_mode_refl p : same_mode p p.
Proof. done. Qed.
Lemma same_mode_trans p q r : same_mode p q → same_mode q r → same_mode p r.
Proof. unfold same_mode. intuition congruence. Qed.
Hint Resolve same_mode_refl : core.

Lemma pbuf_left p w : pbuf p w ⊢ leftover p.
Proof. iIntros "(%r & H & _)". iRight. by iExists _. Qed.

Lemma wp_reallocate mf p size l (Φ : Z → hP) :
  ⊢ p ↦ JBytes l -∗
    ((⌜mf = true⌝ → p ↦ JBytes l -∗ Φ NULL) ∧
     (∀ q, q ↦ JBytes (take (Z.to_nat size) (l ++ replicate (Z.to_nat size) uninit)) -∗ Φ q)) -∗
    wp mf (reallocate p size) Φ.
Proof.
  iIntros "H K". unfold reallocate. wp_bind. iApply (wp_get_bytes with "H"). iIntros "H". wp_bind. iApply wp_alloc. iSplit.
  - iIntros (Hm). rewrite Z.eqb_refl. wp_ret. iDestruct "K" as "[K _]". by iApply ("K" with "[//]").
  - iIntros (q) "Q". iDestruct (points_to_not_null with "Q") as %Hq. rewrite (proj2 (Z.eqb_neq q NULL)) by done.
    wp_free "H". wp_ret. iDestruct "K" as "[_ K]". by iApply "K".
Qed.

Lemma wp_deallocate mf p b (Φ : unit → hP) : ⊢ p ↦ b -∗ Φ tt -∗ wp mf (deallocate p) Φ.
Proof.
  iIntros "H K". iDestruct (points_to_not_null with "H") as %Hp. unfold deallocate. rewrite (proj2 (Z.eqb_neq p NULL)) by done.
  iApply (wp_dealloc with "H"). done.
Qed.
Lemma wp_free_left mf p (Φ : unit → hP) : ⊢ leftover p -∗ Φ tt -∗ wp mf (deallocate (pb_buffer p)) Φ.
Proof.
  iIntros "[%H|(%l & H)] K"; [|by iApply (wp_deallocate with "H")]. unfold deallocate. rewrite H, Z.eqb_refl. by wp_ret.
Qed.

Definition room (p : printbuffer) (w : list Z) (needed : Z) : hP :=
  (∃ rest, pb_buffer p ↦ JBytes (w ++ rest) ∗
     ⟨ pb_offset p = zlen w ∧ pb_length p = zlen (w ++ rest) ∧ needed < zlen rest ⟩)%I.

Lemma grown_block (w rest : list Z) n :
  zlen (w ++ rest) <= n → ∃ rest', take (Z.to_nat n) ((w ++ rest) ++ replicate (Z.to_nat n) uninit) = w ++ rest' ∧ zlen (w ++ rest') = n.
Proof.
  intros H. exists (rest ++ replicate (Z.to_nat n - length (w ++ rest)) uninit). unfold zlen in *.
  rewrite take_app_ge by lia. rewrite take_replicate, (assoc_L (++)), Nat.min_l by lia. split; [done|].
  rewrite length_app, length_replicate. lia.
Qed.

Local Ltac failed :=
  wp_ret; iDestruct "K" as "[_ K]"; iApply ("K" with "[]"); [iPureIntro; first [by auto | right; right; lia]|].

(** Room for [needed] characters and an end mark. *)
Lemma wp_ensure mf p w needed (Φ : bool * printbuffer → hP) :
  0 <= needed →
  ⊢ pbuf p w -∗
    ((∀ q, ⟨ same_mode p q ⟩ -∗ room q w needed -∗ Φ (true, q)) ∧
     (∀ q, ⟨ mf = true ∨ pb_noalloc p = true ∨ INT_MAX < zlen w + needed + 1 ⟩ -∗ leftover q -∗ Φ (false, q))) -∗
    wp mf (ensure p needed) Φ.
Proof.
  intros Hn. iIntros "(%rest & H & %Ho & %Hl & %Hr) K". iDestruct (points_to_not_null with "H") as %Hp. unfold ensure.
  pose proof (zlen_nonneg w). pose proof (zlen_nonneg rest). rewrite zlen_app in Hl.
  rewrite (proj2 (Z.eqb_neq (pb_buffer p) NULL)) by done. rewrite (proj2 (andb_false_iff _ _)).
  2: { destruct Hr as [Hr|Hr]; [right; apply Z.leb_gt; lia|left; apply Z.ltb_ge; lia]. }
  destruct (Z.ltb_spec INT_MAX needed); [failed; iRight; by iExists _|].
  destruct (Z.leb_spec (needed + pb_offset p + 1) (pb_length p)).
  { wp_ret. iDestruct "K" as "[K _]". iApply ("K" with "[]"); [by iPureIntro|]. iExists rest. iFrame. iPureIntro. rewrite zlen_app. lia. }
  destruct (pb_noalloc p) eqn:En; [failed; iRight; by iExists _|].
  destruct (Z.ltb_spec (INT_MAX / 2) (needed + pb_offset p + 1)); cbn [andb].
  1: destruct (Z.ltb_spec INT_MAX (needed + pb_offset p + 1)); [failed; iRight; by iExists _|].
  all: match goal with |- context [reallocate _ ?n] => destruct (grown_block w rest n) as (rest' & E & Hr'); [rewrite zlen_app; lia|] end.
  all: wp_bind; iApply (wp_reallocate with "H"); iSplit;
    [iIntros (Hm) "H"; rewrite Z.eqb_refl; wp_bind; iApply (wp_deallocate with "H"); failed; iLeft; by iPureIntro|].
  all: rewrite E; iIntros (q) "H"; iDestruct (points_to_not_null with "H") as %Hq; rewrite (proj2 (Z.eqb_neq q NULL)) by done.
  all: wp_ret; iDestruct "K" as "[K _]"; iApply ("K" with "[]"); [iPureIntro; repeat split; done|]; iExists rest'; cbn; iFrame; iPureIntro.
  all: rewrite zlen_app in Hr'; repeat split; [done|rewrite zlen_app; lia|lia].
Qed.

Lemma wp_pb_write mf p w a d rest at_ (Φ : unit → hP) :
  pb_offset p = zlen w → at_ = zlen a → zlen d <= zlen rest →
  ⊢ pb_buffer p ↦ JBytes (w ++ a ++ rest) -∗
    (pb_buffer p ↦ JBytes (w ++ (a ++ d) ++ drop (length d) rest) -∗ Φ tt) -∗ wp mf (pb_write p at_ d) Φ.
Proof.
  intros Ho -> Hd. iIntros "H K". unfold pb_write. wp_bind. iApply (wp_get_bytes with "H"). iIntros "H". wp_bind.
  iApply (wp_lift _ _ (w ++ (a ++ d) ++ drop (length d) rest)); [|by iApply (wp_put with "H")].
  pose proof (zlen_nonneg w). pose proof (zlen_nonneg a). unfold store. rewrite Ho, !zlen_app.
  rewrite (proj2 (Z.leb_le _ _)), (proj2 (Z.leb_le _ _)) by lia. cbn [andb]. f_equal. unfold blit.
  rewrite !(assoc_L (++)), <- (zlen_app w a). unfold zlen. rewrite Nat2Z.id, take_app_length.
  by rewrite drop_app_add, <- !(assoc_L (++)).
Qed.

(** ** Pieces of text *)

Lemma excuse_mono mf p q on om :
  excuse mf q on → pb_noalloc q = pb_noalloc p → (∀ m, om = Some m → ∃ n, on = Some n ∧ n <= m) → excuse mf p om.
Proof.
  intros [H|[H|H]] E Hm; [by left|right; left; congruence|]. right. right. intros m Em. destruct (Hm m Em) as (n & En & Hl).
  apply H in En. lia.
Qed.

(** The text [w] with [e] behind it; the offset is [n]. *)
Definition piece (n : Z) (e : list Z) (q : printbuffer) (w : list Z) : hP :=
  (∃ rest, pb_buffer q ↦ JBytes (w ++ e ++ rest) ∗
     ⟨ pb_offset q = n ∧ pb_length q = zlen (w ++ e ++ rest) ∧ zlen w < pb_length q ⟩)%I.

Definition steady {A} (p : printbuffer) (f : printbuffer → A) (a : A) : Prop := ∀ q, same_mode p q → f q = a.

Lemma wp_piece mf p w needed d e f (k : printbuffer → M (bool * printbuffer)) (Φ : bool * printbuffer → hP) :
  zlen d <= needed <= zlen d + 1 → zlen (d ++ e) <= needed + 1 → steady p f (d ++ e) →
  ⊢ pbuf p w -∗
    (∀ r, reached mf p w (Some d) (piece (zlen w) e) r -∗ if r.1 then wp mf (k r.2) Φ else Φ (false, r.2)) -∗
    wp mf (fbind (ensure p needed) (λ r, let '(ok, p) := r in
             if negb ok then fret (false, p) else pb_write p 0 (f p);;; k p)) Φ.
Proof.
  intros Hn He Hf. pose proof (zlen_nonneg d). iIntros "B K". wp_bind. iApply (wp_ensure with "B"); [lia|]. iSplit.
  - iIntros (q) "%Hm (%rest & H & %Ho & %Hl & %Hr)". cbn [negb]. rewrite (Hf q Hm). wp_bind.
    iApply (wp_pb_write mf q w [] (d ++ e) rest with "H"); [done|done|lia|]. cbn [app]. iIntros "H".
    iSpecialize ("K" $! (true, q)). cbn [fst snd reached]. iApply "K". iExists d. iSplitR; [by iPureIntro|].
    iExists (drop (length (d ++ e)) rest). iSplitL "H".
    { rewrite <- !(assoc_L (++)). done. }
    iPureIntro. split; [done|]. rewrite Hl. rewrite !zlen_app in *. split; [|lia]. unfold zlen in *. rewrite length_drop, length_app. lia.
  - iIntros (q) "%Hx L". cbn [negb]. wp_ret. iApply ("K" $! (false, q)). cbn [reached fst snd]. iFrame "L". iPureIntro.
    destruct Hx as [?|[?|?]]; [by left|by right; left|]. right. right. cbn. intros n [= <-]. lia.
Qed.

Lemma piece_pbuf n e q w m : m = zlen w → piece n e q w ⊢ pbuf (pb_set_offset m q) w.
Proof. intros ->. iIntros "(%r & H & %H1 & %H2 & %H3)". iExists _. cbn. iFrame. iPureIntro. auto. Qed.
Lemma piece_written q w d : 0 ∉ d → piece (zlen w) [0] q (w ++ d) ⊢ written q (w ++ d).
Proof. intros Hd. iIntros "(%r & H & %H1 & %H2 & %H3)". iExists w, d, r. iFrame. by iPureIntro. Qed.
Lemma piece_offset n e q w : piece n e q w ⊢ ⟨ pb_offset q = n ⟩ ∗ piece n e q w.
Proof. iIntros "(%r & H & %H1 & %H2 & %H3)". iSplitR; [by iPureIntro|]. iExists r. iFrame. by iPureIntro. Qed.

Lemma pbuf_written q w rest : pb_offset q = zlen w → pb_length q = zlen (w ++ 0 :: rest) →
  pb_buffer q ↦ JBytes (w ++ 0 :: rest) ⊢ written q w.
Proof.
  intros. iIntros "H". iExists w, [], rest. rewrite (right_id_L [] (++)). iFrame. iPureIntro. split_and!; try done. apply not_elem_of_nil.
Qed.
Lemma wp_print_piece mf p w needed d (Φ : bool * printbuffer → hP) :
  zlen d <= needed <= zlen d + 1 →
  ⊢ pbuf p w -∗ (∀ r, reached mf p w (Some d) (piece (zlen w) [0]) r -∗ Φ r) -∗ wp mf (print_word p needed d) Φ.
Proof.
  intros Hn. iIntros "B K". unfold print_word.
  iApply (wp_piece mf p w needed d [0] (λ _, d ++ [0]) with "B"); [done|rewrite zlen_app; change (zlen [0]) with 1; lia|done|].
  iIntros ([[] q]) "R"; cbn [fst snd]; [wp_ret|]; by iApply "K".
Qed.
Lemma wp_print_word mf p w needed d (Φ : bool * printbuffer → hP) :
  0 ∉ d → zlen d <= needed <= zlen d + 1 →
  ⊢ pbuf p w -∗ (∀ r, reached mf p w (Some d) written r -∗ Φ r) -∗ wp mf (print_word p needed d) Φ.
Proof.
  intros Hd Hn. iIntros "B K". iApply (wp_print_piece with "B"); [done|].
  iIntros ([[] q]) "R"; cbn [reached fst snd]; iApply "K"; [|iFrame].
  iDestruct "R" as (t) "[%Ht R]". destruct Ht as [[= <-] Hm]. cbn [reached fst snd]. iExists d.
  iSplitR; [by iPureIntro|]. by iApply piece_written.
Qed.

(** A piece behind which the offset moves. *)
Lemma wp_moved mf p w needed d e f n (Φ : bool * printbuffer → hP) :
  zlen d <= needed <= zlen d + 1 → zlen (d ++ e) <= needed + 1 → steady p f (d ++ e) → steady p n (zlen d) →
  ⊢ pbuf p w -∗ (∀ r, reached mf p w (Some d) pbuf r -∗ Φ r) -∗
    wp mf (fbind (ensure p needed) (λ r, let '(ok, p) := r in
             if negb ok then fret (false, p) else pb_write p 0 (f p);;; fret (true, pb_set_offset (pb_offset p + n p) p))) Φ.
Proof.
  intros Hd He Hf Hn. iIntros "B K". iApply (wp_piece with "B"); [done..|]. iIntros ([[] q]) "R"; cbn [reached fst snd].
  - iDestruct "R" as (t) "[%Ht R]". destruct Ht as [[= <-] Hm]. wp_ret. iApply "K". cbn [reached fst snd]. iExists d.
    iSplitR; [by iPureIntro|]. iDestruct (piece_offset with "R") as "[%Ho R]". rewrite (Hn q Hm). iApply (piece_pbuf with "R").
    rewrite zlen_app. lia.
  - iApply "K". iFrame.
Qed.

Lemma steady_const {A} p (a : A) : steady p (λ _, a) a.
Proof. done. Qed.
Lemma steady_format {A} p (f : bool → A) : steady p (λ q, f (pb_format q)) (f (pb_format p)).
Proof. by intros q (_ & _ & ->). Qed.

Lemma wp_print_colon mf p w (Φ : bool * printbuffer → hP) :
  ⊢ pbuf p w -∗ (∀ r, reached mf p w (Some (colon_text (pb_format p))) pbuf r -∗ Φ r) -∗ wp mf (print_colon p) Φ.
Proof.
  iIntros "B K". unfold print_colon.
  iApply (wp_moved mf p w _ (colon_text (pb_format p)) [] (λ q, colon_text (pb_format q)) (λ _, if pb_format p then 2 else 1) with "B K").
  - unfold zlen. destruct (pb_format p); cbn; lia.
  - unfold zlen. destruct (pb_format p); cbn; lia.
  - intros q (_ & _ & ->). by rewrite (right_id_L [] (++)).
  - by destruct (pb_format p).
Qed.

Lemma zlen_tabs n : 0 <= n → zlen (tabs n) = n.
Proof. intros. unfold zlen, tabs. rewrite length_replicate. lia. Qed.

Lemma wp_print_indent mf p w (Φ : bool * printbuffer → hP) :
  0 <= pb_depth p →
  ⊢ pbuf p w -∗ (∀ r, reached mf p w (Some (indent_text (pb_format p) (pb_depth p))) pbuf r -∗ Φ r) -∗ wp mf (print_indent p) Φ.
Proof.
  intros Hd. iIntros "B K". unfold print_indent, indent_text. pose proof (zlen_tabs _ Hd) as Ht. destruct (pb_format p) eqn:Ef.
  - iApply (wp_moved mf p w (pb_depth p) (tabs (pb_depth p)) [] (λ q, tabs (pb_depth q)) pb_depth with "B K");
      [lia|rewrite (right_id_L [] (++)); lia| |].
    + intros q (-> & _ & _). by rewrite (right_id_L [] (++)).
    + intros q (-> & _ & _). done.
  - wp_ret. iApply "K". cbn [reached fst snd]. iExists []. rewrite (right_id_L [] (++)). iFrame. by iPureIntro.
Qed.

Lemma wp_print_comma mf last p w (Φ : bool * printbuffer → hP) :
  ⊢ pbuf p w -∗ (∀ r, reached mf p w (Some (line_text (pb_format p) last)) pbuf r -∗ Φ r) -∗ wp mf (print_comma last p) Φ.
Proof.
  iIntros "B K". unfold print_comma. fold (line_text (pb_format p) last).
  iApply (wp_moved mf p w _ (line_text (pb_format p) last) [0] (λ q, line_text (pb_format p) last ++ [0])
            (λ _, zlen (line_text (pb_format p) last)) with "B K"); [lia|rewrite zlen_app; change (zlen [0]) with 1; lia|done|done].
Qed.
Lemma wp_print_array_comma mf p w (Φ : bool * printbuffer → hP) :
  ⊢ pbuf p w -∗ (∀ r, reached mf p w (Some (comma_text (pb_format p))) pbuf r -∗ Φ r) -∗ wp mf (print_array_comma p) Φ.
Proof.
  iIntros "B K". unfold print_array_comma. fold (comma_text (pb_format p)).
  iApply (wp_moved mf p w _ (comma_text (pb_format p)) [0] (λ q, comma_text (pb_format p) ++ [0])
            (λ _, zlen (comma_text (pb_format p))) with "B K"); [lia|rewrite zlen_app; change (zlen [0]) with 1; lia|done|done].
Qed.

Lemma wp_update_offset_end mf p w (Φ : printbuffer → hP) :
  ⊢ written p w -∗ (∀ q, ⟨ same_mode p q ⟩ -∗ piece (zlen w) [0] q w -∗ Φ q) -∗ wp mf (update_offset p) Φ.
Proof.
  iIntros "(%a & %b & %rest & H & %E & %Ho & %Hl & %Hb) K". iDestruct (points_to_not_null with "H") as %Hp. unfold update_offset.
  rewrite (proj2 (Z.eqb_neq (pb_buffer p) NULL)) by done. wp_bind. iApply (wp_get_bytes with "H"). iIntros "H".
  assert (drop (Z.to_nat (pb_offset p)) (w ++ 0 :: rest) = b ++ 0 :: rest) as ->.
  { rewrite Ho, E, <- (assoc_L (++)). unfold zlen. by rewrite Nat2Z.id, drop_app_length. }
  rewrite until_end_app by done. wp_ret. iApply ("K" with "[]"); [iPureIntro; repeat split; done|]. iExists rest. cbn. iFrame.
  iPureIntro. split; [rewrite Ho, E, zlen_app; done|]. split; [done|]. rewrite Hl, zlen_app, zlen_cons. pose proof (zlen_nonneg rest). lia.
Qed.
Lemma wp_update_offset mf p w (Φ : printbuffer → hP) :
  ⊢ written p w -∗ (∀ q, ⟨ same_mode p q ⟩ -∗ pbuf q w -∗ Φ q) -∗ wp mf (update_offset p) Φ.
Proof.
  iIntros "W K". iApply (wp_update_offset_end with "W"). iIntros (q) "%Hm (%r & H & %H1 & %H2 & %H3)". iApply ("K" with "[]"); [by iPureIntro|].
  iExists ([0] ++ r). iFrame. by iPureIntro; auto.
Qed.

Lemma wp_three mf p w a b c rest (Φ : unit → hP) :
  pb_offset p = zlen w → zlen (a ++ b ++ c) <= zlen rest →
  ⊢ pb_buffer p ↦ JBytes (w ++ rest) -∗
    (pb_buffer p ↦ JBytes (w ++ (a ++ b ++ c) ++ drop (length (a ++ b ++ c)) rest) -∗ Φ tt) -∗
    wp mf (pb_write p 0 a;;; pb_write p (zlen a) b;;; pb_write p (zlen (a ++ b)) c) Φ.
Proof.
  intros Ho Hl. rewrite !zlen_app in Hl. pose proof (zlen_nonneg a). pose proof (zlen_nonneg b). pose proof (zlen_nonneg c).
  iIntros "H K". wp_bind. iApply (wp_pb_write mf p w [] a rest with "H"); [done|done|lia|]. cbn [app]. iIntros "H". wp_bind.
  iApply (wp_pb_write mf p w a b with "H"); [done|done| |].
  { unfold zlen in *. rewrite length_drop. lia. }
  iIntros "H". iApply (wp_pb_write mf p w (a ++ b) c with "H"); [done|done| |].
  { unfold zlen in *. rewrite !length_drop. lia. }
  rewrite !drop_drop, <- !(assoc_L (++)), !length_app. rewrite (assoc_L Nat.add). done.
Qed.

Lemma wp_seq3 {A} mf (m1 m2 m3 : M unit) (a : A) (Φ : A → hP) :
  wp mf (m1;;; m2;;; m3) (λ _, Φ a) ⊢ wp mf (m1;;; m2;;; m3;;; fret a) Φ.
Proof.
  apply entails_of. intros h H s hf Hs Hd Hw Ho. destruct (H s hf) as (x & s' & h' & E & R); [done..|]. exists a, s', h'. split; [|done].
  revert E. unfold fbind, fret. destruct (m1 s) as [[[] s1]|]; [|done]. destruct (m2 s1) as [[[] s2]|]; [|done].
  by intros ->.
Qed.

Lemma wp_print_string_ptr mf p w input o (Φ : bool * printbuffer → hP) :
  bytes_ok o →
  ⊢ own_str input o -∗ pbuf p w -∗ (∀ r, own_str input o -∗ reached mf p w (Some (string_text o)) written r -∗ Φ r) -∗
    wp mf (print_string_ptr input p) Φ.
Proof.
  intros Hb. pose proof (string_text_ok o Hb) as Ht. iIntros "S B K". iDestruct (own_str_null with "S") as %Hn.
  unfold print_string_ptr. destruct (Z.eqb_spec input NULL) as [E|E].
  { rewrite (proj1 Hn E) in *. iApply (wp_print_word mf p w 3 (string_text None) with "B"); [done|unfold zlen; cbn; lia|]. iIntros (r). by iApply "K". }
  destruct o as [s|]; [|by destruct E; apply Hn]. wp_bind. iApply (wp_c_str with "S"). iIntros "S".
  pose proof (escapes_length s) as Hl. pose proof (extras_nonneg s). pose proof (zlen_nonneg s).
  set (n := zlen s + foldr (λ c k, escape_extra c + k) 0 s) in *. set (d := concat (map escape s)) in *.
  assert (zlen (string_text (Some s)) = n + 2) as Hd by (change (string_text (Some s)) with ([34] ++ d ++ [34]); rewrite !zlen_app, Hl, !zlen_cons, zlen_nil; lia).
  wp_bind. iApply (wp_ensure with "B"); [lia|]. iSplit.
  - iIntros (q) "%Hm (%rest & H & %Ho & %Hlen & %Hr)". cbn [negb].
    iAssert (wp mf (pb_write q 0 [34];;; pb_write q 1 d;;; pb_write q (n + 1) [34; 0]) (λ _, written q (w ++ string_text (Some s))))%I
      with "[H]" as "W".
    { replace (n + 1) with (zlen ([34] ++ d)) by (rewrite zlen_app, Hl, zlen_cons, zlen_nil; lia).
      iApply (wp_three mf q w [34] d [34; 0] rest with "H"); [done|rewrite !zlen_app, Hl, !zlen_cons, zlen_nil; lia|]. iIntros "H".
      iExists w, (string_text (Some s)), (drop (length ([34] ++ d ++ [34; 0])) rest).
      assert (w ++ ([34] ++ d ++ [34; 0]) ++ drop (length ([34] ++ d ++ [34; 0])) rest
        = (w ++ string_text (Some s)) ++ 0 :: drop (length ([34] ++ d ++ [34; 0])) rest) as <-.
      { change (string_text (Some s)) with ([34] ++ d ++ [34]). by rewrite <- !(assoc_L (++)). }
      iFrame. iPureIntro. split_and!; [done|done| |done]. rewrite Hlen, !zlen_app in *. unfold zlen in *. rewrite length_drop, !length_app in *.
      cbn in *. lia. }
    iAssert (wp mf (pb_write q 0 [34];;; pb_write q 1 d;;; pb_write q (n + 1) [34; 0]) (λ _, Φ (true, q)))%I with "[W S K]" as "W".
    { iApply (wp_wand with "W"). iIntros (_) "W". iApply ("K" with "S"). cbn [reached fst snd]. iExists _. iFrame. by iPureIntro. }
    destruct (Z.eqb_spec (foldr (λ c k, escape_extra c + k) 0 s) 0) as [Ez|Ez].
    + rewrite <- (escapes_none s Ez). fold d. iApply (wp_seq3 with "W").
    + iApply (wp_seq3 with "W").
  - iIntros (q) "%Hx L". cbn [negb]. wp_ret. iApply ("K" with "S"). cbn [reached fst snd]. iFrame "L". iPureIntro.
    destruct Hx as [?|[?|?]]; [by left|by right; left|]. right. right. cbn [option_map]. intros ? [= <-]. lia.
Qed.

(** ** Values *)

Lemma excuse_part mf p q (w w1 : list Z) (ot1 ot : option (list Z)) :
  pb_noalloc q = pb_noalloc p → (∀ t, ot = Some t → ∃ t1 r, ot1 = Some t1 ∧ w ++ t = w1 ++ t1 ++ r) →
  excuse mf q (option_map (λ t, (zlen w1 + zlen t)%Z) ot1) → excuse mf p (option_map (λ t, (zlen w + zlen t)%Z) ot).
Proof.
  intros Hq Ht Hx. eapply excuse_mono; [exact Hx|done|]. intros m Hm. destruct ot as [t|]; [|done]. injection Hm as <-.
  destruct (Ht t eq_refl) as (t1 & r & -> & E). eexists. split; [done|]. apply (f_equal zlen) in E. rewrite !zlen_app in E.
  pose proof (zlen_nonneg r). lia.
Qed.

Lemma wp_print_number mf p w a n (Φ : bool * printbuffer → hP) :
  ⊢ a ↦ JNode n -∗ pbuf p w -∗
    (∀ r, a ↦ JNode n -∗
       reached mf p w (let d := number_text (j_valuedouble n) (j_valueint n) in if 25 <? zlen d then None else Some d) written r -∗
       Φ r) -∗ wp mf (print_number a p) Φ.
Proof.
  iIntros "H B K". unfold print_number. wp_bind. iApply (wp_get_item with "H"). iIntros "H". cbv zeta.
  set (d := number_text _ _). destruct (25 <? zlen d).
  { wp_ret. iApply ("K" with "H"). cbn [reached fst snd]. iSplitR; [|by iApply pbuf_left]. iPureIntro. right. right. done. }
  wp_bind. iApply (wp_print_piece with "B"); [lia|]. iIntros ([[] q]) "R"; cbn [reached fst snd negb]; wp_ret; iApply ("K" with "H").
  - iDestruct "R" as (t) "[%Ht R]". destruct Ht as [[= <-] Hm]. cbn [reached fst snd]. iExists d. iSplitR; [by iPureIntro|].
    iDestruct "R" as (rest) "[R %Ho]". destruct Ho as (Ho & Hl & _). 
    iApply (pbuf_written (pb_set_offset (pb_offset q + zlen d) q) (w ++ d) rest with "R"); [cbn; rewrite zlen_app; lia|done].
  - iFrame.
Qed.

(** The parts of a result that are final. *)
Definition prints_value (mf : bool) (fuel : nat) (t : jtree) : Prop :=
  ∀ p w a nx pv (Φ : bool * printbuffer → hP), 0 <= pb_depth p →
    ⊢ item t a nx pv -∗ pbuf p w -∗
      (∀ r, item t a nx pv -∗ reached mf p w (value_text (pb_format p) (pb_depth p) t) written r -∗ Φ r) -∗
      wp mf (print_value fuel a p) Φ.
Definition prints_list (mf : bool) (code : Z → printbuffer → M (bool * printbuffer)) (ks : list jtree)
    (text : printbuffer → option (list Z)) : Prop :=
  ∀ p w ps pv (Φ : bool * printbuffer → hP), 0 < pb_depth p →
    ⊢ chain ks ps NULL pv -∗ pbuf p w -∗
      (∀ r, chain ks ps NULL pv -∗ reached mf (pb_set_depth (pb_depth p - 1) p) w (text p) written r -∗ Φ r) -∗
      wp mf (code (hd NULL ps) p) Φ.
Definition list_text (members : bool) (ks : list jtree) (p : printbuffer) : option (list Z) :=
  if members then members_text (pb_format p) (pb_depth p) (value_text (pb_format p) (pb_depth p)) ks
  else elements_text (pb_format p) (value_text (pb_format p) (pb_depth p)) ks.

Lemma elements_text_cons fmt text t ks x :
  elements_text fmt text (t :: ks) = Some x →
  ∃ a b, text t = Some a ∧ elements_text fmt text ks = Some b ∧ x = a ++ (if is_nil ks then [] else comma_text fmt) ++ b.
Proof. cbn [elements_text]. destruct (text t) as [a|]; [|done]. destruct (elements_text fmt text ks) as [b|]; [|done]. intros [= <-]. eauto. Qed.
Lemma members_text_cons fmt depth text t ks x :
  members_text fmt depth text (t :: ks) = Some x →
  ∃ a b, text t = Some a ∧ members_text fmt depth text ks = Some b ∧
    x = indent_text fmt depth ++ string_text (i_name (info t)) ++ colon_text fmt ++ a ++ line_text fmt (is_nil ks) ++ b.
Proof.
  cbn [members_text]. destruct (text t) as [a|]; [|done]. destruct (members_text fmt depth text ks) as [b|]; [|done]. intros [= <-]. eauto.
Qed.

Lemma written_set_depth n p w : written p w ⊢ written (pb_set_depth n p) w.
Proof. done. Qed.
Lemma leftover_set_depth n p : leftover p ⊢ leftover (pb_set_depth n p).
Proof. done. Qed.

Lemma chain_end ks ps pv : chain ks ps NULL pv ⊢ ⌜(hd NULL ps =? NULL) = is_nil ks⌝.
Proof.
  destruct ks as [|k ks], ps as [|q ps]; cbn [chain hd]; iIntros "H"; [by iPureIntro|done|done|]. iDestruct "H" as "[H _]".
  iDestruct (item_not_null with "H") as %Hq. iPureIntro. by apply Z.eqb_neq.
Qed.

Local Ltac no_end := apply (bool_decide_unpack _); vm_compute; exact I.

Definition printable (mf : bool) (t : jtree) : Prop :=
  bytes_ok (i_name (info t)) ∧ ∀ fuel, (2 * tsize t <= fuel)%nat → prints_value mf fuel t.

Lemma prints_elements mf ks : Forall (printable mf) ks → ∀ fuel, (2 * tsizes ks + 1 <= fuel)%nat →
  prints_list mf (print_elements fuel) ks (list_text false ks).
Proof.
  induction 1 as [|t ks [_ Ht] _ IH]; intros fuel Hf p w ps pv Φ Hd; (destruct fuel as [|fuel]; [lia|]); cbn [print_elements];
    iIntros "C B K"; iDestruct (chain_end with "C") as %He; rewrite He; cbn [is_nil].
  - wp_bind. iApply (wp_print_word mf p w 2 [93] with "B"); [no_end|unfold zlen; cbn; lia|].
    iIntros ([[] q]) "R"; cbn [reached fst snd negb]; wp_ret;
      iApply ("K" with "C"); cbn [reached fst snd].
    + iDestruct "R" as (x) "[%Hx R]". destruct Hx as [[= <-] (Hm1 & Hm2 & Hm3)]. iExists [93]. iSplitR; [|done]. iPureIntro. split; [done|].
      repeat split; cbn; congruence.
    + iFrame.
  - destruct ps as [|a ps]; cbn [chain hd]; [iDestruct "C" as "[]"|]. iDestruct "C" as "[I C]". change (tsizes (t :: ks)) with (tsize t + tsizes ks)%nat in Hf.
    assert (1 <= tsize t)%nat by (destruct t; cbn; lia). wp_bind. iApply (Ht fuel ltac:(lia) with "I B"); [lia|].
    iIntros ([[] q]) "I R"; cbn [reached fst snd negb].
    2: { iDestruct "R" as "[%Hx L]". wp_ret. iApply ("K" with "[$I $C]"). cbn [reached fst snd]. iFrame "L". iPureIntro.
         eapply excuse_part; [| |exact Hx]; [done|]. intros x Ex. apply elements_text_cons in Ex as (y & b & -> & _ & ->). eauto. }
    iDestruct "R" as (x) "[%Hx R]". destruct Hx as [Hx Hm]. wp_bind. iApply (wp_update_offset with "R"). iIntros (q1) "%Hm1 B".
    iDestruct (item_name with "I") as (n) "(H & %Hn & N & I)". wp_bind. iApply (wp_get_item with "H"). iIntros "H".
    iDestruct ("I" with "H N") as "I". destruct Hn as (-> & _ & _). iDestruct (chain_end with "C") as %He2. rewrite He2.
    pose proof (same_mode_trans _ _ _ Hm Hm1) as Hm2. wp_bind.
    iAssert (wp mf (if negb (is_nil ks) then print_array_comma q1 else fret (true, q1))
      (reached mf q1 (w ++ x) (Some (if is_nil ks then [] else comma_text (pb_format p))) pbuf)) with "[B]" as "W".
    { destruct (is_nil ks); cbn [negb].
      - wp_ret. cbn [reached fst snd]. iExists []. rewrite (right_id_L [] (++)). iFrame. by iPureIntro.
      - iApply (wp_print_array_comma with "B"). iIntros (r) "R". destruct Hm2 as (_ & _ & <-). done. }
    iApply (wp_wand with "W"). iIntros ([[] q2]) "R"; cbn [reached fst snd negb].
    2: { iDestruct "R" as "[%Hy L]". wp_ret. iApply ("K" with "[$I $C]"). cbn [reached fst snd]. iFrame "L". iPureIntro.
         eapply excuse_part; [| |exact Hy]; [apply Hm2|]. intros y Ey. apply elements_text_cons in Ey as (a' & b & Ea & _ & ->).
         rewrite Hx in Ea. injection Ea as <-. eexists _, b. split; [done|]. by rewrite <- !(assoc_L (++)). }
    iDestruct "R" as (y) "[%Hy B]". destruct Hy as [[= <-] Hm3]. pose proof (same_mode_trans _ _ _ Hm2 Hm3) as (Hd4 & Hn4 & Hf4).
    iApply (IH fuel ltac:(lia) with "C B"); [lia|]. iIntros ([ok q3]) "C R". iApply ("K" with "[$I $C]"). unfold list_text. rewrite Hd4, Hf4.
    destruct ok; cbn [reached fst snd].
    + iDestruct "R" as (z) "[%Hz R]". destruct Hz as [Hz Hm5]. iExists (x ++ (if is_nil ks then [] else comma_text (pb_format p)) ++ z).
      rewrite <- !(assoc_L (++)). iFrame "R". iPureIntro. cbn [elements_text]. rewrite Hx, Hz. split; [done|].
      destruct Hm5 as (H1 & H2 & H3). cbn in *. repeat split; cbn; congruence.
    + iDestruct "R" as "[%Hz $]". iPureIntro. eapply excuse_part; [| |exact Hz]; [cbn; congruence|]. intros u Eu.
      apply elements_text_cons in Eu as (a' & b & Ea & Eb & ->). rewrite Hx in Ea. injection Ea as <-. exists b, []. split; [done|].
      by rewrite (right_id_L [] (++)), <- !(assoc_L (++)).
Qed.

(** One piece of a longer text: on a failure the result is that of the whole. *)
Lemma wp_go mf (m : M (bool * printbuffer)) k p q w w1 ot1 ot (X : hP) R R' (Φ : bool * printbuffer → hP) :
  pb_noalloc q = pb_noalloc p → (∀ t, ot = Some t → ∃ t1 r, ot1 = Some t1 ∧ w ++ t = w1 ++ t1 ++ r) →
  ⊢ wp mf m (λ r, X ∗ reached mf q w1 ot1 R r) -∗
    ((∀ q' t1, ⟨ ot1 = Some t1 ∧ same_mode q q' ⟩ -∗ X -∗ R q' (w1 ++ t1) -∗ wp mf (k q') Φ) ∧
     (∀ r, X -∗ reached mf p w ot R' r -∗ Φ r)) -∗
    wp mf (p' <-! m;; k p') Φ.
Proof.
  intros Hq Ht. iIntros "W K". wp_bind. iApply (wp_wand with "W"). iIntros ([[] q']) "[X R]"; cbn [reached fst snd negb].
  - iDestruct "R" as (t1) "[%H1 R]". iDestruct "K" as "[K _]". iApply ("K" with "[] X R"). by iPureIntro.
  - iDestruct "R" as "[%Hx L]". iDestruct "K" as "[_ K]". wp_ret. iApply ("K" with "X"). cbn [reached fst snd]. iFrame "L". iPureIntro.
    by eapply excuse_part.
Qed.

Lemma wp_close_object mf p w (Φ : bool * printbuffer → hP) : 0 < pb_depth p →
  ⊢ pbuf p w -∗
    (∀ r, reached mf (pb_set_depth (pb_depth p - 1) p) w (Some (indent_text (pb_format p) (pb_depth p - 1) ++ [125])) written r -∗ Φ r) -∗
    wp mf (p <-! ensure p (if pb_format p then pb_depth p + 1 else 2);;
           pb_write p 0 ((if pb_format p then tabs (pb_depth p - 1) else []) ++ [125; 0]);;;
           fret (true, pb_set_depth (pb_depth p - 1) p)) Φ.
Proof.
  intros Hd. iIntros "B K". set (d := indent_text (pb_format p) (pb_depth p - 1) ++ [125]).
  assert (zlen d = if pb_format p then pb_depth p else 1) as Hl.
  { unfold d, indent_text. rewrite zlen_app. change (zlen [125]) with 1. destruct (pb_format p); [rewrite zlen_tabs by lia; lia|done]. }
  iApply (wp_piece mf p w _ d [0] (λ q, (if pb_format q then tabs (pb_depth q - 1) else []) ++ [125; 0]) with "B").
  { rewrite Hl. destruct (pb_format p); lia. }
  { rewrite zlen_app, Hl. change (zlen [0]) with 1. destruct (pb_format p); lia. }
  { intros q (-> & _ & ->). unfold d, indent_text. by rewrite <- (assoc_L (++)). }
  assert (0 ∉ d) as H0.
  { unfold d, indent_text. rewrite elem_of_app. intros [H|H]; [|by apply list_elem_of_singleton in H]. destruct (pb_format p).
    - unfold tabs in H. apply elem_of_replicate in H as [H _]. done.
    - by apply elem_of_nil in H. }
  iIntros ([[] q]) "R"; cbn [reached fst snd]; [|iApply "K"; cbn [reached fst snd]; iFrame].
  iDestruct "R" as (t) "[%Ht R]". destruct Ht as [[= <-] (H1 & H2 & H3)]. wp_ret. iApply "K". cbn [reached fst snd]. iExists d.
  iSplitR. { iPureIntro. split; [done|]. repeat split; cbn; congruence. }
  by iApply (piece_written with "R").
Qed.

(** Where the pieces of a member are in the text of all. *)
Lemma member_parts fmt depth text t ks (w : list Z) x : members_text fmt depth text (t :: ks) = Some x →
  ∃ v b, text t = Some v ∧ members_text fmt depth text ks = Some b ∧
    let i := indent_text fmt depth in let n := string_text (i_name (info t)) in let c := colon_text fmt in let l := line_text fmt (is_nil ks) in
    w ++ x = w ++ i ++ (n ++ c ++ v ++ l ++ b) ∧ w ++ x = (w ++ i) ++ n ++ (c ++ v ++ l ++ b) ∧
    w ++ x = ((w ++ i) ++ n) ++ c ++ (v ++ l ++ b) ∧ w ++ x = (((w ++ i) ++ n) ++ c) ++ v ++ (l ++ b) ∧
    w ++ x = ((((w ++ i) ++ n) ++ c) ++ v) ++ l ++ b ∧ w ++ x = (((((w ++ i) ++ n) ++ c) ++ v) ++ l) ++ b.
Proof.
  intros H. apply members_text_cons in H as (a & b & Ha & Hb & ->). exists a, b. split; [done|]. split; [done|]. cbv zeta.
  rewrite <- !(assoc_L (++)). done.
Qed.
Local Ltac part_of :=
  let x := fresh "x" in let Ex := fresh "Ex" in intros x Ex;
  match goal with |- ∃ _ _, _ ∧ ?w ++ _ = _ => apply (member_parts _ _ _ _ _ w) in Ex as (v & b & Ev & _ & P1 & P2 & P3 & P4 & P5 & _) end;
  eexists _, _; split; [first [reflexivity|eassumption]|eassumption].

Lemma prints_members mf ks : Forall (printable mf) ks → ∀ fuel, (2 * tsizes ks + 1 <= fuel)%nat →
  prints_list mf (print_members fuel) ks (list_text true ks).
Proof.
  induction 1 as [|t ks [Hb Ht] _ IH]; intros fuel Hf p w ps pv Φ Hd; (destruct fuel as [|fuel]; [lia|]); cbn [print_members];
    iIntros "C B K"; iDestruct (chain_end with "C") as %He; rewrite He; cbn [is_nil].
  { iApply (wp_close_object with "B"); [done|]. iIntros (r) "R". by iApply ("K" with "C"). }
  destruct ps as [|a ps]; cbn [chain hd]; [iDestruct "C" as "[]"|]. iDestruct "C" as "[I C]".
  change (tsizes (t :: ks)) with (tsize t + tsizes ks)%nat in Hf. assert (1 <= tsize t)%nat by (destruct t; cbn; lia).
  iApply (wp_go mf (print_indent p) _ (pb_set_depth (pb_depth p - 1) p) p w w (Some (indent_text (pb_format p) (pb_depth p)))
            (list_text true (t :: ks) p) emp pbuf written with "[B]"); [done| | |].
  { part_of. }
  { iApply (wp_print_indent with "B"); [lia|]. iIntros (r) "R". by iFrame. }
  iSplit; [|iIntros (r) "_ R"; iApply ("K" with "[$I $C] R")]. iIntros (q1 d1) "%H1 _ B". destruct H1 as [[= <-] M1].
  iDestruct (item_name with "I") as (n) "(H & %Hn & N & I)". destruct Hn as (Hnx & _ & _). wp_bind. iApply (wp_get_item with "H"). iIntros "H".
  iApply (wp_go mf (print_string_ptr (j_string n) q1) _ (pb_set_depth (pb_depth p - 1) p) q1 w _ (Some (string_text (i_name (info t))))
            (list_text true (t :: ks) p) (item t a (hd NULL ps) pv) written written with "[H N I B]"); [apply M1|part_of| |].
  { iApply (wp_print_string_ptr with "N B"); [done|]. iIntros (r) "N $". iApply ("I" with "H N"). }
  iSplit; [|iIntros (r) "I R"; iApply ("K" with "[$I $C] R")]. iIntros (q2 d2) "%H2 I B". destruct H2 as [[= <-] M2].
  pose proof (same_mode_trans _ _ _ M1 M2) as M2'. wp_bind. iApply (wp_update_offset with "B"). iIntros (q3) "%M3 B".
  pose proof (same_mode_trans _ _ _ M2' M3) as M3'.
  iApply (wp_go mf (print_colon q3) _ (pb_set_depth (pb_depth p - 1) p) q3 w _ (Some (colon_text (pb_format p)))
            (list_text true (t :: ks) p) emp pbuf written with "[B]"); [apply M3'|part_of| |].
  { iApply (wp_print_colon with "B"). iIntros (r) "R". destruct M3' as (_ & _ & <-). by iFrame. }
  iSplit; [|iIntros (r) "_ R"; iApply ("K" with "[$I $C] R")]. iIntros (q4 d4) "%H4 _ B". destruct H4 as [[= <-] M4].
  pose proof (same_mode_trans _ _ _ M3' M4) as M4'.
  iApply (wp_go mf (print_value fuel a q4) _ (pb_set_depth (pb_depth p - 1) p) q4 w _ (value_text (pb_format p) (pb_depth p) t)
            (list_text true (t :: ks) p) (item t a (hd NULL ps) pv) written written with "[I B]"); [apply M4'|part_of| |].
  { destruct M4' as (Md & _ & <-). rewrite <- Md in *. iApply (Ht fuel ltac:(lia) with "I B"); [lia|]. iIntros (r) "$ $". }
  iSplit; [|iIntros (r) "I R"; iApply ("K" with "[$I $C] R")]. iIntros (q5 d5) "%H5 I B". destruct H5 as [Ht5 M5].
  pose proof (same_mode_trans _ _ _ M4' M5) as M5'. wp_bind. iApply (wp_update_offset with "B"). iIntros (q6) "%M6 B".
  pose proof (same_mode_trans _ _ _ M5' M6) as M6'. rewrite Hnx. iDestruct (chain_end with "C") as %He2. rewrite He2.
  iApply (wp_go mf (print_comma (is_nil ks) q6) _ (pb_set_depth (pb_depth p - 1) p) q6 w _ (Some (line_text (pb_format p) (is_nil ks)))
            (list_text true (t :: ks) p) emp pbuf written with "[B]"); [apply M6'| | |].
  { intros x Ex. apply (member_parts _ _ _ _ _ w) in Ex as (v & b & Ev & _ & _ & _ & _ & _ & P5 & _). rewrite Ht5 in Ev.
    injection Ev as <-. eexists _, _. split; [reflexivity|eassumption]. }
  { iApply (wp_print_comma with "B"). iIntros (r) "R". destruct M6' as (_ & _ & <-). by iFrame. }
  iSplit; [|iIntros (r) "_ R"; iApply ("K" with "[$I $C] R")]. iIntros (q7 d7) "%H7 _ B". destruct H7 as [[= <-] M7].
  pose proof (same_mode_trans _ _ _ M6' M7) as (Hd7 & Hn7 & Hf7). iApply (IH fuel ltac:(lia) with "C B"); [lia|]. iIntros ([ok q8]) "C R".
  iApply ("K" with "[$I $C]"). unfold list_text. rewrite Hd7, Hf7. destruct ok; cbn [reached fst snd].
  - iDestruct "R" as (z) "[%Hz R]". destruct Hz as [Hz Hm]. iExists _. rewrite <- !(assoc_L (++)). iFrame "R". iPureIntro.
    cbn [members_text]. rewrite Ht5, Hz. split; [done|]. destruct Hm as (H1 & H2 & H3). cbn in *. repeat split; cbn; congruence.
  - iDestruct "R" as "[%Hz $]". iPureIntro. eapply excuse_part; [| |exact Hz]; [cbn; congruence|]. intros u Eu.
    apply (member_parts _ _ _ _ _ w) in Eu as (v & b & Ev & Eb & _ & _ & _ & _ & _ & P6). rewrite Ht5 in Ev. injection Ev as <-.
    exists b, []. split; [done|]. by rewrite (right_id_L [] (++)).
Qed.

(** An opening bracket and what is behind it. *)
Lemma prints_nested mf code members ks p w a needed d f n (Φ : bool * printbuffer → hP) :
  prints_list mf code ks (list_text members ks) → 0 <= pb_depth p → zlen d <= needed <= zlen d + 1 → n = zlen d → steady p f d →
  ⊢ kids a ks -∗ pbuf p w -∗
    (∀ r, kids a ks -∗
       reached mf p w (b ← list_text members ks (pb_set_depth (pb_depth p + 1) p); Some (d ++ b)) written r -∗ Φ r) -∗
    wp mf (p <-! ensure p needed;; pb_write p 0 (f p);;; code a (pb_set_depth (pb_depth p + 1) (pb_set_offset (pb_offset p + n) p))) Φ.
Proof.
  intros Hl Hd Hn -> Hf. iIntros "(%ps & -> & C) B K". set (ot := list_text members ks _).
  iApply (wp_piece mf p w needed d [] f with "B"); [done|rewrite (right_id_L [] (++)); lia| |].
  { intros q Hq. rewrite (right_id_L [] (++)). by apply Hf. }
  iIntros ([[] q]) "R"; cbn [reached fst snd].
  - iDestruct "R" as (t) "[%Ht R]". destruct Ht as [[= <-] (M1 & M2 & M3)]. iDestruct (piece_offset with "R") as "[%Ho R]".
    iApply (Hl with "C [R]"); [cbn; lia|iApply (piece_pbuf with "R"); cbn; rewrite Ho, zlen_app; done|].
    iIntros ([ok q2]) "C R". iApply ("K" with "[C]"); [iExists ps; by iFrame|].
    assert (list_text members ks (pb_set_depth (pb_depth q + 1) (pb_set_offset (pb_offset q + zlen d) q)) = ot) as ->.
    { unfold ot, list_text. cbn. by rewrite M1, M3. }
    destruct ok; cbn [reached fst snd].
    + iDestruct "R" as (z) "[%Hz R]". destruct Hz as [Hz (H1 & H2 & H3)]. iExists (d ++ z). rewrite <- (assoc_L (++)). iFrame. iPureIntro.
      rewrite Hz. split; [done|]. cbn in *. repeat split; [lia|congruence..].
    + iDestruct "R" as "[%Hx $]". iPureIntro. eapply excuse_part; [| |exact Hx]; [done|]. intros x Ex.
      destruct ot as [z|]; [|done]. injection Ex as <-. exists z, []. by rewrite (right_id_L [] (++)), <- (assoc_L (++)).
  - iDestruct "R" as "[%Hx L]". iApply ("K" with "[C]"); [iExists ps; by iFrame|]. cbn [reached fst snd]. iFrame "L". iPureIntro.
    eapply excuse_part; [| |exact Hx]; [done|]. intros x Ex. destruct ot as [z|]; [|done]. injection Ex as <-. by exists d, z.
Qed.

Lemma printable_kids mf ks :
  Forall (λ t, tree_all texts_ok t → printable mf t) ks → all_trees texts_ok ks → Forall (printable mf) ks.
Proof. induction 1 as [|t ks Ht _ IH]; [done|]. intros [H1 H2]. constructor; [by apply Ht|by apply IH]. Qed.

Lemma item_back i ks p nx pv child vp np :
  ⊢ p ↦ JNode (node i nx pv child vp np) -∗ ⟨ plain (i_type i) ⟩ -∗ own_str vp (i_valuestring i) -∗ own_str np (i_name i) -∗
    kids child ks -∗ item (JTree i ks) p nx pv.
Proof. iIntros "H P V N C". iApply item_eq. iExists vp, np, child. iFrame. Qed.

Lemma printable_all mf t : tree_all texts_ok t → printable mf t.
Proof.
  induction t as [i ks IH] using jtree_ind'. intros [[Hv Hb] Hks]. pose proof (printable_kids mf ks IH Hks) as Hp. split; [done|].
  intros fuel Hf p w a nx pv Φ Hd. change (tsize (JTree i ks)) with (S (tsizes ks)) in Hf. destruct fuel as [|fuel]; [lia|].
  cbn [print_value value_text]. rewrite item_eq. iIntros "(%vp & %np & %child & H & P & V & N & C) B K".
  iDestruct (points_to_not_null with "H") as %Ha. rewrite (proj2 (Z.eqb_neq a NULL)) by done. wp_bind. iApply (wp_get_item with "H").
  iIntros "H". cbn [j_type j_valuestring j_child node].
  destruct (kind (i_type i) =? cJSON_NULL).
  { iApply (wp_print_word with "B"); [no_end|unfold zlen; cbn; lia|]. iIntros (r). iApply "K". iApply (item_back with "H P V N C"). }
  destruct (kind (i_type i) =? cJSON_False).
  { iApply (wp_print_word with "B"); [no_end|unfold zlen; cbn; lia|]. iIntros (r). iApply "K". iApply (item_back with "H P V N C"). }
  destruct (kind (i_type i) =? cJSON_True).
  { iApply (wp_print_word with "B"); [no_end|unfold zlen; cbn; lia|]. iIntros (r). iApply "K". iApply (item_back with "H P V N C"). }
  destruct (kind (i_type i) =? cJSON_Number).
  { iApply (wp_print_number with "H B"). iIntros (r) "H". iApply "K". iApply (item_back with "H P V N C"). }
  destruct (kind (i_type i) =? cJSON_Raw).
  { iDestruct (own_str_null with "V") as %Hn. destruct (Z.eqb_spec vp NULL) as [E|E].
    - wp_ret. iApply ("K" with "[H P V N C]"); [iApply (item_back with "H P V N C")|]. rewrite (proj1 Hn E). cbn [reached fst snd].
      iSplitR; [|by iApply pbuf_left]. iPureIntro. right. right. done.
    - destruct (i_valuestring i) as [s|] eqn:Es; [|by destruct E; apply Hn]. wp_bind. iApply (wp_c_str with "V"). iIntros "V".
      iApply (wp_print_word with "B"); [|lia|].
      + intros H0. cbn [bytes_ok] in Hv. rewrite Forall_forall in Hv. apply Hv in H0. lia.
      + iIntros (r). iApply "K". iApply (item_back with "H P [V] N C"). by rewrite Es. }
  destruct (kind (i_type i) =? cJSON_String).
  { unfold print_string. wp_bind. iApply (wp_get_item with "H"). iIntros "H". cbn [j_valuestring node].
    iApply (wp_print_string_ptr with "V B"); [done|]. iIntros (r) "V". iApply "K". iApply (item_back with "H P V N C"). }
  destruct (kind (i_type i) =? cJSON_Array).
  { iApply (prints_nested mf (print_elements fuel) false ks p w child 1 [91] (λ _, [91]) 1 with "C B");
      [apply prints_elements; [done|lia]|done|unfold zlen; cbn; lia|done|done|].
    iIntros (r) "C". iApply "K". iApply (item_back with "H P V N C"). }
  destruct (kind (i_type i) =? cJSON_Object).
  { iApply (prints_nested mf (print_members fuel) true ks p w child _ (open_text (pb_format p)) (λ q, open_text (pb_format q)) with "C B");
      [apply prints_members; [done|lia]|done|unfold zlen; destruct (pb_format p); cbn; lia|by destruct (pb_format p)|by intros q (_ & _ & ->)|].
    iIntros (r) "C". iApply "K". iApply (item_back with "H P V N C"). }
  wp_ret. iApply ("K" with "[H P V N C]"); [iApply (item_back with "H P V N C")|]. cbn [reached fst snd].
  iSplitR; [|by iApply pbuf_left]. iPureIntro. right. right. done.
Qed.

Lemma wp_print_value mf t fuel : tree_all texts_ok t → (2 * tsize t <= fuel)%nat → prints_value mf fuel t.
Proof. intros Ht. by apply printable_all. Qed.

(** ** Whole texts *)

(** A text that is missing has a reason. *)
Definition no_text (mf fmt : bool) (t : jtree) : Prop := mf = true ∨ ∀ x, value_text fmt 0 t = Some x → INT_MAX < zlen x + 2.

Definition fresh_buffer (buffer len : Z) (fmt : bool) : printbuffer :=
  {| pb_buffer := buffer; pb_length := len; pb_offset := 0; pb_depth := 0; pb_noalloc := false; pb_format := fmt |}.

Lemma fresh_pbuf buffer (len : nat) fmt :
  buffer ↦ JBytes (replicate len uninit) ⊢ pbuf (fresh_buffer buffer (Z.of_nat len) fmt) [].
Proof.
  iIntros "H". iExists _. cbn. iFrame. iPureIntro. unfold zlen. rewrite length_replicate. cbn. lia.
Qed.

Lemma excuse_no_text mf p t : pb_noalloc p = false →
  excuse mf p (option_map (λ x : list Z, (zlen (@nil Z) + zlen x)%Z) (value_text (pb_format p) 0 t)) → no_text mf (pb_format p) t.
Proof.
  intros Hn [H|[H|H]]; [by left|congruence|]. right. intros x Hx. rewrite Hx in H. apply (H (zlen (@nil Z) + zlen x)%Z). done.
Qed.

(** From a fresh buffer to the end of [print_value]. *)
Lemma wp_print_start mf t a nx pv buffer (len : nat) fmt (Φ : bool * printbuffer → hP) :
  tree_all texts_ok t →
  ⊢ item t a nx pv -∗ buffer ↦ JBytes (replicate len uninit) -∗
    (∀ r : bool * printbuffer, item t a nx pv -∗
       (if r.1 then ∃ x, ⟨ value_text fmt 0 t = Some x ⟩ ∗ written r.2 x else ⟨ no_text mf fmt t ⟩ ∗ leftover r.2) -∗ Φ r) -∗
    wp mf (n <-- heap_size;; print_value (print_fuel n) a (fresh_buffer buffer (Z.of_nat len) fmt)) Φ.
Proof.
  intros Ht. iIntros "I B K". wp_bind. iApply (wp_heap_size with "I"); [apply at_least_item|]. iIntros (n Hn) "I".
  iDestruct (fresh_pbuf _ _ fmt with "B") as "B". iApply (wp_print_value with "I B"); [done|unfold print_fuel; lia|cbn; lia|].
  iIntros ([[] q]) "I R"; iApply ("K" with "I"); cbn [reached fst snd].
  - iDestruct "R" as (x) "[%Hx R]". iExists x. iFrame. iPureIntro. by destruct Hx.
  - iDestruct "R" as "[%Hx $]". iPureIntro. by apply excuse_no_text in Hx.
Qed.

Lemma wp_flat {A C D} mf (m : M A) (k : A → M C) (h : C → M D) (Φ : D → hP) :
  wp mf (fbind (fbind m k) h) Φ ⊢ wp mf (fbind m (λ a, fbind (k a) h)) Φ.
Proof.
  apply entails_of. intros x H s hf Hs Hd Hw Ho. destruct (H s hf) as (d & s' & h' & E & R); [done..|]. exists d, s', h'. split; [|done].
  revert E. unfold fbind. destruct (m s) as [[a s1]|]; done.
Qed.

(** What cJSON_Print and cJSON_PrintUnformatted return. *)
Definition printed (mf fmt : bool) (t : jtree) (q : Z) : hP :=
  ((∃ x, ⟨ value_text fmt 0 t = Some x ⟩ ∗ q ↦ JBytes (x ++ [0])) ∨ ⟨ q = NULL ∧ no_text mf fmt t ⟩)%I.

Lemma wp_print mf t a nx pv fmt (Φ : Z → hP) :
  tree_all texts_ok t →
  ⊢ item t a nx pv -∗ (∀ q, item t a nx pv -∗ printed mf fmt t q -∗ Φ q) -∗ wp mf (print a fmt) Φ.
Proof.
  intros Ht. iIntros "I K". unfold print. wp_bind. iApply wp_alloc. iSplit.
  { iIntros (Hm). rewrite Z.eqb_refl. wp_ret. iApply ("K" with "I"). iRight. iPureIntro. split; [done|by left]. }
  iIntros (b) "B". iDestruct (points_to_not_null with "B") as %Hb. rewrite (proj2 (Z.eqb_neq b NULL)) by done.
  iApply wp_flat. wp_bind. iApply (wp_print_start mf t a nx pv b 256 fmt with "I B"); [done|]. iIntros ([[] q]) "I R"; cbn [fst snd negb].
  - iDestruct "R" as (x) "[%Hx R]". wp_bind. iApply (wp_update_offset_end with "R"). iIntros (q1) "_ (%rest & H & %Ho & _)". wp_bind.
    iApply (wp_reallocate with "H"). iSplit.
    + iIntros (Hm) "H". rewrite Z.eqb_refl. wp_bind. iApply (wp_deallocate with "H"). wp_ret. iApply ("K" with "I"). iRight. iPureIntro.
      split; [done|by left].
    + iIntros (d) "H". iDestruct (points_to_not_null with "H") as %Hd. rewrite (proj2 (Z.eqb_neq d NULL)) by done. wp_ret.
      iApply ("K" with "I"). iLeft. iExists x. iSplitR; [by iPureIntro|]. rewrite Ho.
      assert (Z.to_nat (zlen x + 1) = length (x ++ [0])) as -> by (rewrite length_app; unfold zlen; cbn; lia).
      by rewrite (assoc_L (++)), <- (assoc_L (++) (x ++ [0])), take_app_length.
  - iDestruct "R" as "[%Hx L]". wp_bind. iApply (wp_free_left with "L"). wp_ret. iApply ("K" with "I"). iRight. by iPureIntro.
Qed.

(** The buffer of the caller's first guess; the text has its end mark somewhere in it. *)
Lemma wp_print_buffered mf t a nx pv n fmt (Φ : Z → hP) :
  tree_all texts_ok t → 0 <= n →
  ⊢ item t a nx pv -∗
    (∀ q, item t a nx pv -∗
       ((∃ x rest, ⟨ value_text fmt 0 t = Some x ⟩ ∗ q ↦ JBytes (x ++ 0 :: rest)) ∨ ⟨ q = NULL ∧ no_text mf fmt t ⟩) -∗ Φ q) -∗
    wp mf (cJSON_PrintBuffered a n fmt) Φ.
Proof.
  intros Ht Hn. iIntros "I K". unfold cJSON_PrintBuffered. rewrite (proj2 (Z.ltb_ge n 0)) by lia. wp_bind. iApply wp_alloc. iSplit.
  { iIntros (Hm). rewrite Z.eqb_refl. wp_ret. iApply ("K" with "I"). iRight. iPureIntro. split; [done|by left]. }
  iIntros (b) "B". iDestruct (points_to_not_null with "B") as %Hb. rewrite (proj2 (Z.eqb_neq b NULL)) by done.
  iApply wp_flat. wp_bind. pose proof (wp_print_start mf t a nx pv b (Z.to_nat n) fmt) as W. rewrite Z2Nat.id in W by lia.
  iApply (W with "I B"); [done|]. iIntros ([[] q]) "I R"; cbn [fst snd negb].
  - iDestruct "R" as (x) "(%Hx & %u & %v & %rest & H & _)". wp_ret. iApply ("K" with "I"). iLeft. iExists x, rest. iFrame. by iPureIntro.
  - iDestruct "R" as "[%Hx L]". wp_bind. iApply (wp_free_left with "L"). wp_ret. iApply ("K" with "I"). iRight. by iPureIntro.
Qed.
