(* ===== verification/CJsonRound.v ===== *)
(** * JSON texts are read back

    Values [json] without memory, their texts [json_text] (both formats of the
    printer) and their trees [to_tree].  [value_json]: the printer's text of the tree
    is [json_text].  [parse_json]: the parser on trees makes that tree from the text.
    Numbers are ints: the printer does not keep every double (CJsonNum.v). *)

From Stdlib Require Import SpecFloat.
From S2P Require Import Prelude SepLog CJsonNum CJson CJsonTree CJsonParse CJsonPrint.
#[local] Set Warnings "-register-all".
Local Open Scope fw_scope.

(** ** Values *)

Inductive json :=
| JNull | JFalse | JTrue
| JInt (z : Z)
| JText (s : list Z)
| JArr (l : list json)
| JObj (l : list (list Z * json)).

Section Ind.
Context (P : json → Prop) (Hn : P JNull) (Hf : P JFalse) (Ht : P JTrue) (Hi : ∀ z, P (JInt z)) (Hs : ∀ s, P (JText s))
  (Ha : ∀ l, Forall P l → P (JArr l)) (Ho : ∀ l, Forall (λ kv, P kv.2) l → P (JObj l)).
Fixpoint json_ind' (j : json) : P j :=
  match j with
  | JNull => Hn | JFalse => Hf | JTrue => Ht | JInt z => Hi z | JText s => Hs s
  | JArr l => Ha l ((fix go l : Forall P l := match l with [] => Forall_nil_2 P | j :: l => Forall_cons_2 P j l (json_ind' j) (go l) end) l)
  | JObj l => Ho l ((fix go l : Forall (λ kv, P kv.2) l :=
      match l with [] => Forall_nil_2 _ | kv :: l => Forall_cons_2 (λ kv, P kv.2) kv l (json_ind' kv.2) (go l) end) l)
  end.
End Ind.

Definition member (f : json → jtree) (kv : list Z * json) : jtree := set_name kv.1 (f kv.2).
(** [v]: the field valueint of true, which is not printed.  The parser sets it to 1,
    cJSON_CreateTrue leaves it 0. *)
Fixpoint tree_of (v : Z) (j : json) : jtree :=
  match j with
  | JNull => simple cJSON_NULL []
  | JFalse => simple cJSON_False []
  | JTrue => value cJSON_True None v (S754_zero false) []
  | JInt z => number (int_to_double z)
  | JText s => text_value s
  | JArr l => simple cJSON_Array (map (tree_of v) l)
  | JObj l => simple cJSON_Object (map (member (tree_of v)) l)
  end.
Abbreviation to_tree := (tree_of 1).

(** ** Texts *)

Section Texts.
Context (fmt : bool) (depth : Z) (text : json → list Z).
Fixpoint arr_text (l : list json) : list Z :=
  match l with
  | [] => [93]
  | j :: l => text j ++ (if is_nil l then [] else comma_text fmt) ++ arr_text l
  end.
Fixpoint obj_text (l : list (list Z * json)) : list Z :=
  match l with
  | [] => indent_text fmt (depth - 1) ++ [125]
  | kv :: l => indent_text fmt depth ++ string_text (Some kv.1) ++ colon_text fmt ++ text kv.2 ++ line_text fmt (is_nil l) ++ obj_text l
  end.
End Texts.

Fixpoint json_text (fmt : bool) (depth : Z) (j : json) : list Z :=
  match j with
  | JNull => lit "null"
  | JFalse => lit "false"
  | JTrue => lit "true"
  | JInt z => print_int z
  | JText s => string_text (Some s)
  | JArr l => [91] ++ arr_text fmt (json_text fmt (depth + 1)) l
  | JObj l => open_text fmt ++ obj_text fmt (depth + 1) (json_text fmt (depth + 1)) l
  end.

(** What a text can hold, and how deep. *)
Definition is_text (s : list Z) : Prop := Forall (λ c, 0 < c < 256) s.
Definition all_of {A} (f : A → Prop) : list A → Prop := fix go l := match l with [] => True | x :: l => f x ∧ go l end.
Fixpoint json_ok (j : json) : Prop :=
  match j with
  | JInt z => is_int z
  | JText s => is_text s
  | JArr l => all_of json_ok l
  | JObj l => all_of (λ kv, is_text kv.1 ∧ json_ok kv.2) l
  | _ => True
  end.
Fixpoint height (j : json) : Z :=
  match j with
  | JArr l => 1 + foldr (λ j h, Z.max (height j) h) 0 l
  | JObj l => 1 + foldr (λ kv h, Z.max (height kv.2) h) 0 l
  | _ => 0
  end.

Lemma all_of_Forall {A} (f : A → Prop) l : all_of f l ↔ Forall f l.
Proof. induction l as [|x l IH]; cbn [all_of]; [by split|]. rewrite IH, Forall_cons. done. Qed.

(** ** The printer's text *)

Lemma value_text_name fmt depth s t : value_text fmt depth (set_name s t) = value_text fmt depth t.
Proof. by destruct t as [[] ks]. Qed.

Lemma rev_digits_length fuel z k : 0 <= z < 10 ^ Z.of_nat (S k) → (length (rev_digits fuel z) <= S k)%nat.
Proof.
  revert z k. induction fuel as [|fuel IH]; intros z k Hz; cbn [rev_digits length]; [lia|]. destruct (Z.ltb_spec z 10) as [H|H]; [cbn; lia|].
  destruct k as [|k]; [cbn in Hz; lia|]. specialize (IH (z / 10) k). rewrite (Nat2Z.inj_succ (S k)), Z.pow_succ_r in Hz by lia.
  apply le_n_S, IH. Z.div_mod_to_equations. lia.
Qed.
Lemma print_int_length z : is_int z → zlen (print_int z) <= 11.
Proof.
  unfold is_int, INT_MIN, INT_MAX, print_int. intros Hz. unfold digits.
  destruct (z <? 0) eqn:E; rewrite ?zlen_cons; unfold zlen; rewrite length_reverse.
  - apply Z.ltb_lt in E. pose proof (rev_digits_length (S (Z.to_nat (Z.log2 (- z)))) (- z) 9). lia.
  - apply Z.ltb_ge in E. pose proof (rev_digits_length (S (Z.to_nat (Z.log2 z))) z 9). lia.
Qed.

Lemma value_json fmt v j : json_ok j → ∀ depth, value_text fmt depth (tree_of v j) = Some (json_text fmt depth j).
Proof.
  induction j as [| | |z|s|l IH|l IH] using json_ind'; intros Hj depth; try done.
  - cbn [json_ok] in Hj. cbn [tree_of]. unfold number, value. cbn [value_text i_type i_valuedouble i_valueint].
    change (kind cJSON_Number =? cJSON_NULL) with false. change (kind cJSON_Number =? cJSON_False) with false.
    change (kind cJSON_Number =? cJSON_True) with false. change (kind cJSON_Number =? cJSON_Number) with true. cbv iota zeta.
    rewrite saturate_int, number_text_int by done. pose proof (print_int_length z Hj). by rewrite (proj2 (Z.ltb_ge 25 _)) by lia.
  - change (value_text fmt depth (tree_of v (JArr l))) with
      (b ← elements_text fmt (value_text fmt (depth + 1)) (map (tree_of v) l); Some ([91] ++ b)).
    assert (elements_text fmt (value_text fmt (depth + 1)) (map (tree_of v) l) = Some (arr_text fmt (json_text fmt (depth + 1)) l)) as ->; [|done].
    cbn [json_ok] in Hj. rewrite all_of_Forall in Hj. induction IH as [|j l H _ IHl]; [done|]. apply Forall_cons in Hj as [Hj Hl].
    cbn [map elements_text arr_text]. rewrite H, IHl by done. cbn. by destruct l.
  - change (value_text fmt depth (tree_of v (JObj l))) with
      (b ← members_text fmt (depth + 1) (value_text fmt (depth + 1)) (map (member (tree_of v)) l); Some (open_text fmt ++ b)).
    assert (members_text fmt (depth + 1) (value_text fmt (depth + 1)) (map (member (tree_of v)) l)
      = Some (obj_text fmt (depth + 1) (json_text fmt (depth + 1)) l)) as ->; [|done].
    cbn [json_ok] in Hj. rewrite all_of_Forall in Hj. induction IH as [|[k j] l H _ IHl]; [done|]. apply Forall_cons in Hj as [[Hk Hj] Hl].
    cbn [fst snd] in *. cbn [map members_text obj_text]. change (member (tree_of v) (k, j)) with (set_name k (tree_of v j)).
    rewrite value_text_name, H, IHl by done. cbn [fst snd].
    cbn [mbind option_bind]. destruct (tree_of v j), l; done.
Qed.

(** ** The parser at a place in a text *)

(** [pre] is behind it, [s] in front of it. *)
Definition between (pre s : list Z) (d : Z) : parse_buffer :=
  {| content := pre ++ s; blen := zlen (pre ++ s); offset := zlen pre; depth := d |}.

Lemma byte_at_app (a b : list Z) c i : i = zlen a → byte_at (a ++ c :: b) i = Ok c.
Proof.
  intros ->. unfold byte_at. pose proof (zlen_nonneg a). rewrite (proj2 (Z.ltb_ge _ 0)) by lia. unfold zlen. rewrite Nat2Z.id.
  by rewrite list_lookup_middle.
Qed.
Lemma here_between pre c s d : here (between pre (c :: s) d) = Ok c.
Proof. by apply byte_at_app. Qed.
Lemma can_access_between pre c s d : can_access (between pre (c :: s) d) 0 = true.
Proof. unfold can_access. cbn. apply Z.ltb_lt. rewrite zlen_app, zlen_cons. pose proof (zlen_nonneg s). lia. Qed.
Lemma move_between pre x s d n : n = zlen pre + zlen x → set_offset n (between pre (x ++ s) d) = between (pre ++ x) s d.
Proof. intros ->. unfold set_offset, between. cbn. rewrite (assoc_L (++)). by rewrite <- zlen_app. Qed.
Lemma move_one pre x s d n : n = zlen pre + 1 → set_offset n (between pre (x :: s) d) = between (pre ++ [x]) s d.
Proof. intros ->. apply (move_between pre [x]). done. Qed.
Lemma back_between pre x s d n : n = zlen pre → set_offset n (between (pre ++ [x]) s d) = between pre (x :: s) d.
Proof. intros ->. unfold set_offset, between. cbn. rewrite <- (assoc_L (++)). done. Qed.
Lemma sees_between pre c s d x : sees (between pre (c :: s) d) x = Ok (c =? x).
Proof. unfold sees. rewrite can_access_between, here_between. done. Qed.
Lemma depth_between pre s d d' : set_depth d' (between pre s d) = between pre s d'.
Proof. done. Qed.

Lemma starts_between pre w s d : can_read (between pre (w ++ s) d) (zlen w) && starts (between pre (w ++ s) d) w = true.
Proof.
  apply andb_true_iff. split.
  - unfold can_read. cbn. apply Z.leb_le. rewrite !zlen_app. pose proof (zlen_nonneg s). lia.
  - apply bool_decide_eq_true. cbn. unfold zlen. rewrite Nat2Z.id, drop_app_length, take_app_length. done.
Qed.
Lemma starts_other pre c s d x w k : c ≠ x → can_read (between pre (c :: s) d) k && starts (between pre (c :: s) d) (x :: w) = false.
Proof.
  intros H. apply andb_false_iff. right. apply bool_decide_eq_false. cbn. unfold zlen. rewrite Nat2Z.id, drop_app_length. cbn. congruence.
Qed.

Definition is_space (w : list Z) : Prop := Forall (λ c, c <= 32) w.

Lemma skip_loop_between fuel ws c s d : ∀ pre, is_space ws → 32 < c → (length ws < fuel)%nat →
  skip_loop fuel (between pre (ws ++ c :: s) d) = Ok (between (pre ++ ws) (c :: s) d).
Proof.
  revert fuel. induction ws as [|x ws IH]; intros fuel pre Hw Hc Hf; (destruct fuel as [|fuel]; [cbn in Hf; lia|]); cbn [app skip_loop].
  - rewrite can_access_between, here_between. cbn [rbind]. rewrite (proj2 (Z.leb_gt c 32)) by lia. by rewrite (right_id_L [] (++)).
  - apply Forall_cons in Hw as [Hx Hw]. rewrite can_access_between, here_between. cbn [rbind]. rewrite (proj2 (Z.leb_le x 32)) by lia.
    rewrite move_one by done. rewrite IH by (try done; cbn in Hf; lia). by rewrite <- (assoc_L (++)).
Qed.
Lemma skip_between pre ws c s d : is_space ws → 32 < c →
  buffer_skip_whitespace (between pre (ws ++ c :: s) d) = Ok (between (pre ++ ws) (c :: s) d).
Proof.
  intros Hw Hc. unfold buffer_skip_whitespace. assert (∀ p x k, can_access (between p (x ++ c :: k) d) 0 = true) as Ha.
  { intros p [|y x] k; apply can_access_between. }
  rewrite Ha. cbn [negb]. rewrite skip_loop_between; [|done..|].
  - cbn [rbind offset blen between]. rewrite (proj2 (Z.eqb_neq _ _)); [done|]. rewrite !zlen_app, zlen_cons. pose proof (zlen_nonneg s). lia.
  - cbn. rewrite !zlen_app, zlen_cons. unfold zlen. lia.
Qed.
Lemma advance_between pre x ws c s d : is_space ws → 32 < c →
  advance (between pre (x :: ws ++ c :: s) d) = Ok (between (pre ++ x :: ws) (c :: s) d).
Proof.
  intros. unfold advance. rewrite move_one by done. rewrite skip_between by done. by rewrite <- (assoc_L (++)).
Qed.

(** ** Numbers *)

Lemma copy_number_between room a w c s pre d :
  Forall (λ b, number_char b = true) w → number_char c = false → (length w < room)%nat →
  copy_number room (between pre (a ++ w ++ c :: s) d) (zlen a) = Ok w.
Proof.
  revert room a. induction w as [|x w IH]; intros room a Hw Hc Hr; (destruct room as [|room]; [cbn in Hr; lia|]); cbn [copy_number app].
  all: assert (∀ y k, can_access (between pre (a ++ y :: k) d) (zlen a) = true) as Ha
    by (intros y k; unfold can_access; cbn; apply Z.ltb_lt; rewrite !zlen_app, zlen_cons; pose proof (zlen_nonneg k); lia).
  all: assert (∀ y k, byte_at (content (between pre (a ++ y :: k) d)) (offset (between pre (a ++ y :: k) d) + zlen a) = Ok y) as Hb
    by (intros y k; cbn; rewrite (assoc_L (++)); apply byte_at_app; by rewrite zlen_app).
  all: rewrite Ha, Hb; cbn [rbind].
  - by rewrite Hc.
  - apply Forall_cons in Hw as [-> Hw]. specialize (IH room (a ++ [x]) Hw Hc). rewrite <- (assoc_L (++)) in IH. cbn [app] in IH.
    rewrite zlen_app in IH. change (zlen [x]) with 1 in IH. rewrite IH by (cbn in Hr; lia). done.
Qed.

Lemma digit_number_char b : CJsonNum.is_digit b = true → number_char b = true.
Proof. unfold number_char. by intros ->. Qed.
Lemma print_int_chars z : Forall (λ b, number_char b = true) (print_int z).
Proof.
  assert (∀ n, 0 <= n → Forall (λ b, number_char b = true) (digits n)) as H.
  { intros n Hn. eapply Forall_impl; [by apply digits_ok|]. intros b. apply digit_number_char. }
  unfold print_int. destruct (Z.ltb_spec z 0); [constructor; [done|]|]; apply H; lia.
Qed.

(** The first character of an int decides how it is parsed. *)
Lemma print_int_head z : ∃ c ds, print_int z = c :: ds ∧ ((c =? 45) || ((48 <=? c) && (c <=? 57))) = true.
Proof.
  unfold print_int. destruct (Z.ltb_spec z 0); [by eexists _, _|]. pose proof (digits_nonempty z). pose proof (digits_ok z ltac:(lia)) as Hd.
  destruct (digits z) as [|c ds]; [done|]. exists c, ds. split; [done|]. apply Forall_cons in Hd as [Hd _]. unfold CJsonNum.is_digit in Hd.
  rewrite Hd. by rewrite orb_true_r.
Qed.

Lemma tp_number_between pre z c s d : is_int z → number_char c = false →
  tp_number (between pre (print_int z ++ c :: s) d) = Ok (Some (number (int_to_double z)), between (pre ++ print_int z) (c :: s) d).
Proof.
  intros Hz Hc. unfold tp_number. pose proof (print_int_length z Hz) as Hl.
  pose proof (copy_number_between 63 [] (print_int z) c s pre d (print_int_chars z) Hc) as E. cbn [app] in E.
  change (zlen []) with 0 in E. rewrite E by (unfold zlen in Hl; lia). cbn [rbind].
  pose proof (strtod_print_int z [] Hz I) as Es. rewrite (right_id_L [] (++)) in Es. rewrite Es.
  destruct (print_int_head z) as (x & ds & Ez & _). assert ((zlen (print_int z) =? 0) = false) as ->.
  { apply Z.eqb_neq. rewrite Ez, zlen_cons. pose proof (zlen_nonneg ds). lia. }
  by rewrite move_between.
Qed.

(** ** Strings *)

Lemma short_escape_char c e : short_escape c = Some e → escape_char e = Some c ∧ e ≠ 117.
Proof.
  unfold short_escape. intros H.
  repeat (match type of H with context [?x =? ?y] => destruct (Z.eqb_spec x y) as [->|]; [by injection H as <-|] end). done.
Qed.
Lemma hex_digit_char v : 0 <= v < 16 → hex_digit (hex_char v) = Some v.
Proof.
  intros H. assert (Forall (λ v, hex_digit (hex_char v) = Some v) (seqZ 0 16)) as HF by (repeat (constructor; [done|]); constructor).
  rewrite Forall_forall in HF. apply HF. apply elem_of_seqZ. lia.
Qed.
Lemma hex_char_plain v : 0 <= v < 16 → hex_char v ≠ 34 ∧ hex_char v ≠ 92.
Proof. intros. unfold hex_char. destruct (Z.ltb_spec v 10); lia. Qed.

(** The three forms of a character in a text. *)
Inductive escaped (c : Z) : list Z → Prop :=
| escaped_plain : c ≠ 34 → c ≠ 92 → escaped c [c]
| escaped_short e : short_escape c = Some e → escaped c [92; e]
| escaped_code : c < 32 → escaped c (92 :: unicode_escape c).
Lemma escape_escaped c : 0 < c < 256 → escaped c (escape c).
Proof.
  intros Hc. unfold escape. destruct ((31 <? c) && negb (c =? 34) && negb (c =? 92)) eqn:E.
  - rewrite !andb_true_iff, !negb_true_iff, !Z.eqb_neq in E. destruct E as [[_ ?] ?]. by apply escaped_plain.
  - destruct (short_escape c) eqn:Es; [by apply escaped_short|]. apply escaped_code. destruct (decide (c < 32)); [done|].
    rewrite (proj2 (Z.ltb_lt 31 c)) in E by lia. unfold short_escape in Es. destruct (c =? 34); [done|]. destruct (c =? 92); done.
Qed.

Lemma scan_plain fuel b p c s k e : content b = p ++ c :: s → blen b = zlen (content b) → c ≠ 34 → c ≠ 92 → e = zlen p →
  scan_string (S fuel) b e k = scan_string fuel b (e + 1) k.
Proof.
  intros Hb Hl H1 H2 ->. cbn [scan_string]. rewrite Hl, Hb. rewrite (proj2 (Z.ltb_lt _ _)).
  2: { rewrite zlen_app, zlen_cons. pose proof (zlen_nonneg s). lia. }
  rewrite byte_at_app by done. cbn [rbind]. rewrite (proj2 (Z.eqb_neq c 34)), (proj2 (Z.eqb_neq c 92)) by done. done.
Qed.
Lemma scan_back fuel b p c s k e : content b = p ++ 92 :: c :: s → blen b = zlen (content b) → e = zlen p →
  scan_string (S fuel) b e k = scan_string fuel b (e + 2) (k + 1).
Proof.
  intros Hb Hl ->. cbn [scan_string]. rewrite Hl, Hb. pose proof (zlen_nonneg s). rewrite (proj2 (Z.ltb_lt _ _)).
  2: { rewrite zlen_app, !zlen_cons. lia. }
  rewrite byte_at_app by done. cbn [rbind]. rewrite (proj2 (Z.leb_gt _ _)); [done|]. rewrite zlen_app, !zlen_cons. lia.
Qed.

(** The search ends at the quote behind the text. *)
Lemma scan_escapes s : ∀ fuel b p post k, is_text s → content b = p ++ concat (map escape s) ++ 34 :: post → blen b = zlen (content b) →
  zlen (concat (map escape s)) < Z.of_nat fuel →
  ∃ n, 0 <= n <= foldr (λ c k, escape_extra c + k) 0 s ∧
    scan_string fuel b (zlen p) k = Ok (Some (zlen p + zlen (concat (map escape s)), k + n)).
Proof.
  induction s as [|c s IH]; intros fuel b p post k Hs Hb Hl Hf; cbn [map concat foldr] in *.
  - exists 0. split; [lia|]. destruct fuel as [|fuel]; [done|]. cbn [scan_string app] in *. rewrite Hl, Hb.
    rewrite (proj2 (Z.ltb_lt _ _)) by (rewrite zlen_app, zlen_cons; pose proof (zlen_nonneg post); lia). rewrite byte_at_app by done.
    cbn [rbind]. rewrite Z.eqb_refl, zlen_nil. do 3 f_equal; lia.
  - apply Forall_cons in Hs as [Hc Hs]. rewrite zlen_app in *. pose proof (escape_length c) as He.
    pose proof (zlen_nonneg (concat (map escape s))). rewrite <- (assoc_L (++)) in Hb.
    assert (∀ fuel' k', zlen (concat (map escape s)) < Z.of_nat fuel' → ∃ n, 0 <= n <= foldr (λ c k, escape_extra c + k) 0 s ∧
      scan_string fuel' b (zlen (p ++ escape c)) k' = Ok (Some (zlen (p ++ escape c) + zlen (concat (map escape s)), k' + n))) as IH'.
    { intros fuel' k' Hf'. eapply IH; [done| |done|done]. by rewrite Hb, <- (assoc_L (++)). }
    rewrite zlen_app in IH'. pose proof (escape_escaped c Hc) as E.
    pose proof (hex_char_plain (c / 16) ltac:(Z.div_mod_to_equations; lia)) as [Q1 Q2].
    pose proof (hex_char_plain (c mod 16) ltac:(Z.div_mod_to_equations; lia)) as [Q3 Q4].
    revert E He IH' Hb Hf. generalize (escape c). clear IH Hc. intros x E He IH' Hb Hf.
    destruct E as [H1 H2|e _|H1]; unfold unicode_escape in *; rewrite !zlen_cons, zlen_nil in *; cbn [app] in *.
    + destruct fuel as [|fuel]; [lia|]. destruct (IH' fuel k) as (n & Hn & En); [lia|]. exists n. split; [lia|].
      erewrite scan_plain by done. replace (zlen p + 1) with (zlen p + (1 + 0)) by lia. rewrite En. do 3 f_equal; rewrite ?(zlen_nil (A:=Z)); lia.
    + destruct fuel as [|fuel]; [lia|]. destruct (IH' fuel (k + 1)) as (n & Hn & En); [lia|]. exists (1 + n). split; [lia|].
      erewrite scan_back by done. replace (zlen p + 2) with (zlen p + (1 + (1 + 0))) by lia. rewrite En. do 3 f_equal; rewrite ?(zlen_nil (A:=Z)); lia.
    + do 5 (destruct fuel as [|fuel]; [lia|]).
      destruct (IH' fuel (k + 1)) as (n & Hn & En); [lia|]. exists (1 + n). split; [lia|].
      erewrite scan_back by done.
      erewrite (scan_plain _ b (p ++ [92; 117])); [|rewrite <- (assoc_L (++)); exact Hb|done|done|done|by rewrite zlen_app].
      erewrite (scan_plain _ b (p ++ [92; 117; 48])); [|rewrite <- (assoc_L (++)); exact Hb|done|done|done|rewrite zlen_app, !zlen_cons, zlen_nil; lia].
      erewrite (scan_plain _ b (p ++ [92; 117; 48; 48]));
        [|rewrite <- (assoc_L (++)); exact Hb|done|done|done|rewrite zlen_app, !zlen_cons, zlen_nil; lia].
      erewrite (scan_plain _ b (p ++ [92; 117; 48; 48; hex_char (c / 16)]));
        [|rewrite <- (assoc_L (++)); exact Hb|done|done|done|rewrite zlen_app, !zlen_cons, zlen_nil; lia].
      match type of En with scan_string _ _ ?e _ = _ => replace (zlen p + 2 + 1 + 1 + 1 + 1) with e by lia end. rewrite En. do 3 f_equal; rewrite ?(zlen_nil (A:=Z)); lia.
Qed.

Lemma byte_at_skip (a b c : list Z) i j : i = zlen a + j → 0 <= j → byte_at (a ++ b ++ c) i = byte_at (b ++ c) j.
Proof.
  intros -> Hj. pose proof (zlen_nonneg a). unfold byte_at. rewrite (proj2 (Z.ltb_ge _ 0)), (proj2 (Z.ltb_ge _ 0)) by lia.
  rewrite lookup_app_r by (unfold zlen; lia). unfold zlen. by replace (Z.to_nat (Z.of_nat (length a) + j) - length a)%nat with (Z.to_nat j) by lia.
Qed.

Lemma hex_step k h l pos c v : byte_at l pos = Ok c → hex_digit c = Some v →
  hex_loop (S k) h l pos = hex_loop k (match k with O => h + v | _ => Z.shiftl (h + v) 4 end) l (pos + 1).
Proof. intros H1 H2. cbn [hex_loop]. rewrite H1. cbn [rbind]. by rewrite H2. Qed.
Lemma hex_code (l a post : list Z) c : 0 <= c < 256 → l = a ++ unicode_escape c ++ post → parse_hex4 l (zlen a + 1) = Ok c.
Proof.
  intros Hc ->. unfold parse_hex4.
  erewrite (hex_step 3); [|rewrite (byte_at_skip a (unicode_escape c) post _ 1) by lia; reflexivity|done].
  erewrite (hex_step 2); [|rewrite (byte_at_skip a (unicode_escape c) post _ 2) by lia; reflexivity|done].
  erewrite (hex_step 1); [|rewrite (byte_at_skip a (unicode_escape c) post _ 3) by lia; reflexivity|apply hex_digit_char; Z.div_mod_to_equations; lia].
  erewrite (hex_step 0); [|rewrite (byte_at_skip a (unicode_escape c) post _ 4) by lia; reflexivity|apply hex_digit_char; Z.div_mod_to_equations; lia].
  cbn [hex_loop]. f_equal. change (Z.shiftl (Z.shiftl (0 + (48 - 48)) 4 + (48 - 48)) 4) with 0. rewrite Z.shiftl_mul_pow2 by lia. change (2 ^ 4) with 16. Z.div_mod_to_equations. lia.
Qed.

Lemma utf16_control l a post c e : 0 < c < 32 → l = a ++ 92 :: unicode_escape c ++ post → zlen a + 6 <= e →
  utf16_literal_to_utf8 l (zlen a) e = Ok (6, [c]).
Proof.
  intros Hc -> He. unfold utf16_literal_to_utf8. rewrite (proj2 (Z.ltb_ge _ _)) by lia.
  replace (zlen a + 2) with (zlen (a ++ [92]) + 1) by (rewrite zlen_app; change (zlen [92]) with 1; lia).
  rewrite (hex_code _ (a ++ [92]) post c) by (lia || by rewrite <- (assoc_L (++))). cbn [rbind].
  rewrite (proj2 (Z.leb_gt 0xDC00 c)), (proj2 (Z.leb_gt 0xD800 c)) by lia. cbn [andb]. unfold utf8_encode.
  rewrite (proj2 (Z.ltb_lt c 0x80)) by lia. change 0x7F with (Z.ones 7). rewrite Z.land_ones, Z.mod_small by lia. done.
Qed.

(** What is decoded is the text; it needs a byte for each character and the end mark. *)
Lemma decode_escapes s : ∀ fuel l p post size out, is_text s → l = p ++ concat (map escape s) ++ 34 :: post →
  zlen out + zlen s + 1 <= size → zlen (concat (map escape s)) < Z.of_nat fuel →
  decode_string fuel l (zlen p) (zlen p + zlen (concat (map escape s))) size out
  = Ok (Some (out ++ s ++ [0]), zlen p + zlen (concat (map escape s))).
Proof.
  assert (∀ (size : Z) (out d : list Z), zlen out + zlen d <= size → emit size out d = Ok (out ++ d)) as Hem.
  { intros size out d Hd. unfold emit. by rewrite (proj2 (Z.leb_le _ _)). }
  induction s as [|c s IH]; intros fuel l p post size out Hs Hl Hsz Hf; cbn [map concat] in *;
    (destruct fuel as [|fuel]; [match type of Hf with zlen ?z < _ => pose proof (zlen_nonneg z); lia end|]); cbn [decode_string].
  { rewrite zlen_nil in *. rewrite Z.add_0_r, Z.ltb_irrefl, Hem by (change (zlen [0]) with 1; lia). cbn [rbind]. by rewrite (left_id_L [] (++)). }
  apply Forall_cons in Hs as [Hc Hs]. rewrite <- (assoc_L (++)) in Hl. rewrite zlen_app in *.
  rewrite zlen_cons in Hsz. pose proof (zlen_nonneg (concat (map escape s))) as Hn. pose proof (zlen_nonneg s) as Hn2.
  assert (∀ fuel', zlen (concat (map escape s)) < Z.of_nat fuel' →
    decode_string fuel' l (zlen p + zlen (escape c)) (zlen p + (zlen (escape c) + zlen (concat (map escape s)))) size (out ++ [c])
    = Ok (Some (out ++ (c :: s) ++ [0]), zlen p + (zlen (escape c) + zlen (concat (map escape s))))) as IH'.
  { intros fuel' Hf'. specialize (IH fuel' l (p ++ escape c) post size (out ++ [c]) Hs). rewrite !zlen_app in IH. change (zlen [c]) with 1 in IH.
    rewrite <- !(assoc_L (++)), <- !(assoc_L Z.add) in IH. apply IH; [done|lia|done]. }
  pose proof (escape_escaped c Hc) as E. revert E IH' Hl Hf. generalize (escape c). clear IH. intros x E IH' Hl Hf.
  destruct E as [H1 H2|e He|H1]; cbn [app] in Hl.
  - change (zlen [c]) with 1 in *. rewrite (proj2 (Z.ltb_lt _ _)) by lia. rewrite Hl, byte_at_app by done. cbn [rbind].
    rewrite (proj2 (Z.eqb_neq c 92)) by done. cbn [negb]. rewrite Hem by (change (zlen [c]) with 1; lia). cbn [rbind]. rewrite <- Hl.
    apply IH'. lia.
  - change (zlen [92; e]) with 2 in *. rewrite (proj2 (Z.ltb_lt _ _)) by lia. apply short_escape_char in He as [He H1].
    assert (byte_at l (zlen p + 1) = Ok e) as Hb by (rewrite Hl; by apply (byte_at_skip p [92; e] _ _ 1)).
    rewrite Hl, byte_at_app by done. cbn [rbind]. rewrite Z.eqb_refl. cbn [negb]. rewrite (proj2 (Z.ltb_ge _ 1)), <- Hl, Hb by lia. cbn [rbind].
    rewrite (proj2 (Z.eqb_neq e 117)), He by done. rewrite Hem by (change (zlen [c]) with 1; lia). cbn [rbind]. apply IH'. lia.
  - assert (zlen (92 :: unicode_escape c) = 6) as H6 by done. rewrite H6 in *. rewrite (proj2 (Z.ltb_lt _ _)) by lia.
    assert (byte_at l (zlen p + 1) = Ok 117) as Hb by (rewrite Hl; by apply (byte_at_skip p (92 :: unicode_escape c) _ _ 1)).
    rewrite Hl, byte_at_app by done. cbn [rbind]. rewrite Z.eqb_refl. cbn [negb]. rewrite (proj2 (Z.ltb_ge _ 1)), <- Hl, Hb by lia. cbn [rbind].
    rewrite Z.eqb_refl, (utf16_control l p (concat (map escape s) ++ 34 :: post) c) by (lia || done). cbn [rbind fst snd].
    change (6 =? 0) with false. cbv iota. rewrite Hem by (change (zlen [c]) with 1; lia). cbn [rbind]. apply IH'. lia.
Qed.

Lemma string_text_length s : zlen (string_text (Some s)) = zlen s + foldr (λ c k, escape_extra c + k) 0 s + 2.
Proof.
  change (string_text (Some s)) with ([34] ++ concat (map escape s) ++ [34]). rewrite !zlen_app, escapes_length. change (zlen [34]) with 1. lia.
Qed.

Lemma tp_string_between pre s post d : is_text s →
  tp_string (between pre (string_text (Some s) ++ post) d) = Ok (Some s, between (pre ++ string_text (Some s)) post d).
Proof.
  intros Hs. set (x := concat (map escape s)). assert (string_text (Some s) ++ post = 34 :: x ++ 34 :: post) as E.
  { change (string_text (Some s)) with ([34] ++ x ++ [34]). by rewrite <- !(assoc_L (++)). }
  unfold tp_string. rewrite E, here_between. cbn [rbind]. rewrite Z.eqb_refl. cbn [negb]. cbn [offset blen content between].
  pose proof (escapes_length s) as Hx. fold x in Hx. pose proof (extras_nonneg s) as Hex. pose proof (zlen_nonneg s). pose proof (zlen_nonneg post).
  pose proof (zlen_nonneg pre). set (l := pre ++ 34 :: x ++ 34 :: post).
  assert (zlen l = zlen pre + (1 + (zlen x + (1 + zlen post)))) as Hll by (unfold l; by rewrite zlen_app, zlen_cons, zlen_app, zlen_cons).
  destruct (scan_escapes s (S (Z.to_nat (zlen l - zlen pre))) (between pre (34 :: x ++ 34 :: post) d) (pre ++ [34]) post 0 Hs) as (n & Hn & En).
  { cbn. by rewrite <- (assoc_L (++)). }
  { done. }
  { fold x. lia. }
  fold x in En. rewrite zlen_app in En. change (zlen [34]) with 1 in En. rewrite En. cbn [rbind].
  pose proof (decode_escapes s (S (Z.to_nat (zlen pre + 1 + zlen x - (zlen pre + 1)))) l (pre ++ [34]) post
    (zlen pre + 1 + zlen x - zlen pre - (0 + n) + 1) []) as D. fold x in D. rewrite zlen_app in D. change (zlen [34]) with 1 in D.
  rewrite D; [|done|unfold l; by rewrite <- (assoc_L (++))|rewrite zlen_nil; lia|lia]. cbn [rbind app].
  rewrite until_end_app by (intros Hz; unfold is_text in Hs; rewrite Forall_forall in Hs; apply Hs in Hz; lia).
  do 2 f_equal. rewrite <- E. apply move_between. rewrite string_text_length. lia.
Qed.

(** ** Values *)

Lemma json_head fmt depth j : ∃ c r, json_text fmt depth j = c :: r ∧ 32 < c ∧ c ≠ 93.
Proof.
  destruct j as [| | |z|s|l|l]; cbn [json_text].
  - by exists 110, (lit "ull").
  - by exists 102, (lit "alse").
  - by exists 116, (lit "rue").
  - destruct (print_int_head z) as (c & r & -> & H). exists c, r. split; [done|]. rewrite orb_true_iff, andb_true_iff, Z.eqb_eq, !Z.leb_le in H. lia.
  - eexists _, _; split; [reflexivity|split; lia].
  - eexists _, _; split; [reflexivity|split; lia].
  - destruct fmt; (eexists _, _; split; [reflexivity|split; lia]).
Qed.
Lemma indent_space fmt n : is_space (indent_text fmt n).
Proof. destruct fmt; [|constructor]. apply Forall_replicate. lia. Qed.

Definition parses (fmt : bool) (j : json) : Prop :=
  ∀ fuel depth pre c post d, number_char c = false → d + height j <= CJSON_NESTING_LIMIT →
    3 * zlen (json_text fmt depth j) <= Z.of_nat fuel →
    tp_value fuel (between pre (json_text fmt depth j ++ c :: post) d)
    = Ok (Some (to_tree j), between (pre ++ json_text fmt depth j) (c :: post) d).

Lemma tp_close_between ty ks pre c s d : tp_close ty ks (between pre (c :: s) d) = Ok (Some (simple ty ks), between (pre ++ [c]) s (d - 1)).
Proof. unfold tp_close. rewrite depth_between, move_one by done. done. Qed.

(** Behind a value comes a character that is not white space. *)
Lemma skip_none pre c s d : 32 < c → buffer_skip_whitespace (between pre (c :: s) d) = Ok (between pre (c :: s) d).
Proof. intros. rewrite <- (right_id_L [] (++) pre) at 2. apply (skip_between pre []); [constructor|done]. Qed.

Lemma max_height {A} (f : A → Z) l x : x ∈ l → f x <= foldr (λ x h, Z.max (f x) h) 0 l.
Proof. induction 1; cbn [foldr]; lia. Qed.

Lemma elements_between fmt depth l : Forall (parses fmt) l → ∀ fuel acc pre x ws c post d, l ≠ [] → is_space ws →
  Forall (λ j, d + height j <= CJSON_NESTING_LIMIT) l → 3 * zlen (arr_text fmt (json_text fmt depth) l) <= Z.of_nat fuel →
  tp_elements fuel acc (between pre (x :: ws ++ arr_text fmt (json_text fmt depth) l ++ c :: post) d)
  = Ok (Some (simple cJSON_Array (acc ++ map to_tree l)), between (pre ++ x :: ws ++ arr_text fmt (json_text fmt depth) l) (c :: post) (d - 1)).
Proof.
  induction 1 as [|j l Hj _ IH]; [done|]. intros fuel acc pre x ws c post d _ Hws Hd Hf. apply Forall_cons in Hd as [Hd Hdl].
  cbn [arr_text List.map] in *. set (t := json_text fmt depth j) in *. set (sep := if is_nil l then [] else comma_text fmt) in *.
  destruct (json_head fmt depth j) as (c1 & r & Et & Hc1 & _). fold t in Et. rewrite !zlen_app in Hf.
  assert (1 <= zlen t) by (rewrite Et, zlen_cons; pose proof (zlen_nonneg r); lia). pose proof (zlen_nonneg sep).
  assert (1 <= zlen (arr_text fmt (json_text fmt depth) l)) as Hl1.
  { destruct l as [|j2 l]; cbn [arr_text]; [done|]. destruct (json_head fmt depth j2) as (c2 & r2 & -> & _). rewrite !zlen_app, zlen_cons.
    pose proof (zlen_nonneg r2). pose proof (zlen_nonneg (arr_text fmt (json_text fmt depth) l)).
    pose proof (zlen_nonneg (if is_nil l then [] else comma_text fmt)). lia. }
  destruct fuel as [|fuel]; [lia|]. pose proof (Hj fuel depth) as Hj'. fold t in Hj'. cbn [tp_elements]. rewrite <- !(assoc_L (++)).
  rewrite Et at 1. cbn [app]. rewrite advance_between by done. cbn [rbind].
  change (c1 :: r ++ sep ++ arr_text fmt (json_text fmt depth) l ++ c :: post) with
    ((c1 :: r) ++ sep ++ arr_text fmt (json_text fmt depth) l ++ c :: post). rewrite <- Et.
  destruct l as [|j2 l].
  - cbn [arr_text is_nil app] in *. unfold sep in *. cbn [is_nil app] in *. rewrite (Hj' _ 93) by (done || lia). cbn [rbind].
    rewrite skip_none by lia. cbn [rbind]. rewrite !sees_between. cbn [rbind]. change (93 =? 44) with false. change (93 =? 93) with true. cbn [negb].
    cbv iota. rewrite tp_close_between, <- !(assoc_L (++)). done.
  - assert (∃ ws2, sep = 44 :: ws2 ∧ is_space ws2) as (ws2 & Es & Hws2).
    { unfold sep, comma_text. cbn [is_nil]. destruct fmt; [exists [32]|exists []]; (split; [done|]); repeat constructor; lia. }
    rewrite Es in *. cbn [app] in *. rewrite (Hj' _ 44) by (done || lia). cbn [rbind].
    rewrite skip_none by lia. cbn [rbind]. rewrite sees_between. cbn [rbind]. change (44 =? 44) with true. cbv iota.
    rewrite IH by (done || lia). rewrite <- !(assoc_L (++)). done.
Qed.

Lemma string_text_head s : ∃ r, string_text s = 34 :: r.
Proof. by eexists. Qed.
Lemma colon_space fmt : ∃ ws, colon_text fmt = 58 :: ws ∧ is_space ws.
Proof. destruct fmt; [exists [9]|exists []]; (split; [done|]); repeat constructor; lia. Qed.

(** The end of an object, or the next member, behind a value. *)
Lemma obj_text_length fmt depth text l : 1 <= zlen (obj_text fmt depth text l).
Proof.
  destruct l as [|[k j] l]; cbn [obj_text fst snd].
  - rewrite zlen_app. change (zlen [125]) with 1. pose proof (zlen_nonneg (indent_text fmt (depth - 1))). lia.
  - destruct (string_text_head (Some k)) as (r & ->). rewrite !zlen_app, zlen_cons.
    repeat match goal with |- context [zlen ?l] => lazymatch goal with H : 0 <= zlen l |- _ => fail | _ => pose proof (zlen_nonneg l) end end. lia.
Qed.

Lemma member_between fmt depth k j : parses fmt j → ∀ fuel acc pre x ws c s d, is_text k → is_space ws →
  number_char c = false → d + height j <= CJSON_NESTING_LIMIT → 3 * zlen (json_text fmt depth j) <= Z.of_nat fuel →
  tp_members (S fuel) acc (between pre (x :: ws ++ string_text (Some k) ++ colon_text fmt ++ json_text fmt depth j ++ c :: s) d)
  = (b <-? buffer_skip_whitespace (between (pre ++ x :: ws ++ string_text (Some k) ++ colon_text fmt ++ json_text fmt depth j) (c :: s) d);;
     more <-? sees b 44;;
     if more then tp_members fuel (acc ++ [member to_tree (k, j)]) b
     else e <-? sees b 125;; if negb e then Ok (None, b) else tp_close cJSON_Object (acc ++ [member to_tree (k, j)]) b).
Proof.
  intros Hj fuel acc pre x ws c s d Hk Hws Hc Hd Hf. cbn [tp_members]. destruct (string_text_head (Some k)) as (r & Es).
  destruct (colon_space fmt) as (ws2 & Ec & Hws2). destruct (json_head fmt depth j) as (c1 & r1 & Ej & Hc1 & _).
  rewrite Es at 1. cbn [app]. rewrite advance_between by (done || lia). cbn [rbind]. rewrite app_comm_cons, <- Es.
  rewrite tp_string_between by done. cbn [rbind]. rewrite Ec at 1. cbn [app]. rewrite skip_none by lia. cbn [rbind].
  rewrite sees_between. cbn [rbind]. change (58 =? 58) with true. cbn [negb]. rewrite Ej at 1. cbn [app].
  rewrite advance_between by done. cbn [rbind]. rewrite app_comm_cons, <- Ej, Hj by done. cbn [rbind]. rewrite Ec.
  by rewrite <- !(assoc_L (++)).
Qed.

(** The members without the indentation of the first. *)
Definition obj_body (fmt : bool) (depth : Z) (text : json → list Z) (l : list (list Z * json)) : list Z :=
  match l with
  | [] => [125]
  | kv :: l => string_text (Some kv.1) ++ colon_text fmt ++ text kv.2 ++ line_text fmt (is_nil l) ++ obj_text fmt depth text l
  end.
Lemma obj_text_body fmt depth text l : l ≠ [] → obj_text fmt depth text l = indent_text fmt depth ++ obj_body fmt depth text l.
Proof. by destruct l. Qed.

Lemma members_between fmt depth l : Forall (λ kv, parses fmt kv.2) l → ∀ fuel acc pre x ws c post d, l ≠ [] → is_space ws →
  Forall (λ kv, is_text kv.1 ∧ d + height kv.2 <= CJSON_NESTING_LIMIT) l →
  3 * zlen (obj_body fmt depth (json_text fmt depth) l) <= Z.of_nat fuel →
  tp_members fuel acc (between pre (x :: ws ++ obj_body fmt depth (json_text fmt depth) l ++ c :: post) d)
  = Ok (Some (simple cJSON_Object (acc ++ map (member to_tree) l)),
        between (pre ++ x :: ws ++ obj_body fmt depth (json_text fmt depth) l) (c :: post) (d - 1)).
Proof.
  induction 1 as [|[k j] l Hj _ IH]; [done|]. intros fuel acc pre x ws c post d _ Hws Hd Hf. apply Forall_cons in Hd as [[Hk Hd] Hdl].
  cbn [obj_body fst snd] in *. set (t := json_text fmt depth j) in *. pose proof (obj_text_length fmt depth (json_text fmt depth) l) as Hl1.
  set (tail := obj_text fmt depth (json_text fmt depth) l) in *. destruct (string_text_head (Some k)) as (r & Es).
  rewrite !zlen_app in Hf. rewrite Es, zlen_cons in Hf. pose proof (zlen_nonneg r). pose proof (zlen_nonneg t).
  pose proof (zlen_nonneg (colon_text fmt)). pose proof (zlen_nonneg (line_text fmt (is_nil l))).
  destruct fuel as [|fuel]; [lia|]. pose proof (member_between fmt depth k j Hj fuel acc pre x ws) as M. fold t in M.
  rewrite <- !(assoc_L (++)) in *.
  destruct (is_nil l) eqn:En; cbn [line_text].
  - destruct l; [|done]. unfold tail in *. clear tail IH. cbn [obj_text]. set (u := (if fmt then [10] else []) ++ indent_text fmt (depth - 1)).
    assert (is_space u) as Hu by (apply Forall_app; split; [destruct fmt; repeat constructor; lia|apply indent_space]).
    assert (line_text fmt true ++ (indent_text fmt (depth - 1) ++ [125]) ++ c :: post = u ++ 125 :: c :: post) as E
      by (unfold u; cbn [line_text app]; by rewrite <- !(assoc_L (++))).
    assert (∃ c0 s0, u ++ 125 :: c :: post = c0 :: s0 ∧ number_char c0 = false) as (c0 & s0 & E0 & Hc0).
    { destruct u as [|c0 u']; [by eexists _, _|]. eexists _, _. split; [reflexivity|]. apply Forall_cons in Hu as [Hu _].
      unfold number_char, CJsonNum.is_digit. repeat (rewrite (proj2 (Z.eqb_neq c0 _)) by lia). rewrite (proj2 (Z.leb_gt 48 c0)) by lia. done. }
    rewrite E, E0, M by (done || lia). rewrite <- E0, skip_between by (done || lia). cbn [rbind]. rewrite !sees_between. cbn [rbind].
    change (125 =? 44) with false. change (125 =? 125) with true. cbv iota. cbn [negb]. rewrite tp_close_between.
    unfold u. cbn [line_text]. rewrite <- !(assoc_L (++)). cbn [app]. rewrite <- !(assoc_L (++)). done.
  - assert (∃ ws2, line_text fmt false = 44 :: ws2 ∧ is_space ws2) as (ws2 & El & Hws2).
    { destruct fmt; [exists [10]|exists []]; (split; [done|]); repeat constructor; lia. }
    rewrite El. cbn [app]. rewrite M by (done || lia). rewrite skip_none by lia. cbn [rbind]. rewrite sees_between. cbn [rbind].
    change (44 =? 44) with true. cbv iota. assert (l ≠ []) as Hne by (by intros ->). unfold tail in *.
    rewrite obj_text_body in * by done. rewrite zlen_app in *. pose proof (zlen_nonneg (indent_text fmt depth)).
    rewrite <- !(assoc_L (++)), (assoc_L (++) ws2), IH; [|done|apply Forall_app; split; [done|apply indent_space]|done|lia].
    rewrite <- !(assoc_L (++)). cbn [app]. rewrite <- !(assoc_L (++)). done.
Qed.

Lemma advance_one pre x c s d : 32 < c → advance (between pre (x :: c :: s) d) = Ok (between (pre ++ [x]) (c :: s) d).
Proof. intros. by apply (advance_between pre x []); [constructor|]. Qed.

Lemma tp_array_between fmt depth l fuel pre c post d :
  Forall (parses fmt) l → d + height (JArr l) <= CJSON_NESTING_LIMIT →
  3 * zlen (arr_text fmt (json_text fmt depth) l) < Z.of_nat fuel →
  tp_array fuel (between pre ([91] ++ arr_text fmt (json_text fmt depth) l ++ c :: post) d)
  = Ok (Some (to_tree (JArr l)), between (pre ++ [91] ++ arr_text fmt (json_text fmt depth) l) (c :: post) d).
Proof.
  intros Hp Hd Hf. pose proof (zlen_nonneg (arr_text fmt (json_text fmt depth) l)). destruct fuel as [|fuel]; [lia|].
  cbn [height] in Hd. assert (∀ j, j ∈ l → d + 1 + height j <= CJSON_NESTING_LIMIT) as Hh by (intros j Hj; pose proof (max_height height l j Hj); lia).
  assert (0 <= foldr (λ j h, Z.max (height j) h) 0 l) by (clear; induction l; cbn [foldr]; lia).
  cbn [tp_array app]. cbn [CJson.depth between]. rewrite (proj2 (Z.leb_gt _ d)) by lia. rewrite depth_between, here_between. cbn [rbind].
  change (91 =? 91) with true. cbn [negb]. destruct l as [|j l].
  - cbn [arr_text app]. rewrite advance_one by lia. cbn [rbind]. rewrite sees_between. cbn [rbind].
    change (93 =? 93) with true. cbv iota. rewrite tp_close_between, <- (assoc_L (++)). replace (d + 1 - 1) with d by lia. done.
  - destruct (json_head fmt depth j) as (c1 & r & Ej & Hc1 & H93). pose proof (elements_between fmt depth (j :: l) Hp fuel [] pre 91 [] c post (d + 1)) as E.
    set (t := arr_text fmt (json_text fmt depth) (j :: l)) in *. assert (∃ r', t = c1 :: r') as (r' & Et).
    { unfold t. cbn [arr_text]. rewrite Ej. by eexists. }
    rewrite Et. cbn [app]. rewrite advance_one by lia. cbn [rbind]. rewrite sees_between. cbn [rbind].
    rewrite (proj2 (Z.eqb_neq c1 93)) by done. rewrite can_access_between. cbn [negb]. rewrite (back_between pre 91).
    2: { cbn. rewrite zlen_app. change (zlen [91]) with 1. lia. }
    cbn [app] in E. rewrite Et in E. cbn [app] in E. rewrite E; [by replace (d + 1 - 1) with d by lia|done|constructor| |].
    + apply Forall_forall. intros x Hx. by apply Hh.
    + rewrite <- Et. lia.
Qed.

Lemma tp_object_between fmt depth l fuel pre c post d :
  Forall (λ kv, parses fmt kv.2) l → Forall (λ kv, is_text kv.1) l → d + height (JObj l) <= CJSON_NESTING_LIMIT →
  3 * zlen (obj_text fmt depth (json_text fmt depth) l) < Z.of_nat fuel →
  tp_object fuel (between pre (open_text fmt ++ obj_text fmt depth (json_text fmt depth) l ++ c :: post) d)
  = Ok (Some (to_tree (JObj l)), between (pre ++ open_text fmt ++ obj_text fmt depth (json_text fmt depth) l) (c :: post) d).
Proof.
  intros Hp Hk Hd Hf. pose proof (obj_text_length fmt depth (json_text fmt depth) l). destruct fuel as [|fuel]; [lia|].
  cbn [height] in Hd. assert (∀ kv, kv ∈ l → d + 1 + height kv.2 <= CJSON_NESTING_LIMIT) as Hh
    by (intros kv Hj; pose proof (max_height (λ kv, height kv.2) l kv Hj) as Hm; cbv beta in Hm; lia).
  assert (0 <= foldr (λ kv h, Z.max (height kv.2) h) 0 l) by (clear; induction l; cbn [foldr]; lia).
  assert (∃ ws, open_text fmt = 123 :: ws ∧ is_space ws) as (ws & Eo & Hws).
  { destruct fmt; [exists [10]|exists []]; (split; [done|]); repeat constructor; lia. }
  rewrite Eo. cbn [tp_object app]. cbn [CJson.depth between]. rewrite (proj2 (Z.leb_gt _ d)) by lia. rewrite depth_between, sees_between. cbn [rbind].
  change (123 =? 123) with true. cbn [negb]. destruct l as [|kv l].
  - cbn [obj_text]. rewrite <- (assoc_L (++)), (assoc_L (++) ws). cbn [app].
    assert (is_space (ws ++ indent_text fmt (depth - 1))) as Hu by (apply Forall_app; split; [done|apply indent_space]).
    rewrite advance_between by done. cbn [rbind]. rewrite sees_between. cbn [rbind]. change (125 =? 125) with true. cbv iota.
    rewrite tp_close_between. replace (d + 1 - 1) with d by lia. rewrite <- !(assoc_L (++)). cbn [app]. by rewrite <- !(assoc_L (++)).
  - rewrite (obj_text_body _ _ _ (kv :: l)) in * by done. set (body := obj_body fmt depth (json_text fmt depth) (kv :: l)) in *.
    rewrite zlen_app in *. pose proof (zlen_nonneg (indent_text fmt depth)). set (ws2 := indent_text fmt depth) in *.
    assert (is_space (ws ++ ws2)) as Hu by (apply Forall_app; split; [done|apply indent_space]).
    destruct (string_text_head (Some kv.1)) as (r0 & Es). assert (∃ r, body = 34 :: r) as (r & Et).
    { unfold body. cbn [obj_body]. rewrite Es. by eexists. }
    assert (∃ q y, 123 :: ws ++ ws2 = q ++ [y]) as (q & y & Eq).
    { destruct (exists_last (l := 123 :: ws ++ ws2)) as (q & y & E); [done|]. by exists q, y. }
    pose proof (members_between fmt depth (kv :: l) Hp fuel [] (pre ++ q) y [] c post (d + 1)) as E. fold body in E. cbn [app] in E.
    rewrite <- (assoc_L (++)), (assoc_L (++) ws), Et. cbn [app]. rewrite advance_between by (done || lia).
    cbn [rbind]. rewrite sees_between. cbn [rbind]. change (34 =? 125) with false. cbv iota. rewrite can_access_between. cbn [negb].
    rewrite Eq, (assoc_L (++) pre), (back_between (pre ++ q) y).
    2: { cbn. rewrite !zlen_app. change (zlen [y]) with 1. lia. }
    rewrite <- Et, app_comm_cons, <- Et. rewrite E; [|done|constructor| |lia].
    + replace (d + 1 - 1) with d by lia. do 3 f_equal. rewrite (assoc_L (++) ws), app_comm_cons, Eq. by rewrite <- !(assoc_L (++)).
    + apply Forall_forall. intros x Hx. split; [|by apply Hh]. rewrite Forall_forall in Hk. by apply Hk.
Qed.

Lemma tp_value_string fuel pre s post d : is_text s →
  tp_value (S fuel) (between pre (string_text (Some s) ++ post) d)
  = Ok (Some (text_value s), between (pre ++ string_text (Some s)) post d).
Proof.
  intros Hs. pose proof (tp_string_between pre s post d Hs) as E. destruct (string_text_head (Some s)) as (r & Es). rewrite Es in *.
  cbn [app] in *. cbn [tp_value]. change (lit "null") with (110 :: lit "ull"). change (lit "false") with (102 :: lit "alse").
  change (lit "true") with (116 :: lit "rue"). rewrite !starts_other by done. rewrite can_access_between, here_between. cbn [negb rbind].
  change (34 =? 34) with true. cbv iota. by rewrite E.
Qed.
Lemma tp_value_number fuel pre c r post d : ((c =? 45) || ((48 <=? c) && (c <=? 57))) = true →
  tp_value (S fuel) (between pre ((c :: r) ++ post) d) = tp_number (between pre ((c :: r) ++ post) d).
Proof.
  intros Hc. cbn [app]. cbn [tp_value]. change (lit "null") with (110 :: lit "ull"). change (lit "false") with (102 :: lit "alse").
  change (lit "true") with (116 :: lit "rue"). rewrite orb_true_iff, andb_true_iff, Z.eqb_eq, !Z.leb_le in Hc.
  rewrite !starts_other by lia. rewrite can_access_between, here_between. cbn [negb rbind].
  rewrite (proj2 (Z.eqb_neq c 34)) by lia. assert (((c =? 45) || ((48 <=? c) && (c <=? 57))) = true) as ->; [|done].
  rewrite orb_true_iff, andb_true_iff, Z.eqb_eq, !Z.leb_le. lia.
Qed.
Lemma tp_value_nested fuel pre c r d : c = 91 ∨ c = 123 →
  tp_value (S fuel) (between pre (c :: r) d) = (if c =? 91 then tp_array else tp_object) fuel (between pre (c :: r) d).
Proof.
  intros Hc. cbn [tp_value]. change (lit "null") with (110 :: lit "ull"). change (lit "false") with (102 :: lit "alse").
  change (lit "true") with (116 :: lit "rue"). rewrite !starts_other by (destruct Hc; lia).
  rewrite can_access_between, here_between. by destruct Hc as [-> | ->].
Qed.

Lemma starts_word pre w post d v k : hd 0 w ≠ hd 0 v → w ≠ [] → v ≠ [] →
  can_read (between pre (w ++ post) d) k && starts (between pre (w ++ post) d) v = false.
Proof. destruct w, v; try done. intros. by apply starts_other. Qed.
Lemma tp_value_word fuel pre w t post d :
  (w, t) ∈ [(lit "null", simple cJSON_NULL []); (lit "false", simple cJSON_False []); (lit "true", value cJSON_True None 1 (S754_zero false) [])] →
  tp_value (S fuel) (between pre (w ++ post) d) = Ok (Some t, between (pre ++ w) post d).
Proof.
  intros Hw. cbn [tp_value]. pose proof (starts_between pre w post d) as Hs.
  rewrite !elem_of_cons, elem_of_nil in Hw. destruct Hw as [[= -> ->]|[[= -> ->]|[[= -> ->]|[]]]].
  - change (zlen (lit "null")) with 4 in Hs. rewrite Hs. by rewrite move_between.
  - change (zlen (lit "false")) with 5 in Hs. rewrite starts_word, Hs by done. by rewrite move_between.
  - change (zlen (lit "true")) with 4 in Hs. rewrite !starts_word, Hs by done. by rewrite move_between.
Qed.

(** The text of a value is parsed as that value, wherever it stands. *)
Lemma parse_json fmt j : json_ok j → parses fmt j.
Proof.
  assert (∀ j depth fuel, 3 * zlen (json_text fmt depth j) <= Z.of_nat fuel → ∃ f, fuel = S f) as Hfu.
  { intros j0 depth fuel H. destruct (json_head fmt depth j0) as (c & r & E & _). rewrite E, zlen_cons in H. pose proof (zlen_nonneg r).
    destruct fuel; [lia|eauto]. }
  induction j as [| | |z|s|l IH|l IH] using json_ind'; intros Hj fuel depth pre c post d Hc Hd Hf;
    destruct (Hfu _ _ _ Hf) as (f & ->); cbn [json_text json_ok tree_of] in *.
  - apply tp_value_word. set_solver.
  - apply tp_value_word. set_solver.
  - apply tp_value_word. set_solver.
  - pose proof (tp_number_between pre z c post d Hj Hc) as E. destruct (print_int_head z) as (x & r & Ez & Hx). rewrite Ez in *.
    by rewrite tp_value_number.
  - by apply tp_value_string.
  - rewrite all_of_Forall in Hj. rewrite <- (assoc_L (++)). cbn [app]. rewrite tp_value_nested by auto. change (91 =? 91) with true. cbv iota.
    rewrite zlen_app in Hf. change (zlen [91]) with 1 in Hf. apply (tp_array_between fmt (depth + 1) l f pre c post d); [|done|lia].
    rewrite Forall_forall in *. intros x Hx. apply IH; [done|]. by apply Hj.
  - rewrite all_of_Forall in Hj. rewrite <- (assoc_L (++)).
    assert (∃ ws, open_text fmt = 123 :: ws) as (ws & Eo) by (destruct fmt; by eexists).
    assert (tp_value (S f) (between pre (open_text fmt ++ obj_text fmt (depth + 1) (json_text fmt (depth + 1)) l ++ c :: post) d)
      = tp_object f (between pre (open_text fmt ++ obj_text fmt (depth + 1) (json_text fmt (depth + 1)) l ++ c :: post) d)) as ->.
    { rewrite Eo. cbn [app]. rewrite tp_value_nested by auto. done. }
    rewrite zlen_app, Eo, zlen_cons in Hf. pose proof (zlen_nonneg ws).
    apply (tp_object_between fmt (depth + 1) l f pre c post d); [| |done|lia]; rewrite Forall_forall in *; intros x Hx.
    + apply IH; [done|]. by apply Hj.
    + by apply Hj.
Qed.

(** *** Whole texts *)

Lemma skip_bom_none s c r : s = c :: r → c ≠ 0xEF → skip_utf8_bom (start s) = Some (start s).
Proof.
  intros -> Hc. unfold skip_utf8_bom. cbn [offset start]. rewrite Z.eqb_refl. cbn [negb].
  destruct (can_access _ _); [|done]. cbn [andb]. assert (starts (start (c :: r)) [239; 187; 191] = false) as ->; [|done].
  apply bool_decide_eq_false. intros H. apply (f_equal (hd 0)) in H. by apply Hc.
Qed.
Lemma json_ascii_head fmt depth j : ∃ c r, json_text fmt depth j = c :: r ∧ 32 < c < 128.
Proof.
  destruct j as [| | |z|s|l|l]; cbn [json_text].
  - by exists 110, (lit "ull").
  - by exists 102, (lit "alse").
  - by exists 116, (lit "rue").
  - destruct (print_int_head z) as (c & r & -> & H). exists c, r. split; [done|]. rewrite orb_true_iff, andb_true_iff, Z.eqb_eq, !Z.leb_le in H. lia.
  - eexists _, _; split; [reflexivity|lia].
  - eexists _, _; split; [reflexivity|lia].
  - destruct fmt; (eexists _, _; split; [reflexivity|lia]).
Qed.

Lemma document_json fmt j require : json_ok j → height j <= CJSON_NESTING_LIMIT →
  tp_document (json_text fmt 0 j) require = Ok (Some (to_tree j), zlen (json_text fmt 0 j)).
Proof.
  intros Hj Hh. unfold tp_document. destruct (json_ascii_head fmt 0 j) as (c & r & E & Hc). set (s := json_text fmt 0 j) in *.
  rewrite (skip_bom_none s c r E) by lia. assert (start s = between [] (s ++ [0]) 0) as ->.
  { unfold start, between. cbn. by rewrite zlen_app. }
  assert (buffer_skip_whitespace (between [] (s ++ [0]) 0) = Ok (between [] (s ++ [0]) 0)) as ->.
  { rewrite E. cbn [app]. apply skip_none. lia. }
  pose proof (parse_json fmt j Hj (parse_fuel (zlen s + 1)) 0 [] 0 [] 0) as P. fold s in P. cbn [rbind]. rewrite P; [|done|lia|].
  2: { unfold parse_fuel. pose proof (zlen_nonneg s). lia. }
  cbn [rbind app]. destruct require; [|done]. unfold buffer_skip_whitespace. rewrite can_access_between. cbn [negb].
  assert (skip_loop (S (Z.to_nat (blen (between s [0] 0) - offset (between s [0] 0)))) (between s [0] 0) = Ok (between (s ++ [0]) [] 0)) as ->.
  { assert (blen (between s [0] 0) - offset (between s [0] 0) = 1) as -> by (cbn; rewrite zlen_app; change (zlen [0]) with 1; lia).
    change (Z.to_nat 1) with 1%nat. cbn [skip_loop]. rewrite can_access_between, here_between. cbn [rbind]. change (0 <=? 32) with true. cbv iota.
    rewrite move_one by done. unfold can_access. cbn. rewrite (right_id_L [] (++)), Z.add_0_r, Z.ltb_irrefl. done. }
  cbn [rbind]. cbn [offset blen between]. rewrite (right_id_L [] (++)), Z.eqb_refl, (back_between s 0).
  2: { rewrite zlen_app. change (zlen [0]) with 1. lia. }
  cbn [rbind]. cbn [offset blen between]. rewrite (proj2 (Z.leb_gt _ _)).
  2: { rewrite zlen_app. change (zlen [0]) with 1. lia. }
  rewrite here_between. done.
Qed.
