(* ===== verification/CJsonProps.v ===== *)
(** * JSON: whole runs

    What the parts of the library do together, on memory that holds nothing else and
    for every answer of the allocator: parsing, printing and releasing a text
    ([parse_delete], [parse_print]), printing and parsing a value ([reprint_json]), and
    changing an array in place ([edit_json]). *)

From Stdlib Require Import SpecFloat.
From S2P Require Import Prelude SepLog CJsonNum CJson CJsonTree CJsonParse CJsonPrint CJsonRound.
#[local] Set Warnings "-register-all".
Local Open Scope fw_scope.

(** ** The texts in a parsed tree are bytes *)

Definition is_bytes (s : list Z) : Prop := Forall (λ c, 0 <= c < 256) s.

Lemma byte_at_bytes l i c : is_bytes l → byte_at l i = Ok c → 0 <= c < 256.
Proof. intros Hl H. apply byte_at_inv in H as [_ H]. unfold is_bytes in Hl. rewrite Forall_forall in Hl. apply Hl. by eapply list_elem_of_lookup_2. Qed.

Lemma utf8_tail_bytes k : ∀ c acc, is_bytes acc → is_bytes (utf8_tail k c acc).2.
Proof. induction k as [|k IH]; intros c acc Ha; [done|]. cbn [utf8_tail]. apply IH. constructor; [apply u8_range|done]. Qed.
Lemma utf8_encode_bytes c d : utf8_encode c = Some d → is_bytes d.
Proof.
  assert (∀ z, 0 <= Z.land z 255 < 256) as Hl.
  { intros z. change 255 with (Z.ones 8). rewrite Z.land_ones by lia. apply Z.mod_pos_bound. lia. }
  unfold utf8_encode. cbv zeta. destruct (c <? 128); [|destruct (c <? 2048); [|destruct (c <? 65536); [|destruct (c <=? 1114111); [|done]]]].
  1: intros [= <-]; constructor; [|constructor]; change 127 with (Z.ones 7); rewrite Z.land_ones by lia; pose proof (Z.mod_pos_bound c (2 ^ 7)); lia.
  all: match goal with |- context [utf8_tail ?k ?x []] => pose proof (utf8_tail_bytes k x [] (Forall_nil_2 _)) as Ht;
    destruct (utf8_tail k x []) as [c' tl]; intros [= <-]; constructor; [apply Hl|done] end.
Qed.

Lemma utf16_bytes l pos e n d : utf16_literal_to_utf8 l pos e = Ok (n, d) → is_bytes d.
Proof.
  assert (∀ k c, (match utf8_encode c with Some d => Ok (k, d) | None => Ok (0, []) end) = Ok (n, d) → is_bytes d) as He.
  { intros k c. destruct (utf8_encode c) eqn:E; intros [= <- <-]; [by eapply utf8_encode_bytes|constructor]. }
  unfold utf16_literal_to_utf8. cbv zeta. destruct (e - pos <? 6); [intros [= <- <-]; constructor|]. intros H. apply rbind_Ok in H as (c1 & _ & H).
  destruct (_ && _); [injection H as <- <-; constructor|]. destruct (_ && _); [|by apply He in H].
  destruct (e - (pos + 6) <? 6); [injection H as <- <-; constructor|]. apply rbind_Ok in H as (x & _ & H).
  destruct (negb _); [injection H as <- <-; constructor|]. apply rbind_Ok in H as (y & _ & H).
  destruct (negb _); [injection H as <- <-; constructor|]. apply rbind_Ok in H as (c2 & _ & H).
  destruct (_ || _); [injection H as <- <-; constructor|by apply He in H].
Qed.

Lemma emit_bytes size out d out' : is_bytes out → is_bytes d → emit size out d = Ok out' → is_bytes out'.
Proof. unfold emit. destruct (_ <=? _); [|done]. intros H1 H2 [= <-]. by apply Forall_app. Qed.

Lemma decode_bytes fuel : ∀ l pos e size out r pos', is_bytes l → is_bytes out →
  decode_string fuel l pos e size out = Ok (Some r, pos') → is_bytes r.
Proof.
  induction fuel as [|fuel IH]; intros l pos e size out r pos' Hl Ho; cbn [decode_string]; [done|].
  destruct (pos <? e).
  - intros H. apply rbind_Ok in H as (c & Hc & H). apply byte_at_bytes in Hc; [|done]. destruct (negb _).
    { apply rbind_Ok in H as (o & Eo & H). eapply (IH l); [done| |exact H]. eapply emit_bytes; [exact Ho| |exact Eo]. by apply Forall_singleton. }
    destruct (e - pos <? 1); [done|]. apply rbind_Ok in H as (x & Hx & H). apply byte_at_bytes in Hx; [|done]. destruct (x =? 117).
    + apply rbind_Ok in H as ([n d] & Ed & H). cbn [fst snd] in H. destruct (n =? 0); [done|]. apply rbind_Ok in H as (o & Eo & H).
      eapply (IH l); [done| |exact H]. eapply emit_bytes; [exact Ho| |exact Eo]. by eapply utf16_bytes.
    + destruct (escape_char x) as [y|] eqn:Ex; [|done]. apply rbind_Ok in H as (o & Eo & H). eapply (IH l); [done| |exact H].
      eapply emit_bytes; [exact Ho| |exact Eo]. apply Forall_singleton. unfold escape_char in Ex. repeat case_match; simplify_eq; lia.
  - intros H. apply rbind_Ok in H as (o & Eo & H). injection H as <- _. eapply emit_bytes; [exact Ho| |exact Eo]. by apply Forall_singleton.
Qed.

Lemma until_end_text l s : is_bytes l → until_end l = Some s → is_text s.
Proof.
  intros Hl H. apply until_end_split in H as (r & -> & H0). apply Forall_app in Hl as [Hl _]. apply Forall_forall. intros x Hx.
  unfold is_bytes in Hl. rewrite Forall_forall in Hl. apply Hl in Hx as Hb. destruct (decide (x = 0)) as [->|]; [done|]. lia.
Qed.

Lemma tp_string_bytes b s b' : is_bytes (content b) → tp_string b = Ok (Some s, b') → is_text s ∧ content b' = content b.
Proof.
  intros Hb H. unfold tp_string in H. apply rbind_Ok in H as (c & _ & H). destruct (negb _); [done|]. apply rbind_Ok in H as (r & _ & H).
  destruct r as [[e k]|]; [|done]. apply rbind_Ok in H as ([o pos] & Eo & H). destruct o as [o|]; [|done]. injection H as H <-.
  split; [|done]. eapply until_end_text; [|exact H]. by eapply decode_bytes; [..|exact Eo]; [done|constructor].
Qed.

Lemma skip_loop_content fuel : ∀ b b', skip_loop fuel b = Ok b' → content b' = content b.
Proof.
  induction fuel as [|fuel IH]; intros b b'; cbn [skip_loop]; [done|]. destruct (can_access b 0); [|by intros [= <-]].
  intros H. apply rbind_Ok in H as (x & _ & H). destruct (x <=? 32); [|by injection H as <-]. by apply IH in H.
Qed.
Lemma skip_content b b' : buffer_skip_whitespace b = Ok b' → content b' = content b.
Proof.
  unfold buffer_skip_whitespace. destruct (negb _); [by intros [= <-]|]. intros H. apply rbind_Ok in H as (b1 & H1 & H).
  apply skip_loop_content in H1. destruct (_ =? _); injection H as <-; done.
Qed.
Lemma advance_rest b b' : advance b = Ok b' → content b' = content b.
Proof. intros H. unfold advance in H. by apply skip_content in H. Qed.

(** A step of the parser on bytes gives trees of bytes and stays in the text. *)
Definition bytes_step {A} (P : A → Prop) (f : parse_buffer → result (option A * parse_buffer)) : Prop :=
  ∀ b x b', is_bytes (content b) → f b = Ok (Some x, b') → P x ∧ content b' = content b.
Abbreviation bytes_tree := (tree_all texts_ok).

Lemma tp_number_bytes : bytes_step bytes_tree tp_number.
Proof.
  intros b x b' Hb H. unfold tp_number in H. apply rbind_Ok in H as (t & _ & H). destruct (strtod t) as [d n]. destruct (n =? 0); [done|].
  injection H as <- <-. done.
Qed.
Lemma close_bytes ty ks b x b' : all_trees texts_ok ks → tp_close ty ks b = Ok (Some x, b') → bytes_tree x ∧ content b' = content b.
Proof. intros Hk [= <- <-]. split; [split|]; done. Qed.
Lemma all_trees_snoc ks t : all_trees texts_ok ks → bytes_tree t → all_trees texts_ok (ks ++ [t]).
Proof. induction ks as [|k ks IH]; cbn; [done|]. intros [H1 H2] Ht. split; [done|by apply IH]. Qed.
Lemma bytes_tree_name s t : is_text s → bytes_tree t → bytes_tree (set_name s t).
Proof. destruct t as [i ks]. intros Hs [[H1 _] H2]. done. Qed.

Lemma tp_bytes fuel :
  bytes_step bytes_tree (tp_value fuel) ∧ bytes_step bytes_tree (tp_array fuel) ∧
  (∀ acc, all_trees texts_ok acc → bytes_step bytes_tree (tp_elements fuel acc)) ∧ bytes_step bytes_tree (tp_object fuel) ∧
  (∀ acc, all_trees texts_ok acc → bytes_step bytes_tree (tp_members fuel acc)).
Proof.
  induction fuel as [|fuel (IHv & IHa & IHe & IHo & IHm)]; [by split_and!; intros|]. split_and!.
  - intros b x b' Hb H. cbn [tp_value] in H. destruct (_ && _); [injection H as <- <-; done|]. destruct (_ && _); [injection H as <- <-; done|].
    destruct (_ && _); [injection H as <- <-; done|]. destruct (negb _); [done|]. apply rbind_Ok in H as (c & _ & H). destruct (c =? 34).
    { apply rbind_Ok in H as ([o b1] & H1 & H). cbn [fst snd] in H. destruct o as [s|]; [|done]. injection H as <- <-.
      apply tp_string_bytes in H1 as [H1 H2]; [|done]. done. }
    destruct (_ || _); [by apply tp_number_bytes in H|]. destruct (c =? 91); [by apply IHa in H|]. destruct (c =? 123); [by apply IHo in H|done].
  - intros b x b' Hb H. cbn [tp_array] in H. destruct (_ <=? _); [done|]. apply rbind_Ok in H as (c & _ & H). destruct (negb _); [done|].
    apply rbind_Ok in H as (b1 & H1 & H). apply advance_rest in H1. cbn [content set_depth] in H1. apply rbind_Ok in H as (e & _ & H).
    destruct e; [apply close_bytes in H; [by rewrite <- H1|done]|]. destruct (negb _); [done|]. apply IHe in H; [cbn in H; by rewrite <- H1|done|cbn; by rewrite H1].
  - intros acc Ha b x b' Hb H. cbn [tp_elements] in H. apply rbind_Ok in H as (b1 & H1 & H). apply advance_rest in H1.
    apply rbind_Ok in H as ([o b2] & H2 & H). destruct o as [t|]; [|done]. apply IHv in H2 as [Ht E2]; [|by rewrite H1].
    apply rbind_Ok in H as (b3 & H3 & H). apply skip_content in H3. apply rbind_Ok in H as (more & _ & H). pose proof (all_trees_snoc acc t Ha Ht) as Ha2.
    destruct more; [apply IHe in H; [by rewrite <- H1, <- E2, <- H3|done|by rewrite H3, E2, H1]|]. apply rbind_Ok in H as (e & _ & H). destruct (negb e); [done|].
    apply close_bytes in H; [|done]. by rewrite H3, E2, H1 in H.
  - intros b x b' Hb H. cbn [tp_object] in H. destruct (_ <=? _); [done|]. apply rbind_Ok in H as (c & _ & H). destruct (negb _); [done|].
    apply rbind_Ok in H as (b1 & H1 & H). apply advance_rest in H1. cbn [content set_depth] in H1. apply rbind_Ok in H as (e & _ & H).
    destruct e; [apply close_bytes in H; [by rewrite <- H1|done]|]. destruct (negb _); [done|]. apply IHm in H; [cbn in H; by rewrite <- H1|done|cbn; by rewrite H1].
  - intros acc Ha b x b' Hb H. cbn [tp_members] in H. apply rbind_Ok in H as (b1 & H1 & H). apply advance_rest in H1.
    apply rbind_Ok in H as ([o b2] & H2 & H). destruct o as [s|]; [|done]. apply tp_string_bytes in H2 as [Hs E2]; [|by rewrite H1].
    apply rbind_Ok in H as (b3 & H3 & H). apply skip_content in H3. apply rbind_Ok in H as (e & _ & H). destruct (negb e); [done|].
    apply rbind_Ok in H as (b4 & H4 & H). apply advance_rest in H4. apply rbind_Ok in H as ([o b5] & H5 & H). destruct o as [t|]; [|done].
    apply IHv in H5 as [Ht E5]; [|by rewrite H4, H3, E2, H1]. apply rbind_Ok in H as (b6 & H6 & H). apply skip_content in H6.
    pose proof (all_trees_snoc acc (set_name s t) Ha (bytes_tree_name s t Hs Ht)) as Ha2. apply rbind_Ok in H as (more & _ & H).
    destruct more; [apply IHm in H; [by rewrite <- H1, <- E2, <- H3, <- H4, <- E5, <- H6|done|by rewrite H6, E5, H4, H3, E2, H1]|]. apply rbind_Ok in H as (f & _ & H). destruct (negb f); [done|].
    apply close_bytes in H; [|done]. by rewrite H6, E5, H4, H3, E2, H1 in H.
Qed.

Lemma tp_document_bytes s require t pos : is_bytes s → tp_document s require = Ok (Some t, pos) → bytes_tree t.
Proof.
  intros Hs H. unfold tp_document in H. destruct (skip_utf8_bom (start s)) as [b|] eqn:E; [|done].
  assert (is_bytes (content b)) as Hb.
  { assert (content b = s ++ [0]) as ->.
    { unfold skip_utf8_bom in E. destruct (negb _); [done|]. destruct (_ && _); by injection E as <-. }
    apply Forall_app. split; [done|by apply Forall_singleton]. }
  apply rbind_Ok in H as (b1 & H1 & H). apply skip_content in H1. apply rbind_Ok in H as ([o b2] & H2 & H). destruct o as [t'|]; [|done].
  apply (proj1 (tp_bytes _)) in H2 as [Ht _]; [|by rewrite H1]. destruct require; [|by injection H as <- _].
  apply rbind_Ok in H as (b3 & _ & H). apply rbind_Ok in H as (c & _ & H). destruct (negb _); [done|]. by injection H as <- _.
Qed.

(** ** Runs on memory that holds nothing else *)

(** [oks] are the answers of the allocator; when they are used up it has memory. *)
Definition fresh_memory (oks : list bool) : mem jblock := {| blocks := ∅; mbrk := 1; moks := oks |}.
Definition may_fail (oks : list bool) : bool := negb (bool_decide (Forall (eq true) oks)).

Lemma fresh_run {A} (m : M A) (Φ : A → hP) oks : (⊢ wp (may_fail oks) m Φ) →
  ∃ a s, m (fresh_memory oks) = Ok (a, s) ∧ holds (Φ a) (blocks s).
Proof.
  intros H. destruct (wp_run (may_fail oks) m Φ emp (fresh_memory oks)) as (a & s & E & _ & _ & HΦ); [done|done| | |eauto].
  - split; [done|]. intros q [x Hx]. cbn in Hx. by rewrite lookup_empty in Hx.
  - intros Hf. unfold may_fail in Hf. apply negb_false_iff, bool_decide_eq_true in Hf. done.
Qed.
Lemma may_fail_true oks : Forall (eq true) oks → may_fail oks = false.
Proof. intros H. unfold may_fail. by rewrite bool_decide_true. Qed.

Lemma holds_affine (φ : Prop) (h : gmap Z jblock) : holds (⟨ φ ⟩ : hP)%I h → φ ∧ h = ∅.
Proof. intros [H1 H2]. split; [exact H2|exact H1]. Qed.
Lemma holds_affine_sep (φ : Prop) (P : hP) (h : gmap Z jblock) : holds (⟨ φ ⟩ ∗ P)%I h → φ ∧ holds P h.
Proof.
  intros (h1 & h2 & -> & _ & H1 & H2). apply holds_affine in H1 as [H ->]. split; [done|]. by rewrite (left_id_L ∅ (∪)).
Qed.

(** C7: for every text and whatever the allocator answers, parsing ends without a
    fault: memory then holds exactly the tree that the parser on texts gives, and the
    position is its position; or, on failure, nothing.  With memory it fails only
    where that parser does, at the same place. *)
Theorem parse_exact s require oks : ∃ p pos m o e,
  cJSON_ParseWithOpts (Some s) require (fresh_memory oks) = Ok ((p, pos), m) ∧ tp_document s require = Ok (o, e) ∧
  ((∃ t, o = Some t ∧ pos = e ∧ holds (item t p NULL NULL) (blocks m)) ∨
   (p = NULL ∧ blocks m = ∅ ∧ (Forall (eq true) oks → o = None ∧ pos = e))).
Proof.
  destruct (tp_document_ok s require) as (o & e & H).
  destruct (fresh_run (cJSON_ParseWithOpts (Some s) require) _ oks (wp_parse_text (may_fail oks) s require o e H)) as ([p pos] & m & E & HΦ).
  exists p, pos, m, o, e. split; [done|]. split; [done|]. destruct HΦ as [[t Ht]|Hn].
  - left. exists t. apply holds_affine_sep in Ht as [[H1 H2] Ht]. done.
  - right. apply holds_affine in Hn as [[H1 Hn] Hb]. cbn [fst snd] in *. split; [done|]. split; [done|]. intros Ho. rewrite (may_fail_true _ Ho) in Hn.
    by destruct Hn as [?|[? ?]].
Qed.

(** A text that is parsed and released leaves nothing behind. *)
Lemma wp_parse mf s (Φ : Z → hP) o e : tp_document s false = Ok (o, e) →
  ⊢ ((∀ p t, ⟨ o = Some t ⟩ -∗ item t p NULL NULL -∗ Φ p) ∧ (⟨ mf = true ∨ o = None ⟩ -∗ Φ NULL)) -∗ wp mf (cJSON_Parse (Some s)) Φ.
Proof.
  intros H. iIntros "K". unfold cJSON_Parse. wp_bind. iApply (wp_wand _ _ (document mf o e)); [iApply (wp_parse_text mf s false o e H)|].
  iIntros ([p pos]) "[(%t & %Ht & I)|%Hn]"; wp_ret; cbn [fst snd] in *.
  - iDestruct "K" as "[K _]". iApply ("K" with "[] I"). by destruct Ht.
  - destruct Hn as [-> Hn]. iDestruct "K" as "[_ K]". iApply "K". iPureIntro. tauto.
Qed.
Theorem parse_delete s oks : ∃ m, (item <-- cJSON_Parse (Some s);; cJSON_Delete item) (fresh_memory oks) = Ok (tt, m) ∧ blocks m = ∅.
Proof.
  destruct (tp_document_ok s false) as (o & e & H).
  destruct (fresh_run (item <-- cJSON_Parse (Some s);; cJSON_Delete item) (λ _, emp%I) oks) as ([] & m & E & Hb); [|by exists m].
  wp_bind. iApply wp_parse; [exact H|]. iSplit.
  - iIntros (p t) "_ I". by iApply (wp_delete with "I").
  - iIntros "_". by iApply wp_delete_null.
Qed.

(** *** Printing what was parsed *)

Lemma wp_print_null mf fmt (Φ : Z → hP) : Φ NULL ⊢ wp mf (print NULL fmt) Φ.
Proof.
  iIntros "K". unfold print. wp_bind. iApply wp_alloc. iSplit; [iIntros (_); rewrite Z.eqb_refl; by wp_ret|].
  iIntros (b) "B". iDestruct (points_to_not_null with "B") as %Hb. rewrite (proj2 (Z.eqb_neq b NULL)) by done. wp_bind.
  iApply (wp_heap_size mf 0 emp%I); [apply at_least_0|done|]. iIntros (n _) "_". wp_bind. unfold print_fuel. cbn [print_value].
  rewrite Z.eqb_refl. wp_ret. cbn [negb pb_buffer]. wp_bind. iApply (wp_deallocate with "B"). by wp_ret.
Qed.

Definition reprint_run (s : list Z) (fmt : bool) : M Z :=
  item <-- cJSON_Parse (Some s);; p <-- print item fmt;; cJSON_Delete item;;; fret p.

Definition reprinted (mf fmt : bool) (o : option jtree) (p : Z) : hP :=
  ((∃ t x, ⟨ o = Some t ∧ value_text fmt 0 t = Some x ⟩ ∗ p ↦ JBytes (x ++ [0])) ∨
   ⟨ p = NULL ∧ (mf = true ∨ o = None ∨ ∃ t, o = Some t ∧ no_text mf fmt t) ⟩)%I.

Lemma wp_reprint mf s fmt o e : (∀ t, o = Some t → bytes_tree t) → tp_document s false = Ok (o, e) → ⊢ wp mf (reprint_run s fmt) (reprinted mf fmt o).
Proof.
  intros Hs H. unfold reprint_run. wp_bind. iApply wp_parse; [exact H|]. iSplit.
  - iIntros (p t) "-> I". wp_bind. iApply (wp_print with "I"); [by apply Hs|]. iIntros (q) "I P". wp_bind.
    iApply (wp_delete with "I"). wp_ret. iDestruct "P" as "[(%x & %Hx & Q)|%Hn]".
    + iLeft. iExists t, x. iFrame. by iPureIntro.
    + iRight. iPureIntro. destruct Hn as [-> Hn]. split; [done|]. right. right. eauto.
  - iIntros "%Hn". wp_bind. iApply wp_print_null. wp_bind. iApply wp_delete_null. wp_ret. iRight. iPureIntro. tauto.
Qed.

(** C19: for every text of bytes and every answer of the allocator, parsing it,
    printing the result and releasing it stays inside the blocks, and memory holds at
    most the printed text, in a block of its size. *)
Theorem parse_print s fmt oks : is_bytes s → ∃ p m, reprint_run s fmt (fresh_memory oks) = Ok (p, m) ∧
  ((∃ t x e, tp_document s false = Ok (Some t, e) ∧ value_text fmt 0 t = Some x ∧ blocks m = {[p := JBytes (x ++ [0])]}) ∨
   (p = NULL ∧ blocks m = ∅)).
Proof.
  intros Hs. destruct (tp_document_ok s false) as (o & e & H).
  destruct (fresh_run (reprint_run s fmt) _ oks
    (wp_reprint (may_fail oks) s fmt o e (λ t Ht, tp_document_bytes s false t e Hs (eq_trans H (f_equal (λ o, Ok (o, e)) Ht))) H)) as (p & m & E & HΦ). exists p, m. split; [done|].
  destruct HΦ as [(t & x & Hx)|Hn].
  - left. apply holds_affine_sep in Hx as [[-> Hx] [Hb _]]. eauto 10.
  - right. apply holds_affine in Hn as [[-> _] Hb]. done.
Qed.

(** An object with the name a\u0041 and the value [[1, -2.5, {}]]. *)
Definition demo_text : list Z :=
  lit "{ " ++ [34] ++ lit "a\u0041" ++ [34] ++ lit ": [1, -2.5, {}] }".
Lemma parse_print_witness : ∃ p m, reprint_run demo_text false (fresh_memory [true; false; true]) = Ok (p, m) ∧
  ((∃ t x e, tp_document demo_text false = Ok (Some t, e) ∧ value_text false 0 t = Some x ∧ blocks m = {[p := JBytes (x ++ [0])]}) ∨
   (p = NULL ∧ blocks m = ∅)).
Proof.
  apply (parse_print demo_text false [true; false; true]). unfold is_bytes. apply (bool_decide_unpack _). vm_compute. exact I.
Defined.

(** *** Values are read back *)

Lemma digits_pos n : 0 <= n → 0 ∉ digits n.
Proof. intros Hn H. pose proof (digits_ok n Hn) as Hd. rewrite Forall_forall in Hd. apply Hd in H. done. Qed.
Lemma json_text_no_end fmt j : json_ok j → ∀ depth, 0 ∉ json_text fmt depth j.
Proof.
  assert (∀ depth, 0 ∉ indent_text fmt depth) as Hi.
  { intros depth H. destruct fmt; [|by apply elem_of_nil in H]. by apply elem_of_replicate in H as [H _]. }
  assert (∀ k, is_text k → 0 ∉ string_text (Some k)) as Hs by (intros k Hk; by apply string_text_ok).
  assert (0 ∉ colon_text fmt) as Hc by (destruct fmt; apply (bool_decide_unpack _); done).
  assert (∀ b, 0 ∉ line_text fmt b) as Hl by (intros []; destruct fmt; apply (bool_decide_unpack _); done).
  assert (∀ b : bool, 0 ∉ (if b then [] else comma_text fmt)) as Hm by (intros []; destruct fmt; apply (bool_decide_unpack _); done).
  assert (∀ c, c ≠ 0 → 0 ∉ [c]) as H1 by (intros c H H2; apply list_elem_of_singleton in H2; lia).
  induction j as [| | |z|s|l IH|l IH] using json_ind'; intros Hj depth; cbn [json_text json_ok] in *.
  1-3: apply (bool_decide_unpack _); done.
  - unfold print_int. destruct (Z.ltb_spec z 0); [|by apply digits_pos]. apply not_elem_of_cons. split; [done|apply digits_pos; lia].
  - by apply Hs.
  - rewrite all_of_Forall in Hj. rewrite elem_of_app. intros [H|H]; [by apply (H1 91) in H|]. revert H.
    induction IH as [|j l Hjt _ IHl]; cbn [arr_text]; [by apply (H1 93)|]. apply Forall_cons in Hj as [Hj Hjl].
    rewrite !elem_of_app. intros [H|[H|H]]; [by apply Hjt in H|by apply Hm in H|by apply IHl in H].
  - rewrite all_of_Forall in Hj. rewrite elem_of_app. intros [H|H]; [destruct fmt; revert H; apply (bool_decide_unpack _); done|]. revert H.
    induction IH as [|[k j] l Hjt _ IHl]; cbn [obj_text fst snd] in *.
    + rewrite elem_of_app. intros [H|H]; [by apply Hi in H|by apply (H1 125) in H].
    + apply Forall_cons in Hj as [[Hk Hj] Hjl]. rewrite !elem_of_app.
      intros [H|[H|[H|[H|[H|H]]]]]; [by apply Hi in H|by apply Hs in H|by apply Hc in H|by apply Hjt in H|by apply Hl in H|by apply IHl in H].
Qed.

Lemma tree_of_bytes v j : json_ok j → bytes_tree (tree_of v j).
Proof.
  induction j as [| | |z|s|l IH|l IH] using json_ind'; intros Hj; cbn [json_ok tree_of] in *; try done.
  - split; [done|]. rewrite all_of_Forall in Hj. induction IH as [|j l Hjt _ IHl]; cbn; [done|]. apply Forall_cons in Hj as [Hj Hl]. auto.
  - split; [done|]. rewrite all_of_Forall in Hj. induction IH as [|[k j] l Hjt _ IHl]; cbn; [done|]. apply Forall_cons in Hj as [[Hk Hj] Hl].
    split; [|by apply IHl]. apply bytes_tree_name; [done|]. by apply Hjt.
Qed.

(** C11: parsing the text of a value in one format and printing it in another gives
    its text in the other format, in a block of its size, and nothing else is left. *)
Theorem reprint_json j fmt fmt' : json_ok j → height j <= CJSON_NESTING_LIMIT → zlen (json_text fmt' 0 j) + 2 <= INT_MAX →
  ∃ p m, reprint_run (json_text fmt 0 j) fmt' (fresh_memory []) = Ok (p, m) ∧
    blocks m = {[p := JBytes (json_text fmt' 0 j ++ [0])]} ∧ text_at m p = Some (json_text fmt' 0 j).
Proof.
  intros Hj Hh Hl. pose proof (document_json fmt j false Hj Hh) as H.
  destruct (fresh_run (reprint_run (json_text fmt 0 j) fmt') _ [] (wp_reprint false (json_text fmt 0 j) fmt' (Some (to_tree j)) _
    (λ t Ht, eq_rect _ bytes_tree (tree_of_bytes 1 j Hj) _ (f_equal (default t) Ht)) H)) as (p & m & E & HΦ).
  exists p, m. split; [done|]. pose proof (value_json fmt' 1 j Hj 0) as Hv. destruct HΦ as [(t & x & Hx)|Hn].
  - apply holds_affine_sep in Hx as [[[= <-] Hx] [Hb _]]. rewrite Hv in Hx. injection Hx as <-. split; [done|].
    unfold text_at. rewrite Hb, lookup_singleton_eq. apply until_end_app. by apply json_text_no_end.
  - apply holds_affine in Hn as [[_ [?|[?|(t & [= <-] & [?|Hn])]]] _]; try done. apply Hn in Hv. lia.
Qed.

Definition demo_value : json := JObj [(lit "a", JArr [JInt (-12); JText [34; 1; 200]; JNull]); ([92], JObj []); (lit "b", JTrue)].
Lemma reprint_json_witness : ∃ p m, reprint_run (json_text true 0 demo_value) false (fresh_memory []) = Ok (p, m) ∧
  blocks m = {[p := JBytes (json_text false 0 demo_value ++ [0])]} ∧ text_at m p = Some (json_text false 0 demo_value).
Proof.
  apply (reprint_json demo_value true false).
  - cbn. unfold is_int, is_text, INT_MIN, INT_MAX. repeat split; try lia; apply (bool_decide_unpack _); vm_compute; exact I.
  - cbn. unfold CJSON_NESTING_LIMIT. lia.
  - vm_compute. done.
Defined.
