(* ===== verification/CJsonEdit.v ===== *)
(** * JSON values that are built and changed in place

    Programs over the functions of cJSON.c that construct and change trees: [build]
    makes a value node by node, [run_edit] appends, inserts, deletes and replaces
    elements of an array.  [build_value]: the tree that is built is that of the value.
    [edit_run]: in memory the array is at every moment the list that the edits give. *)

From Stdlib Require Import SpecFloat.
From S2P Require Import Prelude SepLog CJsonNum CJson CJsonTree CJsonParse CJsonPrint CJsonRound CJsonProps.
#[local] Set Warnings "-register-all".
Local Open Scope fw_scope.

(** ** Construction *)

Section Build.
Context (f : json → M Z).
Fixpoint build_elements (a : Z) (l : list json) : M Z :=
  match l with
  | [] => fret a
  | j :: l =>
      n <-- f j;;
      if n =? NULL then cJSON_Delete a;;; fret NULL
      else cJSON_AddItemToArray a n;;; build_elements a l
  end.
Fixpoint build_members (a : Z) (l : list (list Z * json)) : M Z :=
  match l with
  | [] => fret a
  | kv :: l =>
      n <-- f kv.2;;
      if n =? NULL then cJSON_Delete a;;; fret NULL
      else
        ok <-- cJSON_AddItemToObject a (Some kv.1) n;;
        if ok then build_members a l else cJSON_Delete n;;; cJSON_Delete a;;; fret NULL
  end.
End Build.
Fixpoint build (j : json) : M Z :=
  match j with
  | JNull => cJSON_CreateNull
  | JFalse => cJSON_CreateFalse
  | JTrue => cJSON_CreateTrue
  | JInt z => cJSON_CreateNumber (int_to_double z)
  | JText s => cJSON_CreateString (Some s)
  | JArr l => a <-- cJSON_CreateArray;; if a =? NULL then fret NULL else build_elements build a l
  | JObj l => a <-- cJSON_CreateObject;; if a =? NULL then fret NULL else build_members build a l
  end.

(** A tree, or nothing when the allocator said so. *)
Definition made (mf : bool) (t : jtree) (p : Z) : hP := (item t p NULL NULL ∨ ⟨ p = NULL ∧ mf = true ⟩)%I.

Abbreviation built := (tree_of 0).

Lemma wp_create mf f t (Φ : Z → hP) : i_name (info t) = None → i_valuestring (info t) = None → children t = [] → plain (i_type (info t)) →
  f zero_item = node (info t) NULL NULL NULL NULL NULL →
  (∀ p, made mf t p -∗ Φ p) ⊢ wp mf (create f) Φ.
Proof.
  intros Hn Hv Hk Hp Hf. iIntros "K". unfold create. wp_bind. iApply wp_New_Item. iSplit.
  - iIntros (Hm). rewrite Z.eqb_refl. cbn [negb]. wp_ret. wp_ret. iApply "K". iRight. by iPureIntro.
  - iIntros (p) "H". iDestruct (points_to_not_null with "H") as %Hnp. rewrite (proj2 (Z.eqb_neq p NULL)) by done. cbn [negb]. wp_bind.
    iApply (wp_mod_item with "H"). iIntros "H". wp_ret. iApply "K". iLeft. rewrite Hf. destruct t as [i ks]. cbn [info children] in *. subst ks.
    iApply item_eq. iExists NULL, NULL, NULL. rewrite Hn, Hv. iFrame. cbn [own_str]. repeat (iSplitR; [by iPureIntro|]). iApply kids_nil.
Qed.

Lemma wp_create_string mf s (Φ : Z → hP) : 0 ∉ s → (∀ p, made mf (text_value s) p -∗ Φ p) ⊢ wp mf (cJSON_CreateString (Some s)) Φ.
Proof.
  intros Hs. iIntros "K". unfold cJSON_CreateString, create_text. wp_bind. iApply wp_New_Item. iSplit.
  { iIntros (Hm). rewrite Z.eqb_refl. wp_ret. iApply "K". iRight. by iPureIntro. }
  iIntros (p) "H". iDestruct (points_to_not_null with "H") as %Hnp. rewrite (proj2 (Z.eqb_neq p NULL)) by done. wp_bind.
  iApply (wp_mod_item with "H"). iIntros "H". wp_bind. iApply wp_strdup; [done|]. iSplit.
  - iIntros (Hm). wp_bind. iApply (wp_mod_item with "H"). iIntros "H". rewrite Z.eqb_refl. wp_bind.
    iApply (wp_delete mf (simple cJSON_String []) p NULL with "[H]").
    { iApply item_eq. iExists NULL, NULL, NULL. iFrame. cbn [own_str]. repeat (iSplitR; [by iPureIntro|]). iApply kids_nil. }
    wp_ret. iApply "K". iRight. by iPureIntro.
  - iIntros (q) "S". iDestruct (own_str_null with "S") as %Hq. wp_bind. iApply (wp_mod_item with "H"). iIntros "H".
    rewrite (proj2 (Z.eqb_neq q NULL)) by (intros E; by apply Hq in E). wp_ret. iApply "K". iLeft.
    iApply item_eq. iExists q, NULL, NULL. iFrame. cbn [own_str]. repeat (iSplitR; [by iPureIntro|]). iApply kids_nil.
Qed.


(** The two cases behind a function that makes a tree. *)
Lemma wp_made {A} mf t p (m1 m2 : M A) (Φ : A → hP) :
  ⊢ made mf t p -∗ ((⌜mf = true⌝ → wp mf m1 Φ) ∧ (item t p NULL NULL -∗ wp mf m2 Φ)) -∗ wp mf (if p =? NULL then m1 else m2) Φ.
Proof.
  iIntros "[I|%H] K".
  - iDestruct (item_not_null with "I") as %Hp. rewrite (proj2 (Z.eqb_neq p NULL)) by done. by iApply "K".
  - destruct H as [-> ->]. rewrite Z.eqb_refl. iDestruct "K" as "[K _]". by iApply "K".
Qed.
Lemma made_null mf t : mf = true → ⊢ made mf t NULL.
Proof. intros. iRight. by iPureIntro. Qed.

Lemma item_of_list ty ks p nx pv ps : opened (info (simple ty [])) ks p nx pv ps ⊢ item (simple ty ks) p nx pv.
Proof. iIntros "O". iApply item_opened. by iExists ps. Qed.

Lemma wp_build_elements mf f l : Forall (λ j, ∀ Φ : Z → hP, (∀ p, made mf (built j) p -∗ Φ p) ⊢ wp mf (f j) Φ) l →
  ∀ acc a ps (Φ : Z → hP),
  ⊢ opened (info (simple cJSON_Array [])) acc a NULL NULL ps -∗
    (∀ p, made mf (simple cJSON_Array (acc ++ map built l)) p -∗ Φ p) -∗ wp mf (build_elements f a l) Φ.
Proof.
  induction 1 as [|j l Hj _ IH]; intros acc a ps Φ; iIntros "O K"; cbn [build_elements].
  - wp_ret. iApply "K". iLeft. cbn. rewrite (right_id_L [] (++)). by iApply item_of_list.
  - wp_bind. iApply Hj. iIntros (p) "I". iApply (wp_made with "I"). iSplit.
    + iIntros (Hm). wp_bind. iDestruct (item_of_list with "O") as "O". iApply (wp_delete with "O"). wp_ret. iApply "K". by iApply made_null.
    + iIntros "I". wp_bind. iApply (wp_add_item with "O I"). iIntros "O". iApply (IH with "O"). iIntros (q) "M". iApply "K".
      by rewrite <- (assoc_L (++)).
Qed.
Lemma wp_build_members mf f l : Forall (λ kv, ∀ Φ : Z → hP, (∀ p, made mf (built kv.2) p -∗ Φ p) ⊢ wp mf (f kv.2) Φ) l →
  Forall (λ kv, is_text kv.1) l → ∀ acc a ps (Φ : Z → hP),
  ⊢ opened (info (simple cJSON_Object [])) acc a NULL NULL ps -∗
    (∀ p, made mf (simple cJSON_Object (acc ++ map (member built) l)) p -∗ Φ p) -∗ wp mf (build_members f a l) Φ.
Proof.
  induction 1 as [|[k j] l Hj _ IH]; intros Hk acc a ps Φ; iIntros "O K"; cbn [build_members fst snd] in *.
  - wp_ret. iApply "K". iLeft. cbn. rewrite (right_id_L [] (++)). by iApply item_of_list.
  - apply Forall_cons in Hk as [Hk Hl]. wp_bind. iApply Hj. iIntros (p) "I". iApply (wp_made with "I"). iSplit.
    { iIntros (Hm). wp_bind. iDestruct (item_of_list with "O") as "O". iApply (wp_delete with "O"). wp_ret. iApply "K". by iApply made_null. }
    iIntros "I". wp_bind. iApply (wp_add_to_object with "O I").
      { intros H0. unfold is_text in Hk. cbn in Hk. rewrite Forall_forall in Hk. apply Hk in H0. lia. }
    iSplit.
    + iIntros (Hm) "O I". wp_bind. iApply (wp_delete with "I"). wp_bind. iDestruct (item_of_list with "O") as "O".
      iApply (wp_delete with "O"). wp_ret. iApply "K". by iApply made_null.
    + iIntros "O". iApply (IH with "O"); [done|]. iIntros (q) "M". iApply "K". by rewrite <- (assoc_L (++)).
Qed.

Lemma wp_build mf j : json_ok j → ∀ Φ : Z → hP, (∀ p, made mf (built j) p -∗ Φ p) ⊢ wp mf (build j) Φ.
Proof.
  induction j as [| | |z|s|l IH|l IH] using json_ind'; intros Hj Φ; cbn [build tree_of json_ok] in *.
  1-4: by apply wp_create.
  - apply wp_create_string. intros H. unfold is_text in Hj. rewrite Forall_forall in Hj. apply Hj in H. lia.
  - rewrite all_of_Forall in Hj. iIntros "K". wp_bind. iApply (wp_create mf _ (simple cJSON_Array [])); [done..|]. iIntros (p) "I". iApply (wp_made with "I").
    iSplit; [iIntros (Hm); wp_ret; iApply "K"; by iApply made_null|]. iIntros "I". iDestruct (item_opened with "I") as (ps) "O". iApply (wp_build_elements with "O"); [|done].
    rewrite Forall_forall in *. intros x Hx. apply IH; [done|by apply Hj].
  - rewrite all_of_Forall in Hj. iIntros "K". wp_bind. iApply (wp_create mf _ (simple cJSON_Object [])); [done..|]. iIntros (p) "I". iApply (wp_made with "I").
    iSplit; [iIntros (Hm); wp_ret; iApply "K"; by iApply made_null|]. iIntros "I". iDestruct (item_opened with "I") as (ps) "O". iApply (wp_build_members with "O"); [| |done]; rewrite Forall_forall in *; intros x Hx.
    + apply IH; [done|by apply Hj].
    + by apply Hj.
Qed.

(** ** Changes of an array *)

Inductive edit := EAdd (j : json) | EInsert (i : Z) (j : json) | EDelete (i : Z) | EReplace (i : Z) (j : json).

Definition run_edit (a : Z) (e : edit) : M unit :=
  match e with
  | EAdd j => n <-- build j;; if n =? NULL then fret tt else cJSON_AddItemToArray a n;;; fret tt
  | EInsert i j =>
      n <-- build j;;
      if n =? NULL then fret tt else ok <-- cJSON_InsertItemInArray a i n;; if ok then fret tt else cJSON_Delete n
  | EDelete i => cJSON_DeleteItemFromArray a i
  | EReplace i j =>
      n <-- build j;;
      if n =? NULL then fret tt else ok <-- cJSON_ReplaceItemInArray a i n;; if ok then fret tt else cJSON_Delete n
  end.

(** The same on a list. *)
Definition edit_list (l : list json) (e : edit) : list json :=
  match e with
  | EAdd j => l ++ [j]
  | EInsert i j => if i <? 0 then l else take (Z.to_nat i) l ++ j :: drop (Z.to_nat i) l
  | EDelete i => if (i <? 0) || (zlen l <=? i) then l else take (Z.to_nat i) l ++ drop (S (Z.to_nat i)) l
  | EReplace i j => if (i <? 0) || (zlen l <=? i) then l else take (Z.to_nat i) l ++ j :: drop (S (Z.to_nat i)) l
  end.
Definition edit_ok (e : edit) : Prop := match e with EAdd j | EInsert _ j | EReplace _ j => json_ok j | EDelete _ => True end.

Lemma opened_length i ks p nx pv ps : opened i ks p nx pv ps ⊢ ⌜length ps = length ks⌝.
Proof. iIntros "(% & % & _ & _ & _ & _ & C)". iApply (chain_length with "C"). Qed.

Lemma opened_not_null i ks1 t ks2 p nx pv ps1 q ps2 : length ps1 = length ks1 →
  opened i (ks1 ++ t :: ks2) p nx pv (ps1 ++ q :: ps2) ⊢ ⌜q ≠ NULL⌝.
Proof. intros H. iIntros "O". iDestruct (opened_at with "O") as "(%n & _ & (%Hc & %Hp & %Hq & _) & _)"; [done|]. by iPureIntro. Qed.

(** The element at a place, with the address it has. *)
Lemma at_place {A} (l : list A) (ps : list Z) i : 0 <= i < zlen l → length ps = length l →
  ∃ l1 x l2 ps1 q ps2, l = l1 ++ x :: l2 ∧ ps = ps1 ++ q :: ps2 ∧ length ps1 = length l1 ∧ length l1 = Z.to_nat i.
Proof.
  intros Hi Hl. unfold zlen in Hi. destruct (lookup_lt_is_Some_2 l (Z.to_nat i)) as [x Hx]; [lia|].
  destruct (lookup_lt_is_Some_2 ps (Z.to_nat i)) as [q Hq]; [lia|].
  exists (take (Z.to_nat i) l), x, (drop (S (Z.to_nat i)) l), (take (Z.to_nat i) ps), q, (drop (S (Z.to_nat i)) ps).
  rewrite !take_drop_middle by done. rewrite !length_take. split_and!; [done|done|lia|lia].
Qed.

Section Edit.
Context (mf : bool) (a : Z) (i0 : jinfo).
Definition array_of (l : list json) : hP := (∃ ps, opened i0 (map built l) a NULL NULL ps)%I.

Lemma array_of_add l j n (Φ : bool → hP) :
  ⊢ array_of l -∗ item (built j) n NULL NULL -∗ (array_of (l ++ [j]) -∗ Φ true) -∗ wp mf (add_item_to_array a n) Φ.
Proof.
  iIntros "(%ps & O) I K". iApply (wp_add_item with "O I"). iIntros "O". iApply "K". iExists (ps ++ [n]).
  rewrite map_app. done.
Qed.

(** What is found at a place. *)
Lemma wp_place l i (Φ : Z → hP) : 0 <= i →
  ⊢ array_of l -∗
    ((⌜zlen l <= i⌝ → array_of l -∗ Φ NULL) ∧
     (∀ l1 x l2 ps1 q ps2, ⌜l = l1 ++ x :: l2 ∧ length l1 = Z.to_nat i ∧ length ps1 = length (map built l1) ∧ q ≠ NULL⌝ →
        opened i0 (map built l1 ++ built x :: map built l2) a NULL NULL (ps1 ++ q :: ps2) -∗ Φ q)) -∗
    wp mf (get_array_item a i) Φ.
Proof.
  intros Hi. iIntros "(%ps & O) K". iDestruct (opened_length with "O") as %Hl. rewrite length_map in Hl. iApply (wp_get_array_item with "O"); [done|].
  iIntros "O". destruct (Z.ltb_spec i (zlen l)) as [Hlt|Hge].
  - iDestruct "K" as "[_ K]". destruct (at_place l ps i) as (l1 & x & l2 & ps1 & q & ps2 & -> & -> & H1 & H2); [lia|done|].
    rewrite <- H2, <- H1, drop_app_length. cbn [hd]. rewrite map_app. cbn [List.map].
    iDestruct (opened_not_null with "O") as %Hq; [by rewrite length_map|].
    iApply ("K" $! l1 x l2 ps1 q ps2); [by rewrite length_map|done].
  - iDestruct "K" as "[K _]". rewrite drop_ge by (unfold zlen in Hge; lia). cbn [hd]. iApply "K"; [done|]. by iExists ps.
Qed.

Lemma edit_at {A} (l1 : list A) x l2 i : length l1 = Z.to_nat i → 0 <= i →
  take (Z.to_nat i) (l1 ++ x :: l2) = l1 ∧ drop (Z.to_nat i) (l1 ++ x :: l2) = x :: l2 ∧ drop (S (Z.to_nat i)) (l1 ++ x :: l2) = l2 ∧
  (zlen (l1 ++ x :: l2) <=? i) = false.
Proof.
  intros H Hi. rewrite <- H. split; [apply take_app_length|]. split; [apply drop_app_length|]. split.
  - rewrite cons_middle, (assoc_L (++)). apply drop_app_length'. rewrite length_app. cbn. lia.
  - apply Z.leb_gt. unfold zlen. rewrite length_app. cbn. lia.
Qed.

Lemma opened_array l1 x l2 ps : opened i0 (map built l1 ++ built x :: map built l2) a NULL NULL ps ⊢ array_of (l1 ++ x :: l2).
Proof. iIntros "O". iExists ps. rewrite map_app. done. Qed.

Lemma wp_insert l i j n (Φ : bool → hP) :
  ⊢ array_of l -∗ item (built j) n NULL NULL -∗
    ((⌜i < 0⌝ → array_of l -∗ item (built j) n NULL NULL -∗ Φ false) ∧ (⌜0 <= i⌝ → array_of (edit_list l (EInsert i j)) -∗ Φ true)) -∗
    wp mf (cJSON_InsertItemInArray a i n) Φ.
Proof.
  iIntros "A I K". destruct (Z.ltb_spec i 0) as [Hi|Hi].
  { unfold cJSON_InsertItemInArray. rewrite (proj2 (Z.ltb_lt _ _)) by done. wp_ret. iDestruct "K" as "[K _]". iApply ("K" with "[//] A I"). }
  iDestruct "K" as "[_ K]". iSpecialize ("K" with "[//]"). cbn [edit_list]. rewrite (proj2 (Z.ltb_ge i 0)) by done.
  destruct (Z.ltb_spec i (zlen l)) as [Hlt|Hge].
  - iDestruct "A" as (ps) "O". iDestruct (opened_length with "O") as %Hl. rewrite length_map in Hl.
    destruct (at_place l ps i) as (l1 & x & l2 & ps1 & q & ps2 & -> & -> & H1 & H2); [lia|done|]. destruct (edit_at l1 x l2 i H2 Hi) as (-> & -> & _).
    rewrite map_app. cbn [List.map]. iApply (wp_insert_before with "O I"); [by rewrite length_map|rewrite zlen_map; unfold zlen; lia|].
    iIntros "O". iApply "K". iExists _. rewrite map_app. iExact "O".
  - unfold cJSON_InsertItemInArray. rewrite (proj2 (Z.ltb_ge i 0)) by done. wp_bind. iApply (wp_place with "A"); [done|]. iSplit.
    + iIntros (_) "A". rewrite Z.eqb_refl. rewrite take_ge, drop_ge by (unfold zlen in Hge; lia). iApply (array_of_add with "A I K").
    + iIntros (l1 x l2 ps1 q ps2 (E & H2 & _)). exfalso. subst l. destruct (edit_at l1 x l2 i H2 Hi) as (_ & _ & _ & E). apply Z.leb_gt in E. lia.
Qed.

Lemma wp_delete_at l i (Φ : unit → hP) :
  ⊢ array_of l -∗ (array_of (edit_list l (EDelete i)) -∗ Φ tt) -∗ wp mf (cJSON_DeleteItemFromArray a i) Φ.
Proof.
  iIntros "A K". unfold cJSON_DeleteItemFromArray, cJSON_DetachItemFromArray. cbn [edit_list]. destruct (Z.ltb_spec i 0) as [Hi|Hi]; cbn [orb].
  { wp_bind. wp_ret. iApply wp_delete_null. by iApply "K". }
  wp_bind. wp_bind. iApply (wp_place with "A"); [done|]. iSplit.
  - iIntros (Hge) "A". rewrite (proj2 (Z.leb_le _ _)) by done. unfold cJSON_DetachItemViaPointer. rewrite Z.eqb_refl, orb_true_r. wp_ret.
    iApply wp_delete_null. by iApply "K".
  - iIntros (l1 x l2 ps1 q ps2 (-> & H2 & H1 & Hq)) "O". destruct (edit_at l1 x l2 i H2 Hi) as (-> & _ & -> & ->).
    iApply (wp_detach with "O"); [done|]. iIntros "O I". iApply (wp_delete with "I"). iApply "K". iExists _. rewrite map_app. iExact "O".
Qed.

Lemma wp_replace_at l i j n (Φ : bool → hP) :
  ⊢ array_of l -∗ item (built j) n NULL NULL -∗
    ((array_of (edit_list l (EReplace i j)) -∗ item (built j) n NULL NULL -∗ Φ false) ∧ (array_of (edit_list l (EReplace i j)) -∗ Φ true)) -∗
    wp mf (cJSON_ReplaceItemInArray a i n) Φ.
Proof.
  iIntros "A I K". unfold cJSON_ReplaceItemInArray. cbn [edit_list]. destruct (Z.ltb_spec i 0) as [Hi|Hi]; cbn [orb].
  { wp_ret. iDestruct "K" as "[K _]". iApply ("K" with "A I"). }
  wp_bind. iApply (wp_place with "A"); [done|]. iSplit.
  - iIntros (Hge) "A". rewrite (proj2 (Z.leb_le _ _)) by done. unfold cJSON_ReplaceItemViaPointer. rewrite Z.eqb_refl, orb_true_r. wp_ret.
    iDestruct "K" as "[K _]". iApply ("K" with "A I").
  - iIntros (l1 x l2 ps1 q ps2 (-> & H2 & H1 & Hq)) "O". destruct (edit_at l1 x l2 i H2 Hi) as (-> & _ & -> & ->).
    iApply (wp_replace with "O I"); [done|]. iIntros "O". iDestruct "K" as "[_ K]". iApply "K". iExists _. rewrite map_app. iExact "O".
Qed.

(** What an edit makes of the list; without memory it may be left out. *)
Lemma wp_edit l e (Φ : unit → hP) : edit_ok e →
  ⊢ array_of l -∗ ((⌜mf = true⌝ → array_of l -∗ Φ tt) ∧ (array_of (edit_list l e) -∗ Φ tt)) -∗ wp mf (run_edit a e) Φ.
Proof.
  intros He. iIntros "A K". destruct e as [j|i j|i|i j]; cbn [run_edit edit_ok] in *.
  1,2,4: wp_bind; iApply wp_build; [done|]; iIntros (n) "I"; iApply (wp_made with "I"); iSplit;
    [iIntros (Hm); wp_ret; iDestruct "K" as "[K _]"; iApply ("K" with "[//] A")|iIntros "I"; wp_bind].
  - iApply (array_of_add with "A I"). iIntros "A". wp_ret. iDestruct "K" as "[_ K]". by iApply "K".
  - iApply (wp_insert with "A I"). iDestruct "K" as "[_ K]". iSplit.
    + iIntros (Hi) "A I". iApply (wp_delete with "I"). cbn [edit_list]. rewrite (proj2 (Z.ltb_lt i 0)) by done. by iApply "K".
    + iIntros (_) "A". wp_ret. by iApply "K".
  - iApply (wp_replace_at with "A I"). iDestruct "K" as "[_ K]". iSplit; [iIntros "A I"; iApply (wp_delete with "I")|iIntros "A"; wp_ret]; by iApply "K".
  - iApply (wp_delete_at with "A"). iDestruct "K" as "[_ K]". done.
Qed.
End Edit.

Fixpoint run_edits (a : Z) (es : list edit) : M unit :=
  match es with [] => fret tt | e :: es => run_edit a e;;; run_edits a es end.

Lemma wp_edits mf a i0 es : Forall edit_ok es → ∀ l (Φ : unit → hP),
  ⊢ array_of a i0 l -∗
    (∀ es', ⟨ es' `sublist_of` es ∧ (mf = false → es' = es) ⟩ -∗ array_of a i0 (foldl edit_list l es') -∗ Φ tt) -∗ wp mf (run_edits a es) Φ.
Proof.
  induction 1 as [|e es He _ IH]; intros l Φ; iIntros "A K"; cbn [run_edits].
  - wp_ret. iApply ("K" $! [] with "[] A"). iPureIntro. split; [constructor|done].
  - wp_bind. iApply (wp_edit with "A"); [done|]. iSplit.
    + iIntros (Hm) "A". iApply (IH with "A"). iIntros (es') "%Hs A". iApply ("K" $! es' with "[] A"). iPureIntro. destruct Hs as [Hs _].
      split; [by constructor|congruence].
    + iIntros "A". iApply (IH with "A"). iIntros (es') "%Hs A". iApply ("K" $! (e :: es') with "[] A"). iPureIntro. destruct Hs as [Hs H1].
      split; [by constructor|]. intros Hm. by rewrite H1.
Qed.

(** *** A whole run *)

Definition edit_run (es : list edit) (fmt : bool) : M Z :=
  a <-- cJSON_CreateArray;;
  if a =? NULL then fret NULL
  else run_edits a es;;; p <-- print a fmt;; cJSON_Delete a;;; fret p.

Lemma edits_ok es : Forall edit_ok es → ∀ l, Forall json_ok l → Forall json_ok (foldl edit_list l es).
Proof.
  induction 1 as [|e es He _ IH]; intros l Hl; [done|]. cbn [foldl]. apply IH.
  destruct e as [j|i j|i|i j]; cbn [edit_list edit_ok] in *; [|destruct (_ <? _)|destruct (_ || _)|destruct (_ || _)]; try done;
    rewrite ?Forall_app, ?Forall_cons; repeat split; try done; auto using Forall_take, Forall_drop.
Qed.
Lemma sublist_ok es' es : es' `sublist_of` es → Forall edit_ok es → Forall edit_ok es'.
Proof. intros H1 H2. rewrite Forall_forall in *. intros x Hx. apply H2. eapply elem_of_submseteq; [done|by apply sublist_submseteq]. Qed.

(** C15: an array that is changed by any edits and then printed: the printed text is
    that of the list that the edits give, every node is given back, and where the
    allocator fails edits are left out, whole, or there is no text. *)
Theorem edit_json es fmt oks : Forall edit_ok es → ∃ p m, edit_run es fmt (fresh_memory oks) = Ok (p, m) ∧
  ((∃ es', es' `sublist_of` es ∧ (Forall (eq true) oks → es' = es) ∧
      blocks m = {[p := JBytes (json_text fmt 0 (JArr (foldl edit_list [] es')) ++ [0])]}) ∨
   (p = NULL ∧ blocks m = ∅ ∧
      (Forall (eq true) oks → INT_MAX < zlen (json_text fmt 0 (JArr (foldl edit_list [] es))) + 2))).
Proof.
  intros He. set (mf := may_fail oks).
  destruct (fresh_run (edit_run es fmt) (λ p,
    (∃ es', ⟨ es' `sublist_of` es ∧ (mf = false → es' = es) ⟩ ∗ p ↦ JBytes (json_text fmt 0 (JArr (foldl edit_list [] es')) ++ [0])) ∨
    ⟨ p = NULL ∧ (mf = false → INT_MAX < zlen (json_text fmt 0 (JArr (foldl edit_list [] es))) + 2) ⟩)%I oks) as (p & m & E & HΦ).
  - unfold edit_run. wp_bind. iApply (wp_create _ _ (simple cJSON_Array [])); [done..|]. iIntros (a) "I". iApply (wp_made with "I"). iSplit.
    { iIntros (Hm). wp_ret. iRight. iPureIntro. split; [done|intros Hf; unfold mf in *; congruence]. }
    iIntros "I". iDestruct (item_opened with "I") as (ps) "O". wp_bind. iApply (wp_edits _ _ _ es He [] with "[O]"); [by iExists ps|].
    iIntros (es') "%Hs A". destruct Hs as [Hs Hf]. set (l := foldl edit_list [] es').
    assert (json_ok (JArr l)) as Hok.
    { cbn [json_ok]. apply all_of_Forall, edits_ok; [by eapply sublist_ok|constructor]. }
    iDestruct "A" as (qs) "O". iDestruct (item_of_list with "O") as "I". change (simple cJSON_Array (map built l)) with (built (JArr l)). wp_bind.
    iApply (wp_print with "I"); [by apply tree_of_bytes|]. iIntros (q) "I P". wp_bind. iApply (wp_delete with "I"). wp_ret.
    unfold printed, no_text. rewrite (value_json fmt 0 (JArr l) Hok 0). iDestruct "P" as "[(%x & %Hx & Q)|%Hn]".
    + iLeft. iExists es'. injection Hx as <-. iFrame. by iPureIntro.
    + iRight. iPureIntro. destruct Hn as [-> Hn]. split; [done|]. intros Hm. unfold l in Hn. rewrite (Hf Hm) in Hn.
      destruct Hn as [Hn|Hn]; [unfold mf in Hm; congruence|by apply Hn].
  - exists p, m. split; [done|]. destruct HΦ as [[es' H]|H].
    + left. apply holds_affine_sep in H as [[H1 H2] [Hb _]]. exists es'. split; [done|]. split; [|done]. intros Ho. apply H2. by apply may_fail_true.
    + right. apply holds_affine in H as [[H1 H2] Hb]. split; [done|]. split; [done|]. intros Ho. apply H2. by apply may_fail_true.
Qed.

Definition demo_edits : list edit := [EAdd (JInt 1); EInsert 0 (JText [97]); EReplace 1 (JArr [JTrue]); EDelete 0; EAdd (JObj [([98], JNull)])].
Lemma edit_json_witness : ∃ p m, edit_run demo_edits false (fresh_memory [true]) = Ok (p, m) ∧
  ((∃ es', es' `sublist_of` demo_edits ∧ (Forall (eq true) [true] → es' = demo_edits) ∧
      blocks m = {[p := JBytes (json_text false 0 (JArr (foldl edit_list [] es')) ++ [0])]}) ∨
   (p = NULL ∧ blocks m = ∅ ∧ (Forall (eq true) [true] → INT_MAX < zlen (json_text false 0 (JArr (foldl edit_list [] demo_edits))) + 2))).
Proof.
  apply (edit_json demo_edits false [true]). repeat constructor; cbn; unfold is_int, is_text, INT_MIN, INT_MAX; repeat split; try lia;
    apply (bool_decide_unpack _); vm_compute; exact I.
Defined.
(** The text of that list. *)
Example demo_edits_text :
  json_text false 0 (JArr (foldl edit_list [] demo_edits)) = lit "[[true],{" ++ [34; 98; 34] ++ lit ":null}]".
Proof. reflexivity. Qed.
