(* ===== verification/Mqtt.v ===== *)
(** * The MQTT connection

    app/net_passthrough/wiota_mqtt.c: connecting until it works, keeping the
    connection alive, publishing, subscribing and disconnecting, with the parts of
    packages/uc_wolfMQTT that own the memory of a connection (mqtt_init_ctx,
    MqttClientNet_Init, MqttClientNet_DeInit, MqttClient_Init, the socket of
    NetConnect, NetWrite and NetDisconnect, MqttClient_Disconnect_ex), and the loop of
    passthrough_manager_task around them.

    Memory holds the context, the static variables, sockets, buffers, threads and the
    history of what the outside was asked and answered; the next answer is any
    function of the history.  The calls of the library that exchange packets other
    than DISCONNECT use the socket and the buffers of the connection and are then
    such an answer.  The library is configured with WOLFMQTT_V5, which the context's
    field max_packet_size needs, and otherwise as its Kconfig presets.  A loop
    without a bound runs a given number of rounds and says when it is not over. *)

From stdpp Require Import strings.
From S2P Require Import Prelude SepLog Threads.
From S2P Require NetPass.
#[local] Set Warnings "-register-all".
Local Open Scope fw_scope.

Definition MQTT_CODE_SUCCESS : Z := 0.
Definition MQTT_CODE_ERROR_BAD_ARG : Z := -1.
Definition MQTT_CODE_ERROR_OUT_OF_BUFFER : Z := -2.
Definition MQTT_CODE_ERROR_TIMEOUT : Z := -7.
Definition MQTT_CODE_ERROR_NETWORK : Z := -8.
Definition MQTT_CODE_ERROR_MEMORY : Z := -9.
Definition MQTT_CODE_ERROR_SERVER_PROP : Z := -12.
Definition MQTT_CODE_PUB_CONTINUE : Z := -103.
Definition MAX_BUFFER_SIZE : Z := 2048.
Definition DEFAULT_CON_TIMEOUT_MS : Z := 10000.
Definition MAX_PACKET_ID : Z := 65535.

(** ** Data *)

(** A string, None for a null pointer. *)
Abbreviation cstr := (option (list Z)).

(** Fields that only the exchange of packets uses are left out. *)
Record MqttNet := { net_ready : bool; net_context : Z }.   (* are the callbacks set *)
Record MqttClient := {
  cl_connected : bool;      (* MQTT_CLIENT_FLAG_IS_CONNECTED *)
  cl_cmd_timeout_ms : Z;
  cl_tx_buf : Z; cl_tx_buf_len : Z;
  cl_rx_buf : Z; cl_rx_buf_len : Z;
  cl_net : bool;            (* is it the net of the context, or null *)
  cl_write_pos : Z;
  cl_msg_cb : bool;
  cl_packet_sz_max : Z
}.
Record MqttMessage := {
  m_packet_id : Z; m_qos : Z; m_retain : Z; m_duplicate : Z; m_topic_name : cstr; m_buffer : cstr; m_total_len : Z
}.
Record MqttConnect := {
  co_keep_alive_sec : Z; co_clean_session : Z; co_client_id : cstr; co_enable_lwt : Z; co_lwt_msg : MqttMessage;
  co_username : cstr; co_password : cstr
}.
Record MqttTopic := { topic_filter : cstr; topic_qos : Z }.
Record MqttSubscribe := { su_packet_id : Z; su_topics : list MqttTopic }.

Record MQTTCtx := {
  client : MqttClient;
  net : MqttNet;
  connect : MqttConnect;
  topics : MqttTopic;       (* topics[1] *)
  publish : MqttMessage;
  qos : Z;
  app_name : cstr; host : cstr; username : cstr; password : cstr; topic_name : cstr; client_id : cstr;
  tx_buf : Z; rx_buf : Z;
  use_tls : Z;
  enable_lwt : Z;
  max_packet_size : Z;
  cmd_timeout_ms : Z;
  keep_alive_sec : Z;
  port : Z;
  clean_session : Z
}.

Definition zero_net : MqttNet := {| net_ready := false; net_context := NULL |}.
Definition zero_client : MqttClient :=
  {| cl_connected := false; cl_cmd_timeout_ms := 0; cl_tx_buf := NULL; cl_tx_buf_len := 0; cl_rx_buf := NULL;
     cl_rx_buf_len := 0; cl_net := false; cl_write_pos := 0; cl_msg_cb := false; cl_packet_sz_max := 0 |}.
Definition zero_message : MqttMessage :=
  {| m_packet_id := 0; m_qos := 0; m_retain := 0; m_duplicate := 0; m_topic_name := None; m_buffer := None; m_total_len := 0 |}.
Definition zero_connect : MqttConnect :=
  {| co_keep_alive_sec := 0; co_clean_session := 0; co_client_id := None; co_enable_lwt := 0; co_lwt_msg := zero_message;
     co_username := None; co_password := None |}.
Definition zero_topic : MqttTopic := {| topic_filter := None; topic_qos := 0 |}.
Definition zero_ctx : MQTTCtx :=
  {| client := zero_client; net := zero_net; connect := zero_connect; topics := zero_topic; publish := zero_message; qos := 0;
     app_name := None; host := None; username := None; password := None; topic_name := None; client_id := None; tx_buf := NULL; rx_buf := NULL;
     use_tls := 0; enable_lwt := 0; max_packet_size := 0; cmd_timeout_ms := 0; keep_alive_sec := 0; port := 0; clean_session := 0 |}.

Section Setters.
Implicit Types c : MQTTCtx.
Definition set_client v c := {| client := v; net := net c; connect := connect c; topics := topics c; publish := publish c; qos := qos c; app_name := app_name c; host := host c; username := username c; password := password c; topic_name := topic_name c; client_id := client_id c; tx_buf := tx_buf c; rx_buf := rx_buf c; use_tls := use_tls c; enable_lwt := enable_lwt c; max_packet_size := max_packet_size c; cmd_timeout_ms := cmd_timeout_ms c; keep_alive_sec := keep_alive_sec c; port := port c; clean_session := clean_session c |}.
Definition set_net v c := {| client := client c; net := v; connect := connect c; topics := topics c; publish := publish c; qos := qos c; app_name := app_name c; host := host c; username := username c; password := password c; topic_name := topic_name c; client_id := client_id c; tx_buf := tx_buf c; rx_buf := rx_buf c; use_tls := use_tls c; enable_lwt := enable_lwt c; max_packet_size := max_packet_size c; cmd_timeout_ms := cmd_timeout_ms c; keep_alive_sec := keep_alive_sec c; port := port c; clean_session := clean_session c |}.
Definition set_connect v c := {| client := client c; net := net c; connect := v; topics := topics c; publish := publish c; qos := qos c; app_name := app_name c; host := host c; username := username c; password := password c; topic_name := topic_name c; client_id := client_id c; tx_buf := tx_buf c; rx_buf := rx_buf c; use_tls := use_tls c; enable_lwt := enable_lwt c; max_packet_size := max_packet_size c; cmd_timeout_ms := cmd_timeout_ms c; keep_alive_sec := keep_alive_sec c; port := port c; clean_session := clean_session c |}.
Definition set_topics v c := {| client := client c; net := net c; connect := connect c; topics := v; publish := publish c; qos := qos c; app_name := app_name c; host := host c; username := username c; password := password c; topic_name := topic_name c; client_id := client_id c; tx_buf := tx_buf c; rx_buf := rx_buf c; use_tls := use_tls c; enable_lwt := enable_lwt c; max_packet_size := max_packet_size c; cmd_timeout_ms := cmd_timeout_ms c; keep_alive_sec := keep_alive_sec c; port := port c; clean_session := clean_session c |}.
Definition set_publish v c := {| client := client c; net := net c; connect := connect c; topics := topics c; publish := v; qos := qos c; app_name := app_name c; host := host c; username := username c; password := password c; topic_name := topic_name c; client_id := client_id c; tx_buf := tx_buf c; rx_buf := rx_buf c; use_tls := use_tls c; enable_lwt := enable_lwt c; max_packet_size := max_packet_size c; cmd_timeout_ms := cmd_timeout_ms c; keep_alive_sec := keep_alive_sec c; port := port c; clean_session := clean_session c |}.
Definition set_bufs t r c := {| client := client c; net := net c; connect := connect c; topics := topics c; publish := publish c; qos := qos c; app_name := app_name c; host := host c; username := username c; password := password c; topic_name := topic_name c; client_id := client_id c; tx_buf := t; rx_buf := r; use_tls := use_tls c; enable_lwt := enable_lwt c; max_packet_size := max_packet_size c; cmd_timeout_ms := cmd_timeout_ms c; keep_alive_sec := keep_alive_sec c; port := port c; clean_session := clean_session c |}.
End Setters.
Definition set_write_pos v m := {| cl_connected := cl_connected m; cl_cmd_timeout_ms := cl_cmd_timeout_ms m; cl_tx_buf := cl_tx_buf m; cl_tx_buf_len := cl_tx_buf_len m; cl_rx_buf := cl_rx_buf m; cl_rx_buf_len := cl_rx_buf_len m; cl_net := cl_net m; cl_write_pos := v; cl_msg_cb := cl_msg_cb m; cl_packet_sz_max := cl_packet_sz_max m |}.
Definition set_connected v m := {| cl_connected := v; cl_cmd_timeout_ms := cl_cmd_timeout_ms m; cl_tx_buf := cl_tx_buf m; cl_tx_buf_len := cl_tx_buf_len m; cl_rx_buf := cl_rx_buf m; cl_rx_buf_len := cl_rx_buf_len m; cl_net := cl_net m; cl_write_pos := cl_write_pos m; cl_msg_cb := cl_msg_cb m; cl_packet_sz_max := cl_packet_sz_max m |}.
Definition set_packet_sz_max v m := {| cl_connected := cl_connected m; cl_cmd_timeout_ms := cl_cmd_timeout_ms m; cl_tx_buf := cl_tx_buf m; cl_tx_buf_len := cl_tx_buf_len m; cl_rx_buf := cl_rx_buf m; cl_rx_buf_len := cl_rx_buf_len m; cl_net := cl_net m; cl_write_pos := cl_write_pos m; cl_msg_cb := cl_msg_cb m; cl_packet_sz_max := v |}.

Inductive connect_state : Set := STATE_DISCONNECT | STATE_CONNECT.
#[export] Instance connect_state_eq_dec : EqDecision connect_state.
Proof. solve_decision. Defined.
(** Static variables: of wiota_mqtt.c (two of them in mqttclient_waitmessage) and mqttctx.c. *)
Record mqtt_static := {
  uc_mqtt_state : connect_state;
  netdev : Z;
  last_tick : Z;
  start_flag : Z;
  mPacketIdLast : Z
}.
Definition set_state v s := {| uc_mqtt_state := v; netdev := netdev s; last_tick := last_tick s; start_flag := start_flag s; mPacketIdLast := mPacketIdLast s |}.
Definition set_netdev v s := {| uc_mqtt_state := uc_mqtt_state s; netdev := v; last_tick := last_tick s; start_flag := start_flag s; mPacketIdLast := mPacketIdLast s |}.
Definition set_tick v f s := {| uc_mqtt_state := uc_mqtt_state s; netdev := netdev s; last_tick := v; start_flag := f; mPacketIdLast := mPacketIdLast s |}.
Definition set_packet_id v s := {| uc_mqtt_state := uc_mqtt_state s; netdev := netdev s; last_tick := last_tick s; start_flag := start_flag s; mPacketIdLast := v |}.

(** ** The outside *)

Inductive mqtt_request : Set :=
| FindDevice (name : list Z) | LinkUp | TickGet | Delay (ms : Z)
| Resolve (host : cstr) | OpenSocket | SockConnect (port timeout_ms : Z) | SockSend (bytes : list Z) | CloseSocket
| Connect (packet : MqttConnect) | WaitMessage (timeout_ms : Z) | PingReq
| Subscribe (packet : MqttSubscribe) | Unsubscribe (packet : MqttSubscribe) | Publish (packet : MqttMessage).
(** What was asked, with the result and the position a packet that was not sent completely has reached. *)
Record mqtt_event := { ev_request : mqtt_request; ev_rc : Z; ev_pos : nat }.
Abbreviation history := (list mqtt_event).

Record SocketContext := { fd_open : bool; sock_conn : bool }.   (* stat is SOCK_CONN *)
Inductive mqtt_block :=
| BCtx (c : MQTTCtx) | BStatic (s : mqtt_static) | BHistory (l : history)
| BSock (s : SocketContext) | BBuf (size : Z)
| BThread (stack : Z) | BStack (size : Z) | BQueue (pool : Z) | BPool (size : Z).
#[export] Instance mqtt_kernel : KernelBlocks mqtt_block := {|
  thread_block := BThread; stack_block := BStack; queue_block := BQueue; pool_block := BPool;
  stack_addr b := match b with BThread a => Some a | _ => None end; msg_pool b := match b with BQueue a => Some a | _ => None end;
  stack_addr_thread a := eq_refl; msg_pool_queue a := eq_refl
|}.

(** The addresses of the static objects. *)
Definition mqttCtx : Z := 1.
Definition statics : Z := 2.
Definition outside : Z := 3.

Section Mqtt.
(** The next answer: a result and a position. *)
Variable answer : history → mqtt_request → Z * nat.
Local Abbreviation M := (FW (mem mqtt_block)).

Definition get_ctx (p : Z) : M MQTTCtx := b <-- load p;; match b with BCtx c => fret c | _ => ffail OutOfBounds end.
Definition mod_ctx (p : Z) (f : MQTTCtx → MQTTCtx) : M unit := c <-- get_ctx p;; put p (BCtx (f c)).
Definition mod_client (p : Z) (f : MqttClient → MqttClient) : M unit := mod_ctx p (λ c, set_client (f (client c)) c).
Definition get_static : M mqtt_static := b <-- load statics;; match b with BStatic s => fret s | _ => ffail OutOfBounds end.
Definition mod_static (f : mqtt_static → mqtt_static) : M unit := s <-- get_static;; put statics (BStatic (f s)).
Definition get_sock (p : Z) : M SocketContext := b <-- load p;; match b with BSock s => fret s | _ => ffail OutOfBounds end.
(** The buffer is written or read. *)
Definition touch_buf (p : Z) : M unit := b <-- load p;; match b with BBuf _ => fret tt | _ => ffail OutOfBounds end.

Definition ask (r : mqtt_request) : M (Z * nat) :=
  b <-- load outside;;
  match b with
  | BHistory l => let a := answer l r in put outside (BHistory (l ++ [{| ev_request := r; ev_rc := a.1; ev_pos := a.2 |}]));;; fret a
  | _ => ffail OutOfBounds
  end.
Definition ask_rc (r : mqtt_request) : M Z := a <-- ask r;; fret a.1.

(** A loop of the source, at most [n] rounds: None when it goes on. *)
Fixpoint attempts {A} (n : nat) (body : M (option A)) : M (option A) :=
  match n with
  | O => fret None
  | S n => r <-- body;; match r with Some a => fret (Some a) | None => attempts n body end
  end.

(** ** The library: memory of a connection *)

Definition WOLFMQTT_FREE (p : Z) : M unit := if p =? NULL then fret tt else dealloc p.

Definition mqtt_init_ctx (p : Z) : M unit :=
  mod_ctx p (λ _,
    {| client := zero_client; net := zero_net; connect := zero_connect; topics := zero_topic; publish := zero_message; qos := 0;
       app_name := None; host := Some (NetPass.text "test.mosquitto.org"); username := None; password := None;
       topic_name := Some (NetPass.text "wolfMQTT/example/testTopic"); client_id := Some (NetPass.text "WolfMQTTClient");
       tx_buf := NULL; rx_buf := NULL; use_tls := 0; enable_lwt := 0; max_packet_size := 1024 * 1024; cmd_timeout_ms := 30000;
       keep_alive_sec := 60; port := 0; clean_session := 1 |}).

Definition mqtt_get_packetid : M Z :=
  s <-- get_static;;
  let last := if mPacketIdLast s >=? MAX_PACKET_ID then 0 else mPacketIdLast s in
  mod_static (set_packet_id (u16 (last + 1)));;; fret (u16 (last + 1)).

Definition MqttClientNet_Init (p : Z) : M Z :=
  mod_ctx p (set_net {| net_ready := true; net_context := NULL |});;;
  q <-- alloc (BSock {| fd_open := false; sock_conn := false |});;
  if q =? NULL then fret MQTT_CODE_ERROR_MEMORY
  else mod_ctx p (set_net {| net_ready := true; net_context := q |});;; fret MQTT_CODE_SUCCESS.

Definition MqttClientNet_DeInit (p : Z) : M Z :=
  c <-- get_ctx p;; WOLFMQTT_FREE (net_context (net c));;; mod_ctx p (set_net zero_net);;; fret 0.

Definition MqttSocket_Init (p : Z) : M Z :=
  mod_client p (λ m, {| cl_connected := false; cl_cmd_timeout_ms := cl_cmd_timeout_ms m; cl_tx_buf := cl_tx_buf m;
    cl_tx_buf_len := cl_tx_buf_len m; cl_rx_buf := cl_rx_buf m; cl_rx_buf_len := cl_rx_buf_len m; cl_net := true;
    cl_write_pos := cl_write_pos m; cl_msg_cb := cl_msg_cb m; cl_packet_sz_max := cl_packet_sz_max m |});;;
  c <-- get_ctx p;;
  fret (if net_ready (net c) then MQTT_CODE_SUCCESS else MQTT_CODE_ERROR_BAD_ARG).

Definition MqttClient_Init (p : Z) (msg_cb : bool) (tx_buf tx_buf_len rx_buf rx_buf_len cmd_timeout_ms : Z) : M Z :=
  if (tx_buf =? NULL) || (tx_buf_len <=? 0) || (rx_buf =? NULL) || (rx_buf_len <=? 0) then fret MQTT_CODE_ERROR_BAD_ARG
  else
    mod_client p (λ _,
      {| cl_connected := false; cl_cmd_timeout_ms := cmd_timeout_ms; cl_tx_buf := tx_buf; cl_tx_buf_len := tx_buf_len;
         cl_rx_buf := rx_buf; cl_rx_buf_len := rx_buf_len; cl_net := false; cl_write_pos := 0; cl_msg_cb := msg_cb;
         cl_packet_sz_max := 0 |});;;
    MqttSocket_Init p.

(** mqttnet.c.  What cannot be resolved to an address of the wanted family counts as an error of the lookup. *)
Definition NetConnect (context : Z) (host : cstr) (port timeout_ms : Z) : M Z :=
  s <-- get_sock context;;
  let start s :=
    rc <-- ask_rc (SockConnect port timeout_ms);;
    fret (if rc <? 0 then MQTT_CODE_ERROR_NETWORK else rc) in
  if sock_conn s then start s
  else
    rc <-- ask_rc (Resolve host);;
    if negb (rc =? 0) then fret rc
    else
      fd <-- ask_rc OpenSocket;;
      if fd <? 0 then fret (-1)
      else put context (BSock {| fd_open := true; sock_conn := true |});;; start s.

(** The error of a socket is not asked for here (GET_SOCK_ERROR is empty): -1 becomes 0. *)
Definition NetWrite (context : Z) (buf : list Z) : M Z :=
  if context =? NULL then fret MQTT_CODE_ERROR_BAD_ARG
  else
    s <-- get_sock context;;
    if negb (fd_open s) then fret MQTT_CODE_ERROR_BAD_ARG
    else rc <-- ask_rc (SockSend buf);; fret (if rc =? -1 then 0 else rc).

Definition NetDisconnect (context : Z) : M Z :=
  if context =? NULL then fret 0
  else
    s <-- get_sock context;;
    (if fd_open s then ask CloseSocket;;; fret tt else fret tt);;;
    put context (BSock {| fd_open := false; sock_conn := false |});;; fret 0.

Definition MqttSocket_Connect (p : Z) (host : cstr) (port timeout_ms use_tls : Z) : M Z :=
  c <-- get_ctx p;;
  if negb (cl_net (client c)) || negb (net_ready (net c)) then fret MQTT_CODE_ERROR_BAD_ARG
  else if negb (use_tls =? 0) then fret MQTT_CODE_ERROR_BAD_ARG
  else if cl_connected (client c) then fret MQTT_CODE_SUCCESS
  else
    rc <-- NetConnect (net_context (net c)) host (if port =? 0 then 1883 else port) timeout_ms;;
    if rc <? 0 then fret rc
    else mod_client p (set_connected true);;; fret rc.

Definition MqttSocket_Disconnect (p : Z) : M Z :=
  c <-- get_ctx p;;
  rc <-- (if cl_net (client c) && net_ready (net c) then NetDisconnect (net_context (net c)) else fret MQTT_CODE_SUCCESS);;
  mod_client p (set_connected false);;;
  fret (if rc <? 0 then MQTT_CODE_ERROR_NETWORK else rc).

Fixpoint write_loop (fuel : nat) (p : Z) (buf : list Z) : M Z :=
  match fuel with
  | O => ffail OutOfFuel
  | S fuel =>
      c <-- get_ctx p;;
      let pos := cl_write_pos (client c) in
      rc <-- NetWrite (net_context (net c)) (drop (Z.to_nat pos) buf);;
      if rc <=? 0 then fret rc
      else
        mod_client p (set_write_pos (pos + rc));;;
        if pos + rc <? zlen buf then write_loop fuel p buf
        else mod_client p (set_write_pos 0);;; fret (pos + rc)
  end.
Definition MqttSocket_Write (p : Z) (buf : list Z) : M Z :=
  c <-- get_ctx p;;
  if negb (cl_net (client c)) || negb (net_ready (net c)) then fret MQTT_CODE_ERROR_BAD_ARG
  else if cl_write_pos (client c) >=? zlen buf then fret MQTT_CODE_ERROR_OUT_OF_BUFFER
  else write_loop (S (length buf)) p buf.

Definition MqttPacket_Write (p : Z) (buf : list Z) : M Z :=
  c <-- get_ctx p;;
  if (0 <? cl_packet_sz_max (client c)) && (cl_packet_sz_max (client c) <? zlen buf) then fret MQTT_CODE_ERROR_SERVER_PROP
  else MqttSocket_Write p buf.

(** The packet has no properties: the disconnect structure stays zero. *)
Definition disconnect_packet : list Z := [14 * 16; 0].
Definition MqttClient_Disconnect_ex (p : Z) : M Z :=
  c <-- get_ctx p;;
  if cl_tx_buf (client c) =? NULL then fret MQTT_CODE_ERROR_BAD_ARG
  else if cl_tx_buf_len (client c) <? 5 then fret MQTT_CODE_ERROR_OUT_OF_BUFFER
  else
    touch_buf (cl_tx_buf (client c));;;
    rc <-- MqttPacket_Write p disconnect_packet;;
    fret (if rc =? zlen disconnect_packet then MQTT_CODE_SUCCESS else rc).

(** The other packets: the library encodes and decodes them in the buffers. *)
Definition exchange (p : Z) (r : mqtt_request) : M Z :=
  c <-- get_ctx p;;
  touch_buf (cl_tx_buf (client c));;; touch_buf (cl_rx_buf (client c));;;
  get_sock (net_context (net c));;;
  a <-- ask r;;
  mod_client p (set_write_pos (Z.of_nat a.2));;; fret a.1.

(** ** wiota_mqtt.c: one connection *)

Definition lwt_message (c : MQTTCtx) : MqttMessage :=
  if negb (enable_lwt c =? 0) then
    {| m_packet_id := 0; m_qos := qos c; m_retain := 0; m_duplicate := 0;
       m_topic_name := Some (NetPass.text "wolfMQTT/example/lwttopic"); m_buffer := client_id c;
       m_total_len := u16 (zlen (default [] (client_id c))) |}
  else zero_message.
Definition connect_packet (c : MQTTCtx) : MqttConnect :=
  {| co_keep_alive_sec := keep_alive_sec c; co_clean_session := clean_session c; co_client_id := client_id c;
     co_enable_lwt := enable_lwt c; co_lwt_msg := lwt_message c; co_username := username c; co_password := password c |}.

Definition mqttclient_conn (p : Z) (msg_cb : bool) : M Z :=
  rc <-- MqttClientNet_Init p;;
  if negb (rc =? MQTT_CODE_SUCCESS) then fret rc
  else
    t <-- alloc (BBuf MAX_BUFFER_SIZE);; mod_ctx p (λ c, set_bufs t (rx_buf c) c);;;
    r <-- alloc (BBuf MAX_BUFFER_SIZE);; mod_ctx p (λ c, set_bufs (tx_buf c) r c);;;
    c <-- get_ctx p;;
    rc <-- MqttClient_Init p msg_cb (tx_buf c) MAX_BUFFER_SIZE (rx_buf c) MAX_BUFFER_SIZE (cmd_timeout_ms c);;
    if negb (rc =? MQTT_CODE_SUCCESS) then fret rc
    else
      c <-- get_ctx p;;
      rc <-- MqttSocket_Connect p (host c) (port c) DEFAULT_CON_TIMEOUT_MS (use_tls c);;
      if negb (rc =? MQTT_CODE_SUCCESS) then fret rc
      else
        mod_ctx p (λ c, set_connect (connect_packet c) c);;;
        mod_ctx p (λ c, set_client (set_packet_sz_max (max_packet_size c) (client c)) c);;;
        c <-- get_ctx p;;
        exchange p (Connect (connect c)).

Definition mqttclient_disconn (p : Z) : M Z :=
  rc <-- MqttClient_Disconnect_ex p;;
  if negb (rc =? MQTT_CODE_SUCCESS) then fret rc
  else
    rc <-- MqttSocket_Disconnect p;;
    c <-- get_ctx p;;
    WOLFMQTT_FREE (tx_buf c);;;
    c <-- get_ctx p;;
    WOLFMQTT_FREE (rx_buf c);;;
    MqttClientNet_DeInit p;;;
    fret rc.

Definition mqttclient_get_interval_tick (last : Z) : M Z :=
  cur <-- ask_rc TickGet;;
  fret (if cur >=? last then u32 (cur - last) else u32 (0xffffffff - last + cur + 1)).

Definition keep_alive (p : Z) : M unit :=
  c <-- get_ctx p;;
  let interval_tick := Z.quot (keep_alive_sec c * 1000) 2 in
  s <-- get_static;;
  (if start_flag s =? 1 then now <-- ask_rc TickGet;; mod_static (set_tick now 0) else fret tt);;;
  s <-- get_static;;
  interval <-- mqttclient_get_interval_tick (last_tick s);;
  if interval >? interval_tick then
    now <-- ask_rc TickGet;; mod_static (λ s, set_tick now (start_flag s) s);;;
    exchange p PingReq;;; fret tt
  else fret tt.

Definition mqttclient_waitmessage (p : Z) (timeout_ms : Z) : M Z :=
  rc <-- exchange p (WaitMessage timeout_ms);;
  let rc := if rc =? MQTT_CODE_ERROR_TIMEOUT then MQTT_CODE_SUCCESS else rc in
  (if rc =? MQTT_CODE_SUCCESS then keep_alive p else fret tt);;;
  fret rc.

Definition mqttclient_subscribe (p : Z) (topic : cstr) (nQos : Z) : M Z :=
  match topic with
  | None => fret MQTT_CODE_ERROR_BAD_ARG
  | Some _ =>
      mod_ctx p (set_topics {| topic_filter := topic; topic_qos := nQos |});;;
      id <-- mqtt_get_packetid;;
      c <-- get_ctx p;;
      exchange p (Subscribe {| su_packet_id := id; su_topics := [topics c] |})
  end.

Definition mqttclient_unsubscribe (p : Z) (topic : cstr) : M Z :=
  match topic with
  | None => fret MQTT_CODE_ERROR_BAD_ARG
  | Some _ =>
      mod_ctx p (λ c, set_topics {| topic_filter := topic; topic_qos := topic_qos (topics c) |} c);;;
      id <-- mqtt_get_packetid;;
      c <-- get_ctx p;;
      exchange p (Unsubscribe {| su_packet_id := id; su_topics := [topics c] |})
  end.

(** [rounds] bounds the calls for a payload that does not fit one packet. *)
Definition mqttclient_publish (rounds : nat) (p : Z) (topic : cstr) (data : cstr) (length qos retain duplicate : Z) : M (option Z) :=
  match topic, data with
  | Some _, Some d =>
      if length =? 0 then fret (Some MQTT_CODE_ERROR_BAD_ARG)
      else
        id <-- mqtt_get_packetid;;
        payload <-- flift (slice 0 length d);;
        mod_ctx p (set_publish {| m_packet_id := id; m_qos := qos; m_retain := retain; m_duplicate := duplicate;
          m_topic_name := topic; m_buffer := Some payload; m_total_len := length |});;;
        c <-- get_ctx p;;
        attempts rounds (rc <-- exchange p (Publish (publish c));;
                         fret (if rc =? MQTT_CODE_PUB_CONTINUE then None else Some rc))
  | _, _ => fret (Some MQTT_CODE_ERROR_BAD_ARG)
  end.

(** ** wiota_mqtt.c: the interface *)

Definition uc_find_netcard (rounds : nat) (card_name : cstr) : M (option Z) :=
  match card_name with
  | None | Some [] => fret (Some (-1))
  | Some name =>
      ask (Delay 2000);;;
      d <-- ask_rc (FindDevice name);;
      mod_static (set_netdev d);;;
      if d =? NULL then fret (Some (-2))
      else
        attempts rounds (up <-- ask_rc LinkUp;;
                         if negb (up =? 0) then fret (Some 0) else ask (Delay 100);;; fret None)
  end.

Definition uc_mqtt_get_state : M connect_state := s <-- get_static;; fret (uc_mqtt_state s).

(** The broker and the account. *)
Definition configured (c : MQTTCtx) : MQTTCtx :=
  {| client := client c; net := net c; connect := connect c; topics := topics c; publish := publish c; qos := qos c;
     app_name := Some (NetPass.text "mqttclient"); host := Some (NetPass.text "117.172.29.2"); username := Some (NetPass.text "000b9f3fd63e");
     password := Some (NetPass.text "000b9f3fd63e"); topic_name := topic_name c; client_id := Some (NetPass.text "000b9f3fd63e");
     tx_buf := tx_buf c; rx_buf := rx_buf c; use_tls := use_tls c; enable_lwt := enable_lwt c; max_packet_size := 2048;
     cmd_timeout_ms := 30000; keep_alive_sec := 60; port := 31880; clean_session := clean_session c |}.

(** An attempt; after a failure everything is given up and two seconds pass. *)
Definition connect_round (msg_cb : bool) : M (option unit) :=
  rc <-- mqttclient_conn mqttCtx msg_cb;;
  if rc =? MQTT_CODE_SUCCESS then fret (Some tt)
  else mqttclient_disconn mqttCtx;;; ask (Delay 2000);;; fret None.

Definition uc_mqtt_connect (rounds : nat) (msg_cb : bool) : M (option unit) :=
  mod_static (set_state STATE_DISCONNECT);;;
  if negb msg_cb then fret (Some tt)
  else
    mqtt_init_ctx mqttCtx;;;
    mod_ctx mqttCtx configured;;;
    r <-- attempts rounds (connect_round msg_cb);;
    match r with
    | None => fret None
    | Some _ => mod_static (set_state STATE_CONNECT);;; fret (Some tt)
    end.

(** The first part ends with the state; it says whether the second is run. *)
Definition disconnect_begin : M bool :=
  s <-- get_static;;
  match uc_mqtt_state s with
  | STATE_DISCONNECT => fret false
  | STATE_CONNECT => mod_static (set_state STATE_DISCONNECT);;; fret true
  end.
Definition uc_mqtt_disconnect : M unit :=
  go <-- disconnect_begin;;
  if go : bool then mqttclient_disconn mqttCtx;;; fret tt else fret tt.

Definition no_text (s : cstr) : bool := match s with None | Some [] => true | Some _ => false end.

Definition uc_mqtt_subscribe (topic : cstr) (nQos : Z) : M Z :=
  s <-- get_static;;
  if bool_decide (uc_mqtt_state s = STATE_DISCONNECT) || no_text topic || (nQos >? 2) then fret (-1)
  else mqttclient_subscribe mqttCtx topic nQos.

Definition uc_mqtt_unsubscribe (topic : cstr) : M Z :=
  s <-- get_static;;
  if bool_decide (uc_mqtt_state s = STATE_DISCONNECT) || no_text topic then fret (-1)
  else mqttclient_unsubscribe mqttCtx topic.

Definition uc_mqtt_publish (rounds : nat) (topic data : cstr) (nLength nQos nRetain nDuplicate : Z) : M (option Z) :=
  s <-- get_static;;
  if bool_decide (uc_mqtt_state s = STATE_DISCONNECT) || no_text topic || bool_decide (data = None) || (nLength =? 0) || (nQos >? 2)
  then fret (Some (-1))
  else mqttclient_publish rounds mqttCtx topic data nLength nQos nRetain nDuplicate.

(** The thread that waits; [Some tt] when it has ended. *)
Definition uc_mqtt_wait_msg (rounds : nat) : M (option unit) :=
  r <-- attempts rounds (rc <-- mqttclient_waitmessage mqttCtx 1000;;
                         fret (if rc =? MQTT_CODE_SUCCESS then None else Some rc));;
  match r with None => fret None | Some _ => uc_mqtt_disconnect;;; fret (Some tt) end.

(** ** passthrough_manager_task

    The two threads of a connection take turns: this one publishes what its messages
    ask for, the other waits for messages of the server. *)

Inductive turn : Set :=
| TurnPublish (topic data : list Z) (length : Z)
| TurnWait.

(** A turn; true when the connection is over. *)
Definition serve_turn (rounds : nat) (t : turn) : M bool :=
  match t with
  | TurnPublish topic data length => uc_mqtt_publish rounds (Some topic) (Some data) length 0 0 0;;; fret false
  | TurnWait => r <-- uc_mqtt_wait_msg 1;; fret (match r with Some _ => true | None => false end)
  end.
Fixpoint serve (rounds : nat) (ts : list turn) : M bool :=
  match ts with
  | [] => fret false
  | t :: ts => over <-- serve_turn rounds t;; if over : bool then fret true else serve rounds ts
  end.

Inductive task_result : Set := NoNetcard | Connecting | NoThread | Serving | Over.

(** One connection: [rounds] attempts to connect, then the turns [ts]. *)
Definition one_connection (rounds : nat) (ts : list turn) : M task_result :=
  r <-- uc_mqtt_connect rounds true;;
  match r with
  | None => fret Connecting
  | Some _ =>
      uc_mqtt_subscribe (Some (NetPass.TOPIC_REQUEST ++ NetPass.text "+")) 0;;;
      t <-- manager_thread_create_task 512;;
      if negb (t.1 =? 0) then fret NoThread
      else
        over <-- serve rounds ts;;
        if negb over then fret Serving
        else free_thread t.2;;; uc_mqtt_disconnect;;; ask (Delay 2000);;; fret Over
  end.

(** The connections one after the other, until one does not end. *)
Fixpoint connections (rounds : nat) (tss : list (list turn)) : M task_result :=
  match tss with
  | [] => fret Over
  | ts :: tss => r <-- one_connection rounds ts;; match r with Over => connections rounds tss | _ => fret r end
  end.

(** The network card; false while it is there but not linked. *)
Definition find_round (rounds : nat) : M (option bool) :=
  r <-- uc_find_netcard rounds (Some (NetPass.text "ml305"));;
  fret (match r with Some rc => if rc =? 0 then Some true else None | None => Some false end).

Definition passthrough_manager_task (rounds : nat) (tss : list (list turn)) : M task_result :=
  r <-- attempts rounds (find_round rounds);;
  match r with Some true => connections rounds tss | _ => fret NoNetcard end.

End Mqtt.

Definition boot_static : mqtt_static :=
  {| uc_mqtt_state := STATE_DISCONNECT; netdev := NULL; last_tick := 0; start_flag := 1; mPacketIdLast := 0 |}.
(** Memory when the program starts; [oks] is what the allocator will answer. *)
Definition boot (oks : list bool) : mem mqtt_block :=
  {| blocks := {[ mqttCtx := BCtx zero_ctx; statics := BStatic boot_static; outside := BHistory [] ]}; mbrk := 4; moks := oks |}.
