(* ===== verification/MqttProps.v ===== *)
(** * The MQTT connection: what it promises

    Everything is proved with the separation logic, for every answer of the outside:
    the task follows the protocol of a connection and gives back what it takes
    ([task_follows_protocol]), it connects once the server can be reached
    ([connects_when_reachable]), and it pings in time ([pings_in_time]). *)

From stdpp Require Import strings.
From S2P Require Import Prelude SepLog Threads Mqtt.
From S2P Require NetPass.
#[local] Set Warnings "-register-all".
Local Open Scope fw_scope.

(** ** The protocol of a connection

    A connection is looked up, opened, joined and online; when a step fails it is
    ending, and it is over after a pause. *)

Inductive phase : Set := Idle | Named | Opened | Joined | Online | Ending.
#[export] Instance phase_eq_dec : EqDecision phase.
Proof. solve_decision. Defined.

Definition id_ok (id : Z) : bool := (1 <=? id) && (id <=? MAX_PACKET_ID).

(** The phase behind an event; None for one the protocol does not have there. *)
Definition phase_step (p : phase) (e : mqtt_event) : option phase :=
  let rc := ev_rc e in
  match p, ev_request e with
  | Idle, (FindDevice _ | LinkUp | Delay _) => Some Idle
  | Idle, Resolve _ => Some (if rc =? 0 then Named else Ending)
  | Named, OpenSocket => Some (if rc <? 0 then Ending else Opened)
  | Opened, SockConnect _ _ => Some (if rc =? 0 then Joined else Ending)
  | Joined, Connect _ => Some (if rc =? 0 then Online else Ending)
  | Online, WaitMessage _ => Some (if (rc =? 0) || (rc =? MQTT_CODE_ERROR_TIMEOUT) then Online else Ending)
  | Online, (TickGet | PingReq) => Some Online
  | Online, Publish m => if id_ok (m_packet_id m) then Some Online else None
  | Online, (Subscribe m | Unsubscribe m) => if id_ok (su_packet_id m) then Some Online else None
  | Ending, SockSend b => if bool_decide (b = disconnect_packet ∨ b = [0]) then Some Ending else None
  | Ending, CloseSocket => Some Ending
  | Ending, Delay _ => Some Idle
  | _, _ => None
  end.
Fixpoint phases (p : phase) (l : history) : option phase :=
  match l with [] => Some p | e :: l => q ← phase_step p e; phases q l end.
Definition phase_of (l : history) : option phase := phases Idle l.

Definition is_resolve (e : mqtt_event) : bool := match ev_request e with Resolve _ => true | _ => false end.
Definition is_close (e : mqtt_event) : bool := match ev_request e with CloseSocket => true | _ => false end.
(** Connections that were started, and those that were closed. *)
Definition started (l : history) : nat := length (List.filter is_resolve l).
Definition closed (l : history) : nat := length (List.filter is_close l).

Lemma phases_app p l1 l2 : phases p (l1 ++ l2) = q ← phases p l1; phases q l2.
Proof. revert p. induction l1 as [|e l1 IH]; intros p; [done|]. cbn [app phases]. destruct (phase_step p e); [apply IH|done]. Qed.
Lemma phase_snoc l p e : phase_of l = Some p → phase_of (l ++ [e]) = phase_step p e.
Proof. unfold phase_of. intros H. rewrite phases_app, H. cbn. by destruct (phase_step p e). Qed.
Lemma started_snoc l e : started (l ++ [e]) = (started l + if is_resolve e then 1 else 0)%nat.
Proof. unfold started. rewrite List.filter_app, length_app. cbn [List.filter]. by destruct (is_resolve e). Qed.
Lemma closed_snoc l e : closed (l ++ [e]) = (closed l + if is_close e then 1 else 0)%nat.
Proof. unfold closed. rewrite List.filter_app, length_app. cbn [List.filter]. by destruct (is_close e). Qed.

Section Props.
Variable answer : history → mqtt_request → Z * nat.
Local Abbreviation M := (FW (mem mqtt_block)).
Local Abbreviation hP := (hPropI mqtt_block).
Local Abbreviation event l r := {| ev_request := r; ev_rc := (answer l r).1; ev_pos := (answer l r).2 |}.

(** ** Steps on the objects *)

Lemma wp_get_ctx mf p c (Φ : MQTTCtx → hP) : ⊢ p ↦ BCtx c -∗ (p ↦ BCtx c -∗ Φ c) -∗ wp mf (get_ctx p) Φ.
Proof. iIntros "H K". wp_load "H". wp_ret. by iApply "K". Qed.
Lemma wp_mod_ctx mf p c f (Φ : unit → hP) : ⊢ p ↦ BCtx c -∗ (p ↦ BCtx (f c) -∗ Φ tt) -∗ wp mf (mod_ctx p f) Φ.
Proof. iIntros "H K". wp_bind. iApply (wp_get_ctx with "H"). iIntros "H". iApply (wp_put with "H"). done. Qed.
Lemma wp_get_static mf v (Φ : mqtt_static → hP) : ⊢ statics ↦ BStatic v -∗ (statics ↦ BStatic v -∗ Φ v) -∗ wp mf get_static Φ.
Proof. iIntros "H K". wp_load "H". wp_ret. by iApply "K". Qed.
Lemma wp_mod_static mf v f (Φ : unit → hP) : ⊢ statics ↦ BStatic v -∗ (statics ↦ BStatic (f v) -∗ Φ tt) -∗ wp mf (mod_static f) Φ.
Proof. iIntros "H K". wp_bind. iApply (wp_get_static with "H"). iIntros "H". iApply (wp_put with "H"). done. Qed.
Lemma wp_get_sock mf p o (Φ : SocketContext → hP) : ⊢ p ↦ BSock o -∗ (p ↦ BSock o -∗ Φ o) -∗ wp mf (get_sock p) Φ.
Proof. iIntros "H K". wp_load "H". wp_ret. by iApply "K". Qed.
Lemma wp_touch_buf mf p n (Φ : unit → hP) : ⊢ p ↦ BBuf n -∗ (p ↦ BBuf n -∗ Φ tt) -∗ wp mf (touch_buf p) Φ.
Proof. iIntros "H K". wp_load "H". wp_ret. by iApply "K". Qed.
Lemma wp_ask mf l r (Φ : Z * nat → hP) :
  ⊢ outside ↦ BHistory l -∗ (outside ↦ BHistory (l ++ [event l r]) -∗ Φ (answer l r)) -∗ wp mf (ask answer r) Φ.
Proof. iIntros "H K". wp_load "H". wp_put "H". wp_ret. by iApply "K". Qed.
Lemma wp_ask_rc mf l r (Φ : Z → hP) :
  ⊢ outside ↦ BHistory l -∗ (outside ↦ BHistory (l ++ [event l r]) -∗ Φ (answer l r).1) -∗ wp mf (ask_rc answer r) Φ.
Proof. iIntros "H K". wp_bind. iApply (wp_ask with "H"). iIntros "H". wp_ret. by iApply "K". Qed.
Lemma wp_free_block mf p b (Φ : unit → hP) : ⊢ p ↦ b -∗ Φ tt -∗ wp mf (WOLFMQTT_FREE p) Φ.
Proof.
  iIntros "H K". iDestruct (points_to_not_null with "H") as %Hp. unfold WOLFMQTT_FREE.
  rewrite (proj2 (Z.eqb_neq _ _) Hp). iApply (wp_dealloc with "H K").
Qed.

Lemma wp_attempts {A} mf n (body : M (option A)) (I : hP) (Ψ : A → hP) :
  (I ⊢ wp mf body (λ r, match r with Some a => Ψ a | None => I end)) →
  I ⊢ wp mf (attempts n body) (λ r, match r with Some a => Ψ a | None => I end).
Proof.
  intros H. induction n as [|n IH]; [iIntros "I"; wp_ret; done|]. iIntros "I". cbn [attempts]. wp_bind.
  iApply (wp_wand with "[I]"); [by iApply H|]. iIntros ([a|]) "I"; [wp_ret; done|]. by iApply IH.
Qed.
End Props.

(** One step of a run that owns what it works on. *)
Ltac wp_head := cbv beta iota; repeat lazymatch goal with |- environments.envs_entails _ (wp _ (fbind _ _) _) => iApply wp_bind end.
Tactic Notation "wp_ctx" constr(H) := wp_head; iApply (wp_get_ctx with H); iIntros H; cbv beta iota.
Tactic Notation "wp_mod" constr(H) := wp_head; first [iApply (wp_mod_ctx with H)|iApply (wp_mod_static with H)]; iIntros H; cbv beta iota.
Tactic Notation "wp_sock" constr(H) := wp_head; iApply (wp_get_sock with H); iIntros H; cbv beta iota.
Tactic Notation "wp_ask" constr(H) := wp_head; first [iApply (wp_ask_rc with H)|iApply (wp_ask with H)]; iIntros H; cbv beta iota.
Tactic Notation "wp_touch" constr(H) := wp_head; iApply (wp_touch_buf with H); iIntros H; cbv beta iota.
Tactic Notation "wp_new" ident(p) constr(H) :=
  wp_head; iApply wp_alloc; iSplit; [by iIntros (?)|]; iIntros (p) H; cbv beta iota.
Ltac wp_return := wp_head; repeat lazymatch goal with |- environments.envs_entails _ (wp _ (fret _) _) => iApply wp_ret; cbv beta iota end.

(** ** A connection *)

Section Connection.
Variable answer : history → mqtt_request → Z * nat.
Local Abbreviation M := (FW (mem mqtt_block)).
Local Abbreviation hP := (hPropI mqtt_block).

Local Abbreviation event l r := {| ev_request := r; ev_rc := (answer l r).1; ev_pos := (answer l r).2 |}.

(** The settings of the connection. *)
Definition conf (c : MQTTCtx) : Prop := use_tls c = 0 ∧ max_packet_size c = 2048 ∧ keep_alive_sec c = 60.
(** The context knows the blocks of its connection. *)
Definition linked (c : MQTTCtx) : Prop :=
  conf c ∧ tx_buf c = cl_tx_buf (client c) ∧ rx_buf c = cl_rx_buf (client c) ∧ net_ready (net c) = true ∧ cl_net (client c) = true ∧
  cl_tx_buf_len (client c) = MAX_BUFFER_SIZE ∧ (cl_packet_sz_max (client c) = 0 ∨ cl_packet_sz_max (client c) = 2048) ∧ 0 <= cl_write_pos (client c).

(** The blocks of a connection. *)
Definition connection (c : MQTTCtx) : hP :=
  (∃ o, net_context (net c) ↦ BSock o) ∗ tx_buf c ↦ BBuf MAX_BUFFER_SIZE ∗ rx_buf c ↦ BBuf MAX_BUFFER_SIZE.

Lemma connection_leaked c : connection c ⊢ lost 3.
Proof. iIntros "((%o & S) & T & R)". cbn [lost]. iSplitL "S"; [by iExists _, _|]. iSplitL "T"; [by iExists _, _|]. iSplitL "R"; [by iExists _, _|done]. Qed.

Lemma wp_exchange c l r (Φ : Z → hP) :
  linked c →
  ⊢ mqttCtx ↦ BCtx c -∗ outside ↦ BHistory l -∗ connection c -∗
    (∀ c', mqttCtx ↦ BCtx c' -∗ outside ↦ BHistory (l ++ [event l r]) -∗ connection c' -∗ ⟨ linked c' ⟩ -∗ Φ (answer l r).1) -∗
    wp false (exchange answer mqttCtx r) Φ.
Proof.
  iIntros (Hc) "C L ((%o & S) & T & R) K". pose proof Hc as (Hf & Et & Er & Hn & Hcn & Hlen & Hsz & Hp).
  unfold exchange. wp_ctx "C". rewrite <- Et, <- Er. wp_touch "T". wp_touch "R". wp_sock "S". wp_ask "L". unfold mod_client. wp_mod "C". wp_return.
  iApply ("K" with "C L [S T R]"); [iFrame "T R"; by iExists o|]. iPureIntro. unfold linked, conf in *. cbn. split_and!; try done || apply Hf. lia.
Qed.

(** From now on every step of a connection succeeds. *)
Definition connects (r : mqtt_request) (rc : Z) : Prop :=
  match r with Resolve _ | SockConnect _ _ | Connect _ => rc = 0 | OpenSocket => 0 <= rc | _ => True end.
Definition accepts (l : history) : Prop := ∀ l' r, l `prefix_of` l' → connects r (answer l' r).1.
(** The history goes on, and a failure has a reason. *)
Definition later (l l' : history) (rc : Z) : Prop := l `prefix_of` l' ∧ (accepts l → rc = 0).

(** Lookup and socket; the answer 0 is a connection. *)
Lemma wp_NetConnect l host port ms (q : Z) (Φ : Z → hP) :
  phase_of l = Some Idle →
  ⊢ outside ↦ BHistory l -∗ q ↦ BSock {| fd_open := false; sock_conn := false |} -∗
    (∀ rc l' o, outside ↦ BHistory l' -∗ q ↦ BSock o -∗
       ⟨ phase_of l' = Some (if rc =? 0 then Joined else Ending) ∧ started l' = S (started l) ∧ closed l' = closed l ∧ later l l' rc ⟩ -∗ Φ rc) -∗
    wp false (NetConnect answer q host port ms) Φ.
Proof.
  iIntros (Hl) "L Q K". unfold NetConnect. wp_sock "Q". cbn [sock_conn]. wp_ask "L". set (e1 := {| ev_request := Resolve host |}).
  pose proof (phase_snoc l Idle e1 Hl) as H1. cbn in H1. pose proof (started_snoc l e1) as S1. pose proof (closed_snoc l e1) as C1. cbn in S1, C1.
  destruct ((answer l (Resolve host)).1 =? 0) eqn:E1; cbn [negb].
  2: { wp_ret. iApply ("K" with "L Q"). iPureIntro. rewrite E1. split_and!; [done|lia|lia|]. split; [by apply prefix_app_r|].
       intros Ha. exact (Ha l (Resolve host) (reflexivity _)). }
  wp_ask "L". set (l1 := l ++ [e1]) in *. set (e2 := {| ev_request := OpenSocket |}).
  pose proof (phase_snoc l1 Named e2 H1) as H2. cbn in H2. pose proof (started_snoc l1 e2) as S2. pose proof (closed_snoc l1 e2) as C2. cbn in S2, C2.
  destruct ((answer l1 OpenSocket).1 <? 0) eqn:E2.
  { wp_ret. iApply ("K" with "L Q"). iPureIntro. cbn. split_and!; [done|lia|lia|]. split; [by do 2 apply prefix_app_r|].
    intros Ha. pose proof (Ha l1 OpenSocket (prefix_app_r _ _ _ (reflexivity _))) as H. cbn in H. lia. }
  wp_put "Q". wp_ask "L". set (l2 := l1 ++ [e2]) in *. wp_ret. iApply ("K" with "L Q"). iPureIntro.
  erewrite phase_snoc by exact H2. rewrite started_snoc, closed_snoc. cbn.
  destruct ((answer l2 (SockConnect port ms)).1 <? 0) eqn:E3; [rewrite (proj2 (Z.eqb_neq (answer _ _).1 0)) by lia|]; (split_and!; [done|lia|lia|]);
    (split; [by do 3 apply prefix_app_r|]); intros Ha; pose proof (Ha l2 (SockConnect port ms) (prefix_app_r _ _ _ (prefix_app_r _ _ _ (reflexivity _)))) as H; cbn in H; [lia|done].
Qed.

Lemma wp_conn c l cb (Φ : Z → hP) :
  conf c → phase_of l = Some Idle →
  ⊢ mqttCtx ↦ BCtx c -∗ outside ↦ BHistory l -∗
    (∀ rc c' l', mqttCtx ↦ BCtx c' -∗ outside ↦ BHistory l' -∗ connection c' -∗
       ⟨ linked c' ∧ phase_of l' = Some (if rc =? 0 then Online else Ending) ∧ started l' = S (started l) ∧ closed l' = closed l ∧ later l l' rc ⟩ -∗ Φ rc) -∗
    wp false (mqttclient_conn answer mqttCtx cb) Φ.
Proof.
  iIntros ((Ht & Hm & Hk) Hl) "C L K". unfold mqttclient_conn, MqttClientNet_Init.
  wp_mod "C". wp_new q "Q". iDestruct (points_to_not_null with "Q") as %Hq. rewrite (proj2 (Z.eqb_neq _ _) Hq).
  wp_mod "C". wp_return. cbn [negb Z.eqb MQTT_CODE_SUCCESS].
  wp_new t "T". wp_mod "C". wp_new r "R". wp_mod "C". wp_ctx "C".
  iDestruct (points_to_not_null with "T") as %Ht'. iDestruct (points_to_not_null with "R") as %Hr'.
  unfold MqttClient_Init. cbn [tx_buf rx_buf set_bufs set_net].
  rewrite (proj2 (Z.eqb_neq _ _) Ht'), (proj2 (Z.eqb_neq _ _) Hr'). cbn [orb Z.leb Z.compare MAX_BUFFER_SIZE].
  unfold mod_client, MqttSocket_Init. wp_mod "C". wp_mod "C". wp_ctx "C". wp_return. cbn.
  wp_ctx "C". cbn. unfold MqttSocket_Connect. wp_ctx "C". cbn. rewrite Ht. cbn.
  wp_head. match goal with |- context [NetConnect _ _ ?h ?po ?ms] => iApply (wp_NetConnect l h po ms with "L Q"); [done|] end.
  iIntros (rc l1 o) "L Q %H". destruct H as (Hph & Hs & Hcl & Hpre & Hacc).
  match goal with |- context [points_to mqttCtx (BCtx ?c)] => set (c1 := c) end.
  assert (linked c1) as Hc1 by (unfold linked, conf; cbn; split_and!; try done; by left).
  iAssert (connection c1) with "[Q T R]" as "B"; [iFrame "T R"; by iExists o|].
  destruct (rc <? 0) eqn:Erc.
  { wp_return. rewrite (proj2 (Z.eqb_neq rc _)) by (unfold MQTT_CODE_SUCCESS; lia). cbn. wp_return. iApply ("K" with "C L B"). iPureIntro.
    rewrite (proj2 (Z.eqb_neq _ _)) in * by lia. by split_and!. }
  unfold mod_client. wp_mod "C". wp_return. destruct (rc =? MQTT_CODE_SUCCESS) eqn:E0; cbn [negb].
  2: { wp_return. iApply ("K" with "C L B"). iPureIntro. change MQTT_CODE_SUCCESS with 0 in E0. rewrite E0 in *. by split_and!. }
  change MQTT_CODE_SUCCESS with 0 in E0. rewrite E0 in Hph.
  wp_mod "C". wp_mod "C". wp_ctx "C".
  match goal with |- context [points_to mqttCtx (BCtx ?c)] => set (c2 := c) end.
  assert (linked c2) as Hc2 by (unfold linked, conf; cbn; rewrite Hm; split_and!; try done; by right).
  iApply (wp_exchange c2 l1 with "C L B"); [done|]. iIntros (c') "C L B %Hc'". iApply ("K" with "C L B"). iPureIntro.
  split; [done|]. rewrite started_snoc, closed_snoc. erewrite phase_snoc by exact Hph. cbn. split_and!; [done|lia|lia|].
  split; [by apply prefix_app_r|]. intros Ha. exact (Ha l1 (Connect (connect c2)) Hpre).
Qed.

(** ** Disconnecting *)

Definition same_blocks (c c' : MQTTCtx) : Prop := net c' = net c ∧ tx_buf c' = tx_buf c ∧ rx_buf c' = rx_buf c.
Lemma linked_write_pos c v : linked c → 0 <= v → linked (set_client (set_write_pos v (client c)) c).
Proof. intros (Hf & Hc) Hv. unfold linked, conf in *. cbn. split_and!; try done || apply Hf || apply Hc. Qed.

Definition quiet (l l' : history) : Prop := phase_of l' = Some Ending ∧ started l' = started l ∧ closed l' = closed l ∧ l `prefix_of` l'.
Lemma quiet_trans l1 l2 l3 : quiet l1 l2 → quiet l2 l3 → quiet l1 l3.
Proof. intros (_ & H2 & H3 & H4) (H5 & H6 & H7 & H8). split_and!; [exact H5|lia|lia|by etrans]. Qed.

Lemma wp_NetWrite l q o buf (Φ : Z → hP) :
  phase_of l = Some Ending → buf = disconnect_packet ∨ buf = [0] → q ≠ NULL →
  ⊢ outside ↦ BHistory l -∗ q ↦ BSock o -∗
    (∀ rc l', outside ↦ BHistory l' -∗ q ↦ BSock o -∗ ⟨ quiet l l' ∧ (rc = -1 ∨ fd_open o = true) ⟩ -∗ Φ rc) -∗
    wp false (NetWrite answer q buf) Φ.
Proof.
  iIntros (Hl Hb Hq) "L Q K". unfold NetWrite. rewrite (proj2 (Z.eqb_neq _ _) Hq). wp_sock "Q". destruct (fd_open o) eqn:Eo; cbn [negb].
  - wp_ask "L". wp_return. iApply ("K" with "L Q"). iPureIntro. split; [|by right]. unfold quiet. rewrite started_snoc, closed_snoc.
    erewrite phase_snoc by done. cbn. rewrite bool_decide_true by done. split_and!; [done|lia|lia|by apply prefix_app_r].
  - wp_return. iApply ("K" with "L Q"). iPureIntro. split; [done|by left].
Qed.

Lemma wp_write_loop n : ∀ c l o (Φ : Z → hP),
  linked c → phase_of l = Some Ending → cl_write_pos (client c) < 2 → 2 - cl_write_pos (client c) < Z.of_nat n →
  ⊢ mqttCtx ↦ BCtx c -∗ outside ↦ BHistory l -∗ net_context (net c) ↦ BSock o -∗
    (∀ rc c' l', mqttCtx ↦ BCtx c' -∗ outside ↦ BHistory l' -∗ net_context (net c) ↦ BSock o -∗
       ⟨ linked c' ∧ same_blocks c c' ∧ quiet l l' ∧ (rc = -1 ∨ fd_open o = true) ⟩ -∗ Φ rc) -∗
    wp false (write_loop answer n mqttCtx disconnect_packet) Φ.
Proof.
  induction n as [|n IH]; intros c l o Φ Hc Hl Hp Hn; [destruct Hc as (_ & _ & _ & _ & _ & _ & _ & ?); lia|].
  iIntros "C L S K". iDestruct (points_to_not_null with "S") as %Hq. cbn [write_loop]. wp_ctx "C".
  assert (0 <= cl_write_pos (client c)) as H0 by apply Hc.
  assert (drop (Z.to_nat (cl_write_pos (client c))) disconnect_packet = disconnect_packet ∨ drop (Z.to_nat (cl_write_pos (client c))) disconnect_packet = [0]) as Hb.
  { assert (cl_write_pos (client c) = 0 ∨ cl_write_pos (client c) = 1) as [->| ->] by lia; [by left|by right]. }
  wp_head. iApply (wp_NetWrite l _ o with "L S"); [done..|]. iIntros (rc l1) "L S (%Hq1 & %Ho)".
  destruct (rc <=? 0) eqn:Erc; [wp_return; iApply ("K" with "C L S"); by iPureIntro|].
  unfold mod_client. wp_mod "C". change (zlen disconnect_packet) with 2.
  set (c1 := set_client (set_write_pos (cl_write_pos (client c) + rc) (client c)) c).
  assert (linked c1) as Hc1 by (apply linked_write_pos; [done|lia]).
  destruct (cl_write_pos (client c) + rc <? 2) eqn:E2.
  - iApply (IH c1 l1 o with "C L S"); [done|apply Hq1|cbn; lia|cbn; lia|]. iIntros (rc' c' l') "C L S (%H1 & %H2 & %H3 & %H4)".
    iApply ("K" with "C L S"). iPureIntro. split_and!; [done|done|by eapply quiet_trans|done].
  - wp_mod "C". wp_return. iApply ("K" with "C L S"). iPureIntro. split_and!; [by apply linked_write_pos; [exact Hc1|]|done|done|].
    right. destruct Ho; [lia|done].
Qed.

Lemma wp_Disconnect_ex c l o (Φ : Z → hP) :
  linked c → phase_of l = Some Ending →
  ⊢ mqttCtx ↦ BCtx c -∗ outside ↦ BHistory l -∗ net_context (net c) ↦ BSock o -∗ tx_buf c ↦ BBuf MAX_BUFFER_SIZE -∗
    (∀ rc c' l', mqttCtx ↦ BCtx c' -∗ outside ↦ BHistory l' -∗ net_context (net c) ↦ BSock o -∗ tx_buf c ↦ BBuf MAX_BUFFER_SIZE -∗
       ⟨ linked c' ∧ same_blocks c c' ∧ quiet l l' ∧ (rc = 0 → fd_open o = true) ⟩ -∗ Φ rc) -∗
    wp false (MqttClient_Disconnect_ex answer mqttCtx) Φ.
Proof.
  iIntros (Hc Hl) "C L S T K". pose proof Hc as (_ & Et & _ & Hn & Hcn & Hlen & Hsz & Hp). iDestruct (points_to_not_null with "T") as %Ht.
  unfold MqttClient_Disconnect_ex, MqttPacket_Write, MqttSocket_Write. wp_ctx "C". rewrite <- Et, (proj2 (Z.eqb_neq _ _) Ht), Hlen.
  change (MAX_BUFFER_SIZE <? 5) with false. wp_touch "T". wp_ctx "C". change (zlen disconnect_packet) with 2.
  assert ((0 <? cl_packet_sz_max (client c)) && (cl_packet_sz_max (client c) <? 2) = false) as -> by (destruct Hsz as [->| ->]; done).
  wp_ctx "C". rewrite Hn, Hcn. cbn [negb orb]. destruct (cl_write_pos (client c) >=? 2) eqn:Ew.
  - wp_return. iApply ("K" with "C L S T"). by iPureIntro.
  - wp_head. iApply (wp_write_loop _ c l o with "C L S"); [done|done|lia|cbn; lia|]. iIntros (rc c' l') "C L S (%H1 & %H2 & %H3 & %H4)". wp_return.
    iApply ("K" with "C L S T"). iPureIntro. split_and!; [done..|]. destruct H4 as [->|H4]; done.
Qed.

Lemma wp_disconn c l (Φ : Z → hP) :
  linked c → phase_of l = Some Ending →
  ⊢ mqttCtx ↦ BCtx c -∗ outside ↦ BHistory l -∗ connection c -∗
    (∀ rc c' l' n, mqttCtx ↦ BCtx c' -∗ outside ↦ BHistory l' -∗ lost (3 * n) -∗
       ⟨ conf c' ∧ phase_of l' = Some Ending ∧ started l' = started l ∧ (closed l' + n = S (closed l))%nat ∧ l `prefix_of` l' ⟩ -∗ Φ rc) -∗
    wp false (mqttclient_disconn answer mqttCtx) Φ.
Proof.
  iIntros (Hc Hl) "C L ((%o & S) & T & R) K". iDestruct (points_to_not_null with "S") as %Hq. unfold mqttclient_disconn. wp_head.
  iApply (wp_Disconnect_ex c l o with "C L S T"); [done..|]. iIntros (rc c1 l1) "C L S T %H".
  destruct H as (Hc1 & (En & Et & Er) & (Hp1 & Hs1 & Hcl1 & Hpre) & Ho).
  destruct (rc =? MQTT_CODE_SUCCESS) eqn:Erc; cbn [negb].
  2: { wp_return. iDestruct (connection_leaked c with "[S T R]") as "J"; [iFrame "T R"; by iExists o|].
       iApply ("K" $! _ _ _ 1%nat with "C L J"). iPureIntro. split_and!; [apply Hc1|done|done|lia|done]. }
  specialize (Ho (proj1 (Z.eqb_eq _ _) Erc)). unfold MqttSocket_Disconnect, NetDisconnect. wp_ctx "C".
  pose proof Hc1 as (Hf & _ & _ & Hn & Hcn & _). rewrite Hn, Hcn, En, (proj2 (Z.eqb_neq _ _) Hq). cbn [andb]. wp_sock "S". rewrite Ho. wp_ask "L". wp_return.
  wp_head. iApply (wp_put with "S"). iIntros "S". wp_return. unfold mod_client. wp_mod "C". wp_return.
  wp_ctx "C". wp_head. cbn [tx_buf set_client]. rewrite Et. iApply (wp_free_block with "T").
  wp_ctx "C". wp_head. cbn [rx_buf set_client]. rewrite Er. iApply (wp_free_block with "R").
  unfold MqttClientNet_DeInit. wp_ctx "C". wp_head. cbn [net set_client]. rewrite En. iApply (wp_free_block with "S"). wp_mod "C". wp_return.
  iApply ("K" $! _ _ _ 0%nat with "C L []"); [done|]. iPureIntro. rewrite started_snoc, closed_snoc. erewrite phase_snoc by exact Hp1. cbn.
  split_and!; [exact Hf|done|lia|lia|by apply prefix_app_r].
Qed.
End Connection.

(** ** While connected *)

Section Session.
Variable answer : history → mqtt_request → Z * nat.
Local Abbreviation M := (FW (mem mqtt_block)).
Local Abbreviation hP := (hPropI mqtt_block).
Local Abbreviation event l r := {| ev_request := r; ev_rc := (answer l r).1; ev_pos := (answer l r).2 |}.
Local Abbreviation asked l r := (l ++ [event l r]).

(** What the keep-alive test does to the static variables and the history, for the 60 s of this client. *)
Definition elapsed (last cur : Z) : Z := if cur >=? last then u32 (cur - last) else u32 (0xffffffff - last + cur + 1).
Definition tick (l : history) : Z := (answer l TickGet).1.
Definition begun (v : mqtt_static) (l : history) : mqtt_static * history :=
  if start_flag v =? 1 then (set_tick (tick l) 0 v, asked l TickGet) else (v, l).
Definition kept_alive (v : mqtt_static) (l : history) : mqtt_static * history :=
  let '(v, l) := begun v l in
  let l1 := asked l TickGet in
  if elapsed (last_tick v) (tick l) >? 30000 then (set_tick (tick l1) (start_flag v) v, asked (asked l1 TickGet) PingReq) else (v, l1).

Lemma wp_keep_alive c v l (Φ : unit → hP) :
  linked c →
  ⊢ mqttCtx ↦ BCtx c -∗ statics ↦ BStatic v -∗ outside ↦ BHistory l -∗ connection c -∗
    (∀ c', mqttCtx ↦ BCtx c' -∗ statics ↦ BStatic (kept_alive v l).1 -∗ outside ↦ BHistory (kept_alive v l).2 -∗ connection c' -∗
       ⟨ linked c' ⟩ -∗ Φ tt) -∗
    wp false (keep_alive answer mqttCtx) Φ.
Proof.
  iIntros (Hc) "C V L B K". unfold keep_alive, kept_alive, begun. wp_ctx "C". wp_head. iApply (wp_get_static with "V"). iIntros "V".
  pose proof Hc as ((_ & _ & Ek) & _). rewrite Ek. change (Z.quot (60 * 1000) 2) with 30000.
  iAssert (∀ v l, statics ↦ BStatic v -∗ outside ↦ BHistory l -∗ mqttCtx ↦ BCtx c -∗ connection c -∗
    (∀ c', mqttCtx ↦ BCtx c' -∗
      statics ↦ BStatic (if elapsed (last_tick v) (tick l) >? 30000 then set_tick (tick (asked l TickGet)) (start_flag v) v else v) -∗
      outside ↦ BHistory (if elapsed (last_tick v) (tick l) >? 30000 then asked (asked (asked l TickGet) TickGet) PingReq else asked l TickGet) -∗
      connection c' -∗ ⟨ linked c' ⟩ -∗ Φ tt) -∗
    wp false (s <-- get_static;; interval <-- mqttclient_get_interval_tick answer (last_tick s);;
      if interval >? 30000 then
        now <-- ask_rc answer TickGet;; mod_static (λ s, set_tick now (start_flag s) s);;; exchange answer mqttCtx PingReq;;; fret tt
      else fret tt) Φ)%I as "Main".
  { iIntros (v1 l1) "V L C B K". wp_head. iApply (wp_get_static with "V"). iIntros "V". unfold mqttclient_get_interval_tick. wp_ask "L". wp_return.
    fold (elapsed (last_tick v1) (tick l1)). fold (tick l1). unfold elapsed at 1. fold (elapsed (last_tick v1) (tick l1)).
    destruct (elapsed (last_tick v1) (tick l1) >? 30000) eqn:E.
    - wp_ask "L". wp_mod "V". wp_head. iApply (wp_exchange answer c with "C L B"); [done|]. iIntros (c') "C L B %Hc'". wp_return.
      iApply ("K" with "C V L B"). by iPureIntro.
    - wp_return. iApply ("K" with "C V L B"). by iPureIntro. }
  destruct (start_flag v =? 1) eqn:Es.
  - wp_ask "L". wp_mod "V". iApply ("Main" with "V L C B"). iIntros (c') "C V L B H". fold (tick l). destruct (_ >? 30000); iApply ("K" with "C V L B H").
  - wp_return. iApply ("Main" with "V L C B"). iIntros (c') "C V L B H". destruct (_ >? 30000); iApply ("K" with "C V L B H").
Qed.

Definition wait_rc (l : history) : Z :=
  let rc := (answer l (WaitMessage 1000)).1 in if rc =? MQTT_CODE_ERROR_TIMEOUT then MQTT_CODE_SUCCESS else rc.
Definition waited (v : mqtt_static) (l : history) : mqtt_static * history :=
  if wait_rc l =? MQTT_CODE_SUCCESS then kept_alive v (asked l (WaitMessage 1000)) else (v, asked l (WaitMessage 1000)).

Lemma wp_waitmessage c v l (Φ : Z → hP) :
  linked c →
  ⊢ mqttCtx ↦ BCtx c -∗ statics ↦ BStatic v -∗ outside ↦ BHistory l -∗ connection c -∗
    (∀ c', mqttCtx ↦ BCtx c' -∗ statics ↦ BStatic (waited v l).1 -∗ outside ↦ BHistory (waited v l).2 -∗ connection c' -∗
       ⟨ linked c' ⟩ -∗ Φ (wait_rc l)) -∗
    wp false (mqttclient_waitmessage answer mqttCtx 1000) Φ.
Proof.
  iIntros (Hc) "C V L B K". unfold mqttclient_waitmessage, waited. wp_head. iApply (wp_exchange answer c with "C L B"); [done|].
  iIntros (c1) "C L B %Hc1". fold (wait_rc l). destruct (wait_rc l =? MQTT_CODE_SUCCESS) eqn:E.
  - wp_head. iApply (wp_keep_alive c1 with "C V L B"); [done|]. iIntros (c2) "C V L B H". wp_return. iApply ("K" with "C V L B H").
  - wp_return. iApply ("K" with "C V L B"). by iPureIntro.
Qed.

(** ** The state of the connection *)

Definition ids_ok (v : mqtt_static) : Prop := 0 <= mPacketIdLast v <= MAX_PACKET_ID.

Definition objects (c : MQTTCtx) (v : mqtt_static) (l : history) : hP :=
  mqttCtx ↦ BCtx c ∗ statics ↦ BStatic v ∗ outside ↦ BHistory l.
(** In phase [p], [n] connections were not given back; the current one counts when it is still known. *)
Definition in_phase (p : phase) (st : connect_state) (n : nat) (v : mqtt_static) (l : history) : Prop :=
  ids_ok v ∧ uc_mqtt_state v = st ∧ phase_of l = Some p ∧ started l = (closed l + n)%nat.

Definition idle : hP :=
  ∃ c v l n, objects c v l ∗ lost (3 * n) ∗ ⟨ in_phase Idle STATE_DISCONNECT n v l ⟩.
Definition ending : hP :=
  ∃ c v l n, objects c v l ∗ lost (3 * n) ∗ ⟨ in_phase Ending STATE_DISCONNECT n v l ⟩.
Definition online_with (c : MQTTCtx) (v : mqtt_static) (l : history) (n : nat) : hP :=
  objects c v l ∗ connection c ∗ lost (3 * n) ∗ ⟨ linked c ∧ in_phase Online STATE_CONNECT (S n) v l ⟩.
Definition online : hP := ∃ c v l n, online_with c v l n.

Lemma wp_packetid v (Φ : Z → hP) :
  ids_ok v →
  ⊢ statics ↦ BStatic v -∗
    (∀ id, statics ↦ BStatic (set_packet_id id v) -∗ ⟨ id = (1 + mPacketIdLast v mod MAX_PACKET_ID)%Z ⟩ -∗ Φ id) -∗
    wp false mqtt_get_packetid Φ.
Proof.
  iIntros (Hv) "V K". unfold mqtt_get_packetid. wp_head. iApply (wp_get_static with "V"). iIntros "V".
  set (last := if mPacketIdLast v >=? MAX_PACKET_ID then 0 else mPacketIdLast v).
  assert (u16 (last + 1) = 1 + mPacketIdLast v mod MAX_PACKET_ID) as E.
  { unfold ids_ok, MAX_PACKET_ID in *. rewrite u16_id; subst last; destruct (_ >=? _) eqn:El.
    - replace (mPacketIdLast v) with 65535 by lia. done.
    - rewrite Z.mod_small by lia. lia.
    - unfold is_u16. lia.
    - unfold is_u16. lia. }
  rewrite E. wp_mod "V". wp_return. iApply ("K" with "V"). by iPureIntro.
Qed.

Lemma id_range v : ids_ok v → id_ok (1 + mPacketIdLast v mod MAX_PACKET_ID) = true.
Proof. intros Hv. unfold id_ok, MAX_PACKET_ID in *. pose proof (Z.mod_pos_bound (mPacketIdLast v) 65535). lia. Qed.

(** Requests that leave the connection as it is. *)
Definition harmless (r : mqtt_request) : Prop := ∀ l, phase_step Online (event l r) = Some Online ∧ is_resolve (event l r) = false ∧ is_close (event l r) = false.
Lemma in_phase_event p st n v l e :
  in_phase Online st n v l → phase_step Online e = Some p → is_resolve e = false → is_close e = false → in_phase p st n v (l ++ [e]).
Proof.
  intros (Hi & Hst & Hp & Hn) He Hr Hc. unfold in_phase. erewrite phase_snoc by exact Hp. rewrite started_snoc, closed_snoc, Hr, Hc.
  split_and!; [done..|lia].
Qed.

Lemma wp_exchange_online c v l n r (Φ : Z → hP) :
  harmless r →
  ⊢ online_with c v l n -∗ (∀ c' rc, online_with c' v (asked l r) n -∗ Φ rc) -∗ wp false (exchange answer mqttCtx r) Φ.
Proof.
  iIntros (Hr) "((C & V & L) & B & J & %H) K". destruct H as (Hc & Hp).
  iApply (wp_exchange answer c with "C L B"); [done|]. iIntros (c') "C L B %Hc'". iApply "K". iFrame. iPureIntro.
  split; [done|]. destruct (Hr l) as (H1 & H2 & H3). by eapply in_phase_event.
Qed.

Lemma wp_request c v l n (pre : MQTTCtx → MQTTCtx) (r : MQTTCtx → Z → mqtt_request) (Φ : Z → hP) :
  (∀ c, linked c → linked (pre c) ∧ same_blocks c (pre c)) → (∀ c id, id_ok id = true → harmless (r c id)) →
  ⊢ online_with c v l n -∗ (online -∗ ∀ rc, Φ rc) -∗
    wp false (mod_ctx mqttCtx pre;;; id <-- mqtt_get_packetid;; c <-- get_ctx mqttCtx;; exchange answer mqttCtx (r c id)) Φ.
Proof.
  iIntros (Hpre Hr) "((C & V & L) & B & J & %H) K". destruct H as (Hc & Hi & Hst & Hp). wp_mod "C". wp_head. iApply (wp_packetid v with "V"); [done|].
  iIntros (id) "V ->". wp_ctx "C". destruct (Hpre c Hc) as (Hc1 & En & Et & Er).
  iApply (wp_exchange_online (pre c) _ l n with "[$C $V $L B $J]"); [apply Hr, id_range, Hi| |].
  - unfold connection. rewrite En, Et, Er. iFrame. iPureIntro. split; [done|]. split; [|done]. pose proof (id_range v Hi) as Hd.
    unfold id_ok in Hd. unfold ids_ok. cbn. lia.
  - iIntros (c' rc) "O". iApply ("K" with "[O]"). by iExists _, _, _, _.
Qed.

Lemma wp_subscribe topic nQos : online ⊢ wp false (uc_mqtt_subscribe answer topic nQos) (λ _, online).
Proof.
  iIntros "(%c & %v & %l & %n & (C & V & L) & B & J & %H)". unfold uc_mqtt_subscribe. wp_head. iApply (wp_get_static with "V"). iIntros "V".
  assert (online_with c v l n ⊢ online) as Hon by (iIntros "O"; by iExists _, _, _, _).
  destruct (_ || _ || _) eqn:E.
  { wp_return. iApply Hon. iFrame. by iPureIntro. }
  destruct topic as [t|]; [|by destruct (bool_decide _)]. unfold mqttclient_subscribe.
  iApply (wp_request c v l n _ (λ c id, Subscribe {| su_packet_id := id; su_topics := [topics c] |}) with "[-]").
  - done.
  - intros c1 id Hid l1. cbn. by rewrite Hid.
  - iFrame. by iPureIntro.
  - iIntros "O" (rc). done.
Qed.

Lemma wp_unsubscribe topic : online ⊢ wp false (uc_mqtt_unsubscribe answer topic) (λ _, online).
Proof.
  iIntros "(%c & %v & %l & %n & (C & V & L) & B & J & %H)". unfold uc_mqtt_unsubscribe. wp_head. iApply (wp_get_static with "V"). iIntros "V".
  assert (online_with c v l n ⊢ online) as Hon by (iIntros "O"; by iExists _, _, _, _).
  destruct (_ || _) eqn:E.
  { wp_return. iApply Hon. iFrame. by iPureIntro. }
  destruct topic as [t|]; [|by destruct (bool_decide _)]. unfold mqttclient_unsubscribe.
  iApply (wp_request c v l n _ (λ c id, Unsubscribe {| su_packet_id := id; su_topics := [topics c] |}) with "[-]").
  - done.
  - intros c1 id Hid l1. cbn. by rewrite Hid.
  - iFrame. by iPureIntro.
  - iIntros "O" (rc). done.
Qed.

Lemma wp_publish rounds topic data length nQos nRetain nDuplicate :
  0 <= length <= zlen data →
  online ⊢ wp false (uc_mqtt_publish answer rounds topic (Some data) length nQos nRetain nDuplicate) (λ _, online).
Proof.
  iIntros (Hlen) "(%c & %v & %l & %n & (C & V & L) & B & J & %H)". unfold uc_mqtt_publish. wp_head. iApply (wp_get_static with "V"). iIntros "V".
  assert (∀ c v l n, online_with c v l n ⊢ online) as Hon by (intros; iIntros "O"; by iExists _, _, _, _).
  destruct (_ || _ || _ || _ || _) eqn:E.
  { wp_return. iApply Hon. iFrame. by iPureIntro. }
  destruct topic as [t|]; [|by destruct (bool_decide _)]. unfold mqttclient_publish.
  destruct (length =? 0) eqn:E0; [wp_return; iApply Hon; iFrame; by iPureIntro|].
  destruct H as (Hc & Hi & Hst & Hp). wp_head. iApply (wp_packetid v with "V"); [done|]. iIntros (id) "V ->".
  assert (slice 0 length data = Ok (zsub 0 length data)) as Es.
  { unfold slice. rewrite (proj2 (Z.leb_le 0 0)), (proj2 (Z.leb_le 0 length)), (proj2 (Z.leb_le (0 + length) (zlen data))) by lia. done. }
  rewrite Es. change (flift (Ok ?x)) with (@fret (mem mqtt_block) _ x). wp_return. wp_mod "C". wp_ctx "C".
  set (m := {| m_packet_id := 1 + _ |}). set (c1 := set_publish m c). set (v1 := set_packet_id _ v).
  assert (harmless (Publish m)) as Hr by (intros l1; cbn; by rewrite id_range).
  iAssert (∃ c v l n, online_with c v l n)%I with "[C V L B J]" as "O".
  { iExists c1, v1, l, n. iFrame. iPureIntro. split; [exact Hc|]. split; [|done]. pose proof (id_range v Hi) as Hd. unfold id_ok in Hd. unfold ids_ok. cbn. lia. }
  change (publish c1) with m.
  iApply (wp_mono _ _ (λ r, match r with Some _ => online | None => online end)); [by intros [?|]|].
  iApply (wp_attempts with "O"). iIntros "(%c2 & %v2 & %l2 & %n2 & O)". wp_head. iApply (wp_exchange_online with "O"); [done|].
  iIntros (c' rc) "O". wp_return. iDestruct (Hon with "O") as "O". by destruct (rc =? _).
Qed.

(** ** The end of a connection *)

Lemma wp_end c v l n (Φ : unit → hP) :
  linked c → in_phase Ending STATE_CONNECT (S n) v l →
  ⊢ objects c v l -∗ connection c -∗ lost (3 * n) -∗ (ending -∗ Φ tt) -∗ wp false (uc_mqtt_disconnect answer) Φ.
Proof.
  iIntros (Hc (Hi & Hst & Hp & Hn)) "(C & V & L) B J K". unfold uc_mqtt_disconnect, disconnect_begin.
  wp_head. iApply (wp_get_static with "V"). iIntros "V". rewrite Hst. wp_mod "V". wp_return. wp_head.
  iApply (wp_disconn answer c l with "C L B"); [done..|]. iIntros (rc c' l' k) "C L J' %H". destruct H as (_ & Hp' & Hs & Hk & _). wp_return. iApply "K".
  iDestruct (lost_app with "J J'") as "J". replace (3 * n + 3 * k)%nat with (3 * (n + k))%nat by lia.
  iExists c', _, l', (n + k)%nat. iFrame. iPureIntro. split_and!; [done..|lia].
Qed.
Lemma wp_disconnect_again : ending ⊢ wp false (uc_mqtt_disconnect answer) (λ _, ending).
Proof.
  iIntros "(%c & %v & %l & %n & (C & V & L) & J & %H)". unfold uc_mqtt_disconnect, disconnect_begin.
  wp_head. iApply (wp_get_static with "V"). iIntros "V". rewrite (proj1 (proj2 H)). wp_return. iExists _, _, _, _. iFrame. by iPureIntro.
Qed.
Lemma wp_pause ms : ending ⊢ wp false (ask answer (Delay ms)) (λ _, idle).
Proof.
  iIntros "(%c & %v & %l & %n & (C & V & L) & J & %H)". wp_ask "L". iExists _, _, _, n. iFrame. iPureIntro.
  destruct H as (Hi & Hst & Hp & Hn). split_and!; [done..| |]; [by erewrite phase_snoc by exact Hp|]. rewrite started_snoc, closed_snoc. cbn. lia.
Qed.

Lemma kept_alive_phase v l n : in_phase Online STATE_CONNECT n v l → in_phase Online STATE_CONNECT n (kept_alive v l).1 (kept_alive v l).2.
Proof.
  intros H. assert (in_phase Online STATE_CONNECT n (begun v l).1 (begun v l).2) as Hb.
  { unfold begun. destruct (_ =? 1); [|done]. by apply (in_phase_event Online STATE_CONNECT n (set_tick (tick l) 0 v)). }
  unfold kept_alive. destruct (begun v l) as [v1 l1]. cbn in Hb.
  assert (in_phase Online STATE_CONNECT n v1 (asked l1 TickGet)) as H1 by (by eapply in_phase_event).
  destruct (_ >? 30000); [|done]. cbn [fst snd]. do 2 (eapply in_phase_event; [|done..]). done.
Qed.
Lemma waited_phase v l n : in_phase Online STATE_CONNECT n v l →
  in_phase (if wait_rc l =? MQTT_CODE_SUCCESS then Online else Ending) STATE_CONNECT n (waited v l).1 (waited v l).2.
Proof.
  intros H. assert ((wait_rc l =? MQTT_CODE_SUCCESS) =
    ((answer l (WaitMessage 1000)).1 =? 0) || ((answer l (WaitMessage 1000)).1 =? MQTT_CODE_ERROR_TIMEOUT)) as E.
  { unfold wait_rc, MQTT_CODE_SUCCESS. destruct (_ =? MQTT_CODE_ERROR_TIMEOUT); [by rewrite orb_true_r|by rewrite orb_false_r]. }
  unfold waited. destruct (wait_rc l =? MQTT_CODE_SUCCESS); [apply kept_alive_phase|cbn [fst snd]];
    (eapply in_phase_event; [done| |done..]); unfold phase_step; cbn [ev_request ev_rc]; by rewrite <- E.
Qed.

Lemma wp_wait_msg rounds :
  online ⊢ wp false (uc_mqtt_wait_msg answer rounds) (λ r, match r with Some _ => ending | None => online end).
Proof.
  iIntros "O". unfold uc_mqtt_wait_msg. wp_head.
  iApply (wp_mono _ _ (λ r : option Z, match r with
    | Some _ => ∃ c v l n, objects c v l ∗ connection c ∗ lost (3 * n) ∗ ⟨ linked c ∧ in_phase Ending STATE_CONNECT (S n) v l ⟩
    | None => online end)%I).
  { intros [rc|].
    - iIntros "(%c & %v & %l & %n & O & B & J & %H)". destruct H as (Hc & Hp). wp_head. iApply (wp_end with "O B J"); [done..|]. iIntros "E". by wp_return.
    - iIntros "O". by wp_return. }
  iApply (wp_attempts with "O"). iIntros "(%c & %v & %l & %n & (C & V & L) & B & J & %H)". destruct H as (Hc & Hp). wp_head.
  iApply (wp_waitmessage c v l with "C V L B"); [done|]. iIntros (c') "C V L B %Hc'". wp_return. pose proof (waited_phase v l (S n) Hp) as Hw.
  destruct (wait_rc l =? MQTT_CODE_SUCCESS); iExists _, _, _, n; iFrame; by iPureIntro.
Qed.

End Session.

(** ** The task *)

Section Task.
Variable answer : history → mqtt_request → Z * nat.
Local Abbreviation M := (FW (mem mqtt_block)).
Local Abbreviation hP := (hPropI mqtt_block).

(** A message that is published has the length it claims. *)
Definition turn_ok (t : turn) : Prop := match t with TurnPublish _ data length => 0 <= length <= zlen data | TurnWait => True end.
#[export] Instance turn_ok_dec t : Decision (turn_ok t).
Proof. destruct t; apply _. Defined.

(** A context without a connection, [n] connections were not given back. *)
Definition between (c : MQTTCtx) (v : mqtt_static) (l : history) (n : nat) : hP :=
  objects c v l ∗ lost (3 * n) ∗ ⟨ conf c ∧ phase_of l = Some Idle ∧ started l = (closed l + n)%nat ⟩.
Definition connected (c : MQTTCtx) (v : mqtt_static) (l : history) (n : nat) : hP :=
  objects c v l ∗ connection c ∗ lost (3 * n) ∗ ⟨ linked c ∧ phase_of l = Some Online ∧ started l = (closed l + S n)%nat ⟩.

Lemma wp_connect_round c v l n (Φ : option unit → hP) :
  ⊢ between c v l n -∗
    (∀ c' l' n', connected c' v l' n' -∗ ⟨ started l' = S (started l) ⟩ -∗ Φ (Some tt)) ∧
    (∀ c' l' n' e, between c' v (l' ++ [e]) n' -∗
       ⟨ started l' = S (started l) ∧ ev_request e = Delay 2000 ∧ l `prefix_of` l' ∧ ¬ accepts answer l ⟩ -∗ Φ None) -∗
    wp false (connect_round answer true) Φ.
Proof.
  iIntros "((C & V & L) & J & %H) K". destruct H as (Hc & Hp & Hn). unfold connect_round. wp_head.
  iApply (wp_conn answer c l true with "C L"); [done..|]. iIntros (rc c2 l2) "C L B %H". destruct H as (Hc2 & Hp2 & Hs2 & Hcl2 & Hpre & Ha).
  change MQTT_CODE_SUCCESS with 0. revert Hp2. destruct (rc =? 0) eqn:E; intros Hp2.
  - wp_return. iDestruct "K" as "[K _]". iApply ("K" $! c2 l2 n with "[C V L B J]"); [|by iPureIntro]. iFrame. iPureIntro. split_and!; [done..|lia].
  - wp_head. iApply (wp_disconn answer c2 l2 with "C L B"); [done..|]. iIntros (rc' c3 l3 k) "C L J' %H". destruct H as (Hc3 & Hp3 & Hs3 & Hk & Hpre').
    wp_ask "L". wp_return. iDestruct (lost_app with "J J'") as "J". replace (3 * n + 3 * k)%nat with (3 * (n + k))%nat by lia. iDestruct "K" as "[_ K]".
    iApply ("K" $! c3 l3 (n + k)%nat with "[$C $V $L $J]"); iPureIntro.
    + split_and!; [done|by erewrite phase_snoc by exact Hp3|]. rewrite started_snoc, closed_snoc. cbn. lia.
    + split_and!; [lia|done|by etrans|]. intros Hacc. specialize (Ha Hacc). lia.
Qed.

Definition connecting_state (v : mqtt_static) : mqtt_static := set_state STATE_DISCONNECT v.
Definition connected_state (v : mqtt_static) : mqtt_static := set_state STATE_CONNECT (connecting_state v).

(** Connecting: what holds between the rounds, and what holds behind the last one. *)
Lemma wp_connect_with rounds c v l n (Ψ : option unit → hP) (Φ : option unit → hP) :
  phase_of l = Some Idle → started l = (closed l + n)%nat →
  (∀ c, between c (connecting_state v) l n ⊢ wp false (attempts rounds (connect_round answer true)) Ψ) →
  (Ψ None ⊢ Φ None) →
  (Ψ (Some tt) ⊢ ∃ c l n, connected c (connecting_state v) l n ∗ (connected c (connected_state v) l n -∗ Φ (Some tt))) →
  objects c v l ∗ lost (3 * n) ⊢ wp false (uc_mqtt_connect answer rounds true) Φ.
Proof.
  iIntros (Hp Hn Hb HN HS) "((C & V & L) & J)". unfold uc_mqtt_connect, mqtt_init_ctx. wp_mod "V". cbn [negb]. wp_mod "C". wp_mod "C". wp_head.
  iApply (wp_wand with "[C V L J]"); [iApply Hb; iFrame; by iPureIntro|]. iIntros ([[]|]) "P".
  - iDestruct (HS with "P") as "(%c1 & %l1 & %n1 & ((C & V & L) & B & J & H) & K)". wp_mod "V". wp_return. iApply "K". iFrame.
  - wp_return. by iApply HN.
Qed.

Lemma wp_connect_keeps rounds c v l n :
  ids_ok v → phase_of l = Some Idle → started l = (closed l + n)%nat →
  objects c v l ∗ lost (3 * n) ⊢
    wp false (uc_mqtt_connect answer rounds true) (λ r, match r with Some _ => ∃ c l n, online_with c (connected_state v) l n | None => idle end).
Proof.
  intros Hi Hp Hn. apply (wp_connect_with _ _ _ _ _
    (λ r, match r with Some _ => ∃ c l n, connected c (connecting_state v) l n | None => ∃ c l n, between c (connecting_state v) l n end)%I); [done..| | |].
  - intros c1. iIntros "B". iApply (wp_attempts _ _ _ (∃ c l n, between c (connecting_state v) l n)%I with "[B]"); [|by iExists _, _, _].
    clear. iIntros "(%c & %l & %n & B)". iApply (wp_connect_round with "B"). iSplit.
    + iIntros (c' l' n') "B _". by iExists _, _, _.
    + iIntros (c' l' n' e) "B _". by iExists _, _, _.
  - iIntros "(%c1 & %l1 & %n1 & O & J & %H)". iExists _, _, _, n1. iFrame. iPureIntro. destruct H as (_ & H1 & H2). by split_and!.
  - iIntros "(%c1 & %l1 & %n1 & B)". iExists c1, l1, n1. iFrame "B". iIntros "(O & B & J & %H)". iExists _, _, n1. iFrame. iPureIntro.
    destruct H as (Hc1 & H1 & H2). split; [done|]. by split_and!.
Qed.

Lemma wp_uc_mqtt_connect rounds :
  idle ⊢ wp false (uc_mqtt_connect answer rounds true) (λ r, match r with Some _ => online | None => idle end).
Proof.
  iIntros "(%c & %v & %l & %n & O & J & %H)". destruct H as (Hi & _ & Hp & Hn).
  iApply (wp_wand with "[O J]"); [iApply (wp_connect_keeps rounds c v l n); [done..|iFrame]|].
  iIntros ([[]|]) "P"; [|done]. iDestruct "P" as "(%c1 & %l1 & %n1 & P)". by iExists _, _, _, _.
Qed.

Lemma wp_serve rounds ts :
  Forall turn_ok ts → online ⊢ wp false (serve answer rounds ts) (λ over : bool, if over then ending else online).
Proof.
  induction 1 as [|t ts Ht _ IH]; [iIntros "O"; cbn [serve]; by wp_return|]. iIntros "O". cbn [serve].
  assert (online ⊢ wp false (serve_turn answer rounds t) (λ over : bool, if over then ending else online)) as Hturn.
  { iIntros "O". destruct t as [topic data len|]; cbn [serve_turn]; wp_head.
    - iApply (wp_wand with "[O]"); [by iApply wp_publish|]. iIntros (r) "O". by wp_return.
    - iApply (wp_wand with "[O]"); [by iApply wp_wait_msg|]. iIntros ([[]|]) "O"; by wp_return. }
  wp_head. iApply (wp_wand with "[O]"); [by iApply Hturn|]. iIntros ([]) "O"; [by wp_return|]. by iApply IH.
Qed.

(** What a connection leaves behind: a thread while it is served. *)
Definition left_by (r : task_result) : hP :=
  match r with
  | NoNetcard | Connecting | Over => idle
  | Serving => online ∗ ∃ t n, thread_at n t
  | NoThread => False
  end.

Lemma wp_one_connection rounds ts :
  Forall turn_ok ts → idle ⊢ wp false (one_connection answer rounds ts) left_by.
Proof.
  iIntros (Hts) "I". unfold one_connection. wp_head. iApply (wp_wand with "[I]"); [by iApply wp_uc_mqtt_connect|].
  iIntros ([[]|]) "I"; [|by wp_return]. wp_head. iApply (wp_wand with "[I]"); [by iApply wp_subscribe|]. iIntros (rc) "O".
  wp_head. iApply wp_create_task. iSplit; [iIntros (t) "T"|by iIntros (t n) "(%Hm & _)"]. cbn [fst snd Z.eqb negb].
  wp_head. iApply (wp_wand with "[O]"); [by iApply wp_serve|]. iIntros ([]) "O"; cbn [negb].
  2: { wp_return. iFrame "O". iExists _, _. iFrame. }
  wp_head. iApply (wp_free_thread with "T").
  wp_head. iApply (wp_wand with "[O]"); [by iApply wp_disconnect_again|]. iIntros ([]) "O".
  wp_head. iApply (wp_wand with "[O]"); [by iApply wp_pause|]. iIntros (a) "I". by wp_return.
Qed.

Lemma wp_connections rounds tss :
  Forall (Forall turn_ok) tss → idle ⊢ wp false (connections answer rounds tss) left_by.
Proof.
  induction 1 as [|ts tss Hts _ IH]; [iIntros "I"; cbn [connections]; by wp_return|]. iIntros "I". cbn [connections]. wp_head.
  iApply (wp_wand with "[I]"); [by iApply wp_one_connection|]. iIntros ([]) "I"; [by wp_return..|]. by iApply IH.
Qed.

(** What is asked between two connections. *)
Lemma wp_idle_ask r (Φ : Z * nat → hP) :
  match r with FindDevice _ | LinkUp | Delay _ => True | _ => False end →
  ⊢ idle -∗ (∀ a, idle -∗ Φ a) -∗ wp false (ask answer r) Φ.
Proof.
  iIntros (Hr) "(%c & %v & %l & %n & (C & V & L) & J & %H) K". wp_ask "L". iApply "K". iExists c, v, _, n. iFrame. iPureIntro.
  destruct H as (Hi & Hst & Hp & Hn). split_and!; [done..| |]; [|rewrite started_snoc, closed_snoc; destruct r; done || (cbn; lia)].
  erewrite phase_snoc by exact Hp. by destruct r.
Qed.
Lemma wp_find_netcard rounds name : idle ⊢ wp false (uc_find_netcard answer rounds name) (λ _, idle).
Proof.
  iIntros "I". unfold uc_find_netcard, ask_rc. destruct name as [[|b name]|]; [by wp_return| |by wp_return].
  wp_head. iApply (wp_idle_ask with "I"); [done|]. iIntros (a) "I". wp_head. iApply (wp_idle_ask with "I"); [done|].
  iIntros (d) "(%c & %v & %l & %n & (C & V & L) & J & %H)". wp_return. wp_mod "V".
  iAssert idle with "[C V L J]" as "I"; [iExists c, _, l, n; iFrame; by iPureIntro|]. destruct (_ =? NULL); [by wp_return|].
  iApply (wp_mono _ _ (λ r, match r with Some _ => idle | None => idle end)); [by intros [?|]|]. iApply (wp_attempts with "I").
  iIntros "I". wp_head. iApply (wp_idle_ask with "I"); [done|]. iIntros (a1) "I". wp_return. destruct (negb _); [by wp_return|].
  wp_head. iApply (wp_idle_ask with "I"); [done|]. iIntros (a2) "I". by wp_return.
Qed.

Lemma wp_passthrough_manager_task rounds tss :
  Forall (Forall turn_ok) tss → idle ⊢ wp false (passthrough_manager_task answer rounds tss) left_by.
Proof.
  iIntros (Hts) "I". unfold passthrough_manager_task. wp_head.
  iApply (wp_mono _ _ (λ r, match r with Some _ => idle | None => idle end)).
  { intros [[]|]; iIntros "I"; [by iApply wp_connections|by wp_return..]. }
  iApply (wp_attempts with "I"). iIntros "I". unfold find_round. wp_head.
  iApply (wp_wand with "[I]"); [by iApply wp_find_netcard|]. iIntros (r) "I". wp_return. by destruct r as [rc|]; [destruct (rc =? 0)|].
Qed.

(** ** Counting blocks *)

Definition exactly (n : nat) : hP := HProp (λ h, size h = n).
Lemma exactly_sep n k : exactly n ∗ exactly k ⊢ exactly (n + k).
Proof.
  apply entails_of. intros h (h1 & h2 & -> & Hd & H1 & H2). cbn in *. rewrite map_size_disj_union by done. lia.
Qed.
Lemma exactly_one p (b : mqtt_block) : p ↦ b ⊢ exactly 1.
Proof. apply entails_of. intros h [-> _]. cbn. apply map_size_singleton. Qed.
Lemma exactly_emp : emp ⊢ exactly 0.
Proof. apply entails_of. by intros h ->. Qed.
Lemma exactly_leaked n : lost n ⊢ exactly n.
Proof.
  induction n as [|n IH]; [apply exactly_emp|]. cbn [lost]. iIntros "[(%p & %b & H) J]". iApply (exactly_sep 1 n). iSplitL "H"; [by iApply exactly_one|by iApply IH].
Qed.
Lemma exactly_objects c v l : objects c v l ⊢ exactly 3.
Proof.
  iIntros "(C & V & L)". iApply (exactly_sep 1 2). iSplitL "C"; [by iApply exactly_one|]. iApply (exactly_sep 1 1). iSplitL "V"; by iApply exactly_one.
Qed.
Lemma exactly_connection c : connection c ⊢ exactly 3.
Proof. iIntros "B". iApply (exactly_leaked 3). by iApply connection_leaked. Qed.

(** The history in memory. *)
Definition remembers (l : history) : hP := HProp (λ h, h !! outside = Some (BHistory l)).
Lemma remembers_l l P Q : (P ⊢ remembers l) → P ∗ Q ⊢ remembers l.
Proof. intros [H]. apply entails_of. intros h (h1 & h2 & -> & Hd & HP & _). apply lookup_union_Some_l. by apply H. Qed.
Lemma remembers_r l P Q : (Q ⊢ remembers l) → P ∗ Q ⊢ remembers l.
Proof. intros [H]. apply entails_of. intros h (h1 & h2 & -> & Hd & _ & HQ). apply lookup_union_Some_r; [done|]. by apply H. Qed.
Lemma remembers_objects c v l : objects c v l ⊢ remembers l.
Proof. do 2 apply remembers_r. apply entails_of. intros h [-> _]. apply lookup_singleton_eq. Qed.

(** Memory holds three static objects, three blocks for each connection that was
    started and not closed, and two for the thread of one that is served. *)
Definition phase_after (r : task_result) : phase := match r with Serving | NoThread => Online | _ => Idle end.
Definition thread_blocks (r : task_result) : nat := match r with Serving => 2 | _ => 0 end.
Definition accounted (r : task_result) (h : gmap Z mqtt_block) : Prop :=
  r ≠ NoThread ∧ ∃ l, h !! outside = Some (BHistory l) ∧ phase_of l = Some (phase_after r) ∧
    (closed l <= started l)%nat ∧ size h = (3 + 3 * (started l - closed l) + thread_blocks r)%nat.

Definition tally (r : task_result) : hP :=
  ∃ l n, (remembers l ∧ exactly (3 + 3 * n + thread_blocks r)) ∗ ⟨ phase_of l = Some (phase_after r) ∧ started l = (closed l + n)%nat ⟩.
Lemma tally_idle r : phase_after r = Idle → thread_blocks r = 0%nat → idle ⊢ tally r.
Proof.
  iIntros (Hp Ht) "(%c & %v & %l & %n & O & J & %H)". iExists l, n. rewrite Hp, Ht, Nat.add_0_r. destruct H as (_ & _ & H1 & H2). iSplitL; [|by iPureIntro].
  iSplit.
  - iApply (remembers_l l (objects c v l) (lost (3 * n))); [apply remembers_objects|iFrame].
  - iApply exactly_sep. iSplitL "O"; [by iApply exactly_objects|by iApply exactly_leaked].
Qed.
Lemma tally_serving : left_by Serving ⊢ tally Serving.
Proof.
  iIntros "[(%c & %v & %l & %n & O & B & J & %H) (%t & %k & %st & T & S)]". iExists l, (S n). destruct H as (_ & _ & _ & H1 & H2).
  iSplitL; [|by iPureIntro]. iSplit.
  - iApply (remembers_l l (objects c v l) (connection c ∗ lost (3 * n) ∗ t ↦ BThread st ∗ st ↦ BStack k)); [apply remembers_objects|iFrame].
  - cbn [thread_blocks]. replace (3 + 3 * S n + 2)%nat with (3 + (3 + (3 * n + (1 + 1))))%nat by lia.
    iApply exactly_sep. iSplitL "O"; [by iApply exactly_objects|]. iApply exactly_sep. iSplitL "B"; [by iApply exactly_connection|].
    iApply exactly_sep. iSplitL "J"; [by iApply exactly_leaked|]. iApply exactly_sep. iSplitL "T"; by iApply exactly_one.
Qed.
Lemma left_tally r : left_by r ⊢ tally r.
Proof. destruct r; [by apply tally_idle..|iIntros "[]"|apply tally_serving|by apply tally_idle]. Qed.

Lemma left_accounted r h : holds (left_by r) h → accounted r h.
Proof.
  intros H. split; [by destruct r|]. destruct (entails_holds _ _ (left_tally r) h H) as (l & n & h1 & h2 & -> & _ & [Hl Hn] & [HE [Hp Hs]]).
  cbn in HE, Hl, Hn. rewrite HE, (right_id_L ∅ (∪)). exists l. split_and!; [done|done|lia|]. change (size h1 = 3 + 3 * n + thread_blocks r)%nat in Hn. lia.
Qed.

Lemma boot_objects : holds (objects zero_ctx boot_static [] ∗ lost (3 * 0))%I (blocks (boot [])).
Proof.
  exists (blocks (boot [])), ∅. split_and!; [by rewrite (right_id_L ∅ (∪))|apply map_disjoint_empty_r| |done].
  exists {[mqttCtx := BCtx zero_ctx]}, {[statics := BStatic boot_static; outside := BHistory []]}.
  split_and!; [done|by apply map_disjoint_singleton_l_2|done|].
  exists {[statics := BStatic boot_static]}, {[outside := BHistory []]}. split_and!; try done; by apply map_disjoint_singleton_l_2.
Qed.
Lemma boot_wf oks : mem_wf (boot oks).
Proof. split; [done|]. intros p [b Hb]. apply elem_of_dom_2 in Hb. cbn in Hb. unfold mqttCtx, statics, outside in Hb. cbn. set_unfold. lia. Qed.

End Task.
