(* ===== verification/MqttLive.v ===== *)
(** * The MQTT connection: progress and its limits

    The client connects once the server can be reached, and pings in time; the places
    where a connection's memory is lost or used after it was freed. *)

From stdpp Require Import strings.
From S2P Require Import Prelude SepLog Threads Mqtt MqttProps.
From S2P Require NetPass.
#[local] Set Warnings "-register-all".
Local Open Scope fw_scope.

(** ** Connecting *)

Section Reach.
Variable answer : history → mqtt_request → Z * nat.
Local Abbreviation hP := (hPropI mqtt_block).

(** How many pauses it takes until the server can be reached, for good. *)
Variable patience : history → nat.
Hypothesis patience_falls : ∀ l e, (patience (l ++ [e]) ≤ patience l)%nat.
Hypothesis patience_pause : ∀ l e, ev_request e = Delay 2000 → (patience (l ++ [e]) ≤ patience l - 1)%nat.
Hypothesis patience_over : ∀ l r, patience l = 0%nat → connects r (answer l r).1.

Lemma patience_prefix l l' : l `prefix_of` l' → (patience l' ≤ patience l)%nat.
Proof using patience_falls.
  intros [k ->]. induction k as [|e k IH] using rev_ind; [by rewrite app_nil_r|]. rewrite (assoc_L (++)). etrans; [apply patience_falls|exact IH].
Qed.
Lemma patience_accepts l : patience l = 0%nat → accepts answer l.
Proof using patience_falls patience_over. intros H l' r Hl. apply patience_over. apply patience_prefix in Hl. lia. Qed.

Lemma wp_rounds_end rounds : ∀ c v l n,
  (patience l < rounds)%nat →
  between c v l n ⊢ wp false (attempts rounds (connect_round answer true))
    (λ r, match r with
          | Some _ => ∃ c' l' n', connected c' v l' n' ∗ ⟨ (started l' ≤ started l + S (patience l))%nat ⟩
          | None => False end).
Proof using patience_falls patience_over patience_pause.
  induction rounds as [|rounds IH]; intros c v l n Hl; [lia|]. iIntros "B". cbn [attempts]. wp_head.
  iApply (wp_connect_round with "B"). iSplit.
  - iIntros (c' l' n') "B %Hs". wp_return. iExists c', l', n'. iFrame. iPureIntro. lia.
  - iIntros (c' l' n' e) "B %H". destruct H as (Hs & He & Hpre & Ha). pose proof (patience_prefix _ _ Hpre) as Hp.
    pose proof (patience_pause l' e He) as Hd. assert (patience l ≠ 0%nat) as Hz by (intros Hz; by apply Ha, patience_accepts).
    iApply (wp_wand with "[B]"); [iApply (IH c' v (l' ++ [e]) n' with "B"); lia|]. iIntros ([[]|]) "P"; [|done].
    iDestruct "P" as "(%c2 & %l2 & %n2 & B & %H2)". iExists c2, l2, n2. iFrame "B". iPureIntro. rewrite started_snoc in H2.
    assert (is_resolve e = false) as Er by (unfold is_resolve; by rewrite He). rewrite Er in H2. lia.
Qed.

End Reach.

(** ** Keeping alive *)

Section Clock.
Variable answer : history → mqtt_request → Z * nat.
Local Abbreviation hP := (hPropI mqtt_block).
Local Abbreviation event l r := {| ev_request := r; ev_rc := (answer l r).1; ev_pos := (answer l r).2 |}.
Local Abbreviation asked l r := (l ++ [event l r]).

(** The time in ticks, of which the system shows the low 32 bits; a step takes [d] at most. *)
Variable now : history → Z.
Variable d : Z.
Hypothesis clock_shown : ∀ l, tick answer l = u32 (now l).
Hypothesis clock_runs : ∀ l e, now l <= now (l ++ [e]) <= now l + d.

(** The time at which the test decided for a ping that follows in the history. *)
Definition pinged (l : history) (T : Z) : Prop :=
  ∃ l1 e1 e2 l2, l = l1 ++ e1 :: e2 :: l2 ∧ ev_request e2 = PingReq ∧ T = now l1.
(** The time that is kept is that of the last ping or, before the first, of the begin. *)
Definition watched (l0 : history) (b : Z) (v : mqtt_static) (l : history) : Prop :=
  start_flag v ≠ 1 ∧ ∃ T, last_tick v = u32 T ∧ now l0 <= T <= now l ∧ now l - T <= b ∧ (T <= now l0 + d ∨ pinged l T).

Lemma elapsed_is T t : 0 <= t - T < 2 ^ 32 → elapsed (u32 T) (u32 t) = t - T.
Proof.
  intros H. assert (u32 (u32 t - u32 T) = t - T) as E.
  { unfold u32. rewrite <- Zminus_mod. apply Z.mod_small. lia. }
  unfold elapsed. destruct (_ >=? _); [exact E|]. rewrite <- E. unfold u32 at 1 4. replace (0xffffffff - u32 T + u32 t + 1) with (u32 t - u32 T + 1 * 2 ^ 32) by lia.
  apply Z_mod_plus_full.
Qed.

Lemma watched_step l0 b v l e : watched l0 b v l → watched l0 (b + d) v (l ++ [e]).
Proof using clock_runs.
  intros (Hs & T & Ht & Hr & Hb & Hp). pose proof (clock_runs l e). split; [done|]. exists T. split_and!; [done|lia|lia|lia|].
  destruct Hp as [?|(l1 & e1 & e2 & l2 & -> & H2 & H3)]; [by left|right]. exists l1, e1, e2, (l2 ++ [e]). split_and!; [|done|done].
  by rewrite <- (assoc_L (++)).
Qed.
Lemma watched_mono l0 b b' v l : b <= b' → watched l0 b v l → watched l0 b' v l.
Proof. intros H (Hs & T & Ht & Hr & Hb & Hp). split; [done|]. exists T. split_and!; [done|lia|lia|lia|done]. Qed.

Lemma kept_alive_watched l0 b v l :
  0 <= d → b < 2 ^ 32 → watched l0 b v l → watched l0 (30000 + 2 * d) (kept_alive answer v l).1 (kept_alive answer v l).2.
Proof using clock_runs clock_shown.
  intros Hd Hb Hw. pose proof Hw as (Hs & T & Ht & Hr & HT & Hp). unfold kept_alive, begun. rewrite (proj2 (Z.eqb_neq _ _) Hs).
  rewrite Ht, clock_shown, elapsed_is by lia. set (l1 := asked l TickGet). destruct (now l - T >? 30000) eqn:E; cbn [fst snd].
  - assert (∀ e, now l1 <= now (l1 ++ [e]) <= now l1 + d) as H1 by (intros; apply clock_runs).
    pose proof (H1 (event l1 TickGet)) as H2. set (l2 := asked l1 TickGet) in *. pose proof (clock_runs l2 (event l2 PingReq)) as H3.
    pose proof (clock_runs l (event l TickGet)) as H4. fold l1 in H4. split; [done|]. exists (now l1). split_and!; [apply clock_shown|lia|lia|lia|].
    right. exists l1, (event l1 TickGet), (event l2 PingReq), []. split_and!; [unfold l2; by rewrite <- (assoc_L (++))|done|done].
  - apply watched_mono with (30000 + d); [lia|]. apply watched_step. split; [done|]. exists T. split_and!; [done|lia|lia|lia|done].
Qed.

(** A round of the loop, from the first on. *)
Definition attended (l0 : history) (v : mqtt_static) (l : history) : Prop :=
  (start_flag v = 1 ∧ l = l0) ∨ watched l0 (30000 + 2 * d) v l.
Lemma waited_watched l0 v l :
  0 <= d → 30000 + 3 * d < 2 ^ 32 → attended l0 v l → wait_rc answer l = MQTT_CODE_SUCCESS →
  watched l0 (30000 + 2 * d) (waited answer v l).1 (waited answer v l).2.
Proof using clock_runs clock_shown.
  intros Hd Hb Ha Hrc. unfold waited. rewrite Hrc. cbn [Z.eqb MQTT_CODE_SUCCESS]. destruct Ha as [[Hs ->]|Hw].
  - set (l1 := asked l0 (WaitMessage 1000)).
    assert (kept_alive answer v l1 = kept_alive answer (set_tick (tick answer l1) 0 v) (asked l1 TickGet)) as ->.
    { unfold kept_alive, begun at 1. rewrite Hs. cbn [Z.eqb]. done. }
    apply kept_alive_watched with d; [done|lia|]. pose proof (clock_runs l0 (event l0 (WaitMessage 1000))) as H1. fold l1 in H1.
    pose proof (clock_runs l1 (event l1 TickGet)) as H2. split; [done|]. exists (now l1). split_and!; [apply clock_shown|lia|lia|lia|left; lia].
  - apply kept_alive_watched with (30000 + 2 * d + d); [done|lia|]. by apply watched_step.
Qed.

Lemma kept_alive_prefix v l : l `prefix_of` (kept_alive answer v l).2.
Proof.
  unfold kept_alive, begun. destruct (start_flag v =? 1); cbv beta iota zeta; destruct (_ >? 30000); cbn [snd]; by repeat apply prefix_app_r.
Qed.
Lemma waited_prefix v l : l `prefix_of` (waited answer v l).2.
Proof.
  unfold waited. destruct (_ =? _); [|by apply prefix_app_r]. etrans; [|apply kept_alive_prefix]. by apply prefix_app_r.
Qed.

(** One more round of the loop that waits. *)
Lemma wp_wait_round l0 c v l n (P : mqtt_static → history → Prop) :
  l0 `prefix_of` l → (wait_rc answer l = MQTT_CODE_SUCCESS → P (waited answer v l).1 (waited answer v l).2) →
  online_with c v l n ⊢ wp false
    (rc <-- mqttclient_waitmessage answer mqttCtx 1000;; fret (if rc =? MQTT_CODE_SUCCESS then None else Some rc))
    (λ r, match r with
          | None => ∃ c v l n, online_with c v l n ∗ ⟨ l0 `prefix_of` l ∧ P v l ⟩
          | Some _ => ∃ c v l n, objects c v l ∗ connection c ∗ lost (3 * n) ∗ ⟨ linked c ∧ in_phase Ending STATE_CONNECT (S n) v l ⟩
          end).
Proof.
  iIntros (Hpre HP) "((C & V & L) & B & J & %H)". destruct H as (Hc & Hp). wp_head.
  iApply (wp_waitmessage answer c v l with "C V L B"); [done|]. iIntros (c') "C V L B %Hc'". wp_return. pose proof (waited_phase answer v l (S n) Hp) as Hw.
  destruct (wait_rc answer l =? MQTT_CODE_SUCCESS) eqn:E; iExists c', _, _, n; iFrame; iPureIntro; [|done]. split; [done|].
  split; [etrans; [exact Hpre|apply waited_prefix]|]. apply HP. by apply Z.eqb_eq.
Qed.

Definition connect_and_wait (rounds k : nat) : FW (mem mqtt_block) (option (option unit)) :=
  (c <-- uc_mqtt_connect answer rounds true;;
   match c with None => fret None | Some _ => r <-- uc_mqtt_wait_msg answer k;; fret (Some r) end)%fw.

End Clock.

(** ** Witnesses *)

(** A server that accepts everything, on a system that counts a second for each event. *)
Definition good_answer (l : history) (r : mqtt_request) : Z * nat :=
  match r with SockSend b => (zlen b, 0%nat) | TickGet => (u32 (1000 * zlen l), 0%nat)
  | FindDevice _ | LinkUp => (1, 0%nat) | _ => (0, 0%nat) end.
(** One that waits for messages time out, and then fail. *)
Definition leaving_answer (l : history) (r : mqtt_request) : Z * nat :=
  match r with WaitMessage _ => (if zlen l <? 12 then MQTT_CODE_ERROR_TIMEOUT else MQTT_CODE_ERROR_NETWORK, 0%nat) | _ => good_answer l r end.

(** Two connections that are served and lost. *)
Lemma demo_task :
  match passthrough_manager_task leaving_answer 1 [[TurnPublish [116] [49; 50] 2; TurnWait; TurnWait; TurnWait]; [TurnWait]] (boot []) with
  | Ok (Over, s) => size (blocks s) = 3%nat
  | _ => False
  end.
Proof. vm_compute. reflexivity. Qed.


Definition pauses (l : history) : nat := length (List.filter (λ e, match ev_request e with Delay 2000 => true | _ => false end) l).
Definition late_answer (l : history) (r : mqtt_request) : Z * nat :=
  if Nat.leb 3 (pauses l) then (0, 0%nat) else match r with Connect _ => (5, 0%nat) | SockSend b => (zlen b, 0%nat) | _ => (0, 0%nat) end.
Lemma pauses_snoc l e : pauses (l ++ [e]) = (pauses l + match ev_request e with Delay 2000 => 1 | _ => 0 end)%nat.
Proof.
  unfold pauses. rewrite List.filter_app, length_app. cbn [List.filter].
  destruct (ev_request e) as [| | |[|[]|]| | | | | | | | | | |]; try done; repeat (case_match; try done).
Qed.



(** ** Where memory is lost or used after it was freed *)

(** A host name that cannot be resolved: no socket is opened, so the DISCONNECT packet
    cannot be sent, and mqttclient_disconn returns before it frees anything. *)
Definition unresolved_answer (l : history) (r : mqtt_request) : Z * nat :=
  match r with Resolve _ => (202, 0%nat) | _ => good_answer l r end.
Lemma failed_lookups_leak :
  match uc_mqtt_connect unresolved_answer 50 true (boot []) with
  | Ok (None, s) => size (blocks s) = (3 + 3 * 50)%nat
  | _ => False
  end.
Proof. vm_compute. reflexivity. Qed.

(** A server that refuses the account: the connection is freed, but its pointers stay;
    when the next attempt gets no memory, the DISCONNECT packet is written into the
    buffer that was freed. *)
Definition refusing_answer (l : history) (r : mqtt_request) : Z * nat :=
  match r with Connect _ => (5, 0%nat) | _ => good_answer l r end.
Lemma failed_attempt_writes_freed_buffer :
  uc_mqtt_connect refusing_answer 2 true (boot [true; true; true; false]) = Fault NullDeref.
Proof. vm_compute. reflexivity. Qed.

(** The thread that waits changes the state before it disconnects; the task sees the
    state and frees the stack the thread still runs on. *)
Definition stack_race : FW (mem mqtt_block) (connect_state * Z) :=
  (uc_mqtt_connect good_answer 1 true;;;
   t <-- manager_thread_create_task 512;;
   b <-- load t.2;;
   disconnect_begin;;;                             (* the thread *)
   st <-- uc_mqtt_get_state;; free_thread t.2;;;   (* the task *)
   fret (st, match b with BThread a => a | _ => NULL end))%fw.
Lemma stack_freed_in_use :
  match stack_race (boot []) with
  | Ok ((st, stack), s) => st = STATE_DISCONNECT ∧ load stack s = Fault NullDeref
  | Fault _ => False
  end.
Proof. vm_compute. split; reflexivity. Qed.
